(* ===== verification/_CoqProject ===== *)
-Q . S2P
Prelude.v
Spacepackets.v
Pool.v
Scheduler.v
Params.v
Tmtc.v
Helpers.v
Verification.v
SeqCount.v
Events.v
EventMan.v
Services.v
Encoding.v
PusEvents.v
TypedEvents.v
Filestore.v
Cfdp.v
CfdpDest.v
CfdpTransfer.v
Requests.v
TargetedService.v
TargetedFlow.v
TargetedMode.v
PusStack.v
EventHandler.v
TcpServer.v
TcpConnection.v
UdpServer.v
TmSink.v
Eps.v
Pcdu.v
Mgm.v
Devices.v
Executable.v
SimLink.v
Simulator.v
Stm32f3.v
Stm32h7.v
PingFlow.v
