(* ===== verification/Prelude.v ===== *)
(** * sat-rs: a verification library

    sat-rs is a Rust framework for on-board software of satellites.  This library
    models the logic of its core crate, [src/satrs/src], of its example
    application, [src/satrs-example/src], of the simulator of the devices,
    [src/satrs-minisim/src], and of the firmware for two boards,
    [src/embedded-examples], as Rocq functions and proves that it does what its
    users rely on.

    ** The program and its models

    Telecommands and telemetry are packets of bytes.  They are kept in memory
    pools, passed around as pool addresses or vectors on message queues, framed
    for transport, held back by a scheduler until their release time, distributed
    to service handlers, turned into requests to other components and reported on
    by verification and event telemetry.  Files arrive over CFDP.  The example
    adds the servers packets arrive at and leave from, and the tasks of its
    devices.

    - [Prelude] (this file): the result type [res] (a value, an error or a panic)
      and the state monad [st] that stand for Rust's [Result], [?], [unwrap] and
      [&mut], the logic [wp] for computations of [st], machine integers, slices
      and byte order, the tactics and the hint databases.
    - [Spacepackets]: the interface of the [spacepackets] package, which is not
      part of the repository: records for parsed telecommands and created
      telemetry, and classes with the documented laws of time stamps, headers,
      writers and enumerations.  Functions of that package that the code calls
      are parameters of the definitions that use them.
    - [Pool] ([pool.rs]): [StaticPool] is [StaticMemoryPool], [HeaplessPool] is
      [StaticHeaplessMemoryPool], [Guard] are the pool guards.  [PoolProvider]
      is the trait; [PoolSpec] is its contract, a finite map from addresses to
      packets, which the clients below are proved against and both pools meet.
    - [Scheduler] ([pus/scheduler.rs]): [TcMap] is the [BTreeMap] of release
      times, [Sched] the operations of [PusScheduler]; [sched_step] is the step
      relation of all its calls.
    - [Params] ([params.rs]): the parameter types and their byte encodings.
    - [Tmtc] ([queue.rs], [tmtc/mod.rs], senders of [pus/mod.rs]): channels of
      the standard library, the sender traits and the sender with a shared pool.
    - [Helpers] ([lib.rs], [tmtc/tm_helper.rs], [tmtc/mod.rs]): the validators of
      IDs, the helper for telemetry with short time stamps, the senders of CCSDS
      packets and those on channels of [crossbeam].
    - [Verification] ([pus/verification.rs]): request IDs, tokens whose type is
      the state of the telecommand, [ReportCreator], [Reporter], [TestReporter].
    - [SeqCount] ([seq_count.rs]): sequence counters.
    - [Events] ([events.rs]): the packed event IDs of 32 and 16 bits.
    - [EventMan] ([event_man.rs]): [Manager] is [EventManager], over the
      interfaces of its maps and queues and with their default implementations.
    - [Services] ([pus/mod.rs], [pus/scheduler_srv.rs], [pus/test.rs],
      [pus/event_srv.rs]): the telecommand converters, [PusServiceHelper] and the
      handlers of the services 5, 11 and 17, which compose the scheduler, the
      pools, the reporter and the queues.
    - [Encoding] ([encoding/ccsds.rs], [encoding/cobs.rs]): the packet parsers
      and the COBS frame writer.
    - [PusEvents] ([pus/event.rs], [pus/event_man.rs]): the event reports and the
      sets of events whose reporting is switched off.
    - [TypedEvents] ([events.rs], [pus/event_man.rs]): events with their severity
      in their type; [HasSeverity] and [GenericEvent] are the traits.
    - [Filestore] ([cfdp/filestore.rs]): [Native] is [NativeFilestore] on a model
      of files and directories, with both checksums; [VfsSpec] is what the
      CFDP handler relies on.
    - [Cfdp] ([cfdp/mod.rs], [cfdp/user.rs]): timers, configurations, the fault
      handler, transaction IDs and the routing of packets.
    - [CfdpDest] ([cfdp/dest.rs]): [Dest] is [DestinationHandler], every PDU
      handler and step of its state machine; [CfdpTransfer] proves its properties.
    - [Requests] ([request.rs], [mode.rs], [action.rs], [hk.rs], [power.rs],
      [pus/action.rs], [res_code.rs]): target IDs, messages, senders and receivers
      on channels that several components hold, the interfaces of modes and
      actions, power switches.
    - [TargetedService] (active requests of [pus/mod.rs]; [pus/mod.rs],
      [pus/action.rs], [pus/mode.rs], [pus/hk.rs], [requests.rs] and
      [tmtc/tc_source.rs] of the example): [Router] is [GenericRequestRouter],
      [Targeted] is [PusTargetedRequestService], [Action], [ModeService] and
      [HkService] are its converters and reply handlers, [Distributor] is
      [PusTcDistributor] with the telecommand sources.  [TargetedFlow] and
      [TargetedMode] prove their properties; [ReporterLaws], [ReplyHandlerLaws]
      and [ConverterLaws] are the interfaces the proofs go through.
    - [PusStack] ([pus/stack.rs], [pus/test.rs], [pus/event.rs],
      [pus/scheduler.rs] of the example): the wrappers of the services 5, 11 and
      17, the release of telecommands and [Stack], which polls all services;
      [DirectLaws] and [TargetedLaws] are what it relies on.
    - [EventHandler] ([events.rs] of the example): the task of the events, which
      composes the event manager and the event reporting.
    - [TcpServer], [TcpConnection] ([hal/std/tcp_server.rs],
      [tcp_spacepackets_server.rs], [tcp_cobs_server.rs]; [interface/tcp.rs] of
      the example): the generic server over the interfaces of its parser, sender
      and telemetry source, and both instances; the first file has the
      definitions, the second the properties of connections.
    - [UdpServer] ([hal/std/udp_server.rs]; [interface/udp.rs]): the telecommand
      server and both telemetry handlers.
    - [TmSink] ([tmtc/tm_sink.rs]): the sinks all telemetry goes through.
    - [Eps], [Pcdu], [Mgm], [Devices] ([satrs-minisim/src/lib.rs]; [eps/mod.rs],
      [eps/pcdu.rs], [hk.rs], [acs/mgm.rs] and the device threads of [main.rs]):
      the messages to the simulator, the switch and housekeeping helpers, the
      handlers of the power unit and of the magnetometer on their interfaces, and
      both tasks in any interleaving.
    - [Executable] ([executable.rs]): the threads that run one or several tasks.
    - [SimLink] ([interface/sim_client_udp.rs]; [satrs-minisim/src/udp.rs]): the
      UDP client and server between the example and the simulator.
    - [Simulator] ([satrs-minisim/src]): the models of the devices, [handle] with
      their connections, the controller, and [sim_step], the step relation of all
      orders in which events may reach the models; [SimLibLaws] is what the models
      rely on of the discrete-event library.
    - [Stm32f3] ([stm32f3-disco-rtic/src/main.rs]): the tasks and interrupts of the
      firmware with its telemetry queue and serial line; [act] is any of them.
    - [Stm32h7] ([stm32h7-nucleo-rtic/src/main.rs]): the network tasks of the
      firmware with the heapless pool and the channel of telecommands; [step] is any
      of them, and [IpStackLaws] is what they rely on of the network stack.
    - [PingFlow] ([main.rs] of the example): the threads a ping passes, composed of
      the UDP server, the distributor, the test service and the telemetry sink;
      [sys_step] is a step of any of them between two operations on a channel, and
      the turns of the code are made of these steps.

    ** What the theorems show

    - Pools (C1 to C3): every sequence of pool calls behaves like the same calls
      on a finite map; [add] picks the subpool the configuration asks for; the
      heapless pool agrees with the heap-backed one.
    - Scheduler (C4 to C7): schedule and pool stay consistent under every sequence
      of calls of [sched_step], which has all calls of the scheduler; the caller has
      to give a buffered release room for the packets that are due, and to insert
      by address only what is stored and not yet scheduled.  Insertion, release and
      deletion by time window do exactly what they announce, on success and on
      every error.
    - Parameters (C8): encodings are inverse to decodings and respect their
      buffers.
    - Verification (C9): failure reports have their service, subservice and source
      data, or report the buffer that is too small.
    - Event manager (C10): routing refines a reference delivery.
    - Services (C11, C12): each message is consumed once and parsed from its
      own bytes; each telecommand is executed between a start and a completion
      report, with its effect on the scheduler and the pool.
    - Framing (C13, C14): the parsers terminate and recover exactly the packets
      of the buffer; COBS frames round-trip.
    - Event reports (C15): they are sent exactly for the events that are not
      switched off, with the event and its parameters as data.
    - CFDP (C16 to C19): a file sent in segments to a fresh handler is the file
      that is written; the handler panics only where the code says it is not
      implemented; its state is well formed in every reachable state; a transfer
      whose checksum does not match ends with the expiry of its timer that reaches
      the check limit, and not before.
    - Targeted services (C20 to C25): an active request gets the report of each of
      its replies and leaves with the one that ends it; requests hold started
      tokens of their own ID; the outcome of the telecommand that was polled;
      timeouts to the nanosecond; a mode command from the distributor to the device
      and back; the distributor serves the right queue, rejects with a report, or
      drops where the code does.
    - PUS stack (C26): the polling loop ends and serves all queues in turn.
    - Event task (C27): what is requested, routed and reported in every period with
      started tokens and parameters that fit.
    - Servers (C28 to C31): every packet of a TCP client whose bursts fit the buffer
      and end with a whole packet is forwarded once and in order, and the first
      client gets the waiting telemetry; a connection ends once its client closes it
      or the server is told to stop, and an idle client keeps it open; UDP datagrams
      are forwarded in order and telemetry goes to the last client.
    - Telemetry sinks (C32): the static path from the pool to the client.
    - Devices (C33 to C35): both handlers refine their specifications over any
      number of periods with the stated arrivals; a commanded mode is reached under
      the stated schedules.
    - Firmware (C36 to C38): all telemetry of the first board is on the line in
      order, with the pauses between packets, and nothing panics under the stated
      arrivals; what a received packet leads to; the way of telecommands through
      the pool of the second board refines its specification, with the interrupt
      configuring the network stack as DHCP tells it.
    - Typed events (C39): the type of an event fixes its severity, for the events the
      constructors and conversions make ([as_mut] can break it).
    - Threads (C40): pings are answered from the socket and back to it, in every
      interleaving of the threads.

    Other theorems of the files (address and event encodings, guards,
    subscriptions, counters, timers, fault handlers, checksums, misplaced PDUs,
    messages and their replies, the release of telecommands, the dynamic sink,
    validators, task executors, the simulator and the link to it, and what happens
    where the code does not do what it means to) are stated without a number.

    ** Conventions and bounds

    A panic is the value [Panic], so a theorem with a result other than [Panic]
    excludes panics.  Unsigned integers are [Z] with explicit truncation
    ([as_u]) and checked arithmetic ([checked_add] panics on overflow, as a debug
    build does); [usize] has 64 bits.  Closures carry their captured state
    explicitly.  Objects shared by several owners, the channels of the event
    manager and of the requests, the telemetry queue of the stack and the pools
    behind locks, are states that are threaded through the calls.  A blocking send
    to a bounded channel is taken to end with the message in the queue.  Instants
    and time stamps that are read from the clock are arguments.  What the
    operating system gives to a call, a connection, a datagram, an error, is the
    next event of a script, and what is sent is a log.  A queue that several
    components only send to is kept per sender; mutexes are not poisoned.  A value
    of type [f32] is a [spec_float] of precision 24 and exponent 128.

    Loops that run on fuel: [spill_loop] of the pools moves to the next subpool in
    every iteration and gets one unit per subpool; the CCSDS parser moves forward
    in every iteration and gets one unit per byte; the checksum loops of the
    filestore read at least a byte or stop and get one unit per byte and one more;
    the messages to the user in a metadata PDU take at least one byte each and get
    one unit per byte; the loop of the PUS stack is guarded by a counter and gets
    500; a TCP connection needs one unit per event of its stream and per packet of
    telemetry and one more; loops that empty a queue, of telemetry, datagrams, requests or replies,
    need one unit per element and one more; a task executor needs one unit per
    round.  The theorems about them show that this is enough.

    ** Not modelled

    The [spacepackets], [cobs], [crc], [crossbeam], [serde_json] and [asynchronix] packages and
    the network stack of the second board are parameters.  Left out as input and
    output or glue: the construction of sockets and threads, log messages, the
    start-up of clocks and pins, and the derive macros, whose output is not part of
    the repository.  The types of [mode_tree.rs] have no operations.  Trait objects
    ([upcast], [Downcast]) repeat what is modelled for the plain traits.  The threads of [main.rs] are composed
    for pings ([PingFlow]) and for the devices ([Devices]); one run of all of them,
    and of the handlers with the simulator over the link, is not. *)

From Stdlib Require Import ZArith Lia Bool.
From stdpp Require Import base list gmap sorting.

Local Open Scope Z_scope.

(** ** Fallible and stateful computations

    A Rust function of type [Result<A, E>] that may also panic is a value of
    [res E A]; a method on [&mut self] is a computation of [st S E A].  The
    state survives an [Err]: what the method wrote before the error stays
    written. *)
Inductive res (E A : Type) : Type :=
| Ok (a : A)
| Err (e : E)
| Panic.

Arguments Ok {E A} a.
Arguments Err {E A} e.
Arguments Panic {E A}.

Definition res_bind {E A B : Type} (r : res E A) (f : A -> res E B) : res E B :=
  match r with
  | Ok a => f a
  | Err e => Err e
  | Panic => Panic
  end.

Definition res_map {E A B : Type} (f : A -> B) (r : res E A) : res E B :=
  res_bind r (fun a => Ok (f a)).

(** [Result::map_err]. *)
Definition map_err {E F A : Type} (f : E -> F) (r : res E A) : res F A :=
  match r with
  | Ok a => Ok a
  | Err e => Err (f e)
  | Panic => Panic
  end.

(** [Option::unwrap], [Result::unwrap] and [Result::expect]. *)
Definition unwrap {E A : Type} (o : option A) : res E A :=
  match o with Some a => Ok a | None => Panic end.

Definition expect {E F A : Type} (r : res E A) : res F A :=
  match r with Ok a => Ok a | _ => Panic end.

(** [Option::ok_or]. *)
Definition ok_or {E A : Type} (o : option A) (e : E) : res E A :=
  match o with Some a => Ok a | None => Err e end.

Definition is_ok {E A : Type} (r : res E A) : bool :=
  match r with Ok _ => true | _ => false end.

Definition is_err {E A : Type} (r : res E A) : bool :=
  match r with Err _ => true | _ => false end.

Definition st (S E A : Type) : Type := S -> res E A * S.

Definition ret {S E A : Type} (a : A) : st S E A := fun s => (Ok a, s).

Definition throw {S E A : Type} (e : E) : st S E A := fun s => (Err e, s).

Definition lift {S E A : Type} (r : res E A) : st S E A := fun s => (r, s).

Definition gets {S E A : Type} (f : S -> A) : st S E A := fun s => (Ok (f s), s).

(** A method on [&self] called from a method on [&mut self]. *)
Definition asks {S E A : Type} (f : S -> res E A) : st S E A := fun s => (f s, s).

Definition modify_state {S E : Type} (f : S -> S) : st S E unit :=
  fun s => (Ok tt, f s).

Definition st_bind {S E A B : Type} (m : st S E A) (k : A -> st S E B) : st S E B :=
  fun s =>
    match m s with
    | (Ok a, s') => k a s'
    | (Err e, s') => (Err e, s')
    | (Panic, s') => (Panic, s')
    end.

(** Running a computation and looking at its result, as [match m { .. }] does. *)
Definition attempt {S E F A : Type} (m : st S E A) : st S F (res E A) :=
  fun s =>
    match m s with
    | (Panic, s') => (Panic, s')
    | (r, s') => (Ok r, s')
    end.

(** [m.map_err(f)] on a method call. *)
Definition st_map_err {S E F A : Type} (f : E -> F) (m : st S E A) : st S F A :=
  fun s => let '(r, s') := m s in (map_err f r, s').

(** A method of a field. *)
Definition on_field {H A E B : Type} (get : H -> A) (set : A -> H -> H) (m : st A E B) : st H E B :=
  fun h => let '(r, a) := m (get h) in (r, set a h).

(** A method on one of two objects a function holds. *)
Definition on_fst {S P E A : Type} (m : st S E A) : st (S * P) E A :=
  fun sp => let '(r, s') := m sp.1 in (r, (s', sp.2)).

Definition on_snd {S P E A : Type} (m : st P E A) : st (S * P) E A :=
  fun sp => let '(r, p') := m sp.2 in (r, (sp.1, p')).

Declare Scope rust_scope.
Delimit Scope rust_scope with rs.

Notation "'let?' x ':=' c 'in' k" := (res_bind c (fun x => k))
  (at level 10, x binder, k at level 200) : rust_scope.
Notation "'let*' x ':=' c 'in' k" := (st_bind c (fun x => k))
  (at level 10, x binder, k at level 200) : rust_scope.

Open Scope rust_scope.

(** ** Machine integers

    An unsigned integer of width [w] is a [Z] in [[0, 2^w)].  [usize] has 64
    bits.  Additions are those of a build with overflow checks: out of range
    is a panic. *)
Definition u8_max : Z := 2 ^ 8 - 1.
Definition u16_max : Z := 2 ^ 16 - 1.
Definition u32_max : Z := 2 ^ 32 - 1.
Definition u64_max : Z := 2 ^ 64 - 1.
Definition usize_max : Z := u64_max.

Definition in_u (w v : Z) : Prop := 0 <= v < 2 ^ w.

(** [v as uN]: truncation to the low [w] bits. *)
Definition as_u (w v : Z) : Z := v mod 2 ^ w.

Definition checked_add {E : Type} (w a b : Z) : res E Z :=
  if a + b <? 2 ^ w then Ok (a + b) else Panic.

Definition checked_mul {E : Type} (w a b : Z) : res E Z :=
  if a * b <? 2 ^ w then Ok (a * b) else Panic.

Definition byte (b : Z) : Prop := 0 <= b < 256.

(** Length of a slice as a [usize]. *)
Definition len {A : Type} (l : list A) : Z := Z.of_nat (length l).

(** ** Slices *)

(** [&l[a..b]]. *)
Definition slice {E A : Type} (l : list A) (a b : Z) : res E (list A) :=
  if (0 <=? a) && (a <=? b) && (b <=? len l)
  then Ok (take (Z.to_nat (b - a)) (drop (Z.to_nat a) l))
  else Panic.

(** The buffer after [d] was written over it from position [a]. *)
Definition splice {A : Type} (l : list A) (a : Z) (d : list A) : list A :=
  take (Z.to_nat a) l ++ d ++ drop (Z.to_nat a + length d) l.

(** [l[a..b].copy_from_slice(d)]. *)
Definition copy_into {E A : Type} (l : list A) (a b : Z) (d : list A) : res E (list A) :=
  let? old := slice l a b in
  if decide (length old = length d) then Ok (splice l a d) else Panic.

(** [l[i]] *)
Definition index {E A : Type} (l : list A) (i : Z) : res E A :=
  if (0 <=? i) && (i <? len l) then unwrap (l !! Z.to_nat i) else Panic.

(** [l[i] = x] *)
Definition set_index {E A : Type} (l : list A) (i : Z) (x : A) : res E (list A) :=
  if (0 <=? i) && (i <? len l) then Ok (<[Z.to_nat i := x]> l) else Panic.

(** ** Big-endian byte strings: [to_be_bytes] and [from_be_bytes] *)
Fixpoint to_be_bytes (n : nat) (v : Z) : list Z :=
  match n with
  | O => []
  | S n' => (v / 2 ^ (8 * Z.of_nat n')) mod 256 :: to_be_bytes n' v
  end.

Fixpoint from_be_bytes (l : list Z) : Z :=
  match l with
  | [] => 0
  | b :: l' => b * 2 ^ (8 * len l') + from_be_bytes l'
  end.

(** ** Tactics *)

(** Splits the next [if]/[match] of the goal or of a hypothesis, keeping the
    equation. *)
Ltac split_match :=
  match goal with
  | |- context [match ?x with _ => _ end] =>
      lazymatch x with
      | context [match _ with _ => _ end] => fail
      | _ => destruct x eqn:?
      end
  | H : context [match ?x with _ => _ end] |- _ =>
      lazymatch x with
      | context [match _ with _ => _ end] => fail
      | _ => destruct x eqn:?
      end
  end.

(** Unfolds the plumbing of the two monads. *)
Ltac run_monad :=
  unfold st_bind, res_bind, res_map, ret, throw, lift, gets, asks, modify_state,
    attempt, unwrap, ok_or, map_err, st_map_err, on_fst, on_snd in *; simpl in *.

(** Boolean tests as linear facts, then [lia]. *)
Ltac bool_lia :=
  unfold len, in_u, byte in *;
  rewrite ?andb_true_iff, ?andb_false_iff, ?orb_true_iff, ?orb_false_iff,
    ?negb_true_iff, ?negb_false_iff in *; lia.

Create HintDb satrs.
Create Rewrite HintDb satrs_len.

(** ** Lemmas on lists and slices *)
Section Slices.
Context {A : Type}.
Implicit Types (l d : list A) (a b i : Z).

Lemma len_nonneg l : 0 <= len l.
Proof. unfold len. lia. Qed.

Lemma len_app l d : len (l ++ d) = len l + len d.
Proof. unfold len. rewrite length_app. lia. Qed.

Lemma len_cons (x : A) l : len (x :: l) = 1 + len l.
Proof. unfold len. simpl. lia. Qed.

Lemma len_replicate n (x : A) : len (replicate n x) = Z.of_nat n.
Proof. unfold len. by rewrite length_replicate. Qed.

Lemma length_splice l a d :
  0 <= a -> a + len d <= len l -> length (splice l a d) = length l.
Proof.
  unfold splice, len. intros. rewrite !length_app, length_take, length_drop. lia.
Qed.

Lemma slice_ok {E} l a b :
  0 <= a <= b -> b <= len l ->
  slice (E:=E) l a b = Ok (take (Z.to_nat (b - a)) (drop (Z.to_nat a) l)).
Proof.
  intros. unfold slice.
  replace ((0 <=? a) && (a <=? b) && (b <=? len l)) with true by bool_lia. done.
Qed.

Lemma length_slice {E} l a b d :
  slice (E:=E) l a b = Ok d -> len d = b - a /\ 0 <= a /\ b <= len l.
Proof.
  unfold slice. split_match; [|done]. intros [= <-].
  unfold len in *. rewrite length_take, length_drop. bool_lia.
Qed.

Lemma copy_into_ok {E} l a b d :
  0 <= a -> b = a + len d -> b <= len l ->
  copy_into (E:=E) l a b d = Ok (splice l a d).
Proof.
  intros Ha -> Hb. unfold copy_into.
  rewrite slice_ok by (pose proof (len_nonneg d); lia). simpl.
  rewrite decide_True; [done|].
  rewrite length_take, length_drop. unfold len in *. lia.
Qed.

Lemma slice_splice_same {E} l a d :
  0 <= a -> a + len d <= len l ->
  slice (E:=E) (splice l a d) a (a + len d) = Ok d.
Proof.
  intros Ha Hl. pose proof (len_nonneg d).
  rewrite slice_ok; [|lia|unfold len in *; rewrite length_splice; unfold len; lia].
  unfold splice. f_equal.
  rewrite drop_app_length' by (rewrite length_take; unfold len in *; lia).
  rewrite take_app_length' by (unfold len; lia). done.
Qed.

Lemma lookup_splice l a d (i : nat) :
  0 <= a -> a + len d <= len l ->
  splice l a d !! i =
    if decide (a <= Z.of_nat i < a + len d) then d !! (i - Z.to_nat a)%nat else l !! i.
Proof.
  unfold splice, len. intros Ha Hl.
  destruct (decide (Z.of_nat i < a)) as [H1|H1].
  - rewrite decide_False by lia.
    rewrite lookup_app_l by (rewrite length_take; lia).
    rewrite lookup_take_lt by lia. done.
  - rewrite lookup_app_r by (rewrite length_take; lia).
    rewrite length_take. replace (Z.to_nat a `min` length l)%nat with (Z.to_nat a) by lia.
    case_decide.
    + rewrite lookup_app_l by lia. done.
    + rewrite lookup_app_r by lia. rewrite lookup_drop. f_equal. lia.
Qed.

(** Reading a range that a write did not touch. *)
Lemma take_drop_splice_disjoint l a d (x n : nat) :
  0 <= a -> a + len d <= len l ->
  (Z.of_nat (x + n) <= a \/ a + len d <= Z.of_nat x) ->
  take n (drop x (splice l a d)) = take n (drop x l).
Proof.
  intros Ha Hl Hd. apply list_eq. intros i.
  destruct (decide (i < n)%nat).
  - rewrite !lookup_take_lt by done. rewrite !lookup_drop, lookup_splice by done.
    rewrite decide_False; [done|]. unfold len in *. lia.
  - rewrite !lookup_take_ge by lia. done.
Qed.

Lemma take_drop_splice_same l a d :
  0 <= a -> a + len d <= len l ->
  take (length d) (drop (Z.to_nat a) (splice l a d)) = d.
Proof.
  intros Ha Hl. pose proof (slice_splice_same (E:=unit) l a d Ha Hl) as Hs.
  rewrite slice_ok in Hs.
  - injection Hs as Hs. rewrite <- Hs at 3. f_equal. unfold len. lia.
  - pose proof (len_nonneg d). lia.
  - unfold len in *. rewrite length_splice; unfold len; lia.
Qed.

Lemma splice_self l a n :
  0 <= a -> a + Z.of_nat n <= len l ->
  splice l a (take n (drop (Z.to_nat a) l)) = l.
Proof.
  intros Ha Hl. unfold splice. rewrite length_take, length_drop.
  replace (n `min` (length l - Z.to_nat a))%nat with n by (unfold len in *; lia).
  rewrite <- (drop_drop l), take_drop. apply take_drop.
Qed.

Lemma index_ok {E} l i (x : A) :
  0 <= i -> l !! Z.to_nat i = Some x -> index (E:=E) l i = Ok x.
Proof.
  intros Hi Hx. unfold index. pose proof (lookup_lt_Some _ _ _ Hx).
  replace ((0 <=? i) && (i <? len l)) with true by bool_lia. by rewrite Hx.
Qed.

Lemma index_inv {E} l i (x : A) :
  index (E:=E) l i = Ok x -> 0 <= i < len l /\ l !! Z.to_nat i = Some x.
Proof.
  unfold index, unwrap. repeat split_match; try done. intros [= <-].
  split; [bool_lia | done].
Qed.

Lemma set_index_ok {E} l i (x : A) :
  0 <= i < len l -> set_index (E:=E) l i x = Ok (<[Z.to_nat i := x]> l).
Proof.
  intros Hi. unfold set_index.
  replace ((0 <=? i) && (i <? len l)) with true by bool_lia. done.
Qed.

Lemma index_app {E} (pre : list A) x rest : index (E:=E) (pre ++ x :: rest) (len pre) = Ok x.
Proof.
  apply index_ok; [apply len_nonneg|]. unfold len. rewrite Nat2Z.id. by apply list_lookup_middle.
Qed.

Lemma insert_middle (pre : list A) x y rest : <[Z.to_nat (len pre) := y]> (pre ++ x :: rest) = pre ++ y :: rest.
Proof. unfold len. rewrite Nat2Z.id, <- (Nat.add_0_r (length pre)), insert_app_r. done. Qed.

Lemma set_index_app {E} (pre : list A) x y rest :
  set_index (E:=E) (pre ++ x :: rest) (len pre) y = Ok (pre ++ y :: rest).
Proof.
  pose proof (len_nonneg pre). pose proof (len_nonneg rest).
  rewrite set_index_ok by (rewrite len_app, len_cons; lia). by rewrite insert_middle.
Qed.

End Slices.

#[export] Hint Rewrite @len_app @len_cons @len_replicate @length_app @length_take
  @length_drop @length_replicate @length_insert : satrs_len.
#[export] Hint Resolve len_nonneg : satrs.

(** Length goals. *)
Ltac len_lia := autorewrite with satrs_len in *; unfold len in *; simpl in *; lia.

(** ** Buffers filled from the front

    [pre ++ drop (length pre) buf] is the buffer [buf] after [pre] was written to
    its front. *)
Lemma splice_prefix {A} (buf pre d : list A) :
  len pre + len d <= len buf ->
  splice (pre ++ drop (length pre) buf) (len pre) d =
    (pre ++ d) ++ drop (length (pre ++ d)) buf.
Proof.
  intros Hl. unfold splice, len in *. rewrite Nat2Z.id, take_app_length, <- app_assoc.
  f_equal. f_equal. rewrite drop_app_ge by lia. rewrite drop_drop, length_app. f_equal. lia.
Qed.

Lemma splice_full {A} (buf d : list A) : length buf = length d -> splice buf 0 d = d.
Proof. intros Hl. unfold splice. simpl. rewrite drop_ge by lia. apply app_nil_r. Qed.

(** Appending to what is already in the buffer. *)
Lemma copy_into_prefix {E A} (buf pre d : list A) a b :
  a = len pre -> b = a + len d -> b <= len buf ->
  copy_into (E:=E) (pre ++ drop (length pre) buf) a b d =
    Ok ((pre ++ d) ++ drop (length (pre ++ d)) buf).
Proof.
  intros -> -> Hl. pose proof (len_nonneg pre). pose proof (len_nonneg d).
  rewrite copy_into_ok; [by rewrite splice_prefix|done|done|].
  rewrite len_app. unfold len in *. rewrite length_drop. lia.
Qed.

Lemma slice_prefix_len {E A} (buf pre : list A) a b :
  a = len pre -> a <= b -> b <= len buf ->
  exists d, slice (E:=E) (pre ++ drop (length pre) buf) a b = Ok d /\ len d = b - a.
Proof.
  intros -> Hn Hl. pose proof (len_nonneg pre).
  assert (Hs : b <= len (pre ++ drop (length pre) buf)).
  { rewrite len_app. unfold len in *. rewrite length_drop. lia. }
  eexists. split; [apply slice_ok; lia|].
  unfold len in *. rewrite length_take, length_drop. lia.
Qed.

Lemma slice_at {E A} (pre x post : list A) a b :
  a = len pre -> b = a + len x -> slice (E:=E) (pre ++ x ++ post) a b = Ok x.
Proof.
  intros -> ->. pose proof (len_nonneg pre). pose proof (len_nonneg x).
  rewrite slice_ok by (rewrite ?len_app; pose proof (len_nonneg post); lia).
  f_equal. replace (len pre + len x - len pre) with (len x) by lia.
  unfold len. rewrite !Nat2Z.id, drop_app_length, take_app_length. done.
Qed.

Lemma slice_front {E A} (x post : list A) b : b = len x -> slice (E:=E) (x ++ post) 0 b = Ok x.
Proof. intros ->. by apply (slice_at []). Qed.

Lemma slice_back {E A} (pre x : list A) a b :
  a = len pre -> b = a + len x -> slice (E:=E) (pre ++ x) a b = Ok x.
Proof. intros Ha Hb. rewrite <- (app_nil_r x) at 1. by apply slice_at. Qed.

(** ** Lemmas on [filter] with boolean tests *)
Lemma list_filter_all {A} (f : A -> bool) l :
  (forall x, In x l -> f x = true) -> List.filter f l = l.
Proof.
  induction l as [|x l IH]; intros Hf; simpl; [done|].
  rewrite (Hf x) by (by left). f_equal. apply IH. intros y Hy. apply Hf. by right.
Qed.

Lemma list_filter_none {A} (f : A -> bool) l :
  (forall x, In x l -> f x = false) -> List.filter f l = [].
Proof.
  induction l as [|x l IH]; intros Hf; simpl; [done|].
  rewrite (Hf x) by (by left). apply IH. intros y Hy. apply Hf. by right.
Qed.

Lemma list_filter_filter {A} (f g : A -> bool) l :
  List.filter g (List.filter f l) = List.filter (fun x => f x && g x) l.
Proof.
  induction l as [|x l IH]; simpl; [done|].
  destruct (f x); simpl; [|done]. by destruct (g x); simpl; rewrite IH.
Qed.

(** ** Lemmas on sorted lists *)
Lemma strongly_sorted_lookup {A} (R : A -> A -> Prop) (l : list A) (i k : nat) x y :
  StronglySorted R l -> l !! i = Some x -> l !! k = Some y -> (i < k)%nat -> R x y.
Proof.
  intros Hl. revert i k. induction Hl as [|z l Hl IH Hz]; intros i k Hi Hk Hlt; [done|].
  destruct k as [|k]; [lia|]. simpl in Hk. destruct i as [|i]; simpl in Hi.
  - simplify_eq. rewrite Forall_lookup in Hz. eauto.
  - apply (IH i k); auto. lia.
Qed.

(** ** Lemmas on big-endian bytes *)
Lemma length_to_be_bytes n v : length (to_be_bytes n v) = n.
Proof. induction n; simpl; auto. Qed.

#[export] Hint Rewrite length_to_be_bytes : satrs_len.

Lemma len_to_be_bytes n v : len (to_be_bytes n v) = Z.of_nat n.
Proof. unfold len. by rewrite length_to_be_bytes. Qed.

Lemma to_be_bytes_byte n v : Forall byte (to_be_bytes n v).
Proof.
  induction n; simpl; constructor; auto. unfold byte. apply Z.mod_pos_bound. lia.
Qed.

Lemma from_to_be_bytes n v :
  from_be_bytes (to_be_bytes n v) = v mod 2 ^ (8 * Z.of_nat n).
Proof.
  induction n as [|n IH]; simpl.
  - by rewrite Z.mod_1_r.
  - rewrite IH. unfold len. rewrite length_to_be_bytes.
    replace (8 * Z.of_nat (S n)) with (8 * Z.of_nat n + 8) by lia.
    rewrite Z.pow_add_r by lia.
    rewrite (Z.rem_mul_r v (2 ^ (8 * Z.of_nat n)) (2 ^ 8)) by lia.
    change (2 ^ 8) with 256. lia.
Qed.

Lemma from_to_be_bytes_small n v :
  in_u (8 * Z.of_nat n) v -> from_be_bytes (to_be_bytes n v) = v.
Proof. intros H. rewrite from_to_be_bytes. apply Z.mod_small, H. Qed.

Lemma from_be_bytes_range l :
  Forall byte l -> in_u (8 * len l) (from_be_bytes l).
Proof.
  unfold in_u. induction 1 as [|b l Hb Hl IH]; simpl; [unfold len; simpl; lia|].
  rewrite len_cons. replace (8 * (1 + len l)) with (8 + 8 * len l) by lia.
  pose proof (len_nonneg l). rewrite Z.pow_add_r by lia.
  change (2 ^ 8) with 256. unfold byte in Hb. nia.
Qed.

Lemma to_be_bytes_mod n (v k : Z) :
  to_be_bytes n (k * 2 ^ (8 * Z.of_nat n) + v) = to_be_bytes n v.
Proof.
  revert k. induction n as [|n IH]; intros k; simpl; [done|].
  replace (8 * Z.of_nat (S n)) with (8 + 8 * Z.of_nat n) by lia.
  rewrite Z.pow_add_r by lia. change (2 ^ 8) with 256. f_equal.
  - rewrite Z.mul_assoc, Z.div_add_l by lia.
    rewrite Z.add_comm, Z.mod_add by lia. done.
  - rewrite Z.mul_assoc. apply IH.
Qed.

Lemma to_from_be_bytes l :
  Forall byte l -> to_be_bytes (length l) (from_be_bytes l) = l.
Proof.
  induction 1 as [|b l Hb Hl IH]; simpl; [done|].
  pose proof (from_be_bytes_range l Hl) as Hr. unfold in_u, byte in *.
  fold (len l). f_equal.
  - rewrite Z.div_add_l by lia. rewrite Z.div_small by lia.
    rewrite Z.add_0_r. apply Z.mod_small. lia.
  - etransitivity; [apply to_be_bytes_mod | exact IH].
Qed.

(** ** Lemmas on shifts and masks *)
Lemma land_ones_mod v n : 0 <= n -> Z.land v (2 ^ n - 1) = v mod 2 ^ n.
Proof.
  intros. rewrite <- Z.land_ones by lia. f_equal. rewrite Z.ones_equiv. lia.
Qed.

(** A field shifted above another one is joined to it by addition. *)
Lemma lor_shiftl_add a b n :
  0 <= n -> 0 <= b < 2 ^ n -> Z.lor (Z.shiftl a n) b = a * 2 ^ n + b.
Proof.
  intros Hn Hb. rewrite <- Z.shiftl_mul_pow2 by lia.
  rewrite <- Z.add_lor_land.
  assert (Z.land (Z.shiftl a n) b = 0) as ->; [|lia].
  apply Z.bits_inj'. intros i Hi. rewrite Z.land_spec, Z.bits_0.
  destruct (decide (i < n)).
  - rewrite Z.shiftl_spec_low by lia. done.
  - rewrite <- (Z.mod_small b (2 ^ n)) by lia.
    rewrite Z.mod_pow2_bits_high by lia. apply andb_false_r.
Qed.

(** Reads back the upper and the lower field. *)
Lemma div_mod_fields a b n :
  0 <= n -> 0 <= b < 2 ^ n ->
  (a * 2 ^ n + b) / 2 ^ n = a /\ (a * 2 ^ n + b) mod 2 ^ n = b.
Proof.
  intros Hn Hb. rewrite Z.div_add_l, Z.div_small by lia.
  rewrite (Z.add_comm (a * 2 ^ n) b), Z.mod_add, Z.mod_small by lia. lia.
Qed.

(** ** Weakest preconditions of stateful computations

    [wp m Q E N s]: run in state [s], [m] ends with a value and a state of [Q],
    or with an error and a state of [E]; if it panics, [N] holds. *)
Section Wp.
Context {S Er : Type}.

Definition wp {A} (m : st S Er A) (Q : A -> S -> Prop) (E : S -> Prop) (N : Prop) (s : S) : Prop :=
  match m s with
  | (Ok a, s') => Q a s'
  | (Err _, s') => E s'
  | (Panic, _) => N
  end.

Lemma wp_mono {A} (m : st S Er A) (Q Q' : A -> S -> Prop) (E E' : S -> Prop) (N N' : Prop) s :
  wp m Q E N s -> (forall a s', Q a s' -> Q' a s') -> (forall s', E s' -> E' s') -> (N -> N') ->
  wp m Q' E' N' s.
Proof. unfold wp. destruct (m s) as [[]]; auto. Qed.

Lemma wp_bind {A B} (m : st S Er A) (k : A -> st S Er B) Q E N s :
  wp m (fun a => wp (k a) Q E N) E N s -> wp (st_bind m k) Q E N s.
Proof. unfold wp, st_bind. by destruct (m s) as [[]]. Qed.

(** A bind with an assertion in the middle. *)
Lemma wp_cut {A B} (Q' : A -> S -> Prop) (m : st S Er A) (k : A -> st S Er B) Q E N s :
  wp m Q' E N s -> (forall a s', Q' a s' -> wp (k a) Q E N s') -> wp (st_bind m k) Q E N s.
Proof. intros Hm Hk. apply wp_bind. eapply wp_mono; eauto. Qed.

Lemma wp_ret {A} (a : A) Q E N s : Q a s -> wp (ret a) Q E N s.
Proof. done. Qed.

Lemma wp_throw {A} (e : Er) (Q : A -> S -> Prop) (E : S -> Prop) N s : E s -> wp (throw e) Q E N s.
Proof. done. Qed.

Lemma wp_panic {A} (Q : A -> S -> Prop) E (N : Prop) s : N -> wp (lift Panic) Q E N s.
Proof. done. Qed.

Lemma wp_lift {A} (r : res Er A) (Q : A -> S -> Prop) (E : S -> Prop) (N : Prop) s :
  match r with Ok a => Q a s | Err _ => E s | Panic => N end -> wp (lift r) Q E N s.
Proof. unfold wp, lift. by destruct r. Qed.

Lemma wp_asks {A} (f : S -> res Er A) (Q : A -> S -> Prop) (E : S -> Prop) (N : Prop) s :
  match f s with Ok a => Q a s | Err _ => E s | Panic => N end -> wp (asks f) Q E N s.
Proof. unfold wp, asks. by destruct (f s). Qed.

Lemma wp_gets {A} (f : S -> A) (Q : A -> S -> Prop) E N s : Q (f s) s -> wp (gets f) Q E N s.
Proof. done. Qed.

Lemma wp_modify (f : S -> S) (Q : unit -> S -> Prop) E N s : Q tt (f s) -> wp (modify_state f) Q E N s.
Proof. done. Qed.

End Wp.

(** One step of a computation under [wp]. *)
Ltac wp_step :=
  lazymatch goal with
  | |- wp (st_bind _ _) _ _ _ _ => apply wp_bind
  | |- wp (ret _) _ _ _ _ => apply wp_ret
  | |- wp (throw _) _ _ _ _ => apply wp_throw
  | |- wp (lift Panic) _ _ _ _ => apply wp_panic
  | |- wp (lift _) _ _ _ _ => apply wp_lift
  | |- wp (asks _) _ _ _ _ => apply wp_asks
  | |- wp (gets _) _ _ _ _ => apply wp_gets
  | |- wp (modify_state _) _ _ _ _ => apply wp_modify
  end.
