(* ===== verification/Spacepackets.v ===== *)
(** * What the sources use of the [spacepackets] crate

    [spacepackets] is a third-party crate: nothing of it is defined here.  The
    classes and records below are the parts of its interface the components
    call, as parameters of their definitions; the laws are the documented
    behaviour the theorems rely on.  Instances at the end show that the laws can
    hold. *)

From Stdlib Require Import ZArith Lia Bool.
From stdpp Require Import base list.
From S2P Require Import Prelude.

Local Open Scope Z_scope.

(** ** Errors *)

(** The two variants of [ByteConversionError] the sources build. *)
Inductive ByteConversionError : Type :=
| ToSliceTooSmall (found expected : Z)
| FromSliceTooSmall (found expected : Z).

#[export] Instance ByteConversionError_eq_dec : EqDecision ByteConversionError.
Proof. solve_decision. Defined.

(** [PusError] with its variant [ByteConversion]. *)
Class PusErrorOps (PE : Type) : Type := pus_byte_conversion : ByteConversionError -> PE.

(** ** [UnixTime] and [Duration]: comparison and addition, which may overflow *)
Class TimeOps (T D : Type) : Type := {
  time_ltb : T -> T -> bool;
  time_add : T -> D -> option T;
}.

(** [UnixTime] implements [Ord]. *)
Class TimeLaws (T D : Type) `{TimeOps T D} : Prop := {
  time_irrefl : forall t, time_ltb t t = false;
  time_trans : forall a b c, time_ltb a b = true -> time_ltb b c = true -> time_ltb a c = true;
  time_total : forall a b, time_ltb a b = false -> time_ltb b a = false -> a = b;
}.

(** ** Telecommands

    The values of the getters of a type that implements [CcsdsPacket],
    [PusPacket], [IsPusTelecommand] and [GenericPusTcSecondaryHeader].  The packet
    ID and the packet sequence control are given by their [raw()] values. *)
Record PusTc : Type := mkPusTc {
  tc_version : Z;
  tc_packet_id : Z;
  tc_psc : Z;
  tc_apid : Z;
  tc_seq_count : Z;
  tc_service : Z;
  tc_subservice : Z;
  tc_source_id : Z;
  tc_user_data : list Z;
}.

(** [PacketId::from(v).raw()] and [PacketSequenceCtrl::from(v).raw()] of a [u16]. *)
Class HeaderOps : Type := {
  packet_id_from : Z -> Z;
  psc_from : Z -> Z;
}.

(** A packet ID has 13 bits, below the three bits of the version number; the
    sequence control takes a whole [u16]. *)
Class HeaderLaws `{HeaderOps} : Prop := {
  packet_id_from_low : forall v, packet_id_from v = v mod 2 ^ 13;
  psc_from_u16 : forall v, in_u 16 v -> psc_from v = v;
}.

(** ** Writers: [TimeWriter] and [WritablePusPacket] *)
Record Writer (E : Type) : Type := mkWriter {
  len_written : Z;
  write_to_bytes : list Z -> res E (Z * list Z);
  to_vec : res E (list Z);
}.

Arguments mkWriter {E} _ _ _.
Arguments len_written {E} _.
Arguments write_to_bytes {E} _ _.
Arguments to_vec {E} _.

(** A writer that fills a slice of exactly the announced length with the bytes
    [to_vec] returns. *)
Definition writes {E : Type} (w : Writer E) (bytes : list Z) : Prop :=
  len_written w = len bytes /\ to_vec w = Ok bytes /\
  forall buf, len buf = len bytes -> write_to_bytes w buf = Ok (len bytes, bytes).

(** ** Telemetry

    A [PusTmCreator] holds the arguments it was created with:
    [SpHeader::new_for_unseg_tm(apid, seq_count, 0)],
    [PusTmSecondaryHeader::new(service, subservice, msg_counter, dest_id,
    time_stamp)] and the source data. *)
Record PusTm : Type := mkPusTm {
  tm_apid : Z;
  tm_seq_count : Z;
  tm_service : Z;
  tm_subservice : Z;
  tm_msg_counter : Z;
  tm_dest_id : Z;
  tm_time_stamp : list Z;
  tm_source_data : list Z;
}.

Definition MAX_APID : Z := 2 ^ 11 - 1.

(** ** [EcssEnumeration] and [UnsignedEnum]: a value written big-endian to the
    front of a buffer *)
Record EcssEnum : Type := mkEcssEnum {
  enum_size : Z;
  enum_value : Z;
  enum_write : list Z -> res ByteConversionError (Z * list Z);
}.

Definition enum_bytes (e : EcssEnum) : list Z :=
  to_be_bytes (Z.to_nat (enum_size e)) (enum_value e).

Definition enum_ok (e : EcssEnum) : Prop :=
  0 <= enum_size e /\
  forall buf, enum_size e <= len buf ->
    enum_write e buf = Ok (enum_size e, enum_bytes e ++ drop (Z.to_nat (enum_size e)) buf).

Lemma len_enum_bytes e : 0 <= enum_size e -> len (enum_bytes e) = enum_size e.
Proof. intros H. unfold len, enum_bytes. rewrite length_to_be_bytes. lia. Qed.

(** ** Instances *)

(** Time as a number of nanoseconds. *)
#[export] Instance Z_time : TimeOps Z Z := {| time_ltb := Z.ltb; time_add := fun t d => Some (t + d) |}.

#[export] Instance Z_time_laws : TimeLaws Z Z.
Proof. constructor; simpl; intros; bool_lia. Qed.

#[export] Instance ccsds_header : HeaderOps :=
  {| packet_id_from := fun v => Z.land v 8191; psc_from := fun v => v |}.

#[export] Instance ccsds_header_laws : HeaderLaws.
Proof. constructor; simpl; intros; [by apply (land_ones_mod _ 13)|done]. Qed.

(** A writer of fixed bytes. *)
Definition bytes_writer {E : Type} (bytes : list Z) : Writer E :=
  {| len_written := len bytes;
     write_to_bytes := fun _ => Ok (len bytes, bytes);
     to_vec := Ok bytes |}.

Lemma bytes_writer_writes {E} bytes : writes (E:=E) (bytes_writer bytes) bytes.
Proof. done. Qed.

(** An enumeration of [n] bytes. *)
Definition ecss_enum (n v : Z) : EcssEnum :=
  {| enum_size := n; enum_value := v;
     enum_write := fun buf =>
       if len buf <? n then Err (ToSliceTooSmall (len buf) n)
       else Ok (n, to_be_bytes (Z.to_nat n) v ++ drop (Z.to_nat n) buf) |}.

Lemma ecss_enum_ok n v : 0 <= n -> enum_ok (ecss_enum n v).
Proof.
  intros Hn. split; [done|]. simpl. intros buf Hb.
  by destruct (Z.ltb_spec (len buf) n); [lia|].
Qed.
