(* ===== verification/Pool.v ===== *)
(** * Memory pools ([satrs/src/pool.rs])

    The packet store of the framework.  [PoolProvider] is the trait of the same
    name as a class of operations; [StaticPool] is [StaticMemoryPool],
    [HeaplessPool] is [StaticHeaplessMemoryPool] and [Guard] the two RAII
    guards.  [PoolSpec] is the contract the other components rely on: a pool
    behaves as a finite map from addresses to byte strings.  The file proves
    that [StaticMemoryPool] meets it, and that the heapless pool computes the
    same results. *)

From Stdlib Require Import ZArith Lia Bool.
From stdpp Require Import base list gmap sorting.
From S2P Require Import Prelude Spacepackets.

Local Open Scope Z_scope.

(** ** Addresses and errors *)

(** [PoolAddr] is a [u64]. *)
Record StaticPoolAddr : Type := mkStaticPoolAddr { pool_idx : Z; packet_idx : Z }.

Module StaticPoolAddr.

Definition INVALID_ADDR : Z := 4294967295.

Definition raw (a : StaticPoolAddr) : Z :=
  Z.lor (as_u 32 (Z.shiftl (pool_idx a) 16)) (packet_idx a).

(** [impl From<StaticPoolAddr> for PoolAddr] *)
Definition into_pool_addr (a : StaticPoolAddr) : Z :=
  Z.lor (as_u 64 (Z.shiftl (pool_idx a) 16)) (packet_idx a).

(** [impl From<PoolAddr> for StaticPoolAddr] *)
Definition from_pool_addr (value : Z) : StaticPoolAddr :=
  {| pool_idx := as_u 16 (Z.land (Z.shiftr value 16) 255);
     packet_idx := as_u 16 (Z.land value 255) |}.

End StaticPoolAddr.

Inductive StoreIdError : Type :=
| InvalidSubpool (pool : Z)
| InvalidPacketIdx (packet_idx : Z).

Inductive PoolError : Type :=
| DataTooLarge (size : Z)
| StoreFull (subpool : Z)
| NoCapacity
| InvalidStoreId (id_e : StoreIdError) (addr : option Z)
| DataDoesNotExist (addr : Z)
| PoolByteConversionError (e : ByteConversionError)
| LockError
| InternalError (e : Z).

#[export] Instance StaticPoolAddr_eq_dec : EqDecision StaticPoolAddr.
Proof. solve_decision. Defined.

#[export] Instance StoreIdError_eq_dec : EqDecision StoreIdError.
Proof. solve_decision. Defined.

#[export] Instance PoolError_eq_dec : EqDecision PoolError.
Proof. solve_decision. Defined.

(** ** The [PoolProvider] trait

    A closure on a memory block ([FnMut(&mut [u8])]) is a function on the
    block's bytes; it cannot change the length of the block. *)
Class PoolProvider (P : Type) : Type := {
  pool_add : list Z -> st P PoolError Z;
  pool_free_element : Z -> (list Z -> list Z) -> st P PoolError Z;
  pool_modify : Z -> (list Z -> list Z) -> st P PoolError unit;
  pool_read : P -> Z -> list Z -> res PoolError (Z * list Z);
  pool_delete : Z -> st P PoolError unit;
  pool_has_element_at : P -> Z -> res PoolError bool;
  pool_len_of_data : P -> Z -> res PoolError Z;
}.

(** Provided method [PoolProvider::read_as_vec]. *)
Definition read_as_vec {P : Type} `{PoolProvider P} (p : P) (addr : Z)
    : res PoolError (list Z) :=
  let? n := pool_len_of_data p addr in
  let? r := pool_read p addr (replicate (Z.to_nat n) 0) in
  Ok (snd r).

Definition STORE_FREE : Z := usize_max.
Definition MAX_BLOCK_SIZE : Z := STORE_FREE - 1.

Record SubpoolConfig : Type := mkSubpoolConfig { num_blocks : Z; block_size : Z }.

Record StaticPoolConfig : Type := mkStaticPoolConfig {
  cfg : list SubpoolConfig;
  spill_to_higher_subpools : bool;
}.

Module StaticPoolConfig.

Definition new_from_subpool_cfg_tuples (l : list (Z * Z)) (spill : bool)
    : StaticPoolConfig :=
  {| cfg := (fun t => mkSubpoolConfig t.1 t.2) <$> l;
     spill_to_higher_subpools := spill |}.

Definition retained (c : SubpoolConfig) : bool :=
  (0 <? num_blocks c) && (block_size c <? MAX_BLOCK_SIZE).

Definition size_le (a b : SubpoolConfig) : Prop := block_size a <= block_size b.

#[export] Instance size_le_dec : RelDecision size_le.
Proof. intros a b. unfold size_le. apply _. Defined.

(** [retain] followed by [sort_unstable_by] on the block size; the order of
    subpools with equal block sizes, which Rust leaves open, is that of a
    stable sort. *)
Definition sanitize (c : StaticPoolConfig) : Z * StaticPoolConfig :=
  let l := merge_sort size_le (List.filter retained (cfg c)) in
  (len l, {| cfg := l; spill_to_higher_subpools := spill_to_higher_subpools c |}).

End StaticPoolConfig.

(** The scan of [find_subpool] over the subpools, shared by both pools. *)
Fixpoint find_subpool_loop (i : Z) (l : list SubpoolConfig) (req_size start : Z)
    : res PoolError Z :=
  match l with
  | [] => Err (DataTooLarge req_size)
  | c :: l' =>
      if i <? start then find_subpool_loop (i + 1) l' req_size start
      else if req_size <=? block_size c then Ok (as_u 16 i)
      else find_subpool_loop (i + 1) l' req_size start
  end.

(** The scan of [find_empty] over one sizes list: index of the first free entry. *)
Fixpoint first_free (i : Z) (l : list Z) : option Z :=
  match l with
  | [] => None
  | sz :: l' => if sz =? STORE_FREE then Some i else first_free (i + 1) l'
  end.

(** ** [StaticMemoryPool] *)
Record StaticMemoryPool : Type := mkPool {
  pool_cfg : StaticPoolConfig;
  pool : list (list Z);
  sizes_lists : list (list Z);
}.

Module StaticPool.

(** [vec![0; n]]: a vector of more than [isize::MAX] bytes panics. *)
Definition vec_of_bytes {E : Type} (n : Z) : res E (list Z) :=
  if n <? 2 ^ 63 then Ok (replicate (Z.to_nat n) 0) else Panic.

Fixpoint new_loop (l : list SubpoolConfig) (p : StaticMemoryPool)
    : res PoolError StaticMemoryPool :=
  match l with
  | [] => Ok p
  | c :: l' =>
      let? next_pool_len := checked_mul 64 (num_blocks c) (block_size c) in
      let? memory := vec_of_bytes next_pool_len in
      new_loop l'
        {| pool_cfg := pool_cfg p;
           pool := pool p ++ [memory];
           sizes_lists :=
             sizes_lists p ++ [replicate (Z.to_nat (num_blocks c)) STORE_FREE] |}
  end.

Definition new (c : StaticPoolConfig) : res PoolError StaticMemoryPool :=
  let '(_, c') := StaticPoolConfig.sanitize c in
  new_loop (cfg c') {| pool_cfg := c'; pool := []; sizes_lists := [] |}.

Definition validate_addr (p : StaticMemoryPool) (addr : StaticPoolAddr)
    : res PoolError unit :=
  match cfg (pool_cfg p) !! Z.to_nat (pool_idx addr) with
  | None =>
      Err (InvalidStoreId (InvalidSubpool (pool_idx addr))
             (Some (StaticPoolAddr.into_pool_addr addr)))
  | Some c =>
      if num_blocks c <=? packet_idx addr
      then Err (InvalidStoreId (InvalidPacketIdx (packet_idx addr))
                  (Some (StaticPoolAddr.into_pool_addr addr)))
      else Ok tt
  end.

(** [self.sizes_lists.get(pool_idx).unwrap()[addr.packet_idx as usize]] *)
Definition curr_size (p : StaticMemoryPool) (addr : StaticPoolAddr) : res PoolError Z :=
  let? size_list := unwrap (sizes_lists p !! Z.to_nat (pool_idx addr)) in
  index size_list (packet_idx addr).

Definition addr_check (p : StaticMemoryPool) (addr : StaticPoolAddr) : res PoolError Z :=
  let? _ := validate_addr p addr in
  let? sz := curr_size p addr in
  if sz =? STORE_FREE
  then Err (DataDoesNotExist (StaticPoolAddr.into_pool_addr addr))
  else Ok sz.

Definition find_subpool (p : StaticMemoryPool) (req_size start_at_subpool : Z)
    : res PoolError Z :=
  find_subpool_loop 0 (cfg (pool_cfg p)) req_size start_at_subpool.

(** The slot number as a [u16] together with the position of the size entry
    the source returns a reference to. *)
Definition find_empty (p : StaticMemoryPool) (subpool : Z) : res PoolError (Z * Z) :=
  match sizes_lists p !! Z.to_nat subpool with
  | Some size_list =>
      match first_free 0 size_list with
      | Some i => Ok (as_u 16 i, i)
      | None => Err (StoreFull subpool)
      end
  | None => Err (InvalidStoreId (InvalidSubpool subpool) None)
  end.

(** The [while let Err(StoreFull(_))] loop of [reserve].  Every iteration moves
    to the next subpool, so [length sizes_lists] iterations are enough. *)
Fixpoint spill_loop (fuel : nat) (p : StaticMemoryPool) (subpool_idx : Z)
    : res PoolError Z :=
  match find_empty p subpool_idx with
  | Err (StoreFull _) =>
      match fuel with
      | O => Panic
      | S fuel' =>
          let? next := checked_add 16 subpool_idx 1 in
          if next =? len (sizes_lists p) then Err (StoreFull subpool_idx)
          else spill_loop fuel' p next
      end
  | _ => Ok subpool_idx
  end.

Definition select_subpool (p : StaticMemoryPool) (data_len : Z) : res PoolError Z :=
  let? subpool_idx := find_subpool p data_len 0 in
  if spill_to_higher_subpools (pool_cfg p)
  then spill_loop (length (sizes_lists p)) p subpool_idx
  else Ok subpool_idx.

Definition set_size (subpool slot sz : Z) (p : StaticMemoryPool) : StaticMemoryPool :=
  {| pool_cfg := pool_cfg p;
     pool := pool p;
     sizes_lists := alter (fun l => <[Z.to_nat slot := sz]> l) (Z.to_nat subpool) (sizes_lists p) |}.

Definition set_memory (subpool : Z) (mem : list Z) (p : StaticMemoryPool)
    : StaticMemoryPool :=
  {| pool_cfg := pool_cfg p;
     pool := <[Z.to_nat subpool := mem]> (pool p);
     sizes_lists := sizes_lists p |}.

Definition reserve (data_len : Z) : st StaticMemoryPool PoolError StaticPoolAddr :=
  let* subpool_idx := asks (fun p => select_subpool p data_len) in
  let* slot := asks (fun p => find_empty p subpool_idx) in
  let* _ := modify_state (set_size subpool_idx slot.2 data_len) in
  ret {| pool_idx := subpool_idx; packet_idx := slot.1 |}.

Definition raw_pos (p : StaticMemoryPool) (addr : StaticPoolAddr) : option Z :=
  c ← cfg (pool_cfg p) !! Z.to_nat (pool_idx addr);
  Some (packet_idx addr * block_size c).

Definition write (addr : StaticPoolAddr) (data : list Z)
    : st StaticMemoryPool PoolError unit :=
  let* packet_pos := asks (fun p => ok_or (raw_pos p addr) (InternalError 0)) in
  let* subpool :=
    asks (fun p => ok_or (pool p !! Z.to_nat (pool_idx addr)) (InternalError 1)) in
  let* subpool' := lift (copy_into subpool packet_pos (packet_pos + len data) data) in
  modify_state (set_memory (pool_idx addr) subpool').

Definition add (data : list Z) : st StaticMemoryPool PoolError Z :=
  let data_len := len data in
  if MAX_BLOCK_SIZE <? data_len then throw (DataTooLarge data_len) else
  let* addr := reserve data_len in
  let* _ := write addr data in
  ret (StaticPoolAddr.into_pool_addr addr).

(** Hands [n] bytes of the block at [addr] to a closure and keeps what it wrote. *)
Definition with_block (addr : StaticPoolAddr) (n : Z) (f : list Z -> list Z)
    : st StaticMemoryPool PoolError unit :=
  let* pos := asks (fun p => unwrap (raw_pos p addr)) in
  let* subpool := asks (fun p => unwrap (pool p !! Z.to_nat (pool_idx addr))) in
  let* block := lift (slice subpool pos (pos + n)) in
  let* subpool' := lift (copy_into subpool pos (pos + n) (f block)) in
  modify_state (set_memory (pool_idx addr) subpool').

Definition free_element (n : Z) (writer : list Z -> list Z)
    : st StaticMemoryPool PoolError Z :=
  if MAX_BLOCK_SIZE <? n then throw (DataTooLarge n) else
  let* addr := reserve n in
  let* _ := with_block addr n writer in
  ret (StaticPoolAddr.into_pool_addr addr).

Definition modify (addr : Z) (updater : list Z -> list Z)
    : st StaticMemoryPool PoolError unit :=
  let addr := StaticPoolAddr.from_pool_addr addr in
  let* sz := asks (fun p => addr_check p addr) in
  with_block addr sz updater.

Definition read (p : StaticMemoryPool) (addr : Z) (buf : list Z)
    : res PoolError (Z * list Z) :=
  let addr := StaticPoolAddr.from_pool_addr addr in
  let? sz := addr_check p addr in
  if len buf <? sz
  then Err (PoolByteConversionError (ToSliceTooSmall (len buf) sz))
  else
    let? pos := unwrap (raw_pos p addr) in
    let? subpool := unwrap (pool p !! Z.to_nat (pool_idx addr)) in
    let? block := slice subpool pos (pos + sz) in
    let? buf' := copy_into buf 0 sz block in
    Ok (sz, buf').

Definition delete (addr : Z) : st StaticMemoryPool PoolError unit :=
  let addr := StaticPoolAddr.from_pool_addr addr in
  let* _ := asks (fun p => addr_check p addr) in
  let* c := asks (fun p => unwrap (cfg (pool_cfg p) !! Z.to_nat (pool_idx addr))) in
  let* _ := modify_state (set_size (pool_idx addr) (packet_idx addr) STORE_FREE) in
  with_block addr (block_size c) (fun block => replicate (length block) 0).

Definition has_element_at (p : StaticMemoryPool) (addr : Z) : res PoolError bool :=
  let addr := StaticPoolAddr.from_pool_addr addr in
  let? _ := validate_addr p addr in
  let? sz := curr_size p addr in
  Ok (negb (sz =? STORE_FREE)).

Definition len_of_data (p : StaticMemoryPool) (addr : Z) : res PoolError Z :=
  let addr := StaticPoolAddr.from_pool_addr addr in
  let? _ := validate_addr p addr in
  let? sz := curr_size p addr in
  Ok (if sz =? STORE_FREE then 0 else sz).

End StaticPool.

#[export] Instance StaticPool_provider : PoolProvider StaticMemoryPool := {|
  pool_add := StaticPool.add;
  pool_free_element := StaticPool.free_element;
  pool_modify := StaticPool.modify;
  pool_read := StaticPool.read;
  pool_delete := StaticPool.delete;
  pool_has_element_at := StaticPool.has_element_at;
  pool_len_of_data := StaticPool.len_of_data;
|}.

(** ** Guards

    A guard borrows the pool; the pool is the state of the computations below. *)
Record PoolGuard : Type := mkPoolGuard {
  guard_addr : Z;
  no_deletion : bool;
  deletion_failed_error : option PoolError;
}.

Module Guard.
Section Guard.
Context {P : Type} `{PoolProvider P}.

Definition new (addr : Z) : PoolGuard :=
  {| guard_addr := addr; no_deletion := false; deletion_failed_error := None |}.

Definition read (p : P) (g : PoolGuard) (buf : list Z) : res PoolError (Z * list Z) :=
  pool_read p (guard_addr g) buf.

Definition release (g : PoolGuard) : PoolGuard :=
  {| guard_addr := guard_addr g; no_deletion := true;
     deletion_failed_error := deletion_failed_error g |}.

(** [PoolRwGuard::update] *)
Definition update (g : PoolGuard) (updater : list Z -> list Z) : st P PoolError unit :=
  pool_modify (guard_addr g) updater.

(** [Drop for PoolGuard]: a failed deletion is recorded, never raised. *)
Definition drop (g : PoolGuard) : st P PoolError PoolGuard :=
  if no_deletion g then ret g else
  let* r := attempt (pool_delete (guard_addr g)) in
  match r with
  | Err e => ret {| guard_addr := guard_addr g; no_deletion := no_deletion g;
                    deletion_failed_error := Some e |}
  | _ => ret g
  end.

(** [pool.read_with_guard(addr)], a read into [buf], an optional [release], and
    the end of the guard's scope. *)
Definition scoped_read (addr : Z) (buf : list Z) (released : bool)
    : st P PoolError (res PoolError (Z * list Z)) :=
  let g := if released then release (new addr) else new addr in
  let* r := attempt (asks (fun p => read p g buf)) in
  let* _ := drop g in
  ret r.

End Guard.
End Guard.

(** ** [StaticHeaplessMemoryPool] *)
Record StaticHeaplessMemoryPool : Type := mkHeapless {
  h_pool : list (SubpoolConfig * list Z);
  h_sizes_lists : list (list Z);
  h_spill_to_higher_subpools : bool;
}.

Inductive PoolIsFull : Type := mkPoolIsFull.

Module HeaplessPool.

Definition new (spill : bool) : StaticHeaplessMemoryPool :=
  {| h_pool := []; h_sizes_lists := []; h_spill_to_higher_subpools := spill |}.

(** [grow] of a pool declared with [MAX_NUM_SUBPOOLS = max]: a [heapless::Vec]
    refuses a push when it holds [max] elements. *)
Definition grow (max : nat) (subpool_memory sizes_list : list Z) (nb : Z)
    (set_sizes_list_to_all_free : bool) : st StaticHeaplessMemoryPool PoolIsFull unit :=
  fun h =>
    if (nb =? 0) || negb (len subpool_memory mod nb =? 0) then (Panic, h)
    else if negb (nb =? len sizes_list) then (Panic, h)
    else
      let c := {| num_blocks := nb; block_size := len subpool_memory / nb |} in
      if (max <=? length (h_pool h))%nat then (Err mkPoolIsFull, h)
      else
        let h1 := {| h_pool := h_pool h ++ [(c, subpool_memory)];
                     h_sizes_lists := h_sizes_lists h;
                     h_spill_to_higher_subpools := h_spill_to_higher_subpools h |} in
        let szs := if set_sizes_list_to_all_free
                   then replicate (length sizes_list) STORE_FREE else sizes_list in
        if (max <=? length (h_sizes_lists h1))%nat then (Err mkPoolIsFull, h1)
        else (Ok tt, {| h_pool := h_pool h1;
                        h_sizes_lists := h_sizes_lists h1 ++ [szs];
                        h_spill_to_higher_subpools := h_spill_to_higher_subpools h1 |}).

Definition validate_addr (h : StaticHeaplessMemoryPool) (addr : StaticPoolAddr)
    : res PoolError unit :=
  match h_pool h !! Z.to_nat (pool_idx addr) with
  | None =>
      Err (InvalidStoreId (InvalidSubpool (pool_idx addr))
             (Some (StaticPoolAddr.into_pool_addr addr)))
  | Some (c, _) =>
      if num_blocks c <=? packet_idx addr
      then Err (InvalidStoreId (InvalidPacketIdx (packet_idx addr))
                  (Some (StaticPoolAddr.into_pool_addr addr)))
      else Ok tt
  end.

Definition curr_size (h : StaticHeaplessMemoryPool) (addr : StaticPoolAddr)
    : res PoolError Z :=
  let? size_list := unwrap (h_sizes_lists h !! Z.to_nat (pool_idx addr)) in
  index size_list (packet_idx addr).

Definition addr_check (h : StaticHeaplessMemoryPool) (addr : StaticPoolAddr)
    : res PoolError Z :=
  let? _ := validate_addr h addr in
  let? sz := curr_size h addr in
  if sz =? STORE_FREE
  then Err (DataDoesNotExist (StaticPoolAddr.into_pool_addr addr))
  else Ok sz.

Definition find_subpool (h : StaticHeaplessMemoryPool) (req_size start_at_subpool : Z)
    : res PoolError Z :=
  find_subpool_loop 0 (fst <$> h_pool h) req_size start_at_subpool.

Definition find_empty (h : StaticHeaplessMemoryPool) (subpool : Z)
    : res PoolError (Z * Z) :=
  match h_sizes_lists h !! Z.to_nat subpool with
  | Some size_list =>
      match first_free 0 size_list with
      | Some i => Ok (as_u 16 i, i)
      | None => Err (StoreFull subpool)
      end
  | None => Err (InvalidStoreId (InvalidSubpool subpool) None)
  end.

Fixpoint spill_loop (fuel : nat) (h : StaticHeaplessMemoryPool) (subpool_idx : Z)
    : res PoolError Z :=
  match find_empty h subpool_idx with
  | Err (StoreFull _) =>
      match fuel with
      | O => Panic
      | S fuel' =>
          let? next := checked_add 16 subpool_idx 1 in
          if next =? len (h_sizes_lists h) then Err (StoreFull subpool_idx)
          else spill_loop fuel' h next
      end
  | _ => Ok subpool_idx
  end.

Definition select_subpool (h : StaticHeaplessMemoryPool) (data_len : Z)
    : res PoolError Z :=
  match h_pool h with
  | [] => Err NoCapacity
  | _ =>
      let? subpool_idx := find_subpool h data_len 0 in
      if h_spill_to_higher_subpools h
      then spill_loop (length (h_sizes_lists h)) h subpool_idx
      else Ok subpool_idx
  end.

Definition set_size (subpool slot sz : Z) (h : StaticHeaplessMemoryPool)
    : StaticHeaplessMemoryPool :=
  {| h_pool := h_pool h;
     h_sizes_lists := alter (fun l => <[Z.to_nat slot := sz]> l) (Z.to_nat subpool) (h_sizes_lists h);
     h_spill_to_higher_subpools := h_spill_to_higher_subpools h |}.

Definition set_memory (subpool : Z) (mem : list Z) (h : StaticHeaplessMemoryPool)
    : StaticHeaplessMemoryPool :=
  {| h_pool := alter (fun e => (e.1, mem)) (Z.to_nat subpool) (h_pool h);
     h_sizes_lists := h_sizes_lists h;
     h_spill_to_higher_subpools := h_spill_to_higher_subpools h |}.

Definition reserve (data_len : Z) : st StaticHeaplessMemoryPool PoolError StaticPoolAddr :=
  let* subpool_idx := asks (fun h => select_subpool h data_len) in
  let* slot := asks (fun h => find_empty h subpool_idx) in
  let* _ := modify_state (set_size subpool_idx slot.2 data_len) in
  ret {| pool_idx := subpool_idx; packet_idx := slot.1 |}.

Definition raw_pos (h : StaticHeaplessMemoryPool) (addr : StaticPoolAddr) : option Z :=
  e ← h_pool h !! Z.to_nat (pool_idx addr);
  Some (packet_idx addr * block_size e.1).

Definition memory (h : StaticHeaplessMemoryPool) (addr : StaticPoolAddr) : option (list Z) :=
  snd <$> h_pool h !! Z.to_nat (pool_idx addr).

Definition write (addr : StaticPoolAddr) (data : list Z)
    : st StaticHeaplessMemoryPool PoolError unit :=
  let* packet_pos := asks (fun h => ok_or (raw_pos h addr) (InternalError 0)) in
  let* subpool := asks (fun h => ok_or (memory h addr) (InternalError 1)) in
  let* subpool' := lift (copy_into subpool packet_pos (packet_pos + len data) data) in
  modify_state (set_memory (pool_idx addr) subpool').

Definition add (data : list Z) : st StaticHeaplessMemoryPool PoolError Z :=
  let data_len := len data in
  if MAX_BLOCK_SIZE <? data_len then throw (DataTooLarge data_len) else
  let* addr := reserve data_len in
  let* _ := write addr data in
  ret (StaticPoolAddr.into_pool_addr addr).

Definition with_block (addr : StaticPoolAddr) (n : Z) (f : list Z -> list Z)
    : st StaticHeaplessMemoryPool PoolError unit :=
  let* pos := asks (fun h => unwrap (raw_pos h addr)) in
  let* subpool := asks (fun h => unwrap (memory h addr)) in
  let* block := lift (slice subpool pos (pos + n)) in
  let* subpool' := lift (copy_into subpool pos (pos + n) (f block)) in
  modify_state (set_memory (pool_idx addr) subpool').

Definition free_element (n : Z) (writer : list Z -> list Z)
    : st StaticHeaplessMemoryPool PoolError Z :=
  if MAX_BLOCK_SIZE <? n then throw (DataTooLarge n) else
  let* addr := reserve n in
  let* _ := with_block addr n writer in
  ret (StaticPoolAddr.into_pool_addr addr).

Definition modify (addr : Z) (updater : list Z -> list Z)
    : st StaticHeaplessMemoryPool PoolError unit :=
  let addr := StaticPoolAddr.from_pool_addr addr in
  let* sz := asks (fun h => addr_check h addr) in
  with_block addr sz updater.

Definition read (h : StaticHeaplessMemoryPool) (addr : Z) (buf : list Z)
    : res PoolError (Z * list Z) :=
  let addr := StaticPoolAddr.from_pool_addr addr in
  let? sz := addr_check h addr in
  if len buf <? sz
  then Err (PoolByteConversionError (ToSliceTooSmall (len buf) sz))
  else
    let? pos := unwrap (raw_pos h addr) in
    let? subpool := unwrap (memory h addr) in
    let? block := slice subpool pos (pos + sz) in
    let? buf' := copy_into buf 0 sz block in
    Ok (sz, buf').

Definition delete (addr : Z) : st StaticHeaplessMemoryPool PoolError unit :=
  let addr := StaticPoolAddr.from_pool_addr addr in
  let* _ := asks (fun h => addr_check h addr) in
  let* e := asks (fun h => unwrap (h_pool h !! Z.to_nat (pool_idx addr))) in
  let* _ := modify_state (set_size (pool_idx addr) (packet_idx addr) STORE_FREE) in
  with_block addr (block_size e.1) (fun block => replicate (length block) 0).

Definition has_element_at (h : StaticHeaplessMemoryPool) (addr : Z) : res PoolError bool :=
  let addr := StaticPoolAddr.from_pool_addr addr in
  let? _ := validate_addr h addr in
  let? sz := curr_size h addr in
  Ok (negb (sz =? STORE_FREE)).

Definition len_of_data (h : StaticHeaplessMemoryPool) (addr : Z) : res PoolError Z :=
  let addr := StaticPoolAddr.from_pool_addr addr in
  let? _ := validate_addr h addr in
  let? sz := curr_size h addr in
  Ok (if sz =? STORE_FREE then 0 else sz).

End HeaplessPool.

#[export] Instance HeaplessPool_provider : PoolProvider StaticHeaplessMemoryPool := {|
  pool_add := HeaplessPool.add;
  pool_free_element := HeaplessPool.free_element;
  pool_modify := HeaplessPool.modify;
  pool_read := HeaplessPool.read;
  pool_delete := HeaplessPool.delete;
  pool_has_element_at := HeaplessPool.has_element_at;
  pool_len_of_data := HeaplessPool.len_of_data;
|}.

(** ** The contract of a pool

    [pool_rep p m]: the pool [p] stores exactly the byte strings of [m].
    [pool_known a]: [a] is an address of the shape the pool hands out. *)
Class PoolSpec (P : Type) `{PoolProvider P} : Type := {
  pool_rep : P -> gmap Z (list Z) -> Prop;
  pool_known : Z -> Prop;
  pool_rep_known : forall p m a d, pool_rep p m -> m !! a = Some d -> pool_known a;
  pool_add_spec : forall p m data, pool_rep p m ->
    match pool_add data p with
    | (Ok a, p') => m !! a = None /\ pool_known a /\ pool_rep p' (<[a := data]> m)
    | (Err _, p') => p' = p
    | (Panic, _) => False
    end;
  pool_modify_spec : forall p m a d f, pool_rep p m -> m !! a = Some d ->
    length (f d) = length d ->
    exists p', pool_modify a f p = (Ok tt, p') /\ pool_rep p' (<[a := f d]> m);
  pool_read_some : forall p m a d buf, pool_rep p m -> m !! a = Some d ->
    pool_read p a buf =
      if len buf <? len d
      then Err (PoolByteConversionError (ToSliceTooSmall (len buf) (len d)))
      else Ok (len d, d ++ drop (length d) buf);
  pool_read_none : forall p m a buf, pool_rep p m -> pool_known a -> m !! a = None ->
    exists e, pool_read p a buf = Err e;
  pool_len_some : forall p m a d, pool_rep p m -> m !! a = Some d ->
    pool_len_of_data p a = Ok (len d);
  pool_len_none : forall p m a, pool_rep p m -> pool_known a -> m !! a = None ->
    pool_len_of_data p a = Ok 0 \/ exists e, pool_len_of_data p a = Err e;
  pool_delete_some : forall p m a d, pool_rep p m -> m !! a = Some d ->
    exists p', pool_delete a p = (Ok tt, p') /\ pool_rep p' (base.delete a m);
  pool_delete_none : forall p m a, pool_rep p m -> pool_known a -> m !! a = None ->
    exists e, pool_delete a p = (Err e, p);
}.

(** ** Representation invariant of [StaticMemoryPool] *)

(** An address that survives the conversion to [StaticPoolAddr] and back. *)
Definition canonical (a : Z) : Prop :=
  StaticPoolAddr.into_pool_addr (StaticPoolAddr.from_pool_addr a) = a.

#[export] Instance canonical_dec (a : Z) : Decision (canonical a).
Proof. unfold canonical. apply _. Defined.

(** Block number [j] of a subpool, and the data stored in it. *)
Definition block_at (bs : nat) (mem : list Z) (j : nat) : list Z :=
  take bs (drop (j * bs) mem).

Definition slot_view (bs : nat) (mem szs : list Z) (j : nat) : option (list Z) :=
  sz ← szs !! j;
  if sz =? STORE_FREE then None else Some (take (Z.to_nat sz) (block_at bs mem j)).

(** A block is either free, and then zeroed, or holds at most [bs] bytes. *)
Definition entry_wf (bs : nat) (sz : Z) (block : list Z) : Prop :=
  (sz = STORE_FREE /\ block = replicate bs 0) \/ 0 <= sz <= Z.of_nat bs.

Record subpool_wf (c : SubpoolConfig) (mem szs : list Z) : Prop := {
  sw_blocks : 0 < num_blocks c <= 256;
  sw_size : 0 <= block_size c < MAX_BLOCK_SIZE;
  sw_mem : length mem = (Z.to_nat (num_blocks c) * Z.to_nat (block_size c))%nat;
  sw_szs : length szs = Z.to_nat (num_blocks c);
  sw_entry : forall j sz, szs !! j = Some sz ->
    entry_wf (Z.to_nat (block_size c)) sz (block_at (Z.to_nat (block_size c)) mem j);
}.

Definition slot_of (p : StaticMemoryPool) (a : StaticPoolAddr) : option (list Z) :=
  c ← cfg (pool_cfg p) !! Z.to_nat (pool_idx a);
  mem ← pool p !! Z.to_nat (pool_idx a);
  szs ← sizes_lists p !! Z.to_nat (pool_idx a);
  slot_view (Z.to_nat (block_size c)) mem szs (Z.to_nat (packet_idx a)).

Record static_wf (p : StaticMemoryPool) : Prop := {
  wf_count : (length (cfg (pool_cfg p)) <= 256)%nat;
  wf_sorted : StronglySorted StaticPoolConfig.size_le (cfg (pool_cfg p));
  wf_pool : length (pool p) = length (cfg (pool_cfg p));
  wf_sizes : length (sizes_lists p) = length (cfg (pool_cfg p));
  wf_subpool : forall i c mem szs,
    cfg (pool_cfg p) !! i = Some c -> pool p !! i = Some mem ->
    sizes_lists p !! i = Some szs -> subpool_wf c mem szs;
}.

(** The pool as a map. *)
Definition view (p : StaticMemoryPool) (a : Z) : option (list Z) :=
  if decide (canonical a) then slot_of p (StaticPoolAddr.from_pool_addr a) else None.

Definition static_rep (p : StaticMemoryPool) (m : gmap Z (list Z)) : Prop :=
  static_wf p /\ forall a, m !! a = view p a.

(** ** Addresses *)
Section Addresses.

Lemma into_pool_addr_add i j :
  in_u 16 i -> in_u 16 j ->
  StaticPoolAddr.into_pool_addr (mkStaticPoolAddr i j) = i * 2 ^ 16 + j.
Proof.
  unfold in_u, StaticPoolAddr.into_pool_addr, as_u. simpl. intros Hi Hj.
  rewrite (Z.mod_small (Z.shiftl _ _)) by (rewrite Z.shiftl_mul_pow2; lia).
  apply lor_shiftl_add; lia.
Qed.

Lemma from_pool_addr_fields v :
  StaticPoolAddr.from_pool_addr v =
    mkStaticPoolAddr ((v / 2 ^ 16) mod 256) (v mod 256).
Proof.
  unfold StaticPoolAddr.from_pool_addr, as_u.
  change 255 with (2 ^ 8 - 1). rewrite !land_ones_mod, Z.shiftr_div_pow2 by lia.
  change (2 ^ 8) with 256.
  pose proof (Z.mod_pos_bound v 256). pose proof (Z.mod_pos_bound (v / 2 ^ 16) 256).
  rewrite !(Z.mod_small (_ mod 256)) by lia. done.
Qed.

(** Addresses with both indices below 256 survive the round trip. *)
Lemma pool_addr_roundtrip i j :
  0 <= i < 256 -> 0 <= j < 256 ->
  StaticPoolAddr.from_pool_addr
    (StaticPoolAddr.into_pool_addr (mkStaticPoolAddr i j)) = mkStaticPoolAddr i j.
Proof.
  intros Hi Hj. rewrite into_pool_addr_add by (unfold in_u; lia).
  rewrite from_pool_addr_fields. change (2 ^ 16) with (256 * 256). f_equal.
  - rewrite Z.div_add_l, (Z.div_small j) by lia. rewrite Z.add_0_r, Z.mod_small; lia.
  - replace (i * (256 * 256) + j) with (j + i * 256 * 256) by lia.
    rewrite Z.mod_add, Z.mod_small; lia.
Qed.

Lemma canonical_into i j :
  0 <= i < 256 -> 0 <= j < 256 ->
  canonical (StaticPoolAddr.into_pool_addr (mkStaticPoolAddr i j)).
Proof. intros. unfold canonical. by rewrite pool_addr_roundtrip. Qed.

Lemma from_pool_addr_range v :
  0 <= pool_idx (StaticPoolAddr.from_pool_addr v) < 256 /\
  0 <= packet_idx (StaticPoolAddr.from_pool_addr v) < 256.
Proof.
  rewrite from_pool_addr_fields. simpl.
  split; apply Z.mod_pos_bound; lia.
Qed.

End Addresses.

#[local] Opaque StaticPoolAddr.into_pool_addr StaticPoolAddr.from_pool_addr.

(** ** One subpool *)
Section Subpool.
Context (c : SubpoolConfig) (mem szs : list Z) (j : nat).
Let bs : nat := Z.to_nat (block_size c).
Let pos : Z := Z.of_nat j * block_size c.

Hypothesis Hwf : subpool_wf c mem szs.
Hypothesis Hj : (j < Z.to_nat (num_blocks c))%nat.

Lemma pos_nat : Z.to_nat pos = (j * bs)%nat.
Proof. unfold pos, bs. pose proof (sw_size _ _ _ Hwf). nia. Qed.

Lemma pos_bound n : 0 <= n <= block_size c -> 0 <= pos /\ pos + n <= len mem.
Proof.
  intros Hn. unfold pos, len. rewrite (sw_mem _ _ _ Hwf).
  pose proof (sw_size _ _ _ Hwf). pose proof (sw_blocks _ _ _ Hwf). nia.
Qed.

Lemma block_slice {E} n : 0 <= n <= block_size c ->
  slice (E:=E) mem pos (pos + n) = Ok (take (Z.to_nat n) (block_at bs mem j)).
Proof.
  intros Hn. destruct (pos_bound n Hn). rewrite slice_ok by lia.
  unfold block_at. rewrite take_take, pos_nat. do 2 f_equal. unfold bs. lia.
Qed.

Lemma block_at_other d k : k <> j -> len d <= block_size c ->
  block_at bs (splice mem pos d) k = block_at bs mem k.
Proof.
  intros Hk Hd. destruct (pos_bound (len d)); [split; [apply len_nonneg|done]|].
  apply take_drop_splice_disjoint; try done.
  unfold pos, bs. pose proof (sw_size _ _ _ Hwf). nia.
Qed.

Lemma block_at_same d : len d <= block_size c ->
  take (length d) (block_at bs (splice mem pos d) j) = d.
Proof.
  intros Hd. destruct (pos_bound (len d)); [split; [apply len_nonneg|done]|].
  unfold block_at. rewrite take_take.
  replace (length d `min` bs)%nat with (length d) by (unfold bs, len in *; lia).
  rewrite <- pos_nat. by apply take_drop_splice_same.
Qed.

(** Writing [d] at the start of block [j] together with its size entry. *)
Lemma subpool_wf_write d sz :
  len d <= block_size c -> entry_wf bs sz (block_at bs (splice mem pos d) j) ->
  subpool_wf c (splice mem pos d) (<[j := sz]> szs).
Proof.
  intros Hd He. destruct (pos_bound (len d)); [split; [apply len_nonneg|done]|].
  destruct Hwf as [H1 H2 H3 H4 H5]. constructor; try done.
  - by rewrite length_splice.
  - by rewrite length_insert.
  - intros k sz' Hk. destruct (decide (k = j)) as [->|Hne].
    + rewrite list_lookup_insert_eq in Hk by lia. by injection Hk as <-.
    + rewrite list_lookup_insert_ne in Hk by done.
      fold bs. rewrite block_at_other by done. by apply H5.
Qed.

Lemma slot_view_write_other d sz k : k <> j -> len d <= block_size c ->
  slot_view bs (splice mem pos d) (<[j := sz]> szs) k = slot_view bs mem szs k.
Proof.
  intros Hk Hd. unfold slot_view. rewrite list_lookup_insert_ne by done.
  by rewrite block_at_other.
Qed.

Lemma slot_view_write_same d : len d <= block_size c -> len d <> STORE_FREE ->
  slot_view bs (splice mem pos d) (<[j := len d]> szs) j = Some d.
Proof.
  intros Hd Hf. unfold slot_view.
  rewrite list_lookup_insert_eq by (rewrite (sw_szs _ _ _ Hwf); lia). simpl.
  destruct (Z.eqb_spec (len d) STORE_FREE); [done|].
  f_equal. replace (Z.to_nat (len d)) with (length d) by (unfold len; lia).
  by apply block_at_same.
Qed.

Lemma slot_view_free d :
  slot_view bs (splice mem pos d) (<[j := STORE_FREE]> szs) j = None.
Proof.
  unfold slot_view.
  rewrite list_lookup_insert_eq by (rewrite (sw_szs _ _ _ Hwf); lia). done.
Qed.

End Subpool.

(** ** The whole pool *)

(** Subpool [i] gets new memory and a new sizes list. *)
Definition upd (p : StaticMemoryPool) (i : nat) (mem szs : list Z) : StaticMemoryPool :=
  {| pool_cfg := pool_cfg p; pool := <[i := mem]> (pool p);
     sizes_lists := <[i := szs]> (sizes_lists p) |}.

Definition pool_addr (i j : nat) : Z :=
  StaticPoolAddr.into_pool_addr (mkStaticPoolAddr (Z.of_nat i) (Z.of_nat j)).

(** [c], [mem] and [szs] describe subpool [i] of [p]. *)
Definition subpool_at (p : StaticMemoryPool) (i : nat) (c : SubpoolConfig)
    (mem szs : list Z) : Prop :=
  cfg (pool_cfg p) !! i = Some c /\ pool p !! i = Some mem /\ sizes_lists p !! i = Some szs.

Lemma subpool_at_wf p i c mem szs :
  static_wf p -> subpool_at p i c mem szs -> subpool_wf c mem szs.
Proof. intros Hwf (Hc & Hm & Hs). by eapply wf_subpool. Qed.

Lemma subpool_at_lt p i c mem szs :
  static_wf p -> subpool_at p i c mem szs -> (i < 256)%nat.
Proof.
  intros Hwf (Hc & _). apply lookup_lt_Some in Hc. pose proof (wf_count _ Hwf). lia.
Qed.

Lemma subpool_at_exists p i c :
  static_wf p -> cfg (pool_cfg p) !! i = Some c ->
  exists mem szs, subpool_at p i c mem szs.
Proof.
  intros Hwf Hc. pose proof (lookup_lt_Some _ _ _ Hc).
  destruct (lookup_lt_is_Some_2 (pool p) i) as [mem Hm]; [rewrite (wf_pool _ Hwf); lia|].
  destruct (lookup_lt_is_Some_2 (sizes_lists p) i) as [szs Hs];
    [rewrite (wf_sizes _ Hwf); lia|].
  exists mem, szs. done.
Qed.

Lemma slot_of_at p i c mem szs a :
  subpool_at p i c mem szs -> Z.to_nat (pool_idx a) = i ->
  slot_of p a = slot_view (Z.to_nat (block_size c)) mem szs (Z.to_nat (packet_idx a)).
Proof. intros (Hc & Hm & Hs) Hi. unfold slot_of. by rewrite Hi, Hc, Hm, Hs. Qed.

Section Update.
Context (p : StaticMemoryPool) (i j : nat) (c : SubpoolConfig) (mem szs : list Z).
Context (d : list Z) (sz : Z).
Let bs : nat := Z.to_nat (block_size c).
Let mem' : list Z := splice mem (Z.of_nat j * block_size c) d.
Let szs' : list Z := <[j := sz]> szs.

Hypothesis Hwf : static_wf p.
Hypothesis Hat : subpool_at p i c mem szs.
Hypothesis Hj : (j < Z.to_nat (num_blocks c))%nat.
Hypothesis Hd : len d <= block_size c.
Hypothesis He : entry_wf bs sz (block_at bs mem' j).

Lemma upd_at : subpool_at (upd p i mem' szs') i c mem' szs'.
Proof.
  destruct Hat as (Hc & Hm & Hs). split; [done|]. simpl.
  split; apply list_lookup_insert_eq; by eapply lookup_lt_Some.
Qed.

Lemma upd_wf : static_wf (upd p i mem' szs').
Proof.
  pose proof (subpool_at_wf _ _ _ _ _ Hwf Hat) as Hsub.
  destruct Hat as (Hc & Hm & Hs), Hwf as [H1 H2 H3 H4 H5]. constructor; simpl; try done.
  - by rewrite length_insert.
  - by rewrite length_insert.
  - intros k ck memk szsk Hck Hmk Hsk. destruct (decide (k = i)) as [->|Hne].
    + rewrite list_lookup_insert_eq in Hmk by (by eapply lookup_lt_Some).
      rewrite list_lookup_insert_eq in Hsk by (by eapply lookup_lt_Some).
      simplify_eq. by apply subpool_wf_write.
    + rewrite list_lookup_insert_ne in Hmk, Hsk by done. by eapply H5.
Qed.

Lemma upd_slot_other a :
  canonical a -> a <> pool_addr i j ->
  slot_of (upd p i mem' szs') (StaticPoolAddr.from_pool_addr a) =
    slot_of p (StaticPoolAddr.from_pool_addr a).
Proof.
  intros Ha Hne. pose proof (subpool_at_wf _ _ _ _ _ Hwf Hat) as Hsub.
  pose proof (from_pool_addr_range a) as [Hpi Hpk].
  destruct (decide (Z.to_nat (pool_idx (StaticPoolAddr.from_pool_addr a)) = i)) as [Hi|Hi].
  - rewrite (slot_of_at _ _ _ _ _ _ upd_at Hi), (slot_of_at _ _ _ _ _ _ Hat Hi).
    apply slot_view_write_other; try done. intros Hk. apply Hne. unfold pool_addr, canonical in *.
    rewrite <- Ha at 1. destruct (StaticPoolAddr.from_pool_addr a); simpl in *.
    do 2 f_equal; lia.
  - unfold slot_of, upd. simpl. by rewrite !list_lookup_insert_ne by done.
Qed.

Lemma pool_addr_lt : 0 <= Z.of_nat i < 256 /\ 0 <= Z.of_nat j < 256.
Proof.
  pose proof (subpool_at_lt _ _ _ _ _ Hwf Hat).
  pose proof (sw_blocks _ _ _ (subpool_at_wf _ _ _ _ _ Hwf Hat)). lia.
Qed.

Lemma canonical_pool_addr : canonical (pool_addr i j).
Proof. destruct pool_addr_lt. by apply canonical_into. Qed.

Lemma from_pool_addr_at :
  StaticPoolAddr.from_pool_addr (pool_addr i j) = mkStaticPoolAddr (Z.of_nat i) (Z.of_nat j).
Proof. destruct pool_addr_lt. by apply pool_addr_roundtrip. Qed.

Lemma view_at : view p (pool_addr i j) = slot_view bs mem szs j.
Proof.
  unfold view. rewrite decide_True by apply canonical_pool_addr.
  rewrite from_pool_addr_at.
  rewrite (slot_of_at _ _ _ _ _ _ Hat) by (simpl; lia). simpl. by rewrite Nat2Z.id.
Qed.

Lemma rep_upd m :
  static_rep p m ->
  static_rep (upd p i mem' szs')
    (partial_alter (fun _ => slot_view bs mem' szs' j) (pool_addr i j) m).
Proof.
  intros [_ Hm]. split; [exact upd_wf|]. intros a.
  destruct (Z.eq_dec (pool_addr i j) a) as [<-|Hne].
  - rewrite lookup_partial_alter_eq. unfold view.
    rewrite decide_True by apply canonical_pool_addr.
    rewrite from_pool_addr_at, (slot_of_at _ _ _ _ _ _ upd_at) by (simpl; lia).
    simpl. by rewrite Nat2Z.id.
  - rewrite lookup_partial_alter_ne by done. rewrite Hm. unfold view.
    case_decide; [|done]. by rewrite upd_slot_other.
Qed.

End Update.

(** ** Looking up an address *)

(** The address of block [j] of subpool [i]. *)
Definition block_addr (i j : nat) : StaticPoolAddr :=
  mkStaticPoolAddr (Z.of_nat i) (Z.of_nat j).

Lemma from_pool_addr_nat a :
  exists i j, StaticPoolAddr.from_pool_addr a = block_addr i j /\
    (canonical a -> a = pool_addr i j).
Proof.
  pose proof (from_pool_addr_range a) as [Hi Hj]. unfold canonical, pool_addr.
  destruct (StaticPoolAddr.from_pool_addr a) as [i j]; simpl in *.
  exists (Z.to_nat i), (Z.to_nat j). unfold block_addr. rewrite !Z2Nat.id by lia. done.
Qed.

Lemma curr_size_at p i j szs sz :
  sizes_lists p !! i = Some szs -> szs !! j = Some sz ->
  StaticPool.curr_size p (block_addr i j) = Ok sz.
Proof.
  intros Hs Hsz. unfold StaticPool.curr_size. simpl. rewrite Nat2Z.id, Hs. simpl.
  apply index_ok; [lia|]. by rewrite Nat2Z.id.
Qed.

Section Blocks.
Context (p : StaticMemoryPool) (i j : nat) (c : SubpoolConfig) (mem szs : list Z).
Let bs : nat := Z.to_nat (block_size c).
Let pos : Z := Z.of_nat j * block_size c.

Hypothesis Hsub : subpool_wf c mem szs.
Hypothesis Hc : cfg (pool_cfg p) !! i = Some c.
Hypothesis Hj : (j < Z.to_nat (num_blocks c))%nat.

Lemma validate_addr_ok : StaticPool.validate_addr p (block_addr i j) = Ok tt.
Proof.
  unfold StaticPool.validate_addr. simpl. rewrite Nat2Z.id, Hc.
  destruct (Z.leb_spec (num_blocks c) (Z.of_nat j)); [lia|done].
Qed.

Lemma raw_pos_at : StaticPool.raw_pos p (block_addr i j) = Some pos.
Proof. unfold StaticPool.raw_pos. simpl. by rewrite Nat2Z.id, Hc. Qed.

Hypothesis Hm : pool p !! i = Some mem.

Lemma write_at data :
  len data <= block_size c ->
  StaticPool.write (block_addr i j) data p =
    (Ok tt, StaticPool.set_memory (Z.of_nat i) (splice mem pos data) p).
Proof.
  intros Hd. unfold StaticPool.write. run_monad. rewrite raw_pos_at, Nat2Z.id, Hm.
  destruct (pos_bound c mem szs j Hsub Hj (len data)); [split; [apply len_nonneg|done]|].
  by rewrite copy_into_ok.
Qed.

Lemma with_block_at n f :
  0 <= n <= block_size c -> len (f (take (Z.to_nat n) (block_at bs mem j))) = n ->
  StaticPool.with_block (block_addr i j) n f p =
    (Ok tt, StaticPool.set_memory (Z.of_nat i)
              (splice mem pos (f (take (Z.to_nat n) (block_at bs mem j)))) p).
Proof.
  intros Hn Hf. unfold StaticPool.with_block. run_monad. rewrite raw_pos_at, Nat2Z.id, Hm.
  unfold pos, bs in *. rewrite (block_slice c mem szs j Hsub Hj n Hn).
  destruct (pos_bound c mem szs j Hsub Hj n Hn).
  rewrite copy_into_ok; [done|lia|rewrite Hf; lia|lia].
Qed.

Lemma length_block_at : length (block_at bs mem j) = bs.
Proof.
  unfold block_at. rewrite length_take, length_drop, (sw_mem _ _ _ Hsub).
  fold bs. nia.
Qed.

End Blocks.

Section Lookup.
Context (p : StaticMemoryPool) (m : gmap Z (list Z)).
Hypothesis Hrep : static_rep p m.

(** What the concrete state looks like behind a stored string. *)
Lemma rep_some a d :
  m !! a = Some d ->
  exists i j c mem szs,
    StaticPoolAddr.from_pool_addr a = block_addr i j /\ a = pool_addr i j /\
    subpool_at p i c mem szs /\ (j < Z.to_nat (num_blocks c))%nat /\
    szs !! j = Some (len d) /\ len d <= block_size c /\ len d <> STORE_FREE /\
    take (length d) (block_at (Z.to_nat (block_size c)) mem j) = d.
Proof.
  intros Hd. rewrite (proj2 Hrep) in Hd. unfold view in Hd. case_decide as Ha; [|done].
  destruct (from_pool_addr_nat a) as (i & j & Hfrom & Hto). rewrite Hfrom in Hd.
  unfold slot_of in Hd. simpl in Hd. rewrite !Nat2Z.id in Hd.
  destruct (cfg (pool_cfg p) !! i) as [c|] eqn:Hc; [|done].
  destruct (pool p !! i) as [mem|] eqn:Hm; [|done].
  destruct (sizes_lists p !! i) as [szs|] eqn:Hs; [|done]. simpl in Hd.
  assert (subpool_at p i c mem szs) as Hat by done.
  pose proof (subpool_at_wf _ _ _ _ _ (proj1 Hrep) Hat) as Hsub.
  unfold slot_view in Hd. destruct (szs !! j) as [sz|] eqn:Hsz; [|done]. simpl in Hd.
  destruct (Z.eqb_spec sz STORE_FREE); [done|].
  pose proof (lookup_lt_Some _ _ _ Hsz) as Hlt. rewrite (sw_szs _ _ _ Hsub) in Hlt.
  destruct (sw_entry _ _ _ Hsub _ _ Hsz) as [[? _]|Hle]; [done|].
  pose proof (sw_size _ _ _ Hsub). injection Hd as Hd.
  assert (length d = Z.to_nat sz) as Hld.
  { rewrite <- Hd, length_take, (length_block_at j c mem szs Hsub Hlt). lia. }
  exists i, j, c, mem, szs. unfold len. rewrite Hld, Z2Nat.id by lia.
  repeat split; auto; lia.
Qed.

Lemma addr_check_some a d :
  m !! a = Some d -> StaticPool.addr_check p (StaticPoolAddr.from_pool_addr a) = Ok (len d).
Proof.
  intros Hd.
  destruct (rep_some a d Hd) as (i & j & c & mem & szs & -> & _ & (Hc & _ & Hs) & Hj & Hsz & _ & Hf & _).
  unfold StaticPool.addr_check. erewrite validate_addr_ok, curr_size_at by done. simpl.
  by destruct (Z.eqb_spec (len d) STORE_FREE).
Qed.

(** An address without data: outside the pool, or a free block. *)
Lemma rep_none a (ad := StaticPoolAddr.from_pool_addr a) :
  canonical a -> m !! a = None ->
  (exists e, StaticPool.validate_addr p ad = Err e) \/
  (StaticPool.validate_addr p ad = Ok tt /\ StaticPool.curr_size p ad = Ok STORE_FREE).
Proof.
  intros Ha Hn. rewrite (proj2 Hrep) in Hn. unfold view in Hn.
  rewrite decide_True in Hn by done. fold ad in Hn.
  destruct (StaticPool.validate_addr p ad) as [[]|e|] eqn:Hv; [right| by eauto |].
  - split; [done|]. subst ad. destruct (from_pool_addr_nat a) as (i & j & Hfrom & _).
    rewrite Hfrom in *. unfold StaticPool.validate_addr in Hv. simpl in Hv.
    rewrite Nat2Z.id in Hv. destruct (cfg (pool_cfg p) !! i) as [c|] eqn:Hc; [|done].
    destruct (subpool_at_exists p i c (proj1 Hrep) Hc) as (mem & szs & Hat).
    pose proof (subpool_at_wf _ _ _ _ _ (proj1 Hrep) Hat) as Hsub.
    destruct (Z.leb_spec (num_blocks c) (Z.of_nat j)) as [|Hlt]; [done|].
    destruct (lookup_lt_is_Some_2 szs j) as [sz Hsz]; [rewrite (sw_szs _ _ _ Hsub); lia|].
    rewrite (slot_of_at _ _ _ _ _ _ Hat) in Hn by (simpl; lia). simpl in Hn.
    rewrite Nat2Z.id in Hn. unfold slot_view in Hn. rewrite Hsz in Hn. simpl in Hn.
    destruct (Z.eqb_spec sz STORE_FREE) as [Heq|]; [|done]. rewrite Heq in Hsz.
    eapply curr_size_at; [apply Hat|done].
  - unfold StaticPool.validate_addr in Hv. by repeat split_match.
Qed.

Lemma addr_check_none a :
  canonical a -> m !! a = None ->
  exists e, StaticPool.addr_check p (StaticPoolAddr.from_pool_addr a) = Err e.
Proof.
  intros Ha Hn. unfold StaticPool.addr_check.
  destruct (rep_none a Ha Hn) as [[e ->]|[-> ->]]; simpl; eauto.
Qed.

End Lookup.

Lemma set_memory_upd p i c mem szs mem' :
  subpool_at p i c mem szs ->
  StaticPool.set_memory (Z.of_nat i) mem' p = upd p i mem' szs.
Proof.
  intros (_ & _ & Hs). unfold StaticPool.set_memory, upd. rewrite Nat2Z.id.
  f_equal. symmetry. by apply list_insert_id.
Qed.

Lemma set_memory_set_size_upd p i c mem szs mem' j sz :
  subpool_at p i c mem szs ->
  StaticPool.set_memory (Z.of_nat i) mem' (StaticPool.set_size (Z.of_nat i) (Z.of_nat j) sz p) =
    upd p i mem' (<[j := sz]> szs).
Proof.
  intros (_ & _ & Hs). unfold StaticPool.set_memory, StaticPool.set_size, upd. simpl.
  rewrite !Nat2Z.id. f_equal. apply list_eq. intros k.
  destruct (decide (k = i)) as [->|Hne].
  - rewrite list_lookup_alter_eq, Hs.
    rewrite list_lookup_insert_eq by (by eapply lookup_lt_Some). done.
  - by rewrite list_lookup_alter_ne, list_lookup_insert_ne by done.
Qed.

(** ** Operations of [StaticMemoryPool] on the abstract map *)
Section StaticOps.
Context (p : StaticMemoryPool) (m : gmap Z (list Z)) (a : Z).
Hypothesis Hrep : static_rep p m.

Lemma static_read_some d buf :
  m !! a = Some d ->
  StaticPool.read p a buf =
    if len buf <? len d
    then Err (PoolByteConversionError (ToSliceTooSmall (len buf) (len d)))
    else Ok (len d, d ++ drop (length d) buf).
Proof.
  intros Hd. unfold StaticPool.read. rewrite (addr_check_some p m Hrep a d Hd). simpl.
  destruct (rep_some p m Hrep a d Hd)
    as (i & j & c & mem & szs & -> & _ & Hat & Hj & Hsz & Hle & Hf & Hblk).
  pose proof (subpool_at_wf _ _ _ _ _ (proj1 Hrep) Hat) as Hsub.
  destruct (Z.ltb_spec (len buf) (len d)); [done|].
  rewrite (raw_pos_at p i j c) by apply Hat. simpl.
  rewrite Nat2Z.id, (proj1 (proj2 Hat)). simpl. pose proof (len_nonneg d).
  rewrite (block_slice c mem szs j Hsub Hj) by lia. simpl.
  replace (Z.to_nat (len d)) with (length d) by (unfold len; lia). rewrite Hblk.
  rewrite copy_into_ok by lia. done.
Qed.

Lemma static_read_none buf :
  canonical a -> m !! a = None -> exists e, StaticPool.read p a buf = Err e.
Proof.
  intros Ha Hn. unfold StaticPool.read.
  destruct (addr_check_none p m Hrep a Ha Hn) as [e ->]. simpl. eauto.
Qed.

Lemma static_len_some d : m !! a = Some d -> StaticPool.len_of_data p a = Ok (len d).
Proof.
  intros Hd.
  destruct (rep_some p m Hrep a d Hd)
    as (i & j & c & mem & szs & Hfrom & _ & (Hc & _ & Hs) & Hj & Hsz & _ & Hf & _).
  unfold StaticPool.len_of_data. rewrite Hfrom.
  erewrite validate_addr_ok, curr_size_at by done. simpl.
  by destruct (Z.eqb_spec (len d) STORE_FREE).
Qed.

Lemma static_len_none :
  canonical a -> m !! a = None ->
  StaticPool.len_of_data p a = Ok 0 \/ exists e, StaticPool.len_of_data p a = Err e.
Proof.
  intros Ha Hn. unfold StaticPool.len_of_data.
  destruct (rep_none p m Hrep a Ha Hn) as [[e ->]|[-> ->]]; simpl; eauto.
Qed.

Lemma static_has_element_at :
  canonical a ->
  (exists d, m !! a = Some d) <-> StaticPool.has_element_at p a = Ok true.
Proof.
  intros Ha. unfold StaticPool.has_element_at. destruct (m !! a) as [d|] eqn:Hd.
  - destruct (rep_some p m Hrep a d Hd)
      as (i & j & c & mem & szs & -> & _ & (Hc & _ & Hs) & Hj & Hsz & _ & Hf & _).
    erewrite validate_addr_ok, curr_size_at by done. simpl.
    destruct (Z.eqb_spec (len d) STORE_FREE); [done|]. simpl. naive_solver.
  - split; [intros [? ?]; done|].
    destruct (rep_none p m Hrep a Ha Hd) as [[e ->]|[-> ->]]; done.
Qed.

Lemma static_delete_some d :
  m !! a = Some d ->
  exists p', StaticPool.delete a p = (Ok tt, p') /\ static_rep p' (delete a m).
Proof.
  intros Hd. pose proof (addr_check_some p m Hrep a d Hd) as Hck.
  destruct (rep_some p m Hrep a d Hd)
    as (i & j & c & mem & szs & Hfrom & Hto & Hat & Hj & Hsz & _).
  pose proof (subpool_at_wf _ _ _ _ _ (proj1 Hrep) Hat) as Hsub.
  pose proof (sw_size _ _ _ Hsub). set (bs := Z.to_nat (block_size c)).
  pose proof (length_block_at j c mem szs Hsub Hj) as Hlb. fold bs in Hlb.
  unfold StaticPool.delete. rewrite Hfrom in *. unfold st_bind, asks, modify_state.
  rewrite Hck. simpl. rewrite Nat2Z.id, (proj1 Hat). simpl.
  fold (block_addr i j). pose proof Hat as (Hc & Hm & Hs).
  erewrite (with_block_at _ i j c mem szs Hsub); [|exact Hc|exact Hj|exact Hm|lia|].
  2: { rewrite len_replicate, length_take. fold bs. rewrite Hlb. lia. }
  eexists. split; [done|].
  rewrite (set_memory_set_size_upd _ _ _ _ _ _ _ _ Hat).
  rewrite length_take. fold bs. rewrite Hlb, Nat.min_id.
  assert (delete a m = partial_alter (fun _ => None) a m) as -> by done.
  rewrite Hto. rewrite <- (slot_view_free c mem szs j Hsub Hj (replicate bs 0)).
  eapply rep_upd; [apply Hrep|exact Hat|exact Hj| | |exact Hrep].
  - rewrite len_replicate. unfold bs. lia.
  - left. split; [done|]. fold bs.
    pose proof (block_at_same c mem szs j Hsub Hj (replicate bs 0)) as Hb.
    rewrite length_replicate in Hb. rewrite <- Hb at 2.
    + unfold block_at at 2. fold bs. rewrite take_take, Nat.min_id. done.
    + rewrite len_replicate. unfold bs. lia.
Qed.

Lemma static_delete_none :
  canonical a -> m !! a = None -> exists e, StaticPool.delete a p = (Err e, p).
Proof.
  intros Ha Hn. unfold StaticPool.delete. run_monad.
  destruct (addr_check_none p m Hrep a Ha Hn) as [e ->]. eauto.
Qed.

Lemma static_modify_some d f :
  m !! a = Some d -> length (f d) = length d ->
  exists p', StaticPool.modify a f p = (Ok tt, p') /\ static_rep p' (<[a := f d]> m).
Proof.
  intros Hd Hf. pose proof (addr_check_some p m Hrep a d Hd) as Hck.
  destruct (rep_some p m Hrep a d Hd)
    as (i & j & c & mem & szs & Hfrom & Hto & Hat & Hj & Hsz & Hle & Hfree & Hblk).
  pose proof (subpool_at_wf _ _ _ _ _ (proj1 Hrep) Hat) as Hsub.
  pose proof (len_nonneg d).
  assert (len (f d) = len d) as Hlf by (unfold len; by rewrite Hf).
  unfold StaticPool.modify. rewrite Hfrom in *. unfold st_bind, asks. rewrite Hck.
  assert (Z.to_nat (len d) = length d) as Hl by (unfold len; lia).
  rewrite (with_block_at _ i j c mem szs Hsub)
    by (try apply Hat; try done; rewrite ?Hl, ?Hblk; lia).
  rewrite Hl, Hblk. eexists. split; [done|].
  rewrite (set_memory_upd _ _ _ _ _ _ Hat).
  rewrite <- (list_insert_id szs _ _ Hsz), <- Hlf.
  assert (<[a := f d]> m = partial_alter (fun _ => Some (f d)) a m) as -> by done.
  rewrite Hto. rewrite <- (slot_view_write_same c mem szs j Hsub Hj (f d)) by lia.
  eapply rep_upd; [apply Hrep|exact Hat|exact Hj|lia| |exact Hrep].
  right. lia.
Qed.

End StaticOps.

(** ** Choosing a block *)
Lemma find_subpool_loop_spec l n i :
  0 <= i -> i + len l <= 2 ^ 16 ->
  match find_subpool_loop i l n 0 with
  | Ok k => exists q c, k = i + Z.of_nat q /\ l !! q = Some c /\ n <= block_size c /\
      forall q' c', (q' < q)%nat -> l !! q' = Some c' -> block_size c' < n
  | Err e => e = DataTooLarge n /\ forall q c, l !! q = Some c -> block_size c < n
  | Panic => False
  end.
Proof.
  revert i. induction l as [|c l IH]; intros i Hi Hl; simpl; [done|].
  rewrite len_cons in Hl. pose proof (len_nonneg l).
  replace (i <? 0) with false by bool_lia.
  destruct (Z.leb_spec n (block_size c)).
  - exists 0%nat, c. unfold as_u. rewrite Z.mod_small by lia.
    repeat split; try done; lia.
  - specialize (IH (i + 1) ltac:(lia) ltac:(lia)).
    destruct (find_subpool_loop (i + 1) l n 0) as [k|e|]; [| |done].
    + destruct IH as (q & c' & -> & Hq & Hn & Hbefore). exists (S q), c'.
      repeat split; try done; [lia|].
      intros [|q'] c'' Hlt Hq'; simpl in Hq'; [by simplify_eq|].
      apply (Hbefore q'); [lia|done].
    + destruct IH as [-> Hall]. split; [done|].
      intros [|q] c' Hq; simpl in Hq; [by simplify_eq|]. by eapply Hall.
Qed.

Lemma first_free_spec l i :
  match first_free i l with
  | Some k => exists q, k = i + Z.of_nat q /\ l !! q = Some STORE_FREE
  | None => STORE_FREE ∉ l
  end.
Proof.
  revert i. induction l as [|sz l IH]; intros i; cbn [first_free].
  - apply not_elem_of_nil.
  - destruct (Z.eqb_spec sz STORE_FREE) as [->|Hne].
    + exists 0%nat. split; [lia|done].
    + specialize (IH (i + 1)). destruct (first_free (i + 1) l) as [k|].
      * destruct IH as (q & -> & Hq). exists (S q). split; [lia|done].
      * apply not_elem_of_cons. done.
Qed.

(** Subpool [i] has blocks large enough for [n] bytes; it has a free block. *)
Definition fits (p : StaticMemoryPool) (n : Z) (i : nat) : Prop :=
  exists c, cfg (pool_cfg p) !! i = Some c /\ n <= block_size c.

Definition has_room (p : StaticMemoryPool) (i : nat) : Prop :=
  exists szs, sizes_lists p !! i = Some szs /\ STORE_FREE ∈ szs.

(** The subpool a request of [n] bytes has to be served from: the one with the
    smallest fitting blocks, or with spilling the first of the fitting ones
    that has room. *)
Definition target (p : StaticMemoryPool) (n : Z) (i : nat) : Prop :=
  fits p n i /\
  if spill_to_higher_subpools (pool_cfg p)
  then has_room p i /\ forall i', (i' < i)%nat -> fits p n i' -> ~ has_room p i'
  else forall i', (i' < i)%nat -> ~ fits p n i'.

(** Why a request of [n] bytes is refused. *)
Definition refusal (p : StaticMemoryPool) (n : Z) (e : PoolError) : Prop :=
  (e = DataTooLarge n /\ forall i, ~ fits p n i) \/
  ((exists k, e = StoreFull k) /\ (exists i, fits p n i) /\
   forall i, target p n i -> ~ has_room p i).

Section Choice.
Context (p : StaticMemoryPool).
Hypothesis Hwf : static_wf p.

Lemma fits_lt n i : fits p n i -> (i < length (cfg (pool_cfg p)))%nat.
Proof. intros (c & Hc & _). by eapply lookup_lt_Some. Qed.

Lemma fits_mono n i k :
  fits p n i -> (i <= k < length (cfg (pool_cfg p)))%nat -> fits p n k.
Proof.
  intros (c & Hc & Hn) Hk. destruct (lookup_lt_is_Some_2 (cfg (pool_cfg p)) k) as [c' Hc'].
  { lia. }
  exists c'. split; [done|].
  destruct (decide (i = k)) as [->|Hne]; [by simplify_eq|].
  pose proof (strongly_sorted_lookup StaticPoolConfig.size_le _ i k c c' (wf_sorted _ Hwf)
    Hc Hc' ltac:(lia)) as Hle.
  unfold StaticPoolConfig.size_le in Hle. lia.
Qed.

Lemma find_empty_spec i :
  (i < length (cfg (pool_cfg p)))%nat ->
  match StaticPool.find_empty p (Z.of_nat i) with
  | Ok s => exists j szs, s = (Z.of_nat j, Z.of_nat j) /\ sizes_lists p !! i = Some szs /\
      szs !! j = Some STORE_FREE
  | Err e => e = StoreFull (Z.of_nat i) /\ ~ has_room p i
  | Panic => False
  end.
Proof.
  intros Hi. destruct (lookup_lt_is_Some_2 _ _ Hi) as [c Hc].
  destruct (subpool_at_exists p i c Hwf Hc) as (mem & szs & Hat).
  pose proof (subpool_at_wf _ _ _ _ _ Hwf Hat) as Hsub. destruct Hat as (_ & _ & Hs).
  unfold StaticPool.find_empty, has_room. rewrite Nat2Z.id, Hs.
  pose proof (first_free_spec szs 0) as Hf. destruct (first_free 0 szs) as [k|].
  - destruct Hf as (q & -> & Hq). exists q, szs. split; [|done].
    apply lookup_lt_Some in Hq as Hlt. rewrite (sw_szs _ _ _ Hsub) in Hlt.
    pose proof (sw_blocks _ _ _ Hsub). unfold as_u. rewrite Z.mod_small by lia. done.
  - split; [done|]. intros (szs' & ? & ?). by simplify_eq.
Qed.

(** The spill loop ends, on the first subpool with room at or after [i]. *)
Lemma spill_loop_spec fuel i :
  (i < length (cfg (pool_cfg p)))%nat -> (length (cfg (pool_cfg p)) <= i + fuel)%nat ->
  match StaticPool.spill_loop fuel p (Z.of_nat i) with
  | Ok k => exists i', k = Z.of_nat i' /\ (i <= i' < length (cfg (pool_cfg p)))%nat /\
      has_room p i' /\ forall q, (i <= q < i')%nat -> ~ has_room p q
  | Err e => e = StoreFull (len (cfg (pool_cfg p)) - 1) /\
      forall q, (i <= q)%nat -> ~ has_room p q
  | Panic => False
  end.
Proof.
  revert i. induction fuel as [|fuel IH]; intros i Hi Hfuel; [lia|].
  pose proof (find_empty_spec i Hi) as Hf. simpl.
  destruct (StaticPool.find_empty p (Z.of_nat i)) as [s|e|]; [| |done].
  - destruct Hf as (j & szs & -> & Hs & Hj). exists i. repeat split; try lia.
    exists szs. split; [done|]. by eapply list_elem_of_lookup_2.
  - destruct Hf as [-> Hfull]. pose proof (wf_count _ Hwf).
    unfold checked_add. change (2 ^ 16) with 65536.
    replace (Z.of_nat i + 1 <? 65536) with true by bool_lia. simpl.
    replace (Z.of_nat i + 1) with (Z.of_nat (S i)) by lia.
    unfold len. rewrite (wf_sizes _ Hwf).
    destruct (Z.eqb_spec (Z.of_nat (S i)) (Z.of_nat (length (cfg (pool_cfg p))))) as [He|He].
    + split; [f_equal; lia|]. intros q Hq (szs & Hs & Hin).
      destruct (decide (q = i)) as [->|Hne]; [apply Hfull; by exists szs|].
      apply lookup_lt_Some in Hs. rewrite (wf_sizes _ Hwf) in Hs. lia.
    + specialize (IH (S i) ltac:(lia) ltac:(lia)). unfold len in IH.
      assert (Hstep : forall q, (i <= q)%nat -> (S i <= q)%nat \/ q = i) by lia.
      destruct (StaticPool.spill_loop fuel p (Z.of_nat (S i))) as [k|e|]; [| |done].
      * destruct IH as (i' & -> & Hi' & Hroom & Hbefore). exists i'.
        repeat split; try lia; [done|]. intros q [Hq Hq'].
        destruct (Hstep q Hq) as [?| ->]; [apply Hbefore; lia|done].
      * destruct IH as [-> Hall]. split; [done|]. intros q Hq.
        destruct (Hstep q Hq) as [?| ->]; [by apply Hall|done].
Qed.

Lemma select_subpool_spec n :
  match StaticPool.select_subpool p n with
  | Ok k => exists i, k = Z.of_nat i /\ target p n i
  | Err e => refusal p n e
  | Panic => False
  end.
Proof.
  unfold StaticPool.select_subpool, StaticPool.find_subpool.
  pose proof (wf_count _ Hwf) as Hcount.
  pose proof (find_subpool_loop_spec (cfg (pool_cfg p)) n 0 ltac:(lia)
    ltac:(unfold len; lia)) as Hf.
  destruct (find_subpool_loop 0 (cfg (pool_cfg p)) n 0) as [k|e|]; [| |done]; simpl.
  2: { destruct Hf as [-> Hall]. left. split; [done|]. intros i (c & Hc & Hn).
       pose proof (Hall i c Hc). lia. }
  destruct Hf as (i & c & -> & Hc & Hn & Hbefore).
  assert (Hfit : fits p n i) by (by exists c).
  assert (Hnot : forall i', (i' < i)%nat -> ~ fits p n i').
  { intros i' Hlt (c' & Hc' & Hn'). pose proof (Hbefore i' c' Hlt Hc'). lia. }
  destruct (spill_to_higher_subpools (pool_cfg p)) eqn:Hsp.
  2: { exists i. unfold target. rewrite Hsp. split; [lia|done]. }
  pose proof (spill_loop_spec (length (sizes_lists p)) i (fits_lt n i Hfit)) as Hs.
  rewrite (wf_sizes _ Hwf) in *. specialize (Hs ltac:(lia)). rewrite Z.add_0_l.
  destruct (StaticPool.spill_loop _ p (Z.of_nat i)) as [k|e|]; [| |done].
  - destruct Hs as (i' & -> & Hi' & Hroom & Hbetween). exists i'. split; [done|].
    unfold target. rewrite Hsp. split; [by apply (fits_mono n i)|]. split; [done|].
    intros q Hq Hfq. destruct (decide (i <= q)%nat); [apply Hbetween; lia|].
    exfalso. apply (Hnot q); [lia|done].
  - destruct Hs as [-> Hall]. right. split; [by eexists|]. split; [by exists i|].
    intros i' Ht. unfold target in Ht. rewrite Hsp in Ht. destruct Ht as [Hf' _].
    apply Hall. destruct (decide (i <= i')%nat); [done|]. exfalso. apply (Hnot i'); [lia|done].
Qed.

Lemma reserve_spec n :
  match StaticPool.reserve n p with
  | (Ok ad, p') => exists i j szs, ad = block_addr i j /\
      p' = StaticPool.set_size (Z.of_nat i) (Z.of_nat j) n p /\
      target p n i /\ sizes_lists p !! i = Some szs /\ szs !! j = Some STORE_FREE
  | (Err e, p') => p' = p /\ refusal p n e
  | (Panic, _) => False
  end.
Proof.
  unfold StaticPool.reserve, st_bind, asks, modify_state, ret.
  pose proof (select_subpool_spec n) as Hsel.
  destruct (StaticPool.select_subpool p n) as [k|e|]; [|done|done].
  destruct Hsel as (i & -> & Ht).
  pose proof (find_empty_spec i (fits_lt n i (proj1 Ht))) as Hf.
  destruct (StaticPool.find_empty p (Z.of_nat i)) as [s|e|]; [| |done].
  - destruct Hf as (j & szs & -> & Hs & Hj). simpl. by exists i, j, szs.
  - destruct Hf as [-> Hfull]. split; [done|]. right. split; [by eexists|].
    split; [exists i; apply Ht|]. intros i' Ht' Hroom. apply Hfull.
    unfold target in *. destruct (spill_to_higher_subpools (pool_cfg p)); [by apply Ht|].
    destruct Ht as [Hfi Hi], Ht' as [Hfi' Hi'].
    destruct (Nat.lt_trichotomy i i') as [?|[<-|?]]; [|done|].
    + exfalso. by eapply Hi'.
    + exfalso. by eapply Hi.
Qed.

End Choice.

(** ** Storing data *)
Section Store.
Context (p : StaticMemoryPool) (n : Z) (i j : nat) (szs : list Z).
Hypothesis Hwf : static_wf p.
Hypothesis Ht : target p n i.
Hypothesis Hs : sizes_lists p !! i = Some szs.
Hypothesis Hj : szs !! j = Some STORE_FREE.

Lemma reserved_block :
  exists c mem, subpool_at p i c mem szs /\ subpool_wf c mem szs /\ n <= block_size c /\
    (j < Z.to_nat (num_blocks c))%nat /\
    block_at (Z.to_nat (block_size c)) mem j = replicate (Z.to_nat (block_size c)) 0.
Proof.
  destruct Ht as [(c & Hc & Hn) _].
  destruct (subpool_at_exists p i c Hwf Hc) as (mem & szs' & Hat).
  assert (szs' = szs) as -> by (destruct Hat as (_ & _ & ?); congruence).
  pose proof (subpool_at_wf _ _ _ _ _ Hwf Hat) as Hsub. exists c, mem.
  pose proof (lookup_lt_Some _ _ _ Hj) as Hlt. rewrite (sw_szs _ _ _ Hsub) in Hlt.
  pose proof (sw_size _ _ _ Hsub).
  repeat split; try done; try apply Hat; try apply Hsub.
  destruct (sw_entry _ _ _ Hsub _ _ Hj) as [[_ He]|He]; [done|].
  unfold MAX_BLOCK_SIZE in *. lia.
Qed.

Let p1 : StaticMemoryPool := StaticPool.set_size (Z.of_nat i) (Z.of_nat j) n p.

Lemma write_reserved data m :
  static_rep p m -> len data = n ->
  exists p', StaticPool.write (block_addr i j) data p1 = (Ok tt, p') /\
    m !! pool_addr i j = None /\ canonical (pool_addr i j) /\
    static_rep p' (<[pool_addr i j := data]> m).
Proof.
  intros Hrep Hn. destruct reserved_block as (c & mem & Hat & Hsub & Hle & Hlt & _).
  pose proof Hat as (Hc & Hm & _). unfold p1.
  rewrite (write_at _ i j c mem szs) by (done || lia).
  rewrite (set_memory_set_size_upd _ _ _ _ _ _ _ _ Hat). eexists. split; [done|].
  assert (canonical (pool_addr i j)) by (by eapply canonical_pool_addr).
  split; [|split; [done|]].
  - rewrite (proj2 Hrep). unfold view. rewrite decide_True by done.
    assert (0 <= Z.of_nat i < 256 /\ 0 <= Z.of_nat j < 256) as [Hi256 Hj256].
    { pose proof (subpool_at_lt _ _ _ _ _ Hwf Hat). pose proof (sw_blocks _ _ _ Hsub). lia. }
    unfold pool_addr. rewrite pool_addr_roundtrip by done.
    rewrite (slot_of_at _ _ _ _ _ _ Hat) by (simpl; lia). simpl. rewrite Nat2Z.id.
    unfold slot_view. by rewrite Hj.
  - pose proof (sw_size _ _ _ Hsub).
    assert (<[pool_addr i j := data]> m =
      partial_alter (fun _ => Some data) (pool_addr i j) m) as -> by done.
    rewrite <- (slot_view_write_same c mem szs j Hsub Hlt data)
      by (unfold MAX_BLOCK_SIZE in *; lia).
    rewrite <- Hn. eapply rep_upd; try done; [lia|]. right. pose proof (len_nonneg data). lia.
Qed.

Lemma with_block_reserved w :
  0 <= n -> len (w (replicate (Z.to_nat n) 0)) = n ->
  StaticPool.with_block (block_addr i j) n w p1 =
    StaticPool.write (block_addr i j) (w (replicate (Z.to_nat n) 0)) p1.
Proof.
  intros Hn Hw. destruct reserved_block as (c & mem & Hat & Hsub & Hle & Hlt & Hz).
  pose proof Hat as (Hc & Hm & _). unfold p1.
  assert (take (Z.to_nat n) (block_at (Z.to_nat (block_size c)) mem j) =
    replicate (Z.to_nat n) 0) as Hblk.
  { rewrite Hz, take_replicate. f_equal. lia. }
  rewrite (write_at _ i j c mem szs) by (done || lia).
  rewrite (with_block_at _ i j c mem szs) by (rewrite ?Hblk; done || lia).
  by rewrite Hblk.
Qed.

End Store.

Lemma too_large_refused p n :
  static_wf p -> MAX_BLOCK_SIZE < n -> refusal p n (DataTooLarge n).
Proof.
  intros Hwf Hn. left. split; [done|]. intros i (c & Hc & Hle).
  destruct (subpool_at_exists p i c Hwf Hc) as (mem & szs & Hat).
  pose proof (sw_size _ _ _ (subpool_at_wf _ _ _ _ _ Hwf Hat)). lia.
Qed.

Lemma static_add_spec p m data :
  static_rep p m ->
  match StaticPool.add data p with
  | (Ok a, p') => exists i j, a = pool_addr i j /\ target p (len data) i /\
      canonical a /\ m !! a = None /\ static_rep p' (<[a := data]> m)
  | (Err e, p') => p' = p /\ refusal p (len data) e
  | (Panic, _) => False
  end.
Proof.
  intros Hrep. pose proof (proj1 Hrep) as Hwf. unfold StaticPool.add.
  destruct (Z.ltb_spec MAX_BLOCK_SIZE (len data)) as [Hmax|Hmax].
  { split; [done|]. by apply too_large_refused. }
  unfold st_bind at 1. pose proof (reserve_spec p Hwf (len data)) as Hr.
  destruct (StaticPool.reserve (len data) p) as [[ad|e|] p1]; [|done|done].
  destruct Hr as (i & j & szs & -> & -> & Ht & Hs & Hj).
  destruct (write_reserved p (len data) i j szs Hwf Ht Hs Hj data m Hrep eq_refl)
    as (p' & Hw & Hnone & Hcan & Hrep').
  unfold st_bind. rewrite Hw. simpl. by exists i, j.
Qed.

(** [free_element] is [add] of what the closure makes of a zeroed block. *)
Lemma free_element_add p n w :
  static_wf p -> 0 <= n -> len (w (replicate (Z.to_nat n) 0)) = n ->
  StaticPool.free_element n w p = StaticPool.add (w (replicate (Z.to_nat n) 0)) p.
Proof.
  intros Hwf Hn Hw. unfold StaticPool.free_element, StaticPool.add. rewrite Hw.
  destruct (MAX_BLOCK_SIZE <? n); [done|]. unfold st_bind at 1 3.
  pose proof (reserve_spec p Hwf n) as Hr.
  destruct (StaticPool.reserve n p) as [[ad|e|] p1]; [|done|done].
  destruct Hr as (i & j & szs & -> & -> & Ht & Hs & Hj).
  unfold st_bind. by rewrite (with_block_reserved p n i j szs).
Qed.

(** The contract holds. *)
#[export] Program Instance StaticPool_spec : PoolSpec StaticMemoryPool := {|
  pool_rep := static_rep;
  pool_known := canonical;
|}.
Next Obligation.
  intros p m a d [_ Hm] Hd. rewrite Hm in Hd. unfold view in Hd. by case_decide.
Qed.
Next Obligation.
  intros p m data Hrep. pose proof (static_add_spec p m data Hrep) as Ha. simpl.
  destruct (StaticPool.add data p) as [[a|e|] p']; [|by destruct Ha|done].
  by destruct Ha as (i & j & _ & _ & ? & ? & ?).
Qed.
Next Obligation. intros. by apply static_modify_some. Qed.
Next Obligation. intros. by eapply static_read_some. Qed.
Next Obligation. intros. by eapply static_read_none. Qed.
Next Obligation. intros. by eapply static_len_some. Qed.
Next Obligation. intros. by eapply static_len_none. Qed.
Next Obligation. intros. by eapply static_delete_some. Qed.
Next Obligation. intros. by eapply static_delete_none. Qed.

(** ** A new pool *)

(** A configuration whose blocks all have an address that survives the
    conversion to a [PoolAddr] and back, and whose subpools can be allocated. *)
Definition addressable (c : StaticPoolConfig) : Prop :=
  (length (cfg c) <= 256)%nat /\
  Forall (fun s => num_blocks s <= 256 /\ 0 <= block_size s /\
                   num_blocks s * block_size s < 2 ^ 63) (cfg c).

#[export] Instance size_le_total : Total StaticPoolConfig.size_le.
Proof. intros a b. unfold StaticPoolConfig.size_le. lia. Qed.

#[export] Instance size_le_trans : Transitive StaticPoolConfig.size_le.
Proof. intros a b c. unfold StaticPoolConfig.size_le. lia. Qed.

Lemma sanitize_spec c n c' :
  StaticPoolConfig.sanitize c = (n, c') ->
  n = len (cfg c') /\ StronglySorted StaticPoolConfig.size_le (cfg c') /\
  cfg c' ≡ₚ List.filter StaticPoolConfig.retained (cfg c) /\
  spill_to_higher_subpools c' = spill_to_higher_subpools c.
Proof.
  intros [= <- <-]. simpl. split; [done|]. split; [|split; [|done]].
  - apply StronglySorted_merge_sort; apply _.
  - apply merge_sort_Permutation.
Qed.

Definition fresh_memory (c : SubpoolConfig) : list Z :=
  replicate (Z.to_nat (num_blocks c * block_size c)) 0.

Definition fresh_sizes (c : SubpoolConfig) : list Z :=
  replicate (Z.to_nat (num_blocks c)) STORE_FREE.

Lemma new_loop_ok l p :
  Forall (fun c => num_blocks c * block_size c < 2 ^ 63) l ->
  StaticPool.new_loop l p =
    Ok (mkPool (pool_cfg p) (pool p ++ (fresh_memory <$> l))
          (sizes_lists p ++ (fresh_sizes <$> l))).
Proof.
  intros Hl. revert p. induction Hl as [|c l Hc Hl IH]; intros [pc mems szs].
  - simpl. by rewrite !app_nil_r.
  - cbn [StaticPool.new_loop fmap list_fmap]. unfold checked_mul.
    replace (num_blocks c * block_size c <? 2 ^ 64) with true by bool_lia.
    cbn [res_bind]. unfold StaticPool.vec_of_bytes. replace (num_blocks c * block_size c <? 2 ^ 63) with true by bool_lia.
    cbn [res_bind]. rewrite IH. simpl. by rewrite <- !app_assoc.
Qed.

Lemma block_at_zero bs n j :
  (j < n)%nat -> block_at bs (replicate (n * bs) 0) j = replicate bs 0.
Proof.
  intros Hj. unfold block_at. rewrite drop_replicate, take_replicate. f_equal. nia.
Qed.

Lemma fresh_subpool_wf c :
  0 < num_blocks c <= 256 -> 0 <= block_size c < MAX_BLOCK_SIZE ->
  subpool_wf c (fresh_memory c) (fresh_sizes c).
Proof.
  intros Hn Hb. unfold fresh_memory, fresh_sizes.
  assert (Z.to_nat (num_blocks c * block_size c) =
    (Z.to_nat (num_blocks c) * Z.to_nat (block_size c))%nat) as -> by nia.
  constructor; try done; try (by rewrite length_replicate).
  intros j sz Hj. apply lookup_replicate in Hj as [-> Hj]. left. split; [done|].
  by apply block_at_zero.
Qed.

Lemma new_spec c :
  addressable (StaticPoolConfig.sanitize c).2 ->
  exists p, StaticPool.new c = Ok p /\ static_rep p ∅ /\
    pool_cfg p = (StaticPoolConfig.sanitize c).2.
Proof.
  intros [Hcount Hall]. unfold StaticPool.new.
  destruct (StaticPoolConfig.sanitize c) as [n c'] eqn:Hsan.
  destruct (sanitize_spec _ _ _ Hsan) as (_ & Hsorted & Hperm & _). simpl in *.
  rewrite new_loop_ok by (eapply Forall_impl; [exact Hall|]; simpl; tauto).
  eexists. split; [done|]. simpl. split; [|done].
  assert (Hin : forall i s, cfg c' !! i = Some s ->
    subpool_wf s (fresh_memory s) (fresh_sizes s)).
  { intros i s Hs. rewrite Forall_lookup in Hall. destruct (Hall _ _ Hs) as (? & ? & _).
    apply list_elem_of_lookup_2 in Hs. rewrite Hperm in Hs.
    apply list_elem_of_In, filter_In in Hs as [_ Hr].
    unfold StaticPoolConfig.retained in Hr. apply fresh_subpool_wf; bool_lia. }
  split; [constructor; simpl; try done; try (by rewrite length_fmap)|].
  - intros i s mem szs Hs Hm Hz. rewrite list_lookup_fmap, Hs in Hm, Hz.
    simpl in *. simplify_eq. by eapply Hin.
  - intros a. rewrite lookup_empty. symmetry. unfold view. case_decide; [|done].
    unfold slot_of. simpl. rewrite !list_lookup_fmap.
    destruct (cfg c' !! _) as [s|] eqn:Hs; [|done]. simpl. unfold slot_view, fresh_sizes.
    destruct (replicate _ _ !! _) as [sz|] eqn:Hsz; [|done]. simpl.
    apply lookup_replicate in Hsz as [-> _]. done.
Qed.

(** ** Any sequence of calls *)

(** A call of a [PoolProvider] method, and what it returned. *)
Inductive PoolOp : Type :=
| OpAdd (data : list Z)
| OpFree (n : Z) (writer : list Z -> list Z)
| OpModify (a : Z) (updater : list Z -> list Z)
| OpRead (a : Z) (buf : list Z)
| OpDelete (a : Z)
| OpHas (a : Z)
| OpLen (a : Z).

Inductive Outcome : Type :=
| OAddr (r : res PoolError Z)
| OUnit (r : res PoolError unit)
| ORead (r : res PoolError (Z * list Z))
| OBool (r : res PoolError bool).

Section Calls.
Context {P : Type} `{PoolProvider P}.

Definition exec_op (o : PoolOp) (p : P) : Outcome * P :=
  match o with
  | OpAdd d => let '(r, p') := pool_add d p in (OAddr r, p')
  | OpFree n w => let '(r, p') := pool_free_element n w p in (OAddr r, p')
  | OpModify a f => let '(r, p') := pool_modify a f p in (OUnit r, p')
  | OpRead a buf => (ORead (pool_read p a buf), p)
  | OpDelete a => let '(r, p') := pool_delete a p in (OUnit r, p')
  | OpHas a => (OBool (pool_has_element_at p a), p)
  | OpLen a => (OAddr (pool_len_of_data p a), p)
  end.

Fixpoint run_ops (os : list PoolOp) (p : P) : list Outcome * P :=
  match os with
  | [] => ([], p)
  | o :: os' =>
      let '(r, p1) := exec_op o p in
      let '(rs, p2) := run_ops os' p1 in
      (r :: rs, p2)
  end.

End Calls.

(** The address the pool works with when it is handed [a]. *)
Definition canon (a : Z) : Z :=
  StaticPoolAddr.into_pool_addr (StaticPoolAddr.from_pool_addr a).

(** A closure on [&mut [u8]] keeps the length of the slice; a [usize] is not
    negative. *)
Definition op_ok (o : PoolOp) : Prop :=
  match o with
  | OpFree n w => 0 <= n /\ forall l, length (w l) = length l
  | OpModify _ f => forall l, length (f l) = length l
  | _ => True
  end.

(** What each call does to the abstract map, and which answers it may give. *)
Inductive abs_step (m : gmap Z (list Z)) : PoolOp -> Outcome -> gmap Z (list Z) -> Prop :=
| abs_add_ok d a :
    m !! a = None -> abs_step m (OpAdd d) (OAddr (Ok a)) (<[a := d]> m)
| abs_add_too_large d :
    abs_step m (OpAdd d) (OAddr (Err (DataTooLarge (len d)))) m
| abs_add_full d k : abs_step m (OpAdd d) (OAddr (Err (StoreFull k))) m
| abs_free n w r m' :
    abs_step m (OpAdd (w (replicate (Z.to_nat n) 0))) r m' ->
    abs_step m (OpFree n w) r m'
| abs_modify_ok a f d :
    m !! canon a = Some d ->
    abs_step m (OpModify a f) (OUnit (Ok tt)) (<[canon a := f d]> m)
| abs_modify_none a f e :
    m !! canon a = None -> abs_step m (OpModify a f) (OUnit (Err e)) m
| abs_read_ok a buf d :
    m !! canon a = Some d -> len d <= len buf ->
    abs_step m (OpRead a buf) (ORead (Ok (len d, d ++ drop (length d) buf))) m
| abs_read_small a buf d :
    m !! canon a = Some d -> len buf < len d ->
    abs_step m (OpRead a buf)
      (ORead (Err (PoolByteConversionError (ToSliceTooSmall (len buf) (len d))))) m
| abs_read_none a buf e :
    m !! canon a = None -> abs_step m (OpRead a buf) (ORead (Err e)) m
| abs_delete_ok a d :
    m !! canon a = Some d ->
    abs_step m (OpDelete a) (OUnit (Ok tt)) (delete (canon a) m)
| abs_delete_none a e :
    m !! canon a = None -> abs_step m (OpDelete a) (OUnit (Err e)) m
| abs_has_some a d :
    m !! canon a = Some d -> abs_step m (OpHas a) (OBool (Ok true)) m
| abs_has_none a r :
    m !! canon a = None -> r = Ok false \/ (exists e, r = Err e) ->
    abs_step m (OpHas a) (OBool r) m
| abs_len_some a d :
    m !! canon a = Some d -> abs_step m (OpLen a) (OAddr (Ok (len d))) m
| abs_len_none a r :
    m !! canon a = None -> r = Ok 0 \/ (exists e, r = Err e) ->
    abs_step m (OpLen a) (OAddr r) m.

Inductive abs_run : gmap Z (list Z) -> list PoolOp -> list Outcome -> gmap Z (list Z) -> Prop :=
| abs_run_nil m : abs_run m [] [] m
| abs_run_cons m o r m1 os rs m2 :
    abs_step m o r m1 -> abs_run m1 os rs m2 -> abs_run m (o :: os) (r :: rs) m2.

#[export] Hint Constructors abs_step abs_run : satrs.

Lemma from_pool_addr_canon a :
  StaticPoolAddr.from_pool_addr (canon a) = StaticPoolAddr.from_pool_addr a.
Proof.
  unfold canon. pose proof (from_pool_addr_range a) as [Hi Hj].
  destruct (StaticPoolAddr.from_pool_addr a). by apply pool_addr_roundtrip.
Qed.

Lemma canonical_canon a : canonical (canon a).
Proof. unfold canonical. by rewrite from_pool_addr_canon. Qed.

#[export] Hint Resolve canonical_canon : satrs.

(** The operations look at an address only through its conversion. *)
Lemma static_ops_canon (p : StaticMemoryPool) a f buf :
  StaticPool.modify a f p = StaticPool.modify (canon a) f p /\
  StaticPool.read p a buf = StaticPool.read p (canon a) buf /\
  StaticPool.delete a p = StaticPool.delete (canon a) p /\
  StaticPool.has_element_at p a = StaticPool.has_element_at p (canon a) /\
  StaticPool.len_of_data p a = StaticPool.len_of_data p (canon a).
Proof.
  unfold StaticPool.modify, StaticPool.read, StaticPool.delete,
    StaticPool.has_element_at, StaticPool.len_of_data.
  by rewrite !from_pool_addr_canon.
Qed.

Lemma static_add_abs p m d :
  static_rep p m -> exists m',
    abs_step m (OpAdd d) (OAddr (StaticPool.add d p).1) m' /\ static_rep (StaticPool.add d p).2 m'.
Proof.
  intros Hrep. pose proof (static_add_spec p m d Hrep) as Ha.
  destruct (StaticPool.add d p) as [[a|e|] p']; [| |done].
  - destruct Ha as (i & j & -> & _ & _ & Hn & Hr). simpl. eauto with satrs.
  - destruct Ha as [-> [[-> _]|[[k ->] _]]]; simpl; eauto with satrs.
Qed.

Lemma static_modify_none p m a f :
  static_rep p m -> canonical a -> m !! a = None ->
  exists e, StaticPool.modify a f p = (Err e, p).
Proof.
  intros Hrep Ha Hn. unfold StaticPool.modify. run_monad.
  destruct (addr_check_none p m Hrep a Ha Hn) as [e ->]. eauto.
Qed.

Lemma static_has_none p m a :
  static_rep p m -> canonical a -> m !! a = None ->
  StaticPool.has_element_at p a = Ok false \/
  exists e, StaticPool.has_element_at p a = Err e.
Proof.
  intros Hrep Ha Hn. unfold StaticPool.has_element_at.
  destruct (rep_none p m Hrep a Ha Hn) as [[e ->]|[-> ->]]; simpl; eauto.
Qed.

Lemma exec_op_abs (p : StaticMemoryPool) m o :
  static_rep p m -> op_ok o ->
  exists m', abs_step m o (exec_op o p).1 m' /\ static_rep (exec_op o p).2 m'.
Proof.
  intros Hrep Hok. destruct o as [d|n w|a f|a buf|a|a|a]; cbn [exec_op].
  2: { destruct Hok as [Hn Hw]. simpl. rewrite free_element_add; [|apply Hrep|done|].
       2: { unfold len. rewrite Hw, length_replicate. lia. }
       destruct (static_add_abs p m (w (replicate (Z.to_nat n) 0)) Hrep)
         as (m' & Hs & Hr).
       destruct (StaticPool.add _ p). eauto with satrs. }
  1: { destruct (static_add_abs p m d Hrep) as (m' & Hs & Hr). simpl in *.
       destruct (StaticPool.add d p). eauto. }
  all: simpl; pose proof (static_ops_canon p a) as Hcanon;
    destruct (m !! canon a) as [d|] eqn:Hd.
  - rewrite (proj1 (Hcanon f [])).
    destruct (static_modify_some p m (canon a) Hrep d f Hd (Hok d)) as (p' & -> & Hr).
    simpl. eauto with satrs.
  - rewrite (proj1 (Hcanon f [])).
    destruct (static_modify_none p m (canon a) f Hrep) as (e & ->); simpl; eauto with satrs.
  - destruct (Hcanon id buf) as (_ & -> & _). exists m. split; [|done].
    rewrite (static_read_some p m (canon a) Hrep d buf Hd).
    destruct (Z.ltb_spec (len buf) (len d)); simpl; eauto with satrs.
  - destruct (Hcanon id buf) as (_ & -> & _). exists m. split; [|done].
    destruct (static_read_none p m (canon a) Hrep buf) as (e & ->); simpl; eauto with satrs.
  - destruct (Hcanon id []) as (_ & _ & -> & _).
    destruct (static_delete_some p m (canon a) Hrep d Hd) as (p' & -> & Hr).
    simpl. eauto with satrs.
  - destruct (Hcanon id []) as (_ & _ & -> & _).
    destruct (static_delete_none p m (canon a) Hrep) as (e & ->); simpl; eauto with satrs.
  - destruct (Hcanon id []) as (_ & _ & _ & -> & _). exists m. split; [|done].
    rewrite (proj1 (static_has_element_at p m (canon a) Hrep (canonical_canon a)));
      eauto with satrs.
  - destruct (Hcanon id []) as (_ & _ & _ & -> & _). exists m. split; [|done].
    apply abs_has_none; [done|]. by apply (static_has_none p m); auto with satrs.
  - destruct (Hcanon id []) as (_ & _ & _ & _ & ->). exists m. split; [|done].
    rewrite (static_len_some p m (canon a) Hrep d Hd). eauto with satrs.
  - destruct (Hcanon id []) as (_ & _ & _ & _ & ->). exists m. split; [|done].
    apply abs_len_none; [done|]. apply (static_len_none p m); auto with satrs.
Qed.

Lemma run_ops_abs (p : StaticMemoryPool) m os :
  static_rep p m -> Forall op_ok os ->
  exists m', abs_run m os (run_ops os p).1 m' /\ static_rep (run_ops os p).2 m'.
Proof.
  intros Hrep Hos. revert p m Hrep. induction Hos as [|o os Ho Hos IH]; intros p m Hrep.
  - eauto with satrs.
  - cbn [run_ops]. destruct (exec_op_abs p m o Hrep Ho) as (m1 & Hs & Hr).
    destruct (exec_op o p) as [r p1]. destruct (IH p1 m1 Hr) as (m2 & Hs2 & Hr2).
    destruct (run_ops os p1) as [rs p2]. eauto with satrs.
Qed.

(** ** The heapless pool computes what [StaticMemoryPool] computes *)

(** The same subpools without the heapless containers. *)
Definition as_static (h : StaticHeaplessMemoryPool) : StaticMemoryPool :=
  {| pool_cfg := {| cfg := fst <$> h_pool h;
                    spill_to_higher_subpools := h_spill_to_higher_subpools h |};
     pool := snd <$> h_pool h;
     sizes_lists := h_sizes_lists h |}.

Definition on_static {A : Type} (x : A * StaticHeaplessMemoryPool) : A * StaticMemoryPool :=
  (x.1, as_static x.2).

(** Two computations that agree step by step. *)
Definition sim {E A : Type} (m1 : st StaticHeaplessMemoryPool E A)
    (m2 : st StaticMemoryPool E A) : Prop :=
  forall h, on_static (m1 h) = m2 (as_static h).

Section Simulation.
Context {E A B : Type}.

Lemma sim_bind_at (m1 : st _ E A) m2 (k1 : A -> st _ E B) k2 h :
  on_static (m1 h) = m2 (as_static h) -> (forall a, sim (k1 a) (k2 a)) ->
  on_static (st_bind m1 k1 h) = st_bind m2 k2 (as_static h).
Proof.
  intros Hm Hk. unfold st_bind. rewrite <- Hm.
  destruct (m1 h) as [[a|e|] h1]; simpl; [apply Hk|done|done].
Qed.

Lemma sim_bind (m1 : st _ E A) m2 (k1 : A -> st _ E B) k2 :
  sim m1 m2 -> (forall a, sim (k1 a) (k2 a)) -> sim (st_bind m1 k1) (st_bind m2 k2).
Proof. intros Hm Hk h. by apply sim_bind_at. Qed.

Lemma sim_lift (r : res E A) : sim (lift r) (lift r).
Proof. intros h. done. Qed.

Lemma sim_ret (a : A) : sim (E:=E) (ret a) (ret a).
Proof. intros h. done. Qed.

Lemma sim_asks (f1 : _ -> res E A) f2 :
  (forall h, f1 h = f2 (as_static h)) -> sim (asks f1) (asks f2).
Proof. intros Hf h. unfold asks, on_static. simpl. by rewrite Hf. Qed.

Lemma sim_modify f1 f2 :
  (forall h, as_static (f1 h) = f2 (as_static h)) ->
  sim (E:=E) (modify_state f1) (modify_state f2).
Proof. intros Hf h. unfold modify_state, on_static. simpl. by rewrite Hf. Qed.

End Simulation.

#[export] Hint Resolve sim_bind sim_lift sim_ret sim_asks sim_modify : satrs.

Section Heapless.
Implicit Types (h : StaticHeaplessMemoryPool) (ad : StaticPoolAddr).

Lemma addr_check_heapless h ad :
  HeaplessPool.validate_addr h ad = StaticPool.validate_addr (as_static h) ad /\
  HeaplessPool.curr_size h ad = StaticPool.curr_size (as_static h) ad /\
  HeaplessPool.addr_check h ad = StaticPool.addr_check (as_static h) ad.
Proof.
  assert (HeaplessPool.validate_addr h ad = StaticPool.validate_addr (as_static h) ad) as Hv.
  { unfold HeaplessPool.validate_addr, StaticPool.validate_addr. simpl.
    rewrite list_lookup_fmap. by destruct (h_pool h !! _) as [[c mem]|]. }
  split; [done|]. split; [done|].
  unfold HeaplessPool.addr_check, StaticPool.addr_check. by rewrite Hv.
Qed.

Lemma raw_pos_heapless h ad :
  HeaplessPool.raw_pos h ad = StaticPool.raw_pos (as_static h) ad /\
  HeaplessPool.memory h ad = pool (as_static h) !! Z.to_nat (pool_idx ad).
Proof.
  unfold HeaplessPool.raw_pos, StaticPool.raw_pos, HeaplessPool.memory. simpl.
  rewrite !list_lookup_fmap. by destruct (h_pool h !! _) as [[c mem]|].
Qed.

Lemma set_memory_heapless i mem h :
  as_static (HeaplessPool.set_memory i mem h) = StaticPool.set_memory i mem (as_static h).
Proof.
  unfold as_static, StaticPool.set_memory, HeaplessPool.set_memory. simpl. f_equal.
  - f_equal. apply list_eq. intros k. rewrite !list_lookup_fmap.
    destruct (decide (k = Z.to_nat i)) as [->|].
    + rewrite list_lookup_alter_eq. by destruct (h_pool h !! _).
    + by rewrite list_lookup_alter_ne by done.
  - apply list_eq. intros k. rewrite list_lookup_fmap.
    destruct (decide (k = Z.to_nat i)) as [->|].
    + rewrite list_lookup_alter_eq. destruct (h_pool h !! _) eqn:Hk; simpl.
      * rewrite list_lookup_insert_eq; [done|]. rewrite length_fmap.
        by eapply lookup_lt_Some.
      * symmetry. apply lookup_ge_None. rewrite length_insert, length_fmap.
        by apply lookup_ge_None.
    + rewrite list_lookup_alter_ne by done. rewrite list_lookup_insert_ne by done.
      by rewrite list_lookup_fmap.
Qed.

Lemma spill_loop_heapless fuel h i :
  HeaplessPool.spill_loop fuel h i = StaticPool.spill_loop fuel (as_static h) i.
Proof.
  revert i. induction fuel as [|fuel IH]; intros i; [done|]. cbn [HeaplessPool.spill_loop StaticPool.spill_loop].
  change (HeaplessPool.find_empty h i) with (StaticPool.find_empty (as_static h) i).
  destruct (StaticPool.find_empty (as_static h) i) as [|[]|]; try done.
  destruct (checked_add 16 i 1); [|done|done]. simpl. by rewrite IH.
Qed.

Lemma select_subpool_heapless n h :
  h_pool h <> [] -> HeaplessPool.select_subpool h n = StaticPool.select_subpool (as_static h) n.
Proof.
  intros Hne. unfold HeaplessPool.select_subpool, StaticPool.select_subpool.
  destruct (h_pool h) as [|e l] eqn:Hh; [done|].
  unfold HeaplessPool.find_subpool, StaticPool.find_subpool. simpl.
  destruct (find_subpool_loop _ _ _ _); [|done|done]. simpl.
  destruct (h_spill_to_higher_subpools h); [apply spill_loop_heapless|done].
Qed.

Lemma with_block_heapless ad n f :
  sim (HeaplessPool.with_block ad n f) (StaticPool.with_block ad n f).
Proof.
  unfold HeaplessPool.with_block, StaticPool.with_block.
  repeat (apply sim_bind; [|intros ?]); auto with satrs.
  - apply sim_asks. intros h. by rewrite (proj1 (raw_pos_heapless h ad)).
  - apply sim_asks. intros h. by rewrite (proj2 (raw_pos_heapless h ad)).
  - apply sim_modify. intros h. apply set_memory_heapless.
Qed.

Lemma write_heapless ad d : sim (HeaplessPool.write ad d) (StaticPool.write ad d).
Proof.
  unfold HeaplessPool.write, StaticPool.write.
  repeat (apply sim_bind; [|intros ?]); auto with satrs.
  - apply sim_asks. intros h. by rewrite (proj1 (raw_pos_heapless h ad)).
  - apply sim_asks. intros h. by rewrite (proj2 (raw_pos_heapless h ad)).
  - apply sim_modify. intros h. apply set_memory_heapless.
Qed.

Lemma reserve_heapless n h :
  h_pool h <> [] ->
  on_static (HeaplessPool.reserve n h) = StaticPool.reserve n (as_static h).
Proof.
  intros Hne. unfold HeaplessPool.reserve, StaticPool.reserve. apply sim_bind_at.
  - unfold asks, on_static. simpl. by rewrite select_subpool_heapless.
  - intros i. repeat (apply sim_bind; [|intros ?]); auto with satrs.
Qed.

Lemma add_heapless d h :
  h_pool h <> [] -> on_static (HeaplessPool.add d h) = StaticPool.add d (as_static h).
Proof.
  intros Hne. unfold HeaplessPool.add, StaticPool.add.
  destruct (MAX_BLOCK_SIZE <? len d); [done|].
  apply sim_bind_at; [by apply reserve_heapless|]. intros ad.
  apply sim_bind; [apply write_heapless|auto with satrs].
Qed.

Lemma free_element_heapless n w h :
  h_pool h <> [] ->
  on_static (HeaplessPool.free_element n w h) = StaticPool.free_element n w (as_static h).
Proof.
  intros Hne. unfold HeaplessPool.free_element, StaticPool.free_element.
  destruct (MAX_BLOCK_SIZE <? n); [done|].
  apply sim_bind_at; [by apply reserve_heapless|]. intros ad.
  apply sim_bind; [apply with_block_heapless|auto with satrs].
Qed.

Lemma modify_heapless a f : sim (HeaplessPool.modify a f) (StaticPool.modify a f).
Proof.
  unfold HeaplessPool.modify, StaticPool.modify. apply sim_bind.
  - apply sim_asks. intros h. apply addr_check_heapless.
  - intros sz. apply with_block_heapless.
Qed.

Lemma delete_heapless a : sim (HeaplessPool.delete a) (StaticPool.delete a).
Proof.
  unfold HeaplessPool.delete, StaticPool.delete. apply sim_bind.
  { apply sim_asks. intros h. apply addr_check_heapless. }
  intros sz h. unfold st_bind at 1 3. unfold asks. simpl. rewrite list_lookup_fmap.
  destruct (h_pool h !! _) as [[c mem]|]; simpl; [|done].
  apply sim_bind; auto with satrs. intros _. apply with_block_heapless.
Qed.

Lemma read_heapless h a buf :
  HeaplessPool.read h a buf = StaticPool.read (as_static h) a buf.
Proof.
  unfold HeaplessPool.read, StaticPool.read.
  destruct (addr_check_heapless h (StaticPoolAddr.from_pool_addr a)) as (_ & _ & ->).
  by destruct (raw_pos_heapless h (StaticPoolAddr.from_pool_addr a)) as (-> & ->).
Qed.

Lemma exec_op_heapless o h :
  h_pool h <> [] -> on_static (exec_op o h) = exec_op o (as_static h).
Proof.
  intros Hne. destruct o as [d|n w|a f|a buf|a|a|a]; simpl.
  - rewrite <- add_heapless by done. by destruct (HeaplessPool.add d h).
  - rewrite <- free_element_heapless by done. by destruct (HeaplessPool.free_element n w h).
  - rewrite <- modify_heapless. by destruct (HeaplessPool.modify a f h).
  - unfold on_static. simpl. by rewrite read_heapless.
  - rewrite <- delete_heapless. by destruct (HeaplessPool.delete a h).
  - unfold on_static, HeaplessPool.has_element_at, StaticPool.has_element_at. simpl.
    by destruct (addr_check_heapless h (StaticPoolAddr.from_pool_addr a)) as (-> & -> & _).
  - unfold on_static, HeaplessPool.len_of_data, StaticPool.len_of_data. simpl.
    by destruct (addr_check_heapless h (StaticPoolAddr.from_pool_addr a)) as (-> & -> & _).
Qed.

End Heapless.

(** No operation changes the configuration of the pool. *)
Definition keeps_cfg {E A : Type} (m : st StaticMemoryPool E A) : Prop :=
  forall p, pool_cfg (m p).2 = pool_cfg p.

Lemma keeps_cfg_bind {E A B} (m : st _ E A) (k : A -> st _ E B) :
  keeps_cfg m -> (forall a, keeps_cfg (k a)) -> keeps_cfg (st_bind m k).
Proof.
  intros Hm Hk p. unfold st_bind. specialize (Hm p).
  destruct (m p) as [[a|e|] p1]; simpl in *; [by rewrite Hk|done|done].
Qed.

Ltac keeps_cfg := repeat (apply keeps_cfg_bind; [|intros ?]); done.

Lemma with_block_cfg ad n f : keeps_cfg (StaticPool.with_block ad n f).
Proof. unfold StaticPool.with_block. keeps_cfg. Qed.

Lemma reserve_cfg n : keeps_cfg (StaticPool.reserve n).
Proof. unfold StaticPool.reserve. keeps_cfg. Qed.

Lemma add_cfg d : keeps_cfg (StaticPool.add d).
Proof.
  unfold StaticPool.add. destruct (_ <? _); [done|].
  apply keeps_cfg_bind; [apply reserve_cfg|]. intros ad. unfold StaticPool.write. keeps_cfg.
Qed.

Lemma free_element_cfg n w : keeps_cfg (StaticPool.free_element n w).
Proof.
  unfold StaticPool.free_element. destruct (_ <? _); [done|].
  apply keeps_cfg_bind; [apply reserve_cfg|]. intros ad.
  apply keeps_cfg_bind; [apply with_block_cfg|done].
Qed.

Lemma modify_delete_cfg a f :
  keeps_cfg (StaticPool.modify a f) /\ keeps_cfg (StaticPool.delete a).
Proof.
  split; [unfold StaticPool.modify | unfold StaticPool.delete];
    repeat first [apply with_block_cfg | apply keeps_cfg_bind; [done|intros ?]].
Qed.

Lemma exec_op_cfg o (p : StaticMemoryPool) : pool_cfg (exec_op o p).2 = pool_cfg p.
Proof.
  destruct o as [d|n w|a f|a buf|a|a|a]; simpl; try done.
  - pose proof (add_cfg d p). by destruct (StaticPool.add d p).
  - pose proof (free_element_cfg n w p). by destruct (StaticPool.free_element n w p).
  - pose proof (proj1 (modify_delete_cfg a f) p). by destruct (StaticPool.modify a f p).
  - pose proof (proj2 (modify_delete_cfg a id) p). by destruct (StaticPool.delete a p).
Qed.

Lemma exec_op_nonempty o h : h_pool h <> [] -> h_pool (exec_op o h).2 <> [].
Proof.
  intros Hne He. pose proof (exec_op_cfg o (as_static h)) as Hcfg.
  rewrite <- exec_op_heapless in Hcfg by done. simpl in Hcfg.
  injection Hcfg as Hcfg _. rewrite He in Hcfg. by destruct (h_pool h).
Qed.

(** ** The contract of the heapless pool *)

Lemma as_static_inj h1 h2 : as_static h1 = as_static h2 -> h1 = h2.
Proof.
  destruct h1 as [l1 z1 s1], h2 as [l2 z2 s2]. unfold as_static. cbn. intros [= Hc Hs Hm Hz]. subst. f_equal.
  revert l2 Hc Hm. induction l1 as [|[c1 m1] l1 IH]; intros [|[c2 m2] l2]; cbn; intros Hc Hm; try done.
  injection Hc as -> Hc. injection Hm as -> Hm. f_equal. by apply IH.
Qed.

Definition heapless_rep (h : StaticHeaplessMemoryPool) (m : gmap Z (list Z)) : Prop :=
  h_pool h <> [] /\ static_rep (as_static h) m.

#[export] Program Instance HeaplessPool_spec : PoolSpec StaticHeaplessMemoryPool := {|
  pool_rep := heapless_rep;
  pool_known := canonical;
|}.
Next Obligation. intros h m a d [_ Hr] Hd. exact (pool_rep_known (PoolSpec:=StaticPool_spec) (as_static h) m a d Hr Hd). Qed.
Next Obligation.
  intros h m data [Hne Hr]. pose proof (pool_add_spec (PoolSpec:=StaticPool_spec) (as_static h) m data Hr) as Ha.
  pose proof (exec_op_nonempty (OpAdd data) h Hne) as Hn. cbn in *. rewrite <- add_heapless in Ha by done.
  destruct (HeaplessPool.add data h) as [[a|e|] h']; cbn in *; [|by apply as_static_inj|done].
  destruct Ha as (Hm & Hk & Hr'). done.
Qed.
Next Obligation.
  intros h m a d f [Hne Hr] Hd Hl. destruct (pool_modify_spec (PoolSpec:=StaticPool_spec) (as_static h) m a d f Hr Hd Hl) as (p' & Hp & Hr').
  pose proof (exec_op_nonempty (OpModify a f) h Hne) as Hn. cbn [exec_op pool_modify HeaplessPool_provider] in Hn.
  change (StaticPool.modify a f (as_static h) = (Ok tt, p')) in Hp. rewrite <- modify_heapless in Hp.
  cbn [pool_modify HeaplessPool_provider].
  destruct (HeaplessPool.modify a f h) as [r h']. cbn in Hn. injection Hp as -> <-. by exists h'.
Qed.
Next Obligation. intros h m a d buf [_ Hr] Hd. cbn. rewrite read_heapless. by apply (pool_read_some (PoolSpec:=StaticPool_spec) (as_static h) m). Qed.
Next Obligation. intros h m a buf [_ Hr] Hk Hd. cbn. rewrite read_heapless. by apply (pool_read_none (PoolSpec:=StaticPool_spec) (as_static h) m). Qed.
Next Obligation.
  intros h m a d [_ Hr] Hd. rewrite <- (pool_len_some (PoolSpec:=StaticPool_spec) (as_static h) m a d Hr Hd).
  cbn [pool_len_of_data HeaplessPool_provider StaticPool_provider]. unfold HeaplessPool.len_of_data, StaticPool.len_of_data.
  by destruct (addr_check_heapless h (StaticPoolAddr.from_pool_addr a)) as (-> & -> & _).
Qed.
Next Obligation.
  intros h m a [_ Hr] Hk Hd. pose proof (pool_len_none (PoolSpec:=StaticPool_spec) (as_static h) m a Hr Hk Hd) as Hl.
  cbn [pool_len_of_data HeaplessPool_provider StaticPool_provider] in *. unfold HeaplessPool.len_of_data, StaticPool.len_of_data in *.
  by destruct (addr_check_heapless h (StaticPoolAddr.from_pool_addr a)) as (-> & -> & _).
Qed.
Next Obligation.
  intros h m a d [Hne Hr] Hd. destruct (pool_delete_some (PoolSpec:=StaticPool_spec) (as_static h) m a d Hr Hd) as (p' & Hp & Hr').
  pose proof (exec_op_nonempty (OpDelete a) h Hne) as Hn. cbn [exec_op pool_delete HeaplessPool_provider] in Hn.
  change (StaticPool.delete a (as_static h) = (Ok tt, p')) in Hp. rewrite <- delete_heapless in Hp.
  cbn [pool_delete HeaplessPool_provider].
  destruct (HeaplessPool.delete a h) as [r h']. cbn in Hn. injection Hp as -> <-. by exists h'.
Qed.
Next Obligation.
  intros h m a [Hne Hr] Hk Hd. destruct (pool_delete_none (PoolSpec:=StaticPool_spec) (as_static h) m a Hr Hk Hd) as [e Hp].
  change (StaticPool.delete a (as_static h) = (Err e, as_static h)) in Hp. rewrite <- delete_heapless in Hp. exists e.
  cbn [pool_delete HeaplessPool_provider]. destruct (HeaplessPool.delete a h) as [r h']. unfold on_static in Hp. cbn [fst snd] in Hp.
  assert (Hh : as_static h' = as_static h) by congruence. apply as_static_inj in Hh as ->. congruence.
Qed.

(** A pool that was grown by zeroed subpools, from small to large blocks, is empty. *)
Lemma grown_rep h :
  h_pool h <> [] -> (length (h_pool h) <= 256)%nat ->
  StronglySorted StaticPoolConfig.size_le (fst <$> h_pool h) ->
  Forall (fun cm => 0 < num_blocks cm.1 <= 256 /\ 0 <= block_size cm.1 < MAX_BLOCK_SIZE /\ cm.2 = fresh_memory cm.1) (h_pool h) ->
  h_sizes_lists h = fresh_sizes <$> (fst <$> h_pool h) ->
  heapless_rep h ∅.
Proof.
  intros Hne Hl Hs Hall Hz. split; [done|]. split.
  - constructor; cbn; rewrite ?Hz, ?length_fmap; try done.
    intros i c mem szs Hc Hm Hzs. rewrite list_lookup_fmap in Hc. rewrite list_lookup_fmap in Hm. destruct (h_pool h !! i) as [[c' mem']|] eqn:Hi; [|done].
    cbn in *. injection Hc as ->. injection Hm as ->. rewrite Forall_lookup in Hall. destruct (Hall _ _ Hi) as (Hn & Hb & Hmem).
    cbn in *. subst mem. rewrite !list_lookup_fmap, Hi in Hzs. cbn in Hzs. injection Hzs as <-. by apply fresh_subpool_wf.
  - intros a. rewrite lookup_empty. symmetry. unfold view. case_decide; [|done]. unfold slot_of. cbn. rewrite Hz, !list_lookup_fmap.
    destruct (h_pool h !! _) as [[c mem]|]; [|done]. cbn. unfold slot_view, fresh_sizes.
    destruct (replicate _ _ !! _) as [sz|] eqn:Hsz; [|done]. cbn. by apply lookup_replicate in Hsz as [-> _].
Qed.

(** * Properties *)

Definition ex_config : StaticPoolConfig :=
  StaticPoolConfig.new_from_subpool_cfg_tuples [(2, 64); (0, 32); (4, 16)] true.

Lemma ex_config_addressable : addressable (StaticPoolConfig.sanitize ex_config).2.
Proof.
  assert ((StaticPoolConfig.sanitize ex_config).2 =
    mkStaticPoolConfig [mkSubpoolConfig 4 16; mkSubpoolConfig 2 64] true) as ->
    by (vm_compute; reflexivity).
  split; [simpl; lia|]. repeat constructor; simpl; lia.
Qed.

(** C1: Started from [StaticMemoryPool::new] on a configuration with at most
    256 retained subpools of at most 256 blocks that fit an allocation, any sequence of [add],
    [free_element], [modify], [read], [delete], [has_element_at] and
    [len_of_data] calls behaves as the same sequence on a finite map from
    addresses to byte strings: no call panics, a fresh address is handed out for
    every stored packet, reads give back what was stored, and no call disturbs
    the data of another address. *)
Theorem pool_run_refines_map c os :
  addressable (StaticPoolConfig.sanitize c).2 -> Forall op_ok os ->
  exists p m', StaticPool.new c = Ok p /\ abs_run ∅ os (run_ops os p).1 m' /\
    static_rep (run_ops os p).2 m'.
Proof.
  intros Hc Hos. destruct (new_spec c Hc) as (p & Hnew & Hrep & _).
  destruct (run_ops_abs p ∅ os Hrep Hos) as (m' & Hrun & Hrep'). by exists p, m'.
Qed.

Lemma pool_run_refines_map_witness :
  exists p m', StaticPool.new ex_config = Ok p /\
    abs_run ∅ [OpAdd [1; 2; 3]; OpRead 0 [0; 0; 0; 0]; OpDelete 0; OpDelete 0]
      (run_ops [OpAdd [1; 2; 3]; OpRead 0 [0; 0; 0; 0]; OpDelete 0; OpDelete 0] p).1 m' /\
    static_rep (run_ops [OpAdd [1; 2; 3]; OpRead 0 [0; 0; 0; 0]; OpDelete 0; OpDelete 0] p).2 m'.
Proof.
  apply (pool_run_refines_map ex_config); [apply ex_config_addressable|].
  repeat constructor.
Defined.

(** The same run, evaluated. *)
Example pool_run_example :
  res_map (fun p => (run_ops [OpAdd [1; 2; 3]; OpRead 0 [9; 9; 9; 9]; OpDelete 0; OpDelete 0] p).1)
    (StaticPool.new ex_config) =
  Ok [OAddr (Ok 0); ORead (Ok (3, [1; 2; 3; 9])); OUnit (Ok tt);
      OUnit (Err (DataDoesNotExist 0))].
Proof. vm_compute. reflexivity. Qed.

(** C2: [add] never panics.  When it succeeds the data is stored under an
    address that was free, in the right subpool: the one with the smallest
    blocks that fit or, when spilling to higher subpools is configured, the
    first fitting one with a free block.  When it fails the pool is unchanged,
    and the error is [DataTooLarge] exactly when no subpool fits and
    [StoreFull] when one does but the one to use has no free block. *)
Theorem pool_add_best_fit p m data :
  static_rep p m ->
  match StaticPool.add data p with
  | (Ok a, p') => exists i j, a = pool_addr i j /\ target p (len data) i /\
      canonical a /\ m !! a = None /\ static_rep p' (<[a := data]> m)
  | (Err e, p') => p' = p /\ refusal p (len data) e
  | (Panic, _) => False
  end.
Proof. apply static_add_spec. Qed.

Lemma pool_add_best_fit_witness :
  exists p, StaticPool.new ex_config = Ok p /\
    match StaticPool.add [1; 2; 3] p with
    | (Ok a, p') => exists i j, a = pool_addr i j /\ target p 3 i /\
        canonical a /\ (∅ : gmap Z (list Z)) !! a = None /\ static_rep p' (<[a := [1; 2; 3]]> ∅)
    | (Err e, p') => p' = p /\ refusal p 3 e
    | (Panic, _) => False
    end.
Proof.
  destruct (new_spec ex_config ex_config_addressable) as (p & Hp & Hrep & _).
  exists p. split; [exact Hp|]. exact (pool_add_best_fit p ∅ [1; 2; 3] Hrep).
Defined.

(** [free_element] with a closure that fills [n] bytes does exactly what
    [add] does with the bytes the closure makes of [n] zeros: blocks are handed
    out zeroed, also after earlier data in them was deleted. *)
Theorem free_element_is_add p m n w :
  static_rep p m -> 0 <= n -> len (w (replicate (Z.to_nat n) 0)) = n ->
  StaticPool.free_element n w p = StaticPool.add (w (replicate (Z.to_nat n) 0)) p.
Proof. intros [Hwf _]. by apply free_element_add. Qed.

Lemma free_element_is_add_witness :
  exists p, StaticPool.new ex_config = Ok p /\
    StaticPool.free_element 4 (map (Z.add 7)) p = StaticPool.add [7; 7; 7; 7] p.
Proof.
  destruct (new_spec ex_config ex_config_addressable) as (p & Hp & Hrep & _).
  exists p. split; [exact Hp|].
  apply (free_element_is_add p ∅ 4 (map (Z.add 7)) Hrep); [lia|reflexivity].
Defined.

(** C3: A heapless pool with at least one subpool gives the same answers as a
    [StaticMemoryPool] with the same subpools, on every sequence of calls, and
    ends in the same memory contents. *)
Theorem heapless_run_agrees os h :
  h_pool h <> [] -> on_static (run_ops os h) = run_ops os (as_static h).
Proof.
  revert h. induction os as [|o os IH]; intros h Hne; [done|]. cbn [run_ops].
  pose proof (exec_op_nonempty o h Hne) as Hne1.
  rewrite <- (exec_op_heapless o h Hne). unfold on_static at 2. simpl.
  destruct (exec_op o h) as [r h1]. simpl in *. rewrite <- (IH h1 Hne1).
  by destruct (run_ops os h1).
Qed.

Definition ex_heapless : StaticHeaplessMemoryPool :=
  (HeaplessPool.grow 2 (replicate 8 0) [0; 0] 2 true (HeaplessPool.new false)).2.

Lemma heapless_run_agrees_witness :
  on_static (run_ops [OpAdd [1; 2]; OpRead 0 [0; 0]; OpDelete 0] ex_heapless) =
    run_ops [OpAdd [1; 2]; OpRead 0 [0; 0]; OpDelete 0] (as_static ex_heapless).
Proof. apply (heapless_run_agrees _ ex_heapless). discriminate. Defined.

(** Without a subpool the heapless pool reports [NoCapacity], which the other
    pool cannot. *)
Example heapless_empty :
  (HeaplessPool.add [1] (HeaplessPool.new false)).1 = Err NoCapacity.
Proof. reflexivity. Qed.

(** A store address survives the conversion to [PoolAddr] and back exactly
    when both of its [u16] indices are below 256; the conversion masks each
    index to 8 bits. *)
Theorem pool_addr_roundtrip_iff i j :
  in_u 16 i -> in_u 16 j ->
  StaticPoolAddr.from_pool_addr
    (StaticPoolAddr.into_pool_addr (mkStaticPoolAddr i j)) = mkStaticPoolAddr i j <->
  i < 256 /\ j < 256.
Proof.
  intros Hi Hj. split.
  - intros H. pose proof (from_pool_addr_range
      (StaticPoolAddr.into_pool_addr (mkStaticPoolAddr i j))) as Hr.
    rewrite H in Hr. simpl in Hr. lia.
  - unfold in_u in *. intros [? ?]. apply pool_addr_roundtrip; lia.
Qed.

Lemma pool_addr_roundtrip_iff_witness :
  StaticPoolAddr.from_pool_addr
    (StaticPoolAddr.into_pool_addr (mkStaticPoolAddr 3 256)) = mkStaticPoolAddr 3 256 <->
  3 < 256 /\ 256 < 256.
Proof. apply pool_addr_roundtrip_iff; unfold in_u; lia. Defined.

(** With 257 blocks in a subpool, block 256 gets an address that reads back
    block 0. *)
Example pool_addr_alias :
  let p := res_map (fun p => run_ops (replicate 257 (OpAdd [5]) ++ [OpDelete 0; OpAdd [6]; OpRead 256 [0]]) p)
    (StaticPool.new (StaticPoolConfig.new_from_subpool_cfg_tuples [(257, 1)] false)) in
  res_map (fun r => drop 256 r.1) p =
    Ok [OAddr (Ok 256); OUnit (Ok tt); OAddr (Ok 0); ORead (Ok (1, [6]))].
Proof. vm_compute. reflexivity. Qed.

(** The RAII guard of any pool that meets [PoolSpec].  A read through the
    guard is the pool's read; when the guard goes out of scope unreleased the
    packet is gone from the pool and nothing else changed, when it was released
    the pool is as before.  A guard on an address without data reports the
    error of the read, records that the deletion failed and leaves the pool
    alone. *)
Theorem guard_scoped_read_spec {P} `{PP : PoolProvider P} `{PS : !PoolSpec P} p m a buf released :
  pool_rep p m -> pool_known a ->
  match m !! a with
  | Some d => exists p',
      Guard.scoped_read a buf released p = (Ok (pool_read p a buf), p') /\
      pool_rep p' (if released then m else delete a m)
  | None => exists e,
      Guard.scoped_read a buf released p = (Ok (Err e), p) /\
      exists e', Guard.drop (Guard.new a) p =
        (Ok {| guard_addr := a; no_deletion := false; deletion_failed_error := Some e' |}, p)
  end.
Proof.
  intros Hrep Hk. unfold Guard.scoped_read, Guard.read.
  destruct (m !! a) as [d|] eqn:Hd.
  - destruct (pool_delete_some p m a d Hrep Hd) as (p' & Hdel & Hrep').
    assert (attempt (asks (fun p => pool_read p a buf)) p =
      (Ok (E:=PoolError) (pool_read p a buf), p)) as Hread.
    { unfold attempt, asks. rewrite (pool_read_some p m a d buf Hrep Hd).
      by destruct (len buf <? len d). }
    unfold Guard.drop. destruct released; simpl; unfold st_bind; rewrite Hread.
    + by exists p.
    + unfold attempt. rewrite Hdel. by exists p'.
  - destruct (pool_read_none p m a buf Hrep Hk Hd) as [e Hr].
    destruct (pool_delete_none p m a Hrep Hk Hd) as [e' Hdel]. exists e.
    unfold Guard.drop. destruct released; run_monad; rewrite Hr, Hdel; by eauto.
Qed.

Lemma guard_scoped_read_spec_witness :
  exists p, StaticPool.new ex_config = Ok p /\ exists e,
    Guard.scoped_read 5 [0; 0] false p = (Ok (Err e), p) /\
    exists e', Guard.drop (Guard.new 5) p =
      (Ok {| guard_addr := 5; no_deletion := false; deletion_failed_error := Some e' |}, p).
Proof.
  destruct (new_spec ex_config ex_config_addressable) as (p & Hp & Hrep & _).
  exists p. split; [exact Hp|].
  apply (guard_scoped_read_spec (PS:=StaticPool_spec) p ∅ 5 [0; 0] false Hrep).
  reflexivity.
Defined.

(** The heapless pool does not sort its subpools: with spilling, data that fits
    the first subpool is written over the small blocks of the next one, here
    over the bytes of the packet stored at block 1 of it. *)
Example heapless_spill_overwrites :
  let h0 := HeaplessPool.new true in
  let h1 := (HeaplessPool.grow 2 (replicate 8 0) [0] 1 true h0).2 in
  let h2 := (HeaplessPool.grow 2 (replicate 8 0) [0; 0] 2 true h1).2 in
  (run_ops [OpAdd [1; 1; 1; 1; 1; 1; 1; 1]; OpAdd [2; 2; 2]; OpAdd [3; 3; 3];
            OpAdd [2; 2]; OpDelete 65536; OpAdd [7; 7; 7; 7; 7; 7];
            OpRead 65537 [0; 0; 0; 0]] h2).1 =
    [OAddr (Ok 0); OAddr (Ok 65536); OAddr (Ok 65537); OAddr (Err (StoreFull 1));
     OUnit (Ok tt); OAddr (Ok 65536); ORead (Ok (3, [7; 7; 3; 0]))].
Proof. vm_compute. reflexivity. Qed.
