(* ===== verification/Scheduler.v ===== *)
(** * The time-based telecommand scheduler ([satrs/src/pus/scheduler.rs])

    [PusScheduler] keeps, per release time, the store addresses of the
    telecommands to release; the packets themselves are in a pool.  Its
    [BTreeMap] is a list sorted by key.  The theorems are proved for every pool
    that meets [PoolSpec] and every time type with the laws of [Ord]: the
    schedule stays sorted, every scheduled telecommand stays in the pool, and
    release hands out exactly the due ones, in order of their release times. *)

From Stdlib Require Import ZArith Lia Bool.
From stdpp Require Import base list gmap sorting.
From S2P Require Import Prelude Pool Spacepackets.

Local Open Scope Z_scope.

(** ** Data *)
Record RequestId : Type := mkRequestId { source_id : Z; apid : Z; seq_count : Z }.

#[export] Instance RequestId_eq_dec : EqDecision RequestId.
Proof. solve_decision. Defined.

Module RequestId.

Definition from_tc (tc : PusTc) : RequestId :=
  {| source_id := tc_source_id tc; apid := tc_apid tc; seq_count := tc_seq_count tc |}.

Definition as_u64 (r : RequestId) : Z :=
  Z.lor (Z.lor (as_u 64 (Z.shiftl (source_id r) 32)) (as_u 64 (Z.shiftl (apid r) 16)))
    (seq_count r).

End RequestId.

Record TcInfo : Type := mkTcInfo { addr : Z; request_id : RequestId }.

#[export] Instance TcInfo_eq_dec : EqDecision TcInfo.
Proof. solve_decision. Defined.

Inductive TimeWindowType : Type :=
| SelectAll
| TimeTagToTimeTag
| FromTimeTag
| ToTimeTag.

Record TimeWindow (TP : Type) : Type := mkTimeWindow {
  time_window_type : TimeWindowType;
  start_time : option TP;
  end_time : option TP;
}.

Arguments mkTimeWindow {TP} _ _ _.
Arguments time_window_type {TP} _.
Arguments start_time {TP} _.
Arguments end_time {TP} _.

Module TimeWindow.
Section TimeWindow.
Context {TP : Type}.

Definition new_select_all : TimeWindow TP := mkTimeWindow SelectAll None None.

Definition new_from_time_to_time (start_time end_time : TP) : TimeWindow TP :=
  mkTimeWindow TimeTagToTimeTag (Some start_time) (Some end_time).

Definition new_from_time (start_time : TP) : TimeWindow TP :=
  mkTimeWindow FromTimeTag (Some start_time) None.

Definition new_to_time (end_time : TP) : TimeWindow TP :=
  mkTimeWindow ToTimeTag None (Some end_time).

End TimeWindow.
End TimeWindow.

(** [PusError] and [TimestampError] are types of [spacepackets]. *)
Inductive ScheduleError (T D PusError TimestampError : Type) : Type :=
| SchedPusError (e : PusError)
| ReleaseTimeInTimeMargin (current_time : T) (time_margin : D) (release_time : T)
| NestedScheduledTc
| StoreError (e : PoolError)
| TcDataEmpty
| SchedTimestampError (e : TimestampError)
| WrongSubservice (subservice : Z)
| WrongService (service : Z)
| SchedByteConversionError (e : ByteConversionError).

Arguments SchedPusError {T D PusError TimestampError} e.
Arguments ReleaseTimeInTimeMargin {T D PusError TimestampError} _ _ _.
Arguments NestedScheduledTc {T D PusError TimestampError}.
Arguments StoreError {T D PusError TimestampError} e.
Arguments TcDataEmpty {T D PusError TimestampError}.
Arguments SchedTimestampError {T D PusError TimestampError} e.
Arguments WrongSubservice {T D PusError TimestampError} _.
Arguments WrongService {T D PusError TimestampError} _.
Arguments SchedByteConversionError {T D PusError TimestampError} e.

(** [enum DeletionResult]. *)
Inductive DeletionResult : Type :=
| WithoutStoreDeletion (a : option Z)
| WithStoreDeletion (r : res PoolError bool).

Record PusScheduler (T D : Type) : Type := mkPusScheduler {
  tc_map : list (T * list TcInfo);
  current_time : T;
  time_margin : D;
  enabled : bool;
}.

Arguments mkPusScheduler {T D} _ _ _ _.
Arguments tc_map {T D} _.
Arguments current_time {T D} _.
Arguments time_margin {T D} _.
Arguments enabled {T D} _.

(** ** The [BTreeMap] of the schedule *)
Module TcMap.
Section TcMap.
Context {T D : Type} `{TimeOps T D}.

Definition t := list (T * list TcInfo).

(** [entry(k)]: a new bucket, or a push to the existing one. *)
Fixpoint push (k : T) (info : TcInfo) (m : t) : t :=
  match m with
  | [] => [(k, [info])]
  | (k', l) :: m' =>
      if time_ltb k k' then (k, [info]) :: (k', l) :: m'
      else if time_ltb k' k then (k', l) :: push k info m'
      else (k', l ++ [info]) :: m'
  end.

Fixpoint remove (k : T) (m : t) : t :=
  match m with
  | [] => []
  | (k', l) :: m' =>
      if time_ltb k k' then (k', l) :: m'
      else if time_ltb k' k then (k', l) :: remove k m'
      else m'
  end.

(** [range]: the buckets whose keys are within the bounds, in order. *)
Definition range (within : T -> bool) (m : t) : t :=
  List.filter (fun e => within e.1) m.

(** [retain]. *)
Definition retain (keep : T -> bool) (m : t) : t :=
  List.filter (fun e => keep e.1) m.

(** All telecommands of the buckets, in order. *)
Definition tcs (m : t) : list TcInfo := concat (snd <$> m).

End TcMap.
End TcMap.

(** ** [PusScheduler] *)
Module Sched.
Section Sched.
Context {T D : Type} `{TimeOps T D}.
Context {P : Type} `{PoolProvider P}.
Context {PusError TimestampError : Type}.

#[local] Abbreviation sched := (PusScheduler T D).
#[local] Abbreviation SE := (ScheduleError T D PusError TimestampError).

Definition new (init_current_time : T) (time_margin : D) : sched :=
  {| tc_map := []; current_time := init_current_time; time_margin := time_margin;
     enabled := true |}.

Definition set_map (m : TcMap.t) (s : sched) : sched :=
  {| tc_map := m; current_time := current_time s; time_margin := time_margin s;
     enabled := enabled s |}.

Definition set_enabled (b : bool) (s : sched) : sched :=
  {| tc_map := tc_map s; current_time := current_time s; time_margin := time_margin s;
     enabled := b |}.

Definition enable : sched -> sched := set_enabled true.

Definition disable : sched -> sched := set_enabled false.

Definition num_scheduled_telecommands (s : sched) : Z :=
  fold_left (fun n e => n + len e.2) (tc_map s) 0.

Definition update_time (t : T) (s : sched) : sched :=
  {| tc_map := tc_map s; current_time := t; time_margin := time_margin s;
     enabled := enabled s |}.

(** The sum of the current time and the margin panics when it overflows. *)
Definition insert_unwrapped_and_stored_tc (time_stamp : T) (info : TcInfo)
    : st sched SE unit :=
  fun s =>
    match time_add (current_time s) (time_margin s) with
    | None => (Panic, s)
    | Some limit =>
        if time_ltb time_stamp limit
        then (Err (ReleaseTimeInTimeMargin (current_time s) (time_margin s) time_stamp), s)
        else (Ok tt, set_map (TcMap.push time_stamp info (tc_map s)) s)
    end.

(** [PusTcReader::new] parses the packet. *)
Definition insert_unwrapped_tc (pus_tc_reader_new : list Z -> res PusError PusTc)
    (time_stamp : T) (tc : list Z) : st (sched * P) SE TcInfo :=
  let* check_tc := lift (map_err SchedPusError (pus_tc_reader_new tc)) in
  if (tc_service check_tc =? 11) && (tc_subservice check_tc =? 4)
  then throw NestedScheduledTc
  else
    let req_id := RequestId.from_tc check_tc in
    let* a := st_map_err StoreError (on_snd (pool_add tc)) in
    let info := {| addr := a; request_id := req_id |} in
    let* _ := on_fst (insert_unwrapped_and_stored_tc time_stamp info) in
    ret info.

(** [TimeReader::from_bytes] gives the time stamp with its length in bytes. *)
Definition insert_wrapped_tc (pus_tc_reader_new : list Z -> res PusError PusTc)
    (time_from_bytes : list Z -> res TimestampError (T * Z)) (pus_tc : PusTc)
    : st (sched * P) SE TcInfo :=
  if negb (tc_service pus_tc =? 11) then throw (WrongService (tc_service pus_tc)) else
  if negb (tc_subservice pus_tc =? 4) then throw (WrongSubservice (tc_subservice pus_tc)) else
  if len (tc_user_data pus_tc) =? 0 then throw TcDataEmpty else
  let user_data := tc_user_data pus_tc in
  let* stamp := lift (map_err SchedTimestampError (time_from_bytes user_data)) in
  let* rest := lift (slice user_data stamp.2 (len user_data)) in
  insert_unwrapped_tc pus_tc_reader_new stamp.1 rest.

(** [BTreeMap::range] panics when the start of the range is after its end. *)
Definition retrieve_by_time_filter {E TP : Type} (unix_time : TP -> T)
    (w : TimeWindow TP) (s : sched) : res E TcMap.t :=
  match time_window_type w with
  | SelectAll => Ok (TcMap.range (fun _ => true) (tc_map s))
  | TimeTagToTimeTag =>
      let? start := unwrap (start_time w) in
      let? stop := unwrap (end_time w) in
      if time_ltb (unix_time stop) (unix_time start) then Panic
      else Ok (TcMap.range
                 (fun k => negb (time_ltb k (unix_time start)) && negb (time_ltb (unix_time stop) k))
                 (tc_map s))
  | FromTimeTag =>
      let? start := unwrap (start_time w) in
      Ok (TcMap.range (fun k => negb (time_ltb k (unix_time start))) (tc_map s))
  | ToTimeTag =>
      let? stop := unwrap (end_time w) in
      Ok (TcMap.range (fun k => negb (time_ltb (unix_time stop) k)) (tc_map s))
  end.

(** The deletion loop: the number of deletions that worked and the last error. *)
Fixpoint delete_tcs {E : Type} (l : list TcInfo) (acc : Z * option PoolError)
    : st P E (Z * option PoolError) :=
  match l with
  | [] => ret acc
  | tc :: l' =>
      let* r := attempt (pool_delete (addr tc)) in
      delete_tcs l'
        (match r with Err e => (acc.1, Some e) | _ => (acc.1 + 1, acc.2) end)
  end.

Definition delete_by_time_filter {TP : Type} (unix_time : TP -> T) (w : TimeWindow TP)
    : st (sched * P) (Z * PoolError) Z :=
  let* range := asks (fun sp => retrieve_by_time_filter unix_time w sp.1) in
  let* r := on_snd (delete_tcs (TcMap.tcs range) (0, None)) in
  let* _ := on_fst (modify_state (fun s =>
              set_map (fold_left (fun m k => TcMap.remove k m) (range.*1) (tc_map s)) s)) in
  match r.2 with
  | Some err => throw (r.1, err)
  | None => ret r.1
  end.

Definition delete_all : st (sched * P) (Z * PoolError) Z :=
  delete_by_time_filter id (TimeWindow.new_select_all (TP:=T)).

(** Index of the last telecommand of a bucket with the request ID. *)
Fixpoint last_match (req_id : RequestId) (idx : nat) (l : list TcInfo)
    (idx_found : option nat) : option nat :=
  match l with
  | [] => idx_found
  | tc :: l' =>
      last_match req_id (S idx) l'
        (if decide (request_id tc = req_id) then Some idx else idx_found)
  end.

(** The scan over the buckets: address of the removed entry and the new map. *)
Fixpoint remove_by_request_id (req_id : RequestId) (m : TcMap.t (T:=T))
    : option (Z * TcMap.t (T:=T)) :=
  match m with
  | [] => None
  | (k, l) :: m' =>
      match last_match req_id 0 l None with
      | Some idx =>
          tc ← l !! idx;
          Some (addr tc, (k, base.delete idx l) :: m')
      | None =>
          r ← remove_by_request_id req_id m';
          Some (r.1, (k, l) :: r.2)
      end
  end.

Definition delete_by_request_id_internal_without_store_deletion {E : Type}
    (req_id : RequestId) : st sched E DeletionResult :=
  fun s =>
    match remove_by_request_id req_id (tc_map s) with
    | Some (a, m) => (Ok (WithoutStoreDeletion (Some a)), set_map m s)
    | None => (Ok (WithoutStoreDeletion None), s)
    end.

Definition delete_by_request_id_internal_with_store_deletion {E : Type}
    (req_id : RequestId) : st (sched * P) E DeletionResult :=
  fun sp =>
    match remove_by_request_id req_id (tc_map sp.1) with
    | Some (a, m) =>
        let s' := set_map m sp.1 in
        match pool_delete a sp.2 with
        | (Ok _, p') => (Ok (WithStoreDeletion (Ok true)), (s', p'))
        | (Err e, p') => (Ok (WithStoreDeletion (Err e)), (s', p'))
        | (Panic, p') => (Panic, (s', p'))
        end
    | None => (Ok (WithStoreDeletion (Ok false)), sp)
    end.

Definition delete_by_request_id {E : Type} (req_id : RequestId) : st sched E (option Z) :=
  let* r := delete_by_request_id_internal_without_store_deletion req_id in
  match r with
  | WithoutStoreDeletion v => ret v
  | WithStoreDeletion _ => lift Panic
  end.

Definition delete_by_request_id_and_from_pool (req_id : RequestId)
    : st (sched * P) PoolError bool :=
  let* r := delete_by_request_id_internal_with_store_deletion req_id in
  match r with
  | WithStoreDeletion v => lift v
  | WithoutStoreDeletion _ => lift Panic
  end.

Definition telecommands_to_release (s : sched) : TcMap.t :=
  TcMap.range (fun k => negb (time_ltb (current_time s) k)) (tc_map s).

(** [self.tc_map.retain(|k, _| k > &self.current_time)] *)
Definition drop_released (s : sched) : sched :=
  set_map (TcMap.retain (fun k => time_ltb (current_time s) k) (tc_map s)) s.

(** The release closure with its captured state. *)
Definition Releaser (R : Type) : Type := R -> bool -> TcInfo -> list Z -> bool * R.

(** The buffer, the closure's state and the pool of a release in progress. *)
Record Release (R : Type) : Type := mkRelease {
  rel_buf : option (list Z);
  rel_user : R;
  rel_pool : P;
}.

Arguments mkRelease {R} _ _ _.
Arguments rel_buf {R} _.
Arguments rel_user {R} _.
Arguments rel_pool {R} _.

(** The packet handed to the closure: the whole user buffer after the read, or
    the packet alone. *)
Definition fetch {R : Type} (a : Z) : st (Release R) PoolError (list Z) :=
  fun x =>
    match rel_buf x with
    | Some buf =>
        match pool_read (rel_pool x) a buf with
        | Ok (_, buf') => (Ok buf', mkRelease (Some buf') (rel_user x) (rel_pool x))
        | Err e => (Err e, x)
        | Panic => (Panic, x)
        end
    | None => (read_as_vec (rel_pool x) a, x)
    end.

Definition call_releaser {E R : Type} (f : Releaser R) (en : bool) (info : TcInfo)
    (pkt : list Z) : st (Release R) E bool :=
  fun x => let '(b, u) := f (rel_user x) en info pkt in
           (Ok b, mkRelease (rel_buf x) u (rel_pool x)).

Definition on_pool {E R A : Type} (m : st P E A) : st (Release R) E A :=
  fun x => let '(r, p') := m (rel_pool x) in (r, mkRelease (rel_buf x) (rel_user x) p').

Fixpoint release_loop {R : Type} (f : Releaser R) (en : bool) (l : list TcInfo)
    (released_tcs : Z) (store_error : option PoolError)
    : st (Release R) (Z * PoolError) (Z * option PoolError) :=
  match l with
  | [] => ret (released_tcs, store_error)
  | info :: l' =>
      let* pkt := st_map_err (fun e => (released_tcs, e)) (fetch (addr info)) in
      let* should_delete := call_releaser f en info pkt in
      if should_delete then
        let* r := attempt (on_pool (pool_delete (addr info))) in
        release_loop f en l' (released_tcs + 1)
          (match r with Err e => Some e | _ => store_error end)
      else release_loop f en l' (released_tcs + 1) store_error
  end.

Definition release_telecommands_internal {R : Type} (f : Releaser R) (tc_buf : option (list Z))
    (u : R) (s : sched) (p : P) : res (Z * PoolError) Z * (sched * Release R) :=
  let tcs_to_release := TcMap.tcs (telecommands_to_release s) in
  match release_loop f (enabled s) tcs_to_release 0 None (mkRelease tc_buf u p) with
  | (Ok (n, None), x) => (Ok n, (drop_released s, x))
  | (Ok (n, Some e), x) => (Err (n, e), (drop_released s, x))
  | (Err e, x) => (Err e, (s, x))
  | (Panic, x) => (Panic, (s, x))
  end.

Definition release_telecommands_with_buffer {R : Type} (f : Releaser R) (tc_buf : list Z) :=
  release_telecommands_internal f (Some tc_buf).

Definition release_telecommands {R : Type} (f : Releaser R) :=
  release_telecommands_internal f None.

Fixpoint release_no_deletion_loop {R : Type} (f : Releaser R) (en : bool) (l : list TcInfo)
    (released_tcs : list TcInfo) : st (Release R) (list TcInfo * PoolError) (list TcInfo) :=
  match l with
  | [] => ret released_tcs
  | info :: l' =>
      let* pkt := st_map_err (fun e => (released_tcs, e)) (fetch (addr info)) in
      let* _ := call_releaser f en info pkt in
      release_no_deletion_loop f en l' (released_tcs ++ [info])
  end.

(** The closure returns nothing here; what [f] returns besides its state is
    ignored. *)
Definition release_telecommands_no_deletion {R : Type} (f : Releaser R) (tc_buf : list Z)
    (u : R) (s : sched) (p : P)
    : res (list TcInfo * PoolError) (list TcInfo) * (sched * Release R) :=
  let tcs_to_release := TcMap.tcs (telecommands_to_release s) in
  match release_no_deletion_loop f (enabled s) tcs_to_release [] (mkRelease (Some tc_buf) u p) with
  | (Ok l, x) => (Ok l, (drop_released s, x))
  | (Err e, x) => (Err e, (s, x))
  | (Panic, x) => (Panic, (s, x))
  end.

(** [PusSchedulerProvider::reset]. *)
Definition reset : st (sched * P) PoolError unit :=
  let* _ := on_fst (modify_state disable) in
  let* tcs := gets (fun sp => TcMap.tcs (tc_map sp.1)) in
  let* r := on_snd (delete_tcs tcs (0, None)) in
  let* _ := on_fst (modify_state (set_map [])) in
  match r.2 with
  | Some e => throw e
  | None => ret tt
  end.

End Sched.

Arguments mkRelease {P R} _ _ _.
Arguments rel_buf {P R} _.
Arguments rel_user {P R} _.
Arguments rel_pool {P R} _.

(** [generate_insert_telecommand_app_data]: the written buffer and its length. *)
Definition generate_insert_telecommand_app_data {T D PE TE : Type} (buf : list Z)
    (release_time : Writer TE) (request : Writer ByteConversionError)
    : res (ScheduleError T D PE TE) (Z * list Z) :=
  let required_len := 2 + len_written release_time + len_written request in
  if len buf <? required_len
  then Err (SchedByteConversionError (ToSliceTooSmall (len buf) required_len))
  else
    let? buf1 := copy_into buf 0 2 (to_be_bytes 2 1) in
    let? s1 := slice buf1 2 (2 + len_written release_time) in
    let? r1 := map_err SchedTimestampError (write_to_bytes release_time s1) in
    let? buf2 := copy_into buf1 2 (2 + len_written release_time) r1.2 in
    let current_len := 2 + r1.1 in
    let? s2 := slice buf2 current_len (current_len + len_written request) in
    let? r2 := map_err SchedByteConversionError (write_to_bytes request s2) in
    let? buf3 := copy_into buf2 current_len (current_len + len_written request) r2.2 in
    Ok (current_len + r2.1, buf3).

Definition generate_insert_telecommand_app_data_as_vec {T D PE TE : Type}
    (release_time : Writer TE) (request : Writer ByteConversionError)
    : res (ScheduleError T D PE TE) (list Z) :=
  let? t := map_err SchedTimestampError (to_vec release_time) in
  let? r := map_err SchedByteConversionError (to_vec request) in
  Ok (to_be_bytes 2 1 ++ t ++ r).

End Sched.

(** ** The schedule as a sorted map *)
Section Schedule.
Context {T D : Type} `{TimeOps T D} `{!TimeLaws T D}.
Implicit Types (m : list (T * list TcInfo)) (k : T).

Definition before (a b : T * list TcInfo) : Prop := time_ltb a.1 b.1 = true.

(** Two times that compare equal. *)
Definition same_time (a b : T) : bool := negb (time_ltb a b) && negb (time_ltb b a).

(** The telecommands scheduled for [k], in order of insertion. *)
Definition at_time (k : T) (m : list (T * list TcInfo)) : list TcInfo :=
  TcMap.tcs (List.filter (fun e => same_time k e.1) m).

Lemma same_time_iff a b : same_time a b = true <-> a = b.
Proof.
  unfold same_time. rewrite andb_true_iff, !negb_true_iff. split.
  - intros [? ?]. by apply time_total.
  - intros ->. by rewrite time_irrefl.
Qed.

Lemma time_asym a b : time_ltb a b = true -> time_ltb b a = false.
Proof.
  intros Hab. destruct (time_ltb b a) eqn:Hba; [|done].
  pose proof (time_trans _ _ _ Hab Hba) as Haa. by rewrite time_irrefl in Haa.
Qed.

Lemma same_time_lt a b : time_ltb a b = true -> same_time a b = false /\ same_time b a = false.
Proof.
  intros Hab. unfold same_time. rewrite Hab, (time_asym _ _ Hab). done.
Qed.

Lemma tcs_cons e m : TcMap.tcs (e :: m) = e.2 ++ TcMap.tcs m.
Proof. done. Qed.

Lemma tcs_app m m' : TcMap.tcs (m ++ m') = TcMap.tcs m ++ TcMap.tcs m'.
Proof. unfold TcMap.tcs. by rewrite fmap_app, concat_app. Qed.

Lemma at_time_cons k e m :
  at_time k (e :: m) = (if same_time k e.1 then e.2 else []) ++ at_time k m.
Proof. unfold at_time. simpl. by destruct (same_time k e.1). Qed.

(** Nothing is scheduled for [k] in the buckets after it. *)
Lemma at_time_after k m :
  Forall (fun e => time_ltb k e.1 = true) m -> at_time k m = [].
Proof.
  induction 1 as [|e m He Hm IH]; [done|]. rewrite at_time_cons, IH.
  by rewrite (proj1 (same_time_lt _ _ He)).
Qed.

Lemma sorted_filter (f : T * list TcInfo -> bool) m :
  StronglySorted before m -> StronglySorted before (List.filter f m).
Proof.
  induction 1 as [|e m Hm IH He]; simpl; [constructor|].
  destruct (f e); [|done]. constructor; [done|].
  rewrite List.Forall_forall in *. intros x Hx. apply filter_In in Hx as [Hx _]. auto.
Qed.

Lemma push_head k info m k0 :
  time_ltb k0 k = true -> Forall (fun e => time_ltb k0 e.1 = true) m ->
  Forall (fun e => time_ltb k0 e.1 = true) (TcMap.push k info m).
Proof.
  intros Hk. induction 1 as [|[k' l] m He Hm IH]; simpl; [by repeat constructor|].
  destruct (time_ltb k k'); [by repeat constructor|].
  destruct (time_ltb k' k); by constructor.
Qed.

Lemma push_sorted k info m :
  StronglySorted before m -> StronglySorted before (TcMap.push k info m).
Proof.
  induction 1 as [|[k' l] m Hm IH He]; simpl; [by repeat constructor|].
  destruct (time_ltb k k') eqn:Hlt.
  - repeat constructor; try done.
    eapply Forall_impl; [exact He|]. intros e Hb. unfold before in *. simpl in *.
    by eapply time_trans.
  - destruct (time_ltb k' k) eqn:Hgt; constructor; try done.
    by apply push_head.
Qed.

Lemma push_at_time k k' info m :
  StronglySorted before m ->
  at_time k' (TcMap.push k info m) =
    at_time k' m ++ (if same_time k' k then [info] else []).
Proof.
  induction 1 as [|[k0 l] m Hm IH He]; simpl.
  - rewrite at_time_cons. simpl. by rewrite app_nil_r.
  - destruct (time_ltb k k0) eqn:Hlt; [|destruct (time_ltb k0 k) eqn:Hgt].
    + rewrite at_time_cons. simpl. destruct (same_time k' k) eqn:Hs; [|by rewrite app_nil_r].
      apply same_time_iff in Hs as ->. rewrite at_time_cons. simpl.
      rewrite (proj1 (same_time_lt _ _ Hlt)). simpl. rewrite at_time_after; [done|].
      eapply Forall_impl; [exact He|]. intros e Hb. unfold before in Hb. simpl in Hb.
      by eapply time_trans.
    + rewrite !at_time_cons, IH. simpl. by rewrite app_assoc.
    + assert (k = k0) as -> by (by apply time_total). rewrite !at_time_cons. simpl.
      destruct (same_time k' k0) eqn:Hs; [|by rewrite app_nil_r].
      apply same_time_iff in Hs as ->. rewrite at_time_after; [by rewrite !app_nil_r|exact He].
Qed.

Lemma push_tcs k info m : TcMap.tcs (TcMap.push k info m) ≡ₚ info :: TcMap.tcs m.
Proof.
  induction m as [|[k' l] m IH]; simpl; [done|].
  destruct (time_ltb k k'); [done|]. destruct (time_ltb k' k); rewrite !tcs_cons; simpl.
  - rewrite IH. by rewrite Permutation_middle.
  - rewrite <- app_assoc. simpl. by rewrite Permutation_middle.
Qed.

Lemma remove_filter k m :
  StronglySorted before m ->
  TcMap.remove k m = List.filter (fun e => negb (same_time k e.1)) m.
Proof.
  induction 1 as [|[k' l] m Hm IH He]; [done|]. cbn [TcMap.remove List.filter fst].
  assert (Hafter : forall k0, time_ltb k0 k' = true \/ k0 = k' ->
    List.filter (fun e => negb (same_time k0 e.1)) m = m).
  { intros k0 Hk0. apply list_filter_all. intros e Hin. rewrite List.Forall_forall in He.
    specialize (He e Hin). unfold before in He. simpl in He.
    rewrite (proj1 (same_time_lt k0 e.1 ltac:(destruct Hk0 as [?| ->]; [by eapply time_trans|done]))).
    done. }
  destruct (time_ltb k k') eqn:Hlt; [|destruct (time_ltb k' k) eqn:Hgt].
  - rewrite (proj1 (same_time_lt _ _ Hlt)). simpl. by rewrite Hafter by auto.
  - rewrite (proj2 (same_time_lt _ _ Hgt)). simpl. by rewrite IH.
  - assert (k = k') as -> by (by apply time_total).
    rewrite (proj2 (same_time_iff k' k') eq_refl). simpl. by rewrite Hafter by auto.
Qed.

(** Removing the keys of a range leaves the other buckets. *)
Lemma remove_range (w : T -> bool) m :
  StronglySorted before m ->
  fold_left (fun acc k => TcMap.remove k acc) ((TcMap.range w m).*1) m =
    List.filter (fun e => negb (w e.1)) m.
Proof.
  intros Hm.
  assert (Hfold : forall ks acc, StronglySorted before acc ->
    fold_left (fun acc k => TcMap.remove k acc) ks acc =
    List.filter (fun e => forallb (fun k => negb (same_time k e.1)) ks) acc).
  { induction ks as [|k ks IH]; intros acc Hacc; simpl.
    - symmetry. by apply list_filter_all.
    - rewrite remove_filter by done. rewrite IH by (by apply sorted_filter).
      apply list_filter_filter. }
  rewrite Hfold by done. apply filter_ext_in. intros e Hin.
  apply eq_true_iff_eq. rewrite forallb_forall, negb_true_iff. split.
  - intros Hall. destruct (w e.1) eqn:Hw; [|done].
    specialize (Hall e.1). rewrite (proj2 (same_time_iff e.1 e.1) eq_refl) in Hall.
    discriminate Hall. apply in_map_iff. exists e. split; [done|]. by apply filter_In.
  - intros Hw k Hk. apply in_map_iff in Hk as (e' & <- & He').
    apply filter_In in He' as [_ Hw']. apply negb_true_iff.
    destruct (same_time e'.1 e.1) eqn:Hs; [|done]. apply same_time_iff in Hs. congruence.
Qed.

(** The due buckets come first. *)
Lemma range_split t m :
  StronglySorted before m ->
  m = TcMap.range (fun k => negb (time_ltb t k)) m ++ TcMap.retain (fun k => time_ltb t k) m.
Proof.
  induction 1 as [|[k l] m Hm IH He]; [done|].
  unfold TcMap.range, TcMap.retain in *. simpl.
  destruct (time_ltb t k) eqn:Hlt; simpl; [|by rewrite <- IH].
  rewrite List.Forall_forall in He.
  assert (Hall : forall e, In e m -> time_ltb t e.1 = true).
  { intros e Hin. specialize (He e Hin). unfold before in He. simpl in He. by eapply time_trans. }
  rewrite list_filter_none by (intros e Hin; by rewrite Hall).
  by rewrite list_filter_all.
Qed.

End Schedule.

(** ** The schedule and the store together *)

(** The store without the packets of [l]. *)
Definition drop_addrs (l : list TcInfo) (m : gmap Z (list Z)) : gmap Z (list Z) :=
  fold_left (fun m i => delete (addr i) m) l m.

(** Every telecommand of the list has its own packet in the store. *)
Record stored (l : list TcInfo) (m : gmap Z (list Z)) : Prop := {
  st_nodup : NoDup (addr <$> l);
  st_in : forall i, i ∈ l -> is_Some (m !! addr i);
}.

Lemma lookup_drop_addrs l m a :
  drop_addrs l m !! a = if decide (a ∈ addr <$> l) then None else m !! a.
Proof.
  revert m. induction l as [|i l IH]; intros m; simpl; [done|]. rewrite IH.
  destruct (decide (a ∈ addr <$> l)) as [Hin|Hin].
  - rewrite decide_True; [done|]. set_solver.
  - destruct (Z.eq_dec a (addr i)) as [->|Hne].
    + rewrite lookup_delete_eq, decide_True; [done|]. set_solver.
    + rewrite lookup_delete_ne by done. rewrite decide_False; [done|]. set_solver.
Qed.

Lemma stored_cons i l m : stored (i :: l) m -> is_Some (m !! addr i) /\ stored l (delete (addr i) m).
Proof.
  intros [Hnd Hin]. split; [apply Hin; set_solver|].
  apply NoDup_cons in Hnd as [Hni Hnd]. constructor; [done|]. intros j Hj.
  rewrite lookup_delete_ne; [apply Hin; set_solver|].
  intros Heq. apply Hni. rewrite Heq. apply list_elem_of_fmap. eauto.
Qed.

Lemma stored_keep i l m : stored (i :: l) m -> stored l m.
Proof.
  intros [Hnd Hin]. apply NoDup_cons in Hnd as [_ Hnd]. constructor; [done|].
  intros j Hj. apply Hin. set_solver.
Qed.

Lemma stored_perm l l' m : l ≡ₚ l' -> stored l m -> stored l' m.
Proof.
  intros Hp [Hnd Hin]. constructor; [by rewrite <- Hp|]. intros i Hi. apply Hin. by rewrite Hp.
Qed.

#[export] Instance stored_proper : Proper ((≡ₚ) ==> eq ==> iff) stored.
Proof. intros l l' Hp m ? <-. split; by apply stored_perm. Qed.

(** Dropping part of the list keeps the rest. *)
Lemma stored_app l l' m : stored (l ++ l') m -> stored l m /\ stored l' (drop_addrs l m).
Proof.
  intros [Hnd Hin]. rewrite fmap_app in Hnd. apply NoDup_app in Hnd as (H1 & H2 & H3).
  split; constructor; try done.
  - intros i Hi. apply Hin. set_solver.
  - intros i Hi. rewrite lookup_drop_addrs, decide_False; [apply Hin; set_solver|].
    intros Ha. apply (H2 _ Ha). apply list_elem_of_fmap. eauto.
Qed.

Section Store.
Context {P : Type} `{PP : PoolProvider P} `{PS : !PoolSpec P}.
Implicit Types (p : P) (m : gmap Z (list Z)) (l : list TcInfo).

Lemma read_as_vec_some p m a d :
  pool_rep p m -> m !! a = Some d -> read_as_vec p a = Ok d.
Proof.
  intros Hrep Hd. unfold read_as_vec. rewrite (pool_len_some p m a d Hrep Hd). simpl.
  rewrite (pool_read_some p m a d _ Hrep Hd), len_replicate, Z2Nat.id by apply len_nonneg.
  rewrite Z.ltb_irrefl. simpl. f_equal. rewrite drop_ge; [apply app_nil_r|].
  rewrite length_replicate. unfold len. lia.
Qed.

Lemma delete_tcs_spec {E} p m l acc :
  pool_rep p m -> stored l m ->
  exists p', Sched.delete_tcs (E:=E) l acc p = (Ok (acc.1 + len l, acc.2), p') /\
    pool_rep p' (drop_addrs l m).
Proof.
  revert p m acc. induction l as [|i l IH]; intros p m [n e] Hrep Hst; simpl.
  - exists p. unfold ret. by rewrite Z.add_0_r.
  - apply stored_cons in Hst as [[d Hd] Hst].
    destruct (pool_delete_some p m (addr i) d Hrep Hd) as (p1 & Hdel & Hrep1).
    unfold st_bind, attempt. rewrite Hdel. simpl.
    destruct (IH p1 _ (n + 1, e) Hrep1 Hst) as (p' & Hrun & Hrep'). exists p'.
    split; [|done]. rewrite Hrun. simpl. rewrite len_cons. do 3 f_equal. lia.
Qed.

(** What the release closure does to its own state and to the store. *)
Fixpoint abs_release {R : Type} (f : Sched.Releaser R) (en : bool) (l : list TcInfo)
    (u : R) (m : gmap Z (list Z)) : R * gmap Z (list Z) :=
  match l with
  | [] => (u, m)
  | i :: l' =>
      let '(b, u') := f u en i (default [] (m !! addr i)) in
      abs_release f en l' u' (if b then delete (addr i) m else m)
  end.

Lemma release_loop_spec {R} (f : Sched.Releaser R) en l n u p m :
  pool_rep p m -> stored l m ->
  exists p', Sched.release_loop f en l n None (Sched.mkRelease None u p) =
      (Ok (n + len l, None), Sched.mkRelease None (abs_release f en l u m).1 p') /\
    pool_rep p' (abs_release f en l u m).2.
Proof.
  revert n u p m. induction l as [|i l IH]; intros n u p m Hrep Hst; simpl.
  - exists p. unfold ret. by rewrite Z.add_0_r.
  - destruct (stored_cons _ _ _ Hst) as [[d Hd] Hst'].
    unfold st_bind, st_map_err, Sched.fetch, Sched.call_releaser. simpl.
    rewrite (read_as_vec_some p m (addr i) d Hrep Hd), Hd. simpl.
    destruct (f u en i d) as [[] u'].
    + destruct (pool_delete_some p m (addr i) d Hrep Hd) as (p1 & Hdel & Hrep1).
      unfold attempt, Sched.on_pool. simpl. rewrite Hdel. simpl.
      destruct (IH (n + 1) u' p1 _ Hrep1 Hst') as (p' & -> & Hrep'). exists p'.
      split; [|done]. rewrite len_cons. do 3 f_equal. lia.
    + destruct (IH (n + 1) u' p m Hrep (stored_keep _ _ _ Hst)) as (p' & -> & Hrep').
      exists p'. split; [|done]. rewrite len_cons. do 3 f_equal. lia.
Qed.

End Store.

(** What is kept after a release is still in the store. *)
Lemma abs_release_stored {R} (f : Sched.Releaser R) en l l' u m :
  stored (l ++ l') m -> stored l' (abs_release f en l u m).2.
Proof.
  revert u m. induction l as [|i l IH]; intros u m Hst; simpl; [done|].
  destruct (f u en i _) as [[] u']; apply IH.
  - by apply (stored_cons i).
  - by apply (stored_keep i).
Qed.

(** A closure that records its calls and asks for deletion. *)
Definition recorder : Sched.Releaser (list (bool * TcInfo * list Z)) :=
  fun u en info pkt => (true, u ++ [(en, info, pkt)]).

Lemma abs_release_recorder en l u m :
  stored l m ->
  abs_release recorder en l u m =
    (u ++ ((fun i => (en, i, default [] (m !! addr i))) <$> l), drop_addrs l m).
Proof.
  revert u m. induction l as [|i l IH]; intros u m Hst; simpl; [by rewrite app_nil_r|].
  pose proof (st_nodup _ _ Hst) as Hnd. apply NoDup_cons in Hnd as [Hni _].
  apply stored_cons in Hst as [_ Hst]. rewrite IH by done. f_equal. rewrite <- app_assoc.
  f_equal. simpl. f_equal. apply list_fmap_ext. intros k j Hj.
  rewrite lookup_delete_ne; [done|]. intros Heq. apply Hni. rewrite Heq.
  apply list_elem_of_fmap. exists j. split; [done|]. by eapply list_elem_of_lookup_2.
Qed.

(** ** Operations *)
Section Ops.
Context {T D : Type} `{TO : TimeOps T D} `{TL : !TimeLaws T D}.
Context {P : Type} `{PP : PoolProvider P} `{PS : !PoolSpec P}.
Context {PusError TimestampError : Type}.
Implicit Types (s : PusScheduler T D) (p : P) (m : gmap Z (list Z)).

Definition scheduled (s : PusScheduler T D) : list TcInfo := TcMap.tcs (tc_map s).

(** The invariant: sorted by release time, one stored packet per telecommand. *)
Record sched_inv (s : PusScheduler T D) (m : gmap Z (list Z)) : Prop := {
  inv_sorted : StronglySorted before (tc_map s);
  inv_stored : stored (scheduled s) m;
}.

(** The telecommands that are due. *)
Definition due (s : PusScheduler T D) : list TcInfo :=
  TcMap.tcs (Sched.telecommands_to_release s).

Lemma scheduled_split s :
  StronglySorted before (tc_map s) ->
  scheduled s = due s ++ scheduled (Sched.drop_released s).
Proof.
  intros Hs. unfold scheduled, due. rewrite <- tcs_app. f_equal. by apply range_split.
Qed.

Lemma release_spec {R} (f : Sched.Releaser R) u s p m :
  pool_rep p m -> sched_inv s m ->
  exists p', Sched.release_telecommands f u s p =
      (Ok (len (due s)), (Sched.drop_released s,
         Sched.mkRelease None (abs_release f (enabled s) (due s) u m).1 p')) /\
    pool_rep p' (abs_release f (enabled s) (due s) u m).2 /\
    sched_inv (Sched.drop_released s) (abs_release f (enabled s) (due s) u m).2.
Proof.
  intros Hrep [Hs Hst]. pose proof (scheduled_split s Hs) as Hsplit.
  rewrite Hsplit in Hst. pose proof (stored_app _ _ _ Hst) as [Hdue _].
  destruct (release_loop_spec f (enabled s) (due s) 0 u p m Hrep Hdue) as (p' & Hrun & Hrep').
  exists p'. unfold Sched.release_telecommands, Sched.release_telecommands_internal.
  fold (due s). rewrite Hrun. split; [done|]. split; [done|].
  constructor; [by apply sorted_filter|]. by apply abs_release_stored.
Qed.

Lemma stored_insert info l m d :
  stored l m -> m !! addr info = None -> stored (info :: l) (<[addr info := d]> m).
Proof.
  intros [Hnd Hin] Hn. constructor.
  - apply NoDup_cons. split; [|done]. intros Ha. apply list_elem_of_fmap in Ha as (j & Hj & Hjl).
    destruct (Hin j Hjl) as [x Hx]. rewrite <- Hj in Hx. congruence.
  - intros j Hj. destruct (Z.eq_dec (addr info) (addr j)) as [->|Hne].
    + rewrite lookup_insert_eq. eauto.
    + rewrite lookup_insert_ne by done. apply elem_of_cons in Hj as [->|Hj]; [done|].
      by apply Hin.
Qed.

Lemma stored_mono l m m' : stored l m -> m ⊆ m' -> stored l m'.
Proof.
  intros [Hnd Hin] Hsub. constructor; [done|]. intros i Hi.
  destruct (Hin i Hi) as [d Hd]. exists d. by eapply lookup_weaken.
Qed.

(** The outcomes of [insert_unwrapped_tc]. *)
(** A telecommand that inserts activities into the schedule. *)
Definition is_nested (tc : PusTc) : Prop := tc_service tc = 11 /\ tc_subservice tc = 4.

(** Why [insert_unwrapped_tc] refuses a packet before it schedules it. *)
Definition refusal_reason (parse : list Z -> res PusError PusTc) tc (p : P)
    (e : ScheduleError T D PusError TimestampError) : Prop :=
  match e with
  | SchedPusError e => parse tc = Err e
  | NestedScheduledTc => exists view, parse tc = Ok view /\ is_nested view
  | StoreError e => (exists view, parse tc = Ok view /\ ~ is_nested view) /\
      (pool_add tc p).1 = Err e
  | _ => False
  end.

Lemma insert_unwrapped_tc_spec parse t tc s p m :
  pool_rep p m -> sched_inv s m -> parse tc <> Panic ->
  match Sched.insert_unwrapped_tc (TimestampError:=TimestampError) (PusError:=PusError) parse t tc (s, p) with
  | (Ok info, (s', p')) => exists view, parse tc = Ok view /\ ~ is_nested view /\
      (exists limit, time_add (current_time s) (time_margin s) = Some limit /\ time_ltb t limit = false) /\
      request_id info = RequestId.from_tc view /\ m !! addr info = None /\
      s' = Sched.set_map (TcMap.push t info (tc_map s)) s /\
      pool_rep p' (<[addr info := tc]> m) /\ sched_inv s' (<[addr info := tc]> m)
  | (Err (ReleaseTimeInTimeMargin now margin stamp), (s', p')) => s' = s /\
      now = current_time s /\ margin = time_margin s /\ stamp = t /\
      (exists view, parse tc = Ok view /\ ~ is_nested view) /\
      (exists limit, time_add (current_time s) (time_margin s) = Some limit /\ time_ltb t limit = true) /\
      exists a, m !! a = None /\ pool_rep p' (<[a := tc]> m) /\ sched_inv s' (<[a := tc]> m)
  | (Err e, (s', p')) => s' = s /\ p' = p /\ refusal_reason parse tc p e
  | (Panic, (s', p')) => s' = s /\ time_add (current_time s) (time_margin s) = None /\
      exists a, m !! a = None /\ pool_rep p' (<[a := tc]> m) /\ sched_inv s' (<[a := tc]> m)
  end.
Proof.
  intros Hrep [Hs Hst] Hp. unfold Sched.insert_unwrapped_tc, st_bind at 1, lift.
  destruct (parse tc) as [view|e|] eqn:Hv; simpl; [|done|done].
  assert (Hn : (tc_service view =? 11) && (tc_subservice view =? 4) = true <-> is_nested view)
    by (unfold is_nested; rewrite andb_true_iff, !Z.eqb_eq; reflexivity).
  destruct (_ && _).
  { simpl. do 2 (split; [done|]). exists view. split; [done|]. by apply Hn. }
  assert (~ is_nested view) as Hnn by (intros Hx; by apply Hn in Hx). clear Hn.
  unfold st_bind, st_map_err, on_snd. simpl.
  pose proof (pool_add_spec p m tc Hrep) as Ha.
  destruct (pool_add tc p) as [[a|e|] p'] eqn:Hadd; simpl; [| |done].
  2: { subst p'. do 2 (split; [done|]). rewrite Hadd. eauto. }
  destruct Ha as (Hn & Hk & Hrep'). unfold on_fst. simpl. unfold Sched.insert_unwrapped_and_stored_tc.
  assert (Hkeep : exists a, m !! a = None /\ pool_rep p' (<[a := tc]> m) /\ sched_inv s (<[a := tc]> m)).
  { exists a. do 2 (split; [done|]). constructor; [done|]. eapply stored_mono; [done|]. by apply insert_subseteq. }
  destruct (time_add _ _) as [limit|] eqn:Hl; simpl; [|done].
  destruct (time_ltb t limit) eqn:Hm; simpl.
  - do 4 (split; [done|]). split; [by exists view|]. split; [by exists limit|]. exact Hkeep.
  - exists view. do 2 (split; [done|]). split; [by exists limit|]. do 4 (split; [done|]). constructor; simpl.
    + by apply push_sorted.
    + unfold scheduled. simpl. rewrite push_tcs. by apply stored_insert.
Qed.

(** Which release times a window selects; a window whose start is after its
    end is refused by [BTreeMap::range]. *)
Definition in_window (w : TimeWindow T) (t : T) : bool :=
  match time_window_type w, start_time w, end_time w with
  | SelectAll, _, _ => true
  | TimeTagToTimeTag, Some a, Some b => negb (time_ltb t a) && negb (time_ltb b t)
  | FromTimeTag, Some a, _ => negb (time_ltb t a)
  | ToTimeTag, _, Some b => negb (time_ltb b t)
  | _, _, _ => false
  end.

Definition window_ok (w : TimeWindow T) : Prop :=
  match time_window_type w, start_time w, end_time w with
  | SelectAll, _, _ => True
  | TimeTagToTimeTag, Some a, Some b => time_ltb b a = false
  | FromTimeTag, Some _, _ => True
  | ToTimeTag, _, Some _ => True
  | _, _, _ => False
  end.

Lemma retrieve_spec {E} w s :
  window_ok w ->
  Sched.retrieve_by_time_filter (E:=E) id w s = Ok (TcMap.range (in_window w) (tc_map s)).
Proof.
  unfold window_ok, Sched.retrieve_by_time_filter, in_window.
  destruct w as [[] [a|] [b|]]; simpl; try done. by intros ->.
Qed.

Lemma tcs_filter_perm (f : T * list TcInfo -> bool) (l : list (T * list TcInfo)) :
  TcMap.tcs l ≡ₚ TcMap.tcs (List.filter f l) ++ TcMap.tcs (List.filter (fun e => negb (f e)) l).
Proof.
  induction l as [|e l IH]; simpl; [done|]. rewrite tcs_cons, IH.
  destruct (f e); simpl; rewrite tcs_cons; rewrite <- ?app_assoc; [done|].
  by rewrite Permutation_app_swap_app.
Qed.

Definition selected (w : TimeWindow T) (s : PusScheduler T D) : list TcInfo :=
  TcMap.tcs (TcMap.range (in_window w) (tc_map s)).

Definition unselected (w : TimeWindow T) (s : PusScheduler T D) : PusScheduler T D :=
  Sched.set_map (TcMap.retain (fun t => negb (in_window w t)) (tc_map s)) s.

Lemma delete_by_time_filter_spec w s p m :
  pool_rep p m -> sched_inv s m -> window_ok w ->
  exists p', Sched.delete_by_time_filter id w (s, p) = (Ok (len (selected w s)), (unselected w s, p')) /\
    pool_rep p' (drop_addrs (selected w s) m) /\
    sched_inv (unselected w s) (drop_addrs (selected w s) m).
Proof.
  intros Hrep [Hs Hst] Hw.
  unfold scheduled in Hst. rewrite (tcs_filter_perm (fun e => in_window w e.1)) in Hst.
  fold (TcMap.range (in_window w) (tc_map s)) in Hst. fold (selected w s) in Hst.
  apply stored_app in Hst as [Hsel Hrest].
  unfold Sched.delete_by_time_filter, asks, st_bind at 1. simpl. rewrite retrieve_spec by done.
  destruct (delete_tcs_spec (E:=Z * PoolError) p m (selected w s) (0, None) Hrep Hsel)
    as (p' & Hrun & Hrep').
  unfold st_bind, on_snd, on_fst, modify_state. simpl. fold (selected w s). rewrite Hrun. simpl.
  exists p'. rewrite remove_range by done. split; [done|]. split; [done|].
  constructor; [by apply sorted_filter|done].
Qed.

Lemma reset_spec s p m :
  pool_rep p m -> sched_inv s m ->
  exists p', Sched.reset (s, p) =
      (Ok tt, (mkPusScheduler [] (current_time s) (time_margin s) false, p')) /\
    pool_rep p' (drop_addrs (scheduled s) m).
Proof.
  intros Hrep [Hs Hst].
  destruct (delete_tcs_spec (E:=PoolError) p m (scheduled s) (0, None) Hrep Hst)
    as (p' & Hrun & Hrep').
  exists p'. split; [|done]. unfold Sched.reset. run_monad. fold (scheduled s). by rewrite Hrun.
Qed.

(** A release through a buffer that all due packets fit: it succeeds, and only their
    addresses may be gone from the pool. *)
Lemma release_loop_buffered {R} (f : Sched.Releaser R) en l n u p m buf :
  pool_rep p m -> stored l m -> Forall (fun i => len (default [] (m !! addr i)) <= len buf) l ->
  exists x m', Sched.release_loop f en l n None (Sched.mkRelease (Some buf) u p) = (Ok (n + len l, None), x) /\
    pool_rep (Sched.rel_pool x) m' /\ forall a, a ∉ addr <$> l -> m' !! a = m !! a.
Proof.
  revert n u p m buf. induction l as [|i l IH]; intros n u p m buf Hrep Hst Hfit; simpl.
  { eexists _, m. unfold ret. by rewrite Z.add_0_r. }
  destruct (stored_cons _ _ _ Hst) as [[d Hd] Hst']. apply Forall_cons in Hfit as [Hi Hfit]. rewrite Hd in Hi. simpl in Hi.
  unfold st_bind, st_map_err, Sched.fetch, Sched.call_releaser. simpl. rewrite (pool_read_some p m (addr i) d buf Hrep Hd).
  destruct (Z.ltb_spec (len buf) (len d)); [lia|]. simpl.
  assert (Hl : len (d ++ drop (length d) buf) = len buf).
  { rewrite len_app. unfold len in *. rewrite length_drop. lia. }
  assert (Hfit' : forall m1, m1 = m \/ m1 = delete (addr i) m ->
    Forall (fun j => len (default [] (m1 !! addr j)) <= len (d ++ drop (length d) buf)) l).
  { intros m1 Hm. rewrite Hl. eapply Forall_impl; [exact Hfit|]. intros j Hj. destruct Hm as [->| ->]; [done|].
    destruct (decide (addr j = addr i)) as [->|Hne]; [rewrite lookup_delete_eq|by rewrite lookup_delete_ne].
    apply len_nonneg. }
  destruct (f u en i _) as [[] u'].
  - destruct (pool_delete_some p m (addr i) d Hrep Hd) as (p1 & Hdel & Hrep1).
    unfold attempt, Sched.on_pool. simpl. rewrite Hdel. simpl.
    destruct (IH (n + 1) u' p1 _ _ Hrep1 Hst' (Hfit' _ (or_intror eq_refl))) as (x & m' & Hrun & Hx & Hk).
    eexists x, m'. split; [rewrite Hrun, len_cons; do 3 f_equal; lia|]. split; [done|]. intros a Ha.
    apply not_elem_of_cons in Ha as [Hne Ha]. rewrite Hk by done. by apply lookup_delete_ne.
  - destruct (IH (n + 1) u' p _ _ Hrep (stored_keep _ _ _ Hst) (Hfit' _ (or_introl eq_refl))) as (x & m' & Hrun & Hx & Hk).
    eexists x, m'. split; [rewrite Hrun, len_cons; do 3 f_equal; lia|]. split; [done|]. intros a Ha.
    apply not_elem_of_cons in Ha as [Hne Ha]. by apply Hk.
Qed.

Lemma release_with_buffer_spec {R} (f : Sched.Releaser R) buf u s p m :
  pool_rep p m -> sched_inv s m -> Forall (fun i => len (default [] (m !! addr i)) <= len buf) (due s) ->
  exists x m', Sched.release_telecommands_with_buffer f buf u s p = (Ok (len (due s)), (Sched.drop_released s, x)) /\
    pool_rep (Sched.rel_pool x) m' /\ sched_inv (Sched.drop_released s) m'.
Proof.
  intros Hrep [Hs Hst] Hfit. rewrite (scheduled_split s Hs) in Hst. destruct (stored_app _ _ _ Hst) as [Hdue _].
  destruct (release_loop_buffered f (enabled s) (due s) 0 u p m buf Hrep Hdue Hfit) as (x & m' & Hrun & Hx & Hk).
  exists x, m'. unfold Sched.release_telecommands_with_buffer, Sched.release_telecommands_internal.
  fold (due s). rewrite Hrun. do 2 (split; [done|]). destruct Hst as [Hnd Hin]. rewrite fmap_app in Hnd.
  apply NoDup_app in Hnd as (_ & Hdis & Hnd). constructor; [by apply sorted_filter|]. constructor; [done|].
  intros i Hi. rewrite Hk; [apply Hin; set_solver|]. intros Ha. apply (Hdis _ Ha), list_elem_of_fmap. eauto.
Qed.

(** A release without deletion leaves the pool alone. *)
Lemma release_no_deletion_pool {R} (f : Sched.Releaser R) en l acc (x : Sched.Release R) :
  Sched.rel_pool (Sched.release_no_deletion_loop f en l acc x).2 = Sched.rel_pool x.
Proof.
  revert acc x. induction l as [|i l IH]; intros acc [b u p]; [done|]. cbn [Sched.release_no_deletion_loop].
  unfold st_bind, st_map_err, Sched.fetch, Sched.call_releaser. cbn [Sched.rel_buf Sched.rel_pool Sched.rel_user].
  destruct b as [buf|].
  - destruct (pool_read p (addr i) buf) as [[k buf']| |]; cbn [map_err]; try done. cbn [Sched.rel_buf Sched.rel_pool Sched.rel_user].
    destruct (f u en i buf') as [b' u']. by rewrite IH.
  - destruct (read_as_vec p (addr i)) as [pkt| |]; cbn [map_err]; try done. cbn [Sched.rel_buf Sched.rel_pool Sched.rel_user].
    destruct (f u en i pkt) as [b' u']. by rewrite IH.
Qed.

Lemma release_no_deletion_spec {R} (f : Sched.Releaser R) buf u s p m :
  sched_inv s m ->
  let x := (Sched.release_telecommands_no_deletion f buf u s p).2 in
  Sched.rel_pool x.2 = p /\ sched_inv x.1 m.
Proof.
  intros Hinv. unfold Sched.release_telecommands_no_deletion. fold (due s).
  pose proof (release_no_deletion_pool f (enabled s) (due s) [] (Sched.mkRelease (Some buf) u p)) as Hp.
  destruct (Sched.release_no_deletion_loop _ _ _ _ _) as [[l|e|] x]; simpl in *; split; try done.
  destruct Hinv as [Hs Hst]. constructor; [by apply sorted_filter|]. rewrite (scheduled_split s Hs) in Hst.
  destruct Hst as [Hnd Hin]. rewrite fmap_app in Hnd. apply NoDup_app in Hnd as (_ & _ & Hnd).
  constructor; [done|]. intros i Hi. apply Hin. set_solver.
Qed.

(** A telecommand that is in the pool already and not in the schedule. *)
Lemma insert_stored_spec t info s m :
  sched_inv s m -> is_Some (m !! addr info) -> addr info ∉ addr <$> scheduled s ->
  sched_inv (Sched.insert_unwrapped_and_stored_tc (PusError:=PusError) (TimestampError:=TimestampError) t info s).2 m.
Proof.
  intros Hinv Hin Hn. unfold Sched.insert_unwrapped_and_stored_tc.
  destruct (time_add _ _) as [limit|]; [|done]. destruct (time_ltb t limit); [done|]. destruct Hinv as [Hs [Hnd Hst]].
  constructor; simpl; [by apply push_sorted|]. unfold scheduled. simpl. rewrite push_tcs. constructor.
  - by apply NoDup_cons.
  - intros i [->|Hi]%elem_of_cons; [done|by apply Hst].
Qed.

(** A window [BTreeMap::range] refuses: nothing happens before the panic. *)
Lemma delete_bad_window (w : TimeWindow T) s p : ~ window_ok w -> Sched.delete_by_time_filter id w (s, p) = (Panic, (s, p)).
Proof.
  intros Hw. unfold Sched.delete_by_time_filter, asks, st_bind, Sched.retrieve_by_time_filter, window_ok in *.
  destruct w as [[] [a|] [b|]]; simpl in *; try done; try (by destruct Hw).
  by destruct (time_ltb b a).
Qed.

#[export] Instance window_ok_dec (w : TimeWindow T) : Decision (window_ok w).
Proof. unfold window_ok. destruct w as [[] [a|] [b|]]; simpl; apply _. Defined.

End Ops.

(** ** Deletion by request ID *)
Section ByRequestId.
Context {T D : Type} `{TO : TimeOps T D} `{TL : !TimeLaws T D}.
Context {P : Type} `{PP : PoolProvider P} `{PS : !PoolSpec P}.
Implicit Types (s : PusScheduler T D) (p : P) (m : gmap Z (list Z)) (r : RequestId).

(** The scan finds an index whose entry has the ID, or there is none. *)
Lemma last_match_spec r l base acc :
  match Sched.last_match r base l acc with
  | Some k => acc = Some k \/
      exists i j, k = (base + j)%nat /\ l !! j = Some i /\ request_id i = r
  | None => acc = None
  end /\
  ((exists i, i ∈ l /\ request_id i = r) -> Sched.last_match r base l acc <> acc \/ acc <> None).
Proof.
  revert base acc. induction l as [|tc l IH]; intros base acc; simpl.
  - split; [destruct acc; auto|]. intros (i & Hi & _). by apply elem_of_nil in Hi.
  - destruct (decide (request_id tc = r)) as [Heq|Hne].
    + destruct (IH (S base) (Some base)) as [H1 _].
      destruct (Sched.last_match r (S base) l (Some base)) as [k|]; [|done].
      split.
      * right. destruct H1 as [[= <-]|(i & j & -> & Hj & Hr)].
        -- exists tc, 0%nat. split; [lia|done].
        -- exists i, (S j). split; [lia|done].
      * intros _. destruct acc; [by right|by left].
    + destruct (IH (S base) acc) as [H1 H2]. split.
      * destruct (Sched.last_match r (S base) l acc) as [k|]; [|done].
        destruct H1 as [?|(i & j & -> & Hj & Hr)]; [by left|]. right.
        exists i, (S j). split; [lia|done].
      * intros (i & Hi & Hr). apply elem_of_cons in Hi as [->|Hi]; [done|]. apply H2. eauto.
Qed.

(** Exactly one telecommand is removed, one with the requested ID. *)
Lemma remove_by_request_id_spec r (l : list (T * list TcInfo)) :
  match Sched.remove_by_request_id r l with
  | Some (a, l') => exists i, request_id i = r /\ a = addr i /\
      l'.*1 = l.*1 /\ TcMap.tcs l ≡ₚ i :: TcMap.tcs l'
  | None => forall i, i ∈ TcMap.tcs l -> request_id i <> r
  end.
Proof.
  induction l as [|[k b] l IH]; simpl.
  { intros i Hi. by apply elem_of_nil in Hi. }
  destruct (last_match_spec r b 0 None) as [H1 H2].
  destruct (Sched.last_match r 0 b None) as [idx|].
  - destruct H1 as [?|(i & j & -> & Hj & Hr)]; [done|]. simpl. rewrite Hj. simpl.
    exists i. do 3 (split; [done|]). rewrite !tcs_cons. simpl.
    rewrite app_comm_cons. apply Permutation_app_tail. by apply delete_Permutation.
  - destruct (Sched.remove_by_request_id r l) as [[a l']|]; simpl.
    + destruct IH as (i & Hr & -> & Hk & Hp). exists i. split; [done|]. split; [done|].
      split; [by f_equal|]. rewrite !tcs_cons. simpl. rewrite Hp.
      by rewrite Permutation_middle.
    + intros i Hi Hr. rewrite tcs_cons in Hi. apply elem_of_app in Hi as [Hi|Hi].
      * destruct H2 as [?|?]; [by exists i|done|done].
      * by apply (IH i Hi).
Qed.

Lemma sorted_keys (l l' : list (T * list TcInfo)) :
  l'.*1 = l.*1 -> StronglySorted before l -> StronglySorted before l'.
Proof.
  intros Hk Hl. revert l' Hk. induction Hl as [|[k b] l Hl IH He]; intros [|[k' b'] l'] Hk;
    try done; [constructor|]. injection Hk as -> Hk. constructor; [by apply IH|].
  apply (Forall_fmap fst (fun x => time_ltb k x = true)).
  apply (Forall_fmap fst (fun x => time_ltb k x = true)) in He. unfold fmap, list_fmap in *.
  by rewrite Hk.
Qed.

Lemma delete_by_request_id_spec r s p m :
  pool_rep p m -> sched_inv s m ->
  match Sched.remove_by_request_id r (tc_map s) with
  | Some (a, l') => exists i p', request_id i = r /\ a = addr i /\
      scheduled s ≡ₚ i :: scheduled (Sched.set_map l' s) /\
      Sched.delete_by_request_id_and_from_pool r (s, p) = (Ok true, (Sched.set_map l' s, p')) /\
      pool_rep p' (delete a m) /\ sched_inv (Sched.set_map l' s) (delete a m)
  | None => (forall i, i ∈ scheduled s -> request_id i <> r) /\
      Sched.delete_by_request_id_and_from_pool r (s, p) = (Ok false, (s, p))
  end.
Proof.
  intros Hrep [Hs Hst]. pose proof (remove_by_request_id_spec r (tc_map s)) as Hr.
  unfold Sched.delete_by_request_id_and_from_pool, st_bind,
    Sched.delete_by_request_id_internal_with_store_deletion. simpl.
  destruct (Sched.remove_by_request_id r (tc_map s)) as [[a l']|]; [|done].
  destruct Hr as (i & Hi & -> & Hk & Hp). unfold scheduled in Hst. rewrite Hp in Hst.
  apply stored_cons in Hst as [[d Hd] Hst].
  destruct (pool_delete_some p m (addr i) d Hrep Hd) as (p' & Hdel & Hrep').
  exists i, p'. rewrite Hdel. do 5 (split; [done|]).
  constructor; [by eapply sorted_keys|done].
Qed.

End ByRequestId.

(** ** Reachable states *)
Section Reachable.
Context {T D : Type} `{TO : TimeOps T D} `{TL : !TimeLaws T D}.
Context {P : Type} `{PP : PoolProvider P} `{PS : !PoolSpec P}.
Context {PusError : Type} (parse : list Z -> res PusError PusTc).

(** One call on a scheduler and its packet store.  Two calls have a condition the
    caller is responsible for: a telecommand that is scheduled by its address is in
    the pool and not in the schedule, and a buffer for a release with deletion has
    room for the packets that are due. *)
Inductive sched_step : PusScheduler T D * P -> PusScheduler T D * P -> Prop :=
| step_enable s p : sched_step (s, p) (Sched.enable s, p)
| step_disable s p : sched_step (s, p) (Sched.disable s, p)
| step_update_time t s p : sched_step (s, p) (Sched.update_time t s, p)
| step_insert t tc s p :
    sched_step (s, p)
      (Sched.insert_unwrapped_tc (TimestampError:=unit) parse t tc (s, p)).2
| step_insert_wrapped {TE} (time_from_bytes : list Z -> res TE (T * Z)) pus_tc s p :
    sched_step (s, p) (Sched.insert_wrapped_tc parse time_from_bytes pus_tc (s, p)).2
| step_insert_stored t info n s p :
    pool_known (addr info) -> pool_len_of_data p (addr info) = Ok n -> 0 < n ->
    addr info ∉ addr <$> scheduled s ->
    sched_step (s, p)
      ((Sched.insert_unwrapped_and_stored_tc (PusError:=unit) (TimestampError:=unit) t info s).2, p)
| step_release_buffer {R} (f : Sched.Releaser R) buf u s p :
    Forall (fun i => exists n, pool_len_of_data p (addr i) = Ok n /\ n <= len buf) (due s) ->
    sched_step (s, p)
      (let x := (Sched.release_telecommands_with_buffer f buf u s p).2 in (x.1, Sched.rel_pool x.2))
| step_release_no_deletion {R} (f : Sched.Releaser R) buf u s p :
    sched_step (s, p)
      (let x := (Sched.release_telecommands_no_deletion f buf u s p).2 in (x.1, Sched.rel_pool x.2))
| step_release {R} (f : Sched.Releaser R) u s p :
    sched_step (s, p)
      (let x := (Sched.release_telecommands f u s p).2 in (x.1, Sched.rel_pool x.2))
| step_delete_window w s p :
    sched_step (s, p) (Sched.delete_by_time_filter id w (s, p)).2
| step_delete_all s p : sched_step (s, p) (Sched.delete_all (s, p)).2
| step_delete_id r s p :
    sched_step (s, p) (Sched.delete_by_request_id_and_from_pool r (s, p)).2
| step_delete_id_only r s p :
    sched_step (s, p) ((Sched.delete_by_request_id (E:=unit) r s).2, p)
| step_reset s p : sched_step (s, p) (Sched.reset (s, p)).2.

Lemma step_insert_any t tc x :
  sched_step x (Sched.insert_unwrapped_tc (TimestampError:=unit) parse t tc x).2.
Proof. destruct x. apply step_insert. Qed.

Hypothesis parse_total : forall tc, parse tc <> Panic.

Definition consistent (x : PusScheduler T D * P) : Prop :=
  exists m, pool_rep x.2 m /\ sched_inv x.1 m.

Lemma insert_consistent {TE} t tc x :
  consistent x -> consistent (Sched.insert_unwrapped_tc (TimestampError:=TE) parse t tc x).2.
Proof using TL PS parse_total.
  destruct x as [s p]. intros (m & Hrep & Hinv).
  pose proof (insert_unwrapped_tc_spec (TimestampError:=TE) parse t tc s p m Hrep Hinv (parse_total tc)) as Hi.
  destruct (Sched.insert_unwrapped_tc _ _ _ _) as [[info|e|] [s' p']].
  - destruct Hi as (v & _ & _ & _ & _ & _ & _ & ? & ?). by eexists.
  - destruct e; try (destruct Hi as (-> & -> & _); by exists m).
    destruct Hi as (_ & _ & _ & _ & _ & _ & a & _ & ? & ?). by eexists.
  - destruct Hi as (_ & _ & a & _ & ? & ?). by eexists.
Qed.

Lemma insert_wrapped_consistent {TE} (time_from_bytes : list Z -> res TE (T * Z)) pus_tc x :
  consistent x -> consistent (Sched.insert_wrapped_tc parse time_from_bytes pus_tc x).2.
Proof using TL PS parse_total.
  intros Hc. unfold Sched.insert_wrapped_tc.
  destruct (negb (tc_service pus_tc =? 11)); [done|]. destruct (negb (tc_subservice pus_tc =? 4)); [done|].
  destruct (len (tc_user_data pus_tc) =? 0); [done|]. unfold st_bind, lift.
  destruct (time_from_bytes _) as [stamp| |]; cbn [map_err]; try done.
  destruct (slice _ _ _) as [rest| |]; try done. by apply insert_consistent.
Qed.

Lemma sched_step_consistent x y : sched_step x y -> consistent x -> consistent y.
Proof using TL PS parse_total.
  intros Hstep Hc. destruct Hstep as [s p|s p|t s p|t tc s p|TE tfb tc s p|t info n s p Hk Hlen Hpos Hn|R f buf u s p Hfit
    |R f buf u s p|R f u s p|w s p|s p|r s p|r s p|s p]; simpl in *;
    [| | |by apply insert_consistent|by apply insert_wrapped_consistent|..]; destruct Hc as (m & Hrep & Hinv).
  - exists m. split; [done|]. by destruct Hinv.
  - exists m. split; [done|]. by destruct Hinv.
  - exists m. split; [done|]. by destruct Hinv.
  - exists m. split; [done|]. apply insert_stored_spec; [done| |done].
    destruct (m !! addr info) eqn:Ha; [done|].
    destruct (pool_len_none p m (addr info) Hrep Hk Ha) as [Hz|[e He]]; [rewrite Hlen in Hz; injection Hz; lia|congruence].
  - assert (Hf : Forall (fun i => len (default [] (m !! addr i)) <= len buf) (due s)).
    { eapply Forall_impl; [exact Hfit|]. intros i (n & Hl & Hn). destruct (m !! addr i) as [d|] eqn:Hd; simpl; [|apply len_nonneg].
      rewrite (pool_len_some p m _ d Hrep Hd) in Hl. by simplify_eq. }
    destruct (release_with_buffer_spec f buf u s p m Hrep Hinv Hf) as (x & m' & -> & ? & ?). by exists m'.
  - destruct (release_no_deletion_spec f buf u s p m Hinv) as [Hp Hs']. exists m. simpl. by rewrite Hp.
  - destruct (release_spec f u s p m Hrep Hinv) as (p' & -> & ? & ?). by eexists.
  - destruct (decide (window_ok w)) as [Hw|Hw]; [|rewrite delete_bad_window by done; by exists m].
    destruct (delete_by_time_filter_spec w s p m Hrep Hinv Hw) as (p' & -> & ? & ?). by eexists.
  - destruct (delete_by_time_filter_spec TimeWindow.new_select_all s p m Hrep Hinv I) as (p' & Hrun & ? & ?).
    unfold Sched.delete_all. rewrite Hrun. by eexists.
  - pose proof (delete_by_request_id_spec r s p m Hrep Hinv) as Hd.
    destruct (Sched.remove_by_request_id r (tc_map s)) as [[a l']|].
    + destruct Hd as (i & p' & _ & _ & _ & -> & ? & ?). by eexists.
    + destruct Hd as [_ ->]. by exists m.
  - pose proof (remove_by_request_id_spec r (tc_map s)) as Hr. unfold Sched.delete_by_request_id,
      st_bind, Sched.delete_by_request_id_internal_without_store_deletion.
    destruct (Sched.remove_by_request_id r (tc_map s)) as [[a l']|]; [|by exists m].
    destruct Hr as (i & _ & _ & Hk & Hp), Hinv as [Hs Hst]. exists m. split; [done|].
    constructor; [by eapply sorted_keys|]. unfold scheduled in Hst. rewrite Hp in Hst.
    by eapply stored_keep.
  - destruct (reset_spec s p m Hrep Hinv) as (p' & -> & ?).
    eexists. split; [done|]. constructor; [constructor|]. constructor; [constructor|].
    intros i Hi. by apply elem_of_nil in Hi.
Qed.

Lemma sched_reachable_consistent x y :
  rtc sched_step x y -> consistent x -> consistent y.
Proof. induction 1; eauto using sched_step_consistent. Qed.

End Reachable.

(** ** Application data of an insertion command *)
Section AppData.
Context {T D PE TE : Type}.
#[local] Abbreviation SE := (ScheduleError T D PE TE).

Lemma generate_app_data_spec (t : Writer TE) (r : Writer ByteConversionError) tb rb buf :
  writes t tb -> writes r rb ->
  Sched.generate_insert_telecommand_app_data (T:=T) (D:=D) (PE:=PE) buf t r =
    if len buf <? 2 + len tb + len rb
    then Err (SchedByteConversionError (ToSliceTooSmall (len buf) (2 + len tb + len rb)))
    else Ok (2 + len tb + len rb,
             (to_be_bytes 2 1 ++ tb ++ rb) ++ drop (2 + length tb + length rb) buf).
Proof.
  intros (Ht & _ & Hwt) (Hr & _ & Hwr).
  unfold Sched.generate_insert_telecommand_app_data. rewrite Ht, Hr.
  destruct (Z.ltb_spec (len buf) (2 + len tb + len rb)); [done|].
  pose proof (len_nonneg tb). pose proof (len_nonneg rb).
  set (n := to_be_bytes 2 1) in *. assert (len n = 2) as Hn by done.
  assert (copy_into (E:=SE) buf 0 2 n = Ok (n ++ drop (length n) buf)) as ->
    by (apply (copy_into_prefix buf [] n); [done|done|lia]).
  cbn [res_bind].
  destruct (slice_prefix_len (E:=SE) buf n 2 (2 + len tb)) as (d1 & -> & Hd1); [lia..|].
  cbn [res_bind]. rewrite Hwt by lia. cbn [map_err res_bind fst snd].
  rewrite (copy_into_prefix buf n tb) by lia. cbn [res_bind].
  destruct (slice_prefix_len (E:=SE) buf (n ++ tb) (2 + len tb) (2 + len tb + len rb))
    as (d2 & -> & Hd2); [rewrite len_app; lia|lia..|].
  cbn [res_bind]. rewrite Hwr by lia. cbn [map_err res_bind fst snd].
  rewrite (copy_into_prefix buf (n ++ tb) rb) by (rewrite ?len_app; lia). cbn [res_bind].
  rewrite <- (app_assoc n tb rb), !length_app.
  replace (length n + (length tb + length rb))%nat with (2 + length tb + length rb)%nat
    by (unfold n; simpl; lia).
  done.
Qed.

End AppData.

(** * Properties *)

(** A scheduler with three telecommands on a [StaticMemoryPool], time in
    nanoseconds, and a parser that accepts everything. *)
Definition ex_parse (tc : list Z) : res unit PusTc :=
  match tc with
  | [] => Err tt
  | b :: _ => Ok (mkPusTc 0 0 0 7 b 17 1 0 [])
  end.

Definition ex_state : res PoolError (PusScheduler Z Z * StaticMemoryPool) :=
  let? p := StaticPool.new ex_config in
  let s := Sched.new 0 5 in
  let x1 := (Sched.insert_unwrapped_tc (TimestampError:=unit) ex_parse 20 [2; 2; 2; 2] (s, p)).2 in
  let x2 := (Sched.insert_unwrapped_tc (TimestampError:=unit) ex_parse 10 [1; 1] x1).2 in
  Ok (Sched.insert_unwrapped_tc (TimestampError:=unit) ex_parse 20 [3; 3; 3; 3] x2).2.

Lemma ex_new_consistent :
  exists p, StaticPool.new ex_config = Ok p /\ consistent (Sched.new (T:=Z) (D:=Z) 0 5, p).
Proof.
  destruct (new_spec ex_config ex_config_addressable) as (p & Hp & Hrep & _).
  exists p. split; [done|]. exists ∅. split; [done|]. constructor; [constructor|].
  constructor; [constructor|]. intros i Hi. by apply elem_of_nil in Hi.
Qed.

Lemma ex_state_consistent :
  exists x, ex_state = Ok x /\ consistent x.
Proof.
  destruct ex_new_consistent as (p & Hp & Hc). unfold ex_state. rewrite Hp. simpl.
  eexists. split; [reflexivity|]. eapply (sched_reachable_consistent ex_parse); [by intros []| |exact Hc].
  do 3 (eapply rtc_l; [apply step_insert_any|]). apply rtc_refl.
Qed.

(** C4: From a scheduler and a pool that agree (every scheduled telecommand has
    its own packet in the pool, buckets sorted by release time), every sequence
    of calls of [sched_step] keeps them in agreement, whatever the release closure
    answers: insertions of packets and of wrapped telecommands, releases with and
    without deletion, deletions, resets and time updates, also where they fail or
    panic.  A telecommand scheduled by its address has to be in the pool and not yet
    scheduled, and the buffer of a release with deletion has to hold every due packet
    (with a smaller one the agreement is lost, see [release_small_buffer_stuck]). *)
Theorem scheduler_store_consistent {T D P PusError} `{TO : TimeOps T D} `{TL : !TimeLaws T D}
    `{PP : PoolProvider P} `{PS : !PoolSpec P} (parse : list Z -> res PusError PusTc) x y :
  (forall tc, parse tc <> Panic) ->
  rtc (sched_step parse) x y -> consistent x -> consistent y.
Proof. intros Hp. by apply (sched_reachable_consistent parse). Qed.

Lemma scheduler_store_consistent_witness :
  exists p, StaticPool.new ex_config = Ok p /\
    consistent (Sched.enable (Sched.new (T:=Z) (D:=Z) 0 5), p).
Proof.
  destruct ex_new_consistent as (p & Hp & Hc). exists p. split; [exact Hp|].
  apply (scheduler_store_consistent ex_parse (Sched.new 0 5, p)).
  - intros []; discriminate.
  - apply rtc_once. apply step_enable.
  - exact Hc.
Defined.

(** C5: [insert_unwrapped_tc] panics only when the current time plus the margin
    overflows.  On success the packet parses to a
    telecommand that is not itself an insertion into the schedule, the release
    time is not before the current time plus the margin, the packet is stored under a fresh
    address, and it is appended to the telecommands of its release time while
    all other release times keep theirs.  Every error has its cause: the packet
    does not parse, it is a nested insertion, the pool refuses it, or it comes
    too late.  On any error the schedule is unchanged; the pool is unchanged too, except for [ReleaseTimeInTimeMargin],
    where, as in the case of the overflow, the packet stays behind in the pool. *)
Theorem insert_unwrapped_tc_correct {T D P PusError TimestampError}
    `{TO : TimeOps T D} `{TL : !TimeLaws T D} `{PP : PoolProvider P} `{PS : !PoolSpec P}
    (parse : list Z -> res PusError PusTc) t tc s p m :
  pool_rep p m -> sched_inv s m -> parse tc <> Panic ->
  match Sched.insert_unwrapped_tc (TimestampError:=TimestampError) parse t tc (s, p) with
  | (Ok info, (s', p')) => exists view, parse tc = Ok view /\ ~ is_nested view /\
      (exists limit, time_add (current_time s) (time_margin s) = Some limit /\ time_ltb t limit = false) /\
      request_id info = RequestId.from_tc view /\ m !! addr info = None /\
      pool_rep p' (<[addr info := tc]> m) /\ sched_inv s' (<[addr info := tc]> m) /\
      forall t', at_time t' (tc_map s') =
        at_time t' (tc_map s) ++ (if same_time t' t then [info] else [])
  | (Err (ReleaseTimeInTimeMargin now margin stamp), (s', p')) => s' = s /\
      now = current_time s /\ margin = time_margin s /\ stamp = t /\
      (exists view, parse tc = Ok view /\ ~ is_nested view) /\
      (exists limit, time_add (current_time s) (time_margin s) = Some limit /\ time_ltb t limit = true) /\
      exists a, m !! a = None /\ pool_rep p' (<[a := tc]> m)
  | (Err e, (s', p')) => s' = s /\ p' = p /\ refusal_reason parse tc p e
  | (Panic, (s', p')) => s' = s /\ time_add (current_time s) (time_margin s) = None /\
      exists a, m !! a = None /\ pool_rep p' (<[a := tc]> m)
  end.
Proof.
  intros Hrep Hinv Hp.
  pose proof (insert_unwrapped_tc_spec (TimestampError:=TimestampError) parse t tc s p m Hrep Hinv Hp)
    as Hi.
  destruct (Sched.insert_unwrapped_tc parse t tc (s, p)) as [[info|[]|] [s' p']]; try done.
  - destruct Hi as (v & ? & ? & ? & ? & ? & -> & ? & ?). exists v. do 7 (split; [done|]).
    intros t'. apply push_at_time, Hinv.
  - destruct Hi as (? & ? & ? & ? & ? & ? & a & ? & ? & ?). eauto 12.
  - destruct Hi as (? & ? & a & ? & ? & ?). eauto 6.
Qed.

Lemma insert_unwrapped_tc_correct_witness :
  exists p s' p' e, StaticPool.new ex_config = Ok p /\
    Sched.insert_unwrapped_tc (TimestampError:=unit) ex_parse 3 [2; 2] (Sched.new 0 5, p) =
      (Err e, (s', p')) /\ s' = Sched.new 0 5 /\ exists a, pool_rep p' {[ a := [2; 2] ]}.
Proof.
  destruct (new_spec ex_config ex_config_addressable) as (p & Hp & Hrep & _).
  assert (Hinv : sched_inv (Sched.new (T:=Z) (D:=Z) 0 5) ∅).
  { constructor; [constructor|]. constructor; [constructor|].
    intros i Hi. by apply elem_of_nil in Hi. }
  pose proof (insert_unwrapped_tc_correct (TimestampError:=unit) ex_parse 3 [2; 2] _ p ∅ Hrep Hinv
    ltac:(discriminate)) as Hx.
  vm_compute in Hp. injection Hp as Hp. exists p.
  destruct (Sched.insert_unwrapped_tc _ _ _ _) as [[info|e|] [s' p']] eqn:Hrun;
    subst p; vm_compute in Hrun; [discriminate| |discriminate].
  injection Hrun as He Hs' Hp'. exists s', p', e. split; [reflexivity|]. split; [done|].
  subst e. destruct Hx as (Hs & _ & _ & _ & _ & _ & a & _ & Ha). split; [exact Hs|]. exists a. exact Ha.
Defined.

(** C6: [release_telecommands] with any release closure: it succeeds, calls the
    closure exactly once for every telecommand whose release time has been
    reached, in order of release time (and of insertion within one time), with
    the stored packet; it deletes from the pool exactly the packets the closure
    agrees to delete, removes the due telecommands from the schedule and keeps
    all others. *)
Theorem release_telecommands_correct {T D P} `{TO : TimeOps T D} `{TL : !TimeLaws T D}
    `{PP : PoolProvider P} `{PS : !PoolSpec P} {R} (f : Sched.Releaser R) u s p m :
  pool_rep p m -> sched_inv s m ->
  exists s' p', Sched.release_telecommands f u s p =
      (Ok (len (due s)), (s', Sched.mkRelease None (abs_release f (enabled s) (due s) u m).1 p')) /\
    scheduled s = due s ++ scheduled s' /\
    Forall (fun e => time_ltb (current_time s) e.1 = true) (tc_map s') /\
    pool_rep p' (abs_release f (enabled s) (due s) u m).2 /\
    sched_inv s' (abs_release f (enabled s) (due s) u m).2.
Proof.
  intros Hrep Hinv. destruct (release_spec f u s p m Hrep Hinv) as (p' & Hrun & Hrep' & Hinv').
  exists (Sched.drop_released s), p'. split; [done|].
  split; [by apply scheduled_split, Hinv|]. split; [|done].
  apply List.Forall_forall. intros e He. by apply filter_In in He as [_ He].
Qed.

Lemma release_telecommands_correct_witness :
  exists x s' p' n u, ex_state = Ok x /\
    Sched.release_telecommands recorder [] (Sched.update_time 15 x.1) x.2 =
      (Ok n, (s', Sched.mkRelease None u p')) /\
    scheduled x.1 = due (Sched.update_time 15 x.1) ++ scheduled s'.
Proof.
  destruct ex_state_consistent as ([s p] & Hx & m & Hrep & [Hs Hst]).
  destruct (release_telecommands_correct recorder [] (Sched.update_time 15 s) p m Hrep)
    as (s' & p' & Hrun & Hsplit & _); [split; assumption|].
  exists (s, p). eexists s', p', _, _. split; [exact Hx|]. split; [exact Hrun|exact Hsplit].
Defined.

(** With a closure that records its calls and asks for deletion, the
    record is the list of due telecommands with the stored packets and the
    enabled flag, the count is its length, and the pool loses exactly their
    packets. *)
Theorem release_telecommands_recorded {T D P} `{TO : TimeOps T D} `{TL : !TimeLaws T D}
    `{PP : PoolProvider P} `{PS : !PoolSpec P} s p m :
  pool_rep p m -> sched_inv s m ->
  exists p', Sched.release_telecommands recorder [] s p =
      (Ok (len (due s)), (Sched.drop_released s,
         Sched.mkRelease None
           ((fun i => (enabled s, i, default [] (m !! addr i))) <$> due s) p')) /\
    pool_rep p' (drop_addrs (due s) m).
Proof.
  intros Hrep Hinv. destruct (release_spec recorder [] s p m Hrep Hinv) as (p' & Hrun & Hrep' & _).
  assert (Hdue : stored (due s) m).
  { destruct Hinv as [Hs Hst]. rewrite scheduled_split in Hst by done. by apply stored_app in Hst as [Hdue _]. }
  rewrite abs_release_recorder in Hrun, Hrep' by done. by exists p'.
Qed.

Lemma release_telecommands_recorded_witness :
  exists x m p', ex_state = Ok x /\ pool_rep x.2 m /\
    Sched.release_telecommands recorder [] (Sched.update_time 15 x.1) x.2 =
      (Ok 1, (Sched.drop_released (Sched.update_time 15 x.1),
              Sched.mkRelease None
                [(true, mkTcInfo 1 (mkRequestId 0 7 1), default [] (m !! 1))] p')).
Proof.
  destruct ex_state_consistent as ([s p] & Hx & m & Hrep & [Hs Hst]).
  destruct (release_telecommands_recorded (Sched.update_time 15 s) p m Hrep)
    as (p' & Hrun & _); [split; assumption|].
  exists (s, p), m, p'. split; [exact Hx|]. split; [exact Hrep|]. cbn [fst snd]. rewrite Hrun.
  vm_compute in Hx. injection Hx as Hs' Hp'. subst s p. reflexivity.
Defined.

(** C7: [delete_by_time_filter] with a well-formed time window deletes exactly
    the telecommands whose release time is inside the window, bounds included,
    from the schedule and from the pool, and reports their number. *)
Theorem delete_by_time_filter_correct {T D P} `{TO : TimeOps T D} `{TL : !TimeLaws T D}
    `{PP : PoolProvider P} `{PS : !PoolSpec P} (w : TimeWindow T) s p m :
  pool_rep p m -> sched_inv s m -> window_ok w ->
  exists p', Sched.delete_by_time_filter id w (s, p) =
      (Ok (len (selected w s)), (unselected w s, p')) /\
    pool_rep p' (drop_addrs (selected w s) m) /\
    sched_inv (unselected w s) (drop_addrs (selected w s) m) /\
    scheduled s ≡ₚ selected w s ++ scheduled (unselected w s).
Proof.
  intros Hrep Hinv Hw.
  destruct (delete_by_time_filter_spec w s p m Hrep Hinv Hw) as (p' & ? & ? & ?).
  exists p'. do 3 (split; [done|]). apply tcs_filter_perm.
Qed.

Lemma delete_by_time_filter_correct_witness :
  exists x p', ex_state = Ok x /\
    Sched.delete_by_time_filter id (TimeWindow.new_from_time_to_time 10 15) x =
      (Ok 1, (unselected (TimeWindow.new_from_time_to_time 10 15) x.1, p')).
Proof.
  destruct ex_state_consistent as ([s p] & Hx & m & Hrep & Hinv).
  destruct (delete_by_time_filter_correct (TimeWindow.new_from_time_to_time 10 15) s p m Hrep Hinv)
    as (p' & Hrun & _); [reflexivity|].
  exists (s, p), p'. split; [exact Hx|]. rewrite Hrun. simpl.
  vm_compute in Hx. injection Hx as Hs' Hp'. subst s p. reflexivity.
Defined.

(** A window whose start lies after its end makes the range lookup panic. *)
Example delete_by_time_filter_inverted :
  (Sched.delete_by_time_filter (P:=StaticMemoryPool) id
     (TimeWindow.new_from_time_to_time 15 10)
     (Sched.new 0 5, mkPool (mkStaticPoolConfig [] false) [] [])).1 = Panic.
Proof. reflexivity. Qed.

(** [delete_by_request_id_and_from_pool] removes exactly one telecommand
    with the given request ID from the schedule and its packet from the pool,
    or nothing and answers [false] when no scheduled telecommand has that ID. *)
Theorem delete_by_request_id_correct {T D P} `{TO : TimeOps T D} `{TL : !TimeLaws T D}
    `{PP : PoolProvider P} `{PS : !PoolSpec P} r s p m :
  pool_rep p m -> sched_inv s m ->
  match Sched.delete_by_request_id_and_from_pool r (s, p) with
  | (Ok true, (s', p')) => exists i, request_id i = r /\
      scheduled s ≡ₚ i :: scheduled s' /\ pool_rep p' (delete (addr i) m) /\
      sched_inv s' (delete (addr i) m)
  | (Ok false, (s', p')) =>
      s' = s /\ p' = p /\ forall i, i ∈ scheduled s -> request_id i <> r
  | _ => False
  end.
Proof.
  intros Hrep Hinv. pose proof (delete_by_request_id_spec r s p m Hrep Hinv) as Hd.
  destruct (Sched.remove_by_request_id r (tc_map s)) as [[a l']|].
  - destruct Hd as (i & p' & ? & -> & ? & -> & ? & ?). eauto.
  - by destruct Hd as [? ->].
Qed.

Lemma delete_by_request_id_correct_witness :
  exists x s' p', ex_state = Ok x /\
    Sched.delete_by_request_id_and_from_pool (mkRequestId 0 7 3) x = (Ok true, (s', p')) /\
    exists i, request_id i = mkRequestId 0 7 3 /\ scheduled x.1 ≡ₚ i :: scheduled s'.
Proof.
  destruct ex_state_consistent as ([s p] & Hx & m & Hrep & Hinv).
  pose proof (delete_by_request_id_correct (mkRequestId 0 7 3) s p m Hrep Hinv) as Hd.
  destruct (Sched.delete_by_request_id_and_from_pool _ _) as [[[]|e|] [s' p']] eqn:Hrun.
  - destruct Hd as (i & Hi & Hp & _). exists (s, p), s', p'. eauto.
  - vm_compute in Hx. injection Hx as Hs' Hp'. subst s p. discriminate.
  - destruct Hd.
  - destruct Hd.
Defined.

(** With two telecommands of the same request ID in one bucket the later one is
    the one deleted. *)
Example delete_by_request_id_takes_last :
  (Sched.delete_by_request_id (E:=unit) (mkRequestId 0 7 3)
     (mkPusScheduler [(20, [mkTcInfo 4 (mkRequestId 0 7 3); mkTcInfo 5 (mkRequestId 0 7 3)])]
        0 0 true)).1 = Ok (Some 5).
Proof. reflexivity. Qed.

(** [reset] disables the scheduler, empties the schedule and deletes from
    the pool the packets of all scheduled telecommands and no others. *)
Theorem reset_correct {T D P} `{TO : TimeOps T D} `{TL : !TimeLaws T D}
    `{PP : PoolProvider P} `{PS : !PoolSpec P} (s : PusScheduler T D) (p : P) m :
  pool_rep p m -> sched_inv s m ->
  exists s' p', Sched.reset (s, p) = (Ok tt, (s', p')) /\
    tc_map s' = [] /\ enabled s' = false /\ current_time s' = current_time s /\
    pool_rep p' (drop_addrs (scheduled s) m).
Proof.
  intros Hrep Hinv. destruct (reset_spec s p m Hrep Hinv) as (p' & Hrun & Hrep').
  eexists _, p'. split; [exact Hrun|]. done.
Qed.

Lemma reset_correct_witness :
  exists x s' p', ex_state = Ok x /\ Sched.reset x = (Ok tt, (s', p')) /\ tc_map s' = [].
Proof.
  destruct ex_state_consistent as ([s p] & Hx & m & Hrep & Hinv).
  destruct (reset_correct s p m Hrep Hinv) as (s' & p' & Hrun & Hm & _). eauto 7.
Defined.

(** The application data [generate_insert_telecommand_app_data] writes into
    a buffer is the data [generate_insert_telecommand_app_data_as_vec] returns,
    the rest of the buffer is untouched, and a buffer that is too small is
    refused with the required length. *)
Theorem generate_insert_app_data_correct {T D PE TE} (t : Writer TE) (r : Writer ByteConversionError)
    tb rb buf :
  writes t tb -> writes r rb ->
  exists v, Sched.generate_insert_telecommand_app_data_as_vec (T:=T) (D:=D) (PE:=PE) t r = Ok v /\
    Sched.generate_insert_telecommand_app_data (T:=T) (D:=D) (PE:=PE) buf t r =
      if len buf <? len v
      then Err (SchedByteConversionError (ToSliceTooSmall (len buf) (len v)))
      else Ok (len v, v ++ drop (length v) buf).
Proof.
  intros Ht Hr. exists (to_be_bytes 2 1 ++ tb ++ rb). split.
  - unfold Sched.generate_insert_telecommand_app_data_as_vec.
    destruct Ht as (_ & -> & _), Hr as (_ & -> & _). done.
  - rewrite (generate_app_data_spec t r tb rb buf Ht Hr).
    replace (len (to_be_bytes 2 1 ++ tb ++ rb)) with (2 + len tb + len rb)
      by (rewrite !len_app; unfold len; simpl; lia).
    rewrite !length_app. simpl. done.
Qed.

Lemma generate_insert_app_data_correct_witness :
  exists v, Sched.generate_insert_telecommand_app_data_as_vec (T:=Z) (D:=Z) (PE:=unit)
      (bytes_writer (E:=unit) [64; 1; 2]) (bytes_writer [24; 9]) = Ok v /\
    Sched.generate_insert_telecommand_app_data (T:=Z) (D:=Z) (PE:=unit) (replicate 8 0)
      (bytes_writer (E:=unit) [64; 1; 2]) (bytes_writer [24; 9]) =
      if 8 <? len v then Err (SchedByteConversionError (ToSliceTooSmall 8 (len v)))
      else Ok (len v, v ++ drop (length v) (replicate 8 0)).
Proof.
  apply (generate_insert_app_data_correct _ _ [64; 1; 2] [24; 9] (replicate 8 0));
    apply bytes_writer_writes.
Defined.

(** The two-byte count at the start of that data is where [insert_wrapped_tc]
    expects the time stamp: a reader of time stamps that start with the byte 64
    refuses what the generator wrote. *)
Example generated_app_data_not_accepted :
  let read_stamp l := match l with 64 :: t :: _ => Ok (t, 2) | _ => Err tt end in
  let data := Sched.generate_insert_telecommand_app_data_as_vec (T:=Z) (D:=Z) (PE:=unit)
      (bytes_writer (E:=unit) [64; 99]) (bytes_writer [24; 9]) in
  res_map (fun d => (Sched.insert_wrapped_tc (P:=StaticMemoryPool) ex_parse read_stamp
     (mkPusTc 0 0 0 7 1 11 4 0 d)
     (Sched.new 0 5, mkPool (mkStaticPoolConfig [] false) [] [])).1) data =
    Ok (Err (SchedTimestampError tt)).
Proof. reflexivity. Qed.

(** A telecommand larger than the user's buffer makes the release fail after the
    telecommands before it are already gone from the pool but still scheduled;
    the next release fails on the first of those, with any buffer. *)
Example release_small_buffer_stuck :
  res_map (fun x =>
    let s := Sched.update_time 30 x.1 in
    let '(r1, (s1, x1)) := Sched.release_telecommands_with_buffer recorder [0; 0; 0] [] s x.2 in
    let '(r2, (s2, x2)) :=
      Sched.release_telecommands_with_buffer recorder (replicate 64 0) [] s1 (Sched.rel_pool x1) in
    (r1, r2, Sched.num_scheduled_telecommands s2)) ex_state =
  Ok (Err (1, PoolByteConversionError (ToSliceTooSmall 3 4)),
      Err (0, DataDoesNotExist 1), 3).
Proof. vm_compute. reflexivity. Qed.
