(* ===== verification/Params.v ===== *)
(** * Parameters ([satrs/src/params.rs])

    The generic parameter types and their big-endian wire format. *)

From Stdlib Require Import ZArith Lia Bool.
From stdpp Require Import base list.
From S2P Require Import Prelude Spacepackets.

Local Open Scope Z_scope.

(** ** Primitive types

    The types the newtype macros are instantiated with.  A float is its IEEE
    bit pattern, which is what [to_be_bytes] writes. *)
Inductive prim : Type := u8 | u16 | u32 | u64 | i8 | i16 | i32 | i64 | f32 | f64.

#[export] Instance prim_eq_dec : EqDecision prim.
Proof. solve_decision. Defined.

Definition size_of (ty : prim) : Z :=
  match ty with
  | u8 | i8 => 1
  | u16 | i16 => 2
  | u32 | i32 | f32 => 4
  | u64 | i64 | f64 => 8
  end.

Definition signed (ty : prim) : bool :=
  match ty with i8 | i16 | i32 | i64 => true | _ => false end.

(** The values of a type. *)
Definition in_prim (ty : prim) (v : Z) : Prop :=
  if signed ty
  then - 2 ^ (8 * size_of ty - 1) <= v < 2 ^ (8 * size_of ty - 1)
  else in_u (8 * size_of ty) v.

(** [$ty::to_be_bytes] and [$ty::from_be_bytes]. *)
Definition prim_to_be_bytes (ty : prim) (v : Z) : list Z :=
  to_be_bytes (Z.to_nat (size_of ty)) v.

Definition prim_from_be_bytes (ty : prim) (l : list Z) : Z :=
  let raw := from_be_bytes l in
  if signed ty && (2 ^ (8 * size_of ty - 1) <=? raw) then raw - 2 ^ (8 * size_of ty) else raw.

(** The types the macros for pairs and triplets are instantiated with; pairs and
    triplets of bytes are written by hand and have no [TryFrom]. *)
Inductive wide : Type := wu16 | wu32 | wu64 | wi16 | wi32 | wi64 | wf32 | wf64.

Definition prim_of (w : wide) : prim :=
  match w with
  | wu16 => u16 | wu32 => u32 | wu64 => u64
  | wi16 => i16 | wi32 => i32 | wi64 => i64
  | wf32 => f32 | wf64 => f64
  end.

Coercion prim_of : wide >-> prim.

(** ** The newtypes *)
Module Newtype.

(** [to_be_bytes] of a scalar, a pair and a triplet. *)
Definition scalar_to_be_bytes (ty : prim) (a : Z) : list Z := prim_to_be_bytes ty a.

Definition pair_to_be_bytes {E : Type} (ty : wide) (a b : Z) : res E (list Z) :=
  let n := size_of ty in
  let array := replicate (Z.to_nat (n * 2)) 0 in
  let? array := copy_into array 0 n (prim_to_be_bytes ty a) in
  copy_into array n (2 * n) (prim_to_be_bytes ty b).

Definition triplet_to_be_bytes {E : Type} (ty : wide) (a b c : Z) : res E (list Z) :=
  let n := size_of ty in
  let array := replicate (Z.to_nat (n * 3)) 0 in
  let? array := copy_into array 0 n (prim_to_be_bytes ty a) in
  let? array := copy_into array n (2 * n) (prim_to_be_bytes ty b) in
  copy_into array (2 * n) (3 * n) (prim_to_be_bytes ty c).

(** [TryFrom<&[u8]>]. *)
Definition scalar_try_from (ty : prim) (v : list Z) : res ByteConversionError Z :=
  let n := size_of ty in
  if len v <? n then Err (FromSliceTooSmall (len v) n) else
  let? x := slice v 0 n in
  Ok (prim_from_be_bytes ty x).

Definition pair_try_from (ty : wide) (v : list Z) : res ByteConversionError (Z * Z) :=
  let n := size_of ty in
  if len v <? 2 * n then Err (FromSliceTooSmall (len v) (2 * n)) else
  let? x := slice v 0 n in
  let? y := slice v n (2 * n) in
  Ok (prim_from_be_bytes ty x, prim_from_be_bytes ty y).

Definition triplet_try_from (ty : wide) (v : list Z) : res ByteConversionError (Z * Z * Z) :=
  let n := size_of ty in
  if len v <? 3 * n then Err (FromSliceTooSmall (len v) (3 * n)) else
  let? x := slice v 0 n in
  let? y := slice v n (2 * n) in
  let? z := slice v (2 * n) (3 * n) in
  Ok (prim_from_be_bytes ty x, prim_from_be_bytes ty y, prim_from_be_bytes ty z).

(** [WritableToBeBytes::write_to_be_bytes] of the macro [param_to_be_bytes_impl]:
    [raw_len] is the size of the byte array. *)
Definition write_to_be_bytes (raw_len : Z) (raw : list Z) (buf : list Z)
    : res ByteConversionError (Z * list Z) :=
  if len buf <? raw_len then Err (ToSliceTooSmall (len buf) raw_len) else
  let? buf' := copy_into buf 0 raw_len raw in
  Ok (raw_len, buf').

End Newtype.

(** ** The enumerations *)
Inductive ParamsRaw : Type :=
| U8 (a : Z) | U8Pair (a b : Z) | U8Triplet (a b c : Z)
| I8 (a : Z) | I8Pair (a b : Z) | I8Triplet (a b c : Z)
| U16 (a : Z) | U16Pair (a b : Z) | U16Triplet (a b c : Z)
| I16 (a : Z) | I16Pair (a b : Z) | I16Triplet (a b c : Z)
| U32 (a : Z) | U32Pair (a b : Z) | U32Triplet (a b c : Z)
| I32 (a : Z) | I32Pair (a b : Z) | I32Triplet (a b c : Z)
| F32 (a : Z) | F32Pair (a b : Z) | F32Triplet (a b c : Z)
| U64 (a : Z) | I64 (a : Z) | F64 (a : Z).

Inductive ParamsEcssEnum : Type :=
| EnumU8 (e : EcssEnum) | EnumU16 (e : EcssEnum)
| EnumU32 (e : EcssEnum) | EnumU64 (e : EcssEnum).

Inductive ParamsHeapless : Type :=
| Raw (raw : ParamsRaw)
| ParamEcssEnum (e : ParamsEcssEnum).

(** A [String] is its UTF-8 bytes. *)
Inductive Params : Type :=
| Heapless (p : ParamsHeapless)
| Store (addr : Z)
| Vec (v : list Z)
| PString (s : list Z).

Module ParamsRaw.

(** The byte array of each newtype.  [U8Pair], [I8Pair], [U8Triplet] and
    [I8Triplet] store their bytes one by one, the signed ones with [as u8]; on a
    [u8] the truncation changes nothing. *)
Definition to_be_bytes {E : Type} (p : ParamsRaw) : res E (list Z) :=
  match p with
  | U8 a => Ok (Newtype.scalar_to_be_bytes u8 a)
  | U8Pair a b => Ok [as_u 8 a; as_u 8 b]
  | U8Triplet a b c => Ok [as_u 8 a; as_u 8 b; as_u 8 c]
  | I8 a => Ok (Newtype.scalar_to_be_bytes i8 a)
  | I8Pair a b => Ok [as_u 8 a; as_u 8 b]
  | I8Triplet a b c => Ok [as_u 8 a; as_u 8 b; as_u 8 c]
  | U16 a => Ok (Newtype.scalar_to_be_bytes u16 a)
  | U16Pair a b => Newtype.pair_to_be_bytes wu16 a b
  | U16Triplet a b c => Newtype.triplet_to_be_bytes wu16 a b c
  | I16 a => Ok (Newtype.scalar_to_be_bytes i16 a)
  | I16Pair a b => Newtype.pair_to_be_bytes wi16 a b
  | I16Triplet a b c => Newtype.triplet_to_be_bytes wi16 a b c
  | U32 a => Ok (Newtype.scalar_to_be_bytes u32 a)
  | U32Pair a b => Newtype.pair_to_be_bytes wu32 a b
  | U32Triplet a b c => Newtype.triplet_to_be_bytes wu32 a b c
  | I32 a => Ok (Newtype.scalar_to_be_bytes i32 a)
  | I32Pair a b => Newtype.pair_to_be_bytes wi32 a b
  | I32Triplet a b c => Newtype.triplet_to_be_bytes wi32 a b c
  | F32 a => Ok (Newtype.scalar_to_be_bytes f32 a)
  | F32Pair a b => Newtype.pair_to_be_bytes wf32 a b
  | F32Triplet a b c => Newtype.triplet_to_be_bytes wf32 a b c
  | U64 a => Ok (Newtype.scalar_to_be_bytes u64 a)
  | I64 a => Ok (Newtype.scalar_to_be_bytes i64 a)
  | F64 a => Ok (Newtype.scalar_to_be_bytes f64 a)
  end.

(** [size_of] of the byte array. *)
Definition written_len (p : ParamsRaw) : Z :=
  match p with
  | U8 _ | I8 _ => 1
  | U8Pair _ _ | I8Pair _ _ => 2
  | U8Triplet _ _ _ | I8Triplet _ _ _ => 3
  | U16 _ | I16 _ => 2
  | U16Pair _ _ | I16Pair _ _ => 4
  | U16Triplet _ _ _ | I16Triplet _ _ _ => 6
  | U32 _ | I32 _ | F32 _ => 4
  | U32Pair _ _ | I32Pair _ _ | F32Pair _ _ => 8
  | U32Triplet _ _ _ | I32Triplet _ _ _ | F32Triplet _ _ _ => 12
  | U64 _ | I64 _ | F64 _ => 8
  end.

Definition write_to_be_bytes (p : ParamsRaw) (buf : list Z)
    : res ByteConversionError (Z * list Z) :=
  let? raw := to_be_bytes p in
  Newtype.write_to_be_bytes (written_len p) raw buf.

End ParamsRaw.

Module ParamsEcssEnum.

Definition inner (p : ParamsEcssEnum) : EcssEnum :=
  match p with EnumU8 e | EnumU16 e | EnumU32 e | EnumU64 e => e end.

Definition written_len (p : ParamsEcssEnum) : Z := enum_size (inner p).

Definition write_to_be_bytes (p : ParamsEcssEnum) (buf : list Z)
    : res ByteConversionError (Z * list Z) :=
  res_map (fun r => (written_len p, r.2)) (enum_write (inner p) buf).

End ParamsEcssEnum.

Module ParamsHeapless.

Definition written_len (p : ParamsHeapless) : Z :=
  match p with
  | Raw raw => ParamsRaw.written_len raw
  | ParamEcssEnum e => ParamsEcssEnum.written_len e
  end.

Definition write_to_be_bytes (p : ParamsHeapless) (buf : list Z)
    : res ByteConversionError (Z * list Z) :=
  match p with
  | Raw raw => ParamsRaw.write_to_be_bytes raw buf
  | ParamEcssEnum e => ParamsEcssEnum.write_to_be_bytes e buf
  end.

(** Provided method [WritableToBeBytes::to_vec]. *)
Definition to_vec (p : ParamsHeapless) : res ByteConversionError (list Z) :=
  let vec := replicate (Z.to_nat (written_len p)) 0 in
  let? r := write_to_be_bytes p vec in
  Ok r.2.

End ParamsHeapless.

(** ** The wire format *)

(** The values a raw parameter is made of. *)
Definition raw_values (p : ParamsRaw) : prim * list Z :=
  match p with
  | U8 a => (u8, [a]) | U8Pair a b => (u8, [a; b]) | U8Triplet a b c => (u8, [a; b; c])
  | I8 a => (i8, [a]) | I8Pair a b => (i8, [a; b]) | I8Triplet a b c => (i8, [a; b; c])
  | U16 a => (u16, [a]) | U16Pair a b => (u16, [a; b]) | U16Triplet a b c => (u16, [a; b; c])
  | I16 a => (i16, [a]) | I16Pair a b => (i16, [a; b]) | I16Triplet a b c => (i16, [a; b; c])
  | U32 a => (u32, [a]) | U32Pair a b => (u32, [a; b]) | U32Triplet a b c => (u32, [a; b; c])
  | I32 a => (i32, [a]) | I32Pair a b => (i32, [a; b]) | I32Triplet a b c => (i32, [a; b; c])
  | F32 a => (f32, [a]) | F32Pair a b => (f32, [a; b]) | F32Triplet a b c => (f32, [a; b; c])
  | U64 a => (u64, [a]) | I64 a => (i64, [a]) | F64 a => (f64, [a])
  end.

(** The bytes of a parameter: its values one after the other, big-endian. *)
Definition raw_bytes (p : ParamsRaw) : list Z :=
  let '(ty, vs) := raw_values p in concat (prim_to_be_bytes ty <$> vs).

Definition param_bytes (p : ParamsHeapless) : list Z :=
  match p with
  | Raw raw => raw_bytes raw
  | ParamEcssEnum e => enum_bytes (ParamsEcssEnum.inner e)
  end.

Definition param_ok (p : ParamsHeapless) : Prop :=
  match p with
  | Raw _ => True
  | ParamEcssEnum e => enum_ok (ParamsEcssEnum.inner e)
  end.

Lemma size_of_pos ty : 0 < size_of ty <= 8.
Proof. destruct ty; simpl; lia. Qed.

Lemma len_prim_bytes ty v : len (prim_to_be_bytes ty v) = size_of ty.
Proof.
  unfold prim_to_be_bytes, len. rewrite length_to_be_bytes. pose proof (size_of_pos ty). lia.
Qed.

Lemma raw_to_be_bytes {E} p : ParamsRaw.to_be_bytes (E:=E) p = Ok (raw_bytes p).
Proof.
  destruct p; try reflexivity; unfold raw_bytes, as_u; simpl;
    change (2 ^ (8 * Z.of_nat 0)) with 1; by rewrite !Z.div_1_r.
Qed.

Lemma len_raw_bytes p : len (raw_bytes p) = ParamsRaw.written_len p.
Proof. destruct p; reflexivity. Qed.

Lemma param_written_len p : param_ok p -> ParamsHeapless.written_len p = len (param_bytes p).
Proof.
  destruct p as [raw|e]; simpl.
  - intros _. by rewrite len_raw_bytes.
  - intros [Hs _]. by rewrite len_enum_bytes.
Qed.

Lemma param_write p buf :
  param_ok p -> len (param_bytes p) <= len buf ->
  ParamsHeapless.write_to_be_bytes p buf =
    Ok (len (param_bytes p), param_bytes p ++ drop (length (param_bytes p)) buf).
Proof.
  destruct p as [raw|e]; simpl.
  - intros _ Hb. unfold ParamsRaw.write_to_be_bytes, Newtype.write_to_be_bytes.
    rewrite raw_to_be_bytes. simpl. rewrite <- len_raw_bytes.
    destruct (Z.ltb_spec (len buf) (len (raw_bytes raw))); [lia|].
    rewrite copy_into_ok by lia. simpl. done.
  - intros [Hs Hw] Hb. unfold ParamsEcssEnum.write_to_be_bytes. rewrite len_enum_bytes in * by done.
    rewrite Hw by done. simpl. unfold ParamsEcssEnum.written_len. do 3 f_equal.
    unfold enum_bytes. by rewrite length_to_be_bytes.
Qed.

(** Reading a value back. *)
Lemma prim_roundtrip ty v :
  in_prim ty v -> prim_from_be_bytes ty (prim_to_be_bytes ty v) = v.
Proof.
  unfold in_prim, prim_from_be_bytes, prim_to_be_bytes, in_u. rewrite from_to_be_bytes.
  intros Hv. pose proof (size_of_pos ty). rewrite Z2Nat.id by lia.
  destruct (signed ty) eqn:Hs; simpl; [|by apply Z.mod_small].
  set (w := 8 * size_of ty) in *.
  assert (2 ^ w = 2 * 2 ^ (w - 1)) as Hw by (rewrite <- Z.pow_succ_r by lia; f_equal; lia).
  destruct (Z.leb_spec 0 v).
  - rewrite Z.mod_small by lia. destruct (Z.leb_spec (2 ^ (w - 1)) v); lia.
  - assert (v mod 2 ^ w = v + 2 ^ w) as ->.
    { symmetry. apply (Z.mod_unique_pos _ _ (-1)); lia. }
    destruct (Z.leb_spec (2 ^ (w - 1)) (v + 2 ^ w)); lia.
Qed.

(** * Properties *)

(** Writing a heapless parameter puts its values, big-endian and in order,
    at the front of the buffer, reports the number of bytes written and leaves
    the rest alone; [to_vec] returns exactly these bytes; raw parameters refuse
    a buffer that is too small. *)
Theorem params_write_correct p buf :
  param_ok p ->
  ParamsHeapless.to_vec p = Ok (param_bytes p) /\
  (len (param_bytes p) <= len buf ->
   ParamsHeapless.write_to_be_bytes p buf =
     Ok (ParamsHeapless.written_len p, param_bytes p ++ drop (length (param_bytes p)) buf)) /\
  (forall raw, p = Raw raw -> len buf < len (raw_bytes raw) ->
   ParamsHeapless.write_to_be_bytes p buf =
     Err (ToSliceTooSmall (len buf) (len (raw_bytes raw)))).
Proof.
  intros Hp. split; [|split].
  - unfold ParamsHeapless.to_vec. rewrite param_written_len by done.
    rewrite param_write by (try done; rewrite len_replicate; unfold len; lia). simpl.
    rewrite drop_ge by (rewrite length_replicate; unfold len; lia). by rewrite app_nil_r.
  - intros Hb. rewrite param_written_len by done. by apply param_write.
  - intros raw -> Hb. simpl. unfold ParamsRaw.write_to_be_bytes, Newtype.write_to_be_bytes.
    rewrite raw_to_be_bytes. simpl. rewrite <- len_raw_bytes.
    by destruct (Z.ltb_spec (len buf) (len (raw_bytes raw))); [|lia].
Qed.

Lemma params_write_correct_witness :
  ParamsHeapless.to_vec (Raw (I16Pair (-2) 258)) = Ok [255; 254; 1; 2] /\
  ParamsHeapless.to_vec (ParamEcssEnum (EnumU16 (ecss_enum 2 513))) = Ok [2; 1].
Proof.
  split.
  - apply (params_write_correct (Raw (I16Pair (-2) 258)) []). exact I.
  - apply (params_write_correct (ParamEcssEnum (EnumU16 (ecss_enum 2 513))) []).
    apply ecss_enum_ok. lia.
Defined.

(** C8: Reading back what was written gives the values again, for scalars of every
    primitive type and for pairs and triplets of the types of at least two bytes, whatever
    follows in the buffer; signed values survive as well.  A buffer that is too short is
    refused with the length it needs. *)
Theorem params_roundtrip (ty : prim) (w : wide) v a b c rest :
  in_prim ty v -> in_prim w a -> in_prim w b -> in_prim w c ->
  Newtype.scalar_try_from ty (Newtype.scalar_to_be_bytes ty v ++ rest) = Ok v /\
  (let? x := Newtype.pair_to_be_bytes w a b in Newtype.pair_try_from w (x ++ rest)) = Ok (a, b) /\
  (let? x := Newtype.triplet_to_be_bytes w a b c in Newtype.triplet_try_from w (x ++ rest)) = Ok (a, b, c) /\
  (len rest < size_of ty -> Newtype.scalar_try_from ty rest = Err (FromSliceTooSmall (len rest) (size_of ty))) /\
  (len rest < 2 * size_of w -> Newtype.pair_try_from w rest = Err (FromSliceTooSmall (len rest) (2 * size_of w))) /\
  (len rest < 3 * size_of w -> Newtype.triplet_try_from w rest = Err (FromSliceTooSmall (len rest) (3 * size_of w))).
Proof.
  intros Hv Ha Hb Hc.
  pose proof (len_prim_bytes ty v) as Lv. pose proof (len_prim_bytes w a) as La. pose proof (len_prim_bytes w b) as Lb.
  pose proof (len_prim_bytes w c) as Lc. pose proof (len_nonneg rest).
  pose proof (size_of_pos ty). pose proof (size_of_pos w).
  assert (Newtype.pair_to_be_bytes (E:=ByteConversionError) w a b =
    Ok (prim_to_be_bytes w a ++ prim_to_be_bytes w b)) as -> by (destruct w; reflexivity).
  assert (Newtype.triplet_to_be_bytes (E:=ByteConversionError) w a b c =
    Ok (prim_to_be_bytes w a ++ prim_to_be_bytes w b ++ prim_to_be_bytes w c)) as ->
    by (destruct w; reflexivity).
  unfold Newtype.scalar_to_be_bytes, Newtype.scalar_try_from, Newtype.pair_try_from,
    Newtype.triplet_try_from. cbn [res_bind]. split_and!;
    [| | |intros Hs; by destruct (Z.ltb_spec (len rest) (size_of ty)); [|lia]
     |intros Hs; by destruct (Z.ltb_spec (len rest) (2 * size_of w)); [|lia]
     |intros Hs; by destruct (Z.ltb_spec (len rest) (3 * size_of w)); [|lia]];
  rewrite !len_app, ?Lv, ?La, ?Lb, ?Lc.
  - destruct (Z.ltb_spec (size_of ty + len rest) (size_of ty)); [lia|].
    rewrite (slice_at [] (prim_to_be_bytes ty v) rest) by (rewrite ?Lv; done || lia). cbn [res_bind]. by rewrite prim_roundtrip.
  - destruct (Z.ltb_spec (size_of w + size_of w + len rest) (2 * size_of w)); [lia|]. rewrite <- !app_assoc.
    rewrite (slice_at [] (prim_to_be_bytes w a) (prim_to_be_bytes w b ++ rest)),
      (slice_at (prim_to_be_bytes w a) (prim_to_be_bytes w b) rest)
      by (rewrite ?La, ?Lb; done || lia).
    cbn [res_bind]. by rewrite !prim_roundtrip.
  - destruct (Z.ltb_spec (size_of w + (size_of w + size_of w) + len rest) (3 * size_of w)); [lia|].
    set (A := prim_to_be_bytes w a) in *. set (B := prim_to_be_bytes w b) in *. set (C := prim_to_be_bytes w c) in *.
    rewrite <- !app_assoc. rewrite (slice_at [] A (B ++ C ++ rest)), (slice_at A B (C ++ rest)) by (rewrite ?La, ?Lb; done || lia).
    replace (A ++ B ++ C ++ rest) with ((A ++ B) ++ C ++ rest) by (by rewrite <- app_assoc).
    rewrite (slice_at (A ++ B) C rest) by (rewrite ?len_app, ?La, ?Lb, ?Lc; lia).
    cbn [res_bind]. unfold A, B, C. by rewrite !prim_roundtrip.
Qed.

Lemma params_roundtrip_witness :
  Newtype.scalar_try_from i8 (Newtype.scalar_to_be_bytes i8 (-5) ++ [7]) = Ok (-5) /\
  (let? v := Newtype.pair_to_be_bytes wi32 (-5) 3 in Newtype.pair_try_from wi32 (v ++ [7])) =
    Ok (-5, 3) /\
  (let? v := Newtype.triplet_to_be_bytes wi32 (-5) 3 0 in Newtype.triplet_try_from wi32 (v ++ [7])) =
    Ok (-5, 3, 0).
Proof.
  destruct (params_roundtrip i8 wi32 (-5) (-5) 3 0 [7]) as (Hs & Hp & Ht & _); [unfold in_prim; simpl; lia..|].
  split; [exact Hs|]. split; [exact Hp|exact Ht].
Defined.
