(* ===== verification/Tmtc.v ===== *)
(** * Message queues and packet senders

    [satrs/src/queue.rs], [satrs/src/tmtc/mod.rs] and the telemetry senders of
    [satrs/src/pus/mod.rs].  A channel of [std::sync::mpsc] is the list of
    queued messages with its capacity and whether the receiver still exists. *)

From Stdlib Require Import ZArith Lia Bool.
From stdpp Require Import base list gmap.
From S2P Require Import Prelude Spacepackets Pool.

Local Open Scope Z_scope.

(** ** Errors ([queue.rs]) *)
Inductive GenericSendError : Type :=
| RxDisconnected
| QueueFull (max_cap : option Z)
| TargetDoesNotExist (id : Z).

Inductive GenericReceiveError : Type :=
| RecvEmpty
| TxDisconnected (id : option Z).

Inductive GenericTargetedMessagingError : Type :=
| MsgSend (e : GenericSendError)
| MsgReceive (e : GenericReceiveError).

#[export] Instance GenericSendError_eq_dec : EqDecision GenericSendError.
Proof. solve_decision. Defined.

#[export] Instance GenericReceiveError_eq_dec : EqDecision GenericReceiveError.
Proof. solve_decision. Defined.

(** ** Channels of [std::sync::mpsc] *)
Record channel (A : Type) : Type := mkChannel {
  queue : list A;
  capacity : option Z;
  rx_alive : bool;
  tx_alive : bool;
}.

Arguments mkChannel {A} _ _ _ _.
Arguments queue {A} _.
Arguments capacity {A} _.
Arguments rx_alive {A} _.
Arguments tx_alive {A} _.

Inductive TrySendError : Type := Full | Disconnected.

Inductive TryRecvError : Type := TryRecvEmpty | TryRecvDisconnected.

Module Channel.
Section Channel.
Context {A : Type}.

Definition set_queue (q : list A) (c : channel A) : channel A :=
  {| queue := q; capacity := capacity c; rx_alive := rx_alive c; tx_alive := tx_alive c |}.

(** [Sender::send]: fails only when the receiver is gone. *)
Definition send (a : A) : st (channel A) unit unit :=
  fun c => if rx_alive c then (Ok tt, set_queue (queue c ++ [a]) c) else (Err tt, c).

(** [SyncSender::try_send]. *)
Definition try_send (a : A) : st (channel A) TrySendError unit :=
  fun c =>
    if negb (rx_alive c) then (Err Disconnected, c)
    else match capacity c with
         | Some n =>
             if n <=? len (queue c) then (Err Full, c)
             else (Ok tt, set_queue (queue c ++ [a]) c)
         | None => (Ok tt, set_queue (queue c ++ [a]) c)
         end.

(** [Receiver::try_recv]. *)
Definition try_recv : st (channel A) TryRecvError A :=
  fun c =>
    match queue c with
    | a :: q => (Ok a, set_queue q c)
    | [] => if tx_alive c then (Err TryRecvEmpty, c) else (Err TryRecvDisconnected, c)
    end.

End Channel.
End Channel.

(** [From<mpsc::TrySendError<T>> for GenericSendError]. *)
Definition send_error_of_try_send (e : TrySendError) : GenericSendError :=
  match e with
  | Full => QueueFull None
  | Disconnected => RxDisconnected
  end.

(** ** Packets on queues *)
Record PacketInPool : Type := mkPacketInPool { pip_sender_id : Z; store_addr : Z }.

Record PacketAsVec : Type := mkPacketAsVec { pav_sender_id : Z; packet : list Z }.

Inductive PusTmVariant : Type :=
| InStore (addr : Z)
| Direct (tm : PusTm).

(** [PusError] is a type of [spacepackets]. *)
Inductive EcssTmtcError (PE : Type) : Type :=
| TmtcStore (e : PoolError)
| TmtcByteConversion (e : ByteConversionError)
| TmtcPus (e : PE)
| CantSendAddr (addr : Z)
| CantSendDirectTm
| TmtcSend (e : GenericSendError)
| TmtcReceive (e : GenericReceiveError).

Arguments TmtcStore {PE} e.
Arguments TmtcByteConversion {PE} e.
Arguments TmtcPus {PE} e.
Arguments CantSendAddr {PE} addr.
Arguments CantSendDirectTm {PE}.
Arguments TmtcSend {PE} e.
Arguments TmtcReceive {PE} e.

Inductive StoreAndSendError : Type :=
| SasStore (e : PoolError)
| SasSend (e : GenericSendError).

(** ** The [EcssTmSender] trait

    [send_tm] takes [&self]; what it changes (a queue, a pool) is the state. *)
Class EcssTmSender (PE Q : Type) : Type :=
  send_tm : Z -> PusTmVariant -> st Q (EcssTmtcError PE) unit.

(** [PacketInPoolSender]. *)
Class PacketInPoolSender (Q : Type) : Type :=
  pip_send_packet : Z -> Z -> st Q GenericSendError unit.

Module MpscSender.
Section MpscSender.
Context {PE : Type}.
(** [WritablePusPacket] for [PusTmCreator]. *)
Context (tm_writer : PusTm -> Writer ByteConversionError).

(** [impl PacketSenderRaw for mpsc::Sender<PacketAsVec>] *)
Definition send_packet (sender_id : Z) (packet : list Z)
    : st (channel PacketAsVec) GenericSendError unit :=
  st_map_err (fun _ => RxDisconnected) (Channel.send (mkPacketAsVec sender_id packet)).

(** [impl PacketSenderRaw for mpsc::SyncSender<PacketAsVec>] *)
Definition send_packet_sync (sender_id : Z) (packet : list Z)
    : st (channel PacketAsVec) GenericSendError unit :=
  st_map_err send_error_of_try_send (Channel.try_send (mkPacketAsVec sender_id packet)).

(** [impl PacketInPoolSender for mpsc::Sender<PacketInPool>] *)
Definition send_in_pool (sender_id addr : Z) : st (channel PacketInPool) GenericSendError unit :=
  st_map_err (fun _ => RxDisconnected) (Channel.send (mkPacketInPool sender_id addr)).

(** [impl PacketInPoolSender for mpsc::SyncSender<PacketInPool>] *)
Definition send_in_pool_sync (sender_id addr : Z)
    : st (channel PacketInPool) GenericSendError unit :=
  st_map_err send_error_of_try_send (Channel.try_send (mkPacketInPool sender_id addr)).

(** [impl EcssTmSender for mpsc::Sender<PacketInPool>] *)
Definition send_tm_addr (source_id : Z) (tm : PusTmVariant)
    : st (channel PacketInPool) (EcssTmtcError PE) unit :=
  match tm with
  | InStore a =>
      st_map_err (fun _ => TmtcSend RxDisconnected) (Channel.send (mkPacketInPool source_id a))
  | Direct _ => throw CantSendDirectTm
  end.

(** [impl EcssTmSender for mpsc::SyncSender<PacketInPool>] *)
Definition send_tm_addr_sync (source_id : Z) (tm : PusTmVariant)
    : st (channel PacketInPool) (EcssTmtcError PE) unit :=
  match tm with
  | InStore a =>
      st_map_err (fun e => TmtcSend (send_error_of_try_send e))
        (Channel.try_send (mkPacketInPool source_id a))
  | Direct _ => throw CantSendDirectTm
  end.

(** [impl EcssTmSender for MpscTmAsVecSender] *)
Definition send_tm_vec (source_id : Z) (tm : PusTmVariant)
    : st (channel PacketAsVec) (EcssTmtcError PE) unit :=
  match tm with
  | InStore a => throw (CantSendAddr a)
  | Direct tm =>
      let* packet := lift (map_err TmtcByteConversion (to_vec (tm_writer tm))) in
      st_map_err (fun _ => TmtcSend RxDisconnected)
        (Channel.send (mkPacketAsVec source_id packet))
  end.

End MpscSender.
End MpscSender.

#[export] Instance mpsc_pip_sender : PacketInPoolSender (channel PacketInPool) :=
  MpscSender.send_in_pool_sync.

(** ** [SharedPacketPool]: a pool behind a lock *)
Record Shared (P : Type) : Type := mkShared { poisoned : bool; inner : P }.

Arguments mkShared {P} _ _.
Arguments poisoned {P} _.
Arguments inner {P} _.

Module SharedPool.
Section SharedPool.
Context {P : Type} `{PoolProvider P}.
Context (tm_writer : PusTm -> Writer ByteConversionError).

(** [self.0.write().map_err(|_| PoolError::LockError)?] and a call on the pool. *)
Definition locked {A : Type} (m : st P PoolError A) : st (Shared P) PoolError A :=
  fun s =>
    if poisoned s then (Err LockError, s)
    else let '(r, p') := m (inner s) in (r, mkShared false p').

(** [CcsdsPacketPool::add_raw_tc]; [PusTcPool::add_pus_tc] and
    [PusTmPool::add_pus_tm_from_reader] do the same with the raw data of the
    packet. *)
Definition add_raw_tc (tc_raw : list Z) : st (Shared P) PoolError Z :=
  locked (pool_free_element (len tc_raw) (fun buf => splice buf 0 tc_raw)).

(** [PusTmPool::add_pus_tm_from_creator].  The result of the write is the one on
    the zeroed block the pool hands out. *)
Definition add_pus_tm_from_creator (tm : PusTm) : st (Shared P) PoolError Z :=
  let w := tm_writer tm in
  let result := write_to_bytes w (replicate (Z.to_nat (len_written w)) 0) in
  locked
    (let* a := pool_free_element (len_written w)
       (fun buf => match write_to_bytes w buf with Ok (_, b) => b | _ => buf end) in
     let* _ := lift (map_err PoolByteConversionError result) in
     ret a).

End SharedPool.
End SharedPool.

(** ** [PacketSenderWithSharedPool] *)
Module PoolSender.
Section PoolSender.
Context {PE P Q : Type} `{PoolProvider P} `{PacketInPoolSender Q}.
Context (tm_writer : PusTm -> Writer ByteConversionError).

(** The sender and the shared pool. *)
Definition t : Type := Q * Shared P.

(** [impl PacketSenderRaw]; [send_ccsds] and [send_pus_tc] call it with the raw
    packet. *)
Definition send_packet (sender_id : Z) (packet : list Z) : st t StoreAndSendError unit :=
  let* a := st_map_err SasStore (on_snd (SharedPool.add_raw_tc packet)) in
  st_map_err SasSend (on_fst (pip_send_packet sender_id a)).

(** [impl EcssTmSender]. *)
Definition send_tm (sender_id : Z) (tm : PusTmVariant) : st t (EcssTmtcError PE) unit :=
  let send_addr a := st_map_err TmtcSend (on_fst (pip_send_packet sender_id a)) in
  match tm with
  | InStore a => send_addr a
  | Direct tm_creator =>
      let* a := st_map_err TmtcStore
        (on_snd (SharedPool.add_pus_tm_from_creator tm_writer tm_creator)) in
      send_addr a
  end.

End PoolSender.
End PoolSender.

(** ** Properties of the pool sender *)
Section Sending.
Context {PE : Type} (tm_writer : PusTm -> Writer ByteConversionError).
Implicit Types (c : channel PacketInPool) (p : StaticMemoryPool) (m : gmap Z (list Z)).

(** Why a bounded channel refuses a message. *)
Definition queue_refusal (c : channel PacketInPool) (e : GenericSendError) : Prop :=
  if rx_alive c then exists n, capacity c = Some n /\ n <= len (queue c) /\ e = QueueFull None
  else e = RxDisconnected.

(** What [try_send] does to a channel, by its state. *)
Lemma try_send_cases c sender_id a :
  match pip_send_packet sender_id a c with
  | (Ok _, c') => c' = Channel.set_queue (queue c ++ [mkPacketInPool sender_id a]) c
  | (Err e, c') => c' = c /\ queue_refusal c e
  | (Panic, _) => False
  end.
Proof.
  unfold pip_send_packet, mpsc_pip_sender, MpscSender.send_in_pool_sync, Channel.try_send.
  unfold queue_refusal. run_monad. destruct (rx_alive c); simpl; [|done].
  destruct (capacity c) as [n|] eqn:Hc; [|done].
  destruct (Z.leb_spec n (len (queue c))); simpl; [eauto|done].
Qed.

(** Adding a packet to the shared pool is [add] on the pool. *)
Lemma add_raw_tc_add p m packet :
  static_rep p m ->
  SharedPool.add_raw_tc packet (mkShared false p) =
    (let '(r, p') := StaticPool.add packet p in (r, mkShared false p')).
Proof.
  intros [Hwf _]. unfold SharedPool.add_raw_tc, SharedPool.locked. simpl.
  assert (splice (replicate (Z.to_nat (len packet)) 0) 0 packet = packet) as Hs.
  { apply splice_full. rewrite length_replicate. unfold len. lia. }
  rewrite free_element_add; rewrite ?Hs; auto with satrs.
Qed.

Lemma add_tm_add p m tm bytes :
  static_rep p m -> writes (tm_writer tm) bytes ->
  SharedPool.add_pus_tm_from_creator tm_writer tm (mkShared false p) =
    (let '(r, p') := StaticPool.add bytes p in (r, mkShared false p')).
Proof.
  intros [Hwf _] (Hl & _ & Hw).
  unfold SharedPool.add_pus_tm_from_creator, SharedPool.locked. simpl. rewrite Hl.
  assert (len (replicate (Z.to_nat (len bytes)) 0) = len bytes) as Hr.
  { rewrite len_replicate. unfold len. lia. }
  rewrite Hw by done. unfold st_bind. simpl.
  rewrite free_element_add; rewrite ?(Hw _ Hr); auto with satrs.
  by destruct (StaticPool.add bytes p) as [[a|e|] p'].
Qed.

End Sending.

(** [PacketSenderWithSharedPool] with a [StaticMemoryPool] and a bounded
    channel.  Sending a packet either stores it under a fresh address and
    appends exactly that address, with the sender's ID, to the queue, so that
    the receiver can read the packet back; or it fails in the pool and changes
    nothing; or the queue, full or without a receiver, refuses it: then the queue
    is unchanged, while the packet stays in the pool. *)
Theorem pool_send_packet_correct c p m sender_id packet :
  static_rep p m ->
  match PoolSender.send_packet sender_id packet (c, mkShared false p) with
  | (Ok _, (c', s')) => exists a, m !! a = None /\
      queue c' = queue c ++ [mkPacketInPool sender_id a] /\
      static_rep (inner s') (<[a := packet]> m) /\ read_as_vec (inner s') a = Ok packet
  | (Err (SasStore e), x) => x = (c, mkShared false p) /\ refusal p (len packet) e
  | (Err (SasSend e), (c', s')) => c' = c /\ queue_refusal c e /\
      exists a, m !! a = None /\ static_rep (inner s') (<[a := packet]> m)
  | (Panic, _) => False
  end.
Proof.
  intros Hrep. unfold PoolSender.send_packet, st_bind, st_map_err, on_snd, on_fst. simpl.
  rewrite (add_raw_tc_add p m packet Hrep). pose proof (static_add_spec p m packet Hrep) as Ha.
  destruct (StaticPool.add packet p) as [[a|e|] p']; simpl; [| |done].
  - destruct Ha as (i & j & _ & _ & Hcan & Hn & Hrep').
    pose proof (try_send_cases c sender_id a) as Hs.
    destruct (pip_send_packet sender_id a c) as [[[]|e|] c']; simpl; [| |done].
    + subst c'. exists a. do 3 (split; [done|]). unfold read_as_vec. simpl.
      rewrite (static_len_some p' _ a Hrep' packet) by apply lookup_insert_eq. simpl.
      rewrite (static_read_some p' _ a Hrep' packet) by apply lookup_insert_eq.
      rewrite len_replicate, Z2Nat.id, Z.ltb_irrefl by apply len_nonneg. simpl. f_equal.
      rewrite drop_ge; [apply app_nil_r|]. rewrite length_replicate. unfold len. lia.
    + destruct Hs as [-> ?]. eauto 6.
  - by destruct Ha as [-> ?].
Qed.

Lemma pool_send_packet_correct_witness :
  exists p c' s', StaticPool.new ex_config = Ok p /\
    PoolSender.send_packet 5 [1; 2; 3] (mkChannel [] (Some 2) true true, mkShared false p) =
      (Ok tt, (c', s')) /\
    exists a, queue c' = [mkPacketInPool 5 a] /\ read_as_vec (inner s') a = Ok [1; 2; 3].
Proof.
  destruct (new_spec ex_config ex_config_addressable) as (p & Hp & Hrep & _).
  pose proof (pool_send_packet_correct (mkChannel [] (Some 2) true true) p ∅ 5 [1; 2; 3] Hrep) as Hx.
  vm_compute in Hp. injection Hp as Hp. exists p.
  destruct (PoolSender.send_packet 5 [1; 2; 3] _) as [[[]|e|] [c' s']] eqn:Hrun.
  - destruct Hx as (a & _ & Hq & _ & Hr). exists c', s'. subst p. split; [reflexivity|].
    split; [done|]. exists a. split; [exact Hq|exact Hr].
  - subst p. vm_compute in Hrun. discriminate.
  - destruct Hx.
Defined.

(** Telemetry sent through the same sender is serialized into a fresh pool
    block whose address is queued, with the sender's ID.  An error of the pool
    changes nothing; a full or disconnected queue is left unchanged, while the
    telemetry stays in the pool.  There are no other errors, and nothing
    panics. *)
Theorem pool_send_tm_correct {PE} tm_writer c p m sender_id tm bytes :
  static_rep p m -> writes (tm_writer tm) bytes ->
  match PoolSender.send_tm (PE:=PE) tm_writer sender_id (Direct tm) (c, mkShared false p) with
  | (Ok _, (c', s')) => exists a, m !! a = None /\
      queue c' = queue c ++ [mkPacketInPool sender_id a] /\
      static_rep (inner s') (<[a := bytes]> m)
  | (Err (TmtcStore e), x) => x = (c, mkShared false p) /\ refusal p (len bytes) e
  | (Err (TmtcSend e), (c', s')) => c' = c /\ queue_refusal c e /\
      exists a, m !! a = None /\ static_rep (inner s') (<[a := bytes]> m)
  | _ => False
  end.
Proof.
  intros Hrep Hw. unfold PoolSender.send_tm, st_bind, st_map_err, on_snd, on_fst. simpl.
  rewrite (add_tm_add tm_writer p m tm bytes Hrep Hw).
  pose proof (static_add_spec p m bytes Hrep) as Ha.
  destruct (StaticPool.add bytes p) as [[a|e|] p']; simpl; [| |done].
  - destruct Ha as (i & j & _ & _ & Hcan & Hn & Hrep').
    pose proof (try_send_cases c sender_id a) as Hs.
    destruct (pip_send_packet sender_id a c) as [[[]|e|] c']; simpl; [| |done].
    + subst c'. by exists a.
    + destruct Hs as [-> ?]. eauto 6.
  - by destruct Ha as [-> ?].
Qed.

Lemma pool_send_tm_correct_witness :
  exists p c' s', StaticPool.new ex_config = Ok p /\
    PoolSender.send_tm (PE:=unit) (fun _ => bytes_writer [8; 1; 192]) 5
      (Direct (mkPusTm 7 0 1 1 0 0 [] [])) (mkChannel [] (Some 2) true true, mkShared false p) =
      (Ok tt, (c', s')) /\
    exists a, queue c' = [mkPacketInPool 5 a].
Proof.
  destruct (new_spec ex_config ex_config_addressable) as (p & Hp & Hrep & _).
  pose proof (pool_send_tm_correct (PE:=unit) (fun _ => bytes_writer [8; 1; 192])
    (mkChannel [] (Some 2) true true) p ∅ 5 (mkPusTm 7 0 1 1 0 0 [] []) [8; 1; 192] Hrep
    (bytes_writer_writes _)) as Hx.
  vm_compute in Hp. injection Hp as Hp. exists p.
  destruct (PoolSender.send_tm _ 5 _ _) as [[[]|e|] [c' s']] eqn:Hrun.
  - destruct Hx as (a & _ & Hq & _). exists c', s'. subst p. split; [reflexivity|].
    split; [done|]. exists a. exact Hq.
  - subst p. vm_compute in Hrun. discriminate.
  - destruct Hx.
Defined.
