(* ===== verification/Helpers.v ===== *)
(** * Validators and small helpers

    [ValidatorU16Id] of [satrs/src/lib.rs] with its implementations,
    [PusTmWithCdsShortHelper] of [satrs/src/tmtc/tm_helper.rs] and the senders of CCSDS
    packets and on [crossbeam] channels of [satrs/src/tmtc/mod.rs] and
    [satrs/src/pus/mod.rs]. *)

From Stdlib Require Import ZArith Lia Bool Sorted.
From stdpp Require Import base list gmap.
From S2P Require Import Prelude Spacepackets Pool Tmtc.

Local Open Scope Z_scope.

(** ** Validators of IDs *)
Class ValidatorU16Id (V : Type) : Type := validate : V -> Z -> bool.

(** A slice; a [Vec] is a list and a [HashSet] a [gset]. *)
Record Slice : Type := mkSlice { elems : list Z }.

(** [slice::binary_search]: halves the range that starts at [base] until one element is
    left.  The size at least halves, so the length of the slice is enough fuel. *)
Fixpoint binary_search_by (fuel : nat) (l : list Z) (x : Z) (base size : nat) : nat :=
  match fuel with
  | O => base
  | S fuel' =>
      if (size <=? 1)%nat then base
      else
        let half := (size / 2)%nat in
        let mid := (base + half)%nat in
        binary_search_by fuel' l x (if x <? nth mid l 0 then base else mid) (size - half)
  end.

(** [binary_search(&x).is_ok()] *)
Definition binary_search_is_ok (l : list Z) (x : Z) : bool :=
  match l !! binary_search_by (length l) l x 0 (length l) with
  | Some y => y =? x
  | None => false
  end.

#[export] Instance vec_u16_validator : ValidatorU16Id (list Z) := fun l id => bool_decide (id ∈ l).

#[export] Instance set_u16_validator : ValidatorU16Id (gset Z) := fun s id => bool_decide (id ∈ s).

#[export] Instance u16_validator : ValidatorU16Id Z := fun x id => id =? x.

#[export] Instance slice_u16_validator : ValidatorU16Id Slice := fun l id => binary_search_is_ok (elems l) id.

Section PacketIds.
Context `{HeaderOps}.

(** Packet IDs are held as their raw values, which order them. *)
Definition vec_packet_id (l : list Z) (packet_id : Z) : bool := validate l (packet_id_from packet_id).

Definition set_packet_id (s : gset Z) (packet_id : Z) : bool := validate s (packet_id_from packet_id).

Definition slice_packet_id (l : Slice) (packet_id : Z) : bool := validate l (packet_id_from packet_id).
End PacketIds.

(** ** Telemetry with a CDS time stamp *)
Record PusTmWithCdsShortHelper : Type := mkTmHelper { helper_apid : Z; cds_short_buf : list Z }.

Module TmHelper.
Definition new (apid : Z) : PusTmWithCdsShortHelper := mkTmHelper apid (replicate 7 0).

Definition create_pus_tm_common (service subservice : Z) (source_data : list Z) (seq_count : Z)
    (h : PusTmWithCdsShortHelper) : PusTm :=
  {| tm_apid := helper_apid h; tm_seq_count := seq_count; tm_service := service; tm_subservice := subservice;
     tm_msg_counter := 0; tm_dest_id := 0; tm_time_stamp := cds_short_buf h; tm_source_data := source_data |}.

(** [stamper.write_to_bytes(&mut self.cds_short_buf)] *)
Definition write_stamp {TE E : Type} (stamper : Writer TE) : st PusTmWithCdsShortHelper E unit :=
  fun h =>
    match expect (write_to_bytes stamper (cds_short_buf h)) with
    | Ok (n, bytes) => (Ok tt, mkTmHelper (helper_apid h) (bytes ++ drop (Z.to_nat n) (cds_short_buf h)))
    | Err e => (Err e, h)
    | Panic => (Panic, h)
    end.

Definition create_pus_tm_with_stamper {TE E : Type} (service subservice : Z) (source_data : list Z) (stamper : Writer TE)
    (seq_count : Z) : st PusTmWithCdsShortHelper E PusTm :=
  let* _ := write_stamp stamper in
  gets (create_pus_tm_common service subservice source_data seq_count).

(** [CdsTime::now_with_u16_days()] may fail. *)
Definition create_pus_tm_timestamp_now {SE TE E : Type} (now : res SE (Writer TE)) (service subservice : Z)
    (source_data : list Z) (seq_count : Z) : st PusTmWithCdsShortHelper E PusTm :=
  let* time_stamp := lift (expect now) in
  let* _ := write_stamp time_stamp in
  gets (create_pus_tm_common service subservice source_data seq_count).
End TmHelper.

(** ** Senders of CCSDS packets *)
Module CcsdsSender.
Definition send_ccsds {Hdr : Type} (sender_id : Z) (_ : Hdr) (tc_raw : list Z) : st (channel PacketAsVec) GenericSendError unit :=
  st_map_err (fun _ => RxDisconnected) (Channel.send (mkPacketAsVec sender_id tc_raw)).

Definition send_ccsds_sync {Hdr : Type} (sender_id : Z) (_ : Hdr) (packet_raw : list Z)
    : st (channel PacketAsVec) GenericSendError unit :=
  st_map_err (fun e => match e with Full => QueueFull None | Disconnected => RxDisconnected end)
    (Channel.try_send (mkPacketAsVec sender_id packet_raw)).

(** [EcssTmSender for mpsc::SyncSender<PacketAsVec>]; the blocking send ends when there is
    room for the packet. *)
Definition send_tm_vec_bounded {PE : Type} (tm_writer : PusTm -> Writer ByteConversionError) (source_id : Z)
    (tm : PusTmVariant) : st (channel PacketAsVec) (EcssTmtcError PE) unit :=
  match tm with
  | InStore addr => throw (CantSendAddr addr)
  | Direct tm =>
      let* packet := lift (map_err TmtcByteConversion (to_vec (tm_writer tm))) in
      st_map_err (fun _ => TmtcSend RxDisconnected) (Channel.send (mkPacketAsVec source_id packet))
  end.

Section PoolSender.
Context {P Q : Type} `{PoolProvider P} `{PacketInPoolSender Q}.

(** [PusTcPool::add_pus_tc] and [PusTmPool::add_pus_tm_from_reader]; the raw data of a
    reader has its packed length. *)
Definition add_pus_tc (raw_data : list Z) : st (Shared P) PoolError Z :=
  SharedPool.locked (pool_free_element (len raw_data) (fun buf => splice buf 0 raw_data)).

Definition add_pus_tm_from_reader (raw_data : list Z) : st (Shared P) PoolError Z :=
  SharedPool.locked (pool_free_element (len raw_data) (fun buf => splice buf 0 raw_data)).

(** [PacketSenderPusTc] and [PacketSenderCcsds] for [PacketSenderWithSharedPool] *)
Definition send_pus_tc {Hdr : Type} (sender_id : Z) (_ : Hdr) (raw_data : list Z) : st (Q * Shared P) StoreAndSendError unit :=
  let* store_addr := st_map_err SasStore (on_snd (SharedPool.add_raw_tc raw_data)) in
  st_map_err SasSend (on_fst (pip_send_packet sender_id store_addr)).

Definition send_ccsds_pool {Hdr : Type} (sender_id : Z) (_ : Hdr) (tc_raw : list Z) : st (Q * Shared P) StoreAndSendError unit :=
  PoolSender.send_packet sender_id tc_raw.
End PoolSender.
End CcsdsSender.

(** ** Channels of [crossbeam]

    The channel is a parameter; its documented behaviour is that of a queue. *)
Class CrossbeamOps (CB : Type -> Type) : Type := {
  cb_try_send : forall A, A -> st (CB A) TrySendError unit;
  cb_send : forall A, A -> st (CB A) unit unit;
}.
Arguments cb_try_send {CB _ A} _.
Arguments cb_send {CB _ A} _.

Module Crossbeam.
Section Crossbeam.
Context {CB : Type -> Type} `{CrossbeamOps CB} {PE : Type}.
Context (tm_writer : PusTm -> Writer ByteConversionError).

(** [From<crossbeam_channel::TrySendError<T>> for GenericSendError] *)
Definition from_try_send_error (err : TrySendError) : GenericSendError :=
  match err with
  | Full => QueueFull None
  | Disconnected => RxDisconnected
  end.

(** [EcssTmSender for cb::Sender<PacketInPool>] and [for cb::Sender<PacketAsVec>] *)
Definition send_tm_addr (sender_id : Z) (tm : PusTmVariant) : st (CB PacketInPool) (EcssTmtcError PE) unit :=
  match tm with
  | InStore addr =>
      st_map_err (fun e => TmtcSend (from_try_send_error e)) (cb_try_send (mkPacketInPool sender_id addr))
  | Direct _ => throw CantSendDirectTm
  end.

Definition send_tm_vec (sender_id : Z) (tm : PusTmVariant) : st (CB PacketAsVec) (EcssTmtcError PE) unit :=
  match tm with
  | InStore addr => throw (CantSendAddr addr)
  | Direct tm =>
      let* packet := lift (map_err TmtcByteConversion (to_vec (tm_writer tm))) in
      st_map_err (fun _ => TmtcSend RxDisconnected) (cb_send (mkPacketAsVec sender_id packet))
  end.

(** [PacketInPoolSender for cb::Sender<PacketInPool>] *)
Definition send_packet (sender_id store_addr : Z) : st (CB PacketInPool) GenericSendError unit :=
  st_map_err from_try_send_error (cb_try_send (mkPacketInPool sender_id store_addr)).
End Crossbeam.
End Crossbeam.

(** * Properties *)

Lemma nth_lookup_lt (l : list Z) i : (i < length l)%nat -> l !! i = Some (nth i l 0).
Proof. intros [x Hx]%lookup_lt_is_Some_2. by rewrite (nth_lookup_Some _ _ 0 _ Hx). Qed.

Lemma nth_mono l i j : StronglySorted Z.le l -> (i <= j < length l)%nat -> nth i l 0 <= nth j l 0.
Proof.
  intros Hl. revert i j. induction Hl as [|x l Hl IH Hx]; intros i j Hij; cbn [length] in *; [lia|].
  destruct i as [|i], j as [|j]; cbn [nth]; try lia; [|apply IH; lia].
  rewrite Forall_forall in Hx. apply Hx, list_elem_of_In, nth_In. lia.
Qed.

(** The element is found where the search ends if it is in the range. *)
Lemma binary_search_by_finds fuel l x base size i :
  StronglySorted Z.le l -> (size <= fuel)%nat -> (base + size <= length l)%nat ->
  (base <= i < base + size)%nat -> nth i l 0 = x ->
  l !! binary_search_by fuel l x base size = Some x.
Proof.
  intros Hl. revert base size i. induction fuel as [|fuel IH]; intros base size i Hf Hr Hi Hx; cbn [binary_search_by]; [lia|].
  destruct (Nat.leb_spec size 1). { replace base with i by lia. rewrite <- Hx. apply nth_lookup_lt. lia. }
  pose proof (Nat.div_lt size 2 ltac:(lia) ltac:(lia)). pose proof (Nat.div_str_pos size 2 ltac:(lia)).
  pose proof (Nat.Div0.mul_div_le size 2).
  set (half := (size / 2)%nat) in *. destruct (Z.ltb_spec x (nth (base + half) l 0)) as [Hlt|Hge].
  - destruct (decide (i < base + half)%nat); [apply (IH _ _ i); lia|].
    pose proof (nth_mono l (base + half) i Hl ltac:(lia)). lia.
  - destruct (decide (base + half <= i)%nat); [apply (IH _ _ i); lia|].
    pose proof (nth_mono l i (base + half) Hl ltac:(lia)).
    apply (IH _ _ (base + half)%nat); lia.
Qed.

(** On a sorted slice the binary search is the membership test. *)
Lemma binary_search_correct l x : StronglySorted Z.le l -> binary_search_is_ok l x = bool_decide (x ∈ l).
Proof.
  intros Hl. apply eq_bool_prop_intro. rewrite bool_decide_spec. unfold binary_search_is_ok. split.
  - destruct (l !! _) as [y|] eqn:Hy; [|done]. intros Hx. apply Is_true_true, Z.eqb_eq in Hx as ->.
    by apply list_elem_of_lookup_2 in Hy.
  - intros (i & Hi)%list_elem_of_lookup. pose proof (lookup_lt_Some _ _ _ Hi). apply nth_lookup_Some with (d:=0) in Hi.
    pose proof (binary_search_by_finds (length l) l x 0 (length l) i Hl ltac:(lia) ltac:(lia) ltac:(lia) Hi) as Hb.
    rewrite Hb. by apply Is_true_true, Z.eqb_eq.
Qed.

(** All validators of the same sorted IDs agree. *)
Theorem validators_agree l x id :
  StronglySorted Z.le l ->
  validate (mkSlice l) id = validate l id /\ validate (list_to_set (C:=gset Z) l) id = validate l id /\
  validate [x] id = validate x id.
Proof.
  intros Hl. split_and!.
  - by apply binary_search_correct.
  - apply bool_decide_ext, elem_of_list_to_set.
  - unfold validate, vec_u16_validator, u16_validator. apply eq_bool_prop_intro.
    rewrite bool_decide_spec, list_elem_of_singleton, Is_true_true, Z.eqb_eq. done.
Qed.

(** The slice of IDs that are not sorted rejects IDs the vector of them accepts. *)
Example unsorted_slice_rejects : validate (mkSlice [5; 3; 1]) 5 = false /\ validate [5; 3; 1] 5 = true.
Proof. done. Qed.

(** A stamp of up to seven bytes is in front of what the buffer held; a longer one or a
    clock before the epoch panics. *)
Theorem tm_helper_correct {SE TE E} (now : res SE (Writer TE)) service subservice data seq h :
  TmHelper.create_pus_tm_timestamp_now (E:=E) now service subservice data seq h =
    match now with
    | Ok w =>
        match write_to_bytes w (cds_short_buf h) with
        | Ok (n, bytes) =>
            let stamp := bytes ++ drop (Z.to_nat n) (cds_short_buf h) in
            (Ok (mkPusTm (helper_apid h) seq service subservice 0 0 stamp data), mkTmHelper (helper_apid h) stamp)
        | _ => (Panic, h)
        end
    | _ => (Panic, h)
    end.
Proof.
  destruct now as [w| |]; try done. unfold TmHelper.create_pus_tm_timestamp_now, lift, st_bind, TmHelper.write_stamp. cbn [expect].
  by destruct (write_to_bytes w (cds_short_buf h)) as [[n bytes]| |].
Qed.

(** A telecommand that is sent through the pool is the next message of the queue, and
    its bytes are those of the telecommand, exactly when the pool and the queue have
    room; the packets of readers are stored the same way. *)
Theorem send_pus_tc_correct {Hdr} c p m id (hdr : Hdr) raw :
  static_rep p m ->
  match CcsdsSender.send_pus_tc id hdr raw (c, mkShared false p) with
  | (Ok _, (c', s')) => exists a, m !! a = None /\ queue c' = queue c ++ [mkPacketInPool id a] /\
      static_rep (inner s') (<[a := raw]> m) /\
      CcsdsSender.add_pus_tc raw (mkShared false p) = (Ok a, s') /\
      CcsdsSender.add_pus_tm_from_reader raw (mkShared false p) = (Ok a, s')
  | (Err (SasStore e), x) => x = (c, mkShared false p) /\ refusal p (len raw) e
  | (Err (SasSend e), (c', s')) => c' = c /\ queue_refusal c e
  | (Panic, _) => False
  end.
Proof.
  intros Hrep. unfold CcsdsSender.send_pus_tc, st_bind, st_map_err, on_snd, on_fst. cbn [fst snd].
  pose proof (add_raw_tc_add p m raw Hrep) as Hadd. change (CcsdsSender.add_pus_tc raw) with (SharedPool.add_raw_tc (P:=StaticMemoryPool) raw).
  change (CcsdsSender.add_pus_tm_from_reader raw) with (SharedPool.add_raw_tc (P:=StaticMemoryPool) raw).
  rewrite Hadd. pose proof (static_add_spec p m raw Hrep) as Ha.
  destruct (StaticPool.add raw p) as [[a|e|] p']; cbn [map_err fst snd]; [|by destruct Ha as [-> ?]|done].
  destruct Ha as (i & j & _ & _ & Hcan & Hn & Hrep'). pose proof (try_send_cases c id a) as Hs.
  destruct (pip_send_packet id a c) as [[[]|e|] c']; cbn [map_err]; [|exact Hs|done].
  subst c'. exists a. by split_and!.
Qed.

(** ** The channels of [crossbeam] behave like those of [mpsc] *)
Section Bisimilar.
Context {CB : Type -> Type} `{CrossbeamOps CB}.
(** What a channel holds. *)
Context (view : forall A, CB A -> channel A).
Arguments view {A} _.

(** A run on a channel is the run on what the channel holds. *)
Definition simulates {A E B} (m : st (CB A) E B) (n : st (channel A) E B) : Prop :=
  forall c, let '(r, c') := m c in n (view c) = (r, view c').

Hypothesis try_send_view : forall A (a : A), simulates (cb_try_send a) (Channel.try_send a).
Hypothesis send_view : forall A (a : A), simulates (cb_send a) (Channel.send a).

Lemma simulates_map_err {A E F B} (f : E -> F) (m : st (CB A) E B) n :
  simulates m n -> simulates (st_map_err f m) (st_map_err f n).
Proof. intros Hm c. specialize (Hm c). unfold st_map_err. destruct (m c) as [r c']. by rewrite Hm. Qed.

Lemma simulates_bind {A E B D} (m : st (CB A) E B) n (k : B -> st (CB A) E D) l :
  simulates m n -> (forall b, simulates (k b) (l b)) -> simulates (let* b := m in k b) (let* b := n in l b).
Proof.
  intros Hm Hk c. specialize (Hm c). unfold st_bind. destruct (m c) as [[b|e|] c']; rewrite Hm; [apply Hk|done|done].
Qed.

Lemma simulates_lift {A E B} (r : res E B) : simulates (A:=A) (lift r) (lift r).
Proof. by intros c. Qed.

(** The senders on either kind of channel send the same and fail the same way. *)
Theorem crossbeam_senders_agree {PE} tm_writer id tm a :
  simulates (Crossbeam.send_tm_addr (PE:=PE) id tm) (MpscSender.send_tm_addr_sync id tm) /\
  simulates (Crossbeam.send_tm_vec (PE:=PE) tm_writer id tm) (MpscSender.send_tm_vec tm_writer id tm) /\
  simulates (Crossbeam.send_packet id a) (MpscSender.send_in_pool_sync id a).
Proof using try_send_view send_view.
  split_and!; try destruct tm; cbn; try (by intros c); try by apply simulates_map_err.
  apply simulates_bind; [apply simulates_lift|]. intros b. by apply simulates_map_err.
Qed.
End Bisimilar.
