(* ===== verification/Verification.v ===== *)
(** * Telecommand verification reporting ([satrs/src/pus/verification.rs])

    PUS service 1.  The type-state tokens of the source are types indexed by the
    state; [ReportCreator] builds the report telemetry in a source data buffer,
    [Reporter] sends it.  The reports of a telecommand are described by
    [Report], which the theorems compare with the telemetry. *)

From Stdlib Require Import ZArith Lia Bool.
From stdpp Require Import base list gmap.
From S2P Require Import Prelude Spacepackets Pool Params Tmtc.

Local Open Scope Z_scope.

(** ** Request IDs *)

(** The packet ID and the sequence control as their raw values. *)
Record RequestId : Type := mkRequestId {
  version_number : Z;
  packet_id : Z;
  psc : Z;
}.

#[export] Instance RequestId_eq_dec : EqDecision RequestId.
Proof. solve_decision. Defined.

Module RequestId.

Definition SIZE_AS_BYTES : Z := 4.

Definition new_from_ccsds_tc (tc : PusTc) : RequestId :=
  {| version_number := tc_version tc; packet_id := tc_packet_id tc; psc := tc_psc tc |}.

Definition new (tc : PusTc) : RequestId := new_from_ccsds_tc tc.

Definition raw (r : RequestId) : Z :=
  Z.lor (Z.lor (as_u 32 (Z.shiftl (version_number r) 29)) (as_u 32 (Z.shiftl (packet_id r) 16)))
    (psc r).

(** [buf.copy_from_slice]: the buffer has exactly four bytes. *)
Definition to_bytes {E : Type} (r : RequestId) (buf : list Z) : res E (list Z) :=
  copy_into buf 0 (len buf) (to_be_bytes 4 (raw r)).

Section FromBytes.
Context `{HeaderOps}.

(** [impl From<u32> for RequestId] *)
Definition from_u32 (value : Z) : RequestId :=
  {| version_number := as_u 8 (Z.land (Z.shiftr value 29) 7);
     packet_id := packet_id_from (as_u 16 (Z.land (Z.shiftr value 16) 65535));
     psc := psc_from (as_u 16 (Z.land value 65535)) |}.

Definition from_bytes {E : Type} (buf : list Z) : res E (option RequestId) :=
  if len buf <? 4 then Ok None else
  let? b := slice buf 0 SIZE_AS_BYTES in
  Ok (Some (from_u32 (from_be_bytes b))).

End FromBytes.
End RequestId.

(** ** Tokens *)
Inductive TcState : Type := TcStateNone | TcStateAccepted | TcStateStarted | TcStateCompleted.

Record VerificationToken (s : TcState) : Type := mkToken { request_id : RequestId }.

Arguments mkToken {s} _.
Arguments request_id {s} _.

(** [trait WasAtLeastAccepted] *)
Class WasAtLeastAccepted (s : TcState) : Prop := was_accepted : s <> TcStateNone.

#[export] Instance accepted_accepted : WasAtLeastAccepted TcStateAccepted.
Proof. done. Qed.

#[export] Instance started_accepted : WasAtLeastAccepted TcStateStarted.
Proof. done. Qed.

#[export] Instance completed_accepted : WasAtLeastAccepted TcStateCompleted.
Proof. done. Qed.

Inductive TcStateToken : Type :=
| TokNone (t : VerificationToken TcStateNone)
| TokAccepted (t : VerificationToken TcStateAccepted)
| TokStarted (t : VerificationToken TcStateStarted)
| TokCompleted (t : VerificationToken TcStateCompleted).

Module TcStateToken.

Definition request_id (t : TcStateToken) : RequestId :=
  match t with
  | TokNone t => request_id t
  | TokAccepted t => request_id t
  | TokStarted t => request_id t
  | TokCompleted t => request_id t
  end.

(** [TryFrom<TcStateToken> for VerificationToken<TcStateAccepted>] *)
Definition try_into_accepted (t : TcStateToken) : res unit (VerificationToken TcStateAccepted) :=
  match t with TokAccepted t => Ok t | _ => Err tt end.

(** [TryFrom<TcStateToken> for VerificationToken<TcStateStarted>] *)
Definition try_into_started (t : TcStateToken) : res unit (VerificationToken TcStateStarted) :=
  match t with TokStarted t => Ok t | _ => Err tt end.

End TcStateToken.

(** ** Failure parameters *)
Record FailParams : Type := mkFailParams {
  time_stamp : list Z;
  failure_code : EcssEnum;
  failure_data : list Z;
}.

Record FailParamsWithStep : Type := mkFailParamsWithStep {
  common : FailParams;
  step : EcssEnum;
}.

Definition new_no_fail_data (stamp : list Z) (code : EcssEnum) : FailParams :=
  {| time_stamp := stamp; failure_code := code; failure_data := [] |}.

(** [spacepackets::ecss::verification::Subservice] of the reports. *)
Definition TmAcceptanceSuccess : Z := 1.
Definition TmAcceptanceFailure : Z := 2.
Definition TmStartSuccess : Z := 3.
Definition TmStartFailure : Z := 4.
Definition TmStepSuccess : Z := 5.
Definition TmStepFailure : Z := 6.
Definition TmCompletionSuccess : Z := 7.
Definition TmCompletionFailure : Z := 8.

(** [source_buffer_large_enough] of [pus/mod.rs]. *)
Definition source_buffer_large_enough (cap n : Z) : res ByteConversionError unit :=
  if cap <? n then Err (ToSliceTooSmall cap n) else Ok tt.

(** ** [VerificationReportCreator] *)
Record VerificationReportCreator : Type := mkCreator { dest_id : Z; creator_apid : Z }.

Module ReportCreator.

Definition new (apid : Z) : option VerificationReportCreator :=
  if MAX_APID <? apid then None else Some {| dest_id := 0; creator_apid := apid |}.

Definition set_apid (apid : Z) (c : VerificationReportCreator) : bool * VerificationReportCreator :=
  if MAX_APID <? apid then (false, c)
  else (true, {| dest_id := dest_id c; creator_apid := apid |}).

Definition set_dest_id (id : Z) (c : VerificationReportCreator) : VerificationReportCreator :=
  {| dest_id := id; creator_apid := creator_apid c |}.

Definition add_tc_with_req_id (req_id : RequestId) : VerificationToken TcStateNone :=
  mkToken req_id.

Definition add_tc (tc : PusTc) : VerificationToken TcStateNone :=
  add_tc_with_req_id (RequestId.new tc).

(** [e.write_to_be_bytes(&mut buf[idx..idx + e.size()])]. *)
Definition write_enum (idx : Z) (e : EcssEnum) : st (list Z) ByteConversionError unit :=
  let* sub := asks (fun buf => slice buf idx (idx + enum_size e)) in
  let* r := lift (enum_write e sub) in
  fun buf =>
    match copy_into buf idx (idx + enum_size e) r.2 with
    | Ok buf' => (Ok tt, buf')
    | Err er => (Err er, buf)
    | Panic => (Panic, buf)
    end.

(** The same with [unwrap]. *)
Definition write_enum_unwrap (idx : Z) (e : EcssEnum) : st (list Z) ByteConversionError unit :=
  fun buf => let '(r, buf') := write_enum idx e buf in (expect r, buf').

(** [buf[a..b].copy_from_slice(d)] and [req_id.to_bytes(&mut buf[0..4])]. *)
Definition write_slice (a b : Z) (d : list Z) : st (list Z) ByteConversionError unit :=
  fun buf =>
    match copy_into (E:=ByteConversionError) buf a b d with
    | Ok buf' => (Ok tt, buf')
    | Err er => (Err er, buf)
    | Panic => (Panic, buf)
    end.

Definition write_req_id (req_id : RequestId) : st (list Z) ByteConversionError unit :=
  let* sub := asks (fun buf => slice buf 0 RequestId.SIZE_AS_BYTES) in
  let* b := lift (RequestId.to_bytes req_id sub) in
  write_slice 0 RequestId.SIZE_AS_BYTES b.

Section Creator.
Context (c : VerificationReportCreator).

Definition create_pus_verif_tm_base (subservice msg_counter apid seq_count : Z)
    (stamp : list Z) (source_data_len : Z) : st (list Z) ByteConversionError PusTm :=
  let* data := asks (fun buf => slice buf 0 source_data_len) in
  ret {| tm_apid := apid; tm_seq_count := seq_count; tm_service := 1;
         tm_subservice := subservice; tm_msg_counter := msg_counter;
         tm_dest_id := dest_id c; tm_time_stamp := stamp; tm_source_data := data |}.

Definition create_pus_verif_success_tm (subservice seq_count msg_counter : Z)
    (req_id : RequestId) (stamp : list Z) (step : option EcssEnum)
    : st (list Z) ByteConversionError PusTm :=
  let source_data_len := 4 + match step with Some s => enum_size s | None => 0 end in
  let* _ := asks (fun buf => source_buffer_large_enough (len buf) source_data_len) in
  let* _ := write_req_id req_id in
  let idx := RequestId.SIZE_AS_BYTES in
  let* _ := match step with Some s => write_enum_unwrap idx s | None => ret tt end in
  create_pus_verif_tm_base subservice msg_counter (creator_apid c) seq_count stamp source_data_len.

Definition create_pus_verif_fail_tm (subservice seq_count msg_counter : Z)
    (req_id : RequestId) (step : option EcssEnum) (params : FailParams)
    : st (list Z) ByteConversionError PusTm :=
  let code := failure_code params in
  let source_data_len :=
    RequestId.SIZE_AS_BYTES + enum_size code
    + match step with Some s => enum_size s | None => 0 end + len (failure_data params) in
  let* _ := asks (fun buf => source_buffer_large_enough (len buf) source_data_len) in
  let* _ := write_req_id req_id in
  let idx := RequestId.SIZE_AS_BYTES in
  let* _ := match step with Some s => write_enum_unwrap idx s | None => ret tt end in
  let idx := idx + match step with Some s => enum_size s | None => 0 end in
  let* _ := write_enum idx code in
  let idx := idx + enum_size code in
  let* _ := write_slice idx (idx + len (failure_data params)) (failure_data params) in
  create_pus_verif_tm_base subservice msg_counter (creator_apid c) seq_count
    (time_stamp params) source_data_len.

Definition success_verification_no_step {s : TcState} (subservice : Z)
    (token : VerificationToken s) (seq_count msg_count : Z) (stamp : list Z) :=
  create_pus_verif_success_tm subservice seq_count msg_count (request_id token) stamp None.

Definition failure_verification_no_step {s : TcState} (subservice : Z)
    (token : VerificationToken s) (seq_count msg_count : Z) (step : option EcssEnum)
    (params : FailParams) :=
  create_pus_verif_fail_tm subservice seq_count msg_count (request_id token) step params.

Definition acceptance_success (token : VerificationToken TcStateNone) (seq_count msg_count : Z)
    (stamp : list Z)
    : st (list Z) ByteConversionError (PusTm * VerificationToken TcStateAccepted) :=
  let* tm := success_verification_no_step TmAcceptanceSuccess token seq_count msg_count stamp in
  ret (tm, mkToken (request_id token)).

Definition acceptance_failure (token : VerificationToken TcStateNone) (seq_count msg_count : Z)
    (params : FailParams) :=
  failure_verification_no_step TmAcceptanceFailure token seq_count msg_count None params.

Definition start_success (token : VerificationToken TcStateAccepted) (seq_count msg_count : Z)
    (stamp : list Z)
    : st (list Z) ByteConversionError (PusTm * VerificationToken TcStateStarted) :=
  let* tm := success_verification_no_step TmStartSuccess token seq_count msg_count stamp in
  ret (tm, mkToken (request_id token)).

Definition start_failure (token : VerificationToken TcStateAccepted) (seq_count msg_count : Z)
    (params : FailParams) :=
  failure_verification_no_step TmStartFailure token seq_count msg_count None params.

Definition step_success (token : VerificationToken TcStateStarted) (seq_count msg_count : Z)
    (stamp : list Z) (step : EcssEnum) :=
  create_pus_verif_success_tm TmStepSuccess seq_count msg_count (request_id token) stamp (Some step).

Definition step_failure (token : VerificationToken TcStateStarted) (seq_count msg_count : Z)
    (params : FailParamsWithStep) :=
  create_pus_verif_fail_tm TmStepFailure seq_count msg_count (request_id token)
    (Some (step params)) (common params).

Definition completion_success {s : TcState} `{WasAtLeastAccepted s} (token : VerificationToken s)
    (seq_counter msg_counter : Z) (stamp : list Z) :=
  success_verification_no_step TmCompletionSuccess token seq_counter msg_counter stamp.

Definition completion_failure {s : TcState} `{WasAtLeastAccepted s} (token : VerificationToken s)
    (seq_count msg_count : Z) (params : FailParams) :=
  failure_verification_no_step TmCompletionFailure token seq_count msg_count None params.

End Creator.
End ReportCreator.

(** ** The [VerificationReportingProvider] trait

    [V] is the reporter, [Q] the telemetry sender it is handed. *)
Class VerificationReportingProvider (PE V Q : Type) `{EcssTmSender PE Q} : Type := {
  vr_owner_id : V -> Z;
  vr_set_apid : Z -> V -> V;
  vr_apid : V -> Z;
  vr_add_tc_with_req_id : RequestId -> V -> VerificationToken TcStateNone * V;
  vr_acceptance_success : VerificationToken TcStateNone -> list Z ->
    st (V * Q) (EcssTmtcError PE) (VerificationToken TcStateAccepted);
  vr_acceptance_failure : VerificationToken TcStateNone -> FailParams ->
    st (V * Q) (EcssTmtcError PE) unit;
  vr_start_success : VerificationToken TcStateAccepted -> list Z ->
    st (V * Q) (EcssTmtcError PE) (VerificationToken TcStateStarted);
  vr_start_failure : VerificationToken TcStateAccepted -> FailParams ->
    st (V * Q) (EcssTmtcError PE) unit;
  vr_step_success : VerificationToken TcStateStarted -> list Z -> EcssEnum ->
    st (V * Q) (EcssTmtcError PE) unit;
  vr_step_failure : VerificationToken TcStateStarted -> FailParamsWithStep ->
    st (V * Q) (EcssTmtcError PE) unit;
  vr_completion_success : forall s, WasAtLeastAccepted s -> VerificationToken s -> list Z ->
    st (V * Q) (EcssTmtcError PE) unit;
  vr_completion_failure : forall s, WasAtLeastAccepted s -> VerificationToken s -> FailParams ->
    st (V * Q) (EcssTmtcError PE) unit;
}.

(** Provided method [add_tc]. *)
Definition vr_add_tc {PE V Q : Type} `{VerificationReportingProvider PE V Q} (tc : PusTc) (v : V)
    : VerificationToken TcStateNone * V :=
  vr_add_tc_with_req_id (RequestId.new tc) v.

(** ** [VerificationReporter] *)
Record VerificationReporterCfg : Type := mkReporterCfg {
  cfg_apid : Z;
  step_field_width : Z;
  fail_code_field_width : Z;
  max_fail_data_len : Z;
}.

Definition reporter_cfg_new (apid step_width code_width data_len : Z)
    : option VerificationReporterCfg :=
  if MAX_APID <? apid then None else
  Some {| cfg_apid := apid; step_field_width := step_width;
          fail_code_field_width := code_width; max_fail_data_len := data_len |}.

(** [tm_hook] is the [modify_tm] of the hook; the [DummyVerificationHook] does
    nothing. *)
Record VerificationReporter : Type := mkReporter {
  owner_id : Z;
  source_data_buf : list Z;
  reporter_creator : VerificationReportCreator;
  tm_hook : PusTm -> PusTm;
}.

Module Reporter.

Definition new_with_hook {E : Type} (owner : Z) (cfg : VerificationReporterCfg)
    (hook : PusTm -> PusTm) : res E VerificationReporter :=
  let? creator := unwrap (ReportCreator.new (cfg_apid cfg)) in
  Ok {| owner_id := owner;
        source_data_buf :=
          replicate (Z.to_nat (RequestId.SIZE_AS_BYTES + step_field_width cfg
                               + fail_code_field_width cfg + max_fail_data_len cfg)) 0;
        reporter_creator := creator;
        tm_hook := hook |}.

Definition new {E : Type} (owner : Z) (cfg : VerificationReporterCfg)
    : res E VerificationReporter :=
  new_with_hook owner cfg (fun tm => tm).

Definition set_apid (apid : Z) (v : VerificationReporter) : VerificationReporter :=
  {| owner_id := owner_id v; source_data_buf := source_data_buf v;
     reporter_creator := (ReportCreator.set_apid apid (reporter_creator v)).2;
     tm_hook := tm_hook v |}.

Definition set_buf (buf : list Z) (v : VerificationReporter) : VerificationReporter :=
  {| owner_id := owner_id v; source_data_buf := buf;
     reporter_creator := reporter_creator v; tm_hook := tm_hook v |}.

Section Reporter.
Context {PE Q : Type} `{PusErrorOps PE} `{EcssTmSender PE Q}.

(** The body the reporting methods share: the report is created in the source
    data buffer, passed through the hook and sent. *)
Definition report {A : Type}
    (create : VerificationReportCreator -> st (list Z) ByteConversionError (PusTm * A))
    : st (VerificationReporter * Q) (EcssTmtcError PE) A :=
  fun x =>
    let '(v, q) := x in
    match create (reporter_creator v) (source_data_buf v) with
    | (Ok (tm, a), buf) =>
        let v' := set_buf buf v in
        match send_tm (owner_id v) (Direct (tm_hook v tm)) q with
        | (Ok _, q') => (Ok a, (v', q'))
        | (Err e, q') => (Err e, (v', q'))
        | (Panic, q') => (Panic, (v', q'))
        end
    | (Err e, buf) => (Err (TmtcPus (pus_byte_conversion e)), (set_buf buf v, q))
    | (Panic, buf) => (Panic, (set_buf buf v, q))
    end.

(** A creator method that returns the telemetry alone. *)
Definition no_token (m : st (list Z) ByteConversionError PusTm)
    : st (list Z) ByteConversionError (PusTm * unit) :=
  let* tm := m in ret (tm, tt).

Definition acceptance_success (token : VerificationToken TcStateNone) (stamp : list Z) :=
  report (fun c => ReportCreator.acceptance_success c token 0 0 stamp).

Definition acceptance_failure (token : VerificationToken TcStateNone) (params : FailParams) :=
  report (fun c => no_token (ReportCreator.acceptance_failure c token 0 0 params)).

Definition start_success (token : VerificationToken TcStateAccepted) (stamp : list Z) :=
  report (fun c => ReportCreator.start_success c token 0 0 stamp).

Definition start_failure (token : VerificationToken TcStateAccepted) (params : FailParams) :=
  report (fun c => no_token (ReportCreator.start_failure c token 0 0 params)).

Definition step_success (token : VerificationToken TcStateStarted) (stamp : list Z)
    (step : EcssEnum) :=
  report (fun c => no_token (ReportCreator.step_success c token 0 0 stamp step)).

Definition step_failure (token : VerificationToken TcStateStarted) (params : FailParamsWithStep) :=
  report (fun c => no_token (ReportCreator.step_failure c token 0 0 params)).

Definition completion_success (s : TcState) (H : WasAtLeastAccepted s) (token : VerificationToken s)
    (stamp : list Z) :=
  report (fun c => no_token (ReportCreator.completion_success c token 0 0 stamp)).

Definition completion_failure (s : TcState) (H : WasAtLeastAccepted s) (token : VerificationToken s)
    (params : FailParams) :=
  report (fun c => no_token (ReportCreator.completion_failure c token 0 0 params)).

End Reporter.
End Reporter.

#[export] Instance Reporter_provider {PE Q : Type} `{PusErrorOps PE} `{EcssTmSender PE Q}
    : VerificationReportingProvider PE VerificationReporter Q := {|
  vr_owner_id := owner_id;
  vr_set_apid := Reporter.set_apid;
  vr_apid := fun v => creator_apid (reporter_creator v);
  vr_add_tc_with_req_id := fun r v => (ReportCreator.add_tc_with_req_id r, v);
  vr_acceptance_success := Reporter.acceptance_success;
  vr_acceptance_failure := Reporter.acceptance_failure;
  vr_start_success := Reporter.start_success;
  vr_start_failure := Reporter.start_failure;
  vr_step_success := Reporter.step_success;
  vr_step_failure := Reporter.step_failure;
  vr_completion_success := Reporter.completion_success;
  vr_completion_failure := Reporter.completion_failure;
|}.

(** ** [TestVerificationReporter] ([test_util])

    It queues what it is asked to report. *)
Record SuccessData : Type := mkSuccess { s_sender : Z; s_time_stamp : list Z }.

Record FailureData : Type := mkFailure {
  f_sender : Z; error_enum : Z; fail_data : list Z; f_time_stamp : list Z }.

Inductive VerificationReportInfo : Type :=
| Added
| AcceptanceSuccess (d : SuccessData)
| AcceptanceFailure (d : FailureData)
| StartedSuccess (d : SuccessData)
| StartedFailure (d : FailureData)
| StepSuccess (d : SuccessData) (step : Z)
| StepFailure (d : FailureData)
| CompletionSuccess (d : SuccessData)
| CompletionFailure (d : FailureData).

Record TestVerificationReporter : Type := mkTestReporter {
  test_id : Z;
  report_queue : list (RequestId * VerificationReportInfo);
}.

Module TestReporter.

Definition new (id : Z) : TestVerificationReporter := mkTestReporter id [].

Definition push (r : RequestId) (i : VerificationReportInfo) (v : TestVerificationReporter)
    : TestVerificationReporter :=
  {| test_id := test_id v; report_queue := report_queue v ++ [(r, i)] |}.

Definition failure_of (v : TestVerificationReporter) (p : FailParams) : FailureData :=
  mkFailure (test_id v) (enum_value (failure_code p)) (failure_data p) (time_stamp p).

Section TestReporter.
Context {PE Q : Type}.

Definition log {A : Type} (r : RequestId) (i : TestVerificationReporter -> VerificationReportInfo)
    (a : A) : st (TestVerificationReporter * Q) (EcssTmtcError PE) A :=
  fun x => (Ok a, (push r (i x.1) x.1, x.2)).

Definition add_tc_with_req_id (r : RequestId) (v : TestVerificationReporter)
    : VerificationToken TcStateNone * TestVerificationReporter :=
  (mkToken r, push r Added v).

Definition acceptance_success (token : VerificationToken TcStateNone) (stamp : list Z)
    : st (TestVerificationReporter * Q) (EcssTmtcError PE) (VerificationToken TcStateAccepted) :=
  log (request_id token) (fun v => AcceptanceSuccess (mkSuccess (test_id v) stamp))
    (mkToken (request_id token)).

Definition acceptance_failure (token : VerificationToken TcStateNone) (p : FailParams) :=
  log (request_id token) (fun v => AcceptanceFailure (failure_of v p)) tt.

Definition start_success (token : VerificationToken TcStateAccepted) (stamp : list Z)
    : st (TestVerificationReporter * Q) (EcssTmtcError PE) (VerificationToken TcStateStarted) :=
  log (request_id token) (fun v => StartedSuccess (mkSuccess (test_id v) stamp))
    (mkToken (request_id token)).

Definition start_failure (token : VerificationToken TcStateAccepted) (p : FailParams) :=
  log (request_id token) (fun v => StartedFailure (failure_of v p)) tt.

Definition step_success (token : VerificationToken TcStateStarted) (stamp : list Z)
    (step : EcssEnum) :=
  log (request_id token)
    (fun v => StepSuccess (mkSuccess (test_id v) stamp) (as_u 16 (enum_value step))) tt.

Definition step_failure (token : VerificationToken TcStateStarted) (p : FailParamsWithStep) :=
  log (request_id token) (fun v => StepFailure (failure_of v (common p))) tt.

Definition completion_success (s : TcState) (H : WasAtLeastAccepted s) (token : VerificationToken s)
    (stamp : list Z) :=
  log (request_id token) (fun v => CompletionSuccess (mkSuccess (test_id v) stamp)) tt.

Definition completion_failure (s : TcState) (H : WasAtLeastAccepted s) (token : VerificationToken s)
    (p : FailParams) :=
  log (request_id token) (fun v => CompletionFailure (failure_of v p)) tt.

End TestReporter.
End TestReporter.

#[export] Instance TestReporter_provider {PE Q : Type} `{EcssTmSender PE Q}
    : VerificationReportingProvider PE TestVerificationReporter Q := {|
  vr_owner_id := test_id;
  vr_set_apid := fun _ v => v;
  vr_apid := fun _ => 0;
  vr_add_tc_with_req_id := TestReporter.add_tc_with_req_id;
  vr_acceptance_success := TestReporter.acceptance_success;
  vr_acceptance_failure := TestReporter.acceptance_failure;
  vr_start_success := TestReporter.start_success;
  vr_start_failure := TestReporter.start_failure;
  vr_step_success := TestReporter.step_success;
  vr_step_failure := TestReporter.step_failure;
  vr_completion_success := TestReporter.completion_success;
  vr_completion_failure := TestReporter.completion_failure;
|}.

(** ** Failures with generic parameters *)
Record FailParamHelper : Type := mkFailParamHelper {
  timestamp : list Z;
  error_code : EcssEnum;
  small_data_buf : list Z;
  params : option Params;
}.

Section GenericParams.
Context {PE V Q : Type} `{VerificationReportingProvider PE V Q}.

(** The error data and whether the parameters are propagated.  The slice of the
    small buffer panics when the parameter is longer than the buffer. *)
Definition failure_bytes (helper : FailParamHelper) : res (EcssTmtcError PE) (list Z * bool) :=
  match params helper with
  | None => Ok ([], true)
  | Some (Heapless p) =>
      let n := ParamsHeapless.written_len p in
      let? sub := slice (small_data_buf helper) 0 n in
      let? r := map_err TmtcByteConversion (ParamsHeapless.write_to_be_bytes p sub) in
      let? buf := copy_into (small_data_buf helper) 0 n r.2 in
      let? d := slice buf 0 n in
      Ok (d, true)
  | Some (Vec v) => Ok (v, true)
  | Some (PString s) => Ok (s, true)
  | Some (Store _) => Ok ([], false)
  end.

Definition handle_completion_failure_with_generic_params {s : TcState} `{WA : WasAtLeastAccepted s}
    (verif_token : VerificationToken s) (helper : FailParamHelper)
    : st (V * Q) (EcssTmtcError PE) bool :=
  let* d := lift (failure_bytes helper) in
  let* _ := vr_completion_failure s WA verif_token
              (mkFailParams (timestamp helper) (error_code helper) d.1) in
  ret d.2.

Definition handle_step_failure_with_generic_params (verif_token : VerificationToken TcStateStarted)
    (helper : FailParamHelper) (step : EcssEnum) : st (V * Q) (EcssTmtcError PE) bool :=
  let* d := lift (failure_bytes helper) in
  let* _ := vr_step_failure verif_token
              (mkFailParamsWithStep (mkFailParams (timestamp helper) (error_code helper) d.1) step) in
  ret d.2.

End GenericParams.

(** ** Request IDs as numbers *)

(** The field widths of a CCSDS header. *)
Definition req_id_ok (r : RequestId) : Prop :=
  0 <= version_number r < 2 ^ 3 /\ 0 <= packet_id r < 2 ^ 13 /\ in_u 16 (psc r).

Lemma raw_fields r :
  req_id_ok r -> RequestId.raw r = (version_number r * 2 ^ 13 + packet_id r) * 2 ^ 16 + psc r.
Proof.
  intros (Hv & Hp & Hs). unfold RequestId.raw, as_u, in_u in *.
  rewrite !Z.mod_small by (rewrite Z.shiftl_mul_pow2; lia).
  change 29 with (13 + 16). rewrite <- Z.shiftl_shiftl by lia.
  rewrite <- Z.shiftl_lor, (lor_shiftl_add (version_number r) (packet_id r) 13) by lia.
  by rewrite lor_shiftl_add by lia.
Qed.

Lemma raw_u32 r : req_id_ok r -> in_u 32 (RequestId.raw r).
Proof.
  intros Hr. rewrite raw_fields by done. destruct Hr as (Hv & Hp & Hs). unfold in_u in *. lia.
Qed.

Lemma from_u32_raw `{HeaderLaws} r :
  req_id_ok r -> RequestId.from_u32 (RequestId.raw r) = r.
Proof.
  intros Hr. unfold RequestId.from_u32. rewrite raw_fields by done.
  destruct Hr as (Hv & Hp & Hs). set (h := version_number r * 2 ^ 13 + packet_id r).
  assert (0 <= h < 2 ^ 16) as Hh by (unfold h; lia). unfold in_u in Hs.
  destruct (div_mod_fields h (psc r) 16) as [Hd Hm]; [lia|lia|].
  change 65535 with (2 ^ 16 - 1). change 7 with (2 ^ 3 - 1). unfold as_u.
  rewrite !land_ones_mod, !Z.shiftr_div_pow2, Hm by lia. rewrite Hd.
  rewrite (Z.mod_small h (2 ^ 16)), (Z.mod_small h (2 ^ 16)) by lia.
  rewrite (Z.mod_small (psc r)) by lia. rewrite psc_from_u16 by done.
  rewrite packet_id_from_low. change (2 ^ 29) with (2 ^ 16 * 2 ^ 13).
  rewrite <- Z.div_div, Hd by lia.
  destruct (div_mod_fields (version_number r) (packet_id r) 13) as [Hd2 Hm2]; [lia|lia|].
  fold h in Hd2, Hm2. rewrite Hd2, Hm2.
  rewrite (Z.mod_small (version_number r) (2 ^ 3)), (Z.mod_small _ (2 ^ 8)) by lia.
  by destruct r.
Qed.

(** ** The source data of a report *)
Definition opt_bytes (e : option EcssEnum) : list Z :=
  match e with Some e => enum_bytes e | None => [] end.

Definition opt_ok (e : option EcssEnum) : Prop :=
  match e with Some e => enum_ok e | None => True end.

Definition success_data (r : RequestId) (step : option EcssEnum) : list Z :=
  to_be_bytes 4 (RequestId.raw r) ++ opt_bytes step.

Definition fail_data_of (r : RequestId) (step : option EcssEnum) (p : FailParams) : list Z :=
  to_be_bytes 4 (RequestId.raw r) ++ opt_bytes step ++ enum_bytes (failure_code p) ++ failure_data p.

Definition report_tm (c : VerificationReportCreator) (subservice seq_count msg_count : Z)
    (stamp data : list Z) : PusTm :=
  {| tm_apid := creator_apid c; tm_seq_count := seq_count; tm_service := 1;
     tm_subservice := subservice; tm_msg_counter := msg_count; tm_dest_id := dest_id c;
     tm_time_stamp := stamp; tm_source_data := data |}.

Section Writing.
Context (buf pre : list Z).

Lemma write_slice_prefix a b d :
  a = len pre -> b = a + len d -> b <= len buf ->
  ReportCreator.write_slice a b d (pre ++ drop (length pre) buf) =
    (Ok tt, (pre ++ d) ++ drop (length (pre ++ d)) buf).
Proof. intros Ha Hb Hl. unfold ReportCreator.write_slice. by rewrite copy_into_prefix. Qed.

Lemma write_enum_prefix a e :
  enum_ok e -> a = len pre -> a + enum_size e <= len buf ->
  ReportCreator.write_enum a e (pre ++ drop (length pre) buf) =
    (Ok tt, (pre ++ enum_bytes e) ++ drop (length (pre ++ enum_bytes e)) buf).
Proof.
  intros [Hs Hw] Ha Hl. unfold ReportCreator.write_enum, st_bind, asks, lift.
  destruct (slice_prefix_len (E:=ByteConversionError) buf pre a (a + enum_size e))
    as (d & -> & Hd); [done|lia|done|].
  rewrite Hw by lia. simpl.
  rewrite (drop_ge d) by (unfold len in Hd; lia). rewrite app_nil_r.
  rewrite copy_into_prefix; [done|done|by rewrite len_enum_bytes|done].
Qed.

Lemma base_prefix c ss msg apid seq stamp n :
  n = len pre -> n <= len buf ->
  ReportCreator.create_pus_verif_tm_base c ss msg apid seq stamp n
    (pre ++ drop (length pre) buf) =
    (Ok {| tm_apid := apid; tm_seq_count := seq; tm_service := 1; tm_subservice := ss;
           tm_msg_counter := msg; tm_dest_id := dest_id c; tm_time_stamp := stamp;
           tm_source_data := pre |}, pre ++ drop (length pre) buf).
Proof.
  intros -> Hl. unfold ReportCreator.create_pus_verif_tm_base, st_bind, asks.
  by rewrite (slice_at [] pre (drop (length pre) buf)).
Qed.

End Writing.

Lemma write_req_id_front r buf :
  4 <= len buf ->
  ReportCreator.write_req_id r buf =
    (Ok tt, to_be_bytes 4 (RequestId.raw r) ++ drop (length (to_be_bytes 4 (RequestId.raw r))) buf).
Proof.
  intros Hl. unfold ReportCreator.write_req_id, st_bind, asks, lift, RequestId.to_bytes.
  destruct (slice_prefix_len (E:=ByteConversionError) buf [] 0 4) as (d & Hd & Hn); [done|lia|done|].
  change ([] ++ drop (length []) buf) with buf in Hd. unfold RequestId.SIZE_AS_BYTES. rewrite Hd.
  rewrite copy_into_ok by (rewrite ?Hn; unfold len; simpl; lia).
  assert (splice d 0 (to_be_bytes 4 (RequestId.raw r)) = to_be_bytes 4 (RequestId.raw r)) as ->.
  { apply splice_full. unfold len in Hn. simpl. lia. }
  by apply (write_slice_prefix buf [] 0 4).
Qed.

(** A success report, and the refusal of a buffer that is too small. *)
Lemma create_success_spec c ss seq msg r stamp step buf :
  opt_ok step ->
  ReportCreator.create_pus_verif_success_tm c ss seq msg r stamp step buf =
    let data := success_data r step in
    if len buf <? len data then (Err (ToSliceTooSmall (len buf) (len data)), buf)
    else (Ok (report_tm c ss seq msg stamp data), data ++ drop (length data) buf).
Proof.
  intros Hok. cbv zeta. unfold ReportCreator.create_pus_verif_success_tm.
  assert (4 + match step with Some s => enum_size s | None => 0 end = len (success_data r step)) as ->.
  { unfold success_data. rewrite len_app. destruct step as [e|]; simpl in *.
    - by rewrite len_enum_bytes by apply Hok.
    - done. }
  unfold st_bind at 1, asks, source_buffer_large_enough.
  destruct (Z.ltb_spec (len buf) (len (success_data r step))) as [|Hl]; [done|].
  assert (len (success_data r step) = 4 + len (opt_bytes step)) as Hlen
    by (unfold success_data; by rewrite len_app).
  pose proof (len_nonneg (opt_bytes step)).
  unfold st_bind at 1. rewrite write_req_id_front by lia. unfold st_bind at 1.
  destruct step as [e|]; simpl in Hok.
  - unfold ReportCreator.write_enum_unwrap. pose proof (len_enum_bytes e (proj1 Hok)) as He.
    simpl in Hlen. rewrite write_enum_prefix by (done || (unfold RequestId.SIZE_AS_BYTES; lia)).
    cbn [expect]. by apply base_prefix.
  - unfold ret. unfold success_data, opt_bytes in *. rewrite app_nil_r in *. by apply base_prefix.
Qed.

Lemma create_fail_spec c ss seq msg r step p buf :
  opt_ok step -> enum_ok (failure_code p) ->
  ReportCreator.create_pus_verif_fail_tm c ss seq msg r step p buf =
    let data := fail_data_of r step p in
    if len buf <? len data then (Err (ToSliceTooSmall (len buf) (len data)), buf)
    else (Ok (report_tm c ss seq msg (time_stamp p) data), data ++ drop (length data) buf).
Proof.
  intros Hok Hc. cbv zeta. unfold ReportCreator.create_pus_verif_fail_tm.
  pose proof (len_enum_bytes _ (proj1 Hc)) as Hcl.
  assert (match step with Some s => enum_size s | None => 0 end = len (opt_bytes step)) as Hstep.
  { destruct step as [e|]; simpl in *; [by rewrite len_enum_bytes by apply Hok|done]. }
  rewrite Hstep. unfold RequestId.SIZE_AS_BYTES.
  assert (len (fail_data_of r step p) =
    4 + enum_size (failure_code p) + len (opt_bytes step) + len (failure_data p)) as Hlen.
  { unfold fail_data_of. rewrite !len_app, Hcl. change (len (to_be_bytes 4 _)) with 4. lia. }
  rewrite <- Hlen. unfold st_bind at 1, asks, source_buffer_large_enough.
  destruct (Z.ltb_spec (len buf) (len (fail_data_of r step p))) as [|Hl]; [done|].
  set (id := to_be_bytes 4 (RequestId.raw r)). assert (len id = 4) as Hid by done.
  pose proof (len_nonneg (opt_bytes step)). pose proof (len_nonneg (failure_data p)).
  pose proof (proj1 Hc).
  unfold st_bind at 1. rewrite write_req_id_front by lia. fold id. unfold st_bind at 1.
  assert ((match step with
    | Some s => ReportCreator.write_enum_unwrap 4 s | None => ret tt end)
    (id ++ drop (length id) buf) =
    (Ok tt, (id ++ opt_bytes step) ++ drop (length (id ++ opt_bytes step)) buf)) as ->.
  { destruct step as [e|]; cbn [opt_ok opt_bytes] in *.
    - unfold ReportCreator.write_enum_unwrap. rewrite write_enum_prefix by (done || lia). done.
    - by rewrite app_nil_r. }
  unfold st_bind at 1. rewrite write_enum_prefix by (try done; rewrite ?len_app; lia).
  unfold st_bind at 1. rewrite write_slice_prefix by (rewrite ?len_app; lia).
  assert (((id ++ opt_bytes step) ++ enum_bytes (failure_code p)) ++ failure_data p =
    fail_data_of r step p) as -> by (unfold fail_data_of; by rewrite <- !app_assoc).
  by apply base_prefix.
Qed.

(** ** The reporter *)

(** A sender that records what it is given. *)
#[export] Instance recording_sender {PE} : EcssTmSender PE (list (Z * PusTmVariant)) :=
  fun id tm q => (Ok tt, q ++ [(id, tm)]).

Section Flow.
Context {PE : Type} `{PusErrorOps PE}.

(** The telemetry a reporter sends. *)
Definition sent (v : VerificationReporter) (ss : Z) (stamp data : list Z) : Z * PusTmVariant :=
  (owner_id v, Direct (tm_hook v (report_tm (reporter_creator v) ss 0 0 stamp data))).

(** Two reporters that differ at most in the contents of their buffers. *)
Definition same_reporter (v v' : VerificationReporter) : Prop :=
  owner_id v' = owner_id v /\ reporter_creator v' = reporter_creator v /\
  tm_hook v' = tm_hook v /\ len (source_data_buf v') = len (source_data_buf v).

Lemma report_success {A} (a : A) create v q r ss stamp step :
  opt_ok step -> len (success_data r step) <= len (source_data_buf v) ->
  (forall c buf, create c buf =
     match ReportCreator.create_pus_verif_success_tm c ss 0 0 r stamp step buf with
     | (Ok tm, buf') => (Ok (tm, a), buf')
     | (Err e, buf') => (Err e, buf')
     | (Panic, buf') => (Panic, buf')
     end) ->
  exists v', Reporter.report (PE:=PE) create (v, q) =
      (Ok a, (v', q ++ [sent v ss stamp (success_data r step)])) /\ same_reporter v v'.
Proof.
  intros Hok Hl Hc. unfold Reporter.report. rewrite Hc, create_success_spec by done. cbv zeta.
  destruct (Z.ltb_spec (len (source_data_buf v)) (len (success_data r step))); [lia|].
  eexists. split; [reflexivity|]. repeat split; try done.
  cbn [source_data_buf Reporter.set_buf].
  rewrite len_app. unfold len in *. rewrite length_drop. lia.
Qed.

(** The whole life of a telecommand that succeeds. *)
Fixpoint report_steps (token : VerificationToken TcStateStarted) (stamp : list Z)
    (steps : list EcssEnum) : st (VerificationReporter * list (Z * PusTmVariant)) (EcssTmtcError PE) unit :=
  match steps with
  | [] => ret tt
  | s :: steps' =>
      let* _ := vr_step_success token stamp s in
      report_steps token stamp steps'
  end.

Definition report_life (r : RequestId) (stamp : list Z) (steps : list EcssEnum)
    : st (VerificationReporter * list (Z * PusTmVariant)) (EcssTmtcError PE) unit :=
  let* token := fun x => (Ok (vr_add_tc_with_req_id r x.1).1, ((vr_add_tc_with_req_id r x.1).2, x.2)) in
  let* accepted := vr_acceptance_success token stamp in
  let* started := vr_start_success accepted stamp in
  let* _ := report_steps started stamp steps in
  vr_completion_success _ _ started stamp.

Lemma report_steps_spec v q r stamp steps :
  Forall enum_ok steps ->
  Forall (fun s => 4 + enum_size s <= len (source_data_buf v)) steps ->
  exists v', report_steps (mkToken r) stamp steps (v, q) =
      (Ok tt, (v', q ++ ((fun s => sent v TmStepSuccess stamp (success_data r (Some s))) <$> steps))) /\
    same_reporter v v'.
Proof.
  intros Hok Hl. revert v q Hl. induction Hok as [|s steps Hs Hok IH]; intros v q Hl; simpl.
  - exists v. rewrite app_nil_r. by repeat split.
  - apply Forall_cons in Hl as [Hl1 Hl].
    destruct (report_success tt
      (fun c => Reporter.no_token (ReportCreator.step_success c (mkToken r) 0 0 stamp s))
      v q r TmStepSuccess stamp (Some s)) as (v1 & Hr1 & Hsame1); [done| | |].
    { unfold success_data. rewrite len_app. simpl. rewrite len_enum_bytes by apply Hs.
      change (len [_; _; _; _]) with 4. lia. }
    { done. }
    unfold Reporter.step_success, st_bind. rewrite Hr1.
    pose proof Hsame1 as (Ho & Hc & Hh & Hb).
    destruct (IH v1 (q ++ [sent v TmStepSuccess stamp (success_data r (Some s))]))
      as (v2 & Hr2 & Hsame2).
    { by rewrite Hb. }
    exists v2. rewrite Hr2. split.
    + unfold sent. rewrite Ho, Hc, Hh, <- app_assoc. done.
    + destruct Hsame2 as (? & ? & ? & ?). repeat split; congruence.
Qed.

End Flow.

(** * Properties *)

(** A request ID with field values in range survives [to_bytes] followed by
    [from_bytes], whatever follows in the buffer, and its [u32] value survives
    the conversion from [u32]. *)
Theorem request_id_roundtrip {E} `{HeaderLaws} r rest :
  req_id_ok r ->
  RequestId.from_u32 (RequestId.raw r) = r /\
  (let? b := RequestId.to_bytes (E:=E) r (replicate 4 0) in RequestId.from_bytes (b ++ rest)) =
    Ok (Some r).
Proof.
  intros Hr. split; [by apply from_u32_raw|].
  unfold RequestId.to_bytes. change (len (replicate 4 0)) with 4.
  rewrite copy_into_ok by done. cbn [res_bind].
  rewrite splice_full by done. unfold RequestId.from_bytes. rewrite len_app.
  change (len (to_be_bytes 4 (RequestId.raw r))) with 4. pose proof (len_nonneg rest).
  destruct (Z.ltb_spec (4 + len rest) 4); [lia|].
  rewrite (slice_at [] (to_be_bytes 4 (RequestId.raw r)) rest) by done. cbn [res_bind].
  rewrite from_to_be_bytes_small by (by apply raw_u32). by rewrite from_u32_raw.
Qed.

Lemma request_id_roundtrip_witness :
  RequestId.from_u32 (RequestId.raw (mkRequestId 0 6145 49153)) = mkRequestId 0 6145 49153 /\
  (let? b := RequestId.to_bytes (E:=unit) (mkRequestId 0 6145 49153) (replicate 4 0) in
   RequestId.from_bytes (b ++ [9])) = Ok (Some (mkRequestId 0 6145 49153)).
Proof. apply request_id_roundtrip. unfold req_id_ok, in_u. simpl. lia. Defined.

(** The success reports.  Each method creates telemetry of service 1 with
    its subservice (1 acceptance, 3 start, 5 step, 7 completion), whose source
    data is the request ID followed by the step number if there is one; the next
    token carries the same request ID.  When the source data buffer is too small
    the method fails with the required size and the buffer is unchanged. *)
Theorem success_reports_correct c r stamp seq msg step buf :
  enum_ok step ->
  let ok ss data :=
    if len buf <? len data then (Err (ToSliceTooSmall (len buf) (len data)), buf)
    else (Ok (report_tm c ss seq msg stamp data), data ++ drop (length data) buf) in
  let with_token {s} (x : res ByteConversionError PusTm * list Z) :=
    (res_map (fun tm => (tm, mkToken (s:=s) r)) x.1, x.2) in
  ReportCreator.acceptance_success c (mkToken r) seq msg stamp buf =
    with_token (ok 1 (success_data r None)) /\
  ReportCreator.start_success c (mkToken r) seq msg stamp buf =
    with_token (ok 3 (success_data r None)) /\
  ReportCreator.step_success c (mkToken r) seq msg stamp step buf =
    ok 5 (success_data r (Some step)) /\
  ReportCreator.completion_success c (mkToken (s:=TcStateStarted) r) seq msg stamp buf =
    ok 7 (success_data r None).
Proof.
  intros Hs. cbv zeta.
  unfold ReportCreator.acceptance_success, ReportCreator.start_success,
    ReportCreator.step_success, ReportCreator.completion_success,
    ReportCreator.success_verification_no_step, st_bind.
  rewrite !create_success_spec by done. cbv zeta.
  do 2 (split; [by destruct (len buf <? _)|]). done.
Qed.

Lemma success_reports_correct_witness :
  ReportCreator.step_success (mkCreator 0 7) (mkToken (mkRequestId 0 6145 49153)) 0 0 [64]
    (ecss_enum 2 3) (replicate 6 0) =
  (Ok (report_tm (mkCreator 0 7) 5 0 0 [64] [24; 1; 192; 1; 0; 3]), [24; 1; 192; 1; 0; 3]).
Proof.
  apply (success_reports_correct (mkCreator 0 7) (mkRequestId 0 6145 49153) [64] 0 0
    (ecss_enum 2 3) (replicate 6 0)).
  apply ecss_enum_ok. lia.
Defined.

(** C9: The failure reports.  Each method creates telemetry of service 1 with
    its subservice (2 acceptance, 4 start, 6 step, 8 completion), whose source
    data is the request ID, the step number if there is one, the failure code
    and the failure data; a buffer that is too small is refused. *)
Theorem failure_reports_correct c r seq msg p step buf :
  enum_ok step -> enum_ok (failure_code p) ->
  let ok ss data :=
    if len buf <? len data then (Err (ToSliceTooSmall (len buf) (len data)), buf)
    else (Ok (report_tm c ss seq msg (time_stamp p) data), data ++ drop (length data) buf) in
  ReportCreator.acceptance_failure c (mkToken r) seq msg p buf = ok 2 (fail_data_of r None p) /\
  ReportCreator.start_failure c (mkToken r) seq msg p buf = ok 4 (fail_data_of r None p) /\
  ReportCreator.step_failure c (mkToken r) seq msg (mkFailParamsWithStep p step) buf =
    ok 6 (fail_data_of r (Some step) p) /\
  ReportCreator.completion_failure c (mkToken (s:=TcStateStarted) r) seq msg p buf =
    ok 8 (fail_data_of r None p).
Proof.
  intros Hs Hc. cbv zeta.
  unfold ReportCreator.acceptance_failure, ReportCreator.start_failure,
    ReportCreator.step_failure, ReportCreator.completion_failure,
    ReportCreator.failure_verification_no_step.
  by rewrite !create_fail_spec by done.
Qed.

Lemma failure_reports_correct_witness :
  ReportCreator.completion_failure (mkCreator 0 7)
    (mkToken (s:=TcStateStarted) (mkRequestId 0 6145 49153)) 0 0
    (mkFailParams [64] (ecss_enum 2 259) [5; 6]) (replicate 8 0) =
  (Ok (report_tm (mkCreator 0 7) 8 0 0 [64] [24; 1; 192; 1; 1; 3; 5; 6]),
   [24; 1; 192; 1; 1; 3; 5; 6]).
Proof.
  apply (failure_reports_correct (mkCreator 0 7) (mkRequestId 0 6145 49153) 0 0
    (mkFailParams [64] (ecss_enum 2 259) [5; 6]) (ecss_enum 1 0) (replicate 8 0));
    apply ecss_enum_ok; lia.
Defined.

(** The reports of a telecommand that is accepted, started, reports any
    number of steps and completes: the sender receives, in this order and after
    what it already had, one acceptance, one start, one report per step and one
    completion, all with the request ID of the telecommand and from the owner of
    the reporter; the buffer size given by the configuration suffices. *)
Theorem report_life_correct {PE} `{PusErrorOps PE} v q r stamp steps :
  Forall enum_ok steps -> 4 <= len (source_data_buf v) ->
  Forall (fun s => 4 + enum_size s <= len (source_data_buf v)) steps ->
  exists v', report_life (PE:=PE) r stamp steps (v, q) =
    (Ok tt, (v', q ++ [sent v 1 stamp (success_data r None); sent v 3 stamp (success_data r None)]
                 ++ ((fun s => sent v 5 stamp (success_data r (Some s))) <$> steps)
                 ++ [sent v 7 stamp (success_data r None)])).
Proof.
  intros Hok H4 Hl. unfold report_life, st_bind.
  cbn [vr_add_tc_with_req_id vr_acceptance_success vr_start_success vr_completion_success
       Reporter_provider fst snd].
  destruct (report_success (PE:=PE) (mkToken (s:=TcStateAccepted) r)
    (fun c => ReportCreator.acceptance_success c (mkToken r) 0 0 stamp)
    v q r 1 stamp None) as (v1 & Hr1 & (Ho1 & Hc1 & Hh1 & Hb1)); [done|done|done|].
  unfold Reporter.acceptance_success, ReportCreator.add_tc_with_req_id. rewrite Hr1.
  destruct (report_success (PE:=PE) (mkToken (s:=TcStateStarted) r)
    (fun c => ReportCreator.start_success c (mkToken r) 0 0 stamp)
    v1 (q ++ [sent v 1 stamp (success_data r None)]) r 3 stamp None)
    as (v2 & Hr2 & (Ho2 & Hc2 & Hh2 & Hb2)); [done|by rewrite Hb1|done|].
  unfold Reporter.start_success. rewrite Hr2.
  destruct (report_steps_spec (PE:=PE) v2
    ((q ++ [sent v 1 stamp (success_data r None)]) ++ [sent v1 3 stamp (success_data r None)])
    r stamp steps Hok) as (v3 & Hr3 & (Ho3 & Hc3 & Hh3 & Hb3)); [by rewrite Hb2, Hb1|].
  rewrite Hr3.
  match goal with
  | |- context [Reporter.completion_success _ _ _ _ (v3, ?q3)] =>
      destruct (report_success (PE:=PE) tt
        (fun c => Reporter.no_token
           (ReportCreator.completion_success c (mkToken (s:=TcStateStarted) r) 0 0 stamp))
        v3 q3 r 7 stamp None) as (v4 & Hr4 & _)
  end; [done| |done|].
  { change (len (success_data r None)) with 4. lia. }
  unfold Reporter.completion_success. rewrite Hr4. exists v4. unfold sent.
  rewrite Ho3, Hc3, Hh3, Ho2, Hc2, Hh2, Ho1, Hc1, Hh1. by rewrite <- !app_assoc.
Qed.

Lemma report_life_correct_witness :
  exists v v', Reporter.new (E:=unit) 3 (mkReporterCfg 7 2 2 8) = Ok v /\
    report_life (PE:=unit) (H:=fun _ => tt) (mkRequestId 0 6145 49153) [64] [ecss_enum 2 0] (v, []) =
      (Ok tt, (v', [sent v 1 [64] [24; 1; 192; 1]; sent v 3 [64] [24; 1; 192; 1];
                    sent v 5 [64] [24; 1; 192; 1; 0; 0]; sent v 7 [64] [24; 1; 192; 1]])).
Proof.
  eexists.
  destruct (report_life_correct (PE:=unit) (H:=fun _ => tt)
    (mkReporter 3 (replicate 16 0) (mkCreator 0 7) (fun tm => tm)) []
    (mkRequestId 0 6145 49153) [64] [ecss_enum 2 0]) as (v' & Hv').
  - repeat constructor; apply ecss_enum_ok; lia.
  - vm_compute. discriminate.
  - repeat constructor. vm_compute. discriminate.
  - exists v'. split; [reflexivity|exact Hv'].
Defined.

(** The helpers for failures with generic parameters report the failure
    with the bytes of the parameter as failure data and answer [true], except for
    a pool address, which is reported without data and answered with [false];
    a small buffer that cannot hold a heapless parameter makes them panic. *)
Theorem generic_failure_correct {PE V Q} `{VerificationReportingProvider PE V Q}
    (token : VerificationToken TcStateStarted) (h : FailParamHelper) (x : V * Q) :
  match params h with
  | Some (Heapless p) => param_ok p
  | _ => True
  end ->
  let answer d ok :=
    (let* _ := vr_completion_failure _ _ token (mkFailParams (timestamp h) (error_code h) d) in
     ret ok) x in
  handle_completion_failure_with_generic_params token h x =
    match params h with
    | None => answer [] true
    | Some (Heapless p) =>
        if len (small_data_buf h) <? len (param_bytes p) then (Panic, x)
        else answer (param_bytes p) true
    | Some (Vec v) => answer v true
    | Some (PString s) => answer s true
    | Some (Store _) => answer [] false
    end.
Proof.
  intros Hp. cbv zeta. unfold handle_completion_failure_with_generic_params, failure_bytes.
  destruct (params h) as [[p|a|v|s]|]; try done. set (buf := small_data_buf h).
  rewrite param_written_len by done. pose proof (len_nonneg (param_bytes p)).
  destruct (Z.ltb_spec (len buf) (len (param_bytes p))) as [Hlt|Hle].
  - unfold slice. replace (_ && (len (param_bytes p) <=? len buf)) with false by bool_lia. done.
  - unfold st_bind at 1, lift. rewrite slice_ok by lia. cbn [res_bind].
    set (sub := take _ _). assert (len sub = len (param_bytes p)) as Hsub.
    { unfold sub, len in *. rewrite length_take, length_drop. lia. }
    rewrite param_write by (try done; lia). cbn [map_err res_bind snd fst].
    rewrite (drop_ge sub) by (unfold len in Hsub; lia). rewrite app_nil_r.
    rewrite copy_into_ok by lia. cbn [res_bind].
    replace (len (param_bytes p)) with (0 + len (param_bytes p)) by lia.
    rewrite slice_splice_same by lia. done.
Qed.

Lemma generic_failure_correct_witness :
  handle_completion_failure_with_generic_params (PE:=unit) (V:=TestVerificationReporter)
    (Q:=list (Z * PusTmVariant)) (mkToken (s:=TcStateStarted) (mkRequestId 0 6145 49153))
    (mkFailParamHelper [64] (ecss_enum 2 5) (replicate 4 0) (Some (Heapless (Raw (U16 258)))))
    (TestReporter.new 3, []) =
  (Ok true, (mkTestReporter 3
     [(mkRequestId 0 6145 49153, CompletionFailure (mkFailure 3 5 [1; 2] [64]))], [])).
Proof.
  etransitivity.
  - apply (generic_failure_correct (PE:=unit) (V:=TestVerificationReporter)
      (Q:=list (Z * PusTmVariant)) (mkToken (mkRequestId 0 6145 49153))
      (mkFailParamHelper [64] (ecss_enum 2 5) (replicate 4 0) (Some (Heapless (Raw (U16 258)))))
      (TestReporter.new 3, [])).
    exact I.
  - reflexivity.
Defined.
