(* ===== verification/SeqCount.v ===== *)
(** * Sequence counters ([satrs/src/seq_count.rs])

    Counters that wrap around at a configurable maximum, single-threaded and
    behind a mutex. *)

From Stdlib Require Import ZArith Lia Bool.
From stdpp Require Import base list.
From S2P Require Import Prelude.

Local Open Scope Z_scope.

Definition MAX_SEQ_COUNT : Z := 2 ^ 14 - 1.

(** ** The [SequenceCountProviderCore] trait

    The methods take [&self] and mutate through a cell: the provider is the
    state.  [seq_get_and_increment] has a provided implementation. *)
Class SequenceCountProviderCore (P : Type) : Type := {
  seq_get : P -> Z;
  seq_increment : st P unit unit;
  seq_get_and_increment : st P unit Z;
}.

(** The provided [get_and_increment]. *)
Definition default_get_and_increment {P : Type} (get : P -> Z) (increment : st P unit unit)
    : st P unit Z :=
  let* val := gets get in
  let* _ := increment in
  ret val.

(** ** [SeqCountProviderSimple<T>] for [T] of [w] bits *)
Record SeqCountProviderSimple (w : Z) : Type := mkSimple { seq_count : Z; max_val : Z }.

Arguments mkSimple {w} _ _.
Arguments seq_count {w} _.
Arguments max_val {w} _.

Module Simple.
Section Simple.
Context {w : Z}.

Definition new_custom_max_val (max_val : Z) : SeqCountProviderSimple w :=
  {| seq_count := 0; max_val := max_val |}.

Definition new : SeqCountProviderSimple w := new_custom_max_val (2 ^ w - 1).

Definition get (p : SeqCountProviderSimple w) : Z := seq_count p.

Definition set (v : Z) (p : SeqCountProviderSimple w) : SeqCountProviderSimple w :=
  {| seq_count := v; max_val := max_val p |}.

Definition get_and_increment : st (SeqCountProviderSimple w) unit Z :=
  fun p =>
    let curr_count := seq_count p in
    if curr_count =? max_val p then (Ok curr_count, set 0 p)
    else match checked_add (E:=unit) w curr_count 1 with
         | Ok v => (Ok curr_count, set v p)
         | _ => (Panic, p)
         end.

Definition increment : st (SeqCountProviderSimple w) unit unit :=
  let* _ := get_and_increment in ret tt.

End Simple.
End Simple.

#[export] Instance Simple_provider (w : Z) : SequenceCountProviderCore (SeqCountProviderSimple w) := {|
  seq_get := Simple.get;
  seq_increment := Simple.increment;
  seq_get_and_increment := Simple.get_and_increment;
|}.

(** [CcsdsSimpleSeqCountProvider]. *)
Definition ccsds_default : SeqCountProviderSimple 16 := Simple.new_custom_max_val MAX_SEQ_COUNT.

(** ** [SeqCountProviderSync*]: a counter behind a mutex *)
Record SeqCountProviderSync (w : Z) : Type := mkSync {
  sync_count : Z;
  sync_max_val : Z;
  lock_poisoned : bool;
}.

Arguments mkSync {w} _ _ _.
Arguments sync_count {w} _.
Arguments sync_max_val {w} _.
Arguments lock_poisoned {w} _.

Module Sync.
Section Sync.
Context {w : Z}.

Definition new_with_max_val (max_val : Z) : SeqCountProviderSync w := mkSync 0 max_val false.

Definition new : SeqCountProviderSync w := new_with_max_val (2 ^ w - 1).

(** [#[derive(Default)]]. *)
Definition default : SeqCountProviderSync w := mkSync 0 0 false.

Definition get (p : SeqCountProviderSync w) : Z := if lock_poisoned p then 0 else sync_count p.

Definition get_and_increment : st (SeqCountProviderSync w) unit Z :=
  fun p =>
    if lock_poisoned p then (Ok 0, p) else
    let val := sync_count p in
    if val =? sync_max_val p then (Ok val, mkSync 0 (sync_max_val p) false)
    else match checked_add (E:=unit) w val 1 with
         | Ok v => (Ok val, mkSync v (sync_max_val p) false)
         | _ => (Panic, p)
         end.

Definition increment : st (SeqCountProviderSync w) unit unit :=
  let* _ := get_and_increment in ret tt.

End Sync.
End Sync.

#[export] Instance Sync_provider (w : Z) : SequenceCountProviderCore (SeqCountProviderSync w) := {|
  seq_get := Sync.get;
  seq_increment := Sync.increment;
  seq_get_and_increment := Sync.get_and_increment;
|}.

(** ** Sequences of calls *)
Fixpoint take_counts {P : Type} `{SequenceCountProviderCore P} (n : nat) : st P unit (list Z) :=
  match n with
  | O => ret []
  | S n' =>
      let* v := seq_get_and_increment in
      let* l := take_counts n' in
      ret (v :: l)
  end.

(** The numbers from [v] on, modulo [max + 1]. *)
Definition counts_from (v max : Z) (n : nat) : list Z :=
  (fun k => (v + Z.of_nat k) mod (max + 1)) <$> seq 0 n.

Lemma counts_from_S v max n :
  0 <= v <= max ->
  counts_from v max (S n) = v :: counts_from ((v + 1) mod (max + 1)) max n.
Proof.
  intros Hv. unfold counts_from. cbn [seq fmap list_fmap]. f_equal.
  - rewrite Z.add_0_r, Z.mod_small; lia.
  - rewrite <- (fmap_S_seq 0 n), <- list_fmap_compose. apply list_fmap_ext. intros i k _.
    cbn [compose]. rewrite Zplus_mod_idemp_l. f_equal. lia.
Qed.

Lemma counter_step w v max :
  0 <= v <= max -> max < 2 ^ w ->
  (if v =? max then 0 else v + 1) = (v + 1) mod (max + 1) /\
  (v <> max -> checked_add (E:=unit) w v 1 = Ok (v + 1)) /\ 0 <= (v + 1) mod (max + 1) <= max.
Proof.
  intros Hv Hm. pose proof (Z.mod_pos_bound (v + 1) (max + 1)).
  split; [|split; [|lia]].
  - destruct (Z.eqb_spec v max) as [->|]; [by rewrite Z.mod_same by lia|].
    by rewrite Z.mod_small by lia.
  - intros Hne. unfold checked_add. destruct (Z.ltb_spec (v + 1) (2 ^ w)); [done|lia].
Qed.

Lemma simple_step w (p : SeqCountProviderSimple w) :
  0 <= seq_count p <= max_val p -> max_val p < 2 ^ w ->
  Simple.get_and_increment p =
    (Ok (seq_count p), mkSimple ((seq_count p + 1) mod (max_val p + 1)) (max_val p)).
Proof.
  intros Hv Hm. destruct (counter_step w _ _ Hv Hm) as (Hs & Hc & _).
  unfold Simple.get_and_increment, Simple.set. rewrite <- Hs.
  destruct (Z.eqb_spec (seq_count p) (max_val p)); [done|]. by rewrite Hc.
Qed.

Lemma sync_step w v max :
  0 <= v <= max -> max < 2 ^ w ->
  Sync.get_and_increment (w:=w) (mkSync v max false) =
    (Ok v, mkSync ((v + 1) mod (max + 1)) max false).
Proof.
  intros Hv Hm. destruct (counter_step w _ _ Hv Hm) as (Hs & Hc & _).
  unfold Sync.get_and_increment. simpl. rewrite <- Hs.
  destruct (Z.eqb_spec v max) as [|Hne]; [done|]. by rewrite (Hc Hne).
Qed.

(** [n] calls of [get_and_increment] on a counter of [w] bits with maximum
    [max] return the [n] numbers that follow its current value, wrapping from
    [max] to 0, and never panic; the counter behind a mutex returns the same
    numbers. *)
Theorem seq_count_correct w v max n :
  0 <= v <= max -> max < 2 ^ w ->
  (take_counts n (mkSimple (w:=w) v max)).1 = Ok (counts_from v max n) /\
  (take_counts n (mkSync (w:=w) v max false)).1 = Ok (counts_from v max n).
Proof.
  intros Hv Hm. revert v Hv. induction n as [|n IH]; intros v Hv; [done|].
  rewrite counts_from_S by done.
  destruct (counter_step w v max Hv Hm) as (_ & _ & Hr).
  destruct (IH _ Hr) as [IH1 IH2]. cbn [take_counts]. unfold st_bind. simpl.
  rewrite (simple_step w (mkSimple v max)), (sync_step w v max) by done. simpl in *.
  destruct (take_counts n (mkSimple _ max)) as [r1 p1].
  destruct (take_counts n (mkSync _ max false)) as [r2 p2]. simpl in *. by subst.
Qed.

Lemma seq_count_correct_witness :
  (take_counts 4 (mkSimple (w:=16) 16382 MAX_SEQ_COUNT)).1 = Ok [16382; 16383; 0; 1] /\
  (take_counts 4 (mkSync (w:=16) 16382 MAX_SEQ_COUNT false)).1 = Ok [16382; 16383; 0; 1].
Proof. apply (seq_count_correct 16 16382 MAX_SEQ_COUNT 4); unfold MAX_SEQ_COUNT; lia. Defined.

(** A thread-safe counter made with [default] has the maximum 0: it is stuck. *)
Example sync_default_stuck :
  (take_counts 3 (Sync.default (w:=16))).1 = Ok [0; 0; 0].
Proof. reflexivity. Qed.
