(* ===== verification/Events.v ===== *)
(** * Events ([satrs/src/events.rs])

    An event is a severity, a group ID and a unique ID, packed into 32 or 16
    bits.  The two sizes differ in the field widths only: [U32] and [U16] are
    the layouts of [EventU32] and [EventU16]. *)

From Stdlib Require Import ZArith Lia Bool.
From stdpp Require Import base list.
From S2P Require Import Prelude Spacepackets.

Local Open Scope Z_scope.

Inductive Severity : Type := Info | Low | Medium | High.

#[export] Instance Severity_eq_dec : EqDecision Severity.
Proof. solve_decision. Defined.

Module Severity.

(** [severity as u8]. *)
Definition to_u8 (s : Severity) : Z :=
  match s with Info => 0 | Low => 1 | Medium => 2 | High => 3 end.

Definition try_from (value : Z) : res unit Severity :=
  if value =? to_u8 Info then Ok Info
  else if value =? to_u8 Low then Ok Low
  else if value =? to_u8 Medium then Ok Medium
  else if value =? to_u8 High then Ok High
  else Err tt.

End Severity.

(** Widths of the group ID and the unique ID; two bits of severity on top. *)
Record layout : Type := mkLayout { gid_bits : Z; uid_bits : Z }.

Definition U32 : layout := mkLayout 14 16.
Definition U16 : layout := mkLayout 6 8.

Definition raw_bits (ly : layout) : Z := 2 + gid_bits ly + uid_bits ly.

(** [MAX_GROUP_ID_U32_EVENT] and [MAX_GROUP_ID_U16_EVENT]. *)
Definition max_group_id (ly : layout) : Z := 2 ^ gid_bits ly - 1.

(** [size_of] of the raw event. *)
Definition raw_size (ly : layout) : Z := raw_bits ly / 8.

(** [EventBase]. *)
Record Event (ly : layout) : Type := mkEvent { severity : Severity; group_id : Z; unique_id : Z }.

Arguments mkEvent {ly} _ _ _.
Arguments severity {ly} _.
Arguments group_id {ly} _.
Arguments unique_id {ly} _.

#[export] Instance Event_eq_dec (ly : layout) : EqDecision (Event ly).
Proof. solve_decision. Defined.

Module Event.
Section Event.
Context {ly : layout}.

Definition raw (e : Event ly) : Z :=
  Z.lor
    (Z.lor (as_u (raw_bits ly) (Z.shiftl (Severity.to_u8 (severity e)) (gid_bits ly + uid_bits ly)))
           (as_u (raw_bits ly) (Z.shiftl (group_id e) (uid_bits ly))))
    (unique_id e).

Definition new_checked (severity : Severity) (group_id unique_id : Z) : option (Event ly) :=
  if max_group_id ly <? group_id then None else Some (mkEvent severity group_id unique_id).

(** Panics with an invalid group ID. *)
Definition new {E : Type} (severity : Severity) (group_id unique_id : Z) : res E (Event ly) :=
  if max_group_id ly <? group_id then Panic else Ok (mkEvent severity group_id unique_id).

(** [From<u32> for EventU32] and [From<u16> for EventU16]. *)
Definition from_raw {E : Type} (raw : Z) : res E (Event ly) :=
  let? severity := expect (Severity.try_from
                     (as_u 8 (Z.land (Z.shiftr raw (gid_bits ly + uid_bits ly)) 3))) in
  let group_id := Z.land (Z.shiftr raw (uid_bits ly)) (2 ^ gid_bits ly - 1) in
  let unique_id := Z.land raw (2 ^ uid_bits ly - 1) in
  new severity group_id unique_id.

Definition from_be_bytes {E : Type} (bytes : list Z) : res E (Event ly) :=
  from_raw (from_be_bytes bytes).

(** [EventBase::write_to_bytes]: [buf.copy_from_slice] needs the exact length. *)
Definition write_to_be_bytes (e : Event ly) (buf : list Z) : res ByteConversionError (Z * list Z) :=
  let width := raw_size ly in
  if len buf <? width then Err (ToSliceTooSmall (len buf) width) else
  let? buf' := copy_into buf 0 (len buf) (to_be_bytes (Z.to_nat width) (raw e)) in
  Ok (width, buf').

(** [raw_as_largest_type] and [group_id_as_largest_type]: lossless [into]
    conversions to [u32] and [u16]. *)
Definition raw_as_largest_type (e : Event ly) : Z := raw e.

Definition group_id_as_largest_type (e : Event ly) : Z := group_id e.

End Event.
End Event.

(** ** Packing *)

(** The two layouts of the source. *)
Definition layout_ok (ly : layout) : Prop := ly = U32 \/ ly = U16.

Definition event_ok {ly : layout} (e : Event ly) : Prop :=
  0 <= group_id e <= max_group_id ly /\ in_u (uid_bits ly) (unique_id e).

Section Packing.
Context (ly : layout).
Hypothesis Hly : layout_ok ly.

Lemma layout_bits : 0 < gid_bits ly /\ 0 < uid_bits ly /\ gid_bits ly + uid_bits ly <= 30.
Proof. destruct Hly as [-> | ->]; simpl; lia. Qed.

Lemma severity_range s : 0 <= Severity.to_u8 s < 4.
Proof. destruct s; simpl; lia. Qed.

Lemma severity_roundtrip s : Severity.try_from (Severity.to_u8 s) = Ok s.
Proof. by destruct s. Qed.

Lemma severity_try_from v : 0 <= v < 4 -> exists s, Severity.try_from v = Ok s /\ Severity.to_u8 s = v.
Proof.
  intros Hv. assert (v = 0 \/ v = 1 \/ v = 2 \/ v = 3) as [->|[->|[->| ->]]] by lia;
    eexists; split; reflexivity.
Qed.

(** The packed value as a number. *)
Definition pack (s g u : Z) : Z :=
  (s * 2 ^ gid_bits ly + g) * 2 ^ uid_bits ly + u.

Lemma raw_pack (e : Event ly) :
  event_ok e -> Event.raw e = pack (Severity.to_u8 (severity e)) (group_id e) (unique_id e).
Proof.
  intros [Hg Hu]. destruct layout_bits as (Hgb & Hub & _). unfold max_group_id in Hg.
  pose proof (severity_range (severity e)) as Hs. unfold Event.raw, pack, as_u, raw_bits, in_u in *.
  set (g := gid_bits ly) in *. set (u := uid_bits ly) in *. set (s := Severity.to_u8 _) in *.
  assert (0 < 2 ^ g) by (apply Z.pow_pos_nonneg; lia).
  assert (0 < 2 ^ u) by (apply Z.pow_pos_nonneg; lia).
  assert (2 ^ (2 + g + u) = 4 * (2 ^ g * 2 ^ u)) as Hp by (rewrite !Z.pow_add_r; lia).
  rewrite !Z.mod_small.
  - rewrite <- Z.shiftl_shiftl by lia. rewrite <- Z.shiftl_lor.
    rewrite (lor_shiftl_add s (group_id e) g) by lia. by rewrite lor_shiftl_add by lia.
  - rewrite Z.shiftl_mul_pow2 by lia. rewrite Hp. nia.
  - rewrite Z.shiftl_mul_pow2, Z.pow_add_r by lia. rewrite Hp. nia.
Qed.

(** The fields of a raw value. *)
Lemma event_raw_fields s g u :
  0 <= s < 4 -> 0 <= g <= max_group_id ly -> in_u (uid_bits ly) u ->
  as_u 8 (Z.land (Z.shiftr (pack s g u) (gid_bits ly + uid_bits ly)) 3) = s /\
  Z.land (Z.shiftr (pack s g u) (uid_bits ly)) (2 ^ gid_bits ly - 1) = g /\
  Z.land (pack s g u) (2 ^ uid_bits ly - 1) = u.
Proof.
  intros Hs Hg Hu. destruct layout_bits as (Hgb & Hub & _). unfold max_group_id, in_u, as_u in *.
  destruct (div_mod_fields (s * 2 ^ gid_bits ly + g) u (uid_bits ly)) as [Hd Hm]; [lia|lia|].
  destruct (div_mod_fields s g (gid_bits ly)) as [Hd2 Hm2]; [lia|lia|].
  change 3 with (2 ^ 2 - 1). rewrite !land_ones_mod, !Z.shiftr_div_pow2 by lia. unfold pack.
  rewrite Hd, Hm, Hm2. split; [|done].
  rewrite Z.add_comm with (n := gid_bits ly), Z.pow_add_r, <- Z.div_div, Hd, Hd2
    by (try apply Z.pow_nonzero; try apply Z.pow_pos_nonneg; lia).
  rewrite !Z.mod_small by (rewrite ?Z.mod_small; lia). done.
Qed.

Lemma pack_unpack v :
  in_u (raw_bits ly) v ->
  exists s g u, v = pack s g u /\ 0 <= s < 4 /\ 0 <= g <= max_group_id ly /\ in_u (uid_bits ly) u.
Proof.
  intros Hv. destruct layout_bits as (Hgb & Hub & _). unfold raw_bits, max_group_id, in_u, pack in *.
  set (g := gid_bits ly) in *. set (u := uid_bits ly) in *.
  assert (0 < 2 ^ g) by (apply Z.pow_pos_nonneg; lia).
  assert (0 < 2 ^ u) by (apply Z.pow_pos_nonneg; lia).
  exists (v / 2 ^ u / 2 ^ g), ((v / 2 ^ u) mod 2 ^ g), (v mod 2 ^ u).
  pose proof (Z.div_mod v (2 ^ u)). pose proof (Z.div_mod (v / 2 ^ u) (2 ^ g)).
  pose proof (Z.mod_pos_bound v (2 ^ u)). pose proof (Z.mod_pos_bound (v / 2 ^ u) (2 ^ g)).
  split; [lia|]. split; [|lia]. split.
  - apply Z.div_pos; [apply Z.div_pos|]; lia.
  - apply Z.div_lt_upper_bound; [lia|]. apply Z.div_lt_upper_bound; [lia|].
    rewrite !Z.pow_add_r in Hv by lia. lia.
Qed.

End Packing.

Lemma from_raw_pack {E} ly s sev g u :
  layout_ok ly -> Severity.try_from s = Ok sev -> 0 <= s < 4 ->
  0 <= g <= max_group_id ly -> in_u (uid_bits ly) u ->
  Event.from_raw (E:=E) (ly:=ly) (pack ly s g u) = Ok (mkEvent sev g u).
Proof.
  intros Hly Hsev Hs Hg Hu. unfold Event.from_raw.
  destruct (event_raw_fields ly Hly s g u Hs Hg Hu) as (-> & -> & ->). rewrite Hsev. simpl.
  unfold Event.new. by destruct (Z.ltb_spec (max_group_id ly) g); [lia|].
Qed.

Lemma raw_in_range {ly} (e : Event ly) :
  layout_ok ly -> event_ok e -> in_u (raw_bits ly) (Event.raw e).
Proof.
  intros Hly [Hg Hu]. rewrite raw_pack by done.
  pose proof (severity_range (severity e)). unfold pack, max_group_id, in_u, raw_bits in *.
  destruct (layout_bits ly Hly) as (? & ? & _). rewrite !Z.pow_add_r by lia.
  change (2 ^ 2) with 4. nia.
Qed.

Lemma from_raw_raw {E ly} (e : Event ly) :
  layout_ok ly -> event_ok e -> Event.from_raw (E:=E) (Event.raw e) = Ok e.
Proof.
  intros Hly [Hg Hu]. rewrite raw_pack by done.
  rewrite (from_raw_pack ly _ (severity e)); [by destruct e|done| | |done|done].
  - apply severity_roundtrip.
  - apply severity_range.
Qed.

Lemma from_raw_exists {E} ly v :
  layout_ok ly -> in_u (raw_bits ly) v ->
  exists e : Event ly, Event.from_raw (E:=E) v = Ok e /\ event_ok e /\ Event.raw e = v.
Proof.
  intros Hly Hv. destruct (pack_unpack ly Hly v Hv) as (s & g & u & -> & Hs & Hg & Hu).
  destruct (severity_try_from s Hs) as (sev & Hsev & Hto).
  exists (mkEvent sev g u). rewrite (from_raw_pack ly s sev) by done.
  split; [done|]. split; [done|]. rewrite raw_pack by done. simpl. by rewrite Hto.
Qed.

Lemma raw_size_bits ly : layout_ok ly -> 8 * raw_size ly = raw_bits ly /\ 0 < raw_size ly.
Proof. intros [-> | ->]; split; reflexivity. Qed.

(** Events are equal when their raw values are. *)
Lemma raw_inj {ly} (Hly : layout_ok ly) (a b : Event ly) :
  event_ok a -> event_ok b -> Event.raw a = Event.raw b -> a = b.
Proof.
  intros Ha Hb Heq. pose proof (from_raw_raw (E:=unit) a Hly Ha) as H1.
  rewrite Heq, (from_raw_raw b Hly Hb) in H1. congruence.
Qed.

(** Writing into a buffer of exactly the size. *)
Lemma event_write_exact {ly} (e : Event ly) buf :
  layout_ok ly -> len buf = raw_size ly ->
  Event.write_to_be_bytes e buf =
    Ok (raw_size ly, to_be_bytes (Z.to_nat (raw_size ly)) (Event.raw e)).
Proof.
  intros Hly Hl. destruct (raw_size_bits ly Hly) as [_ Hpos].
  unfold Event.write_to_be_bytes. rewrite Hl, Z.ltb_irrefl.
  rewrite copy_into_ok by (rewrite ?Hl; unfold len; rewrite ?length_to_be_bytes; lia).
  cbn [res_bind]. by rewrite splice_full by (rewrite length_to_be_bytes; unfold len in Hl; lia).
Qed.

(** * Properties *)

(** For both event sizes, packing and unpacking are inverse: the raw value
    of a valid event fits its width and unpacks to the event, every raw value
    unpacks to a valid event, without panic, that packs to it again; so events
    are equal when their raw values are. *)
Theorem event_raw_roundtrip {E} ly :
  layout_ok ly ->
  (forall e : Event ly, event_ok e ->
     in_u (raw_bits ly) (Event.raw e) /\ Event.from_raw (E:=E) (Event.raw e) = Ok e) /\
  (forall v, in_u (raw_bits ly) v ->
     exists e : Event ly, Event.from_raw (E:=E) v = Ok e /\ event_ok e /\ Event.raw e = v) /\
  (forall a b : Event ly, event_ok a -> event_ok b -> Event.raw a = Event.raw b -> a = b).
Proof.
  intros Hly. split; [|split].
  - intros e He. by split; [apply raw_in_range|apply from_raw_raw].
  - intros v Hv. by apply from_raw_exists.
  - intros a b Ha Hb Heq. by apply (raw_inj Hly).
Qed.

Lemma event_raw_roundtrip_witness :
  Event.from_raw (E:=unit) (ly:=U32) (Event.raw (ly:=U32) (mkEvent High 5 9)) = Ok (mkEvent High 5 9).
Proof.
  apply (event_raw_roundtrip (E:=unit) U32).
  - left. reflexivity.
  - unfold event_ok, max_group_id, in_u. simpl. lia.
Defined.

(** [write_to_be_bytes] writes the raw value, big-endian, into a buffer of
    exactly the size of the event, from which [from_be_bytes] reads the event
    back; a smaller buffer is refused, and a larger one makes it panic. *)
Theorem event_write_read {ly} (e : Event ly) buf :
  layout_ok ly -> event_ok e ->
  (len buf = raw_size ly ->
     exists b, Event.write_to_be_bytes e buf = Ok (raw_size ly, b) /\ len b = raw_size ly /\
       Event.from_be_bytes (E:=unit) b = Ok e) /\
  (len buf < raw_size ly ->
     Event.write_to_be_bytes e buf = Err (ToSliceTooSmall (len buf) (raw_size ly))) /\
  (raw_size ly < len buf -> Event.write_to_be_bytes e buf = Panic).
Proof.
  intros Hly He. pose proof (layout_bits ly Hly) as (Hgb & Hub & _).
  pose proof (raw_in_range e Hly He) as Hr. pose proof (from_raw_raw (E:=unit) e Hly He) as Hf.
  destruct (raw_size_bits ly Hly) as [H8 Hpos]. split; [|split].
  - intros Hl. rewrite event_write_exact by done. eexists. split; [reflexivity|].
    split; [unfold len; rewrite length_to_be_bytes; lia|].
    unfold Event.from_be_bytes. rewrite from_to_be_bytes_small; [done|]. rewrite Z2Nat.id by lia. by rewrite H8.
  - intros Hl. unfold Event.write_to_be_bytes. by destruct (Z.ltb_spec (len buf) (raw_size ly)); [|lia].
  - intros Hl. unfold Event.write_to_be_bytes. destruct (Z.ltb_spec (len buf) (raw_size ly)); [lia|].
    unfold copy_into. rewrite slice_ok by lia. cbn [res_bind].
    rewrite decide_False; [done|]. rewrite length_take, length_drop, length_to_be_bytes.
    unfold len in *. lia.
Qed.

Lemma event_write_read_witness :
  Event.write_to_be_bytes (ly:=U16) (mkEvent Low 5 9) (replicate 4 0) = Panic.
Proof.
  destruct (event_write_read (ly:=U16) (mkEvent Low 5 9) (replicate 4 0)) as (_ & _ & Hp).
  - right. reflexivity.
  - unfold event_ok, max_group_id, in_u. simpl. lia.
  - apply Hp. reflexivity.
Defined.
