(* ===== verification/EventMan.v ===== *)
(** * The event manager ([satrs/src/event_man.rs])

    Senders and receivers are handles to queues that other components hold too:
    [W] is the store of those queues, and a send or a receive changes it.  The
    manager is proved against the interfaces of its maps and queues; the default
    maps and the [mpsc] queues are the instances of the source. *)

From Stdlib Require Import ZArith Lia Bool Sorting.Sorted.
From stdpp Require Import base list gmap sorting.
From S2P Require Import Prelude Tmtc Events.

Local Open Scope Z_scope.

Inductive ListenerKey : Type := Single (raw : Z) | Group (group_id : Z) | All.

#[export] Instance ListenerKey_eq_dec : EqDecision ListenerKey.
Proof. solve_decision. Defined.

#[export] Program Instance ListenerKey_countable : Countable ListenerKey :=
  inj_countable'
    (fun k => match k with Single r => inl r | Group g => inr (inl g) | All => inr (inr tt) end)
    (fun c : Z + (Z + unit) =>
       match c with inl r => Single r | inr (inl g) => Group g | inr (inr _) => All end) _.
Next Obligation. by intros []. Qed.

(** The part of [GenericEvent] the manager uses. *)
Class GenericEvent (Ev : Type) : Type := {
  raw_as_largest_type : Ev -> Z;
  group_id_as_largest_type : Ev -> Z;
}.

#[export] Instance Event_generic (ly : layout) : GenericEvent (Event ly) := {|
  raw_as_largest_type := Event.raw_as_largest_type;
  group_id_as_largest_type := Event.group_id_as_largest_type;
|}.

Record EventMessage (Ev P : Type) : Type := mkEventMessage {
  msg_sender_id : Z;
  msg_event : Ev;
  msg_params : option P;
}.

Arguments mkEventMessage {Ev P} _ _ _.
Arguments msg_sender_id {Ev P} _.
Arguments msg_event {Ev P} _.
Arguments msg_params {Ev P} _.

Module EventMessage.
Section EventMessage.
Context {Ev P : Type}.

Definition new_generic (sender_id : Z) (event : Ev) (params : option P) : EventMessage Ev P :=
  {| msg_sender_id := sender_id; msg_event := event; msg_params := params |}.

Definition new (sender_id : Z) (event : Ev) : EventMessage Ev P := new_generic sender_id event None.

Definition new_with_params (sender_id : Z) (event : Ev) (params : P) : EventMessage Ev P :=
  new_generic sender_id event (Some params).

End EventMessage.
End EventMessage.

(** ** The traits of the queues and of the maps *)
Class EventSendProvider (W S M E : Type) : Type := {
  target_id : S -> Z;
  ev_send : S -> M -> st W E unit;
}.

Class EventReceiveProvider (W R M E : Type) : Type :=
  try_recv_event : R -> st W E (option M).

Class ListenerMapProvider (L : Type) : Type := {
  contains_listener : L -> ListenerKey -> bool;
  get_listener_ids : L -> ListenerKey -> option (list Z);
  add_listener : ListenerKey -> Z -> L -> bool * L;
  lm_remove_duplicates : ListenerKey -> L -> L;
}.

Class SenderMapProvider (SM S : Type) : Type := {
  contains_send_event_provider : SM -> Z -> bool;
  get_send_event_provider : SM -> Z -> option S;
  add_send_event_provider : S -> SM -> bool * SM;
}.

(** ** The manager *)
Record EventManager (R SM L : Type) : Type := mkEventManager {
  event_receiver : R;
  sender_map : SM;
  listener_map : L;
}.

Arguments mkEventManager {R SM L} _ _ _.
Arguments event_receiver {R SM L} _.
Arguments sender_map {R SM L} _.
Arguments listener_map {R SM L} _.

Inductive EventRoutingResult (M : Type) : Type :=
| Empty
| Handled (num_recipients : Z) (event_msg : M).

Arguments Empty {M}.
Arguments Handled {M} _ _.

Inductive EventRoutingError : Type :=
| SendFailed (e : GenericSendError)
| NoSendersForKey (key : ListenerKey)
| NoSenderForId (id : Z).

Module Manager.
Section Manager.
Context {W Ev P S R SM L RE E : Type}.
Abbreviation Msg := (EventMessage Ev P).
Context `{GE : GenericEvent Ev, ES : EventSendProvider W S Msg GenericSendError,
  ER : EventReceiveProvider W R Msg RE, LM : ListenerMapProvider L, SMP : SenderMapProvider SM S}.
Abbreviation Man := (EventManager R SM L).
Implicit Types (m : Man) (msg : Msg) (key : ListenerKey).

Definition new_with_custom_maps (event_receiver : R) (sender_map : SM) (listener_map : L) : Man :=
  mkEventManager event_receiver sender_map listener_map.

Definition set_listener_map (l : L) m : Man :=
  mkEventManager (event_receiver m) (sender_map m) l.

Definition set_sender_map (sm : SM) m : Man :=
  mkEventManager (event_receiver m) sm (listener_map m).

Definition remove_duplicates key m : Man :=
  set_listener_map (lm_remove_duplicates key (listener_map m)) m.

Definition update_listeners key (sender_id : Z) m : Man :=
  set_listener_map (add_listener key sender_id (listener_map m)).2 m.

Definition subscribe_single (event : Ev) (sender_id : Z) m : Man :=
  update_listeners (Single (raw_as_largest_type event)) sender_id m.

Definition subscribe_group (group_id sender_id : Z) m : Man :=
  update_listeners (Group group_id) sender_id m.

Definition subscribe_all (sender_id : Z) m : Man := update_listeners All sender_id m.

Definition add_sender (send_provider : S) m : Man :=
  if negb (contains_send_event_provider (sender_map m) (target_id send_provider))
  then set_sender_map (add_send_event_provider send_provider (sender_map m)).2 m
  else m.

(** *** Routing

    The error handler is a closure with its own state [H]; [n] is
    [num_recipients], a [u32]. *)
Section Routing.
Context {H : Type} (error_handler : Msg -> EventRoutingError -> H -> H).

Definition handle_error msg (e : EventRoutingError) : st (W * H) E unit :=
  on_snd (modify_state (error_handler msg e)).

(** The body of the loop over the listener IDs. *)
Definition send_to m msg (id n : Z) : st (W * H) E Z :=
  match get_send_event_provider (sender_map m) id with
  | Some sender =>
      let* r := on_fst (attempt (ev_send sender
                  (EventMessage.new_generic (msg_sender_id msg) (msg_event msg) (msg_params msg)))) in
      match r with
      | Err e => let* _ := handle_error msg (SendFailed e) in ret n
      | _ => lift (checked_add 32 n 1)
      end
  | None => let* _ := handle_error msg (NoSenderForId id) in ret n
  end.

Fixpoint send_loop m msg (ids : list Z) (n : Z) : st (W * H) E Z :=
  match ids with
  | [] => ret n
  | id :: ids' => let* n' := send_to m msg id n in send_loop m msg ids' n'
  end.

Definition send_handler m key msg (n : Z) : st (W * H) E Z :=
  if contains_listener (listener_map m) key then
    match get_listener_ids (listener_map m) key with
    | Some ids => send_loop m msg ids n
    | None => let* _ := handle_error msg (NoSendersForKey key) in ret n
    end
  else ret n.

Definition try_event_handling m : st (W * H) E (EventRoutingResult Msg) :=
  let* r := on_fst (attempt (try_recv_event (event_receiver m))) in
  match r with
  | Ok (Some event_msg) =>
      let single_key := Single (raw_as_largest_type (msg_event event_msg)) in
      let* n := send_handler m single_key event_msg 0 in
      let group_key := Group (group_id_as_largest_type (msg_event event_msg)) in
      let* n := send_handler m group_key event_msg n in
      let* n := send_handler m All event_msg n in
      ret (Handled n event_msg)
  | _ => ret Empty
  end.

End Routing.
End Manager.
End Manager.

(** ** The default maps ([alloc_mod]) *)
Record DefaultListenerMap : Type := mkDefaultListenerMap { dl_listeners : gmap ListenerKey (list Z) }.

Module ListenerMap.

Definition contains_listener (l : DefaultListenerMap) (key : ListenerKey) : bool :=
  match dl_listeners l !! key with Some _ => true | None => false end.

Definition get_listener_ids (l : DefaultListenerMap) (key : ListenerKey) : option (list Z) := dl_listeners l !! key.

(** The keys, in the order of the map's iterator. *)
Definition get_listeners (l : DefaultListenerMap) : list ListenerKey := (map_to_list (dl_listeners l)).*1.

Definition add_listener (key : ListenerKey) (sender_id : Z) (l : DefaultListenerMap)
    : bool * DefaultListenerMap :=
  match dl_listeners l !! key with
  | Some existing_list => (true, mkDefaultListenerMap (<[key := existing_list ++ [sender_id]]> (dl_listeners l)))
  | None => (true, mkDefaultListenerMap (<[key := [sender_id]]> (dl_listeners l)))
  end.

(** [Vec::dedup]: of consecutive equal elements the first one stays. *)
Fixpoint dedup (l : list Z) : list Z :=
  match l with
  | x :: ((y :: _) as l') => if x =? y then dedup l' else x :: dedup l'
  | l => l
  end.

Definition remove_duplicates (key : ListenerKey) (l : DefaultListenerMap) : DefaultListenerMap :=
  match dl_listeners l !! key with
  | Some list => mkDefaultListenerMap (<[key := dedup (merge_sort Z.le list)]> (dl_listeners l))
  | None => l
  end.

End ListenerMap.

#[export] Instance DefaultListenerMap_provider : ListenerMapProvider DefaultListenerMap := {|
  contains_listener := ListenerMap.contains_listener;
  get_listener_ids := ListenerMap.get_listener_ids;
  add_listener := ListenerMap.add_listener;
  lm_remove_duplicates := ListenerMap.remove_duplicates;
|}.

Record DefaultSenderMap (S : Type) : Type := mkDefaultSenderMap { ds_senders : gmap Z S }.

Arguments mkDefaultSenderMap {S} _.
Arguments ds_senders {S} _.

Module SenderMap.
Section SenderMap.
Context {W S M E : Type} `{ES : EventSendProvider W S M E}.

Definition contains_send_event_provider (senders : DefaultSenderMap S) (id : Z) : bool :=
  match ds_senders senders !! id with Some _ => true | None => false end.

Definition get_send_event_provider (senders : DefaultSenderMap S) (id : Z) : option S :=
  match ds_senders senders !! id with
  | Some sender => if target_id sender =? id then Some sender else None
  | None => None
  end.

Definition add_send_event_provider (send_provider : S) (senders : DefaultSenderMap S)
    : bool * DefaultSenderMap S :=
  let id := target_id send_provider in
  match ds_senders senders !! id with
  | Some _ => (false, senders)
  | None => (true, mkDefaultSenderMap (<[id := send_provider]> (ds_senders senders)))
  end.

End SenderMap.
End SenderMap.

#[export] Instance DefaultSenderMap_provider {W S M E} `{EventSendProvider W S M E} :
  SenderMapProvider (DefaultSenderMap S) S := {|
  contains_send_event_provider := SenderMap.contains_send_event_provider;
  get_send_event_provider := SenderMap.get_send_event_provider;
  add_send_event_provider := SenderMap.add_send_event_provider;
|}.

(** [EventManager::new] with the default maps. *)
Definition manager_new {R S : Type} (event_receiver : R)
    : EventManager R (DefaultSenderMap S) DefaultListenerMap :=
  mkEventManager event_receiver (mkDefaultSenderMap ∅) (mkDefaultListenerMap ∅).

(** ** The [mpsc] queues ([std_mod])

    The store maps a channel to its queue; a handle names its channel. *)
Abbreviation Channels M := (gmap Z (channel M)).

(** A channel operation through a handle. *)
Definition on_channel {M E A : Type} (c : Z) (op : st (channel M) E A) : st (Channels M) E A :=
  fun w =>
    match w !! c with
    | Some ch => let '(r, ch') := op ch in (r, <[c := ch']> w)
    | None => (Panic, w)
    end.

Record MpscReceiver : Type := mkMpscReceiver { rx_channel : Z }.

Record EventSenderMpsc : Type := mkEventSenderMpsc { es_target_id : Z; es_sender : Z }.

Record EventSenderMpscBounded : Type := mkEventSenderMpscBounded {
  esb_target_id : Z;
  esb_sender : Z;
  esb_capacity : Z;
}.

Module Mpsc.
Section Mpsc.
Context {M : Type}.

Definition try_recv_event (rx : MpscReceiver) : st (Channels M) GenericReceiveError (option M) :=
  let* r := attempt (on_channel (rx_channel rx) Channel.try_recv) in
  match r with
  | Ok msg => ret (Some msg)
  | Err TryRecvEmpty => ret None
  | Err TryRecvDisconnected => throw (TxDisconnected None)
  | Panic => lift Panic
  end.

Definition send (s : EventSenderMpsc) (event_msg : M) : st (Channels M) GenericSendError unit :=
  st_map_err (fun _ => RxDisconnected) (on_channel (es_sender s) (Channel.send event_msg)).

Definition send_bounded (s : EventSenderMpscBounded) (event_msg : M)
    : st (Channels M) GenericSendError unit :=
  st_map_err (fun e => match e with
                       | Full => QueueFull (Some (as_u 32 (esb_capacity s)))
                       | Disconnected => RxDisconnected
                       end)
    (on_channel (esb_sender s) (Channel.try_send event_msg)).

End Mpsc.
End Mpsc.

#[export] Instance MpscReceiver_provider {M} :
  EventReceiveProvider (Channels M) MpscReceiver M GenericReceiveError := Mpsc.try_recv_event.

#[export] Instance EventSenderMpsc_provider {M} :
  EventSendProvider (Channels M) EventSenderMpsc M GenericSendError := {|
  target_id := es_target_id;
  ev_send := Mpsc.send;
|}.

#[export] Instance EventSenderMpscBounded_provider {M} :
  EventSendProvider (Channels M) EventSenderMpscBounded M GenericSendError := {|
  target_id := esb_target_id;
  ev_send := Mpsc.send_bounded;
|}.

(** ** Reference semantics of routing *)

(** A map that knows the listeners of exactly the keys it contains. *)
Class ListenerMapLaws (L : Type) `{ListenerMapProvider L} : Prop :=
  contains_iff (l : L) key :
    contains_listener l key = match get_listener_ids l key with Some _ => true | None => false end.

#[export] Instance DefaultListenerMap_laws : ListenerMapLaws DefaultListenerMap.
Proof. intros l key. reflexivity. Qed.

Section Reference.
Context {W Ev P S R SM L RE E : Type}.
Abbreviation Msg := (EventMessage Ev P).
Context `{GE : GenericEvent Ev, ES : EventSendProvider W S Msg GenericSendError,
  ER : EventReceiveProvider W R Msg RE, LM : ListenerMapProvider L,
  SMP : SenderMapProvider SM S}.
Abbreviation Man := (EventManager R SM L).

Definition listeners (m : Man) (key : ListenerKey) : list Z :=
  default [] (get_listener_ids (listener_map m) key).

(** Who gets an event: the listeners of the event, of its group and of all
    events, in that order. *)
Definition recipients (m : Man) (ev : Ev) : list Z :=
  listeners m (Single (raw_as_largest_type ev)) ++
  listeners m (Group (group_id_as_largest_type ev)) ++ listeners m All.

(** The delivery to one recipient: the error, if any, and the queues after it. *)
Definition deliver_one (m : Man) (msg : Msg) (id : Z) (w : W) : option EventRoutingError * W :=
  match get_send_event_provider (sender_map m) id with
  | None => (Some (NoSenderForId id), w)
  | Some s =>
      match ev_send s msg w with
      | (Err e, w') => (Some (SendFailed e), w')
      | (_, w') => (None, w')
      end
  end.

Fixpoint deliver (m : Man) (msg : Msg) (ids : list Z) (w : W) : list (option EventRoutingError) * W :=
  match ids with
  | [] => ([], w)
  | id :: ids' =>
      let '(o, w1) := deliver_one m msg id w in
      let '(os, w2) := deliver m msg ids' w1 in
      (o :: os, w2)
  end.

Definition successes (os : list (option EventRoutingError)) : Z := len (filter (fun o => o = None) os).

Definition errors (os : list (option EventRoutingError)) : list EventRoutingError := omap id os.

Lemma deliver_app m msg ids1 ids2 w :
  deliver m msg (ids1 ++ ids2) w =
    (let '(o1, w1) := deliver m msg ids1 w in
     let '(o2, w2) := deliver m msg ids2 w1 in (o1 ++ o2, w2)).
Proof.
  revert w. induction ids1 as [|id ids1 IH]; intros w; simpl.
  - by destruct (deliver m msg ids2 w).
  - destruct (deliver_one m msg id w) as [o w1]. rewrite IH.
    destruct (deliver m msg ids1 w1) as [o1 w2]. by destruct (deliver m msg ids2 w2).
Qed.

Lemma length_deliver m msg ids w : length (deliver m msg ids w).1 = length ids.
Proof.
  revert w. induction ids as [|id ids IH]; intros w; simpl; [done|].
  destruct (deliver_one m msg id w) as [o w1]. specialize (IH w1).
  destruct (deliver m msg ids w1). simpl in *. by rewrite IH.
Qed.

Lemma successes_cons o os :
  successes (o :: os) = successes os + (if decide (o = None) then 1 else 0).
Proof. unfold successes, len. rewrite filter_cons. case_decide; simpl; lia. Qed.

Lemma successes_app os1 os2 : successes (os1 ++ os2) = successes os1 + successes os2.
Proof. unfold successes, len. rewrite filter_app, length_app. lia. Qed.

Lemma errors_cons o os :
  errors (o :: os) = match o with Some e => e :: errors os | None => errors os end.
Proof. by destruct o. Qed.

Lemma successes_errors os : successes os + len (errors os) = len os.
Proof.
  induction os as [|o os IH]; [done|]. rewrite successes_cons, errors_cons.
  unfold len in *. destruct o; simpl; lia.
Qed.

(** *** The manager implements it *)
Section Correct.
Context {H : Type} (error_handler : Msg -> EventRoutingError -> H -> H).
Context (m : Man) (Inv : W -> Prop).
Hypothesis send_ok : forall id s msg w,
  get_send_event_provider (sender_map m) id = Some s -> Inv w ->
  (ev_send s msg w).1 <> Panic /\ Inv (ev_send s msg w).2.

Definition report (msg : Msg) (os : list (option EventRoutingError)) (h : H) : H :=
  foldl (fun h e => error_handler msg e h) h (errors os).

Lemma deliver_inv msg ids w : Inv w -> Inv (deliver m msg ids w).2.
Proof using send_ok.
  revert w. induction ids as [|id ids IH]; intros w Hw; [done|]. simpl. unfold deliver_one.
  destruct (get_send_event_provider _ id) as [s|] eqn:Hs.
  - destruct (send_ok id s msg w Hs Hw) as [_ Hw'].
    destruct (ev_send s msg w) as [[?|?|] w1]; simpl in Hw';
      specialize (IH w1 Hw'); destruct (deliver m msg ids w1); exact IH.
  - specialize (IH w Hw). by destruct (deliver m msg ids w).
Qed.

Lemma send_to_correct msg id w h n :
  Inv w -> 0 <= n < u32_max ->
  Manager.send_to (E:=E) error_handler m msg id n (w, h) =
    (let '(o, w') := deliver_one m msg id w in
     (Ok (n + if decide (o = None) then 1 else 0), (w', report msg [o] h))).
Proof using send_ok.
  intros Hw Hn. unfold Manager.send_to, deliver_one, Manager.handle_error, report, errors.
  destruct (get_send_event_provider _ id) as [s|] eqn:Hs.
  - destruct (send_ok id s msg w Hs Hw) as [Hp _].
    assert (EventMessage.new_generic (msg_sender_id msg) (msg_event msg) (msg_params msg) = msg)
      as -> by (by destruct msg).
    run_monad. destruct (ev_send s msg w) as [[[]|e|] w1]; simpl in *; [|by rewrite Z.add_0_r|done].
    unfold checked_add. rewrite (proj2 (Z.ltb_lt _ _)); [done|]. unfold u32_max in Hn. lia.
  - run_monad. by rewrite Z.add_0_r.
Qed.

Lemma send_loop_correct msg ids w h n :
  Inv w -> 0 <= n -> n + len ids <= u32_max ->
  Manager.send_loop (E:=E) error_handler m msg ids n (w, h) =
    (let '(os, w') := deliver m msg ids w in (Ok (n + successes os), (w', report msg os h))).
Proof using send_ok.
  revert w h n. induction ids as [|id ids IH]; intros w h n Hw Hn Hl; simpl.
  { unfold ret. by rewrite Z.add_0_r. }
  unfold len in *. simpl in Hl. unfold st_bind. rewrite send_to_correct by (try done; lia).
  pose proof (deliver_inv msg [id] w Hw) as Hw1. simpl in Hw1.
  destruct (deliver_one m msg id w) as [o w1]. simpl in Hw1.
  rewrite IH; [|done|case_decide; lia|case_decide; lia].
  destruct (deliver m msg ids w1) as [os w2]. rewrite successes_cons.
  unfold report, errors. destruct o; simpl; by rewrite ?Z.add_0_r, ?(Z.add_comm (successes os)), ?Z.add_assoc.
Qed.

Context `{!ListenerMapLaws L}.

Lemma send_handler_correct msg key w h n :
  Inv w -> 0 <= n -> n + len (listeners m key) <= u32_max ->
  Manager.send_handler (E:=E) error_handler m key msg n (w, h) =
    (let '(os, w') := deliver m msg (listeners m key) w in
     (Ok (n + successes os), (w', report msg os h))).
Proof using send_ok ListenerMapLaws0.
  intros Hw Hn Hl. unfold Manager.send_handler. rewrite contains_iff. unfold listeners in *.
  destruct (get_listener_ids _ key) as [ids|]; simpl in *.
  - by apply send_loop_correct.
  - unfold ret. by rewrite Z.add_0_r.
Qed.

Lemma report_app msg os1 os2 h : report msg (os1 ++ os2) h = report msg os2 (report msg os1 h).
Proof. unfold report, errors. by rewrite omap_app, foldl_app. Qed.

Lemma try_event_handling_correct w h r w0 :
  try_recv_event (event_receiver m) w = (r, w0) -> Inv w0 -> r <> Panic ->
  (forall msg, r = Ok (Some msg) -> len (recipients m (msg_event msg)) <= u32_max) ->
  Manager.try_event_handling (E:=E) error_handler m (w, h) =
    match r with
    | Ok (Some msg) =>
        let '(os, w') := deliver m msg (recipients m (msg_event msg)) w0 in
        (Ok (Handled (successes os) msg), (w', report msg os h))
    | _ => (Ok Empty, (w0, h))
    end.
Proof using send_ok ListenerMapLaws0.
  intros Hr Hw Hp Hmax. unfold Manager.try_event_handling.
  unfold st_bind at 1. unfold on_fst, attempt. simpl. rewrite Hr.
  destruct r as [[msg|]|e|]; [|done..]. specialize (Hmax msg eq_refl).
  unfold recipients in *. unfold len in Hmax. rewrite !length_app in Hmax.
  rewrite deliver_app. unfold st_bind.
  set (k1 := Single _) in *. set (k2 := Group _) in *.
  rewrite send_handler_correct by (unfold len; try done; lia).
  pose proof (deliver_inv msg (listeners m k1) w0 Hw) as Hw1.
  pose proof (length_deliver m msg (listeners m k1) w0) as Hl1.
  destruct (deliver m msg (listeners m k1) w0) as [o1 w1]. simpl in *. rewrite deliver_app.
  pose proof (successes_errors o1) as Hs1. unfold len in Hs1.
  assert (0 <= successes o1) by (unfold successes, len; lia).
  rewrite send_handler_correct by (unfold len; try done; lia).
  pose proof (deliver_inv msg (listeners m k2) w1 Hw1) as Hw2.
  pose proof (length_deliver m msg (listeners m k2) w1) as Hl2.
  destruct (deliver m msg (listeners m k2) w1) as [o2 w2]. simpl in *.
  pose proof (successes_errors o2) as Hs2. unfold len in Hs2.
  assert (0 <= successes o2) by (unfold successes, len; lia).
  rewrite send_handler_correct by (unfold len; try done; lia).
  destruct (deliver m msg (listeners m All) w2) as [o3 w3]. unfold ret.
  by rewrite !successes_app, !report_app, Z.add_assoc.
Qed.

End Correct.
End Reference.

(** ** Routing over [mpsc] channels *)
Section Mpsc.
Context {Ev P : Type} `{GE : GenericEvent Ev}.
Abbreviation Msg := (EventMessage Ev P).
Abbreviation MpscManager :=
  (EventManager MpscReceiver (DefaultSenderMap EventSenderMpsc) DefaultListenerMap).

#[local] Instance mpsc_sender_map : SenderMapProvider (DefaultSenderMap EventSenderMpsc) EventSenderMpsc :=
  DefaultSenderMap_provider (W:=Channels Msg) (M:=Msg) (E:=GenericSendError).

(** The channel behind a listener ID. *)
Definition dest (m : MpscManager) (id : Z) : option Z :=
  es_sender <$> get_send_event_provider (sender_map m) id.

(** The receiver of a channel still exists. *)
Definition alive (w : Channels Msg) (c : Z) : Prop := rx_alive <$> w !! c = Some true.

#[export] Instance alive_dec w c : Decision (alive w c).
Proof. unfold alive. apply _. Defined.

Definition put_copies (msg : Msg) (k : nat) (ch : channel Msg) : channel Msg :=
  if rx_alive ch then Channel.set_queue (queue ch ++ replicate k msg) ch else ch.

(** The error of a delivery, from the state of the channels before it. *)
Definition expected_outcome (m : MpscManager) (w : Channels Msg) (id : Z) : option EventRoutingError :=
  match dest m id with
  | None => Some (NoSenderForId id)
  | Some c => if decide (alive w c) then None else Some (SendFailed RxDisconnected)
  end.

(** Every handle of the manager is a handle of an existing channel. *)
Definition handles_ok (m : MpscManager) (w : Channels Msg) : Prop :=
  forall id c, dest m id = Some c -> is_Some (w !! c).

Lemma put_copies_add msg k ch : put_copies msg k (put_copies msg 1 ch) = put_copies msg (1 + k) ch.
Proof.
  unfold put_copies. destruct (rx_alive ch) eqn:Hr; simpl; [|by rewrite Hr].
  rewrite Hr. unfold Channel.set_queue. simpl. by rewrite <- app_assoc.
Qed.

Lemma put_copies_0 msg ch : put_copies msg 0 ch = ch.
Proof.
  unfold put_copies, Channel.set_queue. destruct ch, rx_alive; [|done]. simpl. by rewrite app_nil_r.
Qed.

(** One delivery puts one copy into the channel of the listener. *)
Lemma deliver_one_mpsc (m : MpscManager) msg id w :
  handles_ok m w ->
  deliver_one m msg id w =
    (expected_outcome m w id,
     match dest m id with
     | Some c => alter (put_copies msg 1) c w
     | None => w
     end).
Proof.
  intros Hok. unfold deliver_one, expected_outcome. specialize (Hok id). unfold dest in *.
  destruct (get_send_event_provider _ id) as [s|]; simpl in *; [|done].
  destruct (Hok _ eq_refl) as [ch Hch]. unfold Mpsc.send, st_map_err, on_channel. rewrite Hch.
  assert (alter (put_copies msg 1) (es_sender s) w =
    <[es_sender s := put_copies msg 1 ch]> w) as ->.
  { apply map_eq. intros c. destruct (decide (c = es_sender s)) as [->|Hc].
    - by rewrite lookup_alter_eq, lookup_insert_eq, Hch.
    - by rewrite lookup_alter_ne, lookup_insert_ne by done. }
  unfold Channel.send, put_copies. destruct (rx_alive ch) eqn:Hr; simpl.
  - rewrite decide_True; [done|]. unfold alive. rewrite Hch. simpl. by rewrite Hr.
  - rewrite decide_False; [done|]. unfold alive. rewrite Hch. simpl. congruence.
Qed.

Lemma handles_ok_alter (m : MpscManager) w f c : handles_ok m w -> handles_ok m (alter f c w).
Proof. intros Hok id c' Hd. apply lookup_alter_is_Some. by apply (Hok id). Qed.

Lemma alive_put w c c' msg k : alive (alter (put_copies msg k) c w) c' <-> alive w c'.
Proof.
  unfold alive. destruct (decide (c = c')) as [->|Hc]; [|by rewrite lookup_alter_ne].
  rewrite lookup_alter_eq. unfold put_copies. destruct (w !! c') as [ch|]; simpl; [|done].
  by destruct (rx_alive ch) eqn:Hr; simpl; rewrite Hr.
Qed.

Lemma mpsc_send_ok (m : MpscManager) id s msg w :
  get_send_event_provider (sender_map m) id = Some s -> handles_ok m w ->
  (Mpsc.send s msg w).1 <> Panic /\ handles_ok m (Mpsc.send s msg w).2.
Proof.
  intros Hs Hw. pose proof (deliver_one_mpsc m msg id w Hw) as Hd.
  destruct (Hw id (es_sender s)) as [ch Hch]; [unfold dest; by rewrite Hs|].
  unfold deliver_one, dest in Hd. rewrite Hs in Hd. simpl in Hd.
  unfold Mpsc.send, st_map_err, on_channel, Channel.send in *. rewrite Hch in *.
  destruct (rx_alive ch); (split; [done|]); injection Hd as _ ->; by apply handles_ok_alter.
Qed.

Definition copies (m : MpscManager) (c : Z) (ids : list Z) : nat :=
  length (filter (fun id => dest m id = Some c) ids).

Lemma deliver_mpsc (m : MpscManager) msg ids w :
  handles_ok m w ->
  (deliver m msg ids w).1 = (expected_outcome m w <$> ids) /\
  (forall c, (deliver m msg ids w).2 !! c = put_copies msg (copies m c ids) <$> w !! c).
Proof.
  revert w. induction ids as [|id ids IH]; intros w Hok.
  { split; [done|]. intros c. unfold copies. simpl. destruct (w !! c); simpl; [|done].
    by rewrite put_copies_0. }
  cbn [deliver]. rewrite deliver_one_mpsc by done. 
  set (w1 := match dest m id with Some c => alter (put_copies msg 1) c w | None => w end).
  assert (handles_ok m w1) as Hok1.
  { subst w1. destruct (dest m id); [by apply handles_ok_alter|done]. }
  destruct (IH w1 Hok1) as [Ho Hc]. destruct (deliver m msg ids w1) as [os w2]. simpl in *.
  split.
  - rewrite Ho. f_equal. apply list_fmap_ext. intros _ id' _. unfold expected_outcome.
    destruct (dest m id'); [|done]. apply decide_ext. subst w1.
    destruct (dest m id); [apply alive_put|reflexivity].
  - intros c. rewrite Hc. subst w1. unfold copies. rewrite filter_cons.
    destruct (decide (dest m id = Some c)) as [Hd|Hd].
    + rewrite Hd, lookup_alter_eq, <- option_fmap_compose. apply option_fmap_ext.
      intros ch. exact (put_copies_add msg _ ch).
    + destruct (dest m id) as [c'|]; [|done]. rewrite lookup_alter_ne by congruence. done.
Qed.

End Mpsc.

(** ** Subscriptions *)
Inductive Subscription (Ev : Type) : Type :=
| SubSingle (event : Ev) (id : Z)
| SubGroup (group_id : Z) (id : Z)
| SubAll (id : Z).

Arguments SubSingle {Ev} _ _.
Arguments SubGroup {Ev} _ _.
Arguments SubAll {Ev} _.

Section Subscriptions.
Context {Ev R SM : Type} `{GE : GenericEvent Ev}.
Abbreviation Man := (EventManager R SM DefaultListenerMap).

Definition subscribe (m : Man) (s : Subscription Ev) : Man :=
  match s with
  | SubSingle ev id => Manager.subscribe_single ev id m
  | SubGroup g id => Manager.subscribe_group g id m
  | SubAll id => Manager.subscribe_all id m
  end.

Definition sub_id (s : Subscription Ev) : Z :=
  match s with SubSingle _ id | SubGroup _ id | SubAll id => id end.

Definition sub_key (s : Subscription Ev) : ListenerKey :=
  match s with
  | SubSingle ev _ => Single (raw_as_largest_type ev)
  | SubGroup g _ => Group g
  | SubAll _ => All
  end.

(** A subscription is for an event: it, its group, or all events. *)
Definition concerns (ev : Ev) (s : Subscription Ev) : Prop :=
  match s with
  | SubSingle ev' _ => raw_as_largest_type ev' = raw_as_largest_type ev
  | SubGroup g _ => g = group_id_as_largest_type ev
  | SubAll _ => True
  end.

#[export] Instance concerns_dec ev s : Decision (concerns ev s).
Proof. destruct s; simpl; apply _. Defined.

Lemma listeners_update (m : Man) key key' id :
  listeners (Manager.update_listeners key id m) key' =
    listeners m key' ++ (if decide (key = key') then [id] else []).
Proof.
  unfold listeners, Manager.update_listeners. simpl. unfold ListenerMap.add_listener, ListenerMap.get_listener_ids.
  case_decide as Hk.
  - subst. destruct (dl_listeners (listener_map m) !! key') eqn:Hl; simpl; rewrite lookup_insert_eq; done.
  - rewrite app_nil_r. by destruct (dl_listeners (listener_map m) !! key); simpl; rewrite lookup_insert_ne.
Qed.

Lemma subscribe_update m s : subscribe m s = Manager.update_listeners (sub_key s) (sub_id s) m.
Proof. by destruct s. Qed.

Lemma listeners_subscribe (m : Man) subs key :
  listeners (foldl subscribe m subs) key =
    listeners m key ++ (sub_id <$> filter (fun s => sub_key s = key) subs).
Proof.
  revert m. induction subs as [|s subs IH]; intros m; simpl; [by rewrite app_nil_r|].
  rewrite IH, subscribe_update, listeners_update, filter_cons, <- app_assoc.
  by case_decide.
Qed.

(** The three keys of an event split the subscriptions that concern it. *)
Lemma concerns_split ev (subs : list (Subscription Ev)) :
  filter (fun s => sub_key s = Single (raw_as_largest_type ev)) subs ++
  filter (fun s => sub_key s = Group (group_id_as_largest_type ev)) subs ++
  filter (fun s => sub_key s = All) subs ≡ₚ filter (concerns ev) subs.
Proof.
  induction subs as [|s subs IH]; [done|]. rewrite !filter_cons.
  destruct s as [e id|g id|id]; simpl; repeat case_decide; simplify_eq;
    try congruence; simpl; rewrite <- IH;
    first [done | by rewrite <- Permutation_middle | by rewrite !app_assoc, <- Permutation_middle].
Qed.

End Subscriptions.

Lemma subscribe_senders {Ev R SM} `{GenericEvent Ev} (subs : list (Subscription Ev))
    (m : EventManager R SM DefaultListenerMap) :
  sender_map (foldl subscribe m subs) = sender_map m.
Proof. revert m. induction subs as [|[] subs IH]; intros m; simpl; [done|..]; by rewrite IH. Qed.

(** *** Removing duplicates *)
Lemma dedup_cons2 x y l :
  ListenerMap.dedup (x :: y :: l) =
    if x =? y then ListenerMap.dedup (y :: l) else x :: ListenerMap.dedup (y :: l).
Proof. reflexivity. Qed.

Lemma dedup_elem x l : x ∈ ListenerMap.dedup l <-> x ∈ l.
Proof.
  induction l as [|y l IH]; [done|]. destruct l as [|z l]; [done|].
  rewrite dedup_cons2. destruct (Z.eqb_spec y z) as [->|Hne].
  - rewrite IH, !elem_of_cons. tauto.
  - rewrite !elem_of_cons, IH. rewrite elem_of_cons. tauto.
Qed.

Lemma dedup_sorted l : StronglySorted Z.le l -> StronglySorted Z.lt (ListenerMap.dedup l).
Proof.
  induction l as [|y l IH]; [constructor|]. intros Hs. apply StronglySorted_inv in Hs as [Hs Hall].
  destruct l as [|z l]; [repeat constructor|]. rewrite dedup_cons2.
  destruct (Z.eqb_spec y z) as [->|Hne]; [by apply IH|].
  constructor; [by apply IH|]. apply Forall_forall. intros x Hx. rewrite dedup_elem in Hx.
  rewrite Forall_forall in Hall. assert (y <= z) by (apply Hall; left).
  apply StronglySorted_inv in Hs as [_ Hz]. rewrite Forall_forall in Hz.
  apply elem_of_cons in Hx as [->|Hx]; [lia|]. specialize (Hz x Hx). lia.
Qed.

Lemma strongly_sorted_lt_nodup l : StronglySorted Z.lt l -> NoDup l.
Proof.
  induction 1 as [|x l Hs IH Hall]; constructor; [|done].
  intros Hx. rewrite Forall_forall in Hall. specialize (Hall x Hx). lia.
Qed.

Lemma merge_sort_sorted_Z l : StronglySorted Z.le (merge_sort Z.le l).
Proof. apply StronglySorted_merge_sort; apply _. Qed.

(** *** Senders *)
Section Senders.
Context {W Ev P S R L : Type}.
Context `{ES : EventSendProvider W S (EventMessage Ev P) GenericSendError}.
Abbreviation Man := (EventManager R (DefaultSenderMap S) L).

#[local] Instance default_sender_map : SenderMapProvider (DefaultSenderMap S) S :=
  DefaultSenderMap_provider (W:=W) (M:=EventMessage Ev P) (E:=GenericSendError).

Lemma add_sender_lookup (m : Man) (s : S) id :
  ds_senders (sender_map (Manager.add_sender s m)) !! id =
    match ds_senders (sender_map m) !! id with
    | Some s' => Some s'
    | None => if target_id s =? id then Some s else None
    end.
Proof.
  unfold Manager.add_sender. simpl.
  unfold SenderMap.contains_send_event_provider, SenderMap.add_send_event_provider.
  destruct (ds_senders (sender_map m) !! target_id s) eqn:Ht; simpl;
    destruct (Z.eqb_spec (target_id s) id) as [<-|Hne].
  - by rewrite Ht.
  - by destruct (_ !! id).
  - by rewrite lookup_insert_eq, Ht.
  - rewrite lookup_insert_ne by done. by destruct (_ !! id).
Qed.

Lemma senders_lookup (ss : list S) (m : Man) id :
  ds_senders (sender_map (foldl (fun m s => Manager.add_sender s m) m ss)) !! id =
    match ds_senders (sender_map m) !! id with
    | Some s => Some s
    | None => List.find (fun s => target_id s =? id) ss
    end.
Proof.
  revert m. induction ss as [|s ss IH]; intros m; simpl; [by destruct (_ !! id)|].
  rewrite IH, add_sender_lookup. destruct (_ !! id); [done|]. by destruct (target_id s =? id).
Qed.

(** Of the senders added, the first with an ID serves it. *)
Lemma get_sender_find (ss : list S) (m : Man) id :
  ds_senders (sender_map m) = ∅ ->
  get_send_event_provider (sender_map (foldl (fun m s => Manager.add_sender s m) m ss)) id =
    List.find (fun s => target_id s =? id) ss.
Proof.
  intros Hm. simpl. unfold SenderMap.get_send_event_provider.
  rewrite senders_lookup, Hm, lookup_empty. destruct (List.find _ ss) eqn:Hf; [|done].
  apply List.find_some in Hf as [_ ->]. done.
Qed.

Lemma add_senders_listeners (ss : list S) (m : Man) :
  listener_map (foldl (fun m s => Manager.add_sender s m) m ss) = listener_map m.
Proof.
  revert m. induction ss as [|s ss IH]; intros m; simpl; [done|]. rewrite IH.
  unfold Manager.add_sender. by destruct (negb _).
Qed.

End Senders.

(** * Properties *)

(** C10: For every queue and map implementation whose sends do not panic,
    [try_event_handling] delivers the received event once per listener ID, first
    to the listeners of the event, then of its group, then of all events; each
    failed delivery goes to the error handler, in order, each other one is
    counted, so that nothing is lost silently.  Without an event, or with a
    receive error, nothing is sent and the result is [Empty]. *)
Theorem routing_correct {W Ev P S R SM L RE E H : Type}
    `{GE : GenericEvent Ev, ES : EventSendProvider W S (EventMessage Ev P) GenericSendError,
      ER : EventReceiveProvider W R (EventMessage Ev P) RE, LM : ListenerMapProvider L,
      SMP : SenderMapProvider SM S, !ListenerMapLaws L}
    (error_handler : EventMessage Ev P -> EventRoutingError -> H -> H)
    (m : EventManager R SM L) (Inv : W -> Prop) w h r w0 :
  (forall id s msg w, get_send_event_provider (sender_map m) id = Some s -> Inv w ->
     (ev_send s msg w).1 <> Panic /\ Inv (ev_send s msg w).2) ->
  try_recv_event (event_receiver m) w = (r, w0) -> Inv w0 -> r <> Panic ->
  (forall msg, r = Ok (Some msg) -> len (recipients m (msg_event msg)) <= u32_max) ->
  match r with
  | Ok (Some msg) =>
      exists os w',
        deliver m msg (recipients m (msg_event msg)) w0 = (os, w') /\
        Manager.try_event_handling (E:=E) error_handler m (w, h) =
          (Ok (Handled (successes os) msg),
           (w', foldl (fun h e => error_handler msg e h) h (errors os))) /\
        successes os + len (errors os) = len (recipients m (msg_event msg))
  | _ => Manager.try_event_handling (E:=E) error_handler m (w, h) = (Ok Empty, (w0, h))
  end.
Proof.
  intros Hsend Hr Hw Hp Hmax.
  pose proof (try_event_handling_correct (E:=E) error_handler m Inv Hsend w h r w0 Hr Hw Hp Hmax) as Ht.
  destruct r as [[msg|]|e|]; try done.
  pose proof (length_deliver m msg (recipients m (msg_event msg)) w0) as Hl.
  destruct (deliver m msg _ w0) as [os w']. exists os, w'. split; [done|]. split; [done|].
  rewrite successes_errors. unfold len. by rewrite <- Hl.
Qed.

Definition example_manager : EventManager MpscReceiver (DefaultSenderMap EventSenderMpsc) DefaultListenerMap :=
  mkEventManager (mkMpscReceiver 0)
    (mkDefaultSenderMap {[7 := mkEventSenderMpsc 7 1; 8 := mkEventSenderMpsc 8 2]})
    (mkDefaultListenerMap {[Group 5 := [7; 9]; All := [8; 7]]}).

Definition example_msg : EventMessage (Event U32) unit := EventMessage.new 3 (mkEvent High 5 9).

(** Channel 2 has lost its receiver. *)
Definition example_channels : gmap Z (channel (EventMessage (Event U32) unit)) :=
  {[0 := mkChannel [example_msg] None true true;
    1 := mkChannel [] None true true;
    2 := mkChannel [] None false true]}.

Lemma routing_correct_witness :
  match (Ok (Some example_msg) : res unit (option (EventMessage (Event U32) unit))) with
  | Ok (Some _) => True
  | _ => False
  end /\
  exists os w',
    deliver (W:=unit) (SM:=unit) (R:=unit) (S:=unit)
      (ES:={| target_id := fun _ => 7; ev_send := fun _ _ => throw RxDisconnected |})
      (SMP:={| contains_send_event_provider := fun _ id => id =? 7;
               get_send_event_provider := fun _ id => if id =? 7 then Some tt else None;
               add_send_event_provider := fun _ sm => (false, sm) |})
      (mkEventManager tt tt (listener_map example_manager)) example_msg [7; 9; 8; 7] tt = (os, w') /\
    successes os + len (errors os) = 4.
Proof.
  split; [exact I|].
  pose proof (routing_correct (E:=unit) (RE:=unit)
    (W:=unit) (SM:=unit) (R:=unit) (S:=unit)
    (ES:={| target_id := fun _ => 7; ev_send := fun _ _ => throw RxDisconnected |})
    (ER:=fun _ => ret (Some example_msg))
    (SMP:={| contains_send_event_provider := fun _ id => id =? 7;
             get_send_event_provider := fun _ id => if id =? 7 then Some tt else None;
             add_send_event_provider := fun _ sm => (false, sm) |})
    (fun _ _ (h : unit) => h) (mkEventManager tt tt (listener_map example_manager))
    (fun _ => True) tt tt (Ok (Some example_msg)) tt) as Hc.
  destruct Hc as (os & w' & Hd & _ & Hs).
  - intros ? ? ? ? _ _. split; [discriminate|exact I].
  - reflexivity.
  - exact I.
  - discriminate.
  - intros ? [= <-]. vm_compute. discriminate.
  - exists os, w'. split; [exact Hd|exact Hs].
Defined.

(** With [mpsc] queues and the default maps, an event in the manager's
    queue is taken off it, and every channel gets one copy of the event, at the
    end of its queue, for each listener ID of the event, its group or all events
    that has a sender to it, if its receiver still exists.  The other channels
    do not change.  The errors are a missing sender or a disconnected receiver;
    their count and the reported number of recipients add up to the number of
    listener IDs. *)
Theorem mpsc_routing_correct {Ev P E H} `{GE : GenericEvent Ev}
    (error_handler : EventMessage Ev P -> EventRoutingError -> H -> H)
    (m : EventManager MpscReceiver (DefaultSenderMap EventSenderMpsc) DefaultListenerMap)
    (w : gmap Z (channel (EventMessage Ev P))) h ch msg q :
  handles_ok (Ev:=Ev) (P:=P) m w -> w !! rx_channel (event_receiver m) = Some ch ->
  queue ch = msg :: q -> len (recipients m (msg_event msg)) <= u32_max ->
  let w0 := <[rx_channel (event_receiver m) := Channel.set_queue q ch]> w in
  let os := expected_outcome m w0 <$> recipients m (msg_event msg) in
  exists w',
    Manager.try_event_handling (E:=E) (RE:=GenericReceiveError)
      (SMP:=DefaultSenderMap_provider (W:=gmap Z (channel (EventMessage Ev P))))
      error_handler m (w, h) =
      (Ok (Handled (successes os) msg),
       (w', foldl (fun h e => error_handler msg e h) h (errors os))) /\
    forall c, w' !! c = put_copies msg (copies (Ev:=Ev) (P:=P) m c (recipients m (msg_event msg))) <$> w0 !! c.
Proof.
  intros Hok Hch Hq Hmax w0 os.
  assert (handles_ok m w0) as Hok0.
  { intros id c Hd. destruct (Hok id c Hd) as [x Hx]. subst w0.
    destruct (decide (c = rx_channel (event_receiver m))) as [->|Hne].
    - rewrite lookup_insert_eq. eauto.
    - rewrite lookup_insert_ne by done. eauto. }
  assert (Mpsc.try_recv_event (event_receiver m) w = (Ok (Some msg), w0)) as Hr.
  { unfold Mpsc.try_recv_event, st_bind, attempt, on_channel, Channel.try_recv. by rewrite Hch, Hq. }
  rewrite (try_event_handling_correct error_handler m (handles_ok m)) with
    (r := Ok (Some msg)) (w0 := w0); [|..].
  - destruct (deliver_mpsc m msg (recipients m (msg_event msg)) w0 Hok0) as [Ho Hc].
    destruct (deliver m msg _ w0) as [os' w']. simpl in Ho, Hc. subst os'. by exists w'.
  - intros id s msg' w1 Hs Hw1. by apply (mpsc_send_ok m id).
  - apply _.
  - exact Hr.
  - exact Hok0.
  - done.
  - by intros ? [= <-].
Qed.

Lemma mpsc_routing_correct_witness :
  exists w',
    Manager.try_event_handling (E:=unit) (RE:=GenericReceiveError)
      (SMP:=DefaultSenderMap_provider (W:=gmap Z (channel (EventMessage (Event U32) unit))))
      (fun _ e errs => errs ++ [e]) example_manager (example_channels, []) =
      (Ok (Handled 2 example_msg), (w', [NoSenderForId 9; SendFailed RxDisconnected])) /\
    w' !! 1 = Some (mkChannel [example_msg; example_msg] None true true).
Proof.
  destruct (mpsc_routing_correct (E:=unit) (fun _ e errs => errs ++ [e]) example_manager
    example_channels [] (mkChannel [example_msg] None true true) example_msg [])
    as (w' & Hr & Hc).
  - intros id c Hd. unfold dest in Hd. simpl in Hd.
    unfold SenderMap.get_send_event_provider in Hd. simpl in Hd.
    destruct (decide (id = 7)) as [->|H7]; [injection Hd as <-; vm_compute; eauto|].
    destruct (decide (id = 8)) as [->|H8]; [injection Hd as <-; vm_compute; eauto|].
    rewrite !lookup_insert_ne, lookup_singleton_ne in Hd by congruence. discriminate.
  - reflexivity.
  - reflexivity.
  - vm_compute. discriminate.
  - exists w'. split; [exact Hr|]. rewrite (Hc 1). reflexivity.
Defined.

(** The recipients of an event are, as a multiset, the IDs of the
    subscriptions to the event, to its group or to all events, in whatever order
    the subscriptions were made; and of the senders added, the first one with an
    ID serves that ID. *)
Theorem subscriptions_correct {W Ev P S R} `{GE : GenericEvent Ev}
    `{ES : EventSendProvider W S (EventMessage Ev P) GenericSendError}
    (rx : R) (subs : list (Subscription Ev)) (senders : list S) ev id :
  let m0 := foldl (fun m s =>
                Manager.add_sender (SMP:=DefaultSenderMap_provider (W:=W)) s m)
              (manager_new rx) senders in
  let m := foldl subscribe m0 subs in
  recipients m ev ≡ₚ (sub_id <$> filter (concerns ev) subs) /\
  SenderMap.get_send_event_provider (sender_map m) id =
    List.find (fun s => target_id s =? id) senders.
Proof.
  intros m0 m. split.
  - unfold recipients. subst m. rewrite !listeners_subscribe.
    assert (forall key, listeners m0 key = []) as Hl.
    { intros key. unfold listeners. assert (listener_map m0 = mkDefaultListenerMap ∅) as ->; [|done].
      exact (add_senders_listeners (ES:=ES) senders (manager_new rx)). }
    rewrite !Hl. cbn [app]. rewrite <- !fmap_app. by rewrite concerns_split.
  - subst m. rewrite subscribe_senders.
    exact (get_sender_find (ES:=ES) senders (manager_new rx) id eq_refl).
Qed.

(** [remove_duplicates] keeps exactly one entry per listener of the key, in
    ascending order, and no other key changes. *)
Theorem remove_duplicates_correct {R SM} (m : EventManager R SM DefaultListenerMap) key :
  let m' := Manager.remove_duplicates key m in
  NoDup (listeners m' key) /\ StronglySorted Z.lt (listeners m' key) /\
  (forall id, id ∈ listeners m' key <-> id ∈ listeners m key) /\
  (forall key', key' <> key -> listeners m' key' = listeners m key').
Proof.
  intros m'. subst m'.
  unfold listeners, Manager.remove_duplicates. simpl.
  unfold ListenerMap.remove_duplicates, ListenerMap.get_listener_ids.
  destruct (dl_listeners (listener_map m) !! key) as [l|] eqn:Hl; simpl.
  - rewrite lookup_insert_eq. simpl.
    pose proof (dedup_sorted _ (merge_sort_sorted_Z l)) as Hs.
    split; [by apply strongly_sorted_lt_nodup|]. split; [done|]. split.
    + intros id. by rewrite dedup_elem, merge_sort_Permutation.
    + intros key' Hk. by rewrite lookup_insert_ne.
  - rewrite Hl. simpl. repeat split; try done; constructor.
Qed.
