(* ===== verification/Services.v ===== *)
(** * PUS service handlers

    [satrs/src/pus/mod.rs] (telecommands in memory, their converters and the
    [PusServiceHelper]), [scheduler_srv.rs] (service 11), [test.rs] (service 17)
    and [event_srv.rs] (service 5).

    Telecommands arrive on a channel with their verification token, are read
    from a vector or from the shared pool, and are executed with a start and a
    completion report. *)

From Stdlib Require Import ZArith Lia Bool String.
From stdpp Require Import base list gmap.
From S2P Require Import Prelude Spacepackets Pool Scheduler Tmtc Verification Events.

Local Open Scope Z_scope.

(** ** Telecommands in memory *)
Inductive TcInMemory : Type :=
| InPool (p : PacketInPool)
| InVec (p : PacketAsVec).

Record EcssTcAndToken : Type := mkEcssTcAndToken {
  tc_in_memory : TcInMemory;
  tc_token : option TcStateToken;
}.

Definition ecss_tc_and_token_new (tc : TcInMemory) (token : TcStateToken) : EcssTcAndToken :=
  {| tc_in_memory := tc; tc_token := Some token |}.

Record AcceptedEcssTcAndToken : Type := mkAccepted {
  acc_tc_in_memory : TcInMemory;
  acc_token : VerificationToken TcStateAccepted;
}.

(** [From<AcceptedEcssTcAndToken> for EcssTcAndToken] *)
Definition accepted_into_ecss_tc (v : AcceptedEcssTcAndToken) : EcssTcAndToken :=
  {| tc_in_memory := acc_tc_in_memory v; tc_token := Some (TokAccepted (acc_token v)) |}.

(** [TryFrom<EcssTcAndToken> for AcceptedEcssTcAndToken] *)
Definition accepted_try_from (v : EcssTcAndToken) : res unit AcceptedEcssTcAndToken :=
  match tc_token v with
  | Some (TokAccepted token) => Ok {| acc_tc_in_memory := tc_in_memory v; acc_token := token |}
  | _ => Err tt
  end.

(** ** Errors and results *)
Inductive TryRecvTmtcError (PE : Type) : Type :=
| RecvTmtc (e : EcssTmtcError PE)
| RecvNothing.

Arguments RecvTmtc {PE} e.
Arguments RecvNothing {PE}.

Inductive PusTcFromMemError (PE : Type) : Type :=
| MemEcssTmtc (e : EcssTmtcError PE)
| InvalidFormat (tc : TcInMemory).

Arguments MemEcssTmtc {PE} e.
Arguments InvalidFormat {PE} tc.

Inductive GenericRoutingError : Type :=
| UnknownTargetId (id : Z)
| RoutingSend (e : GenericSendError).

Inductive GenericConversionError : Type :=
| ConvWrongService (service : Z)
| ConvInvalidSubservice (subservice : Z)
| ConvNotEnoughAppData (expected found : Z)
| ConvInvalidAppData (msg : string).

Inductive PusPacketHandlingError (PE : Type) : Type :=
| TcPolling (e : EcssTmtcError PE)
| TcFromMem (e : PusTcFromMemError PE)
| RequestConversion (e : GenericConversionError)
| RequestRouting (e : GenericRoutingError)
| InvalidVerificationToken
| OtherError (msg : string).

Arguments TcPolling {PE} e.
Arguments TcFromMem {PE} e.
Arguments RequestConversion {PE} e.
Arguments RequestRouting {PE} e.
Arguments InvalidVerificationToken {PE}.
Arguments OtherError {PE} msg.

(** The errors a handler reports to its callback and survives; [TE] is the
    [StdTimestampError] of [spacepackets]. *)
Inductive PartialPusHandlingError (PE TE : Type) : Type :=
| PartTime (e : TE)
| PartTmSend (e : EcssTmtcError PE)
| PartVerification (e : EcssTmtcError PE)
| PartNoVerificationToken.

Arguments PartTmSend {PE TE} e.
Arguments PartVerification {PE TE} e.
Arguments PartTime {PE TE} e.
Arguments PartNoVerificationToken {PE TE}.

Inductive HandlingStatus : Type := HandlingEmpty | HandledOne.

Inductive DirectPusPacketHandlerResult : Type :=
| DirectHandled (s : HandlingStatus)
| SubserviceNotImplemented (subservice : Z) (token : VerificationToken TcStateAccepted)
| CustomSubservice (subservice : Z) (token : VerificationToken TcStateAccepted).

(** ** Converters *)

(** [EcssTcInMemConverter]. *)
Class EcssTcInMemConverter (PE C : Type) : Type := {
  conv_cache : TcInMemory -> st C (PusTcFromMemError PE) unit;
  conv_tc_slice_raw : C -> list Z;
  conv_sender_id : C -> option Z;
}.

Section Provided.
Context {PE C : Type} `{EcssTcInMemConverter PE C}.
(** [PusTcReader::new] *)
Context (pus_tc_reader_new : list Z -> res PE PusTc).

(** Provided method [convert]. *)
Definition convert (c : C) : res (PusTcFromMemError PE) PusTc :=
  map_err (fun e => MemEcssTmtc (TmtcPus e)) (pus_tc_reader_new (conv_tc_slice_raw c)).

(** Provided method [cache_and_convert]. *)
Definition cache_and_convert (tc : TcInMemory) : st C (PusTcFromMemError PE) PusTc :=
  let* _ := conv_cache tc in
  asks convert.

End Provided.

Record EcssTcInVecConverter : Type := mkVecConverter {
  vc_sender_id : option Z;
  pus_tc_raw : option (list Z);
}.

Module VecConverter.

Definition default : EcssTcInVecConverter := mkVecConverter None None.

Definition cache {PE : Type} (tc : TcInMemory) : st EcssTcInVecConverter (PusTcFromMemError PE) unit :=
  let* _ := modify_state (fun c => mkVecConverter (vc_sender_id c) None) in
  match tc with
  | InPool _ => throw (InvalidFormat tc)
  | InVec p => modify_state (fun _ => mkVecConverter (Some (pav_sender_id p)) (Some (packet p)))
  end.

Definition tc_slice_raw (c : EcssTcInVecConverter) : list Z :=
  match pus_tc_raw c with None => [] | Some l => l end.

End VecConverter.

#[export] Instance VecConverter_converter {PE} : EcssTcInMemConverter PE EcssTcInVecConverter := {|
  conv_cache := VecConverter.cache;
  conv_tc_slice_raw := VecConverter.tc_slice_raw;
  conv_sender_id := vc_sender_id;
|}.

Record EcssTcInSharedStoreConverter (P : Type) : Type := mkStoreConverter {
  ssc_sender_id : option Z;
  shared_tc_store : Shared P;
  pus_buf : list Z;
}.

Arguments mkStoreConverter {P} _ _ _.
Arguments ssc_sender_id {P} _.
Arguments shared_tc_store {P} _.
Arguments pus_buf {P} _.

Module StoreConverter.
Section StoreConverter.
Context {PE P : Type} `{PoolProvider P}.

Definition new (shared_tc_store : Shared P) (max_expected_tc_size : Z) : EcssTcInSharedStoreConverter P :=
  mkStoreConverter None shared_tc_store (replicate (Z.to_nat max_expected_tc_size) 0).

(** The guard is dropped at the end of the function and deletes the packet; a
    failed read is unwrapped. *)
Definition copy_tc_to_buf (addr : Z)
    : st (EcssTcInSharedStoreConverter P) (PusTcFromMemError PE) unit :=
  fun c =>
    let s := shared_tc_store c in
    if poisoned s then (Err (MemEcssTmtc (TmtcStore LockError)), c) else
    let p := inner s in
    match pool_len_of_data p addr with
    | Err e => (Err (MemEcssTmtc (TmtcStore e)), c)
    | Panic => (Panic, c)
    | Ok tc_size =>
        if len (pus_buf c) <? tc_size then
          (Err (MemEcssTmtc (TmtcByteConversion (ToSliceTooSmall (len (pus_buf c)) tc_size))), c)
        else
          let tc_guard := Guard.new addr in
          match (let? window := slice (pus_buf c) 0 tc_size in Guard.read p tc_guard window) with
          | Ok (_, window') =>
              match Guard.drop tc_guard p with
              | (Panic, _) => (Panic, c)
              | (_, p') => (Ok tt, mkStoreConverter (ssc_sender_id c) (mkShared false p')
                                     (splice (pus_buf c) 0 window'))
              end
          | _ => (Panic, c)
          end
    end.

Definition cache (tc : TcInMemory) : st (EcssTcInSharedStoreConverter P) (PusTcFromMemError PE) unit :=
  match tc with
  | InPool p =>
      let* _ := copy_tc_to_buf (store_addr p) in
      modify_state (fun c => mkStoreConverter (Some (pip_sender_id p)) (shared_tc_store c) (pus_buf c))
  | InVec _ => throw (InvalidFormat tc)
  end.

End StoreConverter.
End StoreConverter.

#[export] Instance StoreConverter_converter {PE P} `{PoolProvider P} :
  EcssTcInMemConverter PE (EcssTcInSharedStoreConverter P) := {|
  conv_cache := StoreConverter.cache;
  conv_tc_slice_raw := pus_buf;
  conv_sender_id := ssc_sender_id;
|}.

(** ** [PusServiceHelper] *)
Record PusServiceHelper (Q V C : Type) : Type := mkHelper {
  helper_id : Z;
  tc_receiver : channel EcssTcAndToken;
  tm_sender : Q;
  verif_reporter : V;
  tc_in_mem_converter : C;
}.

Arguments mkHelper {Q V C} _ _ _ _ _.
Arguments helper_id {Q V C} _.
Arguments tc_receiver {Q V C} _.
Arguments tm_sender {Q V C} _.
Arguments verif_reporter {Q V C} _.
Arguments tc_in_mem_converter {Q V C} _.

Module Helper.
Section Helper.
Context {PE Q V C : Type} `{EcssTmSender PE Q} `{!VerificationReportingProvider PE V Q}
  `{EcssTcInMemConverter PE C}.
Abbreviation helper := (PusServiceHelper Q V C).

Definition on_receiver {E A : Type} (m : st (channel EcssTcAndToken) E A) : st helper E A :=
  fun h => let '(r, rx) := m (tc_receiver h) in
    (r, mkHelper (helper_id h) rx (tm_sender h) (verif_reporter h) (tc_in_mem_converter h)).

Definition on_converter {E A : Type} (m : st C E A) : st helper E A :=
  fun h => let '(r, c) := m (tc_in_mem_converter h) in
    (r, mkHelper (helper_id h) (tc_receiver h) (tm_sender h) (verif_reporter h) c).

(** A call of the reporter with the telemetry sender. *)
Definition on_reporter {E A : Type} (m : st (V * Q) E A) : st helper E A :=
  fun h => let '(r, (v, q)) := m (verif_reporter h, tm_sender h) in
    (r, mkHelper (helper_id h) (tc_receiver h) q v (tc_in_mem_converter h)).

Definition on_sender {E A : Type} (m : st Q E A) : st helper E A := on_reporter (on_snd m).

(** [impl EcssTcReceiver for MpscTcReceiver] *)
Definition recv_tc : st (channel EcssTcAndToken) (TryRecvTmtcError PE) EcssTcAndToken :=
  st_map_err (fun e => match e with
                       | TryRecvEmpty => RecvNothing
                       | TryRecvDisconnected => RecvTmtc (TmtcReceive (TxDisconnected None))
                       end) Channel.try_recv.

Definition retrieve_and_accept_next_packet
    : st helper (PusPacketHandlingError PE) (option AcceptedEcssTcAndToken) :=
  let* r := attempt (on_receiver recv_tc) in
  match r with
  | Ok {| tc_in_memory := tc; tc_token := token |} =>
      match token with
      | None => throw InvalidVerificationToken
      | Some token =>
          let* accepted_token :=
            lift (map_err (fun _ => InvalidVerificationToken) (TcStateToken.try_into_accepted token)) in
          ret (Some {| acc_tc_in_memory := tc; acc_token := accepted_token |})
      end
  | Err (RecvTmtc e) => throw (TcPolling e)
  | Err RecvNothing => ret None
  | Panic => lift Panic
  end.

(** The beginning the handlers share: the next packet is retrieved, cached and
    parsed. *)
Definition next_tc (pus_tc_reader_new : list Z -> res PE PusTc)
    : st helper (PusPacketHandlingError PE) (option (VerificationToken TcStateAccepted * PusTc)) :=
  let* possible_packet := retrieve_and_accept_next_packet in
  match possible_packet with
  | None => ret None
  | Some a =>
      let* _ := st_map_err TcFromMem (on_converter (conv_cache (acc_tc_in_memory a))) in
      let* tc := st_map_err TcFromMem (on_converter (asks (convert pus_tc_reader_new))) in
      ret (Some (acc_token a, tc))
  end.

End Helper.
End Helper.

(** ** The service handlers

    A handler is a helper and what it owns or is handed besides, [X]; the error
    callback is a closure with its own state [H]. *)
Definition Handler (Q V C H X : Type) : Type := (PusServiceHelper Q V C * H) * X.

(** [scheduling::Subservice] and [event::Subservice] of [spacepackets], as far as
    the handlers tell them apart. *)
Inductive SchedSubservice : Type :=
| TcEnableScheduling | TcDisableScheduling | TcResetScheduling | TcInsertActivity
| OtherScheduling (subservice : Z).

Inductive EventSubservice : Type :=
| TmInfoReport | TmLowSeverityReport | TmMediumSeverityReport | TmHighSeverityReport
| TcEnableEventGeneration | TcDisableEventGeneration | TcReportDisabledList
| TmDisabledEventsReport.

(** [pus/event_man.rs] *)
Inductive EventRequest : Type :=
| EnableEvent (event : Event U32)
| DisableEvent (event : Event U32).

Record EventRequestWithToken : Type := mkEventRequest {
  event_request : EventRequest;
  event_token : TcStateToken;
}.

Module Service.
Section Service.
Context {PE TE Q V C H X : Type} `{EcssTmSender PE Q} `{!VerificationReportingProvider PE V Q}
  `{EcssTcInMemConverter PE C}.
Context (error_callback : PartialPusHandlingError PE TE -> H -> H).
Context (pus_tc_reader_new : list Z -> res PE PusTc).
Abbreviation handler := (Handler Q V C H X).
Abbreviation PHE := (PusPacketHandlingError PE).

Definition on_helper {E A : Type} (m : st (PusServiceHelper Q V C) E A) : st handler E A :=
  on_fst (on_fst m).

Definition on_extra {E A : Type} (m : st X E A) : st handler E A := on_snd m.

Definition callback {E : Type} (e : PartialPusHandlingError PE TE) : st handler E unit :=
  on_fst (on_snd (modify_state (error_callback e))).

(** [start_success], with a failure handed to the callback. *)
Definition try_start (token : VerificationToken TcStateAccepted) (time_stamp : list Z)
    : st handler PHE (option (VerificationToken TcStateStarted)) :=
  let* r := on_helper (attempt (Helper.on_reporter (vr_start_success token time_stamp))) in
  match r with
  | Ok started_token => ret (Some started_token)
  | Err e => let* _ := callback (PartVerification e) in ret None
  | Panic => lift Panic
  end.

(** [completion_success], with a failure handed to the callback. *)
Definition try_complete (token : VerificationToken TcStateStarted) (time_stamp : list Z)
    : st handler PHE unit :=
  let* r := on_helper (attempt (Helper.on_reporter
              (vr_completion_success TcStateStarted started_accepted token time_stamp))) in
  match r with
  | Err e => callback (PartVerification e)
  | _ => ret tt
  end.

(** [.expect(..)] on a method call. *)
Definition expect_st {S E F A : Type} (m : st S E A) : st S F A :=
  fun s => let '(r, s') := m s in (expect r, s').

(** *** Service 17 ([test.rs]) *)
Definition ping_reply (apid : Z) (time_stamp : list Z) : PusTm :=
  {| tm_apid := apid; tm_seq_count := 0; tm_service := 17; tm_subservice := 2;
     tm_msg_counter := 0; tm_dest_id := 0; tm_time_stamp := time_stamp; tm_source_data := [] |}.

Definition test_poll_and_handle_next_tc (time_stamp : list Z)
    : st handler PHE DirectPusPacketHandlerResult :=
  let* p := on_helper (Helper.next_tc pus_tc_reader_new) in
  match p with
  | None => ret (DirectHandled HandlingEmpty)
  | Some (token, tc) =>
      if negb (tc_service tc =? 17) then throw (RequestConversion (ConvWrongService (tc_service tc)))
      else if tc_subservice tc =? 1 then
        let* opt_started_token := try_start token time_stamp in
        let* apid := gets (fun x : handler => vr_apid (verif_reporter x.1.1)) in
        let* id := gets (fun x : handler => helper_id x.1.1) in
        let* r := on_helper (attempt (Helper.on_sender
                    (send_tm id (Direct (ping_reply apid time_stamp))))) in
        let* _ := match r with
                  | Err e => callback (PartTmSend e)
                  | _ => ret tt
                  end in
        let* _ := match opt_started_token with
                  | Some start_token => try_complete start_token time_stamp
                  | None => ret tt
                  end in
        ret (DirectHandled HandledOne)
      else ret (CustomSubservice (tc_subservice tc) token)
  end.

End Service.

(** *** Service 11 ([scheduler_srv.rs]): the handler owns the scheduler and is
    handed the pool of the scheduled telecommands *)
Section Scheduling.
Context {PE TE TSE Q V C H T D P : Type} `{EcssTmSender PE Q} `{!VerificationReportingProvider PE V Q}
  `{EcssTcInMemConverter PE C} `{TimeOps T D} `{PoolProvider P}.
Context (error_callback : PartialPusHandlingError PE TE -> H -> H).
Context (pus_tc_reader_new : list Z -> res PE PusTc).
Context (time_from_bytes : list Z -> res TSE (T * Z)).
Context (subservice_try_from : Z -> option SchedSubservice).
Abbreviation handler := (Handler Q V C H (PusScheduler T D * P)).
Abbreviation PHE := (PusPacketHandlingError PE).

(** The two branches that switch the scheduler on and off. *)
Definition sched_switch (on : bool) (msg : string) (token : VerificationToken TcStateAccepted)
    (time_stamp : list Z) : st handler PHE unit :=
  let* opt_started_token := try_start error_callback token time_stamp in
  let* _ := on_extra (on_fst (modify_state (if on then Sched.enable else Sched.disable))) in
  let* e := gets (fun x : handler => enabled x.2.1) in
  match opt_started_token with
  | Some started_token =>
      if eqb e on then try_complete error_callback started_token time_stamp
      else throw (OtherError msg)
  | None => throw (OtherError msg)
  end.

(** The branches in which every error panics. *)
Definition sched_expect {E A : Type} (m : st (PusScheduler T D * P) E A)
    (token : VerificationToken TcStateAccepted) (time_stamp : list Z) : st handler PHE unit :=
  let* start_token := on_helper (expect_st (Helper.on_reporter (vr_start_success token time_stamp))) in
  let* _ := on_extra (expect_st m) in
  on_helper (expect_st (Helper.on_reporter
    (vr_completion_success TcStateStarted started_accepted start_token time_stamp))).

Definition sched_poll_and_handle_next_tc (time_stamp : list Z)
    : st handler PHE DirectPusPacketHandlerResult :=
  let* p := on_helper (Helper.next_tc pus_tc_reader_new) in
  match p with
  | None => ret (DirectHandled HandlingEmpty)
  | Some (token, tc) =>
      let subservice := tc_subservice tc in
      match subservice_try_from subservice with
      | None => ret (CustomSubservice subservice token)
      | Some TcEnableScheduling =>
          let* _ := sched_switch true "failed to enabled scheduler" token time_stamp in
          ret (DirectHandled HandledOne)
      | Some TcDisableScheduling =>
          let* _ := sched_switch false "failed to disable scheduler" token time_stamp in
          ret (DirectHandled HandledOne)
      | Some TcResetScheduling =>
          let* _ := sched_expect Sched.reset token time_stamp in
          ret (DirectHandled HandledOne)
      | Some TcInsertActivity =>
          let* _ := sched_expect (Sched.insert_wrapped_tc pus_tc_reader_new time_from_bytes tc)
                      token time_stamp in
          ret (DirectHandled HandledOne)
      | Some (OtherScheduling _) => ret (CustomSubservice subservice token)
      end
  end.

End Scheduling.

(** *** Service 5 ([event_srv.rs]): requests go to the event manager's queue *)
Section Event.
Context {PE TE Q V C H : Type} `{EcssTmSender PE Q} `{!VerificationReportingProvider PE V Q}
  `{EcssTcInMemConverter PE C}.
Context (error_callback : PartialPusHandlingError PE TE -> H -> H).
Context (pus_tc_reader_new : list Z -> res PE PusTc).
Context (subservice_try_from : Z -> option EventSubservice).
Abbreviation handler := (Handler Q V C H (channel EventRequestWithToken)).
Abbreviation PHE := (PusPacketHandlingError PE).

Definition handle_enable_disable_request (enable : bool) (tc : PusTc)
    (token : VerificationToken TcStateAccepted) (time_stamp : list Z) : st handler PHE unit :=
  let user_data := tc_user_data tc in
  if len user_data <? 4
  then throw (RequestConversion (ConvNotEnoughAppData 4 (len user_data)))
  else
    let* raw := lift (slice user_data 0 4) in
    let* event_u32 := lift (Event.from_raw (from_be_bytes raw)) in
    let* started := try_start error_callback token time_stamp in
    let token := match started with Some t => TokStarted t | None => TokAccepted token end in
    let req := if enable then EnableEvent event_u32 else DisableEvent event_u32 in
    st_map_err (fun _ => RequestRouting (RoutingSend RxDisconnected))
      (on_extra (Channel.send {| event_request := req; event_token := token |})).

Definition event_poll_and_handle_next_tc (time_stamp : list Z)
    : st handler PHE DirectPusPacketHandlerResult :=
  let* p := on_helper (Helper.next_tc pus_tc_reader_new) in
  match p with
  | None => ret (DirectHandled HandlingEmpty)
  | Some (token, tc) =>
      let subservice := tc_subservice tc in
      match subservice_try_from subservice with
      | None => ret (CustomSubservice subservice token)
      | Some (TmInfoReport | TmLowSeverityReport | TmMediumSeverityReport | TmHighSeverityReport) =>
          throw (RequestConversion (ConvWrongService subservice))
      | Some TcEnableEventGeneration =>
          let* _ := handle_enable_disable_request true tc token time_stamp in
          ret (DirectHandled HandledOne)
      | Some TcDisableEventGeneration =>
          let* _ := handle_enable_disable_request false tc token time_stamp in
          ret (DirectHandled HandledOne)
      | Some (TcReportDisabledList | TmDisabledEventsReport) =>
          ret (SubserviceNotImplemented subservice token)
      end
  end.

End Event.
End Service.

(** ** Reception *)
Section Reception.
Context {PE Q V C : Type} `{EcssTcInMemConverter PE C}.
Context (parse : list Z -> res PE PusTc).

(** The helper after its next message was taken off the queue. *)
Definition received (h : PusServiceHelper Q V C) (rest : list EcssTcAndToken) (c : C)
    : PusServiceHelper Q V C :=
  mkHelper (helper_id h) (Channel.set_queue rest (tc_receiver h)) (tm_sender h) (verif_reporter h) c.

(** What [next_tc] does with the message at the head of the queue. *)
Lemma next_tc_queued (h : PusServiceHelper Q V C) msg rest :
  queue (tc_receiver h) = msg :: rest ->
  Helper.next_tc parse h =
    match tc_token msg with
    | Some (TokAccepted t) =>
        match conv_cache (tc_in_memory msg) (tc_in_mem_converter h) with
        | (Ok _, c) =>
            (match parse (conv_tc_slice_raw c) with
             | Ok tc => Ok (Some (t, tc))
             | Err e => Err (TcFromMem (MemEcssTmtc (TmtcPus e)))
             | Panic => Panic
             end, received h rest c)
        | (Err e, c) => (Err (TcFromMem e), received h rest c)
        | (Panic, c) => (Panic, received h rest c)
        end
    | _ => (Err InvalidVerificationToken, received h rest (tc_in_mem_converter h))
    end.
Proof.
  intros Hq. unfold Helper.next_tc, Helper.retrieve_and_accept_next_packet, Helper.recv_tc,
    Helper.on_receiver, Helper.on_converter, Channel.try_recv, convert, received.
  destruct msg as [mem [[]|]]; run_monad; rewrite Hq; simpl; try done.
  destruct (conv_cache mem _) as [[[]|?|] c]; simpl; [|done|done].
  by destruct (parse _).
Qed.

Lemma next_tc_nothing (h : PusServiceHelper Q V C) :
  queue (tc_receiver h) = [] ->
  Helper.next_tc parse h =
    (if tx_alive (tc_receiver h) then Ok None
     else Err (TcPolling (TmtcReceive (TxDisconnected None))), h).
Proof.
  intros Hq. destruct h as [id rx q v c]. simpl in *.
  unfold Helper.next_tc, Helper.retrieve_and_accept_next_packet, Helper.recv_tc,
    Helper.on_receiver, Channel.try_recv.
  run_monad. rewrite Hq. by destruct (tx_alive rx).
Qed.

End Reception.

(** ** Reports of the handlers *)
Section Reports.
Context {PE TE C H X : Type} `{PusErrorOps PE} `{EcssTcInMemConverter PE C}.
Context (error_callback : PartialPusHandlingError PE TE -> H -> H).
Abbreviation Q := (list (Z * PusTmVariant)).
Abbreviation handler := (Handler Q VerificationReporter C H X).
Implicit Types (v : VerificationReporter) (q : Q).

Lemma start_reported v q t stamp :
  4 <= len (source_data_buf v) ->
  exists v', vr_start_success (PE:=PE) t stamp (v, q) =
    (Ok (mkToken (request_id t)), (v', q ++ [sent v 3 stamp (success_data (request_id t) None)])) /\
    same_reporter v v'.
Proof.
  intros Hl. apply (report_success (PE:=PE) (mkToken (s:=TcStateStarted) (request_id t))
    (fun c => ReportCreator.start_success c t 0 0 stamp) v q (request_id t) 3 stamp None); [done|done|].
  intros c buf. reflexivity.
Qed.

Lemma completion_reported v q (t : VerificationToken TcStateStarted) stamp :
  4 <= len (source_data_buf v) ->
  exists v', vr_completion_success (PE:=PE) TcStateStarted started_accepted t stamp (v, q) =
    (Ok tt, (v', q ++ [sent v 7 stamp (success_data (request_id t) None)])) /\ same_reporter v v'.
Proof.
  intros Hl. apply (report_success (PE:=PE) tt
    (fun c => Reporter.no_token (ReportCreator.completion_success c t 0 0 stamp))
    v q (request_id t) 7 stamp None); [done|done|].
  intros c buf. reflexivity.
Qed.

(** A helper with its reporter and sender replaced. *)
Definition with_reports (h : PusServiceHelper Q VerificationReporter C) v q :=
  mkHelper (helper_id h) (tc_receiver h) q v (tc_in_mem_converter h).

Lemma try_start_ok (h : PusServiceHelper Q VerificationReporter C) (cb : H) (x : X) t stamp :
  4 <= len (source_data_buf (verif_reporter h)) ->
  exists v', Service.try_start error_callback t stamp ((h, cb), x) =
    (Ok (Some (mkToken (request_id t))),
     ((with_reports h v' (tm_sender h ++
         [sent (verif_reporter h) 3 stamp (success_data (request_id t) None)]), cb), x)) /\
    same_reporter (verif_reporter h) v'.
Proof.
  intros Hl. destruct (start_reported (verif_reporter h) (tm_sender h) t stamp Hl) as (v' & Hs & Hv).
  exists v'. split; [|done]. unfold Service.try_start, Service.on_helper, Helper.on_reporter.
  unfold st_bind, on_fst, attempt. cbn [fst snd]. by rewrite Hs.
Qed.

Lemma try_complete_ok (h : PusServiceHelper Q VerificationReporter C) (cb : H) (x : X) t stamp :
  4 <= len (source_data_buf (verif_reporter h)) ->
  exists v', Service.try_complete error_callback t stamp ((h, cb), x) =
    (Ok tt,
     ((with_reports h v' (tm_sender h ++
         [sent (verif_reporter h) 7 stamp (success_data (request_id t) None)]), cb), x)) /\
    same_reporter (verif_reporter h) v'.
Proof.
  intros Hl. destruct (completion_reported (verif_reporter h) (tm_sender h) t stamp Hl)
    as (v' & Hs & Hv).
  exists v'. split; [|done]. unfold Service.try_complete, Service.on_helper, Helper.on_reporter.
  unfold st_bind, on_fst, attempt. cbn [fst snd]. by rewrite Hs.
Qed.

Lemma sent_same v v' ss stamp data : same_reporter v v' -> sent v' ss stamp data = sent v ss stamp data.
Proof. intros (Ho & Hc & Hh & _). unfold sent. by rewrite Ho, Hc, Hh. Qed.

Lemma same_reporter_trans v1 v2 v3 : same_reporter v1 v2 -> same_reporter v2 v3 -> same_reporter v1 v3.
Proof. unfold same_reporter. intros (-> & -> & -> & ->) (? & ? & ? & ?). by split_and!; congruence. Qed.

End Reports.

(** ** The scheduling service *)
Section SchedService.
Context {PE TE TSE C H T D P : Type} `{PusErrorOps PE} `{EcssTcInMemConverter PE C}.
Context `{TO : TimeOps T D} `{TL : !TimeLaws T D} `{PP : PoolProvider P} `{PS : !PoolSpec P}.
Context (error_callback : PartialPusHandlingError PE TE -> H -> H).
Context (parse : list Z -> res PE PusTc) (time_from_bytes : list Z -> res TSE (T * Z)).
Abbreviation Q := (list (Z * PusTmVariant)).
Implicit Types (h : PusServiceHelper Q VerificationReporter C) (cb : H) (s : PusScheduler T D).

(** The start and the completion report of a telecommand. *)
Definition executed_reports h (r : RequestId) (stamp : list Z) : Q :=
  [sent (verif_reporter h) 3 stamp (success_data r None);
   sent (verif_reporter h) 7 stamp (success_data r None)].

Lemma sched_switch_ok (on : bool) msg h cb s p (t : VerificationToken TcStateAccepted) stamp :
  4 <= len (source_data_buf (verif_reporter h)) ->
  exists v', Service.sched_switch (P:=P) error_callback on msg t stamp ((h, cb), (s, p)) =
    (Ok tt, ((with_reports h v' (tm_sender h ++ executed_reports h (request_id t) stamp), cb),
             ((if on then Sched.enable s else Sched.disable s), p))).
Proof.
  intros Hl. unfold Service.sched_switch, st_bind.
  destruct (try_start_ok error_callback h cb (s, p) t stamp Hl) as (v1 & -> & Hv1).
  destruct (try_complete_ok error_callback
    (with_reports h v1 (tm_sender h ++
      [sent (verif_reporter h) 3 stamp (success_data (request_id t) None)])) cb
    (if on then Sched.enable s else Sched.disable s, p) (mkToken (request_id t)) stamp)
    as (v2 & Hc & _); [destruct Hv1 as (_ & _ & _ & Hb); simpl; lia|].
  exists v2. unfold Service.on_extra, on_snd, on_fst, modify_state, gets, executed_reports.
  unfold with_reports in *. cbn [verif_reporter tm_sender helper_id tc_receiver
    tc_in_mem_converter request_id] in Hc.
  rewrite (sent_same _ _ 7 _ _ Hv1), <- app_assoc in Hc.
  destruct on; exact Hc.
Qed.

Lemma sched_expect_run {E A} (m : st (PusScheduler T D * P) E A) h cb sp
    (t : VerificationToken TcStateAccepted) stamp :
  4 <= len (source_data_buf (verif_reporter h)) ->
  match m sp with
  | (Ok _, sp') => exists v', Service.sched_expect m t stamp ((h, cb), sp) =
      (Ok tt, ((with_reports h v' (tm_sender h ++ executed_reports h (request_id t) stamp), cb), sp'))
  | _ => (Service.sched_expect m t stamp ((h, cb), sp)).1 = Panic
  end.
Proof.
  intros Hl. unfold Service.sched_expect, Service.on_helper, Service.on_extra, Service.expect_st,
    Helper.on_reporter, st_bind, on_fst, on_snd. cbn [fst snd].
  destruct (start_reported (verif_reporter h) (tm_sender h) t stamp Hl) as (v1 & -> & Hv1).
  cbn [fst snd expect]. destruct (m sp) as [[a|e|] sp']; [|done|done]. cbn [fst snd expect].
  cbn [verif_reporter tm_sender helper_id tc_receiver tc_in_mem_converter].
  destruct (completion_reported v1
    (tm_sender h ++ [sent (verif_reporter h) 3 stamp (success_data (request_id t) None)])
    (mkToken (request_id t)) stamp) as (v2 & -> & _); [destruct Hv1 as (_ & _ & _ & Hb); lia|].
  exists v2. unfold with_reports, executed_reports. cbn [request_id].
  by rewrite (sent_same _ _ 7 _ _ Hv1), <- app_assoc.
Qed.

(** What the handler does for a subservice it knows. *)
Definition sched_branch (sub : SchedSubservice) (t : VerificationToken TcStateAccepted) (tc : PusTc)
    (stamp : list Z) : st (Handler Q VerificationReporter C H (PusScheduler T D * P))
      (PusPacketHandlingError PE) unit :=
  match sub with
  | TcEnableScheduling => Service.sched_switch error_callback true "failed to enabled scheduler" t stamp
  | TcDisableScheduling => Service.sched_switch error_callback false "failed to disable scheduler" t stamp
  | TcResetScheduling => Service.sched_expect Sched.reset t stamp
  | TcInsertActivity => Service.sched_expect (Sched.insert_wrapped_tc parse time_from_bytes tc) t stamp
  | OtherScheduling _ => ret tt
  end.

Lemma insert_wrapped_ok (tc : PusTc) s p m info s' p' :
  pool_rep p m -> sched_inv s m -> (forall d, parse d <> Panic) ->
  Sched.insert_wrapped_tc parse time_from_bytes tc (s, p) = (Ok info, (s', p')) ->
  exists pkt, m !! addr info = None /\ pool_rep p' (<[addr info := pkt]> m) /\
    sched_inv s' (<[addr info := pkt]> m).
Proof.
  intros Hrep Hinv Hp. unfold Sched.insert_wrapped_tc.
  destruct (negb (_ =? 11)); [done|]. destruct (negb (_ =? 4)); [done|]. destruct (_ =? 0); [done|].
  unfold st_bind, lift. destruct (time_from_bytes _) as [[stamp n]|?|]; simpl; [|done|done].
  destruct (slice _ n _) as [rest|?|]; simpl; [|done|done]. intros Hrun.
  pose proof (insert_unwrapped_tc_spec (TimestampError:=TSE) parse stamp rest s p m Hrep Hinv
    (Hp rest)) as Hi.
  rewrite Hrun in Hi. destruct Hi as (view & _ & _ & _ & _ & Hn & _ & ? & ?). by exists rest.
Qed.

End SchedService.

(** ** The event service *)
Section EventService.
Context {PE TE C H : Type} `{PusErrorOps PE} `{EcssTcInMemConverter PE C}.
Context (error_callback : PartialPusHandlingError PE TE -> H -> H).

(** What the handler does for a subservice. *)
Definition event_branch (sub : option EventSubservice) (t : VerificationToken TcStateAccepted)
    (tc : PusTc) (stamp : list Z)
    : st (Handler (list (Z * PusTmVariant)) VerificationReporter C H (channel EventRequestWithToken))
        (PusPacketHandlingError PE) DirectPusPacketHandlerResult :=
  match sub with
  | None => ret (CustomSubservice (tc_subservice tc) t)
  | Some TcEnableEventGeneration =>
      let* _ := Service.handle_enable_disable_request error_callback true tc t stamp in
      ret (DirectHandled HandledOne)
  | Some TcDisableEventGeneration =>
      let* _ := Service.handle_enable_disable_request error_callback false tc t stamp in
      ret (DirectHandled HandledOne)
  | Some (TcReportDisabledList | TmDisabledEventsReport) =>
      ret (SubserviceNotImplemented (tc_subservice tc) t)
  | Some _ => throw (RequestConversion (ConvWrongService (tc_subservice tc)))
  end.

Lemma enable_disable_run (enable : bool)
    (h : PusServiceHelper (list (Z * PusTmVariant)) VerificationReporter C) (cb : H) ch
    (t : VerificationToken TcStateAccepted) tc stamp :
  4 <= len (source_data_buf (verif_reporter h)) -> Forall byte (tc_user_data tc) ->
  let run := Service.handle_enable_disable_request error_callback enable tc t stamp ((h, cb), ch) in
  if len (tc_user_data tc) <? 4 then
    run = (Err (RequestConversion (ConvNotEnoughAppData 4 (len (tc_user_data tc)))), ((h, cb), ch))
  else exists e v',
    event_ok e /\ Event.raw e = from_be_bytes (take 4 (tc_user_data tc)) /\
    let h1 := with_reports h v' (tm_sender h ++
                [sent (verif_reporter h) 3 stamp (success_data (request_id t) None)]) in
    run = if rx_alive ch then
        (Ok tt, ((h1, cb), Channel.set_queue
           (queue ch ++ [mkEventRequest (if enable then EnableEvent e else DisableEvent e)
                           (TokStarted (mkToken (request_id t)))]) ch))
      else (Err (RequestRouting (RoutingSend RxDisconnected)), ((h1, cb), ch)).
Proof.
  intros Hl Hb run. subst run. unfold Service.handle_enable_disable_request.
  destruct (Z.ltb_spec (len (tc_user_data tc)) 4) as [|H4]; [done|].
  assert (in_u (raw_bits U32) (from_be_bytes (take 4 (tc_user_data tc)))) as Hin.
  { pose proof (from_be_bytes_range (take 4 (tc_user_data tc)) (Forall_take _ _ _ Hb)) as Hr.
    unfold len in *. rewrite length_take, Nat.min_l in Hr by lia. exact Hr. }
  destruct (from_raw_exists (E:=PusPacketHandlingError PE) U32 _ (or_introl eq_refl) Hin)
    as (e & He & Hok & Hraw).
  destruct (try_start_ok error_callback h cb ch t stamp Hl) as (v' & Hs & _).
  exists e, v'. split; [done|]. split; [done|].
  unfold st_bind, lift. rewrite slice_ok by lia.
  change (take (Z.to_nat (4 - 0)) (drop (Z.to_nat 0) (tc_user_data tc))) with (take 4 (tc_user_data tc)).
  rewrite He, Hs. unfold st_map_err, Service.on_extra, on_snd, Channel.send. cbn [fst snd].
  by destruct (rx_alive ch).
Qed.

End EventService.

(** * Properties *)

(** With telecommands in vectors, every call of a handler takes exactly one
    message off the queue, and hands on the telecommand parsed from its packet
    with its token exactly when the token is an accepted one, the message holds a
    vector, and the packet parses.  Nothing of an earlier packet is left in the
    converter.  An empty queue is no error as long as a sender exists. *)
Theorem vec_next_tc_correct {PE Q V} (parse : list Z -> res PE PusTc)
    (h : PusServiceHelper Q V EcssTcInVecConverter) :
  let '(r, h') := Helper.next_tc parse h in
  match queue (tc_receiver h) with
  | [] => h' = h /\
      r = if tx_alive (tc_receiver h) then Ok None
          else Err (TcPolling (TmtcReceive (TxDisconnected None)))
  | msg :: rest =>
      tc_receiver h' = Channel.set_queue rest (tc_receiver h) /\
      tm_sender h' = tm_sender h /\ verif_reporter h' = verif_reporter h /\
      r = match tc_token msg, tc_in_memory msg with
          | Some (TokAccepted t), InVec p =>
              match parse (packet p) with
              | Ok tc => Ok (Some (t, tc))
              | Err e => Err (TcFromMem (MemEcssTmtc (TmtcPus e)))
              | Panic => Panic
              end
          | Some (TokAccepted t), InPool p => Err (TcFromMem (InvalidFormat (InPool p)))
          | _, _ => Err InvalidVerificationToken
          end
  end.
Proof.
  destruct (queue (tc_receiver h)) as [|msg rest] eqn:Hq.
  - by rewrite next_tc_nothing.
  - rewrite (next_tc_queued parse h msg rest Hq). unfold received.
    destruct msg as [[p|p] [[]|]]; simpl; try done; by destruct (parse (packet p)).
Qed.

(** The converter of the shared pool with a message that points into it. *)
Lemma store_cache_spec {PE P} `{PP : PoolProvider P} `{PS : !PoolSpec P} p m sid buf pk :
  pool_rep p m -> pool_known (store_addr pk) ->
  let c := mkStoreConverter sid (mkShared false p) buf in
  match m !! store_addr pk with
  | Some d =>
      if len buf <? len d then
        StoreConverter.cache (PE:=PE) (InPool pk) c =
          (Err (MemEcssTmtc (TmtcByteConversion (ToSliceTooSmall (len buf) (len d)))), c)
      else exists p', pool_rep p' (base.delete (store_addr pk) m) /\
        StoreConverter.cache (PE:=PE) (InPool pk) c =
          (Ok tt, mkStoreConverter (Some (pip_sender_id pk)) (mkShared false p') (d ++ drop (length d) buf))
  | None => StoreConverter.cache (PE:=PE) (InPool pk) c = (Panic, c) \/
      exists e, StoreConverter.cache (PE:=PE) (InPool pk) c = (Err (MemEcssTmtc (TmtcStore e)), c)
  end.
Proof.
  intros Hrep Hk c. set (a := store_addr pk) in *. unfold c, StoreConverter.cache, st_bind, StoreConverter.copy_tc_to_buf.
  fold a. cbn [shared_tc_store poisoned inner pus_buf].
  destruct (m !! a) as [d|] eqn:Ha.
  - rewrite (pool_len_some p m a d Hrep Ha). destruct (Z.ltb_spec (len buf) (len d)) as [Hl|Hl]; [done|].
    rewrite slice_ok by (unfold len in *; lia). cbn [res_bind].
    unfold Guard.read. cbn [guard_addr Guard.new]. rewrite (pool_read_some p m a d) by done.
    rewrite Z.sub_0_r. change (Z.to_nat 0) with 0%nat. rewrite drop_0.
    assert (length (take (Z.to_nat (len d)) buf) = length d) as Ht
      by (rewrite length_take; unfold len in *; lia).
    unfold len at 1. rewrite Ht, Z.ltb_irrefl, drop_ge, app_nil_r by lia. cbn [res_bind].
    destruct (pool_delete_some p m a d Hrep Ha) as (p' & Hd & Hrep').
    unfold Guard.drop. cbn [no_deletion Guard.new guard_addr]. unfold st_bind, attempt.
    rewrite Hd. cbn. unfold splice. cbn [take app Z.to_nat]. rewrite Nat.add_0_l. by exists p'.
  - destruct (pool_len_none p m a Hrep Hk Ha) as [-> | [e ->]]; [|simpl; right; by exists e].
    destruct (pool_read_none p m a [] Hrep Hk Ha) as [e He].
    destruct (Z.ltb_spec (len buf) 0); [unfold len in *; lia|].
    rewrite slice_ok by (unfold len in *; lia). cbn [res_bind]. unfold Guard.read.
    change (take (Z.to_nat (0 - 0)) (drop (Z.to_nat 0) buf)) with (@nil Z).
    cbn [guard_addr Guard.new]. rewrite He. by left.
Qed.

(** C11: With telecommands in the shared pool, whatever the handler did before: an
    empty queue is no error as long as a sender exists; otherwise exactly the first
    message is taken off the queue, and neither the reporter nor the telemetry sender
    is touched.  When its token is an accepted one, the packet it points to is copied
    to the front of the buffer, parsed from there, and deleted from the pool, where
    nothing else changes; a packet larger than the buffer is refused and stays in the
    pool.  A message without an accepted token, or with a vector, is refused and leaves
    the pool and the buffer alone.  An address the pool knows but holds no packet for is
    never handed on: the call fails with the pool's error, or it panics. *)
Theorem store_next_tc_correct {PE Q V P} `{PP : PoolProvider P}
    `{PS : !PoolSpec P} (parse : list Z -> res PE PusTc)
    (h : PusServiceHelper Q V (EcssTcInSharedStoreConverter P)) p m sid buf :
  tc_in_mem_converter h = mkStoreConverter sid (mkShared false p) buf -> pool_rep p m ->
  let '(r, h') := Helper.next_tc parse h in
  match queue (tc_receiver h) with
  | [] => h' = h /\
      r = if tx_alive (tc_receiver h) then Ok None
          else Err (TcPolling (TmtcReceive (TxDisconnected None)))
  | msg :: rest =>
      tc_receiver h' = Channel.set_queue rest (tc_receiver h) /\
      tm_sender h' = tm_sender h /\ verif_reporter h' = verif_reporter h /\ helper_id h' = helper_id h /\
      match tc_token msg, tc_in_memory msg with
      | Some (TokAccepted t), InPool pk =>
          pool_known (store_addr pk) ->
          match m !! store_addr pk with
          | Some d =>
              if len buf <? len d then
                r = Err (TcFromMem (MemEcssTmtc (TmtcByteConversion (ToSliceTooSmall (len buf) (len d))))) /\
                tc_in_mem_converter h' = tc_in_mem_converter h
              else
                r = match parse (d ++ drop (length d) buf) with
                    | Ok tc => Ok (Some (t, tc))
                    | Err e => Err (TcFromMem (MemEcssTmtc (TmtcPus e)))
                    | Panic => Panic
                    end /\
                exists p', tc_in_mem_converter h' =
                    mkStoreConverter (Some (pip_sender_id pk)) (mkShared false p') (d ++ drop (length d) buf) /\
                  pool_rep p' (base.delete (store_addr pk) m)
          | None => tc_in_mem_converter h' = tc_in_mem_converter h /\
              (r = Panic \/ exists e, r = Err (TcFromMem (MemEcssTmtc (TmtcStore e))))
          end
      | Some (TokAccepted _), InVec v =>
          r = Err (TcFromMem (InvalidFormat (InVec v))) /\ tc_in_mem_converter h' = tc_in_mem_converter h
      | _, _ => r = Err InvalidVerificationToken /\ tc_in_mem_converter h' = tc_in_mem_converter h
      end
  end.
Proof.
  intros Hc Hrep. destruct (queue (tc_receiver h)) as [|msg rest] eqn:Hq; [by rewrite next_tc_nothing|].
  rewrite (next_tc_queued parse h msg rest Hq), Hc. unfold received.
  destruct msg as [[pk|v] [[t|t|t|t]|]]; try done.
  cbn [tc_token tc_in_memory conv_cache StoreConverter_converter conv_tc_slice_raw].
  destruct (StoreConverter.cache _ _) as [r c] eqn:Hcache.
  destruct r as [[]|e|]; [destruct (parse (pus_buf c)) eqn:Hp| |]; do 4 (split; [done|]); intros Hk;
    pose proof (store_cache_spec (PE:=PE) p m sid buf pk Hrep Hk) as Hs; cbv zeta in Hs; rewrite Hcache in Hs;
    (destruct (m !! store_addr pk) as [d|]; [destruct (len buf <? len d); [|destruct Hs as (p' & Hr & Hs)]|destruct Hs as [Hs|(e' & Hs)]];
     simplify_eq; cbn [tc_in_mem_converter pus_buf] in *; rewrite ?Hp; eauto 6).
Qed.

#[local] Instance ex_pus_error : PusErrorOps unit := fun _ => tt.

Definition ex_request : RequestId := mkRequestId 0 6145 49153.

Lemma store_next_tc_correct_witness :
  exists p a p1 h', StaticPool.new ex_config = Ok p /\ pool_add [7; 8; 9] p = (Ok a, p1) /\
    Helper.next_tc ex_parse
      (mkHelper 0 (mkChannel [mkEcssTcAndToken (InPool (mkPacketInPool 4 a))
                                (Some (TokAccepted (mkToken ex_request)))] None true true)
         tt tt (mkStoreConverter (Some 9) (mkShared false p1) [0; 0; 0; 0])) =
      (Ok (Some (mkToken ex_request, mkPusTc 0 0 0 7 7 17 1 0 [])), h') /\
    pus_buf (tc_in_mem_converter h') = [7; 8; 9; 0].
Proof.
  destruct (new_spec ex_config ex_config_addressable) as (p & Hp & Hrep & _).
  pose proof (pool_add_spec (PoolSpec:=StaticPool_spec) p ∅ [7; 8; 9] Hrep) as Ha.
  destruct (pool_add [7; 8; 9] p) as [[a|e|] p1] eqn:Hadd; [| |destruct Ha].
  - destruct Ha as (_ & Hk & Hrep1).
    pose proof (store_next_tc_correct (PS:=StaticPool_spec) ex_parse
      (mkHelper 0 (mkChannel [mkEcssTcAndToken (InPool (mkPacketInPool 4 a))
                                (Some (TokAccepted (mkToken ex_request)))] None true true)
         tt tt (mkStoreConverter (Some 9) (mkShared false p1) [0; 0; 0; 0]))
      p1 _ (Some 9) [0; 0; 0; 0] eq_refl Hrep1) as Hx.
    destruct (Helper.next_tc _ _) as [r h'] eqn:Hrun. destruct Hx as (_ & _ & _ & _ & Hx). specialize (Hx Hk).
    cbn [store_addr] in Hx. rewrite lookup_insert_eq in Hx. destruct Hx as (-> & p' & Hc & _).
    exists p, a, p1, h'. split; [exact Hp|]. split; [exact Hadd|]. split; [exact Hrun|].
    rewrite Hc. reflexivity.
  - exfalso. vm_compute in Hp. injection Hp as <-. vm_compute in Hadd. discriminate.
Defined.

(** An address without a packet: its length is 0, and the failed read panics. *)
Example store_stale_address_panics :
  match StaticPool.new ex_config with
  | Ok p =>
      (Helper.next_tc ex_parse
         (mkHelper 0 (mkChannel [mkEcssTcAndToken (InPool (mkPacketInPool 4 1))
                                   (Some (TokAccepted (mkToken ex_request)))] None true true)
            tt tt (mkStoreConverter None (mkShared false p) [0; 0; 0; 0]))).1 = Panic
  | _ => False
  end.
Proof. vm_compute. reflexivity. Qed.

(** C12: The scheduling service executes each of its telecommands once, between a
    start and a completion report with the request ID of the telecommand: enable
    and disable switch the scheduler, reset empties it and deletes its packets
    from the pool, an insertion leaves the schedule and the pool consistent.
    Other subservices are returned to the caller, with nothing reported or
    changed.  An insertion that the scheduler refuses panics. *)
Theorem sched_service_correct {PE TE TSE C H T D P} `{PusErrorOps PE} `{EcssTcInMemConverter PE C}
    `{TO : TimeOps T D} `{TL : !TimeLaws T D} `{PP : PoolProvider P} `{PS : !PoolSpec P}
    (error_callback : PartialPusHandlingError PE TE -> H -> H) (parse : list Z -> res PE PusTc)
    (time_from_bytes : list Z -> res TSE (T * Z)) (subservice_try_from : Z -> option SchedSubservice)
    (h h' : PusServiceHelper (list (Z * PusTmVariant)) VerificationReporter C) cb s p m t tc stamp :
  Helper.next_tc parse h = (Ok (Some (t, tc)), h') ->
  4 <= len (source_data_buf (verif_reporter h')) ->
  pool_rep p m -> sched_inv s m -> (forall d, parse d <> Panic) ->
  let run := Service.sched_poll_and_handle_next_tc error_callback parse time_from_bytes
               subservice_try_from stamp ((h, cb), (s, p)) in
  let executed sp := exists v', run = (Ok (DirectHandled HandledOne),
        ((with_reports h' v' (tm_sender h' ++ executed_reports h' (request_id t) stamp), cb), sp)) in
  match subservice_try_from (tc_subservice tc) with
  | None | Some (OtherScheduling _) =>
      run = (Ok (CustomSubservice (tc_subservice tc) t), ((h', cb), (s, p)))
  | Some TcEnableScheduling => executed (Sched.enable s, p)
  | Some TcDisableScheduling => executed (Sched.disable s, p)
  | Some TcResetScheduling => exists p',
      executed (mkPusScheduler [] (current_time s) (time_margin s) false, p') /\
      pool_rep p' (drop_addrs (scheduled s) m)
  | Some TcInsertActivity =>
      match Sched.insert_wrapped_tc parse time_from_bytes tc (s, p) with
      | (Ok info, (s', p')) => executed (s', p') /\
          exists pkt, m !! addr info = None /\ pool_rep p' (<[addr info := pkt]> m) /\
            sched_inv s' (<[addr info := pkt]> m)
      | _ => run.1 = Panic
      end
  end.
Proof.
  intros Hn Hl Hrep Hinv Hp run executed.
  assert (Hrun : run = match subservice_try_from (tc_subservice tc) with
    | None | Some (OtherScheduling _) =>
        (Ok (CustomSubservice (tc_subservice tc) t), ((h', cb), (s, p)))
    | Some sub => (let* _ := sched_branch error_callback parse time_from_bytes sub t tc stamp in
        ret (DirectHandled HandledOne)) ((h', cb), (s, p))
    end).
  { subst run. unfold Service.sched_poll_and_handle_next_tc. unfold st_bind at 1.
    unfold Service.on_helper, on_fst. cbn [fst snd]. rewrite Hn.
    by destruct (subservice_try_from _) as [[]|]. }
  subst executed. destruct (subservice_try_from _) as [[]|]; [| | | |exact Hrun|exact Hrun];
    unfold st_bind in Hrun; cbn [sched_branch] in Hrun.
  - destruct (sched_switch_ok error_callback true "failed to enabled scheduler" h' cb s p t stamp Hl)
      as (v' & Hs). rewrite Hs in Hrun. by exists v'.
  - destruct (sched_switch_ok error_callback false "failed to disable scheduler" h' cb s p t stamp Hl)
      as (v' & Hs). rewrite Hs in Hrun. by exists v'.
  - destruct (reset_spec s p m Hrep Hinv) as (p' & Hr & Hrep').
    pose proof (sched_expect_run (PE:=PE) Sched.reset h' cb (s, p) t stamp Hl) as Hs.
    rewrite Hr in Hs. destruct Hs as (v' & Hs). rewrite Hs in Hrun. exists p'. split; [by exists v'|done].
  - pose proof (sched_expect_run (PE:=PE) (Sched.insert_wrapped_tc parse time_from_bytes tc)
      h' cb (s, p) t stamp Hl) as Hs.
    destruct (Sched.insert_wrapped_tc parse time_from_bytes tc (s, p)) as [[info|e|] [s' p']] eqn:Hi.
    + destruct Hs as (v' & Hs). rewrite Hs in Hrun. split; [by exists v'|].
      by eapply (insert_wrapped_ok parse time_from_bytes).
    + rewrite Hrun. destruct (Service.sched_expect _ _ _ _) as [r x]. simpl in Hs. by subst.
    + rewrite Hrun. destruct (Service.sched_expect _ _ _ _) as [r x]. simpl in Hs. by subst.
Qed.

(** A service-11 view of the packets of the examples. *)
Definition ex_sched_parse (tc : list Z) : res unit PusTc :=
  match tc with
  | [] => Err tt
  | b :: _ => Ok (mkPusTc 0 0 0 7 1 11 b 0 [])
  end.

Definition ex_reporter : VerificationReporter :=
  mkReporter 3 (replicate 16 0) (mkCreator 0 7) (fun tm => tm).

(** A helper whose queue holds one accepted telecommand. *)
Definition ex_helper (tc : list Z)
    : PusServiceHelper (list (Z * PusTmVariant)) VerificationReporter EcssTcInVecConverter :=
  mkHelper 9 (mkChannel [mkEcssTcAndToken (InVec (mkPacketAsVec 4 tc))
                           (Some (TokAccepted (mkToken ex_request)))] None true true)
    [] ex_reporter VecConverter.default.

Lemma sched_service_correct_witness :
  exists x v' h' p', ex_state = Ok x /\ scheduled x.1 <> [] /\
    Service.sched_poll_and_handle_next_tc (PE:=unit) (TE:=unit) (TSE:=unit) (fun _ cb => cb)
      ex_sched_parse (fun _ => Err tt) (fun ss => if ss =? 3 then Some TcResetScheduling else None)
      [64] ((ex_helper [3], tt), x) =
      (Ok (DirectHandled HandledOne),
       ((with_reports h' v' [sent ex_reporter 3 [64] [24; 1; 192; 1]; sent ex_reporter 7 [64] [24; 1; 192; 1]],
         tt), (mkPusScheduler [] 0 5 false, p'))).
Proof.
  destruct ex_state_consistent as ([s p] & Hx & m & Hrep & Hinv).
  destruct (sched_service_correct (PE:=unit) (TE:=unit) (TSE:=unit) (fun _ cb => cb)
    ex_sched_parse (fun _ => Err tt) (fun ss => if ss =? 3 then Some TcResetScheduling else None)
    (ex_helper [3]) (received (ex_helper [3]) [] (mkVecConverter (Some 4) (Some [3]))) tt s p m
    (mkToken ex_request) (mkPusTc 0 0 0 7 1 11 3 0 []) [64]) as (p' & (v' & Hrun) & _).
  - reflexivity.
  - vm_compute. discriminate.
  - exact Hrep.
  - exact Hinv.
  - intros []; discriminate.
  - exists (s, p), v'. eexists _, p'. split; [exact Hx|]. vm_compute in Hx. injection Hx as Hs Hp.
    split; [subst s; discriminate|]. subst s. exact Hrun.
Defined.

(** The test service answers a ping (service 17, subservice 1) with a start
    report, the ping reply from the reporter's APID and a completion report, in
    this order.  Telecommands of another service are refused and other
    subservices returned to the caller, with nothing sent. *)
Theorem test_service_correct {PE TE C H X} `{PusErrorOps PE} `{EcssTcInMemConverter PE C}
    (error_callback : PartialPusHandlingError PE TE -> H -> H) (parse : list Z -> res PE PusTc)
    (h h' : PusServiceHelper (list (Z * PusTmVariant)) VerificationReporter C) cb (x : X) t tc stamp :
  Helper.next_tc parse h = (Ok (Some (t, tc)), h') ->
  4 <= len (source_data_buf (verif_reporter h')) ->
  let run := Service.test_poll_and_handle_next_tc error_callback parse stamp ((h, cb), x) in
  let rep ss := sent (verif_reporter h') ss stamp (success_data (request_id t) None) in
  if decide (tc_service tc <> 17) then
    run = (Err (RequestConversion (ConvWrongService (tc_service tc))), ((h', cb), x))
  else if decide (tc_subservice tc = 1) then
    exists v', run = (Ok (DirectHandled HandledOne),
      ((with_reports h' v' (tm_sender h' ++
          [rep 3;
           (helper_id h', Direct (Service.ping_reply
              (creator_apid (reporter_creator (verif_reporter h'))) stamp));
           rep 7]), cb), x))
  else run = (Ok (CustomSubservice (tc_subservice tc) t), ((h', cb), x)).
Proof.
  intros Hn Hl run rep. subst rep. case_decide as Hs; [|case_decide as Hss]; subst run;
    unfold Service.test_poll_and_handle_next_tc; unfold st_bind at 1; unfold Service.on_helper at 1;
    unfold on_fst at 1 2; cbn [fst snd]; rewrite Hn.
  { by rewrite (proj2 (Z.eqb_neq _ _) Hs). }
  2: { rewrite (proj2 (Z.eqb_neq _ _) Hss). by destruct (Z.eqb_spec (tc_service tc) 17). }
  destruct (Z.eqb_spec (tc_service tc) 17); [|done]. cbn [negb].
  rewrite (proj2 (Z.eqb_eq _ _) Hss). unfold st_bind.
  destruct (try_start_ok error_callback h' cb x t stamp Hl) as (v1 & -> & Hv1).
  unfold gets, Service.on_helper, Helper.on_sender, Helper.on_reporter, attempt, on_fst, on_snd.
  cbn [fst snd with_reports verif_reporter tm_sender helper_id tc_receiver tc_in_mem_converter
       send_tm recording_sender].
  unfold ret.
  match goal with
  | |- context [Service.try_complete _ _ _ ((?hc, _), _)] =>
      destruct (try_complete_ok error_callback hc cb x (mkToken (request_id t)) stamp)
        as (v2 & Hc & _); [destruct Hv1 as (_ & _ & _ & Hb); simpl; lia|]
  end.
  rewrite Hc. exists v2.
  unfold with_reports. cbn [verif_reporter tm_sender helper_id tc_receiver tc_in_mem_converter request_id].
  rewrite (sent_same _ _ 7 _ _ Hv1), <- !app_assoc. destruct Hv1 as (_ & Hcr & _).
  cbn [vr_apid Reporter_provider]. by rewrite Hcr.
Qed.

Definition ex_ping_parse (tc : list Z) : res unit PusTc := Ok (mkPusTc 0 0 0 7 1 17 1 0 tc).

Lemma test_service_correct_witness :
  exists h' v', Service.test_poll_and_handle_next_tc (PE:=unit) (TE:=unit) (fun _ cb => cb)
      ex_ping_parse [64] ((ex_helper [17; 1], tt), tt) =
    (Ok (DirectHandled HandledOne),
     ((with_reports h' v'
         [sent ex_reporter 3 [64] [24; 1; 192; 1]; (9, Direct (Service.ping_reply 7 [64]));
          sent ex_reporter 7 [64] [24; 1; 192; 1]], tt), tt)).
Proof.
  destruct (test_service_correct (PE:=unit) (TE:=unit) (fun _ cb => cb)
    ex_ping_parse (ex_helper [17; 1])
    (received (ex_helper [17; 1]) [] (mkVecConverter (Some 4) (Some [17; 1]))) tt tt
    (mkToken ex_request) (mkPusTc 0 0 0 7 1 17 1 0 [17; 1]) [64]) as (v' & Hrun).
  - reflexivity.
  - vm_compute. discriminate.
  - eexists _, v'. exact Hrun.
Defined.

(** The event service turns an enable or disable telecommand with at least
    four bytes of data into the request for the event those bytes encode: a start
    report is sent and the request, with the started token, is put at the end of
    the event manager's queue.  Shorter data is refused with nothing sent; if the
    manager is gone the caller is told; report subservices are refused, the
    others are returned to the caller. *)
Theorem event_service_correct {PE TE C H} `{PusErrorOps PE} `{EcssTcInMemConverter PE C}
    (error_callback : PartialPusHandlingError PE TE -> H -> H) (parse : list Z -> res PE PusTc)
    (subservice_try_from : Z -> option EventSubservice)
    (h h' : PusServiceHelper (list (Z * PusTmVariant)) VerificationReporter C) cb ch t tc stamp :
  Helper.next_tc parse h = (Ok (Some (t, tc)), h') ->
  4 <= len (source_data_buf (verif_reporter h')) -> Forall byte (tc_user_data tc) ->
  let data := tc_user_data tc in
  let run := Service.event_poll_and_handle_next_tc error_callback parse subservice_try_from stamp
               ((h, cb), ch) in
  let requested (request : Event U32 -> EventRequest) :=
    if len data <? 4 then
      run = (Err (RequestConversion (ConvNotEnoughAppData 4 (len data))), ((h', cb), ch))
    else exists e v',
      event_ok e /\ Event.raw e = from_be_bytes (take 4 data) /\
      let h1 := with_reports h' v' (tm_sender h' ++
                  [sent (verif_reporter h') 3 stamp (success_data (request_id t) None)]) in
      if rx_alive ch then
        run = (Ok (DirectHandled HandledOne),
               ((h1, cb), Channel.set_queue
                  (queue ch ++ [mkEventRequest (request e) (TokStarted (mkToken (request_id t)))]) ch))
      else run = (Err (RequestRouting (RoutingSend RxDisconnected)), ((h1, cb), ch)) in
  match subservice_try_from (tc_subservice tc) with
  | Some TcEnableEventGeneration => requested EnableEvent
  | Some TcDisableEventGeneration => requested DisableEvent
  | Some (TcReportDisabledList | TmDisabledEventsReport) =>
      run = (Ok (SubserviceNotImplemented (tc_subservice tc) t), ((h', cb), ch))
  | Some _ => run = (Err (RequestConversion (ConvWrongService (tc_subservice tc))), ((h', cb), ch))
  | None => run = (Ok (CustomSubservice (tc_subservice tc) t), ((h', cb), ch))
  end.
Proof.
  intros Hn Hl Hb data run requested.
  assert (Hrun : run = event_branch error_callback (subservice_try_from (tc_subservice tc)) t tc stamp
                         ((h', cb), ch)).
  { subst run. unfold Service.event_poll_and_handle_next_tc. unfold st_bind at 1.
    unfold Service.on_helper, on_fst. cbn [fst snd]. rewrite Hn.
    by destruct (subservice_try_from _) as [[]|]. }
  subst requested data. destruct (subservice_try_from _) as [[]|]; try exact Hrun.
  - pose proof (enable_disable_run error_callback true h' cb ch t tc stamp Hl Hb) as Hx.
    unfold event_branch, st_bind in Hrun. rewrite Hrun.
    destruct (len (tc_user_data tc) <? 4); [by rewrite Hx|].
    destruct Hx as (e & v' & He & Hr & Hx). exists e, v'. split; [done|]. split; [done|]. cbv zeta in *.
    rewrite Hx. by destruct (rx_alive ch).
  - pose proof (enable_disable_run error_callback false h' cb ch t tc stamp Hl Hb) as Hx.
    unfold event_branch, st_bind in Hrun. rewrite Hrun.
    destruct (len (tc_user_data tc) <? 4); [by rewrite Hx|].
    destruct Hx as (e & v' & He & Hr & Hx). exists e, v'. split; [done|]. split; [done|]. cbv zeta in *.
    rewrite Hx. by destruct (rx_alive ch).
Qed.

Definition ex_event_parse (tc : list Z) : res unit PusTc := Ok (mkPusTc 0 0 0 7 1 5 5 0 tc).

Lemma event_service_correct_witness :
  exists e v' h', Event.raw e = 655385 /\
    Service.event_poll_and_handle_next_tc (PE:=unit) (TE:=unit) (fun _ cb => cb) ex_event_parse
      (fun ss => if ss =? 5 then Some TcEnableEventGeneration else None) [64]
      ((ex_helper [0; 10; 0; 25], tt), mkChannel [] None true true) =
      (Ok (DirectHandled HandledOne),
       ((with_reports h' v' [sent ex_reporter 3 [64] [24; 1; 192; 1]], tt),
        mkChannel [mkEventRequest (EnableEvent e) (TokStarted (mkToken ex_request))] None true true)).
Proof.
  destruct (event_service_correct (PE:=unit) (TE:=unit) (fun _ cb => cb) ex_event_parse
    (fun ss => if ss =? 5 then Some TcEnableEventGeneration else None)
    (ex_helper [0; 10; 0; 25])
    (received (ex_helper [0; 10; 0; 25]) [] (mkVecConverter (Some 4) (Some [0; 10; 0; 25])))
    tt (mkChannel [] None true true) (mkToken ex_request)
    (mkPusTc 0 0 0 7 1 5 5 0 [0; 10; 0; 25]) [64]) as (e & v' & _ & Hr & Hrun).
  - reflexivity.
  - vm_compute. discriminate.
  - repeat constructor; unfold byte; lia.
  - exists e, v'. eexists. split; [exact Hr|exact Hrun].
Defined.
