(* ===== verification/Encoding.v ===== *)
(** * Packet framing ([satrs/src/encoding/ccsds.rs] and [cobs.rs])

    The parsers of a raw byte buffer: tightly packed CCSDS space packets and
    COBS frames between zero bytes.  The packet header and the COBS code are
    functions of other packages and parameters here. *)

From Stdlib Require Import ZArith Lia Bool.
From stdpp Require Import base list.
From S2P Require Import Prelude Spacepackets Tmtc.

Local Open Scope Z_scope.

(** [PacketSenderRaw] ([tmtc/mod.rs]). *)
Class PacketSenderRaw (E Q : Type) : Type := raw_send_packet : Z -> list Z -> st Q E unit.

#[export] Instance mpsc_raw_sender : PacketSenderRaw GenericSendError (channel PacketAsVec) :=
  MpscSender.send_packet.

(** ** CCSDS space packets *)
Inductive SpValidity : Type := Valid | Skip | Invalid.

Record ParseResult : Type := mkParseResult {
  packets_found : Z;
  incomplete_tail_start : option Z;
}.

Module Ccsds.
Section Ccsds.
(** [SpHeader], [SpHeader::from_be_bytes] and [CcsdsPacket::total_len] of
    [spacepackets]; the validator is the user's. *)
Context {Hdr : Type} (sp_from_be_bytes : list Z -> res ByteConversionError Hdr)
  (total_len : Hdr -> Z) (validate : Hdr -> list Z -> SpValidity).
Context {E Q : Type} `{PacketSenderRaw E Q}.

Definition default : ParseResult := mkParseResult 0 None.

(** Every iteration advances the index, so [length buf] iterations are enough. *)
Fixpoint parse_loop (fuel : nat) (buf : list Z) (sender_id current_idx : Z) (parse_result : ParseResult)
    : st Q E ParseResult :=
  if len buf <? current_idx + 7 then ret parse_result else
  match fuel with
  | O => lift Panic
  | S fuel' =>
      let* tail := lift (slice buf current_idx (len buf)) in
      let* sp_header := lift (expect (sp_from_be_bytes tail)) in
      match validate sp_header tail with
      | Valid =>
          let packet_size := total_len sp_header in
          if current_idx + packet_size <=? len buf then
            let* packet := lift (slice buf current_idx (current_idx + packet_size)) in
            let* _ := raw_send_packet sender_id packet in
            let* n := lift (checked_add 32 (packets_found parse_result) 1) in
            parse_loop fuel' buf sender_id (current_idx + packet_size)
              (mkParseResult n (incomplete_tail_start parse_result))
          else
            parse_loop fuel' buf sender_id (current_idx + packet_size)
              (mkParseResult (packets_found parse_result) (Some current_idx))
      | Skip => parse_loop fuel' buf sender_id (current_idx + total_len sp_header) parse_result
      | Invalid => parse_loop fuel' buf sender_id (current_idx + 1) parse_result
      end
  end.

Definition parse_buffer_for_ccsds_space_packets (buf : list Z) (sender_id : Z) : st Q E ParseResult :=
  parse_loop (length buf) buf sender_id 0 default.

End Ccsds.
End Ccsds.

(** ** COBS frames *)

(** The parser's variables. *)
Record CobsState : Type := mkCobsState {
  cobs_buf : list Z;
  start_index_packet : Z;
  start_found : bool;
  cobs_found : Z;
}.

Module Cobs.
Section Cobs.
(** [encode], [max_encoding_length] and [decode_in_place] of the [cobs] package;
    [encode] writes its result to the front of the destination, and decoding
    gives the length of the packet or fails, and leaves its bytes in the slice in
    either case. *)
Context (encode : list Z -> list Z) (max_encoding_length : Z -> Z)
  (decode_in_place : list Z -> option Z * list Z).

(** The result with the buffer and the index, which are [&mut] arguments. *)
Definition encode_packet_with_cobs {E : Type} (packet encoded_buf : list Z) (current_idx : Z)
    : res E (bool * list Z * Z) :=
  let max_encoding_len := max_encoding_length (len packet) in
  if len encoded_buf <? current_idx + max_encoding_len + 2
  then Ok (false, encoded_buf, current_idx)
  else
    let? encoded_buf := set_index encoded_buf current_idx 0 in
    let current_idx := current_idx + 1 in
    let enc := encode packet in
    let? encoded_buf := copy_into encoded_buf current_idx (current_idx + len enc) enc in
    let current_idx := current_idx + len enc in
    let? encoded_buf := set_index encoded_buf current_idx 0 in
    let current_idx := current_idx + 1 in
    Ok (true, encoded_buf, current_idx).

Section Parser.
Context {E Q : Type} `{PacketSenderRaw E Q}.

(** The body of the loop, for byte [i]. *)
Definition cobs_step (sender_id i : Z) (s : CobsState) : st Q E CobsState :=
  let buf := cobs_buf s in
  let last_byte := i =? len buf - 1 in
  let* b := lift (index buf i) in
  if b =? 0 then
    let* skip :=
      if negb (start_found s) && negb last_byte
      then let* next := lift (index buf (i + 1)) in ret (next =? 0)
      else ret false in
    if skip then ret s
    else if start_found s then
      let* window := lift (slice buf (start_index_packet s) i) in
      let '(decode_result, window') := decode_in_place window in
      let* buf' := lift (copy_into buf (start_index_packet s) i window') in
      match decode_result with
      | Some packet_len =>
          let* n := lift (checked_add 32 (cobs_found s) 1) in
          let* packet := lift (slice buf' (start_index_packet s) (start_index_packet s + packet_len)) in
          let* _ := raw_send_packet sender_id packet in
          ret (mkCobsState buf' (start_index_packet s) false n)
      | None => ret (mkCobsState buf' (start_index_packet s) false (cobs_found s))
      end
    else ret (mkCobsState buf (i + 1) true (cobs_found s))
  else ret s.

(** [for i in 0..buf.len()], with [n] bytes to go. *)
Fixpoint cobs_loop (sender_id : Z) (n : nat) (i : Z) (s : CobsState) : st Q E CobsState :=
  match n with
  | O => ret s
  | S n' => let* s' := cobs_step sender_id i s in cobs_loop sender_id n' (i + 1) s'
  end.

(** The result, the buffer and [next_write_idx]. *)
Definition parse_buffer_for_cobs_encoded_packets (buf : list Z) (sender_id next_write_idx : Z)
    : st Q E (Z * list Z * Z) :=
  let* s := cobs_loop sender_id (length buf) 0 (mkCobsState buf 0 false 0) in
  let buf := cobs_buf s in
  if (0 <? start_index_packet s) && start_found s && (0 <? cobs_found s) then
    let* tail := lift (slice buf (start_index_packet s - 1) (len buf)) in
    ret (cobs_found s, splice buf 0 tail, len buf - start_index_packet s + 1)
  else ret (cobs_found s, buf, next_write_idx).

End Parser.
End Cobs.
End Cobs.

(** ** Segmentation of a buffer of space packets *)
Section Segments.
Context {Hdr : Type} (sp_from_be_bytes : list Z -> res ByteConversionError Hdr)
  (total_len : Hdr -> Z) (validate : Hdr -> list Z -> SpValidity).

(** A header starts at the front of the buffer, and the verdict on it. *)
Definition header_at (buf : list Z) (size : Z) (v : SpValidity) : Prop :=
  7 <= len buf /\
  exists hdr, sp_from_be_bytes buf = Ok hdr /\ total_len hdr = size /\ validate hdr buf = v.

(** [segments buf packets tail]: the packets of a buffer that are to be
    forwarded, and where an incomplete one starts. *)
Inductive segments : list Z -> list (list Z) -> option Z -> Prop :=
| seg_short buf : len buf < 7 -> segments buf [] None
| seg_valid packet rest packets tail :
    header_at (packet ++ rest) (len packet) Valid -> segments rest packets tail ->
    segments (packet ++ rest) (packet :: packets) (Z.add (len packet) <$> tail)
| seg_incomplete buf size :
    header_at buf size Valid -> len buf < size -> segments buf [] (Some 0)
| seg_skip packet rest packets tail :
    header_at (packet ++ rest) (len packet) Skip -> segments rest packets tail ->
    segments (packet ++ rest) packets (Z.add (len packet) <$> tail)
| seg_skip_beyond buf size :
    header_at buf size Skip -> len buf < size -> segments buf [] None
| seg_resync b rest packets tail size :
    header_at (b :: rest) size Invalid -> segments rest packets tail ->
    segments (b :: rest) packets (Z.add 1 <$> tail).

(** What the parser needs of the header: it can be read from seven bytes, and no
    packet is shorter than that. *)
Hypothesis header_total : forall buf, 7 <= len buf -> exists hdr, sp_from_be_bytes buf = Ok hdr.
Hypothesis total_len_min : forall hdr, 7 <= total_len hdr.

Lemma segments_exist buf : exists packets tail, segments buf packets tail.
Proof using header_total total_len_min.
  remember (length buf) as n eqn:Hn. revert buf Hn.
  induction (lt_wf n) as [n _ IH]. intros buf ->.
  destruct (Z_lt_le_dec (len buf) 7) as [Hs|Hs]; [by exists [], None; constructor|].
  destruct (header_total buf Hs) as [hdr Hh]. pose proof (total_len_min hdr) as Hm.
  destruct (validate hdr buf) eqn:Hv.
  - destruct (Z_lt_le_dec (len buf) (total_len hdr)) as [Hi|Hi].
    { exists [], (Some 0). eapply seg_incomplete; [split; [done|by exists hdr]|done]. }
    destruct (IH (length (drop (Z.to_nat (total_len hdr)) buf))) with (buf := drop (Z.to_nat (total_len hdr)) buf)
      as (ps & t & Hseg); [unfold len in *; rewrite length_drop; lia|done|].
    pose proof (seg_valid (take (Z.to_nat (total_len hdr)) buf)
      (drop (Z.to_nat (total_len hdr)) buf) ps t) as Hc. rewrite take_drop in Hc.
    eexists _, _. apply Hc; [|exact Hseg]. split; [done|]. exists hdr. split; [done|]. split; [|done].
    unfold len in *. rewrite length_take. lia.
  - destruct (Z_lt_le_dec (len buf) (total_len hdr)) as [Hi|Hi].
    { exists [], None. eapply seg_skip_beyond; [split; [done|by exists hdr]|done]. }
    destruct (IH (length (drop (Z.to_nat (total_len hdr)) buf))) with (buf := drop (Z.to_nat (total_len hdr)) buf)
      as (ps & t & Hseg); [unfold len in *; rewrite length_drop; lia|done|].
    pose proof (seg_skip (take (Z.to_nat (total_len hdr)) buf)
      (drop (Z.to_nat (total_len hdr)) buf) ps t) as Hc. rewrite take_drop in Hc.
    eexists _, _. apply Hc; [|exact Hseg]. split; [done|]. exists hdr. split; [done|]. split; [|done].
    unfold len in *. rewrite length_take. lia.
  - destruct buf as [|b rest]; [unfold len in Hs; simpl in Hs; lia|].
    destruct (IH (length rest)) with (buf := rest) as (ps & t & Hseg); [simpl; lia|done|].
    eexists _, _. eapply seg_resync; [|exact Hseg]. split; [done|by exists hdr].
Qed.

(** *** The parser follows the segmentation *)
Abbreviation parse_loop := (Ccsds.parse_loop sp_from_be_bytes total_len validate).

(** The channel after the packets were sent to it. *)
Definition forwarded (sender_id : Z) (packets : list (list Z)) (q : channel PacketAsVec) :=
  Channel.set_queue (queue q ++ (mkPacketAsVec sender_id <$> packets)) q.

Lemma forwarded_nil sender_id q : forwarded sender_id [] q = q.
Proof. destruct q. unfold forwarded, Channel.set_queue. simpl. by rewrite app_nil_r. Qed.

Lemma forwarded_cons sender_id p ps q :
  forwarded sender_id ps (forwarded sender_id [p] q) = forwarded sender_id (p :: ps) q.
Proof. unfold forwarded, Channel.set_queue. simpl. by rewrite <- app_assoc. Qed.

(** An iteration on a header. *)
Lemma parse_step fuel pre buf id pr (q : channel PacketAsVec) size v :
  header_at buf size v -> 0 <= packets_found pr < u32_max ->
  parse_loop (S fuel) (pre ++ buf) id (len pre) pr q =
    match v with
    | Valid =>
        if size <=? len buf then
          if rx_alive q then
            parse_loop fuel (pre ++ buf) id (len pre + size)
              (mkParseResult (packets_found pr + 1) (incomplete_tail_start pr))
              (forwarded id [take (Z.to_nat size) buf] q)
          else (Err RxDisconnected, q)
        else parse_loop fuel (pre ++ buf) id (len pre + size)
               (mkParseResult (packets_found pr) (Some (len pre))) q
    | Skip => parse_loop fuel (pre ++ buf) id (len pre + size) pr q
    | Invalid => parse_loop fuel (pre ++ buf) id (len pre + 1) pr q
    end.
Proof using total_len_min.
  intros (H7 & hdr & Hh & <- & Hv) Hf. cbn [Ccsds.parse_loop].
  rewrite len_app. destruct (Z.ltb_spec (len pre + len buf) (len pre + 7)); [lia|].
  pose proof (total_len_min hdr) as Hm. pose proof (len_nonneg pre).
  unfold st_bind, lift. rewrite slice_ok by (rewrite ?len_app; lia).
  assert (take (Z.to_nat (len pre + len buf - len pre)) (drop (Z.to_nat (len pre)) (pre ++ buf)) = buf) as ->.
  { unfold len. rewrite Nat2Z.id, drop_app_length. apply take_ge. lia. }
  rewrite Hh. cbn [expect]. rewrite Hv. destruct v; [|done|done].
  destruct (Z.leb_spec (len pre + total_len hdr) (len pre + len buf)) as [Hle|Hle];
    destruct (Z.leb_spec (total_len hdr) (len buf)); try lia; [|done].
  rewrite slice_ok by (rewrite ?len_app; lia).
  unfold raw_send_packet, mpsc_raw_sender, MpscSender.send_packet, st_map_err, Channel.send.
  destruct (rx_alive q); [|done]. cbn [map_err]. unfold checked_add.
  rewrite (proj2 (Z.ltb_lt (packets_found pr + 1) (2 ^ 32))) by (unfold u32_max in Hf; lia).
  replace (len pre + total_len hdr - len pre) with (total_len hdr) by lia.
  unfold forwarded, len at 2. by rewrite Nat2Z.id, drop_app_length.
Qed.

Lemma parse_end fuel buf id idx pr (q : channel PacketAsVec) :
  len buf < idx + 7 -> parse_loop fuel buf id idx pr q = (Ok pr, q).
Proof.
  intros Hs. destruct fuel; cbn [Ccsds.parse_loop];
    by destruct (Z.ltb_spec (len buf) (idx + 7)); [|lia].
Qed.

(** The next segment, after the ones in [pre]. *)
Lemma next_segment (pre packet rest : list Z) :
  pre ++ packet ++ rest = (pre ++ packet) ++ rest /\ len pre + len packet = len (pre ++ packet).
Proof. by rewrite app_assoc, len_app. Qed.

(** A header needs fuel. *)
Ltac header_fuel Hh := destruct Hh; unfold len in *; simpl in *; lia.

Lemma parse_segments buf packets tail :
  segments buf packets tail ->
  forall fuel pre id pr (q : channel PacketAsVec),
  (length buf <= fuel)%nat -> 0 <= packets_found pr -> packets_found pr + len packets < u32_max ->
  if rx_alive q then
    parse_loop fuel (pre ++ buf) id (len pre) pr q =
      (Ok (mkParseResult (packets_found pr + len packets)
             (match tail with Some t => Some (len pre + t) | None => incomplete_tail_start pr end)),
       forwarded id packets q)
  else packets <> [] -> parse_loop fuel (pre ++ buf) id (len pre) pr q = (Err RxDisconnected, q).
Proof using total_len_min.
  induction 1 as [buf Hs|packet rest packets tail Hh Hseg IH|buf size Hh Hs|packet rest packets tail Hh Hseg IH
    |buf size Hh Hs|b rest packets tail size Hh Hseg IH];
    intros fuel pre id pr q Hfuel Hf0 Hf.
  - destruct (rx_alive q); [|done]. rewrite parse_end by (rewrite len_app; lia).
    destruct pr. by rewrite forwarded_nil, Z.add_0_r.
  - destruct fuel as [|fuel]; [header_fuel Hh|].
    assert (7 <= len packet) as H7 by (destruct Hh as (_ & hdr & _ & <- & _); apply total_len_min).
    rewrite (parse_step fuel pre _ id pr q (len packet) Valid Hh) by (unfold len in *; simpl in *; lia).
    destruct (Z.leb_spec (len packet) (len (packet ++ rest))); [|rewrite len_app in *; unfold len in *; lia].
    assert (take (Z.to_nat (len packet)) (packet ++ rest) = packet) as ->
      by (unfold len; rewrite Nat2Z.id; apply take_app_length).
    destruct (next_segment pre packet rest) as [-> ->].
    specialize (IH fuel (pre ++ packet) id (mkParseResult (packets_found pr + 1) (incomplete_tail_start pr))
      (forwarded id [packet] q)).
    destruct (rx_alive q) eqn:Hq; [|done]. unfold forwarded at 1 in IH. cbn [rx_alive Channel.set_queue] in IH.
    rewrite Hq in IH. rewrite IH;
      [|rewrite length_app in Hfuel; unfold len in H7; lia|simpl; lia|unfold len in *; simpl in *; lia].
    cbn [packets_found incomplete_tail_start]. rewrite forwarded_cons, len_cons, Z.add_assoc.
    destruct tail; simpl; [|done]. by rewrite len_app, Z.add_assoc.
  - destruct fuel as [|fuel]; [header_fuel Hh|].
    destruct (rx_alive q) eqn:Hq; [|done].
    rewrite (parse_step fuel pre _ id pr q size Valid Hh) by (unfold len in *; simpl in *; lia).
    destruct (Z.leb_spec size (len buf)); [lia|]. rewrite parse_end by (rewrite len_app; lia).
    by rewrite forwarded_nil, !Z.add_0_r.
  - destruct fuel as [|fuel]; [header_fuel Hh|].
    assert (7 <= len packet) as H7 by (destruct Hh as (_ & hdr & _ & <- & _); apply total_len_min).
    rewrite (parse_step fuel pre _ id pr q (len packet) Skip Hh) by (unfold len in *; lia).
    destruct (next_segment pre packet rest) as [-> ->].
    specialize (IH fuel (pre ++ packet) id pr q ltac:(rewrite length_app in Hfuel; unfold len in H7; lia) Hf0 Hf).
    destruct (rx_alive q); [|done]. rewrite IH. destruct tail; simpl; [|done].
    by rewrite len_app, Z.add_assoc.
  - destruct fuel as [|fuel]; [header_fuel Hh|].
    destruct (rx_alive q) eqn:Hq; [|done].
    rewrite (parse_step fuel pre _ id pr q size Skip Hh) by (unfold len in *; simpl in *; lia).
    rewrite parse_end by (rewrite len_app; lia). destruct pr. by rewrite forwarded_nil, Z.add_0_r.
  - destruct fuel as [|fuel]; [header_fuel Hh|].
    rewrite (parse_step fuel pre _ id pr q size Invalid Hh) by (unfold len in *; lia).
    destruct (next_segment pre [b] rest) as [Ha Hl]. change (len [b]) with 1 in Hl.
    change (b :: rest) with ([b] ++ rest). rewrite Ha, Hl.
    specialize (IH fuel (pre ++ [b]) id pr q ltac:(simpl in Hfuel; lia) Hf0 Hf).
    destruct (rx_alive q); [|done]. rewrite IH. destruct tail; simpl; [|done].
    by rewrite <- Hl, Z.add_assoc.
Qed.

(** There are not more packets than bytes. *)
Lemma segments_count buf packets tail : segments buf packets tail -> len packets <= len buf.
Proof using total_len_min.
  induction 1 as [| packet rest packets tail Hh _ IH| |packet rest packets tail Hh _ IH| |b rest packets tail size _ _ IH];
    rewrite ?len_app, ?len_cons in *; try apply len_nonneg.
  - destruct Hh as (_ & hdr & _ & <- & _). pose proof (total_len_min hdr). lia.
  - pose proof (len_nonneg packet). lia.
  - lia.
Qed.

End Segments.

(** ** COBS frames in a buffer *)
Section Frames.
Context (encode : list Z -> list Z) (max_encoding_length : Z -> Z)
  (decode_in_place : list Z -> option Z * list Z).

(** What the code relies on for a packet: its encoding is not empty, free of
    zeroes and within the announced length, and decodes to the packet. *)
Definition cobs_ok (packet : list Z) : Prop :=
  encode packet <> [] /\ Forall (fun b => b <> 0) (encode packet) /\
  len (encode packet) <= max_encoding_length (len packet) /\
  exists rest, decode_in_place (encode packet) = (Some (len packet), packet ++ rest) /\
    length (packet ++ rest) = length (encode packet).

Definition frame (packet : list Z) : list Z := 0 :: encode packet ++ [0].

Definition frames (packets : list (list Z)) : list Z := concat (frame <$> packets).

Lemma copy_into_app {E A} (pre old new rest : list A) :
  length new = length old ->
  copy_into (E:=E) (pre ++ old ++ rest) (len pre) (len pre + len old) new = Ok (pre ++ new ++ rest).
Proof.
  intros Hl. unfold copy_into. rewrite slice_at by done. cbn [res_bind]. rewrite decide_True by done.
  unfold splice, len. rewrite Nat2Z.id, take_app_length, Hl. do 3 f_equal.
  by rewrite app_assoc, <- length_app, drop_app_length.
Qed.

(** Room for a frame: a byte, the encoding, a byte. *)
Lemma room_split (room : list Z) n :
  (n + 2 <= length room)%nat ->
  exists r0 old r1 room', room = r0 :: old ++ r1 :: room' /\ length old = n.
Proof.
  intros Hn. destruct room as [|r0 room]; [simpl in Hn; lia|]. simpl in Hn.
  destruct (drop n room) as [|r1 room'] eqn:Hd.
  { apply (f_equal length) in Hd. rewrite length_drop in Hd. simpl in Hd. lia. }
  exists r0, (take n room), r1, room'. rewrite <- Hd, take_drop. split; [done|]. rewrite length_take. lia.
Qed.

(** [encode_packet_with_cobs] writes a frame at the index. *)
Lemma encode_packet_frame {E} packet pre room :
  cobs_ok packet -> max_encoding_length (len packet) + 2 <= len room ->
  Cobs.encode_packet_with_cobs encode max_encoding_length (E:=E) packet (pre ++ room) (len pre) =
    Ok (true, (pre ++ frame packet) ++ drop (length (frame packet)) room, len (pre ++ frame packet)).
Proof.
  intros (_ & _ & Hmax & _) Hroom. unfold Cobs.encode_packet_with_cobs. rewrite len_app.
  destruct (Z.ltb_spec (len pre + len room) (len pre + max_encoding_length (len packet) + 2)); [lia|].
  destruct (room_split room (length (encode packet))) as (r0 & old & r1 & room' & -> & Hl);
    [unfold len in *; lia|].
  rewrite set_index_app. cbn [res_bind].
  replace (pre ++ 0 :: old ++ r1 :: room') with ((pre ++ [0]) ++ old ++ r1 :: room')
    by (by rewrite <- app_assoc).
  replace (len pre + 1) with (len (pre ++ [0])) by (by rewrite len_app).
  replace (len (encode packet)) with (len old) by (unfold len; lia).
  rewrite copy_into_app by done. cbn [res_bind].
  replace (len (pre ++ [0]) + len old) with (len ((pre ++ [0]) ++ encode packet))
    by (rewrite !len_app; unfold len; lia).
  rewrite (app_assoc (pre ++ [0])), set_index_app. cbn [res_bind]. unfold frame.
  assert (drop (length (0 :: encode packet ++ [0])) (r0 :: old ++ r1 :: room') = room') as ->.
  { simpl. rewrite length_app, <- Hl. simpl.
    replace (old ++ r1 :: room') with ((old ++ [r1]) ++ room') by (by rewrite <- app_assoc).
    replace (length old + 1)%nat with (length (old ++ [r1])) by (by rewrite length_app).
    apply drop_app_length. }
  replace (len ((pre ++ [0]) ++ encode packet) + 1) with (len (pre ++ 0 :: encode packet ++ [0]))
    by (rewrite !len_app, len_cons, !len_app; change (len [0]) with 1; lia).
  by repeat (rewrite <- app_assoc; simpl).
Qed.

(** *** The parser *)
Abbreviation cobs_step := (Cobs.cobs_step decode_in_place).
Abbreviation cobs_loop := (Cobs.cobs_loop decode_in_place).
Implicit Types (q : channel PacketAsVec).

(** Bytes other than zero change nothing. *)
Lemma loop_nonzero blk : forall n id pre rest s q,
  Forall (fun b => b <> 0) blk -> cobs_buf s = pre ++ blk ++ rest ->
  cobs_loop id (length blk + n) (len pre) s q = cobs_loop id n (len pre + len blk) s q.
Proof.
  induction blk as [|b blk IH]; intros n id pre rest s q Hnz Hb.
  { change (len (@nil Z)) with 0. by rewrite Z.add_0_r. }
  apply Forall_cons in Hnz as [Hb0 Hnz]. cbn [length Nat.add Cobs.cobs_loop]. unfold st_bind at 1.
  assert (cobs_step id (len pre) s q = (Ok s, q)) as ->.
  { unfold Cobs.cobs_step, st_bind, lift. rewrite Hb. cbn [app]. rewrite index_app.
    by rewrite (proj2 (Z.eqb_neq _ _) Hb0). }
  replace (len pre + 1) with (len (pre ++ [b])) by (by rewrite len_app).
  rewrite (IH n id (pre ++ [b]) rest) by (try done; by rewrite Hb, <- app_assoc).
  rewrite len_app. change (len [b]) with 1. by rewrite (len_cons b blk), Z.add_assoc.
Qed.

(** A zero outside a frame starts one, unless the next byte is zero too. *)
Lemma step_start id pre rest s q :
  start_found s = false -> cobs_buf s = pre ++ 0 :: rest -> head rest <> Some 0 ->
  cobs_step id (len pre) s q = (Ok (mkCobsState (cobs_buf s) (len pre + 1) true (cobs_found s)), q).
Proof.
  intros Hs Hb Hh. unfold Cobs.cobs_step, st_bind, lift. rewrite Hb, index_app, Hs. cbn [negb andb Z.eqb].
  destruct (Z.eqb_spec (len pre) (len (pre ++ 0 :: rest) - 1)) as [He|He]; cbn [negb]; [done|].
  destruct rest as [|b rest].
  { exfalso. apply He. rewrite len_app. change (len [0]) with 1. lia. }
  replace (pre ++ 0 :: b :: rest) with ((pre ++ [0]) ++ b :: rest) by (by rewrite <- app_assoc).
  replace (len pre + 1) with (len (pre ++ [0])) by (by rewrite len_app).
  rewrite index_app. unfold ret. destruct (Z.eqb_spec b 0) as [->|Hb0]; [by simpl in Hh|].
  by rewrite <- app_assoc.
Qed.

(** A zero inside a frame ends it: the packet is decoded and forwarded. *)
Lemma step_end id pre packet rest s q :
  cobs_ok packet -> rx_alive q = true -> 0 <= cobs_found s < u32_max ->
  start_found s = true -> start_index_packet s = len pre ->
  cobs_buf s = pre ++ encode packet ++ 0 :: rest ->
  exists w, length w = length (encode packet) /\
    cobs_step id (len pre + len (encode packet)) s q =
      (Ok (mkCobsState (pre ++ w ++ 0 :: rest) (len pre) false (cobs_found s + 1)),
       forwarded id [packet] q).
Proof.
  intros (_ & _ & _ & d & Hd & Hdl) Hq Hf Hs Hi Hb. exists (packet ++ d). split; [done|].
  unfold Cobs.cobs_step, st_bind, lift. rewrite Hb, Hs, Hi.
  replace (pre ++ encode packet ++ 0 :: rest) with ((pre ++ encode packet) ++ 0 :: rest)
    by (by rewrite <- app_assoc).
  rewrite <- len_app, index_app. cbn [negb andb Z.eqb]. unfold ret at 1. rewrite <- app_assoc, len_app.
  rewrite slice_at by done. rewrite Hd, copy_into_app by done. unfold checked_add.
  rewrite (proj2 (Z.ltb_lt (cobs_found s + 1) (2 ^ 32))) by (unfold u32_max in Hf; lia).
  rewrite <- app_assoc, slice_at by done.
  unfold raw_send_packet, mpsc_raw_sender, MpscSender.send_packet, st_map_err, Channel.send.
  by rewrite Hq.
Qed.

(** A whole frame. *)
Lemma loop_frame id pre packet rest n s q :
  cobs_ok packet -> rx_alive q = true -> 0 <= cobs_found s < u32_max ->
  start_found s = false -> cobs_buf s = pre ++ frame packet ++ rest ->
  exists pre', length pre' = length (pre ++ frame packet) /\
    cobs_loop id (length (frame packet) + n) (len pre) s q =
      cobs_loop id n (len pre') (mkCobsState (pre' ++ rest) (len pre + 1) false (cobs_found s + 1))
        (forwarded id [packet] q).
Proof.
  intros Hok Hq Hf Hs Hb. pose proof Hok as (Hne & Hnz & _). unfold frame in *.
  set (s1 := mkCobsState (cobs_buf s) (len pre + 1) true (cobs_found s)).
  assert (Hb1 : cobs_buf s1 = (pre ++ [0]) ++ encode packet ++ 0 :: rest)
    by (simpl; rewrite Hb; simpl; by rewrite <- !app_assoc).
  assert (Hl1 : len pre + 1 = len (pre ++ [0])) by (by rewrite len_app).
  destruct (step_end id (pre ++ [0]) packet rest s1 q Hok Hq Hf eq_refl Hl1 Hb1) as (w & Hw & He).
  exists (pre ++ 0 :: w ++ [0]). split; [rewrite !length_app; simpl; rewrite !length_app; simpl; lia|].
  cbn [length Nat.add Cobs.cobs_loop]. unfold st_bind at 1.
  rewrite (step_start id pre (encode packet ++ 0 :: rest)); [|done|by rewrite Hb; simpl; rewrite <- app_assoc|].
  2: { destruct (encode packet) as [|b enc]; [done|]. apply Forall_cons in Hnz as [Hb0 _]. simpl. congruence. }
  fold s1. rewrite length_app, <- Nat.add_assoc, Hl1. rewrite (loop_nonzero _ _ _ _ (0 :: rest)) by done.
  cbn [length Nat.add Cobs.cobs_loop]. unfold st_bind at 1. rewrite He. subst s1. cbn [cobs_found].
  assert (len (pre ++ [0]) + len (encode packet) + 1 = len (pre ++ 0 :: w ++ [0])) as ->.
  { rewrite !len_app, (len_cons 0 (w ++ [0])), len_app. change (len [0]) with 1. unfold len. lia. }
  by repeat (rewrite <- app_assoc; simpl).
Qed.

Lemma loop_frames packets : forall id pre tail n s q,
  Forall cobs_ok packets -> rx_alive q = true ->
  0 <= cobs_found s -> cobs_found s + len packets < u32_max ->
  start_found s = false -> cobs_buf s = pre ++ frames packets ++ tail ->
  exists pre' si, length pre' = length (pre ++ frames packets) /\
    cobs_loop id (length (frames packets) + n) (len pre) s q =
      cobs_loop id n (len pre') (mkCobsState (pre' ++ tail) si false (cobs_found s + len packets))
        (forwarded id packets q).
Proof.
  induction packets as [|p ps IH]; intros id pre tail n s q Hok Hq Hf0 Hf Hs Hb.
  { exists pre, (start_index_packet s). split; [by rewrite app_nil_r|]. rewrite forwarded_nil.
    destruct s; simpl in *; subst. by rewrite Z.add_0_r. }
  apply Forall_cons in Hok as [Hp Hps]. unfold frames in *. rewrite fmap_cons in *. cbn [concat] in *.
  rewrite <- app_assoc in Hb. pose proof (len_nonneg ps). rewrite len_cons in Hf.
  destruct (loop_frame id pre p (concat (frame <$> ps) ++ tail)
    (length (concat (frame <$> ps)) + n) s q Hp Hq ltac:(lia) Hs Hb) as (pre1 & Hl1 & Hr1).
  destruct (IH id pre1 tail n
    (mkCobsState (pre1 ++ concat (frame <$> ps) ++ tail) (len pre + 1) false (cobs_found s + 1))
    (forwarded id [p] q)) as (pre2 & si & Hl2 & Hr2); [done|done|simpl; lia|simpl; lia|done|done|].
  exists pre2, si. split; [rewrite Hl2, !length_app in *; lia|].
  rewrite length_app, <- Nat.add_assoc, Hr1, Hr2. cbn [cobs_found].
  by rewrite forwarded_cons, (len_cons p), Z.add_assoc.
Qed.

(** A frame cut off at the end of the buffer. *)
Definition cobs_tail (tail : list Z) : Prop :=
  tail = [] \/ exists part, tail = 0 :: part /\ Forall (fun b => b <> 0) part.

Lemma loop_tail id pre tail si found q :
  cobs_tail tail ->
  cobs_loop id (length tail) (len pre) (mkCobsState (pre ++ tail) si false found) q =
    (Ok (mkCobsState (pre ++ tail) (if decide (tail = []) then si else len pre + 1)
           (if decide (tail = []) then false else true) found), q).
Proof.
  intros [->|(part & -> & Hnz)]; [done|]. cbn [length Cobs.cobs_loop]. unfold st_bind at 1.
  rewrite (step_start id pre part); [|done|done|].
  2: { destruct part; [done|]. apply Forall_cons in Hnz as [? _]. simpl. congruence. }
  replace (len pre + 1) with (len (pre ++ [0])) by (by rewrite len_app).
  rewrite <- (Nat.add_0_r (length part)), (loop_nonzero part 0 id (pre ++ [0]) [])
    by (try done; simpl; by rewrite app_nil_r, <- app_assoc).
  done.
Qed.

(** Encoding one packet after the other into a buffer. *)
Fixpoint encode_all {E : Type} (packets : list (list Z)) (buf : list Z) (idx : Z)
    : res E (bool * list Z * Z) :=
  match packets with
  | [] => Ok (true, buf, idx)
  | p :: ps =>
      let? r := Cobs.encode_packet_with_cobs encode max_encoding_length p buf idx in
      if r.1.1 then encode_all ps r.1.2 r.2 else Ok r
  end.

Definition room_for (packets : list (list Z)) : Z :=
  foldr (fun p n => max_encoding_length (len p) + 2 + n) 0 packets.

Lemma encode_all_frames {E} packets : forall pre room,
  Forall cobs_ok packets -> room_for packets <= len room ->
  encode_all (E:=E) packets (pre ++ room) (len pre) =
    Ok (true, (pre ++ frames packets) ++ drop (length (frames packets)) room, len (pre ++ frames packets)).
Proof.
  induction packets as [|p ps IH]; intros pre room Hok Hroom.
  { unfold frames. simpl. by rewrite app_nil_r. }
  apply Forall_cons in Hok as [Hp Hps]. cbn [room_for foldr] in Hroom. fold (room_for ps) in Hroom.
  assert (0 <= room_for ps) as H0.
  { clear -Hps. induction Hps as [|x l (_ & _ & Hx & _) _ IHl]; [done|]. unfold room_for in *.
    cbn [foldr]. pose proof (len_nonneg (encode x)). lia. }
  assert (len (frame p) <= max_encoding_length (len p) + 2) as Hfl.
  { destruct Hp as (_ & _ & Hx & _). unfold frame. rewrite len_cons, len_app. change (len [0]) with 1. lia. }
  cbn [encode_all]. rewrite (encode_packet_frame p pre room Hp) by lia. cbn [res_bind fst snd].
  rewrite IH; [|done|unfold len in *; rewrite length_drop; lia].
  unfold frames. rewrite fmap_cons. cbn [concat]. by rewrite drop_drop, length_app, !app_assoc.
Qed.

End Frames.

(** Moving the cut-off frame to the front. *)
Lemma parse_finish {E Q} (pre tail fr : list Z) si (packets : list (list Z)) nwi (q : Q) :
  length pre = length fr -> (packets = [] -> fr = []) ->
  exists buf',
    (if (0 <? (if decide (tail = []) then si else len pre + 1)) &&
        (if decide (tail = []) then false else true) && (0 <? len packets)
     then let* tl := lift (slice (pre ++ tail) ((if decide (tail = []) then si else len pre + 1) - 1)
                             (len (pre ++ tail))) in
          ret (len packets, splice (pre ++ tail) 0 tl,
               len (pre ++ tail) - (if decide (tail = []) then si else len pre + 1) + 1)
     else ret (len packets, pre ++ tail, nwi)) q =
      ((Ok (len packets, buf', if decide (packets <> [] /\ tail <> []) then len tail else nwi), q)
        : res E (Z * list Z * Z) * Q) /\
    length buf' = length (fr ++ tail) /\
    (packets <> [] -> take (length tail) buf' = tail) /\ (packets = [] -> buf' = tail).
Proof.
  intros Hl He. pose proof (len_nonneg pre). destruct (decide (tail = [])) as [->|Ht].
  { rewrite andb_false_r. rewrite decide_False by tauto. exists (pre ++ []). split; [done|].
    rewrite !app_nil_r. split; [done|]. split; [done|]. intros Hp. rewrite (He Hp) in Hl. by destruct pre. }
  destruct (Z.ltb_spec 0 (len pre + 1)); [|lia]. destruct packets as [|p ps].
  { rewrite decide_False by tauto. exists (pre ++ tail). split; [done|]. rewrite !length_app, Hl.
    split; [done|]. split; [done|]. intros _. rewrite (He eq_refl) in Hl. by destruct pre. }
  pose proof (len_nonneg ps). destruct (Z.ltb_spec 0 (len (p :: ps))); [|rewrite len_cons in *; lia].
  cbn [andb]. rewrite decide_True by done. unfold st_bind, lift.
  pose proof (slice_at (E:=E) pre tail [] (len pre + 1 - 1) (len (pre ++ tail))) as Hs.
  rewrite app_nil_r in Hs. rewrite Hs by (rewrite ?len_app; lia).
  exists (splice (pre ++ tail) 0 tail). split.
  { unfold ret. rewrite len_app. repeat f_equal. lia. }
  split; [|split; [|done]].
  - rewrite length_splice by (rewrite ?len_app; lia). rewrite !length_app, Hl. done.
  - intros _. unfold splice. simpl. by rewrite take_app_length.
Qed.

(** The whole buffer. *)
Lemma ccsds_parse_segments {Hdr} (sp_from_be_bytes : list Z -> res ByteConversionError Hdr)
    (total_len : Hdr -> Z) (validate : Hdr -> list Z -> SpValidity) buf packets tail id
    (q : channel PacketAsVec) :
  (forall hdr, 7 <= total_len hdr) -> len buf < u32_max ->
  segments sp_from_be_bytes total_len validate buf packets tail ->
  if rx_alive q then
    Ccsds.parse_buffer_for_ccsds_space_packets sp_from_be_bytes total_len validate buf id q =
      (Ok (mkParseResult (len packets) tail), forwarded id packets q)
  else packets <> [] ->
    Ccsds.parse_buffer_for_ccsds_space_packets sp_from_be_bytes total_len validate buf id q =
      (Err RxDisconnected, q).
Proof.
  intros Hm Hl Hseg. pose proof (segments_count _ _ _ Hm _ _ _ Hseg) as Hc. pose proof (len_nonneg packets).
  pose proof (parse_segments _ _ _ Hm _ _ _ Hseg (length buf) [] id Ccsds.default q) as Hp.
  unfold Ccsds.parse_buffer_for_ccsds_space_packets. simpl in Hp.
  specialize (Hp ltac:(lia) ltac:(lia) ltac:(lia)).
  destruct (rx_alive q); [|done]. change (len []) with 0 in Hp. rewrite Hp.
  by destruct tail.
Qed.

Lemma cobs_parse_frames encode max_encoding_length decode_in_place packets tail id next_write_idx
    (q : channel PacketAsVec) :
  Forall (cobs_ok encode max_encoding_length decode_in_place) packets -> cobs_tail tail ->
  rx_alive q = true -> len packets < u32_max ->
  let fr := frames encode packets in
  exists buf',
    Cobs.parse_buffer_for_cobs_encoded_packets decode_in_place (fr ++ tail) id next_write_idx q =
      (Ok (len packets, buf',
           if decide (packets <> [] /\ tail <> []) then len tail else next_write_idx),
       forwarded id packets q) /\
    length buf' = length (fr ++ tail) /\
    (packets <> [] -> take (length tail) buf' = tail) /\ (packets = [] -> buf' = tail).
Proof.
  intros Hok Htail Hq Hn fr. subst fr.
  destruct (loop_frames encode max_encoding_length decode_in_place packets id [] tail (length tail)
    (mkCobsState (frames encode packets ++ tail) 0 false 0) q) as (pre & si & Hl & Hr);
    [done|done|done|simpl; lia|done|done|].
  rewrite loop_tail in Hr by done. cbn [cobs_found] in Hr. rewrite Z.add_0_l in Hr.
  unfold Cobs.parse_buffer_for_cobs_encoded_packets, st_bind at 1. rewrite length_app.
  change (len []) with 0 in Hr. rewrite Hr. cbn [cobs_buf start_index_packet start_found cobs_found].
  rewrite <- length_app. apply parse_finish; [exact Hl|by intros ->].
Qed.

(** * Properties *)

(** C13: Every buffer has a segmentation into space packets to forward, packets
    to skip, bytes to drop while out of sync, and a remainder; the CCSDS parser
    terminates and forwards exactly the packets to forward, in order, returns
    their number and where an incomplete packet starts.  It fails only when there
    is a packet to forward and nobody to receive it. *)
Theorem ccsds_parse_correct {Hdr} (sp_from_be_bytes : list Z -> res ByteConversionError Hdr)
    (total_len : Hdr -> Z) (validate : Hdr -> list Z -> SpValidity) buf id (q : channel PacketAsVec) :
  (forall b, 7 <= len b -> exists hdr, sp_from_be_bytes b = Ok hdr) ->
  (forall hdr, 7 <= total_len hdr) -> len buf < u32_max ->
  exists packets tail, segments sp_from_be_bytes total_len validate buf packets tail /\
    if rx_alive q then
      Ccsds.parse_buffer_for_ccsds_space_packets sp_from_be_bytes total_len validate buf id q =
        (Ok (mkParseResult (len packets) tail), forwarded id packets q)
    else packets <> [] ->
      Ccsds.parse_buffer_for_ccsds_space_packets sp_from_be_bytes total_len validate buf id q =
        (Err RxDisconnected, q).
Proof.
  intros Ht Hm Hl. destruct (segments_exist _ _ validate Ht Hm buf) as (ps & tail & Hseg).
  exists ps, tail. split; [done|]. by apply ccsds_parse_segments.
Qed.

(** The CCSDS primary header: the APID and the data length field. *)
Definition ex_header (b : list Z) : res ByteConversionError (Z * Z) :=
  match b with
  | b0 :: b1 :: _ :: _ :: b4 :: b5 :: _ =>
      Ok (Z.land (b0 * 256 + b1) 2047, Z.land (b4 * 256 + b5) 65535)
  | _ => Err (FromSliceTooSmall (len b) 6)
  end.

Definition ex_validate (h : Z * Z) (b : list Z) : SpValidity :=
  if h.1 =? 2 then Valid else if h.1 =? 16 then Skip else Invalid.

(** Noise, a packet, a packet to skip and the beginning of another packet. *)
Definition ex_stream : list Z :=
  [9] ++ [24; 2; 192; 0; 0; 1; 5; 6] ++ [24; 16; 192; 0; 0; 0; 7] ++ [24; 2; 192; 0; 0; 3; 8].

Lemma ccsds_parse_correct_witness :
  exists packets tail,
    segments ex_header (fun h => Z.abs h.2 + 7) ex_validate ex_stream packets tail /\
    Ccsds.parse_buffer_for_ccsds_space_packets ex_header (fun h => Z.abs h.2 + 7) ex_validate
      ex_stream 5 (mkChannel [] None true true) =
      (Ok (mkParseResult (len packets) tail), forwarded 5 packets (mkChannel [] None true true)) /\
    packets = [[24; 2; 192; 0; 0; 1; 5; 6]] /\ tail = Some 16.
Proof.
  destruct (ccsds_parse_correct ex_header (fun h => Z.abs h.2 + 7) ex_validate ex_stream 5
    (mkChannel [] None true true)) as (ps & tail & Hseg & Hrun).
  - intros b Hb. do 6 (destruct b as [|? b]; [unfold len in Hb; simpl in Hb; lia|]). eexists. reflexivity.
  - intros h. lia.
  - reflexivity.
  - exists ps, tail. split; [exact Hseg|]. split; [exact Hrun|].
    vm_compute in Hrun. injection Hrun as _ Htail Hq.
    destruct ps as [|p [|p' ps]]; [discriminate| |discriminate]. injection Hq as <-.
    split; [reflexivity|]. by rewrite <- Htail.
Defined.

(** C14: Packets encoded one after the other with [encode_packet_with_cobs] into
    a buffer with room for them give exactly their frames; and the COBS parser,
    on those frames followed by the beginning of another one, forwards exactly
    the packets, in order, and returns their number.  When there was a packet,
    the cut-off frame is moved to the front of the buffer and the write index
    points behind it; otherwise the buffer and the index are left as they are. *)
Theorem cobs_roundtrip encode max_encoding_length decode_in_place packets tail room id next_write_idx
    (q : channel PacketAsVec) :
  Forall (cobs_ok encode max_encoding_length decode_in_place) packets -> cobs_tail tail ->
  room_for max_encoding_length packets <= len room -> rx_alive q = true -> len packets < u32_max ->
  let fr := frames encode packets in
  encode_all (E:=unit) encode max_encoding_length packets room 0 =
    Ok (true, fr ++ drop (length fr) room, len fr) /\
  exists buf',
    Cobs.parse_buffer_for_cobs_encoded_packets decode_in_place (fr ++ tail) id next_write_idx q =
      (Ok (len packets, buf',
           if decide (packets <> [] /\ tail <> []) then len tail else next_write_idx),
       forwarded id packets q) /\
    length buf' = length (fr ++ tail) /\
    (packets <> [] -> take (length tail) buf' = tail) /\ (packets = [] -> buf' = tail).
Proof.
  intros Hok Htail Hroom Hq Hn fr. subst fr.
  split; [exact (encode_all_frames encode max_encoding_length decode_in_place packets [] room Hok Hroom)|].
  by apply (cobs_parse_frames encode max_encoding_length).
Qed.

(** Consistent overhead byte stuffing, for the example: a code byte counts the
    bytes up to the next zero. *)
Fixpoint ex_encode_from (block : list Z) (l : list Z) : list Z :=
  match l with
  | [] => (len block + 1) :: block
  | b :: l' =>
      if b =? 0 then ((len block + 1) :: block) ++ ex_encode_from [] l'
      else if len block + 1 =? 254 then (255 :: block ++ [b]) ++ ex_encode_from [] l'
      else ex_encode_from (block ++ [b]) l'
  end.

Fixpoint ex_decode (fuel : nat) (l : list Z) : option (list Z) :=
  match fuel, l with
  | S fuel', c :: l' =>
      if (c =? 0) || (len l' <? c - 1) then None else
      let block := take (Z.to_nat (c - 1)) l' in
      match drop (Z.to_nat (c - 1)) l' with
      | [] => Some block
      | rest =>
          match ex_decode fuel' rest with
          | Some d => Some (block ++ (if c =? 255 then [] else [0]) ++ d)
          | None => None
          end
      end
  | _, _ => None
  end.

Definition ex_decode_in_place (l : list Z) : option Z * list Z :=
  match ex_decode (length l) l with
  | Some d => (Some (len d), d ++ drop (length d) l)
  | None => (None, l)
  end.

Lemma cobs_roundtrip_witness :
  exists buf',
    Cobs.parse_buffer_for_cobs_encoded_packets ex_decode_in_place
      (frames (ex_encode_from []) [[1; 0; 2]; [7]] ++ [0; 4]) 5 0 (mkChannel [] None true true) =
      (Ok (2, buf', 2),
       mkChannel [mkPacketAsVec 5 [1; 0; 2]; mkPacketAsVec 5 [7]] None true true) /\
    take 2 buf' = [0; 4].
Proof.
  destruct (cobs_roundtrip (ex_encode_from []) (fun n => n + (n + 253) / 254 + 1) ex_decode_in_place
    [[1; 0; 2]; [7]] [0; 4] (replicate 32 0) 5 0 (mkChannel [] None true true))
    as (_ & buf' & Hrun & _ & Htake & _).
  - constructor; [|constructor; [|constructor]].
    + split; [discriminate|]. split; [repeat constructor; discriminate|].
      split; [vm_compute; discriminate|]. exists [2]. split; reflexivity.
    + split; [discriminate|]. split; [repeat constructor; discriminate|].
      split; [vm_compute; discriminate|]. exists [7]. split; reflexivity.
  - right. exists [4]. split; [reflexivity|]. repeat constructor. discriminate.
  - vm_compute. discriminate.
  - reflexivity.
  - reflexivity.
  - exists buf'. split; [exact Hrun|]. apply Htake. discriminate.
Defined.

(** Without a complete packet before it, a cut-off frame is not kept. *)
Example cobs_lone_tail_not_kept :
  (Cobs.parse_buffer_for_cobs_encoded_packets ex_decode_in_place [9; 0; 4] 5 1
     (mkChannel [] None true true)).1 = Ok (0, [9; 0; 4], 1).
Proof. reflexivity. Qed.
