(* ===== verification/PusEvents.v ===== *)
(** * Event telemetry ([satrs/src/pus/event.rs] and [pus/event_man.rs])

    The creator and the reporter of event reports (service 5), the sets of events
    whose reporting is disabled, and the creator that consults them. *)

From Stdlib Require Import ZArith Lia Bool.
From stdpp Require Import base list gmap.
From S2P Require Import Prelude Spacepackets Params Tmtc Verification Events Services.

Local Open Scope Z_scope.

(** ** Report creator *)
Record EventReportCreator : Type := mkEventCreator { ev_apid : Z; ev_dest_id : Z }.

(** [EcssEnumeration] for events. *)
Definition event_enum {ly : layout} (e : Event ly) : EcssEnum :=
  {| enum_size := raw_size ly; enum_value := Event.raw e; enum_write := Event.write_to_be_bytes e |}.

Module EventCreator.

Definition new (apid dest_id : Z) : option EventReportCreator :=
  if MAX_APID <? apid then None else Some {| ev_dest_id := dest_id; ev_apid := apid |}.

Section Creator.
(** [u8::from(Subservice)] of [spacepackets]. *)
Context (subservice_into : EventSubservice -> Z).

(** The state is the source data buffer. *)
Definition generate_generic_event_tm (c : EventReportCreator) (subservice : EventSubservice)
    (time_stamp : list Z) (event_id : EcssEnum) (params : option (list Z))
    : st (list Z) ByteConversionError PusTm :=
  let aux_len := match params with Some aux_data => len aux_data | None => 0 end in
  let src_data_len := enum_size event_id + aux_len in
  let* _ := asks (fun buf => source_buffer_large_enough (len buf) src_data_len) in
  let* _ := ReportCreator.write_enum 0 event_id in
  let current_idx := 0 + enum_size event_id in
  let* _ := match params with
            | Some aux_data => ReportCreator.write_slice current_idx (current_idx + len aux_data) aux_data
            | None => ret tt
            end in
  let current_idx := current_idx + aux_len in
  let* data := asks (fun buf => slice buf 0 current_idx) in
  ret {| tm_apid := ev_apid c; tm_seq_count := 0; tm_service := 5;
         tm_subservice := subservice_into subservice; tm_msg_counter := 0;
         tm_dest_id := ev_dest_id c; tm_time_stamp := time_stamp; tm_source_data := data |}.

Definition event_info (c : EventReportCreator) := generate_generic_event_tm c TmInfoReport.

Definition event_low_severity (c : EventReportCreator) := generate_generic_event_tm c TmLowSeverityReport.

Definition event_medium_severity (c : EventReportCreator) :=
  generate_generic_event_tm c TmMediumSeverityReport.

Definition event_high_severity (c : EventReportCreator) :=
  generate_generic_event_tm c TmHighSeverityReport.

End Creator.
End EventCreator.

(** ** Reporter *)

(** [ev_hook] is the [modify_tm] of the hook; the [DummyEventHook] does nothing. *)
Record EventReporter : Type := mkEventReporter {
  ev_reporter_id : Z;
  ev_source_data_buf : list Z;
  report_creator : EventReportCreator;
  ev_hook : PusTm -> PusTm;
}.

Module EvReporter.

Definition new_with_hook (id default_apid default_dest_id max_event_id_and_aux_data_size : Z)
    (tm_hook : PusTm -> PusTm) : option EventReporter :=
  match EventCreator.new default_apid default_dest_id with
  | Some creator =>
      Some {| ev_reporter_id := id;
              ev_source_data_buf := replicate (Z.to_nat max_event_id_and_aux_data_size) 0;
              report_creator := creator; ev_hook := tm_hook |}
  | None => None
  end.

Definition new (id default_apid default_dest_id max_event_id_and_aux_data_size : Z)
    : option EventReporter :=
  new_with_hook id default_apid default_dest_id max_event_id_and_aux_data_size (fun tm => tm).

Definition set_buf (buf : list Z) (r : EventReporter) : EventReporter :=
  {| ev_reporter_id := ev_reporter_id r; ev_source_data_buf := buf;
     report_creator := report_creator r; ev_hook := ev_hook r |}.

Section Reporter.
Context {PE Q : Type} `{PusErrorOps PE} `{EcssTmSender PE Q}.
Context (subservice_into : EventSubservice -> Z).

(** The body of the four methods. *)
Definition report (create : EventReportCreator -> st (list Z) ByteConversionError PusTm)
    : st (EventReporter * Q) (EcssTmtcError PE) unit :=
  fun x =>
    let '(r, q) := x in
    match create (report_creator r) (ev_source_data_buf r) with
    | (Ok tm, buf) =>
        let '(sent, q') := send_tm (ev_reporter_id r) (Direct (ev_hook r tm)) q in
        (sent, (set_buf buf r, q'))
    | (Err e, buf) => (Err (TmtcPus (pus_byte_conversion e)), (set_buf buf r, q))
    | (Panic, buf) => (Panic, (set_buf buf r, q))
    end.

Definition event_info (time_stamp : list Z) (event_id : EcssEnum) (params : option (list Z)) :=
  report (fun c => EventCreator.event_info subservice_into c time_stamp event_id params).

Definition event_low_severity (time_stamp : list Z) (event_id : EcssEnum) (params : option (list Z)) :=
  report (fun c => EventCreator.event_low_severity subservice_into c time_stamp event_id params).

Definition event_medium_severity (time_stamp : list Z) (event_id : EcssEnum) (params : option (list Z)) :=
  report (fun c => EventCreator.event_medium_severity subservice_into c time_stamp event_id params).

Definition event_high_severity (time_stamp : list Z) (event_id : EcssEnum) (params : option (list Z)) :=
  report (fun c => EventCreator.event_high_severity subservice_into c time_stamp event_id params).

End Reporter.
End EvReporter.

(** ** Which events are reported *)
Class PusEventReportingMapProvider (M Ev E : Type) : Type := {
  event_enabled : M -> Ev -> bool;
  enable_event_reporting : Ev -> st M E bool;
  disable_event_reporting : Ev -> st M E bool;
}.

#[export] Instance Severity_countable : Countable Severity.
Proof.
  refine (inj_countable Severity.to_u8
    (fun v => match Severity.try_from v with Ok s => Some s | _ => None end) _).
  by intros [].
Defined.

#[export] Instance Event_countable ly : Countable (Event ly).
Proof.
  refine (inj_countable' (fun e => (severity e, group_id e, unique_id e))
    (fun x => mkEvent x.1.1 x.1.2 x.2) _).
  by intros [].
Defined.

Record DefaultPusEventReportingMap (ly : layout) : Type := mkReportingMap { disabled : gset (Event ly) }.

Arguments mkReportingMap {ly} _.
Arguments disabled {ly} _.

Module ReportingMap.
Section ReportingMap.
Context {ly : layout}.

Definition default : DefaultPusEventReportingMap ly := mkReportingMap ∅.

Definition event_enabled (m : DefaultPusEventReportingMap ly) (event : Event ly) : bool :=
  negb (bool_decide (event ∈ disabled m)).

(** [HashSet::remove] and [HashSet::insert] tell whether the set changed. *)
Definition enable_event_reporting (event : Event ly) : st (DefaultPusEventReportingMap ly) unit bool :=
  fun m => (Ok (bool_decide (event ∈ disabled m)), mkReportingMap (disabled m ∖ {[event]})).

Definition disable_event_reporting (event : Event ly) : st (DefaultPusEventReportingMap ly) unit bool :=
  fun m => (Ok (bool_decide (event ∉ disabled m)), mkReportingMap (disabled m ∪ {[event]})).

End ReportingMap.
End ReportingMap.

#[export] Instance DefaultReportingMap_provider ly :
  PusEventReportingMapProvider (DefaultPusEventReportingMap ly) (Event ly) unit := {|
  event_enabled := ReportingMap.event_enabled;
  enable_event_reporting := ReportingMap.enable_event_reporting;
  disable_event_reporting := ReportingMap.disable_event_reporting;
|}.

(** A [heapless::FnvIndexSet] of raw events with room for [N]. *)
Record HeaplessPusMgmtBackendProvider (N : Z) : Type := mkHeaplessMap { h_disabled : gset Z }.

Arguments mkHeaplessMap {N} _.
Arguments h_disabled {N} _.

Module HeaplessMap.
Section HeaplessMap.
Context {ly : layout} {N : Z}.
Abbreviation t := (HeaplessPusMgmtBackendProvider N).

Definition event_enabled (m : t) (event : Event ly) : bool :=
  bool_decide (Event.raw_as_largest_type event ∈ h_disabled m).

Definition enable_event_reporting (event : Event ly) : st t unit bool :=
  fun m =>
    let raw := Event.raw_as_largest_type event in
    if decide (raw ∈ h_disabled m) then (Ok false, m)
    else if N <=? Z.of_nat (size (h_disabled m)) then (Err tt, m)
    else (Ok true, mkHeaplessMap (h_disabled m ∪ {[raw]})).

Definition disable_event_reporting (event : Event ly) : st t unit bool :=
  fun m =>
    let raw := Event.raw_as_largest_type event in
    (Ok (bool_decide (raw ∈ h_disabled m)), mkHeaplessMap (h_disabled m ∖ {[raw]})).

End HeaplessMap.
End HeaplessMap.

#[export] Instance HeaplessMap_provider ly N :
  PusEventReportingMapProvider (HeaplessPusMgmtBackendProvider N) (Event ly) unit := {|
  event_enabled := HeaplessMap.event_enabled;
  enable_event_reporting := HeaplessMap.enable_event_reporting;
  disable_event_reporting := HeaplessMap.disable_event_reporting;
|}.

(** ** The creator with its map *)
Inductive EventManError (PE : Type) : Type :=
| ManEcssTmtc (e : EcssTmtcError PE)
| SeverityMissmatch (a b : Severity).

Arguments ManEcssTmtc {PE} e.
Arguments SeverityMissmatch {PE} a b.

Record EventGenerationResult : Type := mkGenerationResult {
  event_was_enabled : bool;
  params_were_propagated : bool;
}.

Record PusEventTmCreatorWithMap (M : Type) : Type := mkTmCreator {
  tm_reporter : EventReporter;
  reporting_map : M;
}.

Arguments mkTmCreator {M} _ _.
Arguments tm_reporter {M} _.
Arguments reporting_map {M} _.

Module TmCreator.
Section TmCreator.
Context {PE Q M ME : Type} {ly : layout} `{PusErrorOps PE} `{EcssTmSender PE Q}
  `{PusEventReportingMapProvider M (Event ly) ME}.
Context (subservice_into : EventSubservice -> Z).
Abbreviation creator := (PusEventTmCreatorWithMap M).

Definition on_map {E A : Type} (m : st M E A) : st creator E A :=
  fun c => let '(r, x) := m (reporting_map c) in (r, mkTmCreator (tm_reporter c) x).

Definition enable_tm_for_event (event : Event ly) : st creator ME bool :=
  on_map (enable_event_reporting event).

Definition disable_tm_for_event (event : Event ly) : st creator ME bool :=
  on_map (disable_event_reporting event).

(** A call of the reporter. *)
Definition on_reporter {E A : Type} (m : st (EventReporter * Q) E A) : st (creator * Q) E A :=
  fun x => let '(r, (rep, q)) := m (tm_reporter x.1, x.2) in
    (r, (mkTmCreator rep (reporting_map x.1), q)).

Definition generate_pus_event_tm_generic (time_stamp : list Z) (event : Event ly)
    (params : option (list Z)) : st (creator * Q) (EventManError PE) bool :=
  fun x =>
    if negb (event_enabled (reporting_map x.1) event) then (Ok false, x) else
    (let* _ := st_map_err ManEcssTmtc (on_reporter
       (match severity event with
        | Info => EvReporter.event_info subservice_into time_stamp (event_enum event) params
        | Low => EvReporter.event_low_severity subservice_into time_stamp (event_enum event) params
        | Medium => EvReporter.event_medium_severity subservice_into time_stamp (event_enum event) params
        | High => EvReporter.event_high_severity subservice_into time_stamp (event_enum event) params
        end)) in
     ret true) x.

(** [small_data_buf] is a [&mut] argument: part of the state. *)
Definition generate_pus_event_tm_generic_with_generic_params (time_stamp : list Z) (event : Event ly)
    (params : option Params) : st ((creator * Q) * list Z) (EventManError PE) EventGenerationResult :=
  let generate p := on_fst (generate_pus_event_tm_generic time_stamp event p) in
  match params with
  | None => let* en := generate None in ret (mkGenerationResult en true)
  | Some (Heapless p) =>
      let* small_data_buf := gets snd in
      let n := ParamsHeapless.written_len p in
      let* sub := lift (slice small_data_buf 0 n) in
      let* r := lift (map_err (fun e => ManEcssTmtc (TmtcByteConversion e))
                        (ParamsHeapless.write_to_be_bytes p sub)) in
      let* buf := lift (copy_into small_data_buf 0 n r.2) in
      let* _ := on_snd (modify_state (fun _ => buf)) in
      let* en := generate (Some buf) in
      ret (mkGenerationResult en true)
  | Some (Vec v) => let* en := generate (Some v) in ret (mkGenerationResult en true)
  | Some (PString s) => let* en := generate (Some s) in ret (mkGenerationResult en true)
  | Some (Store _) => let* en := generate None in ret (mkGenerationResult en false)
  end.

End TmCreator.
End TmCreator.

(** ** Reports *)
Section Reports.
Context {ly : layout} (subservice_into : EventSubservice -> Z).
Hypothesis Hly : layout_ok ly.
Implicit Types (e : Event ly) (params : option (list Z)).

(** The source data of a report: the event, big-endian, and the parameters. *)
Definition event_data e params : list Z :=
  to_be_bytes (Z.to_nat (raw_size ly)) (Event.raw e) ++ default [] params.

Definition severity_subservice (s : Severity) : EventSubservice :=
  match s with
  | Info => TmInfoReport
  | Low => TmLowSeverityReport
  | Medium => TmMediumSeverityReport
  | High => TmHighSeverityReport
  end.

Definition event_tm (c : EventReportCreator) (ss : EventSubservice) (stamp data : list Z) : PusTm :=
  {| tm_apid := ev_apid c; tm_seq_count := 0; tm_service := 5; tm_subservice := subservice_into ss;
     tm_msg_counter := 0; tm_dest_id := ev_dest_id c; tm_time_stamp := stamp; tm_source_data := data |}.

Lemma len_event_data e params : len (event_data e params) = raw_size ly + len (default [] params).
Proof using Hly.
  destruct (raw_size_bits ly Hly). unfold event_data. rewrite len_app. unfold len at 1.
  rewrite length_to_be_bytes. lia.
Qed.

Lemma write_event e buf :
  raw_size ly <= len buf ->
  let raw := to_be_bytes (Z.to_nat (raw_size ly)) (Event.raw e) in
  ReportCreator.write_enum 0 (event_enum e) buf = (Ok tt, raw ++ drop (length raw) buf).
Proof using Hly.
  intros Hl raw. destruct (raw_size_bits ly Hly) as [_ Hpos].
  assert (len raw = raw_size ly) as Hraw by (unfold len, raw; rewrite length_to_be_bytes; lia).
  unfold ReportCreator.write_enum, st_bind, asks, lift. cbn [event_enum enum_size enum_write].
  rewrite slice_ok by lia. rewrite event_write_exact; [|done|].
  - fold raw. cbn [snd]. rewrite copy_into_ok by lia. done.
  - unfold len in *. rewrite length_take, length_drop. lia.
Qed.

Lemma generate_spec c ss stamp e params buf :
  let data := event_data e params in
  EventCreator.generate_generic_event_tm subservice_into c ss stamp (event_enum e) params buf =
    if len buf <? len data then (Err (ToSliceTooSmall (len buf) (len data)), buf)
    else (Ok (event_tm c ss stamp data), data ++ drop (length data) buf).
Proof using Hly.
  cbv zeta. unfold EventCreator.generate_generic_event_tm. cbn [event_enum enum_size].
  assert (raw_size ly + match params with Some aux => len aux | None => 0 end = len (event_data e params))
    as Hn by (rewrite len_event_data; by destruct params).
  rewrite Hn. unfold st_bind at 1, asks, source_buffer_large_enough.
  destruct (Z.ltb_spec (len buf) (len (event_data e params))) as [|Hl]; [done|].
  pose proof (len_event_data e params) as Hd. pose proof (len_nonneg (default [] params)).
  unfold st_bind at 1. fold (event_enum e). rewrite write_event by lia.
  set (raw := to_be_bytes _ _) in *. change (0 + raw_size ly) with (raw_size ly). rewrite Hn.
  assert (len raw = raw_size ly) as Hraw.
  { destruct (raw_size_bits ly Hly). unfold len, raw. rewrite length_to_be_bytes. lia. }
  unfold st_bind at 1.
  assert ((match params with
    | Some aux => ReportCreator.write_slice (raw_size ly) (raw_size ly + len aux) aux
    | None => ret tt
    end) (raw ++ drop (length raw) buf) =
    (Ok tt, event_data e params ++ drop (length (event_data e params)) buf)) as ->.
  { unfold event_data. fold raw. destruct params as [aux|]; simpl in *.
    - rewrite write_slice_prefix by (try done; lia). done.
    - by rewrite app_nil_r. }
  unfold st_bind.
  by rewrite (slice_at [] (event_data e params) (drop (length (event_data e params)) buf)).
Qed.

Context {PE : Type} `{PusErrorOps PE}.

(** The reporter hands the report to the sender, whatever its severity. *)
Lemma report_spec r q (sev : Severity) stamp e params :
  let data := event_data e params in
  let buf := ev_source_data_buf r in
  (match sev with
   | Info => EvReporter.event_info (PE:=PE) subservice_into stamp (event_enum e) params
   | Low => EvReporter.event_low_severity subservice_into stamp (event_enum e) params
   | Medium => EvReporter.event_medium_severity subservice_into stamp (event_enum e) params
   | High => EvReporter.event_high_severity subservice_into stamp (event_enum e) params
   end) (r, q) =
    if len buf <? len data
    then (Err (TmtcPus (pus_byte_conversion (ToSliceTooSmall (len buf) (len data)))), (r, q))
    else (Ok tt, (EvReporter.set_buf (data ++ drop (length data) buf) r,
                  q ++ [(ev_reporter_id r, Direct (ev_hook r
                     (event_tm (report_creator r) (severity_subservice sev) stamp data)))])).
Proof using Hly.
  cbv zeta. destruct sev; unfold EvReporter.event_info, EvReporter.event_low_severity,
    EvReporter.event_medium_severity, EvReporter.event_high_severity, EvReporter.report,
    EventCreator.event_info, EventCreator.event_low_severity, EventCreator.event_medium_severity,
    EventCreator.event_high_severity; rewrite generate_spec; cbv zeta;
    (destruct (len (ev_source_data_buf r) <? _); [by destruct r|done]).
Qed.

End Reports.

(** ** Switching events on and off *)
Section Switching.
Context {ly : layout}.

(** A history of calls: [true] for [enable_tm_for_event], [false] for
    [disable_tm_for_event]. *)
Definition switch (c : PusEventTmCreatorWithMap (DefaultPusEventReportingMap ly)) (op : bool * Event ly) :=
  ((if op.1 then TmCreator.enable_tm_for_event op.2 else TmCreator.disable_tm_for_event op.2) c).2.

(** An event is reported unless the last call about it disabled it. *)
Definition reported (ops : list (bool * Event ly)) (e : Event ly) : bool :=
  match last (filter (fun op => op.2 = e) ops) with Some (on, _) => on | None => true end.

Lemma switch_reporter c ops : tm_reporter (foldl switch c ops) = tm_reporter c.
Proof.
  revert c. induction ops as [|[on e] ops IH]; intros c; [done|]. simpl. rewrite IH. by destruct on.
Qed.

Lemma switch_enabled r ops e :
  ReportingMap.event_enabled
    (reporting_map (foldl switch (mkTmCreator r ReportingMap.default) ops)) e = reported ops e.
Proof.
  induction ops as [|[on e'] ops IH] using rev_ind; [done|].
  rewrite foldl_snoc. unfold reported in *. rewrite filter_app, filter_cons, filter_nil.
  set (c := foldl switch _ ops) in *. unfold switch. cbn [fst snd].
  destruct (decide (e' = e)) as [->|Hne].
  - rewrite last_snoc. destruct on.
    + change (negb (bool_decide (e ∈ disabled (reporting_map c) ∖ {[e]})) = true).
      by rewrite bool_decide_false by set_solver.
    + change (negb (bool_decide (e ∈ disabled (reporting_map c) ∪ {[e]})) = false).
      by rewrite bool_decide_true by set_solver.
  - rewrite app_nil_r, <- IH. unfold ReportingMap.event_enabled.
    destruct on; cbn -[bool_decide]; f_equal; apply bool_decide_ext; set_solver.
Qed.

(** The telemetry of an event follows its entry in the map. *)
Lemma generate_generic_spec {PE} `{PusErrorOps PE} subservice_into
    (c : PusEventTmCreatorWithMap (DefaultPusEventReportingMap ly)) q stamp (e : Event ly) params :
  layout_ok ly ->
  let r := tm_reporter c in
  let data := event_data e params in
  let buf := ev_source_data_buf r in
  TmCreator.generate_pus_event_tm_generic (PE:=PE) (ME:=unit) subservice_into stamp e params (c, q) =
    if negb (ReportingMap.event_enabled (reporting_map c) e) then (Ok false, (c, q))
    else if len buf <? len data then
      (Err (ManEcssTmtc (TmtcPus (pus_byte_conversion (ToSliceTooSmall (len buf) (len data))))), (c, q))
    else
      (Ok true,
       (mkTmCreator (EvReporter.set_buf (data ++ drop (length data) buf) r) (reporting_map c),
        q ++ [(ev_reporter_id r, Direct (ev_hook r
                 (event_tm subservice_into (report_creator r) (severity_subservice (severity e))
                    stamp data)))])).
Proof.
  intros Hly r data buf. unfold TmCreator.generate_pus_event_tm_generic.
  cbn [fst event_enabled DefaultReportingMap_provider].
  destruct (negb (ReportingMap.event_enabled (reporting_map c) e)); [done|].
  unfold st_bind, st_map_err, TmCreator.on_reporter. cbn [fst snd].
  rewrite (report_spec subservice_into Hly). cbv zeta. fold r data buf.
  destruct (len buf <? len data); [|done]. by destruct c.
Qed.

End Switching.

(** * Properties *)

(** C15: After any history of enable and disable calls, generating the telemetry
    of an event sends nothing exactly when the last call about that event disabled
    it; otherwise one report of service 5 with the subservice of its severity and
    the event followed by the parameters as source data is handed to the sender.
    A source buffer that is too small is reported as an error and nothing is
    sent. *)
Theorem event_reporting_correct {PE} `{PusErrorOps PE} {ly} subservice_into
    (ops : list (bool * Event ly)) r q stamp (e : Event ly) params :
  layout_ok ly ->
  let c := foldl switch (mkTmCreator r ReportingMap.default) ops in
  let data := event_data e params in
  let buf := ev_source_data_buf r in
  TmCreator.generate_pus_event_tm_generic (PE:=PE) (ME:=unit) subservice_into stamp e params (c, q) =
    if negb (reported ops e) then (Ok false, (c, q))
    else if len buf <? len data then
      (Err (ManEcssTmtc (TmtcPus (pus_byte_conversion (ToSliceTooSmall (len buf) (len data))))), (c, q))
    else
      (Ok true,
       (mkTmCreator (EvReporter.set_buf (data ++ drop (length data) buf) r) (reporting_map c),
        q ++ [(ev_reporter_id r, Direct (ev_hook r
                 (event_tm subservice_into (report_creator r) (severity_subservice (severity e))
                    stamp data)))])).
Proof.
  intros Hly c data buf. subst c. set (c := foldl switch _ ops).
  assert (tm_reporter c = r) as Hr by apply switch_reporter.
  rewrite (generate_generic_spec subservice_into c q stamp e params Hly). cbv zeta. rewrite Hr.
  subst c. by rewrite switch_enabled.
Qed.

Definition ex_event_reporter : EventReporter :=
  mkEventReporter 3 (replicate 8 0) (mkEventCreator 7 0) (fun tm => tm).

(** The subservice numbers of the standard. *)
Definition ecss_event_subservice (s : EventSubservice) : Z :=
  match s with
  | TmInfoReport => 1 | TmLowSeverityReport => 2 | TmMediumSeverityReport => 3
  | TmHighSeverityReport => 4 | TcEnableEventGeneration => 5 | TcDisableEventGeneration => 6
  | TcReportDisabledList => 7 | TmDisabledEventsReport => 8
  end.

Lemma event_reporting_correct_witness :
  let e1 : Event Events.U32 := mkEvent High 5 9 in
  let e2 : Event Events.U32 := mkEvent Low 5 9 in
  let c := foldl switch (mkTmCreator ex_event_reporter ReportingMap.default)
             [(false, e1); (false, e2); (true, e1)] in
  exists c',
    TmCreator.generate_pus_event_tm_generic (PE:=unit) (H:=fun _ => tt) (ME:=unit)
      ecss_event_subservice [64] e1 (Some [1; 2]) (c, []) =
      (Ok true, (c', [(3, Direct (mkPusTm 7 0 5 4 0 0 [64] [192; 5; 0; 9; 1; 2]))])) /\
    TmCreator.generate_pus_event_tm_generic (PE:=unit) (H:=fun _ => tt) (ME:=unit)
      ecss_event_subservice [64] e2 None (c, []) = (Ok false, (c, [])).
Proof.
  intros e1 e2 c. eexists. split.
  - subst c. rewrite (event_reporting_correct (PE:=unit) (H:=fun _ => tt) ecss_event_subservice
      [(false, e1); (false, e2); (true, e1)] ex_event_reporter [] [64] e1 (Some [1; 2])
      (or_introl eq_refl)). reflexivity.
  - subst c. rewrite (event_reporting_correct (PE:=unit) (H:=fun _ => tt) ecss_event_subservice
      [(false, e1); (false, e2); (true, e1)] ex_event_reporter [] [64] e2 None
      (or_introl eq_refl)). reflexivity.
Defined.

(** The parameters as the bytes of the report, whether they are in it, and the
    small buffer afterwards. *)
Definition propagated (params : option Params) (small : list Z) : option (list Z) * bool * list Z :=
  match params with
  | None => (None, true, small)
  | Some (Heapless p) =>
      let buf := param_bytes p ++ drop (length (param_bytes p)) small in (Some buf, true, buf)
  | Some (Vec v) => (Some v, true, small)
  | Some (PString s) => (Some s, true, small)
  | Some (Store _) => (None, false, small)
  end.

(** With generic parameters the report carries the bytes of a vector or a
    string; a pool address is left out and this is said in the result; a heapless
    parameter is written to the front of the small buffer, and the whole small
    buffer becomes the data of the report.  A heapless parameter longer than the
    small buffer panics. *)
Theorem event_generic_params_correct {PE Q M ME} `{PusErrorOps PE} `{EcssTmSender PE Q} {ly}
    `{PusEventReportingMapProvider M (Event ly) ME} subservice_into stamp (e : Event ly) params
    (c : PusEventTmCreatorWithMap M) (q : Q) small :
  match params with Some (Heapless p) => param_ok p | _ => True end ->
  let run := TmCreator.generate_pus_event_tm_generic_with_generic_params (PE:=PE) (ME:=ME)
               subservice_into stamp e params ((c, q), small) in
  if match params with Some (Heapless p) => len (param_bytes p) <=? len small | _ => true end then
    let '(data, flag, small') := propagated params small in
    let '(r, x) := TmCreator.generate_pus_event_tm_generic (ME:=ME) subservice_into stamp e data (c, q) in
    run = (res_map (fun en => mkGenerationResult en flag) r, (x, small'))
  else run.1 = Panic.
Proof.
  intros Hok run. subst run.
  destruct params as [[p|a|v|s]|]; cbn [propagated];
    unfold TmCreator.generate_pus_event_tm_generic_with_generic_params, st_bind, on_fst; cbn [fst snd].
  1: { pose proof (len_nonneg (param_bytes p)). unfold gets, lift. rewrite (param_written_len p Hok).
       destruct (Z.leb_spec (len (param_bytes p)) (len small)) as [Hl|Hl].
       2: { unfold slice. cbn [snd]. destruct (Z.leb_spec (len (param_bytes p)) (len small)); [lia|].
            by rewrite andb_false_r. }
       cbn [snd].
       rewrite slice_ok by lia.
       rewrite (param_write p) by (try done; unfold len in *; rewrite length_take, length_drop; lia).
       cbn [map_err snd]. rewrite (drop_ge (take _ _)), app_nil_r
         by (rewrite length_take, length_drop; unfold len in *; lia).
       rewrite copy_into_ok by lia.
       unfold on_snd, modify_state. cbn [fst snd]. unfold splice. cbn [Z.to_nat take app Nat.add].
       by destruct (TmCreator.generate_pus_event_tm_generic _ _ _ _ _) as [[]]. }
  all: by destruct (TmCreator.generate_pus_event_tm_generic _ _ _ _ _) as [[]].
Qed.

Lemma event_generic_params_correct_witness :
  let e : Event Events.U16 := mkEvent Info 5 9 in
  let c := mkTmCreator ex_event_reporter ReportingMap.default in
  exists c', TmCreator.generate_pus_event_tm_generic_with_generic_params (PE:=unit) (H:=fun _ => tt)
      (ME:=unit) ecss_event_subservice [64] e (Some (Heapless (Raw (Params.U16 258)))) ((c, []), [7; 7; 7]) =
    (Ok (mkGenerationResult true true),
     ((c', [(3, Direct (mkPusTm 7 0 5 1 0 0 [64] [5; 9; 1; 2; 7]))]), [1; 2; 7])).
Proof.
  intros e c. eexists.
  pose proof (event_generic_params_correct (PE:=unit) (H:=fun _ => tt) (ME:=unit) ecss_event_subservice
    [64] e (Some (Heapless (Raw (Params.U16 258)))) c [] [7; 7; 7] I) as Hx.
  exact Hx.
Defined.

(** A fresh heapless map takes every event as disabled, and enabling an event
    inserts it into the set of disabled events. *)
Example heapless_map_inverted :
  let e : Event Events.U32 := mkEvent High 5 9 in
  let m : HeaplessPusMgmtBackendProvider 4 := mkHeaplessMap ∅ in
  HeaplessMap.event_enabled m e = false /\
  h_disabled (HeaplessMap.enable_event_reporting e m).2 = {[Event.raw e]} /\
  HeaplessMap.event_enabled (HeaplessMap.enable_event_reporting e m).2 e = true.
Proof. vm_compute. done. Qed.
