(* ===== verification/TypedEvents.v ===== *)
(** * Events with a severity in their type

    [EventU32TypedSev] and [EventU16TypedSev] of [satrs/src/events.rs], the
    [GenericEvent] trait with its implementations, and the methods of
    [satrs/src/pus/event_man.rs] for typed events. *)

From Stdlib Require Import ZArith Lia Bool.
From stdpp Require Import base list gmap.
From S2P Require Import Prelude Spacepackets Tmtc Params Verification Events Services PusEvents.

Local Open Scope Z_scope.

(** ** Severities as types *)
Class HasSeverity (S : Type) : Type := SEVERITY : Severity.
Arguments SEVERITY S {_}.

Inductive SeverityInfo : Type := mkSeverityInfo.
Inductive SeverityLow : Type := mkSeverityLow.
Inductive SeverityMedium : Type := mkSeverityMedium.
Inductive SeverityHigh : Type := mkSeverityHigh.

#[export] Instance SeverityInfo_severity : HasSeverity SeverityInfo := Info.
#[export] Instance SeverityLow_severity : HasSeverity SeverityLow := Low.
#[export] Instance SeverityMedium_severity : HasSeverity SeverityMedium := Medium.
#[export] Instance SeverityHigh_severity : HasSeverity SeverityHigh := High.

(** [EventU32TypedSev] and [EventU16TypedSev], by their layout. *)
Record EventTypedSev (ly : layout) (S : Type) : Type := mkTypedSev { event : Event ly }.
Arguments mkTypedSev {ly S} _.
Arguments event {ly S} _.

(** ** The trait of all events *)
Class GenericEvent (T : Type) : Type := {
  ge_raw : T -> Z;
  ge_severity : T -> Severity;
  ge_group_id : T -> Z;
  ge_unique_id : T -> Z;
  ge_raw_as_largest_type : T -> Z;
  ge_group_id_as_largest_type : T -> Z;
  ge_enum : T -> EcssEnum;
  ge_pfc : T -> Z;
}.

#[export] Instance Event_generic ly : GenericEvent (Event ly) := {|
  ge_raw := Event.raw;
  ge_severity := severity;
  ge_group_id := group_id;
  ge_unique_id := unique_id;
  ge_raw_as_largest_type := Event.raw_as_largest_type;
  ge_group_id_as_largest_type := Event.group_id_as_largest_type;
  ge_enum := event_enum;
  ge_pfc := fun _ => raw_bits ly;
|}.

#[export] Instance EventTypedSev_generic ly S : GenericEvent (EventTypedSev ly S) := {|
  ge_raw := fun t => ge_raw (event t);
  ge_severity := fun t => ge_severity (event t);
  ge_group_id := fun t => ge_group_id (event t);
  ge_unique_id := fun t => ge_unique_id (event t);
  ge_raw_as_largest_type := fun t => ge_raw_as_largest_type (event t);
  ge_group_id_as_largest_type := fun t => ge_group_id_as_largest_type (event t);
  ge_enum := fun t => ge_enum (event t);
  ge_pfc := fun t => ge_pfc (event t);
|}.

(** ** Operations *)
Module Typed.
Section Typed.
Context {ly : layout} {S : Type} `{HasSeverity S}.

Definition new_checked (group_id unique_id : Z) : option (EventTypedSev ly S) :=
  match Event.new_checked (SEVERITY S) group_id unique_id with
  | Some event => Some (mkTypedSev event)
  | None => None
  end.

Definition new {E : Type} (group_id unique_id : Z) : res E (EventTypedSev ly S) :=
  let? event := Event.new (SEVERITY S) group_id unique_id in Ok (mkTypedSev event).

Definition try_from_generic (expected : Severity) (raw : Z) : res Severity (EventTypedSev ly S) :=
  let? severity := expect (Severity.try_from
                     (as_u 8 (Z.land (Z.shiftr raw (gid_bits ly + uid_bits ly)) 3))) in
  if decide (severity <> expected) then Err severity
  else new (Z.land (Z.shiftr raw (uid_bits ly)) (2 ^ gid_bits ly - 1)) (Z.land raw (2 ^ uid_bits ly - 1)).

(** [From<EventU32TypedSev<SEVERITY>> for EventU32], and [const_from_info] and so on. *)
Definition into (e : EventTypedSev ly S) : Event ly := event e.

Definition as_ref (e : EventTypedSev ly S) : Event ly := event e.

(** What a caller does with the event behind [as_mut]. *)
Definition as_mut (f : Event ly -> Event ly) (e : EventTypedSev ly S) : EventTypedSev ly S := mkTypedSev (f (event e)).

(** [PartialEq<EventU32> for EventU32TypedSev], and with the sides exchanged. *)
Definition eq_untyped (e : EventTypedSev ly S) (other : Event ly) : bool := ge_raw e =? ge_raw other.

Definition untyped_eq (e : Event ly) (other : EventTypedSev ly S) : bool := ge_raw e =? ge_raw other.
End Typed.

(** [try_from_impls!] *)
Definition try_from_info {ly} : Z -> res Severity (EventTypedSev ly SeverityInfo) := try_from_generic Info.
Definition try_from_low {ly} : Z -> res Severity (EventTypedSev ly SeverityLow) := try_from_generic Low.
Definition try_from_medium {ly} : Z -> res Severity (EventTypedSev ly SeverityMedium) := try_from_generic Medium.
Definition try_from_high {ly} : Z -> res Severity (EventTypedSev ly SeverityHigh) := try_from_generic High.

(** *** Reports of typed events *)
Section Reports.
Context {PE Q M ME : Type} `{PusErrorOps PE} `{EcssTmSender PE Q} `{PusEventReportingMapProvider M (Event U32) ME}.
Context (subservice_into : EventSubservice -> Z) {S : Type} `{HasSeverity S}.

Definition enable_tm_for_event_with_sev (e : EventTypedSev U32 S) : st (PusEventTmCreatorWithMap M) ME bool :=
  TmCreator.on_map (enable_event_reporting (as_ref e)).

Definition disable_tm_for_event_with_sev (e : EventTypedSev U32 S) : st (PusEventTmCreatorWithMap M) ME bool :=
  TmCreator.on_map (disable_event_reporting (as_ref e)).

Definition generate_pus_event_tm (time_stamp : list Z) (e : EventTypedSev U32 S) (aux_data : option (list Z))
    : st (PusEventTmCreatorWithMap M * Q) (EventManError PE) bool :=
  TmCreator.generate_pus_event_tm_generic (ly:=U32) (ME:=ME) subservice_into time_stamp (into e) aux_data.
End Reports.
End Typed.

(** * Properties *)

(** The severity of a typed event is that of its type. *)
Definition typed_ok {ly S} `{HasSeverity S} (t : EventTypedSev ly S) : Prop :=
  severity (event t) = SEVERITY S /\ event_ok (event t).

Section Typing.
Context (ly : layout) (Hly : layout_ok ly) (S : Type) `{HS : HasSeverity S}.
Implicit Types (t : EventTypedSev ly S).

Lemma typed_new {E} g u :
  Typed.new (E:=E) (ly:=ly) (S:=S) g u =
    if max_group_id ly <? g then Panic else Ok (mkTypedSev (mkEvent (SEVERITY S) g u)).
Proof. unfold Typed.new, Event.new. by destruct (max_group_id ly <? g). Qed.

Lemma typed_new_checked g u :
  Typed.new_checked (ly:=ly) (S:=S) g u =
    if max_group_id ly <? g then None else Some (mkTypedSev (mkEvent (SEVERITY S) g u)).
Proof. unfold Typed.new_checked, Event.new_checked. by destruct (max_group_id ly <? g). Qed.

(** The conversion of a raw value looks at its severity. *)
Lemma try_from_event (e : Event ly) :
  event_ok e ->
  Typed.try_from_generic (S:=S) (SEVERITY S) (Event.raw e) =
    if decide (severity e = SEVERITY S) then Ok (mkTypedSev e) else Err (severity e).
Proof using Hly.
  intros [Hg Hu]. rewrite raw_pack by done. unfold Typed.try_from_generic.
  destruct (event_raw_fields ly Hly (Severity.to_u8 (severity e)) (group_id e) (unique_id e)
    (severity_range _) Hg Hu) as (-> & -> & ->).
  rewrite severity_roundtrip. cbn [expect res_bind]. rewrite typed_new. case_decide as Hs; case_decide as Hs'; try done.
  destruct (Z.ltb_spec (max_group_id ly) (group_id e)); [lia|]. rewrite <- Hs'. by destruct e.
Qed.

Lemma typed_raw_inj t (e : Event ly) : typed_ok t -> event_ok e -> ge_raw t = ge_raw e <-> Typed.into t = e.
Proof using Hly. intros [_ Ht] He. split; [by apply (raw_inj Hly)|]. by intros <-. Qed.
End Typing.

(** The typed events a program can have, as long as it does not write to one through
    [as_mut]: those of the constructors and of the conversion of raw values; the fields are [u16],
    [u32] and so on. *)
Inductive made {ly S} `{HasSeverity S} : EventTypedSev ly S -> Prop :=
| made_new g u t : 0 <= g -> in_u (uid_bits ly) u -> Typed.new (E:=Empty_set) g u = Ok t -> made t
| made_checked g u t : 0 <= g -> in_u (uid_bits ly) u -> Typed.new_checked g u = Some t -> made t
| made_from_raw v t : in_u (raw_bits ly) v -> Typed.try_from_generic (SEVERITY S) v = Ok t -> made t.

Lemma try_from_raw ly S `{HasSeverity S} v :
  layout_ok ly -> in_u (raw_bits ly) v ->
  match Typed.try_from_generic (ly:=ly) (S:=S) (SEVERITY S) v with
  | Ok t => typed_ok t /\ ge_raw t = v
  | Err s => s <> SEVERITY S /\ exists e, Event.from_raw (E:=Empty_set) (ly:=ly) v = Ok e /\ severity e = s
  | Panic => False
  end.
Proof.
  intros Hly Hv. destruct (from_raw_exists (E:=Empty_set) ly v Hly Hv) as (e & Hf & He & <-).
  rewrite (try_from_event ly Hly S e He). case_decide as Hs; [done|]. split; [done|]. by exists e.
Qed.

Lemma made_typed ly S `{HasSeverity S} (t : EventTypedSev ly S) : layout_ok ly -> made t -> typed_ok t.
Proof.
  intros Hly [g u t' Hg Hu Hn|g u t' Hg Hu Hn|v t' Hv Hn].
  - rewrite typed_new in Hn. destruct (Z.ltb_spec (max_group_id ly) g); [done|]. injection Hn as <-.
    split; [done|]. split; [cbn; lia|done].
  - rewrite typed_new_checked in Hn. destruct (Z.ltb_spec (max_group_id ly) g); [done|]. injection Hn as <-.
    split; [done|]. split; [cbn; lia|done].
  - pose proof (try_from_raw ly S v Hly Hv) as Ht. rewrite Hn in Ht. apply Ht.
Qed.

(** C39: The type of an event fixes its severity, for every typed event a program makes with the
    constructors and the conversion of raw values and does not write to through
    [as_mut] ([as_mut_breaks_type] shows what that does).  Its severity is the one of its type and its fields are in range.  The constructors
    give such an event with the IDs they got, or refuse a group ID that is too
    large; a raw value converts, without panic, to an event of the type exactly when
    it has the severity of the type, and its severity is the error otherwise; such
    events survive the way through their raw value, equality with untyped events is
    equality of the events, and events of types with different severities differ. *)
Theorem typed_events_sound ly S `{HS : HasSeverity S} :
  layout_ok ly ->
  (forall t : EventTypedSev ly S, made t -> ge_severity t = SEVERITY S /\ event_ok (Typed.into t)) /\
  (forall g u, 0 <= g -> in_u (uid_bits ly) u ->
     match Typed.new (E:=Empty_set) (ly:=ly) (S:=S) g u with
     | Ok t => g <= max_group_id ly /\ ge_group_id t = g /\ ge_unique_id t = u /\ Typed.new_checked g u = Some t
     | _ => max_group_id ly < g /\ Typed.new_checked (ly:=ly) (S:=S) g u = None
     end) /\
  (forall v, in_u (raw_bits ly) v ->
     match Typed.try_from_generic (ly:=ly) (S:=S) (SEVERITY S) v with
     | Ok t => ge_raw t = v
     | Err s => s <> SEVERITY S /\ exists e, Event.from_raw (E:=Empty_set) (ly:=ly) v = Ok e /\ severity e = s
     | Panic => False
     end) /\
  (forall t : EventTypedSev ly S, made t -> Typed.try_from_generic (SEVERITY S) (ge_raw t) = Ok t) /\
  (forall (t : EventTypedSev ly S) e, made t -> event_ok e ->
     Typed.eq_untyped t e = bool_decide (Typed.into t = e) /\ Typed.untyped_eq e t = bool_decide (Typed.into t = e)) /\
  (forall S' `{HasSeverity S'} (t : EventTypedSev ly S) (t' : EventTypedSev ly S'),
     made t -> made t' -> SEVERITY S <> SEVERITY S' -> ge_raw t <> ge_raw t').
Proof.
  intros Hly. split; [|split; [|split; [|split; [|split]]]].
  - intros t Ht. by apply made_typed.
  - intros g u Hg Hu. rewrite typed_new, typed_new_checked. by destruct (Z.ltb_spec (max_group_id ly) g).
  - intros v Hv. pose proof (try_from_raw ly S v Hly Hv) as Ht.
    destruct (Typed.try_from_generic _ v); [by destruct Ht|done|done].
  - intros t Hm. destruct (made_typed ly S t Hly Hm) as [Hs Ht].
    change (ge_raw t) with (Event.raw (event t)). rewrite (try_from_event ly Hly S (event t) Ht).
    rewrite decide_True by done. by destruct t.
  - intros t e Ht%made_typed He; [|done]. pose proof (typed_raw_inj ly Hly S t e Ht He) as Hi.
    unfold Typed.eq_untyped, Typed.untyped_eq.
    split; apply eq_bool_prop_intro; rewrite Is_true_true, Z.eqb_eq, bool_decide_spec; [done|].
    rewrite <- Hi. split; by intros ->.
  - intros S' HS' t t' [Hs Ht]%made_typed [Hs' Ht']%made_typed Hne Heq; [|done..]. apply Hne. rewrite <- Hs, <- Hs'.
    by rewrite (raw_inj Hly _ _ Ht Ht' Heq).
Qed.

Lemma typed_events_sound_witness :
  let t := mkTypedSev (S:=SeverityHigh) (mkEvent (ly:=U32) High 5 9) in
  ge_severity t = High /\ Typed.try_from_high (ly:=U32) (ge_raw t) = Ok t.
Proof.
  intros t. destruct (typed_events_sound U32 SeverityHigh) as (Hsev & _ & _ & Hr & _); [by left|].
  assert (Hm : made t) by (apply (made_new 5 9); [lia|unfold in_u; cbn; lia|reflexivity]).
  split; [exact (proj1 (Hsev t Hm))|exact (Hr t Hm)].
Defined.

(** The report of a typed event has the subservice of its type. *)
Theorem typed_report_correct {PE} `{PusErrorOps PE} subservice_into S `{HasSeverity S}
    (ops : list (bool * Event U32)) r q stamp (t : EventTypedSev U32 S) params :
  typed_ok t -> reported ops (Typed.into t) = true -> len (event_data (Typed.into t) params) <= len (ev_source_data_buf r) ->
  let c := foldl switch (mkTmCreator r ReportingMap.default) ops in
  exists c', Typed.generate_pus_event_tm (PE:=PE) (ME:=unit) subservice_into stamp t params (c, q) =
    (Ok true, (c', q ++ [(ev_reporter_id r, Direct (ev_hook r
       (event_tm subservice_into (report_creator r) (severity_subservice (SEVERITY S)) stamp
          (event_data (Typed.into t) params))))])).
Proof.
  intros [Hs _] Hrep Hlen c. assert (Hr : tm_reporter c = r) by apply switch_reporter.
  unfold Typed.generate_pus_event_tm. rewrite (generate_generic_spec subservice_into c q stamp _ params); [|by left].
  cbv zeta. rewrite Hr. unfold c at 1. rewrite switch_enabled, Hrep. cbn [negb].
  destruct (Z.ltb_spec (len (ev_source_data_buf r)) (len (event_data (Typed.into t) params))); [lia|].
  eexists. unfold Typed.into. by rewrite Hs.
Qed.

(** Behind [as_mut] the severity can be exchanged: the type no longer says it. *)
Example as_mut_breaks_type :
  let t := Typed.as_mut (fun _ => mkEvent High 1 0) (mkTypedSev (S:=SeverityInfo) (mkEvent (ly:=U32) Info 1 0)) in
  ge_severity t = High /\ Typed.try_from_info (ly:=U32) (ge_raw t) = Err High.
Proof. split; reflexivity. Qed.
