(* ===== verification/Filestore.v ===== *)
(** * The virtual filestore of CFDP ([satrs/src/cfdp/filestore.rs])

    The trait [VirtualFilestore], its implementation [NativeFilestore] on the file
    system of the operating system, the checksums of a file, and [VfsSpec], the
    contract the CFDP destination handler is proved against. *)

From Stdlib Require Import ZArith Lia Bool String.
From stdpp Require Import base list gmap strings.
From S2P Require Import Prelude Spacepackets.

Local Open Scope Z_scope.

(** ** What is used of [spacepackets] and of the [crc] package *)

(** [ChecksumType]: the variants the sources name, and the rest. *)
Inductive ChecksumType : Type :=
| Modular
| Crc32
| NullChecksum
| OtherChecksum (raw : Z).

#[export] Instance ChecksumType_eq_dec : EqDecision ChecksumType.
Proof. solve_decision. Defined.

(** [Crc<u32>]: [CRC_32.digest()], [Digest::update] and [Digest::finalize]. *)
Class CrcOps : Type := {
  digest : Type;
  crc_digest : digest;
  crc_update : digest -> list Z -> digest;
  crc_finalize : digest -> Z;
}.

(** A digest does not depend on how its input is cut into updates. *)
Class CrcLaws `{CrcOps} : Prop := {
  crc_update_app : forall d a b, crc_update (crc_update d a) b = crc_update d (a ++ b);
  crc_update_nil : forall d, crc_update d [] = d;
}.

(** ** The file system of the operating system

    What the sources use of [std::path] and [std::fs].  A path is the bytes of a
    [str]; the operating system resolves it to a list of names.  There are no
    links, so [..] is resolved in the path; relative paths start at the root. *)
Definition slash : Z := 47.
Definition dot : Z := 46.

Fixpoint path_split (p : list Z) : list (list Z) :=
  match p with
  | [] => [[]]
  | b :: p' =>
      if b =? slash then [] :: path_split p'
      else match path_split p' with
           | c :: cs => (b :: c) :: cs
           | [] => [[b]]
           end
  end.

(** [Path::components]: empty and [.] components are dropped. *)
Definition components (p : list Z) : list (list Z) :=
  List.filter (fun c => negb (bool_decide (c = [])) && negb (bool_decide (c = [dot]))) (path_split p).

(** [Path::file_name] *)
Definition file_name (p : list Z) : option (list Z) :=
  match last (components p) with
  | Some c => if bool_decide (c = [dot; dot]) then None else Some c
  | None => None
  end.

(** [PathBuf::push] of a relative path. *)
Definition path_push (p c : list Z) : list Z :=
  match last p with
  | None => c
  | Some b => if b =? slash then p ++ c else p ++ [slash] ++ c
  end.

(** The names a path leads to, from the root. *)
Definition resolve (p : list Z) : list (list Z) :=
  fold_left (fun acc c => if bool_decide (c = [dot; dot]) then removelast acc else acc ++ [c])
    (components p) [].

Inductive node : Type :=
| File (data : list Z)
| Dir.

(** [fs_denied] are the nodes the process has no permission for. *)
Record Fs : Type := mkFs {
  fs_nodes : gmap (list (list Z)) node;
  fs_denied : gset (list (list Z));
}.

(** [std::io::Error]: the error number of the system, if it has one, and the
    text. *)
Record IoError : Type := mkIoError { raw_os_error : option Z; io_string : string }.

Module Os.

Definition not_found : IoError := mkIoError (Some 2) "No such file or directory (os error 2)".
Definition permission_denied : IoError := mkIoError (Some 13) "Permission denied (os error 13)".
Definition busy : IoError := mkIoError (Some 16) "Device or resource busy (os error 16)".
Definition already_exists : IoError := mkIoError (Some 17) "File exists (os error 17)".
Definition not_a_directory : IoError := mkIoError (Some 20) "Not a directory (os error 20)".
Definition is_a_directory : IoError := mkIoError (Some 21) "Is a directory (os error 21)".
Definition invalid_argument : IoError := mkIoError (Some 22) "Invalid argument (os error 22)".
Definition not_empty : IoError := mkIoError (Some 39) "Directory not empty (os error 39)".
Definition nul_in_path : IoError := mkIoError None "file name contained an unexpected NUL byte".
Definition unexpected_eof : IoError := mkIoError None "failed to fill whole buffer".

(** The node at a resolved path; the root is a directory. *)
Definition node_at (fs : Fs) (k : list (list Z)) : option node :=
  match k with [] => Some Dir | _ => fs_nodes fs !! k end.

Definition set_nodes (nodes : gmap (list (list Z)) node) (fs : Fs) : Fs :=
  {| fs_nodes := nodes; fs_denied := fs_denied fs |}.

(** The empty path and a path with a NUL byte lead nowhere. *)
Definition path_error (p : list Z) : option IoError :=
  if bool_decide (p = []) then Some not_found
  else if bool_decide (0 ∈ p) then Some nul_in_path else None.

Definition lookup (fs : Fs) (p : list Z) : option node :=
  match path_error p with Some _ => None | None => node_at fs (resolve p) end.

(** [Path::exists] and [Path::is_file] *)
Definition exists_ (fs : Fs) (p : list Z) : bool := bool_decide (is_Some (lookup fs p)).

Definition is_file (fs : Fs) (p : list Z) : bool :=
  match lookup fs p with Some (File _) => true | _ => false end.

(** The resolved path, if the process may use it. *)
Definition access (fs : Fs) (p : list Z) : res IoError (list (list Z)) :=
  match path_error p with
  | Some e => Err e
  | None => if bool_decide (resolve p ∈ fs_denied fs) then Err permission_denied else Ok (resolve p)
  end.

(** A new node needs a directory above it. *)
Definition parent_is_dir (fs : Fs) (k : list (list Z)) : res IoError unit :=
  match node_at fs (removelast k) with
  | Some Dir => Ok tt
  | Some (File _) => Err not_a_directory
  | None => Err not_found
  end.

(** [File::create] *)
Definition create (p : list Z) : st Fs IoError unit :=
  let* k := asks (fun fs => access fs p) in
  let* n := gets (fun fs => node_at fs k) in
  match n with
  | Some Dir => throw is_a_directory
  | Some (File _) => modify_state (fun fs => set_nodes (<[k := File []]> (fs_nodes fs)) fs)
  | None =>
      let* _ := asks (fun fs => parent_is_dir fs k) in
      modify_state (fun fs => set_nodes (<[k := File []]> (fs_nodes fs)) fs)
  end.

(** Opening an existing file: its resolved path and its contents. *)
Definition open (fs : Fs) (p : list Z) : res IoError (list (list Z) * list Z) :=
  let? k := access fs p in
  match node_at fs k with
  | Some (File data) => Ok (k, data)
  | Some Dir => Err is_a_directory
  | None => Err not_found
  end.

(** [fs::remove_file] *)
Definition remove_file (p : list Z) : st Fs IoError unit :=
  let* kd := asks (fun fs => open fs p) in
  modify_state (fun fs => set_nodes (delete kd.1 (fs_nodes fs)) fs).

(** [OpenOptions::new().write(true).truncate(true).open(p)] *)
Definition open_truncate (p : list Z) : st Fs IoError unit :=
  let* kd := asks (fun fs => open fs p) in
  modify_state (fun fs => set_nodes (<[kd.1 := File []]> (fs_nodes fs)) fs).

(** [fs::create_dir] *)
Definition create_dir (p : list Z) : st Fs IoError unit :=
  let* k := asks (fun fs => access fs p) in
  let* n := gets (fun fs => node_at fs k) in
  match n with
  | Some _ => throw already_exists
  | None =>
      let* _ := asks (fun fs => parent_is_dir fs k) in
      modify_state (fun fs => set_nodes (<[k := Dir]> (fs_nodes fs)) fs)
  end.

(** The nodes below a directory. *)
Definition below (k k' : list (list Z)) : Prop := k `prefix_of` k' /\ k' <> k.

#[global] Instance below_dec k k' : Decision (below k k').
Proof. unfold below. apply _. Defined.

Definition open_dir (fs : Fs) (p : list Z) : res IoError (list (list Z)) :=
  let? k := access fs p in
  match node_at fs k with
  | Some Dir => match k with [] => Err busy | _ => Ok k end
  | Some (File _) => Err not_a_directory
  | None => Err not_found
  end.

(** [fs::remove_dir] and [fs::remove_dir_all] *)
Definition remove_dir (p : list Z) : st Fs IoError unit :=
  let* k := asks (fun fs => open_dir fs p) in
  let* inside := gets (fun fs => filter (fun x => below k x.1) (fs_nodes fs)) in
  if bool_decide (inside = ∅)
  then modify_state (fun fs => set_nodes (delete k (fs_nodes fs)) fs)
  else throw not_empty.

Definition remove_dir_all (p : list Z) : st Fs IoError unit :=
  let* k := asks (fun fs => open_dir fs p) in
  modify_state (fun fs => set_nodes (filter (fun x => ~ k `prefix_of` x.1) (fs_nodes fs)) fs).

(** [File::seek(SeekFrom::Start(offset))]: the system takes a signed offset. *)
Definition seek (offset : Z) : res IoError unit :=
  if offset <? 2 ^ 63 then Ok tt else Err invalid_argument.

(** The contents of a file after a write of [buf] at [offset]; a gap is filled
    with zeros, writing nothing changes nothing. *)
Definition write_at (data : list Z) (offset : Z) (buf : list Z) : list Z :=
  match buf with
  | [] => data
  | _ =>
      take (Z.to_nat offset) data ++ replicate (Z.to_nat offset - length data) 0 ++
      buf ++ drop (Z.to_nat offset + length buf) data
  end.

(** [File::write_all] after opening and seeking. *)
Definition write_all (k : list (list Z)) (data : list Z) (offset : Z) (buf : list Z) : st Fs IoError unit :=
  modify_state (fun fs => set_nodes (<[k := File (write_at data offset buf)]> (fs_nodes fs)) fs).

(** [File::read_exact] of [n] bytes from [offset]. *)
Definition read_exact (data : list Z) (offset n : Z) : res IoError (list Z) :=
  if offset + n <=? len data
  then Ok (take (Z.to_nat n) (drop (Z.to_nat offset) data))
  else if n =? 0 then Ok [] else Err unexpected_eof.

(** [BufReader]: the bytes it has buffered and the bytes still in the file.  A
    read is served from the buffer, which holds up to [DEFAULT_BUF_SIZE] bytes
    and is filled when it is empty; a larger read bypasses it. *)
Record BufReader : Type := mkReader { rd_buf : list Z; rd_rest : list Z }.

Definition DEFAULT_BUF_SIZE : nat := Z.to_nat 8192.

Definition reader_new (data : list Z) : BufReader := mkReader [] data.

Definition fill_buf (r : BufReader) : BufReader :=
  match rd_buf r with
  | [] => mkReader (take DEFAULT_BUF_SIZE (rd_rest r)) (drop DEFAULT_BUF_SIZE (rd_rest r))
  | _ => r
  end.

Definition read (n : nat) (r : BufReader) : list Z * BufReader :=
  if bool_decide (rd_buf r = []) && (DEFAULT_BUF_SIZE <=? n)%nat
  then (take n (rd_rest r), mkReader [] (drop n (rd_rest r)))
  else let r' := fill_buf r in (take n (rd_buf r'), mkReader (drop n (rd_buf r')) (rd_rest r')).

End Os.

(** ** Errors and the trait *)
Inductive FilestoreError : Type :=
| FileDoesNotExist
| FileAlreadyExists
| DirDoesNotExist
| Permission
| IsNotFile
| IsNotDirectory
| ByteConversion (e : ByteConversionError)
| Io (raw_errno : option Z) (str : string)
| ChecksumTypeNotImplemented (checksum_type : ChecksumType).

#[export] Instance FilestoreError_eq_dec : EqDecision FilestoreError.
Proof. solve_decision. Defined.

Definition filestore_error_from_io (e : IoError) : FilestoreError :=
  Io (raw_os_error e) (io_string e).

Definition filestore_error_source (e : FilestoreError) : option ByteConversionError :=
  match e with ByteConversion e => Some e | _ => None end.

(** The methods take [&self]: the state [V] is the file system behind it.
    [checksum_verify] also returns the buffer it was lent. *)
Class VirtualFilestore (V : Type) : Type := mkVfs {
  create_file : list Z -> st V FilestoreError unit;
  remove_file : list Z -> st V FilestoreError unit;
  truncate_file : list Z -> st V FilestoreError unit;
  remove_dir : list Z -> bool -> st V FilestoreError unit;
  create_dir : list Z -> st V FilestoreError unit;
  read_data : list Z -> Z -> Z -> V -> list Z -> res FilestoreError unit * list Z;
  write_data : list Z -> Z -> list Z -> st V FilestoreError unit;
  is_file : V -> list Z -> bool;
  is_dir : V -> list Z -> bool;
  exists_ : V -> list Z -> bool;
  checksum_verify : list Z -> ChecksumType -> Z -> V -> list Z -> res FilestoreError bool * list Z;
}.

(** The provided methods. *)
Definition default_is_dir {V : Type} (is_file : V -> list Z -> bool) (v : V) (p : list Z) : bool :=
  negb (is_file v p).

Definition filename_from_full_path (p : list Z) : option (list Z) := file_name p.

(** [Path::exists], which asks the operating system, not the filestore. *)
Class OsPaths (V : Type) : Type := path_exists : V -> list Z -> bool.

(** ** [NativeFilestore] *)
Module Native.

Definition io {A} (m : st Fs IoError A) : st Fs FilestoreError A := st_map_err filestore_error_from_io m.

Definition exists_ (fs : Fs) (p : list Z) : bool :=
  if negb (Os.exists_ fs p) then false else true.

Definition is_file (fs : Fs) (p : list Z) : bool := Os.is_file fs p.

Definition is_dir : Fs -> list Z -> bool := default_is_dir is_file.

(** The two checks most methods begin with. *)
Definition require_file (p : list Z) : st Fs FilestoreError unit :=
  asks (fun fs =>
    if negb (exists_ fs p) then Err FileDoesNotExist
    else if negb (is_file fs p) then Err IsNotFile else Ok tt).

Definition create_file (p : list Z) : st Fs FilestoreError unit :=
  let* e := gets (fun fs => exists_ fs p) in
  if e then throw FileAlreadyExists else io (Os.create p).

Definition remove_file (p : list Z) : st Fs FilestoreError unit :=
  let* _ := require_file p in io (Os.remove_file p).

Definition truncate_file (p : list Z) : st Fs FilestoreError unit :=
  let* _ := require_file p in io (Os.open_truncate p).

Definition create_dir (p : list Z) : st Fs FilestoreError unit := io (Os.create_dir p).

Definition remove_dir (p : list Z) (all : bool) : st Fs FilestoreError unit :=
  let* e := gets (fun fs => exists_ fs p) in
  if negb e then throw DirDoesNotExist
  else
    let* d := gets (fun fs => is_dir fs p) in
    if negb d then throw IsNotDirectory
    else if negb all then io (Os.remove_dir p) else io (Os.remove_dir_all p).

(** On an early end of the file the buffer holds unspecified bytes; the model
    leaves it as it was. *)
Definition read_data (p : list Z) (offset read_len : Z) (fs : Fs) (buf : list Z)
    : res FilestoreError unit * list Z :=
  if len buf <? read_len then (Err (ByteConversion (ToSliceTooSmall (len buf) read_len)), buf)
  else
    let read :=
      let? _ := (require_file p fs).1 in
      map_err filestore_error_from_io
        (let? kd := Os.open fs p in
         let? _ := Os.seek offset in
         Os.read_exact kd.2 offset read_len) in
    match read with
    | Ok d => (Ok tt, splice buf 0 d)
    | Err e => (Err e, buf)
    | Panic => (Panic, buf)
    end.

Definition write_data (p : list Z) (offset : Z) (buf : list Z) : st Fs FilestoreError unit :=
  let* _ := require_file p in
  io (let* kd := asks (fun fs => Os.open fs p) in
      let* _ := lift (Os.seek offset) in
      Os.write_all kd.1 kd.2 offset buf).

(** The loop of [calc_modular_checksum]; [buffer] is the array of four bytes. *)
Fixpoint modular_loop (fuel : nat) (r : Os.BufReader) (buffer : list Z) (checksum : Z) : option Z :=
  match fuel with
  | O => None
  | S fuel' =>
      let '(got, r') := Os.read (length buffer) r in
      if bool_decide (got = []) then Some checksum
      else
        let buffer := splice buffer 0 got in
        let buffer := take (length got) buffer ++ replicate (4 - length got) 0 in
        modular_loop fuel' r' buffer (as_u 32 (checksum + from_be_bytes buffer))
  end.

Definition calc_modular_checksum (fs : Fs) (p : list Z) : res FilestoreError Z :=
  let? kd := map_err filestore_error_from_io (Os.open fs p) in
  unwrap (modular_loop (S (length kd.2)) (Os.reader_new kd.2) (replicate 4 0) 0).

Section Checksum.
Context `{CrcOps}.

Fixpoint crc_loop (fuel : nat) (r : Os.BufReader) (buf : list Z) (d : digest) : option (digest * list Z) :=
  match fuel with
  | O => None
  | S fuel' =>
      let '(got, r') := Os.read (length buf) r in
      if bool_decide (got = []) then Some (d, buf)
      else
        let buf := splice buf 0 got in
        crc_loop fuel' r' buf (crc_update d (take (length got) buf))
  end.

Definition checksum_verify (p : list Z) (checksum_type : ChecksumType) (expected_checksum : Z)
    (fs : Fs) (verification_buf : list Z) : res FilestoreError bool * list Z :=
  match checksum_type with
  | Modular =>
      (let? c := calc_modular_checksum fs p in Ok (c =? expected_checksum), verification_buf)
  | Crc32 =>
      match map_err filestore_error_from_io (Os.open fs p) with
      | Ok kd =>
          match crc_loop (S (length kd.2)) (Os.reader_new kd.2) verification_buf crc_digest with
          | Some (d, buf) => (Ok (crc_finalize d =? expected_checksum), buf)
          | None => (Panic, verification_buf)
          end
      | Err e => (Err e, verification_buf)
      | Panic => (Panic, verification_buf)
      end
  | NullChecksum => (Ok true, verification_buf)
  | _ => (Err (ChecksumTypeNotImplemented checksum_type), verification_buf)
  end.

#[global] Instance NativeFilestore : VirtualFilestore Fs :=
  mkVfs Fs create_file remove_file truncate_file remove_dir create_dir read_data write_data
    is_file is_dir exists_ checksum_verify.

End Checksum.

#[global] Instance native_paths : OsPaths Fs := Os.exists_.

End Native.

(** ** Checksums

    The reference definition of the modular checksum: the sum of the bytes, each
    weighted by its position in its word of four, modulo 2^32. *)
Fixpoint weighted_sum (i : nat) (data : list Z) : Z :=
  match data with
  | [] => 0
  | b :: data' => b * 2 ^ (8 * (3 - Z.of_nat (i mod 4))) + weighted_sum (S i) data'
  end.

Definition modular_checksum (data : list Z) : Z := as_u 32 (weighted_sum 0 data).

Definition crc_checksum `{CrcOps} (data : list Z) : Z := crc_finalize (crc_update crc_digest data).

Lemma weighted_sum_period i data : weighted_sum (i + 4) data = weighted_sum i data.
Proof.
  revert i. induction data as [|b data IH]; intros i; cbn [weighted_sum]; [done|].
  replace ((i + 4) mod 4)%nat with (i mod 4)%nat
    by (change (i + 4)%nat with (i + 1 * 4)%nat; by rewrite Nat.Div0.mod_add).
  by rewrite <- (IH (S i)).
Qed.

(** One word of the reference sum, padded with zeros. *)
Lemma weighted_sum_word data :
  weighted_sum 0 data =
    from_be_bytes (take 4 data ++ replicate (4 - length (take 4 data)) 0) + weighted_sum 0 (drop 4 data).
Proof.
  destruct data as [|a [|b [|c [|d data]]]];
    [simpl; lia|unfold from_be_bytes, len; simpl; lia..|].
  cbn [take drop]. rewrite drop_0, <- (weighted_sum_period 0 data). simpl.
  unfold len. simpl. lia.
Qed.

Lemma modular_word acc data :
  as_u 32 (as_u 32 (acc + from_be_bytes (take 4 data ++ replicate (4 - length (take 4 data)) 0))
           + weighted_sum 0 (drop 4 data)) =
  as_u 32 (acc + weighted_sum 0 data).
Proof.
  rewrite (weighted_sum_word data). unfold as_u. rewrite Zplus_mod_idemp_l. f_equal. lia.
Qed.

Lemma take_splice_front {A} (buf d : list A) : take (length d) (splice buf 0 d) = d.
Proof. unfold splice. change (Z.to_nat 0) with 0%nat. exact (take_app_length d _). Qed.

(** *** Buffered reads *)
Definition pending (r : Os.BufReader) : list Z := Os.rd_buf r ++ Os.rd_rest r.

Lemma fill_buf_pending r : pending (Os.fill_buf r) = pending r.
Proof.
  destruct r as [[|b buf] rest]; [|done]. unfold pending. cbn [Os.fill_buf Os.rd_buf Os.rd_rest].
  apply take_drop.
Qed.

Lemma fill_buf_empty r : Os.rd_buf (Os.fill_buf r) = [] -> pending r = [].
Proof.
  destruct r as [[|b buf] [|x rest]]; [done| |done..].
  unfold Os.fill_buf, Os.DEFAULT_BUF_SIZE. cbn [Os.rd_buf Os.rd_rest].
  intros Ht%(f_equal length). rewrite length_take in Ht. cbn [length] in Ht. lia.
Qed.

(** A read takes the next bytes, and none only at the end of the file. *)
Lemma read_pending n r got r' :
  (0 < n)%nat -> Os.read n r = (got, r') ->
  got ++ pending r' = pending r /\ (length got <= n)%nat /\ (got = [] -> pending r = []).
Proof.
  intros Hn. unfold Os.read. case_bool_decide as Hb; cbn [andb].
  - destruct (Os.DEFAULT_BUF_SIZE <=? n)%nat; intros [= <- <-].
    + destruct r as [buf rest]. cbn [Os.rd_buf Os.rd_rest] in *. subst. unfold pending.
      cbn [Os.rd_buf Os.rd_rest app]. rewrite take_drop, length_take.
      split_and!; [done|lia|]. intros Ht. destruct rest; [done|]. by destruct n; [lia|].
    + rewrite <- (fill_buf_pending r). unfold pending at 1 2. cbn [Os.rd_buf Os.rd_rest].
      rewrite app_assoc, take_drop, length_take, (fill_buf_pending r).
      split_and!; [done|lia|]. intros Ht. apply fill_buf_empty.
      destruct (Os.rd_buf (Os.fill_buf r)); [done|]. by destruct n; [lia|].
  - intros [= <- <-]. rewrite <- (fill_buf_pending r). unfold pending at 1 2. cbn [Os.rd_buf Os.rd_rest].
    rewrite app_assoc, take_drop, length_take, (fill_buf_pending r).
    split_and!; [done|lia|]. intros Ht. apply fill_buf_empty.
    destruct (Os.rd_buf (Os.fill_buf r)); [done|]. by destruct n; [lia|].
Qed.

(** Reads of four bytes come in whole words as long as the buffer holds whole
    words. *)
Definition aligned (r : Os.BufReader) : Prop :=
  Os.rd_rest r = [] \/ (length (Os.rd_buf r) mod 4 = 0)%nat.

Lemma fill_buf_aligned r : aligned r -> aligned (Os.fill_buf r).
Proof.
  destruct r as [[|b buf] rest]; [|done]. intros _. unfold aligned, Os.fill_buf. cbn [Os.rd_buf Os.rd_rest].
  rewrite length_take. destruct (decide (length rest <= Os.DEFAULT_BUF_SIZE)%nat).
  - left. by apply drop_ge.
  - right. replace (Os.DEFAULT_BUF_SIZE `min` length rest)%nat with (Os.DEFAULT_BUF_SIZE) by lia.
    by vm_compute.
Qed.

Lemma read_word r :
  aligned r ->
  exists r', Os.read 4 r = (take 4 (pending r), r') /\ pending r' = drop 4 (pending r) /\ aligned r'.
Proof.
  intros Ha%fill_buf_aligned. unfold Os.read.
  replace (Os.DEFAULT_BUF_SIZE <=? 4)%nat with false by (by vm_compute). rewrite andb_false_r.
  eexists. split; [|split].
  - f_equal. rewrite <- (fill_buf_pending r). unfold pending.
    destruct Ha as [->|Hm]; [by rewrite app_nil_r|].
    destruct (Os.rd_buf (Os.fill_buf r)) as [|a [|b [|c [|d buf]]]] eqn:Hb; try done.
    apply fill_buf_empty in Hb as He. rewrite <- (fill_buf_pending r) in He. unfold pending in He.
    rewrite Hb in He. simpl in He. by rewrite He.
  - rewrite <- (fill_buf_pending r). unfold pending. cbn [Os.rd_buf Os.rd_rest].
    destruct Ha as [->|Hm]; [by rewrite !app_nil_r|].
    destruct (Os.rd_buf (Os.fill_buf r)) as [|a [|b [|c [|d buf]]]] eqn:Hb; try done.
    apply fill_buf_empty in Hb as He. rewrite <- (fill_buf_pending r) in He. unfold pending in He.
    rewrite Hb in He. simpl in He. by rewrite He.
  - unfold aligned. cbn [Os.rd_buf Os.rd_rest]. destruct Ha as [->|Hm]; [by left|right].
    destruct (Os.rd_buf (Os.fill_buf r)) as [|a [|b [|c [|d buf]]]]; try done.
    cbn [drop]. rewrite drop_0. change (length (a :: b :: c :: d :: buf)) with (4 + length buf)%nat in Hm.
    rewrite Nat.add_comm in Hm. change 4%nat with (1 * 4)%nat in Hm at 1.
    by rewrite Nat.Div0.mod_add in Hm.
Qed.

Lemma modular_loop_correct fuel r buffer acc :
  aligned r -> length buffer = 4%nat -> (length (pending r) < fuel)%nat ->
  acc = as_u 32 acc ->
  Native.modular_loop fuel r buffer acc = Some (as_u 32 (acc + weighted_sum 0 (pending r))).
Proof.
  revert r buffer acc. induction fuel as [|fuel IH]; intros r buffer acc Ha Hb Hf Hacc; [lia|].
  simpl. rewrite Hb. destruct (read_word r Ha) as (r' & -> & Hp & Ha').
  case_bool_decide as Hg.
  - destruct (pending r); [|done]. simpl. by rewrite Z.add_0_r, <- Hacc.
  - rewrite take_splice_front, IH, Hp; [f_equal; apply modular_word|done| | |].
    + rewrite length_app, length_replicate, length_take. lia.
    + rewrite Hp, length_drop. destruct (pending r); [done|]. simpl in *. lia.
    + unfold as_u. by rewrite Z.mod_mod.
Qed.

Lemma calc_modular_checksum_correct fs p kd :
  Os.open fs p = Ok kd -> Native.calc_modular_checksum fs p = Ok (modular_checksum kd.2).
Proof.
  intros Ho. unfold Native.calc_modular_checksum. rewrite Ho. cbn [map_err res_bind].
  rewrite modular_loop_correct; [done|by right|done|unfold pending; simpl; lia|done].
Qed.

Section CrcProofs.
Context `{CrcLaws}.

Lemma crc_loop_correct fuel r buf d :
  (0 < length buf)%nat -> (length (pending r) < fuel)%nat ->
  exists buf', Native.crc_loop fuel r buf d = Some (crc_update d (pending r), buf') /\
    length buf' = length buf.
Proof.
  revert r buf d. induction fuel as [|fuel IH]; intros r buf d Hb Hf; [lia|].
  simpl. destruct (Os.read (length buf) r) as [got r'] eqn:Hr.
  destruct (read_pending _ _ _ _ Hb Hr) as (Hp & Hl & Hn).
  case_bool_decide as Hg.
  - rewrite (Hn Hg), crc_update_nil. eauto.
  - assert (Hs : length (splice buf 0 got) = length buf)
      by (apply length_splice; unfold len; lia).
    destruct (IH r' (splice buf 0 got) (crc_update d (take (length got) (splice buf 0 got))))
      as (buf' & He & Hl').
    + by rewrite Hs.
    + apply (f_equal length) in Hp. rewrite length_app in Hp. destruct got; [done|]. simpl in *. lia.
    + exists buf'. split; [|by rewrite Hl'].
      rewrite He. do 2 f_equal. rewrite crc_update_app. f_equal. rewrite <- Hp. f_equal.
      apply take_splice_front.
Qed.

(** What the checksum of a file is compared with; [None] for a type the store
    does not know. *)
Definition native_checksum (ct : ChecksumType) (data : list Z) (expected : Z) : option bool :=
  match ct with
  | Modular => Some (modular_checksum data =? expected)
  | Crc32 => Some (crc_checksum data =? expected)
  | NullChecksum => Some true
  | OtherChecksum _ => None
  end.

Lemma native_checksum_verify fs p kd ct expected buf :
  Os.open fs p = Ok kd -> (0 < length buf)%nat ->
  exists buf', length buf' = length buf /\
    Native.checksum_verify p ct expected fs buf =
      (ok_or (native_checksum ct kd.2 expected) (ChecksumTypeNotImplemented ct), buf').
Proof.
  intros Ho Hb. destruct ct; unfold Native.checksum_verify, native_checksum; [| |by exists buf..].
  - exists buf. by rewrite (calc_modular_checksum_correct _ _ _ Ho).
  - rewrite Ho. cbn [map_err].
    destruct (crc_loop_correct (S (length kd.2)) (Os.reader_new kd.2) buf crc_digest Hb) as (b & -> & Hl).
    { unfold pending. simpl. lia. }
    exists b. done.
Qed.

End CrcProofs.

(** ** Contents of files after writes *)

(** The data a file holds at a position. *)
Lemma lookup_write_at data offset buf (i : nat) :
  0 <= offset -> buf <> [] ->
  Os.write_at data offset buf !! i =
    if decide (offset <= Z.of_nat i < offset + len buf) then buf !! (i - Z.to_nat offset)%nat
    else if decide (Z.of_nat i < offset) then
      (if decide (i < length data)%nat then data !! i else Some 0)
    else data !! i.
Proof.
  intros Ho Hb. unfold Os.write_at. destruct buf as [|b buf']; [done|]. set (buf := b :: buf').
  assert (Hp : length (take (Z.to_nat offset) data ++ replicate (Z.to_nat offset - length data) 0)
               = Z.to_nat offset) by (rewrite length_app, length_take, length_replicate; lia).
  rewrite app_assoc. unfold len. case_decide as H1.
  - rewrite lookup_app_r by lia. rewrite Hp. rewrite lookup_app_l by lia. done.
  - case_decide as H2.
    + rewrite lookup_app_l by lia. case_decide as H3.
      * rewrite lookup_app_l by (rewrite length_take; lia). apply lookup_take_lt. lia.
      * rewrite lookup_app_r by (rewrite length_take; lia).
        apply lookup_replicate_2. rewrite length_take. lia.
    + rewrite lookup_app_r, Hp, lookup_app_r, lookup_drop by lia. f_equal. lia.
Qed.

Lemma length_write_at data offset buf :
  0 <= offset ->
  len (Os.write_at data offset buf) =
    match buf with [] => len data | _ => Z.max (len data) (offset + len buf) end.
Proof.
  intros Ho. unfold Os.write_at. destruct buf as [|b buf']; [done|]. set (buf := b :: buf').
  unfold len. rewrite !length_app, length_take, length_replicate, length_drop.
  assert (length buf = S (length buf')) by done. lia.
Qed.

(** Writing all segments of a transfer in the order they arrive. *)
Definition assemble (data : list Z) (segs : list (Z * list Z)) : list Z :=
  fold_left (fun d s => Os.write_at d s.1 s.2) segs data.

(** A segment is a part of the file [f]. *)
Definition segment_of (f : list Z) (s : Z * list Z) : Prop :=
  0 <= s.1 /\ s.1 + len s.2 <= len f /\ take (length s.2) (drop (Z.to_nat s.1) f) = s.2.

Definition covers (segs : list (Z * list Z)) (i : nat) : Prop :=
  exists s, s ∈ segs /\ s.1 <= Z.of_nat i < s.1 + len s.2.

Lemma segment_lookup f s (i : nat) :
  segment_of f s -> s.1 <= Z.of_nat i < s.1 + len s.2 ->
  s.2 !! (i - Z.to_nat s.1)%nat = f !! i.
Proof.
  intros (H0 & Hl & Ht) Hi. unfold len in *. rewrite <- Ht at 1.
  rewrite lookup_take_lt, lookup_drop by lia. f_equal. lia.
Qed.

(** The positions that were right stay right, those of the segment become
    right. *)
Lemma write_segment_lookup f s data (i : nat) :
  segment_of f s -> (length data <= length f)%nat ->
  (Z.of_nat i < s.1 + len s.2 /\ s.1 <= Z.of_nat i) \/ data !! i = f !! i ->
  (i < length f)%nat ->
  Os.write_at data s.1 s.2 !! i = f !! i.
Proof.
  intros Hs Hd Hi Hf. pose proof Hs as (H0 & Hl & Ht).
  destruct (decide (s.2 = [])) as [He|He].
  - rewrite He in *. unfold Os.write_at. destruct Hi as [Hi|Hi]; [|done]. unfold len in *. simpl in *. lia.
  - rewrite lookup_write_at by done. case_decide as H1; [by apply segment_lookup|].
    destruct Hi as [Hi|Hi]; [lia|]. case_decide; [|done]. case_decide as H3; [done|].
    rewrite (lookup_ge_None_2 data i) in Hi by lia.
    symmetry in Hi. apply lookup_ge_None_1 in Hi. lia.
Qed.

Lemma write_segment_length f s data :
  segment_of f s -> (length data <= length f)%nat ->
  (length (Os.write_at data s.1 s.2) <= length f)%nat.
Proof.
  intros (H0 & Hl & _) Hd. pose proof (length_write_at data s.1 s.2 H0) as Hw.
  unfold len in *. destruct s.2; lia.
Qed.

Lemma assemble_lookup f segs data (i : nat) :
  Forall (segment_of f) segs -> (length data <= length f)%nat -> (i < length f)%nat ->
  covers segs i \/ data !! i = f !! i ->
  assemble data segs !! i = f !! i.
Proof.
  intros Hs. revert data. induction Hs as [|s segs Hs _ IH]; intros data Hd Hi Hc; simpl.
  - destruct Hc as [(s & []%not_elem_of_nil & _)|Hc]; done.
  - apply IH; [by apply write_segment_length|done|].
    destruct Hc as [(s' & Hin & Hr)|Hc].
    + apply elem_of_cons in Hin as [->|Hin]; [right|left; by exists s'].
      apply write_segment_lookup; auto; lia.
    + right. by apply write_segment_lookup; auto.
Qed.

Lemma assemble_length f segs data :
  Forall (segment_of f) segs -> (length data <= length f)%nat ->
  (length (assemble data segs) <= length f)%nat.
Proof.
  intros Hs. revert data. induction Hs as [|s segs Hs _ IH]; intros data Hd; simpl; [done|].
  by apply IH, write_segment_length.
Qed.

(** Segments that cover the file rebuild it, in whatever order they arrive and
    however often. *)
Lemma assemble_covers f segs :
  Forall (segment_of f) segs -> (forall i, (i < length f)%nat -> covers segs i) ->
  assemble [] segs = f.
Proof.
  intros Hs Hc. pose proof (assemble_length f segs [] Hs ltac:(simpl; lia)) as Hl.
  apply list_eq. intros i. destruct (decide (i < length f)%nat) as [Hi|Hi].
  - apply assemble_lookup; auto. simpl. lia.
  - rewrite !lookup_ge_None_2; [done|lia|lia].
Qed.

(** ** The contract of a filestore

    [contents] are the data of the regular files; [same_file] holds of paths of
    one file; [usable] and [creatable] of the files the system lets the process
    change or create. *)
Class VfsSpec (V : Type) `{VirtualFilestore V} `{OsPaths V} : Type := {
  contents : V -> list Z -> option (list Z);
  same_file : list Z -> list Z -> Prop;
  usable : V -> list Z -> Prop;
  creatable : V -> list Z -> Prop;
  vfs_checksum : ChecksumType -> list Z -> Z -> option bool;
  (** [v'] is [v] with the contents of [p] changed. *)
  updates (v v' : V) (p : list Z) (c : option (list Z)) : Prop :=
    contents v' p = c /\ (forall q, ~ same_file p q -> contents v' q = contents v q) /\
    (forall q, usable v' q <-> usable v q);
  is_file_spec : forall v p, is_file v p = bool_decide (is_Some (contents v p));
  is_dir_spec : forall v p, is_dir v p = negb (is_file v p);
  exists_spec : forall v p, is_Some (contents v p) -> exists_ v p = true;
  path_exists_spec : forall v p, path_exists v p = exists_ v p;
  create_spec : forall v p, exists_ v p = false -> creatable v p ->
    exists v', create_file p v = (Ok tt, v') /\ updates v v' p (Some []) /\ usable v' p;
  truncate_spec : forall v p f, contents v p = Some f -> usable v p ->
    exists v', truncate_file p v = (Ok tt, v') /\ updates v v' p (Some []);
  remove_spec : forall v p f, contents v p = Some f -> usable v p ->
    exists v', remove_file p v = (Ok tt, v') /\ updates v v' p None;
  write_spec : forall v p f offset buf, contents v p = Some f -> usable v p -> 0 <= offset < 2 ^ 63 ->
    exists v', write_data p offset buf v = (Ok tt, v') /\ updates v v' p (Some (Os.write_at f offset buf));
  checksum_spec : forall v p f ct expected buf, contents v p = Some f -> usable v p -> (0 < length buf)%nat ->
    exists buf', length buf' = length buf /\
      checksum_verify p ct expected v buf =
        (ok_or (vfs_checksum ct f expected) (ChecksumTypeNotImplemented ct), buf');
  null_checksum_spec : forall f expected, vfs_checksum NullChecksum f expected = Some true;
}.

(** *** [NativeFilestore] fulfils the contract *)
Section NativeSpec.
Context `{CrcLaws}.
Implicit Types (fs : Fs) (p q : list Z).

Definition native_contents (fs : Fs) (p : list Z) : option (list Z) :=
  match Os.lookup fs p with Some (File d) => Some d | _ => None end.

Definition native_usable (fs : Fs) (p : list Z) : Prop :=
  Os.path_error p = None /\ resolve p ∉ fs_denied fs.

Definition native_creatable (fs : Fs) (p : list Z) : Prop :=
  native_usable fs p /\ Os.node_at fs (removelast (resolve p)) = Some Dir.

Lemma native_open fs p d :
  native_contents fs p = Some d -> native_usable fs p ->
  Os.open fs p = Ok (resolve p, d) /\ resolve p <> [].
Proof.
  unfold native_contents, Os.lookup. intros Hc [He Hd]. rewrite He in Hc.
  destruct (Os.node_at fs (resolve p)) as [[d'|]|] eqn:Hn; try done. injection Hc as ->.
  unfold Os.open, Os.access. rewrite He, bool_decide_eq_false_2 by done. cbn [res_bind].
  rewrite Hn. split; [done|]. by intros Hr; rewrite Hr in Hn.
Qed.

Lemma native_require fs p d :
  native_contents fs p = Some d -> Native.require_file p fs = (Ok tt, fs).
Proof.
  unfold native_contents, Native.require_file, Native.exists_, Native.is_file, Os.exists_, Os.is_file.
  intros Hc. run_monad. by destruct (Os.lookup fs p) as [[]|].
Qed.

(** Changing one node changes the contents of its paths only. *)
Lemma native_set_node fs k n q :
  k <> [] -> Os.path_error q = None ->
  native_contents (Os.set_nodes (partial_alter (fun _ => n) k (fs_nodes fs)) fs) q =
    if decide (resolve q = k) then match n with Some (File d) => Some d | _ => None end
    else native_contents fs q.
Proof.
  intros Hk Hq. unfold native_contents, Os.lookup. rewrite Hq. unfold Os.node_at.
  case_decide as Hr.
  - rewrite Hr. destruct k; [done|]. simpl. by rewrite lookup_partial_alter_eq.
  - destruct (resolve q); [done|]. simpl. by rewrite lookup_partial_alter_ne.
Qed.

Lemma native_updates fs p n :
  native_usable fs p -> resolve p <> [] ->
  let fs' := Os.set_nodes (partial_alter (fun _ => n) (resolve p) (fs_nodes fs)) fs in
  native_contents fs' p = match n with Some (File d) => Some d | _ => None end /\
  (forall q, resolve p <> resolve q -> native_contents fs' q = native_contents fs q) /\
  (forall q, native_usable fs' q <-> native_usable fs q).
Proof.
  intros [He Hd] Hk fs'. split_and!; [| |done].
  - unfold fs'. rewrite native_set_node by done. by rewrite decide_True.
  - intros q Hq. destruct (Os.path_error q) eqn:Hqe.
    + unfold native_contents, Os.lookup. by rewrite Hqe.
    + unfold fs'. rewrite native_set_node by done. rewrite decide_False; [done|congruence].
Qed.

#[export] Program Instance native_spec : VfsSpec Fs := {|
  contents := native_contents;
  same_file := fun p q => resolve p = resolve q;
  usable := native_usable;
  creatable := native_creatable;
  vfs_checksum := native_checksum;
|}.
Next Obligation.
  intros fs p. simpl. unfold Native.is_file, Os.is_file, native_contents.
  by destruct (Os.lookup fs p) as [[]|].
Qed.
Next Obligation. done. Qed.
Next Obligation.
  intros fs p [d Hd]. simpl. unfold Native.exists_, Os.exists_, native_contents in *.
  by destruct (Os.lookup fs p) as [[]|].
Qed.
Next Obligation.
  intros fs p. simpl. unfold path_exists, Native.native_paths, Native.exists_.
  by destruct (Os.exists_ fs p).
Qed.
Next Obligation.
  intros fs p Hx [[He Hd] Hpar]. simpl in Hx. unfold Native.exists_, Os.exists_, Os.lookup in Hx.
  rewrite He in Hx. destruct (Os.node_at fs (resolve p)) eqn:Hn; [done|].
  assert (Hk : resolve p <> []) by (by intros Hr; rewrite Hr in Hn).
  eexists. split; [|split; [apply (native_updates fs p (Some (File []))); done|by split]].
  simpl. unfold Native.create_file, Native.io, Os.create, Native.exists_, Os.exists_, Os.lookup. run_monad.
  rewrite He, Hn. simpl. unfold Os.access. rewrite He, bool_decide_eq_false_2 by done.
  rewrite Hn. unfold Os.parent_is_dir. by rewrite Hpar.
Qed.
Next Obligation.
  intros fs p f Hc Hu. destruct (native_open fs p f Hc Hu) as [Ho Hk].
  eexists. split; [|by apply (native_updates fs p (Some (File [])))].
  simpl. unfold Native.truncate_file, Native.io, st_bind at 1. rewrite (native_require _ _ _ Hc).
  unfold Os.open_truncate. run_monad. by rewrite Ho.
Qed.
Next Obligation.
  intros fs p f Hc Hu. destruct (native_open fs p f Hc Hu) as [Ho Hk].
  eexists. split; [|by apply (native_updates fs p None)].
  simpl. unfold Native.remove_file, Native.io, st_bind at 1. rewrite (native_require _ _ _ Hc).
  unfold Os.remove_file. run_monad. by rewrite Ho.
Qed.
Next Obligation.
  intros fs p f offset buf Hc Hu Hoff. destruct (native_open fs p f Hc Hu) as [Ho Hk].
  eexists. split; [|by apply (native_updates fs p (Some (File (Os.write_at f offset buf))))].
  simpl. unfold Native.write_data, Native.io, st_bind at 1. rewrite (native_require _ _ _ Hc).
  unfold Os.write_all. run_monad. rewrite Ho. unfold Os.seek.
  by rewrite (proj2 (Z.ltb_lt offset (2 ^ 63))) by lia.
Qed.
Next Obligation.
  intros fs p f ct expected buf Hc Hu Hb. destruct (native_open fs p f Hc Hu) as [Ho Hk].
  by apply (native_checksum_verify fs p (resolve p, f)).
Qed.
Next Obligation. done. Qed.

End NativeSpec.

(** ** Theorems *)

(** An operation that succeeds, or fails and leaves the file system alone. *)
Definition atomic {A} (op : st Fs FilestoreError A) (fs : Fs) : Prop :=
  match op fs with
  | (Ok _, _) => True
  | (Err _, fs') => fs' = fs
  | (Panic, _) => False
  end.

Ltac solve_atomic :=
  unfold atomic, Native.io, Native.require_file; run_monad;
  repeat (split_match; simplify_eq; try done).

Section Atomic.
Implicit Types (fs : Fs) (p buf : list Z).

Lemma access_no_panic fs p : Os.access fs p <> Panic.
Proof. unfold Os.access. by repeat split_match. Qed.

Lemma open_no_panic fs p : Os.open fs p <> Panic.
Proof. pose proof (access_no_panic fs p). unfold Os.open, res_bind. by repeat split_match. Qed.

Lemma open_dir_no_panic fs p : Os.open_dir fs p <> Panic.
Proof. pose proof (access_no_panic fs p). unfold Os.open_dir, res_bind. by repeat split_match. Qed.

Lemma parent_no_panic fs k : Os.parent_is_dir fs k <> Panic.
Proof. unfold Os.parent_is_dir. by repeat split_match. Qed.

Hint Resolve access_no_panic open_no_panic open_dir_no_panic parent_no_panic : core.

Lemma create_file_atomic p fs : atomic (Native.create_file p) fs.
Proof.
  pose proof (access_no_panic fs p). unfold Native.create_file, Os.create. solve_atomic.
  all: edestruct parent_no_panic; eauto.
Qed.

Lemma remove_file_atomic p fs : atomic (Native.remove_file p) fs.
Proof. pose proof (open_no_panic fs p). unfold Native.remove_file, Os.remove_file. solve_atomic. Qed.

Lemma truncate_file_atomic p fs : atomic (Native.truncate_file p) fs.
Proof. pose proof (open_no_panic fs p). unfold Native.truncate_file, Os.open_truncate. solve_atomic. Qed.

Lemma create_dir_atomic p fs : atomic (Native.create_dir p) fs.
Proof.
  pose proof (access_no_panic fs p). unfold Native.create_dir, Os.create_dir. solve_atomic.
  all: edestruct parent_no_panic; eauto.
Qed.

Lemma remove_dir_atomic p all fs : atomic (Native.remove_dir p all) fs.
Proof.
  pose proof (open_dir_no_panic fs p).
  unfold Native.remove_dir, Os.remove_dir, Os.remove_dir_all. solve_atomic.
Qed.

Lemma write_data_atomic p offset buf fs : atomic (Native.write_data p offset buf) fs.
Proof.
  pose proof (open_no_panic fs p). unfold Native.write_data, Os.write_all, Os.seek. solve_atomic.
Qed.

End Atomic.

(** No operation of [NativeFilestore] panics, and one that fails leaves the
    file system as it was.  Which error it is follows from what the path leads
    to: nothing, a directory or a file. *)
Theorem native_errors (fs : Fs) (p buf : list Z) (offset : Z) (all : bool) :
  atomic (Native.create_file p) fs /\ atomic (Native.remove_file p) fs /\
  atomic (Native.truncate_file p) fs /\ atomic (Native.create_dir p) fs /\
  atomic (Native.remove_dir p all) fs /\ atomic (Native.write_data p offset buf) fs /\
  match Os.lookup fs p with
  | None =>
      Native.remove_file p fs = (Err FileDoesNotExist, fs) /\
      Native.truncate_file p fs = (Err FileDoesNotExist, fs) /\
      Native.write_data p offset buf fs = (Err FileDoesNotExist, fs) /\
      Native.remove_dir p all fs = (Err DirDoesNotExist, fs)
  | Some Dir =>
      Native.create_file p fs = (Err FileAlreadyExists, fs) /\
      Native.remove_file p fs = (Err IsNotFile, fs) /\
      Native.truncate_file p fs = (Err IsNotFile, fs) /\
      Native.write_data p offset buf fs = (Err IsNotFile, fs)
  | Some (File _) =>
      Native.create_file p fs = (Err FileAlreadyExists, fs) /\
      Native.remove_dir p all fs = (Err IsNotDirectory, fs)
  end.
Proof.
  split; [apply create_file_atomic|]. split; [apply remove_file_atomic|].
  split; [apply truncate_file_atomic|]. split; [apply create_dir_atomic|].
  split; [apply remove_dir_atomic|]. split; [apply write_data_atomic|].
  unfold Native.create_file, Native.remove_file, Native.truncate_file, Native.write_data,
    Native.remove_dir, Native.require_file, Native.is_dir, default_is_dir, Native.exists_,
    Native.is_file, Os.exists_, Os.is_file.
  run_monad. by destruct (Os.lookup fs p) as [[]|] eqn:Hl; simpl; rewrite ?Hl.
Qed.

(** What [write_data] wrote to a file, [read_data] reads back from there, for
    every offset and length; the rest of the file keeps its data, a gap reads as
    zeros and no other file changes. *)
Theorem write_read_data `{CrcLaws} (fs : Fs) (p d buf : list Z) (offset : Z) (f : list Z)
  (Hf : contents fs p = Some f) (Hu : usable fs p)
  (Ho : 0 <= offset < 2 ^ 63) (Hb : len d <= len buf) :
  exists fs',
    Native.write_data p offset d fs = (Ok tt, fs') /\
    Native.read_data p offset (len d) fs' buf = (Ok tt, d ++ drop (length d) buf) /\
    (forall i, (i < length f)%nat -> ~ (offset <= Z.of_nat i < offset + len d) ->
       Os.write_at f offset d !! i = f !! i) /\
    contents fs' p = Some (Os.write_at f offset d) /\
    (forall q, ~ same_file p q -> contents fs' q = contents fs q).
Proof.
  destruct (write_spec fs p f offset d Hf Hu Ho) as (fs' & Hw & Hc & Hq & Hu').
  exists fs'. split; [exact Hw|]. split; [|split; [|done]].
  - apply Hu' in Hu. destruct (native_open fs' p _ Hc Hu) as [Hop _].
    unfold Native.read_data. rewrite (proj2 (Z.ltb_ge _ _)) by lia.
    rewrite (native_require _ _ _ Hc). cbn [fst res_bind]. rewrite Hop. cbn [res_bind snd map_err].
    unfold Os.seek. rewrite (proj2 (Z.ltb_lt offset (2 ^ 63))) by lia. cbn [res_bind].
    unfold Os.read_exact. pose proof (length_write_at f offset d ltac:(lia)) as Hl.
    destruct (decide (d = [])) as [->|Hd].
    + change (len (@nil Z)) with 0. by destruct (offset + 0 <=? _).
    + destruct d as [|b d']; [done|]. set (d := b :: d') in *.
      rewrite (proj2 (Z.leb_le _ _)) by (rewrite Hl; lia). cbn [map_err].
      assert (Ht : take (Z.to_nat (len d)) (drop (Z.to_nat offset) (Os.write_at f offset d)) = d).
      { apply list_eq. intros i. destruct (decide (i < length d)%nat).
        - rewrite lookup_take_lt, lookup_drop, lookup_write_at by (unfold len; lia || done).
          rewrite decide_True by (unfold len; lia). f_equal. lia.
        - rewrite !lookup_ge_None_2; [done|lia|rewrite length_take; unfold len; lia]. }
      by rewrite Ht.
  - intros i Hi Hn. destruct (decide (d = [])) as [->|Hd]; [done|].
    rewrite lookup_write_at by (lia || done). rewrite decide_False by done.
    case_decide; [|done]. by rewrite decide_True.
Qed.

(** A checksum for examples: CRC-32/CKSUM, bit by bit. *)
Definition crc_step (crc b : Z) : Z :=
  let f c := if Z.testbit c 31 then Z.lxor (as_u 32 (Z.shiftl c 1)) 79764919 else as_u 32 (Z.shiftl c 1) in
  Nat.iter 8 f (Z.lxor crc (Z.shiftl b 24)).

#[export] Instance crc_cksum : CrcOps := {|
  digest := Z;
  crc_digest := 0;
  crc_update := fun d l => fold_left crc_step l d;
  crc_finalize := fun c => Z.lxor c 4294967295;
|}.

#[export] Instance crc_cksum_laws : CrcLaws.
Proof. constructor; [intros; symmetry; apply fold_left_app|done]. Qed.

(** The check value of the CRC catalogue for this algorithm. *)
Example crc_cksum_check : crc_checksum [49; 50; 51; 52; 53; 54; 55; 56; 57] = 1985902208.
Proof. reflexivity. Qed.

(** A file system with the directory [/tmp] and a file [/tmp/a]. *)
Definition demo_tmp : list Z := [47; 116; 109; 112].
Definition demo_path : list Z := demo_tmp ++ [47; 97].
Definition demo_fs : Fs :=
  {| fs_nodes := <[resolve demo_path := File [1; 2; 3]]> {[resolve demo_tmp := Dir]}; fs_denied := ∅ |}.

Lemma write_read_data_witness :
  native_contents demo_fs demo_path = Some [1; 2; 3] /\
  exists fs', Native.read_data demo_path 4 2 fs' [0; 0; 0] = (Ok tt, [8; 9; 0]) /\
    native_contents fs' demo_path = Some [1; 2; 3; 0; 8; 9].
Proof.
  split; [reflexivity|].
  destruct (write_read_data demo_fs demo_path [8; 9] [0; 0; 0] 4 [1; 2; 3]) as (fs' & _ & Hr & _ & Hc & _).
  - reflexivity.
  - split; [reflexivity|]. apply not_elem_of_empty.
  - lia.
  - vm_compute. discriminate.
  - exists fs'. split; [exact Hr|exact Hc].
Defined.

(** The checksum of a file is the one of its contents, however the reads cut
    the file: the modular checksum is the sum of its big-endian words, padded
    with zeros, modulo 2^32; the CRC is the digest of all its bytes.  The loops
    end for every file.  Unknown checksum types and files that cannot be opened
    are errors. *)
Theorem checksum_verify_correct `{CrcLaws} (fs : Fs) (p : list Z) (ct : ChecksumType) (expected : Z)
  (buf : list Z) (Hb : buf <> []) :
  exists buf', length buf' = length buf /\
    Native.checksum_verify p ct expected fs buf =
      (match ct with
       | NullChecksum => Ok true
       | OtherChecksum _ => Err (ChecksumTypeNotImplemented ct)
       | _ =>
           match Os.open fs p with
           | Ok kd => Ok ((match ct with Modular => modular_checksum | _ => crc_checksum end) kd.2 =? expected)
           | Err e => Err (filestore_error_from_io e)
           | Panic => Panic
           end
       end, buf') /\
    Os.open fs p <> Panic.
Proof.
  assert (Hl : (0 < length buf)%nat) by (destruct buf; [done|simpl; lia]).
  pose proof (open_no_panic fs p) as Hn.
  destruct (Os.open fs p) as [kd|e|] eqn:Ho; [| |done].
  - destruct (native_checksum_verify fs p kd ct expected buf Ho Hl) as (buf' & Hl' & ->).
    exists buf'. by destruct ct.
  - exists buf. split; [done|]. split; [|done].
    unfold Native.checksum_verify, Native.calc_modular_checksum. rewrite Ho. by destruct ct.
Qed.

Lemma checksum_verify_correct_witness :
  exists buf', Native.checksum_verify demo_path Modular 16909056 demo_fs [0; 0] = (Ok true, buf').
Proof.
  destruct (checksum_verify_correct demo_fs demo_path Modular 16909056 [0; 0] ltac:(discriminate))
    as (buf' & _ & He & _).
  exists buf'. rewrite He. reflexivity.
Defined.
