(* ===== verification/Cfdp.v ===== *)
(** * CFDP: configuration, fault handling and packet routing
    ([satrs/src/cfdp/mod.rs], [cfdp/user.rs], [cfdp/source.rs], [time.rs])

    The data every CFDP entity shares: the interface of the PDU types of
    [spacepackets], the remote configuration table, the fault handler, the check
    timer, the indications of the user and the routing of packets. *)

From Stdlib Require Import ZArith Lia Bool.
From stdpp Require Import base list gmap.
From S2P Require Import Prelude Spacepackets Filestore.

Local Open Scope Z_scope.

(** ** What is used of [spacepackets]

    The values of the getters of its types; of its enumerations the variants the
    sources name. *)
Record UnsignedByteField : Type := mkUbf { ubf_width : Z; ubf_value : Z }.

#[export] Instance UnsignedByteField_eq_dec : EqDecision UnsignedByteField.
Proof. solve_decision. Defined.

Inductive PduType : Type := PduFileDirective | PduFileData.

Inductive FileDirectiveType : Type :=
| EofPduType | FinishedPduType | AckPduType | MetadataPduType | NakPduType | PromptPduType | KeepAlivePduType.

#[export] Instance FileDirectiveType_eq_dec : EqDecision FileDirectiveType.
Proof. solve_decision. Defined.

Inductive ConditionCode : Type :=
| NoError
| PositiveAckLimitReached
| KeepAliveLimitReached
| InvalidTransmissionMode
| FilestoreRejection
| FileChecksumFailure
| FileSizeError
| NakLimitReached
| InactivityDetected
| CheckLimitReached
| UnsupportedChecksumType
| OtherCondition (raw : Z).

#[export] Instance ConditionCode_eq_dec : EqDecision ConditionCode.
Proof. solve_decision. Defined.

Inductive FaultHandlerCode : Type :=
| NoticeOfCancellation | NoticeOfSuspension | IgnoreError | AbandonTransaction.

#[export] Instance FaultHandlerCode_eq_dec : EqDecision FaultHandlerCode.
Proof. solve_decision. Defined.

Inductive TransmissionMode : Type := Acknowledged | Unacknowledged.

#[export] Instance TransmissionMode_eq_dec : EqDecision TransmissionMode.
Proof. solve_decision. Defined.

Inductive DeliveryCode : Type := Complete | Incomplete.

#[export] Instance DeliveryCode_eq_dec : EqDecision DeliveryCode.
Proof. solve_decision. Defined.

Inductive FileStatus : Type := DiscardDeliberately | Retained | Unreported.

#[export] Instance FileStatus_eq_dec : EqDecision FileStatus.
Proof. solve_decision. Defined.

(** [PduError] with the variants the sources build. *)
Class PduErrorOps (PduE : Type) : Type := {
  pdu_format_error : PduE;
  pdu_invalid_directive : Z -> option FileDirectiveType -> PduE;
}.

(** A parsed [PduHeader]: its type and the length of its data field. *)
Record PduHeader : Type := mkPduHeader { pdu_header_type : PduType; pdu_datafield_len : Z }.

(** [PduHeader::from_bytes] and [FileDirectiveType::try_from] of a [u8]. *)
Class PduHeaderOps (PduE : Type) : Type := {
  header_from_bytes : list Z -> res PduE (PduHeader * Z);
  directive_try_from : Z -> option FileDirectiveType;
}.

(** ** Timers *)
Inductive EntityType : Type := Sending | Receiving.

(** [f32] values are given by their bits. *)
Inductive TimerContext : Type :=
| CheckLimit (local_id remote_id : UnsignedByteField) (entity_type : EntityType)
| NakActivity (expiry_time_seconds : Z)
| PositiveAck (expiry_time_seconds : Z).

(** A timer looks at a clock [Ck] the program does not control. *)
Class CountdownProvider (Ck T : Type) : Type := {
  has_expired : Ck -> T -> bool;
  timer_reset : Ck -> T -> T;
}.

Class CheckTimerCreator (Ck C T : Type) : Type :=
  get_check_timer_provider : Ck -> C -> TimerContext -> T.

(** [start_time] is an [Instant]; the clock counts nanoseconds. *)
Record StdCheckTimer : Type := mkStdCheckTimer { expiry_time_seconds : Z; start_time : Z }.

Module StdTimer.

Definition new (now expiry_time_seconds : Z) : StdCheckTimer := mkStdCheckTimer expiry_time_seconds now.

(** [Instant::elapsed] does not go below zero; [as_secs] rounds down. *)
Definition elapsed_secs (now : Z) (t : StdCheckTimer) : Z := Z.max 0 (now - start_time t) / 10 ^ 9.

Definition has_expired (now : Z) (t : StdCheckTimer) : bool :=
  if expiry_time_seconds t <? elapsed_secs now t then true else false.

Definition reset (now : Z) (t : StdCheckTimer) : StdCheckTimer :=
  mkStdCheckTimer (expiry_time_seconds t) now.

#[global] Instance std_countdown : CountdownProvider Z StdCheckTimer :=
  {| Cfdp.has_expired := has_expired; timer_reset := reset |}.

End StdTimer.

(** ** Remote entities *)
Record RemoteEntityConfig : Type := mkRemoteCfg {
  entity_id : UnsignedByteField;
  max_packet_len : Z;
  max_file_segment_len : Z;
  closure_requested_by_default : bool;
  crc_on_transmission_by_default : bool;
  default_transmission_mode : TransmissionMode;
  default_crc_type : ChecksumType;
  positive_ack_timer_interval_seconds : Z;
  positive_ack_timer_expiration_limit : Z;
  check_limit : Z;
  disposition_on_cancellation : bool;
  immediate_nak_mode : bool;
  nak_timer_interval_seconds : Z;
  nak_timer_expiration_limit : Z;
}.

(** The bits of [10.0_f32]. *)
Definition f32_ten : Z := 1092616192.

Definition new_with_default_values (entity_id : UnsignedByteField)
    (max_file_segment_len max_packet_len : Z)
    (closure_requested_by_default crc_on_transmission_by_default : bool)
    (default_transmission_mode : TransmissionMode) (default_crc_type : ChecksumType) : RemoteEntityConfig :=
  {| entity_id := entity_id;
     max_file_segment_len := max_file_segment_len;
     max_packet_len := max_packet_len;
     closure_requested_by_default := closure_requested_by_default;
     crc_on_transmission_by_default := crc_on_transmission_by_default;
     default_transmission_mode := default_transmission_mode;
     default_crc_type := default_crc_type;
     check_limit := 2;
     positive_ack_timer_interval_seconds := f32_ten;
     positive_ack_timer_expiration_limit := 2;
     disposition_on_cancellation := false;
     immediate_nak_mode := true;
     nak_timer_interval_seconds := f32_ten;
     nak_timer_expiration_limit := 2 |}.

(** A caller of [get_remote_config_mut] changes the entry through the reference:
    the change is the argument [f]. *)
Class RemoteEntityConfigProvider (R : Type) : Type := {
  get_remote_config : R -> Z -> option RemoteEntityConfig;
  get_remote_config_mut : Z -> (RemoteEntityConfig -> RemoteEntityConfig) -> R -> bool * R;
  add_config : RemoteEntityConfig -> R -> bool * R;
  remove_config : Z -> R -> bool * R;
}.

Record StdRemoteEntityConfigProvider : Type :=
  mkRemoteTable { remote_cfg_table : gmap Z RemoteEntityConfig }.

Module StdRemote.

Definition get_remote_config (t : StdRemoteEntityConfigProvider) (remote_id : Z) : option RemoteEntityConfig :=
  remote_cfg_table t !! remote_id.

Definition get_remote_config_mut (remote_id : Z) (f : RemoteEntityConfig -> RemoteEntityConfig)
    (t : StdRemoteEntityConfigProvider) : bool * StdRemoteEntityConfigProvider :=
  (bool_decide (is_Some (remote_cfg_table t !! remote_id)),
   mkRemoteTable (alter f remote_id (remote_cfg_table t))).

(** [HashMap::insert] and [HashMap::remove] return the entry they replace. *)
Definition add_config (cfg : RemoteEntityConfig) (t : StdRemoteEntityConfigProvider)
    : bool * StdRemoteEntityConfigProvider :=
  (bool_decide (is_Some (remote_cfg_table t !! ubf_value (entity_id cfg))),
   mkRemoteTable (<[ubf_value (entity_id cfg) := cfg]> (remote_cfg_table t))).

Definition remove_config (remote_id : Z) (t : StdRemoteEntityConfigProvider)
    : bool * StdRemoteEntityConfigProvider :=
  (bool_decide (is_Some (remote_cfg_table t !! remote_id)),
   mkRemoteTable (delete remote_id (remote_cfg_table t))).

#[global] Instance std_remote : RemoteEntityConfigProvider StdRemoteEntityConfigProvider := {|
  Cfdp.get_remote_config := get_remote_config;
  Cfdp.get_remote_config_mut := get_remote_config_mut;
  Cfdp.add_config := add_config;
  Cfdp.remove_config := remove_config;
|}.

End StdRemote.

(** ** Transactions *)
Record TransactionId : Type := mkTransactionId {
  source_id : UnsignedByteField;
  seq_num : UnsignedByteField;
}.

(** [PartialEq] compares the values, not the widths; [hash] feeds the values. *)
Definition transaction_id_eqb (a b : TransactionId) : bool :=
  (ubf_value (source_id a) =? ubf_value (source_id b)) && (ubf_value (seq_num a) =? ubf_value (seq_num b)).

Definition transaction_id_hash (t : TransactionId) : list Z :=
  [ubf_value (source_id t); ubf_value (seq_num t)].

Inductive TransactionStep : Type :=
| StepIdle
| TransactionStart
| ReceivingFileDataPdus
| ReceivingFileDataPdusWithCheckLimitHandling
| SendingAckPdu
| TransferCompletion
| SendingFinishedPdu.

#[export] Instance TransactionStep_eq_dec : EqDecision TransactionStep.
Proof. solve_decision. Defined.

Inductive State : Type := StateIdle | Busy | Suspended.

#[export] Instance State_eq_dec : EqDecision State.
Proof. solve_decision. Defined.

(** ** Fault handling *)
Class UserFaultHandler (F : Type) : Type := {
  notice_of_suspension_cb : TransactionId -> ConditionCode -> Z -> F -> F;
  notice_of_cancellation_cb : TransactionId -> ConditionCode -> Z -> F -> F;
  abandoned_cb : TransactionId -> ConditionCode -> Z -> F -> F;
  ignore_cb : TransactionId -> ConditionCode -> Z -> F -> F;
}.

Record DefaultFaultHandler (F : Type) : Type := mkFaultHandler {
  handler_array : list FaultHandlerCode;
  user_fault_handler : F;
}.

Arguments mkFaultHandler {F} _ _.
Arguments handler_array {F} _.
Arguments user_fault_handler {F} _.

Module FaultHandler.

Definition condition_code_to_array_index (c : ConditionCode) : option Z :=
  match c with
  | PositiveAckLimitReached => Some 0
  | KeepAliveLimitReached => Some 1
  | InvalidTransmissionMode => Some 2
  | FilestoreRejection => Some 3
  | FileChecksumFailure => Some 4
  | FileSizeError => Some 5
  | NakLimitReached => Some 6
  | InactivityDetected => Some 7
  | CheckLimitReached => Some 8
  | UnsupportedChecksumType => Some 9
  | _ => None
  end.

Section FaultHandler.
Context {F E : Type}.

Definition set_array (a : list FaultHandlerCode) (h : DefaultFaultHandler F) : DefaultFaultHandler F :=
  {| handler_array := a; user_fault_handler := user_fault_handler h |}.

Definition set_fault_handler (c : ConditionCode) (code : FaultHandlerCode)
    : st (DefaultFaultHandler F) E unit :=
  match condition_code_to_array_index c with
  | None => ret tt
  | Some i =>
      let* a := asks (fun h => set_index (handler_array h) i code) in
      modify_state (set_array a)
  end.

Definition new (user : F) : res E (DefaultFaultHandler F) :=
  let init_array := replicate 10 NoticeOfCancellation in
  let? i := unwrap (condition_code_to_array_index FileChecksumFailure) in
  let? init_array := set_index init_array i IgnoreError in
  let? j := unwrap (condition_code_to_array_index UnsupportedChecksumType) in
  let? init_array := set_index init_array j IgnoreError in
  Ok {| handler_array := init_array; user_fault_handler := user |}.

Definition get_fault_handler (c : ConditionCode) (h : DefaultFaultHandler F) : res E FaultHandlerCode :=
  match condition_code_to_array_index c with
  | None => Ok IgnoreError
  | Some i => index (handler_array h) i
  end.

Context `{UserFaultHandler F}.

Definition report_fault (id : TransactionId) (condition : ConditionCode) (progress : Z)
    : st (DefaultFaultHandler F) E FaultHandlerCode :=
  match condition_code_to_array_index condition with
  | None => ret IgnoreError
  | Some i =>
      let* fh_code := asks (fun h => index (handler_array h) i) in
      let cb :=
        match fh_code with
        | NoticeOfCancellation => notice_of_cancellation_cb
        | NoticeOfSuspension => notice_of_suspension_cb
        | IgnoreError => ignore_cb
        | AbandonTransaction => abandoned_cb
        end in
      let* _ := modify_state (fun h =>
        {| handler_array := handler_array h;
           user_fault_handler := cb id condition progress (user_fault_handler h) |}) in
      ret fh_code
  end.

End FaultHandler.
End FaultHandler.

(** ** Local configuration *)
Record IndicationConfig : Type := mkIndicationCfg {
  eof_sent : bool;
  eof_recv : bool;
  file_segment_recv : bool;
  transaction_finished : bool;
  suspended : bool;
  resumed : bool;
}.

Definition indication_default : IndicationConfig :=
  {| eof_sent := true; eof_recv := true; file_segment_recv := true;
     transaction_finished := true; suspended := true; resumed := true |}.

Record LocalEntityConfig (F : Type) : Type := mkLocalCfg {
  local_id : UnsignedByteField;
  indication_cfg : IndicationConfig;
  default_fault_handler : DefaultFaultHandler F;
}.

Arguments mkLocalCfg {F} _ _ _.
Arguments local_id {F} _.
Arguments indication_cfg {F} _.
Arguments default_fault_handler {F} _.

(** [source.rs]: the source handler so far holds its ID only. *)
Record SourceHandler : Type := mkSourceHandler { source_handler_id : UnsignedByteField }.

(** ** Indications to the user ([user.rs]) *)
Record TransactionFinishedParams : Type := mkFinishedParams {
  fin_id : TransactionId;
  fin_condition_code : ConditionCode;
  fin_delivery_code : DeliveryCode;
  fin_file_status : FileStatus;
}.

(** A message to the user is given by its bytes, [to_vec]. *)
Record MetadataReceivedParams : Type := mkMetadataRecvd {
  md_id : TransactionId;
  md_source_id : UnsignedByteField;
  md_file_size : Z;
  md_src_file_name : list Z;
  md_dest_file_name : list Z;
  md_msgs_to_user : list (list Z);
}.

Record FileSegmentRecvdParams : Type := mkSegmentRecvd {
  seg_id : TransactionId;
  seg_offset : Z;
  seg_length : Z;
  seg_metadata : option (list Z);
}.

Class CfdpUser (U : Type) : Type := {
  transaction_indication : TransactionId -> U -> U;
  eof_sent_indication : TransactionId -> U -> U;
  transaction_finished_indication : TransactionFinishedParams -> U -> U;
  metadata_recvd_indication : MetadataReceivedParams -> U -> U;
  file_segment_recvd_indication : FileSegmentRecvdParams -> U -> U;
  report_indication : TransactionId -> U -> U;
  suspended_indication : TransactionId -> ConditionCode -> U -> U;
  resumed_indication : TransactionId -> Z -> U -> U;
  fault_indication : TransactionId -> ConditionCode -> Z -> U -> U;
  abandoned_indication : TransactionId -> ConditionCode -> Z -> U -> U;
  eof_recvd_indication : TransactionId -> U -> U;
}.

(** ** Packet routing *)
Inductive PacketTarget : Type := SourceEntity | DestEntity.

#[export] Instance PacketTarget_eq_dec : EqDecision PacketTarget.
Proof. solve_decision. Defined.

Record PacketInfo : Type := mkPacketInfo {
  pdu_type : PduType;
  pdu_directive : option FileDirectiveType;
  target : PacketTarget;
  raw_packet : list Z;
}.

Module Packet.
Section Packet.
Context {PduE : Type} `{PduErrorOps PduE} `{PduHeaderOps PduE}.

(** [FileDirectiveType::try_from(b).map_err(..)] *)
Definition directive_at (b found : Z) : res PduE FileDirectiveType :=
  ok_or (directive_try_from b) (pdu_invalid_directive found None).

Definition new (raw : list Z) : res PduE PacketInfo :=
  let? '(h, header_len) := header_from_bytes raw in
  match pdu_header_type h with
  | PduFileData =>
      Ok {| pdu_type := PduFileData; pdu_directive := None; target := DestEntity; raw_packet := raw |}
  | PduFileDirective =>
      if pdu_datafield_len h <? 1 then Err pdu_format_error
      else
        let? b := index raw header_len in
        let? directive := directive_at b b in
        let? packet_target :=
          match directive with
          | NakPduType | FinishedPduType | KeepAlivePduType => Ok SourceEntity
          | MetadataPduType | EofPduType | PromptPduType => Ok DestEntity
          | AckPduType =>
              let? a := index raw (header_len + 1) in
              let? acked_directive := directive_at a b in
              if bool_decide (acked_directive = EofPduType) then Ok SourceEntity
              else if bool_decide (acked_directive = FinishedPduType) then Ok DestEntity
              else Err (pdu_invalid_directive a None)
          end in
        Ok {| pdu_type := PduFileDirective; pdu_directive := Some directive;
              target := packet_target; raw_packet := raw |}
  end.

End Packet.
End Packet.

(** ** The fault handler is a table of condition codes *)
Section FaultTable.
Context {F E : Type}.

(** The table the documentation describes: checksum failures and unsupported
    checksums are ignored, other faults cancel; codes that are no faults are
    ignored and cannot be changed. *)
Definition default_code (c : ConditionCode) : FaultHandlerCode :=
  match FaultHandler.condition_code_to_array_index c with
  | None => IgnoreError
  | Some _ =>
      if bool_decide (c = FileChecksumFailure) || bool_decide (c = UnsupportedChecksumType)
      then IgnoreError else NoticeOfCancellation
  end.

Definition set_code (sc : ConditionCode * FaultHandlerCode) (t : ConditionCode -> FaultHandlerCode)
    : ConditionCode -> FaultHandlerCode :=
  fun c => if bool_decide (c = sc.1)
           then match FaultHandler.condition_code_to_array_index c with None => IgnoreError | Some _ => sc.2 end
           else t c.

(** A sequence of [set_fault_handler] calls. *)
Fixpoint set_all (sets : list (ConditionCode * FaultHandlerCode)) : st (DefaultFaultHandler F) E unit :=
  match sets with
  | [] => ret tt
  | sc :: sets' => let* _ := FaultHandler.set_fault_handler sc.1 sc.2 in set_all sets'
  end.

Definition table_of (h : DefaultFaultHandler F) (t : ConditionCode -> FaultHandlerCode) : Prop :=
  length (handler_array h) = 10%nat /\
  forall c, match FaultHandler.condition_code_to_array_index c with
            | Some i => handler_array h !! Z.to_nat i = Some (t c)
            | None => t c = IgnoreError
            end.

Lemma condition_index_inj c c' i :
  FaultHandler.condition_code_to_array_index c = Some i ->
  FaultHandler.condition_code_to_array_index c' = Some i -> c = c'.
Proof. destruct c, c'; simpl; intros; simplify_eq; done. Qed.

Lemma condition_index_range c i : FaultHandler.condition_code_to_array_index c = Some i -> 0 <= i < 10.
Proof. destruct c; simpl; intros; simplify_eq; lia. Qed.

Lemma new_table (user : F) :
  exists h, FaultHandler.new (E:=E) user = Ok h /\ table_of h default_code /\ user_fault_handler h = user.
Proof. eexists. split; [reflexivity|]. split; [|done]. split; [done|]. by intros []. Qed.

Lemma set_table sc h t :
  table_of h t ->
  exists h', FaultHandler.set_fault_handler (E:=E) sc.1 sc.2 h = (Ok tt, h') /\ table_of h' (set_code sc t) /\
    user_fault_handler h' = user_fault_handler h.
Proof.
  intros [Hl Ht]. unfold FaultHandler.set_fault_handler, set_code. destruct sc as [c0 code]. cbn [fst snd].
  destruct (FaultHandler.condition_code_to_array_index c0) as [i|] eqn:Hi.
  - pose proof (condition_index_range _ _ Hi).
    exists (FaultHandler.set_array (<[Z.to_nat i := code]> (handler_array h)) h). split; [|split; [|done]].
    { run_monad. rewrite set_index_ok by (unfold len; lia). reflexivity. }
    split; [simpl; by rewrite length_insert|]. intros c. simpl. specialize (Ht c).
    destruct (FaultHandler.condition_code_to_array_index c) as [k|] eqn:Hk.
    + case_bool_decide as Hc.
      * subst c0. rewrite Hi in Hk. injection Hk as <-. apply list_lookup_insert_eq. lia.
      * pose proof (condition_index_range _ _ Hk). rewrite list_lookup_insert_ne; [done|].
        intros Hne. assert (i = k) by lia. subst k. by destruct Hc, (condition_index_inj _ _ _ Hi Hk).
    + case_bool_decide; [done|exact Ht].
  - eexists. split; [reflexivity|]. split; [|done]. split; [done|]. intros c. specialize (Ht c).
    case_bool_decide as Hc; [subst c|exact Ht]. by rewrite Hi.
Qed.

Lemma set_all_table sets h t :
  table_of h t ->
  exists h', set_all sets h = (Ok tt, h') /\
    table_of h' (fold_left (fun t sc => set_code sc t) sets t) /\ user_fault_handler h' = user_fault_handler h.
Proof.
  revert h t. induction sets as [|sc sets IH]; intros h t Ht; simpl; [by eexists|].
  destruct (set_table sc h t Ht) as (h1 & He & Ht1 & Hu).
  destruct (IH h1 _ Ht1) as (h2 & He2 & Ht2 & Hu2).
  exists h2. unfold st_bind. rewrite He. rewrite <- Hu. done.
Qed.

End FaultTable.

(** The fault handler is a table from condition codes to handler codes: after
    any changes it answers with the last one made for a code, else with the
    documented default; reporting a fault calls the user callback of that code,
    once, with the arguments given, and changes nothing else.  Codes that are no
    faults are ignored. *)
Theorem fault_handler_correct {F E : Type} `{UserFaultHandler F} (user : F)
  (sets : list (ConditionCode * FaultHandlerCode)) (c : ConditionCode) (id : TransactionId) (progress : Z) :
  let code := fold_left (fun t sc => set_code sc t) sets default_code c in
  exists h0 h, FaultHandler.new (E:=E) user = Ok h0 /\ set_all (E:=E) sets h0 = (Ok tt, h) /\
    FaultHandler.get_fault_handler (E:=E) c h = Ok code /\
    FaultHandler.report_fault (E:=E) id c progress h =
      (Ok code,
       match FaultHandler.condition_code_to_array_index c with
       | None => h
       | Some _ =>
           mkFaultHandler (handler_array h)
             ((match code with
               | NoticeOfCancellation => notice_of_cancellation_cb
               | NoticeOfSuspension => notice_of_suspension_cb
               | IgnoreError => ignore_cb
               | AbandonTransaction => abandoned_cb
               end) id c progress user)
       end).
Proof.
  intros code. destruct (new_table (E:=E) user) as (h0 & Hn & Ht0 & Hu0).
  destruct (set_all_table (E:=E) sets h0 _ Ht0) as (h & Hs & [Hl Ht] & Hu).
  exists h0, h. split; [done|]. split; [done|]. specialize (Ht c). fold code in Ht.
  unfold FaultHandler.get_fault_handler, FaultHandler.report_fault. rewrite <- Hu0, <- Hu.
  destruct (FaultHandler.condition_code_to_array_index c) as [i|] eqn:Hi.
  - pose proof (condition_index_range _ _ Hi). unfold st_bind, asks.
    rewrite (index_ok _ _ code) by (lia || done). split; [done|]. by destruct code.
  - unfold ret. by rewrite Ht.
Qed.

(** ** Packet routing *)
Section Routing.
Context {PduE : Type} `{PduErrorOps PduE} `{PduHeaderOps PduE}.

(** The entity a file directive is meant for, by sections a) to c) of 4.5.3. *)
Definition entity_of (d : FileDirectiveType) (acked : option FileDirectiveType) : option PacketTarget :=
  match d with
  | NakPduType | FinishedPduType | KeepAlivePduType => Some SourceEntity
  | MetadataPduType | EofPduType | PromptPduType => Some DestEntity
  | AckPduType =>
      match acked with
      | Some EofPduType => Some SourceEntity
      | Some FinishedPduType => Some DestEntity
      | _ => None
      end
  end.

End Routing.

(** A packet whose data field is in the buffer is routed by its type and its
    directive code: file data to the destination, file directives as the standard
    says, ACK PDUs by the byte after the directive code; unknown codes and empty
    data fields are errors.  The packet information repeats the packet. *)
Theorem packet_info_correct {PduE : Type} `{PduErrorOps PduE} `{PduHeaderOps PduE}
  (raw : list Z) (h : PduHeader) (header_len : Z)
  (Hh : header_from_bytes raw = Ok (h, header_len)) (Hl : 0 <= header_len /\ header_len + 1 < len raw) :
  let b := default 0 (raw !! Z.to_nat header_len) in
  let a := default 0 (raw !! Z.to_nat (header_len + 1)) in
  Packet.new raw =
    match pdu_header_type h with
    | PduFileData => Ok (mkPacketInfo PduFileData None DestEntity raw)
    | PduFileDirective =>
        if pdu_datafield_len h <? 1 then Err pdu_format_error
        else
          match directive_try_from b with
          | None => Err (pdu_invalid_directive b None)
          | Some d =>
              match entity_of d (directive_try_from a) with
              | Some t => Ok (mkPacketInfo PduFileDirective (Some d) t raw)
              | None => Err (pdu_invalid_directive (match directive_try_from a with Some _ => a | None => b end) None)
              end
          end
    end.
Proof.
  intros b a.
  destruct (lookup_lt_is_Some_2 raw (Z.to_nat header_len)) as [x Hx]; [unfold len in *; lia|].
  destruct (lookup_lt_is_Some_2 raw (Z.to_nat (header_len + 1))) as [y Hy]; [unfold len in *; lia|].
  subst b a. rewrite Hx, Hy. cbn [default from_option id].
  unfold Packet.new, Packet.directive_at. rewrite Hh. cbn [res_bind].
  destruct (pdu_header_type h); [|done].
  destruct (pdu_datafield_len h <? 1); [done|].
  rewrite (index_ok raw header_len x) by (lia || done). cbn [res_bind].
  destruct (directive_try_from x) as [[]|]; cbn [ok_or res_bind entity_of]; try done.
  rewrite (index_ok raw (header_len + 1) y) by (lia || done). cbn [res_bind].
  destruct (directive_try_from y) as [[]|]; done.
Qed.

(** The directive codes of the standard, in the header format of the examples:
    a byte for the type and one for the length of the data field. *)
Definition demo_directive (b : Z) : option FileDirectiveType :=
  match b with
  | 4 => Some EofPduType | 5 => Some FinishedPduType | 6 => Some AckPduType | 7 => Some MetadataPduType
  | 8 => Some NakPduType | 9 => Some PromptPduType | 12 => Some KeepAlivePduType | _ => None
  end.

Definition DemoError : Type := Z * option FileDirectiveType.

#[local] Instance demo_pdu_errors : PduErrorOps DemoError :=
  {| pdu_format_error := (0, None); pdu_invalid_directive := fun found expected => (found, expected) |}.

#[local] Instance demo_header : PduHeaderOps DemoError := {|
  header_from_bytes := fun raw =>
    match raw with
    | t :: n :: _ => Ok (mkPduHeader (if t =? 0 then PduFileDirective else PduFileData) n, 2)
    | _ => Err (0, None)
    end;
  directive_try_from := demo_directive;
|}.

Lemma packet_info_correct_witness :
  Packet.new (PduE:=DemoError) [0; 2; 6; 5] = Ok (mkPacketInfo PduFileDirective (Some AckPduType) DestEntity [0; 2; 6; 5]) /\
  Packet.new (PduE:=DemoError) [0; 2; 7; 0] = Ok (mkPacketInfo PduFileDirective (Some MetadataPduType) DestEntity [0; 2; 7; 0]).
Proof.
  split.
  - refine (packet_info_correct (PduE:=DemoError) [0; 2; 6; 5] (mkPduHeader PduFileDirective 2) 2 _ _);
      [reflexivity|by vm_compute].
  - refine (packet_info_correct (PduE:=DemoError) [0; 2; 7; 0] (mkPduHeader PduFileDirective 2) 2 _ _);
      [reflexivity|by vm_compute].
Defined.

(** The standard puts the acknowledged directive code into the upper four bits of
    its byte, next to a subtype.  The code takes the whole byte, so the ACK of an
    EOF PDU is refused, and the error names the code of the ACK itself. *)
Example ack_of_eof_refused : Packet.new (PduE:=DemoError) [0; 2; 6; Z.shiftl 4 4] = Err (6, None).
Proof. reflexivity. Qed.

(** An ACK PDU that ends after its directive code is an index out of range. *)
Example short_ack_panics : Packet.new (PduE:=DemoError) [0; 1; 6] = Panic.
Proof. reflexivity. Qed.

(** ** Check timer *)

(** A check timer of [period] seconds expires exactly one second after its
    period, counted from its creation or its last reset: never early, never
    later.  A clock that runs backwards does not expire it. *)
Theorem std_timer_bounds (start period reset_at now : Z) (was_reset : bool) (Hp : 0 <= period) :
  let t := if was_reset then StdTimer.reset reset_at (StdTimer.new start period) else StdTimer.new start period in
  let since := now - (if was_reset then reset_at else start) in
  StdTimer.has_expired now t = true <-> (period + 1) * 10 ^ 9 <= since.
Proof.
  intros t since. unfold StdTimer.has_expired, StdTimer.elapsed_secs.
  assert (Hs : expiry_time_seconds t = period /\ now - start_time t = since) by (subst t since; by destruct was_reset).
  destruct Hs as [-> ->]. pose proof (Z.div_mod (Z.max 0 since) (10 ^ 9) ltac:(lia)).
  pose proof (Z.mod_pos_bound (Z.max 0 since) (10 ^ 9) ltac:(lia)).
  destruct (period <? Z.max 0 since / 10 ^ 9) eqn:Hlt; split; intros; try done; nia.
Qed.

Lemma std_timer_bounds_witness :
  StdTimer.has_expired (6 * 10 ^ 9) (StdTimer.new 0 5) = true.
Proof. apply (std_timer_bounds 0 5 0 (6 * 10 ^ 9) false ltac:(lia)). lia. Defined.

(** ** The remote configuration table *)

(** [add_config] and [remove_config] return whether there was an entry before;
    for [add_config] the documentation says the opposite. *)
Lemma remote_table_correct (t : StdRemoteEntityConfigProvider) (cfg : RemoteEntityConfig) (id : Z) :
  (StdRemote.add_config cfg t).1 = bool_decide (is_Some (StdRemote.get_remote_config t (ubf_value (entity_id cfg)))) /\
  StdRemote.get_remote_config (StdRemote.add_config cfg t).2 id =
    (if decide (id = ubf_value (entity_id cfg)) then Some cfg else StdRemote.get_remote_config t id) /\
  (StdRemote.remove_config id t).1 = bool_decide (is_Some (StdRemote.get_remote_config t id)) /\
  StdRemote.get_remote_config (StdRemote.remove_config id t).2 id = None.
Proof.
  unfold StdRemote.add_config, StdRemote.remove_config, StdRemote.get_remote_config. cbn [fst snd remote_cfg_table].
  split_and!; [done| |done|apply lookup_delete_eq].
  case_decide as Hd; [subst; apply lookup_insert_eq|by apply lookup_insert_ne].
Qed.
