(* ===== verification/CfdpDest.v ===== *)
(** * The CFDP destination handler ([satrs/src/cfdp/dest.rs])

    [DestinationHandler] receives a file: the Metadata PDU opens a transaction,
    File Data PDUs are written to the filestore, the EOF PDU closes it after a
    check of the checksum, with the check limit procedure for late data and the
    fault handlers for errors.  The handler is a state machine over the state
    [State] and the step [TransactionStep]; all its operations are computations
    over the handler and the user it reports to. *)

From Stdlib Require Import ZArith Lia Bool.
From stdpp Require Import base list gmap.
From S2P Require Import Prelude Spacepackets Filestore Cfdp.

Local Open Scope Z_scope.

(** ** What is used of [spacepackets] and [core::str] *)

(** [CommonPduConfig] *)
Record CommonPduConfig : Type := mkPduConf {
  conf_source_id : UnsignedByteField;
  conf_dest_id : UnsignedByteField;
  transaction_seq_num : UnsignedByteField;
  trans_mode : TransmissionMode;
}.

Record MetadataGenericParams : Type := mkMetadataParams {
  closure_requested : bool;
  checksum_type : ChecksumType;
  file_size : Z;
}.

(** An option of a Metadata PDU.  [tlv_is_msg_to_user] is [tlv_type()], compared
    with [TlvType::MsgToUser]. *)
Record Tlv : Type := mkTlv {
  is_standard_tlv : bool;
  tlv_is_msg_to_user : option bool;
  raw_data : option (list Z);
  tlv_len_full : Z;
}.

Record MetadataPdu : Type := mkMetadataPdu {
  metadata_pdu_params : MetadataGenericParams;
  metadata_conf : CommonPduConfig;
  src_file_name_lv : list Z;
  dest_file_name_lv : list Z;
  metadata_options : list Z;
  options_iter : option (list Tlv);
}.

Record FileDataPdu : Type := mkFileDataPdu {
  fd_offset : Z;
  fd_data : list Z;
  fd_segment_metadata : option (list Z);
}.

Record EofPdu : Type := mkEofPdu {
  eof_condition_code : ConditionCode;
  file_checksum : Z;
  eof_file_size : Z;
}.

Record MsgToUserTlv : Type := mkMsgToUser { msg_bytes : list Z; msg_len_full : Z }.

(** The arguments a [FinishedPduCreator] is built from. *)
Record FinishedPdu : Type := mkFinishedPdu {
  finished_conf : CommonPduConfig;
  finished_condition_code : ConditionCode;
  finished_delivery_code : DeliveryCode;
  finished_file_status : FileStatus;
  finished_fault_location : option UnsignedByteField;
}.

Class PduOps (PduE : Type) : Type := {
  metadata_from_bytes : list Z -> res PduE MetadataPdu;
  file_data_from_bytes : list Z -> res PduE FileDataPdu;
  eof_from_bytes : list Z -> res PduE EofPdu;
  msg_to_user_from_bytes : list Z -> option MsgToUserTlv;
  finished_writer : FinishedPdu -> Writer PduE;
  metadata_params_default : MetadataGenericParams;
  pdu_conf_default : CommonPduConfig;
}.

(** [core::str::from_utf8]: the bytes, or where they stop being valid. *)
Record Utf8Error : Type := mkUtf8Error { valid_up_to : Z; error_len : option Z }.

Definition continuation (b : Z) : bool := (128 <=? b) && (b <=? 191).

(** The ranges of the second byte after a first byte of a sequence of three or
    four. *)
Definition second_of_three (b c : Z) : bool :=
  if b =? 224 then (160 <=? c) && (c <=? 191)
  else if b =? 237 then (128 <=? c) && (c <=? 159)
  else continuation c.

Definition second_of_four (b c : Z) : bool :=
  if b =? 240 then (144 <=? c) && (c <=? 191)
  else if b =? 244 then (128 <=? c) && (c <=? 143)
  else continuation c.

Fixpoint utf8_error (pos : Z) (l : list Z) : option Utf8Error :=
  match l with
  | [] => None
  | b :: l1 =>
      if b <? 128 then utf8_error (pos + 1) l1
      else if (194 <=? b) && (b <=? 223) then
        match l1 with
        | [] => Some (mkUtf8Error pos None)
        | c :: l2 => if continuation c then utf8_error (pos + 2) l2 else Some (mkUtf8Error pos (Some 1))
        end
      else if (224 <=? b) && (b <=? 239) then
        match l1 with
        | [] => Some (mkUtf8Error pos None)
        | c :: l2 =>
            if second_of_three b c then
              match l2 with
              | [] => Some (mkUtf8Error pos None)
              | d :: l3 => if continuation d then utf8_error (pos + 3) l3 else Some (mkUtf8Error pos (Some 2))
              end
            else Some (mkUtf8Error pos (Some 1))
        end
      else if (240 <=? b) && (b <=? 244) then
        match l1 with
        | [] => Some (mkUtf8Error pos None)
        | c :: l2 =>
            if second_of_four b c then
              match l2 with
              | [] => Some (mkUtf8Error pos None)
              | d :: l3 =>
                  if continuation d then
                    match l3 with
                    | [] => Some (mkUtf8Error pos None)
                    | e :: l4 =>
                        if continuation e then utf8_error (pos + 4) l4 else Some (mkUtf8Error pos (Some 3))
                    end
                  else Some (mkUtf8Error pos (Some 2))
              end
            else Some (mkUtf8Error pos (Some 1))
        end
      else Some (mkUtf8Error pos (Some 1))
  end.

Definition from_utf8 (l : list Z) : res Utf8Error (list Z) :=
  match utf8_error 0 l with None => Ok l | Some e => Err e end.

(** ** The data of a transaction *)
Record FileProperties : Type := mkFileProps {
  src_file_name : list Z;
  src_file_name_len : Z;
  dest_file_name : list Z;
  dest_file_name_len : Z;
  dest_path_buf : list Z;
}.

Inductive CompletionDisposition : Type := Completed | Cancelled.

#[export] Instance CompletionDisposition_eq_dec : EqDecision CompletionDisposition.
Proof. solve_decision. Defined.

(** [T] is the type of the check timer. *)
Record TransferState (T : Type) : Type := mkTransferState {
  transaction_id : option TransactionId;
  metadata_params : MetadataGenericParams;
  progress : Z;
  metadata_only : bool;
  condition_code : ConditionCode;
  delivery_code : DeliveryCode;
  file_status : FileStatus;
  completion_disposition : CompletionDisposition;
  checksum : Z;
  current_check_count : Z;
  current_check_timer : option T;
}.

Arguments mkTransferState {T} _ _ _ _ _ _ _ _ _ _ _.
Arguments transaction_id {T} _.
Arguments metadata_params {T} _.
Arguments progress {T} _.
Arguments metadata_only {T} _.
Arguments condition_code {T} _.
Arguments delivery_code {T} _.
Arguments file_status {T} _.
Arguments completion_disposition {T} _.
Arguments checksum {T} _.
Arguments current_check_count {T} _.
Arguments current_check_timer {T} _.

Record TransactionParams (T : Type) : Type := mkTransactionParams {
  tstate : TransferState T;
  pdu_conf : CommonPduConfig;
  file_properties : FileProperties;
  cksum_buf : list Z;
  msgs_to_user_size : Z;
  msgs_to_user_buf : list Z;
  remote_cfg : option RemoteEntityConfig;
}.

Arguments mkTransactionParams {T} _ _ _ _ _ _ _.
Arguments tstate {T} _.
Arguments pdu_conf {T} _.
Arguments file_properties {T} _.
Arguments cksum_buf {T} _.
Arguments msgs_to_user_size {T} _.
Arguments msgs_to_user_buf {T} _.
Arguments remote_cfg {T} _.

Inductive DestError (PduE : Type) : Type :=
| DirectiveExpected
| CantProcessPacketType (d : FileDirectiveType)
| WrongStateForFileDataAndEof
| RecvdMetadataButIsBusy
| EmptySrcFileField
| EmptyDestFileField
| PacketToSendLeft
| Pdu (e : PduE)
| DestIo (e : IoError)
| Filestore_ (e : FilestoreError)
| PathConversion (e : Utf8Error)
| PathConcat
| NoRemoteCfgFound (id : UnsignedByteField).

Arguments DirectiveExpected {PduE}.
Arguments CantProcessPacketType {PduE} _.
Arguments WrongStateForFileDataAndEof {PduE}.
Arguments RecvdMetadataButIsBusy {PduE}.
Arguments EmptySrcFileField {PduE}.
Arguments EmptyDestFileField {PduE}.
Arguments PacketToSendLeft {PduE}.
Arguments Pdu {PduE} _.
Arguments DestIo {PduE} _.
Arguments Filestore_ {PduE} _.
Arguments PathConversion {PduE} _.
Arguments PathConcat {PduE}.
Arguments NoRemoteCfgFound {PduE} _.

Class CfdpPacketSender (PduE S : Type) : Type :=
  send_pdu : PduType -> option FileDirectiveType -> list Z -> st S PduE unit.

(** [F]: user fault handler, [Sd]: packet sender, [V]: filestore, [R]: remote
    configuration table, [C]: timer creator, [T]: timer. *)
Record DestinationHandler (F Sd V R C T : Type) : Type := mkDest {
  local_cfg : LocalEntityConfig F;
  step : TransactionStep;
  state : State;
  tparams : TransactionParams T;
  packet_buf : list Z;
  packet_sender : Sd;
  vfs : V;
  remote_table : R;
  check_timer_creator : C;
}.

Arguments mkDest {F Sd V R C T} _ _ _ _ _ _ _ _ _.
Arguments local_cfg {F Sd V R C T} _.
Arguments step {F Sd V R C T} _.
Arguments state {F Sd V R C T} _.
Arguments tparams {F Sd V R C T} _.
Arguments packet_buf {F Sd V R C T} _.
Arguments packet_sender {F Sd V R C T} _.
Arguments vfs {F Sd V R C T} _.
Arguments remote_table {F Sd V R C T} _.
Arguments check_timer_creator {F Sd V R C T} _.

(** ** Field updates *)
Module Upd.
Section Upd.
Context {F Sd V R C T : Type}.
Abbreviation H := (DestinationHandler F Sd V R C T).

Definition set_step (x : TransactionStep) (h : H) : H :=
  mkDest (local_cfg h) x (state h) (tparams h) (packet_buf h) (packet_sender h) (vfs h) (remote_table h) (check_timer_creator h).
Definition set_state (x : State) (h : H) : H :=
  mkDest (local_cfg h) (step h) x (tparams h) (packet_buf h) (packet_sender h) (vfs h) (remote_table h) (check_timer_creator h).
Definition on_tparams (f : TransactionParams T -> TransactionParams T) (h : H) : H :=
  mkDest (local_cfg h) (step h) (state h) (f (tparams h)) (packet_buf h) (packet_sender h) (vfs h) (remote_table h) (check_timer_creator h).
Definition set_packet_buf (x : list Z) (h : H) : H :=
  mkDest (local_cfg h) (step h) (state h) (tparams h) x (packet_sender h) (vfs h) (remote_table h) (check_timer_creator h).
Definition set_sender (x : Sd) (h : H) : H :=
  mkDest (local_cfg h) (step h) (state h) (tparams h) (packet_buf h) x (vfs h) (remote_table h) (check_timer_creator h).
Definition set_vfs (x : V) (h : H) : H :=
  mkDest (local_cfg h) (step h) (state h) (tparams h) (packet_buf h) (packet_sender h) x (remote_table h) (check_timer_creator h).
Definition set_fault_handler (x : DefaultFaultHandler F) (h : H) : H :=
  mkDest (mkLocalCfg (local_id (local_cfg h)) (indication_cfg (local_cfg h)) x)
    (step h) (state h) (tparams h) (packet_buf h) (packet_sender h) (vfs h) (remote_table h) (check_timer_creator h).

Definition on_tstate (f : TransferState T -> TransferState T) (p : TransactionParams T) : TransactionParams T :=
  mkTransactionParams (f (tstate p)) (pdu_conf p) (file_properties p) (cksum_buf p) (msgs_to_user_size p) (msgs_to_user_buf p) (remote_cfg p).
Definition set_pdu_conf (x : CommonPduConfig) (p : TransactionParams T) : TransactionParams T :=
  mkTransactionParams (tstate p) x (file_properties p) (cksum_buf p) (msgs_to_user_size p) (msgs_to_user_buf p) (remote_cfg p).
Definition set_file_properties (x : FileProperties) (p : TransactionParams T) : TransactionParams T :=
  mkTransactionParams (tstate p) (pdu_conf p) x (cksum_buf p) (msgs_to_user_size p) (msgs_to_user_buf p) (remote_cfg p).
Definition set_cksum_buf (x : list Z) (p : TransactionParams T) : TransactionParams T :=
  mkTransactionParams (tstate p) (pdu_conf p) (file_properties p) x (msgs_to_user_size p) (msgs_to_user_buf p) (remote_cfg p).
Definition set_msgs (size : Z) (buf : list Z) (p : TransactionParams T) : TransactionParams T :=
  mkTransactionParams (tstate p) (pdu_conf p) (file_properties p) (cksum_buf p) size buf (remote_cfg p).
Definition set_remote_cfg (x : RemoteEntityConfig) (p : TransactionParams T) : TransactionParams T :=
  mkTransactionParams (tstate p) (pdu_conf p) (file_properties p) (cksum_buf p) (msgs_to_user_size p) (msgs_to_user_buf p) (Some x).

Abbreviation TS := (TransferState T).
Definition set_transaction_id (x : TransactionId) (s : TS) : TS :=
  mkTransferState (Some x) (metadata_params s) (progress s) (metadata_only s) (condition_code s) (delivery_code s) (file_status s) (completion_disposition s) (checksum s) (current_check_count s) (current_check_timer s).
Definition set_metadata_params (x : MetadataGenericParams) (s : TS) : TS :=
  mkTransferState (transaction_id s) x (progress s) (metadata_only s) (condition_code s) (delivery_code s) (file_status s) (completion_disposition s) (checksum s) (current_check_count s) (current_check_timer s).
Definition set_progress (x : Z) (s : TS) : TS :=
  mkTransferState (transaction_id s) (metadata_params s) x (metadata_only s) (condition_code s) (delivery_code s) (file_status s) (completion_disposition s) (checksum s) (current_check_count s) (current_check_timer s).
Definition set_metadata_only (s : TS) : TS :=
  mkTransferState (transaction_id s) (metadata_params s) (progress s) true (condition_code s) (delivery_code s) (file_status s) (completion_disposition s) (checksum s) (current_check_count s) (current_check_timer s).
Definition set_condition_code (x : ConditionCode) (s : TS) : TS :=
  mkTransferState (transaction_id s) (metadata_params s) (progress s) (metadata_only s) x (delivery_code s) (file_status s) (completion_disposition s) (checksum s) (current_check_count s) (current_check_timer s).
Definition set_delivery_code (x : DeliveryCode) (s : TS) : TS :=
  mkTransferState (transaction_id s) (metadata_params s) (progress s) (metadata_only s) (condition_code s) x (file_status s) (completion_disposition s) (checksum s) (current_check_count s) (current_check_timer s).
Definition set_file_status (x : FileStatus) (s : TS) : TS :=
  mkTransferState (transaction_id s) (metadata_params s) (progress s) (metadata_only s) (condition_code s) (delivery_code s) x (completion_disposition s) (checksum s) (current_check_count s) (current_check_timer s).
Definition set_disposition (x : CompletionDisposition) (s : TS) : TS :=
  mkTransferState (transaction_id s) (metadata_params s) (progress s) (metadata_only s) (condition_code s) (delivery_code s) (file_status s) x (checksum s) (current_check_count s) (current_check_timer s).
Definition set_checksum (x : Z) (s : TS) : TS :=
  mkTransferState (transaction_id s) (metadata_params s) (progress s) (metadata_only s) (condition_code s) (delivery_code s) (file_status s) (completion_disposition s) x (current_check_count s) (current_check_timer s).
Definition set_check (count : Z) (timer : option T) (s : TS) : TS :=
  mkTransferState (transaction_id s) (metadata_params s) (progress s) (metadata_only s) (condition_code s) (delivery_code s) (file_status s) (completion_disposition s) (checksum s) count timer.

End Upd.
End Upd.
Import Upd.

(** ** Defaults *)
Definition file_properties_default : FileProperties :=
  {| src_file_name := replicate 255 0; src_file_name_len := 0;
     dest_file_name := replicate 255 0; dest_file_name_len := 0; dest_path_buf := [] |}.

Definition transfer_state_default {PduE T : Type} `{PduOps PduE} : TransferState T :=
  {| transaction_id := None; metadata_params := metadata_params_default; progress := 0;
     metadata_only := false; condition_code := NoError; delivery_code := Incomplete;
     file_status := Unreported; completion_disposition := Completed; checksum := 0;
     current_check_count := 0; current_check_timer := None |}.

Definition transaction_params_default {PduE T : Type} `{PduOps PduE} : TransactionParams T :=
  {| pdu_conf := pdu_conf_default; cksum_buf := replicate 1024 0; msgs_to_user_size := 0;
     msgs_to_user_buf := replicate 1024 0; tstate := transfer_state_default;
     file_properties := file_properties_default; remote_cfg := None |}.

Definition transmission_mode_of {T : Type} (p : TransactionParams T) : TransmissionMode :=
  trans_mode (pdu_conf p).

Definition file_size_of {T : Type} (p : TransactionParams T) : Z :=
  file_size (metadata_params (tstate p)).

Definition tparams_reset {T : Type} : TransactionParams T -> TransactionParams T :=
  on_tstate (fun s => set_file_status Unreported (set_delivery_code Incomplete (set_condition_code NoError s))).

(** ** The handler *)
Module Dest.
Section Dest.
Context {PduE F Sd V R C T Ck U : Type}.
Context `{PduOps PduE} `{UserFaultHandler F} `{CfdpPacketSender PduE Sd} `{VirtualFilestore V}
  `{OsPaths V} `{RemoteEntityConfigProvider R} `{CheckTimerCreator Ck C T}
  `{CountdownProvider Ck T} `{CfdpUser U}.

Abbreviation Handler := (DestinationHandler F Sd V R C T).
Abbreviation M := (st (Handler * U) (DestError PduE)).

(** Access to the parts of the handler and to the user. *)
Definition get {A} (f : Handler -> A) : M A := gets (fun x => f x.1).
Definition put (f : Handler -> Handler) : M unit := modify_state (fun x => (f x.1, x.2)).
Definition indicate (f : U -> U) : M unit := modify_state (fun x => (x.1, f x.2)).
Definition put_tstate (f : TransferState T -> TransferState T) : M unit := put (on_tparams (on_tstate f)).

(** A call of the filestore, whose error becomes a [DestError]. *)
Definition on_vfs {E A} (f : FilestoreError -> E) (m : st V FilestoreError A) : st (Handler * U) E A :=
  fun x => let '(r, v) := m (vfs x.1) in (map_err f r, (set_vfs v x.1, x.2)).

Definition new (local_cfg : LocalEntityConfig F) (max_packet_len : Z) (packet_sender : Sd) (vfs : V)
    (remote_cfg_table : R) (check_timer_creator : C) : Handler :=
  {| local_cfg := local_cfg; step := StepIdle; state := StateIdle; tparams := transaction_params_default;
     packet_buf := replicate (Z.to_nat max_packet_len) 0; packet_sender := packet_sender; vfs := vfs;
     remote_table := remote_cfg_table; check_timer_creator := check_timer_creator |}.

Definition transmission_mode (h : Handler) : option TransmissionMode :=
  if bool_decide (state h = StateIdle) then None else Some (transmission_mode_of (tparams h)).

Definition reset : M unit :=
  let* _ := put (set_step StepIdle) in
  let* _ := put (set_state StateIdle) in
  put (on_tparams tparams_reset).

Definition notice_of_cancellation (c : ConditionCode) : M unit :=
  let* _ := put (set_step TransferCompletion) in
  let* _ := put_tstate (set_condition_code c) in
  put_tstate (set_disposition Cancelled).

Definition notice_of_suspension : M unit := ret tt.

Definition abandon_transaction : M unit := reset.

Definition declare_fault (c : ConditionCode) : M FaultHandlerCode :=
  let* id := asks (fun x => unwrap (transaction_id (tstate (tparams x.1)))) in
  let* p := get (fun h => progress (tstate (tparams h))) in
  let* fh_code := asks (fun x => FaultHandler.get_fault_handler c (default_fault_handler (local_cfg x.1))) in
  let* _ := match fh_code with
            | NoticeOfCancellation => notice_of_cancellation c
            | NoticeOfSuspension => notice_of_suspension
            | IgnoreError => ret tt
            | AbandonTransaction => abandon_transaction
            end in
  fun x =>
    let '(r, fh) := FaultHandler.report_fault id c p (default_fault_handler (local_cfg x.1)) in
    (r, (set_fault_handler fh x.1, x.2)).

(** *** Metadata *)

(** [copy_from_slice] into the front of a name array. *)
Definition set_src_name (name : list Z) : M unit :=
  let* fp := get (fun h => file_properties (tparams h)) in
  let* a := lift (copy_into (src_file_name fp) 0 (len name) name) in
  put (on_tparams (set_file_properties
    (mkFileProps a (len name) (dest_file_name fp) (dest_file_name_len fp) (dest_path_buf fp)))).

Definition set_dest_name (name : list Z) : M unit :=
  let* fp := get (fun h => file_properties (tparams h)) in
  let* a := lift (copy_into (dest_file_name fp) 0 (len name) name) in
  put (on_tparams (set_file_properties
    (mkFileProps (src_file_name fp) (src_file_name_len fp) a (len name) (dest_path_buf fp)))).

(** The loop over the options: a message to the user fills the whole buffer. *)
Fixpoint store_options (opts : list Tlv) : M unit :=
  match opts with
  | [] => ret tt
  | o :: opts' =>
      let* is_msg := (if is_standard_tlv o then lift (unwrap (tlv_is_msg_to_user o)) else ret false) in
      let* _ :=
        (if is_msg then
           let* raw := lift (unwrap (raw_data o)) in
           let* p := get tparams in
           let* buf := lift (copy_into (msgs_to_user_buf p) 0 (len (msgs_to_user_buf p)) raw) in
           let* size := lift (checked_add 64 (msgs_to_user_size p) (tlv_len_full o)) in
           put (on_tparams (set_msgs size buf))
         else ret tt) in
      store_options opts'
  end.

(** The checks of the file names and their copies. *)
Definition set_names (pdu : MetadataPdu) : M unit :=
  let src_name := src_file_name_lv pdu in
  let dest_name := dest_file_name_lv pdu in
  let* _ := (if (len src_name =? 0) && (len dest_name =? 0) then put_tstate set_metadata_only else ret tt) in
  let* only := get (fun h => metadata_only (tstate (tparams h))) in
  if negb only && (len src_name =? 0) then throw EmptySrcFileField
  else if negb only && (len dest_name =? 0) then throw EmptyDestFileField
  else if negb only then
    let* _ := set_src_name src_name in
    if len dest_name =? 0 then throw EmptyDestFileField
    else
      let* _ := set_dest_name dest_name in
      let* _ := put (on_tparams (set_pdu_conf (metadata_conf pdu))) in
      put (on_tparams (fun p => set_msgs 0 (msgs_to_user_buf p) p))
  else ret tt.

Definition set_options (pdu : MetadataPdu) : M unit :=
  if negb (len (metadata_options pdu) =? 0) then
    let* opts := lift (unwrap (options_iter pdu)) in
    store_options opts
  else ret tt.

Definition handle_metadata_pdu (raw : list Z) : M unit :=
  let* s := get state in
  if negb (bool_decide (s = StateIdle)) then throw RecvdMetadataButIsBusy
  else
    let* pdu := lift (map_err Pdu (metadata_from_bytes raw)) in
    let* _ := put (on_tparams tparams_reset) in
    let* _ := put_tstate (set_metadata_params (metadata_pdu_params pdu)) in
    let* cfg := get (fun h => get_remote_config (remote_table h) (ubf_value (conf_source_id (metadata_conf pdu)))) in
    let* cfg := lift (ok_or cfg (NoRemoteCfgFound (conf_dest_id (metadata_conf pdu)))) in
    let* _ := put (on_tparams (set_remote_cfg cfg)) in
    let* _ := set_names pdu in
    let* _ := set_options pdu in
    let* _ := put (set_state Busy) in
    put (set_step TransactionStart).

(** *** File data *)
Definition handle_file_data (raw : list Z) : M unit :=
  let* h := get (fun h => h) in
  if bool_decide (state h = StateIdle)
     || (negb (bool_decide (step h = ReceivingFileDataPdus))
         && negb (bool_decide (step h = ReceivingFileDataPdusWithCheckLimitHandling)))
  then throw WrongStateForFileDataAndEof
  else
    let* fd := lift (map_err Pdu (file_data_from_bytes raw)) in
    let* _ :=
      (if file_segment_recv (indication_cfg (local_cfg h)) then
         let* id := lift (unwrap (transaction_id (tstate (tparams h)))) in
         indicate (file_segment_recvd_indication
           (mkSegmentRecvd id (fd_offset fd) (len (fd_data fd)) (fd_segment_metadata fd)))
       else ret tt) in
    let* written := attempt (on_vfs (fun e => e)
      (write_data (dest_path_buf (file_properties (tparams h))) (fd_offset fd) (fd_data fd))) in
    match written with
    | Err e =>
        let* _ := declare_fault FilestoreRejection in
        throw (Filestore_ e)
    | _ =>
        let* p := get (fun h => progress (tstate (tparams h))) in
        let* p := lift (checked_add 64 p (len (fd_data fd))) in
        put_tstate (set_progress p)
    end.

(** *** End of file *)
Definition checksum_verify (expected : Z) : M bool :=
  let* p := get tparams in
  if bool_decide (checksum_type (metadata_params (tstate p)) = NullChecksum) || metadata_only (tstate p) then
    let* _ := put_tstate (set_delivery_code Complete) in
    let* _ := put_tstate (set_condition_code NoError) in
    ret true
  else
    let* v := get vfs in
    let '(r, buf) := Filestore.checksum_verify (dest_path_buf (file_properties p))
                       (checksum_type (metadata_params (tstate p))) expected v (cksum_buf p) in
    let* _ := put (on_tparams (set_cksum_buf buf)) in
    match r with
    | Ok checksum_success => ret checksum_success
    | Err (ChecksumTypeNotImplemented _) =>
        let* _ := declare_fault UnsupportedChecksumType in ret true
    | Err _ => let* _ := declare_fault FilestoreRejection in ret false
    | Panic => lift Panic
    end.

Definition file_transfer_complete_transition : M unit :=
  let* mode := get (fun h => transmission_mode_of (tparams h)) in
  if bool_decide (mode = Unacknowledged) then put (set_step TransferCompletion)
  else put (set_step SendingAckPdu).

Section Clock.
(** The clock the check timer looks at during the call. *)
Context (now : Ck).

Definition start_check_limit_handling : M unit :=
  let* _ := put (set_step ReceivingFileDataPdusWithCheckLimitHandling) in
  let* h := get (fun h => h) in
  let* cfg := lift (unwrap (remote_cfg (tparams h))) in
  let timer := get_check_timer_provider now (check_timer_creator h)
                 (CheckLimit (local_id (local_cfg h)) (entity_id cfg) Receiving) in
  put_tstate (set_check 0 (Some timer)).

(** The second alternative of the first conditional in the code is empty. *)
Definition handle_no_error_eof_pdu (eof : EofPdu) : M bool :=
  let* p := get (fun h => progress (tstate (tparams h))) in
  let* stop :=
    (if eof_file_size eof <? p then
       let* code := declare_fault FileSizeError in ret (negb (bool_decide (code = IgnoreError)))
     else ret false) in
  if stop then ret false
  else
    let* _ := put_tstate (set_checksum (file_checksum eof)) in
    let* mode := get (fun h => transmission_mode_of (tparams h)) in
    if bool_decide (mode = Unacknowledged) then
      let* c := get (fun h => checksum (tstate (tparams h))) in
      let* verified := checksum_verify c in
      if verified then ret true
      else
        let* code := declare_fault FileChecksumFailure in
        if negb (bool_decide (code = IgnoreError)) then ret false
        else let* _ := start_check_limit_handling in ret false
    else ret true.

(** [todo!()] is a panic. *)
Definition handle_eof_pdu (raw : list Z) : M unit :=
  let* h := get (fun h => h) in
  if bool_decide (state h = StateIdle) || negb (bool_decide (step h = ReceivingFileDataPdus))
  then throw WrongStateForFileDataAndEof
  else
    let* eof := lift (map_err Pdu (eof_from_bytes raw)) in
    let* _ :=
      (if eof_recv (indication_cfg (local_cfg h)) then
         let* id := lift (unwrap (transaction_id (tstate (tparams h)))) in
         indicate (eof_recvd_indication id)
       else ret tt) in
    let* regular_transfer_finish :=
      (if bool_decide (eof_condition_code eof = NoError) then handle_no_error_eof_pdu eof
       else lift Panic) in
    if regular_transfer_finish then file_transfer_complete_transition else ret tt.

Definition check_limit_handling : M unit :=
  let* s := get (fun h => tstate (tparams h)) in
  match current_check_timer s with
  | None => ret tt
  | Some check_timer =>
      if has_expired now check_timer then
        let* verified := checksum_verify (checksum s) in
        if verified then file_transfer_complete_transition
        else
          let* h := get (fun h => h) in
          let s := tstate (tparams h) in
          let* next := lift (checked_add 32 (current_check_count s) 1) in
          let* cfg := lift (unwrap (remote_cfg (tparams h))) in
          if check_limit cfg <=? next then
            let* _ := declare_fault CheckLimitReached in ret tt
          else
            let* timer := lift (unwrap (current_check_timer s)) in
            put_tstate (set_check next (Some (timer_reset now timer)))
      else ret tt
  end.

(** *** Packets *)
Definition handle_prompt_pdu (raw : list Z) : M unit := lift Panic.

Definition handle_file_directive (d : FileDirectiveType) (raw : list Z) : M unit :=
  match d with
  | EofPduType => handle_eof_pdu raw
  | FinishedPduType | NakPduType | KeepAlivePduType => throw (CantProcessPacketType d)
  | AckPduType => lift Panic
  | MetadataPduType => handle_metadata_pdu raw
  | PromptPduType => handle_prompt_pdu raw
  end.

Definition insert_packet (packet : PacketInfo) : M unit :=
  if negb (bool_decide (target packet = DestEntity)) then
    let* d := lift (unwrap (pdu_directive packet)) in throw (CantProcessPacketType d)
  else
    match pdu_type packet with
    | PduFileDirective =>
        match pdu_directive packet with
        | None => throw DirectiveExpected
        | Some d => handle_file_directive d (raw_packet packet)
        end
    | PduFileData => handle_file_data (raw_packet packet)
    end.

(** *** Start and end of a transaction *)

(** The loop over the stored messages to the user; every message has at least one
    byte, so [fuel] iterations are enough for a buffer of [fuel] bytes. *)
Fixpoint read_msgs (fuel : nat) (buf : list Z) (size index : Z) : option (list (list Z)) :=
  if index <? size then
    match fuel with
    | O => None
    | S fuel' =>
        if index <=? len buf then
          match msg_to_user_from_bytes (drop (Z.to_nat index) buf) with
          | Some msg =>
              match read_msgs fuel' buf size (index + msg_len_full msg) with
              | Some msgs => Some (msg_bytes msg :: msgs)
              | None => None
              end
          | None => None
          end
        else None
    end
  else Some [].

Definition transaction_start : M unit :=
  let* p := get tparams in
  let fp := file_properties p in
  let* raw_dest := lift (slice (dest_file_name fp) 0 (dest_file_name_len fp)) in
  let* dest_name := lift (map_err PathConversion (from_utf8 raw_dest)) in
  let* _ := put (on_tparams (set_file_properties
    (mkFileProps (src_file_name fp) (src_file_name_len fp) (dest_file_name fp) (dest_file_name_len fp) dest_name))) in
  let src_id := conf_source_id (pdu_conf p) in
  let id := mkTransactionId src_id (transaction_seq_num (pdu_conf p)) in
  let* raw_src := lift (slice (src_file_name fp) 0 (src_file_name_len fp)) in
  let* src_name := lift (map_err PathConversion (from_utf8 raw_src)) in
  let* msgs := lift (unwrap (read_msgs (Z.to_nat (msgs_to_user_size p)) (msgs_to_user_buf p) (msgs_to_user_size p) 0)) in
  let params := mkMetadataRecvd id src_id (file_size_of p) src_name dest_name msgs in
  let* _ := put_tstate (set_transaction_id id) in
  let* _ := indicate (metadata_recvd_indication params) in
  let* v := get vfs in
  let* path :=
    (if path_exists v dest_name && is_dir v dest_name then
       let* source_name := lift (ok_or (file_name src_name) PathConcat) in
       let path := path_push dest_name source_name in
       let* _ := put (on_tparams (set_file_properties
         (mkFileProps (src_file_name fp) (src_file_name_len fp) (dest_file_name fp) (dest_file_name_len fp) path))) in
       ret path
     else ret dest_name) in
  let* _ := on_vfs Filestore_ (if exists_ v path then truncate_file path else create_file path) in
  let* _ := put_tstate (set_file_status Retained) in
  put (set_step ReceivingFileDataPdus).

Definition notice_of_completion : M unit :=
  let* p := get tparams in
  let* _ :=
    (if bool_decide (completion_disposition (tstate p) = Completed) then ret tt
     else
       let* cfg := lift (unwrap (remote_cfg p)) in
       if disposition_on_cancellation cfg && bool_decide (delivery_code (tstate p) = Incomplete) then
         let* _ := on_vfs Filestore_ (remove_file (dest_path_buf (file_properties p))) in
         put_tstate (set_file_status DiscardDeliberately)
       else ret tt) in
  let* s := get (fun h => tstate (tparams h)) in
  let* id := lift (unwrap (transaction_id s)) in
  indicate (transaction_finished_indication
    (mkFinishedParams id (condition_code s) (delivery_code s) (file_status s))).

(** The Finished PDU of the current state. *)
Definition finished_pdu_of (h : Handler) : FinishedPdu :=
  let s := tstate (tparams h) in
  if bool_decide (condition_code s = NoError) || bool_decide (condition_code s = UnsupportedChecksumType)
  then mkFinishedPdu (pdu_conf (tparams h)) NoError (delivery_code s) (file_status s) None
  else mkFinishedPdu (pdu_conf (tparams h)) (condition_code s) (delivery_code s) (file_status s)
         (Some (local_id (local_cfg h))).

Definition send_finished_pdu : M Z :=
  let* h := get (fun h => h) in
  let finished_pdu := finished_pdu_of h in
  let* nb := lift (map_err Pdu (write_to_bytes (finished_writer finished_pdu) (packet_buf h))) in
  let* _ := put (set_packet_buf nb.2) in
  let* raw := lift (slice nb.2 0 (len_written (finished_writer finished_pdu))) in
  let* _ := (fun x =>
    let '(r, s) := send_pdu PduFileDirective (Some FinishedPduType) raw (packet_sender x.1) in
    (map_err Pdu r, (set_sender s x.1, x.2))) in
  ret 1.

Definition transfer_completion : M Z :=
  let* _ := notice_of_completion in
  let* p := get tparams in
  if bool_decide (transmission_mode_of p = Acknowledged) || closure_requested (metadata_params (tstate p)) then
    let* sent := send_finished_pdu in
    let* _ := put (set_step SendingFinishedPdu) in
    ret sent
  else
    let* _ := reset in
    ret 0.

(** *** The state machine *)

(** [if self.step == s { .. }] *)
Definition when_step {A} (s : TransactionStep) (m : M A) (skip : A) : M A :=
  let* s' := get step in if bool_decide (s' = s) then m else ret skip.

Definition fsm_busy : M Z :=
  let* _ := when_step TransactionStart transaction_start tt in
  let* _ := when_step ReceivingFileDataPdusWithCheckLimitHandling check_limit_handling tt in
  let* sent_packets := when_step TransferCompletion transfer_completion 0 in
  let* _ := when_step SendingAckPdu (lift Panic) tt in
  let* _ := when_step SendingFinishedPdu reset tt in
  ret sent_packets.

Definition state_machine (packet_to_insert : option PacketInfo) : M Z :=
  let* _ := match packet_to_insert with Some packet => insert_packet packet | None => ret tt end in
  let* s := get state in
  match s with
  | StateIdle => lift Panic
  | Busy => fsm_busy
  | Suspended => lift Panic
  end.

End Clock.
End Dest.
End Dest.

(** ** Documented behaviour of what the handler calls

    The parsers and the writer of [spacepackets] return errors; the value of an LV
    field has at most 255 bytes and a TLV at most 257; a PDU is written to the
    front of a buffer that is large enough.  Filestore and sender do not panic. *)
Class DestLaws (PduE Sd V : Type) `{PduOps PduE} `{CfdpPacketSender PduE Sd} `{VirtualFilestore V} : Prop := {
  metadata_no_panic : forall raw, metadata_from_bytes raw <> Panic;
  file_data_no_panic : forall raw, file_data_from_bytes raw <> Panic;
  eof_no_panic : forall raw, eof_from_bytes raw <> Panic;
  metadata_names : forall raw pdu, metadata_from_bytes raw = Ok pdu ->
    len (src_file_name_lv pdu) <= 255 /\ len (dest_file_name_lv pdu) <= 255;
  metadata_tlvs : forall raw pdu opts o d, metadata_from_bytes raw = Ok pdu ->
    options_iter pdu = Some opts -> o ∈ opts -> raw_data o = Some d -> len d <= 257;
  file_data_offset : forall raw fd, file_data_from_bytes raw = Ok fd -> 0 <= fd_offset fd;
  finished_write : forall p buf,
    match write_to_bytes (finished_writer p) buf with
    | Ok (n, buf') => length buf' = length buf /\ 0 <= len_written (finished_writer p) <= len buf
    | Err _ => True
    | Panic => False
    end;
  send_no_panic : forall d raw s, (send_pdu PduFileDirective d raw s).1 <> Panic;
  create_no_panic : forall p v, (create_file p v).1 <> Panic;
  truncate_no_panic : forall p v, (truncate_file p v).1 <> Panic;
  remove_no_panic : forall p v, (remove_file p v).1 <> Panic;
  write_no_panic : forall p off d v, (write_data p off d v).1 <> Panic;
  checksum_no_panic : forall p ct c v buf,
    (Filestore.checksum_verify p ct c v buf).1 <> Panic /\
    (length (Filestore.checksum_verify p ct c v buf).2 = length buf);
}.

(** ** Faults *)
Section Faults.
Context {F Sd V R C T : Type} `{UserFaultHandler F}.
Abbreviation Handler := (DestinationHandler F Sd V R C T).

Definition fault_code (fh : DefaultFaultHandler F) (c : ConditionCode) : FaultHandlerCode :=
  match FaultHandler.condition_code_to_array_index c with
  | Some i => default IgnoreError (handler_array fh !! Z.to_nat i)
  | None => IgnoreError
  end.

(** The user callback of a fault. *)
Definition fault_called (id : TransactionId) (c : ConditionCode) (p : Z) (fh : DefaultFaultHandler F)
    : DefaultFaultHandler F :=
  match FaultHandler.condition_code_to_array_index c with
  | Some _ =>
      mkFaultHandler (handler_array fh)
        ((match fault_code fh c with
          | NoticeOfCancellation => notice_of_cancellation_cb
          | NoticeOfSuspension => notice_of_suspension_cb
          | IgnoreError => ignore_cb
          | AbandonTransaction => abandoned_cb
          end) id c p (user_fault_handler fh))
  | None => fh
  end.

(** What the handler does about a fault. *)
Definition fault_action (code : FaultHandlerCode) (c : ConditionCode) (h : Handler) : Handler :=
  match code with
  | NoticeOfCancellation =>
      on_tparams (on_tstate (set_disposition Cancelled))
        (on_tparams (on_tstate (set_condition_code c)) (set_step TransferCompletion h))
  | AbandonTransaction => on_tparams tparams_reset (set_state StateIdle (set_step StepIdle h))
  | _ => h
  end.

Lemma get_fault_handler_eq {E} (fh : DefaultFaultHandler F) c :
  length (handler_array fh) = 10%nat ->
  FaultHandler.get_fault_handler (E:=E) c fh = Ok (fault_code fh c).
Proof.
  intros Hl. unfold FaultHandler.get_fault_handler, fault_code.
  destruct (FaultHandler.condition_code_to_array_index c) as [i|] eqn:Hi; [|done].
  pose proof (condition_index_range _ _ Hi).
  destruct (lookup_lt_is_Some_2 (handler_array fh) (Z.to_nat i)) as [x Hx]; [lia|].
  rewrite (index_ok _ _ x) by (lia || done). by rewrite Hx.
Qed.

Lemma report_fault_eq {E} id c p (fh : DefaultFaultHandler F) :
  length (handler_array fh) = 10%nat ->
  FaultHandler.report_fault (E:=E) id c p fh = (Ok (fault_code fh c), fault_called id c p fh).
Proof.
  intros Hl. pose proof (get_fault_handler_eq (E:=E) fh c Hl) as Hg.
  unfold FaultHandler.get_fault_handler, FaultHandler.report_fault, fault_called in *.
  destruct (FaultHandler.condition_code_to_array_index c) as [i|] eqn:Hi.
  - unfold st_bind, asks. rewrite Hg. done.
  - unfold fault_code. by rewrite Hi.
Qed.

End Faults.

Section DeclareFault.
Context {PduE F Sd V R C T U : Type} `{PduOps PduE} `{UserFaultHandler F}.

Lemma declare_fault_eq (c : ConditionCode) (h : DestinationHandler F Sd V R C T) (u : U) id :
  transaction_id (tstate (tparams h)) = Some id ->
  length (handler_array (default_fault_handler (local_cfg h))) = 10%nat ->
  let fh := default_fault_handler (local_cfg h) in
  Dest.declare_fault (PduE:=PduE) c (h, u) =
    (Ok (fault_code fh c),
     (set_fault_handler (fault_called id c (progress (tstate (tparams h))) fh)
        (fault_action (fault_code fh c) c h), u)).
Proof.
  intros Hid Hl fh. unfold Dest.declare_fault, st_bind, asks, Dest.get, gets. cbn [fst].
  rewrite Hid. cbn [unwrap]. fold fh. rewrite get_fault_handler_eq by done.
  destruct (fault_code fh c) eqn:Hc;
    cbn -[FaultHandler.report_fault]; fold fh; rewrite report_fault_eq by done; by rewrite Hc.
Qed.

End DeclareFault.

(** ** The invariant of the handler *)

Ltac wp_dest :=
  lazymatch goal with
  | |- wp (Dest.get _) _ _ _ _ => unfold Dest.get; wp_step
  | |- wp (Dest.put _) _ _ _ _ => unfold Dest.put; wp_step
  | |- wp (Dest.put_tstate _) _ _ _ _ => unfold Dest.put_tstate, Dest.put; wp_step
  | |- wp (Dest.indicate _) _ _ _ _ => unfold Dest.indicate; wp_step
  | _ => wp_step
  end; cbn [fst snd].
Section Invariant.
Context {PduE F Sd V R C T Ck U : Type}.
Context `{PduOps PduE} `{UserFaultHandler F} `{CfdpPacketSender PduE Sd} `{VirtualFilestore V}
  `{OsPaths V} `{RemoteEntityConfigProvider R} `{CheckTimerCreator Ck C T}
  `{CountdownProvider Ck T} `{CfdpUser U}.
Context {laws : DestLaws PduE Sd V}.

Abbreviation Handler := (DestinationHandler F Sd V R C T).
Implicit Types (h : Handler) (u : U) (now : Ck).

(** Sizes and ranges that never change.  No message to the user is ever stored:
    the buffer only takes messages of its own size, which a TLV cannot have. *)
Record core (h : Handler) : Prop := {
  core_src : length (src_file_name (file_properties (tparams h))) = 255%nat;
  core_src_len : 0 <= src_file_name_len (file_properties (tparams h)) <= 255;
  core_dest : length (dest_file_name (file_properties (tparams h))) = 255%nat;
  core_dest_len : 0 <= dest_file_name_len (file_properties (tparams h)) <= 255;
  core_cksum : length (cksum_buf (tparams h)) = 1024%nat;
  core_msgs : length (msgs_to_user_buf (tparams h)) = 1024%nat /\ msgs_to_user_size (tparams h) = 0;
  core_faults : length (handler_array (default_fault_handler (local_cfg h))) = 10%nat;
  core_progress : 0 <= progress (tstate (tparams h));
  core_count : 0 <= current_check_count (tstate (tparams h)) < 2 ^ 32 - 1;
  core_table : forall id cfg, get_remote_config (remote_table h) id = Some cfg -> in_u 32 (check_limit cfg);
  core_remote : forall cfg, remote_cfg (tparams h) = Some cfg -> in_u 32 (check_limit cfg);
}.

(** A transaction has begun. *)
Definition live (h : Handler) : Prop :=
  is_Some (transaction_id (tstate (tparams h))) /\ is_Some (remote_cfg (tparams h)).

(** The handler receives late file data for an incomplete file. *)
Definition checking (h : Handler) : Prop :=
  is_Some (current_check_timer (tstate (tparams h))) /\
  transmission_mode_of (tparams h) = Unacknowledged.

Definition busy_ok (h : Handler) : Prop :=
  match step h with
  | TransactionStart => is_Some (remote_cfg (tparams h))
  | ReceivingFileDataPdus | TransferCompletion => live h
  | ReceivingFileDataPdusWithCheckLimitHandling => live h /\ checking h
  | _ => False
  end.

Definition dest_inv (h : Handler) : Prop :=
  core h /\
  match state h with
  | StateIdle => True
  | Busy => busy_ok h
  | Suspended => False
  end.

(** Some fault makes the handler abandon the transaction. *)
Definition abandons (h : Handler) : Prop :=
  AbandonTransaction ∈ handler_array (default_fault_handler (local_cfg h)).

(** What a fault may do to the handler. *)
Record moved (h h' : Handler) : Prop := {
  moved_state : state h' = state h \/ state h' = StateIdle /\ abandons h;
  moved_step : step h' = step h \/ step h' = TransferCompletion \/ step h' = StepIdle /\ state h' = StateIdle;
  moved_array : handler_array (default_fault_handler (local_cfg h')) =
                handler_array (default_fault_handler (local_cfg h));
  moved_id : transaction_id (tstate (tparams h')) = transaction_id (tstate (tparams h));
  moved_conf : pdu_conf (tparams h') = pdu_conf (tparams h);
  moved_remote : remote_cfg (tparams h') = remote_cfg (tparams h);
  moved_timer : current_check_timer (tstate (tparams h')) = current_check_timer (tstate (tparams h));
  moved_count : current_check_count (tstate (tparams h')) = current_check_count (tstate (tparams h));
}.

Lemma moved_refl h : moved h h.
Proof. constructor; auto. Qed.

Lemma moved_trans h1 h2 h3 : moved h1 h2 -> moved h2 h3 -> moved h1 h3.
Proof.
  intros [A1 A2 A3 A4 A5 A6 A7 A8] [B1 B2 B3 B4 B5 B6 B7 B8]. constructor; try congruence.
  - unfold abandons in *. rewrite <- A3. destruct A1 as [A1|[A1 Ha]], B1 as [B1|[B1 Hb]]; auto;
      rewrite A1 in B1; rewrite ?A3 in *; auto.
  - destruct B2 as [B2|[B2|B2]]; auto. rewrite B2. destruct A2 as [A2|[A2|[A2 A2']]]; auto.
    right. right. split; [done|]. destruct B1 as [B1|[B1 _]]; congruence.
Qed.

Lemma moved_live h h' : moved h h' -> live h -> live h'.
Proof. intros [] []. unfold live. split; congruence. Qed.

Lemma fault_action_moved id c p h :
  core h ->
  let fh := default_fault_handler (local_cfg h) in
  let h' := set_fault_handler (fault_called id c p fh) (fault_action (fault_code fh c) c h) in
  core h' /\ moved h h'.
Proof.
  intros Hc fh h'.
  assert (Harr : handler_array (fault_called id c p fh) = handler_array fh).
  { unfold fault_called. by destruct (FaultHandler.condition_code_to_array_index c). }
  assert (Hab : fault_code fh c = AbandonTransaction -> abandons h).
  { unfold fault_code, abandons. destruct (FaultHandler.condition_code_to_array_index c); [|done].
    destruct (handler_array fh !! Z.to_nat z) eqn:Hl; simpl; [|done]. intros ->.
    by eapply list_elem_of_lookup_2. }
  destruct Hc. subst h'. split.
  - constructor; destruct (fault_code fh c); simpl; rewrite ?Harr; auto.
  - constructor; destruct (fault_code fh c); simpl; rewrite ?Harr; auto.
Qed.

(** A fault, as a step of a computation. *)
Lemma wp_declare_fault c (Q : FaultHandlerCode -> Handler * U -> Prop) (E : Handler * U -> Prop) N h u :
  core h -> live h ->
  (forall h', core h' -> moved h h' -> live h' ->
     Q (fault_code (default_fault_handler (local_cfg h)) c) (h', u)) ->
  wp (Dest.declare_fault (PduE:=PduE) c) Q E N (h, u).
Proof.
  intros Hc Hl HQ. pose proof Hl as [[id Hid] _]. unfold wp.
  rewrite (declare_fault_eq c h u id Hid (core_faults _ Hc)).
  destruct (fault_action_moved id c (progress (tstate (tparams h))) h Hc) as [Hc' Hm].
  apply HQ; auto. by apply (moved_live h).
Qed.

Lemma wp_checksum_verify expected (Q : bool -> Handler * U -> Prop) (E : Handler * U -> Prop) N h u :
  core h -> live h ->
  (forall b h', core h' -> moved h h' -> live h' -> Q b (h', u)) ->
  wp (Dest.checksum_verify (PduE:=PduE) expected) Q E N (h, u).
Proof.
  intros Hc Hl HQ. unfold Dest.checksum_verify.
  do 2 wp_dest. cbn [fst].
  assert (Hset : forall f : TransferState T -> TransferState T,
    (forall s, transaction_id (f s) = transaction_id s /\ progress (f s) = progress s /\
       current_check_count (f s) = current_check_count s /\ current_check_timer (f s) = current_check_timer s) ->
    forall h, core h -> moved h (on_tparams (on_tstate f) h) /\ core (on_tparams (on_tstate f) h)).
  { intros f Hf h0 Hc0. destruct (Hf (tstate (tparams h0))) as (F1 & F2 & F3 & F4).
    split; [by constructor; simpl; auto|]. destruct Hc0. constructor; simpl; auto; by rewrite ?F2, ?F3. }
  case_match.
  - repeat wp_dest. cbn [fst snd].
    destruct (Hset (set_delivery_code Complete) ltac:(done) h Hc) as [M1 C1].
    destruct (Hset (set_condition_code NoError) ltac:(done) _ C1) as [M2 C2].
    pose proof (moved_trans _ _ _ M1 M2). apply HQ; eauto using moved_live.
  - do 2 wp_dest. cbn [fst snd].
    destruct (checksum_no_panic (DestLaws:=laws) (dest_path_buf (file_properties (tparams h)))
      (checksum_type (metadata_params (tstate (tparams h)))) expected (vfs h) (cksum_buf (tparams h))) as [Hn Hlen].
    destruct (Filestore.checksum_verify _ _ _ _ _) as [r buf]. cbn [fst snd] in *.
    do 2 wp_dest. cbn [fst snd].
    set (h1 := on_tparams (set_cksum_buf buf) h).
    assert (C1 : core h1) by (destruct Hc; constructor; simpl; auto; congruence).
    assert (M1 : moved h h1) by (constructor; simpl; auto).
    assert (L1 : live h1) by eauto using moved_live.
    destruct r as [b|[]|]; [wp_dest; auto| | | | | | | | | |done].
    all: wp_dest; apply wp_declare_fault; auto; intros h' C2 M2 L2; wp_dest;
      apply HQ; eauto using moved_trans.
Qed.

(** The calls the handler does not support: [todo!()] in the code, or an
    [unwrap] of what is not there. *)
Inductive unsupported (h : Handler) : option PacketInfo -> Prop :=
| unsupported_idle : state h = StateIdle -> unsupported h None
| unsupported_info p : target p <> DestEntity -> pdu_directive p = None -> unsupported h (Some p)
| unsupported_directive p d :
    pdu_directive p = Some d -> d = AckPduType \/ d = PromptPduType -> unsupported h (Some p)
| unsupported_cancel p eof :
    pdu_directive p = Some EofPduType -> eof_from_bytes (raw_packet p) = Ok eof ->
    eof_condition_code eof <> NoError -> unsupported h (Some p)
| unsupported_acknowledged p :
    pdu_directive p = Some EofPduType -> transmission_mode_of (tparams h) = Acknowledged ->
    unsupported h (Some p)
| unsupported_abandon p :
    pdu_directive p = Some EofPduType -> abandons h -> unsupported h (Some p)
| unsupported_message p pdu :
    pdu_directive p = Some MetadataPduType -> metadata_from_bytes (raw_packet p) = Ok pdu ->
    match options_iter pdu with
    | None => True
    | Some opts => exists o, o ∈ opts /\ is_standard_tlv o = true /\ tlv_is_msg_to_user o <> Some false
    end -> unsupported h (Some p)
| unsupported_progress p fd :
    file_data_from_bytes (raw_packet p) = Ok fd ->
    2 ^ 64 <= progress (tstate (tparams h)) + len (fd_data fd) -> unsupported h (Some p).

(** *** Metadata *)
Lemma set_name_core h fp :
  core h -> length (src_file_name fp) = 255%nat -> 0 <= src_file_name_len fp <= 255 ->
  length (dest_file_name fp) = 255%nat -> 0 <= dest_file_name_len fp <= 255 ->
  core (on_tparams (set_file_properties fp) h).
Proof. intros [] ????. constructor; simpl; auto. Qed.

Lemma wp_set_src_name name (Q : unit -> Handler * U -> Prop) (E : Handler * U -> Prop) N h u :
  core h -> len name <= 255 ->
  (forall fp, core (on_tparams (set_file_properties fp) h) -> Q tt (on_tparams (set_file_properties fp) h, u)) ->
  wp (Dest.set_src_name (PduE:=PduE) name) Q E N (h, u).
Proof.
  intros Hc Hn HQ. unfold Dest.set_src_name. do 2 wp_dest. cbn [fst snd].
  pose proof (core_src _ Hc). do 2 wp_dest.
  rewrite copy_into_ok by (pose proof (len_nonneg name); unfold len in *; lia).
  wp_dest. apply HQ. destruct Hc. apply set_name_core; simpl; auto.
  - by constructor.
  - rewrite length_splice; unfold len in *; lia.
  - unfold len in *; lia.
Qed.

Lemma wp_set_dest_name name (Q : unit -> Handler * U -> Prop) (E : Handler * U -> Prop) N h u :
  core h -> len name <= 255 ->
  (forall fp, core (on_tparams (set_file_properties fp) h) -> Q tt (on_tparams (set_file_properties fp) h, u)) ->
  wp (Dest.set_dest_name (PduE:=PduE) name) Q E N (h, u).
Proof.
  intros Hc Hn HQ. unfold Dest.set_dest_name. do 2 wp_dest. cbn [fst snd].
  pose proof (core_dest _ Hc). do 2 wp_dest.
  rewrite copy_into_ok by (pose proof (len_nonneg name); unfold len in *; lia).
  wp_dest. apply HQ. destruct Hc. apply set_name_core; simpl; auto.
  - by constructor.
  - rewrite length_splice; unfold len in *; lia.
  - unfold len in *; lia.
Qed.

(** Options other than messages to the user are skipped. *)
Lemma wp_store_options opts (Q : unit -> Handler * U -> Prop) (E : Handler * U -> Prop) (N : Prop) h u :
  core h ->
  (forall o d, o ∈ opts -> raw_data o = Some d -> len d <= 257) ->
  ((exists o, o ∈ opts /\ is_standard_tlv o = true /\ tlv_is_msg_to_user o <> Some false) -> N) ->
  Q tt (h, u) ->
  wp (Dest.store_options (PduE:=PduE) opts) Q E N (h, u).
Proof.
  intros Hc. induction opts as [|o opts IH]; intros Hd HN HQ; cbn [Dest.store_options].
  - by wp_dest.
  - assert (HN' : is_standard_tlv o = true -> tlv_is_msg_to_user o <> Some false -> N).
    { intros. apply HN. exists o. split; [by left|done]. }
    assert (IH' : wp (Dest.store_options (PduE:=PduE) opts) Q E N (h, u)).
    { apply IH; [intros; eapply Hd; eauto; by right| |done].
      intros (o' & Ho' & Hr). apply HN. exists o'. split; [by right|done]. }
    wp_dest. destruct (is_standard_tlv o); [|by repeat wp_dest].
    wp_dest. destruct (tlv_is_msg_to_user o) as [[]|] eqn:Hm; cbn [unwrap];
      [|by repeat wp_dest|by apply HN'].
    do 3 wp_dest. destruct (raw_data o) as [d|] eqn:Hr; cbn [unwrap]; [|by apply HN'].
    do 2 wp_dest. cbn [fst]. do 2 wp_dest.
    pose proof (Hd o d ltac:(by left) Hr). destruct (core_msgs _ Hc) as [Hb _].
    unfold copy_into. rewrite slice_ok by (unfold len; lia). cbn [res_bind].
    rewrite decide_False; [by apply HN'|].
    rewrite length_take, length_drop. unfold len in *. lia.
Qed.

Lemma reset_core h : core h -> core (on_tparams tparams_reset h).
Proof. intros []. constructor; simpl; auto. Qed.

Lemma dest_inv_idle h : core h -> state h = StateIdle -> dest_inv h.
Proof. intros Hc Hs. split; [done|]. by rewrite Hs. Qed.

(** The handler between the checks of a Metadata PDU. *)
Definition opening (h : Handler) : Prop :=
  core h /\ state h = StateIdle /\ is_Some (remote_cfg (tparams h)).

Lemma opening_inv h : opening h -> dest_inv h.
Proof. intros (Hc & Hs & _). by apply dest_inv_idle. Qed.

Lemma wp_set_names pdu (N : Prop) h u :
  opening h -> len (src_file_name_lv pdu) <= 255 -> len (dest_file_name_lv pdu) <= 255 ->
  wp (Dest.set_names (PduE:=PduE) pdu) (fun _ x => opening x.1 /\ x.2 = u) (fun x => dest_inv x.1) N (h, u).
Proof.
  intros Ho Hs Hd. unfold Dest.set_names.
  apply wp_bind, wp_mono with (Q := fun _ x => opening x.1 /\ x.2 = u) (E := fun x => dest_inv x.1) (N := N);
    [|clear h Ho; intros _ [h u'] [Ho Hu]; cbn [fst snd] in *; subst u'|done|done].
  { case_match; wp_dest; [|done]. split; [|done]. destruct Ho as (Hc & Hi & Hr).
    split_and!; [destruct Hc; by constructor|done|done]. }
  do 2 wp_dest. cbn [fst].
  case_match; [wp_dest; by apply opening_inv|].
  case_match; [wp_dest; by apply opening_inv|].
  destruct Ho as (Hc & Hi & Hr). case_match; [|by wp_dest].
  wp_dest. apply wp_set_src_name; [done|done|]. intros fp Hc3.
  case_match; [wp_dest; by apply dest_inv_idle|].
  wp_dest. apply wp_set_dest_name; [done|done|]. intros fp' Hc4.
  do 3 wp_dest. split; [|done]. split_and!; [|done|done].
  destruct Hc4. constructor; simpl; auto. by destruct core_msgs0.
Qed.

Lemma wp_set_options pdu raw p h u :
  opening h -> metadata_from_bytes raw = Ok pdu ->
  forall h0, pdu_directive p = Some MetadataPduType -> raw_packet p = raw ->
  wp (Dest.set_options (PduE:=PduE) pdu) (fun _ x => opening x.1) (fun x => dest_inv x.1)
    (unsupported h0 (Some p)) (h, u).
Proof.
  intros Ho Hm h0 Hp Hr. unfold Dest.set_options. case_match; [|by wp_dest]. do 2 wp_dest.
  assert (Hu : match options_iter pdu with
    | None => True
    | Some opts => exists o, o ∈ opts /\ is_standard_tlv o = true /\ tlv_is_msg_to_user o <> Some false
    end -> unsupported h0 (Some p)).
  { intros. eapply unsupported_message; [done|by rewrite Hr|done]. }
  destruct (options_iter pdu) as [opts|] eqn:Ho'; cbn [unwrap]; [|by apply Hu].
  pose proof Ho as (Hc & _). apply wp_store_options; auto.
  intros o d Hin Hd. by eapply (metadata_tlvs raw pdu).
Qed.

Lemma handle_metadata_inv raw p h u :
  dest_inv h -> pdu_directive p = Some MetadataPduType -> raw_packet p = raw ->
  wp (Dest.handle_metadata_pdu (PduE:=PduE) raw) (fun _ x => dest_inv x.1 /\ state x.1 = Busy)
    (fun x => dest_inv x.1) (unsupported h (Some p)) (h, u).
Proof.
  intros [Hc Hs] Hp Hr. unfold Dest.handle_metadata_pdu.
  do 2 wp_dest. cbn [fst].
  destruct (decide (state h = StateIdle)) as [Hi|Hi];
    [rewrite bool_decide_eq_true_2 by done; cbn [negb]
    |rewrite bool_decide_eq_false_2 by done; cbn [negb]; by wp_dest]. do 2 wp_dest.
  destruct (metadata_from_bytes raw) as [pdu|e|] eqn:Hm; cbn [map_err];
    [|by apply dest_inv_idle|by destruct (metadata_no_panic (DestLaws:=laws) raw)].
  destruct (metadata_names raw pdu Hm) as [Hsrc Hdest].
  do 8 wp_dest. cbn [fst snd].
  set (h1 := on_tparams _ _). assert (Hc1 : core h1) by (destruct Hc; by constructor).
  assert (Hi1 : state h1 = StateIdle) by done.
  change (remote_table h1) with (remote_table h). clearbody h1.
  destruct (get_remote_config (remote_table h) _) as [cfg|] eqn:Hg; cbn [ok_or]; [|by apply dest_inv_idle].
  do 3 wp_dest. cbn [fst snd].
  eapply wp_mono; [apply wp_set_names; auto|intros _ [h3 u3] [Ho3 Hu3]; cbn [fst snd] in *; subst u3|done|done].
  { split_and!; [|done|done]. destruct Hc1. constructor; simpl; auto.
    intros ? [= <-]. by eapply (core_table _ Hc). }
  wp_dest. eapply wp_mono; [by eapply wp_set_options|intros _ [h4 ?] (Hc4 & Hi4 & Hr4)|done|done].
  do 3 wp_dest. split; [|done]. split; [destruct Hc4; by constructor|done].
Qed.

(** *** File data *)
Lemma wp_on_vfs {E' A} (f : FilestoreError -> E') (m : st V FilestoreError A)
    (Q : A -> Handler * U -> Prop) (E : Handler * U -> Prop) (N : Prop) h u :
  (m (vfs h)).1 <> Panic ->
  (forall a v, (m (vfs h)) = (Ok a, v) -> Q a (set_vfs v h, u)) ->
  (forall e v, (m (vfs h)) = (Err e, v) -> E (set_vfs v h, u)) ->
  wp (Dest.on_vfs f m) Q E N (h, u).
Proof.
  intros Hn HQ HE. unfold wp, Dest.on_vfs. cbn [fst].
  destruct (m (vfs h)) as [[a|e|] v]; [by apply HQ|by eapply HE|done].
Qed.

Lemma wp_attempt_vfs {E' A} (m : st V FilestoreError A)
    (Q : res FilestoreError A -> Handler * U -> Prop) (E : Handler * U -> Prop) (N : Prop) h u :
  (m (vfs h)).1 <> Panic ->
  (forall r v, r <> Panic -> Q r (set_vfs v h, u)) ->
  wp (attempt (F:=E') (Dest.on_vfs (fun e => e) m)) Q E N (h, u).
Proof.
  intros Hn HQ. unfold wp, attempt, Dest.on_vfs. cbn [fst].
  destruct (m (vfs h)) as [[a|e|] v]; [by apply (HQ (Ok a))|by apply (HQ (Err e))|done].
Qed.

Lemma set_vfs_inv v h : dest_inv h -> dest_inv (set_vfs v h).
Proof. intros [Hc Hs]. split; [destruct Hc; by constructor|exact Hs]. Qed.

Lemma busy_moved h h' :
  core h' -> moved h h' -> state h = Busy ->
  (step h = ReceivingFileDataPdus /\ live h \/
   step h = ReceivingFileDataPdusWithCheckLimitHandling /\ live h /\ checking h) ->
  dest_inv h'.
Proof.
  intros Hc Hm Hs Hst.
  assert (Hl : live h) by (by destruct Hst as [[]|(? & ? & ?)]).
  pose proof (moved_live _ _ Hm Hl) as Hl'. split; [done|].
  destruct (moved_state _ _ Hm) as [Hs'|[-> _]]; [|done]. rewrite Hs', Hs. unfold busy_ok.
  destruct (moved_step _ _ Hm) as [Hst'|[Hst'|[_ Hi]]]; [|by rewrite Hst'|congruence].
  rewrite Hst'. destruct Hst as [[-> _]|(-> & _ & Ht & Hmode)]; [done|].
  split; [done|]. unfold checking, transmission_mode_of. destruct Hm. by rewrite moved_timer0, moved_conf0.
Qed.

Lemma handle_file_data_inv raw p h u :
  dest_inv h -> raw_packet p = raw ->
  wp (Dest.handle_file_data (PduE:=PduE) raw)
    (fun _ x => dest_inv x.1 /\ state x.1 = Busy) (fun x => dest_inv x.1) (unsupported h (Some p)) (h, u).
Proof.
  intros Hinv Hr. pose proof Hinv as [Hc Hs]. unfold Dest.handle_file_data. do 2 wp_dest.
  destruct (bool_decide (state h = StateIdle) || _) eqn:Hg; [by wp_dest|].
  apply orb_false_iff in Hg as [Hi%bool_decide_eq_false Hst].
  assert (Hb : state h = Busy) by (by destruct (state h)). rewrite Hb in Hs.
  assert (Hstep : step h = ReceivingFileDataPdus /\ live h \/
     step h = ReceivingFileDataPdusWithCheckLimitHandling /\ live h /\ checking h).
  { unfold busy_ok in Hs. destruct (step h); try done; auto. }
  assert (Hl : live h) by (by destruct Hstep as [[]|(? & ? & ?)]).
  do 2 wp_dest. destruct (file_data_from_bytes raw) as [fd|e|] eqn:Hfd; cbn [map_err];
    [|done|by destruct (file_data_no_panic (DestLaws:=laws) raw)].
  apply (wp_cut (fun _ x => x.1 = h)).
  { case_match; [|by wp_dest]. do 2 wp_dest. destruct Hl as [[id ->] _]. cbn [unwrap]. by wp_dest. }
  intros _ [h0 u'] Hh. cbn [fst] in Hh. subst h0.
  wp_dest. apply wp_attempt_vfs; [apply write_no_panic|]. intros r v Hp.
  assert (Hc' : core (set_vfs v h)) by (destruct Hc; by constructor).
  destruct r as [a|e|]; [| |done].
  - do 4 wp_dest. unfold checked_add. destruct (_ <? _) eqn:Hlt.
    + wp_dest. split; [|done]. pose proof (core_progress _ Hc). pose proof (len_nonneg (fd_data fd)).
      split; [destruct Hc'; constructor; simpl; auto; lia|]. simpl. rewrite Hb. exact Hs.
    + eapply unsupported_progress; [by rewrite Hr|]. simpl in Hlt. lia.
  - wp_dest. apply wp_declare_fault; [done|done|]. intros h' Hc2 Hm _. wp_dest.
    by apply (busy_moved (set_vfs v h)).
Qed.

(** *** End of file *)
Lemma start_check_inv now (Q : unit -> Handler * U -> Prop) (E : Handler * U -> Prop) N h u :
  core h -> live h ->
  (forall h', core h' -> live h' -> state h' = state h -> pdu_conf (tparams h') = pdu_conf (tparams h) ->
     step h' = ReceivingFileDataPdusWithCheckLimitHandling ->
     is_Some (current_check_timer (tstate (tparams h'))) -> Q tt (h', u)) ->
  wp (Dest.start_check_limit_handling (PduE:=PduE) now) Q E N (h, u).
Proof.
  intros Hc Hl HQ. unfold Dest.start_check_limit_handling. do 6 wp_dest.
  pose proof Hl as [_ [cfg Hcfg]]. simpl. rewrite Hcfg. cbn [unwrap]. wp_dest.
  apply HQ; auto. destruct Hc. constructor; simpl; auto. lia.
Qed.

(** After an EOF: the transfer goes on, is cancelled or waits for late data. *)
Definition after_eof (h h' : Handler) (finish : bool) : Prop :=
  core h' /\ live h' /\ transmission_mode_of (tparams h') = transmission_mode_of (tparams h) /\
  (state h' = StateIdle /\ abandons h \/ state h' = Busy /\ (finish = false -> busy_ok h')).

Lemma moved_after_eof h h' b :
  core h' -> moved h h' -> state h = Busy -> step h = ReceivingFileDataPdus -> live h -> after_eof h h' b.
Proof.
  intros Hc Hm Hs Hst Hl. unfold after_eof, transmission_mode_of. rewrite (moved_conf _ _ Hm).
  destruct (busy_moved h h' Hc Hm Hs (or_introl (conj Hst Hl))) as [_ Hi].
  split_and!; [done|by apply (moved_live h)|done|].
  destruct (moved_state _ _ Hm) as [Hs'|[Hs' Ha]]; [right|by left].
  rewrite Hs' in *. by rewrite Hs in *.
Qed.

Lemma wp_handle_no_error_eof now eof (N : Prop) h u :
  core h -> live h -> state h = Busy -> step h = ReceivingFileDataPdus ->
  wp (Dest.handle_no_error_eof_pdu (PduE:=PduE) now eof)
    (fun b x => after_eof h x.1 b) (fun _ => False) N (h, u).
Proof.
  intros Hc Hl Hs Hst. unfold Dest.handle_no_error_eof_pdu. do 2 wp_dest.
  apply (wp_cut (fun _ x => core x.1 /\ moved h x.1 /\ live x.1)).
  { case_match; [|wp_dest; auto using moved_refl].
    wp_dest. apply wp_declare_fault; [done|done|]. intros h1 Hc1 Hm1 Hl1. by wp_dest. }
  intros stop [h1 u1] (Hc1 & Hm1 & Hl1). cbn [fst] in *.
  destruct stop; [wp_dest; by apply moved_after_eof|].
  do 4 wp_dest. set (h2 := on_tparams _ h1).
  assert (Hc2 : core h2) by (destruct Hc1; by constructor).
  assert (Hm2 : moved h h2) by (apply (moved_trans _ h1); [done|by constructor; simpl; auto]).
  assert (Hl2 : live h2) by done. clearbody h2.
  destruct (decide (transmission_mode_of (tparams h2) = Unacknowledged)) as [Hmode|Hmode];
    [rewrite bool_decide_eq_true_2 by done
    |rewrite bool_decide_eq_false_2 by done; wp_dest; by apply moved_after_eof].
  do 3 wp_dest. apply wp_checksum_verify; [done|done|]. intros b h3 Hc3 Hm3 Hl3.
  pose proof (moved_trans _ _ _ Hm2 Hm3) as Hm3'.
  destruct b; [wp_dest; by apply moved_after_eof|].
  wp_dest. apply wp_declare_fault; [done|done|]. intros h4 Hc4 Hm4 Hl4.
  pose proof (moved_trans _ _ _ Hm3' Hm4) as Hm4'.
  case_match; [wp_dest; by apply moved_after_eof|].
  wp_dest. apply start_check_inv; [done|done|]. intros h5 Hc5 Hl5 Hs5 Hp5 Hst5 Ht5. wp_dest.
  unfold after_eof, busy_ok, checking, transmission_mode_of in *.
  rewrite Hp5, Hs5, Hst5, (moved_conf _ _ Hm4') in *. rewrite (moved_conf _ _ Hm2) in Hmode.
  destruct (moved_state _ _ Hm4') as [->|[-> Ha]]; auto 10.
Qed.

Lemma file_transfer_complete_eq h u :
  Dest.file_transfer_complete_transition (PduE:=PduE) (h, u) =
    (Ok tt, (set_step (match transmission_mode_of (tparams h) with
                       | Unacknowledged => TransferCompletion | Acknowledged => SendingAckPdu end) h, u)).
Proof. unfold Dest.file_transfer_complete_transition, st_bind, Dest.get, gets. cbn [fst].
  by destruct (transmission_mode_of (tparams h)). Qed.

(** The state machine ends in a [todo!()]. *)
Definition stuck (h : Handler) : Prop := state h = StateIdle \/ state h = Busy /\ step h = SendingAckPdu.

(** Inserting an EOF leaves a handler that can go on, or is unsupported. *)
Lemma handle_eof_inv now raw p h u :
  dest_inv h -> pdu_directive p = Some EofPduType -> raw_packet p = raw ->
  wp (Dest.handle_eof_pdu (PduE:=PduE) now raw)
    (fun _ x => dest_inv x.1 /\ state x.1 = Busy \/ stuck x.1 /\ unsupported h (Some p))
    (fun x => dest_inv x.1) (unsupported h (Some p)) (h, u).
Proof.
  intros Hinv Hp Hr. pose proof Hinv as [Hc Hs]. unfold Dest.handle_eof_pdu. do 2 wp_dest.
  destruct (bool_decide (state h = StateIdle) || _) eqn:Hg; [by wp_dest|].
  apply orb_false_iff in Hg as [Hi%bool_decide_eq_false Hst%negb_false_iff%bool_decide_eq_true].
  assert (Hb : state h = Busy) by (by destruct (state h)).
  rewrite Hb in Hs. unfold busy_ok in Hs. rewrite Hst in Hs.
  do 2 wp_dest. destruct (eof_from_bytes raw) as [eof|e|] eqn:He; cbn [map_err];
    [|done|by destruct (eof_no_panic (DestLaws:=laws) raw)].
  apply (wp_cut (fun _ x => x.1 = h)).
  { case_match; [|by wp_dest]. do 2 wp_dest. destruct Hs as [[id ->] _]. cbn [unwrap]. by wp_dest. }
  intros _ [h0 u'] Hh. cbn [fst] in Hh. subst h0.
  apply (wp_cut (fun b x => after_eof h x.1 b)).
  { destruct (decide (eof_condition_code eof = NoError)) as [Hn|Hn];
      [rewrite bool_decide_eq_true_2 by done|rewrite bool_decide_eq_false_2 by done].
    - eapply wp_mono; [by apply wp_handle_no_error_eof|done|done|done].
    - wp_dest. eapply unsupported_cancel; [done|by rewrite Hr|done]. }
  intros fin [h1 u1] (Hc1 & Hl1 & Hm1 & Hcase). cbn [fst] in *.
  destruct Hcase as [[Hi1 Ha]|[Hb1 Hok]].
  { destruct fin; unfold wp; rewrite ?file_transfer_complete_eq; right;
      (split; [by left|by eapply unsupported_abandon]). }
  destruct fin; [|wp_dest; left; split; [split; [done|rewrite Hb1; auto]|done]].
  unfold wp. rewrite file_transfer_complete_eq. rewrite Hm1.
  destruct (transmission_mode_of (tparams h)) eqn:Hmode; [|left].
  { right. split; [by right|by eapply unsupported_acknowledged]. }
  cbn [fst]. split; [|done]. split; [destruct Hc1; by constructor|]. simpl. rewrite Hb1. exact Hl1.
Qed.

(** *** The check limit *)
Definition after_check (h : Handler) : Prop :=
  core h /\ live h /\ state h <> Suspended /\
  (step h = TransferCompletion \/ step h = StepIdle /\ state h = StateIdle \/
   step h = ReceivingFileDataPdusWithCheckLimitHandling /\ checking h).

Lemma moved_after_check h h' :
  core h' -> moved h h' -> live h' -> state h = Busy ->
  step h = ReceivingFileDataPdusWithCheckLimitHandling -> checking h -> after_check h'.
Proof.
  intros Hc Hm Hl Hs Hst [Ht Hmode]. split_and!; [done|done| |].
  - destruct (moved_state _ _ Hm) as [->|[-> _]]; congruence.
  - unfold checking, transmission_mode_of in *. rewrite (moved_conf _ _ Hm), (moved_timer _ _ Hm).
    destruct (moved_step _ _ Hm) as [->|[->|[-> ->]]]; auto.
Qed.

Lemma wp_check_limit_handling now N h u :
  core h -> live h -> state h = Busy -> step h = ReceivingFileDataPdusWithCheckLimitHandling -> checking h ->
  wp (Dest.check_limit_handling (PduE:=PduE) now) (fun _ x => after_check x.1) (fun _ => False) N (h, u).
Proof.
  intros Hc Hl Hs Hst Hch. unfold Dest.check_limit_handling. do 2 wp_dest.
  destruct (current_check_timer (tstate (tparams h))) as [t|] eqn:Ht; [|destruct Hch as [[? ?] _]; congruence].
  destruct (has_expired now t); [|wp_dest; eapply moved_after_check; eauto using moved_refl].
  wp_dest. apply wp_checksum_verify; [done|done|]. intros b h1 Hc1 Hm1 Hl1.
  pose proof (moved_after_check _ _ Hc1 Hm1 Hl1 Hs Hst Hch) as (_ & _ & Hsus & Hcase).
  destruct b.
  - unfold wp. rewrite file_transfer_complete_eq. unfold transmission_mode_of. rewrite (moved_conf _ _ Hm1).
    destruct Hch as [_ Hmode]. unfold transmission_mode_of in Hmode. rewrite Hmode. cbn [fst].
    split_and!; [destruct Hc1; by constructor|done|done|by left].
  - do 4 wp_dest. pose proof (core_count _ Hc1) as Hcount. unfold checked_add.
    rewrite (proj2 (Z.ltb_lt _ _)) by lia. do 2 wp_dest.
    pose proof Hl1 as [_ [cfg Hcfg]]. rewrite Hcfg. cbn [unwrap].
    destruct (_ <=? _) eqn:Hlim.
    + wp_dest. apply wp_declare_fault; [done|done|]. intros h2 Hc2 Hm2 Hl2. wp_dest.
      apply (moved_after_check h); auto. by apply (moved_trans _ h1).
    + do 2 wp_dest. rewrite (moved_timer _ _ Hm1), Ht. cbn [unwrap]. wp_dest.
      pose proof (core_remote _ Hc1 cfg Hcfg) as Hu. unfold in_u in Hu.
      split_and!; [|done|done|].
      * destruct Hc1. constructor; simpl; auto. lia.
      * destruct Hcase as [Hcase|[Hcase|[Hcase [_ Hmode]]]]; [by left|by right; left|right; right].
        split; [exact Hcase|]. split; [done|exact Hmode].
Qed.

(** *** Start of a transaction *)
Lemma wp_transaction_start N h u :
  core h -> state h = Busy -> step h = TransactionStart -> is_Some (remote_cfg (tparams h)) ->
  wp (Dest.transaction_start (PduE:=PduE))
    (fun _ x => core x.1 /\ live x.1 /\ state x.1 = Busy /\ step x.1 = ReceivingFileDataPdus)
    (fun x => dest_inv x.1) N (h, u).
Proof.
  intros Hc Hs Hst Hr.
  assert (Herr : forall h', core h' -> state h' = Busy -> step h' = TransactionStart ->
    is_Some (remote_cfg (tparams h')) -> dest_inv h').
  { intros h' Hc' Hs' Hst' Hr'. split; [done|]. rewrite Hs'. unfold busy_ok. by rewrite Hst'. }
  unfold Dest.transaction_start. do 4 wp_dest.
  pose proof Hc as [C1 C2 C3 C4 C5 [C6 C6'] C7 C8 C9 C10 C11].
  rewrite slice_ok by (unfold len; lia). do 2 wp_dest.
  destruct (from_utf8 _) as [dest_name|e|] eqn:Hu; cbn [map_err];
    [|by apply Herr|unfold from_utf8 in Hu; by case_match].
  do 4 wp_dest. set (h1 := on_tparams _ h).
  assert (Hc1 : core h1) by (constructor; simpl; auto).
  rewrite slice_ok by (unfold len; lia). do 2 wp_dest.
  destruct (from_utf8 (take (Z.to_nat (src_file_name_len _ - 0)) _)) as [src_name|e|] eqn:Hu'; cbn [map_err];
    [|by apply Herr|unfold from_utf8 in Hu'; by case_match].
  do 2 wp_dest. rewrite C6'. change (Z.to_nat 0) with 0%nat. cbn [Dest.read_msgs]. change (0 <? 0) with false. cbn [unwrap].
  do 4 wp_dest. do 2 wp_dest. set (h2 := on_tparams _ h1).
  assert (Hc2 : core h2) by (destruct Hc1; by constructor).
  assert (Hl2 : live h2) by done.
  assert (Hs2 : state h2 = Busy) by done. assert (Hst2 : step h2 = TransactionStart) by done.
  apply (wp_cut (fun _ x => core x.1 /\ live x.1 /\ state x.1 = Busy /\ step x.1 = TransactionStart)).
  { case_match; [|by wp_dest]. do 2 wp_dest.
    destruct (file_name src_name); cbn [ok_or]; [|by apply Herr].
    do 3 wp_dest. split; [|done]. apply set_name_core; simpl; auto. }
  clearbody h2. generalize (vfs h2). clear h2 Hc2 Hl2 Hs2 Hst2.
  intros v0 path [h3 u3] (Hc3 & Hl3 & Hs3 & Hst3). cbn [fst] in *. wp_dest.
  apply wp_on_vfs; [case_match; [apply truncate_no_panic|apply create_no_panic]|intros _ v _|intros e v _].
  - do 3 wp_dest. split_and!; [destruct Hc3; by constructor|done|done|done].
  - apply set_vfs_inv, Herr; try done. apply Hl3.
Qed.

(** *** Completion *)

(** [h'] is [h] up to the filestore, the sender, its buffer and the file status. *)
Record finishing (h h' : Handler) : Prop := {
  fin_core : core h';
  fin_live : live h';
  fin_state : state h' = state h;
  fin_step : step h' = step h;
}.

Lemma wp_notice_of_completion N h u :
  core h -> live h ->
  wp (Dest.notice_of_completion (PduE:=PduE))
    (fun _ x => finishing h x.1) (fun x => finishing h x.1) N (h, u).
Proof.
  intros Hc Hl. unfold Dest.notice_of_completion. do 2 wp_dest.
  apply (wp_cut (fun _ x => finishing h x.1)).
  - case_match; [by wp_dest|]. do 2 wp_dest. pose proof Hl as [_ [cfg ->]]. cbn [unwrap].
    case_match; [|by wp_dest]. wp_dest.
    apply wp_on_vfs; [apply remove_no_panic|intros _ v _|intros e v _].
    + wp_dest. constructor; [destruct Hc; by constructor|done..].
    + constructor; [destruct Hc; by constructor|done..].
  - intros _ [h1 u1] [Hc1 Hl1 Hs1 Hst1]. cbn [fst] in *. do 4 wp_dest.
    pose proof Hl1 as [[id ->] _]. cbn [unwrap]. by wp_dest.
Qed.

Lemma wp_send_finished_pdu N h u :
  core h -> live h ->
  wp (Dest.send_finished_pdu (PduE:=PduE))
    (fun _ x => finishing h x.1) (fun x => finishing h x.1) N (h, u).
Proof.
  intros Hc Hl. unfold Dest.send_finished_pdu. do 4 wp_dest.
  pose proof (finished_write (DestLaws:=laws) (Dest.finished_pdu_of h) (packet_buf h)) as Hw.
  destruct (write_to_bytes _ _) as [[n buf]|e|]; cbn [map_err]; [|by constructor|done].
  destruct Hw as [Hlen Hn]. do 4 wp_dest. rewrite slice_ok by (unfold len in *; lia).
  wp_dest. unfold wp at 1. cbn [fst snd].
  match goal with |- context [send_pdu ?a ?b ?c ?d] =>
    pose proof (send_no_panic (DestLaws:=laws) b c d); destruct (send_pdu a b c d) as [[[]|e|] s'] end;
    cbn [fst map_err] in *; [wp_dest| |done].
  all: constructor; [destruct Hc; by constructor|done..].
Qed.

Lemma wp_transfer_completion N h u :
  core h -> live h ->
  wp (Dest.transfer_completion (PduE:=PduE))
    (fun _ x => core x.1 /\
       (step x.1 = SendingFinishedPdu \/ step x.1 = StepIdle /\ state x.1 = StateIdle))
    (fun x => finishing h x.1) N (h, u).
Proof.
  intros Hc Hl. unfold Dest.transfer_completion. wp_dest.
  eapply wp_mono; [by apply wp_notice_of_completion| |done|done].
  intros _ [h1 u1] [Hc1 Hl1 Hs1 Hst1]. cbn [fst] in *. do 2 wp_dest. case_match.
  - wp_dest. eapply wp_mono; [by apply wp_send_finished_pdu| | |done].
    + intros n [h2 u2] [Hc2 Hl2 Hs2 Hst2]. cbn [fst] in *. do 3 wp_dest.
      split; [destruct Hc2; by constructor|by left].
    + intros [h2 u2] [Hc2 Hl2 Hs2 Hst2]. cbn [fst] in *. constructor; congruence.
  - wp_dest. unfold Dest.reset. do 6 wp_dest. split; [|by right]. destruct Hc1; by constructor.
Qed.

(** *** The state machine *)
Lemma wp_when_step {A} s (m : st (Handler * U) (DestError PduE) A) skip Q E N h u :
  (step h = s -> wp m Q E N (h, u)) -> (step h <> s -> Q skip (h, u)) ->
  wp (Dest.when_step s m skip) Q E N (h, u).
Proof. intros H1' H2'. unfold Dest.when_step. do 2 wp_dest. case_bool_decide; [auto|wp_dest; auto]. Qed.

Lemma fsm_busy_inv now N h u :
  dest_inv h -> state h = Busy ->
  wp (Dest.fsm_busy (PduE:=PduE) now) (fun _ x => dest_inv x.1) (fun x => dest_inv x.1) N (h, u).
Proof.
  intros [Hc Hi] Hs. rewrite Hs in Hi. unfold Dest.fsm_busy.
  apply (wp_cut (fun _ x => core x.1 /\ busy_ok x.1 /\ state x.1 = Busy /\ step x.1 <> TransactionStart)).
  { apply wp_when_step; [intros Hst|done].
    eapply wp_mono; [apply wp_transaction_start; auto|intros _ [h1 u1] (Hc1 & Hl1 & Hs1 & Hst1)|done|done].
    - unfold busy_ok in Hi. by rewrite Hst in Hi.
    - cbn [fst] in *. unfold busy_ok. by rewrite Hst1. }
  clear h u Hc Hi Hs. intros _ [h u] (Hc & Hi & Hs & Hst). cbn [fst] in *.
  apply (wp_cut (fun _ x => after_check x.1 \/ dest_inv x.1 /\ step x.1 = ReceivingFileDataPdus)).
  { apply wp_when_step; [intros Hst'|intros Hst'].
    - unfold busy_ok in Hi. rewrite Hst' in Hi. destruct Hi as [Hl Hch].
      eapply wp_mono; [by apply wp_check_limit_handling|by left|done|done].
    - assert (Hi' := Hi). unfold busy_ok in Hi. destruct (step h) eqn:Hsh; try done.
      + right. split; [|done]. split; [done|]. cbn [fst]. by rewrite Hs.
      + left. split_and!; [done|done|cbn [fst]; congruence|by left]. }
  clear h u Hc Hi Hs Hst. intros _ [h u] Hcase. cbn [fst] in *.
  apply (wp_cut (fun _ x => core x.1 /\ (step x.1 = SendingFinishedPdu \/ dest_inv x.1) /\ step x.1 <> SendingAckPdu)).
  { apply wp_when_step; [intros Hst|intros Hst].
    - destruct Hcase as [(Hc & Hl & Hsus & _)|[_ ?]]; [|congruence].
      eapply wp_mono; [by apply wp_transfer_completion| | |done].
      + intros n [h1 u1] [Hc1 Hcase1]. cbn [fst] in *. split; [done|].
        destruct Hcase1 as [->|[Hst1 Hs1]]; [auto|]. rewrite Hst1. split; [right; by apply dest_inv_idle|done].
      + intros [h1 u1] [Hc1 Hl1 Hs1 Hst1]. cbn [fst] in *. split; [done|]. rewrite Hs1.
        destruct (state h); [done| |done]. unfold busy_ok. by rewrite Hst1, Hst.
    - cbn [fst]. destruct Hcase as [(Hc & Hl & Hsus & [?|[[Hst' Hs]|[Hst' Hch]]])|[Hinv Hst']]; [done| | |].
      + split; [done|]. rewrite Hst'. split; [right; by apply dest_inv_idle|done].
      + split; [done|]. rewrite Hst'. split; [right|done]. split; [done|].
        destruct (state h); [done| |done]. unfold busy_ok. by rewrite Hst'.
      + split; [apply Hinv|]. rewrite Hst'. auto. }
  clear h u Hcase. intros n [h u] (Hc & Hcase & Hack). cbn [fst] in *.
  wp_dest. apply wp_when_step; [done|intros _].
  wp_dest. apply wp_when_step; [intros Hst|intros Hst].
  - unfold Dest.reset. do 6 wp_dest. apply dest_inv_idle; [destruct Hc; by constructor|done].
  - wp_dest. by destruct Hcase.
Qed.

Lemma insert_packet_inv now p h u :
  dest_inv h ->
  wp (Dest.insert_packet (PduE:=PduE) now p)
    (fun _ x => dest_inv x.1 /\ state x.1 = Busy \/ stuck x.1 /\ unsupported h (Some p))
    (fun x => dest_inv x.1) (unsupported h (Some p)) (h, u).
Proof.
  intros Hinv. unfold Dest.insert_packet.
  destruct (decide (target p = DestEntity)) as [Ht|Ht];
    [rewrite bool_decide_eq_true_2 by done|rewrite bool_decide_eq_false_2 by done]; cbn [negb].
  - destruct (pdu_type p).
    + destruct (pdu_directive p) as [d|] eqn:Hd; [|by wp_dest].
      destruct d; unfold Dest.handle_file_directive, Dest.handle_prompt_pdu.
      * by apply handle_eof_inv.
      * by wp_dest.
      * wp_dest. eapply unsupported_directive; [done|by left].
      * eapply wp_mono; [by eapply handle_metadata_inv|by left|done|done].
      * by wp_dest.
      * wp_dest. eapply unsupported_directive; [done|by right].
      * by wp_dest.
    + eapply wp_mono; [by eapply handle_file_data_inv| |done|done]. auto.
  - do 2 wp_dest. destruct (pdu_directive p) eqn:Hd; cbn [unwrap]; [by wp_dest|].
    by apply unsupported_info.
Qed.

Lemma state_machine_inv now p h u :
  dest_inv h ->
  wp (Dest.state_machine (PduE:=PduE) now p) (fun _ x => dest_inv x.1) (fun x => dest_inv x.1)
    (unsupported h p) (h, u).
Proof.
  intros Hinv. unfold Dest.state_machine.
  apply (wp_cut (fun _ x => dest_inv x.1 /\ state x.1 = Busy \/ stuck x.1 /\ unsupported h p)).
  { destruct p as [p|]; [by apply insert_packet_inv|]. wp_dest.
    destruct (state h) eqn:Hs; [right; split; [by left|by constructor]|by left|].
    destruct Hinv as [_ Hi]. by rewrite Hs in Hi. }
  intros _ [h1 u1] [[Hinv1 Hs1]|[Hst Huns]]; cbn [fst] in *; do 2 wp_dest.
  - rewrite Hs1. by apply fsm_busy_inv.
  - destruct Hst as [->|[-> Hst]]; [by wp_dest|]. unfold Dest.fsm_busy.
    do 3 (wp_dest; apply wp_when_step; [congruence|intros _]).
    wp_dest. apply wp_when_step; [by intros _|congruence].
Qed.

End Invariant.
