(* ===== verification/CfdpTransfer.v ===== *)
(** * File transfers ([satrs/src/cfdp/dest.rs])

    What the destination handler achieves over a sequence of calls: its invariant
    on all reachable states, when it panics, that a file arrives whole in
    whatever order its segments come, and that the check limit ends a transfer
    whose data never arrive. *)

From Stdlib Require Import ZArith Lia Bool.
From stdpp Require Import base list gmap.
From S2P Require Import Prelude Spacepackets Filestore Cfdp CfdpDest.
Import Upd.

Local Open Scope Z_scope.

Section Transfer.
Context {PduE F Sd V R C T Ck U : Type}.
Context `{PduOps PduE} `{UserFaultHandler F} `{CfdpPacketSender PduE Sd} `{VirtualFilestore V}
  `{OsPaths V} `{RemoteEntityConfigProvider R} `{CheckTimerCreator Ck C T}
  `{CountdownProvider Ck T} `{CfdpUser U}.

Abbreviation Handler := (DestinationHandler F Sd V R C T).
Abbreviation M := (st (Handler * U) (DestError PduE)).
Implicit Types (h : Handler) (u : U) (now : Ck).

(** ** Reachable states *)

(** The handlers a program can have: fresh ones and those after a call that
    returned, with whatever packet, clock and user. *)
Inductive reachable : Handler -> Prop :=
| reach_new local max_packet_len sender v table creator :
    length (handler_array (default_fault_handler local)) = 10%nat ->
    (forall id cfg, get_remote_config table id = Some cfg -> in_u 32 (check_limit cfg)) ->
    reachable (Dest.new (PduE:=PduE) local max_packet_len sender v table creator)
| reach_call now p h u r h' u' :
    reachable h -> Dest.state_machine (PduE:=PduE) now p (h, u) = (r, (h', u')) -> r <> Panic ->
    reachable h'.

Lemma new_inv local max_packet_len sender v table creator :
  length (handler_array (default_fault_handler local)) = 10%nat ->
  (forall id cfg, get_remote_config table id = Some cfg -> in_u 32 (check_limit cfg)) ->
  dest_inv (Dest.new (PduE:=PduE) local max_packet_len sender v table creator : Handler).
Proof. intros Hf Ht. apply dest_inv_idle; [|done]. constructor; simpl; auto; done || lia. Qed.

Lemma reachable_inv {laws : DestLaws PduE Sd V} h : reachable h -> dest_inv h.
Proof.
  induction 1 as [|now p h u r h' u' _ IH Hr Hp]; [by apply new_inv|].
  pose proof (state_machine_inv now p h u IH) as Hw. unfold wp in Hw. rewrite Hr in Hw.
  by destruct r.
Qed.

(** ** Receiving a file *)

(** A sequence of calls; the numbers of packets they sent. *)
Fixpoint calls (now : Ck) (ps : list (option PacketInfo)) : M (list Z) :=
  match ps with
  | [] => ret []
  | p :: ps' =>
      let* n := Dest.state_machine now p in
      let* ns := calls now ps' in
      ret (n :: ns)
  end.

Lemma calls_app_eq now ps qs x ns x' :
  calls now ps x = (Ok ns, x') ->
  calls now (ps ++ qs) x = (let* ms := calls now qs in ret (ns ++ ms)) x'.
Proof.
  revert x ns. induction ps as [|p ps IH]; intros x ns Hc; cbn [calls app] in *.
  - injection Hc as <- <-. unfold st_bind, ret. simpl. by destruct (calls now qs x) as [[]].
  - unfold st_bind in *. destruct (Dest.state_machine now p x) as [[n|e|] x1]; [|done|done].
    destruct (calls now ps x1) as [[ms|e|] x2] eqn:Hc1; [|done|done].
    unfold ret in Hc. injection Hc as <- <-. rewrite (IH x1 ms Hc1).
    by destruct (calls now qs x2) as [[]].
Qed.

Lemma calls_reachable now ps h u r h' u' :
  reachable h -> calls now ps (h, u) = (r, (h', u')) -> r <> Panic -> reachable h'.
Proof.
  revert h u r h' u'. induction ps as [|p ps IH]; intros h u r h' u' Hh Hc Hp; cbn [calls] in Hc.
  - by injection Hc as <- <- <-.
  - unfold st_bind in Hc. destruct (Dest.state_machine now p (h, u)) as [[n|e|] [h1 u1]] eqn:He.
    + assert (Hh1 : reachable h1) by (by eapply reach_call).
      destruct (calls now ps (h1, u1)) as [[ns|e|] [h2 u2]] eqn:Hc1;
        [eapply (IH h1 u1 (Ok ns))|eapply (IH h1 u1 (Err e))|]; try done; by injection Hc as <- <- <-.
    + injection Hc as <- <- <-. by eapply reach_call.
    + by injection Hc as <- <- <-.
Qed.

Context {spec : VfsSpec V}.

(** The transaction [id] receives into the file [path] in step [s]: so far the
    file is [data], of which [n] bytes came.  [h0] is the handler when the
    transaction began. *)
Record receiving (h0 : Handler) (s : TransactionStep) (id : TransactionId) (mp : MetadataGenericParams)
    (cfg : RemoteEntityConfig) (conf : CommonPduConfig) (path data : list Z) (n : Z) (h : Handler) : Prop := {
  rec_core : core h;
  rec_state : state h = Busy;
  rec_step : step h = s;
  rec_id : transaction_id (tstate (tparams h)) = Some id;
  rec_params : metadata_params (tstate (tparams h)) = mp;
  rec_remote : remote_cfg (tparams h) = Some cfg;
  rec_conf : pdu_conf (tparams h) = conf;
  rec_path : dest_path_buf (file_properties (tparams h)) = path;
  rec_contents : contents (vfs h) path = Some data;
  rec_usable : usable (vfs h) path;
  rec_frame : forall q, ~ same_file path q -> contents (vfs h) q = contents (vfs h0) q;
  rec_progress : progress (tstate (tparams h)) = n;
  rec_only : metadata_only (tstate (tparams h)) = false;
  rec_condition : condition_code (tstate (tparams h)) = NoError;
  rec_delivery : delivery_code (tstate (tparams h)) = Incomplete;
  rec_status : file_status (tstate (tparams h)) = Retained;
  rec_disposition : completion_disposition (tstate (tparams h)) = Completed;
  rec_local : local_cfg h = local_cfg h0;
  rec_sender : packet_sender h = packet_sender h0;
  rec_buf : packet_buf h = packet_buf h0;
  rec_creator : check_timer_creator h = check_timer_creator h0;
}.

(** An idle handler that has nothing left of an earlier transfer. *)
Record fresh (h : Handler) : Prop := {
  fresh_core : core h;
  fresh_state : state h = StateIdle;
  fresh_progress : progress (tstate (tparams h)) = 0;
  fresh_only : metadata_only (tstate (tparams h)) = false;
  fresh_disposition : completion_disposition (tstate (tparams h)) = Completed;
}.

(** A packet the handler takes as Metadata, File Data or EOF PDU. *)
Definition directive (d : FileDirectiveType) (raw : list Z) : option PacketInfo :=
  Some (mkPacketInfo PduFileDirective (Some d) DestEntity raw).

Definition file_data (raw : list Z) : option PacketInfo :=
  Some (mkPacketInfo PduFileData None DestEntity raw).

(** *** Metadata *)

(** The destination is a file, or can be created. *)
Definition destination_ok (v : V) (path : list Z) : Prop :=
  (exists f, contents v path = Some f) /\ usable v path \/ exists_ v path = false /\ creatable v path.

(** A Metadata PDU that asks for an unacknowledged transfer to [path]. *)
Record offers (h : Handler) (pdu : MetadataPdu) (cfg : RemoteEntityConfig) : Prop := {
  offer_remote :
    get_remote_config (remote_table h) (ubf_value (conf_source_id (metadata_conf pdu))) = Some cfg;
  offer_src : src_file_name_lv pdu <> [] /\ len (src_file_name_lv pdu) <= 255 /\
    utf8_error 0 (src_file_name_lv pdu) = None;
  offer_dest : dest_file_name_lv pdu <> [] /\ len (dest_file_name_lv pdu) <= 255 /\
    utf8_error 0 (dest_file_name_lv pdu) = None;
  offer_options : metadata_options pdu = [];
  offer_mode : trans_mode (metadata_conf pdu) = Unacknowledged;
  offer_file : destination_ok (vfs h) (dest_file_name_lv pdu);
}.

Definition id_of (pdu : MetadataPdu) : TransactionId :=
  mkTransactionId (conf_source_id (metadata_conf pdu)) (transaction_seq_num (metadata_conf pdu)).

Definition metadata_indication_of (pdu : MetadataPdu) : MetadataReceivedParams :=
  mkMetadataRecvd (id_of pdu) (conf_source_id (metadata_conf pdu)) (file_size (metadata_pdu_params pdu))
    (src_file_name_lv pdu) (dest_file_name_lv pdu) [].

Lemma slice_name (buf name : list Z) :
  len name <= len buf -> slice (E:=DestError PduE) (splice buf 0 name) 0 (len name) = Ok name.
Proof.
  intros Hl. apply (slice_splice_same buf 0 name); lia.
Qed.

(** The handler after the Metadata PDU was taken. *)
Lemma handle_metadata_offer h u raw pdu cfg :
  fresh h -> offers h pdu cfg -> metadata_from_bytes raw = Ok pdu ->
  exists h', Dest.handle_metadata_pdu raw (h, u) = (Ok tt, (h', u)) /\
    core h' /\ state h' = Busy /\ step h' = TransactionStart /\
    metadata_params (tstate (tparams h')) = metadata_pdu_params pdu /\
    remote_cfg (tparams h') = Some cfg /\ pdu_conf (tparams h') = metadata_conf pdu /\
    slice (E:=DestError PduE) (src_file_name (file_properties (tparams h'))) 0
      (src_file_name_len (file_properties (tparams h'))) = Ok (src_file_name_lv pdu) /\
    slice (E:=DestError PduE) (dest_file_name (file_properties (tparams h'))) 0
      (dest_file_name_len (file_properties (tparams h'))) = Ok (dest_file_name_lv pdu) /\
    progress (tstate (tparams h')) = 0 /\ metadata_only (tstate (tparams h')) = false /\
    condition_code (tstate (tparams h')) = NoError /\ delivery_code (tstate (tparams h')) = Incomplete /\
    completion_disposition (tstate (tparams h')) = Completed /\ msgs_to_user_size (tparams h') = 0 /\
    local_cfg h' = local_cfg h /\ packet_sender h' = packet_sender h /\ packet_buf h' = packet_buf h /\
    check_timer_creator h' = check_timer_creator h /\ vfs h' = vfs h.
Proof.
  intros [Hc Hs Hp Ho Hd] [Hg (Hs1 & Hs2 & Hs3) (Hd1 & Hd2 & Hd3) Hop Hm Hf] Hpdu.
  pose proof Hc as [C1 C2 C3 C4 C5 [C6 C6'] C7 C8 C9 C10 C11].
  assert (Es : (len (src_file_name_lv pdu) =? 0) = false)
    by (destruct (src_file_name_lv pdu); [done|]; unfold len; simpl; lia).
  assert (Ed : (len (dest_file_name_lv pdu) =? 0) = false)
    by (destruct (dest_file_name_lv pdu); [done|]; unfold len; simpl; lia).
  pose proof (len_nonneg (src_file_name_lv pdu)). pose proof (len_nonneg (dest_file_name_lv pdu)).
  eexists. split.
  { unfold Dest.handle_metadata_pdu, Dest.set_names, Dest.set_options, Dest.set_src_name, Dest.set_dest_name,
      Dest.put_tstate, Dest.put, Dest.get, st_bind, gets, modify_state, lift, ret, throw. cbn [fst snd].
    rewrite Hs, bool_decide_eq_true_2 by done. cbn. rewrite Hpdu. cbn. rewrite Hg. cbn. rewrite Es, Ed. cbn. rewrite Ho. cbn.
    rewrite copy_into_ok by (unfold len in *; lia). cbn.
    rewrite copy_into_ok by (unfold len in *; lia). cbn. rewrite Hop. cbn. reflexivity. }
  split.
  { constructor; simpl; auto; try lia.
    - rewrite length_splice; unfold len in *; lia.
    - rewrite length_splice; unfold len in *; lia.
    - intros ? [= <-]. eauto. }
  simpl. split_and!; auto; apply slice_name; unfold len in *; lia.
Qed.

(** Opening the destination file: it exists and is emptied, or it is created. *)
Lemma open_destination v path :
  destination_ok v path ->
  (path_exists v path && is_dir v path) = false /\
  exists v', (if exists_ v path then truncate_file path v else create_file path v) = (Ok tt, v') /\
    updates v v' path (Some []) /\ usable v' path.
Proof.
  intros [[[f Hf] Hu]|[Hx Hcr]].
  - split.
    { rewrite is_dir_spec, is_file_spec, bool_decide_eq_true_2 by (by rewrite Hf). apply andb_false_r. }
    rewrite (exists_spec v path) by (by rewrite Hf).
    destruct (truncate_spec v path f Hf Hu) as (v' & He & Hup). exists v'.
    split_and!; [done|done|]. by apply Hup.
  - split; [by rewrite path_exists_spec, Hx|]. rewrite Hx.
    destruct (create_spec v path Hx Hcr) as (v' & He & Hup & Hu). by exists v'.
Qed.

Lemma from_utf8_ok l : utf8_error 0 l = None -> from_utf8 l = Ok l.
Proof. unfold from_utf8. by intros ->. Qed.

Lemma on_vfs_eq {E' A} (f : FilestoreError -> E') (m : st V FilestoreError A) h u a v :
  m (vfs h) = (Ok a, v) -> Dest.on_vfs f m (h, u) = (Ok a, (set_vfs v h, u)).
Proof. intros Hm. unfold Dest.on_vfs. cbn [fst snd]. by rewrite Hm. Qed.

(** A call with the Metadata PDU opens the transaction. *)
Lemma metadata_call now h u raw pdu cfg :
  fresh h -> offers h pdu cfg -> metadata_from_bytes raw = Ok pdu ->
  exists h', Dest.state_machine now (directive MetadataPduType raw) (h, u) =
      (Ok 0, (h', metadata_recvd_indication (metadata_indication_of pdu) u)) /\
    receiving h ReceivingFileDataPdus (id_of pdu) (metadata_pdu_params pdu) cfg (metadata_conf pdu)
      (dest_file_name_lv pdu) [] 0 h'.
Proof.
  intros Hf Ho Hpdu.
  destruct (handle_metadata_offer h u raw pdu cfg Hf Ho Hpdu)
    as (h1 & He & Hc & Hs & Hst & Hmp & Hr & Hconf & Hsrc & Hdest & Hp & Hon & Hcc & Hdc & Hcd & Hms & Hlo & Hse & Hbu & Hcr & Hv).
  destruct Ho as [_ (_ & _ & Hsu) (_ & _ & Hdu) _ _ Hfile]. rewrite <- Hv in Hfile.
  destruct (open_destination _ _ Hfile) as (Hnd & v' & Hop & (Hcon & Hfr & Hus) & Hu').
  eexists. split.
  { unfold Dest.state_machine, directive, Dest.insert_packet. cbn [target pdu_type pdu_directive raw_packet].
    rewrite bool_decide_eq_true_2 by done. cbn [negb]. unfold Dest.handle_file_directive.
    unfold st_bind at 1. rewrite He. unfold st_bind at 1, Dest.get, gets. cbn [fst]. rewrite Hs.
    unfold Dest.fsm_busy, st_bind at 1, Dest.when_step. unfold st_bind at 1, Dest.get, gets. cbn [fst].
    rewrite Hst, bool_decide_eq_true_2 by done.
    unfold Dest.transaction_start, Dest.put_tstate, Dest.put, Dest.get, Dest.indicate, st_bind, gets, modify_state, lift, ret.
    cbn [fst snd]. rewrite Hdest, (from_utf8_ok _ Hdu). cbn [map_err fst snd].
    rewrite Hsrc, (from_utf8_ok _ Hsu). cbn [map_err fst snd].
    rewrite Hms. change (Z.to_nat 0) with 0%nat. cbn [Dest.read_msgs]. change (0 <? 0) with false. cbn [unwrap fst snd].
    change (vfs (on_tparams _ _)) with (vfs h1). rewrite Hnd.
    unfold Dest.on_vfs. cbn [fst snd]. change (vfs (on_tparams _ _)) with (vfs h1).
    replace ((if exists_ (vfs h1) (dest_file_name_lv pdu) then truncate_file (dest_file_name_lv pdu)
              else create_file (dest_file_name_lv pdu)) (vfs h1)) with (@Ok FilestoreError unit tt, v')
      by (by destruct (exists_ (vfs h1) (dest_file_name_lv pdu))).
    cbn. rewrite Hconf. unfold file_size_of. rewrite Hmp. reflexivity. }
  pose proof Hc as [C1 C2 C3 C4 C5 C6 C7 C8 C9 C10 C11].
  constructor; simpl; try done; try congruence; rewrite <- ?Hv; auto.
Qed.

(** *** File data *)

Definition segment_indication (h : Handler) (id : TransactionId) (fd : FileDataPdu) (u : U) : U :=
  if file_segment_recv (indication_cfg (local_cfg h))
  then file_segment_recvd_indication
         (mkSegmentRecvd id (fd_offset fd) (len (fd_data fd)) (fd_segment_metadata fd)) u
  else u.

(** The handler takes file data, and no timer makes it do anything else. *)
Definition accepts_data (s : TransactionStep) (timer : option T) (now : Ck) : Prop :=
  s = ReceivingFileDataPdus \/
  s = ReceivingFileDataPdusWithCheckLimitHandling /\ forall t, timer = Some t -> has_expired now t = false.

(** The state of the check limit procedure. *)
Definition check_state (h : Handler) : Z * Z * option T :=
  let s := tstate (tparams h) in (checksum s, current_check_count s, current_check_timer s).

Lemma when_step_skip {A} s (m : M A) skip h u :
  step h <> s -> Dest.when_step s m skip (h, u) = (Ok skip, (h, u)).
Proof.
  intros Hs. unfold Dest.when_step, st_bind, Dest.get, gets. cbn [fst].
  by rewrite bool_decide_eq_false_2 by done.
Qed.

Lemma when_step_take {A} s (m : M A) skip h u :
  step h = s -> Dest.when_step s m skip (h, u) = m (h, u).
Proof.
  intros Hs. unfold Dest.when_step, st_bind, Dest.get, gets. cbn [fst].
  by rewrite bool_decide_eq_true_2 by done.
Qed.

Lemma bind_ok {A B} (m : M A) (k : A -> M B) x a x' : m x = (Ok a, x') -> st_bind m k x = k a x'.
Proof. unfold st_bind. by intros ->. Qed.

(** A step of the state machine that does not apply. *)
Ltac skip_step := erewrite bind_ok; [|apply when_step_skip; simpl; congruence].

Lemma fsm_busy_receiving now h u :
  accepts_data (step h) (check_state h).2 now ->
  Dest.fsm_busy (PduE:=PduE) now (h, u) = (Ok 0, (h, u)).
Proof.
  intros [Hs|[Hs Ht]]; unfold Dest.fsm_busy; skip_step.
  - by do 4 skip_step.
  - rewrite (bind_ok _ _ _ tt (h, u)); [by do 3 skip_step|]. rewrite when_step_take by done.
    unfold Dest.check_limit_handling. erewrite bind_ok; [|done]. cbn [fst].
    unfold check_state in Ht. cbn [snd] in Ht.
    destruct (current_check_timer (tstate (tparams h))); [by rewrite Ht|done].
Qed.

Lemma segment_call now h0 h u s id mp cfg conf path data n raw fd :
  receiving h0 s id mp cfg conf path data n h -> accepts_data s (check_state h).2 now ->
  file_data_from_bytes raw = Ok fd -> 0 <= fd_offset fd < 2 ^ 63 -> n + len (fd_data fd) < 2 ^ 64 ->
  exists h', Dest.state_machine now (file_data raw) (h, u) = (Ok 0, (h', segment_indication h id fd u)) /\
    receiving h0 s id mp cfg conf path (Os.write_at data (fd_offset fd) (fd_data fd)) (n + len (fd_data fd)) h' /\
    check_state h' = check_state h.
Proof.
  intros Hrec Hacc Hfd Hoff Hn. pose proof Hrec as [].
  destruct (write_spec (vfs h) path data (fd_offset fd) (fd_data fd) rec_contents0 rec_usable0 Hoff)
    as (v' & Hw & Hcon & Hfr & Hus).
  assert (Hstep : bool_decide (state h = StateIdle)
     || negb (bool_decide (step h = ReceivingFileDataPdus))
         && negb (bool_decide (step h = ReceivingFileDataPdusWithCheckLimitHandling)) = false).
  { rewrite rec_state0, rec_step0. by destruct Hacc as [->|[-> _]]. }
  set (h' := on_tparams (on_tstate (set_progress (n + len (fd_data fd)))) (set_vfs v' h)).
  assert (He : Dest.handle_file_data (PduE:=PduE) raw (h, u) = (Ok tt, (h', segment_indication h id fd u))).
  { unfold Dest.handle_file_data. unfold st_bind at 1, Dest.get at 1, gets. cbn [fst]. rewrite Hstep.
    unfold st_bind at 1, lift. rewrite Hfd. cbn [map_err].
    unfold st_bind at 1. unfold segment_indication.
    destruct (file_segment_recv (indication_cfg (local_cfg h))).
    - unfold st_bind at 1. rewrite rec_id0. cbn [unwrap]. unfold Dest.indicate, modify_state. cbn [fst snd].
      unfold st_bind at 1, attempt, Dest.on_vfs. cbn [fst snd]. rewrite rec_path0, Hw. cbn [map_err].
      unfold st_bind, Dest.get, gets, Dest.put_tstate, Dest.put, modify_state. simpl.
      unfold checked_add. rewrite rec_progress0. by rewrite (proj2 (Z.ltb_lt _ _)) by done.
    - unfold ret at 1. unfold st_bind at 1, attempt, Dest.on_vfs. cbn [fst snd]. rewrite rec_path0, Hw. cbn [map_err].
      unfold st_bind, Dest.get, gets, Dest.put_tstate, Dest.put, modify_state. simpl.
      unfold checked_add. rewrite rec_progress0. by rewrite (proj2 (Z.ltb_lt _ _)) by done. }
  exists h'. split; [|split; [|done]].
  - unfold Dest.state_machine, file_data, Dest.insert_packet. cbn [target pdu_type raw_packet].
    rewrite bool_decide_eq_true_2 by done. cbn [negb].
    unfold st_bind at 1. rewrite He. unfold st_bind at 1, Dest.get, gets. cbn [fst].
    change (state h') with (state h). rewrite rec_state0.
    apply fsm_busy_receiving. change (step h') with (step h). change (check_state h') with (check_state h).
    by rewrite rec_step0.
  - pose proof (len_nonneg (fd_data fd)). pose proof (core_progress _ rec_core0).
    constructor; simpl; auto.
    + destruct rec_core0. constructor; simpl; auto. lia.
    + by apply Hus.
    + intros q Hq. rewrite Hfr by done. auto.
Qed.

(** All segments of a list, one call each. *)
Definition segments_indicated (h : Handler) (id : TransactionId) (fds : list FileDataPdu) (u : U) : U :=
  fold_left (fun u fd => segment_indication h id fd u) fds u.

Definition seg_of (fd : FileDataPdu) : Z * list Z := (fd_offset fd, fd_data fd).

Definition total (fds : list FileDataPdu) : Z :=
  fold_right (fun fd n => len (fd_data fd) + n) 0 fds.

Lemma total_nonneg fds : 0 <= total fds.
Proof. induction fds as [|fd fds IH]; simpl; [lia|]. pose proof (len_nonneg (fd_data fd)). lia. Qed.

Lemma segment_calls now h0 s id mp cfg conf path raws fds timer :
  accepts_data s timer now -> Forall2 (fun raw fd => file_data_from_bytes raw = Ok fd) raws fds ->
  Forall (fun fd => 0 <= fd_offset fd < 2 ^ 63) fds ->
  forall h u data n, receiving h0 s id mp cfg conf path data n h -> (check_state h).2 = timer ->
  n + total fds < 2 ^ 64 ->
  exists h', calls now (map file_data raws) (h, u) =
      (Ok (replicate (length fds) 0), (h', segments_indicated h0 id fds u)) /\
    receiving h0 s id mp cfg conf path (assemble data (map seg_of fds)) (n + total fds) h' /\
    check_state h' = check_state h.
Proof.
  intros Hacc Hraws. induction Hraws as [|raw fd raws fds Hraw _ IH]; intros Hoffs h u data n Hrec Htm Hn; simpl.
  - exists h. rewrite Z.add_0_r. done.
  - apply Forall_cons in Hoffs as [Hoff Hoffs]. cbn [total fold_right] in Hn. fold (total fds) in *.
    pose proof (total_nonneg fds).
    destruct (segment_call now h0 h u s id mp cfg conf path data n raw fd Hrec
      ltac:(by rewrite Htm) Hraw Hoff ltac:(lia))
      as (h1 & He1 & Hrec1 & Hch1).
    assert (Hind : segment_indication h id fd u = segment_indication h0 id fd u)
      by (unfold segment_indication; by rewrite (rec_local _ _ _ _ _ _ _ _ _ _ Hrec)).
    destruct (IH Hoffs h1 (segment_indication h id fd u) _ _ Hrec1 ltac:(by rewrite Hch1) ltac:(lia)) as (h2 & He2 & Hrec2 & Hch2).
    exists h2. split_and!.
    + unfold st_bind. rewrite He1, He2. by rewrite Hind.
    + replace (n + (len (fd_data fd) + total fds)) with (n + len (fd_data fd) + total fds) by lia. exact Hrec2.
    + congruence.
Qed.

(** *** End of file *)

(** The indication at the end of a transaction. *)
Definition finished_of (h : Handler) (id : TransactionId) : TransactionFinishedParams :=
  let s := tstate (tparams h) in
  mkFinishedParams id (condition_code s) (delivery_code s) (file_status s).

(** The sender [s] takes the Finished PDU [p], written to [buf], and is then
    [sd]. *)
Definition sends (p : FinishedPdu) (buf : list Z) (s sd : Sd) : Prop :=
  exists n buf' raw,
    write_to_bytes (finished_writer p) buf = Ok (n, buf') /\
    slice (E:=DestError PduE) buf' 0 (len_written (finished_writer p)) = Ok raw /\
    send_pdu PduFileDirective (Some FinishedPduType) raw s = (Ok tt, sd).

(** Whether a PDU is sent depends on the closure the Metadata PDU asks for. *)
Definition closes (closure : bool) (p : FinishedPdu) (buf : list Z) (s sd : Sd) : Prop :=
  if closure then sends p buf s sd else sd = s.

(** The file of an incomplete, cancelled transfer is removed if the remote
    configuration says so. *)
Definition discards (h : Handler) (cfg : RemoteEntityConfig) : bool :=
  bool_decide (completion_disposition (tstate (tparams h)) = Cancelled) &&
  disposition_on_cancellation cfg && bool_decide (delivery_code (tstate (tparams h)) = Incomplete).

Lemma notice_keeps h u id cfg :
  transaction_id (tstate (tparams h)) = Some id -> remote_cfg (tparams h) = Some cfg ->
  discards h cfg = false ->
  Dest.notice_of_completion (PduE:=PduE) (h, u) =
    (Ok tt, (h, transaction_finished_indication (finished_of h id) u)).
Proof.
  intros Hid Hcfg Hd. unfold Dest.notice_of_completion. erewrite bind_ok; [|done]. cbn [fst].
  unfold discards in Hd. unfold st_bind at 1.
  destruct (completion_disposition (tstate (tparams h))).
  - rewrite bool_decide_eq_true_2 by done. unfold ret. erewrite bind_ok; [|done]. cbn [fst].
    unfold st_bind, lift. by rewrite Hid.
  - rewrite bool_decide_eq_false_2 by done. unfold st_bind at 1, lift. rewrite Hcfg. cbn [unwrap].
    cbn [andb] in Hd. rewrite bool_decide_eq_true_2 in Hd by done. cbn [andb] in Hd. rewrite Hd.
    unfold ret. erewrite bind_ok; [|done]. cbn [fst]. unfold st_bind. by rewrite Hid.
Qed.

Lemma notice_discards h u id cfg path f :
  transaction_id (tstate (tparams h)) = Some id -> remote_cfg (tparams h) = Some cfg ->
  discards h cfg = true -> dest_path_buf (file_properties (tparams h)) = path ->
  contents (vfs h) path = Some f -> usable (vfs h) path ->
  exists v', updates (vfs h) v' path None /\
    let h' := on_tparams (on_tstate (set_file_status DiscardDeliberately)) (set_vfs v' h) in
    Dest.notice_of_completion (PduE:=PduE) (h, u) =
      (Ok tt, (h', transaction_finished_indication (finished_of h' id) u)).
Proof.
  intros Hid Hcfg Hd Hp Hf Hu. destruct (remove_spec (vfs h) path f Hf Hu) as (v' & Hr & Hup).
  exists v'. split; [done|]. intros h'. unfold Dest.notice_of_completion. erewrite bind_ok; [|done]. cbn [fst].
  unfold discards in Hd. apply andb_true_iff in Hd as [[Hc%bool_decide_eq_true Hd1]%andb_true_iff Hd2].
  unfold st_bind at 1. rewrite bool_decide_eq_false_2 by congruence. unfold st_bind at 1, lift. rewrite Hcfg.
  cbn [unwrap]. rewrite Hd1, Hd2. cbn [andb]. rewrite Hp. erewrite bind_ok; [|by apply on_vfs_eq].
  unfold Dest.put_tstate, Dest.put, modify_state. cbn [fst snd].
  erewrite bind_ok; [|done]. cbn [fst]. unfold st_bind.
  change (transaction_id (tstate (tparams _))) with (transaction_id (tstate (tparams h))). by rewrite Hid.
Qed.

(** The steps of [fsm_busy] from the completion on. *)
Definition fsm_tail : M Z :=
  let* sent_packets := Dest.when_step TransferCompletion Dest.transfer_completion 0 in
  let* _ := Dest.when_step SendingAckPdu (lift Panic) tt in
  let* _ := Dest.when_step SendingFinishedPdu Dest.reset tt in
  ret sent_packets.

(** The transaction is over: indicated, with a Finished PDU if closure was asked
    for, and the handler is idle. *)
Lemma fsm_tail_completes h u h1 u1 sd :
  step h = TransferCompletion -> Dest.notice_of_completion (PduE:=PduE) (h, u) = (Ok tt, (h1, u1)) ->
  transmission_mode_of (tparams h1) = Unacknowledged ->
  let closure := closure_requested (metadata_params (tstate (tparams h1))) in
  closes closure (Dest.finished_pdu_of h1) (packet_buf h1) (packet_sender h1) sd ->
  exists h', fsm_tail (h, u) = (Ok (if closure then 1 else 0), (h', u1)) /\
    state h' = StateIdle /\ step h' = StepIdle /\ vfs h' = vfs h1 /\ packet_sender h' = sd.
Proof.
  intros Hs Hn Hm closure Hsd.
  assert (Hc : Dest.transfer_completion (PduE:=PduE) (h, u) =
    (let* p := Dest.get tparams in
     if bool_decide (transmission_mode_of p = Acknowledged) || closure_requested (metadata_params (tstate p)) then
       let* sent := Dest.send_finished_pdu in
       let* _ := Dest.put (set_step SendingFinishedPdu) in
       ret sent
     else let* _ := Dest.reset in ret 0) (h1, u1)).
  { unfold Dest.transfer_completion. by erewrite bind_ok. }
  unfold fsm_tail. unfold st_bind at 1. rewrite when_step_take by done. rewrite Hc. clear Hc.
  erewrite bind_ok; [|done]. cbn [fst]. rewrite Hm, bool_decide_eq_false_2 by done. fold closure. cbn [orb].
  destruct closure.
  - destruct Hsd as (n & buf & raw & Hw & Hsl & Hsend).
    unfold Dest.send_finished_pdu. unfold st_bind at 1. unfold st_bind at 1, Dest.get, gets. cbn [fst].
    unfold st_bind at 1, lift. rewrite Hw. cbn [map_err]. unfold st_bind at 1, Dest.put, modify_state. cbn [fst snd].
    unfold st_bind at 1. rewrite Hsl. unfold st_bind at 1. cbn [fst snd].
    change (packet_sender (set_packet_buf buf h1)) with (packet_sender h1). rewrite Hsend. cbn [map_err].
    unfold ret, st_bind at 1 2. cbn [fst snd]. unfold Dest.when_step, Dest.reset, Dest.put, Dest.get, st_bind, gets, modify_state, ret.
    cbn [fst snd]. eexists. split; [reflexivity|]. done.
  - unfold st_bind at 1. unfold Dest.when_step, Dest.reset, Dest.put, Dest.get, st_bind, gets, modify_state, ret.
    cbn [fst snd]. eexists. split; [reflexivity|]. done.
Qed.

(** What [checksum_verify] does when the contents match. *)
Lemma checksum_verify_match h0 h u s id mp cfg conf path data n expected :
  receiving h0 s id mp cfg conf path data n h ->
  vfs_checksum (checksum_type mp) data expected = Some true ->
  exists h', Dest.checksum_verify (PduE:=PduE) expected (h, u) = (Ok true, (h', u)) /\
    step h' = step h /\ state h' = state h /\ vfs h' = vfs h /\
    transaction_id (tstate (tparams h')) = Some id /\ remote_cfg (tparams h') = Some cfg /\
    pdu_conf (tparams h') = conf /\ metadata_params (tstate (tparams h')) = mp /\
    completion_disposition (tstate (tparams h')) = Completed /\
    finished_of h' id = mkFinishedParams id NoError
      (if bool_decide (checksum_type mp = NullChecksum) then Complete else Incomplete) Retained /\
    local_cfg h' = local_cfg h /\ packet_sender h' = packet_sender h /\ packet_buf h' = packet_buf h.
Proof.
  intros [] Hck. unfold Dest.checksum_verify. unfold st_bind at 1, Dest.get at 1, gets. cbn [fst].
  rewrite rec_params0, rec_only0. unfold finished_of. case_bool_decide as Hnull; cbn [orb].
  - unfold Dest.put_tstate, Dest.put, st_bind, modify_state, ret. cbn [fst snd].
    eexists. split; [reflexivity|]. simpl. rewrite rec_status0. done.
  - unfold st_bind at 1, Dest.get, gets. cbn [fst]. rewrite rec_path0.
    destruct (checksum_spec (vfs h) path data (checksum_type mp) expected (cksum_buf (tparams h)))
      as (buf' & Hl & ->); [done|done|by rewrite (core_cksum _ rec_core0); lia|].
    rewrite Hck. cbn [ok_or]. unfold st_bind, Dest.put, modify_state, ret. cbn [fst snd].
    eexists. split; [reflexivity|]. simpl. rewrite rec_condition0, rec_delivery0, rec_status0. done.
Qed.

(** The delivery code reported for a file whose checksum is right. *)
Definition reported_delivery (ct : ChecksumType) : DeliveryCode :=
  if bool_decide (ct = NullChecksum) then Complete else Incomplete.

Definition success_params (id : TransactionId) (ct : ChecksumType) : TransactionFinishedParams :=
  mkFinishedParams id NoError (reported_delivery ct) Retained.

Definition success_pdu (conf : CommonPduConfig) (ct : ChecksumType) : FinishedPdu :=
  mkFinishedPdu conf NoError (reported_delivery ct) Retained None.

Definition eof_indication (h : Handler) (id : TransactionId) (u : U) : U :=
  if eof_recv (indication_cfg (local_cfg h)) then eof_recvd_indication id u else u.

(** Completion after a checksum that matched. *)
Lemma complete_after_match h0 h u s id mp cfg conf path data n expected sd :
  receiving h0 s id mp cfg conf path data n h ->
  vfs_checksum (checksum_type mp) data expected = Some true ->
  trans_mode conf = Unacknowledged ->
  closes (closure_requested mp) (success_pdu conf (checksum_type mp)) (packet_buf h0) (packet_sender h0) sd ->
  exists h1 h', Dest.checksum_verify (PduE:=PduE) expected (h, u) = (Ok true, (h1, u)) /\
    state h1 = state h /\ transmission_mode_of (tparams h1) = Unacknowledged /\
    fsm_tail (set_step TransferCompletion h1, u) =
      (Ok (if closure_requested mp then 1 else 0),
       (h', transaction_finished_indication (success_params id (checksum_type mp)) u)) /\
    state h' = StateIdle /\ step h' = StepIdle /\ vfs h' = vfs h /\ packet_sender h' = sd.
Proof.
  intros Hrec Hck Hm Hsd.
  destruct (checksum_verify_match h0 h u s id mp cfg conf path data n expected Hrec Hck)
    as (h1 & He & Hst & Hs & Hv & Hid & Hcfg & Hconf & Hmp & Hcd & Hfin & Hlo & Hse & Hbu).
  destruct Hrec. exists h1. unfold finished_of in Hfin. injection Hfin as Hf1 Hf2 Hf3.
  assert (Hmode : transmission_mode_of (tparams h1) = Unacknowledged)
    by (unfold transmission_mode_of; by rewrite Hconf).
  set (h2 := set_step TransferCompletion h1).
  destruct (fsm_tail_completes h2 u h2 (transaction_finished_indication (finished_of h2 id) u) sd)
    as (h' & Ht & Hs' & Hst' & Hv' & Hsd'); [done| |done| |].
  { apply (notice_keeps h2 u id cfg); [done|done|]. unfold discards, h2. simpl. by rewrite Hcd. }
  { unfold h2. simpl. unfold Dest.finished_pdu_of. simpl. rewrite Hmp, Hf1, Hf2, Hf3, Hconf, Hbu, Hse.
    rewrite bool_decide_eq_true_2 by done. cbn [orb]. by rewrite <- rec_buf0, <- rec_sender0 in Hsd. }
  exists h'. split_and!; auto; [|rewrite Hv'; exact Hv].
  rewrite Ht. unfold h2 at 1. simpl. rewrite Hmp. repeat f_equal.
  unfold finished_of, success_params, h2. simpl. by rewrite Hf1, Hf2, Hf3.
Qed.

(** The part of the EOF handling every EOF goes through. *)
Lemma handle_eof_eq now h0 h u id mp cfg conf path data n raw eof :
  receiving h0 ReceivingFileDataPdus id mp cfg conf path data n h ->
  eof_from_bytes raw = Ok eof -> eof_condition_code eof = NoError -> n <= eof_file_size eof ->
  trans_mode conf = Unacknowledged ->
  let h1 := on_tparams (on_tstate (set_checksum (file_checksum eof))) h in
  Dest.handle_eof_pdu (PduE:=PduE) now raw (h, u) =
    (let* verified := Dest.checksum_verify (file_checksum eof) in
     let* finish :=
       (if verified then ret true
        else
          let* code := Dest.declare_fault FileChecksumFailure in
          if negb (bool_decide (code = IgnoreError)) then ret false
          else let* _ := Dest.start_check_limit_handling now in ret false) in
     if finish then Dest.file_transfer_complete_transition else ret tt) (h1, eof_indication h id u).
Proof.
  intros [] He Hn Hsz Hm h1. unfold Dest.handle_eof_pdu. erewrite bind_ok; [|done]. cbn [fst].
  rewrite rec_state0, rec_step0. rewrite bool_decide_eq_false_2, bool_decide_eq_true_2 by done. cbn [orb negb].
  unfold st_bind at 1, lift at 1. rewrite He. cbn [map_err].
  transitivity ((let* regular_transfer_finish :=
       (if bool_decide (eof_condition_code eof = NoError) then Dest.handle_no_error_eof_pdu (PduE:=PduE) now eof
        else lift Panic) in
     if regular_transfer_finish then Dest.file_transfer_complete_transition else ret tt)
      (h, eof_indication h id u)).
  { unfold st_bind at 1. unfold eof_indication. destruct (eof_recv (indication_cfg (local_cfg h))); [|done].
    unfold st_bind at 1, lift. by rewrite rec_id0. }
  rewrite Hn, bool_decide_eq_true_2 by done. unfold Dest.handle_no_error_eof_pdu.
  unfold st_bind at 1. erewrite bind_ok; [|reflexivity]. cbn [fst]. rewrite rec_progress0.
  rewrite (proj2 (Z.ltb_ge _ _)) by lia. do 3 (erewrite bind_ok; [|reflexivity]; cbn [fst snd]). fold h1.
  assert (Hmode : transmission_mode_of (tparams h1) = Unacknowledged)
    by (unfold transmission_mode_of; simpl; by rewrite rec_conf0).
  rewrite Hmode, bool_decide_eq_true_2 by done. erewrite bind_ok; [|done]. cbn [fst].
  change (checksum (tstate (tparams h1))) with (file_checksum eof).
  unfold st_bind. destruct (Dest.checksum_verify (file_checksum eof) (h1, eof_indication h id u)) as [[[]|e|] x];
    [done| |done|done].
  by destruct (Dest.declare_fault FileChecksumFailure x) as [[]].
Qed.

Lemma receiving_checksum h0 s id mp cfg conf path data n h c :
  receiving h0 s id mp cfg conf path data n h ->
  receiving h0 s id mp cfg conf path data n (on_tparams (on_tstate (set_checksum c)) h).
Proof. intros []. constructor; auto. destruct rec_core0. by constructor. Qed.

(** The EOF PDU of a complete file ends the transaction. *)
Lemma eof_call now h0 h u id mp cfg conf path data n raw eof sd :
  receiving h0 ReceivingFileDataPdus id mp cfg conf path data n h ->
  eof_from_bytes raw = Ok eof -> eof_condition_code eof = NoError -> n <= eof_file_size eof ->
  trans_mode conf = Unacknowledged ->
  vfs_checksum (checksum_type mp) data (file_checksum eof) = Some true ->
  closes (closure_requested mp) (success_pdu conf (checksum_type mp)) (packet_buf h0) (packet_sender h0) sd ->
  exists h', Dest.state_machine now (directive EofPduType raw) (h, u) =
      (Ok (if closure_requested mp then 1 else 0),
       (h', transaction_finished_indication (success_params id (checksum_type mp)) (eof_indication h id u))) /\
    state h' = StateIdle /\ step h' = StepIdle /\ vfs h' = vfs h /\ packet_sender h' = sd.
Proof.
  intros Hrec He Hn Hsz Hm Hck Hsd.
  pose proof (handle_eof_eq now h0 h u id mp cfg conf path data n raw eof Hrec He Hn Hsz Hm) as Heq.
  set (h1 := on_tparams (on_tstate (set_checksum (file_checksum eof))) h) in *.
  destruct (complete_after_match h0 h1 (eof_indication h id u) ReceivingFileDataPdus id mp cfg conf path data n
    (file_checksum eof) sd) as (h2 & h' & Hcv & Hs2 & Hmode & Htail & Hres); [by apply receiving_checksum|done..|].
  exists h'. split; [|exact Hres].
  unfold Dest.state_machine, directive, Dest.insert_packet. cbn [target pdu_type pdu_directive raw_packet].
  rewrite bool_decide_eq_true_2 by done. cbn [negb]. unfold Dest.handle_file_directive.
  unfold st_bind at 1. rewrite Heq. cbn [snd]. unfold st_bind at 1. rewrite Hcv.
  erewrite bind_ok; [|reflexivity]. cbn match. rewrite file_transfer_complete_eq, Hmode.
  erewrite bind_ok; [|done]. cbn [fst]. change (state (set_step _ h2)) with (state h2). rewrite Hs2.
  change (state h1) with (state h). rewrite (rec_state _ _ _ _ _ _ _ _ _ _ Hrec).
  unfold Dest.fsm_busy. do 2 skip_step. exact Htail.
Qed.

(** *** The check limit *)
Lemma checksum_verify_mismatch h0 h u s id mp cfg conf path data n expected :
  receiving h0 s id mp cfg conf path data n h ->
  vfs_checksum (checksum_type mp) data expected = Some false ->
  exists buf, let h' := on_tparams (set_cksum_buf buf) h in
    Dest.checksum_verify (PduE:=PduE) expected (h, u) = (Ok false, (h', u)) /\
    receiving h0 s id mp cfg conf path data n h' /\ check_state h' = check_state h.
Proof.
  intros Hrec Hck. pose proof Hrec as [].
  destruct (checksum_spec (vfs h) path data (checksum_type mp) expected (cksum_buf (tparams h)))
    as (buf & Hl & He); [done|done|by rewrite (core_cksum _ rec_core0); lia|].
  exists buf. intros h'. split; [|split; [|done]].
  - unfold Dest.checksum_verify. unfold st_bind at 1, Dest.get at 1, gets. cbn [fst].
    rewrite rec_params0, rec_only0. rewrite bool_decide_eq_false_2.
    2: { intros Hn. rewrite Hn in Hck. by rewrite null_checksum_spec in Hck. }
    cbn [orb]. unfold st_bind at 1, Dest.get, gets. cbn [fst]. by rewrite rec_path0, He, Hck.
  - constructor; auto. destruct rec_core0. constructor; simpl; auto. congruence.
Qed.

(** A fault that is ignored. *)
Lemma declare_ignored c h u id :
  transaction_id (tstate (tparams h)) = Some id -> core h ->
  fault_code (default_fault_handler (local_cfg h)) c = IgnoreError ->
  Dest.declare_fault (PduE:=PduE) c (h, u) =
    (Ok IgnoreError, (set_fault_handler
       (fault_called id c (progress (tstate (tparams h))) (default_fault_handler (local_cfg h))) h, u)).
Proof. intros Hid Hc Hf. by rewrite (declare_fault_eq c h u id Hid (core_faults _ Hc)), Hf. Qed.

Lemma fault_called_array id c p (fh : DefaultFaultHandler F) :
  handler_array (fault_called id c p fh) = handler_array fh.
Proof. unfold fault_called. by destruct (FaultHandler.condition_code_to_array_index c). Qed.

(** An EOF PDU that comes before all data: the handler waits for the rest. *)
Lemma early_eof_call now h0 h u id mp cfg conf path data n raw eof :
  receiving h0 ReceivingFileDataPdus id mp cfg conf path data n h ->
  eof_from_bytes raw = Ok eof -> eof_condition_code eof = NoError -> n <= eof_file_size eof ->
  trans_mode conf = Unacknowledged ->
  vfs_checksum (checksum_type mp) data (file_checksum eof) = Some false ->
  fault_code (default_fault_handler (local_cfg h)) FileChecksumFailure = IgnoreError ->
  let timer := get_check_timer_provider now (check_timer_creator h)
                 (CheckLimit (local_id (local_cfg h)) (entity_id cfg) Receiving) in
  has_expired now timer = false ->
  exists h', Dest.state_machine now (directive EofPduType raw) (h, u) = (Ok 0, (h', eof_indication h id u)) /\
    receiving h' ReceivingFileDataPdusWithCheckLimitHandling id mp cfg conf path data n h' /\
    check_state h' = (file_checksum eof, 0, Some timer) /\ vfs h' = vfs h /\
    indication_cfg (local_cfg h') = indication_cfg (local_cfg h) /\
    (forall c, fault_code (default_fault_handler (local_cfg h')) c = fault_code (default_fault_handler (local_cfg h)) c) /\
    packet_sender h' = packet_sender h /\ packet_buf h' = packet_buf h.
Proof.
  intros Hrec He Hn Hsz Hm Hck Hfc timer Hnow.
  pose proof (handle_eof_eq now h0 h u id mp cfg conf path data n raw eof Hrec He Hn Hsz Hm) as Heq.
  set (h1 := on_tparams (on_tstate (set_checksum (file_checksum eof))) h) in *.
  destruct (checksum_verify_mismatch h0 h1 (eof_indication h id u) ReceivingFileDataPdus id mp cfg conf path data n
    (file_checksum eof)) as (buf & Hcv & Hrec2 & Hcs2); [by apply receiving_checksum|done|].
  set (h2 := on_tparams (set_cksum_buf buf) h1) in *. pose proof Hrec2 as [].
  set (fh := fault_called id FileChecksumFailure (progress (tstate (tparams h2))) (default_fault_handler (local_cfg h2))).
  set (h3 := on_tparams (on_tstate (set_check 0 (Some timer)))
               (set_step ReceivingFileDataPdusWithCheckLimitHandling (set_fault_handler fh h2))).
  exists h3.
  assert (Hins : Dest.handle_eof_pdu (PduE:=PduE) now raw (h, u) = (Ok tt, (h3, eof_indication h id u))).
  { rewrite Heq. unfold st_bind at 1. cbn beta in Hcv. rewrite Hcv.
    unfold st_bind at 1. unfold st_bind at 1. rewrite (declare_ignored _ h2 _ id) by done.
    rewrite bool_decide_eq_true_2 by done. cbn [negb]. unfold Dest.start_check_limit_handling.
    unfold st_bind at 1. do 2 (erewrite bind_ok; [|reflexivity]; cbn [fst snd]).
    unfold st_bind at 1, lift at 1. change (remote_cfg (tparams (set_step _ _))) with (remote_cfg (tparams h2)).
    by rewrite rec_remote0. }
  split_and!; try done.
  - unfold Dest.state_machine, directive, Dest.insert_packet. cbn [target pdu_type pdu_directive raw_packet].
    rewrite bool_decide_eq_true_2 by done. cbn [negb]. unfold Dest.handle_file_directive.
    unfold st_bind at 1. rewrite Hins. erewrite bind_ok; [|reflexivity]. cbn [fst].
    change (state h3) with (state h2). rewrite rec_state0. apply fsm_busy_receiving. right. split; [done|].
    by intros t [= <-].
  - constructor; auto; try done. pose proof (fault_called_array id FileChecksumFailure (progress (tstate (tparams h2)))
      (default_fault_handler (local_cfg h2))). fold fh in H8.
    destruct rec_core0. constructor; simpl; auto; rewrite ?H8; auto; lia.
Qed.

(** The timer expires and the file is complete by now. *)
Lemma expiry_match_call now h0 h u id mp cfg conf path data n expected c t sd :
  receiving h0 ReceivingFileDataPdusWithCheckLimitHandling id mp cfg conf path data n h ->
  check_state h = (expected, c, Some t) -> has_expired now t = true ->
  trans_mode conf = Unacknowledged ->
  vfs_checksum (checksum_type mp) data expected = Some true ->
  closes (closure_requested mp) (success_pdu conf (checksum_type mp)) (packet_buf h0) (packet_sender h0) sd ->
  exists h', Dest.state_machine now None (h, u) =
      (Ok (if closure_requested mp then 1 else 0),
       (h', transaction_finished_indication (success_params id (checksum_type mp)) u)) /\
    state h' = StateIdle /\ step h' = StepIdle /\ vfs h' = vfs h /\ packet_sender h' = sd.
Proof.
  intros Hrec Hcs Hexp Hm Hck Hsd.
  destruct (complete_after_match h0 h u _ id mp cfg conf path data n expected sd Hrec Hck Hm Hsd)
    as (h2 & h' & Hcv & Hs2 & Hmode & Htail & Hres).
  exists h'. split; [|exact Hres]. pose proof Hrec as []. unfold check_state in Hcs. injection Hcs as Hc1 Hc2 Hc3.
  unfold Dest.state_machine. do 2 (erewrite bind_ok; [|reflexivity]; cbn [fst snd]). rewrite rec_state0.
  unfold Dest.fsm_busy. skip_step. unfold st_bind at 1. rewrite when_step_take by done.
  unfold Dest.check_limit_handling. erewrite bind_ok; [|reflexivity]. cbn [fst]. rewrite Hc3, Hexp, Hc1.
  unfold st_bind at 1. rewrite Hcv. rewrite file_transfer_complete_eq, Hmode. exact Htail.
Qed.

(** The timer expires below the limit: it is restarted. *)
Lemma expiry_retry_call now h0 h u id mp cfg conf path data n expected c t :
  receiving h0 ReceivingFileDataPdusWithCheckLimitHandling id mp cfg conf path data n h ->
  check_state h = (expected, c, Some t) -> has_expired now t = true ->
  vfs_checksum (checksum_type mp) data expected = Some false -> c + 1 < check_limit cfg ->
  exists h', Dest.state_machine now None (h, u) = (Ok 0, (h', u)) /\
    receiving h0 ReceivingFileDataPdusWithCheckLimitHandling id mp cfg conf path data n h' /\
    check_state h' = (expected, c + 1, Some (timer_reset now t)).
Proof.
  intros Hrec Hcs Hexp Hck Hlim.
  destruct (checksum_verify_mismatch h0 h u _ id mp cfg conf path data n expected Hrec Hck)
    as (buf & Hcv & Hrec2 & Hcs2).
  set (h2 := on_tparams (set_cksum_buf buf) h) in *. pose proof Hrec as [].
  unfold check_state in Hcs. injection Hcs as Hc1 Hc2 Hc3.
  pose proof (core_remote _ rec_core0 cfg rec_remote0) as Hu. pose proof (core_count _ rec_core0) as Hcc.
  unfold in_u in Hu.
  exists (on_tparams (on_tstate (set_check (c + 1) (Some (timer_reset now t)))) h2). split_and!.
  - unfold Dest.state_machine. do 2 (erewrite bind_ok; [|reflexivity]; cbn [fst snd]). rewrite rec_state0.
    unfold Dest.fsm_busy. skip_step. unfold st_bind at 1. rewrite when_step_take by done.
    unfold Dest.check_limit_handling. erewrite bind_ok; [|reflexivity]. cbn [fst]. rewrite Hc3, Hexp, Hc1.
    unfold st_bind at 1. rewrite Hcv. erewrite bind_ok; [|reflexivity]. cbn [fst].
    unfold st_bind at 1, lift, checked_add.
    change (current_check_count (tstate (tparams h2))) with (current_check_count (tstate (tparams h))).
    change (current_check_timer (tstate (tparams h2))) with (current_check_timer (tstate (tparams h))).
    rewrite Hc2, (proj2 (Z.ltb_lt (c + 1) _)) by lia.
    unfold st_bind at 1. change (remote_cfg (tparams h2)) with (remote_cfg (tparams h)). rewrite rec_remote0.
    cbn [unwrap]. rewrite (proj2 (Z.leb_gt _ _)) by lia.
    unfold st_bind at 1. rewrite Hc3. cbn [unwrap]. unfold Dest.put_tstate, Dest.put, modify_state. cbn [fst snd].
    do 3 skip_step. done.
  - destruct Hrec2. constructor; auto. destruct rec_core1. constructor; simpl; auto. lia.
  - unfold check_state. simpl. by rewrite Hc1.
Qed.

(** The file of a cancelled transfer and what is reported of it. *)
Definition cancelled_status (cfg : RemoteEntityConfig) : FileStatus :=
  if disposition_on_cancellation cfg then DiscardDeliberately else Retained.

Definition limit_params (id : TransactionId) (cfg : RemoteEntityConfig) : TransactionFinishedParams :=
  mkFinishedParams id CheckLimitReached Incomplete (cancelled_status cfg).

Definition limit_pdu (h : Handler) (conf : CommonPduConfig) (cfg : RemoteEntityConfig) : FinishedPdu :=
  mkFinishedPdu conf CheckLimitReached Incomplete (cancelled_status cfg) (Some (local_id (local_cfg h))).

(** The last expiry: the transaction is cancelled. *)
Lemma expiry_limit_call now h0 h u id mp cfg conf path data n expected c t sd :
  receiving h0 ReceivingFileDataPdusWithCheckLimitHandling id mp cfg conf path data n h ->
  check_state h = (expected, c, Some t) -> has_expired now t = true ->
  vfs_checksum (checksum_type mp) data expected = Some false -> check_limit cfg <= c + 1 ->
  trans_mode conf = Unacknowledged ->
  fault_code (default_fault_handler (local_cfg h)) CheckLimitReached = NoticeOfCancellation ->
  closes (closure_requested mp) (limit_pdu h conf cfg) (packet_buf h0) (packet_sender h0) sd ->
  exists h', Dest.state_machine now None (h, u) =
      (Ok (if closure_requested mp then 1 else 0), (h', transaction_finished_indication (limit_params id cfg) u)) /\
    state h' = StateIdle /\ step h' = StepIdle /\ packet_sender h' = sd /\
    contents (vfs h') path = (if disposition_on_cancellation cfg then None else Some data) /\
    (forall q, ~ same_file path q -> contents (vfs h') q = contents (vfs h) q).
Proof.
  intros Hrec Hcs Hexp Hck Hlim Hm Hfc Hsd.
  destruct (checksum_verify_mismatch h0 h u _ id mp cfg conf path data n expected Hrec Hck)
    as (buf & Hcv & Hrec2 & Hcs2).
  set (h2 := on_tparams (set_cksum_buf buf) h) in *. pose proof Hrec as []. pose proof Hrec2 as [].
  unfold check_state in Hcs. injection Hcs as Hc1 Hc2 Hc3.
  pose proof (core_count _ rec_core0) as Hcc.
  pose proof (declare_fault_eq (PduE:=PduE) CheckLimitReached h2 u id rec_id1 (core_faults _ rec_core1)) as Hdf.
  cbv zeta in Hdf. change (default_fault_handler (local_cfg h2)) with (default_fault_handler (local_cfg h)) in Hdf.
  rewrite Hfc in Hdf. cbn [fault_action] in Hdf. set (fh := fault_called _ _ _ _) in Hdf.
  set (h3 := set_fault_handler fh _) in Hdf.
  assert (Hfsm : forall r, fsm_tail (h3, u) = r -> Dest.state_machine now None (h, u) = r).
  { intros r Hr. unfold Dest.state_machine. do 2 (erewrite bind_ok; [|reflexivity]; cbn [fst snd]). rewrite rec_state0.
    unfold Dest.fsm_busy. skip_step. unfold st_bind at 1. rewrite when_step_take by done.
    unfold Dest.check_limit_handling. erewrite bind_ok; [|reflexivity]. cbn [fst]. rewrite Hc3, Hexp, Hc1.
    unfold st_bind at 1. rewrite Hcv. erewrite bind_ok; [|reflexivity]. cbn [fst].
    unfold st_bind at 1, lift, checked_add.
    change (current_check_count (tstate (tparams h2))) with (current_check_count (tstate (tparams h))).
    rewrite Hc2, (proj2 (Z.ltb_lt (c + 1) _)) by lia. unfold st_bind at 1.
    change (remote_cfg (tparams h2)) with (remote_cfg (tparams h)). rewrite rec_remote0. cbn [unwrap].
    rewrite (proj2 (Z.leb_le _ _)) by lia. unfold st_bind at 1. rewrite Hdf. exact Hr. }
  assert (Hmode : transmission_mode_of (tparams h3) = Unacknowledged)
    by (unfold transmission_mode_of; simpl; by rewrite rec_conf0).
  assert (Hdis : discards h3 cfg = disposition_on_cancellation cfg).
  { unfold discards. simpl. rewrite rec_delivery0. rewrite !bool_decide_eq_true_2 by done.
    by rewrite andb_true_r. }
  unfold limit_pdu, limit_params, cancelled_status in *. destruct (disposition_on_cancellation cfg).
  - destruct (notice_discards h3 u id cfg path data) as (v' & (Hu1 & Hu2 & Hu3) & Hnote); [done..|].
    cbv zeta in Hnote. set (h4 := on_tparams _ (set_vfs v' h3)) in Hnote.
    destruct (fsm_tail_completes h3 u h4 _ sd ltac:(done) Hnote Hmode) as (h' & Ht & Hs' & Hst' & Hv' & Hsd').
    { simpl. unfold Dest.finished_pdu_of. simpl. rewrite rec_params0, rec_delivery0, rec_conf0, rec_buf0, rec_sender0.
      exact Hsd. }
    exists h'. split_and!; auto; [|by rewrite Hv'|rewrite Hv'; exact Hu2].
    apply Hfsm. rewrite Ht. unfold h4 at 1. simpl. rewrite rec_params0. unfold finished_of. simpl.
    by rewrite rec_delivery0.
  - pose proof (notice_keeps h3 u id cfg ltac:(done) ltac:(done) Hdis) as Hnote.
    destruct (fsm_tail_completes h3 u h3 _ sd ltac:(done) Hnote Hmode) as (h' & Ht & Hs' & Hst' & Hv' & Hsd').
    { simpl. unfold Dest.finished_pdu_of. simpl.
      rewrite rec_params0, rec_delivery0, rec_conf0, rec_buf0, rec_sender0, rec_status0.
      exact Hsd. }
    exists h'. split_and!; auto; [|by rewrite Hv'|by rewrite Hv'].
    apply Hfsm. rewrite Ht. unfold h3 at 1. simpl. rewrite rec_params0. unfold finished_of. simpl.
    by rewrite rec_delivery0, rec_status0.
Qed.

(** The state machine polled without a PDU, at the given times. *)
Fixpoint polls (nows : list Ck) : M (list Z) :=
  match nows with
  | [] => ret []
  | now :: nows' =>
      let* n := Dest.state_machine now None in
      let* ns := polls nows' in
      ret (n :: ns)
  end.

(** How often a timer has expired at these times when it is restarted each time,
    and the timer after that. *)
Fixpoint expiries (t : T) (nows : list Ck) : Z * T :=
  match nows with
  | [] => (0, t)
  | now :: nows' =>
      if has_expired now t then let '(c, t') := expiries (timer_reset now t) nows' in (1 + c, t')
      else expiries t nows'
  end.

Lemma expiries_nonneg nows : forall t, 0 <= (expiries t nows).1.
Proof.
  induction nows as [|now nows IH]; intros t; cbn; [lia|]. destruct (has_expired now t); [|apply IH].
  specialize (IH (timer_reset now t)). destruct (expiries _ nows). cbn in *. lia.
Qed.

(** Below the limit each expiry is counted and restarts the timer. *)
Lemma polls_wait h0 id mp cfg conf path data n expected u :
  vfs_checksum (checksum_type mp) data expected = Some false ->
  forall nows h c t,
  receiving h0 ReceivingFileDataPdusWithCheckLimitHandling id mp cfg conf path data n h ->
  check_state h = (expected, c, Some t) -> 0 <= c -> c + (expiries t nows).1 < Z.max 1 (check_limit cfg) ->
  exists h', polls nows (h, u) = (Ok (replicate (length nows) 0), (h', u)) /\
    receiving h0 ReceivingFileDataPdusWithCheckLimitHandling id mp cfg conf path data n h' /\
    check_state h' = (expected, c + (expiries t nows).1, Some (expiries t nows).2).
Proof.
  intros Hck nows. induction nows as [|now nows IH]; intros h c t Hrec Hcs Hc Hlim.
  - exists h. cbn. by rewrite Z.add_0_r.
  - cbn [polls expiries] in *. destruct (has_expired now t) eqn:Hexp.
    + pose proof (expiries_nonneg nows (timer_reset now t)).
      destruct (expiries (timer_reset now t) nows) as [k t'] eqn:Hk. cbn [fst snd] in *.
      destruct (expiry_retry_call now h0 h u id mp cfg conf path data n expected c t) as (h1 & He & Hrec1 & Hcs1);
        auto; [lia|].
      destruct (IH h1 (c + 1) (timer_reset now t)) as (h' & Hp & Hrec' & Hcs'); auto; [lia|rewrite Hk; cbn; lia|].
      rewrite Hk in Hcs'. cbn [fst snd] in Hcs'. exists h'. split_and!; [|done|by rewrite Hcs', Z.add_assoc].
      unfold st_bind. by rewrite He, Hp.
    + assert (He : Dest.state_machine (PduE:=PduE) now None (h, u) = (Ok 0, (h, u))).
      { unfold Dest.state_machine. do 2 (erewrite bind_ok; [|reflexivity]; cbn [fst snd]).
        rewrite (rec_state _ _ _ _ _ _ _ _ _ _ Hrec). apply fsm_busy_receiving. right.
        split; [apply Hrec|]. rewrite Hcs. by intros ? [= <-]. }
      destruct (IH h c t) as (h' & Hp & Hres); auto.
      exists h'. split; [|exact Hres]. unfold st_bind. by rewrite He, Hp.
Qed.

(** ** Theorems *)

Lemma new_fresh local max_packet_len sender v table creator :
  length (handler_array (default_fault_handler local)) = 10%nat ->
  (forall id cfg, get_remote_config table id = Some cfg -> in_u 32 (check_limit cfg)) ->
  fresh (Dest.new (PduE:=PduE) local max_packet_len sender v table creator : Handler).
Proof. intros Hf Ht. by constructor; try apply new_inv. Qed.

(** The segments of a transfer, checked against the file [f]. *)
Definition segments_ok (f : list Z) (raws : list (list Z)) (fds : list FileDataPdu) : Prop :=
  Forall2 (fun raw fd => file_data_from_bytes raw = Ok fd) raws fds /\
  Forall (segment_of f) (map seg_of fds) /\ len f < 2 ^ 63.

Lemma segments_offsets f raws fds :
  segments_ok f raws fds -> Forall (fun fd => 0 <= fd_offset fd < 2 ^ 63) fds.
Proof.
  intros (_ & Hs & Hf). rewrite List.Forall_map in Hs. eapply Forall_impl; [exact Hs|].
  intros fd (H0' & Hl & _). simpl in *. pose proof (len_nonneg (fd_data fd)). lia.
Qed.

Lemma segments_app f raws1 fds1 raws2 fds2 :
  segments_ok f raws1 fds1 -> segments_ok f raws2 fds2 -> segments_ok f (raws1 ++ raws2) (fds1 ++ fds2).
Proof.
  intros (A1 & A2 & A3) (B1 & B2 & _). split_and!; [by apply Forall2_app| |done].
  rewrite map_app. by apply Forall_app.
Qed.

Lemma assemble_app data segs1 segs2 :
  assemble data (segs1 ++ segs2) = assemble (assemble data segs1) segs2.
Proof. apply fold_left_app. Qed.

Lemma total_app fds1 fds2 : total (fds1 ++ fds2) = total fds1 + total fds2.
Proof. induction fds1 as [|fd fds IH]; simpl; [done|]. rewrite IH. lia. Qed.

Lemma calls_cons now p ps h u n h1 u1 r :
  Dest.state_machine now p (h, u) = (Ok n, (h1, u1)) ->
  (let* ns := calls now ps in ret (n :: ns)) (h1, u1) = r ->
  calls now (p :: ps) (h, u) = r.
Proof. intros He Hr. cbn [calls]. by erewrite bind_ok. Qed.

(** C18: Every handler a program can reach, by any packets, clocks and users and
    through calls that returned values or errors, satisfies the invariant: its
    state and step fit together, a running transaction has its ID, remote
    configuration and, while it waits for late data, its timer, and all buffers
    and counters are within their bounds. *)
Theorem reachable_dest_inv {laws : DestLaws PduE Sd V} h (Hr : reachable h) : dest_inv h.
Proof. by apply reachable_inv. Qed.

(** C17: The state machine panics only on what it does not support: calls while it
    is idle, ACK and Prompt PDUs, EOF PDUs that cancel, acknowledged transfers,
    faults that abandon the transaction during an EOF, messages to the user and
    an overflow of the progress.  No other [unwrap] or index fails, in any
    reachable state. *)
Theorem panics_only_unsupported {laws : DestLaws PduE Sd V} now p h u x
  (Hr : reachable h) (Hp : Dest.state_machine (PduE:=PduE) now p (h, u) = (Panic, x)) : unsupported h p.
Proof.
  apply reachable_inv in Hr. pose proof (state_machine_inv now p h u Hr) as Hw.
  unfold wp in Hw. by rewrite Hp in Hw.
Qed.

(** PDUs that do not belong to the state of the handler are refused with the
    error for it, and neither the handler nor the user nor the filestore notices:
    file data and EOF while idle, EOF while waiting for late data, Metadata
    during a transaction, PDUs for the sending entity, and PDUs that do not
    parse. *)
Theorem misplaced_pdus_refused now h u raw (d : FileDirectiveType) :
  match state h with
  | StateIdle =>
      Dest.state_machine (PduE:=PduE) now (file_data raw) (h, u) = (Err WrongStateForFileDataAndEof, (h, u)) /\
      Dest.state_machine (PduE:=PduE) now (directive EofPduType raw) (h, u) =
        (Err WrongStateForFileDataAndEof, (h, u)) /\
      match metadata_from_bytes raw with
      | Err e => Dest.state_machine now (directive MetadataPduType raw) (h, u) = (Err (Pdu e), (h, u))
      | _ => True
      end
  | _ =>
      Dest.state_machine (PduE:=PduE) now (directive MetadataPduType raw) (h, u) =
        (Err RecvdMetadataButIsBusy, (h, u)) /\
      match step h, file_data_from_bytes raw, eof_from_bytes raw with
      | ReceivingFileDataPdus, Err e, Err e' =>
          Dest.state_machine now (file_data raw) (h, u) = (Err (Pdu e), (h, u)) /\
          Dest.state_machine now (directive EofPduType raw) (h, u) = (Err (Pdu e'), (h, u))
      | ReceivingFileDataPdusWithCheckLimitHandling, Err e, _ =>
          Dest.state_machine now (file_data raw) (h, u) = (Err (Pdu e), (h, u)) /\
          Dest.state_machine (PduE:=PduE) now (directive EofPduType raw) (h, u) =
            (Err WrongStateForFileDataAndEof, (h, u))
      | TransactionStart, _, _ | TransferCompletion, _, _ =>
          Dest.state_machine (PduE:=PduE) now (file_data raw) (h, u) = (Err WrongStateForFileDataAndEof, (h, u)) /\
          Dest.state_machine (PduE:=PduE) now (directive EofPduType raw) (h, u) =
            (Err WrongStateForFileDataAndEof, (h, u))
      | _, _, _ => True
      end
  end /\
  Dest.state_machine (PduE:=PduE) now
    (Some (mkPacketInfo PduFileDirective (Some d) SourceEntity raw)) (h, u) = (Err (CantProcessPacketType d), (h, u)).
Proof.
  split; [|done].
  unfold Dest.state_machine, directive, file_data, Dest.insert_packet. cbn [target pdu_type pdu_directive raw_packet].
  unfold Dest.handle_file_directive, Dest.handle_metadata_pdu, Dest.handle_file_data, Dest.handle_eof_pdu.
  run_monad. destruct (state h) eqn:Hs.
  - split_and!; [done|done|]. by destruct (metadata_from_bytes raw).
  - split; [done|]. destruct (step h); try done; destruct (file_data_from_bytes raw); try done;
      by destruct (eof_from_bytes raw).
  - split; [done|]. destruct (step h); try done; destruct (file_data_from_bytes raw); try done;
      by destruct (eof_from_bytes raw).
Qed.

(** C16: A file arrives whole over a handler that has had no transfer before.  Given an
    offer it accepts (an unacknowledged transfer without options to a usable file, of a known remote
    entity), segments of the file in any order that cover it, no more bytes of them
    than the EOF PDU says (so no segment twice), and an EOF PDU without error whose checksum is the
    one of the file: every call has succeeded, the destination file is the file sent, whatever
    it was before, and no other file has changed; the user saw the metadata, every
    segment, the EOF and a finished transaction without error, a Finished PDU went out
    exactly if closure was requested, and the handler is idle again.  A second transfer
    over the same handler fails, see [second_transfer_fails]. *)
Theorem file_copy_correct now h u raw_md pdu cfg raws fds f raw_eof eof sd
  (Hfresh : fresh h) (Hoffer : offers h pdu cfg) (Hmd : metadata_from_bytes raw_md = Ok pdu)
  (Hsegs : segments_ok f raws fds) (Hcov : forall i, (i < length f)%nat -> covers (map seg_of fds) i)
  (Hnodup : total fds <= eof_file_size eof) (Hsize : eof_file_size eof < 2 ^ 64)
  (Heof : eof_from_bytes raw_eof = Ok eof) (Hnoerr : eof_condition_code eof = NoError)
  (Hck : vfs_checksum (checksum_type (metadata_pdu_params pdu)) f (file_checksum eof) = Some true)
  (Hclose : closes (closure_requested (metadata_pdu_params pdu))
     (success_pdu (metadata_conf pdu) (checksum_type (metadata_pdu_params pdu)))
     (packet_buf h) (packet_sender h) sd) :
  let id := id_of pdu in
  let closure := closure_requested (metadata_pdu_params pdu) in
  exists h',
    calls now (directive MetadataPduType raw_md :: map file_data raws ++ [directive EofPduType raw_eof]) (h, u) =
      (Ok (0 :: replicate (length fds) 0 ++ [if closure then 1 else 0]),
       (h', transaction_finished_indication (success_params id (checksum_type (metadata_pdu_params pdu)))
              (eof_indication h id (segments_indicated h id fds
                 (metadata_recvd_indication (metadata_indication_of pdu) u))))) /\
    contents (vfs h') (dest_file_name_lv pdu) = Some f /\
    (forall q, ~ same_file (dest_file_name_lv pdu) q -> contents (vfs h') q = contents (vfs h) q) /\
    state h' = StateIdle /\ step h' = StepIdle /\ packet_sender h' = sd.
Proof.
  intros id closure. destruct (metadata_call now h u raw_md pdu cfg Hfresh Hoffer Hmd) as (h1 & He1 & Hrec1).
  set (u1 := metadata_recvd_indication _ u) in *. pose proof Hsegs as (Hraws & Hsegs' & Hlen).
  destruct (segment_calls now h _ id _ _ _ _ raws fds _ (or_introl eq_refl) Hraws (segments_offsets _ _ _ Hsegs)
    h1 u1 [] 0 Hrec1 eq_refl) as (h2 & He2 & Hrec2 & _); [pose proof (total_nonneg fds); lia|].
  rewrite (assemble_covers f) in Hrec2 by done.
  destruct (eof_call now h h2 (segments_indicated h id fds u1) id _ cfg _ _ f _ raw_eof eof sd Hrec2 Heof Hnoerr)
    as (h3 & He3 & Hs3 & Hst3 & Hv3 & Hsd3); [done|apply Hoffer|done|done|].
  exists h3. rewrite Hv3. split_and!; [|apply Hrec2|apply Hrec2|done..].
  eapply calls_cons; [exact He1|]. unfold st_bind at 1.
  assert (Hall : calls now (map file_data raws ++ [directive EofPduType raw_eof]) (h1, u1) =
    (Ok (replicate (length fds) 0 ++ [if closure then 1 else 0]),
     (h3, transaction_finished_indication (success_params id (checksum_type (metadata_pdu_params pdu)))
            (eof_indication h id (segments_indicated h id fds u1))))).
  { rewrite (calls_app_eq now _ _ _ _ _ He2). cbn [calls]. unfold st_bind. rewrite He3.
    unfold ret, eof_indication. by rewrite (rec_local _ _ _ _ _ _ _ _ _ _ Hrec2). }
  by rewrite Hall.
Qed.

(** Data that come after the EOF PDU are not lost.  The handler waits, takes
    the late segments, and when its timer expires it finds the file complete and
    ends the transaction like a regular one. *)
Theorem late_data_correct now later h u raw_md pdu cfg raws1 fds1 raws2 fds2 f raw_eof eof sd
  (Hfresh : fresh h) (Hoffer : offers h pdu cfg) (Hmd : metadata_from_bytes raw_md = Ok pdu)
  (Hsegs1 : segments_ok f raws1 fds1) (Hsegs2 : segments_ok f raws2 fds2)
  (Hcov : forall i, (i < length f)%nat -> covers (map seg_of (fds1 ++ fds2)) i)
  (Hnodup : total (fds1 ++ fds2) <= eof_file_size eof) (Hsize : eof_file_size eof < 2 ^ 64)
  (Heof : eof_from_bytes raw_eof = Ok eof) (Hnoerr : eof_condition_code eof = NoError)
  (Hearly : vfs_checksum (checksum_type (metadata_pdu_params pdu)) (assemble [] (map seg_of fds1))
     (file_checksum eof) = Some false)
  (Hck : vfs_checksum (checksum_type (metadata_pdu_params pdu)) f (file_checksum eof) = Some true)
  (Hfault : fault_code (default_fault_handler (local_cfg h)) FileChecksumFailure = IgnoreError)
  (timer := get_check_timer_provider now (check_timer_creator h)
     (CheckLimit (local_id (local_cfg h)) (entity_id cfg) Receiving))
  (Hnow : has_expired now timer = false) (Hlater : has_expired later timer = true)
  (Hclose : closes (closure_requested (metadata_pdu_params pdu))
     (success_pdu (metadata_conf pdu) (checksum_type (metadata_pdu_params pdu)))
     (packet_buf h) (packet_sender h) sd) :
  let id := id_of pdu in
  exists h1 u1 h',
    calls now (directive MetadataPduType raw_md :: map file_data raws1 ++
               directive EofPduType raw_eof :: map file_data raws2) (h, u) =
      (Ok (0 :: replicate (length fds1) 0 ++ 0 :: replicate (length fds2) 0), (h1, u1)) /\
    step h1 = ReceivingFileDataPdusWithCheckLimitHandling /\
    Dest.state_machine later None (h1, u1) =
      (Ok (if closure_requested (metadata_pdu_params pdu) then 1 else 0),
       (h', transaction_finished_indication (success_params id (checksum_type (metadata_pdu_params pdu))) u1)) /\
    contents (vfs h') (dest_file_name_lv pdu) = Some f /\
    (forall q, ~ same_file (dest_file_name_lv pdu) q -> contents (vfs h') q = contents (vfs h) q) /\
    state h' = StateIdle /\ packet_sender h' = sd.
Proof.
  intros id. destruct (metadata_call now h u raw_md pdu cfg Hfresh Hoffer Hmd) as (h1 & He1 & Hrec1).
  set (u1 := metadata_recvd_indication _ u) in *. pose proof Hsegs1 as (Hraws1 & _ & Hlen).
  pose proof Hsegs2 as (Hraws2 & _ & _). rewrite total_app in Hnodup.
  pose proof (total_nonneg fds1). pose proof (total_nonneg fds2).
  destruct (segment_calls now h _ id _ _ _ _ raws1 fds1 _ (or_introl eq_refl) Hraws1 (segments_offsets _ _ _ Hsegs1)
    h1 u1 [] 0 Hrec1 eq_refl) as (h2 & He2 & Hrec2 & _); [lia|]. set (u2 := segments_indicated h id fds1 u1) in *.
  destruct (early_eof_call now h h2 u2 id _ cfg _ _ _ _ raw_eof eof Hrec2 Heof Hnoerr)
    as (h3 & He3 & Hrec3 & Hcs3 & Hv3 & Hind3 & _ & Hse3 & Hbu3);
    [lia|apply Hoffer|done|by rewrite (rec_local _ _ _ _ _ _ _ _ _ _ Hrec2)| |].
  { by rewrite (rec_local _ _ _ _ _ _ _ _ _ _ Hrec2), (rec_creator _ _ _ _ _ _ _ _ _ _ Hrec2). }
  rewrite (rec_local _ _ _ _ _ _ _ _ _ _ Hrec2), (rec_creator _ _ _ _ _ _ _ _ _ _ Hrec2) in Hcs3. fold timer in Hcs3.
  assert (Hacc : accepts_data ReceivingFileDataPdusWithCheckLimitHandling (Some timer) now)
    by (right; split; [done|]; by intros t [= <-]).
  destruct (segment_calls now h3 _ id _ _ _ _ raws2 fds2 _ Hacc Hraws2
    (segments_offsets _ _ _ Hsegs2) h3 (eof_indication h2 id u2) _ _ Hrec3 ltac:(by rewrite Hcs3)) as (h4 & He4 & Hrec4 & Hcs4); [lia|].
  rewrite <- assemble_app, <- map_app, (assemble_covers f) in Hrec4
    by (done || apply (segments_app f raws1 fds1 raws2 fds2 Hsegs1 Hsegs2)).
  rewrite Hcs3 in Hcs4.
  destruct (expiry_match_call later h3 h4 (segments_indicated h3 id fds2 (eof_indication h2 id u2)) id _ cfg _ _ f _
    (file_checksum eof) 0 timer sd Hrec4 Hcs4 Hlater) as (h5 & He5 & Hs5 & Hst5 & Hv5 & Hsd5);
    [apply Hoffer|done| |].
  { by rewrite Hbu3, Hse3, (rec_buf _ _ _ _ _ _ _ _ _ _ Hrec2), (rec_sender _ _ _ _ _ _ _ _ _ _ Hrec2). }
  exists h4, (segments_indicated h3 id fds2 (eof_indication h2 id u2)), h5. rewrite Hv5. split_and!; auto.
  - eapply calls_cons; [exact He1|]. unfold st_bind at 1.
    rewrite (calls_app_eq now _ _ _ _ _ He2). cbn [calls]. unfold st_bind. by rewrite He3, He4.
  - apply Hrec4.
  - apply Hrec4.
  - intros q Hq. rewrite (rec_frame _ _ _ _ _ _ _ _ _ _ Hrec4 q Hq), Hv3.
    by apply (rec_frame _ _ _ _ _ _ _ _ _ _ Hrec2).
Qed.

(** C19: A transfer whose data never arrive ends after as many expiries of its timer as
    the check limit says (at least one), and not earlier.  The state machine is polled without a PDU at any times,
    while the contents keep failing the checksum.  As long as the timer, restarted at each
    expiry, has expired fewer times than that, every poll succeeds and the handler waits,
    with its file, its counter of the expiries and its restarted timer; the user is told nothing.  The next poll that finds
    the timer expired and reaches the limit cancels the transaction with CheckLimitReached:
    the handler is idle, the user and, if closure was requested, the sender are
    told, and the incomplete file is kept or removed as configured. *)
Theorem check_limit_ends_transfer h u id mp cfg conf path data n expected t sd nows
  (Hrec : receiving h ReceivingFileDataPdusWithCheckLimitHandling id mp cfg conf path data n h)
  (Hcs : check_state h = (expected, 0, Some t))
  (Hck : vfs_checksum (checksum_type mp) data expected = Some false)
  (Hm : trans_mode conf = Unacknowledged)
  (Hfault : fault_code (default_fault_handler (local_cfg h)) CheckLimitReached = NoticeOfCancellation)
  (Hclose : closes (closure_requested mp) (limit_pdu h conf cfg) (packet_buf h) (packet_sender h) sd)
  (Hwait : (expiries t nows).1 < Z.max 1 (check_limit cfg)) :
  let '(c, t') := expiries t nows in
  exists h1, polls nows (h, u) = (Ok (replicate (length nows) 0), (h1, u)) /\
    state h1 = Busy /\ step h1 = ReceivingFileDataPdusWithCheckLimitHandling /\
    check_state h1 = (expected, c, Some t') /\ contents (vfs h1) path = Some data /\
    forall now, has_expired now t' = true -> check_limit cfg <= c + 1 ->
    exists h', Dest.state_machine now None (h1, u) =
        (Ok (if closure_requested mp then 1 else 0),
         (h', transaction_finished_indication (limit_params id cfg) u)) /\
      state h' = StateIdle /\ step h' = StepIdle /\ packet_sender h' = sd /\
      contents (vfs h') path = (if disposition_on_cancellation cfg then None else Some data) /\
      (forall q, ~ same_file path q -> contents (vfs h') q = contents (vfs h) q).
Proof.
  destruct (polls_wait h id mp cfg conf path data n expected u Hck nows h 0 t Hrec Hcs) as (h1 & Hp & Hrec1 & Hcs1);
    [lia|lia|].
  destruct (expiries t nows) as [c t']. cbn [fst snd] in *. rewrite Z.add_0_l in Hcs1.
  exists h1. split_and!; [done|apply Hrec1|apply Hrec1|done|apply Hrec1|]. intros now Hexp Hlim.
  pose proof (rec_local _ _ _ _ _ _ _ _ _ _ Hrec1) as Hloc.
  destruct (expiry_limit_call now h h1 u id mp cfg conf path data n expected c t' sd)
    as (h' & He & Hs & Hst & Hse & Hcon & Hfr); auto; [by rewrite Hloc|by unfold limit_pdu; rewrite Hloc|].
  exists h'. split_and!; auto. intros q Hq. rewrite Hfr by done. by apply (rec_frame _ _ _ _ _ _ _ _ _ _ Hrec1).
Qed.

End Transfer.

(** ** A concrete entity

    Toy PDUs of a few bytes, a log of indications and faults, a timer that is
    expired when the clock says so; the filestore is [NativeFilestore]. *)
Module Demo.

Inductive indication : Type :=
| IndMetadata (p : MetadataReceivedParams)
| IndSegment (p : FileSegmentRecvdParams)
| IndEof (id : TransactionId)
| IndFinished (p : TransactionFinishedParams).

#[export] Instance log_user : CfdpUser (list indication) := {|
  transaction_indication := fun _ l => l;
  eof_sent_indication := fun _ l => l;
  transaction_finished_indication := fun p l => l ++ [IndFinished p];
  metadata_recvd_indication := fun p l => l ++ [IndMetadata p];
  file_segment_recvd_indication := fun p l => l ++ [IndSegment p];
  report_indication := fun _ l => l;
  suspended_indication := fun _ _ l => l;
  resumed_indication := fun _ _ l => l;
  fault_indication := fun _ _ _ l => l;
  abandoned_indication := fun _ _ _ l => l;
  eof_recvd_indication := fun id l => l ++ [IndEof id];
|}.

#[export] Instance log_faults : UserFaultHandler (list (FaultHandlerCode * ConditionCode * Z)) := {|
  notice_of_suspension_cb := fun _ c p l => l ++ [(NoticeOfSuspension, c, p)];
  notice_of_cancellation_cb := fun _ c p l => l ++ [(NoticeOfCancellation, c, p)];
  abandoned_cb := fun _ c p l => l ++ [(AbandonTransaction, c, p)];
  ignore_cb := fun _ c p l => l ++ [(IgnoreError, c, p)];
|}.

#[export] Instance log_sender : CfdpPacketSender unit (list (list Z)) :=
  fun _ _ raw l => (Ok tt, l ++ [raw]).

(** Timers of five seconds; the clock counts nanoseconds. *)
#[export] Instance std_creator : CheckTimerCreator Z unit StdCheckTimer := fun now _ _ => StdTimer.new now 5.

Definition secs (n : Z) : Z := n * 10 ^ 9.

Definition u16 (v : Z) : UnsignedByteField := mkUbf 2 v.

Definition conf (mode : TransmissionMode) : CommonPduConfig := mkPduConf (u16 1) (u16 2) (u16 0) mode.

(** ["/a"] and ["/tmp/b"] *)
Definition src_name : list Z := [47; 97].
Definition dest_name : list Z := demo_tmp ++ [47; 98].

Definition code_of_status (c : ConditionCode) : Z := if bool_decide (c = NoError) then 0 else 1.

(** Metadata: [closure; checksum type; file size; option length]; file data: the
    offset and the data; EOF: [condition; checksum; file size]. *)
#[export] Instance toy_pdus : PduOps unit := {|
  metadata_from_bytes := fun raw =>
    match raw with
    | [closure; ct; size; opt] =>
        Ok (mkMetadataPdu
              (mkMetadataParams (closure =? 1)
                 (if ct =? 0 then Modular else if ct =? 3 then Crc32 else if ct =? 15 then NullChecksum else OtherChecksum ct)
                 size)
              (conf Unacknowledged) src_name dest_name
              (if opt =? 0 then [] else [2])
              (if opt =? 0 then None else Some [mkTlv true (Some true) (Some [0; 0]) 4]))
    | [] => Ok (mkMetadataPdu (mkMetadataParams false Modular 0) (conf Unacknowledged) [] [] [] None)
    | _ => Err tt
    end;
  file_data_from_bytes := fun raw =>
    match raw with
    | off :: data => if off <? 0 then Err tt else Ok (mkFileDataPdu off data None)
    | [] => Err tt
    end;
  eof_from_bytes := fun raw =>
    match raw with
    | [c; crc; size] => Ok (mkEofPdu (if c =? 0 then NoError else OtherCondition c) crc size)
    | _ => Err tt
    end;
  msg_to_user_from_bytes := fun _ => None;
  finished_writer := fun p =>
    let bytes := [code_of_status (finished_condition_code p);
                  if bool_decide (finished_delivery_code p = Complete) then 0 else 1] in
    mkWriter 2
      (fun buf => if len buf <? 2 then Err tt else Ok (2, bytes ++ drop 2 buf))
      (Ok bytes);
  metadata_params_default := mkMetadataParams false NullChecksum 0;
  pdu_conf_default := conf Acknowledged;
|}.

Definition remote : RemoteEntityConfig :=
  new_with_default_values (u16 1) 1024 1024 true true Unacknowledged Crc32.

Definition table : StdRemoteEntityConfigProvider := mkRemoteTable {[1 := remote]}.

Definition faults : DefaultFaultHandler (list (FaultHandlerCode * ConditionCode * Z)) :=
  mkFaultHandler (<[9%nat := IgnoreError]> (<[4%nat := IgnoreError]> (replicate 10 NoticeOfCancellation))) [].

Definition handler := Dest.new (R:=StdRemoteEntityConfigProvider) (V:=Fs) (T:=StdCheckTimer)
  (mkLocalCfg (u16 2) indication_default faults) 64 (@nil (list Z)) demo_fs table tt.


Abbreviation DestHandler :=
  (DestinationHandler (list (FaultHandlerCode * ConditionCode * Z)) (list (list Z)) Fs
     StdRemoteEntityConfigProvider unit StdCheckTimer).

Lemma no_panic {A} (op : st Fs FilestoreError A) fs : atomic op fs -> (op fs).1 <> Panic.
Proof. unfold atomic. by destruct (op fs) as [[]]. Qed.

#[export] Instance demo_laws : DestLaws unit (list (list Z)) Fs.
Proof.
  constructor.
  - intros raw. simpl. by repeat case_match.
  - intros raw. simpl. by repeat case_match.
  - intros raw. simpl. by repeat case_match.
  - intros raw pdu. simpl. repeat case_match; intros; simplify_eq; by vm_compute.
  - intros raw pdu opts o d Hm Ho Hin Hd. simpl in Hm. repeat case_match; simplify_eq; simpl in *; simplify_eq.
    all: apply list_elem_of_singleton in Hin; subst; simpl in *; simplify_eq; by vm_compute.
  - intros raw fd. simpl. repeat case_match; intros; simplify_eq. simpl. lia.
  - intros p buf. simpl. destruct (len buf <? 2) eqn:Hl; [done|]. unfold len in *. split; [|lia].
    destruct buf as [|a [|b buf]]; [done|done|]. simpl. by rewrite drop_0.
  - done.
  - intros. apply no_panic, create_file_atomic.
  - intros. apply no_panic, truncate_file_atomic.
  - intros. apply no_panic, remove_file_atomic.
  - intros. apply no_panic, write_data_atomic.
  - intros p ct c fs buf. destruct (decide (buf = [])) as [->|Hb].
    + simpl. destruct ct; simpl; try done.
      * unfold Native.calc_modular_checksum. pose proof (open_no_panic fs p).
        destruct (Os.open fs p) as [kd|e|] eqn:Ho; [|done|done]. split; [|done].
        pose proof (calc_modular_checksum_correct fs p kd Ho) as Hm.
        unfold Native.calc_modular_checksum in Hm. rewrite Ho in Hm. by rewrite Hm.
      * pose proof (open_no_panic fs p). destruct (Os.open fs p) as [kd|e|]; [|done|done].
        cbn [map_err]. destruct kd as [k data]. cbn [snd Native.crc_loop length].
        done.
    + destruct (checksum_verify_correct fs p ct c buf Hb) as (buf' & Hl & He & Hn).
      change (Filestore.checksum_verify p ct c fs buf) with (Native.checksum_verify p ct c fs buf).
      rewrite He. split; [|done]. simpl. by destruct ct, (Os.open fs p).
Qed.

(** The file [1..6] in two segments, the second half first, and its modular
    checksum. *)
Definition file : list Z := [1; 2; 3; 4; 5; 6].
Definition raw_metadata : list Z := [1; 0; 6; 0].
Definition metadata : MetadataPdu :=
  mkMetadataPdu (mkMetadataParams true Modular 6) (conf Unacknowledged) src_name dest_name [] None.
Definition raw_eof : list Z := [0; 101188356; 6].
Definition eof : EofPdu := mkEofPdu NoError 101188356 6.
Definition fd1 : FileDataPdu := mkFileDataPdu 3 [4; 5; 6] None.
Definition fd2 : FileDataPdu := mkFileDataPdu 0 [1; 2; 3] None.

Definition transfer : list (option PacketInfo) :=
  [directive MetadataPduType raw_metadata; file_data [3; 4; 5; 6]; file_data [0; 1; 2; 3];
   directive EofPduType raw_eof].

Lemma fault_table : length (handler_array (default_fault_handler (local_cfg handler))) = 10%nat.
Proof. reflexivity. Qed.

Lemma limit_table id cfg : StdRemote.get_remote_config table id = Some cfg -> in_u 32 (check_limit cfg).
Proof.
  unfold StdRemote.get_remote_config, table. simpl.
  intros [_ <-]%lookup_singleton_Some. vm_compute. split; congruence.
Qed.

Lemma handler_reachable : reachable (PduE:=unit) (U:=list indication) handler.
Proof. apply reach_new; [exact fault_table|exact limit_table]. Qed.

Lemma handler_fresh : fresh handler.
Proof. apply (new_fresh (PduE:=unit)); [exact fault_table|exact limit_table]. Qed.

(** A handler in the middle of a transfer. *)
Definition first_call := Dest.state_machine (PduE:=unit) (U:=list indication) 0
  (directive MetadataPduType raw_metadata) (handler, []).

Definition busy_handler : DestHandler := first_call.2.1.

Lemma reachable_dest_inv_witness : state busy_handler = Busy /\ dest_inv busy_handler.
Proof.
  split; [vm_compute; reflexivity|]. apply (reachable_dest_inv (PduE:=unit) (U:=list indication)).
  apply (reach_call 0 (directive MetadataPduType raw_metadata) handler [] first_call.1 busy_handler first_call.2.2).
  - exact handler_reachable.
  - fold first_call. unfold busy_handler. destruct first_call as [? []]. reflexivity.
  - vm_compute. discriminate.
Defined.

Lemma panics_only_unsupported_witness : unsupported (PduE:=unit) handler None.
Proof.
  apply (panics_only_unsupported 0 None handler (@nil indication) (handler, [])).
  - exact handler_reachable.
  - vm_compute. reflexivity.
Defined.

(** The Finished PDU of the toy writer. *)
Lemma demo_closes p sd :
  sd = [[code_of_status (finished_condition_code p); if bool_decide (finished_delivery_code p = Complete) then 0 else 1]] ->
  closes (PduE:=unit) true p (packet_buf handler) (packet_sender handler) sd.
Proof.
  intros ->. exists 2, ([code_of_status (finished_condition_code p);
    if bool_decide (finished_delivery_code p = Complete) then 0 else 1] ++ replicate 62 0), [code_of_status (finished_condition_code p);
    if bool_decide (finished_delivery_code p = Complete) then 0 else 1].
  split_and!; vm_compute; reflexivity.
Qed.

Lemma demo_offers : offers handler metadata remote.
Proof.
  constructor; try done; try (by vm_compute).
  right. split; [vm_compute; reflexivity|].
  split; [split; [vm_compute; reflexivity|apply not_elem_of_empty]|vm_compute; reflexivity].
Qed.

Lemma demo_segments raws fds :
  Forall2 (fun raw fd => file_data_from_bytes raw = Ok fd) raws fds ->
  Forall (fun fd => fd ∈ [fd1; fd2]) fds -> segments_ok file raws fds.
Proof.
  intros Hr Hf. split_and!; [done| |by vm_compute]. rewrite List.Forall_map.
  eapply Forall_impl; [exact Hf|]. intros fd [->|[->|[]%not_elem_of_nil]%elem_of_cons]%elem_of_cons; by vm_compute.
Qed.

Lemma demo_covers fds i : fd1 ∈ fds -> fd2 ∈ fds -> (i < length file)%nat -> covers (map seg_of fds) i.
Proof.
  intros H1 H2 Hi. simpl in Hi. unfold covers.
  destruct (decide (i < 3)%nat).
  - exists (seg_of fd2). split; [by apply (list_elem_of_fmap_2 seg_of)|]. unfold len. simpl. lia.
  - exists (seg_of fd1). split; [by apply (list_elem_of_fmap_2 seg_of)|]. unfold len. simpl. lia.
Qed.

Lemma file_copy_correct_witness :
  exists h' us, calls (PduE:=unit) 0 transfer (handler, @nil indication) = (Ok [0; 0; 0; 1], (h', us)) /\
    native_contents (vfs h') dest_name = Some file /\ state h' = StateIdle /\ packet_sender h' = [[0; 1]].
Proof.
  destruct (file_copy_correct (PduE:=unit) 0 handler (@nil indication) raw_metadata metadata remote
    [[3; 4; 5; 6]; [0; 1; 2; 3]] [fd1; fd2] file raw_eof eof [[0; 1]])
    as (h' & Hc & Hf & _ & Hs & _ & Hsd).
  - exact handler_fresh.
  - exact demo_offers.
  - vm_compute. reflexivity.
  - apply demo_segments; repeat constructor.
  - intros i Hi. apply demo_covers; [set_solver|set_solver|exact Hi].
  - vm_compute. discriminate.
  - vm_compute. reflexivity.
  - vm_compute. reflexivity.
  - vm_compute. reflexivity.
  - vm_compute. reflexivity.
  - apply demo_closes. reflexivity.
  - eexists h', _. split; [exact Hc|]. split; [exact Hf|]. split; [exact Hs|exact Hsd].
Defined.

Lemma late_data_correct_witness :
  exists h1 us h' us', 
    calls (PduE:=unit) 0 [directive MetadataPduType raw_metadata; file_data [3; 4; 5; 6];
      directive EofPduType raw_eof; file_data [0; 1; 2; 3]] (handler, @nil indication) = (Ok [0; 0; 0; 0], (h1, us)) /\
    Dest.state_machine (PduE:=unit) (secs 6) None (h1, us) = (Ok 1, (h', us')) /\
    native_contents (vfs h') dest_name = Some file.
Proof.
  destruct (late_data_correct (PduE:=unit) 0 (secs 6) handler (@nil indication) raw_metadata metadata remote
    [[3; 4; 5; 6]] [fd1] [[0; 1; 2; 3]] [fd2] file raw_eof eof [[0; 1]])
    as (h1 & us & h' & Hc & _ & Hl & Hf & _).
  - exact handler_fresh.
  - exact demo_offers.
  - vm_compute. reflexivity.
  - apply demo_segments; repeat constructor.
  - apply demo_segments; repeat constructor.
  - intros i Hi. apply demo_covers; [set_solver|set_solver|exact Hi].
  - vm_compute. discriminate.
  - vm_compute. reflexivity.
  - vm_compute. reflexivity.
  - vm_compute. reflexivity.
  - vm_compute. reflexivity.
  - vm_compute. reflexivity.
  - vm_compute. reflexivity.
  - vm_compute. reflexivity.
  - vm_compute. reflexivity.
  - apply demo_closes. reflexivity.
  - eexists h1, us, h', _. split; [exact Hc|]. split; [exact Hl|exact Hf].
Defined.

(** A handler that waits for the second half of the file. *)
Definition waiting := calls (PduE:=unit) 0
  [directive MetadataPduType raw_metadata; file_data [3; 4; 5; 6]; directive EofPduType raw_eof]
  (handler, @nil indication).

Definition waiting_handler : DestHandler := waiting.2.1.

Lemma waiting_receiving :
  receiving waiting_handler ReceivingFileDataPdusWithCheckLimitHandling (id_of metadata)
    (mkMetadataParams true Modular 6) remote (conf Unacknowledged) dest_name [0; 0; 0; 4; 5; 6] 3 waiting_handler.
Proof.
  constructor; try (vm_compute; reflexivity).
  - assert (Hr : reachable (PduE:=unit) (U:=list indication) waiting_handler).
    { apply (calls_reachable 0 [directive MetadataPduType raw_metadata; file_data [3; 4; 5; 6];
        directive EofPduType raw_eof] handler [] waiting.1 waiting_handler waiting.2.2 handler_reachable).
      - fold waiting. unfold waiting_handler. destruct waiting as [? []]. reflexivity.
      - vm_compute. discriminate. }
    exact (proj1 (reachable_inv (PduE:=unit) _ Hr)).
  - assert (Hd : fs_denied (vfs waiting_handler) = ∅) by (vm_compute; reflexivity).
    split; [vm_compute; reflexivity|]. rewrite Hd. apply not_elem_of_empty.
Qed.

(** The check limit is 2: at six seconds the timer has expired and is restarted, at
    eleven it has not expired again, at twelve the transfer is cancelled. *)
Lemma check_limit_ends_transfer_witness :
  exists h1 h' us, polls (PduE:=unit) [secs 3; secs 6; secs 11] (waiting_handler, @nil indication) = (Ok [0; 0; 0], (h1, [])) /\
    check_state h1 = (101188356, 1, Some (mkStdCheckTimer 5 (secs 6))) /\
    Dest.state_machine (PduE:=unit) (secs 12) None (h1, []) = (Ok 1, (h', us)) /\
    state h' = StateIdle /\ native_contents (vfs h') dest_name = Some [0; 0; 0; 4; 5; 6].
Proof.
  pose proof (check_limit_ends_transfer (PduE:=unit) waiting_handler (@nil indication) (id_of metadata)
    (mkMetadataParams true Modular 6) remote (conf Unacknowledged) dest_name [0; 0; 0; 4; 5; 6] 3 101188356
    (mkStdCheckTimer 5 0) [[1; 1]] [secs 3; secs 6; secs 11]) as Hw.
  destruct Hw as (h1 & Hp & _ & _ & Hcs & _ & Hend).
  - exact waiting_receiving.
  - vm_compute. reflexivity.
  - vm_compute. reflexivity.
  - vm_compute. reflexivity.
  - vm_compute. reflexivity.
  - apply demo_closes. reflexivity.
  - vm_compute. reflexivity.
  - destruct (Hend (secs 12)) as (h' & He & Hs & _ & _ & Hf & _); [vm_compute; reflexivity|vm_compute; discriminate|].
    exists h1, h'. eexists. split; [exact Hp|]. split; [exact Hcs|]. split; [exact He|]. split; [exact Hs|exact Hf].
Defined.

(** ** Behaviour worth knowing *)

(** [reset] keeps the progress: a second transfer of the same file over the same
    handler is cancelled with a file size error. *)
Example second_transfer_fails :
  let '(r, (h, _)) := calls (PduE:=unit) 0 (transfer ++ transfer) (handler, @nil indication) in
  r = Ok [0; 0; 0; 1; 0; 0; 0; 1] /\ native_contents (vfs h) dest_name = Some file /\
  user_fault_handler (default_fault_handler (local_cfg h)) = [(NoticeOfCancellation, FileSizeError, 12)].
Proof. vm_compute. done. Qed.

(** A Metadata PDU without file names leaves the names of the last transfer in
    place: its file is emptied. *)
Example metadata_only_truncates :
  let '(r, (h, _)) := calls (PduE:=unit) 0 (transfer ++ [directive MetadataPduType []]) (handler, @nil indication) in
  r = Ok [0; 0; 0; 1; 0] /\ native_contents (vfs h) dest_name = Some [].
Proof. vm_compute. done. Qed.

(** A message to the user among the options is a panic. *)
Example message_to_user_panics :
  (Dest.state_machine (PduE:=unit) 0 (directive MetadataPduType [1; 0; 6; 1]) (handler, @nil indication)).1 = Panic.
Proof. vm_compute. reflexivity. Qed.

(** A fault during the EOF that abandons the transaction leaves an idle handler,
    and the same call panics. *)
Example abandon_panics :
  let h := set_fault_handler (mkFaultHandler (replicate 10 AbandonTransaction) []) handler in
  (calls (PduE:=unit) 0 [directive MetadataPduType raw_metadata; directive EofPduType raw_eof]
     (h, @nil indication)).1 = Panic.
Proof. vm_compute. reflexivity. Qed.

End Demo.
