(* ===== verification/Requests.v ===== *)
(** * Requests, replies and modes

    [satrs/src/request.rs] (target IDs, message metadata, senders and receivers
    with their maps), [mode.rs] (modes, mode requests and the trait that handles
    them), [action.rs], [hk.rs], [pus/action.rs] (request and reply types) and
    [power.rs] (power switches).

    The channels of a system are a store [Net] from channel numbers to
    channels; the two ends of a channel are handles into it, so that the sender
    in one component and the receiver in another share the queue. *)

From Stdlib Require Import ZArith Lia Bool.
From stdpp Require Import base list gmap.
From S2P Require Import Prelude Spacepackets Params Tmtc.

Local Open Scope Z_scope.

(** ** Target IDs *)
Record UniqueApidTargetId : Type := mkTargetId { apid : Z; unique_id : Z }.

#[export] Instance UniqueApidTargetId_eq_dec : EqDecision UniqueApidTargetId.
Proof. solve_decision. Defined.

Module TargetId.

Definition new (apid target : Z) : UniqueApidTargetId := mkTargetId apid target.

(** [((self.apid as u64) << 32) | (self.unique_id as u64)] *)
Definition raw (i : UniqueApidTargetId) : Z :=
  Z.lor (as_u 64 (Z.shiftl (as_u 64 (apid i)) 32)) (as_u 64 (unique_id i)).

Definition id (i : UniqueApidTargetId) : Z := raw i.

(** [impl From<u64> for UniqueApidTargetId] *)
Definition from_u64 (v : Z) : UniqueApidTargetId :=
  mkTargetId (as_u 16 (Z.shiftr v 32)) (as_u 32 v).

(** [impl From<UniqueApidTargetId> for u64] *)
Definition into_u64 (i : UniqueApidTargetId) : Z := raw i.

Definition from_pus_tc (tc : PusTc) : res ByteConversionError UniqueApidTargetId :=
  if len (tc_user_data tc) <? 4 then Err (FromSliceTooSmall (len (tc_user_data tc)) 4) else
  let? b := slice (tc_user_data tc) 0 4 in
  Ok (new (tc_apid tc) (from_be_bytes b)).

End TargetId.

(** ** Messages with metadata *)
Record MessageMetadata : Type := mkMetadata { meta_request_id : Z; meta_sender_id : Z }.

#[export] Instance MessageMetadata_eq_dec : EqDecision MessageMetadata.
Proof. solve_decision. Defined.

Record GenericMessage (M : Type) : Type := mkMessage {
  requestor_info : MessageMetadata;
  message : M;
}.

Arguments mkMessage {M} _ _.
Arguments requestor_info {M} _.
Arguments message {M} _.

(** The delegated getters. *)
Definition msg_request_id {M : Type} (m : GenericMessage M) : Z := meta_request_id (requestor_info m).

Definition msg_sender_id {M : Type} (m : GenericMessage M) : Z := meta_sender_id (requestor_info m).

(** ** Senders and receivers

    Both methods take [&self]; [W] is what they change, the channels. *)
Class MessageSender (M S W : Type) : Type :=
  ms_send : S -> GenericMessage M -> st W GenericTargetedMessagingError unit.

Class MessageReceiver (M R W : Type) : Type :=
  mr_try_recv : R -> st W GenericTargetedMessagingError (option (GenericMessage M)).

(** [MessageWithSenderIdReceiver] wraps a receiver and forwards to it. *)
Record MessageReceiverWithId (R : Type) : Type := mkReceiverWithId {
  rwi_local_channel_id : Z;
  reply_receiver : R;
}.

Arguments mkReceiverWithId {R} _ _.
Arguments rwi_local_channel_id {R} _.
Arguments reply_receiver {R} _.

Definition rwi_try_recv_message {M R W : Type} `{MessageReceiver M R W} (r : MessageReceiverWithId R)
    : st W GenericTargetedMessagingError (option (GenericMessage M)) :=
  mr_try_recv (reply_receiver r).

(** *** [std::sync::mpsc] *)
Abbreviation Net M := (gmap Z (channel (GenericMessage M))).

Record mpsc_Sender : Type := Tx { tx_chan : Z }.
Record mpsc_SyncSender : Type := SyncTx { sync_tx_chan : Z }.
Record mpsc_Receiver : Type := Rx { rx_chan : Z }.

Module Mpsc.
Section Mpsc.
Context {M : Type}.

(** A call on a channel of the store.  A handle keeps its channel in the store,
    so the last case does not arise. *)
Definition on_chan {E A : Type} (c : Z) (m : st (channel (GenericMessage M)) E A) : st (Net M) E A :=
  fun w =>
    match w !! c with
    | Some ch => let '(r, ch') := m ch in (r, <[c := ch']> w)
    | None => (Panic, w)
    end.

(** [impl MessageSender for mpsc::Sender] *)
Definition send (s : mpsc_Sender) (m : GenericMessage M)
    : st (Net M) GenericTargetedMessagingError unit :=
  on_chan (tx_chan s) (st_map_err (fun _ => MsgSend RxDisconnected) (Channel.send m)).

(** [impl MessageSender for mpsc::SyncSender] *)
Definition sync_send (s : mpsc_SyncSender) (m : GenericMessage M)
    : st (Net M) GenericTargetedMessagingError unit :=
  on_chan (sync_tx_chan s)
    (let* r := attempt (Channel.try_send m) in
     match r with
     | Err Full => throw (MsgSend (QueueFull None))
     | Err Disconnected => throw (MsgSend RxDisconnected)
     | _ => ret tt
     end).

(** [impl MessageReceiver for mpsc::Receiver] *)
Definition try_recv (r : mpsc_Receiver)
    : st (Net M) GenericTargetedMessagingError (option (GenericMessage M)) :=
  on_chan (rx_chan r)
    (let* x := attempt Channel.try_recv in
     match x with
     | Ok msg => ret (Some msg)
     | Err TryRecvEmpty => ret None
     | Err TryRecvDisconnected => throw (MsgReceive (TxDisconnected None))
     | Panic => lift Panic
     end).

End Mpsc.
End Mpsc.

#[export] Instance mpsc_sender {M} : MessageSender M mpsc_Sender (Net M) := Mpsc.send.
#[export] Instance mpsc_sync_sender {M} : MessageSender M mpsc_SyncSender (Net M) := Mpsc.sync_send.
#[export] Instance mpsc_receiver {M} : MessageReceiver M mpsc_Receiver (Net M) := Mpsc.try_recv.

(** Channels of two message types side by side: requests and replies. *)
#[export] Instance sender_fst {M S W W'} `{MessageSender M S W} : MessageSender M S (W * W') :=
  fun s m => on_fst (ms_send s m).
#[export] Instance sender_snd {M S W W'} `{MessageSender M S W'} : MessageSender M S (W * W') :=
  fun s m => on_snd (ms_send s m).
#[export] Instance receiver_fst {M R W W'} `{MessageReceiver M R W} : MessageReceiver M R (W * W') :=
  fun r => on_fst (mr_try_recv r).
#[export] Instance receiver_snd {M R W W'} `{MessageReceiver M R W'} : MessageReceiver M R (W * W') :=
  fun r => on_snd (mr_try_recv r).

(** *** Maps from target IDs to senders *)
Abbreviation MessageSenderMap S := (gmap Z S).

Module SenderMap.

Definition default {S : Type} : MessageSenderMap S := ∅.

Definition add_message_target {S : Type} (target_id : Z) (message_sender : S)
    (m : MessageSenderMap S) : MessageSenderMap S := <[target_id := message_sender]> m.

Definition send_message {M S W : Type} `{MessageSender M S W} (self : MessageSenderMap S)
    (requestor_info : MessageMetadata) (target_channel_id : Z) (message : M)
    : st W GenericTargetedMessagingError unit :=
  match self !! target_channel_id with
  | Some sender => ms_send sender (mkMessage requestor_info message)
  | None => throw (MsgSend (TargetDoesNotExist target_channel_id))
  end.

End SenderMap.

Record MessageSenderAndReceiver (S R : Type) : Type := mkSenderAndReceiver {
  local_channel_id : Z;
  message_sender_map : MessageSenderMap S;
  message_receiver : R;
}.

Arguments mkSenderAndReceiver {S R} _ _ _.
Arguments local_channel_id {S R} _.
Arguments message_sender_map {S R} _.
Arguments message_receiver {S R} _.

Module SenderAndReceiver.
Section SenderAndReceiver.
Context {TO FROM S R W : Type} `{MessageSender TO S W} `{MessageReceiver FROM R W}.

Definition new (local_channel_id : Z) (message_receiver : R) : MessageSenderAndReceiver S R :=
  mkSenderAndReceiver local_channel_id SenderMap.default message_receiver.

Definition add_message_target (target_id : Z) (message_sender : S)
    (self : MessageSenderAndReceiver S R) : MessageSenderAndReceiver S R :=
  mkSenderAndReceiver (local_channel_id self)
    (SenderMap.add_message_target target_id message_sender (message_sender_map self))
    (message_receiver self).

Definition send_message (self : MessageSenderAndReceiver S R) (request_id target_id : Z)
    (message : TO) : st W GenericTargetedMessagingError unit :=
  SenderMap.send_message (message_sender_map self)
    (mkMetadata request_id (local_channel_id self)) target_id message.

Definition try_recv_message (self : MessageSenderAndReceiver S R)
    : st W GenericTargetedMessagingError (option (GenericMessage FROM)) :=
  mr_try_recv (message_receiver self).

End SenderAndReceiver.
End SenderAndReceiver.

Record RequestAndReplySenderAndReceiver (S0 R0 S1 R1 : Type) : Type := mkRequestAndReply {
  rr_local_channel_id : Z;
  request_sender_map : MessageSenderMap S0;
  rr_reply_receiver : R0;
  request_receiver : R1;
  reply_sender_map : MessageSenderMap S1;
}.

Arguments mkRequestAndReply {S0 R0 S1 R1} _ _ _ _ _.
Arguments rr_local_channel_id {S0 R0 S1 R1} _.
Arguments request_sender_map {S0 R0 S1 R1} _.
Arguments rr_reply_receiver {S0 R0 S1 R1} _.
Arguments request_receiver {S0 R0 S1 R1} _.
Arguments reply_sender_map {S0 R0 S1 R1} _.

(** ** Modes *)
Record ModeAndSubmode : Type := mkMode { mode : Z; submode : Z }.

#[export] Instance ModeAndSubmode_eq_dec : EqDecision ModeAndSubmode.
Proof. solve_decision. Defined.

Module ModeSubmode.

(** [size_of::<Mode>() + size_of::<Submode>()] *)
Definition RAW_LEN : Z := 4 + 2.

Definition new_mode_only (mode : Z) : ModeAndSubmode := mkMode mode 0.

Definition from_be_bytes (buf : list Z) : res ByteConversionError ModeAndSubmode :=
  if len buf <? 6 then Err (FromSliceTooSmall (len buf) RAW_LEN) else
  let? m := slice buf 0 4 in
  let? s := slice buf 4 (4 + 2) in
  Ok (mkMode (Prelude.from_be_bytes m) (Prelude.from_be_bytes s)).

Definition write_to_be_bytes (self : ModeAndSubmode) : st (list Z) ByteConversionError Z :=
  let* _ := asks (fun buf =>
              if len buf <? RAW_LEN then Err (ToSliceTooSmall (len buf) RAW_LEN) else Ok tt) in
  let* b := asks (fun buf => copy_into buf 0 4 (to_be_bytes 4 (mode self))) in
  let* _ := modify_state (fun _ => b) in
  let* b := asks (fun buf => copy_into buf 4 RAW_LEN (to_be_bytes 2 (submode self))) in
  let* _ := modify_state (fun _ => b) in
  ret RAW_LEN.

End ModeSubmode.

Record TargetedModeCommand : Type := mkTargetedModeCommand {
  address : Z;
  mode_submode : ModeAndSubmode;
}.

Inductive ModeRequest : Type :=
| ModeInfo (m : ModeAndSubmode)
| SetMode (m : ModeAndSubmode)
| ReadMode
| AnnounceMode
| AnnounceModeRecursive.

(** *** Result codes ([satrs-shared/src/res_code.rs]) *)
Record ResultU16 : Type := mkResultU16 { group_id : Z; result_unique_id : Z }.

Module ResultCode.

Definition raw (r : ResultU16) : Z :=
  Z.lor (as_u 16 (Z.shiftl (as_u 16 (group_id r)) 8)) (as_u 16 (result_unique_id r)).

(** [impl From<u16> for ResultU16] *)
Definition from_u16 (value : Z) : ResultU16 :=
  mkResultU16 (as_u 8 (Z.land (Z.shiftr value 8) 255)) (as_u 8 (Z.land value 255)).

Definition from_be_bytes (bytes : list Z) : ResultU16 := from_u16 (Prelude.from_be_bytes bytes).

(** [impl UnsignedEnum for ResultU16] *)
Definition write_to_be_bytes (r : ResultU16) (buf : list Z) : res ByteConversionError (Z * list Z) :=
  if len buf <? 2 then Err (ToSliceTooSmall (len buf) 2) else
  let? buf := set_index buf 0 (group_id r) in
  let? buf := set_index buf 1 (result_unique_id r) in
  Ok (2, buf).

Definition as_enum (r : ResultU16) : EcssEnum :=
  {| enum_size := 2; enum_value := raw r; enum_write := write_to_be_bytes r |}.

End ResultCode.

Inductive ModeReply : Type :=
| ModeReplyOk (m : ModeAndSubmode)
| CantReachMode (reason : ResultU16)
| WrongMode (expected reached : ModeAndSubmode).

Inductive ModeError : Type := ModeMessaging (e : GenericTargetedMessagingError).

#[export] Instance ResultU16_eq_dec : EqDecision ResultU16.
Proof. solve_decision. Defined.

#[export] Instance ModeRequest_eq_dec : EqDecision ModeRequest.
Proof. solve_decision. Defined.

#[export] Instance ModeReply_eq_dec : EqDecision ModeReply.
Proof. solve_decision. Defined.

(** *** Traits *)
Class ModeProvider (H : Type) : Type := mode_and_submode : H -> ModeAndSubmode.

Definition provided_mode {H : Type} `{ModeProvider H} (h : H) : Z := mode (mode_and_submode h).

Definition provided_submode {H : Type} `{ModeProvider H} (h : H) : Z := submode (mode_and_submode h).

(** [H] is the handler with the channels it sends on. *)
Class ModeRequestHandler (H E : Type) `{ModeProvider H} : Type := {
  start_transition : MessageMetadata -> ModeAndSubmode -> st H E unit;
  announce_mode : option MessageMetadata -> bool -> H -> H;
  handle_mode_reached : option MessageMetadata -> st H E unit;
  handle_mode_info : MessageMetadata -> ModeAndSubmode -> st H E unit;
  mrh_send_mode_reply : MessageMetadata -> ModeReply -> st H E unit;
}.

(** Provided method [handle_mode_request]. *)
Definition handle_mode_request {H E : Type} `{ModeRequestHandler H E}
    (request : GenericMessage ModeRequest) : st H E unit :=
  match message request with
  | SetMode m => start_transition (requestor_info request) m
  | ReadMode =>
      let* m := gets mode_and_submode in
      mrh_send_mode_reply (requestor_info request) (ModeReplyOk m)
  | AnnounceMode => modify_state (announce_mode (Some (requestor_info request)) false)
  | AnnounceModeRecursive => modify_state (announce_mode (Some (requestor_info request)) true)
  | ModeInfo info => handle_mode_info (requestor_info request) info
  end.

(** *** Mode requests and replies on the messaging types

    [ModeRequestHandlerInterface] and [ModeRequestorInterface] are
    [MessageSenderAndReceiver]; the inherent methods and the implementations of
    [ModeReplySender] and the other traits do the same. *)
Module ModeHandlerIf.
Section ModeHandlerIf.
Context {S R W : Type} `{MessageSender ModeReply S W} `{MessageReceiver ModeRequest R W}.

Definition try_recv_mode_request (self : MessageSenderAndReceiver S R)
    : st W GenericTargetedMessagingError (option (GenericMessage ModeRequest)) :=
  SenderAndReceiver.try_recv_message self.

(** The requestor is the target of the reply. *)
Definition send_mode_reply (self : MessageSenderAndReceiver S R) (requestor_info : MessageMetadata)
    (reply : ModeReply) : st W GenericTargetedMessagingError unit :=
  SenderAndReceiver.send_message self (meta_request_id requestor_info)
    (meta_sender_id requestor_info) reply.

End ModeHandlerIf.
End ModeHandlerIf.

Module ModeRequestorIf.
Section ModeRequestorIf.
Context {S R W : Type} `{MessageSender ModeRequest S W} `{MessageReceiver ModeReply R W}.

Definition try_recv_mode_reply (self : MessageSenderAndReceiver S R)
    : st W GenericTargetedMessagingError (option (GenericMessage ModeReply)) :=
  SenderAndReceiver.try_recv_message self.

Definition send_mode_request (self : MessageSenderAndReceiver S R) (request_id target_id : Z)
    (request : ModeRequest) : st W GenericTargetedMessagingError unit :=
  SenderAndReceiver.send_message self request_id target_id request.

End ModeRequestorIf.
End ModeRequestorIf.

(** [ModeInterface]: both roles in one component. *)
Module ModeIf.
Section ModeIf.
Context {S0 R0 S1 R1 W : Type} `{MessageSender ModeRequest S0 W} `{MessageReceiver ModeReply R0 W}
  `{MessageSender ModeReply S1 W} `{MessageReceiver ModeRequest R1 W}.
Abbreviation t := (RequestAndReplySenderAndReceiver S0 R0 S1 R1).

Definition new (local_channel_id : Z) (request_receiver : R1) (reply_receiver : R0) : t :=
  mkRequestAndReply local_channel_id SenderMap.default reply_receiver request_receiver
    SenderMap.default.

Definition add_request_target (target_id : Z) (request_sender : S0) (self : t) : t :=
  mkRequestAndReply (rr_local_channel_id self)
    (SenderMap.add_message_target target_id request_sender (request_sender_map self))
    (rr_reply_receiver self) (request_receiver self) (reply_sender_map self).

Definition add_reply_target (target_id : Z) (reply_sender : S1) (self : t) : t :=
  mkRequestAndReply (rr_local_channel_id self) (request_sender_map self)
    (rr_reply_receiver self) (request_receiver self)
    (SenderMap.add_message_target target_id reply_sender (reply_sender_map self)).

Definition send_mode_request (self : t) (request_id target_id : Z) (request : ModeRequest)
    : st W GenericTargetedMessagingError unit :=
  SenderMap.send_message (request_sender_map self)
    (mkMetadata request_id (rr_local_channel_id self)) target_id request.

Definition send_mode_reply (self : t) (requestor_info : MessageMetadata) (reply : ModeReply)
    : st W GenericTargetedMessagingError unit :=
  SenderMap.send_message (reply_sender_map self)
    (mkMetadata (meta_request_id requestor_info) (rr_local_channel_id self))
    (meta_sender_id requestor_info) reply.

Definition try_recv_mode_request (self : t)
    : st W GenericTargetedMessagingError (option (GenericMessage ModeRequest)) :=
  mr_try_recv (request_receiver self).

Definition try_recv_mode_reply (self : t)
    : st W GenericTargetedMessagingError (option (GenericMessage ModeReply)) :=
  mr_try_recv (rr_reply_receiver self).

End ModeIf.
End ModeIf.

(** ** Actions and housekeeping *)
Inductive ActionRequestVariant : Type :=
| NoData
| StoreData (addr : Z)
| VecData (data : list Z).

Record ActionRequest : Type := mkActionRequest {
  action_id : Z;
  action_variant : ActionRequestVariant;
}.

(** [pus/action.rs]: replies for the verification process. *)
Inductive ActionReplyVariant : Type :=
| ActCompleted
| ActStepSuccess (step : Z)
| ActCompletionFailed (error_code : ResultU16) (params : option Params)
| ActStepFailed (error_code : ResultU16) (step : Z) (params : option Params).

Record ActionReplyPus : Type := mkActionReply {
  reply_action_id : Z;
  reply_variant : ActionReplyVariant;
}.

Definition new_action_reply (replier_info : MessageMetadata) (action_id : Z)
    (reply : ActionReplyVariant) : GenericMessage ActionReplyPus :=
  mkMessage replier_info (mkActionReply action_id reply).

(** [ActionRequestHandlerInterface] and [ActionRequestorInterface]. *)
Module ActionIf.
Section ActionIf.
Context {S R W : Type}.

Definition try_recv_action_request `{MessageReceiver ActionRequest R W}
    (self : MessageSenderAndReceiver S R)
    : st W GenericTargetedMessagingError (option (GenericMessage ActionRequest)) :=
  SenderAndReceiver.try_recv_message self.

Definition send_action_reply `{MessageSender ActionReplyPus S W} (self : MessageSenderAndReceiver S R)
    (request_id target_id : Z) (reply : ActionReplyPus) : st W GenericTargetedMessagingError unit :=
  SenderAndReceiver.send_message self request_id target_id reply.

Definition try_recv_action_reply `{MessageReceiver ActionReplyPus R W}
    (self : MessageSenderAndReceiver S R)
    : st W GenericTargetedMessagingError (option (GenericMessage ActionReplyPus)) :=
  SenderAndReceiver.try_recv_message self.

Definition send_action_request `{MessageSender ActionRequest S W}
    (self : MessageSenderAndReceiver S R) (request_id target_id : Z) (request : ActionRequest)
    : st W GenericTargetedMessagingError unit :=
  SenderAndReceiver.send_message self request_id target_id request.

End ActionIf.
End ActionIf.

Inductive HkRequestVariant : Type :=
| OneShot
| EnablePeriodic
| DisablePeriodic
| ModifyCollectionInterval (factor : Z).

Record HkRequest : Type := mkHkRequest { hk_unique_id : Z; hk_variant : HkRequestVariant }.

Record TargetedHkRequest : Type := mkTargetedHkRequest {
  hk_target_id : Z;
  hk_request : HkRequestVariant;
}.

(** ** Power switches ([power.rs]) *)
Inductive SwitchState : Type := SwitchOff | SwitchOn | SwitchUnknown | SwitchFaulty.
Inductive SwitchStateBinary : Type := BinOff | BinOn.

#[export] Instance SwitchState_eq_dec : EqDecision SwitchState.
Proof. solve_decision. Defined.

Record SwitchRequest : Type := mkSwitchRequest {
  switch_id : Z;
  target_state : SwitchStateBinary;
}.

Module Power.

(** [TryFrom<SwitchState> for SwitchStateBinary] *)
Definition binary_try_from (value : SwitchState) : res unit SwitchStateBinary :=
  match value with
  | SwitchOff => Ok BinOff
  | SwitchOn => Ok BinOn
  | _ => Err tt
  end.

(** [impl<T: Into<u64>> From<T> for SwitchStateBinary] *)
Definition binary_from (value : Z) : SwitchStateBinary := if value =? 0 then BinOff else BinOn.

(** [From<SwitchStateBinary> for SwitchState] *)
Definition state_from (value : SwitchStateBinary) : SwitchState :=
  match value with BinOff => SwitchOff | BinOn => SwitchOn end.

(** [impl PowerSwitcherCommandSender for MpscSwitchCmdSender] *)
Definition send_switch_cmd (state : SwitchStateBinary) (requestor_info : MessageMetadata)
    (switch_id : Z) : st (channel (GenericMessage SwitchRequest)) GenericSendError unit :=
  st_map_err (fun _ => RxDisconnected)
    (Channel.send (mkMessage requestor_info (mkSwitchRequest switch_id state))).

(** [impl PowerSwitcherCommandSender for MpscSwitchCmdSenderBounded] *)
Definition send_switch_cmd_bounded (state : SwitchStateBinary) (requestor_info : MessageMetadata)
    (switch_id : Z) : st (channel (GenericMessage SwitchRequest)) GenericSendError unit :=
  st_map_err (fun e => match e with
                       | Full => QueueFull None
                       | Disconnected => RxDisconnected
                       end)
    (Channel.try_send (mkMessage requestor_info (mkSwitchRequest switch_id state))).

End Power.

(** [trait PowerSwitchInfo]; [is_switch_on] is a provided method. *)
Class PowerSwitchInfo (T P E : Type) : Type := switch_state : P -> T -> res E SwitchState.

Definition is_switch_on {T P E : Type} `{PowerSwitchInfo T P E} (p : P) (switch : T) : res E bool :=
  let? s := switch_state p switch in
  Ok (bool_decide (s = SwitchOn)).

(** ** Lemmas on the channels *)
Section Channels.
Context {M : Type}.
Implicit Types (w : Net M) (ch : channel (GenericMessage M)) (m : GenericMessage M).

Lemma send_alive w c ch m :
  w !! c = Some ch -> rx_alive ch = true ->
  Mpsc.send (Tx c) m w = (Ok tt, <[c := Channel.set_queue (queue ch ++ [m]) ch]> w).
Proof. intros Hc Ha. unfold Mpsc.send, Mpsc.on_chan, Channel.send. run_monad. by rewrite Hc, Ha. Qed.

Lemma try_recv_head w c ch m q :
  w !! c = Some ch -> queue ch = m :: q ->
  Mpsc.try_recv (Rx c) w = (Ok (Some m), <[c := Channel.set_queue q ch]> w).
Proof.
  intros Hc Hq. unfold Mpsc.try_recv, Mpsc.on_chan, Channel.try_recv. run_monad.
  rewrite Hc, Hq. done.
Qed.

Lemma try_recv_empty w c ch :
  w !! c = Some ch -> queue ch = [] ->
  Mpsc.try_recv (Rx c) w =
    (if tx_alive ch then Ok None else Err (MsgReceive (TxDisconnected None)), w).
Proof.
  intros Hc Hq. unfold Mpsc.try_recv, Mpsc.on_chan, Channel.try_recv. run_monad.
  rewrite Hc, Hq. by destruct (tx_alive ch); cbn; rewrite (insert_id (M:=gmap Z) w c ch Hc).
Qed.

Lemma set_queue_twice (q q' : list (GenericMessage M)) ch :
  Channel.set_queue q' (Channel.set_queue q ch) = Channel.set_queue q' ch.
Proof. done. Qed.

Lemma set_queue_id ch : Channel.set_queue (queue ch) ch = ch.
Proof. by destruct ch. Qed.

End Channels.



(** ** Target IDs and modes as numbers *)
Definition target_id_ok (i : UniqueApidTargetId) : Prop := in_u 16 (apid i) /\ in_u 32 (unique_id i).

Lemma target_id_raw i : target_id_ok i -> TargetId.raw i = apid i * 2 ^ 32 + unique_id i.
Proof.
  intros [Ha Hu]. unfold in_u in *. unfold TargetId.raw, as_u.
  rewrite (Z.mod_small (apid i)), (Z.mod_small (unique_id i)) by lia.
  rewrite Z.mod_small by (rewrite Z.shiftl_mul_pow2 by lia; lia).
  apply lor_shiftl_add; lia.
Qed.

(** A target ID is the APID above the 32 bits of the unique ID: [raw] and
    [From<u64>] are inverse to each other on the IDs with a [u16] APID and on the
    numbers below 2^48, so that different targets have different component IDs,
    and every ID fits a [u64].  [from_pus_tc] takes the APID of the telecommand
    and the first four bytes of its data, and fails exactly when there are less
    than four. *)
Theorem target_id_roundtrip (i : UniqueApidTargetId) (v : Z) (tc : PusTc) :
  target_id_ok i -> in_u 48 v ->
  in_u 64 (TargetId.raw i) /\
  TargetId.from_u64 (TargetId.raw i) = i /\
  TargetId.into_u64 (TargetId.from_u64 v) = v /\
  TargetId.from_pus_tc tc =
    (if len (tc_user_data tc) <? 4 then Err (FromSliceTooSmall (len (tc_user_data tc)) 4)
     else Ok (mkTargetId (tc_apid tc) (from_be_bytes (take 4 (tc_user_data tc))))).
Proof.
  intros Hi Hv. pose proof (target_id_raw i Hi) as Hr. destruct Hi as [Ha Hu].
  unfold in_u in *. split; [lia|]. split_and!.
  - unfold TargetId.from_u64, as_u. rewrite Hr, Z.shiftr_div_pow2 by lia.
    destruct (div_mod_fields (apid i) (unique_id i) 32) as [-> ->]; [lia|lia|].
    rewrite Z.mod_small by lia. by destruct i.
  - assert (0 <= v / 2 ^ 32 < 2 ^ 16).
    { split; [apply Z.div_pos|apply Z.div_lt_upper_bound]; lia. }
    unfold TargetId.into_u64. rewrite target_id_raw.
    + unfold TargetId.from_u64, as_u. cbn [apid unique_id]. rewrite Z.shiftr_div_pow2 by lia.
      rewrite (Z.mod_small (v / _)) by lia. pose proof (Z.div_mod v (2 ^ 32)). lia.
    + unfold target_id_ok, TargetId.from_u64, as_u, in_u. cbn [apid unique_id].
      split; apply Z.mod_pos_bound; lia.
  - unfold TargetId.from_pus_tc. split_match; [done|]. rewrite slice_ok by lia. done.
Qed.

Lemma target_id_roundtrip_witness :
  TargetId.raw (mkTargetId 5 7) = 5 * 2 ^ 32 + 7 /\
  TargetId.from_u64 (TargetId.raw (mkTargetId 5 7)) = mkTargetId 5 7.
Proof.
  split; [reflexivity|].
  apply (target_id_roundtrip (mkTargetId 5 7) 0 (mkPusTc 0 0 0 0 0 0 0 0 [])); vm_compute; intuition congruence.
Defined.

Lemma result_code_write r buf :
  2 <= len buf -> ResultCode.write_to_be_bytes r buf = Ok (2, [group_id r; result_unique_id r] ++ drop 2 buf).
Proof.
  intros Hl. unfold ResultCode.write_to_be_bytes. destruct buf as [|a [|b buf]]; [len_lia|len_lia|].
  pose proof (len_nonneg buf). rewrite !len_cons in *.
  destruct (1 + (1 + len buf) <? 2) eqn:E; [lia|].
  rewrite set_index_ok by (rewrite !len_cons; lia). cbn [res_bind].
  rewrite set_index_ok by (unfold len in *; rewrite length_insert; simpl; lia). done.
Qed.

Lemma mode_from_bytes m rest :
  in_u 32 (mode m) -> in_u 16 (submode m) ->
  ModeSubmode.from_be_bytes ((to_be_bytes 4 (mode m) ++ to_be_bytes 2 (submode m)) ++ rest) = Ok m.
Proof.
  intros Hm Hs. unfold ModeSubmode.from_be_bytes, ModeSubmode.RAW_LEN.
  rewrite !len_app, !len_to_be_bytes. pose proof (len_nonneg rest).
  destruct (_ <? 6) eqn:E; [apply Z.ltb_lt in E; lia|]. rewrite <- app_assoc, slice_front by (by rewrite len_to_be_bytes).
  cbn [res_bind]. rewrite slice_at by (by rewrite len_to_be_bytes). cbn [res_bind].
  rewrite !from_to_be_bytes_small by done. by destruct m.
Qed.

Lemma mode_write m buf :
  6 <= len buf ->
  ModeSubmode.write_to_be_bytes m buf =
    (Ok 6, (to_be_bytes 4 (mode m) ++ to_be_bytes 2 (submode m)) ++ drop 6 buf).
Proof.
  intros Hl. unfold ModeSubmode.write_to_be_bytes, ModeSubmode.RAW_LEN, st_bind, asks, modify_state, ret.
  change (4 + 2) with 6. destruct (len buf <? 6) eqn:E; [lia|].
  rewrite (copy_into_prefix buf [] (to_be_bytes 4 (mode m)) 0 4 eq_refl)
    by (rewrite ?len_to_be_bytes; lia).
  rewrite (copy_into_prefix buf ([] ++ _) (to_be_bytes 2 (submode m)))
    by (cbn [app]; rewrite ?len_to_be_bytes; lia).
  done.
Qed.

(** A mode and its submode round-trip through their six bytes: written to a
    buffer that holds them they take its front and leave the rest as it was, and
    are read back from it; a buffer that is too small is refused by both, and not
    written to. *)
Theorem mode_bytes_roundtrip (m : ModeAndSubmode) (buf : list Z) :
  in_u 32 (mode m) -> in_u 16 (submode m) ->
  let bytes := to_be_bytes 4 (mode m) ++ to_be_bytes 2 (submode m) in
  if len buf <? 6 then
    ModeSubmode.write_to_be_bytes m buf = (Err (ToSliceTooSmall (len buf) 6), buf) /\
    ModeSubmode.from_be_bytes buf = Err (FromSliceTooSmall (len buf) 6)
  else
    ModeSubmode.write_to_be_bytes m buf = (Ok 6, bytes ++ drop 6 buf) /\
    ModeSubmode.from_be_bytes (bytes ++ drop 6 buf) = Ok m.
Proof.
  intros Hm Hs bytes. destruct (Z.ltb_spec (len buf) 6) as [Hl|Hl].
  - unfold ModeSubmode.write_to_be_bytes, ModeSubmode.from_be_bytes, ModeSubmode.RAW_LEN, st_bind, asks.
    change (4 + 2) with 6. destruct (len buf <? 6) eqn:E; [done|lia].
  - split; [by apply mode_write|by apply mode_from_bytes].
Qed.

Lemma mode_bytes_roundtrip_witness :
  ModeSubmode.from_be_bytes (([0; 0; 0; 2] ++ [0; 5]) ++ [9; 9]) = Ok (mkMode 2 5).
Proof.
  pose proof (mode_bytes_roundtrip (mkMode 2 5) [1; 1; 1; 1; 1; 1; 9; 9]) as H.
  cbv [len length] in H. apply H; vm_compute; intuition congruence.
Defined.

(** ** Delivery of messages

    [send_all] sends a list of messages over one map of senders and records the
    result of each call; [inbox] are the messages of the list that belong on
    channel [c]; [recv_n] polls a receiver [n] times. *)
Section Delivery.
Context {M : Type}.
Abbreviation sends := (list (MessageMetadata * Z * M)).
Abbreviation TME := GenericTargetedMessagingError.
Implicit Types (senders : MessageSenderMap mpsc_Sender) (l : sends) (w : Net M).

Fixpoint send_all senders l : st (Net M) TME (list (res TME unit)) :=
  match l with
  | [] => ret []
  | (info, target, msg) :: l' =>
      let* r := attempt (SenderMap.send_message senders info target msg) in
      let* rs := send_all senders l' in
      ret (r :: rs)
  end.

Definition goes_to senders (target c : Z) : Prop := tx_chan <$> senders !! target = Some c.

#[export] Instance goes_to_dec senders target c : Decision (goes_to senders target c).
Proof. unfold goes_to. apply _. Defined.

Definition inbox senders (c : Z) l : list (GenericMessage M) :=
  omap (fun x => let '(info, target, msg) := x in
          if decide (goes_to senders target c) then Some (mkMessage info msg) else None) l.

Definition send_result senders (x : MessageMetadata * Z * M) : res TME unit :=
  match senders !! x.1.2 with
  | Some _ => Ok tt
  | None => Err (MsgSend (TargetDoesNotExist x.1.2))
  end.

Fixpoint recv_n (c : Z) (n : nat) : st (Net M) TME (list (option (GenericMessage M))) :=
  match n with
  | O => ret []
  | S n' =>
      let* x := Mpsc.try_recv (Rx c) in
      let* xs := recv_n c n' in
      ret (x :: xs)
  end.

(** Every sender of the map leads to a channel whose receiver exists. *)
Definition connected senders w : Prop :=
  forall target s, senders !! target = Some s ->
    exists ch, w !! tx_chan s = Some ch /\ rx_alive ch = true.

(** The channels after messages were queued on them. *)
Definition queued (f : Z -> list (GenericMessage M)) w w' : Prop :=
  forall c, w' !! c = (fun ch => Channel.set_queue (queue ch ++ f c) ch) <$> w !! c.

Lemma connected_queued senders f w w' : connected senders w -> queued f w w' -> connected senders w'.
Proof.
  intros Hc Hq target s Hs. destruct (Hc target s Hs) as (ch & Hw & Ha).
  rewrite Hq, Hw. eexists. split; [done|]. done.
Qed.

Lemma send_message_queued senders info target msg w :
  connected senders w ->
  exists w', attempt (F:=TME) (SenderMap.send_message senders info target msg) w =
      (Ok (send_result senders (info, target, msg)), w') /\
    queued (fun c => inbox senders c [(info, target, msg)]) w w'.
Proof.
  intros Hc. unfold attempt, SenderMap.send_message, send_result, ms_send, mpsc_sender. cbn [fst snd].
  destruct (senders !! target) as [[c]|] eqn:Hs.
  - destruct (Hc _ _ Hs) as (ch & Hw & Ha). cbn [tx_chan] in Hw.
    rewrite (send_alive w c ch) by done. eexists. split; [done|]. intros c'.
    unfold inbox. cbn [omap list_omap]. destruct (decide (c' = c)) as [->|Hne].
    + rewrite lookup_insert_eq, Hw, decide_True by (unfold goes_to; by rewrite Hs). done.
    + rewrite lookup_insert_ne, decide_False by (unfold goes_to; rewrite ?Hs; simpl; congruence).
      destruct (w !! c') as [ch'|]; [|done]. simpl. by rewrite app_nil_r, set_queue_id.
  - eexists. split; [done|]. intros c'. unfold inbox. cbn [omap list_omap].
    rewrite decide_False by (unfold goes_to; by rewrite Hs).
    destruct (w !! c') as [ch'|]; [|done]. simpl. by rewrite app_nil_r, set_queue_id.
Qed.

Lemma send_all_queued senders l w :
  connected senders w ->
  exists w', send_all senders l w = (Ok (send_result senders <$> l), w') /\
    queued (fun c => inbox senders c l) w w'.
Proof.
  revert w. induction l as [|[[info target] msg] l IH]; intros w Hc.
  - exists w. split; [done|]. intros c. destruct (w !! c) as [ch|]; [|done].
    simpl. by rewrite app_nil_r, set_queue_id.
  - destruct (send_message_queued senders info target msg w Hc) as (w1 & Hr & Hq1).
    destruct (IH w1) as (w2 & Hl & Hq2); [by eapply connected_queued|].
    exists w2. split.
    + cbn [send_all]. unfold st_bind at 1. rewrite Hr. unfold st_bind. by rewrite Hl.
    + intros c. rewrite Hq2, Hq1. destruct (w !! c) as [ch|]; [|done].
      cbn [fmap option_fmap option_map queue Channel.set_queue]. rewrite <- app_assoc, set_queue_twice.
      unfold inbox. cbn [omap list_omap]. by case_decide.
Qed.

Lemma recv_n_all w c ch :
  w !! c = Some ch ->
  recv_n c (length (queue ch)) w = (Ok (Some <$> queue ch), <[c := Channel.set_queue [] ch]> w).
Proof.
  remember (queue ch) as q eqn:Hq. revert w ch Hq.
  induction q as [|m q IH]; intros w ch Hq Hw; symmetry in Hq.
  - rewrite <- Hq at 3. rewrite set_queue_id, (insert_id (M:=gmap Z) w c ch Hw). done.
  - cbn [length recv_n]. unfold st_bind at 1. rewrite (try_recv_head w c ch m q Hw Hq).
    unfold st_bind. rewrite (IH _ (Channel.set_queue q ch)) by (done || apply lookup_insert_eq).
    rewrite insert_insert_eq. done.
Qed.

End Delivery.

(** Messages sent over a map of senders are delivered exactly once, in the
    order they were sent, to the channel of their target and with the metadata of
    the sender: polling a receiver returns what was on its queue before and then
    the messages for it, and nothing after them.  A message for a target that is
    not in the map is refused with [TargetDoesNotExist], and reaches nobody. *)
Theorem messages_delivered {M} (senders : MessageSenderMap mpsc_Sender)
    (l : list (MessageMetadata * Z * M)) (w : Net M) (c : Z) ch :
  connected senders w -> w !! c = Some ch -> tx_alive ch = true ->
  exists w',
    send_all senders l w = (Ok (send_result senders <$> l), w') /\
    (recv_n c (length (queue ch ++ inbox senders c l)) w').1 =
      Ok (Some <$> (queue ch ++ inbox senders c l)) /\
    (let* _ := recv_n c (length (queue ch ++ inbox senders c l)) in Mpsc.try_recv (Rx c)) w' =
      (Ok None, <[c := Channel.set_queue [] ch]> w').
Proof.
  intros Hc Hw Ha. destruct (send_all_queued senders l w Hc) as (w' & Hs & Hq).
  exists w'. split; [done|]. specialize (Hq c). rewrite Hw in Hq. simpl in Hq.
  pose proof (recv_n_all w' c _ Hq) as Hr. cbn [queue Channel.set_queue] in Hr.
  unfold st_bind. rewrite Hr. split; [done|].
  rewrite (try_recv_empty _ c (Channel.set_queue [] ch)); [|apply lookup_insert_eq|done].
  by cbn; rewrite Ha.
Qed.

Definition ex_chan {M : Type} : channel (GenericMessage M) := mkChannel [] None true true.

Lemma messages_delivered_witness :
  exists w', send_all {[ 7 := Tx 1 ]} [(mkMetadata 3 2, 7, ReadMode); (mkMetadata 4 2, 9, AnnounceMode)]
      {[ 1 := ex_chan ]} =
      (Ok [Ok tt; Err (MsgSend (TargetDoesNotExist 9))], w') /\
    (recv_n 1 1 w').1 = Ok [Some (mkMessage (mkMetadata 3 2) ReadMode)].
Proof.
  destruct (messages_delivered {[ 7 := Tx 1 ]}
    [(mkMetadata 3 2, 7, ReadMode); (mkMetadata 4 2, 9, AnnounceMode)] {[ 1 := ex_chan ]} 1 ex_chan)
    as (w' & H1 & H2 & _).
  - intros target s Hs. apply lookup_singleton_Some in Hs as [_ <-]. exists ex_chan. by split.
  - reflexivity.
  - reflexivity.
  - exists w'. split; [exact H1|exact H2].
Defined.

(** A mode request and its reply find their way: what a requestor sends to a
    handler under a request ID is received by the handler with the ID and the
    component ID of the requestor, and the reply the handler sends to what it
    received arrives at the requestor with the same request ID and the component
    ID of the handler; afterwards both queues are as before. *)
Theorem mode_exchange_correct
    (requestor handler : MessageSenderAndReceiver mpsc_Sender mpsc_Receiver)
    (request_id cq cp : Z) (request : ModeRequest) (reply : ModeReply)
    (wq : Net ModeRequest) (wp : Net ModeReply) chq chp :
  message_sender_map requestor !! local_channel_id handler = Some (Tx cq) ->
  message_receiver handler = Rx cq ->
  message_sender_map handler !! local_channel_id requestor = Some (Tx cp) ->
  message_receiver requestor = Rx cp ->
  wq !! cq = Some chq -> rx_alive chq = true -> queue chq = [] ->
  wp !! cp = Some chp -> rx_alive chp = true -> queue chp = [] ->
  (let* _ := ModeRequestorIf.send_mode_request requestor request_id (local_channel_id handler) request in
   let* received := ModeHandlerIf.try_recv_mode_request handler in
   let* msg := lift (unwrap received) in
   let* _ := ModeHandlerIf.send_mode_reply handler (requestor_info msg) reply in
   let* answer := ModeRequestorIf.try_recv_mode_reply requestor in
   ret (received, answer)) (wq, wp) =
  (Ok (Some (mkMessage (mkMetadata request_id (local_channel_id requestor)) request),
       Some (mkMessage (mkMetadata request_id (local_channel_id handler)) reply)), (wq, wp)).
Proof.
  intros Hs1 Hr1 Hs2 Hr2 Hwq Haq Hqq Hwp Hap Hqp.
  unfold ModeRequestorIf.send_mode_request, ModeHandlerIf.try_recv_mode_request,
    ModeHandlerIf.send_mode_reply, ModeRequestorIf.try_recv_mode_reply,
    SenderAndReceiver.send_message, SenderAndReceiver.try_recv_message, SenderMap.send_message,
    ms_send, mr_try_recv, sender_fst, sender_snd, receiver_fst, receiver_snd,
    ms_send, mr_try_recv, mpsc_sender, mpsc_receiver, on_fst, on_snd, st_bind, lift, unwrap, ret.
  cbn [fst snd]. rewrite Hs1, (send_alive wq cq chq) by done. cbn [fst snd].
  rewrite Hr1, (try_recv_head _ cq _ _ [] (lookup_insert_eq (M:=gmap Z) _ _ _)) by (cbn; by rewrite Hqq).
  cbn [fst snd requestor_info meta_request_id meta_sender_id].
  rewrite Hs2, (send_alive wp cp chp) by done. cbn [fst snd].
  rewrite Hr2, (try_recv_head _ cp _ _ [] (lookup_insert_eq (M:=gmap Z) _ _ _)) by (cbn; by rewrite Hqp).
  cbn [fst snd]. rewrite !(insert_insert_eq (M:=gmap Z)), !set_queue_twice.
  rewrite <- Hqq at 1. rewrite <- Hqp at 1. rewrite !set_queue_id.
  by rewrite (insert_id (M:=gmap Z) wq cq chq Hwq), (insert_id (M:=gmap Z) wp cp chp Hwp).
Qed.

Lemma mode_exchange_correct_witness :
  let requestor := SenderAndReceiver.add_message_target 20 (Tx 1) (SenderAndReceiver.new 10 (Rx 2)) in
  let handler := SenderAndReceiver.add_message_target 10 (Tx 2) (SenderAndReceiver.new 20 (Rx 1)) in
  (let* _ := ModeRequestorIf.send_mode_request requestor 5 20 ReadMode in
   let* received := ModeHandlerIf.try_recv_mode_request handler in
   let* msg := lift (unwrap received) in
   let* _ := ModeHandlerIf.send_mode_reply handler (requestor_info msg) (ModeReplyOk (mkMode 1 0)) in
   let* answer := ModeRequestorIf.try_recv_mode_reply requestor in
   ret (received, answer)) (({[ 1 := ex_chan ]} : Net ModeRequest), ({[ 2 := ex_chan ]} : Net ModeReply)) =
  (Ok (Some (mkMessage (mkMetadata 5 10) ReadMode),
       Some (mkMessage (mkMetadata 5 20) (ModeReplyOk (mkMode 1 0)))),
   ({[ 1 := ex_chan ]}, {[ 2 := ex_chan ]})).
Proof.
  intros requestor handler.
  exact (mode_exchange_correct requestor handler 5 1 2 ReadMode (ModeReplyOk (mkMode 1 0))
    {[ 1 := ex_chan ]} {[ 2 := ex_chan ]} ex_chan ex_chan
    eq_refl eq_refl eq_refl eq_refl eq_refl eq_refl eq_refl eq_refl eq_refl eq_refl).
Defined.
