(* ===== verification/TargetedService.v ===== *)
(** * Targeted PUS services

    [satrs/src/pus/mod.rs] (active requests), [satrs-example/src/pus/mod.rs]
    (the telecommand distributor and [PusTargetedRequestService]), its action,
    mode and housekeeping services ([pus/action.rs], [pus/mode.rs], [pus/hk.rs])
    and the router of [requests.rs].

    A telecommand of a targeted service is converted to a request, routed to the
    component it is for and kept in the map of active requests until a reply or
    a timeout ends it.  [TargetedFlow] proves what the reports of a request look
    like.  [Instant::now()] is an argument of the calls that read it. *)

From Stdlib Require Import ZArith Lia Bool String.
From stdpp Require Import base list gmap.
From S2P Require Import Prelude Spacepackets Pool Params Tmtc Verification Services Requests.

Local Open Scope Z_scope.

(** ** Result codes of the example ([satrs-example/src/config.rs]) *)
Module Codes.

Definition group_tmtc : Z := 0.
Definition group_hk : Z := 1.
Definition group_mode : Z := 2.

Definition INVALID_PUS_SERVICE : ResultU16 := mkResultU16 group_tmtc 0.
Definition INVALID_PUS_SUBSERVICE : ResultU16 := mkResultU16 group_tmtc 1.
Definition PUS_SERVICE_NOT_IMPLEMENTED : ResultU16 := mkResultU16 group_tmtc 2.
Definition PUS_SUBSERVICE_NOT_IMPLEMENTED : ResultU16 := mkResultU16 group_tmtc 3.
Definition UNKNOWN_TARGET_ID : ResultU16 := mkResultU16 group_tmtc 4.
Definition ROUTING_ERROR : ResultU16 := mkResultU16 group_tmtc 5.
Definition REQUEST_TIMEOUT : ResultU16 := mkResultU16 group_tmtc 6.
Definition NOT_ENOUGH_APP_DATA : ResultU16 := mkResultU16 group_tmtc 2.

Definition HK_TARGET_ID_MISSING : ResultU16 := mkResultU16 group_hk 0.
Definition HK_UNIQUE_ID_MISSING : ResultU16 := mkResultU16 group_hk 1.

Definition WRONG_MODE : ResultU16 := mkResultU16 group_mode 0.

End Codes.

(** Component IDs of the example. *)
Definition PUS_ACTION_SERVICE : UniqueApidTargetId := TargetId.new 2 3.
Definition PUS_ROUTING_SERVICE : UniqueApidTargetId := TargetId.new 2 1.
Definition PUS_MODE_SERVICE : UniqueApidTargetId := TargetId.new 2 4.
Definition PUS_HK_SERVICE : UniqueApidTargetId := TargetId.new 2 5.
Definition NO_SENDER : Z := u64_max.

Definition fail_params (stamp : list Z) (code : ResultU16) (data : list Z) : FailParams :=
  mkFailParams stamp (ResultCode.as_enum code) data.

(** What the services use of [spacepackets] besides: [EcssEnumU16::new], and
    [PacketId::apid] of a raw packet ID. *)
Class EcssEnumOps : Type := ecss_enum_u16 : Z -> EcssEnum.

Class PacketIdOps : Type := packet_id_apid : Z -> Z.

(** ** Active requests *)
Record ActivePusRequestStd : Type := mkActive {
  act_target_id : Z;
  act_token : TcStateToken;
  act_start_time : Z;
  act_timeout : Z;
}.

(** [trait ActiveRequestProvider]; the instants are in nanoseconds. *)
Class ActiveRequestProvider (I : Type) : Type := {
  ar_target_id : I -> Z;
  ar_token : I -> TcStateToken;
  ar_set_token : TcStateToken -> I -> I;
  ar_has_timed_out : Z -> I -> bool;
  ar_timeout : I -> Z;
}.

Class ActiveRequestLaws (I : Type) `{ActiveRequestProvider I} : Prop := {
  ar_token_set : forall t i, ar_token (ar_set_token t i) = t;
  ar_target_set : forall t i, ar_target_id (ar_set_token t i) = ar_target_id i;
  ar_timed_out_set : forall t now i, ar_has_timed_out now (ar_set_token t i) = ar_has_timed_out now i;
}.

Module ActiveRequest.

Definition new (target_id : Z) (token : TcStateToken) (timeout now : Z) : ActivePusRequestStd :=
  mkActive target_id token now timeout.

Definition set_token (token : TcStateToken) (r : ActivePusRequestStd) : ActivePusRequestStd :=
  mkActive (act_target_id r) token (act_start_time r) (act_timeout r).

(** [Instant::now() - self.start_time > self.timeout]; the difference of two
    instants is never negative. *)
Definition has_timed_out (now : Z) (r : ActivePusRequestStd) : bool :=
  act_timeout r <? Z.max 0 (now - act_start_time r).

End ActiveRequest.

#[export] Instance active_std : ActiveRequestProvider ActivePusRequestStd := {|
  ar_target_id := act_target_id;
  ar_token := act_token;
  ar_set_token := ActiveRequest.set_token;
  ar_has_timed_out := ActiveRequest.has_timed_out;
  ar_timeout := act_timeout;
|}.

#[export] Instance active_std_laws : ActiveRequestLaws ActivePusRequestStd.
Proof. by constructor. Qed.

(** [ActivePusActionRequestStd] of [pus/action.rs]. *)
Record ActivePusActionRequestStd : Type := mkActiveAction {
  active_action_id : Z;
  active_common : ActivePusRequestStd;
}.

Module ActiveAction.

Definition new_from_common_req (action_id : Z) (common : ActivePusRequestStd)
    : ActivePusActionRequestStd := mkActiveAction action_id common.

Definition new (action_id target_id : Z) (token : TcStateToken) (timeout now : Z)
    : ActivePusActionRequestStd :=
  mkActiveAction action_id (ActiveRequest.new target_id token timeout now).

End ActiveAction.

#[export] Instance active_action : ActiveRequestProvider ActivePusActionRequestStd := {|
  ar_target_id := fun r => act_target_id (active_common r);
  ar_token := fun r => act_token (active_common r);
  ar_set_token := fun t r => mkActiveAction (active_action_id r) (ActiveRequest.set_token t (active_common r));
  ar_has_timed_out := fun now r => ActiveRequest.has_timed_out now (active_common r);
  ar_timeout := fun r => act_timeout (active_common r);
|}.

#[export] Instance active_action_laws : ActiveRequestLaws ActivePusActionRequestStd.
Proof. by constructor. Qed.

(** [DefaultActiveRequestMap]; the order in which [for_each] visits the requests
    is that of the hash map, here that of [map_to_list]. *)
Module RequestMap.
Section RequestMap.
Context {I : Type}.

Definition insert (request_id : Z) (info : I) (m : gmap Z I) : gmap Z I := <[request_id := info]> m.

Definition get (request_id : Z) (m : gmap Z I) : option I := m !! request_id.

Definition remove (request_id : Z) (m : gmap Z I) : bool * gmap Z I :=
  (bool_decide (is_Some (m !! request_id)), delete request_id m).

Definition for_each {S : Type} (f : Z -> I -> S -> S) (m : gmap Z I) (s : S) : S :=
  fold_left (fun s x => f x.1 x.2 s) (map_to_list m) s.

End RequestMap.
End RequestMap.

(** ** The request router ([requests.rs]) *)
Inductive CompositeRequest : Type :=
| CompHk (r : HkRequest)
| CompAction (r : ActionRequest).

Record GenericRequestRouter : Type := mkRouter {
  router_id : Z;
  composite_router_map : gmap Z mpsc_SyncSender;
  mode_router_map : gmap Z mpsc_SyncSender;
}.

(** [trait PusRequestRouter]: [W] are the channels of the requests. *)
Class PusRequestRouter (Req RT W : Type) : Type :=
  route : RT -> MessageMetadata -> Z -> Req -> st W GenericRoutingError unit.

Module Router.

Definition default : GenericRequestRouter := mkRouter (TargetId.raw PUS_ROUTING_SERVICE) ∅ ∅.

Section Router.
Context {M : Type}.

(** [SyncSender::send] waits while the queue is full, so that the message is
    queued in the end, unless the receiver is gone. *)
Definition send_to (senders : gmap Z mpsc_SyncSender) (target_id : Z) (m : GenericMessage M)
    : st (Net M) GenericRoutingError unit :=
  match senders !! target_id with
  | Some sender =>
      Mpsc.on_chan (sync_tx_chan sender)
        (st_map_err (fun _ => RoutingSend RxDisconnected) (Channel.send m))
  | None => throw (UnknownTargetId target_id)
  end.

End Router.

Abbreviation World := (Net CompositeRequest * Net ModeRequest)%type.

(** [impl PusRequestRouter<HkRequest>] *)
Definition route_hk (self : GenericRequestRouter) (info : MessageMetadata) (target_id : Z)
    (r : HkRequest) : st World GenericRoutingError unit :=
  on_fst (send_to (composite_router_map self) target_id (mkMessage info (CompHk r))).

(** [impl PusRequestRouter<ActionRequest>] *)
Definition route_action (self : GenericRequestRouter) (info : MessageMetadata) (target_id : Z)
    (r : ActionRequest) : st World GenericRoutingError unit :=
  on_fst (send_to (composite_router_map self) target_id (mkMessage info (CompAction r))).

(** [impl PusRequestRouter<ModeRequest>] *)
Definition route_mode (self : GenericRequestRouter) (info : MessageMetadata) (target_id : Z)
    (r : ModeRequest) : st World GenericRoutingError unit :=
  on_snd (send_to (mode_router_map self) target_id (mkMessage info r)).

Section Errors.
Context {PE V Q I : Type} `{EcssTmSender PE Q} `{!VerificationReportingProvider PE V Q}
  `{ActiveRequestProvider I}.

(** [handle_error_generic] *)
Definition handle_error_generic {E : Type} (active_request : I) (error : GenericRoutingError)
    (time_stamp : list Z) : st (V * Q) E unit :=
  let* accepted_token := lift (expect (TcStateToken.try_into_accepted (ar_token active_request))) in
  let fail code data :=
    Service.expect_st (vr_completion_failure TcStateAccepted accepted_accepted accepted_token
      (fail_params time_stamp code data)) in
  match error with
  | UnknownTargetId id => fail Codes.UNKNOWN_TARGET_ID (to_be_bytes 8 id)
  | RoutingSend _ => fail Codes.ROUTING_ERROR (to_be_bytes 8 (ar_target_id active_request))
  end.

End Errors.
End Router.

Abbreviation World := (Net CompositeRequest * Net ModeRequest)%type.

#[export] Instance hk_router : PusRequestRouter HkRequest GenericRequestRouter World := Router.route_hk.
#[export] Instance action_router : PusRequestRouter ActionRequest GenericRequestRouter World :=
  Router.route_action.
#[export] Instance mode_router : PusRequestRouter ModeRequest GenericRequestRouter World :=
  Router.route_mode.

(** ** Converters and reply handlers *)

(** [trait PusTcToRequestConverter] *)
Class PusTcToRequestConverter (PE V Q I Req CV : Type) `{EcssTmSender PE Q}
    `{!VerificationReportingProvider PE V Q} : Type :=
  rc_convert : VerificationToken TcStateAccepted -> PusTc -> list Z -> Z ->
    st (CV * (V * Q)) GenericConversionError (I * Req).

(** [trait PusReplyHandler] *)
Class PusReplyHandler (PE V Q I Rep RH : Type) `{EcssTmSender PE Q}
    `{!VerificationReportingProvider PE V Q} : Type := {
  rh_handle_reply : GenericMessage Rep -> I -> list Z ->
    st (RH * (V * Q)) (EcssTmtcError PE) bool;
  rh_handle_unrequested_reply : GenericMessage Rep -> st (RH * (V * Q)) (EcssTmtcError PE) unit;
  rh_handle_request_timeout : I -> list Z -> st (RH * (V * Q)) (EcssTmtcError PE) unit;
}.

(** [generic_pus_request_timeout_handler] *)
Definition generic_pus_request_timeout_handler {PE V Q I : Type} `{EcssTmSender PE Q}
    `{!VerificationReportingProvider PE V Q} `{ActiveRequestProvider I} (active_request : I)
    (time_stamp : list Z) : st (V * Q) (EcssTmtcError PE) unit :=
  let* started_token := lift (expect (TcStateToken.try_into_started (ar_token active_request))) in
  vr_completion_failure TcStateStarted started_accepted started_token
    (fail_params time_stamp Codes.REQUEST_TIMEOUT []).

(** ** [PusTargetedRequestService] *)
Record PusTargetedRequestService (Q V C CV I RH Rep : Type) : Type := mkService {
  service_helper : PusServiceHelper Q V C;
  request_router : GenericRequestRouter;
  request_converter : CV;
  active_request_map : gmap Z I;
  reply_handler : RH;
  service_replies : channel (GenericMessage Rep);
}.

Arguments mkService {Q V C CV I RH Rep} _ _ _ _ _ _.
Arguments service_helper {Q V C CV I RH Rep} _.
Arguments request_router {Q V C CV I RH Rep} _.
Arguments request_converter {Q V C CV I RH Rep} _.
Arguments active_request_map {Q V C CV I RH Rep} _.
Arguments reply_handler {Q V C CV I RH Rep} _.
Arguments service_replies {Q V C CV I RH Rep} _.

Module Targeted.
Section Targeted.
Context {PE Q V C CV I RH Req Rep W : Type} `{EcssTmSender PE Q}
  `{!VerificationReportingProvider PE V Q} `{EcssTcInMemConverter PE C}
  `{ActiveRequestProvider I} `{!PusTcToRequestConverter PE V Q I Req CV}
  `{!PusReplyHandler PE V Q I Rep RH} `{PusRequestRouter Req GenericRequestRouter W}.
Context (pus_tc_reader_new : list Z -> res PE PusTc).
Abbreviation service := (PusTargetedRequestService Q V C CV I RH Rep).

(** *** Calls on the parts of the service *)
Definition on_helper {E A : Type} (m : st (PusServiceHelper Q V C) E A) : st service E A :=
  fun s => let '(r, h) := m (service_helper s) in
    (r, mkService h (request_router s) (request_converter s) (active_request_map s)
          (reply_handler s) (service_replies s)).

Definition on_reporter {E A : Type} (m : st (V * Q) E A) : st service E A :=
  on_helper (Helper.on_reporter m).

Definition on_converter {E A : Type} (m : st (CV * (V * Q)) E A) : st service E A :=
  fun s =>
    let h := service_helper s in
    let '(r, (cv, (v, q))) := m (request_converter s, (verif_reporter h, tm_sender h)) in
    (r, mkService (mkHelper (helper_id h) (tc_receiver h) q v (tc_in_mem_converter h))
          (request_router s) cv (active_request_map s) (reply_handler s) (service_replies s)).

Definition on_reply_handler {E A : Type} (m : st (RH * (V * Q)) E A) : st service E A :=
  fun s =>
    let h := service_helper s in
    let '(r, (rh, (v, q))) := m (reply_handler s, (verif_reporter h, tm_sender h)) in
    (r, mkService (mkHelper (helper_id h) (tc_receiver h) q v (tc_in_mem_converter h))
          (request_router s) (request_converter s) (active_request_map s) rh (service_replies s)).

Definition on_map {E A : Type} (m : st (gmap Z I) E A) : st service E A :=
  fun s => let '(r, a) := m (active_request_map s) in
    (r, mkService (service_helper s) (request_router s) (request_converter s) a
          (reply_handler s) (service_replies s)).

Definition on_replies {E A : Type} (m : st (channel (GenericMessage Rep)) E A) : st service E A :=
  fun s => let '(r, c) := m (service_replies s) in
    (r, mkService (service_helper s) (request_router s) (request_converter s)
          (active_request_map s) (reply_handler s) c).

(** *** Operations *)
Definition new (helper : PusServiceHelper Q V C) (converter : CV) (map : gmap Z I) (reply_hook : RH)
    (router : GenericRequestRouter) (replies : channel (GenericMessage Rep)) : service :=
  mkService helper router converter map reply_hook replies.

Definition handle_conversion_to_request_error {E : Type} (error : GenericConversionError)
    (token : VerificationToken TcStateAccepted) (time_stamp : list Z) : st service E unit :=
  let fail code data :=
    on_reporter (Service.expect_st (vr_completion_failure TcStateAccepted accepted_accepted token
      (fail_params time_stamp code data))) in
  match error with
  | ConvWrongService srv => fail Codes.INVALID_PUS_SERVICE [srv]
  | ConvInvalidSubservice subservice => fail Codes.INVALID_PUS_SUBSERVICE [subservice]
  | ConvNotEnoughAppData expected found =>
      fail Codes.NOT_ENOUGH_APP_DATA
        (to_be_bytes 4 (as_u 32 found) ++ to_be_bytes 4 (as_u 32 expected))
  | ConvInvalidAppData _ => ret tt
  end.

Definition poll_and_handle_next_tc (time_stamp : list Z) (now : Z)
    : st (service * W) (PusPacketHandlingError PE) HandlingStatus :=
  let* possible_packet := on_fst (on_helper (Helper.next_tc pus_tc_reader_new)) in
  match possible_packet with
  | None => ret HandlingEmpty
  | Some (token, tc) =>
      let* converted := on_fst (attempt (on_converter (rc_convert token tc time_stamp now))) in
      match converted with
      | Ok (request_info, request) =>
          let* accepted_token :=
            lift (expect (TcStateToken.try_into_accepted (ar_token request_info))) in
          let verif_request_id := RequestId.raw (RequestId.new tc) in
          let* router := gets (fun x : service * W => request_router x.1) in
          let* id := gets (fun x : service * W => helper_id (service_helper x.1)) in
          let* routed := attempt (on_snd (route router (mkMetadata verif_request_id id)
                                            (ar_target_id request_info) request)) in
          match routed with
          | Ok _ =>
              let* started_token := on_fst (on_reporter (Service.expect_st
                                      (vr_start_success accepted_token time_stamp))) in
              let* _ := on_fst (on_map (modify_state (RequestMap.insert verif_request_id
                          (ar_set_token (TokStarted started_token) request_info)))) in
              ret HandledOne
          | Err e =>
              let* _ := on_fst (on_reporter
                          (Router.handle_error_generic request_info e time_stamp)) in
              throw (RequestRouting e)
          | Panic => lift Panic
          end
      | Err e =>
          let* _ := on_fst (handle_conversion_to_request_error e token time_stamp) in
          throw (RequestConversion e)
      | Panic => lift Panic
      end
  end.

Definition handle_reply (reply : GenericMessage Rep) (time_stamp : list Z)
    : st service (EcssTmtcError PE) unit :=
  let* active_req_opt := gets (fun s : service => RequestMap.get (msg_request_id reply) (active_request_map s)) in
  match active_req_opt with
  | None => on_reply_handler (rh_handle_unrequested_reply reply)
  | Some active_request =>
      let* result := attempt (on_reply_handler (rh_handle_reply reply active_request time_stamp)) in
      let* _ := if is_err result || match result with Ok b => b | _ => false end
                then on_map (modify_state (fun m => (RequestMap.remove (msg_request_id reply) m).2))
                else ret tt in
      lift (res_map (fun _ => tt) result)
  end.

Definition poll_and_handle_next_reply (time_stamp : list Z)
    : st service (EcssTmtcError PE) HandlingStatus :=
  let* r := attempt (on_replies Channel.try_recv) in
  match r with
  | Ok reply =>
      let* _ := handle_reply reply time_stamp in
      ret HandledOne
  | Err TryRecvEmpty => ret HandlingEmpty
  | Err TryRecvDisconnected => throw (TmtcReceive (TxDisconnected None))
  | Panic => lift Panic
  end.

(** The instant at which a request is looked at may differ from one to the next:
    [now] gives it by request ID. *)
Definition check_for_request_timeouts {E : Type} (now : Z -> Z) : st service E unit :=
  on_map (modify_state (fun m =>
    let requests_to_delete :=
      RequestMap.for_each (fun request_id request_info l =>
        if ar_has_timed_out (now request_id) request_info then l ++ [request_id] else l) m [] in
    fold_left (fun m request_id => (RequestMap.remove request_id m).2) requests_to_delete m)).

(** *** The default handlers of [TargetedPusService] *)
Definition poll_and_handle_next_tc_default_handler {E : Type} (time_stamp : list Z) (now : Z)
    : st (service * W) E HandlingStatus :=
  let* result := attempt (poll_and_handle_next_tc time_stamp now) in
  match result with
  | Ok status => ret status
  | _ => ret HandlingEmpty
  end.

Definition poll_and_handle_next_reply_default_handler {E : Type} (time_stamp : list Z)
    : st service E HandlingStatus :=
  let* result := attempt (poll_and_handle_next_reply time_stamp) in
  match result with
  | Ok status => ret status
  | _ => ret HandlingEmpty
  end.

End Targeted.
End Targeted.

(** ** The action service ([pus/action.rs] of the example) *)
Definition secs (n : Z) : Z := n * 10 ^ 9.

Record ActionReplyHandler : Type := mkActionReplyHandler { fail_data_buf : list Z }.

Record ActionRequestConverter : Type := mkActionConverter {}.

Module Action.
Section Action.
Context {PE V Q : Type} `{EcssTmSender PE Q} `{!VerificationReportingProvider PE V Q} `{EcssEnumOps}.

Definition default_handler : ActionReplyHandler := mkActionReplyHandler (replicate 128 0).

Definition handle_unrequested_reply (reply : GenericMessage ActionReplyPus)
    : st (ActionReplyHandler * (V * Q)) (EcssTmtcError PE) unit := ret tt.

(** [fail_data_buf] is scratch space that is written before it is read; what it
    holds afterwards is not observable and not tracked. *)
Definition handle_reply (reply : GenericMessage ActionReplyPus)
    (active_request : ActivePusActionRequestStd) (timestamp : list Z)
    : st (ActionReplyHandler * (V * Q)) (EcssTmtcError PE) bool :=
  let* verif_token := lift (expect (TcStateToken.try_into_started (ar_token active_request))) in
  let* buf := gets (fun x : ActionReplyHandler * (V * Q) => fail_data_buf x.1) in
  match reply_variant (message reply) with
  | ActCompletionFailed error_code params =>
      let* _ := on_snd (handle_completion_failure_with_generic_params verif_token
                  (mkFailParamHelper timestamp (ResultCode.as_enum error_code) buf params)) in
      ret true
  | ActStepFailed error_code step params =>
      let* _ := on_snd (handle_step_failure_with_generic_params verif_token
                  (mkFailParamHelper timestamp (ResultCode.as_enum error_code) buf params)
                  (ecss_enum_u16 step)) in
      ret true
  | ActCompleted =>
      let* _ := on_snd (vr_completion_success TcStateStarted started_accepted verif_token timestamp) in
      ret true
  | ActStepSuccess step =>
      let* _ := on_snd (vr_step_success verif_token timestamp (ecss_enum_u16 step)) in
      ret false
  end.

Definition handle_request_timeout (active_request : ActivePusActionRequestStd) (time_stamp : list Z)
    : st (ActionReplyHandler * (V * Q)) (EcssTmtcError PE) unit :=
  on_snd (generic_pus_request_timeout_handler active_request time_stamp).

Definition convert (token : VerificationToken TcStateAccepted) (tc : PusTc) (time_stamp : list Z)
    (now : Z) : st (ActionRequestConverter * (V * Q)) GenericConversionError
                   (ActivePusActionRequestStd * ActionRequest) :=
  let subservice := tc_subservice tc in
  let user_data := tc_user_data tc in
  let start_failure code :=
    on_snd (Service.expect_st (vr_start_failure token
      (new_no_fail_data time_stamp (ResultCode.as_enum code)))) in
  if len user_data <? 8 then
    let* _ := start_failure Codes.NOT_ENOUGH_APP_DATA in
    throw (ConvNotEnoughAppData 8 (len user_data))
  else
    let* target_id_and_apid := lift (expect (TargetId.from_pus_tc tc)) in
    let* b := lift (slice user_data 4 8) in
    let action_id := from_be_bytes b in
    if subservice =? 128 then
      let* req_variant :=
        (if len user_data =? 8 then ret NoData
         else let* d := lift (slice user_data 8 (len user_data)) in ret (VecData d)) in
      ret (ActiveAction.new action_id (TargetId.into_u64 target_id_and_apid) (TokAccepted token)
             (secs 30) now, mkActionRequest action_id req_variant)
    else
      let* _ := start_failure Codes.INVALID_PUS_SUBSERVICE in
      throw (ConvInvalidSubservice subservice).

End Action.
End Action.

#[export] Instance action_converter {PE V Q} `{EcssTmSender PE Q}
    `{!VerificationReportingProvider PE V Q} :
  PusTcToRequestConverter PE V Q ActivePusActionRequestStd ActionRequest ActionRequestConverter :=
  Action.convert.

#[export] Instance action_reply_handler {PE V Q} `{EcssTmSender PE Q}
    `{!VerificationReportingProvider PE V Q} `{EcssEnumOps} :
  PusReplyHandler PE V Q ActivePusActionRequestStd ActionReplyPus ActionReplyHandler := {|
  rh_handle_reply := Action.handle_reply;
  rh_handle_unrequested_reply := Action.handle_unrequested_reply;
  rh_handle_request_timeout := Action.handle_request_timeout;
|}.

(** ** The mode service ([pus/mode.rs] of the example and of [satrs]) *)
Definition MODE_SERVICE_ID : Z := 200.

Inductive ModeSubservice : Type :=
| TcSetMode | TcReadMode | TcAnnounceMode | TcAnnounceModeRecursive
| TmModeReply | TmCantReachMode | TmWrongModeReply.

Definition mode_subservice_number (s : ModeSubservice) : Z :=
  match s with
  | TcSetMode => 1
  | TcReadMode => 3
  | TcAnnounceMode => 4
  | TcAnnounceModeRecursive => 5
  | TmModeReply => 6
  | TmCantReachMode => 7
  | TmWrongModeReply => 8
  end.

(** The derived [TryFromPrimitive]. *)
Definition mode_subservice_try_from (v : Z) : option ModeSubservice :=
  if v =? 1 then Some TcSetMode else if v =? 3 then Some TcReadMode
  else if v =? 4 then Some TcAnnounceMode else if v =? 5 then Some TcAnnounceModeRecursive
  else if v =? 6 then Some TmModeReply else if v =? 7 then Some TmCantReachMode
  else if v =? 8 then Some TmWrongModeReply else None.

Record ModeReplyHandler : Type := mkModeReplyHandler { mode_owner_id : Z }.

Record ModeRequestConverter : Type := mkModeConverter {}.

Module ModeService.
Section ModeService.
Context {PE V Q : Type} `{EcssTmSender PE Q} `{!VerificationReportingProvider PE V Q} `{HeaderOps}
  `{PacketIdOps}.

Definition handle_unrequested_reply (reply : GenericMessage ModeReply)
    : st (ModeReplyHandler * (V * Q)) (EcssTmtcError PE) unit := ret tt.

(** [m.write_to_be_bytes(buf).expect(..)] on a local buffer. *)
Definition write_mode {E : Type} (m : ModeAndSubmode) (buf : list Z) : res E (Z * list Z) :=
  let '(r, buf') := ModeSubmode.write_to_be_bytes m buf in
  let? n := expect r in
  Ok (n, buf').

Definition mode_reply_tm (packet_id : Z) (time_stamp source_data : list Z) : PusTm :=
  {| tm_apid := packet_id_apid packet_id; tm_seq_count := 0; tm_service := MODE_SERVICE_ID;
     tm_subservice := mode_subservice_number TmModeReply; tm_msg_counter := 0; tm_dest_id := 0;
     tm_time_stamp := time_stamp; tm_source_data := source_data |}.

Definition handle_reply (reply : GenericMessage ModeReply) (active_request : ActivePusRequestStd)
    (time_stamp : list Z) : st (ModeReplyHandler * (V * Q)) (EcssTmtcError PE) bool :=
  let* started_token := lift (expect (TcStateToken.try_into_started (ar_token active_request))) in
  let fail code data :=
    on_snd (vr_completion_failure TcStateStarted started_accepted started_token
      (fail_params time_stamp code data)) in
  let* _ :=
    match message reply with
    | ModeReplyOk mode_reply =>
        let* w := lift (write_mode mode_reply (replicate 12 0)) in
        let req_id := RequestId.from_u32 (msg_request_id reply) in
        let pus_tm := mode_reply_tm (packet_id req_id) time_stamp w.2 in
        let* owner := gets (fun x : ModeReplyHandler * (V * Q) => mode_owner_id x.1) in
        let* _ := on_snd (on_snd (send_tm owner (Direct pus_tm))) in
        on_snd (vr_completion_success TcStateStarted started_accepted started_token time_stamp)
    | CantReachMode error_code => fail error_code []
    | WrongMode expected reached =>
        let error_info := replicate 24 0 in
        let* front := lift (slice error_info 0 ModeSubmode.RAW_LEN) in
        let* w1 := lift (write_mode expected front) in
        let* error_info := lift (copy_into error_info 0 ModeSubmode.RAW_LEN w1.2) in
        let* back := lift (slice error_info ModeSubmode.RAW_LEN (len error_info)) in
        let* w2 := lift (write_mode reached back) in
        let* error_info := lift (copy_into error_info ModeSubmode.RAW_LEN (len error_info) w2.2) in
        let* data := lift (slice error_info 0 (w1.1 + w2.1)) in
        fail Codes.WRONG_MODE data
    end in
  ret true.

Definition handle_request_timeout (active_request : ActivePusRequestStd) (time_stamp : list Z)
    : st (ModeReplyHandler * (V * Q)) (EcssTmtcError PE) unit :=
  on_snd (generic_pus_request_timeout_handler active_request time_stamp).

Definition convert (token : VerificationToken TcStateAccepted) (tc : PusTc) (time_stamp : list Z)
    (now : Z) : st (ModeRequestConverter * (V * Q)) GenericConversionError
                   (ActivePusRequestStd * ModeRequest) :=
  let subservice := tc_subservice tc in
  let user_data := tc_user_data tc in
  let start_failure code :=
    on_snd (Service.expect_st (vr_start_failure token
      (new_no_fail_data time_stamp (ResultCode.as_enum code)))) in
  let not_enough_app_data expected :=
    let* _ := start_failure Codes.NOT_ENOUGH_APP_DATA in
    throw (ConvNotEnoughAppData expected (len user_data)) in
  let invalid_subservice :=
    let* _ := start_failure Codes.INVALID_PUS_SUBSERVICE in
    throw (ConvInvalidSubservice subservice) in
  if len user_data <? 4 then not_enough_app_data 4 else
  let* target_id_and_apid := lift (expect (TargetId.from_pus_tc tc)) in
  let active_request :=
    ActiveRequest.new (TargetId.into_u64 target_id_and_apid) (TokAccepted token) (secs 30) now in
  match mode_subservice_try_from subservice with
  | None => invalid_subservice
  | Some TcSetMode =>
      if len user_data <? 4 + ModeSubmode.RAW_LEN then not_enough_app_data (4 + ModeSubmode.RAW_LEN)
      else
        let* d := lift (slice user_data 4 (len user_data)) in
        let* m := lift (expect (ModeSubmode.from_be_bytes d)) in
        ret (active_request, SetMode m)
  | Some TcReadMode => ret (active_request, ReadMode)
  | Some TcAnnounceMode => ret (active_request, AnnounceMode)
  | Some TcAnnounceModeRecursive => ret (active_request, AnnounceModeRecursive)
  | Some _ => invalid_subservice
  end.

End ModeService.
End ModeService.

#[export] Instance mode_converter {PE V Q} `{EcssTmSender PE Q} `{!VerificationReportingProvider PE V Q} :
  PusTcToRequestConverter PE V Q ActivePusRequestStd ModeRequest ModeRequestConverter :=
  ModeService.convert.

#[export] Instance mode_reply_handler {PE V Q} `{EcssTmSender PE Q}
    `{!VerificationReportingProvider PE V Q} `{HeaderOps} `{PacketIdOps} :
  PusReplyHandler PE V Q ActivePusRequestStd ModeReply ModeReplyHandler := {|
  rh_handle_reply := ModeService.handle_reply;
  rh_handle_unrequested_reply := ModeService.handle_unrequested_reply;
  rh_handle_request_timeout := ModeService.handle_request_timeout;
|}.

(** ** The housekeeping service ([pus/hk.rs] of the example) *)
Inductive HkReplyVariant : Type :=
| HkAck
| HkFailed (code : ResultU16).

Record HkReply : Type := mkHkReply { hk_reply_unique_id : Z; hk_reply_variant : HkReplyVariant }.

(** [hk::Subservice] of [spacepackets] with its [try_from], as far as the converter
    tells them apart. *)
Inductive HkSubservice : Type :=
| TcEnableHkGeneration | TcEnableDiagGeneration
| TcDisableHkGeneration | TcDisableDiagGeneration
| TcReportHkReportStructures | TmHkPacket
| TcGenerateOneShotHk | TcGenerateOneShotDiag
| TcModifyHkCollectionInterval | TcModifyDiagCollectionInterval
| OtherHk (subservice : Z).

Class HkSubserviceOps : Type := hk_subservice_try_from : Z -> option HkSubservice.

Record HkReplyHandler : Type := mkHkReplyHandler {}.

Record HkRequestConverter : Type := mkHkConverter { hk_timeout : Z }.

Module HkService.
Section HkService.
Context {PE V Q : Type} `{EcssTmSender PE Q} `{!VerificationReportingProvider PE V Q}
  `{HkSubserviceOps}.

Definition default_converter : HkRequestConverter := mkHkConverter (secs 60).

Definition handle_unrequested_reply (reply : GenericMessage HkReply)
    : st (HkReplyHandler * (V * Q)) (EcssTmtcError PE) unit := ret tt.

Definition handle_reply (reply : GenericMessage HkReply) (active_request : ActivePusRequestStd)
    (time_stamp : list Z) : st (HkReplyHandler * (V * Q)) (EcssTmtcError PE) bool :=
  let* started_token := lift (expect (TcStateToken.try_into_started (ar_token active_request))) in
  let* _ :=
    match hk_reply_variant (message reply) with
    | HkAck =>
        on_snd (Service.expect_st
          (vr_completion_success TcStateStarted started_accepted started_token time_stamp))
    | HkFailed failure_code =>
        on_snd (Service.expect_st
          (vr_completion_failure TcStateStarted started_accepted started_token
            (fail_params time_stamp failure_code [])))
    end in
  ret true.

Definition handle_request_timeout (active_request : ActivePusRequestStd) (time_stamp : list Z)
    : st (HkReplyHandler * (V * Q)) (EcssTmtcError PE) unit :=
  on_snd (generic_pus_request_timeout_handler active_request time_stamp).

Definition convert (token : VerificationToken TcStateAccepted) (tc : PusTc) (time_stamp : list Z)
    (now : Z) : st (HkRequestConverter * (V * Q)) GenericConversionError
                   (ActivePusRequestStd * HkRequest) :=
  let user_data := tc_user_data tc in
  let start_failure code data :=
    on_snd (Service.expect_st (vr_start_failure token (fail_params time_stamp code data))) in
  let user_data_len_raw := to_be_bytes 4 (as_u 32 (len user_data)) in
  if len user_data =? 0 then
    let* _ := start_failure Codes.NOT_ENOUGH_APP_DATA user_data_len_raw in
    throw (ConvNotEnoughAppData 4 0)
  else if len user_data <? 8 then
    let err := if len user_data <? 4 then Codes.HK_TARGET_ID_MISSING else Codes.HK_UNIQUE_ID_MISSING in
    let* _ := start_failure err user_data_len_raw in
    throw (ConvNotEnoughAppData 8 4)
  else
    let subservice := tc_subservice tc in
    let* target_id_and_apid := lift (expect (TargetId.from_pus_tc tc)) in
    let* b := lift (slice user_data 4 8) in
    let unique_id := from_be_bytes b in
    match hk_subservice_try_from subservice with
    | None =>
        let* _ := start_failure Codes.INVALID_PUS_SUBSERVICE [subservice] in
        throw (ConvInvalidSubservice subservice)
    | Some standard_subservice =>
        let* request :=
          match standard_subservice with
          | TcEnableHkGeneration | TcEnableDiagGeneration =>
              ret (mkHkRequest unique_id EnablePeriodic)
          | TcDisableHkGeneration | TcDisableDiagGeneration =>
              ret (mkHkRequest unique_id DisablePeriodic)
          | TcReportHkReportStructures => lift Panic
          | TmHkPacket => lift Panic
          | TcGenerateOneShotHk | TcGenerateOneShotDiag =>
              ret (mkHkRequest unique_id OneShot)
          | TcModifyDiagCollectionInterval | TcModifyHkCollectionInterval =>
              if len user_data <? 12 then
                let* _ := start_failure Codes.NOT_ENOUGH_APP_DATA [] in
                throw (ConvNotEnoughAppData 12 (len user_data))
              else
                let* d := lift (slice user_data 8 12) in
                ret (mkHkRequest unique_id (ModifyCollectionInterval (from_be_bytes d)))
          | OtherHk _ =>
              let* _ := start_failure Codes.PUS_SUBSERVICE_NOT_IMPLEMENTED [subservice] in
              throw (ConvInvalidSubservice subservice)
          end in
        let* timeout := gets (fun x : HkRequestConverter * (V * Q) => hk_timeout x.1) in
        ret (ActiveRequest.new (TargetId.into_u64 target_id_and_apid) (TokAccepted token) timeout now,
             request)
    end.

End HkService.
End HkService.

#[export] Instance hk_converter {PE V Q} `{EcssTmSender PE Q} `{!VerificationReportingProvider PE V Q}
    `{HkSubserviceOps} :
  PusTcToRequestConverter PE V Q ActivePusRequestStd HkRequest HkRequestConverter :=
  HkService.convert.

#[export] Instance hk_reply_handler {PE V Q} `{EcssTmSender PE Q} `{!VerificationReportingProvider PE V Q} :
  PusReplyHandler PE V Q ActivePusRequestStd HkReply HkReplyHandler := {|
  rh_handle_reply := HkService.handle_reply;
  rh_handle_unrequested_reply := HkService.handle_unrequested_reply;
  rh_handle_request_timeout := HkService.handle_request_timeout;
|}.

(** ** Construction of the services *)

(** [create_verification_reporter] *)
Definition create_verification_reporter {E : Type} (owner_id apid : Z) : res E VerificationReporter :=
  let? verif_cfg := unwrap (reporter_cfg_new apid 1 2 8) in
  Reporter.new owner_id verif_cfg.

Section Create.
Context {P PE : Type}.
Abbreviation static_conv := (EcssTcInSharedStoreConverter P).

(** The service of a component with its receivers; the static variants read
    telecommands from the pool, the dynamic ones get them as vectors. *)
Definition create_service {Q C CV I RH Rep E : Type} (id : UniqueApidTargetId) (tm_sender : Q)
    (conv : C) (cv : CV) (rh : RH) (rx : channel EcssTcAndToken) (router : GenericRequestRouter)
    (replies : channel (GenericMessage Rep))
    : res E (PusTargetedRequestService Q VerificationReporter C CV I RH Rep) :=
  let? reporter := create_verification_reporter (TargetId.id id) (apid id) in
  Ok (Targeted.new (mkHelper (TargetId.id id) rx tm_sender reporter conv) cv ∅ rh router replies).

Definition create_action_service_static {Q E : Type} (tm_sender : Q) (tc_pool : Shared P) rx router replies
    : res E (PusTargetedRequestService Q VerificationReporter static_conv ActionRequestConverter
               ActivePusActionRequestStd ActionReplyHandler ActionReplyPus) :=
  create_service PUS_ACTION_SERVICE tm_sender (StoreConverter.new tc_pool 2048)
    (mkActionConverter) Action.default_handler rx router replies.

Definition create_action_service_dynamic {E : Type} (tm_funnel_tx : channel PacketAsVec) rx router replies
    : res E (PusTargetedRequestService (channel PacketAsVec) VerificationReporter
               EcssTcInVecConverter ActionRequestConverter ActivePusActionRequestStd
               ActionReplyHandler ActionReplyPus) :=
  create_service PUS_ACTION_SERVICE tm_funnel_tx VecConverter.default
    (mkActionConverter) Action.default_handler rx router replies.

Definition create_mode_service_static {Q E : Type} (tm_sender : Q) (tc_pool : Shared P) rx router replies
    : res E (PusTargetedRequestService Q VerificationReporter static_conv ModeRequestConverter
               ActivePusRequestStd ModeReplyHandler ModeReply) :=
  create_service PUS_MODE_SERVICE tm_sender (StoreConverter.new tc_pool 2048)
    (mkModeConverter) (mkModeReplyHandler (TargetId.id PUS_MODE_SERVICE)) rx router replies.

Definition create_mode_service_dynamic {E : Type} (tm_funnel_tx : channel PacketAsVec) rx router replies
    : res E (PusTargetedRequestService (channel PacketAsVec) VerificationReporter
               EcssTcInVecConverter ModeRequestConverter ActivePusRequestStd
               ModeReplyHandler ModeReply) :=
  create_service PUS_MODE_SERVICE tm_funnel_tx VecConverter.default
    (mkModeConverter) (mkModeReplyHandler (TargetId.id PUS_MODE_SERVICE)) rx router replies.

Definition create_hk_service_static {Q E : Type} (tm_sender : Q) (tc_pool : Shared P) rx router replies
    : res E (PusTargetedRequestService Q VerificationReporter static_conv HkRequestConverter
               ActivePusRequestStd HkReplyHandler HkReply) :=
  create_service PUS_HK_SERVICE tm_sender (StoreConverter.new tc_pool 2048)
    HkService.default_converter (mkHkReplyHandler) rx router replies.

Definition create_hk_service_dynamic {E : Type} (tm_funnel_tx : channel PacketAsVec) rx router replies
    : res E (PusTargetedRequestService (channel PacketAsVec) VerificationReporter
               EcssTcInVecConverter HkRequestConverter ActivePusRequestStd HkReplyHandler HkReply) :=
  create_service PUS_HK_SERVICE tm_funnel_tx VecConverter.default
    HkService.default_converter (mkHkReplyHandler) rx router replies.

End Create.

(** ** The telecommand distributor ([pus/mod.rs] of the example) *)
Record PusTcMpscRouter : Type := mkTcRouter {
  test_tc_sender : channel EcssTcAndToken;
  event_tc_sender : channel EcssTcAndToken;
  sched_tc_sender : channel EcssTcAndToken;
  hk_tc_sender : channel EcssTcAndToken;
  action_tc_sender : channel EcssTcAndToken;
  mode_tc_sender : channel EcssTcAndToken;
}.

Record PusTcDistributor (Q : Type) : Type := mkDistributor {
  dist_id : Z;
  dist_tm_sender : Q;
  dist_verif_reporter : VerificationReporter;
  pus_router : PusTcMpscRouter;
  stamp : list Z;
}.

Arguments mkDistributor {Q} _ _ _ _ _.
Arguments dist_id {Q} _.
Arguments dist_tm_sender {Q} _.
Arguments dist_verif_reporter {Q} _.
Arguments pus_router {Q} _.
Arguments stamp {Q} _.

(** [PusServiceId] of [spacepackets], as far as the distributor tells them apart;
    [StdOther] carries its number. *)
Inductive PusServiceId : Type :=
| StdTest | StdHousekeeping | StdEvent | StdScheduling
| StdOther (number : Z).

(** [CustomPusServiceId] with the derived [TryFromPrimitive]. *)
Inductive CustomPusServiceId : Type := CustomMode | CustomHealth.

Definition custom_service_try_from (v : Z) : option CustomPusServiceId :=
  if v =? 200 then Some CustomMode else if v =? 201 then Some CustomHealth else None.

Module Distributor.
Section Distributor.
Context {PE Q : Type} `{PusErrorOps PE} `{EcssTmSender PE Q}.
(** [PusTcReader::new] and [PusServiceId::try_from] *)
Context (pus_tc_reader_new : list Z -> res PE PusTc).
Context (pus_service_id_try_from : Z -> option PusServiceId).
Abbreviation t := (PusTcDistributor Q).

Definition new {E : Type} (tm_sender : Q) (pus_router : PusTcMpscRouter) : res E t :=
  let? reporter := create_verification_reporter (TargetId.id PUS_ROUTING_SERVICE)
                     (apid PUS_ROUTING_SERVICE) in
  Ok (mkDistributor (TargetId.raw PUS_ROUTING_SERVICE) tm_sender reporter pus_router (replicate 7 0)).

Definition on_reporter {E A : Type} (m : st (VerificationReporter * Q) E A) : st t E A :=
  fun d => let '(r, (v, q)) := m (dist_verif_reporter d, dist_tm_sender d) in
    (r, mkDistributor (dist_id d) q v (pus_router d) (stamp d)).

Definition on_router {E A : Type} (m : st PusTcMpscRouter E A) : st t E A :=
  fun d => let '(r, x) := m (pus_router d) in
    (r, mkDistributor (dist_id d) (dist_tm_sender d) (dist_verif_reporter d) x (stamp d)).

(** [self.pus_router.<service>_tc_sender.send(..)?] *)
Definition send_via (get : PusTcMpscRouter -> channel EcssTcAndToken)
    (set : channel EcssTcAndToken -> PusTcMpscRouter -> PusTcMpscRouter) (m : EcssTcAndToken)
    : st t GenericSendError unit :=
  on_router (fun r => let '(x, c) := st_map_err (fun _ => RxDisconnected) (Channel.send m) (get r) in
                      (x, set c r)).

Definition set_test (c : channel EcssTcAndToken) (r : PusTcMpscRouter) : PusTcMpscRouter :=
  mkTcRouter c (event_tc_sender r) (sched_tc_sender r) (hk_tc_sender r) (action_tc_sender r)
    (mode_tc_sender r).
Definition set_event (c : channel EcssTcAndToken) (r : PusTcMpscRouter) : PusTcMpscRouter :=
  mkTcRouter (test_tc_sender r) c (sched_tc_sender r) (hk_tc_sender r) (action_tc_sender r)
    (mode_tc_sender r).
Definition set_sched (c : channel EcssTcAndToken) (r : PusTcMpscRouter) : PusTcMpscRouter :=
  mkTcRouter (test_tc_sender r) (event_tc_sender r) c (hk_tc_sender r) (action_tc_sender r)
    (mode_tc_sender r).
Definition set_hk (c : channel EcssTcAndToken) (r : PusTcMpscRouter) : PusTcMpscRouter :=
  mkTcRouter (test_tc_sender r) (event_tc_sender r) (sched_tc_sender r) c (action_tc_sender r)
    (mode_tc_sender r).
Definition set_mode (c : channel EcssTcAndToken) (r : PusTcMpscRouter) : PusTcMpscRouter :=
  mkTcRouter (test_tc_sender r) (event_tc_sender r) (sched_tc_sender r) (hk_tc_sender r)
    (action_tc_sender r) c.

(** [now_stamp] is the time stamp [TimestampHelper::update_from_now] writes. *)
Definition update_from_now {E : Type} (now_stamp : list Z) : st t E unit :=
  modify_state (fun d => mkDistributor (dist_id d) (dist_tm_sender d) (dist_verif_reporter d)
                           (pus_router d) now_stamp).

(** The match on the service at the end of [handle_tc_generic]. *)
Definition dispatch (service : Z) (tc_in_memory : TcInMemory)
    (accepted_token : VerificationToken TcStateAccepted) (time_stamp : list Z)
    : st t GenericSendError unit :=
  let m := mkEcssTcAndToken tc_in_memory (Some (TokAccepted accepted_token)) in
  let start_failure code data :=
    vr_start_failure (PE:=PE) accepted_token (fail_params time_stamp code data) in
  match pus_service_id_try_from service with
  | Some StdTest => send_via test_tc_sender set_test m
  | Some StdHousekeeping => send_via hk_tc_sender set_hk m
  | Some StdEvent => send_via event_tc_sender set_event m
  | Some StdScheduling => send_via sched_tc_sender set_sched m
  | Some (StdOther number) =>
      let* _ := attempt (on_reporter (start_failure Codes.PUS_SERVICE_NOT_IMPLEMENTED [number])) in
      ret tt
  | None =>
      match custom_service_try_from service with
      | Some CustomMode => send_via mode_tc_sender set_mode m
      | Some CustomHealth => ret tt
      | None =>
          on_reporter (Service.expect_st (start_failure Codes.INVALID_PUS_SUBSERVICE [service]))
      end
  end.

Definition handle_tc_generic (now_stamp : list Z) (sender_id : Z) (addr_opt : option Z)
    (raw_tc : list Z) : st t GenericSendError HandlingStatus :=
  match pus_tc_reader_new raw_tc with
  | Err _ => ret HandledOne
  | Panic => lift Panic
  | Ok pus_tc =>
      let* init_token := on_reporter (fun x =>
        let '(token, v) := vr_add_tc (PE:=PE) (Q:=Q) pus_tc x.1 in (Ok token, (v, x.2))) in
      let* _ := update_from_now now_stamp in
      let* time_stamp := gets stamp in
      let* accepted_token := on_reporter (Service.expect_st
                               (vr_acceptance_success (PE:=PE) init_token time_stamp)) in
      let tc_in_memory := match addr_opt with
                          | Some store_addr => InPool (mkPacketInPool sender_id store_addr)
                          | None => InVec (mkPacketAsVec sender_id raw_tc)
                          end in
      let* _ := dispatch (tc_service pus_tc) tc_in_memory accepted_token time_stamp in
      ret HandledOne
  end.

Definition handle_tc_packet_vec (now_stamp : list Z) (p : PacketAsVec)
    : st t GenericSendError HandlingStatus :=
  handle_tc_generic now_stamp (pav_sender_id p) None (packet p).

Definition handle_tc_packet_in_store (now_stamp : list Z) (p : PacketInPool) (pus_tc_copy : list Z)
    : st t GenericSendError HandlingStatus :=
  handle_tc_generic now_stamp (pip_sender_id p) (Some (store_addr p)) pus_tc_copy.

(** [TcSourceTaskDynamic::poll_tc]: the distributor with its receiver. *)
Definition poll_tc_dynamic {E : Type} (now_stamp : list Z)
    : st (channel PacketAsVec * t) E HandlingStatus :=
  let* r := on_fst (attempt Channel.try_recv) in
  match r with
  | Ok packet_as_vec =>
      let* _ := on_snd (attempt (handle_tc_packet_vec now_stamp packet_as_vec)) in
      ret HandledOne
  | _ => ret HandlingEmpty
  end.

(** [TcSourceTaskStatic::poll_tc]: besides the receiver it holds the pool and a
    buffer the telecommand is read into; the whole buffer is handed on. *)
Definition poll_tc_static {E P : Type} `{PoolProvider P} (now_stamp : list Z)
    : st ((channel PacketInPool * (Shared P * list Z)) * t) E HandlingStatus :=
  let* r := on_fst (on_fst (attempt Channel.try_recv)) in
  match r with
  | Ok packet_in_pool =>
      let* _ := on_fst (on_snd (fun x : Shared P * list Z =>
        if poisoned x.1 then (Panic, x) else
        match pool_read (inner x.1) (store_addr packet_in_pool) x.2 with
        | Ok (_, buf) => (Ok tt, (x.1, buf))
        | _ => (Panic, x)
        end)) in
      let* tc_buf := gets (fun x : (channel PacketInPool * (Shared P * list Z)) * t => x.1.2.2) in
      let* _ := on_snd (attempt (handle_tc_packet_in_store now_stamp packet_in_pool tc_buf)) in
      ret HandledOne
  | _ => ret HandlingEmpty
  end.

End Distributor.
End Distributor.
