(* ===== verification/TargetedFlow.v ===== *)
(** * The life of a targeted request

    What [TargetedService] promises: the reports of a request, the invariant of
    the map of active requests, timeouts, the conversion of telecommands and the
    way of a mode command from the distributor to the device and back.

    The theorems on reports are proved against an interface: a reporter with a
    log of what was reported ([ReporterLaws]) and a reply handler that ends a
    request exactly when it reports its end ([ReplyHandlerLaws]) and reports each reply as
    what it stands for ([ReplyReportLaws]).  The two
    reporters and the three reply handlers of the sources are instances. *)

From Stdlib Require Import ZArith Lia Bool String.
From stdpp Require Import base list gmap relations.
From S2P Require Import Prelude Spacepackets Pool Params Tmtc Verification Services Requests TargetedService.

Local Open Scope Z_scope.

(** ** Reporters with a log *)

(** The number of a request ID, and the end of a request: step failure,
    completion or completion failure. *)
Definition rid (r : RequestId) : Z := as_u 32 (RequestId.raw r).

Definition final (subservice : Z) : Prop :=
  subservice = TmStepFailure \/ subservice = TmCompletionSuccess \/ subservice = TmCompletionFailure.

#[export] Instance final_dec subservice : Decision (final subservice) := _.

Class ReporterLog (V Q : Type) : Type := {
  rep_log : V * Q -> list (Z * Z);
  rep_ok : V * Q -> Prop;
}.

(** A call that appends one report to the log if it succeeds, none otherwise. *)
Definition logs {V Q E A : Type} `{ReporterLog V Q} (m : st (V * Q) E A) (r : RequestId) (ss : Z)
    : Prop :=
  forall x, rep_ok x ->
    let '(a, x') := m x in
    rep_ok x' /\ rep_log x' = rep_log x ++ (if is_ok a then [(rid r, ss)] else []).

Definition logs_nothing {V Q E A : Type} `{ReporterLog V Q} (m : st (V * Q) E A) : Prop :=
  forall x, rep_ok x -> let '(_, x') := m x in rep_ok x' /\ rep_log x' = rep_log x.

Class ReporterLaws (PE V Q : Type) `{EcssTmSender PE Q} `{!VerificationReportingProvider PE V Q}
    `{!ReporterLog V Q} : Prop := {
  log_start_success : forall t stamp,
    logs (vr_start_success (PE:=PE) t stamp) (request_id t) TmStartSuccess;
  start_success_token : forall t stamp x t' x',
    vr_start_success (PE:=PE) t stamp x = (Ok t', x') -> request_id t' = request_id t;
  log_start_failure : forall t p, logs (vr_start_failure (PE:=PE) t p) (request_id t) TmStartFailure;
  log_step_success : forall t stamp s,
    logs (vr_step_success (PE:=PE) t stamp s) (request_id t) TmStepSuccess;
  log_step_failure : forall t p, logs (vr_step_failure (PE:=PE) t p) (request_id t) TmStepFailure;
  log_completion_success : forall s (W : WasAtLeastAccepted s) t stamp,
    logs (vr_completion_success (PE:=PE) s W t stamp) (request_id t) TmCompletionSuccess;
  log_completion_failure : forall s (W : WasAtLeastAccepted s) t p,
    logs (vr_completion_failure (PE:=PE) s W t p) (request_id t) TmCompletionFailure;
  log_send_tm : forall id tm, tm_service tm <> 1 ->
    logs_nothing (V:=V) (on_snd (send_tm (PE:=PE) id (Direct tm)));
}.

(** *** [TestVerificationReporter] *)
Definition report_subservice (i : VerificationReportInfo) : option Z :=
  match i with
  | Added => None
  | AcceptanceSuccess _ => Some TmAcceptanceSuccess
  | AcceptanceFailure _ => Some TmAcceptanceFailure
  | StartedSuccess _ => Some TmStartSuccess
  | StartedFailure _ => Some TmStartFailure
  | StepSuccess _ _ => Some TmStepSuccess
  | StepFailure _ => Some TmStepFailure
  | CompletionSuccess _ => Some TmCompletionSuccess
  | CompletionFailure _ => Some TmCompletionFailure
  end.

#[export] Instance test_log {Q} : ReporterLog TestVerificationReporter Q := {|
  rep_log x := omap (fun '(r, i) => pair (rid r) <$> report_subservice i) (report_queue x.1);
  rep_ok _ := True;
|}.

Lemma test_logs {PE Q A} r i ss (a : A) :
  (forall v, report_subservice (i v) = Some ss) ->
  logs (TestReporter.log (PE:=PE) (Q:=Q) r i a) r ss.
Proof.
  intros Hi [v q] _. cbn. split; [done|]. rewrite omap_app. cbn. by rewrite Hi.
Qed.

#[export] Instance test_reporter_laws {PE Q} `{EcssTmSender PE Q} :
  ReporterLaws PE TestVerificationReporter Q.
Proof.
  constructor.
  - intros t s. by apply test_logs.
  - intros t s x t' x' [= <- _]. done.
  - intros t p. by apply test_logs.
  - intros t st s. by apply test_logs.
  - intros t p. by apply test_logs.
  - intros s W t st. by apply test_logs.
  - intros s W t p. by apply test_logs.
  - intros id tm _ [v q] _. unfold on_snd. cbn. by destruct (send_tm id (Direct tm) q).
Qed.

(** *** [VerificationReporter] with a sender that records the telemetry *)
Definition tm_report (x : Z * PusTmVariant) : option (Z * Z) :=
  match x.2 with
  | Direct tm =>
      if tm_service tm =? 1
      then Some (from_be_bytes (take 4 (tm_source_data tm)), tm_subservice tm) else None
  | InStore _ => None
  end.

#[export] Instance reporter_log : ReporterLog VerificationReporter (list (Z * PusTmVariant)) := {|
  rep_log x := omap tm_report x.2;
  rep_ok x := forall tm, tm_hook x.1 tm = tm;
|}.

(** What is written to the buffer after the request ID leaves the request ID
    alone. *)
Lemma copy_into_keeps_front {E} (buf d buf' : list Z) a b (n : nat) :
  Z.of_nat n <= a -> copy_into (E:=E) buf a b d = Ok buf' -> take n buf' = take n buf.
Proof.
  intros Ha Hc. unfold copy_into, res_bind in Hc. destruct (slice buf a b) as [old| |] eqn:Hs; [|done|done].
  case_decide as Hd; [|done]. injection Hc as <-. apply length_slice in Hs.
  unfold splice. rewrite take_app_le by (rewrite length_take; unfold len in *; lia).
  rewrite take_take. f_equal. lia.
Qed.

Definition keeps_front (n : nat) {A} (m : st (list Z) ByteConversionError A) : Prop :=
  forall buf, take n (m buf).2 = take n buf.

Lemma write_slice_keeps n a b d : Z.of_nat n <= a -> keeps_front n (ReportCreator.write_slice a b d).
Proof.
  intros Ha buf. unfold ReportCreator.write_slice.
  destruct (copy_into buf a b d) eqn:Hc; [|done|done]. by eapply copy_into_keeps_front.
Qed.

Lemma write_enum_keeps n a e : Z.of_nat n <= a -> keeps_front n (ReportCreator.write_enum a e).
Proof.
  intros Ha buf. unfold ReportCreator.write_enum. run_monad.
  destruct (slice buf a _); [|done|done]. destruct (enum_write e _); [|done|done].
  destruct (copy_into buf a _ _) eqn:Hc; [|done|done]. by eapply copy_into_keeps_front.
Qed.

Lemma write_enum_ok a e buf r buf' :
  ReportCreator.write_enum a e buf = (Ok r, buf') -> 0 <= enum_size e.
Proof.
  unfold ReportCreator.write_enum. run_monad. destruct (slice buf a _) eqn:Hs; [|done|done].
  intros _. apply length_slice in Hs. unfold len in Hs. lia.
Qed.

Lemma keeps_bind n {A B} (m : st (list Z) ByteConversionError A) (k : A -> st (list Z) ByteConversionError B) :
  keeps_front n m -> (forall a, keeps_front n (k a)) -> keeps_front n (st_bind m k).
Proof.
  intros Hm Hk buf. unfold st_bind. specialize (Hm buf). destruct (m buf) as [[]]; [|done|done].
  cbn in Hm. by rewrite Hk.
Qed.

(** The reports carry the request ID at the front of their data. *)
Definition is_report (r : RequestId) (ss : Z) (tm : PusTm) : Prop :=
  tm_service tm = 1 /\ tm_subservice tm = ss /\
  take 4 (tm_source_data tm) = to_be_bytes 4 (RequestId.raw r).

Abbreviation any := (fun _ : list Z => True).

Definition has_id (r : RequestId) (buf : list Z) : Prop := take 4 buf = to_be_bytes 4 (RequestId.raw r).

Lemma keeps_wp n {A} (m : st (list Z) ByteConversionError A) buf f :
  keeps_front n m -> take n buf = f -> wp m (fun _ buf' => take n buf' = f) any True buf.
Proof. intros Hk Hf. specialize (Hk buf). unfold wp. destruct (m buf) as [[]]; try done. cbn in Hk. congruence. Qed.

Lemma write_req_id_wp r buf :
  wp (ReportCreator.write_req_id r) (fun _ => has_id r) any True buf.
Proof.
  unfold wp. destruct (ReportCreator.write_req_id r buf) as [[[]| |] buf'] eqn:Hw; try done.
  unfold ReportCreator.write_req_id, st_bind, asks, lift in Hw.
  destruct (slice buf 0 RequestId.SIZE_AS_BYTES) as [sub| |] eqn:Hs; try done.
  destruct (RequestId.to_bytes r sub) as [b| |] eqn:Hb; try done.
  unfold ReportCreator.write_slice in Hw. destruct (copy_into buf 0 _ b) as [b'| |] eqn:Hc; try done.
  injection Hw as <-. apply length_slice in Hs as (Hl & _ & Hle). unfold RequestId.SIZE_AS_BYTES in *.
  unfold RequestId.to_bytes, has_id in *. remember (to_be_bytes 4 (RequestId.raw r)) as id eqn:Hid.
  assert (length id = 4)%nat by (by rewrite Hid, length_to_be_bytes). unfold len in *.
  rewrite copy_into_ok in Hb by (unfold len; lia). injection Hb as <-.
  rewrite splice_full in Hc by lia. rewrite copy_into_ok in Hc by (unfold len; lia).
  injection Hc as <-. unfold splice. change (take (Z.to_nat 0) buf) with (@nil Z). cbn [app].
  by rewrite take_app_length' by lia.
Qed.

Lemma step_wp r (step : option EcssEnum) buf :
  has_id r buf ->
  wp (match step with
      | Some s => ReportCreator.write_enum_unwrap RequestId.SIZE_AS_BYTES s
      | None => ret tt
      end)
    (fun _ buf' => has_id r buf' /\ 0 <= match step with Some s => enum_size s | None => 0 end)
    any True buf.
Proof.
  intros Hid. destruct step as [s|]; [|by split].
  unfold wp, ReportCreator.write_enum_unwrap.
  pose proof (write_enum_keeps 4 RequestId.SIZE_AS_BYTES s ltac:(done) buf) as Hk.
  destruct (ReportCreator.write_enum _ s buf) as [[[]| |] buf'] eqn:Hw; try done. cbn in Hk |- *.
  split; [unfold has_id in *; congruence | by eapply write_enum_ok].
Qed.

Lemma base_wp c r ss msg apid seq stamp n buf :
  has_id r buf -> 4 <= n ->
  wp (ReportCreator.create_pus_verif_tm_base c ss msg apid seq stamp n)
    (fun tm _ => is_report r ss tm) any True buf.
Proof.
  intros Hid Hn. unfold ReportCreator.create_pus_verif_tm_base. wp_step. wp_step.
  destruct (slice buf 0 n) as [d| |] eqn:Hs; try done. wp_step. repeat split.
  cbn [tm_source_data]. unfold slice in Hs. destruct (_ && _); [|done]. injection Hs as <-.
  rewrite drop_0, take_take. unfold has_id in Hid. rewrite <- Hid. f_equal. lia.
Qed.

Lemma success_tm_wp c ss seq msg r stamp step buf :
  wp (ReportCreator.create_pus_verif_success_tm c ss seq msg r stamp step)
    (fun tm _ => is_report r ss tm) any True buf.
Proof.
  unfold ReportCreator.create_pus_verif_success_tm. wp_step. wp_step. destruct (source_buffer_large_enough _ _); try done.
  eapply wp_cut; [apply write_req_id_wp|]. intros [] b1 H1.
  eapply wp_cut; [by apply step_wp|]. intros [] b2 [H2 Hs]. apply base_wp; [done|lia].
Qed.

Lemma fail_tm_wp c ss seq msg r step p buf :
  wp (ReportCreator.create_pus_verif_fail_tm c ss seq msg r step p)
    (fun tm _ => is_report r ss tm) any True buf.
Proof.
  unfold ReportCreator.create_pus_verif_fail_tm. wp_step. wp_step. destruct (source_buffer_large_enough _ _); try done.
  eapply wp_cut; [apply write_req_id_wp|]. intros [] b1 H1.
  eapply wp_cut; [by apply step_wp|]. intros [] b2 [H2 Hs].
  change RequestId.SIZE_AS_BYTES with 4.
  set (i := 4 + match step with Some s => enum_size s | None => 0 end).
  assert (Hi : 4 <= i) by (unfold i; lia). clearbody i.
  assert (Hc : forall b, has_id r b -> wp (ReportCreator.write_enum i (failure_code p))
             (fun _ b' => has_id r b' /\ 0 <= enum_size (failure_code p)) any True b).
  { intros b Hb. pose proof (write_enum_keeps 4 i (failure_code p) ltac:(lia) b) as Hk. unfold wp.
    destruct (ReportCreator.write_enum i _ b) as [[[]| |] b'] eqn:Hw; try done. cbn in Hk.
    split; [unfold has_id in *; congruence | by eapply write_enum_ok]. }
  eapply wp_cut; [by apply Hc|]. intros [] b3 [H3 He].
  eapply wp_cut; [apply (keeps_wp 4); [apply write_slice_keeps; lia|exact H3]|].
  intros [] b4 H4. apply base_wp; [done|]. pose proof (len_nonneg (failure_data p)). lia.
Qed.

Lemma report_logs {PE A} `{PusErrorOps PE} (create : VerificationReportCreator -> st (list Z) ByteConversionError (PusTm * A)) r ss :
  (forall c buf, wp (create c) (fun x _ => is_report r ss x.1) any True buf) ->
  logs (Reporter.report (PE:=PE) (Q:=list (Z * PusTmVariant)) create) r ss.
Proof.
  intros Hc [v q] Hok. unfold Reporter.report. specialize (Hc (reporter_creator v) (source_data_buf v)).
  unfold wp in Hc. destruct (create _ _) as [[[tm a]| |] buf]; cbn in Hok |- *.
  - split; [done|]. rewrite omap_app. f_equal. destruct Hc as (H1 & H2 & H3). cbn [fst] in H1, H2, H3. rewrite Hok.
    unfold tm_report. cbn [omap list_omap snd]. rewrite H1, H2, H3, from_to_be_bytes. done.
  - split; [done|]. by rewrite app_nil_r.
  - split; [done|]. by rewrite app_nil_r.
Qed.

Lemma no_token_wp m r ss buf :
  wp m (fun tm _ => is_report r ss tm) any True buf ->
  wp (Reporter.no_token m) (fun x _ => is_report r ss x.1) any True buf.
Proof. intros Hm. eapply wp_cut; [exact Hm|]. done. Qed.

#[export] Instance reporter_laws {PE} `{PusErrorOps PE} :
  ReporterLaws PE VerificationReporter (list (Z * PusTmVariant)).
Proof.
  constructor.
  - intros t stamp. apply report_logs. intros c buf. eapply wp_cut; [apply success_tm_wp|]. done.
  - intros t stamp [v q] t' x' Hs. cbn in Hs. unfold Reporter.start_success, Reporter.report in Hs.
    destruct (ReportCreator.start_success _ _ _ _ _ _) as [[[tm a]| |] buf] eqn:Hc; try done.
    injection Hs as <- _. unfold ReportCreator.start_success, st_bind in Hc.
    destruct (ReportCreator.success_verification_no_step _ _ _ _ _ _ _) as [[| |] ?]; try done.
    by injection Hc as _ <- _.
  - intros t p. apply report_logs. intros c buf. apply no_token_wp, fail_tm_wp.
  - intros t stamp s. apply report_logs. intros c buf. apply no_token_wp, success_tm_wp.
  - intros t p. apply report_logs. intros c buf. apply no_token_wp, fail_tm_wp.
  - intros s W t stamp. apply report_logs. intros c buf. apply no_token_wp, success_tm_wp.
  - intros s W t p. apply report_logs. intros c buf. apply no_token_wp, fail_tm_wp.
  - intros id tm Htm [v q] Hok. cbn. split; [done|]. rewrite omap_app. cbn. unfold tm_report. cbn [snd].
    destruct (Z.eqb_spec (tm_service tm) 1); [done|]. by rewrite app_nil_r.
Qed.

(** ** Reply handlers that report *)
Section WpLemmas.
Context {S P E F A : Type}.

Lemma wp_on_snd (m : st P E A) (Q : A -> S * P -> Prop) (Er : S * P -> Prop) N s p :
  wp m (fun a p' => Q a (s, p')) (fun p' => Er (s, p')) N p -> wp (on_snd m) Q Er N (s, p).
Proof. unfold wp, on_snd. cbn. by destruct (m p) as [[]]. Qed.

Lemma wp_expect (m : st S E A) (Q : A -> S -> Prop) (Er : S -> Prop) (N : Prop) s :
  wp m Q (fun _ => N) N s -> wp (Service.expect_st (F:=F) m) Q Er N s.
Proof. unfold wp, Service.expect_st. by destruct (m s) as [[]]. Qed.

End WpLemmas.

Section Logged.
Context {PE V Q : Type} `{EcssTmSender PE Q} `{!VerificationReportingProvider PE V Q}
  `{!ReporterLog V Q} `{!ReporterLaws PE V Q}.
Implicit Types x : V * Q.

(** The state after a call that was asked to report [e]. *)
Definition logged x (e : list (Z * Z)) x' : Prop := rep_ok x' /\ rep_log x' = rep_log x ++ e.

Lemma logs_wp {E A} (m : st (V * Q) E A) r ss x :
  logs m r ss -> rep_ok x ->
  wp m (fun _ => logged x [(rid r, ss)]) (logged x []) True x.
Proof. intros Hm Hx. specialize (Hm x Hx). unfold wp, logged. by destruct (m x) as [[]]. Qed.

Lemma logs_nothing_wp {E A} (m : st (V * Q) E A) x :
  logs_nothing m -> rep_ok x -> wp m (fun _ => logged x []) (logged x []) True x.
Proof.
  intros Hm Hx. specialize (Hm x Hx). unfold wp, logged. rewrite app_nil_r.
  by destruct (m x) as [[]].
Qed.

Lemma logged_nil x x' : rep_ok x -> x' = x -> logged x [] x'.
Proof. intros Hx ->. split; [done|]. by rewrite app_nil_r. Qed.

Lemma logged_trans x x1 x2 e1 e2 : logged x e1 x1 -> logged x1 e2 x2 -> logged x (e1 ++ e2) x2.
Proof. intros [_ H1] [H2 H3]. split; [done|]. by rewrite H3, H1, app_assoc. Qed.

End Logged.

Class ReplyHandlerLaws (PE V Q I Rep RH : Type) `{EcssTmSender PE Q}
    `{!VerificationReportingProvider PE V Q} `{!ReporterLog V Q} `{ActiveRequestProvider I}
    `{!PusReplyHandler PE V Q I Rep RH} : Prop := {
  (** A handled reply reports the end of the request exactly when it says that
      the request is finished, and else a step; an error reports nothing. *)
  reply_logged : forall reply (info : I) stamp t (rh : RH) x,
    ar_token info = TokStarted t -> rep_ok x ->
    wp (rh_handle_reply (Rep:=Rep) reply info stamp)
      (fun finished x' => exists ss, logged x [(rid (request_id t), ss)] x'.2 /\
         if finished : bool then final ss else ss = TmStepSuccess)
      (fun x' => logged x [] x'.2) True (rh, x);
  unrequested_logged : forall reply (rh : RH) x, rep_ok x ->
    wp (rh_handle_unrequested_reply (Rep:=Rep) (I:=I) reply)
      (fun _ x' => logged x [] x'.2) (fun x' => logged x [] x'.2) True (rh, x);
}.

(** What a reply stands for, as the subservice of its report: a step or the end of
    the request. *)
Class ReplyReport (Rep : Type) : Type := reply_report : Rep -> Z.

Class ReplyReportLaws (PE V Q I Rep RH : Type) `{EcssTmSender PE Q}
    `{!VerificationReportingProvider PE V Q} `{!ReporterLog V Q} `{ActiveRequestProvider I}
    `{!PusReplyHandler PE V Q I Rep RH} `{!ReplyReport Rep} : Prop := {
  (** A handled reply is reported as what it stands for, and the request is
      finished exactly when that is its end; an error reports nothing. *)
  reply_reported : forall reply (info : I) stamp t (rh : RH) x,
    ar_token info = TokStarted t -> rep_ok x ->
    wp (rh_handle_reply (Rep:=Rep) reply info stamp)
      (fun finished x' => logged x [(rid (request_id t), reply_report (message reply))] x'.2 /\
         finished = bool_decide (final (reply_report (message reply))))
      (fun x' => logged x [] x'.2) True (rh, x);
  reply_report_cases : forall reply : Rep, reply_report reply = TmStepSuccess \/ final (reply_report reply);
}.

#[export] Instance action_report : ReplyReport ActionReplyPus := fun reply =>
  match reply_variant reply with
  | ActCompleted => TmCompletionSuccess
  | ActStepSuccess _ => TmStepSuccess
  | ActCompletionFailed _ _ => TmCompletionFailure
  | ActStepFailed _ _ _ => TmStepFailure
  end.

#[export] Instance mode_report : ReplyReport ModeReply := fun reply =>
  match reply with ModeReplyOk _ => TmCompletionSuccess | _ => TmCompletionFailure end.

#[export] Instance hk_report : ReplyReport HkReply := fun reply =>
  match hk_reply_variant reply with HkAck => TmCompletionSuccess | HkFailed _ => TmCompletionFailure end.

Section Handlers.
Context {PE V Q : Type} `{EcssTmSender PE Q} `{!VerificationReportingProvider PE V Q}
  `{!ReporterLog V Q} `{!ReporterLaws PE V Q}.

(** Handlers that report what the replies stand for have the laws above. *)
Lemma handler_laws_from_reports {I Rep RH} `{ActiveRequestProvider I} `{!PusReplyHandler PE V Q I Rep RH}
    `{!ReplyReport Rep} :
  ReplyReportLaws PE V Q I Rep RH ->
  (forall reply (rh : RH) x, rh_handle_unrequested_reply (Rep:=Rep) (I:=I) reply (rh, x) = (Ok tt, (rh, x))) ->
  ReplyHandlerLaws PE V Q I Rep RH.
Proof.
  intros Hl Hu. constructor.
  - intros reply info stamp t rh x Ht Hx. eapply wp_mono; [by apply (reply_reported reply info stamp t rh x)|..];
      [|done|done]. intros finished x' [Hlog ->]. eexists. split; [exact Hlog|].
    case_bool_decide as Hf; [done|]. by destruct (reply_report_cases (message reply)).
  - intros reply rh x Hx. unfold wp. rewrite Hu. by apply logged_nil.
Qed.

(** A report as the last call of a handler, and with the answer after it. *)
Lemma report_last {RH E A} (m : st (V * Q) E A) r ss (rh : RH) x0 x :
  logged x0 [] x -> logs m r ss ->
  wp (on_snd m) (fun _ x' => logged x0 [(rid r, ss)] x'.2) (fun x' => logged x0 [] x'.2) True (rh, x).
Proof.
  intros Hx Hm. apply wp_on_snd. eapply wp_mono; [by apply logs_wp, Hx|..]; [| |done].
  - intros a x' Hl. by apply (logged_trans x0 x x' [] _).
  - intros x' Hl. by apply (logged_trans x0 x x' [] []).
Qed.

Lemma report_then_ret {RH E A} (m : st (V * Q) E A) r ss (b : bool) (rh : RH) x0 x :
  logged x0 [] x -> logs m r ss -> b = bool_decide (final ss) ->
  wp (let* _ := on_snd m in ret b)
    (fun finished x' => logged x0 [(rid r, ss)] x'.2 /\ finished = bool_decide (final ss))
    (fun x' => logged x0 [] x'.2) True (rh, x).
Proof.
  intros Hx Hm Hb. apply wp_bind. eapply wp_mono; [by apply report_last|..]; [|done|done].
  intros a x' Hl. by apply wp_ret.
Qed.

Lemma with_params_logs {s} {W : WasAtLeastAccepted s} (t : VerificationToken s) h :
  logs (handle_completion_failure_with_generic_params (PE:=PE) (V:=V) (Q:=Q) t h) (request_id t) TmCompletionFailure.
Proof.
  intros x Hx. unfold handle_completion_failure_with_generic_params, st_bind, lift.
  destruct (failure_bytes h) as [d| |]; try (by rewrite app_nil_r).
  pose proof (log_completion_failure s W t (mkFailParams (timestamp h) (error_code h) d.1) x Hx) as Hl.
  by destruct (vr_completion_failure _ _ _ _ x) as [[]].
Qed.

Lemma step_with_params_logs (t : VerificationToken TcStateStarted) h step :
  logs (handle_step_failure_with_generic_params (PE:=PE) (V:=V) (Q:=Q) t h step) (request_id t) TmStepFailure.
Proof.
  intros x Hx. unfold handle_step_failure_with_generic_params, st_bind, lift.
  destruct (failure_bytes h) as [d| |]; try (by rewrite app_nil_r).
  pose proof (log_step_failure t (mkFailParamsWithStep
    (mkFailParams (timestamp h) (error_code h) d.1) step) x Hx) as Hl.
  by destruct (vr_step_failure _ _ x) as [[]].
Qed.

Lemma expect_logs {E F A} (m : st (V * Q) E A) r ss : logs m r ss -> logs (Service.expect_st (F:=F) m) r ss.
Proof.
  intros Hm x Hx. specialize (Hm x Hx). unfold Service.expect_st. by destruct (m x) as [[]].
Qed.

#[local] Hint Resolve with_params_logs step_with_params_logs expect_logs : core.
#[local] Hint Unfold final : core.
#[local] Hint Extern 1 (logs (vr_completion_success _ _ _ _) _ _) => apply log_completion_success : core.
#[local] Hint Extern 1 (logs (vr_completion_failure _ _ _ _) _ _) => apply log_completion_failure : core.
#[local] Hint Extern 1 (logs (vr_step_success _ _ _) _ _) => apply log_step_success : core.

#[export] Instance action_report_laws `{EcssEnumOps} :
  ReplyReportLaws PE V Q ActivePusActionRequestStd ActionReplyPus ActionReplyHandler.
Proof.
  constructor; [|intros []; unfold reply_report, action_report; destruct reply_variant; cbn; auto].
  intros reply info stamp t rh x Ht Hx. cbn [rh_handle_reply action_reply_handler].
  unfold Action.handle_reply, reply_report, action_report. rewrite Ht. cbn [TcStateToken.try_into_started expect].
  wp_step. wp_step. wp_step. wp_step. cbn [fst].
  pose proof (logged_nil x x Hx eq_refl) as Hn.
  destruct (reply_variant (message reply)); eapply report_then_ret; eauto.
Qed.

#[export] Instance mode_report_laws `{HeaderOps} `{PacketIdOps} :
  ReplyReportLaws PE V Q ActivePusRequestStd ModeReply ModeReplyHandler.
Proof.
  constructor; [|intros []; cbn; auto].
  intros reply info stamp t rh x Ht Hx. cbn [rh_handle_reply mode_reply_handler].
  unfold ModeService.handle_reply, reply_report, mode_report. rewrite Ht. cbn [TcStateToken.try_into_started expect].
  wp_step. wp_step.
  pose proof (logged_nil x x Hx eq_refl) as Hn.
  destruct (message reply) as [m|code|expected reached].
  - apply wp_bind. wp_step. wp_step. destruct (ModeService.write_mode m _) as [w| |]; [|done|done].
    wp_step. wp_step. wp_step. apply wp_on_snd. eapply wp_mono.
    { apply logs_nothing_wp; [|exact Hx]. by apply log_send_tm. }
    + intros a x1 Hs1. cbn beta in Hs1 |- *. eapply wp_mono; [by eapply report_last; eauto|..]; [|done|done].
      intros [] x' Hl. by apply wp_ret.
    + done.
    + done.
  - eapply report_then_ret; eauto.
  - apply wp_bind.
    repeat (wp_step; wp_step;
      match goal with |- match ?r with _ => _ end => destruct r; [|done|done] end).
    eapply wp_mono; [by eapply report_last; eauto|..]; [|done|done].
    intros [] x' Hl. by apply wp_ret.
Qed.

#[export] Instance hk_report_laws : ReplyReportLaws PE V Q ActivePusRequestStd HkReply HkReplyHandler.
Proof.
  constructor; [|intros []; unfold reply_report, hk_report; destruct hk_reply_variant; cbn; auto].
  intros reply info stamp t rh x Ht Hx. cbn [rh_handle_reply hk_reply_handler].
  unfold HkService.handle_reply, reply_report, hk_report. rewrite Ht. cbn [TcStateToken.try_into_started expect].
  wp_step. wp_step. pose proof (logged_nil x x Hx eq_refl) as Hn.
  destruct (hk_reply_variant (message reply)); eapply report_then_ret; eauto.
Qed.

#[export] Instance action_handler_laws `{EcssEnumOps} :
  ReplyHandlerLaws PE V Q ActivePusActionRequestStd ActionReplyPus ActionReplyHandler.
Proof. by apply handler_laws_from_reports; [apply action_report_laws|]. Qed.

#[export] Instance mode_handler_laws `{HeaderOps} `{PacketIdOps} :
  ReplyHandlerLaws PE V Q ActivePusRequestStd ModeReply ModeReplyHandler.
Proof. by apply handler_laws_from_reports; [apply mode_report_laws|]. Qed.

#[export] Instance hk_handler_laws : ReplyHandlerLaws PE V Q ActivePusRequestStd HkReply HkReplyHandler.
Proof. by apply handler_laws_from_reports; [apply hk_report_laws|]. Qed.

End Handlers.

(** ** Runs of a service *)
Section Runs.
Context {PE V Q C CV I RH Rep : Type} `{EcssTmSender PE Q} `{!VerificationReportingProvider PE V Q}
  `{!ReporterLog V Q} `{!ReporterLaws PE V Q} `{ActiveRequestProvider I}
  `{!PusReplyHandler PE V Q I Rep RH} `{!ReplyHandlerLaws PE V Q I Rep RH}.
Abbreviation service := (PusTargetedRequestService Q V C CV I RH Rep).
Implicit Types (s : service) (m : gmap Z I).

(** An active request has a started token, of the request ID it is filed under. *)
Definition map_ok m : Prop :=
  forall key info, m !! key = Some info ->
    exists t, ar_token info = TokStarted t /\ RequestId.raw (request_id t) = key /\ in_u 32 key.

Definition reporting s : V * Q := (verif_reporter (service_helper s), tm_sender (service_helper s)).

Definition service_ok s : Prop := map_ok (active_request_map s) /\ rep_ok (reporting s).

(** The subservices of the reports on one request, in order. *)
Definition reports_of (r : Z) (l : list (Z * Z)) : list Z :=
  omap (fun x => if decide (x.1 = r) then Some x.2 else None) l.

(** What happens to a service while replies are handled and timeouts checked: a
    reply is polled, and the reply handler refuses it or not; there is none to poll;
    the timeouts are checked; somebody sends a reply. *)
Inductive reply_event : Type :=
| Polled (reply : GenericMessage Rep) (refused : bool)
| NonePolled
| TimeoutsChecked (now : Z -> Z)
| ReplySent (reply : GenericMessage Rep).

(** The event of a poll, by the state before it: the first reply of the queue, and
    whether the handler fails to report it. *)
Definition poll_event (stamp : list Z) s : reply_event :=
  match queue (service_replies s) with
  | [] => NonePolled
  | reply :: _ =>
      Polled reply
        match active_request_map s !! msg_request_id reply with
        | Some info => is_err (rh_handle_reply (PE:=PE) reply info stamp (reply_handler s, reporting s)).1
        | None => false
        end
  end.

Inductive event_step s : reply_event -> service -> Prop :=
| step_reply stamp a s' :
    Targeted.poll_and_handle_next_reply (PE:=PE) stamp s = (a, s') -> a <> Panic ->
    event_step s (poll_event stamp s) s'
| step_timeouts now a s' :
    Targeted.check_for_request_timeouts (E:=unit) now s = (a, s') -> event_step s (TimeoutsChecked now) s'
| step_sent (reply : GenericMessage Rep) :
    event_step s (ReplySent reply) (mkService (service_helper s) (request_router s) (request_converter s)
      (active_request_map s) (reply_handler s)
      (Channel.set_queue (queue (service_replies s) ++ [reply]) (service_replies s))).

Lemma polled_step stamp l a s s' :
  Targeted.poll_and_handle_next_reply (PE:=PE) stamp s = (a, s') -> a <> Panic -> poll_event stamp s = l ->
  event_step s l s'.
Proof using. intros Hp Ha <-. by eapply step_reply. Qed.

Definition reply_step s s' : Prop := exists l, event_step s l s'.

Inductive reply_run : service -> list reply_event -> service -> Prop :=
| reply_run_nil s : reply_run s [] s
| reply_run_cons s l s1 ls s2 : event_step s l s1 -> reply_run s1 ls s2 -> reply_run s (l :: ls) s2.

Lemma reports_of_app r l l' : reports_of r (l ++ l') = reports_of r l ++ reports_of r l'.
Proof. apply omap_app. Qed.

Lemma reports_of_pairs r k (es : list Z) :
  reports_of r (pair k <$> es) = if decide (k = r) then es else [].
Proof.
  induction es as [|ss es IH]; [by destruct (decide _)|].
  change (reports_of r (pair k <$> ss :: es)) with
    (match (if decide (k = r) then Some ss else None) with Some y => y :: reports_of r (pair k <$> es)
     | None => reports_of r (pair k <$> es) end).
  rewrite IH. by destruct (decide (k = r)).
Qed.

Lemma map_ok_delete m k : map_ok m -> map_ok (delete k m).
Proof. intros Hm key info Hk. apply lookup_delete_Some in Hk as [_ Hk]. by apply Hm. Qed.

Lemma map_ok_rid m key info t :
  map_ok m -> m !! key = Some info -> ar_token info = TokStarted t -> rid (request_id t) = key.
Proof.
  intros Hm Hk Ht. destruct (Hm key info Hk) as (t' & Ht' & <- & Hu).
  rewrite Ht in Ht'. injection Ht' as <-. by apply Z.mod_small.
Qed.

(** *** Timeouts *)
Lemma for_each_timeouts now m l :
  fold_left (fun l x => if ar_has_timed_out (now x.1) x.2 then l ++ [x.1] else l) (map_to_list m) l =
    l ++ (List.filter (fun x => ar_has_timed_out (now x.1) x.2) (map_to_list m)).*1.
Proof.
  generalize (map_to_list m). intros xs. revert l. induction xs as [|x xs IH]; intros l; simpl.
  - by rewrite app_nil_r.
  - rewrite IH. destruct (ar_has_timed_out _ _); [|done]. by rewrite <- app_assoc.
Qed.

Lemma fold_remove (l : list Z) m k :
  fold_left (fun m i => (RequestMap.remove i m).2) l m !! k = if decide (k ∈ l) then None else m !! k.
Proof.
  revert m. induction l as [|i l IH]; intros m; simpl; [done|]. rewrite IH.
  destruct (decide (k ∈ l)); [by rewrite decide_True by (by right)|].
  destruct (decide (k = i)) as [->|Hne].
  - rewrite lookup_delete_eq, decide_True by (by left). done.
  - rewrite lookup_delete_ne by done. rewrite decide_False; [done|].
    rewrite elem_of_cons. by intros [?|?].
Qed.

(** The map of active requests after the timeouts were checked. *)
Definition after_timeouts (now : Z -> Z) m : gmap Z I :=
  filter (fun x => ar_has_timed_out (now x.1) x.2 = false) m.

Lemma check_timeouts_run {E} now s :
  Targeted.check_for_request_timeouts (E:=E) now s =
    (Ok tt, mkService (service_helper s) (request_router s) (request_converter s)
       (after_timeouts now (active_request_map s)) (reply_handler s) (service_replies s)).
Proof.
  unfold Targeted.check_for_request_timeouts, Targeted.on_map, modify_state. do 2 f_equal.
  unfold RequestMap.for_each. rewrite for_each_timeouts. cbn [app].
  apply map_eq. intros k. rewrite fold_remove. symmetry. unfold after_timeouts.
  set (m := active_request_map s). destruct (m !! k) as [info|] eqn:Hk.
  - destruct (ar_has_timed_out (now k) info) eqn:Ht.
    + rewrite decide_True.
      * apply map_lookup_filter_None. right. intros x Hx. simplify_eq. cbn. by rewrite Ht.
      * apply list_elem_of_fmap. exists (k, info). split; [done|].
        apply list_elem_of_In, filter_In. split; [|done]. by apply list_elem_of_In, elem_of_map_to_list.
    + rewrite decide_False.
      * by apply map_lookup_filter_Some.
      * intros (x & -> & Hx)%list_elem_of_fmap. apply list_elem_of_In, filter_In in Hx as [Hx Hf].
        apply list_elem_of_In in Hx. destruct x as [k' i']. apply elem_of_map_to_list in Hx.
        cbn in *. simplify_eq. congruence.
  - rewrite map_lookup_filter_None_2 by (by left). by destruct (decide _).
Qed.

(** *** The invariant of the map *)
Lemma handle_reply_ok reply stamp s a s' :
  service_ok s -> Targeted.handle_reply (PE:=PE) reply stamp s = (a, s') -> a <> Panic -> service_ok s'.
Proof.
  intros [Hm Hr] Hh Ha. unfold Targeted.handle_reply in Hh. unfold st_bind at 1, gets in Hh.
  unfold RequestMap.get in Hh. set (k := msg_request_id reply) in *.
  destruct (active_request_map s !! k) as [info|] eqn:Hk.
  - destruct (Hm k info Hk) as (t & Ht & _).
    pose proof (reply_logged reply info stamp t (reply_handler s) (reporting s) Ht Hr) as Hl.
    unfold wp in Hl. unfold st_bind at 1, attempt, Targeted.on_reply_handler in Hh.
    change (verif_reporter (service_helper s), tm_sender (service_helper s)) with (reporting s) in Hh.
    destruct (rh_handle_reply reply info stamp (reply_handler s, reporting s)) as [[b|e|] [rh [v q]]].
    + destruct Hl as (ss & [Hok _] & _). destruct b; injection Hh as <- <-; split; try done. by apply map_ok_delete.
    + destruct Hl as [Hok _]. injection Hh as <- <-. split; [by apply map_ok_delete|done].
    + by injection Hh as <- <-.
  - pose proof (unrequested_logged reply (reply_handler s) (reporting s) Hr) as Hl.
    unfold wp in Hl. unfold Targeted.on_reply_handler in Hh.
    change (verif_reporter (service_helper s), tm_sender (service_helper s)) with (reporting s) in Hh.
    destruct (rh_handle_unrequested_reply reply (reply_handler s, reporting s)) as [[b|e|] [rh [v q]]];
      injection Hh as <- <-; [| |done]; by destruct Hl.
Qed.

(** A poll handles the first reply of the queue. *)
Lemma poll_reply_cases stamp s a s' :
  Targeted.poll_and_handle_next_reply (PE:=PE) stamp s = (a, s') -> a <> Panic ->
  match queue (service_replies s) with
  | [] => s' = s
  | reply :: rest => exists b,
      Targeted.handle_reply (PE:=PE) reply stamp
        (mkService (service_helper s) (request_router s) (request_converter s) (active_request_map s)
           (reply_handler s) (Channel.set_queue rest (service_replies s))) = (b, s') /\ b <> Panic
  end.
Proof.
  intros Hp Ha. unfold Targeted.poll_and_handle_next_reply, st_bind at 1, attempt, Targeted.on_replies in Hp.
  unfold Channel.try_recv in Hp. destruct (queue (service_replies s)) as [|reply rest] eqn:Hq.
  - destruct s as [h ro cv m rh ch]. cbn [service_replies] in *. by destruct (tx_alive ch); injection Hp as _ <-.
  - unfold st_bind in Hp. cbn [fst snd] in Hp.
    match type of Hp with context [Targeted.handle_reply _ _ ?x] => set (s0 := x) in Hp end.
    destruct (Targeted.handle_reply reply stamp s0) as [b s2] eqn:Hh. exists b.
    assert (Hb : b <> Panic) by (intros ->; by injection Hp as <- <-).
    split; [|done]. assert (s2 = s') as -> by (clear -Hp; by destruct b; injection Hp as _ ->). exact Hh.
Qed.

Lemma reply_step_ok s s' : service_ok s -> reply_step s s' -> service_ok s'.
Proof.
  intros Hok [l [stamp a s1 Hp Ha|now a s1 Ht|reply]]; [| |done].
  - apply poll_reply_cases in Hp; [|done]. destruct (queue (service_replies s)) as [|reply rest]; [by subst|].
    destruct Hp as (b & Hh & Hb). refine (handle_reply_ok reply stamp _ b s1 _ Hh Hb). exact Hok.
  - rewrite check_timeouts_run in Ht. injection Ht as <- <-. destruct Hok as [Hm Hr]. split; [|done].
    intros key info Hk. apply map_lookup_filter_Some in Hk as [Hk _]. by apply Hm.
Qed.

(** *** The reports of a request

    What an event means for the request filed under [r]: the reports on it, and its entry
    in the map. *)
Context `{!ReplyReport Rep} `{!ReplyReportLaws PE V Q I Rep RH}.

Definition expected_step (r : Z) (entry : option I) (l : reply_event) : list Z * option I :=
  match entry with
  | None => ([], None)
  | Some info =>
      match l with
      | Polled reply refused =>
          if decide (msg_request_id reply = r) then
            if refused then ([], None)
            else let ss := reply_report (message reply) in ([ss], if decide (final ss) then None else entry)
          else ([], entry)
      | TimeoutsChecked now => ([], if ar_has_timed_out (now r) info then None else entry)
      | NonePolled | ReplySent _ => ([], entry)
      end
  end.

Fixpoint expected (r : Z) (entry : option I) (ls : list reply_event) : list Z * option I :=
  match ls with
  | [] => ([], entry)
  | l :: ls' =>
      let '(es, entry') := expected_step r entry l in
      let '(es', entry'') := expected r entry' ls' in
      (es ++ es', entry'')
  end.

(** The replies that wait after an event. *)
Definition replies_after (q : list (GenericMessage Rep)) (l : reply_event) : list (GenericMessage Rep) :=
  match l with
  | Polled _ _ => tail q
  | ReplySent reply => q ++ [reply]
  | NonePolled | TimeoutsChecked _ => q
  end.

(** The reports and the entry of a request are the expected ones. *)
Definition follows (r : Z) (e : list Z * option I) s s' : Prop :=
  reports_of r (rep_log (reporting s')) = reports_of r (rep_log (reporting s)) ++ e.1 /\
  active_request_map s' !! r = e.2.

Lemma follows_same r s s' :
  active_request_map s' = active_request_map s -> rep_log (reporting s') = rep_log (reporting s) ->
  follows r ([], active_request_map s !! r) s s'.
Proof. intros Hm Hr. unfold follows. by rewrite Hm, Hr, app_nil_r. Qed.

(** A reply to the request filed under [k], reported with [es]. *)
Lemma follows_entry r s s' reply refused info ss :
  let k := msg_request_id reply in
  let gone := refused || bool_decide (final ss) in
  active_request_map s !! k = Some info -> ss = reply_report (message reply) ->
  rep_log (reporting s') = rep_log (reporting s) ++ (pair k <$> (if refused then [] else [ss])) ->
  active_request_map s' = (if gone then delete k (active_request_map s) else active_request_map s) ->
  follows r (expected_step r (active_request_map s !! r) (Polled reply refused)) s s'.
Proof.
  intros k gone Hk -> Hlog Hs'. unfold follows. rewrite Hlog, reports_of_app, reports_of_pairs, Hs'.
  unfold expected_step. fold k. subst gone. destruct (decide (k = r)) as [<-|Hne].
  - rewrite Hk. destruct refused; cbn [orb fst snd]; [by rewrite lookup_delete_eq|].
    split; [done|]. destruct (decide (final _)) as [Hf|Hf].
    + rewrite bool_decide_true by done. apply lookup_delete_eq.
    + by rewrite bool_decide_false by done.
  - destruct (refused || _); [rewrite lookup_delete_ne by done|];
      destruct (active_request_map s !! r); by rewrite ?app_nil_r.
Qed.

Lemma handle_reply_follows r reply stamp s a s' :
  let refused := match active_request_map s !! msg_request_id reply with
                 | Some info => is_err (rh_handle_reply (PE:=PE) reply info stamp (reply_handler s, reporting s)).1
                 | None => false
                 end in
  service_ok s -> Targeted.handle_reply (PE:=PE) reply stamp s = (a, s') -> a <> Panic ->
  follows r (expected_step r (active_request_map s !! r) (Polled reply refused)) s s' /\
  queue (service_replies s') = queue (service_replies s).
Proof.
  intros refused [Hm Hr] Hh Ha. unfold Targeted.handle_reply in Hh. unfold st_bind at 1, gets in Hh.
  unfold RequestMap.get in Hh. subst refused.
  destruct (active_request_map s !! msg_request_id reply) as [info|] eqn:Hk.
  - destruct (Hm _ info Hk) as (t & Ht & _). pose proof (map_ok_rid _ _ _ _ Hm Hk Ht) as Hrid.
    pose proof (reply_reported reply info stamp t (reply_handler s) (reporting s) Ht Hr) as Hl.
    unfold wp in Hl. unfold st_bind at 1, attempt, Targeted.on_reply_handler in Hh.
    change (verif_reporter (service_helper s), tm_sender (service_helper s)) with (reporting s) in Hh.
    destruct (rh_handle_reply reply info stamp (reply_handler s, reporting s)) as [[b|e|] [rh [v q]]]; cbn [fst is_err].
    + destruct Hl as [[_ Hlog] ->]. rewrite Hrid in Hlog.
      split; [|by destruct (bool_decide _); injection Hh as _ <-].
      eapply (follows_entry r s s' reply false info); [done|reflexivity|..];
        by destruct (bool_decide _); injection Hh as _ <-.
    + destruct Hl as [_ Hlog]. injection Hh as _ <-. split; [|done].
      by eapply (follows_entry r s _ reply true info); [done|reflexivity|..].
    + by injection Hh as <- <-.
  - pose proof (unrequested_logged reply (reply_handler s) (reporting s) Hr) as Hl.
    unfold wp in Hl. unfold Targeted.on_reply_handler in Hh.
    change (verif_reporter (service_helper s), tm_sender (service_helper s)) with (reporting s) in Hh.
    assert (He : expected_step r (active_request_map s !! r) (Polled reply false) = ([], active_request_map s !! r)).
    { unfold expected_step. destruct (active_request_map s !! r) eqn:Hi; [|done].
      destruct (decide _) as [<-|]; [congruence|done]. }
    rewrite He.
    destruct (rh_handle_unrequested_reply reply (reply_handler s, reporting s)) as [[b|e|] [rh [v q]]];
      injection Hh as <- <-; [| |done]; destruct Hl as [_ Hlog]; (split; [|done]); apply follows_same; try done;
      rewrite app_nil_r in Hlog; exact Hlog.
Qed.

Lemma event_step_follows r s l s' :
  service_ok s -> event_step s l s' ->
  follows r (expected_step r (active_request_map s !! r) l) s s' /\
  queue (service_replies s') = replies_after (queue (service_replies s)) l.
Proof.
  assert (Hnone : forall l, match l with NonePolled | ReplySent _ => True | _ => False end ->
    expected_step r (active_request_map s !! r) l = ([], active_request_map s !! r))
    by (intros []; by destruct (active_request_map s !! r)).
  intros Hok [stamp a s1 Hp Ha|now a s1 Ht|reply].
  - apply poll_reply_cases in Hp; [|done]. unfold poll_event.
    destruct (queue (service_replies s)) as [|reply rest] eqn:Hq.
    + subst s1. rewrite Hnone, Hq by done. split; [by apply follows_same|done].
    + destruct Hp as (b & Hh & Hb). by apply (handle_reply_follows r) in Hh.
  - rewrite check_timeouts_run in Ht. injection Ht as <- <-. split; [|done]. unfold follows, expected_step.
    cbn [active_request_map]. unfold after_timeouts.
    destruct (active_request_map s !! r) as [info|] eqn:Hk; cbn [fst snd]; (split; [by rewrite app_nil_r|]).
    + destruct (ar_has_timed_out (now r) info) eqn:Ht.
      * apply map_lookup_filter_None. right. intros x Hx. simplify_eq. cbn. by rewrite Ht.
      * by apply map_lookup_filter_Some.
    + apply map_lookup_filter_None. by left.
  - rewrite Hnone by done. split; [by apply follows_same|done].
Qed.

Lemma reply_run_follows r s ls s' :
  service_ok s -> reply_run s ls s' ->
  follows r (expected r (active_request_map s !! r) ls) s s' /\
  queue (service_replies s') = foldl replies_after (queue (service_replies s)) ls.
Proof.
  intros Hok Hrun. induction Hrun as [s|s l s1 ls s2 Hstep Hrun IH].
  - split; [by apply follows_same|done].
  - destruct (event_step_follows r s l s1 Hok Hstep) as [[Hl1 Hm1] Hq1].
    destruct IH as [[Hl2 Hm2] Hq2]; [by apply (reply_step_ok s); [|exists l]|].
    cbn [expected foldl]. destruct (expected_step r (active_request_map s !! r) l) as [es entry']. cbn [fst snd] in *.
    rewrite Hm1 in Hl2, Hm2. destruct (expected r entry' ls) as [es' entry''].
    split; [|by rewrite Hq2, Hq1]. split; [|done]. cbn [fst snd] in *. by rewrite Hl2, Hl1, app_assoc.
Qed.

(** The expected reports are steps and then at most one end, with which the
    request leaves the map. *)
Lemma expected_shape r ls : forall entry,
  exists n fin, (expected r entry ls).1 = replicate n TmStepSuccess ++ fin /\
    (fin = [] \/ (exists ss, final ss /\ fin = [ss]) /\ (expected r entry ls).2 = None).
Proof.
  assert (Hnone : forall ls, expected r None ls = ([], None))
    by (intros l0; induction l0 as [|l l0 IH]; [done|]; cbn; by rewrite IH).
  induction ls as [|l ls IH]; intros entry; [exists 0%nat, []; auto|].
  assert (Hskip : forall entry', expected_step r entry l = ([], entry') -> exists n fin,
    (expected r entry (l :: ls)).1 = replicate n TmStepSuccess ++ fin /\
    (fin = [] \/ (exists ss, final ss /\ fin = [ss]) /\ (expected r entry (l :: ls)).2 = None)).
  { intros entry' He. cbn [expected]. rewrite He. destruct (IH entry') as (n & fin & Hn & Hf). exists n, fin.
    by destruct (expected r entry' ls). }
  destruct entry as [info|]; [|by eapply Hskip].
  destruct l as [reply refused| |now|reply]; try by eapply Hskip.
  destruct (decide (msg_request_id reply = r)) as [Hr|Hr];
    [|eapply (Hskip (Some info)); unfold expected_step; by rewrite decide_False by done].
  destruct refused; [eapply (Hskip None); unfold expected_step; by rewrite decide_True by done|].
  cbn [expected expected_step]. rewrite decide_True by done.
  destruct (decide (final (reply_report (message reply)))) as [Hf|Hf].
  - rewrite Hnone. exists 0%nat, [reply_report (message reply)]. cbn. split; [done|]. right. split; [by eexists|done].
  - destruct (reply_report_cases (message reply)) as [->|]; [|done].
    destruct (IH (Some info)) as (n & fin & Hn & Hfin). exists (S n), fin.
    destruct (expected r (Some info) ls) as [es e']. cbn [fst snd] in *. by rewrite Hn.
Qed.

End Runs.

(** ** Telecommands of a service *)

(** A converter reports nothing on a telecommand it converts, and a start failure
    on one it refuses; the request it returns holds the accepted token. *)
Class ConverterLaws (PE V Q I Req CV : Type) `{EcssTmSender PE Q}
    `{!VerificationReportingProvider PE V Q} `{!ReporterLog V Q} `{ActiveRequestProvider I}
    `{!PusTcToRequestConverter PE V Q I Req CV} : Prop :=
  convert_logged : forall token tc stamp now (cv : CV) x, rep_ok x ->
    match rc_convert (PE:=PE) (I:=I) (Req:=Req) token tc stamp now (cv, x) with
    | (Ok p, x') => logged x [] x'.2 /\ ar_token p.1 = TokAccepted token
    | (Err e, x') =>
        logged x [(rid (request_id token), TmStartFailure)] x'.2 /\
        forall msg, e <> ConvInvalidAppData msg
    | (Panic, _) => True
    end.

Section Converters.
Context {PE V Q : Type} `{EcssTmSender PE Q} `{!VerificationReportingProvider PE V Q}
  `{!ReporterLog V Q} `{!ReporterLaws PE V Q}.

(** The computations of a converter: [P] holds of what it returns. *)
Definition converts {CV A : Type} (token : VerificationToken TcStateAccepted) (P : A -> Prop)
    (m : st (CV * (V * Q)) GenericConversionError A) : Prop :=
  forall cv x, rep_ok x ->
    match m (cv, x) with
    | (Ok a, x') => x' = (cv, x) /\ P a
    | (Err e, x') =>
        logged x [(rid (request_id token), TmStartFailure)] x'.2 /\
        forall msg, e <> ConvInvalidAppData msg
    | (Panic, _) => True
    end.

Lemma converts_ret {CV A} token (P : A -> Prop) a : P a -> converts (CV:=CV) token P (ret a).
Proof. by intros Ha cv x Hx. Qed.

Lemma converts_panic {CV A} token (P : A -> Prop) : converts (CV:=CV) token P (lift Panic).
Proof. done. Qed.

Lemma converts_bind {CV A B} token (P : A -> Prop) (P' : B -> Prop)
    (m : st (CV * (V * Q)) GenericConversionError A) k :
  converts token P m -> (forall a, P a -> converts token P' (k a)) -> converts token P' (st_bind m k).
Proof.
  intros Hm Hk cv x Hx. specialize (Hm cv x Hx). unfold st_bind.
  destruct (m (cv, x)) as [[a|e|] x']; [|done|done]. destruct Hm as [-> Ha]. by apply Hk.
Qed.

Lemma converts_lift {CV A} token (r : res GenericConversionError A) :
  is_err r = false -> converts (CV:=CV) token (fun _ => True) (lift r).
Proof. intros Hr cv x Hx. by destruct r. Qed.

Lemma converts_gets {CV A} token (f : CV * (V * Q) -> A) : converts token (fun _ => True) (gets f).
Proof. by intros cv x Hx. Qed.

Lemma converts_fail {CV A} token (P : A -> Prop) p e :
  (forall msg, e <> ConvInvalidAppData msg) ->
  converts (CV:=CV) token P
    (let* _ := on_snd (Service.expect_st (vr_start_failure (PE:=PE) token p)) in throw e).
Proof.
  intros He cv x Hx. unfold st_bind, on_snd, Service.expect_st. cbn [fst snd].
  pose proof (log_start_failure token p x Hx) as Hl.
  by destruct (vr_start_failure token p x) as [[]].
Qed.

Lemma slice_no_err {E A} (l : list A) a b : is_err (slice (E:=E) l a b) = false.
Proof. unfold slice. by destruct (_ && _). Qed.

Lemma expect_no_err {E F A} (r : res E A) : is_err (expect (F:=F) r) = false.
Proof. by destruct r. Qed.

#[local] Hint Resolve slice_no_err expect_no_err : core.

Ltac conv :=
  repeat first
    [ apply converts_fail; congruence
    | apply converts_ret; first [exact I | reflexivity]
    | apply converts_panic
    | eapply converts_bind; [first [apply converts_lift; solve [auto] | apply converts_gets]|intros ? _]
    | match goal with
      | |- converts _ _ (if ?b then _ else _) => destruct b
      | |- converts _ _ (match ?x with _ => _ end) => destruct x
      | |- converts _ _ (st_bind (if _ then _ else _) _) => apply (converts_bind _ (fun _ => True)); [|intros ? _]
      | |- converts _ _ (st_bind (match _ with _ => _ end) _) => apply (converts_bind _ (fun _ => True)); [|intros ? _]
      end ].

Lemma converts_laws {I Req CV} `{ActiveRequestProvider I} `{!PusTcToRequestConverter PE V Q I Req CV} :
  (forall token tc stamp now, converts token (fun p : I * Req => ar_token p.1 = TokAccepted token)
     (rc_convert (PE:=PE) (CV:=CV) token tc stamp now)) ->
  ConverterLaws PE V Q I Req CV.
Proof.
  intros Hc token tc stamp now cv x Hx. specialize (Hc token tc stamp now cv x Hx).
  destruct (rc_convert _ _ _ _ _) as [[]]; [|done|done]. destruct Hc as [-> Ht].
  split; [by apply logged_nil|done].
Qed.

#[export] Instance action_converter_laws :
  ConverterLaws PE V Q ActivePusActionRequestStd ActionRequest ActionRequestConverter.
Proof.
  apply converts_laws. intros token tc stamp now. unfold rc_convert, action_converter, Action.convert.
  cbv zeta. conv.
Qed.

#[export] Instance mode_converter_laws :
  ConverterLaws PE V Q ActivePusRequestStd ModeRequest ModeRequestConverter.
Proof.
  apply converts_laws. intros token tc stamp now. unfold rc_convert, mode_converter, ModeService.convert.
  cbv zeta. conv.
Qed.

#[export] Instance hk_converter_laws `{HkSubserviceOps} :
  ConverterLaws PE V Q ActivePusRequestStd HkRequest HkRequestConverter.
Proof.
  apply converts_laws. intros token tc stamp now. unfold rc_convert, hk_converter, HkService.convert.
  cbv zeta. conv.
Qed.

End Converters.

(** *** The service with telecommands in vectors *)
Section Telecommands.
Context {PE V Q CV I RH Req Rep W : Type} `{EcssTmSender PE Q}
  `{!VerificationReportingProvider PE V Q} `{!ReporterLog V Q} `{!ReporterLaws PE V Q}
  `{ActiveRequestProvider I} `{!ActiveRequestLaws I} `{!PusTcToRequestConverter PE V Q I Req CV}
  `{!ConverterLaws PE V Q I Req CV} `{!PusReplyHandler PE V Q I Rep RH}
  `{!ReplyHandlerLaws PE V Q I Rep RH} `{PusRequestRouter Req GenericRequestRouter W}.
Context (parse : list Z -> res PE PusTc).
Abbreviation service := (PusTargetedRequestService Q V EcssTcInVecConverter CV I RH Rep).
Implicit Types (s : service) (w : W).

(** A queued telecommand whose token is the one of its request ID, a [u32]. *)
Definition honest (m : EcssTcAndToken) : Prop :=
  forall p t tc, tc_in_memory m = InVec p -> tc_token m = Some (TokAccepted t) ->
    parse (packet p) = Ok tc ->
    request_id t = RequestId.new tc /\ in_u 32 (RequestId.raw (request_id t)).

Definition honest_queue s : Prop := Forall honest (queue (tc_receiver (service_helper s))).

(** [next_tc] takes the first message, and leaves all but the converter alone. *)
Lemma next_tc_vec (h : PusServiceHelper Q V EcssTcInVecConverter) m rest :
  queue (tc_receiver h) = m :: rest ->
  exists c b,
    Helper.next_tc parse h =
      (b, mkHelper (helper_id h) (Channel.set_queue rest (tc_receiver h)) (tm_sender h) (verif_reporter h) c) /\
    match tc_token m, tc_in_memory m with
    | Some (TokAccepted t), InVec p =>
        b = match parse (packet p) with
            | Ok tc => Ok (Some (t, tc))
            | Err e => Err (TcFromMem (MemEcssTmtc (TmtcPus e)))
            | Panic => Panic
            end
    | _, _ => exists e, b = Err e
    end.
Proof.
  intros E. rewrite (next_tc_queued parse h m rest E). unfold conv_cache, VecConverter_converter.
  destruct m as [mem tok]. cbn [tc_token tc_in_memory] in *.
  destruct tok as [[t|t|t|t]|]; try (eexists _, _; split; [reflexivity|by eexists]).
  destruct mem as [p|p]; cbn; eexists _, _; (split; [reflexivity|by try eexists]).
Qed.

(** Nothing but the queue has changed. *)
Definition untouched s w s' w' : Prop :=
  w' = w /\ logged (reporting s) [] (reporting s') /\ active_request_map s' = active_request_map s.

(** The outcome of handling the telecommand [tc] with the token [t], by what the
    converter makes of it and the router does with that. *)
Definition handled_tc (t : VerificationToken TcStateAccepted) (tc : PusTc) (stamp : list Z) (now : Z) s w
    (a : res (PusPacketHandlingError PE) HandlingStatus) s' w' : Prop :=
  let key := RequestId.raw (RequestId.new tc) in
  match (rc_convert (PE:=PE) (I:=I) (Req:=Req) t tc stamp now (request_converter s, reporting s)).1 with
  | Ok (info, request) =>
      match route (request_router s) (mkMetadata key (helper_id (service_helper s))) (ar_target_id info) request w with
      | (Ok _, w1) =>
          a = Ok HandledOne /\ w' = w1 /\
          logged (reporting s) [(key, TmStartSuccess)] (reporting s') /\
          exists t', request_id t' = RequestId.new tc /\
            active_request_map s' = <[key := ar_set_token (TokStarted t') info]> (active_request_map s)
      | (Err e, w1) =>
          a = Err (RequestRouting e) /\ w' = w1 /\
          logged (reporting s) [(key, TmCompletionFailure)] (reporting s') /\
          active_request_map s' = active_request_map s
      | (Panic, _) => False
      end
  | Err e =>
      a = Err (RequestConversion e) /\ w' = w /\
      logged (reporting s) [(key, TmStartFailure); (key, TmCompletionFailure)] (reporting s') /\
      active_request_map s' = active_request_map s
  | Panic => False
  end.

(** The outcome of polling for a telecommand, by the first message of the queue. *)
Definition polled_tc (stamp : list Z) (now : Z) s w (a : res (PusPacketHandlingError PE) HandlingStatus) s' w' : Prop :=
  let rx := tc_receiver (service_helper s) in
  match queue rx with
  | [] =>
      a = (if tx_alive rx then Ok HandlingEmpty else Err (TcPolling (TmtcReceive (TxDisconnected None)))) /\
      s' = s /\ w' = w
  | m :: rest =>
      queue (tc_receiver (service_helper s')) = rest /\
      match tc_token m, tc_in_memory m with
      | Some (TokAccepted t), InVec p =>
          match parse (packet p) with
          | Ok tc => handled_tc t tc stamp now s w a s' w'
          | Err e => a = Err (TcFromMem (MemEcssTmtc (TmtcPus e))) /\ untouched s w s' w'
          | Panic => False
          end
      | _, _ => is_err a = true /\ untouched s w s' w'
      end
  end.

(** A report of the service whose failure is not survived. *)
Lemma report_on_service {E A} (m : st (V * Q) (EcssTmtcError PE) A) r ss s a s' :
  rep_ok (reporting s) -> logs m r ss ->
  Targeted.on_reporter (E:=E) (Service.expect_st m) s = (a, s') -> a <> Panic ->
  exists x y, a = Ok x /\ m (reporting s) = (Ok x, y) /\
    logged (reporting s) [(rid r, ss)] (reporting s') /\
    active_request_map s' = active_request_map s /\
    queue (tc_receiver (service_helper s')) = queue (tc_receiver (service_helper s)).
Proof.
  intros Hr Hm Hrun Ha. unfold Targeted.on_reporter, Targeted.on_helper, Helper.on_reporter in Hrun.
  specialize (Hm (reporting s) Hr). unfold Service.expect_st in Hrun. unfold reporting in *.
  destruct (m _) as [[x|e|] [v q]]; injection Hrun as <- <-; [|done|done].
  exists x, (v, q). by split_and!.
Qed.

Lemma conversion_error_run {E} e t stamp s a s' :
  rep_ok (reporting s) -> (forall msg, e <> ConvInvalidAppData msg) ->
  Targeted.handle_conversion_to_request_error (PE:=PE) (E:=E) e t stamp s = (a, s') -> a <> Panic ->
  a = Ok tt /\ logged (reporting s) [(rid (request_id t), TmCompletionFailure)] (reporting s') /\
  active_request_map s' = active_request_map s /\
  queue (tc_receiver (service_helper s')) = queue (tc_receiver (service_helper s)).
Proof.
  intros Hr He Hrun Ha. destruct e; [..|by destruct (He msg)];
    destruct (report_on_service _ _ _ _ _ _ Hr (log_completion_failure _ _ t _) Hrun Ha)
      as ([] & y & -> & _ & Hl); done.
Qed.

Lemma routing_error_run {E} (info : I) e t stamp s a s' :
  rep_ok (reporting s) -> ar_token info = TokAccepted t ->
  Targeted.on_reporter (E:=E) (Router.handle_error_generic (PE:=PE) info e stamp) s = (a, s') ->
  a <> Panic ->
  a = Ok tt /\ logged (reporting s) [(rid (request_id t), TmCompletionFailure)] (reporting s') /\
  active_request_map s' = active_request_map s /\
  queue (tc_receiver (service_helper s')) = queue (tc_receiver (service_helper s)).
Proof.
  intros Hr Ht Hrun Ha. unfold Router.handle_error_generic in Hrun. rewrite Ht in Hrun.
  unfold st_bind, lift, expect, TcStateToken.try_into_accepted in Hrun.
  destruct e;
    destruct (report_on_service _ _ _ _ _ _ Hr (log_completion_failure _ _ t _) Hrun Ha)
      as ([] & y & -> & _ & Hl); done.
Qed.

(** The logs of the two states of a conversion. *)
Lemma logged_after x x1 x2 e : logged x [] x1 -> logged x1 e x2 -> logged x e x2.
Proof. apply (logged_trans x x1 x2 [] e). Qed.

(** A telecommand that was received: conversion, routing, the start report and the
    entry. *)
Lemma packet_run t tc stamp now s w a s' w' :
  rep_ok (reporting s) -> request_id t = RequestId.new tc -> in_u 32 (RequestId.raw (request_id t)) ->
  (let* converted := on_fst (attempt (Targeted.on_converter
                       (rc_convert (PE:=PE) (I:=I) (Req:=Req) t tc stamp now))) in
   match converted with
   | Ok (request_info, request) =>
       let* accepted_token :=
         lift (expect (TcStateToken.try_into_accepted (ar_token request_info))) in
       let verif_request_id := RequestId.raw (RequestId.new tc) in
       let* router := gets (fun x : service * W => request_router x.1) in
       let* id := gets (fun x : service * W => helper_id (service_helper x.1)) in
       let* routed := attempt (on_snd (route router (mkMetadata verif_request_id id)
                                         (ar_target_id request_info) request)) in
       match routed with
       | Ok _ =>
           let* started_token := on_fst (Targeted.on_reporter (Service.expect_st
                                   (vr_start_success (PE:=PE) accepted_token stamp))) in
           let* _ := on_fst (Targeted.on_map (modify_state (RequestMap.insert verif_request_id
                       (ar_set_token (TokStarted started_token) request_info)))) in
           ret HandledOne
       | Err e =>
           let* _ := on_fst (Targeted.on_reporter
                       (Router.handle_error_generic (PE:=PE) request_info e stamp)) in
           throw (RequestRouting e)
       | Panic => lift Panic
       end
   | Err e =>
       let* _ := on_fst (Targeted.handle_conversion_to_request_error (PE:=PE) e t stamp) in
       throw (RequestConversion e)
   | Panic => lift Panic
   end) (s, w) = (a, (s', w')) -> a <> Panic ->
  handled_tc t tc stamp now s w a s' w' /\
  queue (tc_receiver (service_helper s')) = queue (tc_receiver (service_helper s)).
Proof.
  intros Hr Hid Hu Hrun Ha. unfold st_bind at 1, on_fst at 1, attempt, Targeted.on_converter in Hrun.
  cbn [fst snd] in Hrun. unfold handled_tc. cbv zeta. rewrite <- Hid.
  assert (Hrid : rid (request_id t) = RequestId.raw (request_id t)) by (by apply Z.mod_small).
  pose proof (convert_logged t tc stamp now (request_converter s) (reporting s) Hr) as Hc.
  unfold reporting at 2. unfold reporting at 1 in Hc.
  destruct (rc_convert t tc stamp now _) as [[[info request]|e|] [cv [v q]]]; cbn [fst];
    [| |by injection Hrun as <- _ _]; destruct Hc as [Hl Hp]; cbn [fst snd] in Hl, Hp.
  - match type of Hrun with _ (?x, _) = _ => set (s2 := x) in Hrun end.
    change (logged (reporting s) [] (reporting s2)) in Hl.
    unfold st_bind at 1, lift in Hrun. rewrite Hp in Hrun. cbn [TcStateToken.try_into_accepted expect] in Hrun.
    unfold st_bind at 1 2 3, gets, attempt, on_snd in Hrun. cbn [fst snd] in Hrun. subst s2. cbn [request_router service_helper helper_id] in Hrun.
    set (s2 := mkService _ _ _ _ _ _) in Hrun. rewrite <- Hid in Hrun.
    destruct (route _ _ _ _ w) as [[[]|e|] w1]; [| |by injection Hrun as <- _ _].
    + unfold st_bind at 1, on_fst at 1 in Hrun. cbn [fst snd] in Hrun.
      destruct (Targeted.on_reporter _ s2) as [b s3] eqn:Hs.
      assert (Hb : b <> Panic) by (intros ->; by injection Hrun as <- _ _).
      destruct (report_on_service _ _ _ _ _ _ (proj1 Hl) (log_start_success t stamp) Hs Hb)
        as (st' & y & -> & Hst & Hl3 & Hm & Hqs).
      apply start_success_token in Hst. injection Hrun as <- <- <-. rewrite Hrid in Hl3.
      split; [|exact Hqs]. split_and!; [done|done|by apply (logged_after _ _ _ _ Hl)|].
      exists st'. split; [done|]. cbn [active_request_map]. unfold RequestMap.insert. by rewrite Hm.
    + unfold st_bind at 1, on_fst in Hrun. cbn [fst snd] in Hrun.
      destruct (Targeted.on_reporter _ s2) as [b s3] eqn:Hs.
      assert (Hb : b <> Panic) by (intros ->; by injection Hrun as <- _ _).
      destruct (routing_error_run info e t stamp s2 b s3 (proj1 Hl) Hp Hs Hb) as (-> & Hl3 & Hm & Hqs).
      injection Hrun as <- <- <-. rewrite Hrid in Hl3. split; [|exact Hqs].
      split_and!; [done|done|by apply (logged_after _ _ _ _ Hl)|done].
  - unfold st_bind, on_fst in Hrun. cbn [fst snd] in Hrun.
    match type of Hrun with context [Targeted.handle_conversion_to_request_error _ _ _ ?x] =>
      set (s2 := x) in Hrun end.
    destruct (Targeted.handle_conversion_to_request_error e t stamp s2) as [b s3] eqn:Hs.
    assert (Hb : b <> Panic) by (intros ->; by injection Hrun as <- _ _).
    destruct (conversion_error_run e t stamp s2 b s3 (proj1 Hl) Hp Hs Hb) as (-> & Hl3 & Hm & Hqs).
    injection Hrun as <- <- <-. rewrite Hrid in Hl, Hl3. split; [|exact Hqs].
    split_and!; [done|done|by apply (logged_trans _ _ _ [_] [_] Hl Hl3)|exact Hm].
Qed.

Lemma poll_tc_outcome stamp now s w a s' w' :
  rep_ok (reporting s) -> honest_queue s ->
  Targeted.poll_and_handle_next_tc parse stamp now (s, w) = (a, (s', w')) -> a <> Panic ->
  polled_tc stamp now s w a s' w'.
Proof.
  intros Hr Hq Hrun Ha. unfold polled_tc. cbv zeta.
  unfold Targeted.poll_and_handle_next_tc in Hrun.
  unfold st_bind at 1, on_fst at 1, Targeted.on_helper in Hrun. cbn [fst snd] in Hrun. unfold honest_queue in Hq.
  destruct (queue (tc_receiver (service_helper s))) as [|m rest] eqn:E.
  - rewrite next_tc_nothing in Hrun by done. destruct s as [h ro cv mp rh ch]. cbn [service_helper] in *.
    by destruct (tx_alive (tc_receiver h)); injection Hrun as <- <- <-.
  - apply Forall_cons in Hq as [Hm _]. destruct (next_tc_vec (service_helper s) m rest E) as (c & b & Hn & Hcase).
    rewrite Hn in Hrun. set (s1 := mkService (mkHelper _ _ _ _ _) _ _ _ _ _) in Hrun.
    assert (Hn1 : logged (reporting s) [] (reporting s1)) by (by apply logged_nil).
    assert (Herr : forall e, b = Err e -> a = Err e /\ untouched s w s' w' /\
      queue (tc_receiver (service_helper s')) = rest).
    { intros e ->. by injection Hrun as <- <- <-. }
    unfold honest in Hm. destruct (tc_token m) as [[t|t|t|t]|] eqn:Ht; [|destruct (tc_in_memory m) as [p|p] eqn:Hp|..].
    3: { specialize (fun tc => Hm p t tc eq_refl eq_refl). rewrite Hcase in Hrun, Herr.
         destruct (parse (packet p)) as [tc|e|]; [|by destruct (Herr _ eq_refl) as (-> & ? & ?)|by injection Hrun as <- _ _].
         destruct (Hm tc eq_refl) as [Hid Hu].
         destruct (packet_run t tc stamp now s1 w a s' w' Hr Hid Hu Hrun Ha) as [Hh Hqs]. by rewrite Hqs. }
    all: destruct Hcase as [e He]; destruct (Herr e He) as (-> & ? & ?); by split.
Qed.

(** What others may send does not matter: the map stays as it has to be. *)
Lemma polled_tc_ok stamp now s w a s' w' :
  service_ok s -> honest_queue s -> polled_tc stamp now s w a s' w' -> service_ok s' /\ honest_queue s'.
Proof.
  intros [Hm Hr] Hq. unfold polled_tc. cbv zeta. unfold honest_queue in *.
  destruct (queue (tc_receiver (service_helper s))) as [|m rest] eqn:E; [by intros (_ & -> & _); rewrite E|].
  apply Forall_cons in Hq as [Hhm Hq]. intros [-> Ho]. split; [|done].
  assert (Hsame : forall e, logged (reporting s) e (reporting s') ->
            active_request_map s' = active_request_map s -> service_ok s').
  { intros e [Hr' _] Hm'. split; [by rewrite Hm'|done]. }
  assert (Hun : untouched s w s' w' -> service_ok s') by (intros (_ & ? & ?); by eapply Hsame).
  unfold honest in Hhm.
  destruct (tc_token m) as [[t|t|t|t]|]; [by apply Hun, Ho|destruct (tc_in_memory m) as [p|p]; [by apply Hun, Ho|]|by apply Hun, Ho..].
  destruct (parse (packet p)) as [tc|e|] eqn:Hpa; [|by apply Hun, Ho|done].
  destruct (Hhm p t tc eq_refl eq_refl Hpa) as [Hid Hu]. unfold handled_tc in Ho. cbv zeta in Ho.
  destruct (rc_convert t tc stamp now _) as [[[info request]|e|] x1]; cbn [fst] in Ho;
    [|destruct Ho as (_ & _ & ? & ?); by eapply Hsame|done].
  destruct (route _ _ _ _ w) as [[[]|e|] w1]; [|destruct Ho as (_ & _ & ? & ?); by eapply Hsame|done].
  destruct Ho as (_ & _ & [Hr' _] & t' & Ht' & Hm'). split; [|done]. rewrite Hm'.
  intros key i Hk. apply lookup_insert_Some in Hk as [[<- <-]|[_ Hk]]; [|by apply Hm].
  exists t'. rewrite ar_token_set, Ht'. split_and!; [done|done|by rewrite <- Hid].
Qed.

(** *** All steps: replies and timeouts, telecommands, what others send *)
Inductive service_step (x : service * W) : service * W -> Prop :=
| on_reply_side s' : reply_step (PE:=PE) x.1 s' -> service_step x (s', x.2)
| on_telecommand stamp now a x' :
    Targeted.poll_and_handle_next_tc parse stamp now x = (a, x') -> a <> Panic -> service_step x x'
| on_queued (m : EcssTcAndToken) :
    honest m ->
    service_step x
      (let s := x.1 in let h := service_helper s in
       mkService (mkHelper (helper_id h)
           (Channel.set_queue (queue (tc_receiver h) ++ [m]) (tc_receiver h))
           (tm_sender h) (verif_reporter h) (tc_in_mem_converter h))
         (request_router s) (request_converter s) (active_request_map s) (reply_handler s)
         (service_replies s), x.2)
| on_others w' : service_step x (x.1, w').

Definition service_inv (x : service * W) : Prop := service_ok x.1 /\ honest_queue x.1.

Lemma reply_step_queue s s' :
  reply_step (PE:=PE) s s' -> tc_receiver (service_helper s') = tc_receiver (service_helper s).
Proof.
  intros [l [stamp a s1 Hp Ha|now a s1 Ht|reply]]; [| |done].
  - unfold Targeted.poll_and_handle_next_reply, Targeted.handle_reply, st_bind, attempt, gets,
      Targeted.on_replies, Targeted.on_reply_handler in Hp.
    destruct (Channel.try_recv _) as [[reply|[]|] ch]; [|by injection Hp as _ <-..].
    destruct (RequestMap.get _ _) as [info|].
    + destruct (rh_handle_reply _ _ _ _) as [[[]| |] [rh [v q]]]; by injection Hp as _ <-.
    + destruct (rh_handle_unrequested_reply _ _) as [[[]| |] [rh [v q]]]; by injection Hp as _ <-.
  - rewrite check_timeouts_run in Ht. by injection Ht as <- <-.
Qed.

Lemma service_step_inv x x' : service_inv x -> service_step x x' -> service_inv x'.
Proof.
  destruct x as [s w]. intros [[Hm Hr] Hq] [s' Hs|stamp now a [s' w'] Hp Ha|m Hh|w']; cbn [fst snd] in *.
  - split; [by apply (reply_step_ok s s')|].
    unfold honest_queue. cbn [fst]. by rewrite (reply_step_queue s s' Hs).
  - apply (polled_tc_ok stamp now s w a s' w'); [done|done|]. by apply poll_tc_outcome.
  - split; [done|]. unfold honest_queue. cbn. apply Forall_app. by split; [|constructor].
  - done.
Qed.

End Telecommands.

(** * Properties *)

(** C20: While replies arrive and timeouts are checked, in any order, the reports on a
    request are those its replies stand for.  Each poll takes the first reply of the queue.
    If its request is active, it is reported as the step, completion or failure the reply
    stands for, and the request leaves the map exactly when that is its end; when the reply
    handler refuses it (an error of the reporter) nothing is reported and the request leaves the map as well.  A check of the timeouts
    drops the request when it is overdue, without a report.  Nothing else changes its entry or is
    reported on it; a request that is not active is never reported on.  So its reports
    are steps and then at most one end, with which it leaves the map.  It
    holds for every reporter and reply handler with the laws of the interface, those of
    the three services among them. *)
Theorem request_reports_correct {PE V Q C CV I RH Rep} `{EcssTmSender PE Q}
    `{!VerificationReportingProvider PE V Q} `{!ReporterLog V Q} `{!ReporterLaws PE V Q}
    `{ActiveRequestProvider I} `{!PusReplyHandler PE V Q I Rep RH}
    `{!ReplyHandlerLaws PE V Q I Rep RH} `{!ReplyReport Rep} `{!ReplyReportLaws PE V Q I Rep RH}
    (r : Z) (s s' : PusTargetedRequestService Q V C CV I RH Rep) (ls : list reply_event) :
  service_ok s -> reply_run (PE:=PE) s ls s' ->
  let '(reports, entry) := expected r (active_request_map s !! r) ls in
  reports_of r (rep_log (reporting s')) = reports_of r (rep_log (reporting s)) ++ reports /\
  active_request_map s' !! r = entry /\
  queue (service_replies s') = foldl replies_after (queue (service_replies s)) ls /\
  exists n fin, reports = replicate n TmStepSuccess ++ fin /\
    (fin = [] \/ (exists ss, final ss /\ fin = [ss]) /\ entry = None).
Proof.
  intros Hok Hrun. destruct (reply_run_follows r s ls s' Hok Hrun) as [[Hl Hm] Hq].
  pose proof (expected_shape r ls (active_request_map s !! r)) as Hshape.
  destruct (expected r _ ls) as [reports entry]. by split_and!.
Qed.

(** A housekeeping service with one active request. *)
Definition ex_token {st : TcState} : VerificationToken st := mkToken (mkRequestId 0 6146 49157).

Definition ex_key : Z := RequestId.raw (mkRequestId 0 6146 49157).

Definition ex_hk_service (replies : list (GenericMessage HkReply))
    : PusTargetedRequestService (list (Z * PusTmVariant)) TestVerificationReporter EcssTcInVecConverter
        HkRequestConverter ActivePusRequestStd HkReplyHandler HkReply :=
  mkService (mkHelper 5 (mkChannel [] None true true) [] (TestReporter.new 5) VecConverter.default)
    Router.default HkService.default_converter
    {[ ex_key := mkActive 9 (TokStarted ex_token) 0 (secs 60) ]} (mkHkReplyHandler)
    (mkChannel replies None true true).

(** It is acknowledged, and a second reply comes too late. *)
Lemma request_reports_correct_witness :
  let reply := mkMessage (mkMetadata ex_key 9) (mkHkReply 1 HkAck) in
  exists s',
    reply_run (PE:=unit) (ex_hk_service [reply; reply]) [Polled reply false; Polled reply false; NonePolled] s' /\
    reports_of ex_key (rep_log (reporting s')) = [TmCompletionSuccess] /\
    active_request_map s' !! ex_key = None /\ queue (service_replies s') = [].
Proof.
  intros reply. set (s := ex_hk_service _).
  destruct (Targeted.poll_and_handle_next_reply (PE:=unit) [0] s) as [a1 s1] eqn:Hp1.
  destruct (Targeted.poll_and_handle_next_reply (PE:=unit) [0] s1) as [a2 s2] eqn:Hp2.
  destruct (Targeted.poll_and_handle_next_reply (PE:=unit) [0] s2) as [a3 s3] eqn:Hp3.
  assert (Hrun : reply_run (PE:=unit) s [Polled reply false; Polled reply false; NonePolled] s3).
  { vm_compute in Hp1. injection Hp1 as <- <-. vm_compute in Hp2. injection Hp2 as <- <-.
    vm_compute in Hp3. injection Hp3 as <- <-.
    eapply reply_run_cons; [eapply (polled_step [0] _ (Ok HandledOne)); [vm_compute; reflexivity|discriminate|vm_compute; reflexivity]|].
    eapply reply_run_cons; [eapply (polled_step [0] _ (Ok HandledOne)); [vm_compute; reflexivity|discriminate|vm_compute; reflexivity]|].
    eapply reply_run_cons; [eapply (polled_step [0] _ (Ok HandlingEmpty)); [vm_compute; reflexivity|discriminate|vm_compute; reflexivity]|].
    apply reply_run_nil. }
  exists s3. split; [exact Hrun|].
  destruct (request_reports_correct (PE:=unit) ex_key s s3 [Polled reply false; Polled reply false; NonePolled])
    as (Hl & Hm & Hq & _).
  - split; [|done]. intros key info Hk. unfold s, ex_hk_service in Hk. cbn [active_request_map] in Hk.
    apply lookup_singleton_Some in Hk as [<- <-].
    exists ex_token. split_and!; [done|done|]. by vm_compute.
  - exact Hrun.
  - split; [exact Hl|]. split; [exact Hm|exact Hq].
Defined.

(** C21: In every state a service reaches from an empty map of active requests,
    by handling telecommands, replies and timeouts in any order and whatever is
    sent to it, every active request is filed under the number of its request ID
    and holds a started token: the conversions of tokens whose failure would panic
    never fail.  The telecommands that are queued for it have to carry the token of
    their own request ID, as those of the distributor do. *)
Theorem active_requests_invariant {PE V Q CV I RH Req Rep W} `{EcssTmSender PE Q}
    `{!VerificationReportingProvider PE V Q} `{!ReporterLog V Q} `{!ReporterLaws PE V Q}
    `{ActiveRequestProvider I} `{!ActiveRequestLaws I} `{!PusTcToRequestConverter PE V Q I Req CV}
    `{!ConverterLaws PE V Q I Req CV} `{!PusReplyHandler PE V Q I Rep RH}
    `{!ReplyHandlerLaws PE V Q I Rep RH} `{PusRequestRouter Req GenericRequestRouter W}
    (parse : list Z -> res PE PusTc)
    (x x' : PusTargetedRequestService Q V EcssTcInVecConverter CV I RH Rep * W) :
  active_request_map x.1 = ∅ -> rep_ok (reporting x.1) -> honest_queue parse x.1 ->
  rtc (service_step (Req:=Req) parse) x x' ->
  forall key info, active_request_map x'.1 !! key = Some info ->
    exists t, TcStateToken.try_into_started (ar_token info) = Ok t /\
      RequestId.raw (request_id t) = key /\ in_u 32 key.
Proof.
  intros Hm Hr Hq Hrun.
  assert (Hinv : service_inv parse x').
  { assert (service_inv parse x) as Hx.
    { split; [split; [|done]|done]. intros key info Hk. rewrite Hm in Hk. by apply lookup_empty_Some in Hk. }
    clear Hm Hr Hq. induction Hrun as [|x x1 x2 Hs Hrun IH]; [done|].
    apply IH. by eapply service_step_inv. }
  destruct Hinv as [[Hok _] _]. intros key info Hk. destruct (Hok key info Hk) as (t & -> & Ht).
  by exists t.
Qed.

(** C22: Handling a telecommand, by what waits in the queue.  Nothing: neither the
    service nor the targets notice.  Otherwise the first message is taken off the queue.
    Is it a telecommand with an accepted token that can be read, its
    reports carry its own request ID: if the converter refuses it, a start failure and a
    completion failure are reported; else the request of the converter is given to the
    router with the request ID and the ID of the service, for the target the converter
    names, and if that succeeds a start report is sent and the request filed under its ID
    with the started token; if it fails, a completion failure is reported.  Each time the result
    says so.  Of a message that cannot be read, or has no accepted token, nothing is
    reported or routed.  Requests are only filed in the case of success. *)
Theorem targeted_tc_reports {PE V Q CV I RH Req Rep W} `{EcssTmSender PE Q}
    `{!VerificationReportingProvider PE V Q} `{!ReporterLog V Q} `{!ReporterLaws PE V Q}
    `{ActiveRequestProvider I} `{!ActiveRequestLaws I} `{!PusTcToRequestConverter PE V Q I Req CV}
    `{!ConverterLaws PE V Q I Req CV} `{!PusReplyHandler PE V Q I Rep RH}
    `{PusRequestRouter Req GenericRequestRouter W}
    (parse : list Z -> res PE PusTc) stamp now a
    (s s' : PusTargetedRequestService Q V EcssTcInVecConverter CV I RH Rep) (w w' : W) :
  rep_ok (reporting s) -> honest_queue parse s ->
  Targeted.poll_and_handle_next_tc parse stamp now (s, w) = (a, (s', w')) -> a <> Panic ->
  let rx := tc_receiver (service_helper s) in
  match queue rx with
  | [] =>
      a = (if tx_alive rx then Ok HandlingEmpty else Err (TcPolling (TmtcReceive (TxDisconnected None)))) /\
      s' = s /\ w' = w
  | m :: rest =>
      queue (tc_receiver (service_helper s')) = rest /\
      match tc_token m, tc_in_memory m with
      | Some (TokAccepted t), InVec p =>
          match parse (packet p) with
          | Ok tc => handled_tc (Req:=Req) t tc stamp now s w a s' w'
          | Err e => a = Err (TcFromMem (MemEcssTmtc (TmtcPus e))) /\ untouched s w s' w'
          | Panic => False
          end
      | _, _ => is_err a = true /\ untouched s w s' w'
      end
  end.
Proof. intros Hr Hq Hp Ha. by apply (poll_tc_outcome parse stamp now s w a s' w'). Qed.

(** A mode service with a telecommand that reads the mode of target 9. *)
Definition ex_mode_tc (subservice : Z) (l : list Z) : res unit PusTc :=
  Ok (mkPusTc 0 6146 49157 2 5 200 subservice 0 l).

Definition ex_mode_router : GenericRequestRouter :=
  mkRouter 0 ∅ {[ TargetId.raw (mkTargetId 2 9) := SyncTx 1 ]}.

Definition ex_mode_world : World := (∅, {[ 1 := ex_chan ]}).

Definition ex_mode_service (tcs : list (list Z))
    : PusTargetedRequestService (list (Z * PusTmVariant)) TestVerificationReporter EcssTcInVecConverter
        ModeRequestConverter ActivePusRequestStd ModeReplyHandler ModeReply :=
  mkService (mkHelper 5 (mkChannel ((fun tc => mkEcssTcAndToken (InVec (mkPacketAsVec 1 tc))
                           (Some (TokAccepted ex_token))) <$> tcs) None true true)
      [] (TestReporter.new 5) VecConverter.default)
    ex_mode_router (mkModeConverter) ∅ (mkModeReplyHandler 5) (mkChannel [] None true true).

#[local] Instance ex_packet_id : PacketIdOps := fun id => Z.land id 2047.

Lemma ex_honest ss tcs : honest_queue (ex_mode_tc ss) (ex_mode_service tcs).
Proof.
  unfold honest_queue, ex_mode_service. cbn. induction tcs as [|tc tcs IH]; constructor; [|exact IH].
  intros p t tc' _ [= <-] [= <-]. split; [done|]. by vm_compute.
Qed.

Lemma active_requests_invariant_witness :
  exists x', rtc (service_step (PE:=unit) (Req:=ModeRequest) (ex_mode_tc 3))
      (ex_mode_service [[0; 0; 0; 9]], ex_mode_world) x' /\
    dom (active_request_map x'.1) = {[ ex_key ]} /\
    forall key info, active_request_map x'.1 !! key = Some info ->
      exists t, TcStateToken.try_into_started (ar_token info) = Ok t /\
        RequestId.raw (request_id t) = key /\ in_u 32 key.
Proof.
  set (x := (ex_mode_service [[0; 0; 0; 9]], ex_mode_world)).
  destruct (Targeted.poll_and_handle_next_tc (ex_mode_tc 3) [7] 100 x) as [a x'] eqn:Hp.
  exists x'.
  assert (Hrun : rtc (service_step (PE:=unit) (Req:=ModeRequest) (ex_mode_tc 3)) x x').
  { apply rtc_once. eapply on_telecommand; [exact Hp|]. vm_compute in Hp. by injection Hp as <- _. }
  split; [exact Hrun|]. split.
  - clear Hrun. vm_compute in Hp. injection Hp as <- <-. reflexivity.
  - apply (active_requests_invariant (PE:=unit) (Req:=ModeRequest) (ex_mode_tc 3) x x');
      [reflexivity|exact I|apply ex_honest|exact Hrun].
Defined.

Lemma targeted_tc_reports_witness :
  exists s' w' t',
    Targeted.poll_and_handle_next_tc (Req:=ModeRequest) (ex_mode_tc 3) [7] 100
        (ex_mode_service [[0; 0; 0; 9]], ex_mode_world) = (Ok HandledOne, (s', w')) /\
    rep_log (reporting s') = [(ex_key, TmStartSuccess)] /\
    active_request_map s' = {[ ex_key := mkActive (TargetId.raw (mkTargetId 2 9)) (TokStarted t') 100 (secs 30) ]} /\
    queue (tc_receiver (service_helper s')) = [] /\
    queue <$> w'.2 !! 1 = Some [mkMessage (mkMetadata ex_key 5) ReadMode].
Proof.
  destruct (Targeted.poll_and_handle_next_tc (Req:=ModeRequest) (ex_mode_tc 3) [7] 100
    (ex_mode_service [[0; 0; 0; 9]], ex_mode_world)) as [a [s' w']] eqn:Hp.
  assert (Ha : a = Ok HandledOne) by (vm_compute in Hp; by injection Hp as <- _ _).
  pose proof (targeted_tc_reports (PE:=unit) (Req:=ModeRequest) (ex_mode_tc 3) [7] 100 a
    (ex_mode_service [[0; 0; 0; 9]]) s' ex_mode_world w') as Hrep.
  destruct Hrep as (Hq & _ & Hw & [_ Hl] & t' & _ & Hm); [exact I|apply ex_honest|exact Hp|by rewrite Ha|].
  exists s', w', t'. rewrite Ha. split; [reflexivity|]. split; [exact Hl|]. split; [exact Hm|]. split; [exact Hq|].
  rewrite Hw. vm_compute. reflexivity.
Defined.

(** C23: Checking for timeouts drops exactly the requests that are active for
    longer than their timeout: one that is as old as its timeout stays, and a
    nanosecond later it goes.  Nothing else of the service changes: the requester
    is not told, neither by a report nor through the reply handler. *)
Theorem request_timeouts_correct {Q V C CV RH Rep E} (now : Z -> Z)
    (s : PusTargetedRequestService Q V C CV ActivePusRequestStd RH Rep) :
  map_Forall (fun _ info => 0 <= act_timeout info) (active_request_map s) ->
  exists m,
    Targeted.check_for_request_timeouts (E:=E) now s =
      (Ok tt, mkService (service_helper s) (request_router s) (request_converter s) m
                (reply_handler s) (service_replies s)) /\
    forall key info, m !! key = Some info <->
      active_request_map s !! key = Some info /\ now key <= act_start_time info + act_timeout info.
Proof.
  intros Hpos. eexists. split; [apply check_timeouts_run|]. intros key info.
  unfold after_timeouts. rewrite map_lookup_filter_Some. cbn.
  split; intros [Hk Ht]; (split; [done|]); specialize (Hpos key info Hk); cbn in Hpos;
    unfold ActiveRequest.has_timed_out in *; lia.
Qed.

Lemma request_timeouts_correct_witness :
  exists m,
    Targeted.check_for_request_timeouts (E:=unit) (fun _ => secs 60) (ex_hk_service []) =
      (Ok tt, mkService (service_helper (ex_hk_service [])) (request_router (ex_hk_service []))
                (request_converter (ex_hk_service [])) m (reply_handler (ex_hk_service []))
                (service_replies (ex_hk_service []))) /\
    m !! ex_key = Some (mkActive 9 (TokStarted ex_token) 0 (secs 60)).
Proof.
  destruct (request_timeouts_correct (E:=unit) (fun _ => secs 60) (ex_hk_service [])) as (m & Hr & Hm).
  - intros key info Hk. unfold ex_hk_service in Hk. cbn [active_request_map] in Hk.
    apply lookup_singleton_Some in Hk as [_ <-]. by vm_compute.
  - exists m. split; [exact Hr|]. apply Hm. split; [reflexivity|by vm_compute].
Defined.
