(* ===== verification/TargetedMode.v ===== *)
(** * Telecommands to targeted services, end to end

    The data of the telecommands and the requests they are converted to, the
    distributor, and a mode command on its way: distributor, mode service,
    device, reply, reports. *)

From Stdlib Require Import ZArith Lia Bool String.
From stdpp Require Import base list gmap.
From S2P Require Import Prelude Spacepackets Pool Params Tmtc Verification Services Requests TargetedService TargetedFlow.

Local Open Scope Z_scope.

(** ** The application data of the requests *)

(** Subservice and data after the target for a mode request; mode information
    cannot be commanded. *)
Definition mode_command (r : ModeRequest) : option (Z * list Z) :=
  match r with
  | SetMode m => Some (1, to_be_bytes 4 (mode m) ++ to_be_bytes 2 (submode m))
  | ReadMode => Some (3, [])
  | AnnounceMode => Some (4, [])
  | AnnounceModeRecursive => Some (5, [])
  | ModeInfo _ => None
  end.

Definition mode_request_ok (r : ModeRequest) : Prop :=
  match r with
  | SetMode m | ModeInfo m => in_u 32 (mode m) /\ in_u 16 (submode m)
  | _ => True
  end.

(** The housekeeping requests a subservice stands for, with the data after the
    target and the ID of the set. *)
Definition hk_command (sub : HkSubservice) (v : HkRequestVariant) : option (list Z) :=
  match sub, v with
  | (TcEnableHkGeneration | TcEnableDiagGeneration), EnablePeriodic => Some []
  | (TcDisableHkGeneration | TcDisableDiagGeneration), DisablePeriodic => Some []
  | (TcGenerateOneShotHk | TcGenerateOneShotDiag), OneShot => Some []
  | (TcModifyHkCollectionInterval | TcModifyDiagCollectionInterval), ModifyCollectionInterval f =>
      Some (to_be_bytes 4 f)
  | _, _ => None
  end.

Definition action_data (v : ActionRequestVariant) : option (list Z) :=
  match v with
  | NoData => Some []
  | VecData d => match d with [] => None | _ => Some d end
  | StoreData _ => None
  end.

Section Data.
Context {PE V Q : Type} `{EcssTmSender PE Q} `{!VerificationReportingProvider PE V Q}.

Lemma len_be4 v : len (to_be_bytes 4 v) = 4.
Proof. apply len_to_be_bytes. Qed.

Lemma from_pus_tc_target (tc : PusTc) (id : UniqueApidTargetId) rest :
  target_id_ok id -> tc_apid tc = apid id -> tc_user_data tc = to_be_bytes 4 (unique_id id) ++ rest ->
  TargetId.from_pus_tc tc = Ok id.
Proof.
  intros [_ Hu] Ha Hd. unfold TargetId.from_pus_tc. rewrite Hd, len_app, len_be4.
  pose proof (len_nonneg rest). destruct (4 + len rest <? 4) eqn:E; [lia|].
  rewrite slice_front by (by rewrite len_be4). cbn [res_bind]. rewrite from_to_be_bytes_small by done. unfold TargetId.new.
  rewrite Ha. by destruct id.
Qed.

Lemma mode_convert_ok token tc stamp now (id : UniqueApidTargetId) r data (x : ModeRequestConverter * (V * Q)) :
  target_id_ok id -> mode_request_ok r -> mode_command r = Some (tc_subservice tc, data) ->
  tc_apid tc = apid id -> tc_user_data tc = to_be_bytes 4 (unique_id id) ++ data ->
  ModeService.convert (PE:=PE) token tc stamp now x =
    (Ok (ActiveRequest.new (TargetId.raw id) (TokAccepted token) (secs 30) now, r), x).
Proof.
  intros Hid Hr Hc Ha Hd. unfold ModeService.convert. cbv zeta.
  rewrite (from_pus_tc_target tc id data Hid Ha Hd), Hd, len_app, len_be4.
  pose proof (len_nonneg data). destruct (4 + len data <? 4) eqn:E; [lia|].
  unfold st_bind, lift, expect, ret, TargetId.into_u64.
  destruct r as [m|m| | |]; [done| |cbn [mode_command] in Hc; replace (tc_subservice tc) with 3 by congruence; done
    |cbn [mode_command] in Hc; replace (tc_subservice tc) with 4 by congruence; done
    |cbn [mode_command] in Hc; replace (tc_subservice tc) with 5 by congruence; done].
  cbn [mode_command] in Hc. replace (tc_subservice tc) with 1 by congruence.
  destruct Hr as [Hm Hs]. change (mode_subservice_try_from 1) with (Some TcSetMode).
  assert (data = to_be_bytes 4 (mode m) ++ to_be_bytes 2 (submode m)) as -> by congruence.
  set (b := to_be_bytes 4 (mode m) ++ to_be_bytes 2 (submode m)) in *.
  assert (Hl : len b = 6) by (unfold b; by rewrite len_app, !len_to_be_bytes).
  rewrite Hl. change (4 + 6 <? 4 + ModeSubmode.RAW_LEN) with false. cbv iota.
  rewrite slice_back by (rewrite ?len_be4; lia).
  pose proof (mode_from_bytes m [] Hm Hs) as Hb. rewrite app_nil_r in Hb. fold b in Hb. by rewrite Hb.
Qed.

Lemma action_convert_ok token tc stamp now (id : UniqueApidTargetId) aid v data
    (x : ActionRequestConverter * (V * Q)) :
  target_id_ok id -> in_u 32 aid -> action_data v = Some data -> tc_subservice tc = 128 ->
  tc_apid tc = apid id ->
  tc_user_data tc = to_be_bytes 4 (unique_id id) ++ to_be_bytes 4 aid ++ data ->
  Action.convert (PE:=PE) token tc stamp now x =
    (Ok (ActiveAction.new aid (TargetId.raw id) (TokAccepted token) (secs 30) now,
         mkActionRequest aid v), x).
Proof.
  intros Hid Haid Hv Hss Ha Hd. unfold Action.convert. cbv zeta.
  rewrite (from_pus_tc_target tc id _ Hid Ha Hd), Hd, Hss, !len_app, !len_be4.
  pose proof (len_nonneg data). replace (4 + (4 + len data) <? 8) with false by lia.
  unfold st_bind, lift, expect. rewrite slice_at by (by rewrite len_be4).
  rewrite from_to_be_bytes_small by done. cbn [Z.eqb Pos.eqb].
  destruct v as [|addr|d]; [|done|].
  - replace data with (@nil Z) by (cbn in Hv; congruence). done.
  - destruct d as [|b d]; [done|]. replace data with (b :: d) by (cbn in Hv; congruence).
    rewrite app_assoc, slice_back by (rewrite ?len_app, ?len_be4; lia).
    replace (4 + (4 + len (b :: d)) =? 8) with false by (rewrite len_cons; pose proof (len_nonneg d); lia).
    done.
Qed.

Lemma hk_convert_ok `{HkSubserviceOps} token tc stamp now (id : UniqueApidTargetId) set_id sub v data
    (cv : HkRequestConverter) (x : V * Q) :
  target_id_ok id -> in_u 32 set_id ->
  match v with ModifyCollectionInterval f => in_u 32 f | _ => True end ->
  hk_subservice_try_from (tc_subservice tc) = Some sub -> hk_command sub v = Some data ->
  tc_apid tc = apid id ->
  tc_user_data tc = to_be_bytes 4 (unique_id id) ++ to_be_bytes 4 set_id ++ data ->
  HkService.convert (PE:=PE) token tc stamp now (cv, x) =
    (Ok (ActiveRequest.new (TargetId.raw id) (TokAccepted token) (hk_timeout cv) now,
         mkHkRequest set_id v), (cv, x)).
Proof.
  intros Hid Hset Hf Hsub Hv Ha Hd. unfold HkService.convert. cbv zeta.
  rewrite (from_pus_tc_target tc id _ Hid Ha Hd), Hd, Hsub, !len_app, !len_be4.
  pose proof (len_nonneg data). replace (4 + (4 + len data) =? 0) with false by lia.
  replace (4 + (4 + len data) <? 8) with false by lia.
  unfold st_bind, lift, expect. rewrite slice_at by (by rewrite len_be4).
  rewrite from_to_be_bytes_small by done.
  destruct v as [| | |f]; try (by destruct sub).
  assert (data = to_be_bytes 4 f) as -> by (by destruct sub; cbn [hk_command] in Hv; congruence).
  rewrite len_be4. change (4 + (4 + 4) <? 12) with false.
  rewrite app_assoc, slice_back by (rewrite ?len_app, ?len_be4; lia).
  rewrite from_to_be_bytes_small by done. by destruct sub.
Qed.

End Data.

(** The converters are inverse to the layout of the telecommands.  A target,
    then for an action (subservice 128) its ID and its data, for a mode request the
    mode if there is one, for housekeeping the ID of the set and the interval if
    there is one: every request that can be commanded is what the converter of its
    service makes of its telecommand, addressed to the target under the APID of the
    telecommand, with the accepted token and the timeout of the service; nothing is
    reported. *)
Theorem request_conversion_roundtrip {PE V Q} `{EcssTmSender PE Q}
    `{!VerificationReportingProvider PE V Q} `{HkSubserviceOps}
    (token : VerificationToken TcStateAccepted) (tc : PusTc) (stamp : list Z) (now : Z)
    (id : UniqueApidTargetId) (x : V * Q) :
  target_id_ok id -> tc_apid tc = apid id ->
  (forall r data, mode_request_ok r -> mode_command r = Some (tc_subservice tc, data) ->
     tc_user_data tc = to_be_bytes 4 (unique_id id) ++ data ->
     ModeService.convert (PE:=PE) token tc stamp now (mkModeConverter, x) =
       (Ok (ActiveRequest.new (TargetId.raw id) (TokAccepted token) (secs 30) now, r),
        (mkModeConverter, x))) /\
  (forall aid v data, in_u 32 aid -> action_data v = Some data -> tc_subservice tc = 128 ->
     tc_user_data tc = to_be_bytes 4 (unique_id id) ++ to_be_bytes 4 aid ++ data ->
     Action.convert (PE:=PE) token tc stamp now (mkActionConverter, x) =
       (Ok (ActiveAction.new aid (TargetId.raw id) (TokAccepted token) (secs 30) now,
            mkActionRequest aid v), (mkActionConverter, x))) /\
  (forall set_id sub v data cv, in_u 32 set_id ->
     match v with ModifyCollectionInterval f => in_u 32 f | _ => True end ->
     hk_subservice_try_from (tc_subservice tc) = Some sub -> hk_command sub v = Some data ->
     tc_user_data tc = to_be_bytes 4 (unique_id id) ++ to_be_bytes 4 set_id ++ data ->
     HkService.convert (PE:=PE) token tc stamp now (cv, x) =
       (Ok (ActiveRequest.new (TargetId.raw id) (TokAccepted token) (hk_timeout cv) now,
            mkHkRequest set_id v), (cv, x))).
Proof.
  intros Hid Ha. split_and!; intros.
  - by eapply mode_convert_ok.
  - by eapply action_convert_ok.
  - by eapply hk_convert_ok.
Qed.

Lemma request_conversion_roundtrip_witness :
  let tc := mkPusTc 0 6146 49157 2 5 200 1 0 [0; 0; 0; 9; 0; 0; 0; 2; 0; 1] in
  ModeService.convert (PE:=unit) (V:=TestVerificationReporter) (Q:=list (Z * PusTmVariant))
    ex_token tc [7] 100 (mkModeConverter, (TestReporter.new 5, [])) =
  (Ok (ActiveRequest.new (TargetId.raw (mkTargetId 2 9)) (TokAccepted ex_token) (secs 30) 100,
       SetMode (mkMode 2 1)), (mkModeConverter, (TestReporter.new 5, []))).
Proof.
  intros tc.
  apply (request_conversion_roundtrip (PE:=unit) (V:=TestVerificationReporter)
    (Q:=list (Z * PusTmVariant)) (H0 := fun _ => None) ex_token tc [7] 100 (mkTargetId 2 9)
    (TestReporter.new 5, [])) with (data := [0; 0; 0; 2; 0; 1]); try reflexivity;
    vm_compute; intuition congruence.
Defined.

(** ** Reports of [VerificationReporter] *)
Section Reported.
Context {PE : Type} `{PusErrorOps PE}.
Abbreviation Q := (list (Z * PusTmVariant)).
Implicit Types (v : VerificationReporter) (q : Q).

Lemma acceptance_reported v q t stamp :
  4 <= len (source_data_buf v) ->
  exists v', vr_acceptance_success (PE:=PE) t stamp (v, q) =
    (Ok (mkToken (request_id t)), (v', q ++ [sent v TmAcceptanceSuccess stamp (success_data (request_id t) None)])) /\
    same_reporter v v'.
Proof.
  intros Hl. apply (report_success (PE:=PE) (mkToken (s:=TcStateAccepted) (request_id t))
    (fun c => ReportCreator.acceptance_success c t 0 0 stamp) v q (request_id t)
    TmAcceptanceSuccess stamp None); [done|done|]. done.
Qed.

Lemma start_failure_reported v q t p :
  enum_ok (failure_code p) -> len (fail_data_of (request_id t) None p) <= len (source_data_buf v) ->
  exists v', vr_start_failure (PE:=PE) t p (v, q) =
    (Ok tt, (v', q ++ [sent v TmStartFailure (time_stamp p) (fail_data_of (request_id t) None p)])) /\
    same_reporter v v'.
Proof.
  intros He Hl. cbn. unfold Reporter.start_failure, Reporter.report, Reporter.no_token,
    ReportCreator.start_failure, ReportCreator.failure_verification_no_step, st_bind, ret.
  rewrite create_fail_spec by done. cbv zeta.
  destruct (Z.ltb_spec (len (source_data_buf v)) (len (fail_data_of (request_id t) None p))); [lia|].
  eexists. split; [reflexivity|]. repeat split. cbn [source_data_buf Reporter.set_buf].
  rewrite len_app. unfold len in *. rewrite length_drop. lia.
Qed.

Lemma result_code_enum_ok r :
  in_u 8 (group_id r) -> in_u 8 (result_unique_id r) ->
  enum_ok (ResultCode.as_enum r) /\
  enum_bytes (ResultCode.as_enum r) = [group_id r; result_unique_id r].
Proof.
  intros Hg Hu. unfold in_u in *.
  assert (Hb : enum_bytes (ResultCode.as_enum r) = [group_id r; result_unique_id r]).
  { unfold enum_bytes, ResultCode.as_enum, ResultCode.raw, as_u. cbn [enum_size enum_value].
    rewrite (Z.mod_small (group_id r)), (Z.mod_small (result_unique_id r)) by lia.
    rewrite Z.mod_small by (rewrite Z.shiftl_mul_pow2 by lia; lia).
    rewrite lor_shiftl_add by lia. change (Z.to_nat 2) with 2%nat. cbn [to_be_bytes].
    change (8 * Z.of_nat 1) with 8. change (8 * Z.of_nat 0) with 0. rewrite Z.div_1_r.
    destruct (div_mod_fields (group_id r) (result_unique_id r) 8) as [-> Hm]; [lia|lia|].
    change (2 ^ 8) with 256 in *. rewrite Hm, Z.mod_small by lia. done. }
  split; [|done]. split; [done|]. intros buf Hl. rewrite Hb. cbn [enum_write ResultCode.as_enum enum_size].
  by apply result_code_write.
Qed.

End Reported.

(** ** The distributor *)
Section DistributorRun.
Context {PE : Type} `{PusErrorOps PE}.
Abbreviation Q := (list (Z * PusTmVariant)).
Implicit Types d : PusTcDistributor Q.

Definition queue_on (m : EcssTcAndToken) (c : channel EcssTcAndToken) : channel EcssTcAndToken :=
  Channel.set_queue (queue c ++ [m]) c.

Lemma send_via_run get set m d :
  set (get (pus_router d)) (pus_router d) = pus_router d ->
  Distributor.send_via get set m d =
    (if rx_alive (get (pus_router d))
     then (Ok tt, mkDistributor (dist_id d) (dist_tm_sender d) (dist_verif_reporter d)
             (set (queue_on m (get (pus_router d))) (pus_router d)) (stamp d))
     else (Err RxDisconnected, d)).
Proof.
  intros Hs. unfold Distributor.send_via, Distributor.on_router, st_map_err, Channel.send.
  destruct (rx_alive _); cbn; [done|]. rewrite Hs. by destruct d.
Qed.

(** The distributor after it accepted a telecommand. *)
Definition accepted d (r : RequestId) (now_stamp : list Z) v' : PusTcDistributor Q :=
  mkDistributor (dist_id d)
    (dist_tm_sender d ++
       [sent (dist_verif_reporter d) TmAcceptanceSuccess now_stamp (success_data r None)])
    v' (pus_router d) now_stamp.

Lemma handle_tc_accepted (parse : list Z -> res PE PusTc) std d now_stamp sender_id addr_opt raw_tc tc :
  4 <= len (source_data_buf (dist_verif_reporter d)) -> parse raw_tc = Ok tc ->
  exists v', same_reporter (dist_verif_reporter d) v' /\
    Distributor.handle_tc_generic parse std now_stamp sender_id addr_opt raw_tc d =
      (let* _ := Distributor.dispatch (PE:=PE) std (tc_service tc)
                   (match addr_opt with
                    | Some a => InPool (mkPacketInPool sender_id a)
                    | None => InVec (mkPacketAsVec sender_id raw_tc)
                    end) (mkToken (RequestId.new tc)) now_stamp in
       ret HandledOne) (accepted d (RequestId.new tc) now_stamp v').
Proof.
  intros Hl Hp. destruct (acceptance_reported (PE:=PE) (dist_verif_reporter d) (dist_tm_sender d)
    (mkToken (RequestId.new tc)) now_stamp Hl) as (v' & Hr & Hs).
  exists v'. split; [done|]. unfold Distributor.handle_tc_generic. rewrite Hp.
  unfold st_bind at 1, Distributor.on_reporter at 1, vr_add_tc. cbn [fst snd vr_add_tc_with_req_id Reporter_provider].
  unfold st_bind at 1, Distributor.update_from_now, modify_state. cbn [dist_id dist_tm_sender dist_verif_reporter pus_router stamp].
  unfold st_bind at 1, gets. cbn [stamp]. unfold st_bind at 1, Distributor.on_reporter at 1, Service.expect_st.
  cbn [dist_verif_reporter dist_tm_sender dist_id pus_router stamp].
  change (ReportCreator.add_tc_with_req_id (RequestId.new tc)) with (mkToken (s:=TcStateNone) (RequestId.new tc)).
  rewrite Hr. done.
Qed.

(** The report of a failure over the distributor's reporter. *)
Lemma refused_run d r now_stamp code b :
  in_u 8 (group_id code) -> in_u 8 (result_unique_id code) ->
  7 <= len (source_data_buf (dist_verif_reporter d)) ->
  let p := fail_params now_stamp code [b] in
  exists v', same_reporter (dist_verif_reporter d) v' /\
    Distributor.on_reporter (vr_start_failure (PE:=PE) (mkToken r) p) d =
      (Ok tt, mkDistributor (dist_id d) (dist_tm_sender d ++
         [sent (dist_verif_reporter d) TmStartFailure now_stamp (fail_data_of r None p)])
         v' (pus_router d) (stamp d)).
Proof.
  intros Hg Hu Hl p. destruct (result_code_enum_ok code Hg Hu) as [He Hb].
  destruct (start_failure_reported (PE:=PE) (dist_verif_reporter d) (dist_tm_sender d)
    (mkToken r) p) as (v' & Hr & Hs).
  - exact He.
  - unfold fail_data_of, p, fail_params. cbn [failure_code failure_data opt_bytes]. rewrite Hb. exact Hl.
  - exists v'. split; [done|]. unfold Distributor.on_reporter. by rewrite Hr.
Qed.

(** Telecommands that are passed on, vanish or are refused. *)
Definition dispatched (std : Z -> option PusServiceId) d (service : Z) (m : EcssTcAndToken)
    (r : RequestId) (now_stamp : list Z)
    : res GenericSendError unit * (list (Z * PusTmVariant) * PusTcMpscRouter) :=
  let pass_on get set :=
    if rx_alive (get (pus_router d))
    then (Ok tt, ([], set (queue_on m (get (pus_router d))) (pus_router d)))
    else (Err RxDisconnected, ([], pus_router d)) in
  let refuse code b :=
    (Ok tt, ([sent (dist_verif_reporter d) TmStartFailure now_stamp
                (fail_data_of r None (fail_params now_stamp code [b]))], pus_router d)) in
  match std service with
  | Some StdTest => pass_on test_tc_sender Distributor.set_test
  | Some StdHousekeeping => pass_on hk_tc_sender Distributor.set_hk
  | Some StdEvent => pass_on event_tc_sender Distributor.set_event
  | Some StdScheduling => pass_on sched_tc_sender Distributor.set_sched
  | Some (StdOther number) => refuse Codes.PUS_SERVICE_NOT_IMPLEMENTED number
  | None =>
      if service =? 200 then pass_on mode_tc_sender Distributor.set_mode
      else if service =? 201 then (Ok tt, ([], pus_router d))
      else refuse Codes.INVALID_PUS_SUBSERVICE service
  end.

Lemma dispatch_run std d service mem r now_stamp :
  7 <= len (source_data_buf (dist_verif_reporter d)) ->
  let m := mkEcssTcAndToken mem (Some (TokAccepted (mkToken r))) in
  exists v', same_reporter (dist_verif_reporter d) v' /\
    Distributor.dispatch (PE:=PE) std service mem (mkToken r) now_stamp d =
      let '(a, (tms, router)) := dispatched std d service m r now_stamp in
      (a, mkDistributor (dist_id d) (dist_tm_sender d ++ tms) v' router (stamp d)).
Proof.
  intros Hl m.
  assert (Hpass : forall get set, set (get (pus_router d)) (pus_router d) = pus_router d ->
    exists v', same_reporter (dist_verif_reporter d) v' /\
      Distributor.send_via get set m d =
      let '(a, (tms, router)) :=
        (if rx_alive (get (pus_router d))
         then (Ok tt, ([], set (queue_on m (get (pus_router d))) (pus_router d)))
         else (Err RxDisconnected, ([], pus_router d)))
        : res GenericSendError unit * (list (Z * PusTmVariant) * PusTcMpscRouter) in
      (a, mkDistributor (dist_id d) (dist_tm_sender d ++ tms) v' router (stamp d))).
  { intros get set Hs. exists (dist_verif_reporter d). split; [by repeat split|]. rewrite send_via_run by done.
    destruct (rx_alive _); rewrite app_nil_r; [done|]. by destruct d. }
  unfold Distributor.dispatch, dispatched. fold m.
  destruct (std service) as [[| | | |n]|]; try (apply Hpass; by destruct (pus_router d)).
  - destruct (refused_run d r now_stamp Codes.PUS_SERVICE_NOT_IMPLEMENTED n) as (v' & Hs & Hf); [done|done|done|].
    exists v'. split; [done|]. unfold st_bind, attempt. by rewrite Hf.
  - unfold custom_service_try_from. destruct (service =? 200); [apply Hpass; by destruct (pus_router d)|].
    destruct (service =? 201).
    + exists (dist_verif_reporter d). split; [by repeat split|]. rewrite app_nil_r. by destruct d.
    + destruct (refused_run d r now_stamp Codes.INVALID_PUS_SUBSERVICE service) as (v' & Hs & Hf); [done|done|done|].
      exists v'. split; [done|]. unfold Distributor.on_reporter, Service.expect_st in *.
      destruct (vr_start_failure _ _ _) as [a [v q]]. by injection Hf as -> -> ->.
Qed.

End DistributorRun.

(** C25: The distributor accepts every telecommand it can parse: it reports the
    acceptance under the request ID of the telecommand and passes it on, with the
    accepted token of that ID, to the queue of its service and to no other; when
    that queue is gone it fails with [RxDisconnected].  Telecommands of standard
    services without a queue and of unknown services are answered with a start
    failure; those of the health service vanish after their acceptance.  What
    cannot be parsed is dropped without a report. *)
Theorem distributor_correct {PE} `{PusErrorOps PE} (parse : list Z -> res PE PusTc)
    (std : Z -> option PusServiceId) (d : PusTcDistributor (list (Z * PusTmVariant)))
    (now_stamp : list Z) (sender_id : Z) (addr_opt : option Z) (raw_tc : list Z) :
  7 <= len (source_data_buf (dist_verif_reporter d)) -> parse raw_tc <> Panic ->
  match parse raw_tc with
  | Ok tc =>
      let r := RequestId.new tc in
      let v := dist_verif_reporter d in
      let mem := match addr_opt with
                 | Some a => InPool (mkPacketInPool sender_id a)
                 | None => InVec (mkPacketAsVec sender_id raw_tc)
                 end in
      let m := mkEcssTcAndToken mem (Some (TokAccepted (mkToken r))) in
      exists v', same_reporter v v' /\
        Distributor.handle_tc_generic parse std now_stamp sender_id addr_opt raw_tc d =
          let '(a, (tms, router)) := dispatched std d (tc_service tc) m r now_stamp in
          (res_map (fun _ => HandledOne) a,
           mkDistributor (dist_id d)
             (dist_tm_sender d ++ sent v TmAcceptanceSuccess now_stamp (success_data r None) :: tms)
             v' router now_stamp)
  | _ => Distributor.handle_tc_generic parse std now_stamp sender_id addr_opt raw_tc d = (Ok HandledOne, d)
  end.
Proof.
  intros Hl Hp. destruct (parse raw_tc) as [tc|e|] eqn:E; [|unfold Distributor.handle_tc_generic; by rewrite E|done].
  cbv zeta. destruct (handle_tc_accepted parse std d now_stamp sender_id addr_opt raw_tc tc)
    as (v1 & Hs1 & ->); [lia|done|].
  match goal with |- context [Distributor.dispatch _ _ ?x _ _] => set (mem := x) end.
  destruct (dispatch_run (PE:=PE) std (accepted d (RequestId.new tc) now_stamp v1) (tc_service tc) mem
    (RequestId.new tc) now_stamp) as (v2 & Hs2 & Hd).
  { cbn [accepted dist_verif_reporter]. destruct Hs1 as (_ & _ & _ & ->). exact Hl. }
  exists v2. split; [by apply (same_reporter_trans _ v1)|]. unfold st_bind. rewrite Hd.
  assert (Hsame : forall m, dispatched std (accepted d (RequestId.new tc) now_stamp v1) (tc_service tc) m
            (RequestId.new tc) now_stamp = dispatched std d (tc_service tc) m (RequestId.new tc) now_stamp).
  { intros m. unfold dispatched. cbv zeta beta. cbn [accepted pus_router dist_verif_reporter].
    by destruct (std (tc_service tc)) as [[]|]; rewrite ?(sent_same (dist_verif_reporter d) v1) by exact Hs1. }
  rewrite Hsame. clear Hd Hsame.
  match goal with |- context [dispatched ?a ?b ?c ?m ?e ?f] =>
    destruct (dispatched a b c m e f) as [[[]| |] [tms router]] end;
    unfold accepted; cbn [dist_id dist_tm_sender stamp]; by rewrite <- app_assoc.
Qed.

Definition ex_queue {M : Type} : channel M := mkChannel [] None true true.

Definition ex_distributor : PusTcDistributor (list (Z * PusTmVariant)) :=
  mkDistributor (TargetId.raw PUS_ROUTING_SERVICE) []
    (mkReporter (TargetId.id PUS_ROUTING_SERVICE) (replicate 15 0) (mkCreator 0 2) (fun tm => tm))
    (mkTcRouter ex_queue ex_queue ex_queue ex_queue ex_queue
       ex_queue) (replicate 7 0).

#[local] Instance ex_unit_error : PusErrorOps unit := fun _ => tt.

Lemma distributor_correct_witness :
  exists v',
    Distributor.handle_tc_generic (ex_mode_tc 3) (fun _ => None) [7] 1 None [0; 0; 0; 9] ex_distributor =
      (Ok HandledOne,
       mkDistributor (TargetId.raw PUS_ROUTING_SERVICE)
         [(TargetId.id PUS_ROUTING_SERVICE,
           Direct (mkPusTm 2 0 1 1 0 0 [7] (to_be_bytes 4 ex_key)))] v'
         (Distributor.set_mode
            (mkChannel [mkEcssTcAndToken (InVec (mkPacketAsVec 1 [0; 0; 0; 9]))
                          (Some (TokAccepted ex_token))] None true true)
            (pus_router ex_distributor)) [7]).
Proof.
  destruct (distributor_correct (PE:=unit) (ex_mode_tc 3) (fun _ => None)
    ex_distributor [7] 1 None [0; 0; 0; 9]) as (v' & _ & Hd).
  - vm_compute. discriminate.
  - discriminate.
  - exists v'. exact Hd.
Defined.

(** A telecommand of the mode service is put on its queue. *)
Lemma mode_dispatch {PE} `{PusErrorOps PE} std (d : PusTcDistributor (list (Z * PusTmVariant))) now_stamp v'
    mem r (token : VerificationToken TcStateAccepted) :
  std MODE_SERVICE_ID = None -> mode_tc_sender (pus_router d) = mkChannel [] None true true ->
  (let* _ := Distributor.dispatch (PE:=PE) std MODE_SERVICE_ID mem token now_stamp in ret HandledOne)
    (accepted d r now_stamp v') =
  (Ok HandledOne,
   mkDistributor (dist_id d) (dist_tm_sender d ++
      [sent (dist_verif_reporter d) TmAcceptanceSuccess now_stamp (success_data r None)]) v'
     (Distributor.set_mode (mkChannel [mkEcssTcAndToken mem (Some (TokAccepted token))] None true true)
        (pus_router d)) now_stamp).
Proof.
  intros Hstd Hq. unfold st_bind, Distributor.dispatch. rewrite Hstd. cbn [custom_service_try_from MODE_SERVICE_ID Z.eqb Pos.eqb].
  rewrite send_via_run by (by destruct (pus_router (accepted d r now_stamp v'))).
  cbn [accepted pus_router]. rewrite Hq. done.
Qed.

(** ** A mode command *)
Section ModeCommand.
Context {PE : Type} `{PusErrorOps PE} `{HeaderOps} `{PacketIdOps}.
Abbreviation Q := (list (Z * PusTmVariant)).
Abbreviation mode_service :=
  (PusTargetedRequestService Q VerificationReporter EcssTcInVecConverter ModeRequestConverter
     ActivePusRequestStd ModeReplyHandler ModeReply).
Context (parse : list Z -> res PE PusTc).
Implicit Types (s : mode_service) (w : World).

(** The service after it sent telemetry, with its map of active requests. *)
Definition served s (c : EcssTcInVecConverter) (rest : list EcssTcAndToken) (tms : Q)
    (v : VerificationReporter) (m : gmap Z ActivePusRequestStd) : mode_service :=
  let h := service_helper s in
  mkService (mkHelper (helper_id h) (Channel.set_queue rest (tc_receiver h)) (tm_sender h ++ tms) v c)
    (request_router s) (request_converter s) m (reply_handler s) (service_replies s).

(** A telecommand with a mode request for a target that is connected. *)
Lemma mode_tc_run s w raw_tc sender_id tc rest id r data c ch stamp now :
  queue (tc_receiver (service_helper s)) =
    mkEcssTcAndToken (InVec (mkPacketAsVec sender_id raw_tc))
      (Some (TokAccepted (mkToken (RequestId.new tc)))) :: rest ->
  parse raw_tc = Ok tc ->
  target_id_ok id -> mode_request_ok r -> mode_command r = Some (tc_subservice tc, data) ->
  tc_apid tc = apid id -> tc_user_data tc = to_be_bytes 4 (unique_id id) ++ data ->
  mode_router_map (request_router s) !! TargetId.raw id = Some (SyncTx c) ->
  w.2 !! c = Some ch -> rx_alive ch = true ->
  4 <= len (source_data_buf (verif_reporter (service_helper s))) ->
  let key := RequestId.raw (RequestId.new tc) in
  exists v', same_reporter (verif_reporter (service_helper s)) v' /\
    Targeted.poll_and_handle_next_tc parse stamp now (s, w) =
      (Ok HandledOne,
       (served s (mkVecConverter (Some sender_id) (Some raw_tc)) rest
          [sent (verif_reporter (service_helper s)) TmStartSuccess stamp (success_data (RequestId.new tc) None)]
          v' (<[key := mkActive (TargetId.raw id) (TokStarted (mkToken (RequestId.new tc))) now (secs 30)]>
                (active_request_map s)),
        (w.1, <[c := Channel.set_queue (queue ch ++
                  [mkMessage (mkMetadata key (helper_id (service_helper s))) r]) ch]> w.2))).
Proof.
  intros Hq Hp Hid Hr Hc Ha Hd Hm Hw Hal Hl key.
  destruct (start_reported (PE:=PE) (verif_reporter (service_helper s)) (tm_sender (service_helper s))
    (mkToken (RequestId.new tc)) stamp Hl) as (v' & Hs & Hsame).
  exists v'. split; [done|]. unfold Targeted.poll_and_handle_next_tc.
  unfold st_bind at 1, on_fst at 1, Targeted.on_helper. cbn [fst snd].
  rewrite (next_tc_queued parse _ _ _ Hq). cbn [tc_token tc_in_memory conv_cache VecConverter_converter].
  unfold VecConverter.cache, st_bind at 1, modify_state. cbn [conv_tc_slice_raw].
  change (conv_tc_slice_raw _) with raw_tc. rewrite Hp.
  unfold st_bind at 1, on_fst at 1, attempt at 1, Targeted.on_converter, rc_convert, mode_converter.
  rewrite (mode_convert_ok (PE:=PE) _ tc stamp now id r data) by done.
  unfold received. cbn [service_helper verif_reporter tm_sender helper_id tc_receiver pav_sender_id packet].
  unfold st_bind at 1, lift. cbn [ar_token active_std ActiveRequest.new act_token TcStateToken.try_into_accepted expect].
  unfold st_bind at 1, gets. cbn [fst snd request_router]. unfold st_bind at 1. cbn [fst snd service_helper helper_id].
  unfold st_bind at 1, attempt, on_snd, route, mode_router, Router.route_mode, on_snd, Router.send_to.
  cbn [fst snd ar_target_id active_std ActiveRequest.new act_target_id]. rewrite Hm.
  unfold Mpsc.on_chan, st_map_err, Channel.send. cbn [sync_tx_chan]. rewrite Hw, Hal. cbn [map_err].
  unfold st_bind at 1, on_fst at 1, Targeted.on_reporter, Targeted.on_helper, Helper.on_reporter, Service.expect_st.
  cbn [fst snd service_helper verif_reporter tm_sender]. rewrite Hs. cbn [expect].
  unfold st_bind, on_fst, Targeted.on_map, modify_state, ret, RequestMap.insert.
  cbn [fst snd active_request_map]. done.
Qed.

(** What the reply handler does when the mode was reached. *)
Lemma mode_handled (rh : ModeReplyHandler) v (q : Q) info stamp key sender r m :
  act_token info = TokStarted (mkToken r) -> 4 <= len (source_data_buf v) ->
  exists v', same_reporter v v' /\
    ModeService.handle_reply (PE:=PE) (mkMessage (mkMetadata key sender) (ModeReplyOk m)) info stamp
      (rh, (v, q)) =
    (Ok true, (rh, (v', q ++
       [(mode_owner_id rh,
         Direct (ModeService.mode_reply_tm (packet_id (RequestId.from_u32 key)) stamp
           ((to_be_bytes 4 (mode m) ++ to_be_bytes 2 (submode m)) ++ replicate 6 0)));
        sent v TmCompletionSuccess stamp (success_data r None)]))).
Proof.
  intros Ht Hl. set (tm := Direct (ModeService.mode_reply_tm _ stamp _)).
  destruct (completion_reported (PE:=PE) v (q ++ [(mode_owner_id rh, tm)]) (mkToken r) stamp Hl)
    as (v' & Hs & Hsame).
  exists v'. split; [done|]. unfold ModeService.handle_reply. cbn [ar_token active_std]. rewrite Ht.
  unfold st_bind at 1, lift at 1. cbn [TcStateToken.try_into_started expect message].
  unfold ModeService.write_mode. rewrite mode_write by done.
  change (drop 6 (replicate 12 0)) with (replicate 6 0). cbn [expect res_bind].
  unfold st_bind, lift, gets, on_snd. cbn [fst snd send_tm recording_sender].
  cbn [msg_request_id requestor_info meta_request_id]. fold tm. rewrite Hs. rewrite <- app_assoc. done.
Qed.

(** The reply that the mode was reached. *)
Lemma mode_reply_run s info stamp key r m sender replies :
  queue (service_replies s) = mkMessage (mkMetadata key sender) (ModeReplyOk m) :: replies ->
  active_request_map s !! key = Some info -> act_token info = TokStarted (mkToken r) ->
  4 <= len (source_data_buf (verif_reporter (service_helper s))) ->
  exists v', same_reporter (verif_reporter (service_helper s)) v' /\
    let h := service_helper s in
    Targeted.poll_and_handle_next_reply (PE:=PE) stamp s =
      (Ok HandledOne,
       mkService (mkHelper (helper_id h) (tc_receiver h)
           (tm_sender h ++
            [(mode_owner_id (reply_handler s),
              Direct (ModeService.mode_reply_tm (packet_id (RequestId.from_u32 key)) stamp
                ((to_be_bytes 4 (mode m) ++ to_be_bytes 2 (submode m)) ++ replicate 6 0)));
             sent (verif_reporter h) TmCompletionSuccess stamp (success_data r None)])
           v' (tc_in_mem_converter h))
         (request_router s) (request_converter s) (delete key (active_request_map s)) (reply_handler s)
         (Channel.set_queue replies (service_replies s))).
Proof.
  intros Hq Hk Ht Hl. set (h := service_helper s).
  destruct (mode_handled (reply_handler s) (verif_reporter h) (tm_sender h) info stamp key sender r m Ht Hl)
    as (v' & Hsame & Hh).
  exists v'. split; [done|]. cbv zeta.
  unfold Targeted.poll_and_handle_next_reply, st_bind at 1, attempt, Targeted.on_replies, Channel.try_recv.
  rewrite Hq. unfold Targeted.handle_reply, RequestMap.get. unfold st_bind at 1, st_bind at 1, gets.
  cbn [msg_request_id requestor_info meta_request_id active_request_map]. rewrite Hk.
  unfold st_bind at 1, attempt, Targeted.on_reply_handler.
  cbn [reply_handler service_helper rh_handle_reply mode_reply_handler]. fold h. rewrite Hh. done.
Qed.

End ModeCommand.

(** C24: A mode command and its answer, end to end.  The packet of a telecommand
    with a mode request for a connected device is accepted by the distributor, and
    handled by the mode service: the device finds exactly that request on its
    queue, under the number of the request ID and with the mode service as sender.
    When the reply of the device that it reached mode [m] is handled, the ground
    gets, after the acceptance, the start report, the mode reply with [m] and the
    completion report, and the request is no longer active. *)
Theorem mode_command_correct {PE} `{PusErrorOps PE} `{HeaderOps} `{PacketIdOps}
    (parse : list Z -> res PE PusTc) (std : Z -> option PusServiceId)
    (d : PusTcDistributor (list (Z * PusTmVariant)))
    (s : PusTargetedRequestService (list (Z * PusTmVariant)) VerificationReporter EcssTcInVecConverter
           ModeRequestConverter ActivePusRequestStd ModeReplyHandler ModeReply)
    (w : World) (sender_id : Z) (raw_tc stamp0 stamp1 stamp2 data : list Z) (now c : Z) tc id r m ch :
  parse raw_tc = Ok tc -> std (tc_service tc) = None -> tc_service tc = MODE_SERVICE_ID ->
  target_id_ok id -> mode_request_ok r -> mode_command r = Some (tc_subservice tc, data) ->
  tc_apid tc = apid id -> tc_user_data tc = to_be_bytes 4 (unique_id id) ++ data ->
  tc_receiver (service_helper s) = mkChannel [] None true true ->
  mode_tc_sender (pus_router d) = mkChannel [] None true true ->
  service_replies s = mkChannel [] None true true ->
  mode_router_map (request_router s) !! TargetId.raw id = Some (SyncTx c) ->
  w.2 !! c = Some ch -> rx_alive ch = true ->
  7 <= len (source_data_buf (dist_verif_reporter d)) ->
  4 <= len (source_data_buf (verif_reporter (service_helper s))) ->
  let key := RequestId.raw (RequestId.new tc) in
  let info := mkMetadata key (helper_id (service_helper s)) in
  let h := service_helper s in
  exists d' s1 s2,
    (* the distributor *)
    Distributor.handle_tc_packet_vec parse std stamp0 (mkPacketAsVec sender_id raw_tc) d =
      (Ok HandledOne, d') /\
    dist_tm_sender d' = dist_tm_sender d ++
      [sent (dist_verif_reporter d) TmAcceptanceSuccess stamp0 (success_data (RequestId.new tc) None)] /\
    (* the mode service, with the queue the distributor wrote to *)
    Targeted.poll_and_handle_next_tc parse stamp1 now
        (mkService (mkHelper (helper_id h) (mode_tc_sender (pus_router d')) (tm_sender h)
                      (verif_reporter h) (tc_in_mem_converter h))
           (request_router s) (request_converter s) (active_request_map s) (reply_handler s)
           (service_replies s), w) =
      (Ok HandledOne,
       (s1, (w.1, <[c := Channel.set_queue (queue ch ++ [mkMessage info r]) ch]> w.2))) /\
    (* the reply of the device *)
    Targeted.poll_and_handle_next_reply (PE:=PE) stamp2
        (mkService (service_helper s1) (request_router s1) (request_converter s1)
           (active_request_map s1) (reply_handler s1)
           (mkChannel [mkMessage info (ModeReplyOk m)] None true true)) = (Ok HandledOne, s2) /\
    tm_sender (service_helper s2) = tm_sender h ++
      [sent (verif_reporter h) TmStartSuccess stamp1 (success_data (RequestId.new tc) None);
       (mode_owner_id (reply_handler s),
        Direct (ModeService.mode_reply_tm (packet_id (RequestId.from_u32 key)) stamp2
          ((to_be_bytes 4 (mode m) ++ to_be_bytes 2 (submode m)) ++ replicate 6 0)));
       sent (verif_reporter h) TmCompletionSuccess stamp2 (success_data (RequestId.new tc) None)] /\
    active_request_map s2 = delete key (active_request_map s).
Proof.
  intros Hp Hstd Hsrv Hid Hr Hc Ha Hd Hrx Hmq Hrep Hrt Hw Hal Hl1 Hl2 key info h.
  destruct (handle_tc_accepted parse std d stamp0 sender_id None raw_tc tc) as (v0 & Hs0 & Hacc); [lia|done|].
  rewrite Hsrv in *. rewrite (mode_dispatch std d stamp0 v0 _ _ _ Hstd Hmq) in Hacc.
  match type of Hacc with _ = (_, ?x) => set (d' := x) in Hacc end.
  set (s0 := mkService (mkHelper (helper_id h) (mode_tc_sender (pus_router d')) (tm_sender h)
                 (verif_reporter h) (tc_in_mem_converter h))
               (request_router s) (request_converter s) (active_request_map s) (reply_handler s)
               (service_replies s)).
  destruct (mode_tc_run parse s0 w raw_tc sender_id tc [] id r data c ch stamp1 now)
    as (v1 & Hs1 & Htc); try done.
  match type of Htc with _ = (_, (?x, _)) => set (s1 := x) in Htc end.
  set (s1' := mkService (service_helper s1) (request_router s1) (request_converter s1)
                (active_request_map s1) (reply_handler s1)
                (mkChannel [mkMessage info (ModeReplyOk m)] None true true)).
  destruct (mode_reply_run s1' _ stamp2 key (RequestId.new tc) m (helper_id h) [] eq_refl
    (lookup_insert_eq (M:=gmap Z) _ _ _) eq_refl) as (v2 & Hs2 & Hre).
  { cbn. destruct Hs1 as (_ & _ & _ & ->). exact Hl2. }
  exists d', s1. eexists. split_and!; [exact Hacc|done|exact Htc|exact Hre| |].
  - cbn [service_helper tm_sender s1' s1 served s0]. rewrite <- app_assoc. cbn [app verif_reporter].
    by rewrite (sent_same (verif_reporter h) v1) by exact Hs1.
  - cbn [active_request_map s1' s1 served s0]. by rewrite delete_insert_eq.
Qed.

Definition ex_command_service :
    PusTargetedRequestService (list (Z * PusTmVariant)) VerificationReporter EcssTcInVecConverter
      ModeRequestConverter ActivePusRequestStd ModeReplyHandler ModeReply :=
  mkService (mkHelper 5 ex_queue [] (mkReporter 5 (replicate 15 0) (mkCreator 0 2) (fun tm => tm))
      (mkVecConverter None None))
    ex_mode_router mkModeConverter ∅ (mkModeReplyHandler 5) ex_queue.

#[local] Instance ex_command_packet_id : PacketIdOps := fun id => Z.land id 2047.

Lemma mode_command_correct_witness :
  exists d' (s1 s2 : PusTargetedRequestService (list (Z * PusTmVariant)) VerificationReporter
      EcssTcInVecConverter ModeRequestConverter ActivePusRequestStd ModeReplyHandler ModeReply),
    Distributor.handle_tc_packet_vec (ex_mode_tc 3) (fun _ => None) [7] (mkPacketAsVec 1 [0; 0; 0; 9])
      ex_distributor = (Ok HandledOne, d') /\
    Targeted.poll_and_handle_next_tc (ex_mode_tc 3) [8] 100
      (mkService (mkHelper 5 (mode_tc_sender (pus_router d')) []
           (verif_reporter (service_helper ex_command_service)) (mkVecConverter None None))
         ex_mode_router mkModeConverter ∅ (mkModeReplyHandler 5) ex_queue, ex_mode_world) =
      (Ok HandledOne,
       (s1, (∅, <[1 := mkChannel [mkMessage (mkMetadata ex_key 5) ReadMode] None true true]>
                  {[ 1 := ex_chan ]}))) /\
    Targeted.poll_and_handle_next_reply (PE:=unit) [9]
      (mkService (service_helper s1) (request_router s1) (request_converter s1)
         (active_request_map s1) (reply_handler s1)
         (mkChannel [mkMessage (mkMetadata ex_key 5) (ModeReplyOk (mkMode 2 1))] None true true)) =
      (Ok HandledOne, s2) /\
    map snd (tm_sender (service_helper s2)) =
      [Direct (mkPusTm 2 0 1 3 0 0 [8] (to_be_bytes 4 ex_key));
       Direct (ModeService.mode_reply_tm 2 [9] [0; 0; 0; 2; 0; 1; 0; 0; 0; 0; 0; 0]);
       Direct (mkPusTm 2 0 1 7 0 0 [9] (to_be_bytes 4 ex_key))] /\
    active_request_map s2 = ∅.
Proof.
  assert (Hid : target_id_ok (mkTargetId 2 9)) by (vm_compute; intuition congruence).
  assert (Hl : 7 <= len (source_data_buf (dist_verif_reporter ex_distributor)) /\
               4 <= len (source_data_buf (verif_reporter (service_helper ex_command_service))))
    by (vm_compute; intuition congruence).
  destruct (mode_command_correct (PE:=unit) (ex_mode_tc 3) (fun _ => None) ex_distributor
    ex_command_service ex_mode_world 1 [0; 0; 0; 9] [7] [8] [9] [] 100 1
    (mkPusTc 0 6146 49157 2 5 200 3 0 [0; 0; 0; 9]) (mkTargetId 2 9) ReadMode (mkMode 2 1) ex_chan
    eq_refl eq_refl eq_refl Hid I eq_refl eq_refl eq_refl eq_refl eq_refl eq_refl
    (lookup_singleton_eq (M:=gmap Z) _ _) eq_refl eq_refl (proj1 Hl) (proj2 Hl))
    as (d' & s1 & s2 & Hd & _ & Hp & Hr & Ht & Ha).
  exists d', s1, s2. split_and!; [exact Hd|exact Hp|exact Hr| |].
  - rewrite Ht. reflexivity.
  - rewrite Ha. reflexivity.
Defined.
