(* ===== verification/PusStack.v ===== *)
(** * The PUS stack of the example application

    The wrappers around the services 5, 11 and 17 ([pus/event.rs],
    [pus/scheduler.rs], [pus/test.rs] of [satrs-example]), the release of scheduled
    telecommands, and the stack ([pus/stack.rs]) that polls all services.

    The services of a stack share the queue of the telemetry and, in the static
    configuration, the pool of the telecommands: both are kept once, in the
    environment of the stack, and put into a service while it runs. *)

From Stdlib Require Import ZArith Lia Bool String.
From stdpp Require Import base list gmap.
From S2P Require Import Prelude Spacepackets Pool Scheduler Params Tmtc Verification Events EventMan Services Requests TargetedService TargetedFlow.

Local Open Scope Z_scope.

(** ** Configuration *)
Definition PUS_EVENT_MANAGEMENT : UniqueApidTargetId := TargetId.new 2 0.
Definition PUS_TEST_SERVICE : UniqueApidTargetId := TargetId.new 2 2.
Definition PUS_SCHED_SERVICE : UniqueApidTargetId := TargetId.new 1 0.

(** [TEST_EVENT], converted to an [EventU32]. *)
Definition TEST_EVENT : Event Events.U32 := mkEvent Info 0 0.

(** [create_static_pools] and [create_sched_tc_pool]: the three pools are alike. *)
Definition create_pool : res PoolError StaticMemoryPool :=
  StaticPool.new (StaticPoolConfig.new_from_subpool_cfg_tuples
    [(30, 32); (15, 64); (15, 128); (15, 256); (15, 1024); (15, 2048)] true).

(** ** What the services share *)

(** The part of a telecommand converter other components hold too. *)
Class SharedPart (C Sh : Type) : Type := {
  shared_of : C -> Sh;
  load_shared : Sh -> C -> C;
}.

#[export] Instance vec_shared : SharedPart EcssTcInVecConverter unit := {|
  shared_of := fun _ => tt;
  load_shared := fun _ c => c;
|}.

#[export] Instance store_shared {P} : SharedPart (EcssTcInSharedStoreConverter P) (Shared P) := {|
  shared_of := fun c => shared_tc_store c;
  load_shared := fun sh c => mkStoreConverter (ssc_sender_id c) sh (pus_buf c);
|}.

Section Shared.
Context {Q V C Sh : Type} `{SharedPart C Sh}.
Abbreviation helper := (PusServiceHelper Q V C).

(** Telemetry queue and telecommand pool. *)
Definition Env : Type := Q * Sh.

Definition load (e : Env) (h : helper) : helper :=
  mkHelper (helper_id h) (tc_receiver h) e.1 (verif_reporter h)
    (load_shared e.2 (tc_in_mem_converter h)).

Definition unload (h : helper) : Env := (tm_sender h, shared_of (tc_in_mem_converter h)).

(** A call of a service that finds its helper in [S]. *)
Definition mounted {S E A : Type} (get : S -> helper) (set : helper -> S -> S) (m : st S E A)
    : st (S * Env) E A :=
  fun x =>
    let '(r, s) := m (set (load x.2 (get x.1)) x.1) in (r, (s, unload (get s))).

End Shared.

Arguments Env : clear implicits.

(** ** The services as the stack sees them *)

(** [trait DirectPusService]; [X] is the environment. *)
Abbreviation DirectPusService S X := (list Z -> st (S * X) Empty_set HandlingStatus).

(** [trait TargetedPusService]: the default handlers and the check for timeouts.
    The instants at which the handlers and the check read the clock are given. *)
Record TargetedPusService (S X : Type) : Type := mkTargetedService {
  targeted_poll_tc : list Z -> Z -> st (S * X) Empty_set HandlingStatus;
  targeted_poll_reply : list Z -> st (S * X) Empty_set HandlingStatus;
  targeted_check_timeouts : (Z -> Z) -> st (S * X) Empty_set unit;
}.

Arguments mkTargetedService {S X} _ _ _.
Arguments targeted_poll_tc {S X} _.
Arguments targeted_poll_reply {S X} _.
Arguments targeted_check_timeouts {S X} _.

(** ** The wrappers *)

(** The error handlers of the wrappers only log. *)
Definition log_error {PE TE : Type} (_ : PartialPusHandlingError PE TE) (h : unit) : unit := h.

Module TestWrapper.
Section TestWrapper.
Context {PE Q V C : Type} `{EcssTmSender PE Q} `{!VerificationReportingProvider PE V Q}
  `{EcssTcInMemConverter PE C}.
Context (pus_tc_reader_new : list Z -> res PE PusTc).

(** [TestCustomServiceWrapper]: the handler and the sender of events. *)
Definition t : Type := Handler Q V C unit (channel (EventMessage (Event Events.U32) Params)).

(** The test event of subservice 128; [SyncSender::send] waits while the queue is
    full. *)
Definition generate_test_event (token : VerificationToken TcStateAccepted) (time_stamp : list Z)
    : st t Empty_set unit :=
  let* _ := Service.on_extra (Service.expect_st (Channel.send
              (mkEventMessage (TargetId.id PUS_TEST_SERVICE) TEST_EVENT None))) in
  let* r := attempt (Service.on_helper (Helper.on_reporter (vr_start_success token time_stamp))) in
  match r with
  | Ok started_token =>
      let* _ := attempt (Service.on_helper (Helper.on_reporter
                  (vr_completion_success TcStateStarted started_accepted started_token time_stamp))) in
      ret tt
  | _ => ret tt
  end.

Definition poll_and_handle_next_tc (time_stamp : list Z) : st t Empty_set HandlingStatus :=
  let* res := attempt (Service.test_poll_and_handle_next_tc (TE:=unit) log_error pus_tc_reader_new time_stamp) in
  match res with
  | Ok (DirectHandled handling_status) => ret handling_status
  | Ok (SubserviceNotImplemented _ _) => ret HandledOne
  | Ok (CustomSubservice subservice token) =>
      let* tc := asks (fun x : t =>
                   expect (pus_tc_reader_new (conv_tc_slice_raw (tc_in_mem_converter x.1.1)))) in
      let* _ :=
        if subservice =? 128 then generate_test_event token time_stamp
        else
          Service.on_helper (Service.expect_st (Helper.on_reporter (vr_start_failure token
            (fail_params time_stamp Codes.INVALID_PUS_SUBSERVICE [tc_subservice tc])))) in
      ret HandledOne
  | _ => ret HandlingEmpty
  end.

End TestWrapper.
End TestWrapper.

(** The end the wrappers of the event and the scheduling service share. *)
Definition direct_status {S PE : Type} (m : st S (PusPacketHandlingError PE) DirectPusPacketHandlerResult)
    : st S Empty_set HandlingStatus :=
  let* result := attempt m in
  match result with
  | Ok (DirectHandled handling_status) => ret handling_status
  | Ok _ => ret HandledOne
  | _ => ret HandlingEmpty
  end.

Module EventWrapper.
Section EventWrapper.
Context {PE Q V C : Type} `{EcssTmSender PE Q} `{!VerificationReportingProvider PE V Q}
  `{EcssTcInMemConverter PE C}.
Context (pus_tc_reader_new : list Z -> res PE PusTc).
Context (subservice_try_from : Z -> option EventSubservice).

(** [EventServiceWrapper] *)
Definition t : Type := Handler Q V C unit (channel EventRequestWithToken).

Definition poll_and_handle_next_tc (time_stamp : list Z) : st t Empty_set HandlingStatus :=
  direct_status (Service.event_poll_and_handle_next_tc (TE:=unit) log_error pus_tc_reader_new
    subservice_try_from time_stamp).

End EventWrapper.
End EventWrapper.

(** *** The scheduling service and the release of telecommands *)

(** [trait TcReleaser]: what it owns, and what it shares. *)
Class TcReleaser (RL Sh : Type) : Type :=
  tc_release : Z -> bool -> TcInfo -> list Z -> st (RL * Sh) Empty_set bool.

(** [impl TcReleaser for mpsc::Sender<PacketAsVec>] *)
#[export] Instance vec_releaser {Sh} : TcReleaser (channel PacketAsVec) Sh :=
  fun sender_id enabled _ tc =>
    if enabled then
      let* _ := on_fst (Service.expect_st (Channel.send (mkPacketAsVec sender_id tc))) in
      ret true
    else ret true.

(** [impl TcReleaser for PacketSenderWithSharedPool].  A panic while the lock is
    held poisons it. *)
#[export] Instance pool_releaser {P} `{PoolProvider P} : TcReleaser (channel PacketInPool) (Shared P) :=
  fun sender_id enabled _ tc =>
    if enabled then
      let* released_tc_addr := on_snd (fun pool : Shared P =>
        if poisoned pool then (Panic, pool)
        else let '(r, p) := pool_add tc (inner pool) in (expect r, mkShared (negb (is_ok r)) p)) in
      let* _ := on_fst (Service.expect_st (Channel.send (mkPacketInPool sender_id released_tc_addr))) in
      ret true
    else ret true.

Record SchedulingServiceWrapper (Q V C T D P RL : Type) : Type := mkSchedWrapper {
  pus_11_handler : Handler Q V C unit (PusScheduler T D * P);
  releaser_buf : list Z;
  tc_releaser : RL;
}.

Arguments mkSchedWrapper {Q V C T D P RL} _ _ _.
Arguments pus_11_handler {Q V C T D P RL} _.
Arguments releaser_buf {Q V C T D P RL} _.
Arguments tc_releaser {Q V C T D P RL} _.

Module SchedWrapper.
Section SchedWrapper.
Context {PE TSE Q V C T D P RL Sh : Type} `{EcssTmSender PE Q}
  `{!VerificationReportingProvider PE V Q} `{EcssTcInMemConverter PE C} `{TimeOps T D}
  `{PoolProvider P} `{TcReleaser RL Sh}.
Context (pus_tc_reader_new : list Z -> res PE PusTc).
Context (time_from_bytes : list Z -> res TSE (T * Z)).
Context (subservice_try_from : Z -> option SchedSubservice).
Abbreviation t := (SchedulingServiceWrapper Q V C T D P RL).

Definition on_handler {E A : Type} (m : st (Handler Q V C unit (PusScheduler T D * P)) E A) : st t E A :=
  fun s => let '(r, h) := m (pus_11_handler s) in (r, mkSchedWrapper h (releaser_buf s) (tc_releaser s)).

Definition poll_and_handle_next_tc (time_stamp : list Z) : st t Empty_set HandlingStatus :=
  on_handler (direct_status (Service.sched_poll_and_handle_next_tc (TE:=unit) log_error
    pus_tc_reader_new time_from_bytes subservice_try_from time_stamp)).

(** The closure of [release_tcs].  Whether it panicked is part of its state: after
    a panic it is not called again. *)
Definition releaser (id : Z) : Sched.Releaser (bool * (RL * Sh)) :=
  fun u enabled info tc =>
    if u.1 then (true, u)
    else match tc_release id enabled info tc u.2 with
         | (Ok b, x) => (b, (false, x))
         | (_, x) => (true, (true, x))
         end.

(** [release_tcs], with the telecommand pool of the other components. *)
Definition release_tcs (now : T) : st (t * Sh) Empty_set unit :=
  fun x =>
    let '(helper, log, (scheduler, sched_tc_pool)) := pus_11_handler x.1 in
    let '(released_tcs, (scheduler', rel)) :=
      Sched.release_telecommands_with_buffer (releaser (helper_id helper)) (releaser_buf x.1)
        (false, (tc_releaser x.1, x.2)) (Sched.update_time now scheduler) sched_tc_pool in
    let '(panicked, (rl, sh)) := Sched.rel_user rel in
    (if panicked then Panic else res_map (fun _ => tt) (expect released_tcs),
     (mkSchedWrapper (helper, log, (scheduler', Sched.rel_pool rel))
        (default (releaser_buf x.1) (Sched.rel_buf rel)) rl, sh)).

End SchedWrapper.
End SchedWrapper.

(** ** The stack *)
Record PusStack (Test Hk Event Action Sched Mode : Type) : Type := mkStack {
  test_srv : Test;
  hk_srv_wrapper : Hk;
  event_srv : Event;
  action_srv_wrapper : Action;
  schedule_srv : Sched;
  mode_srv : Mode;
}.

Arguments mkStack {Test Hk Event Action Sched Mode} _ _ _ _ _ _.
Arguments test_srv {Test Hk Event Action Sched Mode} _.
Arguments hk_srv_wrapper {Test Hk Event Action Sched Mode} _.
Arguments event_srv {Test Hk Event Action Sched Mode} _.
Arguments action_srv_wrapper {Test Hk Event Action Sched Mode} _.
Arguments schedule_srv {Test Hk Event Action Sched Mode} _.
Arguments mode_srv {Test Hk Event Action Sched Mode} _.

(** The operations of the six services, in the environment [X]; [T] is the time
    at which telecommands are released. *)
Record StackOps (T Test Hk Event Action Sched Mode X : Type) : Type := mkStackOps {
  ops_test : DirectPusService Test X;
  ops_hk : TargetedPusService Hk X;
  ops_event : DirectPusService Event X;
  ops_action : TargetedPusService Action X;
  ops_sched : DirectPusService Sched X;
  ops_release : T -> st (Sched * X) Empty_set unit;
  ops_mode : TargetedPusService Mode X;
}.

Arguments mkStackOps {T Test Hk Event Action Sched Mode X} _ _ _ _ _ _ _.
Arguments ops_test {T Test Hk Event Action Sched Mode X} _.
Arguments ops_hk {T Test Hk Event Action Sched Mode X} _.
Arguments ops_event {T Test Hk Event Action Sched Mode X} _.
Arguments ops_action {T Test Hk Event Action Sched Mode X} _.
Arguments ops_sched {T Test Hk Event Action Sched Mode X} _.
Arguments ops_release {T Test Hk Event Action Sched Mode X} _.
Arguments ops_mode {T Test Hk Event Action Sched Mode X} _.

Module Stack.
Section Stack.
Context {T Test Hk Event Action Sched Mode X : Type}.
Context (ops : StackOps T Test Hk Event Action Sched Mode X).
Abbreviation stack := (PusStack Test Hk Event Action Sched Mode).
Abbreviation M := (st (stack * X) Empty_set).

(** *** Calls on the services of the stack *)
Definition on_part {S A : Type} (get : stack -> S) (set : S -> stack -> stack)
    (m : st (S * X) Empty_set A) : M A :=
  fun x => let '(r, (s, e)) := m (get x.1, x.2) in (r, (set s x.1, e)).

Definition set_test (s : Test) (k : stack) : stack :=
  mkStack s (hk_srv_wrapper k) (event_srv k) (action_srv_wrapper k) (schedule_srv k) (mode_srv k).
Definition set_hk (s : Hk) (k : stack) : stack :=
  mkStack (test_srv k) s (event_srv k) (action_srv_wrapper k) (schedule_srv k) (mode_srv k).
Definition set_event (s : Event) (k : stack) : stack :=
  mkStack (test_srv k) (hk_srv_wrapper k) s (action_srv_wrapper k) (schedule_srv k) (mode_srv k).
Definition set_action (s : Action) (k : stack) : stack :=
  mkStack (test_srv k) (hk_srv_wrapper k) (event_srv k) s (schedule_srv k) (mode_srv k).
Definition set_sched (s : Sched) (k : stack) : stack :=
  mkStack (test_srv k) (hk_srv_wrapper k) (event_srv k) (action_srv_wrapper k) s (mode_srv k).
Definition set_mode (s : Mode) (k : stack) : stack :=
  mkStack (test_srv k) (hk_srv_wrapper k) (event_srv k) (action_srv_wrapper k) (schedule_srv k) s.

Abbreviation on_test := (on_part test_srv set_test).
Abbreviation on_hk := (on_part hk_srv_wrapper set_hk).
Abbreviation on_event := (on_part event_srv set_event).
Abbreviation on_action := (on_part action_srv_wrapper set_action).
Abbreviation on_sched := (on_part schedule_srv set_sched).
Abbreviation on_mode := (on_part mode_srv set_mode).

(** *** Operations *)
Definition handled_one (s : HandlingStatus) : bool :=
  match s with HandledOne => true | HandlingEmpty => false end.

Definition direct_service_checker (poll : M HandlingStatus) (nothing_to_do : bool) : M bool :=
  let* handling_status := poll in
  ret (if handled_one handling_status then false else nothing_to_do).

Definition targeted_service_checker (poll_tc poll_reply : M HandlingStatus) (nothing_to_do : bool)
    : M bool :=
  let* request_handling := poll_tc in
  let* reply_handling := poll_reply in
  ret (if handled_one request_handling || handled_one reply_handling then false else nothing_to_do).

(** The instants a round reads the clock at, by service; the timeouts are checked
    at instants given by service and request. *)
Context (now : Z -> Z -> Z) (timeout_now : Z -> Z -> Z).

(** The body of the loop up to the test of [nothing_to_do]. *)
Definition round (timestamp : list Z) (loop_count : Z) : M bool :=
  let* n := direct_service_checker (on_test (ops_test ops timestamp)) true in
  let* n := direct_service_checker (on_sched (ops_sched ops timestamp)) n in
  let* n := direct_service_checker (on_event (ops_event ops timestamp)) n in
  let* n := targeted_service_checker
              (on_action (targeted_poll_tc (ops_action ops) timestamp (now loop_count 8)))
              (on_action (targeted_poll_reply (ops_action ops) timestamp)) n in
  let* n := targeted_service_checker
              (on_hk (targeted_poll_tc (ops_hk ops) timestamp (now loop_count 3)))
              (on_hk (targeted_poll_reply (ops_hk ops) timestamp)) n in
  targeted_service_checker
    (on_mode (targeted_poll_tc (ops_mode ops) timestamp (now loop_count 200)))
    (on_mode (targeted_poll_reply (ops_mode ops) timestamp)) n.

Definition check_timeouts : M unit :=
  let* _ := on_action (targeted_check_timeouts (ops_action ops) (timeout_now 8)) in
  let* _ := on_hk (targeted_check_timeouts (ops_hk ops) (timeout_now 3)) in
  on_mode (targeted_check_timeouts (ops_mode ops) (timeout_now 200)).

(** The loop; [None] when the fuel runs out. *)
Fixpoint stack_loop (fuel : nat) (timestamp : list Z) (loop_count : Z) : M (option unit) :=
  match fuel with
  | O => ret None
  | S fuel' =>
      let* nothing_to_do := round timestamp loop_count in
      if nothing_to_do then
        let* _ := check_timeouts in
        ret (Some tt)
      else
        let* loop_count := lift (checked_add 32 loop_count 1) in
        if 500 <=? loop_count then ret (Some tt) else stack_loop fuel' timestamp loop_count
  end.

(** [periodic_operation]: telecommands are released at [release_time], then the
    time stamp is made. *)
Definition periodic_operation (fuel : nat) (release_time : T) (timestamp : list Z) : M (option unit) :=
  let* _ := on_sched (ops_release ops release_time) in
  stack_loop fuel timestamp 0.

End Stack.
End Stack.

(** ** The services of the example *)
Section Services.
Context {PE TSE Q V C Sh T D P RL : Type} `{EcssTmSender PE Q}
  `{!VerificationReportingProvider PE V Q} `{EcssTcInMemConverter PE C} `{SharedPart C Sh}
  `{TimeOps T D} `{PoolProvider P} `{TcReleaser RL Sh}.
Context (pus_tc_reader_new : list Z -> res PE PusTc).
Context (time_from_bytes : list Z -> res TSE (T * Z)).
Context (sched_subservice_try_from : Z -> option SchedSubservice).
Context (event_subservice_try_from : Z -> option EventSubservice).

(** The environment of the stack: what all services share, and the queues of the
    requests. *)
Abbreviation StackEnv := (Env Q Sh * World)%type.

Definition on_env {S E A : Type} (m : st (S * Env Q Sh) E A) : st (S * StackEnv) E A :=
  fun x => let '(r, (s, e)) := m (x.1, x.2.1) in (r, (s, (e, x.2.2))).

Definition set_handler {Y : Type} (h : PusServiceHelper Q V C) (x : Handler Q V C unit Y)
    : Handler Q V C unit Y := (h, x.1.2, x.2).

Definition test_ops : DirectPusService (TestWrapper.t (Q:=Q) (V:=V) (C:=C)) StackEnv :=
  fun timestamp => on_env (mounted (fun x => x.1.1) set_handler
    (TestWrapper.poll_and_handle_next_tc pus_tc_reader_new timestamp)).

Definition event_ops : DirectPusService (EventWrapper.t (Q:=Q) (V:=V) (C:=C)) StackEnv :=
  fun timestamp => on_env (mounted (fun x => x.1.1) set_handler
    (EventWrapper.poll_and_handle_next_tc pus_tc_reader_new event_subservice_try_from timestamp)).

Abbreviation sched_wrapper := (SchedulingServiceWrapper Q V C T D P RL).

Definition sched_ops : DirectPusService sched_wrapper StackEnv :=
  fun timestamp => on_env (mounted (fun s : sched_wrapper => (pus_11_handler s).1.1)
    (fun h s => mkSchedWrapper (set_handler h (pus_11_handler s)) (releaser_buf s) (tc_releaser s))
    (SchedWrapper.poll_and_handle_next_tc pus_tc_reader_new time_from_bytes
       sched_subservice_try_from timestamp)).

Definition release_ops (now : T) : st (sched_wrapper * StackEnv) Empty_set unit :=
  on_env (fun x => let '(r, (s, sh)) := SchedWrapper.release_tcs now (x.1, x.2.2) in
                   (r, (s, (x.2.1, sh)))).

Section Targeted.
Context {CV I RH Req Rep : Type} `{ActiveRequestProvider I} `{!PusTcToRequestConverter PE V Q I Req CV}
  `{!PusReplyHandler PE V Q I Rep RH} `{!PusRequestRouter Req GenericRequestRouter World}.
Abbreviation service := (PusTargetedRequestService Q V C CV I RH Rep).

Definition set_service_helper (h : PusServiceHelper Q V C) (s : service) : service :=
  mkService h (request_router s) (request_converter s) (active_request_map s) (reply_handler s)
    (service_replies s).

(** [ActionServiceWrapper], [HkServiceWrapper] and [ModeServiceWrapper] delegate to
    their service. *)
Definition targeted_ops : TargetedPusService service StackEnv := {|
  targeted_poll_tc := fun timestamp now x =>
    let '(r, ((s, w), e)) := mounted (fun y : service * World => service_helper y.1)
      (fun h y => (set_service_helper h y.1, y.2))
      (Targeted.poll_and_handle_next_tc_default_handler pus_tc_reader_new timestamp now)
      ((x.1, x.2.2), x.2.1) in
    (r, (s, (e, w)));
  targeted_poll_reply := fun timestamp => on_env (mounted service_helper set_service_helper
    (Targeted.poll_and_handle_next_reply_default_handler (PE:=PE) timestamp));
  targeted_check_timeouts := fun now => on_env (on_fst (Targeted.check_for_request_timeouts now));
|}.

End Targeted.

(** The stack of the example. *)
Abbreviation action_service :=
  (PusTargetedRequestService Q V C ActionRequestConverter ActivePusActionRequestStd ActionReplyHandler
     ActionReplyPus).
Abbreviation hk_service :=
  (PusTargetedRequestService Q V C HkRequestConverter ActivePusRequestStd HkReplyHandler HkReply).
Abbreviation mode_service :=
  (PusTargetedRequestService Q V C ModeRequestConverter ActivePusRequestStd ModeReplyHandler ModeReply).

Definition example_ops `{EcssEnumOps} `{HeaderOps} `{PacketIdOps} `{HkSubserviceOps}
    : StackOps T (TestWrapper.t (Q:=Q) (V:=V) (C:=C)) hk_service (EventWrapper.t (Q:=Q) (V:=V) (C:=C))
        action_service sched_wrapper mode_service StackEnv :=
  mkStackOps test_ops targeted_ops event_ops targeted_ops sched_ops release_ops targeted_ops.

End Services.

(** *** Construction *)
Section Create.
Context {P : Type}.

(** [PusServiceHelper::new] with the reporter of the component. *)
Definition create_helper {Q C E : Type} (id : UniqueApidTargetId) (rx : channel EcssTcAndToken)
    (tm_sender : Q) (conv : C) : res E (PusServiceHelper Q VerificationReporter C) :=
  let? reporter := create_verification_reporter (TargetId.id id) (apid id) in
  Ok (mkHelper (TargetId.id id) rx tm_sender reporter conv).

Definition create_test_service_static {Q E : Type} (tm_sender : Q) (tc_pool : Shared P)
    (event_sender : channel (EventMessage (Event Events.U32) Params)) (pus_test_rx : channel EcssTcAndToken)
    : res E (TestWrapper.t (Q:=Q) (V:=VerificationReporter) (C:=EcssTcInSharedStoreConverter P)) :=
  let? h := create_helper PUS_TEST_SERVICE pus_test_rx tm_sender (StoreConverter.new tc_pool 2048) in
  Ok (h, tt, event_sender).

Definition create_test_service_dynamic {E : Type} (tm_funnel_tx : channel PacketAsVec)
    (event_sender : channel (EventMessage (Event Events.U32) Params)) (pus_test_rx : channel EcssTcAndToken)
    : res E (TestWrapper.t (Q:=channel PacketAsVec) (V:=VerificationReporter) (C:=EcssTcInVecConverter)) :=
  let? h := create_helper PUS_TEST_SERVICE pus_test_rx tm_funnel_tx VecConverter.default in
  Ok (h, tt, event_sender).

Definition create_event_service_static {Q E : Type} (tm_sender : Q) (tc_pool : Shared P)
    (pus_event_rx : channel EcssTcAndToken) (event_request_tx : channel EventRequestWithToken)
    : res E (EventWrapper.t (Q:=Q) (V:=VerificationReporter) (C:=EcssTcInSharedStoreConverter P)) :=
  let? h := create_helper PUS_EVENT_MANAGEMENT pus_event_rx tm_sender (StoreConverter.new tc_pool 2048) in
  Ok (h, tt, event_request_tx).

Definition create_event_service_dynamic {E : Type} (tm_funnel_tx : channel PacketAsVec)
    (pus_event_rx : channel EcssTcAndToken) (event_request_tx : channel EventRequestWithToken)
    : res E (EventWrapper.t (Q:=channel PacketAsVec) (V:=VerificationReporter) (C:=EcssTcInVecConverter)) :=
  let? h := create_helper PUS_EVENT_MANAGEMENT pus_event_rx tm_funnel_tx VecConverter.default in
  Ok (h, tt, event_request_tx).

(** The schedulers start at the current time [now] with a margin of five seconds;
    [from_secs] is [Duration::from_secs]. *)
Context {T D : Type} (now : T) (from_secs : Z -> D).

(** The releaser shares its pool with the converter. *)
Definition create_scheduler_service_static {Q E : Type} (tm_sender : Q) (tc_releaser : channel PacketInPool)
    (tc_pool : Shared P) (pus_sched_rx : channel EcssTcAndToken) (sched_tc_pool : P)
    : res E (SchedulingServiceWrapper Q VerificationReporter (EcssTcInSharedStoreConverter P) T D P
               (channel PacketInPool)) :=
  let? h := create_helper PUS_SCHED_SERVICE pus_sched_rx tm_sender (StoreConverter.new tc_pool 2048) in
  Ok (mkSchedWrapper (h, tt, (Sched.new now (from_secs 5), sched_tc_pool)) (replicate 4096 0) tc_releaser).

Definition create_scheduler_service_dynamic {E : Type} (tm_funnel_tx tc_source_sender : channel PacketAsVec)
    (pus_sched_rx : channel EcssTcAndToken) (sched_tc_pool : P)
    : res E (SchedulingServiceWrapper (channel PacketAsVec) VerificationReporter EcssTcInVecConverter T D P
               (channel PacketAsVec)) :=
  let? h := create_helper PUS_SCHED_SERVICE pus_sched_rx tm_funnel_tx VecConverter.default in
  Ok (mkSchedWrapper (h, tt, (Sched.new now (from_secs 5), sched_tc_pool)) (replicate 4096 0)
        tc_source_sender).

End Create.

(** * Lemmas *)

(** ** Framing: what a computation leaves alone *)
Definition keeps {S E A B : Type} (f : S -> B) (m : st S E A) : Prop := forall s, f (m s).2 = f s.

Create HintDb frame.

Section Keeps.
Context {S B : Type} (f : S -> B).

Lemma keeps_ret {E A} (a : A) : keeps f (ret (E:=E) a).
Proof. done. Qed.

Lemma keeps_throw {E A} (e : E) : keeps f (throw (A:=A) e).
Proof. done. Qed.

Lemma keeps_lift {E A} (r : res E A) : keeps f (lift r).
Proof. done. Qed.

Lemma keeps_gets {E A} (g : S -> A) : keeps f (gets (E:=E) g).
Proof. done. Qed.

Lemma keeps_asks {E A} (g : S -> res E A) : keeps f (asks g).
Proof. done. Qed.

Lemma keeps_modify {E} (g : S -> S) : (forall s, f (g s) = f s) -> keeps f (modify_state (E:=E) g).
Proof. intros Hg s. apply Hg. Qed.

Lemma keeps_st_bind {E A A'} (m : st S E A) (k : A -> st S E A') :
  keeps f m -> (forall a, keeps f (k a)) -> keeps f (st_bind m k).
Proof.
  intros Hm Hk s. specialize (Hm s). unfold st_bind.
  destruct (m s) as [[a|e|] s1]; cbn [snd] in *; [by rewrite Hk|done|done].
Qed.

Lemma keeps_attempt {E F A} (m : st S E A) : keeps f m -> keeps f (attempt (F:=F) m).
Proof. intros Hm s. specialize (Hm s). unfold attempt. by destruct (m s) as [[]]. Qed.

Lemma keeps_map_err {E F A} (g : E -> F) (m : st S E A) : keeps f m -> keeps f (st_map_err g m).
Proof. intros Hm s. specialize (Hm s). unfold st_map_err. by destruct (m s). Qed.

Lemma keeps_expect {E F A} (m : st S E A) : keeps f m -> keeps f (Service.expect_st (F:=F) m).
Proof. intros Hm s. specialize (Hm s). unfold Service.expect_st. by destruct (m s). Qed.

Lemma keeps_on_fst {P E A} (m : st S E A) : keeps f m -> keeps (fun x : S * P => f x.1) (on_fst m).
Proof. intros Hm [s p]. specialize (Hm s). unfold on_fst. cbn [fst snd]. by destruct (m s). Qed.

Lemma keeps_fst_on_snd {P E A} (m : st P E A) : keeps (fun x : S * P => f x.1) (on_snd m).
Proof. intros [s p]. unfold on_snd. cbn [fst snd]. by destruct (m p). Qed.

End Keeps.

#[export] Hint Resolve keeps_ret keeps_throw keeps_lift keeps_gets keeps_asks keeps_modify keeps_st_bind
  keeps_attempt keeps_map_err keeps_expect keeps_on_fst keeps_fst_on_snd : frame.

(** Splits a computation along its binds, branches and calls. *)
Ltac frame_step :=
  first
    [ solve [auto with frame]
    | apply keeps_st_bind; [|intros ?]
    | match goal with |- keeps _ (match ?x with _ => _ end) => destruct x end
    | match goal with |- keeps _ (let '(_, _) := ?x in _) => destruct x end ].

Ltac frame := repeat frame_step.

(** [m] takes the first message off a queue, whatever its result. *)
Definition pops {S E A B : Type} (f : S -> list B) (m : st S E A) : Prop :=
  forall s, f (m s).2 = tail (f s).

(** On an empty queue [m] gives [a] or fails. *)
Definition on_empty {S E A B : Type} (f : S -> list B) (a : A) (m : st S E A) : Prop :=
  forall s, f s = [] -> (m s).1 = Ok a \/ is_err (m s).1 = true.

Section Pops.
Context {S E B : Type} (f : S -> list B).

Lemma pops_bind {A A'} (m : st S E A) (k : A -> st S E A') :
  pops f m -> (forall a, keeps f (k a)) -> pops f (st_bind m k).
Proof.
  intros Hm Hk s. specialize (Hm s). unfold st_bind.
  destruct (m s) as [[a|e|] s1]; cbn [snd] in *; [by rewrite Hk|done|done].
Qed.

Lemma pops_attempt {F A} (m : st S E A) : pops f m -> pops f (attempt (F:=F) m).
Proof. intros Hm s. specialize (Hm s). unfold attempt. by destruct (m s) as [[]]. Qed.

Lemma pops_on_fst {P A} (m : st S E A) : pops f m -> pops (fun x : S * P => f x.1) (on_fst m).
Proof. intros Hm [s p]. specialize (Hm s). unfold on_fst. cbn [fst snd]. by destruct (m s). Qed.

Lemma on_empty_bind {A A'} (m : st S E A) (k : A -> st S E A') a b :
  on_empty f a m -> (forall s, (k a s).1 = Ok b) -> on_empty f b (st_bind m k).
Proof.
  intros Hm Hk s Hs. unfold st_bind. destruct (Hm s Hs) as [Ha|Ha].
  - destruct (m s) as [r s1]. cbn [fst] in Ha. subst r. left. apply Hk.
  - right. by destruct (m s) as [[]].
Qed.

Lemma on_empty_on_fst {P A} (m : st S E A) a :
  on_empty f a m -> on_empty (fun x : S * P => f x.1) a (on_fst m).
Proof. intros Hm [s p] Hs. specialize (Hm s Hs). unfold on_fst. cbn [fst snd] in *. by destruct (m s). Qed.

End Pops.

(** ** Telecommands are taken off the queue one by one *)
Section HelperQueue.
Context {PE Q V C : Type} `{EcssTmSender PE Q} `{!VerificationReportingProvider PE V Q}
  `{EcssTcInMemConverter PE C}.
Context (parse : list Z -> res PE PusTc).
Abbreviation helper := (PusServiceHelper Q V C).

Definition tc_queue (h : helper) : list EcssTcAndToken := queue (tc_receiver h).

Lemma on_reporter_keeps {E A} (m : st (V * Q) E A) : keeps tc_queue (Helper.on_reporter (C:=C) m).
Proof. intros h. unfold Helper.on_reporter. by destruct (m _) as [r [v q]]. Qed.

Lemma on_sender_keeps {E A} (m : st Q E A) : keeps tc_queue (Helper.on_sender (V:=V) (C:=C) m).
Proof. apply on_reporter_keeps. Qed.

Lemma on_converter_keeps {E A} (m : st C E A) : keeps tc_queue (Helper.on_converter m).
Proof. intros h. unfold Helper.on_converter. by destruct (m _) as [r c]. Qed.

#[local] Hint Resolve on_reporter_keeps on_sender_keeps on_converter_keeps : frame.

Lemma retrieve_pops : pops tc_queue (Helper.retrieve_and_accept_next_packet (PE:=PE)).
Proof.
  unfold Helper.retrieve_and_accept_next_packet. apply pops_bind.
  - apply pops_attempt. intros h. unfold tc_queue, Helper.on_receiver, Helper.recv_tc, st_map_err, Channel.try_recv.
    destruct (queue (tc_receiver h)) eqn:Hq; [destruct (tx_alive _)|]; cbn [fst snd map_err tc_receiver tail]; by rewrite ?Hq.
  - intros a. destruct a as [[tc [token|]]|[]|]; frame.
Qed.

Lemma retrieve_empty : on_empty tc_queue None (Helper.retrieve_and_accept_next_packet (PE:=PE)).
Proof.
  intros h Hq. unfold tc_queue in Hq. unfold Helper.retrieve_and_accept_next_packet, st_bind, attempt, Helper.on_receiver,
    Helper.recv_tc, st_map_err, Channel.try_recv. rewrite Hq. destruct (tx_alive _); [by left|by right].
Qed.

Lemma next_tc_pops : pops tc_queue (Helper.next_tc parse).
Proof. apply pops_bind; [apply retrieve_pops|]. intros []; frame. Qed.

Lemma next_tc_empty : on_empty tc_queue None (Helper.next_tc parse).
Proof. by eapply on_empty_bind; [apply retrieve_empty|]. Qed.

(** *** Handlers *)
Context {X : Type}.
Abbreviation handler := (Handler Q V C unit X).

Definition handler_queue (x : handler) : list EcssTcAndToken := tc_queue x.1.1.

Lemma on_helper_keeps {E A} (m : st helper E A) :
  keeps tc_queue m -> keeps handler_queue (Service.on_helper (H:=unit) (X:=X) m).
Proof. intros Hm. apply (keeps_on_fst (fun x : helper * unit => tc_queue x.1)), keeps_on_fst, Hm. Qed.

Lemma on_extra_keeps {E A} (m : st X E A) : keeps handler_queue (Service.on_extra m).
Proof. apply (keeps_fst_on_snd (fun x : helper * unit => tc_queue x.1)). Qed.

Lemma callback_keeps {TE E} (e : PartialPusHandlingError PE TE) :
  keeps handler_queue (Service.callback (E:=E) log_error e).
Proof. done. Qed.

#[local] Hint Resolve on_helper_keeps on_extra_keeps callback_keeps : frame.

Lemma try_start_keeps {TE} token stamp :
  keeps handler_queue (Service.try_start (TE:=TE) log_error token stamp).
Proof. unfold Service.try_start. frame. Qed.

Lemma try_complete_keeps {TE} token stamp :
  keeps handler_queue (Service.try_complete (TE:=TE) log_error token stamp).
Proof. unfold Service.try_complete. frame. Qed.

(** A handler: it receives, and then leaves the queue alone. *)
Lemma handler_pops {E A} (k : _ -> st handler E A) (m : st helper E (option (VerificationToken TcStateAccepted * PusTc))) :
  pops tc_queue m -> (forall p, keeps handler_queue (k p)) ->
  pops handler_queue (st_bind (Service.on_helper m) k).
Proof.
  intros Hm Hk. apply pops_bind; [|done].
  apply (pops_on_fst (fun x : helper * unit => tc_queue x.1)), pops_on_fst, Hm.
Qed.

Lemma handler_empty {A} (k : _ -> st handler _ A) a :
  (forall s, (k None s).1 = Ok a) ->
  on_empty handler_queue a (st_bind (Service.on_helper (Helper.next_tc parse)) k).
Proof.
  intros Hk. eapply on_empty_bind; [|done].
  apply (on_empty_on_fst (fun x : helper * unit => tc_queue x.1)), on_empty_on_fst, next_tc_empty.
Qed.

(** A wrapper: errors and an empty queue give [HandlingEmpty]. *)
Lemma attempt_empty {E B} (m : st handler E DirectPusPacketHandlerResult) (k : _ -> st handler Empty_set B) b s :
  on_empty handler_queue (DirectHandled HandlingEmpty) m -> handler_queue s = [] ->
  (forall s, (k (Ok (DirectHandled HandlingEmpty)) s).1 = Ok b) -> (forall e s, (k (Err e) s).1 = Ok b) ->
  (st_bind (attempt m) k s).1 = Ok b.
Proof.
  intros Hm Hs Hk He. unfold st_bind, attempt. specialize (Hm s Hs).
  destruct (m s) as [[r|e|] s1]; cbn [fst is_err] in Hm; destruct Hm as [Hm|Hm]; try done.
  by replace r with (DirectHandled HandlingEmpty) by congruence.
Qed.

End HelperQueue.

#[export] Hint Resolve on_reporter_keeps on_sender_keeps on_converter_keeps on_helper_keeps on_extra_keeps callback_keeps
  try_start_keeps try_complete_keeps : frame.

(** ** The laws the stack relies on *)

(** A poll takes one telecommand, and handles none when there is none. *)
Record DirectLaws {S X : Type} (q : S -> list EcssTcAndToken) (d : DirectPusService S X) : Prop := {
  direct_pops : forall stamp, pops (fun x : S * X => q x.1) (d stamp);
  direct_idle : forall stamp x, q x.1 = [] -> (d stamp x).1 <> Ok HandledOne;
}.

Record TargetedLaws {S X Rep : Type} (q : S -> list EcssTcAndToken) (rq : S -> list (GenericMessage Rep))
    (t : TargetedPusService S X) : Prop := {
  tc_pops : forall stamp now, pops (fun x : S * X => q x.1) (targeted_poll_tc t stamp now);
  tc_keeps_replies : forall stamp now, keeps (fun x : S * X => rq x.1) (targeted_poll_tc t stamp now);
  tc_idle : forall stamp now x, q x.1 = [] -> (targeted_poll_tc t stamp now x).1 <> Ok HandledOne;
  reply_pops : forall stamp, pops (fun x : S * X => rq x.1) (targeted_poll_reply t stamp);
  reply_keeps_tcs : forall stamp, keeps (fun x : S * X => q x.1) (targeted_poll_reply t stamp);
  reply_idle : forall stamp x, rq x.1 = [] -> (targeted_poll_reply t stamp x).1 <> Ok HandledOne;
  timeouts_keep : forall now, keeps (fun x : S * X => (q x.1, rq x.1)) (targeted_check_timeouts t now);
}.

Section Mounted.
Context {Q V C Sh : Type} `{SharedPart C Sh}.
Context {S E A : Type} (get : S -> PusServiceHelper Q V C) (set : PusServiceHelper Q V C -> S -> S).
Context {B : Type} (f : S -> list B) (Hf : forall e s, f (set (load e (get s)) s) = f s).

Lemma mounted_pops (m : st S E A) : pops f m -> pops (fun x => f x.1) (mounted get set m).
Proof.
  intros Hm [s e]. specialize (Hm (set (load e (get s)) s)). unfold mounted. cbn [fst snd].
  destruct (m _) as [r s1]. cbn [fst snd] in *. by rewrite Hm, Hf.
Qed.

Lemma mounted_keeps (m : st S E A) : keeps f m -> keeps (fun x => f x.1) (mounted get set m).
Proof.
  intros Hm [s e]. specialize (Hm (set (load e (get s)) s)). unfold mounted. cbn [fst snd].
  destruct (m _) as [r s1]. cbn [fst snd] in *. by rewrite Hm, Hf.
Qed.

Lemma mounted_idle (m : st S E A) a x :
  (forall s, f s = [] -> (m s).1 <> Ok a) -> f x.1 = [] -> (mounted get set m x).1 <> Ok a.
Proof.
  intros Hm Hx. specialize (Hm (set (load x.2 (get x.1)) x.1)). rewrite Hf in Hm. specialize (Hm Hx).
  unfold mounted. by destruct (m _).
Qed.

End Mounted.

Section OnEnv.
Context {Q Sh S E A B : Type} (f : S -> B) (m : st (S * Env Q Sh) E A).

Lemma on_env_result x : (on_env m x).1 = (m (x.1, x.2.1)).1.
Proof. unfold on_env. by destruct (m _) as [r [s e]]. Qed.

Lemma on_env_state x : (on_env m x).2.1 = (m (x.1, x.2.1)).2.1.
Proof. unfold on_env. by destruct (m _) as [r [s e]]. Qed.

End OnEnv.

Section ServiceLaws.
Context {PE TSE Q V C Sh T D P RL : Type} `{EcssTmSender PE Q}
  `{!VerificationReportingProvider PE V Q} `{EcssTcInMemConverter PE C} `{SharedPart C Sh}
  `{TimeOps T D} `{PoolProvider P} `{TcReleaser RL Sh}.
Context (parse : list Z -> res PE PusTc) (time_from_bytes : list Z -> res TSE (T * Z)).
Context (sched_try_from : Z -> option SchedSubservice) (event_try_from : Z -> option EventSubservice).

(** A wrapper around a handler becomes a service of the stack. *)
Lemma handler_laws {Y} (poll : list Z -> st (Handler Q V C unit Y) Empty_set HandlingStatus) :
  (forall stamp, pops handler_queue (poll stamp)) ->
  (forall stamp s, handler_queue s = [] -> (poll stamp s).1 <> Ok HandledOne) ->
  DirectLaws handler_queue (fun stamp => on_env (mounted (fun x => x.1.1) set_handler (poll stamp))).
Proof.
  intros Hp Hi. split; intros stamp x.
  - rewrite on_env_state. exact (mounted_pops _ set_handler handler_queue (fun _ _ => eq_refl) _ (Hp stamp) (x.1, x.2.1)).
  - rewrite on_env_result.
    exact (mounted_idle _ set_handler handler_queue (fun _ _ => eq_refl) _ HandledOne (x.1, x.2.1) (Hi stamp)).
Qed.

Lemma test_laws : DirectLaws handler_queue (test_ops (Q:=Q) (V:=V) (C:=C) parse).
Proof.
  apply handler_laws; intros stamp.
  - unfold TestWrapper.poll_and_handle_next_tc. apply pops_bind.
    + apply pops_attempt. apply handler_pops; [apply next_tc_pops|]. intros []; frame.
    + intros a. unfold TestWrapper.generate_test_event. frame.
  - intros s Hs. unfold TestWrapper.poll_and_handle_next_tc. rewrite (attempt_empty _ _ HandlingEmpty); [done| |done|done|done].
    by apply handler_empty.
Qed.

Lemma event_laws : DirectLaws handler_queue (event_ops (Q:=Q) (V:=V) (C:=C) parse event_try_from).
Proof.
  apply handler_laws; intros stamp.
  - unfold EventWrapper.poll_and_handle_next_tc, direct_status. apply pops_bind.
    + apply pops_attempt. apply handler_pops; [apply next_tc_pops|].
      intros []; unfold Service.handle_enable_disable_request; frame.
    + intros a. frame.
  - intros s Hs. unfold EventWrapper.poll_and_handle_next_tc, direct_status.
    rewrite (attempt_empty _ _ HandlingEmpty); [done| |done|done|done]. by apply handler_empty.
Qed.

Abbreviation sched_wrapper := (SchedulingServiceWrapper Q V C T D P RL).

Definition sched_queue (s : sched_wrapper) : list EcssTcAndToken := handler_queue (pus_11_handler s).

Lemma sched_handler_pops stamp :
  pops handler_queue (direct_status (Service.sched_poll_and_handle_next_tc (TE:=unit) log_error
    parse time_from_bytes sched_try_from stamp : st (Handler Q V C unit (PusScheduler T D * P)) _ _)).
Proof.
  unfold direct_status. apply pops_bind.
  - apply pops_attempt. apply handler_pops; [apply next_tc_pops|].
    intros []; unfold Service.sched_switch, Service.sched_expect; frame.
  - intros a. frame.
Qed.

Lemma sched_laws :
  DirectLaws sched_queue (sched_ops (T:=T) (D:=D) (P:=P) (RL:=RL) (V:=V) (C:=C) parse time_from_bytes sched_try_from).
Proof.
  split; intros stamp x.
  - unfold sched_ops. rewrite on_env_state.
    match goal with |- context [mounted ?g ?s ?m _] =>
      refine (mounted_pops g s sched_queue (fun _ _ => eq_refl) m _ (x.1, x.2.1)) end.
    intros s. unfold SchedWrapper.poll_and_handle_next_tc, SchedWrapper.on_handler, sched_queue.
    rewrite <- sched_handler_pops with (stamp := stamp). by destruct (direct_status _ _).
  - intros Hx. unfold sched_ops. rewrite on_env_result.
    match goal with |- context [mounted ?g ?s ?m _] =>
      apply (mounted_idle g s sched_queue (fun _ _ => eq_refl) m HandledOne (x.1, x.2.1)); [|exact Hx] end.
    intros s Hs. unfold SchedWrapper.poll_and_handle_next_tc, SchedWrapper.on_handler, direct_status.
    match goal with |- context [st_bind (attempt ?m) ?k ?s] =>
      pose proof (attempt_empty m k HandlingEmpty s) as He; destruct (st_bind (attempt m) k s) end.
    cbn [fst] in *. rewrite He; try done. by apply handler_empty.
Qed.

Lemma release_keeps now :
  keeps (fun x : sched_wrapper * _ => sched_queue x.1) (release_ops (Q:=Q) now).
Proof.
  intros [s [[q sh] w]]. unfold release_ops, on_env, SchedWrapper.release_tcs. cbn [fst snd].
  unfold sched_queue, handler_queue. destruct (pus_11_handler s) as [[h l] [sc p]] eqn:Hs.
  destruct (Sched.release_telecommands_with_buffer _ _ _ _ _) as [r [sc' rel]].
  destruct (Sched.rel_user rel) as [b [rl sh']]. done.
Qed.

End ServiceLaws.

(** *** Targeted services *)
Section TargetedQueues.
Context {PE Q V C CV I RH Req Rep W : Type} `{EcssTmSender PE Q}
  `{!VerificationReportingProvider PE V Q} `{EcssTcInMemConverter PE C}
  `{ActiveRequestProvider I} `{!PusTcToRequestConverter PE V Q I Req CV}
  `{!PusReplyHandler PE V Q I Rep RH} `{!PusRequestRouter Req GenericRequestRouter W}.
Context (parse : list Z -> res PE PusTc).
Abbreviation service := (PusTargetedRequestService Q V C CV I RH Rep).

Definition service_queue (s : service) : list EcssTcAndToken := tc_queue (service_helper s).

Definition reply_queue (s : service) : list (GenericMessage Rep) := queue (service_replies s).

Definition both_queues (s : service) := (service_queue s, reply_queue s).

Lemma service_reporter_keeps {E A} (m : st (V * Q) E A) :
  keeps both_queues (Targeted.on_reporter (C:=C) (CV:=CV) (I:=I) (RH:=RH) (Rep:=Rep) m).
Proof. intros s. unfold Targeted.on_reporter, Targeted.on_helper, Helper.on_reporter. by destruct (m _) as [r [v q]]. Qed.

Lemma service_converter_keeps {E A} (m : st (CV * (V * Q)) E A) :
  keeps both_queues (Targeted.on_converter (C:=C) (I:=I) (RH:=RH) (Rep:=Rep) m).
Proof. intros s. unfold Targeted.on_converter. by destruct (m _) as [r [cv [v q]]]. Qed.

Lemma service_reply_handler_keeps {E A} (m : st (RH * (V * Q)) E A) :
  keeps both_queues (Targeted.on_reply_handler (C:=C) (I:=I) (CV:=CV) (Rep:=Rep) m).
Proof. intros s. unfold Targeted.on_reply_handler. by destruct (m _) as [r [rh [v q]]]. Qed.

Lemma service_map_keeps {E A} (m : st (gmap Z I) E A) :
  keeps both_queues (Targeted.on_map (Q:=Q) (V:=V) (C:=C) (CV:=CV) (RH:=RH) (Rep:=Rep) m).
Proof. intros s. unfold Targeted.on_map. by destruct (m _). Qed.

#[local] Hint Resolve service_reporter_keeps service_converter_keeps service_reply_handler_keeps
  service_map_keeps : frame.

Lemma conversion_error_keeps {E} e token stamp :
  keeps both_queues (Targeted.handle_conversion_to_request_error (C:=C) (CV:=CV) (I:=I) (RH:=RH) (Rep:=Rep)
    (PE:=PE) (E:=E) e token stamp).
Proof. unfold Targeted.handle_conversion_to_request_error. frame. Qed.

#[local] Hint Resolve conversion_error_keeps : frame.

Lemma keeps_both {S E A B1 B2} (f : S -> B1) (g : S -> B2) (m : st S E A) :
  keeps (fun s => (f s, g s)) m -> keeps f m /\ keeps g m.
Proof. intros Hm. split; intros s; specialize (Hm s); by injection Hm. Qed.

Definition world_queues (x : service * W) := both_queues x.1.

Lemma service_world_keeps {E A} (m : st service E A) :
  keeps both_queues m -> keeps world_queues (on_fst m).
Proof. apply (keeps_on_fst both_queues). Qed.

Lemma world_keeps {E A} (m : st W E A) : keeps world_queues (on_snd m).
Proof. apply (keeps_fst_on_snd both_queues). Qed.

#[local] Hint Resolve service_world_keeps world_keeps : frame.

(** A telecommand is received; the rest leaves the queues alone. *)
Lemma service_tc_split stamp now :
  exists k : _ -> st (service * W) (PusPacketHandlingError PE) HandlingStatus,
    Targeted.poll_and_handle_next_tc parse stamp now =
      st_bind (on_fst (Targeted.on_helper (Helper.next_tc parse))) k /\
    (forall p, keeps world_queues (k p)) /\ forall x, (k None x).1 = Ok HandlingEmpty.
Proof.
  eexists. split; [reflexivity|]. split; [|done]. intros [[token tc]|]; [|frame]. frame.
Qed.

Lemma service_helper_pops {E A} (m : st (PusServiceHelper Q V C) E A) :
  pops tc_queue m -> pops service_queue (Targeted.on_helper (CV:=CV) (I:=I) (RH:=RH) (Rep:=Rep) m).
Proof. intros Hm s. specialize (Hm (service_helper s)). unfold Targeted.on_helper. by destruct (m _). Qed.

Lemma service_helper_replies {E A} (m : st (PusServiceHelper Q V C) E A) :
  keeps reply_queue (Targeted.on_helper (CV:=CV) (I:=I) (RH:=RH) (Rep:=Rep) m).
Proof. intros s. unfold Targeted.on_helper. by destruct (m _). Qed.

Lemma service_helper_empty {E A} (m : st (PusServiceHelper Q V C) E A) a :
  on_empty tc_queue a m -> on_empty service_queue a (Targeted.on_helper (CV:=CV) (I:=I) (RH:=RH) (Rep:=Rep) m).
Proof. intros Hm s Hs. specialize (Hm (service_helper s) Hs). unfold Targeted.on_helper. by destruct (m _). Qed.

Lemma keeps_world {E A} (m : st (service * W) E A) :
  keeps world_queues m ->
  keeps (fun x => service_queue x.1) m /\ keeps (fun x => reply_queue x.1) m.
Proof. apply keeps_both. Qed.

Lemma service_tc_pops stamp now :
  pops (fun x : service * W => service_queue x.1) (Targeted.poll_and_handle_next_tc parse stamp now).
Proof.
  destruct (service_tc_split stamp now) as (k & -> & Hk & _). apply pops_bind; [|intros p; apply keeps_world, Hk].
  apply pops_on_fst, service_helper_pops, next_tc_pops.
Qed.

Lemma service_tc_keeps stamp now :
  keeps (fun x : service * W => reply_queue x.1) (Targeted.poll_and_handle_next_tc parse stamp now).
Proof.
  destruct (service_tc_split stamp now) as (k & -> & Hk & _). apply keeps_st_bind; [|intros p; apply keeps_world, Hk].
  apply keeps_on_fst, service_helper_replies.
Qed.

Lemma service_tc_empty stamp now :
  on_empty (fun x : service * W => service_queue x.1) HandlingEmpty
    (Targeted.poll_and_handle_next_tc parse stamp now).
Proof.
  destruct (service_tc_split stamp now) as (k & -> & _ & Hn). eapply on_empty_bind; [|exact Hn].
  apply on_empty_on_fst, service_helper_empty, next_tc_empty.
Qed.

(** A reply is received; handling it leaves the queues alone. *)
Lemma service_reply_split stamp :
  exists k : _ -> st service (EcssTmtcError PE) HandlingStatus,
    Targeted.poll_and_handle_next_reply (PE:=PE) stamp =
      st_bind (attempt (Targeted.on_replies (C:=C) (CV:=CV) Channel.try_recv)) k /\
    (forall p, keeps both_queues (k p)).
Proof.
  eexists. split; [reflexivity|]. intros [reply|[]|]; unfold Targeted.handle_reply; frame.
Qed.

Lemma service_reply_pops stamp :
  pops reply_queue (Targeted.poll_and_handle_next_reply (PE:=PE) (C:=C) (CV:=CV) stamp).
Proof.
  destruct (service_reply_split stamp) as (k & -> & Hk).
  apply pops_bind; [|intros p; by apply (keeps_both service_queue reply_queue)].
  apply pops_attempt. intros s. unfold Targeted.on_replies, Channel.try_recv, reply_queue.
  destruct (queue (service_replies s)) eqn:Hq; [destruct (tx_alive _)|]; cbn [fst snd service_replies tail]; by rewrite ?Hq.
Qed.

Lemma service_reply_keeps_tcs stamp :
  keeps service_queue (Targeted.poll_and_handle_next_reply (PE:=PE) (C:=C) (CV:=CV) stamp).
Proof.
  destruct (service_reply_split stamp) as (k & -> & Hk).
  apply keeps_st_bind; [|intros p; by apply (keeps_both service_queue reply_queue)].
  apply keeps_attempt. intros s. unfold Targeted.on_replies. by destruct (Channel.try_recv _).
Qed.

Lemma service_reply_empty stamp :
  on_empty reply_queue HandlingEmpty (Targeted.poll_and_handle_next_reply (PE:=PE) (C:=C) (CV:=CV) stamp).
Proof.
  intros s Hs. unfold reply_queue in Hs. unfold Targeted.poll_and_handle_next_reply, st_bind, attempt, Targeted.on_replies, Channel.try_recv.
  rewrite Hs. destruct (tx_alive _); [by left|by right].
Qed.

Lemma service_timeouts_keep {E} now :
  keeps both_queues (Targeted.check_for_request_timeouts (Q:=Q) (V:=V) (C:=C) (CV:=CV) (RH:=RH) (Rep:=Rep) (E:=E) now).
Proof. apply service_map_keeps. Qed.

End TargetedQueues.

Section TargetedServiceLaws.
Context {PE Q V C Sh CV I RH Req Rep : Type} `{EcssTmSender PE Q}
  `{!VerificationReportingProvider PE V Q} `{EcssTcInMemConverter PE C} `{SharedPart C Sh}
  `{ActiveRequestProvider I} `{!PusTcToRequestConverter PE V Q I Req CV}
  `{!PusReplyHandler PE V Q I Rep RH} `{!PusRequestRouter Req GenericRequestRouter World}.
Context (parse : list Z -> res PE PusTc).
Abbreviation service := (PusTargetedRequestService Q V C CV I RH Rep).

Abbreviation wget := (fun y : service * World => service_helper y.1).
Abbreviation wset := (fun h (y : service * World) => (set_service_helper h y.1, y.2)).

(** The default handlers. *)
Lemma default_pops {S E B} (f : S -> list B) (m : st S E HandlingStatus) :
  pops f m ->
  pops f (let* r := attempt (F:=Empty_set) m in match r with Ok s => ret s | _ => ret HandlingEmpty end).
Proof. intros Hm. apply pops_bind; [by apply pops_attempt|]. intros []; frame. Qed.

Lemma default_keeps {S E B} (f : S -> B) (m : st S E HandlingStatus) :
  keeps f m ->
  keeps f (let* r := attempt (F:=Empty_set) m in match r with Ok s => ret s | _ => ret HandlingEmpty end).
Proof. intros Hm. frame. Qed.

Lemma default_idle {S E B} (f : S -> list B) (m : st S E HandlingStatus) s :
  on_empty f HandlingEmpty m -> f s = [] ->
  ((let* r := attempt (F:=Empty_set) m in match r with Ok s => ret s | _ => ret HandlingEmpty end) s).1 <>
    Ok HandledOne.
Proof.
  intros Hm Hs. specialize (Hm s Hs). unfold st_bind, attempt.
  destruct (m s) as [[[]|e|] s1]; cbn in *; destruct Hm; congruence.
Qed.

(** A call with the request queues, as a service of the stack. *)
Lemma world_state {B} (f : service -> B) (m : st (service * World) Empty_set HandlingStatus)
    (x : service * (Env Q Sh * World)) :
  let y := mounted wget wset m
             ((x.1, x.2.2), x.2.1) in
  let z := (let '(r, ((s, w), e)) := y in (r, (s, (e, w)))) in
  z.1 = y.1 /\ f z.2.1 = f y.2.1.1.
Proof. cbv zeta. by destruct (mounted _ _ _ _) as [r [[s w] e]]. Qed.

Lemma targeted_laws : TargetedLaws service_queue reply_queue (targeted_ops (C:=C) (Sh:=Sh) parse : TargetedPusService service _).
Proof.
  split.
  - intros stamp now x. destruct (world_state service_queue
      (Targeted.poll_and_handle_next_tc_default_handler parse stamp now) x) as [_ Hs]. etransitivity; [exact Hs|].
    refine (mounted_pops wget wset (fun y : service * World => service_queue y.1) (fun _ _ => eq_refl) _ _ ((x.1, x.2.2), x.2.1)).
    apply default_pops, service_tc_pops.
  - intros stamp now x. destruct (world_state reply_queue
      (Targeted.poll_and_handle_next_tc_default_handler parse stamp now) x) as [_ Hs]. etransitivity; [exact Hs|].
    refine (mounted_keeps wget wset (fun y : service * World => reply_queue y.1) (fun _ _ => eq_refl) _ _ ((x.1, x.2.2), x.2.1)).
    apply default_keeps, service_tc_keeps.
  - intros stamp now x Hx. destruct (world_state service_queue
      (Targeted.poll_and_handle_next_tc_default_handler parse stamp now) x) as [Hr _].
    cbn [targeted_poll_tc targeted_ops]. rewrite Hr.
    refine (mounted_idle wget wset (fun y : service * World => service_queue y.1) (fun _ _ => eq_refl) _ _ ((x.1, x.2.2), x.2.1) _ Hx).
    intros s Hs. by apply (default_idle (fun y : service * World => service_queue y.1)); [apply service_tc_empty|].
  - intros stamp x. cbn [targeted_poll_reply targeted_ops]. rewrite on_env_state.
    refine (mounted_pops service_helper set_service_helper reply_queue (fun _ _ => eq_refl) _ _ (x.1, x.2.1)).
    apply default_pops, service_reply_pops.
  - intros stamp x. cbn [targeted_poll_reply targeted_ops]. rewrite on_env_state.
    refine (mounted_keeps service_helper set_service_helper service_queue (fun _ _ => eq_refl) _ _ (x.1, x.2.1)).
    apply default_keeps, service_reply_keeps_tcs.
  - intros stamp x Hx. cbn [targeted_poll_reply targeted_ops]. rewrite on_env_result.
    refine (mounted_idle service_helper set_service_helper reply_queue (fun _ _ => eq_refl) _ _ (x.1, x.2.1) _ Hx).
    intros s Hs. by apply (default_idle reply_queue); [apply service_reply_empty|].
  - intros now x. cbn [targeted_check_timeouts targeted_ops]. rewrite !on_env_state.
    refine (keeps_on_fst both_queues _ _ (x.1, x.2.1)). apply service_timeouts_keep.
Qed.

End TargetedServiceLaws.

(** ** Rounds of the stack *)
Section StackRounds.
Context {T Test Hk Event Action Sched Mode X RepA RepH RepM : Type}.
Context (ops : StackOps T Test Hk Event Action Sched Mode X).
Context (qt : Test -> list EcssTcAndToken) (qs : Sched -> list EcssTcAndToken)
  (qe : Event -> list EcssTcAndToken) (qa : Action -> list EcssTcAndToken)
  (qh : Hk -> list EcssTcAndToken) (qm : Mode -> list EcssTcAndToken)
  (ra : Action -> list (GenericMessage RepA)) (rh : Hk -> list (GenericMessage RepH))
  (rm : Mode -> list (GenericMessage RepM)).
Context (test_ok : DirectLaws qt (ops_test ops)) (sched_ok : DirectLaws qs (ops_sched ops))
  (event_ok : DirectLaws qe (ops_event ops)) (action_ok : TargetedLaws qa ra (ops_action ops))
  (hk_ok : TargetedLaws qh rh (ops_hk ops)) (mode_ok : TargetedLaws qm rm (ops_mode ops)).
Context (release_ok : forall t, keeps (fun x : Sched * X => qs x.1) (ops_release ops t)).
Context (now timeout_now : Z -> Z -> Z).
Abbreviation stack := (PusStack Test Hk Event Action Sched Mode).
Implicit Types k : stack.

(** [n] messages were taken off each of the nine queues. *)
Definition advanced (n : nat) k k' : Prop :=
  (qt (test_srv k') = drop n (qt (test_srv k)) /\
   qs (schedule_srv k') = drop n (qs (schedule_srv k)) /\
   qe (event_srv k') = drop n (qe (event_srv k)) /\
   qa (action_srv_wrapper k') = drop n (qa (action_srv_wrapper k)) /\
   qh (hk_srv_wrapper k') = drop n (qh (hk_srv_wrapper k)) /\
   qm (mode_srv k') = drop n (qm (mode_srv k))) /\
  ra (action_srv_wrapper k') = drop n (ra (action_srv_wrapper k)) /\
  rh (hk_srv_wrapper k') = drop n (rh (hk_srv_wrapper k)) /\
  rm (mode_srv k') = drop n (rm (mode_srv k)).

(** The length of the longest queue. *)
Definition longest k : nat :=
  foldr Nat.max O
    [length (qt (test_srv k)); length (qs (schedule_srv k)); length (qe (event_srv k));
     length (qa (action_srv_wrapper k)); length (qh (hk_srv_wrapper k)); length (qm (mode_srv k));
     length (ra (action_srv_wrapper k)); length (rh (hk_srv_wrapper k)); length (rm (mode_srv k))].

Lemma advanced_trans n n' k k1 k2 : advanced n k k1 -> advanced n' k1 k2 -> advanced (n + n') k k2.
Proof.
  unfold advanced. rewrite <- !drop_drop. intros (? & ? & ? & ?) (? & ? & ? & ?).
  repeat match goal with H : _ /\ _ |- _ => destruct H end. by split_and!; congruence.
Qed.

Lemma max_zero l : foldr Nat.max O l = O -> Forall (eq O) l.
Proof. induction l as [|n l IH]; cbn; intros Hz; constructor; [lia|]. apply IH. lia. Qed.

Lemma max_sub n l : foldr Nat.max O ((fun i => (i - n)%nat) <$> l) = (foldr Nat.max O l - n)%nat.
Proof. induction l as [|i l IH]; [done|]. cbn. rewrite IH. lia. Qed.

Lemma advanced_longest n k k' : advanced n k k' -> longest k' = (longest k - n)%nat.
Proof.
  unfold advanced, longest. intros ((-> & -> & -> & -> & -> & ->) & -> & -> & ->).
  rewrite !length_drop. apply (max_sub n [_; _; _; _; _; _; _; _; _]).
Qed.

Lemma longest_zero k : longest k = O ->
  (qt (test_srv k) = [] /\ qs (schedule_srv k) = [] /\ qe (event_srv k) = [] /\
   qa (action_srv_wrapper k) = [] /\ qh (hk_srv_wrapper k) = [] /\ qm (mode_srv k) = []) /\
  ra (action_srv_wrapper k) = [] /\ rh (hk_srv_wrapper k) = [] /\ rm (mode_srv k) = [].
Proof.
  intros Hz. apply max_zero in Hz. rewrite !Forall_cons in Hz.
  repeat match goal with H : _ /\ _ |- _ => destruct H end.
  split_and!; by apply length_zero_iff_nil.
Qed.

Lemma tail_drop {A} (l : list A) : tail l = drop 1 l.
Proof. by destruct l. Qed.

(** A pass over one service. *)
Lemma direct_checker_spec {S} (get : stack -> S) set (q : S -> list EcssTcAndToken)
    (d : DirectPusService S X) (L : DirectLaws q d) stamp b k x b' k' x' :
  Stack.direct_service_checker (Stack.on_part get set (d stamp)) b (k, x) = (Ok b', (k', x')) ->
  exists s, k' = set s k /\ q s = drop 1 (q (get k)) /\ (q (get k) = [] -> b' = b).
Proof.
  unfold Stack.direct_service_checker, Stack.on_part, st_bind, ret. cbn [fst snd].
  pose proof (direct_pops _ _ L stamp (get k, x)) as Hp. pose proof (direct_idle _ _ L stamp (get k, x)) as Hi.
  destruct (d stamp (get k, x)) as [[r|[]|] [s e]]; [|done]. cbn [fst snd] in *.
  intros Hb. injection Hb as <- <- <-. exists s. rewrite <- tail_drop. split_and!; [done|done|].
  intros Hq. specialize (Hi Hq). by destruct r.
Qed.

Lemma targeted_checker_spec {S Rep} (get : stack -> S) set (q : S -> list EcssTcAndToken)
    (rq : S -> list (GenericMessage Rep)) (t : TargetedPusService S X) (L : TargetedLaws q rq t)
    stamp n b k x b' k' x' :
  (forall s k, get (set s k) = s) -> (forall s s' k, set s' (set s k) = set s' k) ->
  Stack.targeted_service_checker (Stack.on_part get set (targeted_poll_tc t stamp n))
    (Stack.on_part get set (targeted_poll_reply t stamp)) b (k, x) = (Ok b', (k', x')) ->
  exists s, k' = set s k /\ q s = drop 1 (q (get k)) /\ rq s = drop 1 (rq (get k)) /\
    (q (get k) = [] -> rq (get k) = [] -> b' = b).
Proof.
  intros Hgs Hss. unfold Stack.targeted_service_checker, Stack.on_part, st_bind, ret. cbn [fst snd].
  pose proof (tc_pops _ _ _ L stamp n (get k, x)) as Hp. pose proof (tc_idle _ _ _ L stamp n (get k, x)) as Hi.
  pose proof (tc_keeps_replies _ _ _ L stamp n (get k, x)) as Hke.
  destruct (targeted_poll_tc t stamp n (get k, x)) as [[r|[]|] [s e]]; [|done]. cbn [fst snd] in *. rewrite Hgs.
  pose proof (reply_pops _ _ _ L stamp (s, e)) as Hp'. pose proof (reply_idle _ _ _ L stamp (s, e)) as Hi'.
  pose proof (reply_keeps_tcs _ _ _ L stamp (s, e)) as Hke'.
  destruct (targeted_poll_reply t stamp (s, e)) as [[r'|[]|] [s' e']]; [|done]. cbn [fst snd] in *.
  intros Hb. injection Hb as <- <- <-. exists s'. rewrite <- !tail_drop. split_and!; [apply Hss|congruence|congruence|].
  intros Hq Hr. specialize (Hi Hq). rewrite Hke in Hi'. specialize (Hi' Hr). by destruct r, r'.
Qed.

Lemma bind_ok_inv {S E A B} (m : st S E A) (f : A -> st S E B) s b s' :
  st_bind m f s = (Ok b, s') -> exists a s1, m s = (Ok a, s1) /\ f a s1 = (Ok b, s').
Proof. unfold st_bind. destruct (m s) as [[a|e|] s1]; intros Hb; [eauto|done|done]. Qed.

(** One pass over the services. *)
Lemma round_spec stamp c k x b k' x' :
  Stack.round ops now stamp c (k, x) = (Ok b, (k', x')) ->
  advanced 1 k k' /\ (longest k = O -> b = true).
Proof.
  intros Hr. unfold Stack.round in Hr.
  apply bind_ok_inv in Hr as (b1 & [k1 x1] & H1 & Hr). apply bind_ok_inv in Hr as (b2 & [k2 x2] & H2 & Hr).
  apply bind_ok_inv in Hr as (b3 & [k3 x3] & H3 & Hr). apply bind_ok_inv in Hr as (b4 & [k4 x4] & H4 & Hr).
  apply bind_ok_inv in Hr as (b5 & [k5 x5] & H5 & H6).
  apply (direct_checker_spec _ _ _ _ test_ok) in H1 as (s1 & -> & Hq1 & Hb1).
  apply (direct_checker_spec _ _ _ _ sched_ok) in H2 as (s2 & -> & Hq2 & Hb2).
  apply (direct_checker_spec _ _ _ _ event_ok) in H3 as (s3 & -> & Hq3 & Hb3).
  apply (targeted_checker_spec _ _ _ _ _ action_ok) in H4 as (s4 & -> & Hq4 & Hr4 & Hb4); [|done|done].
  apply (targeted_checker_spec _ _ _ _ _ hk_ok) in H5 as (s5 & -> & Hq5 & Hr5 & Hb5); [|done|done].
  apply (targeted_checker_spec _ _ _ _ _ mode_ok) in H6 as (s6 & -> & Hq6 & Hr6 & Hb6); [|done|done].
  split; [by split_and!|]. intros Hz.
  apply longest_zero in Hz as ((Z1 & Z2 & Z3 & Z4 & Z5 & Z6) & Z7 & Z8 & Z9).
  by rewrite Hb6, Hb5, Hb4, Hb3, Hb2, Hb1.
Qed.

(** The check for timeouts leaves the queues alone. *)
Lemma timeouts_part {S Rep B} (get : stack -> S) set (q : S -> list EcssTcAndToken)
    (rq : S -> list (GenericMessage Rep)) (t : TargetedPusService S X) (L : TargetedLaws q rq t) n (f : stack -> B) :
  (forall s k, q s = q (get k) -> rq s = rq (get k) -> f (set s k) = f k) ->
  keeps (fun x : stack * X => f x.1) (Stack.on_part get set (targeted_check_timeouts t n)).
Proof.
  intros Hf [k x]. pose proof (timeouts_keep _ _ _ L n (get k, x)) as Hke. unfold Stack.on_part. cbn [fst snd].
  destruct (targeted_check_timeouts t n (get k, x)) as [r [s e]]. cbn [fst snd] in *.
  injection Hke as Hq Hr. by apply Hf.
Qed.

Lemma check_timeouts_spec k x k' x' :
  Stack.check_timeouts ops timeout_now (k, x) = (Ok tt, (k', x')) -> advanced 0 k k'.
Proof.
  intros Hc. set (f k := ((qt (test_srv k), qs (schedule_srv k), qe (event_srv k)),
    (qa (action_srv_wrapper k), qh (hk_srv_wrapper k), qm (mode_srv k)),
    (ra (action_srv_wrapper k), rh (hk_srv_wrapper k), rm (mode_srv k)))).
  assert (Hke : keeps (fun x : stack * X => f x.1) (Stack.check_timeouts ops timeout_now)).
  { unfold Stack.check_timeouts. apply keeps_st_bind; [|intros _; apply keeps_st_bind; [|intros _]].
    - apply (timeouts_part _ _ _ _ _ action_ok). intros s k0 Hq Hr. unfold f. cbn. by rewrite Hq, Hr.
    - apply (timeouts_part _ _ _ _ _ hk_ok). intros s k0 Hq Hr. unfold f. cbn. by rewrite Hq, Hr.
    - apply (timeouts_part _ _ _ _ _ mode_ok). intros s k0 Hq Hr. unfold f. cbn. by rewrite Hq, Hr. }
  specialize (Hke (k, x)). rewrite Hc in Hke. unfold f in Hke. injection Hke. unfold advanced. rewrite !drop_0.
  intros. by split_and!.
Qed.

Lemma loop_count_ok {E} (c : nat) : (c < 500)%nat -> checked_add (E:=E) 32 (Z.of_nat c) 1 = Ok (Z.of_nat (S c)).
Proof.
  intros Hc. unfold checked_add. destruct (Z.ltb_spec (Z.of_nat c + 1) (2 ^ 32)); [f_equal; lia|].
  change (2 ^ 32) with 4294967296 in *. lia.
Qed.

(** The guard on the number of rounds ends the loop before the fuel does. *)
Lemma loop_fuel stamp (fuel fuel' c : nat) y :
  (c < 500)%nat -> (500 - c <= fuel)%nat -> (500 - c <= fuel')%nat ->
  Stack.stack_loop ops now timeout_now fuel stamp (Z.of_nat c) y =
  Stack.stack_loop ops now timeout_now fuel' stamp (Z.of_nat c) y.
Proof.
  revert fuel' c y. induction fuel as [|fuel IH]; intros fuel' c y Hc Hf Hf'; [lia|].
  destruct fuel' as [|fuel']; [lia|]. cbn [Stack.stack_loop]. unfold st_bind, lift.
  destruct (Stack.round _ _ _ _ _) as [[b|e|] y1]; [|done|done]. destruct b; [done|].
  rewrite loop_count_ok by done.
  destruct (Z.leb_spec 500 (Z.of_nat (S c))); [done|]. apply IH; lia.
Qed.

Lemma loop_spec stamp (fuel c : nat) k x r k' x' :
  (c < 500)%nat -> (500 - c <= fuel)%nat ->
  Stack.stack_loop ops now timeout_now fuel stamp (Z.of_nat c) (k, x) = (Ok r, (k', x')) ->
  r = Some tt /\ exists n, (1 <= n <= 500 - c)%nat /\ (n <= S (longest k))%nat /\ advanced n k k' /\
    ((n < 500 - c)%nat -> exists y, Stack.check_timeouts ops timeout_now y = (Ok tt, (k', x'))).
Proof.
  revert c k x. induction fuel as [|fuel IH]; intros c k x Hc Hf; [lia|].
  cbn [Stack.stack_loop]. intros Hl. apply bind_ok_inv in Hl as (b & [k1 x1] & Hr & Hl).
  destruct (round_spec _ _ _ _ _ _ _ Hr) as [Ha Hi]. destruct b.
  - apply bind_ok_inv in Hl as ([] & y & Ht & Hl). injection Hl as <- ->. split; [done|]. exists 1%nat.
    split_and!; [lia|lia|lia| |intros _; by exists (k1, x1)].
    apply (advanced_trans 1 0 k k1); [done|]. by apply check_timeouts_spec in Ht.
  - assert (Hz : longest k <> O) by (intros Hz; by specialize (Hi Hz)).
    apply bind_ok_inv in Hl as (c' & y & Hc' & Hl). unfold lift in Hc'. rewrite loop_count_ok in Hc' by done.
    injection Hc' as <- <-. destruct (Z.leb_spec 500 (Z.of_nat (S c))) as [H5|H5].
    + injection Hl as <- <- <-. split; [done|]. exists 1%nat. split_and!; [lia|lia|lia|done|lia].
    + destruct (IH (S c) k1 x1) as (-> & n & Hn & Hs & Hn' & Ht); [lia|lia|exact Hl|].
      split; [done|]. exists (S n). rewrite (advanced_longest 1 k k1 Ha) in Hs.
      split_and!; [lia|lia|lia|by apply (advanced_trans 1 n k k1)|]. intros. apply Ht. lia.
Qed.

Lemma periodic_spec stamp t extra k x :
  Stack.periodic_operation ops now timeout_now (500 + extra) t stamp (k, x) =
    Stack.periodic_operation ops now timeout_now 500 t stamp (k, x) /\
  match Stack.periodic_operation ops now timeout_now 500 t stamp (k, x) with
  | (Ok r, (k', x')) =>
      r = Some tt /\ exists n, (1 <= n <= 500)%nat /\ (n <= S (longest k))%nat /\ advanced n k k' /\
        ((n < 500)%nat -> exists y, Stack.check_timeouts ops timeout_now y = (Ok tt, (k', x')))
  | (_, _) => True
  end.
Proof.
  unfold Stack.periodic_operation. unfold st_bind. split.
  - destruct (Stack.on_part _ _ _ _) as [[[]|e|] y]; [|done|done]. apply (loop_fuel stamp _ _ 0); lia.
  - unfold Stack.on_part at 1. cbn [fst snd]. pose proof (release_ok t (schedule_srv k, x)) as Hq.
    destruct (ops_release ops t (schedule_srv k, x)) as [[[]|e|] [s e1]]; [|done|done]. cbn [fst snd] in *.
    destruct (Stack.stack_loop _ _ _ _ _ _ _) as [[r|e|] [k' x']] eqn:Hl; [|done|done].
    destruct (loop_spec stamp 500 0 (Stack.set_sched s k) e1 r k' x') as (-> & n & Hn); [lia|lia|exact Hl|].
    unfold longest, advanced in *. cbn [schedule_srv Stack.set_sched] in Hn. rewrite Hq in Hn.
    split; [done|]. by exists n.
Qed.

End StackRounds.

(** ** The release of telecommands *)
Section Release.
Context {T D : Type} `{TO : TimeOps T D} `{TL : !TimeLaws T D}.
Context {P : Type} `{PP : PoolProvider P} `{PS : !PoolSpec P} {Sh : Type}.
Implicit Types (p : P) (m : gmap Z (list Z)) (rl : channel PacketAsVec) (sh : Sh).

(** The buffer handed to the releaser starts with the packet. *)
Definition carries (size : Z) (d buf : list Z) : Prop := take (length d) buf = d /\ len buf = size.

Lemma vec_releaser_run id en rl sh i tc :
  rx_alive rl = true ->
  SchedWrapper.releaser (RL:=channel PacketAsVec) id (false, (rl, sh)) en i tc =
    (true, (false, (Channel.set_queue (queue rl ++ if en then [mkPacketAsVec id tc] else []) rl, sh))).
Proof.
  intros Ha. unfold SchedWrapper.releaser, tc_release, vec_releaser. destruct en.
  - unfold st_bind, on_fst, Service.expect_st, Channel.send. cbn [fst snd]. by rewrite Ha.
  - cbn. rewrite app_nil_r. by destruct rl.
Qed.

Lemma release_buf_loop id en l n buf rl sh p m :
  pool_rep p m -> stored l m -> (forall i d, i ∈ l -> m !! addr i = Some d -> len d <= len buf) ->
  rx_alive rl = true ->
  exists bufs buf' p',
    Sched.release_loop (SchedWrapper.releaser (RL:=channel PacketAsVec) id) en l n None
      (Sched.mkRelease (Some buf) (false, (rl, sh)) p) =
    (Ok (n + len l, None),
     Sched.mkRelease (Some buf')
       (false, (Channel.set_queue (queue rl ++ if en then mkPacketAsVec id <$> bufs else []) rl, sh)) p') /\
    len buf' = len buf /\ pool_rep p' (drop_addrs l m) /\
    Forall2 (fun i b => carries (len buf) (default [] (m !! addr i)) b) l bufs.
Proof.
  revert n buf rl p m. induction l as [|i l IH]; intros n buf rl p m Hrep Hst Hfit Ha.
  - exists [], buf, p. cbn. rewrite Z.add_0_r. split_and!; [|done|done|constructor].
    destruct en; cbn; rewrite app_nil_r; by destruct rl.
  - destruct (stored_cons _ _ _ Hst) as [[d Hd] Hst'].
    assert (Hlen : len d <= len buf) by (apply (Hfit i); [set_solver|done]).
    set (b := d ++ drop (length d) buf).
    assert (Hb : len b = len buf) by (unfold b; rewrite len_app; unfold len in *; rewrite length_drop; lia).
    destruct (pool_delete_some p m (addr i) d Hrep Hd) as (p1 & Hdel & Hrep1).
    set (rl1 := Channel.set_queue (queue rl ++ if en then [mkPacketAsVec id b] else []) rl).
    destruct (IH (n + 1) b rl1 p1 _ Hrep1 Hst') as (bufs & buf' & p' & Hrun & Hl' & Hrep' & Hbufs); [|done|].
    { intros j dj Hj Hmj. rewrite Hb. apply (Hfit j); [set_solver|]. by apply lookup_delete_Some in Hmj as [_ ?]. }
    exists (b :: bufs), buf', p'. split_and!; [|congruence|done|].
    + cbn [Sched.release_loop]. unfold st_bind, st_map_err, Sched.fetch, Sched.call_releaser.
      cbn [Sched.rel_buf Sched.rel_pool Sched.rel_user]. rewrite (pool_read_some p m (addr i) d buf Hrep Hd).
      destruct (Z.ltb_spec (len buf) (len d)); [lia|]. fold b. cbn [map_err Sched.rel_buf Sched.rel_pool Sched.rel_user].
      rewrite vec_releaser_run by done. fold rl1. unfold attempt, Sched.on_pool. cbn [Sched.rel_pool Sched.rel_buf Sched.rel_user].
      rewrite Hdel. rewrite Hrun, len_cons. do 2 f_equal; [f_equal; lia|].
      unfold rl1. destruct en; cbn [queue Channel.set_queue]; [by rewrite <- app_assoc|by rewrite !app_nil_r].
    + constructor.
      * rewrite Hd. split; [|done]. unfold b. cbn [default]. by rewrite take_app_length.
      * rewrite <- Hb. apply Forall2_same_length_lookup in Hbufs as [Hsl Hbufs]. apply Forall2_same_length_lookup.
        split; [done|]. intros k j bj Hj Hbj. specialize (Hbufs k j bj Hj Hbj). rewrite lookup_delete_ne in Hbufs; [done|].
        intros Heq. destruct Hst as [Hnd _]. apply NoDup_cons in Hnd as [Hni _]. apply Hni. rewrite Heq.
        apply list_elem_of_fmap. exists j. split; [done|]. by eapply list_elem_of_lookup_2.
Qed.

End Release.

(** * Properties *)

(** C26: A period of the PUS stack of the example, with any reporter, converter,
    pool and releaser.  The loop ends within 500 rounds: the fuel of 500 is enough,
    more changes nothing.  When the period ends without a panic, there were [n]
    rounds, at least one and at most one more than the longest of the nine queues
    of the services: every queue, of telecommands and of replies, lost exactly its
    first [n] messages, so that all services are served in turn and the first
    message of each is always handled.  Unless the loop was cut off at 500 rounds,
    the check for timeouts was the last thing it did. *)
Theorem stack_rounds_correct {PE TSE Q V C Sh T D P RL} `{EcssTmSender PE Q}
    `{!VerificationReportingProvider PE V Q} `{EcssTcInMemConverter PE C} `{SharedPart C Sh}
    `{TimeOps T D} `{PoolProvider P} `{TcReleaser RL Sh} `{EcssEnumOps} `{HeaderOps} `{PacketIdOps}
    `{HkSubserviceOps} (parse : list Z -> res PE PusTc) (time_from_bytes : list Z -> res TSE (T * Z))
    (sched_try_from : Z -> option SchedSubservice) (event_try_from : Z -> option EventSubservice)
    (now timeout_now : Z -> Z -> Z) (extra : nat) (t : T) (stamp : list Z) k x :
  let ops := example_ops (V:=V) (C:=C) (P:=P) (RL:=RL) parse time_from_bytes sched_try_from event_try_from in
  let queued := longest handler_queue sched_queue handler_queue service_queue service_queue service_queue
                  reply_queue reply_queue reply_queue in
  let lost := advanced handler_queue sched_queue handler_queue service_queue service_queue service_queue
                reply_queue reply_queue reply_queue in
  Stack.periodic_operation ops now timeout_now (500 + extra) t stamp (k, x) =
    Stack.periodic_operation ops now timeout_now 500 t stamp (k, x) /\
  match Stack.periodic_operation ops now timeout_now 500 t stamp (k, x) with
  | (Ok r, (k', x')) =>
      r = Some tt /\ exists n, (1 <= n <= 500)%nat /\ (n <= S (queued k))%nat /\ lost n k k' /\
        ((n < 500)%nat -> exists y, Stack.check_timeouts ops timeout_now y = (Ok tt, (k', x')))
  | (_, _) => True
  end.
Proof.
  apply periodic_spec; cbn [ops_test ops_sched ops_event ops_action ops_hk ops_mode ops_release example_ops].
  - apply test_laws.
  - apply sched_laws.
  - apply event_laws.
  - apply targeted_laws.
  - apply targeted_laws.
  - apply targeted_laws.
  - intros. apply release_keeps.
Qed.

(** Releasing telecommands to the queue of the telecommand source: exactly the
    telecommands that are due leave the schedule and the pool of the scheduler.  If
    the scheduler is enabled they are sent in order of their release time, under
    the component ID of the scheduling service, otherwise they are dropped.  What is
    sent is the whole buffer of the releaser, with the packet at its front; a packet
    may be as long as the buffer. *)
Theorem release_tcs_correct {Q V C T D P Sh} `{TO : TimeOps T D} `{TL : !TimeLaws T D}
    `{PP : PoolProvider P} `{PS : !PoolSpec P}
    (s : SchedulingServiceWrapper Q V C T D P (channel PacketAsVec)) h log sc p m (sh : Sh) (now : T) :
  pus_11_handler s = (h, log, (sc, p)) -> pool_rep p m -> sched_inv sc m ->
  let l := due (Sched.update_time now sc) in
  (forall i d, i ∈ l -> m !! addr i = Some d -> len d <= len (releaser_buf s)) ->
  rx_alive (tc_releaser s) = true ->
  exists bufs s' sc' p',
    SchedWrapper.release_tcs now (s, sh) = (Ok tt, (s', sh)) /\
    pus_11_handler s' = (h, log, (sc', p')) /\
    queue (tc_releaser s') = queue (tc_releaser s) ++
      (if enabled sc then mkPacketAsVec (helper_id h) <$> bufs else []) /\
    Forall2 (fun i b => carries (len (releaser_buf s)) (default [] (m !! addr i)) b) l bufs /\
    scheduled sc = l ++ scheduled sc' /\
    pool_rep p' (drop_addrs l m) /\ sched_inv sc' (drop_addrs l m).
Proof.
  intros Hs Hrep [Hsort Hst] l Hfit Ha. set (sc1 := Sched.update_time now sc).
  assert (Hsplit : scheduled sc = l ++ scheduled (Sched.drop_released sc1)) by exact (scheduled_split sc1 Hsort).
  rewrite Hsplit in Hst. destruct (stored_app _ _ _ Hst) as [Hdue Hrest].
  destruct (release_buf_loop (helper_id h) (enabled sc) l 0 (releaser_buf s) (tc_releaser s) sh p m Hrep Hdue Hfit Ha)
    as (bufs & buf' & p' & Hrun & Hlen & Hrep' & Hbufs).
  eexists bufs, _, (Sched.drop_released sc1), p'. split_and!; [| | |exact Hbufs|exact Hsplit|exact Hrep'|].
  - unfold SchedWrapper.release_tcs. cbn [fst snd]. rewrite Hs.
    unfold Sched.release_telecommands_with_buffer, Sched.release_telecommands_internal.
    fold sc1. fold (due sc1). change (due sc1) with l. change (enabled sc1) with (enabled sc). rewrite Hrun.
    cbn [Sched.rel_user Sched.rel_pool Sched.rel_buf default expect res_map]. reflexivity.
  - done.
  - done.
  - constructor; [by apply sorted_filter|exact Hrest].
Qed.

Definition ex_sched_wrapper (s : PusScheduler Z Z) (p : StaticMemoryPool)
    : SchedulingServiceWrapper (list (Z * PusTmVariant)) VerificationReporter EcssTcInVecConverter Z Z
        StaticMemoryPool (channel PacketAsVec) :=
  mkSchedWrapper
    (mkHelper 0 (mkChannel [] None true true) [] (mkReporter 0 (replicate 15 0) (mkCreator 0 1) (fun tm => tm))
       VecConverter.default, tt, (s, p))
    (replicate 8 0) (mkChannel [] None true true).

Lemma release_tcs_correct_witness :
  exists x s' sc' p' bufs, ex_state = Ok x /\
    SchedWrapper.release_tcs 15 (ex_sched_wrapper x.1 x.2, tt) = (Ok tt, (s', tt)) /\
    pus_11_handler s' = ((pus_11_handler (ex_sched_wrapper x.1 x.2)).1, (sc', p')) /\
    queue (tc_releaser s') = mkPacketAsVec 0 <$> bufs /\ length bufs = 1%nat.
Proof.
  destruct ex_state_consistent as ([s p] & Hx & m & Hrep & Hinv).
  pose proof Hx as Hx'. vm_compute in Hx'. injection Hx' as Hs Hp.
  destruct (release_tcs_correct (ex_sched_wrapper s p) _ tt s p m tt 15 eq_refl Hrep Hinv)
    as (bufs & s' & sc' & p' & Hrun & Hh & Hq & Hb & _).
  - intros i d Hi Hd.
    assert (Hr : pool_read p (addr i) (replicate 8 0) =
                 if 8 <? len d then Err (PoolByteConversionError (ToSliceTooSmall 8 (len d)))
                 else Ok (len d, d ++ drop (length d) (replicate 8 0)))
      by exact (pool_read_some p m (addr i) d (replicate 8 0) Hrep Hd).
    subst p s. vm_compute in Hi. apply elem_of_cons in Hi as [->|Hi]; [|by apply elem_of_nil in Hi].
    change (len (releaser_buf _)) with 8. destruct (Z.ltb_spec 8 (len d)); [|lia].
    vm_compute in Hr. discriminate.
  - reflexivity.
  - exists (s, p), s', sc', p', bufs. split_and!; [exact Hx|exact Hrun|exact Hh| |].
    + rewrite Hq. subst s. reflexivity.
    + apply Forall2_length in Hb. rewrite <- Hb. subst s. reflexivity.
Defined.

(** With the pools of the example the releaser that puts telecommands into the
    shared pool panics on the first one: it adds its whole buffer of 4096 bytes, and
    the largest blocks have 2048. *)
Lemma static_release_panics :
  match create_pool with
  | Ok p1 =>
      match StaticPool.add [24; 1] p1 with
      | (Ok a, p2) =>
          (SchedWrapper.release_tcs 15
             (mkSchedWrapper
                (mkHelper 0 (mkChannel [] None true true) ([] : list (Z * PusTmVariant)) (TestReporter.new 0)
                   (StoreConverter.new (mkShared false p1) 2048), tt,
                 (Sched.set_map [(10, [mkTcInfo a (Scheduler.mkRequestId 0 0 0)])]
                    (Sched.new (D:=Z) 0 5), p2))
                (replicate 4096 0) (mkChannel [] None true true : channel PacketInPool),
              mkShared false p1)).1 = Panic
      | _ => False
      end
  | _ => False
  end.
Proof. vm_compute. reflexivity. Qed.

(** A stack with a ping and a telecommand that reads a mode; the pool of its
    scheduler is empty. *)
Definition ex_stack_parse (l : list Z) : res unit PusTc :=
  match l with
  | [b] => Ok (mkPusTc 0 6146 49156 2 4 17 1 0 [])
  | _ => ex_mode_tc 3 l
  end.

Definition ex_helper_of (id : Z) (tcs : list (list Z))
    : PusServiceHelper (list (Z * PusTmVariant)) TestVerificationReporter EcssTcInVecConverter :=
  mkHelper id (mkChannel ((fun tc => mkEcssTcAndToken (InVec (mkPacketAsVec 1 tc))
                 (Some (TokAccepted ex_token))) <$> tcs) None true true)
    [] (TestReporter.new id) VecConverter.default.

Definition ex_stack (p : StaticMemoryPool)
    : PusStack _
        (PusTargetedRequestService _ _ _ HkRequestConverter ActivePusRequestStd HkReplyHandler HkReply) _
        (PusTargetedRequestService _ _ _ ActionRequestConverter ActivePusActionRequestStd
           ActionReplyHandler ActionReplyPus) _ _ :=
  mkStack ((ex_helper_of 2 [[1]; [1]], tt, mkChannel [] None true true) : TestWrapper.t)
    (mkService (ex_helper_of 5 []) ex_mode_router HkService.default_converter ∅ mkHkReplyHandler
       (mkChannel [] None true true))
    ((ex_helper_of 0 [], tt, mkChannel [] None true true) : EventWrapper.t)
    (mkService (ex_helper_of 3 []) ex_mode_router mkActionConverter ∅ Action.default_handler
       (mkChannel [] None true true))
    (mkSchedWrapper (ex_helper_of 0 [], tt, (Sched.new 0 5, p)) (replicate 8 0)
       (mkChannel [] None true true : channel PacketAsVec))
    (ex_mode_service [[0; 0; 0; 9]]).

#[local] Instance ex_stack_packet_id : PacketIdOps := fun id => Z.land id 2047.
#[local] Instance ex_stack_enum : EcssEnumOps := fun v => ResultCode.as_enum (ResultCode.from_u16 v).
#[local] Instance ex_stack_hk : HkSubserviceOps := fun _ => None.

Lemma stack_rounds_correct_witness :
  exists p, StaticPool.new ex_config = Ok p /\
  let run := Stack.periodic_operation
    (example_ops (PE:=unit) (TSE:=unit) ex_stack_parse (fun _ => Err tt) (fun _ => None) (fun _ => None))
    (fun _ _ => 100) (fun _ _ => 100) 500 10 [7] (ex_stack p, (([], tt), ex_mode_world)) in
  exists k' x', run = (Ok (Some tt), (k', x')) /\
    (exists n, (1 <= n <= 3)%nat /\ handler_queue (test_srv k') = drop n (handler_queue (test_srv (ex_stack p)))) /\
    map snd x'.1.1 = [Direct (Service.ping_reply 0 [7]); Direct (Service.ping_reply 0 [7])] /\
    is_Some (active_request_map (mode_srv k') !! ex_key).
Proof.
  destruct (StaticPool.new ex_config) as [p|e|] eqn:Hp; [|vm_compute in Hp; discriminate|vm_compute in Hp; discriminate].
  exists p. split; [done|]. cbv zeta.
  pose proof (stack_rounds_correct (PE:=unit) (TSE:=unit) ex_stack_parse (fun _ => Err tt) (fun _ => None)
    (fun _ => None) (fun _ _ => 100) (fun _ _ => 100) 0 10 [7] (ex_stack p) (([], tt), ex_mode_world)) as [_ Hs].
  vm_compute in Hp. injection Hp as <-.
  match type of Hs with match ?l with _ => _ end => destruct l as [r [k' x']] eqn:Hl end.
  exists k', x'. pose proof Hl as Hl'. vm_compute in Hl'.
  injection Hl' as Hr Hk Hx. subst r. split; [done|]. destruct Hs as (_ & n & Hn & Hn3 & ((Hq & _) & _) & _).
  split_and!.
  - exists n. split; [|exact Hq]. vm_compute in Hn3. lia.
  - subst x'. reflexivity.
  - subst k'. exists (mkActive (TargetId.raw (mkTargetId 2 9)) (TokStarted ex_token) 100 (secs 30)). reflexivity.
Defined.
