(* ===== verification/EventHandler.v ===== *)
(** * The event handler of the example application ([satrs-example/src/events.rs])

    [PusEventHandler] executes the requests of the event service and turns the
    events it is subscribed to into telemetry; [EventHandler] runs it together with
    the event manager. *)

From Stdlib Require Import ZArith Lia Bool.
From stdpp Require Import base list gmap.
From S2P Require Import Prelude Spacepackets Params Tmtc Verification Events EventMan Services PusEvents.
From S2P Require Import Requests TargetedService PusStack.

Local Open Scope Z_scope.

Abbreviation EventU32 := (Event Events.U32).
Abbreviation EventMessageU32 := (EventMessage EventU32 Params).

(** ** State *)

(** [EventManagerWithBoundedMpsc] *)
Abbreviation BoundedManager :=
  (EventManager MpscReceiver (DefaultSenderMap EventSenderMpscBounded) DefaultListenerMap).

#[export] Instance bounded_sender_map :
  SenderMapProvider (DefaultSenderMap EventSenderMpscBounded) EventSenderMpscBounded :=
  DefaultSenderMap_provider (W:=Channels EventMessageU32) (M:=EventMessageU32) (E:=GenericSendError).

(** The hook [EventApidSetter] is the function [ev_hook] of the reporter. *)
Record PusEventHandler (Q : Type) : Type := mkEventHandler {
  event_request_rx : channel EventRequestWithToken;
  pus_event_tm_creator : PusEventTmCreatorWithMap (DefaultPusEventReportingMap Events.U32);
  pus_event_man_rx : MpscReceiver;
  eh_tm_sender : Q;
  eh_timestamp : list Z;
  small_data_buf : list Z;
  verif_handler : VerificationReporter;
}.

Arguments mkEventHandler {Q} _ _ _ _ _ _ _.
Arguments event_request_rx {Q} _.
Arguments pus_event_tm_creator {Q} _.
Arguments pus_event_man_rx {Q} _.
Arguments eh_tm_sender {Q} _.
Arguments eh_timestamp {Q} _.
Arguments small_data_buf {Q} _.
Arguments verif_handler {Q} _.

Module EvHandler.
Section EvHandler.
Context {PE Q : Type} `{PusErrorOps PE} `{EcssTmSender PE Q}.
(** [u8::from(Subservice)] and [PusTmCreator::set_apid] of [spacepackets]. *)
Context (subservice_into : EventSubservice -> Z) (tm_set_apid : Z -> PusTm -> PusTm).
Abbreviation handler := (PusEventHandler Q).
(** The handler with the queues of the events. *)
Abbreviation M := (st (handler * Channels EventMessageU32) Empty_set).

(** *** Calls on the parts of the handler *)
Definition on_requests {E A : Type} (m : st (channel EventRequestWithToken) E A) : st handler E A :=
  fun h => let '(r, c) := m (event_request_rx h) in
    (r, mkEventHandler c (pus_event_tm_creator h) (pus_event_man_rx h) (eh_tm_sender h) (eh_timestamp h)
          (small_data_buf h) (verif_handler h)).

Definition on_creator {E A : Type}
    (m : st (PusEventTmCreatorWithMap (DefaultPusEventReportingMap Events.U32)) E A) : st handler E A :=
  fun h => let '(r, c) := m (pus_event_tm_creator h) in
    (r, mkEventHandler (event_request_rx h) c (pus_event_man_rx h) (eh_tm_sender h) (eh_timestamp h)
          (small_data_buf h) (verif_handler h)).

(** The creator with the sender and [small_data_buf]. *)
Definition on_generator {E A : Type}
    (m : st ((PusEventTmCreatorWithMap (DefaultPusEventReportingMap Events.U32) * Q) * list Z) E A)
    : st handler E A :=
  fun h => let '(r, ((c, q), buf)) := m ((pus_event_tm_creator h, eh_tm_sender h), small_data_buf h) in
    (r, mkEventHandler (event_request_rx h) c (pus_event_man_rx h) q (eh_timestamp h) buf (verif_handler h)).

Definition on_verif {E A : Type} (m : st (VerificationReporter * Q) E A) : st handler E A :=
  fun h => let '(r, (v, q)) := m (verif_handler h, eh_tm_sender h) in
    (r, mkEventHandler (event_request_rx h) (pus_event_tm_creator h) (pus_event_man_rx h) q (eh_timestamp h)
          (small_data_buf h) v).

Definition update_time {E : Type} (stamp : list Z) : st handler E unit :=
  modify_state (fun h => mkEventHandler (event_request_rx h) (pus_event_tm_creator h) (pus_event_man_rx h)
    (eh_tm_sender h) stamp (small_data_buf h) (verif_handler h)).

(** *** Requests of the event service *)
Definition report_completion (event_req : EventRequestWithToken) (timestamp : list Z)
    : st handler Empty_set unit :=
  let* started_token := lift (expect (TcStateToken.try_into_started (event_token event_req))) in
  on_verif (Service.expect_st
    (vr_completion_success (PE:=PE) TcStateStarted started_accepted started_token timestamp)).

Definition handle_event_request (event_req : EventRequestWithToken) (stamp : list Z)
    : st handler Empty_set unit :=
  let* _ := on_creator (Service.expect_st
              (match event_request event_req with
               | EnableEvent event => TmCreator.enable_tm_for_event event
               | DisableEvent event => TmCreator.disable_tm_for_event event
               end)) in
  let* _ := update_time stamp in
  let* timestamp := gets eh_timestamp in
  report_completion event_req timestamp.

(** The loop; [None] when the fuel runs out.  The iteration [i] reads [clock i]. *)
Fixpoint handle_event_requests (clock : nat -> list Z) (fuel i : nat) : st handler Empty_set (option unit) :=
  match fuel with
  | O => ret None
  | S fuel' =>
      let* r := attempt (on_requests Channel.try_recv) in
      match r with
      | Ok event_req =>
          let* _ := handle_event_request event_req (clock i) in
          handle_event_requests clock fuel' (S i)
      | _ => ret (Some tt)
      end
  end.

(** *** Telemetry of events *)

(** [self.pus_event_tm_creator.reporter.tm_hook.next_apid = apid] *)
Definition set_next_apid {E : Type} (apid : Z) : st handler E unit :=
  on_creator (modify_state (fun c =>
    let r := tm_reporter c in
    mkTmCreator (mkEventReporter (ev_reporter_id r) (ev_source_data_buf r) (report_creator r)
                   (tm_set_apid apid)) (reporting_map c))).

Definition generate_event_tm (event_msg : EventMessageU32) (stamp : list Z) : st handler Empty_set unit :=
  let* _ := set_next_apid (apid (TargetId.from_u64 (EventMan.msg_sender_id event_msg))) in
  let* _ := update_time stamp in
  let* timestamp := gets eh_timestamp in
  let* _ := on_generator (Service.expect_st
              (TmCreator.generate_pus_event_tm_generic_with_generic_params (PE:=PE) (ME:=unit)
                 subservice_into timestamp (msg_event event_msg) (msg_params event_msg))) in
  ret tt.

Fixpoint generate_pus_event_tm (clock : nat -> list Z) (fuel i : nat) : M (option unit) :=
  match fuel with
  | O => ret None
  | S fuel' =>
      let* rx := gets (fun x : handler * Channels EventMessageU32 => pus_event_man_rx x.1) in
      let* r := on_snd (attempt (on_channel (rx_channel rx) Channel.try_recv)) in
      match r with
      | Ok event_msg =>
          let* _ := on_fst (generate_event_tm event_msg (clock i)) in
          generate_pus_event_tm clock fuel' (S i)
      | _ => ret (Some tt)
      end
  end.

(** *** Construction *)

(** [PusEventHandler::new]; [c] is the new channel for the events, [sender_of] its
    sender. *)
Definition new {E : Type} (tm_sender : Q) (verif_handler : VerificationReporter) (c : Z)
    (event_request_rx : channel EventRequestWithToken)
    : st (BoundedManager * Channels EventMessageU32) E handler :=
  let event_queue_cap := 30 in
  let* _ := on_snd (modify_state (fun w => <[c := mkChannel [] (Some event_queue_cap) true true]> w)) in
  let* event_reporter := lift (unwrap (EvReporter.new_with_hook (TargetId.raw PUS_EVENT_MANAGEMENT) 0 0 128
                                         (tm_set_apid 0))) in
  let send_provider :=
    mkEventSenderMpscBounded (TargetId.raw PUS_EVENT_MANAGEMENT) c event_queue_cap in
  let* _ := on_fst (modify_state (fun m => Manager.subscribe_all (esb_target_id send_provider) m)) in
  let* _ := on_fst (modify_state (fun m =>
              Manager.add_sender (W:=Channels EventMessageU32) (P:=Params) (Ev:=EventU32) send_provider m)) in
  ret (mkEventHandler event_request_rx (mkTmCreator event_reporter ReportingMap.default) (mkMpscReceiver c)
         tm_sender (replicate 7 0) (replicate 64 0) verif_handler).

End EvHandler.
End EvHandler.

(** ** The task of the events *)
Record EventHandler (Q : Type) : Type := mkHandler {
  pus_event_handler : PusEventHandler Q;
  event_manager : BoundedManager;
}.

Arguments mkHandler {Q} _ _.
Arguments pus_event_handler {Q} _.
Arguments event_manager {Q} _.

Module EventTask.
Section EventTask.
Context {PE Q : Type} `{PusErrorOps PE} `{EcssTmSender PE Q}.
Context (subservice_into : EventSubservice -> Z) (tm_set_apid : Z -> PusTm -> PusTm).
Abbreviation M := (st (EventHandler Q * Channels EventMessageU32) Empty_set).

(** [EventHandler::new]; [c] is the channel [PusEventHandler::new] makes. *)
Definition new (tm_sender : Q) (event_rx : MpscReceiver) (c : Z)
    (event_request_rx : channel EventRequestWithToken)
    : st (Channels EventMessageU32) Empty_set (EventHandler Q) :=
  fun w =>
    let event_manager : BoundedManager := manager_new event_rx in
    let '(r, (m, w')) :=
      (let* reporter := lift (create_verification_reporter (TargetId.id PUS_EVENT_MANAGEMENT)
                                (apid PUS_EVENT_MANAGEMENT)) in
       EvHandler.new tm_set_apid tm_sender reporter c event_request_rx) (event_manager, w) in
    (res_map (fun p => mkHandler p m) r, w').

Definition on_pus_handler {A : Type}
    (m : st (PusEventHandler Q * Channels EventMessageU32) Empty_set A) : M A :=
  fun x => let '(r, (p, w)) := m (pus_event_handler x.1, x.2) in (r, (mkHandler p (event_manager x.1), w)).

(** Routing errors are logged. *)
Definition try_event_routing : M (EventRoutingResult EventMessageU32) :=
  fun x =>
    let '(r, (w, _)) := Manager.try_event_handling (E:=Empty_set) (RE:=GenericReceiveError)
                          (fun _ _ (log : unit) => log) (event_manager x.1) (x.2, tt) in
    (r, (x.1, w)).

(** The loops read [request_clock] and [tm_clock]. *)
Definition periodic_operation (request_clock tm_clock : nat -> list Z) (fuel : nat) : M (option unit) :=
  let* a := on_pus_handler (on_fst (EvHandler.handle_event_requests (PE:=PE) request_clock fuel 0)) in
  let* _ := try_event_routing in
  let* b := on_pus_handler (EvHandler.generate_pus_event_tm (PE:=PE) subservice_into tm_set_apid
                              tm_clock fuel 0) in
  ret (match a, b with Some _, Some _ => Some tt | _, _ => None end).

End EventTask.
End EventTask.

(** * Lemmas *)
Section Loops.
Context {PE : Type} `{PusErrorOps PE}.
Context (subservice_into : EventSubservice -> Z) (tm_set_apid : Z -> PusTm -> PusTm) (clock : nat -> list Z).
Abbreviation Q := (list (Z * PusTmVariant)).
Abbreviation creator := (PusEventTmCreatorWithMap (DefaultPusEventReportingMap Events.U32)).
Implicit Types (h : PusEventHandler Q) (c : creator) (w : Channels EventMessageU32).

(** ** Requests *)

(** A request as a call on the reporting map. *)
Definition request_op (r : EventRequestWithToken) : bool * EventU32 :=
  match event_request r with EnableEvent e => (true, e) | DisableEvent e => (false, e) end.

Definition started_id (t : TcStateToken) : option RequestId :=
  match t with TokStarted t => Some (request_id t) | _ => None end.

(** The completion report of a request. *)
Definition completion (v : VerificationReporter) (stamp : list Z) (r : EventRequestWithToken) : Q :=
  match started_id (event_token r) with
  | Some id => [sent v 7 stamp (success_data id None)]
  | None => []
  end.

Fixpoint completions (v : VerificationReporter) (i : nat) (l : list EventRequestWithToken) : Q :=
  match l with
  | [] => []
  | r :: l' => completion v (clock i) r ++ completions v (S i) l'
  end.

Lemma completions_same v v' i l : same_reporter v v' -> completions v' i l = completions v i l.
Proof.
  intros Hs. revert i. induction l as [|r l IH]; intros i; [done|]. cbn. rewrite IH. f_equal.
  unfold completion. destruct (started_id _); [|done]. by rewrite (sent_same v v').
Qed.

Lemma request_run h r id stamp :
  started_id (event_token r) = Some id -> 4 <= len (source_data_buf (verif_handler h)) ->
  exists v', same_reporter (verif_handler h) v' /\
    EvHandler.handle_event_request (PE:=PE) r stamp h =
      (Ok tt, mkEventHandler (event_request_rx h) (switch (pus_event_tm_creator h) (request_op r))
         (pus_event_man_rx h) (eh_tm_sender h ++ completion (verif_handler h) stamp r) stamp
         (small_data_buf h) v').
Proof.
  intros Ht Hl. destruct r as [req [t|t|t|t]]; try done. injection Ht as <-.
  destruct (completion_reported (PE:=PE) (verif_handler h) (eh_tm_sender h) t stamp Hl) as (v' & Hr & Hs).
  exists v'. split; [done|]. unfold EvHandler.handle_event_request, EvHandler.on_creator, EvHandler.update_time,
    EvHandler.report_completion, EvHandler.on_verif, completion, request_op, switch, st_bind, gets, lift, modify_state, Service.expect_st.
  destruct req as [e|e]; cbn -[vr_completion_success]; rewrite Hr; reflexivity.
Qed.

Lemma requests_run fuel i h :
  (length (queue (event_request_rx h)) < fuel)%nat ->
  Forall (fun r => is_Some (started_id (event_token r))) (queue (event_request_rx h)) ->
  4 <= len (source_data_buf (verif_handler h)) ->
  let l := queue (event_request_rx h) in
  exists stamp v', same_reporter (verif_handler h) v' /\
    EvHandler.handle_event_requests (PE:=PE) clock fuel i h =
      (Ok (Some tt), mkEventHandler (Channel.set_queue [] (event_request_rx h))
         (foldl switch (pus_event_tm_creator h) (request_op <$> l)) (pus_event_man_rx h)
         (eh_tm_sender h ++ completions (verif_handler h) i l) stamp (small_data_buf h) v').
Proof.
  revert i h. induction fuel as [|fuel IH]; intros i h Hf Hall Hl l; [lia|].
  cbn [EvHandler.handle_event_requests]. unfold st_bind at 1, attempt, EvHandler.on_requests, Channel.try_recv.
  subst l. destruct (queue (event_request_rx h)) as [|r l] eqn:Hq.
  - exists (eh_timestamp h), (verif_handler h). split; [by repeat split|]. rewrite app_nil_r.
    assert (He : Channel.set_queue [] (event_request_rx h) = event_request_rx h)
      by (destruct (event_request_rx h); cbn in *; by subst). rewrite He.
    by destruct (tx_alive (event_request_rx h)); destruct h.
  - apply Forall_cons in Hall as [[id Hid] Hall]. set (h1 := mkEventHandler _ _ _ _ _ _ _).
    destruct (request_run h1 r id (clock i) Hid Hl) as (v1 & Hs1 & Hr). unfold st_bind. rewrite Hr.
    match goal with |- context [EvHandler.handle_event_requests _ _ _ ?x] => set (h2 := x) end.
    destruct (IH (S i) h2) as (stamp & v2 & Hs2 & Hrun); [cbn in *; lia|exact Hall| |].
    { cbn. destruct Hs1 as (_ & _ & _ & ->). exact Hl. }
    exists stamp, v2. split; [by apply (same_reporter_trans _ v1)|]. rewrite Hrun.
    cbn [h2 h1 event_request_rx pus_event_tm_creator pus_event_man_rx eh_tm_sender small_data_buf verif_handler
      Channel.set_queue queue capacity rx_alive tx_alive fmap list_fmap foldl completions].
    rewrite <- app_assoc. by rewrite (completions_same (verif_handler h) v1) by exact Hs1.
Qed.

(** ** Events *)

(** An event message whose report fits into the buffers of the handler. *)
Definition fits (m : EventMessageU32) : Prop :=
  match msg_params m with
  | Some (Heapless p) => param_ok p /\ len (param_bytes p) <= 64
  | Some (Vec v) => len v <= 124
  | Some (PString s) => len s <= 124
  | _ => True
  end.

(** The report of an event: under the APID of its sender, with the parameters. *)
Definition event_report (small stamp : list Z) (m : EventMessageU32) : Z * PusTmVariant :=
  (TargetId.raw PUS_EVENT_MANAGEMENT,
   Direct (tm_set_apid (apid (TargetId.from_u64 (EventMan.msg_sender_id m)))
     (event_tm subservice_into (mkEventCreator 0 0) (severity_subservice (severity (msg_event m))) stamp
        (event_data (msg_event m) (propagated (msg_params m) small).1.1)))).

(** The reporter [new] makes, up to buffer contents and the APID of the hook. *)
Definition handler_reporter (r : EventReporter) : Prop :=
  ev_reporter_id r = TargetId.raw PUS_EVENT_MANAGEMENT /\ len (ev_source_data_buf r) = 128 /\
  report_creator r = mkEventCreator 0 0.

Lemma propagated_small params small :
  len small = 64 -> match params with Some (Heapless p) => len (param_bytes p) <= 64 | _ => True end ->
  len (propagated params small).2 = 64.
Proof.
  destruct params as [[p|? |?|?]|]; try done. cbn. unfold len. rewrite length_app, length_drop. lia.
Qed.

Lemma report_fits m small : fits m -> len small = 64 ->
  len (event_data (msg_event m) (propagated (msg_params m) small).1.1) <= 128.
Proof.
  intros Hf Hs. rewrite (len_event_data (ly:=Events.U32)) by (left; reflexivity).
  change (raw_size Events.U32) with 4. unfold fits in Hf.
  destruct (msg_params m) as [[p|a|v|s]|]; cbn [propagated fst default] in *; unfold len in *;
    try (cbn; lia).
  destruct Hf as [_ Hl]. unfold id. rewrite length_app, length_drop. lia.
Qed.

(** The creator with the APID of the sender generates the report. *)
Lemma creator_run c q m small stamp :
  fits m -> len small = 64 -> handler_reporter (tm_reporter c) ->
  ev_hook (tm_reporter c) = tm_set_apid (apid (TargetId.from_u64 (EventMan.msg_sender_id m))) ->
  let on := ReportingMap.event_enabled (reporting_map c) (msg_event m) in
  exists r', handler_reporter r' /\
    TmCreator.generate_pus_event_tm_generic_with_generic_params (PE:=PE) (ME:=unit) subservice_into stamp
      (msg_event m) (msg_params m) ((c, q), small) =
      (Ok (mkGenerationResult on (propagated (msg_params m) small).1.2),
       ((mkTmCreator r' (reporting_map c), q ++ if on then [event_report small stamp m] else []),
        (propagated (msg_params m) small).2)).
Proof.
  intros Hf Hs (Hid & Hbuf & Hcr) Hhook on. pose proof (report_fits m small Hf Hs) as Hfit.
  pose proof (event_generic_params_correct (PE:=PE) (ME:=unit) subservice_into stamp (msg_event m)
    (msg_params m) c q small) as Hg.
  assert (Hguard : match msg_params m with
    Some (Heapless p) => len (param_bytes p) <=? len small | _ => true end = true).
  { unfold fits in Hf. destruct (msg_params m) as [[p|? |?|?]|]; try done. apply Z.leb_le. lia. }
  rewrite Hguard in Hg. cbv zeta in Hg. rewrite (surjective_pairing (propagated _ _)) in Hg.
  rewrite (surjective_pairing (propagated _ _).1) in Hg.
  rewrite (generate_generic_spec (PE:=PE) subservice_into c) in Hg by (left; reflexivity).
  cbv zeta in Hg. rewrite Hbuf, Hid, Hcr, Hhook, (proj2 (Z.ltb_ge _ _) Hfit) in Hg. fold on in Hg.
  destruct on; cbn [negb res_map] in Hg.
  - eexists. split; [|apply Hg]; [|unfold fits in Hf; by destruct (msg_params m) as [[]|]; try apply Hf].
    split_and!; [done| |done]. cbn [ev_source_data_buf EvReporter.set_buf].
    unfold len in *. rewrite length_app, length_drop. lia.
  - exists (tm_reporter c). rewrite app_nil_r. split; [done|]. destruct c. apply Hg.
    unfold fits in Hf. by destruct (msg_params m) as [[]|]; try apply Hf.
Qed.

Lemma event_run h m stamp :
  fits m -> len (small_data_buf h) = 64 -> handler_reporter (tm_reporter (pus_event_tm_creator h)) ->
  exists r', handler_reporter r' /\
    EvHandler.generate_event_tm (PE:=PE) subservice_into tm_set_apid m stamp h =
      (Ok tt, mkEventHandler (event_request_rx h)
         (mkTmCreator r' (reporting_map (pus_event_tm_creator h))) (pus_event_man_rx h)
         (eh_tm_sender h ++
            if ReportingMap.event_enabled (reporting_map (pus_event_tm_creator h)) (msg_event m)
            then [event_report (small_data_buf h) stamp m] else [])
         stamp (propagated (msg_params m) (small_data_buf h)).2 (verif_handler h)).
Proof.
  intros Hf Hs Hrep. set (r := tm_reporter (pus_event_tm_creator h)) in *.
  destruct (creator_run (mkTmCreator (mkEventReporter (ev_reporter_id r) (ev_source_data_buf r)
      (report_creator r) (tm_set_apid (apid (TargetId.from_u64 (EventMan.msg_sender_id m)))))
      (reporting_map (pus_event_tm_creator h))) (eh_tm_sender h) m (small_data_buf h) stamp Hf Hs Hrep eq_refl)
    as (r' & Hr' & Hrun).
  exists r'. split; [done|]. unfold EvHandler.generate_event_tm, EvHandler.set_next_apid, EvHandler.on_creator,
    EvHandler.update_time, EvHandler.on_generator, Service.expect_st, st_bind, gets, modify_state.
  cbn -[TmCreator.generate_pus_event_tm_generic_with_generic_params TargetId.from_u64]. fold r.
  by rewrite Hrun.
Qed.

(** The loop ends on an empty queue and takes the messages in order. *)
Lemma events_done fuel i h w ch :
  w !! rx_channel (pus_event_man_rx h) = Some ch -> queue ch = [] ->
  EvHandler.generate_pus_event_tm (PE:=PE) subservice_into tm_set_apid clock (S fuel) i (h, w) =
    (Ok (Some tt), (h, w)).
Proof.
  intros Hw Hq. cbn [EvHandler.generate_pus_event_tm]. unfold st_bind, gets, on_snd, attempt, on_channel.
  cbn [fst snd]. rewrite Hw. unfold Channel.try_recv. rewrite Hq.
  destruct (tx_alive ch); cbn; by rewrite insert_id.
Qed.

Lemma events_next fuel i h w ch m l :
  w !! rx_channel (pus_event_man_rx h) = Some ch -> queue ch = m :: l ->
  EvHandler.generate_pus_event_tm (PE:=PE) subservice_into tm_set_apid clock (S fuel) i (h, w) =
    (let* _ := on_fst (EvHandler.generate_event_tm (PE:=PE) subservice_into tm_set_apid m (clock i)) in
     EvHandler.generate_pus_event_tm (PE:=PE) subservice_into tm_set_apid clock fuel (S i))
      (h, <[rx_channel (pus_event_man_rx h) := Channel.set_queue l ch]> w).
Proof.
  intros Hw Hq. cbn [EvHandler.generate_pus_event_tm]. unfold st_bind at 1 2, gets, on_snd, attempt, on_channel.
  cbn [fst snd]. rewrite Hw. unfold Channel.try_recv. by rewrite Hq.
Qed.

End Loops.

(** ** The task as a system *)

(** What arrives before a period, and the clocks of its loops. *)
Record Period : Type := mkPeriod {
  requests : list EventRequestWithToken;
  events : list EventMessageU32;
  request_clock : nat -> list Z;
  tm_clock : nat -> list Z;
}.

(** The requests so far, the events that wait, and the small buffer. *)
Record Spec : Type := mkSpec {
  history : list (bool * EventU32);
  waiting : list EventMessageU32;
  small : list Z;
}.

Section Task.
Context {PE : Type} `{PusErrorOps PE}.
Context (subservice_into : EventSubservice -> Z) (tm_set_apid : Z -> PusTm -> PusTm).
Context (v0 : VerificationReporter) (rx c : Z).
Hypothesis Hbuf : 4 <= len (source_data_buf v0).
Hypothesis Hrx : rx <> c.
Abbreviation Tm := (list (Z * PusTmVariant)).
Implicit Types (x : EventHandler Tm * Channels EventMessageU32) (p : Period) (s : Spec).

(** A period of the specification: every request is completed, then one event is
    taken and reported unless the last request about it disabled it. *)
Definition spec_period s p : Tm * Spec :=
  let ops := history s ++ (request_op <$> requests p) in
  let done := completions (request_clock p) v0 0 (requests p) in
  match waiting s ++ events p with
  | [] => (done, mkSpec ops [] (small s))
  | m :: rest =>
      (done ++ (if reported ops (msg_event m)
                then [event_report subservice_into tm_set_apid (small s) (tm_clock p 0) m] else []),
       mkSpec ops rest (propagated (msg_params m) (small s)).2)
  end.

Fixpoint spec_run s (ps : list Period) : Tm * Spec :=
  match ps with
  | [] => ([], s)
  | p :: ps' => let '(a, s1) := spec_period s p in let '(b, s2) := spec_run s1 ps' in (a ++ b, s2)
  end.

(** The messages of a period are put into the queues of the task. *)
Definition arrive p x : EventHandler Tm * Channels EventMessageU32 :=
  let h := pus_event_handler x.1 in
  let q := event_request_rx h in
  (mkHandler (mkEventHandler (Channel.set_queue (queue q ++ requests p) q) (pus_event_tm_creator h)
     (pus_event_man_rx h) (eh_tm_sender h) (eh_timestamp h) (small_data_buf h) (verif_handler h))
     (event_manager x.1),
   alter (fun ch => Channel.set_queue (queue ch ++ events p) ch) rx x.2).

(** The task over several periods; the fuel of a period covers its requests. *)
Fixpoint run (ps : list Period) : st (EventHandler Tm * Channels EventMessageU32) Empty_set (option unit) :=
  match ps with
  | [] => ret (Some tt)
  | p :: ps' => fun x =>
      match EventTask.periodic_operation (PE:=PE) subservice_into tm_set_apid (request_clock p) (tm_clock p)
              (2 + length (requests p)) (arrive p x) with
      | (Ok (Some _), x') => run ps' x'
      | r => r
      end
  end.

Definition acceptable p : Prop :=
  Forall (fun r => is_Some (started_id (event_token r))) (requests p) /\ Forall fits (events p).

(** The manager after [new]: all events go to the handler. *)
Definition task_manager : BoundedManager :=
  mkEventManager (mkMpscReceiver rx)
    (mkDefaultSenderMap {[TargetId.raw PUS_EVENT_MANAGEMENT :=
       mkEventSenderMpscBounded (TargetId.raw PUS_EVENT_MANAGEMENT) c 30]})
    (mkDefaultListenerMap {[All := [TargetId.raw PUS_EVENT_MANAGEMENT]]}).

(** The map is the one the requests lead to. *)
Definition map_of (ops : list (bool * EventU32)) : DefaultPusEventReportingMap Events.U32 :=
  reporting_map (foldl switch (mkTmCreator ex_event_reporter ReportingMap.default) ops).

Record related (out : Tm) s x : Prop := {
  rel_manager : event_manager x.1 = task_manager;
  rel_requests : queue (event_request_rx (pus_event_handler x.1)) = [];
  rel_reporter : handler_reporter (tm_reporter (pus_event_tm_creator (pus_event_handler x.1)));
  rel_map : reporting_map (pus_event_tm_creator (pus_event_handler x.1)) = map_of (history s);
  rel_rx : pus_event_man_rx (pus_event_handler x.1) = mkMpscReceiver c;
  rel_out : eh_tm_sender (pus_event_handler x.1) = out;
  rel_small : small_data_buf (pus_event_handler x.1) = small s;
  rel_verif : same_reporter v0 (verif_handler (pus_event_handler x.1));
  rel_len : len (small s) = 64;
  rel_fits : Forall fits (waiting s);
  rel_queue : exists ch, x.2 !! c = Some ch /\ queue ch = [] /\ capacity ch = Some 30 /\ rx_alive ch = true;
  rel_waiting : exists ch, x.2 !! rx = Some ch /\ queue ch = waiting s;
}.

Lemma switch_map (a b : PusEventTmCreatorWithMap (DefaultPusEventReportingMap Events.U32)) ops :
  reporting_map a = reporting_map b -> reporting_map (foldl switch a ops) = reporting_map (foldl switch b ops).
Proof.
  revert a b. induction ops as [|[on e] ops IH]; intros a b Hab; [done|]. apply IH.
  destruct on; cbn; by rewrite Hab.
Qed.

(** Only the key for all events has a listener. *)
Lemma no_listener {L E} (log : EventMessageU32 -> EventRoutingError -> L -> L) key m n :
  key <> All -> Manager.send_handler (E:=E) log task_manager key m n = ret n.
Proof using.
  intros Hk. unfold Manager.send_handler, task_manager.
  cbn [listener_map contains_listener DefaultListenerMap_provider].
  unfold ListenerMap.contains_listener. cbn [dl_listeners]. by rewrite lookup_singleton_ne by congruence.
Qed.

Lemma all_listener {E} (log : EventMessageU32 -> EventRoutingError -> unit -> unit) m w ch :
  w !! c = Some ch -> queue ch = [] -> capacity ch = Some 30 -> rx_alive ch = true ->
  Manager.send_handler (E:=E) (H:=unit) log task_manager All m 0 (w, tt) =
    (Ok 1, (<[c := Channel.set_queue [m] ch]> w, tt)).
Proof using.
  intros Hc Hq Hcap Hal. unfold Manager.send_handler, task_manager.
  cbn [listener_map contains_listener get_listener_ids DefaultListenerMap_provider].
  unfold ListenerMap.contains_listener, ListenerMap.get_listener_ids. cbn [dl_listeners].
  rewrite lookup_singleton_eq. cbn [Manager.send_loop]. unfold Manager.send_to.
  cbn [sender_map get_send_event_provider bounded_sender_map DefaultSenderMap_provider].
  unfold SenderMap.get_send_event_provider. cbn [ds_senders]. rewrite lookup_singleton_eq.
  cbn [target_id EventSenderMpscBounded_provider esb_target_id]. rewrite Z.eqb_refl.
  unfold st_bind, on_fst, attempt. cbn [fst snd ev_send EventSenderMpscBounded_provider]. unfold Mpsc.send_bounded, st_map_err, on_channel.
  cbn [esb_sender]. rewrite Hc. unfold Channel.try_send. rewrite Hal, Hcap, Hq. by destruct m.
Qed.

(** Routing puts the next event into the queue of the handler. *)
Lemma routed h w ch ch1 :
  w !! c = Some ch -> queue ch = [] -> capacity ch = Some 30 -> rx_alive ch = true -> w !! rx = Some ch1 ->
  exists r, EventTask.try_event_routing (Q:=Tm) (mkHandler h task_manager, w) =
    (Ok r, (mkHandler h task_manager,
      match queue ch1 with
      | [] => w
      | m :: l => <[c := Channel.set_queue [m] ch]> (<[rx := Channel.set_queue l ch1]> w)
      end)).
Proof using Hrx.
  intros Hc Hq Hcap Hal Hw. unfold EventTask.try_event_routing, Manager.try_event_handling.
  unfold st_bind at 1, on_fst, attempt. cbn [fst snd event_manager event_receiver task_manager].
  unfold try_recv_event, MpscReceiver_provider, Mpsc.try_recv_event, st_bind at 1, attempt, on_channel.
  cbn [rx_channel]. rewrite Hw. unfold Channel.try_recv.
  destruct (queue ch1) as [|m l].
  { exists Empty. destruct (tx_alive ch1); cbn; by rewrite insert_id. }
  exists (Handled 1 m). cbn [ret fst snd]. rewrite no_listener by done. unfold st_bind, ret at 1.
  rewrite no_listener by done. unfold ret at 1.
  by rewrite (all_listener _ m _ ch) by (try done; by rewrite lookup_insert_ne).
Qed.

(** The telemetry part of a period. *)
Lemma events_run clock fuel h w ch ch1 :
  handler_reporter (tm_reporter (pus_event_tm_creator h)) -> pus_event_man_rx h = mkMpscReceiver c ->
  len (small_data_buf h) = 64 -> Forall fits (queue ch1) ->
  w !! c = Some ch -> queue ch = [] -> w !! rx = Some ch1 ->
  let w' := match queue ch1 with
            | [] => w
            | m :: l => <[c := Channel.set_queue [m] ch]> (<[rx := Channel.set_queue l ch1]> w)
            end in
  let map := reporting_map (pus_event_tm_creator h) in
  exists r' stamp, handler_reporter r' /\
  EvHandler.generate_pus_event_tm (PE:=PE) subservice_into tm_set_apid clock (2 + fuel) 0 (h, w') =
    match queue ch1 with
    | [] => (Ok (Some tt), (h, w))
    | m :: l =>
        (Ok (Some tt),
         (mkEventHandler (event_request_rx h) (mkTmCreator r' map) (pus_event_man_rx h)
            (eh_tm_sender h ++ if ReportingMap.event_enabled map (msg_event m)
                               then [event_report subservice_into tm_set_apid (small_data_buf h) (clock 0%nat) m]
                               else [])
            stamp (propagated (msg_params m) (small_data_buf h)).2 (verif_handler h),
          <[c := ch]> (<[rx := Channel.set_queue l ch1]> w)))
    end.
Proof using.
  intros Hrep Hman Hs Hfit Hc Hq Hw w' map. subst w'. cbn [Nat.add]. destruct (queue ch1) as [|m l].
  - exists (tm_reporter (pus_event_tm_creator h)), []. split; [done|]. apply (events_done _ _ _ _ _ _ _ ch); [|done].
    by rewrite Hman.
  - apply Forall_cons in Hfit as [Hm _].
    destruct (event_run (PE:=PE) subservice_into tm_set_apid h m (clock 0%nat) Hm Hs Hrep) as (r' & Hr' & Hrun).
    exists r', (clock 0%nat). split; [done|].
    rewrite (events_next _ _ _ _ _ _ _ (Channel.set_queue [m] ch) m []); [|by rewrite Hman, lookup_insert_eq|done].
    unfold st_bind, on_fst. cbn [fst snd]. rewrite Hrun, Hman. cbn [rx_channel]. rewrite insert_insert_eq.
    assert (He : Channel.set_queue [] (Channel.set_queue [m] ch) = ch) by (destruct ch; cbn in *; by subst).
    rewrite He. apply (events_done _ _ _ _ _ _ _ ch); [|done]. by rewrite lookup_insert_eq.
Qed.

(** The requests of a period switch events and are completed. *)
Lemma requests_related out s h w p :
  related out s (mkHandler h task_manager, w) -> acceptable p ->
  exists h', EvHandler.handle_event_requests (PE:=PE) (request_clock p) (2 + length (requests p)) 0
      (pus_event_handler (arrive p (mkHandler h task_manager, w)).1) = (Ok (Some tt), h') /\
    related (out ++ completions (request_clock p) v0 0 (requests p))
      (mkSpec (history s ++ (request_op <$> requests p)) (waiting s ++ events p) (small s))
      (mkHandler h' task_manager, (arrive p (mkHandler h task_manager, w)).2).
Proof using Hbuf Hrx.
  intros [_ Hreq Hrep Hmap Hman Hout Hsm Hver Hlen Hfit (ch & Hc & Hq) (ch1 & Hw & Hq1)] [Htok Hev].
  unfold arrive. cbn [fst snd pus_event_handler event_manager] in *. rewrite Hreq, app_nil_l.
  set (h1 := mkEventHandler _ _ _ _ _ _ _).
  destruct (requests_run (PE:=PE) (request_clock p) (2 + length (requests p)) 0 h1) as (stamp & v1 & Hs1 & Hrun);
    [cbn; lia|exact Htok| |].
  { cbn. by destruct Hver as (_ & _ & _ & ->). }
  eexists. split; [exact Hrun|].
  constructor; cbn [fst snd pus_event_handler event_manager waiting history small event_request_rx
    pus_event_tm_creator pus_event_man_rx eh_tm_sender small_data_buf verif_handler h1]; try done.
  - by rewrite switch_reporter.
  - unfold map_of. rewrite foldl_app. by apply switch_map.
  - cbn. by rewrite Hout, (completions_same _ v0).
  - by apply (same_reporter_trans _ (verif_handler h)).
  - by apply Forall_app.
  - exists ch. by rewrite lookup_alter_ne.
  - eexists. rewrite lookup_alter_eq, Hw. split; [done|]. cbn. by rewrite Hq1.
Qed.

(** One event that waits becomes telemetry. *)
Lemma event_related out s h w clock fuel :
  related out s (mkHandler h task_manager, w) ->
  exists x', (let* _ := EventTask.try_event_routing in
      EventTask.on_pus_handler (EvHandler.generate_pus_event_tm (PE:=PE) subservice_into tm_set_apid clock
        (2 + fuel) 0)) (mkHandler h task_manager, w) = (Ok (Some tt), x') /\
    match waiting s with
    | [] => related out s x'
    | m :: rest =>
        related (out ++ if reported (history s) (msg_event m)
                        then [event_report subservice_into tm_set_apid (small s) (clock 0%nat) m] else [])
          (mkSpec (history s) rest (propagated (msg_params m) (small s)).2) x'
    end.
Proof using Hrx.
  intros Hrel. pose proof Hrel as [_ Hreq Hrep Hmap Hman Hout Hsm Hver Hlen Hfit (ch & Hc & Hq & Hcap & Hal)
    (ch1 & Hw & Hq1)]. cbn [fst snd pus_event_handler event_manager] in *.
  destruct (routed h w ch ch1 Hc Hq Hcap Hal Hw) as [res Hroute]. unfold st_bind. rewrite Hroute.
  unfold EventTask.on_pus_handler. cbn [fst snd pus_event_handler event_manager].
  destruct (events_run clock fuel h w ch ch1 Hrep Hman) as (r' & stamp & Hr' & Hgen);
    [by rewrite Hsm|by rewrite Hq1|done..|].
  cbv zeta in Hgen. rewrite Hgen, Hq1. destruct (waiting s) as [|m rest]; [by eexists|].
  apply Forall_cons in Hfit as [Hm Hfit]. eexists. split; [reflexivity|].
  constructor; cbn [fst snd pus_event_handler event_manager waiting history small event_request_rx
    pus_event_tm_creator pus_event_man_rx eh_tm_sender small_data_buf verif_handler tm_reporter reporting_map];
    rewrite ?Hsm; try done.
  - rewrite Hout, Hmap. unfold map_of. by rewrite switch_enabled.
  - apply propagated_small; [done|]. unfold fits in Hm. by destruct (msg_params m) as [[]|]; try apply Hm.
  - exists ch. by rewrite lookup_insert_eq.
  - eexists. rewrite lookup_insert_ne, lookup_insert_eq by done. split; done.
Qed.

Lemma period_related out s x p :
  related out s x -> acceptable p ->
  exists x', EventTask.periodic_operation (PE:=PE) subservice_into tm_set_apid (request_clock p) (tm_clock p)
      (2 + length (requests p)) (arrive p x) = (Ok (Some tt), x') /\
    related (out ++ (spec_period s p).1) (spec_period s p).2 x'.
Proof using Hbuf Hrx.
  intros Hrel Hp. destruct x as [[h man] w]. pose proof (rel_manager _ _ _ Hrel) as Hm. cbn in Hm. subst man.
  destruct (requests_related out s h w p Hrel Hp) as (h1 & Hreq & Hrel1).
  destruct (event_related _ _ _ _ (tm_clock p) (length (requests p)) Hrel1) as (x' & Hev & Hrel2).
  exists x'. split.
  - unfold EventTask.periodic_operation. unfold st_bind at 1, EventTask.on_pus_handler at 1, on_fst.
    cbn [fst snd]. rewrite Hreq. change (event_manager (arrive p _).1) with task_manager.
    unfold st_bind in *. destruct (EventTask.try_event_routing _) as [[] y]; try done. by rewrite Hev.
  - unfold spec_period. cbn [waiting history small] in Hrel2.
    destruct (waiting s ++ events p) as [|m rest]; [done|]. cbn [fst snd]. by rewrite app_assoc.
Qed.

Lemma run_related ps : forall out s x,
  related out s x -> Forall acceptable ps ->
  exists x', run ps x = (Ok (Some tt), x') /\ related (out ++ (spec_run s ps).1) (spec_run s ps).2 x'.
Proof using Hbuf Hrx.
  induction ps as [|p ps IH]; intros out s x Hrel Hps.
  - exists x. split; [done|]. by rewrite app_nil_r.
  - apply Forall_cons in Hps as [Hp Hps]. destruct (period_related out s x p Hrel Hp) as (x1 & Hrun & Hrel1).
    destruct (IH _ _ _ Hrel1 Hps) as (x2 & Hrun2 & Hrel2). exists x2. cbn [run spec_run]. rewrite Hrun.
    split; [done|]. destruct (spec_period s p) as [a s1]. cbn [fst snd] in *.
    destruct (spec_run s1 ps) as [b s2]. cbn [fst]. by rewrite app_assoc.
Qed.

End Task.

(** * Properties *)

(** The reporter of the task. *)
Definition event_verif_reporter : VerificationReporter :=
  mkReporter (TargetId.raw PUS_EVENT_MANAGEMENT) (replicate 15 0) (mkCreator 0 2) (fun tm => tm).

Lemma task_new_related tm_set_apid q rx c rrx w ch :
  rx <> c -> w !! rx = Some ch -> queue ch = [] -> queue rrx = [] ->
  exists h w', EventTask.new tm_set_apid q (mkMpscReceiver rx) c rrx w = (Ok h, w') /\
    related event_verif_reporter rx c q (mkSpec [] [] (replicate 64 0)) (h, w').
Proof.
  intros Hne Hw Hq Hr. do 2 eexists. split; [cbn; reflexivity|].
  constructor; cbn; try done.
  - eexists. by rewrite lookup_insert_eq.
  - exists ch. by rewrite lookup_insert_ne.
Qed.

(** C27: The task of the events refines its specification, from its construction
    and over any number of periods with acceptable arrivals (requests with a started
    token, events whose parameters fit the buffers of 124 and 64 bytes: others panic,
    see [large_parameters_panic]): no step panics and every loop
    ends; each request is completed once, in order; each period takes the first
    event that waits and reports it under the APID of its sender with its
    parameters, unless the last request about the event, of this or an earlier
    period, disabled it; the other events wait. *)
Theorem event_task_correct {PE} `{PusErrorOps PE} subservice_into tm_set_apid q rx c rrx w ch
    (ps : list Period) :
  rx <> c -> w !! rx = Some ch -> queue ch = [] -> queue rrx = [] -> Forall acceptable ps ->
  let '(tm, s) := spec_run subservice_into tm_set_apid event_verif_reporter
                    (mkSpec [] [] (replicate 64 0)) ps in
  exists h w0 x,
    EventTask.new tm_set_apid q (mkMpscReceiver rx) c rrx w = (Ok h, w0) /\
    run (PE:=PE) subservice_into tm_set_apid rx ps (h, w0) = (Ok (Some tt), x) /\
    eh_tm_sender (pus_event_handler x.1) = q ++ tm /\
    queue (event_request_rx (pus_event_handler x.1)) = [] /\
    queue <$> x.2 !! rx = Some (waiting s).
Proof.
  intros Hne Hw Hq Hr Hps.
  destruct (task_new_related tm_set_apid q rx c rrx w ch Hne Hw Hq Hr) as (h & w0 & Hnew & Hrel).
  destruct (run_related (PE:=PE) subservice_into tm_set_apid event_verif_reporter rx c ltac:(vm_compute; done)
    Hne ps _ _ _ Hrel Hps) as (x & Hrun & Hx).
  destruct (spec_run _ _ _ _ ps) as [tm s]. exists h, w0, x. split_and!; [done|done|apply Hx|apply Hx|].
  destruct (rel_waiting _ _ _ _ _ _ Hx) as (ch' & -> & Hw'). cbn in *. by rewrite Hw'.
Qed.

Definition ex_off : EventU32 := mkEvent Info 5 9.
Definition ex_on : EventU32 := mkEvent High 5 10.

(** Two events arrive with a request that disables the first. *)
Definition ex_periods : list Period :=
  [mkPeriod [mkEventRequest (DisableEvent ex_off) (TokStarted (mkToken (mkRequestId 0 6147 49153)))]
     [mkEventMessage (TargetId.raw PUS_TEST_SERVICE) ex_off None;
      mkEventMessage (TargetId.raw PUS_SCHED_SERVICE) ex_on (Some (Vec [1; 2]))] (fun _ => [64]) (fun _ => [65]);
   mkPeriod [] [] (fun _ => [66]) (fun _ => [67])].

Definition ex_set_apid (apid : Z) (tm : PusTm) : PusTm :=
  mkPusTm apid (tm_seq_count tm) (tm_service tm) (tm_subservice tm) (tm_msg_counter tm) (tm_dest_id tm)
    (tm_time_stamp tm) (tm_source_data tm).

Lemma event_task_correct_witness :
  exists h w0 x,
    EventTask.new ex_set_apid [] (mkMpscReceiver 0) 1 (mkChannel [] None true true)
      {[0 := mkChannel [] None true true]} = (Ok h, w0) /\
    run (PE:=unit) (H:=fun _ => tt) ecss_event_subservice ex_set_apid 0 ex_periods (h, w0) = (Ok (Some tt), x) /\
    eh_tm_sender (pus_event_handler x.1) =
      [(8589934592, Direct (mkPusTm 2 0 1 7 0 0 [64] [24; 3; 192; 1]));
       (8589934592, Direct (mkPusTm 1 0 5 4 0 0 [67] [192; 5; 0; 10; 1; 2]))] /\
    queue (event_request_rx (pus_event_handler x.1)) = [] /\
    queue <$> x.2 !! 0 = Some [].
Proof.
  exact (event_task_correct (PE:=unit) (H:=fun _ => tt) ecss_event_subservice ex_set_apid [] 0 1
    (mkChannel [] None true true) {[0 := mkChannel [] None true true]} (mkChannel [] None true true) ex_periods
    ltac:(done) eq_refl eq_refl eq_refl
    ltac:(repeat constructor; try (cbn; done); cbn; lia)).
Defined.

(** An event with 125 bytes of parameters is not acceptable: the task panics. *)
Example large_parameters_panic :
  match EventTask.new ex_set_apid [] (mkMpscReceiver 0) 1 (mkChannel [] None true true)
    {[0 := mkChannel [] None true true]} with
  | (Ok h, w0) =>
      (run (PE:=unit) (H:=fun _ => tt) ecss_event_subservice ex_set_apid 0
         [mkPeriod [] [mkEventMessage (TargetId.raw PUS_TEST_SERVICE) ex_on (Some (Vec (replicate 125 7)))]
            (fun _ => [64]) (fun _ => [65])] (h, w0)).1 = Panic
  | _ => False
  end.
Proof. vm_compute. reflexivity. Qed.
