(* ===== verification/TcpServer.v ===== *)
(** * The TCP servers

    The generic server ([satrs/src/hal/std/tcp_server.rs]), its two flavours for
    space packets and COBS frames ([tcp_spacepackets_server.rs],
    [tcp_cobs_server.rs]) and the telemetry source of the example
    ([satrs-example/src/interface/tcp.rs]).

    [tc_buffer] is made by [vec![0; n]], so that its capacity is its length.  The
    operating system is a script: what the reads on a stream return, and what
    the listener accepts.  The buffer of a parser that fails is of no consequence:
    a connection parses only bytes it has read itself. *)

From Stdlib Require Import ZArith Lia Bool.
From stdpp Require Import base list gmap.
From S2P Require Import Prelude Spacepackets Tmtc Encoding.

Local Open Scope Z_scope.

(** ** Streams *)
Inductive ErrorKind : Type := WouldBlock | TimedOut | OtherKind.

(** What happens on a stream: data arrives; there is none, and the stop signal has
    a value; reading fails.  After the last event the client has closed it, or it stays
    connected and sends nothing more. *)
Inductive ReadEvent : Type :=
| Arrives (bytes : list Z)
| NoData (kind : ErrorKind) (stop : bool)
| ReadFails.

Record TcpStream : Type := mkStream {
  incoming : list ReadEvent;
  outgoing : list Z;
  writable : bool;
  signal : bool;
  hangs_up : bool;
}.

Module Stream.

Definition set_incoming (l : list ReadEvent) (s : TcpStream) : TcpStream :=
  mkStream l (outgoing s) (writable s) (signal s) (hangs_up s).

(** [Read::read] into a slice of [n] bytes. *)
Definition read (n : Z) : st TcpStream ErrorKind (list Z) :=
  fun s =>
    if n =? 0 then (Ok [], s) else
    match incoming s with
    | [] => (if hangs_up s then Ok [] else Err WouldBlock, s)
    | Arrives l :: rest =>
        (Ok (take (Z.to_nat n) l),
         set_incoming (match drop (Z.to_nat n) l with [] => rest | l' => Arrives l' :: rest end) s)
    | NoData kind stop :: rest => (Err kind, mkStream rest (outgoing s) (writable s) stop (hangs_up s))
    | ReadFails :: rest => (Err OtherKind, set_incoming rest s)
    end.

(** [Write::write_all] *)
Definition write_all (d : list Z) : st TcpStream ErrorKind unit :=
  fun s =>
    if writable s then (Ok tt, mkStream (incoming s) (outgoing s ++ d) (writable s) (signal s) (hangs_up s))
    else (Err OtherKind, s).

End Stream.

(** ** Data and traits of the generic server *)
Inductive TcpTmtcError (TmE TcE : Type) : Type :=
| TmError (e : TmE)
| TcError (e : TcE)
| Io (e : ErrorKind).

Arguments TmError {TmE TcE} e.
Arguments TcError {TmE TcE} e.
Arguments Io {TmE TcE} e.

Inductive ConnectionResult : Type :=
| AcceptTimeout
| HandledConnections (n : Z).

Record HandledConnectionInfo : Type := mkInfo {
  info_addr : Z;
  num_received_tcs : Z;
  num_sent_tms : Z;
  stopped_by_signal : bool;
}.

Module ConnInfo.

Definition new (addr : Z) : HandledConnectionInfo := mkInfo addr 0 0 false.

(** [conn_result.num_received_tcs += n] *)
Definition add_tcs {E : Type} (n : Z) (i : HandledConnectionInfo) : res E HandledConnectionInfo :=
  let? n' := checked_add 32 (num_received_tcs i) n in
  Ok (mkInfo (info_addr i) n' (num_sent_tms i) (stopped_by_signal i)).

(** [conn_result.num_sent_tms += 1] *)
Definition add_tm {E : Type} (i : HandledConnectionInfo) : res E HandledConnectionInfo :=
  let? n' := checked_add 32 (num_sent_tms i) 1 in
  Ok (mkInfo (info_addr i) (num_received_tcs i) n' (stopped_by_signal i)).

Definition stop (i : HandledConnectionInfo) : HandledConnectionInfo :=
  mkInfo (info_addr i) (num_received_tcs i) (num_sent_tms i) true.

End ConnInfo.

(** [PacketSource] ([tmtc/mod.rs]): the length of the packet and the buffer. *)
Class PacketSource (E T : Type) : Type := retrieve_packet : list Z -> st T E (Z * list Z).

Class HandledConnectionHandler (H : Type) : Type := handled_connection : HandledConnectionInfo -> H -> H.

(** [tc_buffer], [conn_result] and [next_write_idx] are [&mut] arguments. *)
Class TcpTcParser (P Q TmE TcE : Type) : Type :=
  handle_tc_parsing : list Z -> Z -> HandledConnectionInfo -> Z -> Z ->
    st (P * Q) (TcpTmtcError TmE TcE) (list Z * HandledConnectionInfo * Z).

(** What a TM sender works on: itself, [tm_buffer], [tm_source], [conn_result] and
    [stream]. *)
Record TmState (S T : Type) : Type := mkTmState {
  tms_sender : S;
  tms_buffer : list Z;
  tms_source : T;
  tms_info : HandledConnectionInfo;
  tms_stream : TcpStream;
}.

Arguments mkTmState {S T} _ _ _ _ _.
Arguments tms_sender {S T} _.
Arguments tms_buffer {S T} _.
Arguments tms_source {S T} _.
Arguments tms_info {S T} _.
Arguments tms_stream {S T} _.

(** Whether telemetry was sent; [None] when the fuel runs out. *)
Class TcpTmSender (S T TmE TcE : Type) : Type :=
  handle_tm_sending : nat -> st (TmState S T) (TcpTmtcError TmE TcE) (option bool).

(** ** Sending telemetry

    The loop of both senders; [transmit] sends a packet. *)
Module TmLoop.
Section TmLoop.
Context {S T TmE TcE : Type} `{PacketSource TmE T}.
Abbreviation M := (st (TmState S T) (TcpTmtcError TmE TcE)).

Definition retrieve : M Z :=
  fun s =>
    match retrieve_packet (tms_buffer s) (tms_source s) with
    | (Ok (n, buf), src) => (Ok n, mkTmState (tms_sender s) buf src (tms_info s) (tms_stream s))
    | (Err e, src) => (Err (TmError e), mkTmState (tms_sender s) (tms_buffer s) src (tms_info s) (tms_stream s))
    | (Panic, src) => (Panic, mkTmState (tms_sender s) (tms_buffer s) src (tms_info s) (tms_stream s))
    end.

Definition count_tm : M unit :=
  fun s =>
    match ConnInfo.add_tm (tms_info s) with
    | Ok i => (Ok tt, mkTmState (tms_sender s) (tms_buffer s) (tms_source s) i (tms_stream s))
    | Err e => (Err e, s)
    | Panic => (Panic, s)
    end.

Definition write (d : list Z) : M unit :=
  fun s =>
    let '(r, str) := Stream.write_all d (tms_stream s) in
    (map_err Io r, mkTmState (tms_sender s) (tms_buffer s) (tms_source s) (tms_info s) str).

Fixpoint tm_loop (transmit : list Z -> M unit) (fuel : nat) (tm_was_sent : bool) : M (option bool) :=
  match fuel with
  | O => ret None
  | Datatypes.S fuel' =>
      let* read_tm_len := retrieve in
      if read_tm_len =? 0 then ret (Some tm_was_sent) else
      let* _ := count_tm in
      let* packet := asks (fun s => slice (tms_buffer s) 0 read_tm_len) in
      let* _ := transmit packet in
      tm_loop transmit fuel' true
  end.

End TmLoop.
End TmLoop.

(** [SpacepacketsTmSender] *)
Module SpacepacketsTm.
Section Sender.
Context {T TmE TcE : Type} `{PacketSource TmE T}.

Definition handle_tm_sending (fuel : nat) : st (TmState unit T) (TcpTmtcError TmE TcE) (option bool) :=
  TmLoop.tm_loop TmLoop.write fuel false.

End Sender.
End SpacepacketsTm.

(** [CobsTmSender] *)
Record CobsTmSender : Type := mkCobsTmSender { tm_encoding_buffer : list Z }.

Module CobsTm.
Section Sender.
(** [encode] and [max_encoding_length] of the [cobs] package. *)
Context (encode : list Z -> list Z) (max_encoding_length : Z -> Z).
Context {T TmE TcE : Type} `{PacketSource TmE T}.

Definition new (tm_buffer_size : Z) : CobsTmSender :=
  mkCobsTmSender (replicate (Z.to_nat (max_encoding_length tm_buffer_size)) 0).

(** The frame of a packet in the encoding buffer. *)
Definition encode_frame {E : Type} (packet buf : list Z) : res E (list Z * Z) :=
  let current_idx := 0 in
  let? buf := set_index buf current_idx 0 in
  let current_idx := current_idx + 1 in
  let enc := encode packet in
  let? buf := copy_into buf current_idx (current_idx + len enc) enc in
  let current_idx := current_idx + len enc in
  let? buf := set_index buf current_idx 0 in
  Ok (buf, current_idx + 1).

Definition transmit (packet : list Z) : st (TmState CobsTmSender T) (TcpTmtcError TmE TcE) unit :=
  let* r := asks (fun s => encode_frame packet (tm_encoding_buffer (tms_sender s))) in
  let* _ := modify_state (fun s =>
    mkTmState (mkCobsTmSender r.1) (tms_buffer s) (tms_source s) (tms_info s) (tms_stream s)) in
  let* frame := lift (slice r.1 0 r.2) in
  TmLoop.write frame.

Definition handle_tm_sending (fuel : nat)
    : st (TmState CobsTmSender T) (TcpTmtcError TmE TcE) (option bool) :=
  TmLoop.tm_loop transmit fuel false.

End Sender.
End CobsTm.

(** ** Parsing telecommands *)

(** [TcpTcParser] for every [SpacePacketValidator]. *)
Module SpacepacketsTc.
Section Parser.
Context {Hdr V : Type} (sp_from_be_bytes : list Z -> res ByteConversionError Hdr)
  (total_len : Hdr -> Z) (validate : V -> Hdr -> list Z -> SpValidity).
Context {Q TmE TcE : Type} `{PacketSenderRaw TcE Q}.

Definition handle_tc_parsing (tc_buffer : list Z) (sender_id : Z) (conn_result : HandledConnectionInfo)
    (current_write_idx next_write_idx : Z)
    : st (V * Q) (TcpTmtcError TmE TcE) (list Z * HandledConnectionInfo * Z) :=
  let* data := lift (slice tc_buffer 0 current_write_idx) in
  let* v := gets fst in
  let* parse_result := st_map_err TcError (on_snd
    (Ccsds.parse_buffer_for_ccsds_space_packets sp_from_be_bytes total_len (validate v) data sender_id)) in
  let* moved :=
    match incomplete_tail_start parse_result with
    | Some broken_tail_start =>
        let* tail := lift (slice tc_buffer broken_tail_start current_write_idx) in
        ret (splice tc_buffer 0 tail, current_write_idx - broken_tail_start)
    | None => ret (tc_buffer, next_write_idx)
    end in
  let* conn_result := lift (ConnInfo.add_tcs (packets_found parse_result) conn_result) in
  ret (moved.1, conn_result, moved.2).

End Parser.
End SpacepacketsTc.

(** [CobsTcParser] *)
Module CobsTc.
Section Parser.
Context (decode_in_place : list Z -> option Z * list Z).
Context {Q TmE TcE : Type} `{PacketSenderRaw TcE Q}.

Definition handle_tc_parsing (tc_buffer : list Z) (sender_id : Z) (conn_result : HandledConnectionInfo)
    (current_write_idx next_write_idx : Z)
    : st (unit * Q) (TcpTmtcError TmE TcE) (list Z * HandledConnectionInfo * Z) :=
  let* data := lift (slice tc_buffer 0 current_write_idx) in
  let* r := st_map_err TcError (on_snd
    (Cobs.parse_buffer_for_cobs_encoded_packets decode_in_place data sender_id next_write_idx)) in
  let '(found, data', next_write_idx') := r in
  let* conn_result := lift (ConnInfo.add_tcs found conn_result) in
  ret (splice tc_buffer 0 data', conn_result, next_write_idx').

End Parser.
End CobsTc.

(** ** The generic server *)

(** What the listener has to offer: a connection, or a failure; after that it
    would block. *)
Inductive AcceptEvent : Type :=
| Accepted (stream : TcpStream) (addr : Z)
| AcceptFails.

(** The connections to come and the streams of the finished ones. *)
Record TcpListener : Type := mkListener {
  pending : list AcceptEvent;
  served : list (Z * TcpStream);
}.

Record ServerConfig : Type := mkConfig {
  cfg_id : Z;
  cfg_tm_buffer_size : Z;
  cfg_tc_buffer_size : Z;
}.

(** [stop_signal] says whether there is one; its value comes with the events of a
    stream. *)
Record TcpTmtcGenericServer (T Q S P H : Type) : Type := mkServer {
  server_id : Z;
  finished_handler : H;
  listener : TcpListener;
  tm_source : T;
  tm_buffer : list Z;
  tc_sender : Q;
  tc_buffer : list Z;
  tc_handler : P;
  tm_handler : S;
  stop_signal : bool;
}.

Arguments mkServer {T Q S P H} _ _ _ _ _ _ _ _ _ _.
Arguments server_id {T Q S P H} _.
Arguments finished_handler {T Q S P H} _.
Arguments listener {T Q S P H} _.
Arguments tm_source {T Q S P H} _.
Arguments tm_buffer {T Q S P H} _.
Arguments tc_sender {T Q S P H} _.
Arguments tc_buffer {T Q S P H} _.
Arguments tc_handler {T Q S P H} _.
Arguments tm_handler {T Q S P H} _.
Arguments stop_signal {T Q S P H} _.

Module GenericServer.
Section Server.
Context {T Q S P H TmE TcE : Type}.
Context `{HP : TcpTcParser P Q TmE TcE} `{HS : TcpTmSender S T TmE TcE} `{HH : HandledConnectionHandler H}.
Abbreviation server := (TcpTmtcGenericServer T Q S P H).

(** The buffers of the configured sizes; the socket is the listener's business. *)
Definition new (cfg : ServerConfig) (tc_parser : P) (tm_sender : S) (tm_source : T) (tc_receiver : Q)
    (finished_handler : H) (l : TcpListener) (stop_signal : bool) : server :=
  mkServer (cfg_id cfg) finished_handler l tm_source (replicate (Z.to_nat (cfg_tm_buffer_size cfg)) 0)
    tc_receiver (replicate (Z.to_nat (cfg_tc_buffer_size cfg)) 0) tc_parser tm_sender stop_signal.

(** *** One connection *)
Abbreviation M := (st (server * TcpStream) (TcpTmtcError TmE TcE)).

Definition set_tc_buffer (b : list Z) (s : server) : server :=
  mkServer (server_id s) (finished_handler s) (listener s) (tm_source s) (tm_buffer s) (tc_sender s) b
    (tc_handler s) (tm_handler s) (stop_signal s).

(** The call of [handle_tc_parsing] with the parts of the server. *)
Definition parse (info : HandledConnectionInfo) (current_write_idx next_write_idx : Z)
    : M (HandledConnectionInfo * Z) :=
  fun x =>
    let s := x.1 in
    let '(r, (p, q)) := handle_tc_parsing (tc_buffer s) (server_id s) info current_write_idx next_write_idx
                          (tc_handler s, tc_sender s) in
    let s' b := mkServer (server_id s) (finished_handler s) (listener s) (tm_source s) (tm_buffer s) q b p
                  (tm_handler s) (stop_signal s) in
    match r with
    | Ok (b, info', next) => (Ok (info', next), (s' b, x.2))
    | Err e => (Err e, (s' (tc_buffer s), x.2))
    | Panic => (Panic, (s' (tc_buffer s), x.2))
    end.

(** The call of [handle_tm_sending]. *)
Definition send_tms (fuel : nat) (info : HandledConnectionInfo) : M (option bool * HandledConnectionInfo) :=
  fun x =>
    let s := x.1 in
    let '(r, y) := handle_tm_sending fuel (mkTmState (tm_handler s) (tm_buffer s) (tm_source s) info x.2) in
    (res_map (fun b => (b, tms_info y)) r,
     (mkServer (server_id s) (finished_handler s) (listener s) (tms_source y) (tms_buffer y) (tc_sender s)
        (tc_buffer s) (tc_handler s) (tms_sender y) (stop_signal s), tms_stream y)).

Definition finish (info : HandledConnectionInfo) : M unit :=
  on_fst (modify_state (fun s =>
    mkServer (server_id s) (handled_connection info (finished_handler s)) (listener s) (tm_source s)
      (tm_buffer s) (tc_sender s) (tc_buffer s) (tc_handler s) (tm_handler s) (stop_signal s))).

(** [stream.read(&mut self.tc_buffer[current_write_idx..])] *)
Definition read_tcs (current_write_idx : Z) : M (res ErrorKind (list Z)) :=
  let* room := asks (fun x => slice (tc_buffer x.1) current_write_idx (len (tc_buffer x.1))) in
  let* r := on_snd (attempt (Stream.read (len room))) in
  match r with
  | Ok data =>
      let* _ := on_fst (modify_state (fun s => set_tc_buffer (splice (tc_buffer s) current_write_idx data) s)) in
      ret r
  | _ => ret r
  end.

(** The end of the loop: left by [break], with the connection info, or the
    function has returned. *)
Inductive LoopEnd : Type :=
| Closed (info : HandledConnectionInfo)
| Stopped.

(** Without data: parse, send telemetry, look at the stop signal.  Gives the
    result of the loop or its variables. *)
Definition on_no_data (tm_fuel : nat) (info : HandledConnectionInfo) (current_write_idx next_write_idx : Z)
    : M (option (LoopEnd + HandledConnectionInfo * Z)) :=
  let* r := parse info current_write_idx next_write_idx in
  let* t := send_tms tm_fuel r.1 in
  match t.1 with
  | None => ret None
  | Some true => ret (Some (inr (t.2, r.2)))
  | Some false =>
      let* x := gets (fun x => stop_signal x.1 && signal x.2) in
      if x : bool then
        let* _ := finish (ConnInfo.stop t.2) in ret (Some (inl Stopped))
      else ret (Some (inr (t.2, r.2)))
  end.

Fixpoint conn_loop (fuel tm_fuel : nat) (info : HandledConnectionInfo) (current_write_idx next_write_idx : Z)
    : M (option LoopEnd) :=
  match fuel with
  | O => ret None
  | Datatypes.S fuel' =>
      let* read_result := read_tcs current_write_idx in
      match read_result with
      | Ok [] =>
          if 0 <? current_write_idx then
            let* r := parse info current_write_idx next_write_idx in ret (Some (Closed r.1))
          else ret (Some (Closed info))
      | Ok data =>
          let current_write_idx := current_write_idx + len data in
          let* capacity := gets (fun x => len (tc_buffer x.1)) in
          if current_write_idx =? capacity then
            let* r := parse info current_write_idx next_write_idx in
            conn_loop fuel' tm_fuel r.1 r.2 r.2
          else conn_loop fuel' tm_fuel info current_write_idx next_write_idx
      | Err WouldBlock | Err TimedOut =>
          let* r := on_no_data tm_fuel info current_write_idx next_write_idx in
          match r with
          | None => ret None
          | Some (inl e) => ret (Some e)
          | Some (inr (info, next_write_idx)) => conn_loop fuel' tm_fuel info next_write_idx next_write_idx
          end
      | Err e => throw (Io e)
      | Panic => lift Panic
      end
  end.

Definition handle_accepted_connection (fuel tm_fuel : nat) (addr : Z) : M (option unit) :=
  let* r := conn_loop fuel tm_fuel (ConnInfo.new addr) 0 0 in
  match r with
  | None => ret None
  | Some Stopped => ret (Some tt)
  | Some (Closed info) =>
      let* t := send_tms tm_fuel info in
      match t.1 with
      | None => ret None
      | Some _ => let* _ := finish t.2 in ret (Some tt)
      end
  end.

(** *** All connections *)
Definition set_listener (l : TcpListener) (s : server) : server :=
  mkServer (server_id s) (finished_handler s) l (tm_source s) (tm_buffer s) (tc_sender s) (tc_buffer s)
    (tc_handler s) (tm_handler s) (stop_signal s).

(** [self.listener.accept()] *)
Definition accept : st server (TcpTmtcError TmE TcE) (res ErrorKind (TcpStream * Z)) :=
  fun s =>
    match pending (listener s) with
    | [] => (Ok (Err WouldBlock), s)
    | Accepted stream addr :: l => (Ok (Ok (stream, addr)), set_listener (mkListener l (served (listener s))) s)
    | AcceptFails :: l => (Ok (Err OtherKind), set_listener (mkListener l (served (listener s))) s)
    end.

(** The stream is dropped when its connection was handled. *)
Definition serve (fuel tm_fuel : nat) (stream : TcpStream) (addr : Z)
    : st server (TcpTmtcError TmE TcE) (option unit) :=
  fun s =>
    let '(r, (s', stream')) := handle_accepted_connection fuel tm_fuel addr (s, stream) in
    (r, set_listener (mkListener (pending (listener s')) (served (listener s') ++ [(addr, stream')])) s').

(** [reregister] is the result of [reregister_poll_interest]. *)
Fixpoint accept_loop (reregister : res ErrorKind unit) (n fuel tm_fuel : nat) (handled_connections : Z)
    : st server (TcpTmtcError TmE TcE) (option Z) :=
  match n with
  | O => ret None
  | Datatypes.S n' =>
      let* a := accept in
      match a with
      | Ok (stream, addr) =>
          let* r := attempt (serve fuel tm_fuel stream addr) in
          match r with
          | Err e =>
              let* _ := lift (map_err Io reregister) in throw e
          | Ok None => ret None
          | _ =>
              let* h := lift (checked_add 32 handled_connections 1) in
              accept_loop reregister n' fuel tm_fuel h
          end
      | Err WouldBlock => ret (Some handled_connections)
      | Err err =>
          let* _ := lift (map_err Io reregister) in throw (Io err)
      | Panic => lift Panic
      end
  end.

(** [poll] gives the tokens of the events. *)
Definition handle_all_connections (poll : res ErrorKind (list Z)) (reregister : res ErrorKind unit)
    (n fuel tm_fuel : nat) : st server (TcpTmtcError TmE TcE) (option ConnectionResult) :=
  let* events := lift (map_err Io poll) in
  let* acceptable_connection :=
    (if forallb (fun token => token =? 0) events
     then ret (match events with [] => false | _ => true end) else lift Panic) in
  let* handled_connections :=
    (if acceptable_connection : bool then accept_loop reregister n fuel tm_fuel 0 else ret (Some 0)) in
  match handled_connections with
  | None => ret None
  | Some h => ret (Some (if 0 <? h then HandledConnections h else AcceptTimeout))
  end.

End Server.
End GenericServer.

(** ** The two servers *)

(** [TcpSpacepacketsServer::new] *)
Definition spacepackets_server_new {T Q V H : Type} (cfg : ServerConfig) (tm_source : T) (tc_sender : Q)
    (validator : V) (handled_connection_hook : H) (l : TcpListener) (stop_signal : bool)
    : TcpTmtcGenericServer T Q unit V H :=
  GenericServer.new cfg validator tt tm_source tc_sender handled_connection_hook l stop_signal.

(** [TcpTmtcInCobsServer::new] *)
Definition cobs_server_new {T Q H : Type} (max_encoding_length : Z -> Z) (cfg : ServerConfig) (tm_source : T)
    (tc_receiver : Q) (handled_connection : H) (l : TcpListener) (stop_signal : bool)
    : TcpTmtcGenericServer T Q CobsTmSender unit H :=
  GenericServer.new cfg tt (CobsTm.new max_encoding_length (cfg_tm_buffer_size cfg)) tm_source tc_receiver
    handled_connection l stop_signal.

(** ** The server of the example *)
Record SyncTcpTmSource : Type := mkTmSource {
  tm_queue : list (list Z);
  max_packets_stored : Z;
  silent_packet_overwrite : bool;
}.

Module TmSource.

Definition new (max_packets_stored : Z) : SyncTcpTmSource := mkTmSource [] max_packets_stored true.

Definition set_queue (q : list (list Z)) (s : SyncTcpTmSource) : SyncTcpTmSource :=
  mkTmSource q (max_packets_stored s) (silent_packet_overwrite s).

Definition add_tm (tm : list Z) (s : SyncTcpTmSource) : SyncTcpTmSource :=
  let q := if max_packets_stored s <? len (tm_queue s) then tail (tm_queue s) else tm_queue s in
  set_queue (q ++ [tm]) s.

Definition retrieve_packet (buffer : list Z) : st SyncTcpTmSource unit (Z * list Z) :=
  fun s =>
    match tm_queue s with
    | next_vec :: q =>
        if len buffer <? len next_vec then (Panic, s) else
        match copy_into buffer 0 (len next_vec) next_vec with
        | Ok buffer' => (Ok (len next_vec, buffer'), set_queue q s)
        | Err e => (Err e, set_queue q s)
        | Panic => (Panic, set_queue q s)
        end
    | [] => (Ok (0, buffer), s)
    end.

End TmSource.

#[export] Instance SyncTcpTmSource_source : PacketSource unit SyncTcpTmSource := TmSource.retrieve_packet.

(** [SimplePacketValidator]; [packet_id] is the one of [spacepackets]. *)
Record SimplePacketValidator : Type := mkValidator { valid_ids : gset Z }.

Definition simple_validate {Hdr : Type} (packet_id : Hdr -> Z) (v : SimplePacketValidator) (sp_header : Hdr)
    (_raw_buf : list Z) : SpValidity :=
  if bool_decide (packet_id sp_header ∈ valid_ids v) then Valid else Skip.

(** [ConnectionFinishedHandler] logs the info. *)
#[export] Instance log_info : HandledConnectionHandler (list HandledConnectionInfo) := fun i l => l ++ [i].

(** [TcpTask::new] *)
Definition tcp_task_new {Q : Type} (cfg : ServerConfig) (tm_source : SyncTcpTmSource) (tc_sender : Q)
    (ids : gset Z) (l : TcpListener)
    : TcpTmtcGenericServer SyncTcpTmSource Q unit SimplePacketValidator (list HandledConnectionInfo) :=
  spacepackets_server_new cfg tm_source tc_sender (mkValidator ids) [] l false.

(** One turn of the loop of [TcpTask::periodic_operation], which never ends; an
    error is logged. *)
Definition tcp_task_turn {T Q S P H TmE TcE : Type} `{TcpTcParser P Q TmE TcE} `{TcpTmSender S T TmE TcE}
    `{HandledConnectionHandler H} (poll : res ErrorKind (list Z)) (reregister : res ErrorKind unit)
    (n fuel tm_fuel : nat) : st (TcpTmtcGenericServer T Q S P H) Empty_set (option unit) :=
  let* r := attempt (GenericServer.handle_all_connections poll reregister n fuel tm_fuel) in
  ret (match r with Ok None => None | _ => Some tt end).

(** * Interfaces the generic server is proved against *)

(** A parser that understands [data] as [packets] forwards them and leaves nothing
    in the buffer. *)
Class BurstParser {P TmE : Type} `{TcpTcParser P (channel PacketAsVec) TmE GenericSendError}
    (good : P -> list Z -> list (list Z) -> Prop) : Prop := {
  burst_nil p packets : good p [] packets <-> packets = [];
  burst_parsed p b id info data packets q next :
    good p data packets -> take (length data) b = data -> len b < u32_max -> rx_alive q = true ->
    num_received_tcs info + len packets <= u32_max ->
    exists b', handle_tc_parsing b id info (len data) next (p, q) =
      (Ok (b', mkInfo (info_addr info) (num_received_tcs info + len packets) (num_sent_tms info)
                 (stopped_by_signal info), next), (p, forwarded id packets q)) /\
      length b' = length b;
}.

(** A packet the source can hand out and the sender can send. *)
Definition sendable {S : Type} (fits : S -> list Z -> Prop) (sender : S) (buffer : list Z) (tm : list Z) : Prop :=
  tm <> [] /\ len tm <= len buffer /\ fits sender tm.

(** A sender that empties the source, each packet in its format. *)
Class TmFormat {S TcE : Type} `{TcpTmSender S SyncTcpTmSource unit TcE} (fmt : list Z -> list Z)
    (fits : S -> list Z -> Prop) : Prop := {
  tms_sent fuel sender buffer src info str :
    (length (tm_queue src) < fuel)%nat -> Forall (sendable fits sender buffer) (tm_queue src) ->
    writable str = true -> num_sent_tms info + len (tm_queue src) <= u32_max ->
    exists sender' buffer',
      handle_tm_sending fuel (mkTmState sender buffer src info str) =
        (Ok (Some (match tm_queue src with [] => false | _ => true end)),
         mkTmState sender' buffer' (TmSource.set_queue [] src)
           (mkInfo (info_addr info) (num_received_tcs info) (num_sent_tms info + len (tm_queue src))
              (stopped_by_signal info))
           (mkStream (incoming str) (outgoing str ++ concat (fmt <$> tm_queue src)) true (signal str) (hangs_up str))) /\
      length buffer' = length buffer /\ (forall tm, fits sender tm -> fits sender' tm);
}.

(** What was written to the front of a buffer. *)
Lemma slice_splice {E} (b d : list Z) : slice (E:=E) (splice b 0 d) 0 (len d) = Ok d.
Proof. unfold splice. cbn [Z.to_nat take app]. by apply (slice_at [] d). Qed.

(** ** The senders implement theirs *)
Section TmLoops.
Context {S TcE : Type} (fmt : list Z -> list Z) (fits : S -> list Z -> Prop).
Context (transmit : list Z -> st (TmState S SyncTcpTmSource) (TcpTmtcError unit TcE) unit).
Hypothesis transmit_ok : forall tm sender buffer src info str,
  fits sender tm -> writable str = true ->
  exists sender', transmit tm (mkTmState sender buffer src info str) =
    (Ok tt, mkTmState sender' buffer src info
       (mkStream (incoming str) (outgoing str ++ fmt tm) true (signal str) (hangs_up str))) /\
    (forall tm', fits sender tm' -> fits sender' tm').

Lemma retrieve_next sender buffer tm q max silent info str :
  len tm <= len buffer ->
  TmLoop.retrieve (S:=S) (TcE:=TcE) (mkTmState sender buffer (mkTmSource (tm :: q) max silent) info str) =
    (Ok (len tm), mkTmState sender (splice buffer 0 tm) (mkTmSource q max silent) info str).
Proof using.
  intros Hl. unfold TmLoop.retrieve, retrieve_packet, SyncTcpTmSource_source, TmSource.retrieve_packet.
  cbn [tms_buffer tms_source tm_queue]. destruct (Z.ltb_spec (len buffer) (len tm)); [lia|].
  by rewrite copy_into_ok by lia.
Qed.

Lemma tm_loop_sends fuel : forall sent sender buffer src info str,
  (length (tm_queue src) < fuel)%nat -> Forall (sendable fits sender buffer) (tm_queue src) ->
  writable str = true -> num_sent_tms info + len (tm_queue src) <= u32_max ->
  exists sender' buffer',
    TmLoop.tm_loop transmit fuel sent (mkTmState sender buffer src info str) =
      (Ok (Some (match tm_queue src with [] => sent | _ => true end)),
       mkTmState sender' buffer' (TmSource.set_queue [] src)
         (mkInfo (info_addr info) (num_received_tcs info) (num_sent_tms info + len (tm_queue src))
            (stopped_by_signal info))
         (mkStream (incoming str) (outgoing str ++ concat (fmt <$> tm_queue src)) true (signal str) (hangs_up str))) /\
    length buffer' = length buffer /\ (forall tm, fits sender tm -> fits sender' tm).
Proof using transmit_ok.
  induction fuel as [|fuel IH]; intros sent sender buffer [q max silent] info str Hf Hall Hw Hn; [lia|].
  cbn [tm_queue] in *. destruct q as [|tm q].
  - exists sender, buffer. split; [|done]. destruct info, str. cbn in *. subst. rewrite app_nil_r, Z.add_0_r. done.
  - apply Forall_cons in Hall as [(Hne & Hl & Hfit) Hall].
    destruct (transmit_ok tm sender (splice buffer 0 tm) (mkTmSource q max silent)
      (mkInfo (info_addr info) (num_received_tcs info) (num_sent_tms info + 1) (stopped_by_signal info))
      str Hfit Hw) as (s1 & Ht & Hk).
    assert (Hlb : length (splice buffer 0 tm) = length buffer) by (apply length_splice; lia).
    cbn [TmLoop.tm_loop]. unfold st_bind at 1. rewrite retrieve_next by done.
    destruct (Z.eqb_spec (len tm) 0) as [He|_]; [by destruct tm|].
    unfold st_bind at 1, TmLoop.count_tm, ConnInfo.add_tm, checked_add. cbn [tms_info].
    rewrite len_cons in Hn. pose proof (len_nonneg q).
    rewrite (proj2 (Z.ltb_lt _ (2 ^ 32))) by (unfold u32_max in Hn; lia). cbn [res_bind].
    unfold st_bind at 1, asks. cbn [tms_buffer tms_sender tms_source tms_stream].
    rewrite slice_splice. unfold st_bind at 1. rewrite Ht.
    destruct (IH true s1 (splice buffer 0 tm) (mkTmSource q max silent)
      (mkInfo (info_addr info) (num_received_tcs info) (num_sent_tms info + 1) (stopped_by_signal info))
      (mkStream (incoming str) (outgoing str ++ fmt tm) true (signal str) (hangs_up str))) as (s2 & b2 & Hrun & Hb & Hk2);
      [cbn in *; lia| |done|cbn [num_sent_tms tm_queue]; lia|].
    { eapply Forall_impl; [exact Hall|]. intros x (? & ? & ?). split_and!; [done|unfold len in *; lia|auto]. }
    exists s2, b2. rewrite Hrun. cbn [tm_queue incoming outgoing signal num_sent_tms info_addr num_received_tcs
      stopped_by_signal fmap list_fmap concat]. split; [|split; [lia|auto]].
    rewrite <- app_assoc, len_cons, Z.add_assoc. by destruct q.
Qed.

End TmLoops.

#[export] Instance SpacepacketsTm_sender {T TmE TcE} `{PacketSource TmE T} : TcpTmSender unit T TmE TcE :=
  SpacepacketsTm.handle_tm_sending.

#[export] Instance SpacepacketsTm_format {TcE} : TmFormat (TcE:=TcE) (fun tm => tm) (fun (_ : unit) _ => True).
Proof.
  constructor. intros fuel sender buffer src info str Hf Hall Hw Hn.
  apply (tm_loop_sends (fun tm => tm) (fun (_ : unit) _ => True) TmLoop.write); try done.
  intros tm s b sr i st _ Hw'. exists s. split; [|done]. unfold TmLoop.write, Stream.write_all. cbn. by rewrite Hw'.
Qed.

Section CobsFormat.
Context (encode : list Z -> list Z) (max_encoding_length : Z -> Z).

(** The encoding buffer has room for the frame. *)
Definition frame_fits (s : CobsTmSender) (tm : list Z) : Prop :=
  len (frame encode tm) <= len (tm_encoding_buffer s).

Lemma encode_frame_ok {E} tm buf :
  len (frame encode tm) <= len buf ->
  CobsTm.encode_frame (E:=E) encode tm buf = Ok (splice buf 0 (frame encode tm), len (frame encode tm)).
Proof using.
  unfold frame. rewrite len_cons, len_app. change (len [0]) with 1. intros Hl.
  destruct (room_split buf (length (encode tm))) as (r0 & old & r1 & room & -> & Ho); [unfold len in *; lia|].
  assert (Hle : len (encode tm) = len old) by (unfold len; lia).
  pose proof (set_index_app (E:=E) [] r0 0 (old ++ r1 :: room)) as H1.
  pose proof (copy_into_app (E:=E) [0] old (encode tm) (r1 :: room) (eq_sym Ho)) as H2.
  pose proof (set_index_app (E:=E) (0 :: encode tm) r1 0 room) as H3.
  change (len []) with 0 in H1. change (len [0]) with 1 in H2. cbn [app] in *.
  unfold CobsTm.encode_frame. cbv zeta. change (0 + 1) with 1. rewrite H1. cbn [res_bind]. rewrite Hle, H2. cbn [res_bind].
  rewrite len_cons, Hle in H3. rewrite H3. cbn [res_bind]. do 2 f_equal; [|lia].
  unfold splice. cbn [Z.to_nat take app]. f_equal. rewrite length_cons, length_app. cbn [length].
  rewrite <- app_assoc. f_equal. cbn [Nat.add drop app].
  replace (length (encode tm) + 1)%nat with (length (old ++ [r1])) by (rewrite length_app; cbn; lia).
  change (Z.to_nat 0) with 0%nat. cbn [Nat.add drop take app].
  rewrite (cons_middle r1 old room), app_assoc, drop_app_length. done.
Qed.

Definition CobsTm_sender {T TmE TcE} `{PacketSource TmE T} : TcpTmSender CobsTmSender T TmE TcE :=
  CobsTm.handle_tm_sending encode.
#[local] Existing Instance CobsTm_sender.

#[export] Instance CobsTm_format {TcE} : TmFormat (H:=CobsTm_sender (TcE:=TcE)) (frame encode) frame_fits.
Proof.
  constructor. intros fuel sender buffer src info str Hf Hall Hw Hn.
  apply (tm_loop_sends (frame encode) frame_fits (CobsTm.transmit encode)); try done.
  intros tm s b sr i st Hfit Hw'. exists (mkCobsTmSender (splice (tm_encoding_buffer s) 0 (frame encode tm))).
  split.
  - unfold CobsTm.transmit, st_bind, asks, modify_state, lift. cbn [tms_sender].
    rewrite encode_frame_ok by done. cbn [fst snd tms_buffer tms_source tms_info tms_stream].
    rewrite slice_splice. unfold TmLoop.write, Stream.write_all. cbn. by rewrite Hw'.
  - intros tm'. unfold frame_fits. cbn [tm_encoding_buffer]. unfold len at 2 4.
    rewrite length_splice; [done|lia|]. unfold frame_fits in Hfit. lia.
Qed.

End CobsFormat.

(** ** The parsers implement theirs *)

(** A number that fits into the counter of the received telecommands. *)
Lemma add_tcs_ok {E} n i :
  num_received_tcs i + n <= u32_max ->
  ConnInfo.add_tcs (E:=E) n i =
    Ok (mkInfo (info_addr i) (num_received_tcs i + n) (num_sent_tms i) (stopped_by_signal i)).
Proof.
  intros Hn. unfold ConnInfo.add_tcs, checked_add.
  by rewrite (proj2 (Z.ltb_lt _ (2 ^ 32))) by (unfold u32_max in Hn; lia).
Qed.

Lemma front_data {E} (b data : list Z) :
  take (length data) b = data -> slice (E:=E) b 0 (len data) = Ok data.
Proof. intros <-. rewrite <- (take_drop (length data) b) at 1. by apply (slice_at []). Qed.

Section SpacepacketsBurst.
Context {Hdr V : Type} (sp_from_be_bytes : list Z -> res ByteConversionError Hdr)
  (total_len : Hdr -> Z) (validate : V -> Hdr -> list Z -> SpValidity).
Hypothesis total_len_min : forall hdr, 7 <= total_len hdr.

Definition SpacepacketsTc_parser {TmE} : TcpTcParser V (channel PacketAsVec) TmE GenericSendError :=
  SpacepacketsTc.handle_tc_parsing sp_from_be_bytes total_len validate.

(** Whole packets, and perhaps less than a header. *)
Definition whole_packets (v : V) (data : list Z) (packets : list (list Z)) : Prop :=
  segments sp_from_be_bytes total_len (validate v) data packets None.

#[export] Instance SpacepacketsTc_burst {TmE} : BurstParser (H:=SpacepacketsTc_parser (TmE:=TmE)) whole_packets.
Proof using total_len_min.
  constructor.
  { intros p packets. split; [|intros ->; by constructor]. intros Hs.
    inversion Hs as [|packet rest ps t (Hh & _)| |packet rest ps t (Hh & _)| |]; subst; try done;
      match goal with He : packet ++ rest = [] |- _ => rewrite He in Hh; done end. }
  intros p b id info data packets q next Hgood Hb Hl Hq Hn. exists b. split; [|done].
  assert (Hd : len data <= len b) by (rewrite <- Hb; unfold len; rewrite length_take; lia).
  pose proof (ccsds_parse_segments _ _ (validate p) data packets None id q total_len_min ltac:(lia) Hgood) as Hp.
  rewrite Hq in Hp. unfold handle_tc_parsing, SpacepacketsTc_parser, SpacepacketsTc.handle_tc_parsing.
  unfold st_bind, lift, gets, st_map_err, on_snd. rewrite (front_data b data Hb). cbn [fst snd].
  rewrite Hp. cbn [map_err incomplete_tail_start packets_found ret fst snd].
  by rewrite add_tcs_ok.
Qed.

End SpacepacketsBurst.

Section CobsBurst.
Context (encode : list Z -> list Z) (max_encoding_length : Z -> Z)
  (decode_in_place : list Z -> option Z * list Z).

Definition CobsTc_parser {TmE} : TcpTcParser unit (channel PacketAsVec) TmE GenericSendError :=
  CobsTc.handle_tc_parsing decode_in_place.

(** Whole frames. *)
Definition whole_frames (_ : unit) (data : list Z) (packets : list (list Z)) : Prop :=
  data = frames encode packets /\ Forall (cobs_ok encode max_encoding_length decode_in_place) packets.

Lemma frames_count packets : len packets <= len (frames encode packets).
Proof using.
  induction packets as [|p ps IH]; [done|]. unfold frames in *. rewrite fmap_cons. cbn [concat].
  rewrite len_app, len_cons. unfold frame at 1. rewrite len_cons, len_app. pose proof (len_nonneg (encode p)).
  change (len [0]) with 1. lia.
Qed.

#[export] Instance CobsTc_burst {TmE} : BurstParser (H:=CobsTc_parser (TmE:=TmE)) whole_frames.
Proof.
  constructor.
  { intros p packets. split; [|intros ->; by split]. intros [Hf _]. pose proof (frames_count packets) as Hc.
    rewrite <- Hf in Hc. destruct packets; [done|]. rewrite len_cons in Hc. unfold len in Hc. cbn in Hc. lia. }
  intros p b id info data packets q next [-> Hok] Hb Hl Hq Hn.
  pose proof (len_nonneg packets).
  destruct (cobs_parse_frames encode max_encoding_length decode_in_place packets [] id next q Hok)
    as (buf' & Hp & Hlb & _); [by left|done| |].
  { pose proof (frames_count packets). assert (len (frames encode packets) <= len b); [|lia].
    rewrite <- Hb. unfold len. rewrite length_take. lia. }
  rewrite app_nil_r in *. rewrite decide_False in Hp by tauto.
  exists (splice b 0 buf'). split.
  - unfold handle_tc_parsing, CobsTc_parser, CobsTc.handle_tc_parsing.
    unfold st_bind, lift, st_map_err, on_snd. rewrite (front_data b _ Hb). cbn [fst snd].
    rewrite Hp. cbn [map_err]. by rewrite add_tcs_ok.
  - apply length_splice; [lia|]. unfold len. rewrite Hlb, <- Hb, length_take. lia.
Qed.

End CobsBurst.
