(* ===== verification/TcpConnection.v ===== *)
(** * Connections of the TCP servers

    What the generic server does with a connection and with all clients that wait
    for it, proved against the interfaces of the parser and of the telemetry
    sender, for the servers for space packets and for COBS frames; a connection
    ends; and what happens to data that arrives in pieces. *)

From Stdlib Require Import ZArith Lia Bool.
From stdpp Require Import base list gmap.
From S2P Require Import Prelude Spacepackets Tmtc Encoding TcpServer.

Local Open Scope Z_scope.

(** ** A connection *)

(** Data that arrives in chunks before the server runs out of it. *)
Record Burst : Type := mkBurst {
  chunks : list (list Z);
  blocked : ErrorKind;
  burst_packets : list (list Z);
}.

Definition burst_events (b : Burst) : list ReadEvent := (Arrives <$> chunks b) ++ [NoData (blocked b) false].

Definition script (bs : list Burst) : list ReadEvent := concat (burst_events <$> bs).

Section Connection.
Context {S P H : Type} {HP : TcpTcParser P (channel PacketAsVec) unit GenericSendError}
  {HS : TcpTmSender S SyncTcpTmSource unit GenericSendError} {HH : HandledConnectionHandler H}.
Context (good : P -> list Z -> list (list Z) -> Prop) (fmt : list Z -> list Z) (fits : S -> list Z -> Prop).
Context {HB : BurstParser good} {HF : TmFormat fmt fits}.
Abbreviation server := (TcpTmtcGenericServer SyncTcpTmSource (channel PacketAsVec) S P H).
Abbreviation conn_loop := (GenericServer.conn_loop (T:=SyncTcpTmSource) (S:=S) (P:=P) (H:=H)).
Implicit Types (s : server) (str : TcpStream) (x : server * TcpStream) (info : HandledConnectionInfo).

(** Somebody receives the telecommands, the client can be written to and the
    telemetry can be sent. *)
Record healthy x : Prop := mkHealthy {
  h_rx : rx_alive (tc_sender x.1) = true;
  h_writable : writable x.2 = true;
  h_tms : Forall (sendable fits (tm_handler x.1) (tm_buffer x.1)) (tm_queue (tm_source x.1));
  h_buf : len (tc_buffer x.1) < u32_max;
}.

(** What a part of a connection has done: packets went to the receiver, telemetry
    to the client. *)
Record progress (packets tms : list (list Z)) x x' : Prop := mkProgress {
  p_healthy : healthy x';
  p_same : server_id x'.1 = server_id x.1 /\ finished_handler x'.1 = finished_handler x.1 /\
    listener x'.1 = listener x.1 /\ stop_signal x'.1 = stop_signal x.1 /\ tc_handler x'.1 = tc_handler x.1 /\
    length (tc_buffer x'.1) = length (tc_buffer x.1);
  p_tcs : tc_sender x'.1 = forwarded (server_id x.1) packets (tc_sender x.1);
  p_tms : tm_queue (tm_source x.1) = tms ++ tm_queue (tm_source x'.1);
  p_out : outgoing x'.2 = outgoing x.2 ++ concat (fmt <$> tms);
  p_hangs_up : hangs_up x'.2 = hangs_up x.2;
}.

Lemma forwarded_app id ps ps' q : forwarded id ps' (forwarded id ps q) = forwarded id (ps ++ ps') q.
Proof using. unfold forwarded, Channel.set_queue. cbn. by rewrite fmap_app, app_assoc. Qed.

Lemma progress_refl x : healthy x -> progress [] [] x x.
Proof using. intros Hx. by split; rewrite ?forwarded_nil, ?app_nil_r. Qed.

Lemma progress_trans ps ps' ts ts' x y z :
  progress ps ts x y -> progress ps' ts' y z -> progress (ps ++ ps') (ts ++ ts') x z.
Proof using.
  intros [_ (? & ? & ? & ? & ? & ?) Htc Htm Ho Hu] [Hz (Hid & ? & ? & ? & ? & ?) Htc' Htm' Ho' Hu'].
  split; [done|by split_and!; etrans| | | |by etrans].
  - rewrite Htc', Htc. replace (server_id y.1) with (server_id x.1) by done. by rewrite forwarded_app.
  - by rewrite Htm, Htm', app_assoc.
  - by rewrite Ho', Ho, fmap_app, concat_app, app_assoc.
Qed.

(** The info after [n] telecommands and [m] telemetry packets. *)
Definition counted (n m : Z) info : HandledConnectionInfo :=
  mkInfo (info_addr info) (num_received_tcs info + n) (num_sent_tms info + m) (stopped_by_signal info).

(** Reading, by what happens on the stream. *)
Lemma read_arrives cur c rest s str :
  0 <= cur -> cur + len c <= len (tc_buffer s) -> c <> [] -> incoming str = Arrives c :: rest ->
  GenericServer.read_tcs (H:=H) (S:=S) (P:=P) (TmE:=unit) (TcE:=GenericSendError) cur (s, str) =
    (Ok (Ok c), (GenericServer.set_tc_buffer (splice (tc_buffer s) cur c) s, Stream.set_incoming rest str)).
Proof using.
  intros Hcur Hl Hc Hin.
  assert (0 < len c) by (destruct c as [|? c]; [done|]; rewrite len_cons; pose proof (len_nonneg c); lia).
  unfold GenericServer.read_tcs, st_bind, asks, on_snd, on_fst, attempt, modify_state, Stream.read. cbn [fst snd].
  rewrite slice_ok by lia. rewrite take_ge by (rewrite length_drop; unfold len in *; lia).
  assert (Hlen : len (drop (Z.to_nat cur) (tc_buffer s)) = len (tc_buffer s) - cur)
    by (unfold len in *; rewrite length_drop; lia).
  rewrite Hlen. destruct (Z.eqb_spec (len (tc_buffer s) - cur) 0); [lia|]. rewrite Hin.
  rewrite take_ge, drop_ge by (unfold len in *; lia). done.
Qed.

Lemma read_blocked cur kind stop rest s str :
  0 <= cur < len (tc_buffer s) -> incoming str = NoData kind stop :: rest ->
  GenericServer.read_tcs (H:=H) (S:=S) (P:=P) (TmE:=unit) (TcE:=GenericSendError) cur (s, str) =
    (Ok (Err kind), (s, mkStream rest (outgoing str) (writable str) stop (hangs_up str))).
Proof using.
  intros Hcur Hin. unfold GenericServer.read_tcs, st_bind, asks, on_snd, attempt, Stream.read. cbn [fst snd].
  rewrite slice_ok by lia. rewrite take_ge by (rewrite length_drop; unfold len in *; lia).
  destruct (Z.eqb_spec (len (drop (Z.to_nat cur) (tc_buffer s))) 0) as [He|_];
    [unfold len in *; rewrite length_drop in He; lia|]. by rewrite Hin.
Qed.

Lemma read_closed cur s str :
  0 <= cur <= len (tc_buffer s) -> incoming str = [] -> hangs_up str = true ->
  GenericServer.read_tcs (H:=H) (S:=S) (P:=P) (TmE:=unit) (TcE:=GenericSendError) cur (s, str) =
    (Ok (Ok []), (s, str)).
Proof using.
  intros Hcur Hin Hup. unfold GenericServer.read_tcs, st_bind, asks, on_snd, on_fst, attempt, modify_state, Stream.read.
  cbn [fst snd]. rewrite slice_ok by lia. rewrite Hin, Hup.
  assert (Hs : splice (tc_buffer s) cur [] = tc_buffer s)
    by (unfold splice; cbn [app length]; by rewrite Nat.add_0_r, take_drop).
  destruct (_ =? 0); cbn [fst snd]; rewrite Hs; by destruct s.
Qed.

(** Chunks are collected in the buffer. *)
Lemma chunks_run fuel tm_fuel info next rest cs : forall d s str,
  Forall (fun c => c <> []) cs -> take (length d) (tc_buffer s) = d ->
  len (d ++ concat cs) < len (tc_buffer s) -> incoming str = (Arrives <$> cs) ++ rest ->
  exists b, take (length (d ++ concat cs)) b = d ++ concat cs /\ length b = length (tc_buffer s) /\
    conn_loop (length cs + fuel) tm_fuel info (len d) next (s, str) =
      conn_loop fuel tm_fuel info (len (d ++ concat cs)) next
        (GenericServer.set_tc_buffer b s, Stream.set_incoming rest str).
Proof using.
  induction cs as [|c cs IH]; intros d s str Hne Hd Hl Hin.
  - exists (tc_buffer s). cbn [concat length Nat.add fmap list_fmap app] in *. rewrite app_nil_r. split; [done|].
    split; [done|]. subst rest. by destruct s, str.
  - apply Forall_cons in Hne as [Hc Hne]. cbn [concat] in *. rewrite !len_app in Hl.
    pose proof (len_nonneg (concat cs)). pose proof (len_nonneg d). pose proof (len_nonneg c).
    assert (Hc0 : 0 < len c) by (destruct c; [done|]; rewrite len_cons; pose proof (len_nonneg c); lia).
    set (b1 := splice (tc_buffer s) (len d) c).
    assert (Hb1 : take (length (d ++ c)) b1 = d ++ c).
    { unfold b1, splice. unfold len at 1 2. rewrite Nat2Z.id, Hd, app_assoc. apply take_app_length. }
    assert (Hlb : length b1 = length (tc_buffer s)) by (apply length_splice; lia).
    destruct (IH (d ++ c) (GenericServer.set_tc_buffer b1 s) (Stream.set_incoming ((Arrives <$> cs) ++ rest) str))
      as (b & Hb & Hlen & Hrun); [done|done| |done|].
    { cbn [tc_buffer GenericServer.set_tc_buffer]. unfold len in *. rewrite !length_app in *. lia. }
    exists b. rewrite app_assoc. split; [done|]. split; [cbn in Hlen; lia|]. cbn [length Nat.add].
    transitivity (conn_loop (length cs + fuel) tm_fuel info (len (d ++ c)) next
      (GenericServer.set_tc_buffer b1 s, Stream.set_incoming ((Arrives <$> cs) ++ rest) str)); [|exact Hrun].
    cbn [GenericServer.conn_loop]. unfold st_bind at 1.
    rewrite (read_arrives (len d) c ((Arrives <$> cs) ++ rest)) by (try done; lia). fold b1.
    destruct c as [|z c]; [done|]. unfold st_bind at 1, gets. cbn [fst tc_buffer GenericServer.set_tc_buffer].
    destruct (Z.eqb_spec (len d + len (z :: c)) (len b1)); [unfold len in *; lia|]. by rewrite <- len_app.
Qed.

(** The parser gets the collected data. *)
Lemma parse_run info d next packets s str :
  healthy (s, str) -> good (tc_handler s) d packets -> take (length d) (tc_buffer s) = d ->
  num_received_tcs info + len packets <= u32_max ->
  exists x', GenericServer.parse info (len d) next (s, str) = (Ok (counted (len packets) 0 info, next), x') /\
    progress packets [] (s, str) x' /\ x'.2 = str /\ tm_source x'.1 = tm_source s.
Proof using HB.
  intros [Hrx Hw Htms Hb] Hg Hd Hn. cbn [fst snd] in *.
  destruct (burst_parsed (tc_handler s) (tc_buffer s) (server_id s) info d packets (tc_sender s) next
    Hg Hd Hb Hrx Hn) as (b' & Hp & Hlen).
  unfold GenericServer.parse. cbn [fst snd]. rewrite Hp. eexists. split.
  { unfold counted. by rewrite Z.add_0_r. }
  split; [|done]. split; cbn; rewrite ?app_nil_r; try done.
  split; cbn; [done|done|done|]. unfold len in *. by rewrite Hlen.
Qed.

(** The telemetry that waits is sent. *)
Lemma send_run tm_fuel info s str :
  healthy (s, str) -> (length (tm_queue (tm_source s)) < tm_fuel)%nat ->
  num_sent_tms info + len (tm_queue (tm_source s)) <= u32_max ->
  exists x', GenericServer.send_tms tm_fuel info (s, str) =
      (Ok (Some (match tm_queue (tm_source s) with [] => false | _ => true end),
           counted 0 (len (tm_queue (tm_source s))) info), x') /\
    progress [] (tm_queue (tm_source s)) (s, str) x' /\ tm_queue (tm_source x'.1) = [] /\
    incoming x'.2 = incoming str /\ signal x'.2 = signal str /\ tc_buffer x'.1 = tc_buffer s.
Proof using HF.
  intros [Hrx Hw Htms Hb] Hf Hn. cbn [fst snd] in *.
  destruct (tms_sent tm_fuel (tm_handler s) (tm_buffer s) (tm_source s) info str Hf Htms Hw Hn)
    as (sender' & buffer' & Ht & Hlen & Hk).
  unfold GenericServer.send_tms. cbn [fst snd]. rewrite Ht. eexists. split.
  { unfold counted. by rewrite Z.add_0_r. }
  split; [|done]. split; cbn; rewrite ?forwarded_nil, ?app_nil_r; try done.
Qed.

(** The telecommands and the telemetry the info has room for. *)
Definition countable (n m : Z) info : Prop :=
  num_received_tcs info + n <= u32_max /\ num_sent_tms info + m <= u32_max.

(** Without data: the packets are forwarded, the telemetry is sent, and the loop
    goes on with an empty buffer. *)
Lemma no_data_run fuel tm_fuel info d packets kind rest s str :
  healthy (s, str) -> kind <> OtherKind -> incoming str = NoData kind false :: rest ->
  good (tc_handler s) d packets -> take (length d) (tc_buffer s) = d -> len d < len (tc_buffer s) ->
  (length (tm_queue (tm_source s)) < tm_fuel)%nat ->
  countable (len packets) (len (tm_queue (tm_source s))) info ->
  exists x', progress packets (tm_queue (tm_source s)) (s, str) x' /\ incoming x'.2 = rest /\
    tm_queue (tm_source x'.1) = [] /\
    conn_loop (Datatypes.S fuel) tm_fuel info (len d) 0 (s, str) =
      conn_loop fuel tm_fuel (counted (len packets) (len (tm_queue (tm_source s))) info) 0 0 x'.
Proof using HB HF.
  intros Hh Hk Hin Hg Hd Hl Hf [Hn Hm]. set (str1 := mkStream rest (outgoing str) (writable str) false (hangs_up str)).
  assert (Hh1 : healthy (s, str1)) by (destruct Hh; by split).
  destruct (parse_run info d 0 packets s str1 Hh1 Hg Hd Hn) as ([s2 str2] & Hp & Hpr & Hst & Hsrc).
  cbn [fst snd] in Hst, Hsrc. subst str2.
  destruct (send_run tm_fuel (counted (len packets) 0 info) s2 str1) as (x3 & Hs & Hpr3 & Hq & Hi & Hsig & _);
    [apply Hpr|by rewrite Hsrc|rewrite Hsrc; cbn [counted num_sent_tms]; lia|].
  exists x3. rewrite Hsrc in *. pose proof (progress_trans _ _ _ _ _ _ _ Hpr Hpr3) as Hall.
  rewrite app_nil_r in Hall.
  split; [by destruct Hall; split|]. split; [done|]. split; [done|].
  cbn [GenericServer.conn_loop]. unfold st_bind at 1. rewrite (read_blocked (len d) kind false rest);
    [|split; [apply len_nonneg|done]|done]. fold str1.
  assert (Hno : GenericServer.on_no_data tm_fuel info (len d) 0 (s, str1) =
    (Ok (Some (inr (counted (len packets) (len (tm_queue (tm_source s))) info, 0))), x3)).
  { unfold GenericServer.on_no_data, st_bind. rewrite Hp. cbn [fst snd]. rewrite Hs. cbn [fst snd].
    assert (Hc : counted 0 (len (tm_queue (tm_source s))) (counted (len packets) 0 info) =
      counted (len packets) (len (tm_queue (tm_source s))) info)
      by (unfold counted; cbn [info_addr num_received_tcs num_sent_tms stopped_by_signal]; by rewrite !Z.add_0_r).
    rewrite Hc. destruct (tm_queue (tm_source s)); [|done]. unfold gets. rewrite Hsig. cbn [signal str1].
    by rewrite andb_false_r. }
  unfold st_bind. destruct kind; [| |done]; by rewrite Hno.
Qed.

(** A burst the server can handle: it fits into the buffer and holds the packets. *)
Definition fine s (b : Burst) : Prop :=
  Forall (fun c => c <> []) (chunks b) /\ blocked b <> OtherKind /\
  len (concat (chunks b)) < len (tc_buffer s) /\ good (tc_handler s) (concat (chunks b)) (burst_packets b).

Lemma counted_add n m n' m' info : counted n' m' (counted n m info) = counted (n + n') (m + m') info.
Proof using. unfold counted. cbn. by rewrite !Z.add_assoc. Qed.

Lemma burst_run fuel tm_fuel rest b info s str :
  healthy (s, str) -> incoming str = burst_events b ++ rest -> fine s b ->
  (length (tm_queue (tm_source s)) < tm_fuel)%nat ->
  countable (len (burst_packets b)) (len (tm_queue (tm_source s))) info ->
  exists x', progress (burst_packets b) (tm_queue (tm_source s)) (s, str) x' /\ incoming x'.2 = rest /\
    tm_queue (tm_source x'.1) = [] /\
    conn_loop (length (burst_events b) + fuel) tm_fuel info 0 0 (s, str) =
      conn_loop fuel tm_fuel (counted (len (burst_packets b)) (len (tm_queue (tm_source s))) info) 0 0 x'.
Proof using HB HF.
  intros Hh Hin (Hne & Hk & Hl & Hg) Hf Hc. unfold burst_events in *. rewrite <- app_assoc in Hin. cbn [app] in Hin.
  destruct (chunks_run (Datatypes.S fuel) tm_fuel info 0 (NoData (blocked b) false :: rest) (chunks b) []
    s str Hne eq_refl Hl Hin) as (buf & Hbuf & Hlen & Hrun1).
  cbn [app] in Hbuf, Hrun1. change (len []) with 0 in Hrun1.
  assert (Hlz : len buf = len (tc_buffer s)) by (unfold len; by rewrite Hlen).
  destruct (no_data_run fuel tm_fuel info (concat (chunks b)) (burst_packets b) (blocked b) rest
    (GenericServer.set_tc_buffer buf s) (Stream.set_incoming (NoData (blocked b) false :: rest) str))
    as (x' & Hpr & Hi & Hq & Hrun2); [|done|reflexivity|done|done|cbn; lia|done|done|].
  { destruct Hh as [? ? ? Hbu]. split; try done. cbn in *. lia. }
  exists x'. destruct Hpr as [Hx (? & ? & ? & ? & ? & Hla) ? ? ? ?]. cbn in Hla.
  split; [|split; [done|split; [done|]]].
  - split; try done. split_and!; try done. cbn. lia.
  - rewrite length_app, length_fmap. cbn [length]. rewrite <- Nat.add_assoc. cbn [Nat.add]. by rewrite Hrun1, Hrun2.
Qed.

Lemma fine_same s s' b :
  tc_handler s' = tc_handler s -> length (tc_buffer s') = length (tc_buffer s) -> fine s b -> fine s' b.
Proof using. intros Ht Hl (? & ? & ? & ?). unfold fine, len in *. rewrite Ht, Hl. done. Qed.

Lemma bursts_run fuel tm_fuel rest bs : forall info s str,
  healthy (s, str) -> incoming str = script bs ++ rest -> Forall (fine s) bs ->
  (length (tm_queue (tm_source s)) < tm_fuel)%nat ->
  countable (len (concat (burst_packets <$> bs))) (len (tm_queue (tm_source s))) info ->
  exists tms x', progress (concat (burst_packets <$> bs)) tms (s, str) x' /\ incoming x'.2 = rest /\
    conn_loop (length (script bs) + fuel) tm_fuel info 0 0 (s, str) =
      conn_loop fuel tm_fuel (counted (len (concat (burst_packets <$> bs))) (len tms) info) 0 0 x'.
Proof using HB HF.
  induction bs as [|b bs IH]; intros info s str Hh Hin Hbs Hf [Hn Hm].
  { exists [], (s, str). split; [by apply progress_refl|]. split; [done|]. cbn. unfold counted.
    rewrite !Z.add_0_r. by destruct info. }
  apply Forall_cons in Hbs as [Hb Hbs]. unfold script in *. rewrite !fmap_cons in *. cbn [concat] in *.
  rewrite len_app in Hn. pose proof (len_nonneg (concat (burst_packets <$> bs))).
  rewrite <- app_assoc in Hin.
  destruct (burst_run (length (concat (burst_events <$> bs)) + fuel) tm_fuel _ b info s str Hh Hin Hb Hf)
    as ([s2 str2] & Hpr & Hi & Hq & Hrun2); [split; lia|].
  pose proof Hpr as [Hh2 (_ & _ & _ & _ & Hth & Hlen2) _ _ _ _]. cbn [fst snd] in *.
  destruct (IH (counted (len (burst_packets b)) (len (tm_queue (tm_source s))) info) s2 str2)
    as (tms & x3 & Hpr3 & Hi3 & Hrun3); [done|done| |rewrite Hq; cbn; lia|rewrite Hq; split; cbn [counted num_received_tcs num_sent_tms]; change (len (@nil (list Z))) with 0; lia|].
  { eapply Forall_impl; [exact Hbs|]. intros b'. by apply fine_same. }
  exists (tm_queue (tm_source s) ++ tms), x3. split; [by apply (progress_trans _ _ _ _ _ _ _ Hpr Hpr3)|].
  split; [done|]. rewrite length_app, <- Nat.add_assoc, Hrun2, Hrun3. by rewrite counted_add, !len_app.
Qed.

(** The client closes the connection. *)
Lemma close_run fuel tm_fuel b info s str :
  healthy (s, str) -> incoming str = Arrives <$> chunks b -> hangs_up str = true -> fine s b ->
  num_received_tcs info + len (burst_packets b) <= u32_max ->
  exists x', progress (burst_packets b) [] (s, str) x' /\
    conn_loop (length (chunks b) + Datatypes.S fuel) tm_fuel info 0 0 (s, str) =
      (Ok (Some (GenericServer.Closed (counted (len (burst_packets b)) 0 info))), x').
Proof using HB.
  intros Hh Hin Hup (Hne & Hk & Hl & Hg) Hn. rewrite <- (app_nil_r (Arrives <$> chunks b)) in Hin.
  destruct (chunks_run (Datatypes.S fuel) tm_fuel info 0 [] (chunks b) [] s str Hne eq_refl Hl Hin)
    as (buf & Hbuf & Hlen & Hrun1).
  cbn [app] in Hbuf, Hrun1. change (len []) with 0 in Hrun1. rewrite Hrun1. clear Hrun1.
  assert (Hlz : len buf = len (tc_buffer s)) by (unfold len; by rewrite Hlen).
  set (s1 := GenericServer.set_tc_buffer buf s). set (str1 := Stream.set_incoming [] str).
  assert (Hh1 : healthy (s1, str1)) by (destruct Hh; split; try done; cbn in *; lia).
  pose proof (len_nonneg (concat (chunks b))).
  cbn [GenericServer.conn_loop]. unfold st_bind at 1. rewrite read_closed by (try done; cbn; lia).
  assert (Hsame : forall x', progress (burst_packets b) [] (s1, str1) x' ->
    progress (burst_packets b) [] (s, str) x').
  { intros x' [? (? & ? & ? & ? & ? & Hla) ? ? ? ?]. split; try done. split_and!; try done. cbn in *. lia. }
  destruct (Z.ltb_spec 0 (len (concat (chunks b)))) as [Hpos|Hz].
  - destruct (parse_run info (concat (chunks b)) 0 (burst_packets b) s1 str1 Hh1 Hg Hbuf Hn)
      as (x' & Hp & Hpr & _). exists x'. split; [by apply Hsame|]. unfold st_bind. by rewrite Hp.
  - assert (He : concat (chunks b) = []) by (destruct (concat (chunks b)); [done|unfold len in Hz; cbn in Hz; lia]).
    rewrite He in Hg. apply burst_nil in Hg. exists (s1, str1). rewrite Hg in *.
    split; [by apply Hsame, progress_refl|]. unfold counted. change (len []) with 0. rewrite !Z.add_0_r. by destruct info.
Qed.

(** *** The whole connection: bursts, and data right before the end *)
Lemma connection_run fuel tm_fuel addr bs last s str :
  healthy (s, str) -> incoming str = script bs ++ (Arrives <$> chunks last) -> hangs_up str = true ->
  Forall (fine s) (last :: bs) ->
  (length (incoming str) < fuel)%nat -> (length (tm_queue (tm_source s)) < tm_fuel)%nat ->
  let packets := concat (burst_packets <$> bs) ++ burst_packets last in
  let tms := tm_queue (tm_source s) in
  len packets <= u32_max -> len tms <= u32_max ->
  exists s' str', GenericServer.handle_accepted_connection fuel tm_fuel addr (s, str) = (Ok (Some tt), (s', str')) /\
    tc_sender s' = forwarded (server_id s) packets (tc_sender s) /\
    outgoing str' = outgoing str ++ concat (fmt <$> tms) /\ tm_queue (tm_source s') = [] /\
    finished_handler s' = handled_connection (mkInfo addr (len packets) (len tms) false) (finished_handler s) /\
    server_id s' = server_id s /\ listener s' = listener s /\ tc_handler s' = tc_handler s /\
    length (tc_buffer s') = length (tc_buffer s) /\
    (forall str2, writable str2 = true -> healthy (s', str2)).
Proof using HB HF.
  intros Hh Hin Hup Hfine Hf Htf packets tms Hn Hm. apply Forall_cons in Hfine as [Hlast Hbs].
  subst packets. rewrite len_app in Hn. pose proof (len_nonneg (burst_packets last)).
  rewrite Hin, length_app, length_fmap in Hf.
  destruct (bursts_run (fuel - length (script bs)) tm_fuel _ bs (ConnInfo.new addr) s str Hh Hin Hbs Htf)
    as (tms1 & [s1 str1] & Hpr & Hi & Hrun); [split; cbn [ConnInfo.new num_received_tcs num_sent_tms]; fold tms; lia|].
  pose proof Hpr as [Hh1 (Hid & Hfin & Hlis & _ & Hth & Hlen) Htc Htms Hout Hup1]. cbn [fst snd] in *.
  destruct (close_run (fuel - length (script bs) - length (chunks last) - 1) tm_fuel last
    (counted (len (concat (burst_packets <$> bs))) (len tms1) (ConnInfo.new addr)) s1 str1)
    as ([s2 str2] & Hpr2 & Hrun2); [done|done|by rewrite Hup1|by apply (fine_same s)|cbn [counted ConnInfo.new num_received_tcs]; lia|].
  replace (length (script bs) + (fuel - length (script bs)))%nat with fuel in Hrun by lia.
  replace (length (chunks last) + _)%nat with (fuel - length (script bs))%nat in Hrun2 by lia.
  rewrite Hrun2, counted_add in Hrun.
  pose proof Hpr2 as [Hh2 _ _ Htms2 _ _]. cbn [fst snd app] in *.
  assert (Hsplit : len tms = len tms1 + len (tm_queue (tm_source s1))) by (unfold tms; by rewrite Htms, len_app).
  pose proof (len_nonneg tms1).
  destruct (send_run tm_fuel (counted (len (concat (burst_packets <$> bs)) + len (burst_packets last)) (len tms1 + 0)
    (ConnInfo.new addr)) s2 str2) as ([s3 str3] & Hs & Hpr3 & Hq & _);
    [done|rewrite <- Htms2; unfold tms, len in *; lia|rewrite <- Htms2; cbn [counted ConnInfo.new num_sent_tms]; lia|].
  pose proof (progress_trans _ _ _ _ _ _ _ (progress_trans _ _ _ _ _ _ _ Hpr Hpr2) Hpr3)
    as [Hh3 (Hid3 & Hfin3 & Hlis3 & _ & Hth3 & Hlen3) Htc3 Htms3 Hout3 _]. cbn [fst snd] in *.
  rewrite Hq, app_nil_r in Htms3.
  do 2 eexists. split.
  { unfold GenericServer.handle_accepted_connection, st_bind. rewrite Hrun. cbn [fst snd]. rewrite Hs. reflexivity. }
  cbn. rewrite app_nil_r in Htc3. split; [done|]. split; [unfold tms; by rewrite Hout3, Htms3|]. split; [done|].
  split; [|by destruct Hh3; split_and!]. rewrite Hfin3. f_equal. unfold counted.
  cbn [info_addr num_received_tcs num_sent_tms stopped_by_signal ConnInfo.new].
  rewrite <- Htms2, len_app, Hsplit. f_equal; lia.
Qed.

(** *** All connections *)
Record Client : Type := mkClient {
  client_addr : Z;
  client_bursts : list Burst;
  client_last : Burst;
}.

Definition client_packets (c : Client) : list (list Z) :=
  concat (burst_packets <$> client_bursts c) ++ burst_packets (client_last c).

Definition client_stream (c : Client) : TcpStream :=
  mkStream (script (client_bursts c) ++ (Arrives <$> chunks (client_last c))) [] true false true.

(** The first client gets the telemetry that waits. *)
Fixpoint infos (tms : Z) (cs : list Client) : list HandledConnectionInfo :=
  match cs with
  | [] => []
  | c :: cs' => mkInfo (client_addr c) (len (client_packets c)) tms false :: infos 0 cs'
  end.

Fixpoint received (out : list Z) (cs : list Client) : list (Z * list Z) :=
  match cs with
  | [] => []
  | c :: cs' => (client_addr c, out) :: received [] cs'
  end.

Definition fine_client s (c : Client) : Prop :=
  Forall (fine s) (client_last c :: client_bursts c) /\ len (client_packets c) <= u32_max.

Lemma serve_run fuel tm_fuel c s :
  (forall str, writable str = true -> healthy (s, str)) -> fine_client s c ->
  (length (incoming (client_stream c)) < fuel)%nat -> (length (tm_queue (tm_source s)) < tm_fuel)%nat ->
  let tms := tm_queue (tm_source s) in
  len tms <= u32_max ->
  exists s' str', GenericServer.serve fuel tm_fuel (client_stream c) (client_addr c) s = (Ok (Some tt), s') /\
    listener s' = mkListener (pending (listener s)) (served (listener s) ++ [(client_addr c, str')]) /\
    outgoing str' = concat (fmt <$> tms) /\
    tc_sender s' = forwarded (server_id s) (client_packets c) (tc_sender s) /\ tm_queue (tm_source s') = [] /\
    finished_handler s' = handled_connection (mkInfo (client_addr c) (len (client_packets c)) (len tms) false)
                            (finished_handler s) /\
    server_id s' = server_id s /\ tc_handler s' = tc_handler s /\ length (tc_buffer s') = length (tc_buffer s) /\
    (forall str, writable str = true -> healthy (s', str)).
Proof using HB HF.
  intros Hh [Hfine Hn] Hf Htf tms Hm.
  destruct (connection_run fuel tm_fuel (client_addr c) (client_bursts c) (client_last c) s (client_stream c))
    as (s1 & str1 & Hrun & Htc & Hout & Hq & Hfin & Hid & Hlis & Hth & Hlen & Hh1); try done; [by apply Hh|].
  do 2 eexists. split; [unfold GenericServer.serve; by rewrite Hrun|]. cbn. rewrite Hlis. split; [reflexivity|].
  split_and!; try done. intros str Hw. destruct (Hh1 str Hw). by split.
Qed.

Lemma accept_run n fuel tm_fuel reregister cs : forall h s,
  (length cs < n)%nat -> (forall str, writable str = true -> healthy (s, str)) -> Forall (fine_client s) cs ->
  Forall (fun c => (length (incoming (client_stream c)) < fuel)%nat) cs ->
  (length (tm_queue (tm_source s)) < tm_fuel)%nat -> len (tm_queue (tm_source s)) <= u32_max ->
  0 <= h -> h + len cs <= u32_max ->
  pending (listener s) = (fun c => Accepted (client_stream c) (client_addr c)) <$> cs ->
  exists s', GenericServer.accept_loop reregister n fuel tm_fuel h s = (Ok (Some (h + len cs)), s') /\
    tc_sender s' = forwarded (server_id s) (concat (client_packets <$> cs)) (tc_sender s) /\
    (prod_map id outgoing <$> served (listener s')) =
      (prod_map id outgoing <$> served (listener s)) ++ received (concat (fmt <$> tm_queue (tm_source s))) cs /\
    finished_handler s' = foldl (fun f i => handled_connection i f) (finished_handler s)
                            (infos (len (tm_queue (tm_source s))) cs) /\
    pending (listener s') = [] /\ (cs <> [] -> tm_queue (tm_source s') = []).
Proof using HB HF.
  induction n as [|n IH] in cs |- *; intros h s Hn Hh Hfine Hf Htf Hm Hh0 Hcount Hpend; [lia|].
  destruct cs as [|c cs].
  - exists s. cbn [GenericServer.accept_loop]. unfold st_bind, GenericServer.accept. rewrite Hpend.
    change (len []) with 0. rewrite Z.add_0_r, app_nil_r. cbn. by rewrite forwarded_nil.
  - apply Forall_cons in Hfine as [Hc Hfine]. apply Forall_cons in Hf as [Hfc Hf]. rewrite len_cons in Hcount.
    pose proof (len_nonneg cs). rewrite fmap_cons in Hpend.
    set (s0 := GenericServer.set_listener
      (mkListener ((fun c => Accepted (client_stream c) (client_addr c)) <$> cs) (served (listener s))) s).
    destruct (serve_run fuel tm_fuel c s0) as (s1 & str1 & Hrun & Hlis & Hout & Htc & Hq & Hfin & Hid & Hth & Hlen & Hh1);
      [intros str Hw; destruct (Hh str Hw); by split|done|done|done|done|].
    destruct (IH cs (h + 1) s1) as (s2 & Hrun2 & Htc2 & Hout2 & Hfin2 & Hp2 & Hq2);
      [cbn in Hn; lia|done| |done|rewrite Hq; cbn; lia|rewrite Hq; done|lia|lia|by rewrite Hlis|].
    { eapply Forall_impl; [exact Hfine|]. intros c' [Hc1 Hc2]. split; [|done].
      eapply Forall_impl; [exact Hc1|]. intros b. by apply fine_same. }
    exists s2. split_and!.
    + cbn [GenericServer.accept_loop]. unfold st_bind at 1, GenericServer.accept. rewrite Hpend. fold s0.
      unfold st_bind at 1, attempt. rewrite Hrun. unfold st_bind, lift, checked_add.
      rewrite (proj2 (Z.ltb_lt _ (2 ^ 32))) by (unfold u32_max in Hcount; lia). by rewrite Hrun2, len_cons, Z.add_assoc.
    + rewrite Htc2, Htc, Hid, fmap_cons. cbn [concat]. by rewrite forwarded_app.
    + rewrite Hout2, Hlis. cbn [served]. rewrite fmap_app, <- app_assoc, Hq. cbn [received]. f_equal. cbn. by rewrite Hout.
    + rewrite Hfin2, Hfin, Hq. done.
    + done.
    + intros _. destruct cs as [|c' cs]; [|by apply Hq2]. destruct n; [cbn in Hn; lia|]. cbn in Hrun2.
      unfold st_bind, GenericServer.accept in Hrun2. rewrite Hlis in Hrun2. cbn in Hrun2. by injection Hrun2 as _ <-.
Qed.

(** What a server does with the clients that wait for it. *)
Definition served_all (p : P) (sender : S) (src : SyncTcpTmSource) (q : channel PacketAsVec) (h : H)
    (cfg : ServerConfig) (stop : bool) (cs : list Client) (n fuel tm_fuel : nat) (tokens : list Z) : Prop :=
  let s := GenericServer.new cfg p sender src q h
             (mkListener ((fun c => Accepted (client_stream c) (client_addr c)) <$> cs) []) stop in
  exists s', GenericServer.handle_all_connections (Ok tokens) (Ok tt) n fuel tm_fuel s =
      (Ok (Some (match cs with [] => AcceptTimeout | _ => HandledConnections (len cs) end)), s') /\
    tc_sender s' = forwarded (cfg_id cfg) (concat (client_packets <$> cs)) q /\
    (prod_map id outgoing <$> served (listener s')) = received (concat (fmt <$> tm_queue src)) cs /\
    finished_handler s' = foldl (fun f i => handled_connection i f) h (infos (len (tm_queue src)) cs) /\
    pending (listener s') = [] /\ (cs <> [] -> tm_queue (tm_source s') = []).

(** A client whose bursts fit into a buffer of [size] bytes and hold its packets. *)
Definition good_client (p : P) (size : Z) (c : Client) : Prop :=
  Forall (fun b => Forall (fun c => c <> []) (chunks b) /\ blocked b <> OtherKind /\
    len (concat (chunks b)) < size /\ good p (concat (chunks b)) (burst_packets b))
    (client_last c :: client_bursts c) /\
  len (client_packets c) <= u32_max.

Definition enough_fuel (cs : list Client) (n fuel : nat) : Prop :=
  (length cs < n)%nat /\ Forall (fun c => (length (incoming (client_stream c)) < fuel)%nat) cs.

Lemma server_run p sender src q h cfg stop cs n fuel tm_fuel tokens :
  rx_alive q = true -> 0 <= cfg_tc_buffer_size cfg < u32_max -> 0 <= cfg_tm_buffer_size cfg ->
  Forall (fun tm => tm <> [] /\ len tm <= cfg_tm_buffer_size cfg /\ fits sender tm) (tm_queue src) ->
  len (tm_queue src) <= u32_max -> len cs <= u32_max ->
  Forall (good_client p (cfg_tc_buffer_size cfg)) cs -> enough_fuel cs n fuel ->
  (length (tm_queue src) < tm_fuel)%nat -> tokens <> [] -> Forall (fun t => t = 0) tokens ->
  served_all p sender src q h cfg stop cs n fuel tm_fuel tokens.
Proof using HB HF.
  intros Hrx Htc Htm Htms Hm Hc Hcs [Hn Hf] Htf Hne Htok. unfold served_all. set (s := GenericServer.new _ _ _ _ _ _ _ _).
  assert (Hlb : len (tc_buffer s) = cfg_tc_buffer_size cfg) by (cbn; rewrite len_replicate; lia).
  assert (Hlt : len (tm_buffer s) = cfg_tm_buffer_size cfg) by (cbn; rewrite len_replicate; lia).
  destruct (accept_run n fuel tm_fuel (Ok tt) cs 0 s) as (s' & Hrun & Hrest); try done.
  - intros str Hw. split; [done|done| |change (len (tc_buffer s) < u32_max); lia]. eapply Forall_impl; [exact Htms|]. intros tm (? & ? & ?).
    split_and!; [done|change (len tm <= len (tm_buffer s)); lia|done].
  - eapply Forall_impl; [exact Hcs|]. intros c [Hb Hl]. split; [|done]. eapply Forall_impl; [exact Hb|].
    intros b. unfold fine. by rewrite Hlb.
  - exists s'. split; [|done]. unfold GenericServer.handle_all_connections, st_bind, lift. cbn [map_err].
    assert (Hall : forallb (fun token => token =? 0) tokens = true).
    { clear -Htok. induction Htok as [|t l -> _ IH]; [done|]. by cbn. }
    rewrite Hall. destruct tokens as [|t tokens]; [done|]. cbn [ret]. rewrite Hrun.
    destruct cs as [|c cs]; [done|]. rewrite Z.add_0_l, len_cons. pose proof (len_nonneg cs).
    by destruct (Z.ltb_spec 0 (1 + len cs)); [|lia].
Qed.

End Connection.

(** * A connection ends *)

(** Two streams with the same events to come. *)
Definition same_events (str' str : TcpStream) : Prop :=
  incoming str' = incoming str /\ signal str' = signal str /\ hangs_up str' = hangs_up str.

#[export] Instance same_events_preorder : PreOrder same_events.
Proof. split; [by intros str|]. intros a b c (? & ? & ?) (? & ? & ?). by split_and!; etransitivity. Qed.

Lemma write_same_events d str : same_events (Stream.write_all d str).2 str.
Proof. unfold Stream.write_all. by destruct (writable str). Qed.

(** A sender ends on a source with fewer packets than fuel, takes a packet from it
    when it says that it has sent one, and neither adds packets nor takes data from
    the stream. *)
Class TmEnds {S TcE : Type} `{TcpTmSender S SyncTcpTmSource unit TcE} : Prop :=
  tm_ends : forall fuel (y : TmState S SyncTcpTmSource), (length (tm_queue (tms_source y)) < fuel)%nat ->
    let '(r, y') := handle_tm_sending fuel y in
    r <> Ok None /\ same_events (tms_stream y') (tms_stream y) /\
    (length (tm_queue (tms_source y')) <= length (tm_queue (tms_source y)))%nat /\
    (r = Ok (Some true) -> (length (tm_queue (tms_source y')) < length (tm_queue (tms_source y)))%nat).

Section LoopEnds.
Context {S TcE : Type} (transmit : list Z -> st (TmState S SyncTcpTmSource) (TcpTmtcError unit TcE) unit).
Hypothesis transmit_keeps : forall tm y,
  same_events (tms_stream (transmit tm y).2) (tms_stream y) /\
  tms_source (transmit tm y).2 = tms_source y.

Lemma retrieve_cases (y : TmState S SyncTcpTmSource) :
  let '(r, y') := TmLoop.retrieve (TcE:=TcE) y in
  tms_stream y' = tms_stream y /\
  (length (tm_queue (tms_source y')) <= length (tm_queue (tms_source y)))%nat /\
  (forall n, r = Ok n -> n = 0 \/ (length (tm_queue (tms_source y')) < length (tm_queue (tms_source y)))%nat).
Proof using.
  unfold TmLoop.retrieve, retrieve_packet, SyncTcpTmSource_source, TmSource.retrieve_packet.
  destruct y as [sn b [q mx sl] i str]. cbn [tms_source tms_buffer tm_queue].
  destruct q as [|tm q]; cbn; [split_and!; [done|done|]; intros n [= <-]; by left|].
  destruct (len b <? len tm); [by split_and!|]. destruct (copy_into _ _ _ _); cbn; split_and!; try done; try lia.
  all: intros n [= <-]; right; lia.
Qed.

Lemma tm_loop_ends fuel : forall sent (y : TmState S SyncTcpTmSource),
  (length (tm_queue (tms_source y)) < fuel)%nat ->
  let '(r, y') := TmLoop.tm_loop transmit fuel sent y in
  r <> Ok None /\ same_events (tms_stream y') (tms_stream y) /\
  (length (tm_queue (tms_source y')) <= length (tm_queue (tms_source y)))%nat /\
  (r = Ok (Some true) -> sent = true \/
    (length (tm_queue (tms_source y')) < length (tm_queue (tms_source y)))%nat).
Proof using transmit_keeps.
  induction fuel as [|fuel IH]; intros sent y Hf; [lia|]. cbn [TmLoop.tm_loop]. unfold st_bind at 1.
  pose proof (retrieve_cases y) as Hr. destruct (TmLoop.retrieve y) as [[n|e|] y1]; destruct Hr as (Hi & Hq & Hn);
    rewrite <-Hi; [|by split_and!..].
  destruct (Z.eqb_spec n 0) as [->|Hnz]; [split_and!; [done..|]; intros [= ->]; by left|].
  destruct (Hn n eq_refl) as [->|Hlt]; [done|]. clear Hn.
  unfold st_bind at 1, TmLoop.count_tm. destruct (ConnInfo.add_tm (tms_info y1)) as [i|e|]; [|by split_and!..].
  unfold st_bind at 1, asks. destruct (slice _ 0 n) as [packet|e|]; [|by split_and!..]. unfold st_bind at 1.
  match goal with |- context [transmit packet ?z] => destruct (transmit_keeps packet z) as [Ht Hs];
    destruct (transmit packet z) as [[[]|e|] y2] end; cbn [fst snd tms_stream tms_source] in *;
    [|by rewrite Hs; split_and!..].
  specialize (IH true y2 ltac:(rewrite Hs; lia)). destruct (TmLoop.tm_loop transmit fuel true y2) as [r3 y3].
  destruct IH as (Hne & Hi2 & Hq2 & _). rewrite Hs in Hq2.
  split_and!; [done|by etransitivity|lia|right; lia].
Qed.

End LoopEnds.

Lemma write_keeps {S TcE} (d : list Z) (y : TmState S SyncTcpTmSource) :
  same_events (tms_stream (TmLoop.write (TmE:=unit) (TcE:=TcE) d y).2) (tms_stream y) /\
  tms_source (TmLoop.write (TmE:=unit) (TcE:=TcE) d y).2 = tms_source y.
Proof.
  unfold TmLoop.write. pose proof (write_same_events d (tms_stream y)) as Hw.
  by destruct (Stream.write_all d (tms_stream y)).
Qed.

#[export] Instance SpacepacketsTm_ends {TcE} : TmEnds (S:=unit) (TcE:=TcE).
Proof.
  intros fuel y Hf. unfold handle_tm_sending, SpacepacketsTm_sender, SpacepacketsTm.handle_tm_sending.
  pose proof (tm_loop_ends TmLoop.write (write_keeps (TcE:=TcE)) fuel false y Hf) as He.
  destruct (TmLoop.tm_loop _ _ _ _) as [r y']. destruct He as (? & ? & ? & Ht). split_and!; [done..|].
  intros Hr. by destruct (Ht Hr).
Qed.

Lemma cobs_transmit_keeps {TcE} encode tm (y : TmState CobsTmSender SyncTcpTmSource) :
  let y' := (CobsTm.transmit encode (TmE:=unit) (TcE:=TcE) tm y).2 in
  same_events (tms_stream y') (tms_stream y) /\ tms_source y' = tms_source y.
Proof.
  unfold CobsTm.transmit, st_bind, asks, modify_state, lift.
  destruct (CobsTm.encode_frame _ _ _) as [[b n]|e|]; [|done..]. cbn [fst snd].
  destruct (slice b 0 n) as [d|e|]; [|done..].
  match goal with |- context [TmLoop.write d ?z'] => by destruct (write_keeps (TcE:=TcE) d z') end.
Qed.

#[export] Instance CobsTm_ends {TcE} encode : TmEnds (H:=CobsTm_sender encode (TcE:=TcE)).
Proof.
  intros fuel y Hf. unfold handle_tm_sending, CobsTm_sender, CobsTm.handle_tm_sending.
  pose proof (tm_loop_ends (CobsTm.transmit encode (TmE:=unit) (TcE:=TcE)) (cobs_transmit_keeps encode)
    fuel false y Hf) as He.
  destruct (TmLoop.tm_loop _ _ _ _) as [r y']. destruct He as (? & ? & ? & Ht). split_and!; [done..|].
  intros Hr. by destruct (Ht Hr).
Qed.

(** The value of the stop signal after the events of a stream. *)
Fixpoint last_signal (l : list ReadEvent) (sg : bool) : bool :=
  match l with
  | [] => sg
  | NoData _ stop :: l' => last_signal l' stop
  | _ :: l' => last_signal l' sg
  end.

(** A read takes an event, or a byte of one. *)
Definition events_left (l : list ReadEvent) : nat :=
  sum_list_with (fun e => match e with Arrives d => Datatypes.S (length d) | _ => 1%nat end) l.

Section ConnectionEnds.
Context {P Q S H TcE : Type} {HP : TcpTcParser P Q unit TcE} {HS : TcpTmSender S SyncTcpTmSource unit TcE}
  {HH : HandledConnectionHandler H} {HE : TmEnds (S:=S) (TcE:=TcE)}.
Abbreviation server := (TcpTmtcGenericServer SyncTcpTmSource Q S P H).
Implicit Types (x : server * TcpStream) (info : HandledConnectionInfo).

(** The client closes the connection in the end, or it is stopped by the signal. *)
Definition comes_to_end x : Prop :=
  hangs_up x.2 = true \/ (stop_signal x.1 = true /\ last_signal (incoming x.2) (signal x.2) = true).

Definition tms_left x : nat := length (tm_queue (tm_source x.1)).

Lemma comes_to_end_mono x' x :
  same_events x'.2 x.2 -> stop_signal x'.1 = stop_signal x.1 -> comes_to_end x -> comes_to_end x'.
Proof using. unfold comes_to_end. by intros (-> & -> & ->) ->. Qed.

Lemma read_shrinks cur x :
  comes_to_end x ->
  let '(r, x') := GenericServer.read_tcs (TmE:=unit) (TcE:=TcE) cur x in
  tm_source x'.1 = tm_source x.1 /\ comes_to_end x' /\
  match r with
  | Ok (Ok []) => True
  | Ok (Ok _) => (events_left (incoming x'.2) < events_left (incoming x.2))%nat
  | Ok _ => (events_left (incoming x'.2) < events_left (incoming x.2))%nat \/
            (incoming x'.2 = [] /\ stop_signal x'.1 = true /\ signal x'.2 = true)
  | _ => True
  end.
Proof using.
  destruct x as [s [inc out w sg hu]]. intros He.
  unfold GenericServer.read_tcs, st_bind, asks, on_snd, on_fst, attempt, modify_state.
  destruct (slice _ _ _) as [room|e|]; [|done..]. unfold Stream.read. cbn [fst snd incoming hangs_up].
  destruct (len room =? 0) eqn:Hz; [done|]. apply Z.eqb_neq in Hz. pose proof (len_nonneg room).
  destruct inc as [|[d|k st|] rest]; cbn [fst snd].
  - destruct hu; [done|]. split_and!; [done..|]. right. destruct He as [?|[? ?]]; done.
  - unfold comes_to_end in *. cbn [fst snd Stream.set_incoming incoming signal hangs_up stop_signal
      GenericServer.set_tc_buffer tm_source last_signal] in *.
    split_and!; [done|by destruct (drop _ d)|].
    destruct (take (Z.to_nat (len room)) d) as [|z l] eqn:Ht; [done|].
    destruct d as [|y d]; [by rewrite take_nil in Ht|].
    assert (Hd : (length (drop (Z.to_nat (len room)) (y :: d)) <= length d)%nat)
      by (rewrite length_drop; cbn; lia).
    destruct (drop _ (y :: d)) as [|a b]; cbn in *; lia.
  - split_and!; [done|exact He|left; cbn; lia].
  - split_and!; [done|exact He|left; cbn; lia].
Qed.

(** A result other than running out of fuel, with at most [k] packets left. *)
Definition ends {E A : Type} (k : nat) (y : res E (option A) * (server * TcpStream)) : Prop :=
  y.1 <> Ok None /\ (tms_left y.2 <= k)%nat.

Lemma ends_le {E A} k' k (y : res E (option A) * _) : (k' <= k)%nat -> ends k' y -> ends k y.
Proof using. intros Hk [? ?]. split; [done|lia]. Qed.

Lemma ends_parse {A} info c n f k x :
  (tms_left x <= k)%nat ->
  (forall r x', x'.2 = x.2 -> stop_signal x'.1 = stop_signal x.1 -> tm_source x'.1 = tm_source x.1 ->
     ends (A:=A) k (f r x')) ->
  ends k (st_bind (GenericServer.parse info c n) f x).
Proof using.
  intros Hk Hf. unfold st_bind, GenericServer.parse.
  destruct (handle_tc_parsing _ _ _ _ _ _) as [[[[b i] m]| |] [p q]]; [by apply Hf|by split..].
Qed.

Lemma ends_send {A} tm_fuel info f k x :
  (tms_left x <= k)%nat -> (k < tm_fuel)%nat ->
  (forall b i x', same_events x'.2 x.2 -> stop_signal x'.1 = stop_signal x.1 -> (tms_left x' <= tms_left x)%nat ->
     (b = true -> (tms_left x' < tms_left x)%nat) -> ends (A:=A) k (f (Some b, i) x')) ->
  ends k (st_bind (GenericServer.send_tms tm_fuel info) f x).
Proof using HE.
  intros Hk Ht Hf. unfold st_bind, GenericServer.send_tms.
  pose proof (tm_ends tm_fuel (mkTmState (tm_handler x.1) (tm_buffer x.1) (tm_source x.1) info x.2)) as He.
  specialize (He ltac:(unfold tms_left in Hk; cbn; lia)).
  destruct (handle_tm_sending _ _) as [r y]. destruct He as (Hr & Hi & Hq & Hlt). cbn [tms_source] in Hq, Hlt.
  fold (tms_left x) in Hq, Hlt.
  destruct r as [[b|]|e|]; cbn; [apply Hf; try done; by intros ->; apply Hlt|done|split; [done|unfold tms_left; cbn; lia]..].
Qed.

(** Without data the events stay as they are; a connection that goes on has sent
    telemetry, or the stop signal is not set. *)
Lemma ends_no_data {A} tm_fuel info c n f k x :
  (tms_left x <= k)%nat -> (k < tm_fuel)%nat ->
  (forall e x', (tms_left x' <= tms_left x)%nat -> ends (A:=A) k (f (Some (inl e)) x')) ->
  (forall r x', same_events x'.2 x.2 -> stop_signal x'.1 = stop_signal x.1 -> (tms_left x' <= tms_left x)%nat ->
     ((tms_left x' < tms_left x)%nat \/ stop_signal x.1 && signal x.2 = false) ->
     ends (A:=A) k (f (Some (inr r)) x')) ->
  ends k (st_bind (GenericServer.on_no_data tm_fuel info c n) f x).
Proof using HE.
  intros Hk Ht Hl Hr. unfold GenericServer.on_no_data.
  assert (Hassoc : forall (E B C : Type) (m : st (server * TcpStream) E B) (g : B -> st _ E C)
    (h : C -> st _ E (option A)) y, st_bind (st_bind m g) h y = st_bind m (fun a => st_bind (g a) h) y)
    by (intros; unfold st_bind; by destruct (m y) as [[]]).
  rewrite Hassoc. apply ends_parse; [done|]. intros r x1 Hx1 Hs1 Hq1.
  assert (Hk1 : tms_left x1 = tms_left x) by (unfold tms_left; by rewrite Hq1).
  rewrite Hassoc. apply ends_send; [by rewrite Hk1|done|].
  intros b i x2 Hx2 Hs2 Hk2 Hlt. rewrite Hx1 in Hx2. rewrite Hs1 in Hs2. rewrite Hk1 in Hk2, Hlt. cbn [fst snd].
  destruct b; [apply Hr; try done; left; by apply Hlt|].
  unfold st_bind, gets. destruct (stop_signal x2.1 && signal x2.2) eqn:Hsig; [by apply Hl|].
  apply Hr; try done. right. destruct Hx2 as (_ & Hsg & _). by rewrite <-Hs2, <-Hsg.
Qed.

Lemma conn_loop_ends fuel tm_fuel : forall k info c n x,
  comes_to_end x -> (events_left (incoming x.2) + tms_left x < fuel)%nat -> (tms_left x <= k)%nat ->
  (k < tm_fuel)%nat -> ends k (GenericServer.conn_loop fuel tm_fuel info c n x).
Proof using HE.
  induction fuel as [|fuel IH]; intros k info c n x He Hf Hk Htf; [lia|]. cbn [GenericServer.conn_loop].
  unfold st_bind at 1. pose proof (read_shrinks c x He) as Hr.
  destruct (GenericServer.read_tcs c x) as [r x1]. destruct Hr as (Hsrc & He1 & Hev).
  assert (Hk1 : tms_left x1 = tms_left x) by (unfold tms_left; by rewrite Hsrc).
  assert (Hle : (tms_left x1 <= k)%nat) by lia.
  destruct r as [[[|z d]|e|]|e|]; try (by split).
  - destruct (0 <? c); [|by split]. apply ends_parse; [done|].
    intros r x2 _ _ Hq. split; [done|]. unfold tms_left. cbn [snd ret]. by rewrite Hq.
  - unfold st_bind at 1, gets. destruct (_ =? _); [|apply IH; try done; lia].
    apply ends_parse; [done|]. intros r x2 Hx2 Hs2 Hq2.
    assert (Hk2 : tms_left x2 = tms_left x1) by (unfold tms_left; by rewrite Hq2).
    apply IH; [apply (comes_to_end_mono _ x1); by rewrite ?Hx2|rewrite Hx2; lia|lia|done].
  - destruct e; [| |by split]; (apply ends_no_data; [done|done| |]; [intros e x2 Hk2; split; [done|cbn; lia]|]);
      intros [i m] x2 Hx2 Hs2 Hk2 Hcase; (apply IH; [by apply (comes_to_end_mono _ x1)| |lia|done]);
      destruct Hx2 as (Hin & _); rewrite Hin;
      (destruct Hev as [Hev|(Hnil & Hst & Hsg)]; [lia|]); rewrite Hnil in *;
      (destruct Hcase as [Hlt|Hf']; [cbn in *; lia|by rewrite Hst, Hsg in Hf']).
Qed.

Lemma connection_ends fuel tm_fuel addr x :
  comes_to_end x -> (events_left (incoming x.2) + tms_left x < fuel)%nat -> (tms_left x < tm_fuel)%nat ->
  ends (tms_left x) (GenericServer.handle_accepted_connection fuel tm_fuel addr x).
Proof using HE.
  intros He Hf Ht. unfold GenericServer.handle_accepted_connection, st_bind at 1.
  destruct (conn_loop_ends fuel tm_fuel (tms_left x) (ConnInfo.new addr) 0 0 x He Hf) as [Hne Hk]; [done|done|].
  destruct (GenericServer.conn_loop _ _ _ _ _ x) as [[[[info|]|]|e|] x1]; cbn [fst snd] in *; try done.
  apply ends_send; [done|done|]. intros b i x2 _ _ Hk2 _. split; [done|]. etransitivity; [exact Hk2|exact Hk].
Qed.

End ConnectionEnds.

(** * Properties *)

(** C28: A server for space packets handles all clients that wait for it, one after
    the other, under these conditions: what a client sends between two moments in which
    the server finds no data fits into the buffer and is a sequence of whole packets;
    the stop signal is not set while a client is served, and each client closes its connection;
    no telemetry packet is empty or larger than its buffer.  Then the
    telecommands of all clients are forwarded once each and in order, the first
    client gets all telemetry that waits, in order, and the others none, every connection
    is reported with its numbers of telecommands and telemetry packets, and none is left.
    Without these conditions packets are lost or made up: see [split_packet_corrupts_next],
    [split_header_loses_packet] and [large_packet_ends_connection]. *)
Theorem spacepackets_server_correct {Hdr V} (sp_from_be_bytes : list Z -> res ByteConversionError Hdr)
    (total_len : Hdr -> Z) (validate : V -> Hdr -> list Z -> SpValidity) {H} `{HandledConnectionHandler H}
    (v : V) src q h cfg stop cs n fuel tm_fuel tokens :
  (forall hdr, 7 <= total_len hdr) ->
  rx_alive q = true -> 0 <= cfg_tc_buffer_size cfg < u32_max -> 0 <= cfg_tm_buffer_size cfg ->
  Forall (fun tm => tm <> [] /\ len tm <= cfg_tm_buffer_size cfg) (tm_queue src) ->
  len (tm_queue src) <= u32_max -> len cs <= u32_max ->
  Forall (good_client (whole_packets sp_from_be_bytes total_len validate) v (cfg_tc_buffer_size cfg)) cs ->
  enough_fuel cs n fuel -> (length (tm_queue src) < tm_fuel)%nat -> tokens <> [] -> Forall (fun t => t = 0) tokens ->
  exists s', GenericServer.handle_all_connections (HP:=SpacepacketsTc_parser sp_from_be_bytes total_len validate)
      (Ok tokens) (Ok tt) n fuel tm_fuel
      (spacepackets_server_new cfg src q v h
         (mkListener ((fun c => Accepted (client_stream c) (client_addr c)) <$> cs) []) stop) =
      (Ok (Some (match cs with [] => AcceptTimeout | _ => HandledConnections (len cs) end)), s') /\
    tc_sender s' = forwarded (cfg_id cfg) (concat (client_packets <$> cs)) q /\
    (prod_map id outgoing <$> served (listener s')) = received (concat (tm_queue src)) cs /\
    finished_handler s' = foldl (fun f i => handled_connection i f) h (infos (len (tm_queue src)) cs) /\
    pending (listener s') = [] /\ (cs <> [] -> tm_queue (tm_source s') = []).
Proof.
  intros Hmin Hrx Htc Htm Htms Hm Hc Hcs Hf Htf Hne Htok. pose proof (server_run
    (HP:=SpacepacketsTc_parser sp_from_be_bytes total_len validate)
    (HB:=SpacepacketsTc_burst sp_from_be_bytes total_len validate Hmin)
    (whole_packets sp_from_be_bytes total_len validate) (fun tm => tm) (fun _ _ => True) v tt src q h cfg stop cs
    n fuel tm_fuel tokens Hrx Htc Htm) as Hrun.
  unfold served_all in Hrun. rewrite list_fmap_id in Hrun. apply Hrun; try done.
  eapply Forall_impl; [exact Htms|]. by intros tm [].
Qed.

Definition ex_burst : Burst := mkBurst [[24; 2; 192; 0]; [0; 1; 5; 6]] WouldBlock [[24; 2; 192; 0; 0; 1; 5; 6]].

(** A client that sends a packet in two chunks, waits, and sends it again; and one
    that sends nothing. *)
Definition ex_clients : list Client :=
  [mkClient 100 [ex_burst] ex_burst; mkClient 101 [] (mkBurst [] WouldBlock [])].

Definition ex_len (h : Z * Z) : Z := Z.abs h.2 + 7.

Lemma spacepackets_server_correct_witness :
  exists s', GenericServer.handle_all_connections
      (HP:=SpacepacketsTc_parser ex_header ex_len (fun _ : unit => ex_validate)) (HH:=log_info)
      (Ok [0]) (Ok tt) 3 9 9
      (spacepackets_server_new (mkConfig 5 16 32) (mkTmSource [[1; 2]; [3]] 4 true)
         (mkChannel [] None true true) tt []
         (mkListener ((fun c => Accepted (client_stream c) (client_addr c)) <$> ex_clients) []) false) =
      (Ok (Some (HandledConnections 2)), s') /\
    tc_sender s' = forwarded 5 [[24; 2; 192; 0; 0; 1; 5; 6]; [24; 2; 192; 0; 0; 1; 5; 6]] (mkChannel [] None true true) /\
    (prod_map id outgoing <$> served (listener s')) = [(100, [1; 2; 3]); (101, [])] /\
    finished_handler s' = [mkInfo 100 2 2 false; mkInfo 101 0 0 false].
Proof.
  destruct (spacepackets_server_correct ex_header ex_len (fun _ : unit => ex_validate) (H:=list HandledConnectionInfo)
    tt (mkTmSource [[1; 2]; [3]] 4 true) (mkChannel [] None true true) [] (mkConfig 5 16 32) false ex_clients 3 9 9 [0])
    as (s' & Hrun & Htc & Hout & Hfin & _).
  - intros hdr. unfold ex_len. lia.
  - reflexivity.
  - split; vm_compute; [discriminate|reflexivity].
  - discriminate.
  - repeat constructor; discriminate.
  - discriminate.
  - discriminate.
  - assert (Hpkt : whole_packets ex_header ex_len (fun _ : unit => ex_validate) tt [24; 2; 192; 0; 0; 1; 5; 6]
      [[24; 2; 192; 0; 0; 1; 5; 6]]).
    { apply (seg_valid _ _ _ [24; 2; 192; 0; 0; 1; 5; 6] [] [] None); [|by constructor].
      split; [vm_compute; discriminate|]. eexists. split; [reflexivity|]. split; reflexivity. }
    constructor; [|constructor; [|constructor]]; (split; [|vm_compute; discriminate]);
      repeat constructor; try discriminate; exact Hpkt.
  - split; [cbn; lia|]. repeat constructor; cbn; lia.
  - cbn. lia.
  - discriminate.
  - repeat constructor.
  - exists s'. split; [exact Hrun|]. split; [exact Htc|]. split; [exact Hout|exact Hfin].
Defined.

(** C29: A server for COBS frames does the same for clients that send, between two moments
    without data, whole frames that fit the buffer, and close, without a stop signal,
    when the encoding buffer has room for the encoding of each telemetry packet and two
    more bytes for its sentinels; the telemetry reaches the first client in frames.  A
    frame that is split is lost, see [split_frame_is_lost], and without the room for the sentinels the server
    panics, see [large_tm_panics]. *)
Theorem cobs_server_correct encode max_encoding_length decode_in_place {H} `{HandledConnectionHandler H}
    src q h cfg stop cs n fuel tm_fuel tokens :
  rx_alive q = true -> 0 <= cfg_tc_buffer_size cfg < u32_max -> 0 <= cfg_tm_buffer_size cfg ->
  Forall (fun tm => tm <> [] /\ len tm <= cfg_tm_buffer_size cfg /\
    len (encode tm) + 2 <= max_encoding_length (cfg_tm_buffer_size cfg)) (tm_queue src) ->
  len (tm_queue src) <= u32_max -> len cs <= u32_max ->
  Forall (good_client (whole_frames encode max_encoding_length decode_in_place) tt (cfg_tc_buffer_size cfg)) cs ->
  enough_fuel cs n fuel -> (length (tm_queue src) < tm_fuel)%nat -> tokens <> [] -> Forall (fun t => t = 0) tokens ->
  exists s', GenericServer.handle_all_connections (HP:=CobsTc_parser decode_in_place) (HS:=CobsTm_sender encode)
      (Ok tokens) (Ok tt) n fuel tm_fuel
      (cobs_server_new max_encoding_length cfg src q h
         (mkListener ((fun c => Accepted (client_stream c) (client_addr c)) <$> cs) []) stop) =
      (Ok (Some (match cs with [] => AcceptTimeout | _ => HandledConnections (len cs) end)), s') /\
    tc_sender s' = forwarded (cfg_id cfg) (concat (client_packets <$> cs)) q /\
    (prod_map id outgoing <$> served (listener s')) = received (frames encode (tm_queue src)) cs /\
    finished_handler s' = foldl (fun f i => handled_connection i f) h (infos (len (tm_queue src)) cs) /\
    pending (listener s') = [] /\ (cs <> [] -> tm_queue (tm_source s') = []).
Proof.
  intros Hrx Htc Htm Htms Hm Hc Hcs Hf Htf Hne Htok. apply (server_run
    (HP:=CobsTc_parser decode_in_place) (HS:=CobsTm_sender encode)
    (whole_frames encode max_encoding_length decode_in_place) (frame encode) (frame_fits encode) tt
    (CobsTm.new max_encoding_length (cfg_tm_buffer_size cfg)) src q h cfg stop cs n fuel tm_fuel tokens); try done.
  eapply Forall_impl; [exact Htms|]. intros tm (? & ? & Hl). split_and!; [done|done|].
  unfold frame_fits, frame. cbn [CobsTm.new tm_encoding_buffer]. rewrite len_replicate, len_cons, len_app.
  change (len [0]) with 1. pose proof (len_nonneg (encode tm)). lia.
Qed.

Definition ex_max_len (n : Z) : Z := n + (n + 253) / 254 + 1.

Definition ex_frame_burst : Burst :=
  mkBurst [[0; 2; 1]; [2; 2; 0; 0; 2]; [7; 0]] TimedOut [[1; 0; 2]; [7]].

Lemma cobs_server_correct_witness :
  exists s', GenericServer.handle_all_connections (HP:=CobsTc_parser ex_decode_in_place)
      (HS:=CobsTm_sender (ex_encode_from [])) (HH:=log_info) (Ok [0]) (Ok tt) 2 9 9
      (cobs_server_new ex_max_len (mkConfig 5 16 32) (mkTmSource [[1; 0]; [3]] 4 true)
         (mkChannel [] None true true) []
         (mkListener ((fun c => Accepted (client_stream c) (client_addr c)) <$>
            [mkClient 100 [ex_frame_burst] (mkBurst [] WouldBlock [])]) []) false) =
      (Ok (Some (HandledConnections 1)), s') /\
    tc_sender s' = forwarded 5 [[1; 0; 2]; [7]] (mkChannel [] None true true) /\
    (prod_map id outgoing <$> served (listener s')) = [(100, [0; 2; 1; 1; 0; 0; 2; 3; 0])] /\
    finished_handler s' = [mkInfo 100 2 2 false].
Proof.
  destruct (cobs_server_correct (ex_encode_from []) ex_max_len ex_decode_in_place (H:=list HandledConnectionInfo)
    (mkTmSource [[1; 0]; [3]] 4 true) (mkChannel [] None true true) [] (mkConfig 5 16 32) false
    [mkClient 100 [ex_frame_burst] (mkBurst [] WouldBlock [])] 2 9 9 [0]) as (s' & Hrun & Htc & Hout & Hfin & _).
  - reflexivity.
  - split; vm_compute; [discriminate|reflexivity].
  - discriminate.
  - repeat constructor; discriminate.
  - discriminate.
  - discriminate.
  - constructor; [|constructor]. split; [|vm_compute; discriminate].
    constructor; [|constructor; [|constructor]]; (split; [repeat constructor; discriminate|]);
      (split; [discriminate|]); (split; [reflexivity|]).
    + by split.
    + split; [reflexivity|]. constructor; [|constructor; [|constructor]].
      * split; [discriminate|]. split; [repeat constructor; discriminate|].
        split; [vm_compute; discriminate|]. exists [2]. split; reflexivity.
      * split; [discriminate|]. split; [repeat constructor; discriminate|].
        split; [vm_compute; discriminate|]. exists [7]. split; reflexivity.
  - split; [cbn; lia|]. repeat constructor; cbn; lia.
  - cbn. lia.
  - discriminate.
  - repeat constructor.
  - exists s'. split; [exact Hrun|]. split; [exact Htc|]. split; [exact Hout|exact Hfin].
Defined.

(** C30: A connection ends, whatever the client sends and whatever the parser does
    with it, when the client closes it in the end or the server has a stop signal
    that is set after the last event.  This is for a server that reads its telemetry from
    the source of the example, with a sender that takes a packet from it for each one
    it sends, as both senders of the crate do.  It makes at most one
    more read than there are events and bytes on the stream and packets in
    the source, and retrieves at most one more packet than there are in the source
    each time it sends telemetry. *)
Theorem connection_terminates {P Q S H TcE : Type} {HP : TcpTcParser P Q unit TcE}
    {HS : TcpTmSender S SyncTcpTmSource unit TcE} {HH : HandledConnectionHandler H} {HE : TmEnds (S:=S) (TcE:=TcE)}
    (s : TcpTmtcGenericServer SyncTcpTmSource Q S P H) str addr :
  hangs_up str = true \/ (stop_signal s = true /\ last_signal (incoming str) (signal str) = true) ->
  let fuel := Datatypes.S (events_left (incoming str) + length (tm_queue (tm_source s))) in
  let tm_fuel := Datatypes.S (length (tm_queue (tm_source s))) in
  (GenericServer.handle_accepted_connection fuel tm_fuel addr (s, str)).1 <> Ok None.
Proof. intros He fuel tm_fuel. apply connection_ends; [exact He|unfold tms_left; cbn [fst snd]; lia..]. Qed.

(** A client that stays connected is left when the stop signal is set. *)
Lemma connection_terminates_witness :
  let s := spacepackets_server_new (mkConfig 5 16 8) (mkTmSource [[1; 2]] 4 true) (mkChannel [] None true true) tt
             ([] : list HandledConnectionInfo) (mkListener [] []) true in
  (GenericServer.handle_accepted_connection
     (HP:=SpacepacketsTc_parser ex_header ex_len (fun _ : unit => ex_validate)) 12 2 100
     (s, mkStream [Arrives [24; 2; 192; 0; 0; 1; 5]; NoData TimedOut false; NoData TimedOut true] [] true false false)).1
  <> Ok None.
Proof.
  intros s. apply (connection_terminates (HE:=SpacepacketsTm_ends)
    (HP:=SpacepacketsTc_parser ex_header ex_len (fun _ : unit => ex_validate)) s
    (mkStream [Arrives [24; 2; 192; 0; 0; 1; 5]; NoData TimedOut false; NoData TimedOut true] [] true false false)).
  right. split; reflexivity.
Defined.

Lemma parse_nothing {Hdr V Q TmE TcE} (sp_from_be_bytes : list Z -> res ByteConversionError Hdr)
    (total_len : Hdr -> Z) (validate : V -> Hdr -> list Z -> SpValidity) `{PacketSenderRaw TcE Q} b id addr (y : V * Q) :
  SpacepacketsTc.handle_tc_parsing (TmE:=TmE) sp_from_be_bytes total_len validate b id (ConnInfo.new addr) 0 0 y =
    (Ok (b, ConnInfo.new addr, 0), y).
Proof.
  unfold SpacepacketsTc.handle_tc_parsing, st_bind at 1, lift, slice. pose proof (len_nonneg b).
  destruct (Z.leb_spec 0 (len b)); [|lia]. by destruct y.
Qed.

(** An idle client that stays connected keeps a server without a stop signal in
    the loop of its connection, for ever: no fuel is enough. *)
Theorem idle_client_keeps_connection {Hdr V} (sp_from_be_bytes : list Z -> res ByteConversionError Hdr)
    (total_len : Hdr -> Z) (validate : V -> Hdr -> list Z -> SpValidity) {H} `{HandledConnectionHandler H}
    cfg mx sl q (v : V) (h : H) l fuel tm_fuel addr out :
  0 < cfg_tc_buffer_size cfg -> 0 <= cfg_tm_buffer_size cfg ->
  let x := (spacepackets_server_new cfg (mkTmSource [] mx sl) q v h l false, mkStream [] out true false false) in
  GenericServer.handle_accepted_connection (HP:=SpacepacketsTc_parser sp_from_be_bytes total_len validate)
    fuel (S tm_fuel) addr x = (Ok None, x).
Proof.
  intros Htc Htm x. unfold GenericServer.handle_accepted_connection, st_bind.
  assert (Hloop : GenericServer.conn_loop (HP:=SpacepacketsTc_parser sp_from_be_bytes total_len validate)
    fuel (S tm_fuel) (ConnInfo.new addr) 0 0 x = (Ok None, x)); [|by rewrite Hloop].
  induction fuel as [|fuel IH]; [done|]. cbn [GenericServer.conn_loop]. unfold st_bind at 1.
  assert (Hread : GenericServer.read_tcs (TmE:=unit) (TcE:=GenericSendError) 0 x = (Ok (Err WouldBlock), x)).
  { unfold GenericServer.read_tcs, st_bind, asks, on_snd, attempt. subst x. cbn [fst snd tc_buffer spacepackets_server_new
      GenericServer.new]. rewrite len_replicate by lia. unfold slice. rewrite len_replicate by lia.
    rewrite !Z2Nat.id by lia. destruct (Z.leb_spec 0 (cfg_tc_buffer_size cfg)) as [_|]; [|lia].
    cbn [andb Z.leb Z.compare]. unfold Stream.read.
    destruct (Z.leb_spec (cfg_tc_buffer_size cfg) (cfg_tc_buffer_size cfg)) as [_|]; [|lia].
    match goal with |- context [?n =? 0] => destruct (Z.eqb_spec n 0) as [Hz|_]; [exfalso|done] end.
    unfold len in Hz. rewrite length_take, length_drop, length_replicate in Hz. lia. }
  rewrite Hread. unfold st_bind at 1.
  assert (Hidle : GenericServer.on_no_data (HP:=SpacepacketsTc_parser sp_from_be_bytes total_len validate)
    (S tm_fuel) (ConnInfo.new addr) 0 0 x = (Ok (Some (inr (ConnInfo.new addr, 0))), x)).
  { unfold GenericServer.on_no_data, st_bind at 1, GenericServer.parse. unfold handle_tc_parsing, SpacepacketsTc_parser.
    rewrite parse_nothing. by subst x. }
  by rewrite Hidle.
Qed.

(** ** Streams outside of these conditions *)

(** The telecommands a space packet server forwards. *)
Definition forwarded_tcs (size : Z) (events : list ReadEvent) : option (list (list Z)) :=
  match GenericServer.handle_accepted_connection
    (HP:=SpacepacketsTc_parser ex_header ex_len (fun _ : unit => ex_validate)) 99 9 100
    (spacepackets_server_new (mkConfig 5 16 size) (mkTmSource [] 4 true) (mkChannel [] None true true) tt
       ([] : list HandledConnectionInfo) (mkListener [] []) false, mkStream events [] true false true) with
  | (Ok (Some _), (s, _)) => Some (packet <$> queue (tc_sender s))
  | _ => None
  end.

(** A packet that arrives in two bursts is forwarded, but its beginning stays in
    front of the next packet: another one is made up and the next one is lost. *)
Example split_packet_corrupts_next :
  let b := NoData WouldBlock false in
  forwarded_tcs 64 [Arrives [24; 2; 192; 0; 0; 1; 5]; b; Arrives [6]; b; Arrives [24; 2; 192; 1; 0; 1; 7; 8]; b] =
    Some [[24; 2; 192; 0; 0; 1; 5; 6]; [24; 2; 192; 0; 0; 1; 5; 24]].
Proof. vm_compute. reflexivity. Qed.

(** Less than a header before a pause is dropped, and its packet with it. *)
Example split_header_loses_packet :
  forwarded_tcs 64 [Arrives [24; 2; 192; 0]; NoData WouldBlock false; Arrives [0; 1; 5; 6]] = Some [].
Proof. vm_compute. reflexivity. Qed.

(** A packet larger than the buffer is taken for the end of the connection. *)
Example large_packet_ends_connection :
  forwarded_tcs 8 [Arrives [24; 2; 192; 0; 0; 9; 5; 6; 7; 8; 9; 10; 11; 12; 13; 14]; NoData WouldBlock false;
                   Arrives [24; 2; 192; 0; 0; 1; 5; 6]] = Some [].
Proof. vm_compute. reflexivity. Qed.

(** A frame that arrives in two bursts is lost when no whole frame is before it. *)
Example split_frame_is_lost :
  match GenericServer.handle_accepted_connection (HP:=CobsTc_parser ex_decode_in_place)
    (HS:=CobsTm_sender (ex_encode_from [])) 99 9 100
    (cobs_server_new ex_max_len (mkConfig 5 16 64) (mkTmSource [] 4 true) (mkChannel [] None true true)
       ([] : list HandledConnectionInfo) (mkListener [] []) false,
     mkStream [Arrives [0; 2; 1]; NoData WouldBlock false; Arrives [2; 2; 0]] [] true false true) with
  | (Ok (Some _), (s, _)) => queue (tc_sender s) = []
  | _ => False
  end.
Proof. vm_compute. reflexivity. Qed.

(** The encoding buffer has no room for the two zeroes around the encoding of a
    telemetry packet as large as the telemetry buffer. *)
Example large_tm_panics :
  (GenericServer.handle_accepted_connection (HP:=CobsTc_parser ex_decode_in_place)
    (HS:=CobsTm_sender (ex_encode_from [])) 99 9 100
    (cobs_server_new (fun n => n + (n + 253) / 254) (mkConfig 5 4 64) (mkTmSource [[1; 2; 3; 4]] 4 true)
       (mkChannel [] None true true) ([] : list HandledConnectionInfo) (mkListener [] []) false,
     mkStream [] [] true false true)).1 = Panic.
Proof. vm_compute. reflexivity. Qed.
