(* ===== verification/UdpServer.v ===== *)
(** * The UDP server

    [UdpTcServer] ([satrs/src/hal/std/udp_server.rs]) with the telemetry handlers
    and the task around it ([satrs-example/src/interface/udp.rs]).  The socket is a
    script of what it receives. *)

From Stdlib Require Import ZArith Lia Bool.
From stdpp Require Import base list gmap.
From S2P Require Import Prelude Spacepackets Pool Tmtc Services Encoding TcpServer.

Local Open Scope Z_scope.

(** ** The socket *)
Inductive RecvEvent : Type :=
| Datagram (bytes : list Z) (from : Z)
| RecvFails (kind : ErrorKind).

(** [refuses] says to which addresses sending fails. *)
Record UdpSocket : Type := mkSocket {
  inbox : list RecvEvent;
  outbox : list (list Z * Z);
  refuses : Z -> bool;
}.

Module Socket.

Definition set_inbox (l : list RecvEvent) (s : UdpSocket) : UdpSocket := mkSocket l (outbox s) (refuses s).

(** [recv_from]: what does not fit into the buffer is discarded. *)
Definition recv_from (buf : list Z) : st UdpSocket ErrorKind (Z * Z * list Z) :=
  fun s =>
    match inbox s with
    | [] => (Err WouldBlock, s)
    | RecvFails kind :: rest => (Err kind, set_inbox rest s)
    | Datagram bytes from :: rest =>
        let data := take (length buf) bytes in
        (Ok (len data, from, splice buf 0 data), set_inbox rest s)
    end.

Definition send_to (buf : list Z) (addr : Z) : st UdpSocket ErrorKind unit :=
  fun s =>
    if refuses s addr then (Err OtherKind, s)
    else (Ok tt, mkSocket (inbox s) (outbox s ++ [(buf, addr)]) (refuses s)).

End Socket.

(** ** [UdpTcServer] *)
Record UdpTcServer (Q : Type) : Type := mkUdpServer {
  udp_id : Z;
  udp_socket : UdpSocket;
  recv_buf : list Z;
  sender_addr : option Z;
  udp_tc_sender : Q;
}.

Arguments mkUdpServer {Q} _ _ _ _ _.
Arguments udp_id {Q} _.
Arguments udp_socket {Q} _.
Arguments recv_buf {Q} _.
Arguments sender_addr {Q} _.
Arguments udp_tc_sender {Q} _.

Inductive ReceiveResult (E : Type) : Type :=
| NothingReceived
| ReceiveIo (e : ErrorKind)
| ReceiveSend (e : E).

Arguments NothingReceived {E}.
Arguments ReceiveIo {E} e.
Arguments ReceiveSend {E} e.

Module UdpTc.
Section UdpTc.
Context {E Q : Type} `{PacketSenderRaw E Q}.
Abbreviation server := (UdpTcServer Q).

(** The socket is bound by the caller. *)
Definition new (id : Z) (socket : UdpSocket) (max_recv_size : Z) (tc_sender : Q) : server :=
  mkUdpServer id socket (replicate (Z.to_nat max_recv_size) 0) None tc_sender.

Definition receive : st server ErrorKind (Z * Z) :=
  fun s =>
    match Socket.recv_from (recv_buf s) (udp_socket s) with
    | (Ok (n, from, buf), sock) => (Ok (n, from), mkUdpServer (udp_id s) sock buf (sender_addr s) (udp_tc_sender s))
    | (Err e, sock) => (Err e, mkUdpServer (udp_id s) sock (recv_buf s) (sender_addr s) (udp_tc_sender s))
    | (Panic, sock) => (Panic, mkUdpServer (udp_id s) sock (recv_buf s) (sender_addr s) (udp_tc_sender s))
    end.

Definition on_sender {A : Type} (m : st Q E A) : st server E A :=
  fun s => let '(r, q) := m (udp_tc_sender s) in
    (r, mkUdpServer (udp_id s) (udp_socket s) (recv_buf s) (sender_addr s) q).

Definition try_recv_tc : st server (ReceiveResult E) (Z * Z) :=
  let* res := attempt receive in
  match res with
  | Ok (num_bytes, from) =>
      let* _ := modify_state (fun s => mkUdpServer (udp_id s) (udp_socket s) (recv_buf s) (Some from) (udp_tc_sender s)) in
      let* id := gets udp_id in
      let* packet := asks (fun s => slice (recv_buf s) 0 num_bytes) in
      let* _ := st_map_err ReceiveSend (on_sender (raw_send_packet id packet)) in
      ret (num_bytes, from)
  | Err WouldBlock | Err TimedOut => throw NothingReceived
  | Err e => throw (ReceiveIo e)
  | Panic => lift Panic
  end.

Definition last_sender (s : server) : option Z := sender_addr s.

End UdpTc.
End UdpTc.

(** ** Telemetry handlers of the example

    [None] when the fuel runs out. *)
Class UdpTmHandler (T : Type) : Type :=
  send_tm_to_udp_client : nat -> Z -> st (T * UdpSocket) Empty_set (option unit).

Record StaticUdpTmHandler (P : Type) : Type := mkStaticTm { tm_rx : channel PacketInPool; tm_store : Shared P }.

Arguments mkStaticTm {P} _ _.
Arguments tm_rx {P} _.
Arguments tm_store {P} _.

Module StaticTm.
Section StaticTm.
Context {P : Type} `{PoolProvider P}.
Abbreviation M := (st (StaticUdpTmHandler P * UdpSocket) Empty_set).

Definition on_rx {E A : Type} (m : st (channel PacketInPool) E A) : st (StaticUdpTmHandler P * UdpSocket) E A :=
  fun x => let '(r, c) := m (tm_rx x.1) in (r, (mkStaticTm c (tm_store x.1), x.2)).

Definition on_pool {E A : Type} (m : st P E A) : st (StaticUdpTmHandler P * UdpSocket) E A :=
  fun x => let '(r, p) := m (inner (tm_store x.1)) in
    (r, (mkStaticTm (tm_rx x.1) (mkShared (poisoned (tm_store x.1)) p), x.2)).

(** [read_with_guard], [read_as_vec], and the end of the scope of the guard. *)
Definition guarded_read (addr : Z) : st P PoolError (res PoolError (list Z)) :=
  let g := Guard.new addr in
  let* r := attempt (asks (fun p => read_as_vec p (guard_addr g))) in
  let* _ := Guard.drop g in
  ret r.

(** The body of the loop; the guard lives until its end. *)
Definition send_one (recv_addr : Z) (pus_tm_in_pool : PacketInPool) : M unit :=
  let* locked := gets (fun x => negb (poisoned (tm_store x.1))) in
  if negb locked then ret tt else
  let* read_res := attempt (on_pool (guarded_read (store_addr pus_tm_in_pool))) in
  match read_res with
  | Ok (Ok buf) => let* _ := on_snd (attempt (Socket.send_to buf recv_addr)) in ret tt
  | _ => ret tt
  end.

Fixpoint send_tm_to_udp_client (fuel : nat) (recv_addr : Z) : M (option unit) :=
  match fuel with
  | O => ret None
  | S fuel' =>
      let* r := attempt (on_rx Channel.try_recv) in
      match r with
      | Ok pus_tm_in_pool =>
          let* _ := send_one recv_addr pus_tm_in_pool in send_tm_to_udp_client fuel' recv_addr
      | _ => ret (Some tt)
      end
  end.

End StaticTm.
End StaticTm.

#[export] Instance StaticTm_handler {P} `{PoolProvider P} : UdpTmHandler (StaticUdpTmHandler P) :=
  StaticTm.send_tm_to_udp_client.

(** [DynamicUdpTmHandler]: its field [tm_rx]. *)
Module DynamicTm.

Fixpoint send_tm_to_udp_client (fuel : nat) (recv_addr : Z)
    : st (channel PacketAsVec * UdpSocket) Empty_set (option unit) :=
  match fuel with
  | O => ret None
  | S fuel' =>
      let* r := on_fst (attempt Channel.try_recv) in
      match r with
      | Ok tm =>
          let* _ := on_snd (attempt (Socket.send_to (packet tm) recv_addr)) in
          send_tm_to_udp_client fuel' recv_addr
      | _ => ret (Some tt)
      end
  end.

End DynamicTm.

#[export] Instance DynamicTm_handler : UdpTmHandler (channel PacketAsVec) := DynamicTm.send_tm_to_udp_client.

(** ** [UdpTmtcServer] *)
Record UdpTmtcServer (Q T : Type) : Type := mkTmtcServer { udp_tc_server : UdpTcServer Q; udp_tm_handler : T }.

Arguments mkTmtcServer {Q T} _ _.
Arguments udp_tc_server {Q T} _.
Arguments udp_tm_handler {Q T} _.

Module UdpTmtc.
Section UdpTmtc.
Context {E Q T : Type} `{PacketSenderRaw E Q} `{UdpTmHandler T}.
Abbreviation server := (UdpTmtcServer Q T).

Definition poll_tc_server : st server Empty_set HandlingStatus :=
  fun s =>
    match UdpTc.try_recv_tc (udp_tc_server s) with
    | (Panic, u) => (Panic, mkTmtcServer u (udp_tm_handler s))
    | (Ok _, u) => (Ok HandledOne, mkTmtcServer u (udp_tm_handler s))
    | (Err _, u) => (Ok HandlingEmpty, mkTmtcServer u (udp_tm_handler s))
    end.

Fixpoint poll_loop (fuel : nat) : st server Empty_set (option unit) :=
  match fuel with
  | O => ret None
  | S fuel' =>
      let* status := poll_tc_server in
      match status with
      | HandlingEmpty => ret (Some tt)
      | HandledOne => poll_loop fuel'
      end
  end.

Definition send_tm (fuel : nat) (recv_addr : Z) : st server Empty_set (option unit) :=
  fun s =>
    let u := udp_tc_server s in
    let '(r, (t, sock)) := send_tm_to_udp_client fuel recv_addr (udp_tm_handler s, udp_socket u) in
    (r, mkTmtcServer (mkUdpServer (udp_id u) sock (recv_buf u) (sender_addr u) (udp_tc_sender u)) t).

Definition periodic_operation (fuel tm_fuel : nat) : st server Empty_set (option unit) :=
  let* a := poll_loop fuel in
  match a with
  | None => ret None
  | Some _ =>
      let* recv_addr := gets (fun s => UdpTc.last_sender (udp_tc_server s)) in
      match recv_addr with
      | Some recv_addr => send_tm tm_fuel recv_addr
      | None => ret (Some tt)
      end
  end.

End UdpTmtc.
End UdpTmtc.

(** * Lemmas *)

(** What a client gets when a socket sends to it. *)
Definition mail (sock : UdpSocket) (addr : Z) (tms : list (list Z)) : UdpSocket :=
  mkSocket (inbox sock) (outbox sock ++ (if refuses sock addr then [] else (fun d => (d, addr)) <$> tms))
    (refuses sock).

Lemma mail_nil sock addr : mail sock addr [] = sock.
Proof. destruct sock. unfold mail. cbn. by destruct (_ addr); rewrite app_nil_r. Qed.

Lemma mail_cons sock addr d tms : mail (mail sock addr [d]) addr tms = mail sock addr (d :: tms).
Proof. unfold mail. cbn. rewrite <- app_assoc. by destruct (refuses sock addr). Qed.

(** A send that fails is ignored. *)
Lemma send_to_mail {E} d addr sock :
  exists r, attempt (F:=E) (Socket.send_to d addr) sock = (Ok r, mail sock addr [d]).
Proof.
  unfold attempt, Socket.send_to, mail. destruct (refuses sock addr) eqn:Hr; eexists; [|done].
  rewrite app_nil_r. by destruct sock; cbn in *.
Qed.

Lemma set_queue_nil {A} (c : channel A) : queue c = [] -> Channel.set_queue [] c = c.
Proof. destruct c. cbn. by intros ->. Qed.

(** ** The dynamic handler sends all telemetry, in order *)
Lemma dynamic_sends fuel addr : forall c sock,
  (length (queue c) < fuel)%nat ->
  DynamicTm.send_tm_to_udp_client fuel addr (c, sock) =
    (Ok (Some tt), (Channel.set_queue [] c, mail sock addr (packet <$> queue c))).
Proof.
  induction fuel as [|fuel IH]; intros c sock Hf; [lia|]. cbn [DynamicTm.send_tm_to_udp_client].
  unfold st_bind at 1, on_fst, attempt at 1, Channel.try_recv. cbn [fst snd].
  destruct (queue c) as [|tm q] eqn:Hq.
  - rewrite set_queue_nil by done. cbn [fmap list_fmap]. rewrite mail_nil. by destruct (tx_alive c).
  - unfold st_bind, on_snd. cbn [fst snd].
    destruct (send_to_mail (E:=Empty_set) (packet tm) addr sock) as [r ->]. rewrite IH by (cbn in *; lia).
    cbn [queue Channel.set_queue fmap list_fmap]. rewrite mail_cons. by destruct c.
Qed.

(** ** The static handler sends the packets of the pool and frees them *)
Section Static.
Context {P : Type} `{PP : PoolProvider P} `{PS : !PoolSpec P}.

(** [read_as_vec] on a pool that has the packet. *)
Lemma read_as_vec_ok (p : P) m a d : pool_rep p m -> m !! a = Some d -> read_as_vec p a = Ok d.
Proof using PS.
  intros Hrep Hd. unfold read_as_vec. rewrite (pool_len_some p m a d Hrep Hd). cbn [res_bind].
  rewrite (pool_read_some p m a d _ Hrep Hd), len_replicate.
  destruct (Z.ltb_spec (Z.of_nat (Z.to_nat (len d))) (len d)); [unfold len in *; lia|]. cbn [res_bind snd].
  by rewrite drop_ge, app_nil_r by (rewrite length_replicate; unfold len; lia).
Qed.

Lemma guarded_read_ok p m a d :
  pool_rep p m -> m !! a = Some d ->
  exists p', StaticTm.guarded_read a p = (Ok (Ok d), p') /\ pool_rep p' (delete a m).
Proof using PS.
  intros Hrep Hd. destruct (pool_delete_some p m a d Hrep Hd) as (p' & Hdel & Hrep').
  exists p'. split; [|done].
  pose proof (read_as_vec_ok p m a d Hrep Hd) as Hread.
  unfold StaticTm.guarded_read, Guard.drop, st_bind, asks. cbn [Guard.new guard_addr no_deletion].
  unfold attempt. by rewrite Hread, Hdel.
Qed.

Lemma send_one_ok addr pk d c (sh : Shared P) sock m :
  poisoned sh = false -> pool_rep (inner sh) m -> m !! store_addr pk = Some d ->
  exists p', StaticTm.send_one addr pk (mkStaticTm c sh, sock) =
      (Ok tt, (mkStaticTm c (mkShared false p'), mail sock addr [d])) /\
    pool_rep p' (delete (store_addr pk) m).
Proof using PS.
  intros Hpo Hrep Hd. destruct (guarded_read_ok (inner sh) m (store_addr pk) d Hrep Hd) as (p1 & Hr & Hrep1).
  destruct (send_to_mail (E:=Empty_set) d addr sock) as [r Hs]. exists p1. split; [|done].
  unfold StaticTm.send_one, st_bind, gets, StaticTm.on_pool, on_snd. cbn [fst snd tm_store tm_rx]. rewrite Hpo.
  cbn [negb]. unfold attempt at 1. cbn [fst snd tm_store tm_rx]. rewrite Hr. cbn [fst snd]. by rewrite Hs, Hpo.
Qed.

Lemma static_sends fuel addr : forall c (sh : Shared P) sock m tms,
  (length (queue c) < fuel)%nat -> poisoned sh = false -> pool_rep (inner sh) m ->
  NoDup (store_addr <$> queue c) ->
  Forall2 (fun pk d => m !! store_addr pk = Some d) (queue c) tms ->
  exists p', StaticTm.send_tm_to_udp_client fuel addr (mkStaticTm c sh, sock) =
      (Ok (Some tt), (mkStaticTm (Channel.set_queue [] c) (mkShared false p'), mail sock addr tms)) /\
    pool_rep p' (foldr delete m (store_addr <$> queue c)).
Proof using PS.
  induction fuel as [|fuel IH]; intros c sh sock m tms Hf Hpo Hrep Hnd Hall; [lia|].
  cbn [StaticTm.send_tm_to_udp_client]. unfold st_bind at 1, attempt at 1, StaticTm.on_rx, Channel.try_recv.
  cbn [tm_rx fst]. destruct (queue c) as [|pk q] eqn:Hq.
  - inversion Hall; subst. exists (inner sh). rewrite set_queue_nil, mail_nil by done.
    destruct sh as [po p]. cbn in *. subst po. by destruct (tx_alive c).
  - inversion Hall as [|? d ? tms' Hd Hall']; subst. rewrite fmap_cons in Hnd. apply NoDup_cons in Hnd as [Hni Hnd].
    destruct (send_one_ok addr pk d (Channel.set_queue q c) sh sock m Hpo Hrep Hd) as (p1 & Hone & Hrep1).
    destruct (IH (Channel.set_queue q c) (mkShared false p1) (mail sock addr [d]) (delete (store_addr pk) m) tms')
      as (p2 & Hrun & Hrep2); [cbn in *; lia|done|done|done| |].
    { cbn [queue Channel.set_queue]. clear -Hall' Hni. induction Hall' as [|x y l k Hx _ IHl]; [constructor|].
      rewrite fmap_cons in Hni. apply not_elem_of_cons in Hni as [Hne Hni]. constructor; [|by apply IHl].
      by rewrite lookup_delete_ne. }
    exists p2. split.
    + unfold st_bind. cbn [fst snd tm_store tm_rx]. rewrite Hone, Hrun. by rewrite mail_cons.
    + rewrite fmap_cons. cbn [foldr]. cbn [queue Channel.set_queue] in Hrep2.
      replace (delete (store_addr pk) (foldr delete m (store_addr <$> q)))
        with (foldr delete (delete (store_addr pk) m) (store_addr <$> q)); [done|].
      clear. induction q as [|x q IHq]; [done|]. rewrite fmap_cons. cbn [foldr]. by rewrite IHq, delete_delete.
Qed.

End Static.

(** ** The datagrams that wait are forwarded *)
Section Poll.
Context {T : Type} `{UdpTmHandler T}.
Abbreviation server := (UdpTmtcServer (channel PacketAsVec) T).
Implicit Types (u : UdpTcServer (channel PacketAsVec)).

(** The server after the datagrams [ds]. *)
Definition after_datagrams (ds : list (list Z * Z)) (buf : list Z) u : UdpTcServer (channel PacketAsVec) :=
  mkUdpServer (udp_id u) (Socket.set_inbox [] (udp_socket u)) buf
    (match last ds with Some d => Some d.2 | None => sender_addr u end)
    (forwarded (udp_id u) (take (length (recv_buf u)) <$> ds.*1) (udp_tc_sender u)).

Lemma recv_datagram u d from rest :
  inbox (udp_socket u) = Datagram d from :: rest -> rx_alive (udp_tc_sender u) = true ->
  let data := take (length (recv_buf u)) d in
  UdpTc.try_recv_tc u =
    (Ok (len data, from), mkUdpServer (udp_id u) (Socket.set_inbox rest (udp_socket u)) (splice (recv_buf u) 0 data)
       (Some from) (forwarded (udp_id u) [data] (udp_tc_sender u))).
Proof using.
  intros Hin Hrx data. unfold UdpTc.try_recv_tc, st_bind, attempt, UdpTc.receive, Socket.recv_from.
  rewrite Hin. fold data. unfold modify_state, gets, asks, st_map_err, UdpTc.on_sender.
  cbn [udp_id recv_buf udp_tc_sender udp_socket sender_addr].
  rewrite slice_splice. unfold raw_send_packet, mpsc_raw_sender, MpscSender.send_packet, st_map_err, Channel.send.
  by rewrite Hrx.
Qed.

Lemma poll_run fuel (t : T) ds : forall u,
  (length ds < fuel)%nat -> inbox (udp_socket u) = (fun d => Datagram d.1 d.2) <$> ds ->
  rx_alive (udp_tc_sender u) = true ->
  exists buf, length buf = length (recv_buf u) /\
    UdpTmtc.poll_loop fuel (mkTmtcServer u t) =
      (Ok (Some tt), mkTmtcServer (after_datagrams ds buf u) t).
Proof using.
  induction fuel as [|fuel IH] in ds |- *; intros u Hf Hin Hrx; [lia|]. destruct ds as [|[d from] ds].
  - exists (recv_buf u). split; [done|]. cbn [UdpTmtc.poll_loop]. unfold st_bind, UdpTmtc.poll_tc_server.
    cbn [udp_tc_server udp_tm_handler]. unfold UdpTc.try_recv_tc, st_bind, attempt, UdpTc.receive, Socket.recv_from.
    rewrite Hin. cbn. unfold after_datagrams. destruct u as [i [ib ob rf] b sa q]. cbn in *. subst ib.
    by rewrite forwarded_nil.
  - rewrite fmap_cons in Hin. cbn [fst snd] in Hin. set (data := take (length (recv_buf u)) d).
    set (u1 := mkUdpServer (udp_id u) (Socket.set_inbox ((fun d => Datagram d.1 d.2) <$> ds) (udp_socket u))
      (splice (recv_buf u) 0 data) (Some from) (forwarded (udp_id u) [data] (udp_tc_sender u))).
    assert (Hlb : length (recv_buf u1) = length (recv_buf u)).
    { apply length_splice; [lia|]. unfold data, len. rewrite length_take. lia. }
    destruct (IH ds u1) as (buf & Hlen & Hrun); [cbn in *; lia|done|done|].
    exists buf. split; [lia|]. cbn [UdpTmtc.poll_loop]. unfold st_bind, UdpTmtc.poll_tc_server.
    cbn [udp_tc_server udp_tm_handler]. rewrite (recv_datagram u d from _ Hin Hrx). fold data u1. rewrite Hrun.
    do 2 f_equal. unfold after_datagrams. rewrite Hlb. cbn [u1 udp_id udp_socket sender_addr udp_tc_sender].
    rewrite forwarded_cons. f_equal. destruct ds as [|x ds]; [done|].
    rewrite last_cons_cons. destruct (last (x :: ds)) eqn:Hl; [done|]. by apply last_None in Hl.
Qed.

End Poll.

(** * Properties *)

(** C31: A period of the UDP server forwards every datagram that waits, in order
    and cut to the size of its buffer, and then sends all telemetry that waits, in order,
    to the sender of the last datagram it ever got; without one the telemetry
    waits.  A client that cannot be reached is ignored. *)
Theorem udp_period_correct (u : UdpTcServer (channel PacketAsVec)) (tms : channel PacketAsVec) ds fuel tm_fuel :
  (length ds < fuel)%nat -> (length (queue tms) < tm_fuel)%nat ->
  inbox (udp_socket u) = (fun d => Datagram d.1 d.2) <$> ds -> rx_alive (udp_tc_sender u) = true ->
  exists s, UdpTmtc.periodic_operation fuel tm_fuel (mkTmtcServer u tms) = (Ok (Some tt), s) /\
    udp_tc_sender (udp_tc_server s) =
      forwarded (udp_id u) (take (length (recv_buf u)) <$> ds.*1) (udp_tc_sender u) /\
    inbox (udp_socket (udp_tc_server s)) = [] /\
    match (match last ds with Some d => Some d.2 | None => sender_addr u end) with
    | Some addr =>
        queue (udp_tm_handler s) = [] /\
        outbox (udp_socket (udp_tc_server s)) = outbox (udp_socket u) ++
          (if refuses (udp_socket u) addr then [] else (fun tm => (packet tm, addr)) <$> queue tms)
    | None => udp_tm_handler s = tms /\ outbox (udp_socket (udp_tc_server s)) = outbox (udp_socket u)
    end.
Proof.
  intros Hf Htf Hin Hrx. destruct (poll_run fuel tms ds u Hf Hin Hrx) as (buf & _ & Hrun).
  unfold UdpTmtc.periodic_operation, st_bind. rewrite Hrun. unfold gets. cbn [udp_tc_server UdpTc.last_sender].
  unfold UdpTc.last_sender. cbn [after_datagrams sender_addr].
  destruct (match last ds with Some d => Some d.2 | None => sender_addr u end) as [addr|]; [|by eexists].
  unfold UdpTmtc.send_tm, send_tm_to_udp_client, DynamicTm_handler. cbn [udp_tc_server udp_tm_handler].
  rewrite dynamic_sends by done. eexists. split; [reflexivity|]. split_and!; try done.
  cbn. by rewrite <- list_fmap_compose.
Qed.

Lemma udp_period_correct_witness :
  exists s, UdpTmtc.periodic_operation 3 2
      (mkTmtcServer (UdpTc.new 5 (mkSocket [Datagram [1; 2] 100; Datagram [3; 4; 5; 6] 101] [] (fun _ => false)) 3
         (mkChannel [] None true true)) (mkChannel [mkPacketAsVec 9 [7; 8]] None true true)) = (Ok (Some tt), s) /\
    udp_tc_sender (udp_tc_server s) = forwarded 5 [[1; 2]; [3; 4; 5]] (mkChannel [] None true true) /\
    outbox (udp_socket (udp_tc_server s)) = [([7; 8], 101)].
Proof.
  destruct (udp_period_correct (UdpTc.new 5 (mkSocket [Datagram [1; 2] 100; Datagram [3; 4; 5; 6] 101] []
    (fun _ => false)) 3 (mkChannel [] None true true)) (mkChannel [mkPacketAsVec 9 [7; 8]] None true true)
    [([1; 2], 100); ([3; 4; 5; 6], 101)] 3 2 ltac:(cbn; lia) ltac:(cbn; lia) eq_refl eq_refl)
    as (s & Hrun & Htc & _ & _ & Hout). exists s. split; [exact Hrun|]. split; [exact Htc|exact Hout].
Defined.
