(* ===== verification/TmSink.v ===== *)
(** * The telemetry sinks of the example ([satrs-example/src/tmtc/tm_sink.rs])

    Every telemetry packet passes a sink, which numbers it per APID and per
    service, keeps a copy for the TCP server and hands it to the UDP server. *)

From Stdlib Require Import ZArith Lia Bool.
From stdpp Require Import base list gmap.
From S2P Require Import Prelude Spacepackets Pool Tmtc SeqCount TcpServer UdpServer.

Local Open Scope Z_scope.

(** ** State *)
Record CcsdsSeqCounterMap : Type := mkSeqMap { apid_seq_counter_map : gmap Z (SeqCountProviderSimple 16) }.

Module SeqMap.

Definition default : CcsdsSeqCounterMap := mkSeqMap ∅.

(** [entry(apid).or_default().get_and_increment()] *)
Definition get_and_increment (apid : Z) : st CcsdsSeqCounterMap unit Z :=
  fun m =>
    let c := match apid_seq_counter_map m !! apid with Some c => c | None => ccsds_default end in
    let '(r, c') := Simple.get_and_increment c in
    (r, mkSeqMap (<[apid := c']> (apid_seq_counter_map m))).

End SeqMap.

Record TmFunnelCommon : Type := mkCommon {
  seq_counter_map : CcsdsSeqCounterMap;
  msg_counter_map : gmap Z Z;
  sync_tm_tcp_source : SyncTcpTmSource;
}.

Record TmSinkStatic (P : Type) : Type := mkSinkStatic {
  ss_common : TmFunnelCommon;
  ss_shared_tm_store : Shared P;
  ss_tm_funnel_rx : channel PacketInPool;
  ss_tm_server_tx : channel PacketInPool;
}.

Arguments mkSinkStatic {P} _ _ _ _.
Arguments ss_common {P} _.
Arguments ss_shared_tm_store {P} _.
Arguments ss_tm_funnel_rx {P} _.
Arguments ss_tm_server_tx {P} _.

Record TmSinkDynamic : Type := mkSinkDynamic {
  sd_common : TmFunnelCommon;
  sd_tm_funnel_rx : channel PacketAsVec;
  sd_tm_server_tx : channel PacketAsVec;
}.

(** [PusTmZeroCopyWriter] of [spacepackets]: whether one can be made on a buffer,
    the fields it reads, and the buffer after the calls that write. *)
Record ZeroCopyWriter : Type := mkWriter {
  zc_new : list Z -> bool;
  zc_apid : list Z -> Z;
  zc_service : list Z -> Z;
  zc_set_seq_count : Z -> list Z -> list Z;
  zc_set_msg_count : Z -> list Z -> list Z;
  zc_finish : list Z -> list Z;
}.

Module Funnel.
Section Funnel.
Context (zc : ZeroCopyWriter).

Definition new (src : SyncTcpTmSource) : TmFunnelCommon := mkCommon SeqMap.default ∅ src.

(** The next message count of a service. *)
Definition next_msg_count (service : Z) : st TmFunnelCommon unit Z :=
  fun c =>
    let entry := match msg_counter_map c !! service with Some v => v | None => 0 end in
    let set v := mkCommon (seq_counter_map c) (<[service := v]> (msg_counter_map c)) (sync_tm_tcp_source c) in
    if entry =? u16_max then (Ok entry, set 0) else
    match checked_add (E:=unit) 16 entry 1 with
    | Ok v => (Ok entry, set v)
    | _ => (Panic, set entry)
    end.

Definition next_seq_count (apid : Z) : st TmFunnelCommon unit Z :=
  fun c =>
    let '(r, m) := SeqMap.get_and_increment apid (seq_counter_map c) in
    (r, mkCommon m (msg_counter_map c) (sync_tm_tcp_source c)).

(** The packet after the writer was used on it. *)
Definition apply_packet_processing (tm : list Z) : st TmFunnelCommon unit (list Z) :=
  let* seq := next_seq_count (zc_apid zc tm) in
  let tm := zc_set_seq_count zc seq tm in
  let* entry := next_msg_count (zc_service zc tm) in
  let tm := zc_set_msg_count zc entry tm in
  ret (zc_finish zc tm).

(** [self.common.sync_tm_tcp_source.add_tm(..)] *)
Definition add_tm (tm : list Z) (c : TmFunnelCommon) : TmFunnelCommon :=
  mkCommon (seq_counter_map c) (msg_counter_map c) (TmSource.add_tm tm (sync_tm_tcp_source c)).

(** A writer on the packet, and the processing. *)
Definition process (tm : list Z) : st TmFunnelCommon unit (list Z) :=
  if zc_new zc tm then apply_packet_processing tm else lift Panic.

End Funnel.
End Funnel.

(** ** The sinks

    [recv] waits for a packet: with an empty queue the operation does nothing,
    which is also what it does when the senders are gone. *)
Module SinkDynamic.
Section SinkDynamic.
Context (zc : ZeroCopyWriter).

Definition new (sync_tm_tcp_source : SyncTcpTmSource) (tm_funnel_rx tm_server_tx : channel PacketAsVec)
    : TmSinkDynamic := mkSinkDynamic (Funnel.new sync_tm_tcp_source) tm_funnel_rx tm_server_tx.

Definition operation : st TmSinkDynamic unit unit :=
  fun s =>
    match queue (sd_tm_funnel_rx s) with
    | [] => (Ok tt, s)
    | tm :: q =>
        let rx := Channel.set_queue q (sd_tm_funnel_rx s) in
        match Funnel.process zc (packet tm) (sd_common s) with
        | (Ok p, c) =>
            let c := Funnel.add_tm p c in
            let '(r, tx) := Channel.send (mkPacketAsVec (pav_sender_id tm) p) (sd_tm_server_tx s) in
            (expect r, mkSinkDynamic c rx tx)
        | (_, c) => (Panic, mkSinkDynamic c rx (sd_tm_server_tx s))
        end
    end.

End SinkDynamic.
End SinkDynamic.

Module SinkStatic.
Section SinkStatic.
Context {P : Type} `{PoolProvider P} (zc : ZeroCopyWriter).

Definition new (shared_tm_store : Shared P) (sync_tm_tcp_source : SyncTcpTmSource)
    (tm_funnel_rx tm_server_tx : channel PacketInPool) : TmSinkStatic P :=
  mkSinkStatic (Funnel.new sync_tm_tcp_source) shared_tm_store tm_funnel_rx tm_server_tx.

(** [pool_guard.modify(addr, |buf| ..)]: the closure processes the bytes of the
    block, which are those [read_as_vec] gives, and keeps a copy of the result. *)
Definition modify_in_pool (addr : Z) : st (TmFunnelCommon * Shared P) unit (list Z) :=
  fun x =>
    let p := inner x.2 in
    if poisoned x.2 then (Panic, x) else
    match read_as_vec p addr with
    | Ok tm =>
        match Funnel.process zc tm x.1 with
        | (Ok tm_copy, c) =>
            match pool_modify addr (fun _ => tm_copy) p with
            | (Ok _, p') => (Ok tm_copy, (c, mkShared false p'))
            | (_, p') => (Panic, (c, mkShared false p'))
            end
        | (_, c) => (Panic, (c, x.2))
        end
    | _ => (Panic, x)
    end.

Definition operation : st (TmSinkStatic P) unit unit :=
  fun s =>
    match queue (ss_tm_funnel_rx s) with
    | [] => (Ok tt, s)
    | pus_tm_in_pool :: q =>
        let rx := Channel.set_queue q (ss_tm_funnel_rx s) in
        match modify_in_pool (store_addr pus_tm_in_pool) (ss_common s, ss_shared_tm_store s) with
        | (Ok tm_copy, (c, sh)) =>
            match Channel.send pus_tm_in_pool (ss_tm_server_tx s) with
            | (Ok _, tx) => (Ok tt, mkSinkStatic (Funnel.add_tm tm_copy c) sh rx tx)
            | (_, tx) => (Panic, mkSinkStatic c sh rx tx)
            end
        | (_, (c, sh)) => (Panic, mkSinkStatic c sh rx (ss_tm_server_tx s))
        end
    end.

End SinkStatic.
End SinkStatic.

(** The thread of a sink, over [n] packets. *)
Fixpoint operations {S : Type} (operation : st S unit unit) (n : nat) : st S unit unit :=
  match n with
  | O => ret tt
  | Datatypes.S n' => let* _ := operation in operations operation n'
  end.

(** * Numbering *)

(** How many of the packets have a field of that value. *)
Definition count_field (f : list Z -> Z) (v : Z) (prev : list (list Z)) : Z :=
  len (List.filter (fun tm => f tm =? v) prev).

Section Numbers.
Context (zc : ZeroCopyWriter).

(** A packet with its numbers. *)
Definition stamp (seq msg : Z) (tm : list Z) : list Z :=
  zc_finish zc (zc_set_msg_count zc msg (zc_set_seq_count zc seq tm)).

(** Sequence counts run per APID and wrap at 14 bits, message counts per service
    and wrap at 16 bits. *)
Fixpoint stamped (prev tms : list (list Z)) : list (list Z) :=
  match tms with
  | [] => []
  | tm :: tms' =>
      stamp (count_field (zc_apid zc) (zc_apid zc tm) prev mod 2 ^ 14)
        (count_field (zc_service zc) (zc_service zc tm) prev mod 2 ^ 16) tm :: stamped (prev ++ [tm]) tms'
  end.

(** The counters after the packets [prev]. *)
Definition counters (prev : list (list Z)) (c : TmFunnelCommon) : Prop :=
  (forall a, match apid_seq_counter_map (seq_counter_map c) !! a with Some c => c | None => ccsds_default end =
     mkSimple (count_field (zc_apid zc) a prev mod 2 ^ 14) MAX_SEQ_COUNT) /\
  (forall s, match msg_counter_map c !! s with Some v => v | None => 0 end =
     count_field (zc_service zc) s prev mod 2 ^ 16).

Lemma count_field_snoc f v prev tm :
  count_field f v (prev ++ [tm]) = count_field f v prev + (if f tm =? v then 1 else 0).
Proof using.
  unfold count_field. rewrite List.filter_app, len_app. cbn [List.filter]. by destruct (f tm =? v).
Qed.

Lemma next_mod n m : 0 < m -> (n mod m + 1) mod m = (n + 1) mod m.
Proof using. intros Hm. by rewrite Zplus_mod_idemp_l. Qed.

Hypothesis service_kept : forall seq tm, zc_service zc (zc_set_seq_count zc seq tm) = zc_service zc tm.

Lemma next_seq prev c a :
  counters prev c ->
  exists m, Funnel.next_seq_count a c = (Ok (count_field (zc_apid zc) a prev mod 2 ^ 14),
      mkCommon m (msg_counter_map c) (sync_tm_tcp_source c)) /\
    forall b, match apid_seq_counter_map m !! b with Some c => c | None => ccsds_default end =
      mkSimple ((count_field (zc_apid zc) b prev + (if a =? b then 1 else 0)) mod 2 ^ 14) MAX_SEQ_COUNT.
Proof using.
  intros [Hseq _]. unfold Funnel.next_seq_count, SeqMap.get_and_increment. rewrite Hseq.
  pose proof (Z.mod_pos_bound (count_field (zc_apid zc) a prev) (2 ^ 14) ltac:(lia)).
  rewrite simple_step by (cbn [seq_count max_val]; unfold MAX_SEQ_COUNT; lia).
  eexists. split; [reflexivity|]. intros b. cbn [apid_seq_counter_map seq_count max_val].
  destruct (Z.eqb_spec a b) as [->|Hne].
  - rewrite lookup_insert_eq. f_equal. unfold MAX_SEQ_COUNT.
    replace (2 ^ 14 - 1 + 1) with (2 ^ 14) by lia. by apply next_mod.
  - rewrite lookup_insert_ne by done. by rewrite Hseq, Z.add_0_r.
Qed.

Lemma next_msg prev c s :
  (forall s, match msg_counter_map c !! s with Some v => v | None => 0 end =
     count_field (zc_service zc) s prev mod 2 ^ 16) ->
  exists m, Funnel.next_msg_count s c = (Ok (count_field (zc_service zc) s prev mod 2 ^ 16),
      mkCommon (seq_counter_map c) m (sync_tm_tcp_source c)) /\
    forall b, match m !! b with Some v => v | None => 0 end =
      (count_field (zc_service zc) b prev + (if s =? b then 1 else 0)) mod 2 ^ 16.
Proof using.
  intros Hmsg. unfold Funnel.next_msg_count. rewrite Hmsg.
  pose proof (Z.mod_pos_bound (count_field (zc_service zc) s prev) (2 ^ 16) ltac:(lia)).
  set (v := count_field (zc_service zc) s prev mod 2 ^ 16) in *.
  destruct (counter_step 16 v u16_max) as (Hs & Hc & _); [unfold u16_max; lia|unfold u16_max; lia|].
  assert (Hnext : (if v =? u16_max then 0 else v + 1) = (count_field (zc_service zc) s prev + 1) mod 2 ^ 16).
  { rewrite Hs. unfold v, u16_max. replace (2 ^ 16 - 1 + 1) with (2 ^ 16) by lia. by apply next_mod. }
  destruct (Z.eqb_spec v u16_max) as [Hv|Hv]; [|rewrite Hc by done]; (eexists; split; [reflexivity|]); intros b;
    (destruct (Z.eqb_spec s b) as [->|Hne]; [by rewrite lookup_insert_eq|]);
    rewrite lookup_insert_ne by done; by rewrite Hmsg, Z.add_0_r.
Qed.

Lemma process_run prev c tm :
  counters prev c -> zc_new zc tm = true ->
  exists c', Funnel.process zc tm c =
      (Ok (stamp (count_field (zc_apid zc) (zc_apid zc tm) prev mod 2 ^ 14)
            (count_field (zc_service zc) (zc_service zc tm) prev mod 2 ^ 16) tm), c') /\
    counters (prev ++ [tm]) c' /\ sync_tm_tcp_source c' = sync_tm_tcp_source c.
Proof using service_kept.
  intros Hc Hnew. unfold Funnel.process. rewrite Hnew. unfold Funnel.apply_packet_processing, st_bind.
  destruct (next_seq prev c (zc_apid zc tm) Hc) as (m1 & Hs & Hseq). rewrite Hs, service_kept.
  destruct (next_msg prev (mkCommon m1 (msg_counter_map c) (sync_tm_tcp_source c)) (zc_service zc tm)) as (m2 & Hm & Hmsg);
    [by destruct Hc|]. rewrite Hm.
  eexists. split; [reflexivity|]. split; [|done].
  split; cbn [seq_counter_map msg_counter_map]; intros a; by rewrite ?Hseq, ?Hmsg, count_field_snoc.
Qed.

(** ** The copies for the TCP server *)

(** The last [n] elements. *)
Definition keep {A : Type} (n : nat) (l : list A) : list A := drop (length l - n) l.

Lemma add_tm_keep tm src :
  0 <= max_packets_stored src -> len (tm_queue src) <= max_packets_stored src + 1 ->
  tm_queue (TmSource.add_tm tm src) = keep (Z.to_nat (max_packets_stored src + 1)) (tm_queue src ++ [tm]).
Proof using.
  intros Hm Hl. unfold TmSource.add_tm, keep. rewrite length_app. cbn [tm_queue TmSource.set_queue length].
  destruct (Z.ltb_spec (max_packets_stored src) (len (tm_queue src))) as [Hf|Hf].
  - assert (Hn : (length (tm_queue src) + 1 - Z.to_nat (max_packets_stored src + 1))%nat = 1%nat)
      by (unfold len in *; lia).
    rewrite Hn. destruct (tm_queue src); [unfold len in Hf; cbn in Hf; lia|done].
  - replace (_ - _)%nat with 0%nat by (unfold len in *; lia). done.
Qed.

Lemma keep_app {A} n (l : list A) x : keep n (keep n l ++ [x]) = keep n (l ++ [x]).
Proof using.
  unfold keep. rewrite !length_app, length_drop. cbn [length].
  destruct (decide (length l <= n)%nat) as [Hle|Hgt].
  - replace (length l - n)%nat with 0%nat by lia. rewrite drop_0. f_equal. lia.
  - replace (length l + 1 - n)%nat with ((length l - n) + 1)%nat by lia.
    replace (length l - (length l - n) + 1 - n)%nat with 1%nat by lia.
    rewrite <- (drop_drop (l ++ [x]) 1 (length l - n)), (drop_app_le l [x]) by lia. done.
Qed.

(** The source of a sink after the packets [out]. *)
Definition copies (src0 : SyncTcpTmSource) (out : list (list Z)) (c : TmFunnelCommon) : Prop :=
  max_packets_stored (sync_tm_tcp_source c) = max_packets_stored src0 /\
  tm_queue (sync_tm_tcp_source c) = keep (Z.to_nat (max_packets_stored src0 + 1)) out.

Lemma copies_add src0 out c tm :
  0 <= max_packets_stored src0 -> copies src0 out c -> copies src0 (out ++ [tm]) (Funnel.add_tm tm c).
Proof using.
  intros Hm [Hmax Hq]. split; [done|]. cbn [sync_tm_tcp_source Funnel.add_tm].
  rewrite add_tm_keep, Hmax, Hq by (rewrite ?Hmax, ?Hq; unfold keep, len in *; rewrite ?length_drop; lia).
  apply keep_app.
Qed.

(** The counters do not depend on the source. *)
Lemma counters_add prev c tm : counters prev c -> counters prev (Funnel.add_tm tm c).
Proof using. done. Qed.

(** ** The dynamic sink *)
Lemma dynamic_run src0 pks : forall prev out c rx tx,
  0 <= max_packets_stored src0 -> counters prev c -> copies src0 out c ->
  queue rx = pks -> rx_alive tx = true -> Forall (fun pk => zc_new zc (packet pk) = true) pks ->
  let new := stamped prev (packet <$> pks) in
  exists c', operations (SinkDynamic.operation zc) (length pks) (mkSinkDynamic c rx tx) =
      (Ok tt, mkSinkDynamic c' (Channel.set_queue [] rx)
         (Channel.set_queue (queue tx ++ zip_with mkPacketAsVec (pav_sender_id <$> pks) new) tx)) /\
    counters (prev ++ (packet <$> pks)) c' /\ copies src0 (out ++ new) c'.
Proof using service_kept.
  induction pks as [|pk pks IH]; intros prev out c rx tx Hm Hc Hcp Hq Htx Hall.
  { exists c. cbn. rewrite !app_nil_r. split; [|done]. rewrite set_queue_nil by done. by destruct tx. }
  apply Forall_cons in Hall as [Hnew Hall]. cbn [length operations].
  destruct (process_run prev c (packet pk) Hc Hnew) as (c1 & Hp & Hc1 & Hsrc).
  set (p := stamp _ _ (packet pk)) in Hp.
  destruct (IH (prev ++ [packet pk]) (out ++ [p]) (Funnel.add_tm p c1) (Channel.set_queue pks rx)
    (Channel.set_queue (queue tx ++ [mkPacketAsVec (pav_sender_id pk) p]) tx)) as (c2 & Hrun & Hc2 & Hcp2);
    [done|by apply counters_add| |done|done|done|].
  { apply copies_add; [done|]. unfold copies. by rewrite Hsrc. }
  exists c2. split; [|split].
  - unfold st_bind, SinkDynamic.operation at 1. cbn [sd_tm_funnel_rx sd_common sd_tm_server_tx]. rewrite Hq, Hp.
    unfold Channel.send. rewrite Htx. cbn [expect]. rewrite Hrun. cbn [fmap list_fmap stamped zip_with].
    fold p. cbn [Channel.set_queue queue]. by rewrite <- app_assoc.
  - rewrite fmap_cons. by rewrite <- app_assoc in Hc2.
  - cbn [fmap list_fmap stamped]. fold p. by rewrite <- app_assoc in Hcp2.
Qed.

(** ** The static sink *)
Section Static.
Context {P : Type} `{PP : PoolProvider P} `{PS : !PoolSpec P}.
Hypothesis stamp_length : forall seq msg tm, length (stamp seq msg tm) = length tm.

Lemma static_step src0 prev out c (sh : Shared P) m rx tx pk pks d :
  0 <= max_packets_stored src0 -> counters prev c -> copies src0 out c ->
  queue rx = pk :: pks -> rx_alive tx = true -> poisoned sh = false -> pool_rep (inner sh) m ->
  m !! store_addr pk = Some d -> zc_new zc d = true ->
  let p := stamp (count_field (zc_apid zc) (zc_apid zc d) prev mod 2 ^ 14)
             (count_field (zc_service zc) (zc_service zc d) prev mod 2 ^ 16) d in
  exists c' pool', SinkStatic.operation zc (mkSinkStatic c sh rx tx) =
      (Ok tt, mkSinkStatic c' (mkShared false pool') (Channel.set_queue pks rx)
         (Channel.set_queue (queue tx ++ [pk]) tx)) /\
    pool_rep pool' (<[store_addr pk := p]> m) /\ counters (prev ++ [d]) c' /\ copies src0 (out ++ [p]) c'.
Proof using service_kept PS stamp_length.
  intros Hm Hc Hcp Hq Htx Hpo Hrep Hd Hnew p.
  destruct (process_run prev c d Hc Hnew) as (c1 & Hp & Hc1 & Hsrc). fold p in Hp.
  destruct (pool_modify_spec (inner sh) m (store_addr pk) d (fun _ => p) Hrep Hd (stamp_length _ _ _))
    as (pool' & Hmod & Hrep').
  exists (Funnel.add_tm p c1), pool'. split; [|split; [done|split; [by apply counters_add|]]].
  - unfold SinkStatic.operation, SinkStatic.modify_in_pool.
    cbn [ss_tm_funnel_rx ss_common ss_shared_tm_store ss_tm_server_tx fst snd].
    rewrite Hq, Hpo, (read_as_vec_ok (inner sh) m _ d Hrep Hd), Hp, Hmod. unfold Channel.send. by rewrite Htx.
  - apply copies_add; [done|]. unfold copies. by rewrite Hsrc.
Qed.

(** The pool after the packets of the queue were numbered. *)
Fixpoint renumbered (m : gmap Z (list Z)) (pks : list PacketInPool) (new : list (list Z)) : gmap Z (list Z) :=
  match pks, new with
  | pk :: pks', d :: new' => renumbered (<[store_addr pk := d]> m) pks' new'
  | _, _ => m
  end.

Lemma renumbered_other pks : forall new m a,
  a ∉ store_addr <$> pks -> renumbered m pks new !! a = m !! a.
Proof using.
  induction pks as [|pk pks IH]; intros [|d new] m a Ha; try done. cbn [renumbered].
  rewrite fmap_cons in Ha. apply not_elem_of_cons in Ha as [Hne Ha].
  rewrite IH by done. by rewrite lookup_insert_ne.
Qed.

Lemma static_run src0 pks : forall ds prev out c (sh : Shared P) m rx tx,
  0 <= max_packets_stored src0 -> counters prev c -> copies src0 out c ->
  queue rx = pks -> rx_alive tx = true -> poisoned sh = false -> pool_rep (inner sh) m ->
  NoDup (store_addr <$> pks) -> Forall2 (fun pk d => m !! store_addr pk = Some d) pks ds ->
  Forall (fun d => zc_new zc d = true) ds ->
  let new := stamped prev ds in
  exists c' pool', operations (SinkStatic.operation zc) (length pks) (mkSinkStatic c sh rx tx) =
      (Ok tt, mkSinkStatic c' (mkShared false pool') (Channel.set_queue [] rx)
         (Channel.set_queue (queue tx ++ pks) tx)) /\
    pool_rep pool' (renumbered m pks new) /\ copies src0 (out ++ new) c'.
Proof using service_kept PS stamp_length.
  induction pks as [|pk pks IH]; intros ds prev out c sh m rx tx Hm Hc Hcp Hq Htx Hpo Hrep Hnd Hall Hnew.
  { inversion Hall; subst. exists c, (inner sh). cbn. rewrite !app_nil_r, set_queue_nil by done. split; [|done].
    destruct sh as [po p], tx. cbn in *. by subst. }
  inversion Hall as [|? d ? ds' Hd Hall']; subst. apply Forall_cons in Hnew as [Hn Hnew].
  rewrite fmap_cons in Hnd. apply NoDup_cons in Hnd as [Hni Hnd].
  destruct (static_step src0 prev out c sh m rx tx pk pks d Hm Hc Hcp Hq Htx Hpo Hrep Hd Hn)
    as (c1 & p1 & Hop & Hrep1 & Hc1 & Hcp1).
  set (p := stamp _ _ d) in *.
  destruct (IH ds' (prev ++ [d]) (out ++ [p]) c1 (mkShared false p1) (<[store_addr pk := p]> m)
    (Channel.set_queue pks rx) (Channel.set_queue (queue tx ++ [pk]) tx)) as (c2 & p2 & Hrun & Hrep2 & Hcp2);
    try done.
  { clear -Hall' Hni. induction Hall' as [|x y l k Hx _ IHl]; [constructor|].
    rewrite fmap_cons in Hni. apply not_elem_of_cons in Hni as [Hne Hni]. constructor; [|by apply IHl].
    by rewrite lookup_insert_ne. }
  exists c2, p2. split; [|split; [done|]].
  - cbn [length operations]. unfold st_bind. rewrite Hop, Hrun. cbn [Channel.set_queue queue].
    by rewrite <- app_assoc.
  - cbn [stamped]. fold p. by rewrite <- app_assoc in Hcp2.
Qed.

End Static.

End Numbers.

(** * Properties *)

Lemma counters_new zc src : counters zc [] (Funnel.new src).
Proof. split; intros a; cbn; by rewrite lookup_empty. Qed.

(** The dynamic sink hands every packet to the server, once, in order and
    from its sender, with a sequence count that counts the packets of its APID
    modulo 2^14 and a message count that counts those of its service modulo 2^16,
    and with the checksum renewed after that; the TCP server finds copies of the
    last [max_packets_stored + 1] of them. *)
Theorem tm_sink_correct zc src rx tx pks :
  (forall seq tm, zc_service zc (zc_set_seq_count zc seq tm) = zc_service zc tm) ->
  0 <= max_packets_stored src -> tm_queue src = [] ->
  queue rx = pks -> rx_alive tx = true -> Forall (fun pk => zc_new zc (packet pk) = true) pks ->
  exists s, operations (SinkDynamic.operation zc) (length pks) (SinkDynamic.new src rx tx) = (Ok tt, s) /\
    queue (sd_tm_server_tx s) =
      queue tx ++ zip_with mkPacketAsVec (pav_sender_id <$> pks) (stamped zc [] (packet <$> pks)) /\
    queue (sd_tm_funnel_rx s) = [] /\
    tm_queue (sync_tm_tcp_source (sd_common s)) =
      keep (Z.to_nat (max_packets_stored src + 1)) (stamped zc [] (packet <$> pks)).
Proof.
  intros Hserv Hm Hsrc Hq Htx Hall.
  destruct (dynamic_run zc Hserv src pks [] [] (Funnel.new src) rx tx) as (c & Hrun & _ & [_ Hcp]);
    [done|apply counters_new|by split|done|done|done|].
  eexists. split; [exact Hrun|]. by split_and!.
Qed.

(** A packet is an APID, a service, the two numbers and a checksum. *)
Definition ex_zc : ZeroCopyWriter := mkWriter (fun tm => length tm =? 5)%nat (fun tm => nth 0 tm 0) (fun tm => nth 1 tm 0)
  (fun seq tm => <[2%nat := seq]> tm) (fun msg tm => <[3%nat := msg]> tm)
  (fun tm => <[4%nat := foldr Z.add 0 (take 4 tm)]> tm).

Lemma ex_zc_service seq tm : zc_service ex_zc (zc_set_seq_count ex_zc seq tm) = zc_service ex_zc tm.
Proof. destruct tm as [|a [|b [|c tm]]]; reflexivity. Qed.

Lemma tm_sink_correct_witness :
  exists s, operations (SinkDynamic.operation ex_zc) 3
      (SinkDynamic.new (TmSource.new 1)
         (mkChannel [mkPacketAsVec 7 [2; 5; 0; 0; 0]; mkPacketAsVec 8 [3; 5; 0; 0; 0]; mkPacketAsVec 7 [2; 1; 0; 0; 0]]
            None true true) (mkChannel [] None true true)) = (Ok tt, s) /\
    queue (sd_tm_server_tx s) =
      [mkPacketAsVec 7 [2; 5; 0; 0; 7]; mkPacketAsVec 8 [3; 5; 0; 1; 9]; mkPacketAsVec 7 [2; 1; 1; 0; 4]] /\
    queue (sd_tm_funnel_rx s) = [] /\
    tm_queue (sync_tm_tcp_source (sd_common s)) = [[3; 5; 0; 1; 9]; [2; 1; 1; 0; 4]].
Proof.
  apply (tm_sink_correct ex_zc (TmSource.new 1)
    (mkChannel [mkPacketAsVec 7 [2; 5; 0; 0; 0]; mkPacketAsVec 8 [3; 5; 0; 0; 0]; mkPacketAsVec 7 [2; 1; 0; 0; 0]]
       None true true) (mkChannel [] None true true) _ ex_zc_service ltac:(done) eq_refl eq_refl eq_refl).
  repeat constructor.
Defined.

Lemma delete_renumbered pks : forall new m,
  NoDup (store_addr <$> pks) ->
  foldr delete (renumbered m pks new) (store_addr <$> pks) = foldr delete m (store_addr <$> pks).
Proof.
  intros new m Hnd. apply map_eq. intros a. destruct (decide (a ∈ store_addr <$> pks)) as [Ha|Ha].
  - rewrite !lookup_foldr_delete by done. done.
  - rewrite !lookup_foldr_delete_not_elem_of by done. by apply renumbered_other.
Qed.

Lemma renumbered_lookup pks : forall new m,
  NoDup (store_addr <$> pks) -> length pks = length new ->
  Forall2 (fun pk d => renumbered m pks new !! store_addr pk = Some d) pks new.
Proof.
  induction pks as [|pk pks IH]; intros [|d new] m Hnd Hl; try done.
  rewrite fmap_cons in Hnd. apply NoDup_cons in Hnd as [Hni Hnd]. cbn [renumbered]. constructor.
  - rewrite renumbered_other by done. by rewrite lookup_insert_eq.
  - apply IH; [done|]. by injection Hl.
Qed.

(** C32: In the static configuration the packets wait in a pool: after the static
    sink has numbered those in its queue, in their place, the UDP server sends
    exactly the numbered packets to its client, in order, and frees all of them,
    while the rest of the pool is as before.  This holds for every pool that
    meets its specification. *)
Theorem static_telemetry_delivered {P} `{PP : PoolProvider P} `{PS : !PoolSpec P} zc (p : P) m src rx tx pks ds
    addr sock :
  (forall seq tm, zc_service zc (zc_set_seq_count zc seq tm) = zc_service zc tm) ->
  (forall seq msg tm, length (stamp zc seq msg tm) = length tm) ->
  0 <= max_packets_stored src -> tm_queue src = [] ->
  pool_rep p m -> queue rx = pks -> queue tx = [] -> rx_alive tx = true ->
  NoDup (store_addr <$> pks) -> Forall2 (fun pk d => m !! store_addr pk = Some d) pks ds ->
  Forall (fun d => zc_new zc d = true) ds ->
  exists s x, operations (SinkStatic.operation zc) (length pks) (SinkStatic.new (mkShared false p) src rx tx) =
      (Ok tt, s) /\
    StaticTm.send_tm_to_udp_client (S (length pks)) addr
      (mkStaticTm (ss_tm_server_tx s) (ss_shared_tm_store s), sock) = (Ok (Some tt), x) /\
    x.2 = mail sock addr (stamped zc [] ds) /\
    pool_rep (inner (tm_store x.1)) (foldr delete m (store_addr <$> pks)) /\
    tm_queue (sync_tm_tcp_source (ss_common s)) = keep (Z.to_nat (max_packets_stored src + 1)) (stamped zc [] ds).
Proof.
  intros Hserv Hlen Hm Hsrc Hrep Hq Htxq Htx Hnd Hall Hnew.
  destruct (static_run zc Hserv Hlen src pks ds [] [] (Funnel.new src) (mkShared false p) m rx tx)
    as (c & p1 & Hrun & Hrep1 & [_ Hcp]); try done.
  assert (Hls : forall prev l, length (stamped zc prev l) = length l)
    by (intros prev l; revert prev; induction l as [|a l IHl]; intros prev; [done|]; cbn; by rewrite IHl).
  destruct (static_sends (S (length pks)) addr (Channel.set_queue pks tx) (mkShared false p1) sock
    (renumbered m pks (stamped zc [] ds)) (stamped zc [] ds)) as (p2 & Hsend & Hrep2); try done.
  { cbn. lia. }
  { apply renumbered_lookup; [done|]. rewrite Hls. by apply Forall2_length in Hall. }
  rewrite Htxq in Hrun. do 2 eexists. split; [exact Hrun|]. split; [exact Hsend|]. split_and!; try done.
  cbn [fst tm_store inner]. cbn [queue Channel.set_queue] in Hrep2. by rewrite delete_renumbered in Hrep2.
Qed.

Lemma ex_zc_length seq msg tm : length (stamp ex_zc seq msg tm) = length tm.
Proof. unfold stamp. cbn. by rewrite !length_insert. Qed.

Lemma static_telemetry_delivered_witness :
  exists p0 a p s x, StaticPool.new ex_config = Ok p0 /\ StaticPool.add [2; 5; 0; 0; 0] p0 = (Ok a, p) /\
    operations (SinkStatic.operation ex_zc) 1 (SinkStatic.new (mkShared false p) (TmSource.new 1)
      (mkChannel [mkPacketInPool 7 a] None true true) (mkChannel [] None true true)) = (Ok tt, s) /\
    StaticTm.send_tm_to_udp_client 2 100
      (mkStaticTm (ss_tm_server_tx s) (ss_shared_tm_store s), mkSocket [] [] (fun _ => false)) = (Ok (Some tt), x) /\
    x.2 = mail (mkSocket [] [] (fun _ => false)) 100 [[2; 5; 0; 0; 7]].
Proof.
  destruct (new_spec ex_config ex_config_addressable) as (p0 & Hp0 & Hrep0 & _).
  pose proof (pool_add_spec (PoolSpec:=StaticPool_spec) p0 ∅ [2; 5; 0; 0; 0] Hrep0) as Hadd.
  cbn [pool_add StaticPool_provider] in Hadd.
  destruct (StaticPool.add [2; 5; 0; 0; 0] p0) as [r p] eqn:He.
  assert (Hr : exists a, r = Ok a).
  { assert (Hv : (StaticPool.add [2; 5; 0; 0; 0]
      (match StaticPool.new ex_config with Ok p => p | _ => p0 end)).1 = r) by (rewrite Hp0; by rewrite He).
    vm_compute in Hv. by eexists. }
  destruct Hr as [a ->]. destruct Hadd as (_ & _ & Hrep).
  destruct (static_telemetry_delivered (PS:=StaticPool_spec) ex_zc p (<[a := [2; 5; 0; 0; 0]]> ∅) (TmSource.new 1)
    (mkChannel [mkPacketInPool 7 a] None true true) (mkChannel [] None true true) [mkPacketInPool 7 a]
    [[2; 5; 0; 0; 0]] 100 (mkSocket [] [] (fun _ => false)) ex_zc_service ex_zc_length ltac:(done) eq_refl Hrep
    eq_refl eq_refl eq_refl) as (s & x & Hrun & Hsend & Hmail & _).
  - apply NoDup_singleton.
  - constructor; [|constructor]. apply lookup_insert_eq.
  - repeat constructor.
  - exists p0, a, p, s, x. split; [exact Hp0|]. split; [exact He|]. split; [exact Hrun|]. split; [exact Hsend|exact Hmail].
Defined.
