(* ===== verification/Eps.v ===== *)
(** * The power unit of the example

    The messages to the simulator ([satrs-minisim/src/lib.rs]), the power switch
    helper ([satrs-example/src/eps/mod.rs]), the serial interfaces to the PCDU
    ([eps/pcdu.rs]) and the housekeeping helper ([hk.rs]).  [serde_json] is a
    parameter. *)

From Stdlib Require Import ZArith Lia Bool.
From stdpp Require Import base list gmap.
From S2P Require Import Prelude Spacepackets Tmtc Requests TargetedService.

Local Open Scope Z_scope.

(** ** Messages of the simulator *)

(** [serde_json::to_string] and [from_slice] or [from_str] for a type. *)
Class Json (A : Type) : Type := {
  to_json : A -> list Z;
  from_json : list Z -> option A;
}.

(** What was written can be read. *)
Class JsonLaws (A : Type) `{Json A} : Prop := json_roundtrip : forall a : A, from_json (to_json a) = Some a.

Inductive SimComponent : Type := SimCtrl | CompMgmLis3Mdl | CompMgt | CompPcdu.

#[export] Instance SimComponent_eq_dec : EqDecision SimComponent.
Proof. solve_decision. Defined.

Record SimMessage : Type := mkSimMessage { target : SimComponent; payload : list Z }.

(** [SimRequest] at the epoch, and [SimReply]: a message. *)
Record SimRequest : Type := mkSimRequest { request_inner : SimMessage }.
Record SimReply : Type := mkSimReply { reply_inner : SimMessage }.

(** [SerializableSimMsgPayload]: the component a payload belongs to. *)
Class SimPayload (T : Type) `{Json T} : Type := TARGET : SimComponent.

Module Sim.
Section Sim.
Context {T : Type} `{SimPayload T}.

Definition new_request (serializable_request : T) : SimRequest :=
  mkSimRequest (mkSimMessage TARGET (to_json serializable_request)).

Definition new_reply (serializable_reply : T) : SimReply :=
  mkSimReply (mkSimMessage TARGET (to_json serializable_reply)).

(** [from_sim_message]; the errors are [SerdeJson] and [TargetRequestMissmatch]. *)
Definition from_sim_message (sim_message : SimMessage) : res (option SimMessage) T :=
  if bool_decide (target sim_message = TARGET) then ok_or (from_json (payload sim_message)) None
  else Err (Some sim_message).

End Sim.
End Sim.

(** *** Power switches *)
Inductive PcduSwitch : Type := SwMgm | SwMgt.

#[export] Instance PcduSwitch_eq_dec : EqDecision PcduSwitch.
Proof. solve_decision. Defined.

#[export] Program Instance PcduSwitch_countable : Countable PcduSwitch :=
  inj_countable' (fun s => match s with SwMgm => false | SwMgt => true end)
    (fun b : bool => if b then SwMgt else SwMgm) _.
Next Obligation. by intros []. Qed.

Abbreviation SwitchMap := (gmap PcduSwitch SwitchState).
Abbreviation SwitchMapBinary := (gmap PcduSwitch SwitchStateBinary).

Inductive PcduRequest : Type :=
| SwitchDevice (switch : PcduSwitch) (state : SwitchStateBinary)
| RequestSwitchInfo.

Inductive PcduReply : Type := SwitchInfo (m : SwitchMapBinary).

Module Switches.

(** [TryFrom<u16> for PcduSwitch] and the way back. *)
Definition try_from (id : Z) : option PcduSwitch :=
  if id =? 0 then Some SwMgm else if id =? 1 then Some SwMgt else None.

Definition into (s : PcduSwitch) : Z := match s with SwMgm => 0 | SwMgt => 1 end.

(** [PcduSwitch::iter()] *)
Definition iter : list PcduSwitch := [SwMgm; SwMgt].

Definition default_binary : SwitchMapBinary := foldl (fun m s => <[s := BinOff]> m) ∅ iter.

Definition default : SwitchMap := foldl (fun m s => <[s := SwitchUnknown]> m) ∅ iter.

Definition new_with_init_switches_off : SwitchMap := foldl (fun m s => <[s := SwitchOff]> m) ∅ iter.

Definition from_binary_switch_map_ref (m : SwitchMapBinary) : SwitchMap := Power.state_from <$> m.

End Switches.

Record SwitchSet : Type := mkSwitchSet { set_valid : bool; switch_map : SwitchMap }.

(** [#[derive(Default)]] *)
Definition switch_set_default : SwitchSet := mkSwitchSet false ∅.

(** ** The power switch helper ([eps/mod.rs]) *)
Record PowerSwitchHelper : Type := mkSwitchHelper {
  switcher_tx : channel (GenericMessage SwitchRequest);
  shared_switch_set : SwitchSet;
}.

Inductive SwitchCommandingError : Type := SwitchSend (e : GenericSendError).
Inductive SwitchInfoError : Type := SwitchIdNotInMap (s : PcduSwitch) | SwitchSetInvalid.

(** [PowerSwitcherCommandSender]: with the state that is commanded. *)
Class PowerSwitcherCommandSender (T P E : Type) : Type :=
  send_switch_command : SwitchStateBinary -> MessageMetadata -> T -> st P E unit.

Module SwitchHelper.

Definition switch_state (h : PowerSwitchHelper) (switch_id : PcduSwitch) : res SwitchInfoError SwitchState :=
  if negb (set_valid (shared_switch_set h)) then Err SwitchSetInvalid else
  match switch_map (shared_switch_set h) !! switch_id with
  | Some state => Ok state
  | None => Err (SwitchIdNotInMap switch_id)
  end.

(** [send_switch_on_cmd] and [send_switch_off_cmd]; the sender is bounded. *)
Definition send_switch_cmd (state : SwitchStateBinary) (requestor_info : MessageMetadata) (switch_id : PcduSwitch)
    : st PowerSwitchHelper SwitchCommandingError unit :=
  fun h =>
    let '(r, tx) := Power.send_switch_cmd_bounded state requestor_info (Switches.into switch_id) (switcher_tx h) in
    (map_err SwitchSend r, mkSwitchHelper tx (shared_switch_set h)).

End SwitchHelper.

#[export] Instance SwitchHelper_info : PowerSwitchInfo PcduSwitch PowerSwitchHelper SwitchInfoError :=
  SwitchHelper.switch_state.
#[export] Instance SwitchHelper_sender :
  PowerSwitcherCommandSender PcduSwitch PowerSwitchHelper SwitchCommandingError := SwitchHelper.send_switch_cmd.

(** ** Housekeeping reports ([hk.rs]) *)
Record HkUniqueId : Type := mkHkId { hk_target_id : UniqueApidTargetId; hk_set_id : Z }.

Module Hk.

Definition write_to_be_bytes (h : HkUniqueId) (buf : list Z) : res ByteConversionError (Z * list Z) :=
  if len buf <? 8 then Err (ToSliceTooSmall (len buf) 8) else
  let? buf := copy_into buf 0 4 (to_be_bytes 4 (unique_id (hk_target_id h))) in
  let? buf := copy_into buf 4 8 (to_be_bytes 4 (hk_set_id h)) in
  Ok (8, buf).

(** [PusHkHelper::generate_hk_report_packet]; the writer gets the buffer behind
    the IDs and returns the length of its data with the buffer.
    [tm_hk_packet] is the number of [hk::Subservice::TmHkPacket]. *)
Definition generate_hk_report_packet (tm_hk_packet : Z) (component_id : UniqueApidTargetId) (timestamp : list Z)
    (set_id : Z) (hk_data_writer : list Z -> res ByteConversionError (Z * list Z))
    : st (list Z) ByteConversionError PusTm :=
  let* b := asks (fun buf => copy_into buf 0 4 (to_be_bytes 4 (unique_id component_id))) in
  let* _ := modify_state (fun _ => b) in
  let* b := asks (fun buf => copy_into buf 4 8 (to_be_bytes 4 set_id)) in
  let* _ := modify_state (fun _ => b) in
  let* second_half := asks (fun buf => slice buf 8 (len buf)) in
  let* r := lift (hk_data_writer second_half) in
  let* _ := modify_state (fun buf => splice buf 8 r.2) in
  let* data := asks (fun buf => slice buf 0 (8 + r.1)) in
  ret (mkPusTm (apid component_id) 0 3 tm_hk_packet 0 0 timestamp data).

End Hk.

(** ** Serial interfaces *)

(** The handler of the replies has its own state; [None] when the fuel runs out. *)
Class SerialInterface (C E : Type) : Type := {
  serial_send : list Z -> st C E unit;
  try_recv_replies : forall {S : Type}, (list Z -> st S E unit) -> nat -> st (C * S) E (option unit);
}.

(** [SerialInterfaceToSim] *)
Record SerialInterfaceToSim : Type := mkToSim {
  sim_request_tx : channel SimRequest;
  sim_reply_rx : channel SimReply;
}.

(** [SerialInterfaceDummy] *)
Record SerialInterfaceDummy : Type := mkDummy {
  dummy_switch_map : SwitchMapBinary;
  reply_deque : list SimReply;
}.

Inductive SerialSimInterfaceWrapper : Type :=
| SerialDummy (d : SerialInterfaceDummy)
| SerialSim (s : SerialInterfaceToSim).

Section Serial.
Context `{Json PcduRequest} `{Json PcduReply} `{Json SimReply}.

#[export] Instance PcduRequest_payload : SimPayload PcduRequest := CompPcdu.
#[export] Instance PcduReply_payload : SimPayload PcduReply := CompPcdu.

Definition sim_send (data : list Z) : st SerialInterfaceToSim unit unit :=
  let* request := lift (unwrap (from_json data)) in
  fun s =>
    let '(r, tx) := Channel.send (Sim.new_request (T:=PcduRequest) request) (sim_request_tx s) in
    (expect r, mkToSim tx (sim_reply_rx s)).

Fixpoint sim_try_recv_replies {S : Type} (f : list Z -> st S unit unit) (fuel : nat)
    : st (SerialInterfaceToSim * S) unit (option unit) :=
  match fuel with
  | O => ret None
  | Datatypes.S fuel' =>
      let* r := (fun x =>
        let '(r, rx) := attempt (F:=unit) Channel.try_recv (sim_reply_rx x.1) in
        (r, (mkToSim (sim_request_tx x.1) rx, x.2))) in
      match r with
      | Ok reply => let* _ := on_snd (f (to_json (A:=SimReply) reply)) in sim_try_recv_replies f fuel'
      | _ => ret (Some tt)
      end
  end.

Definition dummy_default : SerialInterfaceDummy := mkDummy Switches.default_binary [].

Definition dummy_send (data : list Z) : st SerialInterfaceDummy unit unit :=
  let* pcdu_req := lift (unwrap (from_json data)) in
  modify_state (fun d =>
    match pcdu_req with
    | SwitchDevice switch state => mkDummy (<[switch := state]> (dummy_switch_map d)) (reply_deque d)
    | RequestSwitchInfo =>
        mkDummy (dummy_switch_map d) (reply_deque d ++ [Sim.new_reply (SwitchInfo (dummy_switch_map d))])
    end).

Definition reply_queue_empty (d : SerialInterfaceDummy) : bool :=
  match reply_deque d with [] => true | _ => false end.

Definition get_next_reply_as_string : st SerialInterfaceDummy unit (list Z) :=
  fun d =>
    match reply_deque d with
    | [] => (Panic, d)
    | reply :: q => (Ok (to_json reply), mkDummy (dummy_switch_map d) q)
    end.

Fixpoint dummy_loop {S : Type} (f : list Z -> st S unit unit) (fuel : nat)
    : st (SerialInterfaceDummy * S) unit (option unit) :=
  match fuel with
  | O => ret None
  | Datatypes.S fuel' =>
      let* reply := on_fst get_next_reply_as_string in
      let* _ := on_snd (f reply) in
      let* e := gets (fun x => reply_queue_empty x.1) in
      if e : bool then ret (Some tt) else dummy_loop f fuel'
  end.

Definition dummy_try_recv_replies {S : Type} (f : list Z -> st S unit unit) (fuel : nat)
    : st (SerialInterfaceDummy * S) unit (option unit) :=
  let* e := gets (fun x => reply_queue_empty x.1) in
  if e : bool then ret (Some tt) else dummy_loop f fuel.

#[export] Instance ToSim_serial : SerialInterface SerialInterfaceToSim unit := {|
  serial_send := sim_send;
  try_recv_replies := @sim_try_recv_replies;
|}.

#[export] Instance Dummy_serial : SerialInterface SerialInterfaceDummy unit := {|
  serial_send := dummy_send;
  try_recv_replies := @dummy_try_recv_replies;
|}.

Definition wrapper_send (data : list Z) : st SerialSimInterfaceWrapper unit unit :=
  fun w =>
    match w with
    | SerialDummy dummy => let '(r, d) := dummy_send data dummy in (r, SerialDummy d)
    | SerialSim sim => let '(r, s) := sim_send data sim in (r, SerialSim s)
    end.

Definition wrapper_try_recv_replies {S : Type} (f : list Z -> st S unit unit) (fuel : nat)
    : st (SerialSimInterfaceWrapper * S) unit (option unit) :=
  fun x =>
    match x.1 with
    | SerialDummy dummy =>
        let '(r, (d, s)) := dummy_try_recv_replies f fuel (dummy, x.2) in (r, (SerialDummy d, s))
    | SerialSim sim => let '(r, (s, t)) := sim_try_recv_replies f fuel (sim, x.2) in (r, (SerialSim s, t))
    end.

#[export] Instance Wrapper_serial : SerialInterface SerialSimInterfaceWrapper unit := {|
  serial_send := wrapper_send;
  try_recv_replies := @wrapper_try_recv_replies;
|}.

End Serial.

(** A command is sent or refused, and the switch states stay as they are. *)
Lemma send_switch_cmd_total {F : Type} state info s h :
  exists r, attempt (F:=F) (SwitchHelper.send_switch_cmd state info s) h =
    (Ok r, mkSwitchHelper (Power.send_switch_cmd_bounded state info (Switches.into s) (switcher_tx h)).2
             (shared_switch_set h)).
Proof.
  unfold attempt, SwitchHelper.send_switch_cmd, Power.send_switch_cmd_bounded, st_map_err, Channel.try_send.
  destruct (negb _); [by eexists|]. destruct (capacity _) as [n|]; [|by eexists].
  destruct (n <=? _); by eexists.
Qed.

(** ** The housekeeping report *)

(** The report carries the IDs and what the writer left in the rest of the buffer. *)
Lemma hk_report_ok tm_hk_packet id stamp set_id w buf r :
  8 <= len buf -> w (drop 8 buf) = r ->
  (forall n rest, r = Ok (n, rest) -> length rest = length (drop 8 buf) /\ 0 <= n <= len rest) ->
  let ids := to_be_bytes 4 (unique_id id) ++ to_be_bytes 4 set_id in
  Hk.generate_hk_report_packet tm_hk_packet id stamp set_id w buf =
    match r with
    | Ok (n, rest) =>
        (Ok (mkPusTm (apid id) 0 3 tm_hk_packet 0 0 stamp (ids ++ take (Z.to_nat n) rest)), ids ++ rest)
    | Err e => (Err e, ids ++ drop 8 buf)
    | Panic => (Panic, ids ++ drop 8 buf)
    end.
Proof.
  intros Hl Hw Hr ids. unfold Hk.generate_hk_report_packet, st_bind, asks, modify_state, lift, ret.
  rewrite (copy_into_prefix buf [] (to_be_bytes 4 (unique_id id)) 0 4) by (try done; lia).
  rewrite (copy_into_prefix buf ([] ++ to_be_bytes 4 (unique_id id)) (to_be_bytes 4 set_id) 4 8) by (try done; lia).
  rewrite app_nil_l. change (length (to_be_bytes 4 (unique_id id) ++ to_be_bytes 4 set_id)) with 8%nat.
  fold ids. assert (Hi : len ids = 8) by done.
  rewrite (slice_back ids (drop 8 buf)) by (rewrite ?len_app; lia).
  rewrite Hw. destruct r as [[n rest]| |]; [|done|done].
  destruct (Hr _ _ eq_refl) as [Hlen Hn]. cbn [fst snd].
  assert (Hsp : splice (ids ++ drop 8 buf) 8 rest = ids ++ rest).
  { unfold splice. change (Z.to_nat 8) with (length ids). rewrite take_app_length. f_equal.
    rewrite drop_ge; [apply app_nil_r|]. rewrite length_app. lia. }
  rewrite Hsp, slice_ok by (rewrite ?len_app; lia). rewrite Z.sub_0_r.
  replace (Z.to_nat (8 + n)) with (length ids + Z.to_nat n)%nat by (change (length ids) with 8%nat; lia).
  change (drop (Z.to_nat 0) (ids ++ rest)) with (ids ++ rest). by rewrite take_app_add.
Qed.

(** ** The dummy interface *)
Section DummyLemmas.
Context `{Json PcduRequest} `{Json PcduReply} `{Json SimReply} `{!JsonLaws PcduRequest}.

Lemma dummy_send_switch s state d :
  dummy_send (to_json (SwitchDevice s state)) d =
    (Ok tt, mkDummy (<[s := state]> (dummy_switch_map d)) (reply_deque d)).
Proof. unfold dummy_send, st_bind, lift. by rewrite json_roundtrip. Qed.

Lemma dummy_send_info d :
  dummy_send (to_json RequestSwitchInfo) d =
    (Ok tt, mkDummy (dummy_switch_map d)
              (reply_deque d ++ [Sim.new_reply (SwitchInfo (dummy_switch_map d))])).
Proof. unfold dummy_send, st_bind, lift. by rewrite json_roundtrip. Qed.

Lemma dummy_loop_run {S : Type} (f : list Z -> st S unit unit) (g : S -> SimReply -> S) m q : forall r fuel s,
  (forall s x, x ∈ r :: q -> f (to_json x) s = (Ok tt, g s x)) -> (Datatypes.S (length q) <= fuel)%nat ->
  dummy_loop f fuel (mkDummy m (r :: q), s) = (Ok (Some tt), (mkDummy m [], foldl g s (r :: q))).
Proof.
  induction q as [|r' q IH]; intros r [|fuel] s Hf Hl; cbn [length] in *; try lia;
    cbn [dummy_loop]; unfold st_bind, on_fst, on_snd, get_next_reply_as_string, gets;
    cbn [reply_deque fst snd]; rewrite Hf by set_solver; cbn [fst snd reply_queue_empty reply_deque foldl].
  - done.
  - apply (IH r' fuel (g s r)); [|lia]. intros. apply Hf. set_solver.
Qed.

(** The replies are handled in order; with none there is nothing to do. *)
Lemma dummy_replies {S : Type} (f : list Z -> st S unit unit) (g : S -> SimReply -> S) m q fuel s :
  (forall s r, r ∈ q -> f (to_json r) s = (Ok tt, g s r)) -> (length q <= fuel)%nat ->
  dummy_try_recv_replies f fuel (mkDummy m q, s) = (Ok (Some tt), (mkDummy m [], foldl g s q)).
Proof.
  intros Hf Hl. unfold dummy_try_recv_replies, st_bind, gets. destruct q as [|r q]; [done|].
  by apply dummy_loop_run.
Qed.

End DummyLemmas.

(** ** A concrete encoding

    A stand-in for [serde_json] that satisfies its law, for the witnesses. *)
Module Codec.

Definition bin_code (s : option SwitchStateBinary) : Z :=
  match s with None => 0 | Some BinOff => 1 | Some BinOn => 2 end.

Definition bin_of (c : Z) : option SwitchStateBinary :=
  if c =? 1 then Some BinOff else if c =? 2 then Some BinOn else None.

Definition state_code (s : option SwitchState) : Z :=
  match s with None => 0 | Some SwitchOff => 1 | Some SwitchOn => 2 | Some SwitchUnknown => 3 | Some SwitchFaulty => 4 end.

Definition comp_code (c : SimComponent) : Z :=
  match c with SimCtrl => 0 | CompMgmLis3Mdl => 1 | CompMgt => 2 | CompPcdu => 3 end.

Definition comp_of (c : Z) : SimComponent :=
  if c =? 0 then SimCtrl else if c =? 1 then CompMgmLis3Mdl else if c =? 2 then CompMgt else CompPcdu.

Definition request_json : Json PcduRequest := {|
  to_json r := match r with
               | SwitchDevice s state => [Switches.into s; bin_code (Some state)]
               | RequestSwitchInfo => []
               end;
  from_json l := match l with
                 | [s; state] => s ← Switches.try_from s; state ← bin_of state; Some (SwitchDevice s state)
                 | [] => Some RequestSwitchInfo
                 | _ => None
                 end;
|}.

Definition reply_json : Json PcduReply := {|
  to_json r := match r with SwitchInfo m => [bin_code (m !! SwMgm); bin_code (m !! SwMgt)] end;
  from_json l := match l with
                 | [a; b] => Some (SwitchInfo (partial_alter (fun _ => bin_of a) SwMgm
                                                 (partial_alter (fun _ => bin_of b) SwMgt ∅)))
                 | _ => None
                 end;
|}.

Definition sim_reply_json : Json SimReply := {|
  to_json r := comp_code (target (reply_inner r)) :: payload (reply_inner r);
  from_json l := match l with c :: p => Some (mkSimReply (mkSimMessage (comp_of c) p)) | [] => None end;
|}.

Definition switch_set_json : Json SwitchSet := {|
  to_json s := [if set_valid s then 1 else 0; state_code (switch_map s !! SwMgm); state_code (switch_map s !! SwMgt)];
  from_json _ := None;
|}.

Lemma request_laws : @JsonLaws PcduRequest request_json.
Proof. by intros [[] []|]. Qed.

Lemma bin_roundtrip s : bin_of (bin_code s) = s.
Proof. by destruct s as [[]|]. Qed.

Lemma reply_laws : @JsonLaws PcduReply reply_json.
Proof.
  intros [m]. unfold from_json, to_json, reply_json. do 2 f_equal. apply map_eq. intros k.
  rewrite !lookup_partial_alter, !bin_roundtrip. destruct k; repeat case_decide; naive_solver.
Qed.

Lemma sim_reply_laws : @JsonLaws SimReply sim_reply_json.
Proof. by intros [[[] p]]. Qed.

End Codec.
