(* ===== verification/Pcdu.v ===== *)
(** * The handler of the power unit

    [PcduHandler] of [satrs-example/src/eps/pcdu.rs]: the requests it polls in a
    period, the commands it sends on its serial interface and the replies it reads
    from it.  The theorems are about the handler on the dummy interface. *)

From Stdlib Require Import ZArith Lia Bool.
From stdpp Require Import base list gmap.
From S2P Require Import Prelude Spacepackets Tmtc Requests Verification Services TargetedService Eps.

Local Open Scope Z_scope.

(** ** Device handlers *)

(** [DeviceMode] of the example. *)
Inductive DeviceMode : Type := Off | On | Normal.

Definition device_mode (m : DeviceMode) : Z := match m with Off => 0 | On => 1 | Normal => 2 end.

(** [MpscModeLeafInterface] of [acs/mgm.rs] *)
Record MpscModeLeafInterface : Type := mkModeLeaf {
  request_rx : channel (GenericMessage ModeRequest);
  reply_to_pus_tx : channel (GenericMessage ModeReply);
  reply_to_parent_tx : channel (GenericMessage ModeReply);
}.

(** A loop, and then the rest, which is not reached when the loop does not end. *)
Definition and_then {H E : Type} (m k : st H E (option unit)) : st H E (option unit) :=
  let* r := m in match r with Some _ => k | None => ret None end.

(** The loop of [handle_composite_requests] and [handle_mode_requests]: only an
    empty queue ends it. *)
Fixpoint poll_requests {H M : Type} (try_recv : st H TryRecvError M) (handle : M -> st H Empty_set unit)
    (fuel : nat) : st H Empty_set (option unit) :=
  match fuel with
  | O => ret None
  | S fuel' =>
      let* r := attempt try_recv in
      match r with
      | Ok msg => let* _ := handle msg in poll_requests try_recv handle fuel'
      | Err TryRecvEmpty => ret (Some tt)
      | _ => poll_requests try_recv handle fuel'
      end
  end.

(** ** The handler *)
Inductive OpCode : Type := RegularOp | PollAndRecvReplies.

Record PcduHandler (C Q : Type) : Type := mkPcdu {
  pcdu_id : UniqueApidTargetId;
  mode_interface : MpscModeLeafInterface;
  composite_request_rx : channel (GenericMessage CompositeRequest);
  hk_reply_tx : channel (GenericMessage HkReply);
  switch_request_rx : channel (GenericMessage SwitchRequest);
  tm_sender : Q;
  com_interface : C;
  shared_switch_map : SwitchSet;
  hk_helper : UniqueApidTargetId;
  pcdu_mode : ModeAndSubmode;
  stamp_helper : list Z;
  tm_buf : list Z;
}.

Arguments mkPcdu {C Q} _ _ _ _ _ _ _ _ _ _ _ _.
Arguments pcdu_id {C Q} _.
Arguments mode_interface {C Q} _.
Arguments composite_request_rx {C Q} _.
Arguments hk_reply_tx {C Q} _.
Arguments switch_request_rx {C Q} _.
Arguments tm_sender {C Q} _.
Arguments com_interface {C Q} _.
Arguments shared_switch_map {C Q} _.
Arguments hk_helper {C Q} _.
Arguments pcdu_mode {C Q} _.
Arguments stamp_helper {C Q} _.
Arguments tm_buf {C Q} _.

Module Pcdu.

(** *** Assignments *)
Section Fields.
Context {C Q : Type}.
Implicit Type h : PcduHandler C Q.

Definition set_mode_interface x h :=
  mkPcdu (pcdu_id h) x (composite_request_rx h) (hk_reply_tx h) (switch_request_rx h) (tm_sender h)
    (com_interface h) (shared_switch_map h) (hk_helper h) (pcdu_mode h) (stamp_helper h) (tm_buf h).
Definition set_composite_request_rx x h :=
  mkPcdu (pcdu_id h) (mode_interface h) x (hk_reply_tx h) (switch_request_rx h) (tm_sender h)
    (com_interface h) (shared_switch_map h) (hk_helper h) (pcdu_mode h) (stamp_helper h) (tm_buf h).
Definition set_hk_reply_tx x h :=
  mkPcdu (pcdu_id h) (mode_interface h) (composite_request_rx h) x (switch_request_rx h) (tm_sender h)
    (com_interface h) (shared_switch_map h) (hk_helper h) (pcdu_mode h) (stamp_helper h) (tm_buf h).
Definition set_switch_request_rx x h :=
  mkPcdu (pcdu_id h) (mode_interface h) (composite_request_rx h) (hk_reply_tx h) x (tm_sender h)
    (com_interface h) (shared_switch_map h) (hk_helper h) (pcdu_mode h) (stamp_helper h) (tm_buf h).
Definition set_tm_sender (x : Q) h : PcduHandler C Q :=
  mkPcdu (pcdu_id h) (mode_interface h) (composite_request_rx h) (hk_reply_tx h) (switch_request_rx h) x
    (com_interface h) (shared_switch_map h) (hk_helper h) (pcdu_mode h) (stamp_helper h) (tm_buf h).
Definition set_com_interface (x : C) h : PcduHandler C Q :=
  mkPcdu (pcdu_id h) (mode_interface h) (composite_request_rx h) (hk_reply_tx h) (switch_request_rx h)
    (tm_sender h) x (shared_switch_map h) (hk_helper h) (pcdu_mode h) (stamp_helper h) (tm_buf h).
Definition set_shared_switch_map x h :=
  mkPcdu (pcdu_id h) (mode_interface h) (composite_request_rx h) (hk_reply_tx h) (switch_request_rx h)
    (tm_sender h) (com_interface h) x (hk_helper h) (pcdu_mode h) (stamp_helper h) (tm_buf h).
Definition set_mode x h :=
  mkPcdu (pcdu_id h) (mode_interface h) (composite_request_rx h) (hk_reply_tx h) (switch_request_rx h)
    (tm_sender h) (com_interface h) (shared_switch_map h) (hk_helper h) x (stamp_helper h) (tm_buf h).
Definition set_stamp_helper x h :=
  mkPcdu (pcdu_id h) (mode_interface h) (composite_request_rx h) (hk_reply_tx h) (switch_request_rx h)
    (tm_sender h) (com_interface h) (shared_switch_map h) (hk_helper h) (pcdu_mode h) x (tm_buf h).
Definition set_tm_buf x h :=
  mkPcdu (pcdu_id h) (mode_interface h) (composite_request_rx h) (hk_reply_tx h) (switch_request_rx h)
    (tm_sender h) (com_interface h) (shared_switch_map h) (hk_helper h) (pcdu_mode h) (stamp_helper h) x.

(** [PcduHandler::new] *)
Definition new id mode_interface composite_request_rx hk_reply_tx switch_request_rx (tm_sender : Q)
    (com_interface : C) shared_switch_map : PcduHandler C Q :=
  mkPcdu id mode_interface composite_request_rx hk_reply_tx switch_request_rx tm_sender com_interface
    shared_switch_map id (mkMode (device_mode Off) 0) (replicate 7 0) (replicate 256 0).

End Fields.

Section Pcdu.
Context {PE C CE Q : Type} `{EcssTmSender PE Q} `{SerialInterface C CE}.
Context `{Json PcduRequest} `{Json PcduReply} `{Json SimReply} `{Json SwitchSet}.
(** [hk::Subservice::TmHkPacket] of [spacepackets]. *)
Context (tm_hk_packet : Z).
Abbreviation handler := (PcduHandler C Q).
Abbreviation M := (st handler Empty_set).

(** *** Modes *)

#[global] Instance pcdu_mode_provider : ModeProvider handler := pcdu_mode.

(** A disconnected receiver is an error; the warning about another sender does not
    keep the reply from being sent. *)
Definition send_mode_reply (requestor : MessageMetadata) (reply : ModeReply) : st handler ModeError unit :=
  on_field mode_interface set_mode_interface (fun mi =>
    let '(r, tx) := Channel.send (mkMessage requestor reply) (reply_to_pus_tx mi) in
    (map_err (fun _ => ModeMessaging (MsgSend RxDisconnected)) r,
     mkModeLeaf (request_rx mi) tx (reply_to_parent_tx mi))).

Definition handle_mode_reached (requestor : option MessageMetadata) : st handler ModeError unit :=
  match requestor with
  | None => ret tt
  | Some requestor =>
      if meta_sender_id requestor =? NO_SENDER then ret tt
      else if negb (meta_sender_id requestor =? TargetId.id PUS_MODE_SERVICE) then ret tt
      else
        let* m := gets pcdu_mode in
        send_mode_reply requestor (ModeReplyOk m)
  end.

Definition start_transition (requestor : MessageMetadata) (mode_and_submode : ModeAndSubmode)
    : st handler ModeError unit :=
  let* _ := modify_state (set_mode mode_and_submode) in
  let* _ := modify_state (fun h =>
              if mode mode_and_submode =? device_mode Off
              then set_shared_switch_map (mkSwitchSet false (switch_map (shared_switch_map h))) h else h) in
  handle_mode_reached (Some requestor).

#[global] Instance pcdu_mode_handler : ModeRequestHandler handler ModeError := {|
  Requests.start_transition := start_transition;
  announce_mode _ _ h := h;
  Requests.handle_mode_reached := handle_mode_reached;
  handle_mode_info _ _ := ret tt;
  mrh_send_mode_reply := send_mode_reply;
|}.

Definition recv_mode_request : st handler TryRecvError (GenericMessage ModeRequest) :=
  on_field mode_interface set_mode_interface (fun mi =>
    let '(r, rx) := Channel.try_recv (request_rx mi) in
    (r, mkModeLeaf rx (reply_to_pus_tx mi) (reply_to_parent_tx mi))).

(** A failed request is logged. *)
Definition on_mode_request (msg : GenericMessage ModeRequest) : M unit :=
  let* _ := attempt (handle_mode_request msg) in ret tt.

Definition handle_mode_requests (fuel : nat) : M (option unit) :=
  poll_requests recv_mode_request on_mode_request fuel.

(** *** Housekeeping *)

(** The closure of [handle_hk_request]: it returns the length of the JSON string
    and leaves the buffer as it is. *)
Definition hk_data_writer (switch_set : SwitchSet) (hk_buf : list Z) : res ByteConversionError (Z * list Z) :=
  let switch_map_json := to_json switch_set in
  if len hk_buf <? len switch_map_json then Err (ToSliceTooSmall (len hk_buf) (len switch_map_json))
  else Ok (len switch_map_json, hk_buf).

Definition handle_hk_request (requestor_info : MessageMetadata) (hk_request : HkRequest) : M unit :=
  match hk_variant hk_request with
  | OneShot =>
      if hk_unique_id hk_request =? 0 then
        let* h := gets id in
        let* r := attempt (on_field tm_buf set_tm_buf
                    (Hk.generate_hk_report_packet tm_hk_packet (hk_helper h) (stamp_helper h) 0
                       (hk_data_writer (shared_switch_map h)))) in
        match r with
        | Ok hk_tm =>
            let* _ := on_field tm_sender set_tm_sender
                        (Service.expect_st (send_tm (TargetId.id (pcdu_id h)) (Direct hk_tm))) in
            on_field hk_reply_tx set_hk_reply_tx
              (Service.expect_st (Channel.send (mkMessage requestor_info
                 (mkHkReply (hk_unique_id hk_request) HkAck))))
        | _ => ret tt
        end
      else ret tt
  | _ => lift Panic
  end.

Definition recv_composite_request : st handler TryRecvError (GenericMessage CompositeRequest) :=
  on_field composite_request_rx set_composite_request_rx Channel.try_recv.

Definition on_composite_request (msg : GenericMessage CompositeRequest) : M unit :=
  match message msg with
  | CompHk hk_request => handle_hk_request (requestor_info msg) hk_request
  | CompAction _ => ret tt
  end.

Definition handle_composite_requests (fuel : nat) : M (option unit) :=
  poll_requests recv_composite_request on_composite_request fuel.

(** *** Commands to the power unit *)

Definition handle_periodic_commands : M unit :=
  let* _ := attempt (on_field com_interface set_com_interface (serial_send (to_json RequestSwitchInfo))) in
  ret tt.

(** An unknown switch is a [todo!]. *)
Fixpoint handle_switch_requests (fuel : nat) : M (option unit) :=
  match fuel with
  | O => ret None
  | S fuel' =>
      let* r := attempt (on_field switch_request_rx set_switch_request_rx Channel.try_recv) in
      match r with
      | Ok switch_req =>
          let* pcdu_switch := lift (unwrap (Switches.try_from (switch_id (message switch_req)))) in
          let* _ := on_field com_interface set_com_interface
                      (Service.expect_st (serial_send
                         (to_json (SwitchDevice pcdu_switch (target_state (message switch_req)))))) in
          handle_switch_requests fuel'
      | _ => ret (Some tt)
      end
  end.

(** The closure of [poll_and_handle_replies]. *)
Definition handle_reply (reply : list Z) : st SwitchSet CE unit :=
  let* sim_reply := lift (unwrap (from_json reply)) in
  let* pcdu_reply := lift (expect (Sim.from_sim_message (T:=PcduReply) (reply_inner sim_reply))) in
  match pcdu_reply with
  | SwitchInfo switch_info =>
      modify_state (fun _ => mkSwitchSet true (Switches.from_binary_switch_map_ref switch_info))
  end.

(** An error of the interface is logged. *)
Definition poll_and_handle_replies (fuel : nat) : M (option unit) :=
  fun h =>
    let '(r, (c, s)) := try_recv_replies handle_reply fuel (com_interface h, shared_switch_map h) in
    (match r with Ok o => Ok o | Err _ => Ok (Some tt) | Panic => Panic end,
     set_shared_switch_map s (set_com_interface c h)).

(** [now] is the time stamp of the moment. *)
Definition periodic_operation (op_code : OpCode) (now : list Z) (fuel : nat) : M (option unit) :=
  match op_code with
  | RegularOp =>
      let* _ := modify_state (set_stamp_helper now) in
      and_then (handle_composite_requests fuel)
        (and_then (handle_mode_requests fuel)
           (and_then (handle_switch_requests fuel)
              (let* m := gets provided_mode in
               let* _ := if (m =? device_mode Normal) || (m =? device_mode On) then handle_periodic_commands
                         else ret tt in
               ret (Some tt))))
  | PollAndRecvReplies => poll_and_handle_replies fuel
  end.

End Pcdu.
End Pcdu.

(** ** Polling loops *)
Section Poll.
Context {H M A : Type} (try_recv : st H TryRecvError M) (handle : M -> st H Empty_set unit).
Context (R : list M -> A -> H -> Prop) (step : A -> M -> A) (ok : M -> Prop).

Context (R_empty : forall a h, R [] a h -> try_recv h = (Err TryRecvEmpty, h)).
Context (R_step : forall m l a h, ok m -> R (m :: l) a h ->
  exists h0 h1, try_recv h = (Ok m, h0) /\ handle m h0 = (Ok tt, h1) /\ R l (step a m) h1).

(** The loop runs the specification of one request over the queue, and ends. *)
Lemma poll_requests_simulates l : forall a h fuel,
  Forall ok l -> R l a h -> (length l < fuel)%nat ->
  exists h', poll_requests try_recv handle fuel h = (Ok (Some tt), h') /\ R [] (foldl step a l) h'.
Proof using R_empty R_step.
  induction l as [|m l IH]; intros a h [|fuel] Hok HR Hf; cbn [length foldl poll_requests] in *; try lia.
  - exists h. unfold st_bind, attempt. rewrite (R_empty _ _ HR). done.
  - apply Forall_cons in Hok as [Hm Hok].
    destruct (R_step _ _ _ _ Hm HR) as (h0 & h1 & Hr & Hh & HR').
    destruct (IH _ _ fuel Hok HR') as (h' & Hrun & HR''); [lia|].
    exists h'. unfold st_bind at 1, attempt. rewrite Hr. unfold st_bind at 1. rewrite Hh. done.
Qed.

End Poll.

(** A request loop on a queue whose senders are gone never ends. *)
Lemma poll_disconnected {H M : Type} (try_recv : st H TryRecvError M) handle fuel h :
  try_recv h = (Err TryRecvDisconnected, h) -> poll_requests try_recv handle fuel h = (Ok None, h).
Proof.
  intros Hr. induction fuel as [|fuel IH]; [done|].
  cbn [poll_requests]. unfold st_bind, attempt. by rewrite Hr.
Qed.

Lemma try_recv_live {A : Type} (c : channel A) a q :
  queue c = a :: q -> Channel.try_recv c = (Ok a, Channel.set_queue q c).
Proof. intros Hq. unfold Channel.try_recv. by rewrite Hq. Qed.

Lemma try_recv_idle {A : Type} (c : channel A) :
  queue c = [] -> tx_alive c = true -> Channel.try_recv c = (Err TryRecvEmpty, c).
Proof. intros Hq Ha. unfold Channel.try_recv. by rewrite Hq, Ha. Qed.

Lemma channel_send_live {A : Type} (c : channel A) a :
  rx_alive c = true -> Channel.send a c = (Ok tt, Channel.set_queue (queue c ++ [a]) c).
Proof. intros Ha. unfold Channel.send. by rewrite Ha. Qed.

(** ** Specification

    What the handler owes to its clients: its mode, the states it commanded, the
    set of switch states it publishes, and everything it has sent. *)
Record PcduSpec : Type := mkPcduSpec {
  sp_mode : ModeAndSubmode;
  sp_commanded : SwitchMapBinary;
  sp_published : SwitchSet;
  sp_mode_replies : list (GenericMessage ModeReply);
  sp_hk_replies : list (GenericMessage HkReply);
  sp_tm : list (Z * PusTmVariant);
}.

(** The requests that arrive before a period, and its time stamp. *)
Record PcduPeriod : Type := mkPcduPeriod {
  pp_composite : list (GenericMessage CompositeRequest);
  pp_modes : list (GenericMessage ModeRequest);
  pp_switches : list (GenericMessage SwitchRequest);
  pp_now : list Z;
}.

Module PcduSpec.
Section PcduSpec.
Context `{Json SwitchSet} (tm_hk_packet : Z) (id : UniqueApidTargetId).

(** The report of the switch states: the set of the IDs, and as many zeros as its
    JSON string has bytes. *)
Definition hk_report (now : list Z) (s : SwitchSet) : PusTm :=
  mkPusTm (apid id) 0 3 tm_hk_packet 0 0 now
    ((to_be_bytes 4 (unique_id id) ++ to_be_bytes 4 0) ++ replicate (length (to_json s)) 0).

Definition on_composite (now : list Z) (a : PcduSpec) (msg : GenericMessage CompositeRequest) : PcduSpec :=
  match message msg with
  | CompHk r =>
      if (hk_unique_id r =? 0) && (len (to_json (sp_published a)) <=? 248) then
        mkPcduSpec (sp_mode a) (sp_commanded a) (sp_published a) (sp_mode_replies a)
          (sp_hk_replies a ++ [mkMessage (requestor_info msg) (mkHkReply 0 HkAck)])
          (sp_tm a ++ [(TargetId.id id, Direct (hk_report now (sp_published a)))])
      else a
  | CompAction _ => a
  end.

Definition add_reply (msg : GenericMessage ModeRequest) (a : PcduSpec) : PcduSpec :=
  mkPcduSpec (sp_mode a) (sp_commanded a) (sp_published a)
    (sp_mode_replies a ++ [mkMessage (requestor_info msg) (ModeReplyOk (sp_mode a))])
    (sp_hk_replies a) (sp_tm a).

(** A mode is entered at once; leaving for [Off] invalidates the published set. *)
Definition on_mode (a : PcduSpec) (msg : GenericMessage ModeRequest) : PcduSpec :=
  match message msg with
  | SetMode m =>
      let a' := mkPcduSpec m (sp_commanded a)
                  (if mode m =? 0 then mkSwitchSet false (switch_map (sp_published a)) else sp_published a)
                  (sp_mode_replies a) (sp_hk_replies a) (sp_tm a) in
      if Requests.msg_sender_id msg =? TargetId.id PUS_MODE_SERVICE then add_reply msg a' else a'
  | ReadMode => add_reply msg a
  | _ => a
  end.

Definition on_switch (a : PcduSpec) (msg : GenericMessage SwitchRequest) : PcduSpec :=
  match Switches.try_from (switch_id (message msg)) with
  | Some s =>
      mkPcduSpec (sp_mode a) (<[s := target_state (message msg)]> (sp_commanded a)) (sp_published a)
        (sp_mode_replies a) (sp_hk_replies a) (sp_tm a)
  | None => a
  end.

(** At the end of a period in [On] or [Normal] the published set is what was
    commanded. *)
Definition publish (a : PcduSpec) : PcduSpec :=
  if (mode (sp_mode a) =? 2) || (mode (sp_mode a) =? 1) then
    mkPcduSpec (sp_mode a) (sp_commanded a) (mkSwitchSet true (Power.state_from <$> sp_commanded a))
      (sp_mode_replies a) (sp_hk_replies a) (sp_tm a)
  else a.

Definition round (a : PcduSpec) (p : PcduPeriod) : PcduSpec :=
  publish (foldl on_switch (foldl on_mode (foldl (on_composite (pp_now p)) a (pp_composite p)) (pp_modes p))
             (pp_switches p)).

Definition init : PcduSpec := mkPcduSpec (mkMode 0 0) Switches.default_binary switch_set_default [] [] [].

End PcduSpec.
End PcduSpec.

(** The requests the handler has an answer to: housekeeping requests are one-shot,
    and switches have a number of [PcduSwitch]. *)
Definition composite_ok (msg : GenericMessage CompositeRequest) : Prop :=
  match message msg with CompHk r => hk_variant r = OneShot | CompAction _ => True end.

Definition switch_ok (msg : GenericMessage SwitchRequest) : Prop :=
  is_Some (Switches.try_from (switch_id (message msg))).

Definition period_ok (p : PcduPeriod) : Prop :=
  Forall composite_ok (pp_composite p) /\ Forall switch_ok (pp_switches p).

(** ** Refinement *)
Section Refinement.
Context {PE : Type} `{Json PcduRequest} `{Json PcduReply} `{Json SimReply} `{Json SwitchSet}.
Context `{!JsonLaws PcduRequest} `{!JsonLaws PcduReply} `{!JsonLaws SimReply}.
Context (tm_hk_packet : Z) (id : UniqueApidTargetId).
(** The capacity of the queue of the switch requests and its ends. *)
Context (shape : option Z * bool * bool).
Abbreviation TmLog := (list (Z * PusTmVariant)).
Abbreviation handler := (PcduHandler SerialInterfaceDummy TmLog).

(** The requests that arrive, put in their queues. *)
Definition arrive (p : PcduPeriod) (h : handler) : handler :=
  let push {A} (l : list A) (c : channel A) := Channel.set_queue (queue c ++ l) c in
  let mi := mode_interface h in
  Pcdu.set_mode_interface
    (mkModeLeaf (push (pp_modes p) (request_rx mi)) (reply_to_pus_tx mi) (reply_to_parent_tx mi))
    (Pcdu.set_composite_request_rx (push (pp_composite p) (composite_request_rx h))
       (Pcdu.set_switch_request_rx (push (pp_switches p) (switch_request_rx h)) h)).

Definition period_fuel (p : PcduPeriod) : nat :=
  S (length (pp_composite p) + length (pp_modes p) + length (pp_switches p)).

(** A period of the task: the regular operation, and then the replies. *)
Definition pcdu_period (p : PcduPeriod) : st handler Empty_set (option unit) :=
  let* _ := modify_state (arrive p) in
  and_then (Pcdu.periodic_operation (PE:=PE) tm_hk_packet RegularOp (pp_now p) (period_fuel p))
    (Pcdu.periodic_operation (PE:=PE) tm_hk_packet PollAndRecvReplies (pp_now p) (period_fuel p)).

Fixpoint pcdu_run (ps : list PcduPeriod) : st handler Empty_set (option unit) :=
  match ps with
  | [] => ret (Some tt)
  | p :: ps' => and_then (pcdu_period p) (pcdu_run ps')
  end.

Definition chan_shape {A : Type} (c : channel A) : option Z * bool * bool := (capacity c, rx_alive c, tx_alive c).

Definition info_reply (m : SwitchMapBinary) : SimReply := Sim.new_reply (SwitchInfo m).

(** The handler [h] represents [a] with these requests and replies waiting. *)
Record related (cs : list (GenericMessage CompositeRequest)) (ms : list (GenericMessage ModeRequest))
    (ss : list (GenericMessage SwitchRequest)) (replies : list SwitchMapBinary) (now : list Z) (a : PcduSpec)
    (h : handler) : Prop := mkRelated {
  rel_id : pcdu_id h = id /\ hk_helper h = id;
  rel_composite : queue (composite_request_rx h) = cs /\ tx_alive (composite_request_rx h) = true;
  rel_modes : queue (request_rx (mode_interface h)) = ms /\ tx_alive (request_rx (mode_interface h)) = true;
  rel_switches : queue (switch_request_rx h) = ss /\ chan_shape (switch_request_rx h) = shape;
  rel_mode_replies : queue (reply_to_pus_tx (mode_interface h)) = sp_mode_replies a /\
    rx_alive (reply_to_pus_tx (mode_interface h)) = true;
  rel_hk_replies : queue (hk_reply_tx h) = sp_hk_replies a /\ rx_alive (hk_reply_tx h) = true;
  rel_tm : tm_sender h = sp_tm a;
  rel_com : com_interface h = mkDummy (sp_commanded a) (info_reply <$> replies);
  rel_published : shared_switch_map h = sp_published a;
  rel_mode : pcdu_mode h = sp_mode a;
  rel_now : stamp_helper h = now;
  rel_buf : length (tm_buf h) = 256%nat /\ drop 8 (tm_buf h) = replicate 248 0;
}.

(** Takes a handler and what it represents apart, and puts it together. *)
Ltac open_related HR :=
  destruct HR as [[??] [??] [??] [??] [??] [??] ? ? ? ? ? [??]];
  repeat match goal with
  | h : PcduHandler _ _ |- _ => destruct h
  | mi : MpscModeLeafInterface |- _ => destruct mi
  end; cbn -[replicate] in * |-; subst.

Ltac close_related := constructor; cbn -[replicate]; auto; repeat split; auto; try congruence.

(** The writer leaves the buffer as it is. *)
Lemma pcdu_hk_report now s buf :
  length buf = 256%nat -> drop 8 buf = replicate 248 0 ->
  exists buf' e,
    Hk.generate_hk_report_packet tm_hk_packet id now 0 (Pcdu.hk_data_writer s) buf =
      (if len (to_json s) <=? 248 then Ok (PcduSpec.hk_report tm_hk_packet id now s) else Err e, buf') /\
    length buf' = 256%nat /\ drop 8 buf' = replicate 248 0.
Proof.
  intros Hl Hz. eexists ((to_be_bytes 4 (unique_id id) ++ to_be_bytes 4 0) ++ replicate 248 0), _.
  split; [|split; [done|reflexivity]].
  rewrite (hk_report_ok tm_hk_packet id now 0 (Pcdu.hk_data_writer s) buf
             (Pcdu.hk_data_writer s (replicate 248 0))); [|unfold len; lia|by rewrite Hz|].
  2: { rewrite Hz. generalize (replicate 248 0). intros z n rest. unfold Pcdu.hk_data_writer. case_match; [done|].
       intros [= <- <-]. pose proof (len_nonneg (to_json s)). split; [done|bool_lia]. }
  unfold Pcdu.hk_data_writer, PcduSpec.hk_report. rewrite len_replicate, Hz. change (Z.of_nat 248) with 248.
  destruct (248 <? len (to_json s)) eqn:Hlt.
  - replace (len (to_json s) <=? 248) with false by bool_lia. done.
  - replace (len (to_json s) <=? 248) with true by bool_lia.
    rewrite take_replicate, Nat.min_l by bool_lia. unfold len. by rewrite Nat2Z.id.
Qed.

Lemma hk_step ms ss q now m l a h :
  composite_ok m -> related (m :: l) ms ss q now a h ->
  exists h0 h1,
    Pcdu.recv_composite_request h = (Ok m, h0) /\
    Pcdu.on_composite_request (PE:=PE) tm_hk_packet m h0 = (Ok tt, h1) /\
    related l ms ss q now (PcduSpec.on_composite tm_hk_packet id now a m) h1.
Proof.
  intros Hm HR. open_related HR.
  eexists. unfold Pcdu.recv_composite_request, on_field at 1. cbn [composite_request_rx]. erewrite try_recv_live by done.
  unfold composite_ok in Hm. unfold PcduSpec.on_composite, Pcdu.on_composite_request.
  destruct m as [info [r|r]]; cbn [message requestor_info] in *; [|eexists; split; [done|]; split; [done|]; close_related].
  unfold Pcdu.handle_hk_request. rewrite Hm.
  destruct (hk_unique_id r =? 0) eqn:Hid; cbn [andb]; [|eexists; split; [done|]; split; [done|]; close_related].
  apply Z.eqb_eq in Hid. rewrite Hid.
  edestruct (pcdu_hk_report now (sp_published a) tm_buf0) as (buf & e & Hrep & Hb1 & Hb2); [done..|].
  destruct (len (to_json (sp_published a)) <=? 248) eqn:Hlen;
    (eexists; split; [done|]; unfold st_bind, gets, attempt, on_field, Service.expect_st; cbn -[Hk.generate_hk_report_packet replicate];
     rewrite Hrep; cbn -[replicate Channel.send]).
  - rewrite channel_send_live by done. split; [done|]. close_related.
  - split; [done|]. close_related.
Qed.

(** Only the mode service is told. *)
Lemma mode_reached_eq {C Q} (h : PcduHandler C Q) info :
  Pcdu.handle_mode_reached (Some info) h =
    if meta_sender_id info =? TargetId.id PUS_MODE_SERVICE
    then Pcdu.send_mode_reply info (ModeReplyOk (pcdu_mode h)) h else (Ok tt, h).
Proof.
  unfold Pcdu.handle_mode_reached. destruct (meta_sender_id info =? NO_SENDER) eqn:Hno.
  - apply Z.eqb_eq in Hno. by rewrite Hno.
  - by destruct (_ =? TargetId.id _).
Qed.

Lemma mode_step cs ss q now m l a h :
  related cs (m :: l) ss q now a h ->
  exists h0 h1,
    Pcdu.recv_mode_request h = (Ok m, h0) /\
    Pcdu.on_mode_request m h0 = (Ok tt, h1) /\
    related cs l ss q now (PcduSpec.on_mode a m) h1.
Proof.
  intros HR. open_related HR.
  eexists. unfold Pcdu.recv_mode_request, on_field at 1. cbn [mode_interface request_rx].
  erewrite try_recv_live by done.
  unfold PcduSpec.on_mode, Pcdu.on_mode_request, handle_mode_request, Requests.msg_sender_id.
  destruct m as [info [m|m| | |]]; cbn [message requestor_info] in *;
    [eexists; split; [done|]; split; [done|]; close_related| | |
     eexists; split; [done|]; split; [done|]; close_related..].
  - unfold Requests.start_transition, Pcdu.pcdu_mode_handler, Pcdu.start_transition, st_bind, attempt, modify_state.
    rewrite mode_reached_eq. change (device_mode Off) with 0.
    destruct (mode m =? 0), (meta_sender_id info =? TargetId.id PUS_MODE_SERVICE);
      unfold Pcdu.send_mode_reply, on_field; cbn -[replicate Channel.send]; rewrite ?channel_send_live by done;
      (eexists; split; [done|]; split; [done|]; close_related).
  - cbn. unfold st_bind, attempt, gets, Pcdu.send_mode_reply, on_field. cbn -[replicate Channel.send].
    rewrite channel_send_live by done. eexists; split; [done|]; split; [done|]; close_related.
Qed.

Lemma switches_step cs ms q now l : forall a h fuel,
  Forall switch_ok l -> related cs ms l q now a h -> (length l < fuel)%nat ->
  exists h', Pcdu.handle_switch_requests fuel h = (Ok (Some tt), h') /\
    related cs ms [] q now (foldl PcduSpec.on_switch a l) h'.
Proof.
  induction l as [|m l IH]; intros a h [|fuel] Hok HR Hf; cbn [length foldl] in *; try lia.
  - exists h. split; [|done]. cbn [Pcdu.handle_switch_requests].
    unfold st_bind, attempt, on_field, Channel.try_recv. rewrite (proj1 (rel_switches _ _ _ _ _ _ _ HR)).
    open_related HR. cbn. by destruct (tx_alive switch_request_rx0).
  - apply Forall_cons in Hok as [[s Hs] Hok].
    destruct (IH (PcduSpec.on_switch a m)
      (Pcdu.set_com_interface (mkDummy (<[s := target_state (message m)]> (sp_commanded a)) (info_reply <$> q))
        (Pcdu.set_switch_request_rx (Channel.set_queue l (switch_request_rx h)) h)) fuel Hok) as (h' & Hrun & HR').
    + unfold PcduSpec.on_switch. rewrite Hs. open_related HR. close_related.
    + lia.
    + exists h'. split; [|done]. rewrite <- Hrun. cbn [Pcdu.handle_switch_requests].
      unfold st_bind at 1, attempt, on_field at 1.
      rewrite (try_recv_live _ _ _ (proj1 (rel_switches _ _ _ _ _ _ _ HR))).
      unfold st_bind, lift. rewrite Hs. cbn [unwrap]. unfold on_field, Service.expect_st.
      change (serial_send (to_json ?r)) with (dummy_send (to_json r)). rewrite dummy_send_switch.
      open_related HR. done.
Qed.

Lemma and_then_run {S E : Type} (m k : st S E (option unit)) h h' :
  m h = (Ok (Some tt), h') -> and_then m k h = k h'.
Proof. intros Hm. unfold and_then, st_bind. by rewrite Hm. Qed.

(** The reply of the dummy interface is the set that is published. *)
Lemma from_info_reply m :
  Sim.from_sim_message (T:=PcduReply) (reply_inner (info_reply m)) = Ok (SwitchInfo m).
Proof.
  unfold Sim.from_sim_message, info_reply, Sim.new_reply, reply_inner, target, payload.
  rewrite bool_decide_true by done. by rewrite json_roundtrip.
Qed.

Lemma handle_reply_info m s :
  Pcdu.handle_reply (CE:=unit) (to_json (info_reply m)) s =
    (Ok tt, mkSwitchSet true (Switches.from_binary_switch_map_ref m)).
Proof.
  unfold Pcdu.handle_reply, st_bind, lift. rewrite json_roundtrip. cbn [unwrap]. by rewrite from_info_reply.
Qed.

(** The last reply that waits is published. *)
Definition republish (replies : list SwitchMapBinary) (a : PcduSpec) : PcduSpec :=
  match last replies with
  | Some m => mkPcduSpec (sp_mode a) (sp_commanded a) (mkSwitchSet true (Power.state_from <$> m))
                (sp_mode_replies a) (sp_hk_replies a) (sp_tm a)
  | None => a
  end.

Lemma poll_replies cs ms ss now a h fuel replies :
  related cs ms ss replies now a h -> (length replies <= fuel)%nat ->
  exists h', Pcdu.poll_and_handle_replies fuel h = (Ok (Some tt), h') /\
    related cs ms ss [] now (republish replies a) h'.
Proof.
  intros HR Hf. unfold Pcdu.poll_and_handle_replies. rewrite (rel_com _ _ _ _ _ _ _ HR).
  change (try_recv_replies ?f ?n ?s) with (dummy_try_recv_replies f n s).
  rewrite (dummy_replies _ (fun s r => match Sim.from_sim_message (T:=PcduReply) (reply_inner r) with
    | Ok (SwitchInfo m) => mkSwitchSet true (Power.state_from <$> m) | _ => s end)).
  - eexists. split; [done|]. unfold republish.
    assert (Hl : forall s, foldl (fun s r => match Sim.from_sim_message (T:=PcduReply) (reply_inner r) with
        | Ok (SwitchInfo m) => mkSwitchSet true (Power.state_from <$> m) | _ => s end) s (info_reply <$> replies) =
      match last replies with Some m => mkSwitchSet true (Power.state_from <$> m) | None => s end).
    { intros s. destruct replies as [|m l _] using rev_ind; [done|].
      rewrite fmap_app, foldl_app, last_snoc. change (info_reply <$> [m]) with [info_reply m].
      cbn [foldl]. by rewrite from_info_reply. }
    rewrite Hl. clear Hl. destruct (last replies); open_related HR; close_related.
  - intros s r Hr. apply list_elem_of_fmap in Hr as (m & -> & _). rewrite from_info_reply. apply handle_reply_info.
  - by rewrite length_fmap.
Qed.

Lemma regular_run p q now a h fuel :
  period_ok p -> (period_fuel p <= fuel)%nat -> related (pp_composite p) (pp_modes p) (pp_switches p) q now a h ->
  let b := foldl PcduSpec.on_switch
             (foldl PcduSpec.on_mode
                (foldl (PcduSpec.on_composite tm_hk_packet id (pp_now p)) a (pp_composite p)) (pp_modes p))
             (pp_switches p) in
  let info := (mode (sp_mode b) =? 2) || (mode (sp_mode b) =? 1) in
  exists h', Pcdu.periodic_operation (PE:=PE) tm_hk_packet RegularOp (pp_now p) fuel h =
      (Ok (Some tt), h') /\
    related [] [] [] (q ++ if info then [sp_commanded b] else []) (pp_now p) b h'.
Proof.
  intros [Hc Hs] Hfuel HR b info. unfold Pcdu.periodic_operation, st_bind at 1, modify_state.
  assert (HR0 : related (pp_composite p) (pp_modes p) (pp_switches p) q (pp_now p) a
                  (Pcdu.set_stamp_helper (pp_now p) h)) by (open_related HR; close_related).
  edestruct (poll_requests_simulates Pcdu.recv_composite_request (Pcdu.on_composite_request (PE:=PE) tm_hk_packet)
    (fun l a h => related l (pp_modes p) (pp_switches p) q (pp_now p) a h)
    (PcduSpec.on_composite tm_hk_packet id (pp_now p)) composite_ok)
    with (fuel := fuel) as (h1 & Hrun1 & HR1);
    [| |exact Hc|exact HR0| |].
  { intros a' h' HR'. open_related HR'. unfold Pcdu.recv_composite_request, on_field. cbn [composite_request_rx].
    by rewrite try_recv_idle. }
  { intros. by apply hk_step. }
  { unfold period_fuel in Hfuel. lia. }
  erewrite and_then_run by exact Hrun1.
  edestruct (poll_requests_simulates Pcdu.recv_mode_request Pcdu.on_mode_request
    (fun l a h => related [] l (pp_switches p) q (pp_now p) a h) PcduSpec.on_mode (fun _ => True))
    with (fuel := fuel) as (h2 & Hrun2 & HR2); [| |by apply Forall_true|exact HR1| |].
  { intros a' h' HR'. open_related HR'. unfold Pcdu.recv_mode_request, on_field. cbn [mode_interface request_rx].
    by rewrite try_recv_idle. }
  { intros. by apply mode_step. }
  { unfold period_fuel in Hfuel. lia. }
  erewrite and_then_run by exact Hrun2.
  edestruct switches_step with (fuel := fuel) as (h3 & Hrun3 & HR3); [exact Hs|exact HR2| |].
  { unfold period_fuel in Hfuel. lia. }
  erewrite and_then_run by exact Hrun3. fold b in HR3.
  unfold st_bind at 1, gets, provided_mode, mode_and_submode, Pcdu.pcdu_mode_provider.
  rewrite (rel_mode _ _ _ _ _ _ _ HR3). change (device_mode Normal) with 2. change (device_mode On) with 1.
  fold info. destruct info.
  - unfold Pcdu.handle_periodic_commands, st_bind, attempt, on_field.
    change (serial_send (to_json ?r)) with (dummy_send (to_json r)). rewrite dummy_send_info.
    eexists. split; [done|]. open_related HR3. close_related. by rewrite fmap_app.
  - rewrite app_nil_r. by exists h3.
Qed.

Lemma period_run p now a h :
  period_ok p -> related [] [] [] [] now a h ->
  exists h', pcdu_period p h = (Ok (Some tt), h') /\
    related [] [] [] [] (pp_now p) (PcduSpec.round tm_hk_packet id a p) h'.
Proof.
  intros Hok HR. unfold pcdu_period, st_bind at 1, modify_state.
  edestruct (regular_run p [] now a (arrive p h) _ Hok (le_n _)) as (h1 & Hrun & HR1).
  { open_related HR. close_related;
      match goal with Hq : queue ?c = [] |- context [queue ?c] => by rewrite Hq end. }
  erewrite and_then_run by exact Hrun. unfold Pcdu.periodic_operation.
  edestruct poll_replies with (fuel := period_fuel p) as (h2 & Hrun2 & HR2); [exact HR1| |].
  { case_match; unfold period_fuel; cbn; lia. }
  exists h2. split; [done|]. revert HR2. unfold republish, PcduSpec.round, PcduSpec.publish.
  set (b := foldl PcduSpec.on_switch _ _). by destruct ((mode (sp_mode b) =? 2) || (mode (sp_mode b) =? 1)).
Qed.

Lemma pcdu_run_related ps : forall now a h,
  Forall period_ok ps -> related [] [] [] [] now a h ->
  exists h' now', pcdu_run ps h = (Ok (Some tt), h') /\
    related [] [] [] [] now' (foldl (PcduSpec.round tm_hk_packet id) a ps) h'.
Proof.
  induction ps as [|p ps IH]; intros now a h Hok HR; [by exists h, now|].
  apply Forall_cons in Hok as [Hp Hok]. destruct (period_run p now a h Hp HR) as (h1 & Hrun & HR1).
  destruct (IH _ _ _ Hok HR1) as (h' & now' & Hrun' & HR'). exists h', now'. split; [|done].
  cbn [pcdu_run]. by erewrite and_then_run.
Qed.

(** A new handler represents the initial state of the specification. *)
Lemma new_related mi crx htx srx :
  chan_shape srx = shape ->
  (queue crx = [] /\ tx_alive crx = true) -> (queue htx = [] /\ rx_alive htx = true) -> queue srx = [] ->
  (queue (request_rx mi) = [] /\ tx_alive (request_rx mi) = true) ->
  (queue (reply_to_pus_tx mi) = [] /\ rx_alive (reply_to_pus_tx mi) = true) ->
  related [] [] [] [] (replicate 7 0) PcduSpec.init (Pcdu.new id mi crx htx srx [] dummy_default switch_set_default).
Proof. intros. by constructor. Qed.

End Refinement.

(** ** Theorems *)

(** C33: The handler of the power unit on the dummy interface refines its
    specification from its construction and over any number of periods whose requests are
    all supported: housekeeping requests are one-shot requests, and switch requests
    name a switch of the unit (an unknown one panics, see [unknown_switch_panics]).  Then nothing
    panics and every loop ends; every mode request is answered in
    order, every report of the switch states is sent with its acknowledgement, and
    at the end of a period in [On] or [Normal] the published set is valid and holds
    exactly the last state commanded for each switch; [Off] invalidates it. *)
Theorem pcdu_correct {PE} `{Json PcduRequest} `{Json PcduReply} `{Json SimReply} `{Json SwitchSet}
    `{!JsonLaws PcduRequest} `{!JsonLaws PcduReply} `{!JsonLaws SimReply} tm_hk_packet id mi crx htx srx ps :
  (queue crx = [] /\ tx_alive crx = true) -> (queue htx = [] /\ rx_alive htx = true) -> queue srx = [] ->
  (queue (request_rx mi) = [] /\ tx_alive (request_rx mi) = true) ->
  (queue (reply_to_pus_tx mi) = [] /\ rx_alive (reply_to_pus_tx mi) = true) ->
  Forall period_ok ps ->
  let a := foldl (PcduSpec.round tm_hk_packet id) PcduSpec.init ps in
  exists h,
    pcdu_run (PE:=PE) tm_hk_packet ps (Pcdu.new id mi crx htx srx [] dummy_default switch_set_default) =
      (Ok (Some tt), h) /\
    pcdu_mode h = sp_mode a /\ shared_switch_map h = sp_published a /\ tm_sender h = sp_tm a /\
    queue (reply_to_pus_tx (mode_interface h)) = sp_mode_replies a /\
    queue (hk_reply_tx h) = sp_hk_replies a /\
    com_interface h = mkDummy (sp_commanded a) [] /\
    queue (composite_request_rx h) = [] /\ queue (request_rx (mode_interface h)) = [] /\
    queue (switch_request_rx h) = [].
Proof.
  intros Hc Hh Hs Hm Hr Hps a.
  destruct (pcdu_run_related (PE:=PE) tm_hk_packet id (chan_shape srx) ps _ _ _ Hps (new_related id (chan_shape srx) mi crx htx srx eq_refl Hc Hh Hs Hm Hr))
    as (h & now' & Hrun & [? [??] [??] [??] [??] [??] ? ? ? ? ? ?]).
  exists h. by split_and!.
Qed.

Definition ex_mode_leaf : MpscModeLeafInterface := mkModeLeaf ex_chan ex_chan ex_chan.
Definition ex_eps : UniqueApidTargetId := TargetId.new 3 0.
Definition ex_pus : MessageMetadata := mkMetadata 5 (TargetId.id PUS_MODE_SERVICE).

(** The handler is commanded to [Normal] and a switch on; then a report is requested. *)
Definition ex_pcdu_periods : list PcduPeriod :=
  [mkPcduPeriod [] [mkMessage ex_pus (SetMode (mkMode 2 0))] [mkMessage ex_pus (mkSwitchRequest 0 BinOn)] [1];
   mkPcduPeriod [mkMessage (mkMetadata 6 1) (CompHk (mkHkRequest 0 OneShot))] [] [] [2]].

Lemma pcdu_correct_witness :
  exists h,
    pcdu_run (PE:=unit) (H:=Codec.request_json) (H0:=Codec.reply_json) (H1:=Codec.sim_reply_json)
      (H2:=Codec.switch_set_json) 25 ex_pcdu_periods
      (Pcdu.new ex_eps ex_mode_leaf ex_chan ex_chan ex_chan [] dummy_default switch_set_default) =
      (Ok (Some tt), h) /\
    pcdu_mode h = mkMode 2 0 /\
    shared_switch_map h = mkSwitchSet true {[SwMgm := SwitchOn; SwMgt := SwitchOff]} /\
    tm_sender h = [(12884901888, Direct (mkPusTm 3 0 3 25 0 0 [2] [0; 0; 0; 0; 0; 0; 0; 0; 0; 0; 0]))] /\
    queue (reply_to_pus_tx (mode_interface h)) = [mkMessage ex_pus (ModeReplyOk (mkMode 2 0))] /\
    queue (hk_reply_tx h) = [mkMessage (mkMetadata 6 1) (mkHkReply 0 HkAck)] /\
    com_interface h = mkDummy {[SwMgm := BinOn; SwMgt := BinOff]} [] /\
    queue (composite_request_rx h) = [] /\ queue (request_rx (mode_interface h)) = [] /\
    queue (switch_request_rx h) = [].
Proof.
  exact (pcdu_correct (PE:=unit) (JsonLaws0:=Codec.request_laws) (JsonLaws1:=Codec.reply_laws)
    (JsonLaws2:=Codec.sim_reply_laws) (H2:=Codec.switch_set_json) 25 ex_eps ex_mode_leaf ex_chan ex_chan ex_chan
    ex_pcdu_periods (conj eq_refl eq_refl) (conj eq_refl eq_refl) eq_refl (conj eq_refl eq_refl)
    (conj eq_refl eq_refl) ltac:(repeat constructor; eexists; reflexivity)).
Defined.

(** ** What the handler does not survive *)

(** When the last sender of the mode requests is gone the regular operation never
    ends. *)
Lemma disconnected_modes_hang {PE} `{Json PcduRequest} `{Json PcduReply} `{Json SimReply} `{Json SwitchSet}
    tm_hk_packet now fuel (h : PcduHandler SerialInterfaceDummy (list (Z * PusTmVariant))) :
  queue (composite_request_rx h) = [] -> tx_alive (composite_request_rx h) = true ->
  queue (request_rx (mode_interface h)) = [] -> tx_alive (request_rx (mode_interface h)) = false ->
  (Pcdu.periodic_operation (PE:=PE) tm_hk_packet RegularOp now fuel h).1 = Ok None.
Proof.
  intros Hq Ha Hmq Hma. unfold Pcdu.periodic_operation, st_bind at 1, modify_state.
  destruct fuel as [|fuel]; [done|]. destruct h as [? []]. cbn in Hq, Ha, Hmq, Hma.
  erewrite and_then_run.
  2: { unfold Pcdu.handle_composite_requests. cbn [poll_requests].
       unfold st_bind, attempt, Pcdu.recv_composite_request, on_field. cbn -[Channel.try_recv].
       by rewrite try_recv_idle. }
  unfold and_then, st_bind at 1, Pcdu.handle_mode_requests. rewrite poll_disconnected; [done|].
  unfold Pcdu.recv_mode_request, on_field, Channel.try_recv. cbn. by rewrite Hmq, Hma.
Qed.

(** A request for a switch the unit does not have panics. *)
Example unknown_switch_panics :
  (pcdu_run (PE:=unit) (H:=Codec.request_json) (H0:=Codec.reply_json) (H1:=Codec.sim_reply_json)
     (H2:=Codec.switch_set_json) 25
     [mkPcduPeriod [] [] [mkMessage ex_pus (mkSwitchRequest 2 BinOn)] [1]]
     (Pcdu.new ex_eps ex_mode_leaf ex_chan ex_chan ex_chan [] dummy_default switch_set_default)).1 = Panic.
Proof. reflexivity. Qed.

(** A handler that reads the mode, and is not the mode service, gets no reply: the
    mode service gets it. *)
Example foreign_reader_answered :
  let info := mkMetadata 9 77 in
  let r := pcdu_run (PE:=unit) (H:=Codec.request_json) (H0:=Codec.reply_json) (H1:=Codec.sim_reply_json)
     (H2:=Codec.switch_set_json) 25
     [mkPcduPeriod [] [mkMessage info ReadMode] [] [1]]
     (Pcdu.new ex_eps ex_mode_leaf ex_chan ex_chan ex_chan [] dummy_default switch_set_default) in
  queue (reply_to_pus_tx (mode_interface r.2)) = [mkMessage info (ModeReplyOk (mkMode 0 0))].
Proof. reflexivity. Qed.
