(* ===== verification/Mgm.v ===== *)
(** * The magnetometer handler

    [satrs-example/src/acs/mgm.rs]: the SPI interfaces of the LIS3MDL and its device
    handler, with the raw values of [satrs-minisim/src/lib.rs].  A [f32] is a
    [spec_float] of 24 bits. *)

From Stdlib Require Import ZArith Lia Bool Floats.SpecFloat.
From stdpp Require Import base list gmap.
From S2P Require Import Prelude Spacepackets Tmtc Requests Verification Services TargetedService Eps Pcdu.

Local Open Scope Z_scope.

(** ** Numbers *)

(** [i16]: the two's complement bytes, least significant first. *)
Definition i16_to_le_bytes (v : Z) : list Z := rev (to_be_bytes 2 v).
Definition i16_to_be_bytes (v : Z) : list Z := to_be_bytes 2 v.
Definition i16_from_le_bytes (l : list Z) : Z :=
  let u := from_be_bytes (rev l) in if u <? 2 ^ 15 then u else u - 2 ^ 16.

Definition in_i16 (v : Z) : Prop := - 2 ^ 15 <= v < 2 ^ 15.

Abbreviation f32 := spec_float.

Module F32.

Definition of_int (v : Z) : f32 := binary_normalize 24 128 v 0 false.
Definition mul (a b : f32) : f32 := SFmul 24 128 a b.
Definition div (a b : f32) : f32 := SFdiv 24 128 a b.

(** [to_bits]; a NaN is the quiet one. *)
Definition to_bits (v : f32) : Z :=
  let sign (s : bool) := if s then 2 ^ 31 else 0 in
  match v with
  | S754_zero s => sign s
  | S754_infinity s => sign s + 255 * 2 ^ 23
  | S754_nan => 255 * 2 ^ 23 + 2 ^ 22
  | S754_finite s m e =>
      if Z.pos m <? 2 ^ 23 then sign s + Z.pos m else sign s + (e + 150) * 2 ^ 23 + (Z.pos m - 2 ^ 23)
  end.

Definition to_be_bytes (v : f32) : list Z := Prelude.to_be_bytes 4 (to_bits v).

End F32.

(** ** Values of the sensor ([satrs-minisim]) *)
Definition GAUSS_TO_MICROTESLA_FACTOR : Z := 100.
Definition FIELD_LSB_PER_GAUSS_4_SENS : f32 := F32.div (F32.of_int 1) (F32.of_int 6842).

Record MgmLis3RawValues : Type := mkRaw { raw_x : Z; raw_y : Z; raw_z : Z }.
Record MgmSensorValuesMicroTesla : Type := mkMicroTesla { ut_x : f32; ut_y : f32; ut_z : f32 }.
Record MgmReplyCommon : Type := mkReplyCommon {
  reply_switch_state : SwitchStateBinary;
  sensor_values : MgmSensorValuesMicroTesla;
}.
Record MgmLis3MdlReply : Type := mkLis3Reply { reply_common : MgmReplyCommon; raw : MgmLis3RawValues }.
Inductive MgmRequestLis3Mdl : Type := RequestSensorData.

(** ** SPI interfaces *)
Definition NR_OF_DATA_AND_CFG_REGISTERS : Z := 14.
Definition X_LOWBYTE_IDX : Z := 9.
Definition Y_LOWBYTE_IDX : Z := 11.
Definition Z_LOWBYTE_IDX : Z := 13.

(** The interface with the buffer it reads into. *)
Class SpiInterface (C E : Type) : Type := transfer : list Z -> st (C * list Z) E unit.

Record SpiDummyInterface : Type := mkSpiDummy { dummy_values : MgmLis3RawValues }.

Record SpiSimInterface : Type := mkSpiSim {
  spi_request_tx : channel SimRequest;
  spi_reply_rx : channel SimReply;
}.

Inductive SpiSimInterfaceWrapper : Type :=
| SpiDummy (d : SpiDummyInterface)
| SpiSim (s : SpiSimInterface).

Module Spi.

(** [rx[a..b].copy_from_slice(bytes)] *)
Definition write {C E : Type} (a : Z) (bytes : list Z) : st (C * list Z) E unit :=
  on_snd (fun rx => match copy_into rx a (a + 2) bytes with Ok rx' => (Ok tt, rx') | Err e => (Err e, rx) | Panic => (Panic, rx) end).

(** The last two values have their most significant byte first. *)
Definition dummy_transfer (tx : list Z) : st (SpiDummyInterface * list Z) unit unit :=
  let* v := gets (fun x => dummy_values x.1) in
  let* _ := write X_LOWBYTE_IDX (i16_to_le_bytes (raw_x v)) in
  let* _ := write Y_LOWBYTE_IDX (i16_to_be_bytes (raw_y v)) in
  write Z_LOWBYTE_IDX (i16_to_be_bytes (raw_z v)).

Section Sim.
Context `{Json MgmRequestLis3Mdl} `{Json MgmLis3MdlReply}.

#[global] Instance mgm_request_payload : SimPayload MgmRequestLis3Mdl := CompMgmLis3Mdl.
#[global] Instance mgm_reply_payload : SimPayload MgmLis3MdlReply := CompMgmLis3Mdl.

(** A request that cannot be sent and a reply that does not come in time are
    logged; a reply that comes in time waits in the queue. *)
Definition sim_transfer (tx : list Z) : st (SpiSimInterface * list Z) unit unit :=
  let* _ := attempt (E:=unit) (on_fst (on_field spi_request_tx (fun c s => mkSpiSim c (spi_reply_rx s))
              (Channel.send (Sim.new_request (T:=MgmRequestLis3Mdl) RequestSensorData)))) in
  let* r := attempt (on_fst (on_field spi_reply_rx (fun c s => mkSpiSim (spi_request_tx s) c) Channel.try_recv)) in
  match r with
  | Ok sim_reply =>
      let* sim_reply_lis3 :=
        lift (expect (Sim.from_sim_message (T:=MgmLis3MdlReply) (reply_inner sim_reply))) in
      let* _ := write X_LOWBYTE_IDX (i16_to_le_bytes (raw_x (raw sim_reply_lis3))) in
      let* _ := write Y_LOWBYTE_IDX (i16_to_le_bytes (raw_y (raw sim_reply_lis3))) in
      write Z_LOWBYTE_IDX (i16_to_le_bytes (raw_z (raw sim_reply_lis3)))
  | _ => ret tt
  end.

#[global] Instance SpiDummy_spi : SpiInterface SpiDummyInterface unit := dummy_transfer.
#[global] Instance SpiSim_spi : SpiInterface SpiSimInterface unit := sim_transfer.

Definition wrapper_transfer (tx : list Z) : st (SpiSimInterfaceWrapper * list Z) unit unit :=
  fun x =>
    match x.1 with
    | SpiDummy dummy => let '(r, (d, rx)) := dummy_transfer tx (dummy, x.2) in (r, (SpiDummy d, rx))
    | SpiSim sim_if => let '(r, (s, rx)) := sim_transfer tx (sim_if, x.2) in (r, (SpiSim s, rx))
    end.

#[global] Instance Wrapper_spi : SpiInterface SpiSimInterfaceWrapper unit := wrapper_transfer.

End Sim.
End Spi.

(** ** The handler *)
Inductive TransitionState : Type := Idle | PowerSwitching | Done.

#[export] Instance TransitionState_eq_dec : EqDecision TransitionState.
Proof. solve_decision. Defined.

Record MgmData : Type := mkMgmData { data_valid : bool; data_x : f32; data_y : f32; data_z : f32 }.

Record BufWrapper : Type := mkBufs { tx_buf : list Z; rx_buf : list Z; bufs_tm : list Z }.

Record ModeHelpers : Type := mkModeHelpers {
  current : ModeAndSubmode;
  target_mode : option ModeAndSubmode;
  requestor : option MessageMetadata;
  transition_state : TransitionState;
}.

Record MgmHandlerLis3Mdl (C Q SH : Type) : Type := mkMgm {
  mgm_id : UniqueApidTargetId;
  mgm_modes : MpscModeLeafInterface;
  mgm_composite_rx : channel (GenericMessage CompositeRequest);
  mgm_hk_reply_tx : channel (GenericMessage HkReply);
  switch_helper : SH;
  mgm_tm_sender : Q;
  mgm_com : C;
  shared_mgm_set : MgmData;
  mgm_hk_helper : UniqueApidTargetId;
  mode_helpers : ModeHelpers;
  bufs : BufWrapper;
  mgm_stamp : list Z;
}.

Arguments mkMgm {C Q SH} _ _ _ _ _ _ _ _ _ _ _ _.
Arguments mgm_id {C Q SH} _.
Arguments mgm_modes {C Q SH} _.
Arguments mgm_composite_rx {C Q SH} _.
Arguments mgm_hk_reply_tx {C Q SH} _.
Arguments switch_helper {C Q SH} _.
Arguments mgm_tm_sender {C Q SH} _.
Arguments mgm_com {C Q SH} _.
Arguments shared_mgm_set {C Q SH} _.
Arguments mgm_hk_helper {C Q SH} _.
Arguments mode_helpers {C Q SH} _.
Arguments bufs {C Q SH} _.
Arguments mgm_stamp {C Q SH} _.

Module Mgm.

(** *** Assignments *)
Section Fields.
Context {C Q SH : Type}.
Abbreviation handler := (MgmHandlerLis3Mdl C Q SH).
Implicit Type h : handler.

Definition set_modes x h : handler :=
  mkMgm (mgm_id h) x (mgm_composite_rx h) (mgm_hk_reply_tx h) (switch_helper h) (mgm_tm_sender h)
    (mgm_com h) (shared_mgm_set h) (mgm_hk_helper h) (mode_helpers h) (bufs h) (mgm_stamp h).
Definition set_composite_rx x h : handler :=
  mkMgm (mgm_id h) (mgm_modes h) x (mgm_hk_reply_tx h) (switch_helper h) (mgm_tm_sender h)
    (mgm_com h) (shared_mgm_set h) (mgm_hk_helper h) (mode_helpers h) (bufs h) (mgm_stamp h).
Definition set_hk_reply_tx x h : handler :=
  mkMgm (mgm_id h) (mgm_modes h) (mgm_composite_rx h) x (switch_helper h) (mgm_tm_sender h)
    (mgm_com h) (shared_mgm_set h) (mgm_hk_helper h) (mode_helpers h) (bufs h) (mgm_stamp h).
Definition set_switch_helper (x : SH) h : handler :=
  mkMgm (mgm_id h) (mgm_modes h) (mgm_composite_rx h) (mgm_hk_reply_tx h) x (mgm_tm_sender h)
    (mgm_com h) (shared_mgm_set h) (mgm_hk_helper h) (mode_helpers h) (bufs h) (mgm_stamp h).
Definition set_tm_sender (x : Q) h : handler :=
  mkMgm (mgm_id h) (mgm_modes h) (mgm_composite_rx h) (mgm_hk_reply_tx h) (switch_helper h) x
    (mgm_com h) (shared_mgm_set h) (mgm_hk_helper h) (mode_helpers h) (bufs h) (mgm_stamp h).
Definition set_com (x : C) h : handler :=
  mkMgm (mgm_id h) (mgm_modes h) (mgm_composite_rx h) (mgm_hk_reply_tx h) (switch_helper h) (mgm_tm_sender h)
    x (shared_mgm_set h) (mgm_hk_helper h) (mode_helpers h) (bufs h) (mgm_stamp h).
Definition set_mgm_set x h : handler :=
  mkMgm (mgm_id h) (mgm_modes h) (mgm_composite_rx h) (mgm_hk_reply_tx h) (switch_helper h) (mgm_tm_sender h)
    (mgm_com h) x (mgm_hk_helper h) (mode_helpers h) (bufs h) (mgm_stamp h).
Definition set_mode_helpers x h : handler :=
  mkMgm (mgm_id h) (mgm_modes h) (mgm_composite_rx h) (mgm_hk_reply_tx h) (switch_helper h) (mgm_tm_sender h)
    (mgm_com h) (shared_mgm_set h) (mgm_hk_helper h) x (bufs h) (mgm_stamp h).
Definition set_bufs x h : handler :=
  mkMgm (mgm_id h) (mgm_modes h) (mgm_composite_rx h) (mgm_hk_reply_tx h) (switch_helper h) (mgm_tm_sender h)
    (mgm_com h) (shared_mgm_set h) (mgm_hk_helper h) (mode_helpers h) x (mgm_stamp h).
Definition set_stamp x h : handler :=
  mkMgm (mgm_id h) (mgm_modes h) (mgm_composite_rx h) (mgm_hk_reply_tx h) (switch_helper h) (mgm_tm_sender h)
    (mgm_com h) (shared_mgm_set h) (mgm_hk_helper h) (mode_helpers h) (bufs h) x.

(** [MgmHandlerLis3Mdl::new] *)
Definition new id mode_interface composite_request_rx hk_reply_tx (switch_helper : SH) (tm_sender : Q)
    (com_interface : C) shared_mgm_set : handler :=
  mkMgm id mode_interface composite_request_rx hk_reply_tx switch_helper tm_sender com_interface shared_mgm_set
    id (mkModeHelpers (mkMode (device_mode Off) 0) None None Idle)
    (mkBufs (replicate 32 0) (replicate 32 0) (replicate 32 0)) (replicate 7 0).

(** Assignments to one of the [mode_helpers]. *)
Definition set_current m h : handler :=
  let mh := mode_helpers h in
  set_mode_helpers (mkModeHelpers m (target_mode mh) (requestor mh) (transition_state mh)) h.
Definition set_target m h : handler :=
  let mh := mode_helpers h in
  set_mode_helpers (mkModeHelpers (current mh) m (requestor mh) (transition_state mh)) h.
Definition set_requestor r h : handler :=
  let mh := mode_helpers h in
  set_mode_helpers (mkModeHelpers (current mh) (target_mode mh) r (transition_state mh)) h.
Definition set_transition_state s h : handler :=
  let mh := mode_helpers h in
  set_mode_helpers (mkModeHelpers (current mh) (target_mode mh) (requestor mh) s) h.

End Fields.

Section Mgm.
Context {PE C CE Q SH IE SE : Type} `{EcssTmSender PE Q} `{SpiInterface C CE}.
Context `{PowerSwitchInfo PcduSwitch SH IE} `{PowerSwitcherCommandSender PcduSwitch SH SE}.
(** [hk::Subservice::TmHkPacket] of [spacepackets]. *)
Context (tm_hk_packet : Z).
Abbreviation handler := (MgmHandlerLis3Mdl C Q SH).
Abbreviation M := (st handler Empty_set).

(** *** Modes *)

#[global] Instance mgm_mode_provider : ModeProvider handler := fun h => current (mode_helpers h).

(** The reply is sent to the mode service whoever asked. *)
Definition send_mode_reply (requestor : MessageMetadata) (reply : ModeReply) : st handler ModeError unit :=
  on_field mgm_modes set_modes (fun mi =>
    let '(r, tx) := Channel.send (mkMessage requestor reply) (reply_to_pus_tx mi) in
    (map_err (fun _ => ModeMessaging (MsgSend RxDisconnected)) r,
     mkModeLeaf (request_rx mi) tx (reply_to_parent_tx mi))).

Definition handle_mode_reached (requestor : option MessageMetadata) : st handler ModeError unit :=
  let* _ := modify_state (set_target None) in
  match requestor with
  | None => ret tt
  | Some requestor =>
      if meta_sender_id requestor =? NO_SENDER then ret tt
      else if negb (meta_sender_id requestor =? TargetId.id PUS_MODE_SERVICE) then ret tt
      else
        let* m := gets mode_and_submode in
        send_mode_reply requestor (ModeReplyOk m)
  end.

(** The mode is the new one at once, before the transition is done. *)
Definition start_transition (requestor : MessageMetadata) (m : ModeAndSubmode) : st handler ModeError unit :=
  let* _ := modify_state (set_current m) in
  if mode m =? device_mode Off then
    let* _ := modify_state (fun h =>
                let d := shared_mgm_set h in set_mgm_set (mkMgmData false (data_x d) (data_y d) (data_z d)) h) in
    handle_mode_reached (Some requestor)
  else if (mode m =? device_mode Normal) || (mode m =? device_mode On) then
    let* _ := modify_state (set_transition_state Idle) in
    let* _ := modify_state (set_requestor (Some requestor)) in
    modify_state (set_target (Some m))
  else ret tt.

#[global] Instance mgm_mode_handler : ModeRequestHandler handler ModeError := {|
  Requests.start_transition := start_transition;
  announce_mode _ _ h := h;
  Requests.handle_mode_reached := handle_mode_reached;
  handle_mode_info _ _ := ret tt;
  mrh_send_mode_reply := send_mode_reply;
|}.

Definition recv_mode_request : st handler TryRecvError (GenericMessage ModeRequest) :=
  on_field mgm_modes set_modes (fun mi =>
    let '(r, rx) := Channel.try_recv (request_rx mi) in
    (r, mkModeLeaf rx (reply_to_pus_tx mi) (reply_to_parent_tx mi))).

(** A failed request is logged. *)
Definition on_mode_request (msg : GenericMessage ModeRequest) : M unit :=
  let* _ := attempt (handle_mode_request msg) in ret tt.

Definition handle_mode_requests (fuel : nat) : M (option unit) :=
  poll_requests recv_mode_request on_mode_request fuel.

(** *** Housekeeping *)

(** The closure of [handle_hk_request]. *)
Definition hk_data_writer (d : MgmData) (hk_buf : list Z) : res ByteConversionError (Z * list Z) :=
  let? hk_buf := set_index hk_buf 0 (if data_valid d then 1 else 0) in
  let? hk_buf := copy_into hk_buf 1 5 (F32.to_be_bytes (data_x d)) in
  let? hk_buf := copy_into hk_buf 5 9 (F32.to_be_bytes (data_y d)) in
  let? hk_buf := copy_into hk_buf 9 13 (F32.to_be_bytes (data_z d)) in
  Ok (13, hk_buf).

(** Whatever the ID of the request, the report is that of set 0. *)
Definition handle_hk_request (requestor_info : MessageMetadata) (hk_request : HkRequest) : M unit :=
  match hk_variant hk_request with
  | OneShot =>
      let* h := gets id in
      let mgm_snapshot := shared_mgm_set h in
      let* r := attempt (on_field (fun h => bufs_tm (bufs h))
                  (fun b h => set_bufs (mkBufs (tx_buf (bufs h)) (rx_buf (bufs h)) b) h)
                  (Hk.generate_hk_report_packet tm_hk_packet (mgm_hk_helper h) (mgm_stamp h) 0
                     (hk_data_writer mgm_snapshot))) in
      match r with
      | Ok hk_tm =>
          let* _ := on_field mgm_tm_sender set_tm_sender
                      (Service.expect_st (send_tm (TargetId.id (mgm_id h)) (Direct hk_tm))) in
          on_field mgm_hk_reply_tx set_hk_reply_tx
            (Service.expect_st (Channel.send (mkMessage requestor_info
               (mkHkReply (hk_unique_id hk_request) HkAck))))
      | _ => ret tt
      end
  | _ => lift Panic
  end.

Definition recv_composite_request : st handler TryRecvError (GenericMessage CompositeRequest) :=
  on_field mgm_composite_rx set_composite_rx Channel.try_recv.

Definition on_composite_request (msg : GenericMessage CompositeRequest) : M unit :=
  match message msg with
  | CompHk hk_request => handle_hk_request (requestor_info msg) hk_request
  | CompAction _ => ret tt
  end.

Definition handle_composite_requests (fuel : nat) : M (option unit) :=
  poll_requests recv_composite_request on_composite_request fuel.

(** *** The sensor *)

(** [raw as f32 * GAUSS_TO_MICROTESLA_FACTOR as f32 * FIELD_LSB_PER_GAUSS_4_SENS] *)
Definition scale (raw : Z) : f32 :=
  F32.mul (F32.mul (F32.of_int raw) (F32.of_int GAUSS_TO_MICROTESLA_FACTOR)) FIELD_LSB_PER_GAUSS_4_SENS.

(** The exchange of the first 15 bytes of the buffers. *)
Definition exchange : M unit :=
  fun h =>
    let b := bufs h in
    match slice (tx_buf b) 0 (NR_OF_DATA_AND_CFG_REGISTERS + 1),
          slice (rx_buf b) 0 (NR_OF_DATA_AND_CFG_REGISTERS + 1) with
    | Ok tx, Ok rx =>
        let '(r, (c, rx')) := transfer tx (mgm_com h, rx) in
        (expect r, set_bufs (mkBufs (tx_buf b) (splice (rx_buf b) 0 rx') (bufs_tm b)) (set_com c h))
    | Panic, _ | _, Panic => (Panic, h)
    | Err e, _ | _, Err e => (Err e, h)
    end.

Definition read_raw (idx : Z) : M Z :=
  let* bytes := asks (fun h => slice (rx_buf (bufs h)) idx (idx + 2)) in
  ret (i16_from_le_bytes bytes).

Definition poll_sensor : M unit :=
  let* _ := exchange in
  let* x_raw := read_raw X_LOWBYTE_IDX in
  let* y_raw := read_raw Y_LOWBYTE_IDX in
  let* z_raw := read_raw Z_LOWBYTE_IDX in
  modify_state (set_mgm_set (mkMgmData true (scale x_raw) (scale y_raw) (scale z_raw))).

(** *** Transitions *)

(** A command that cannot be sent is logged. *)
Definition start_switching : M unit :=
  let* h := gets id in
  if bool_decide (transition_state (mode_helpers h) = Idle) then
    let* _ := attempt (on_field switch_helper set_switch_helper
                (send_switch_command BinOn (mkMetadata 0 (TargetId.id (mgm_id h))) SwMgm)) in
    modify_state (set_transition_state PowerSwitching)
  else ret tt.

Definition check_switch : M unit :=
  let* h := gets id in
  if bool_decide (transition_state (mode_helpers h) = PowerSwitching) then
    let* on := lift (expect (is_switch_on (switch_helper h) SwMgm)) in
    if on : bool then modify_state (set_transition_state Done) else ret tt
  else ret tt.

Definition finish_transition : M unit :=
  let* h := gets id in
  if bool_decide (transition_state (mode_helpers h) = Done) then
    let* target := lift (unwrap (target_mode (mode_helpers h))) in
    let* _ := modify_state (set_current target) in
    let* _ := Service.expect_st (handle_mode_reached (requestor (mode_helpers h))) in
    modify_state (set_transition_state Idle)
  else ret tt.

Definition handle_mode_transition (target_mode_submode : ModeAndSubmode) : M unit :=
  if (mode target_mode_submode =? device_mode On) || (mode target_mode_submode =? device_mode Normal) then
    let* _ := start_switching in
    let* _ := check_switch in
    finish_transition
  else ret tt.

(** [now] is the time stamp of the moment. *)
Definition periodic_operation (now : list Z) (fuel : nat) : M (option unit) :=
  let* _ := modify_state (set_stamp now) in
  and_then (handle_composite_requests fuel)
    (and_then (handle_mode_requests fuel)
       (let* target := gets (fun h => target_mode (mode_helpers h)) in
        let* _ := match target with Some t => handle_mode_transition t | None => ret tt end in
        let* m := gets provided_mode in
        let* _ := if m =? device_mode Normal then poll_sensor else ret tt in
        ret (Some tt))).

End Mgm.
End Mgm.

(** ** What an SPI interface promises

    A transfer of 15 bytes succeeds and fills the buffer. *)
Class SpiLaws (C E : Type) `{SpiInterface C E} : Prop :=
  transfer_ok : forall tx c rx, length rx = 15%nat ->
    exists c' rx', transfer tx (c, rx) = (Ok tt, (c', rx')) /\ length rx' = 15%nat.

Lemma spi_write_ok {C E : Type} (c : C) a bytes rx :
  0 <= a -> length bytes = 2%nat -> a + 2 <= len rx ->
  Spi.write (E:=E) a bytes (c, rx) = (Ok tt, (c, splice rx a bytes)) /\ length (splice rx a bytes) = length rx.
Proof.
  intros Ha Hb Hl. split; [|apply length_splice; unfold len in *; lia].
  unfold Spi.write, on_snd. cbn [fst snd]. rewrite copy_into_ok; [done|done|unfold len; lia|done].
Qed.

#[export] Instance dummy_spi_laws : SpiLaws SpiDummyInterface unit.
Proof.
  intros tx c rx Hl.
  destruct (spi_write_ok (E:=unit) c 9 (i16_to_le_bytes (raw_x (dummy_values c))) rx) as [H1 L1];
    [lia|done|unfold len; lia|].
  edestruct (spi_write_ok (E:=unit) c 11 (i16_to_be_bytes (raw_y (dummy_values c)))) as [H2 L2]; [lia|done| |].
  2: edestruct (spi_write_ok (E:=unit) c 13 (i16_to_be_bytes (raw_z (dummy_values c)))) as [H3 L3]; [lia|done| |].
  3: { eexists _, _. split; [|exact (eq_trans L3 (eq_trans L2 (eq_trans L1 Hl)))].
       unfold transfer, Spi.SpiDummy_spi, Spi.dummy_transfer, st_bind, gets. cbn [fst].
       unfold X_LOWBYTE_IDX, Y_LOWBYTE_IDX, Z_LOWBYTE_IDX. by rewrite H1, H2, H3. }
  all: unfold len; rewrite ?L2, ?L1; lia.
Qed.

(** ** Specification *)
Record MgmSpec (C : Type) : Type := mkMgmSpec {
  g_current : ModeAndSubmode;
  (** the mode that is commanded, who commanded it and whether the power was *)
  g_pending : option (ModeAndSubmode * MessageMetadata * bool);
  g_data : MgmData;
  g_switcher : channel (GenericMessage SwitchRequest);
  g_com : C;
  g_rx : list Z;
  g_mode_replies : list (GenericMessage ModeReply);
  g_hk_replies : list (GenericMessage HkReply);
  g_tm : list (Z * PusTmVariant);
}.

Arguments mkMgmSpec {C} _ _ _ _ _ _ _ _ _.
Arguments g_current {C} _.
Arguments g_pending {C} _.
Arguments g_data {C} _.
Arguments g_switcher {C} _.
Arguments g_com {C} _.
Arguments g_rx {C} _.
Arguments g_mode_replies {C} _.
Arguments g_hk_replies {C} _.
Arguments g_tm {C} _.

(** What arrives before a period: requests, and the set the power unit published. *)
Record MgmPeriod : Type := mkMgmPeriod {
  mp_composite : list (GenericMessage CompositeRequest);
  mp_modes : list (GenericMessage ModeRequest);
  mp_set : SwitchSet;
  mp_now : list Z;
}.

Module MgmSpec.
Section MgmSpec.
Context {C CE : Type} `{SpiInterface C CE} (tm_hk_packet : Z) (id : UniqueApidTargetId).
Implicit Type a : MgmSpec C.

Definition hk_report (now : list Z) (d : MgmData) : PusTm :=
  mkPusTm (apid id) 0 3 tm_hk_packet 0 0 now
    ((to_be_bytes 4 (unique_id id) ++ to_be_bytes 4 0) ++ (if data_valid d then 1 else 0) ::
     F32.to_be_bytes (data_x d) ++ F32.to_be_bytes (data_y d) ++ F32.to_be_bytes (data_z d)).

(** Every one-shot request is answered with a report and an acknowledgement. *)
Definition on_composite (now : list Z) a (msg : GenericMessage CompositeRequest) : MgmSpec C :=
  match message msg with
  | CompHk r =>
      mkMgmSpec (g_current a) (g_pending a) (g_data a) (g_switcher a) (g_com a) (g_rx a) (g_mode_replies a)
        (g_hk_replies a ++ [mkMessage (requestor_info msg) (mkHkReply (hk_unique_id r) HkAck)])
        (g_tm a ++ [(TargetId.id id, Direct (hk_report now (g_data a)))])
  | CompAction _ => a
  end.

Definition reply (info : MessageMetadata) a : MgmSpec C :=
  mkMgmSpec (g_current a) (g_pending a) (g_data a) (g_switcher a) (g_com a) (g_rx a)
    (g_mode_replies a ++ [mkMessage info (ModeReplyOk (g_current a))]) (g_hk_replies a) (g_tm a).

(** The mode [m] is reached: nothing is pending, and the mode service is told. *)
Definition reached (m : ModeAndSubmode) (info : MessageMetadata) (d : MgmData) a : MgmSpec C :=
  let a' := mkMgmSpec m None d (g_switcher a) (g_com a) (g_rx a) (g_mode_replies a) (g_hk_replies a) (g_tm a) in
  if meta_sender_id info =? TargetId.id PUS_MODE_SERVICE then reply info a' else a'.

Definition on_mode a (msg : GenericMessage ModeRequest) : MgmSpec C :=
  match message msg with
  | SetMode m =>
      if mode m =? 0 then
        reached m (requestor_info msg) (mkMgmData false (data_x (g_data a)) (data_y (g_data a)) (data_z (g_data a))) a
      else
        mkMgmSpec m
          (if (mode m =? 2) || (mode m =? 1) then Some (m, requestor_info msg, false) else g_pending a)
          (g_data a) (g_switcher a) (g_com a) (g_rx a) (g_mode_replies a) (g_hk_replies a) (g_tm a)
  | ReadMode => reply (requestor_info msg) a
  | _ => a
  end.

(** A pending mode: the power is commanded once, and the mode is reached in the
    first period that sees the switch on. *)
Definition transition (s : SwitchSet) a : MgmSpec C :=
  match g_pending a with
  | None => a
  | Some (m, info, commanded) =>
      let tx := if commanded : bool then g_switcher a
                else (Power.send_switch_cmd_bounded BinOn (mkMetadata 0 (TargetId.id id)) 0 (g_switcher a)).2 in
      let a' := mkMgmSpec (g_current a) (Some (m, info, true)) (g_data a) tx (g_com a) (g_rx a)
                  (g_mode_replies a) (g_hk_replies a) (g_tm a) in
      if bool_decide (switch_map s !! SwMgm = Some SwitchOn) then reached m info (g_data a) a' else a'
  end.

(** The two bytes at [i], least significant first. *)
Definition word (rx : list Z) (i : nat) : Z := i16_from_le_bytes (take 2 (drop i rx)).

Definition measure a : MgmSpec C :=
  if mode (g_current a) =? 2 then
    let '(_, (c, rx)) := transfer (replicate 15 0) (g_com a, take 15 (g_rx a)) in
    mkMgmSpec (g_current a) (g_pending a)
      (mkMgmData true (Mgm.scale (word rx 9)) (Mgm.scale (word rx 11)) (Mgm.scale (word rx 13)))
      (g_switcher a) c (rx ++ drop 15 (g_rx a)) (g_mode_replies a) (g_hk_replies a) (g_tm a)
  else a.

Definition round a (p : MgmPeriod) : MgmSpec C :=
  measure (transition (mp_set p)
    (foldl on_mode (foldl (on_composite (mp_now p)) a (mp_composite p)) (mp_modes p))).

End MgmSpec.
End MgmSpec.

(** One-shot housekeeping requests, and a published set that knows the switch. *)
Definition mgm_period_ok (p : MgmPeriod) : Prop :=
  Forall composite_ok (mp_composite p) /\ set_valid (mp_set p) = true /\ is_Some (switch_map (mp_set p) !! SwMgm).

(** ** Refinement *)
Section Refinement.
Context {PE C CE : Type} `{SpiLaws C CE} (tm_hk_packet : Z) (id : UniqueApidTargetId).
Abbreviation TmLog := (list (Z * PusTmVariant)).
Abbreviation handler := (MgmHandlerLis3Mdl C TmLog PowerSwitchHelper).

Definition mgm_arrive (p : MgmPeriod) (h : handler) : handler :=
  let push {A} (l : list A) (c : channel A) := Channel.set_queue (queue c ++ l) c in
  let mi := mgm_modes h in
  Mgm.set_modes (mkModeLeaf (push (mp_modes p) (request_rx mi)) (reply_to_pus_tx mi) (reply_to_parent_tx mi))
    (Mgm.set_composite_rx (push (mp_composite p) (mgm_composite_rx h))
       (Mgm.set_switch_helper (mkSwitchHelper (switcher_tx (switch_helper h)) (mp_set p)) h)).

Definition mgm_fuel (p : MgmPeriod) : nat := S (length (mp_composite p) + length (mp_modes p)).

Definition mgm_period (p : MgmPeriod) : st handler Empty_set (option unit) :=
  let* _ := modify_state (mgm_arrive p) in
  Mgm.periodic_operation (PE:=PE) tm_hk_packet (mp_now p) (mgm_fuel p).

Fixpoint mgm_run (ps : list MgmPeriod) : st handler Empty_set (option unit) :=
  match ps with
  | [] => ret (Some tt)
  | p :: ps' => and_then (mgm_period p) (mgm_run ps')
  end.

(** A pending mode is in the helpers, with its requestor. *)
Definition modes_related (pending : option (ModeAndSubmode * MessageMetadata * bool)) (mh : ModeHelpers) : Prop :=
  match pending with
  | None => target_mode mh = None
  | Some (m, info, commanded) =>
      (mode m = 1 \/ mode m = 2) /\ target_mode mh = Some m /\ requestor mh = Some info /\
      transition_state mh = if commanded : bool then PowerSwitching else Idle
  end.

Record mgm_related (cs : list (GenericMessage CompositeRequest)) (ms : list (GenericMessage ModeRequest))
    (s : SwitchSet) (now : list Z) (a : MgmSpec C) (h : handler) : Prop := mkMgmRelated {
  mrel_id : mgm_id h = id /\ mgm_hk_helper h = id;
  mrel_composite : queue (mgm_composite_rx h) = cs /\ tx_alive (mgm_composite_rx h) = true;
  mrel_modes : queue (request_rx (mgm_modes h)) = ms /\ tx_alive (request_rx (mgm_modes h)) = true;
  mrel_helper : switch_helper h = mkSwitchHelper (g_switcher a) s;
  mrel_mode_replies : queue (reply_to_pus_tx (mgm_modes h)) = g_mode_replies a /\
    rx_alive (reply_to_pus_tx (mgm_modes h)) = true;
  mrel_hk_replies : queue (mgm_hk_reply_tx h) = g_hk_replies a /\ rx_alive (mgm_hk_reply_tx h) = true;
  mrel_tm : mgm_tm_sender h = g_tm a;
  mrel_com : mgm_com h = g_com a;
  mrel_data : shared_mgm_set h = g_data a;
  mrel_current : current (mode_helpers h) = g_current a;
  mrel_pending : modes_related (g_pending a) (mode_helpers h);
  mrel_now : mgm_stamp h = now;
  mrel_bufs : tx_buf (bufs h) = replicate 32 0 /\ rx_buf (bufs h) = g_rx a /\ length (g_rx a) = 32%nat /\
    length (bufs_tm (bufs h)) = 32%nat;
}.

Ltac open_mgm HR :=
  destruct HR as [[??] [??] [??] ? [??] [??] ? ? ? ? ? ? (?&?&?&?)];
  repeat match goal with
  | h : MgmHandlerLis3Mdl _ _ _ |- _ => destruct h
  | mi : MpscModeLeafInterface |- _ => destruct mi
  | mh : ModeHelpers |- _ => destruct mh
  | b : BufWrapper |- _ => destruct b
  end; cbn -[replicate] in * |-; subst.

Ltac close_mgm := constructor; cbn -[replicate]; auto; repeat split; auto; try congruence.

(** The buffer of 24 bytes behind the IDs takes the 13 bytes of the set. *)
Lemma mgm_writer_ok d buf :
  length buf = 24%nat ->
  Mgm.hk_data_writer d buf =
    Ok (13, (if data_valid d then 1 else 0) :: F32.to_be_bytes (data_x d) ++ F32.to_be_bytes (data_y d) ++
            F32.to_be_bytes (data_z d) ++ drop 13 buf).
Proof.
  intros Hl. unfold Mgm.hk_data_writer.
  do 24 (destruct buf as [|? buf]; [done|]). destruct buf; [|done].
  unfold F32.to_be_bytes. generalize (F32.to_bits (data_x d)) (F32.to_bits (data_y d)) (F32.to_bits (data_z d)).
  intros fx fy fz. reflexivity.
Qed.

Lemma mgm_hk_report now d buf :
  length buf = 32%nat ->
  exists buf',
    Hk.generate_hk_report_packet tm_hk_packet id now 0 (Mgm.hk_data_writer d) buf =
      (Ok (MgmSpec.hk_report tm_hk_packet id now d), buf') /\ length buf' = 32%nat.
Proof.
  intros Hl. assert (Hd : length (drop 8 buf) = 24%nat) by (rewrite length_drop; lia).
  rewrite (hk_report_ok tm_hk_packet id now 0 (Mgm.hk_data_writer d) buf _ ltac:(unfold len; lia)
    (mgm_writer_ok d _ Hd)).
  - eexists. split; [done|]. repeat rewrite ?length_cons, ?length_app, ?length_drop. cbn. lia.
  - intros n rest Heq. simplify_eq. unfold len. repeat rewrite ?length_cons, ?length_app, ?length_drop. cbn. lia.
Qed.

Lemma mgm_hk_step ms s now m l a h :
  composite_ok m -> mgm_related (m :: l) ms s now a h ->
  exists h0 h1,
    Mgm.recv_composite_request h = (Ok m, h0) /\
    Mgm.on_composite_request (PE:=PE) tm_hk_packet m h0 = (Ok tt, h1) /\
    mgm_related l ms s now (MgmSpec.on_composite tm_hk_packet id now a m) h1.
Proof.
  intros Hm HR. open_mgm HR.
  eexists. unfold Mgm.recv_composite_request, on_field at 1. cbn [mgm_composite_rx]. erewrite try_recv_live by done.
  unfold composite_ok in Hm. unfold MgmSpec.on_composite, Mgm.on_composite_request.
  destruct m as [info [r|r]]; cbn [message requestor_info] in *;
    [|eexists; split; [done|]; split; [done|]; close_mgm].
  unfold Mgm.handle_hk_request. rewrite Hm.
  edestruct (mgm_hk_report now (g_data a) bufs_tm0) as (buf & Hrep & Hb); [done|].
  eexists; split; [done|]. unfold st_bind, gets, attempt, on_field, Service.expect_st.
  cbn -[Hk.generate_hk_report_packet replicate Channel.send]. rewrite Hrep. cbn -[replicate Channel.send].
  rewrite channel_send_live by done. split; [done|]. close_mgm.
Qed.

(** Only the mode service is told. *)
Lemma mgm_reached_eq (h : handler) info :
  Mgm.handle_mode_reached (Some info) h =
    if meta_sender_id info =? TargetId.id PUS_MODE_SERVICE
    then Mgm.send_mode_reply info (ModeReplyOk (current (mode_helpers h))) (Mgm.set_target None h)
    else (Ok tt, Mgm.set_target None h).
Proof.
  unfold Mgm.handle_mode_reached, st_bind, modify_state. destruct (meta_sender_id info =? NO_SENDER) eqn:Hno.
  - apply Z.eqb_eq in Hno. by rewrite Hno.
  - by destruct (_ =? TargetId.id _).
Qed.

Lemma mgm_mode_step cs s now m l a h :
  mgm_related cs (m :: l) s now a h ->
  exists h0 h1,
    Mgm.recv_mode_request h = (Ok m, h0) /\
    Mgm.on_mode_request m h0 = (Ok tt, h1) /\
    mgm_related cs l s now (MgmSpec.on_mode a m) h1.
Proof.
  intros HR. open_mgm HR.
  eexists. unfold Mgm.recv_mode_request, on_field at 1. cbn [mgm_modes Pcdu.request_rx].
  erewrite try_recv_live by done.
  unfold MgmSpec.on_mode, Mgm.on_mode_request, handle_mode_request.
  destruct m as [info [m|m| | |]]; cbn [message requestor_info] in *;
    [eexists; split; [done|]; split; [done|]; close_mgm| | |
     eexists; split; [done|]; split; [done|]; close_mgm..].
  - unfold Requests.start_transition, Mgm.mgm_mode_handler, Mgm.start_transition, st_bind, attempt, modify_state.
    change (device_mode Off) with 0. change (device_mode Normal) with 2. change (device_mode On) with 1.
    destruct (mode m =? 0).
    + rewrite mgm_reached_eq. unfold MgmSpec.reached, MgmSpec.reply.
      destruct (meta_sender_id info =? TargetId.id PUS_MODE_SERVICE); unfold Mgm.send_mode_reply, on_field;
        cbn -[replicate Channel.send]; rewrite ?channel_send_live by done;
        (eexists; split; [done|]; split; [done|]; close_mgm).
    + destruct ((mode m =? 2) || (mode m =? 1)) eqn:Hm; (eexists; split; [done|]; split; [done|]; close_mgm).
      bool_lia.
  - cbn. unfold st_bind, attempt, gets, Mgm.send_mode_reply, on_field. cbn -[replicate Channel.send].
    rewrite channel_send_live by done. eexists; split; [done|]; split; [done|]; close_mgm.
Qed.

Lemma attempt_on_field {S A E F B : Type} (get : S -> A) (set : A -> S -> S) (m : st A E B) s r a :
  attempt (F:=F) m (get s) = (Ok r, a) -> attempt (F:=F) (on_field get set m) s = (Ok r, set a s).
Proof. unfold attempt, on_field. destruct (m (get s)) as [[] ?]; intros Heq; by simplify_eq. Qed.

(** The power is commanded once. *)
Lemma start_switching_run cs ms s now a h m info (commanded : bool) :
  mgm_related cs ms s now a h -> g_pending a = Some (m, info, commanded) ->
  let tx := if commanded then g_switcher a
            else (Power.send_switch_cmd_bounded BinOn (mkMetadata 0 (TargetId.id id)) 0 (g_switcher a)).2 in
  Mgm.start_switching h =
    (Ok tt, Mgm.set_transition_state PowerSwitching (Mgm.set_switch_helper (mkSwitchHelper tx s) h)).
Proof.
  intros HR Hpend. pose proof (mrel_pending _ _ _ _ _ _ HR) as Hp. unfold modes_related in Hp.
  rewrite Hpend in Hp. destruct Hp as (_ & _ & _ & Hts). unfold Mgm.start_switching, st_bind, gets.
  cbn [Datatypes.id]. rewrite Hts. destruct commanded.
  - rewrite bool_decide_false by done. by open_mgm HR.
  - rewrite bool_decide_true, (proj1 (mrel_id _ _ _ _ _ _ HR)) by done.
    destruct (send_switch_cmd_total (F:=Empty_set) BinOn (mkMetadata 0 (TargetId.id id)) SwMgm
      (mkSwitchHelper (g_switcher a) s)) as [r Hr].
    rewrite <- (mrel_helper _ _ _ _ _ _ HR) in Hr. rewrite (attempt_on_field _ _ _ _ _ _ Hr).
    by rewrite (mrel_helper _ _ _ _ _ _ HR).
Qed.

(** The target is the pending mode. *)
Lemma mgm_transition_step cs ms s now a h :
  set_valid s = true -> is_Some (switch_map s !! SwMgm) -> mgm_related cs ms s now a h ->
  exists h',
    match target_mode (mode_helpers h) with
    | Some t => Mgm.handle_mode_transition t
    | None => ret tt
    end h = (Ok tt, h') /\
    mgm_related cs ms s now (MgmSpec.transition id s a) h'.
Proof.
  intros Hv [state Hst] HR. unfold MgmSpec.transition.
  pose proof (mrel_pending _ _ _ _ _ _ HR) as Hp. unfold modes_related in Hp.
  destruct (g_pending a) as [[[m info] commanded]|] eqn:Hpend; [|rewrite Hp; by exists h].
  destruct Hp as (Hm & Ht & Hreq & _). rewrite Ht. unfold Mgm.handle_mode_transition.
  replace ((mode m =? device_mode On) || (mode m =? device_mode Normal)) with true by (cbn; bool_lia).
  unfold st_bind at 1. rewrite (start_switching_run _ _ _ _ _ _ _ _ _ HR Hpend).
  set (tx := if commanded then g_switcher a else _). clearbody tx.
  unfold st_bind at 1, Mgm.check_switch, gets. unfold st_bind at 1, lift, is_switch_on, Requests.switch_state,
    SwitchHelper_info, SwitchHelper.switch_state.
  rewrite Hst. open_mgm HR. cbn -[replicate Mgm.handle_mode_reached Mgm.finish_transition]. rewrite Hv, Hst. cbn -[replicate Mgm.handle_mode_reached Mgm.finish_transition].
  destruct (decide (state = SwitchOn)) as [->|Hoff].
  - rewrite !bool_decide_true by done. unfold Mgm.finish_transition, st_bind, modify_state, gets.
    cbn -[replicate Mgm.handle_mode_reached Mgm.finish_transition]. rewrite bool_decide_true by done. unfold Service.expect_st. cbn -[replicate Mgm.handle_mode_reached Mgm.finish_transition].
    rewrite mgm_reached_eq. unfold MgmSpec.reached, MgmSpec.reply.
    destruct (meta_sender_id info =? TargetId.id PUS_MODE_SERVICE); unfold Mgm.send_mode_reply, on_field;
      cbn -[replicate Channel.send]; rewrite ?channel_send_live by done; (eexists; split; [done|]; close_mgm).
  - rewrite (bool_decide_true (PowerSwitching = _)), !bool_decide_false by congruence. unfold Mgm.finish_transition, st_bind, ret, gets.
    cbn -[replicate Mgm.handle_mode_reached Mgm.finish_transition]. rewrite bool_decide_false by done. eexists. split; [done|]. close_mgm.
Qed.

(** The exchange with the sensor fills the front of the buffer. *)
Lemma exchange_run (h : handler) c c' rx rx' :
  tx_buf (bufs h) = replicate 32 0 -> rx_buf (bufs h) = rx -> length rx = 32%nat -> mgm_com h = c ->
  transfer (replicate 15 0) (c, take 15 rx) = (Ok tt, (c', rx')) -> length rx' = 15%nat ->
  Mgm.exchange h =
    (Ok tt, Mgm.set_bufs (mkBufs (tx_buf (bufs h)) (rx' ++ drop 15 rx) (bufs_tm (bufs h))) (Mgm.set_com c' h)).
Proof.
  intros Htx Hrx Hl Hc Htr Hlr. unfold Mgm.exchange, NR_OF_DATA_AND_CFG_REGISTERS.
  rewrite Htx, Hrx, Hc, !slice_ok by (unfold len; rewrite ?length_replicate, ?Hl; lia).
  change (take _ (drop _ (replicate 32 0))) with (replicate 15 0).
  change (take _ (drop _ rx)) with (take 15 rx).
  rewrite Htr. unfold splice. rewrite Hlr. done.
Qed.

Lemma read_raw_run (h : handler) rx rest i :
  rx_buf (bufs h) = rx ++ rest -> 0 <= i -> i + 2 <= len rx ->
  Mgm.read_raw i h = (Ok (MgmSpec.word rx (Z.to_nat i)), h).
Proof.
  intros Hb Hi1 Hi2. unfold Mgm.read_raw, st_bind, asks. pose proof (len_nonneg rest).
  rewrite Hb, slice_ok by (rewrite ?len_app; lia). unfold len in *.
  replace (Z.to_nat (i + 2 - i)) with 2%nat by lia. unfold MgmSpec.word, ret.
  rewrite drop_app_le, take_app_le by (rewrite ?length_drop; lia). done.
Qed.

Lemma mgm_measure_step cs ms s now a h :
  mgm_related cs ms s now a h ->
  exists h',
    (if provided_mode h =? device_mode Normal then Mgm.poll_sensor else ret tt) h = (Ok tt, h') /\
    mgm_related cs ms s now (MgmSpec.measure a) h'.
Proof.
  intros HR. unfold provided_mode, mode_and_submode, Mgm.mgm_mode_provider, MgmSpec.measure.
  rewrite (mrel_current _ _ _ _ _ _ HR). change (device_mode Normal) with 2.
  destruct (mode (g_current a) =? 2); [|by exists h].
  destruct (mrel_bufs _ _ _ _ _ _ HR) as (Htx & Hrx & Hl & _).
  destruct (transfer_ok (replicate 15 0) (g_com a) (take 15 (g_rx a))) as (c & rx & Htr & Hlr).
  { rewrite length_take. lia. }
  rewrite Htr. unfold Mgm.poll_sensor, st_bind.
  rewrite (exchange_run _ _ _ _ _ Htx Hrx Hl (mrel_com _ _ _ _ _ _ HR) Htr Hlr).
  rewrite !(read_raw_run _ rx (drop 15 (g_rx a))) by (first [done | unfold len; rewrite Hlr; done]).
  eexists. split; [done|]. open_mgm HR. close_mgm. rewrite length_app, length_drop. lia.
Qed.

(** ** Periods *)
Lemma mgm_period_run p s now a h :
  mgm_period_ok p -> mgm_related [] [] s now a h ->
  exists h', mgm_period p h = (Ok (Some tt), h') /\
    mgm_related [] [] (mp_set p) (mp_now p) (MgmSpec.round tm_hk_packet id a p) h'.
Proof.
  intros (Hc & Hv & Hs) HR. unfold mgm_period, Mgm.periodic_operation, st_bind at 1 2, modify_state.
  assert (HR0 : mgm_related (mp_composite p) (mp_modes p) (mp_set p) (mp_now p) a
                  (Mgm.set_stamp (mp_now p) (mgm_arrive p h))).
  { open_mgm HR. close_mgm; match goal with Hq : queue ?c = [] |- context [queue ?c] => by rewrite Hq end. }
  edestruct (poll_requests_simulates Mgm.recv_composite_request (Mgm.on_composite_request (PE:=PE) tm_hk_packet)
    (fun l a h => mgm_related l (mp_modes p) (mp_set p) (mp_now p) a h)
    (MgmSpec.on_composite tm_hk_packet id (mp_now p)) composite_ok)
    with (fuel := mgm_fuel p) as (h1 & Hrun1 & HR1); [| |exact Hc|exact HR0|unfold mgm_fuel; lia|].
  { intros a' h' HR'. open_mgm HR'. unfold Mgm.recv_composite_request, on_field. cbn [mgm_composite_rx].
    by rewrite try_recv_idle. }
  { intros. by apply mgm_hk_step. }
  erewrite and_then_run by exact Hrun1.
  edestruct (poll_requests_simulates Mgm.recv_mode_request Mgm.on_mode_request
    (fun l a h => mgm_related [] l (mp_set p) (mp_now p) a h) MgmSpec.on_mode (fun _ => True))
    with (fuel := mgm_fuel p) as (h2 & Hrun2 & HR2); [| |by apply Forall_true|exact HR1|unfold mgm_fuel; lia|].
  { intros a' h' HR'. open_mgm HR'. unfold Mgm.recv_mode_request, on_field. cbn [mgm_modes Pcdu.request_rx].
    by rewrite try_recv_idle. }
  { intros. by apply mgm_mode_step. }
  erewrite and_then_run by exact Hrun2. unfold st_bind at 1, gets.
  destruct (mgm_transition_step _ _ _ _ _ _ Hv Hs HR2) as (h3 & Hrun3 & HR3).
  unfold st_bind at 1. rewrite Hrun3. unfold st_bind at 1.
  destruct (mgm_measure_step _ _ _ _ _ _ HR3) as (h4 & Hrun4 & HR4).
  unfold st_bind at 1. rewrite Hrun4. by exists h4.
Qed.

Lemma mgm_run_related ps : forall s now a h,
  Forall mgm_period_ok ps -> mgm_related [] [] s now a h ->
  exists h' s' now', mgm_run ps h = (Ok (Some tt), h') /\
    mgm_related [] [] s' now' (foldl (MgmSpec.round tm_hk_packet id) a ps) h'.
Proof.
  induction ps as [|p ps IH]; intros s now a h Hok HR; [by exists h, s, now|].
  apply Forall_cons in Hok as [Hp Hok]. destruct (mgm_period_run p s now a h Hp HR) as (h1 & Hrun & HR1).
  destruct (IH _ _ _ _ Hok HR1) as (h' & s' & now' & Hrun' & HR'). exists h', s', now'. split; [|done].
  cbn [mgm_run]. by erewrite and_then_run.
Qed.

End Refinement.

(** ** The simulated sensor *)

Lemma i16_le_roundtrip v : in_i16 v -> i16_from_le_bytes (i16_to_le_bytes v) = v.
Proof.
  unfold in_i16, i16_from_le_bytes, i16_to_le_bytes. intros Hv. rewrite rev_involutive. cbn.
  change (2 ^ (8 * Z.of_nat 1)) with 256. change (2 ^ (8 * Z.of_nat 0)) with 1.
  change (2 ^ (8 * len [_])) with 256. change (2 ^ (8 * len [])) with 1.
  change (2 ^ 15) with 32768 in *. change (2 ^ 16) with 65536.
  case_match eqn:Hc; rewrite ?Z.ltb_lt, ?Z.ltb_ge in Hc; Z.div_mod_to_equations; lia.
Qed.

(** What the simulator measured is what the handler reads. *)
Lemma sim_transfer_reads `{Json MgmRequestLis3Mdl} `{Json MgmLis3MdlReply} `{!JsonLaws MgmLis3MdlReply}
    tx c rx r q :
  queue (spi_reply_rx c) = Sim.new_reply (T:=MgmLis3MdlReply) r :: q -> length rx = 15%nat ->
  in_i16 (raw_x (raw r)) -> in_i16 (raw_y (raw r)) -> in_i16 (raw_z (raw r)) ->
  exists c' rx', transfer tx (c, rx) = (Ok tt, (c', rx')) /\ length rx' = 15%nat /\
    queue (spi_reply_rx c') = q /\
    MgmSpec.word rx' 9 = raw_x (raw r) /\ MgmSpec.word rx' 11 = raw_y (raw r) /\ MgmSpec.word rx' 13 = raw_z (raw r).
Proof.
  intros Hq Hl Hx Hy Hz. do 15 (destruct rx as [|? rx]; [done|]). destruct rx; [|done].
  unfold transfer, Spi.SpiSim_spi, Spi.sim_transfer, st_bind, attempt, on_fst, on_field.
  destruct c as [tx0 rx0]. cbn [spi_reply_rx spi_request_tx fst snd] in *.
  assert (Hr : Channel.try_recv rx0 = (Ok (Sim.new_reply r), Channel.set_queue q rx0)) by by apply try_recv_live.
  assert (Hp : Sim.from_sim_message (T:=MgmLis3MdlReply) (reply_inner (Sim.new_reply r)) = Ok r).
  { unfold Sim.from_sim_message, Sim.new_reply, reply_inner, target, payload.
    rewrite bool_decide_true by done. by rewrite json_roundtrip. }
  assert (Hw : forall v, in_i16 v -> i16_from_le_bytes [v mod 256; v / 256 mod 256] = v).
  { intros v Hv. rewrite <- (i16_le_roundtrip v Hv) at 3. unfold i16_to_le_bytes. cbn [to_be_bytes rev app].
    change (2 ^ (8 * Z.of_nat 1)) with 256. change (2 ^ (8 * Z.of_nat 0)) with 1. by rewrite Z.div_1_r. }
  unfold Channel.send. destruct (rx_alive tx0); cbn [fst snd spi_reply_rx spi_request_tx];
    rewrite Hr; unfold lift; rewrite Hp; eexists _, _; (split; [reflexivity|]); split_and!; try done;
    cbn; rewrite ?Z.div_1_r; by apply Hw.
Qed.

Definition mgm_init {C : Type} (tx : channel (GenericMessage SwitchRequest)) (c : C) (d : MgmData) : MgmSpec C :=
  mkMgmSpec (mkMode 0 0) None d tx c (replicate 32 0) [] [] [].

Lemma mgm_new_related {C CE : Type} `{SpiInterface C CE} id mi crx htx tx s (c : C) d :
  (queue crx = [] /\ tx_alive crx = true) -> (queue htx = [] /\ rx_alive htx = true) ->
  (queue (request_rx mi) = [] /\ tx_alive (request_rx mi) = true) ->
  (queue (reply_to_pus_tx mi) = [] /\ rx_alive (reply_to_pus_tx mi) = true) ->
  mgm_related id [] [] s (replicate 7 0) (mgm_init tx c d) (Mgm.new id mi crx htx (mkSwitchHelper tx s) [] c d).
Proof. intros. by constructor. Qed.

(** ** Theorems *)

(** C34: The magnetometer handler refines its specification from its construction
    and over any number of periods with mode requests and one-shot housekeeping requests, while the power
    unit publishes a valid set that knows its switch (an invalid one panics, see [invalid_set_panics]),
    on any SPI interface whose transfers succeed, as those of the dummy interface do: nothing
    panics and every loop ends; a commanded [On] or [Normal] sends one power command
    and is reached, with one reply to the mode service, in the first period that
    sees the switch on, [Off] at once; every housekeeping request is answered with
    the last measurement; in [Normal] each period ends with a new one. *)
Theorem mgm_correct {PE C CE} `{SpiLaws C CE} tm_hk_packet id mi crx htx tx s (c : C) d ps :
  (queue crx = [] /\ tx_alive crx = true) -> (queue htx = [] /\ rx_alive htx = true) ->
  (queue (request_rx mi) = [] /\ tx_alive (request_rx mi) = true) ->
  (queue (reply_to_pus_tx mi) = [] /\ rx_alive (reply_to_pus_tx mi) = true) ->
  Forall mgm_period_ok ps ->
  let a := foldl (MgmSpec.round tm_hk_packet id) (mgm_init tx c d) ps in
  exists h,
    mgm_run (PE:=PE) tm_hk_packet ps (Mgm.new id mi crx htx (mkSwitchHelper tx s) [] c d) = (Ok (Some tt), h) /\
    current (mode_helpers h) = g_current a /\
    target_mode (mode_helpers h) = (fun x => x.1.1) <$> g_pending a /\
    shared_mgm_set h = g_data a /\ mgm_com h = g_com a /\ switcher_tx (switch_helper h) = g_switcher a /\
    queue (reply_to_pus_tx (mgm_modes h)) = g_mode_replies a /\
    queue (mgm_hk_reply_tx h) = g_hk_replies a /\ mgm_tm_sender h = g_tm a /\
    queue (mgm_composite_rx h) = [] /\ queue (request_rx (mgm_modes h)) = [].
Proof.
  intros Hc Hh Hm Hr Hps a.
  destruct (mgm_run_related (PE:=PE) tm_hk_packet id ps _ _ _ _ Hps
    (mgm_new_related id mi crx htx tx s c d Hc Hh Hm Hr))
    as (h & s' & now' & Hrun & [? [??] [??] Hsw [??] [??] ? ? ? ? Hp ? ?]).
  exists h. split_and!; try done.
  - fold a in Hp. unfold modes_related in Hp. destruct (g_pending a) as [[[m info] b]|]; [|done].
    by destruct Hp as (_ & -> & _).
  - by rewrite Hsw.
Qed.

Definition ex_switcher : channel (GenericMessage SwitchRequest) := mkChannel [] (Some 20) true true.
Definition ex_off_set : SwitchSet := mkSwitchSet true {[SwMgm := SwitchOff]}.
Definition ex_on_set : SwitchSet := mkSwitchSet true {[SwMgm := SwitchOn]}.
Definition ex_spi : SpiDummyInterface := mkSpiDummy (mkRaw 1000 0 0).
Definition ex_mgm : UniqueApidTargetId := TargetId.new 1 1.
Definition ex_mgm_data : MgmData := mkMgmData false (S754_zero false) (S754_zero false) (S754_zero false).

(** [Normal] is commanded with the switch off; then the switch is on. *)
Definition ex_mgm_periods : list MgmPeriod :=
  [mkMgmPeriod [] [mkMessage ex_pus (SetMode (mkMode 2 0))] ex_off_set [1];
   mkMgmPeriod [] [] ex_on_set [2];
   mkMgmPeriod [mkMessage (mkMetadata 6 1) (CompHk (mkHkRequest 0 OneShot))] [] ex_on_set [3]].

Lemma mgm_correct_witness :
  exists h,
    mgm_run (PE:=unit) 25 ex_mgm_periods
      (Mgm.new ex_mgm ex_mode_leaf ex_chan ex_chan (mkSwitchHelper ex_switcher ex_off_set) [] ex_spi ex_mgm_data) =
      (Ok (Some tt), h) /\
    current (mode_helpers h) = mkMode 2 0 /\ target_mode (mode_helpers h) = None /\
    shared_mgm_set h = mkMgmData true (S754_finite false 15325577 (-20)) (S754_zero false) (S754_zero false) /\
    mgm_com h = ex_spi /\
    switcher_tx (switch_helper h) =
      mkChannel [mkMessage (mkMetadata 0 4294967297) (mkSwitchRequest 0 BinOn)] (Some 20) true true /\
    queue (reply_to_pus_tx (mgm_modes h)) = [mkMessage ex_pus (ModeReplyOk (mkMode 2 0))] /\
    queue (mgm_hk_reply_tx h) = [mkMessage (mkMetadata 6 1) (mkHkReply 0 HkAck)] /\
    mgm_tm_sender h =
      [(4294967297, Direct (mkPusTm 1 0 3 25 0 0 [3]
          [0; 0; 0; 1; 0; 0; 0; 0; 1; 65; 105; 217; 137; 0; 0; 0; 0; 0; 0; 0; 0]))] /\
    queue (mgm_composite_rx h) = [] /\ queue (request_rx (mgm_modes h)) = [].
Proof.
  exact (mgm_correct (PE:=unit) 25 ex_mgm ex_mode_leaf ex_chan ex_chan ex_switcher ex_off_set ex_spi ex_mgm_data
    ex_mgm_periods (conj eq_refl eq_refl) (conj eq_refl eq_refl) (conj eq_refl eq_refl) (conj eq_refl eq_refl)
    ltac:(repeat constructor; eexists; reflexivity)).
Defined.

(** ** What the handler does not do as meant *)

(** A commanded mode is the mode at once: the sensor is polled, and its data is
    marked as valid, before the power is on. *)
Example polled_without_power :
  let h := (mgm_run (PE:=unit) 25 (take 1 ex_mgm_periods)
      (Mgm.new ex_mgm ex_mode_leaf ex_chan ex_chan (mkSwitchHelper ex_switcher ex_off_set) [] ex_spi ex_mgm_data)).2 in
  current (mode_helpers h) = mkMode 2 0 /\ target_mode (mode_helpers h) = Some (mkMode 2 0) /\
  data_valid (shared_mgm_set h) = true.
Proof. vm_compute. done. Qed.

(** As long as the power unit has published no valid set, a mode command panics. *)
Example invalid_set_panics :
  (mgm_run (PE:=unit) 25 [mkMgmPeriod [] [mkMessage ex_pus (SetMode (mkMode 1 0))] switch_set_default [1]]
     (Mgm.new ex_mgm ex_mode_leaf ex_chan ex_chan (mkSwitchHelper ex_switcher switch_set_default) [] ex_spi
        ex_mgm_data)).1 = Panic.
Proof. reflexivity. Qed.

(** The dummy interface sends two of its values with their bytes swapped: a field of
    one unit on the second axis is read as 256. *)
Example dummy_bytes_swapped :
  let h := (mgm_run (PE:=unit) 25 (take 1 ex_mgm_periods)
      (Mgm.new ex_mgm ex_mode_leaf ex_chan ex_chan (mkSwitchHelper ex_switcher ex_off_set) []
         (mkSpiDummy (mkRaw 1 1 1)) ex_mgm_data)).2 in
  shared_mgm_set h = mkMgmData true (Mgm.scale 1) (Mgm.scale 256) (Mgm.scale 256).
Proof. vm_compute. done. Qed.
