(* ===== verification/Devices.v ===== *)
(** * The two device tasks together

    The threads of [satrs-example/src/main.rs] that run the magnetometer handler and
    the handler of the power unit.  The handlers share the queue of the switch
    requests and the set of the switch states; of a queue both only send on, each
    handler has its own part here. *)

From Stdlib Require Import ZArith Lia Bool.
From stdpp Require Import base list gmap.
From S2P Require Import Prelude Spacepackets Tmtc Requests Verification Services TargetedService Eps Pcdu Mgm.

Local Open Scope Z_scope.

(** [MGM_HANDLER_0] and [PCDU_HANDLER] of [config.rs] *)
Definition MGM_HANDLER_0 : UniqueApidTargetId := TargetId.new 3 0.
Definition PCDU_HANDLER : UniqueApidTargetId := TargetId.new 6 0.

Record Devices (C : Type) : Type := mkDevices {
  mgm_handler : MgmHandlerLis3Mdl C (list (Z * PusTmVariant)) PowerSwitchHelper;
  pcdu_handler : PcduHandler SerialInterfaceDummy (list (Z * PusTmVariant));
}.

Arguments mkDevices {C} _ _.
Arguments mgm_handler {C} _.
Arguments pcdu_handler {C} _.

Definition sync_channel {A : Type} (n : Z) : channel A := mkChannel [] (Some n) true true.
Definition mpsc_channel {A : Type} : channel A := mkChannel [] None true true.

(** The handlers as the main functions set them up, with the dummy interface to the
    power unit, and the initial mode request of its handler. *)
Definition devices_new {C : Type} (spi : C) (shared_mgm_set : MgmData) : Devices C :=
  let shared_switch_set := switch_set_default in
  let switch_request := sync_channel 20 in
  let normal := mkMessage (mkMetadata 0 NO_SENDER) (SetMode (mkMode (device_mode Normal) 0)) in
  mkDevices
    (Mgm.new MGM_HANDLER_0 (mkModeLeaf (sync_channel 5) mpsc_channel (sync_channel 5)) (sync_channel 5) mpsc_channel
       (mkSwitchHelper switch_request shared_switch_set) [] spi shared_mgm_set)
    (Pcdu.new PCDU_HANDLER
       (mkModeLeaf (Channel.set_queue [normal] (sync_channel 10)) mpsc_channel (sync_channel 10)) (sync_channel 10)
       mpsc_channel switch_request [] dummy_default shared_switch_set).

Section Devices.
Context {PE C CE : Type} `{SpiInterface C CE}.
Context `{Json PcduRequest} `{Json PcduReply} `{Json SimReply} `{Json SwitchSet}.
Context (tm_hk_packet : Z).
Abbreviation devices := (Devices C).

(** The operations of the threads: [mgm_handler.periodic_operation()] and the two
    operations of [pcdu_handler].  Mode requests may arrive before. *)
Inductive DeviceStep : Type :=
| Aocs (modes : list (GenericMessage ModeRequest)) (now : list Z)
| EpsRegular (now : list Z)
| EpsPoll.

(** The helper of the magnetometer sees the queue and the set of the power unit. *)
Definition share (d : devices) : MgmHandlerLis3Mdl C (list (Z * PusTmVariant)) PowerSwitchHelper :=
  Mgm.set_switch_helper
    (mkSwitchHelper (switch_request_rx (pcdu_handler d)) (shared_switch_map (pcdu_handler d))) (mgm_handler d).

Definition aocs_step (modes : list (GenericMessage ModeRequest)) (now : list Z)
    : st devices Empty_set (option unit) :=
  fun d =>
    let '(r, m) := mgm_period (PE:=PE) tm_hk_packet
                     (mkMgmPeriod [] modes (shared_switch_map (pcdu_handler d)) now) (share d) in
    (r, mkDevices m (Pcdu.set_switch_request_rx (switcher_tx (switch_helper m)) (pcdu_handler d))).

(** The requests that wait in the queues of the handler. *)
Definition waiting (u : PcduHandler SerialInterfaceDummy (list (Z * PusTmVariant))) (now : list Z) : PcduPeriod :=
  mkPcduPeriod (queue (composite_request_rx u)) (queue (request_rx (mode_interface u)))
    (queue (switch_request_rx u)) now.

Definition eps_step (op_code : OpCode) (now : list Z) : st devices Empty_set (option unit) :=
  on_field pcdu_handler (fun u d => mkDevices (mgm_handler d) u) (fun u =>
    Pcdu.periodic_operation (PE:=PE) tm_hk_packet op_code now
      (period_fuel (waiting u now) + length (reply_deque (com_interface u))) u).

Definition device_step (s : DeviceStep) : st devices Empty_set (option unit) :=
  match s with
  | Aocs modes now => aocs_step modes now
  | EpsRegular now => eps_step RegularOp now
  | EpsPoll => eps_step PollAndRecvReplies []
  end.

Fixpoint device_run (l : list DeviceStep) : st devices Empty_set (option unit) :=
  match l with
  | [] => ret (Some tt)
  | s :: l' => and_then (device_step s) (device_run l')
  end.

(** No request arrives. *)
Definition quiet (s : DeviceStep) : Prop := match s with Aocs modes _ => modes = [] | _ => True end.

End Devices.

(** ** The way of a commanded mode

    The magnetometer is commanded to [m] by the mode service; the phases from the
    start of the tasks to the reply. *)
Inductive Phase : Type := Booted | Commanded | Switched | Published | Reached.

Section Phases.
Context {PE C CE : Type} `{SpiLaws C CE}.
Context `{Json PcduRequest} `{Json PcduReply} `{Json SimReply} `{Json SwitchSet}.
Context `{!JsonLaws PcduRequest} `{!JsonLaws PcduReply} `{!JsonLaws SimReply}.
Context (tm_hk_packet : Z) (m : ModeAndSubmode) (info : MessageMetadata).
Context (Hm : mode m = 1 \/ mode m = 2) (Hinfo : meta_sender_id info = TargetId.id PUS_MODE_SERVICE).
Abbreviation devices := (Devices C).

Definition all_off : SwitchMapBinary := Switches.default_binary.
Definition mgm_on : SwitchMapBinary := <[SwMgm := BinOn]> all_off.
Definition published (x : SwitchMapBinary) : SwitchSet := mkSwitchSet true (Power.state_from <$> x).
Definition command : GenericMessage SwitchRequest :=
  mkMessage (mkMetadata 0 (TargetId.id MGM_HANDLER_0)) (mkSwitchRequest 0 BinOn).

(** The power command is taken, the switch state published, and then seen. *)
Definition advance (k : Phase) (s : DeviceStep) : Phase :=
  match k, s with
  | Commanded, EpsRegular _ => Switched
  | Switched, EpsPoll => Published
  | Published, Aocs _ _ => Reached
  | _, _ => k
  end.

Definition mgm_side (k : Phase) (g : MgmSpec C) : Prop :=
  match k with
  | Booted => g_pending g = None /\ g_current g = mkMode 0 0 /\ g_mode_replies g = []
  | Reached => g_pending g = None /\ g_current g = m /\ g_mode_replies g = [mkMessage info (ModeReplyOk m)] /\
               (mode m = 2 -> data_valid (g_data g) = true)
  | _ => g_pending g = Some (m, info, true) /\ g_current g = m /\ g_mode_replies g = [] /\
         (mode m = 2 -> data_valid (g_data g) = true)
  end.

Definition pcdu_side (k : Phase) (a : PcduSpec) (ss : list (GenericMessage SwitchRequest))
    (replies : list SwitchMapBinary) : Prop :=
  sp_mode a = mkMode 2 0 /\
  match k with
  | Booted => ss = [] /\ sp_commanded a = all_off /\ Forall (eq all_off) replies /\ sp_published a = published all_off
  | Commanded =>
      ss = [command] /\ sp_commanded a = all_off /\ Forall (eq all_off) replies /\ sp_published a = published all_off
  | Switched => ss = [] /\ sp_commanded a = mgm_on /\ last replies = Some mgm_on /\ sp_published a = published all_off
  | _ => ss = [] /\ sp_commanded a = mgm_on /\ Forall (eq mgm_on) replies /\ sp_published a = published mgm_on
  end.

Record in_phase (k : Phase) (g : MgmSpec C) (a : PcduSpec) (d : devices) : Prop := mkInPhase {
  ph_mgm : exists s now, mgm_related MGM_HANDLER_0 [] [] s now g (mgm_handler d);
  ph_mgm_side : mgm_side k g;
  ph_pcdu : exists ss replies now,
    related PCDU_HANDLER (Some 20, true, true) [] [] ss replies now a (pcdu_handler d) /\ pcdu_side k a ss replies;
}.

(** *** The specifications *)
Definition with_switcher (c : channel (GenericMessage SwitchRequest)) (g : MgmSpec C) : MgmSpec C :=
  mkMgmSpec (g_current g) (g_pending g) (g_data g) c (g_com g) (g_rx g) (g_mode_replies g) (g_hk_replies g) (g_tm g).

Lemma measure_keeps (g : MgmSpec C) :
  let g' := MgmSpec.measure g in
  g_pending g' = g_pending g /\ g_current g' = g_current g /\ g_mode_replies g' = g_mode_replies g /\
  g_switcher g' = g_switcher g /\ (mode (g_current g) = 2 -> data_valid (g_data g') = true).
Proof.
  unfold MgmSpec.measure. destruct (mode (g_current g) =? 2) eqn:Hmode.
  - by destruct (transfer _ _) as [? [??]].
  - apply Z.eqb_neq in Hmode. by repeat split.
Qed.

(** The state of the switch the magnetometer sees. *)
Definition seen (k : Phase) : SwitchState := match k with Published | Reached => SwitchOn | _ => SwitchOff end.

Lemma seen_published k a ss replies :
  pcdu_side k a ss replies ->
  set_valid (sp_published a) = true /\ switch_map (sp_published a) !! SwMgm = Some (seen k).
Proof. by destruct k; intros (_ & _ & _ & _ & ->). Qed.

(** What the magnetometer does in a period without requests. *)
Lemma mgm_quiet k g c s now :
  mgm_side k g -> switch_map s !! SwMgm = Some (seen k) ->
  let g' := MgmSpec.measure (MgmSpec.transition MGM_HANDLER_0 s (with_switcher c g)) in
  mgm_side (advance k (Aocs [] now)) g' /\ g_switcher g' = c.
Proof.
  intros Hg Hs g'. unfold g'.
  set (t := MgmSpec.transition MGM_HANDLER_0 s (with_switcher c g)).
  assert (Ht : mgm_side (advance k (Aocs [] now)) t /\ g_switcher t = c /\ (k <> Booted -> g_current t = m)).
  { unfold t, MgmSpec.transition, MgmSpec.reached, MgmSpec.reply. rewrite Hs.
    destruct k; destruct Hg as (Hp & Hc & Hr); cbn -[TargetId.id]; rewrite Hp; cbn -[TargetId.id]; try tauto.
    all: try (destruct Hr as [Hr Hd]); rewrite ?Hinfo, ?Hc, ?Z.eqb_refl, ?Hr; cbn; rewrite ?Hr; naive_solver. }
  clearbody t. destruct (measure_keeps t) as (Ep & Ec & Er & Es & Ed). rewrite Es. split; [|tauto].
  destruct Ht as (Ht & _ & Hcur).
  destruct k; cbn in *; rewrite ?Ep, ?Ec, ?Er; rewrite ?Hcur in Ed by done; tauto.
Qed.

(** *** The steps *)

(** The handler of the magnetometer with the queue and the set of the power unit. *)
Lemma share_related s now g d ss replies now' a :
  mgm_related MGM_HANDLER_0 [] [] s now g (mgm_handler d) ->
  related PCDU_HANDLER (Some 20, true, true) [] [] ss replies now' a (pcdu_handler d) ->
  mgm_related MGM_HANDLER_0 [] [] (sp_published a) now
    (with_switcher (switch_request_rx (pcdu_handler d)) g) (share d).
Proof.
  intros [] HR. unfold share. rewrite (rel_published _ _ _ _ _ _ _ _ _ HR). by constructor.
Qed.

(** The queue of the power unit after a period of the magnetometer. *)
Lemma set_requests_related ss ss' replies now a u c :
  related PCDU_HANDLER (Some 20, true, true) [] [] ss replies now a u ->
  queue c = ss' -> chan_shape c = (Some 20, true, true) ->
  related PCDU_HANDLER (Some 20, true, true) [] [] ss' replies now a (Pcdu.set_switch_request_rx c u).
Proof. intros [] Hq Hs. by constructor. Qed.

Lemma aocs_run k g a d modes now :
  in_phase k g a d ->
  let c := switch_request_rx (pcdu_handler d) in
  let g' := MgmSpec.measure (MgmSpec.transition MGM_HANDLER_0 (sp_published a)
              (foldl MgmSpec.on_mode (with_switcher c g) modes)) in
  forall k' ss', queue (g_switcher g') = ss' -> chan_shape (g_switcher g') = chan_shape c ->
  mgm_side k' g' ->
  (forall ss replies, queue c = ss -> pcdu_side k a ss replies -> pcdu_side k' a ss' replies) ->
  exists d', aocs_step (PE:=PE) tm_hk_packet modes now d = (Ok (Some tt), d') /\ in_phase k' g' a d'.
Proof.
  intros [(s & now1 & HM) Hg (ss & replies & now2 & HP & Ha)] c g' k' ss' Hq Hsh Hg' Ha'.
  pose proof (share_related _ _ _ _ _ _ _ _ HM HP) as HS.
  destruct (seen_published _ _ _ _ Ha) as [Hv Hs].
  destruct (mgm_period_run (PE:=PE) tm_hk_packet MGM_HANDLER_0 (mkMgmPeriod [] modes (sp_published a) now)
    _ _ _ _ ltac:(by split_and!; [constructor|..]) HS) as (h' & Hrun & HR).
  change (MgmSpec.round _ _ _ _) with g' in HR.
  eexists. split.
  { unfold aocs_step. rewrite (rel_published _ _ _ _ _ _ _ _ _ HP), Hrun. done. }
  constructor; [by eexists _, _|done|]. exists ss', replies, now2.
  destruct (rel_switches _ _ _ _ _ _ _ _ _ HP) as [Hq0 Hs0]. split.
  - rewrite (mrel_helper _ _ _ _ _ _ _ HR). cbn [switcher_tx pcdu_handler].
    eapply set_requests_related; [exact HP|done|]. by rewrite Hsh.
  - by apply (Ha' ss).
Qed.

Lemma aocs_quiet k g a d now :
  in_phase k g a d ->
  exists d' g', aocs_step (PE:=PE) tm_hk_packet [] now d = (Ok (Some tt), d') /\
    in_phase (advance k (Aocs [] now)) g' a d'.
Proof.
  intros Hk. pose proof Hk as [_ Hg (ss & replies & now2 & HP & Ha)].
  destruct (seen_published _ _ _ _ Ha) as [_ Hs].
  destruct (mgm_quiet k g (switch_request_rx (pcdu_handler d)) _ now Hg Hs) as [Hg' Hc].
  edestruct (aocs_run k g a d [] now Hk (advance k (Aocs [] now)) (queue (switch_request_rx (pcdu_handler d))))
    as (d' & Hrun & Hk'); [cbn [foldl]; by rewrite Hc..|exact Hg'| |by eexists _, _].
  intros ss0 l <-. by destruct k.
Qed.


Lemma last_all {A : Type} (y x : A) l : Forall (eq y) l -> last l = Some x -> x = y.
Proof. intros Hf Hl. apply last_Some_elem_of in Hl. rewrite Forall_forall in Hf. symmetry. by apply Hf. Qed.

Lemma republish_side k a ss replies :
  pcdu_side k a ss replies -> pcdu_side (advance k EpsPoll) (republish replies a) ss [].
Proof.
  intros [Hmode Ha]. unfold republish. destruct (last replies) as [x|] eqn:Hl.
  - split; [done|]. destruct k; destruct Ha as (-> & Hc & Hr & Hpub);
      first [pose proof (last_all _ _ _ Hr Hl) as -> | injection Hr as ->];
      cbn [advance sp_commanded sp_published]; split_and!; first [done | constructor].
  - split; [done|]. destruct k; destruct Ha as (-> & Hc & Hr & Hpub); cbn [advance]; first [discriminate Hr | split_and!; first [done | constructor]].
Qed.

Lemma eps_poll k g a d :
  in_phase k g a d ->
  exists d' a', eps_step (PE:=PE) tm_hk_packet PollAndRecvReplies [] d = (Ok (Some tt), d') /\
    in_phase (advance k EpsPoll) g a' d'.
Proof.
  intros [HM Hg (ss & replies & now & HP & Ha)]. unfold eps_step, on_field, Pcdu.periodic_operation.
  edestruct (poll_replies PCDU_HANDLER) as (u & Hrun & HR); [exact HP| |].
  2: { eexists _, _. rewrite Hrun. split; [done|]. constructor; [done|by destruct k|].
       exists ss, [], now. split; [exact HR|by apply republish_side]. }
  rewrite (rel_com _ _ _ _ _ _ _ _ _ HP). cbn. rewrite length_fmap. lia.
Qed.

Lemma eps_regular k g a d now :
  in_phase k g a d ->
  exists d' a', eps_step (PE:=PE) tm_hk_packet RegularOp now d = (Ok (Some tt), d') /\
    in_phase (advance k (EpsRegular now)) g a' d'.
Proof.
  intros [HM Hg (ss & replies & now' & HP & Ha)]. unfold eps_step, on_field.
  destruct (regular_run (PE:=PE) tm_hk_packet PCDU_HANDLER (Some 20, true, true)
    (mkPcduPeriod [] [] ss now) replies now' a (pcdu_handler d)
    (period_fuel (waiting (pcdu_handler d) now) + length (reply_deque (com_interface (pcdu_handler d)))))
    as (u & Hrun & HR); [| |exact HP|].
  - split; [done|]. destruct k; destruct Ha as (_ & -> & _); repeat constructor. eexists; reflexivity.
  - unfold waiting, period_fuel. destruct HP as [_ [-> _] [-> _] [-> _]]. cbn. lia.
  - cbn [pp_now] in Hrun. rewrite Hrun. eexists _, _. split; [done|]. constructor; [done|by destruct k|].
    eexists [], _, now. split; [exact HR|]. destruct Ha as [Hmode Ha].
    destruct k; destruct Ha as (-> & Hc & Hl & Hpub); cbn; rewrite Hmode; cbn; rewrite ?Hc;
      (split; [done|]); split_and!; try done; rewrite ?last_snoc; try done; apply Forall_app; by repeat constructor.
Qed.


(** Any interleaving of operations without requests. *)
Lemma quiet_run l : forall k g a d,
  Forall quiet l -> in_phase k g a d ->
  exists d' g' a', device_run (PE:=PE) tm_hk_packet l d = (Ok (Some tt), d') /\
    in_phase (foldl advance k l) g' a' d'.
Proof.
  induction l as [|s l IH]; intros k g a d Hl Hk; [by exists d, g, a|].
  apply Forall_cons in Hl as [Hs Hl].
  assert (exists d' g' a', device_step (PE:=PE) tm_hk_packet s d = (Ok (Some tt), d') /\ in_phase (advance k s) g' a' d')
    as (d1 & g1 & a1 & Hrun & Hk1).
  { destruct s as [modes now|now|]; cbn in Hs; subst; cbn [device_step].
    - destruct (aocs_quiet k g a d now Hk) as (d' & g' & ? & ?). by exists d', g', a.
    - destruct (eps_regular k g a d now Hk) as (d' & a' & ? & ?). by exists d', g, a'.
    - destruct (eps_poll k g a d Hk) as (d' & a' & ? & ?). by exists d', g, a'. }
  destruct (IH _ _ _ _ Hl Hk1) as (d' & g' & a' & Hrun' & Hk'). exists d', g', a'.
  split; [|done]. cbn [device_run]. by erewrite and_then_run.
Qed.

(** The command: the power command is sent. *)
Lemma command_run g a d now :
  in_phase Booted g a d ->
  exists d' g', aocs_step (PE:=PE) tm_hk_packet [mkMessage info (SetMode m)] now d = (Ok (Some tt), d') /\
    in_phase Commanded g' a d'.
Proof using Hm H0.
  intros Hk. pose proof Hk as [_ (Hp & Hc & Hr) (ss & replies & now2 & HP & Ha)].
  destruct (seen_published _ _ _ _ Ha) as [_ Hs].
  destruct (rel_switches _ _ _ _ _ _ _ _ _ HP) as [Hq Hsh]. set (c := switch_request_rx (pcdu_handler d)) in *.
  assert (ss = []) as -> by apply Ha.
  set (t := MgmSpec.transition MGM_HANDLER_0 (sp_published a) (MgmSpec.on_mode (with_switcher c g) (mkMessage info (SetMode m)))).
  assert (Ht : g_pending t = Some (m, info, true) /\ g_current t = m /\ g_mode_replies t = [] /\
    g_switcher t = Channel.set_queue [command] c).
  { unfold t, MgmSpec.on_mode. cbn [message requestor_info].
    replace (mode m =? 0) with false by bool_lia.
    replace ((mode m =? 2) || (mode m =? 1)) with true by bool_lia.
    unfold MgmSpec.transition. cbn [g_pending]. rewrite Hs. rewrite bool_decide_false by done.
    split_and!; [done..|]. cbn [g_switcher with_switcher].
    unfold Power.send_switch_cmd_bounded, st_map_err, Channel.try_send. injection Hsh as Hcap Hrx _.
    rewrite Hrx, Hcap, Hq. done. }
  destruct Ht as (Ep & Ec & Er & Es). destruct (measure_keeps t) as (Ep' & Ec' & Er' & Es' & Ed').
  rewrite Ec in Ed'.
  edestruct (aocs_run Booted g a d [mkMessage info (SetMode m)] now Hk Commanded [command]) as (d' & Hrun & Hk').
  - change (queue (g_switcher (MgmSpec.measure t)) = [command]). by rewrite Es', Es.
  - change (chan_shape (g_switcher (MgmSpec.measure t)) = chan_shape c). by rewrite Es', Es.
  - change (mgm_side Commanded (MgmSpec.measure t)). cbn [mgm_side]. rewrite Ep', Ec', Er'. by split_and!.
  - intros ss' l _ (? & ? & ? & ? & ?). by split_and!.
  - by eexists _, _.
Qed.

(** The tasks from their start to the first published set. *)
Lemma boot_run spi d0 now :
  exists d g a,
    device_run (PE:=PE) tm_hk_packet [EpsRegular now; EpsPoll] (devices_new spi d0) = (Ok (Some tt), d) /\
    in_phase Booted g a d.
Proof.
  set (normal := mkMessage (mkMetadata 0 NO_SENDER) (SetMode (mkMode (device_mode Normal) 0))).
  assert (HM : mgm_related MGM_HANDLER_0 [] [] switch_set_default (replicate 7 0)
                 (mgm_init (sync_channel 20) spi d0) (mgm_handler (devices_new spi d0))) by by apply mgm_new_related.
  assert (HP : related PCDU_HANDLER (Some 20, true, true) [] [normal] [] [] (replicate 7 0) PcduSpec.init
                 (pcdu_handler (devices_new spi d0))) by by constructor.
  destruct (regular_run (PE:=PE) tm_hk_packet PCDU_HANDLER (Some 20, true, true) (mkPcduPeriod [] [normal] [] now) []
    _ _ _ (period_fuel (mkPcduPeriod [] [normal] [] now) + 0)
    ltac:(by split) ltac:(lia) HP) as (u1 & Hrun1 & HR1).
  destruct (poll_replies PCDU_HANDLER (Some 20, true, true) _ _ _ _ _ _
    (period_fuel (mkPcduPeriod [] [] [] []) + 1) _ HR1 ltac:(case_match; cbn; lia)) as (u2 & Hrun2 & HR2).
  exists (mkDevices (mgm_handler (devices_new spi d0)) u2). eexists _, _. split.
  - cbn [device_run]. erewrite and_then_run.
    2: { cbn [device_step]. unfold eps_step, on_field. cbn [pp_now] in Hrun1.
         change (period_fuel (waiting _ now) + length _)%nat with (period_fuel (mkPcduPeriod [] [normal] [] now) + 0)%nat.
         rewrite Hrun1. done. }
    erewrite and_then_run; [done|]. cbn [device_step]. unfold eps_step, on_field, Pcdu.periodic_operation.
    cbn [pcdu_handler mgm_handler].
    destruct HR1 as [_ [Hc1 _] [Hc2 _] [Hc3 _] _ _ _ Hc4 _ _ _ _].
    assert (Hlen : length (reply_deque (com_interface u1)) = 1%nat) by by rewrite Hc4.
    unfold waiting. rewrite Hc1, Hc2, Hc3, Hlen, Hrun2. done.
  - constructor; [by eexists _, _|by split_and!|].
    exists [], [], now. split; [exact HR2|]. by repeat constructor.
Qed.

End Phases.

Lemma device_run_app {PE C CE} `{SpiInterface C CE} `{Json PcduRequest} `{Json PcduReply} `{Json SimReply}
    `{Json SwitchSet} tm_hk_packet l1 l2 (d d' : Devices C) :
  device_run (PE:=PE) tm_hk_packet l1 d = (Ok (Some tt), d') ->
  device_run (PE:=PE) tm_hk_packet (l1 ++ l2) d = device_run (PE:=PE) tm_hk_packet l2 d'.
Proof.
  revert d. induction l1 as [|s l1 IH]; intros d Hr; cbn [device_run app] in *; [by injection Hr as ->|].
  unfold and_then, st_bind in *. destruct (device_step tm_hk_packet s d) as [[[[]|]| |] d1]; try done. by apply IH.
Qed.

(** The phases end in [Reached] once each operation had its turn. *)
Lemma advance_aocs l1 l2 modes now : foldl advance Published (l1 ++ Aocs modes now :: l2) = Reached.
Proof.
  assert (Hr : forall l, foldl advance Reached l = Reached) by (induction l as [|[]]; done).
  induction l1 as [|[] l1 IH]; cbn; auto.
Qed.

Lemma advance_poll l1 l2 l3 modes now :
  foldl advance Switched (l1 ++ EpsPoll :: l2 ++ Aocs modes now :: l3) = Reached.
Proof.
  induction l1 as [|[] l1 IH]; cbn; auto using advance_aocs.
  rewrite app_comm_cons, app_assoc. apply advance_aocs.
Qed.

Lemma advance_reached l1 l2 l3 l4 now1 modes now2 :
  foldl advance Commanded (l1 ++ EpsRegular now1 :: l2 ++ EpsPoll :: l3 ++ Aocs modes now2 :: l4) = Reached.
Proof.
  induction l1 as [|[] l1 IH]; cbn; auto using advance_poll.
  rewrite app_comm_cons, app_assoc. apply advance_poll.
Qed.

(** ** Theorem *)

(** C35: A commanded mode is reached.  The tasks of the two handlers start as the
    main function sets them up, and the power unit publishes its first set.  The
    mode service commands the magnetometer to [On] or [Normal]; then the operations
    of the two threads run in any order.  Once the handler of the power unit has
    handled its requests and then its replies and the magnetometer had a period
    after that, the mode is reached: nothing has panicked and no loop hangs, the
    mode service got exactly one reply, the switch is on, no request waits, and in
    [Normal] there is valid data. *)
Theorem commanded_mode_reached {PE C CE} `{SpiLaws C CE}
    `{Json PcduRequest} `{Json PcduReply} `{Json SimReply} `{Json SwitchSet}
    `{!JsonLaws PcduRequest} `{!JsonLaws PcduReply} `{!JsonLaws SimReply}
    tm_hk_packet (spi : C) d0 m info now0 before now1 l1 now2 l2 l3 now3 l4 :
  (mode m = 1 \/ mode m = 2) -> meta_sender_id info = TargetId.id PUS_MODE_SERVICE ->
  Forall quiet before -> Forall quiet (l1 ++ l2 ++ l3 ++ l4) ->
  let after := l1 ++ EpsRegular now2 :: l2 ++ EpsPoll :: l3 ++ Aocs [] now3 :: l4 in
  exists d,
    device_run (PE:=PE) tm_hk_packet
      ([EpsRegular now0; EpsPoll] ++ before ++ Aocs [mkMessage info (SetMode m)] now1 :: after) (devices_new spi d0) =
      (Ok (Some tt), d) /\
    current (mode_helpers (mgm_handler d)) = m /\ target_mode (mode_helpers (mgm_handler d)) = None /\
    queue (reply_to_pus_tx (mgm_modes (mgm_handler d))) = [mkMessage info (ModeReplyOk m)] /\
    shared_switch_map (pcdu_handler d) = mkSwitchSet true {[SwMgm := SwitchOn; SwMgt := SwitchOff]} /\
    queue (switch_request_rx (pcdu_handler d)) = [] /\
    (mode m = 2 -> data_valid (shared_mgm_set (mgm_handler d)) = true).
Proof.
  intros Hm Hinfo Hb Hl after.
  destruct (boot_run (PE:=PE) tm_hk_packet m info spi d0 now0) as (d1 & g1 & a1 & Hrun1 & Hk1).
  destruct (quiet_run (PE:=PE) tm_hk_packet m info Hm Hinfo before _ _ _ _ Hb Hk1) as (d2 & g2 & a2 & Hrun2 & Hk2).
  replace (foldl advance Booted before) with Booted in Hk2 by (clear; by induction before as [|[]]).
  destruct (command_run (PE:=PE) tm_hk_packet m info Hm _ _ _ now1 Hk2) as (d3 & g3 & Hrun3 & Hk3).
  assert (Ha : Forall quiet after).
  { unfold after. rewrite !Forall_app in Hl. destruct Hl as (? & ? & ? & ?).
    repeat (apply Forall_app; split; [done|]; apply Forall_cons; split; [done|]). done. }
  destruct (quiet_run (PE:=PE) tm_hk_packet m info Hm Hinfo after _ _ _ _ Ha Hk3) as (d4 & g4 & a4 & Hrun4 & Hk4).
  unfold after in Hk4. rewrite advance_reached in Hk4.
  destruct Hk4 as [(s & now & HM) (Hp & Hc & Hr & Hd) (ss & replies & now' & HP & Hmode & Hss & Hco & Hrep & Hpub)].
  exists d4. split.
  { erewrite device_run_app by exact Hrun1. erewrite device_run_app by exact Hrun2.
    cbn [device_run device_step]. erewrite and_then_run by exact Hrun3. exact Hrun4. }
  pose proof (mrel_pending _ _ _ _ _ _ _ HM) as Hpend. rewrite Hp in Hpend.
  rewrite (mrel_current _ _ _ _ _ _ _ HM), (proj1 (mrel_mode_replies _ _ _ _ _ _ _ HM)), (mrel_data _ _ _ _ _ _ _ HM),
    (rel_published _ _ _ _ _ _ _ _ _ HP), (proj1 (rel_switches _ _ _ _ _ _ _ _ _ HP)).
  by split_and!.
Qed.

(** The operations in the order of the threads. *)
Lemma commanded_mode_reached_witness :
  exists d,
    device_run (PE:=unit) (H0:=Codec.request_json) (H1:=Codec.reply_json) (H2:=Codec.sim_reply_json)
      (H3:=Codec.switch_set_json) 25
      [EpsRegular [1]; EpsPoll; Aocs [] [2]; Aocs [mkMessage ex_pus (SetMode (mkMode 2 0))] [3];
       EpsPoll; Aocs [] [4]; EpsRegular [5]; Aocs [] [6]; EpsPoll; EpsPoll; Aocs [] [7]; EpsRegular [8]]
      (devices_new ex_spi ex_mgm_data) = (Ok (Some tt), d) /\
    current (mode_helpers (mgm_handler d)) = mkMode 2 0 /\ target_mode (mode_helpers (mgm_handler d)) = None /\
    queue (reply_to_pus_tx (mgm_modes (mgm_handler d))) = [mkMessage ex_pus (ModeReplyOk (mkMode 2 0))] /\
    shared_switch_map (pcdu_handler d) = mkSwitchSet true {[SwMgm := SwitchOn; SwMgt := SwitchOff]} /\
    queue (switch_request_rx (pcdu_handler d)) = [] /\
    (2 = 2 -> data_valid (shared_mgm_set (mgm_handler d)) = true).
Proof.
  exact (commanded_mode_reached (PE:=unit) (JsonLaws0:=Codec.request_laws) (JsonLaws1:=Codec.reply_laws)
    (JsonLaws2:=Codec.sim_reply_laws) (H4:=Codec.switch_set_json) 25 ex_spi ex_mgm_data (mkMode 2 0) ex_pus
    [1] [Aocs [] [2]] [3] [EpsPoll; Aocs [] [4]] [5] [Aocs [] [6]] [EpsPoll] [7] [EpsRegular [8]]
    (or_intror eq_refl) eq_refl ltac:(by repeat constructor) ltac:(by repeat constructor)).
Defined.
