(* ===== verification/Executable.v ===== *)
(** * Task execution

    [satrs/src/executable.rs]: the threads that run one or several tasks
    periodically, once or for a number of cycles, until they are told to stop. *)

From Stdlib Require Import ZArith Lia Bool.
From stdpp Require Import base list.
From S2P Require Import Prelude.

Local Open Scope Z_scope.

Inductive OpResult : Type := OpOk | TerminationRequested.

Inductive ExecutionType : Type :=
| Infinite
| Cycles (n : Z)
| OneShot.

(** [trait Executable]: a task works on itself and on what it shares with others. *)
Class Executable (T W E : Type) : Type := {
  exec_type : T -> ExecutionType;
  periodic_op : Z -> st (T * W) E OpResult;
}.

(** What [try_recv] on the [BusReader] gives; an exhausted script gives nothing. *)
Inductive BusEvent : Type := BusMessage | BusDisconnected | BusEmpty.

(** Whether the reader tells the thread to stop, and the rest of the script. *)
Definition poll_termination (termination : option (list BusEvent)) : bool * option (list BusEvent) :=
  match termination with
  | None => (false, None)
  | Some [] => (false, Some [])
  | Some (BusEmpty :: l) => (false, Some l)
  | Some (_ :: l) => (true, Some l)
  end.

Module Exec.
Section Exec.
Context {T W E : Type} `{Executable T W E} (op_code : Z).

(** [exec_sched_single]: the loop of the thread; [None] when the fuel runs out. *)
Fixpoint exec_sched_single (fuel : nat) (termination : option (list BusEvent)) (cycle_count : Z)
    : st (T * W) E (option OpResult) :=
  match fuel with
  | O => ret None
  | S fuel' =>
      let '(stop, termination) := poll_termination termination in
      if stop then ret (Some OpOk) else
      let* exec := gets (fun x => exec_type x.1) in
      match exec with
      | OneShot =>
          let* _ := periodic_op op_code in
          ret (Some OpOk)
      | Infinite =>
          let* _ := periodic_op op_code in
          exec_sched_single fuel' termination cycle_count
      | Cycles cycles =>
          let* _ := periodic_op op_code in
          let* cycle_count := lift (checked_add 32 cycle_count 1) in
          if cycle_count =? cycles then ret (Some OpOk)
          else exec_sched_single fuel' termination cycle_count
      end
  end.

(** *** Several tasks *)

(** The variables of the thread. *)
Record Multi : Type := mkMulti {
  executable_vec : list T;
  cycle_counts : list Z;
  removal_flags : list bool;
  shared : W;
}.

Abbreviation M := (st Multi E).

(** [executable.periodic_op(op_code)?] for the task at [idx]. *)
Definition run_task (idx : Z) (executable : T) : M OpResult :=
  fun s =>
    let '(r, (t, w)) := periodic_op op_code (executable, shared s) in
    (r, mkMulti (<[Z.to_nat idx := t]> (executable_vec s)) (cycle_counts s) (removal_flags s) w).

Definition set_removal_flag (idx : Z) : M unit :=
  let* f := asks (fun s => set_index (removal_flags s) idx true) in
  modify_state (fun s => mkMulti (executable_vec s) (cycle_counts s) f (shared s)).

(** [cycle_counts[idx] += 1], and the new count. *)
Definition count_cycle (idx : Z) : M Z :=
  let* c := asks (fun s => index (cycle_counts s) idx) in
  let* c' := lift (checked_add 32 c 1) in
  let* cs := asks (fun s => set_index (cycle_counts s) idx c') in
  let* _ := modify_state (fun s => mkMulti (executable_vec s) cs (removal_flags s) (shared s)) in
  ret c'.

(** The [for] loop over the tasks, from [idx]. *)
Fixpoint for_each_task (idx : Z) (l : list T) : M unit :=
  match l with
  | [] => ret tt
  | executable :: l' =>
      let* _ :=
        match exec_type executable with
        | OneShot =>
            let* _ := run_task idx executable in
            set_removal_flag idx
        | Infinite =>
            let* _ := run_task idx executable in
            ret tt
        | Cycles cycles =>
            let* _ := run_task idx executable in
            let* c := count_cycle idx in
            if c =? cycles then set_removal_flag idx else ret tt
        end in
      for_each_task (idx + 1) l'
  end.

(** [v.retain(|_| !*removal_iter.next().unwrap())] *)
Fixpoint retain_by {A F : Type} (flags : list bool) (v : list A) : res F (list A) :=
  match v with
  | [] => Ok []
  | x :: v' =>
      match flags with
      | [] => Panic
      | f :: flags' => let? r := retain_by flags' v' in Ok (if f : bool then r else x :: r)
      end
  end.

Definition remove_finished : M unit :=
  let* v := asks (fun s => retain_by (removal_flags s) (executable_vec s)) in
  let* c := asks (fun s => retain_by (removal_flags s) (cycle_counts s)) in
  modify_state (fun s => mkMulti v c (filter (fun i => i = false) (removal_flags s)) (shared s)).

(** The loop of the thread; [task_freq] says whether a frequency is given. *)
Fixpoint multi_loop (task_freq : bool) (fuel : nat) (termination : option (list BusEvent)) : M (option OpResult) :=
  match fuel with
  | O => ret None
  | S fuel' =>
      let '(stop, termination) := poll_termination termination in
      let* _ := modify_state (fun s =>
        mkMulti (executable_vec s) (cycle_counts s)
          (if stop then (fun _ => true) <$> removal_flags s else removal_flags s) (shared s)) in
      let* v := gets executable_vec in
      let* _ := for_each_task 0 v in
      let* _ := remove_finished in
      let* v := gets executable_vec in
      match v with
      | [] => ret (Some OpOk)
      | _ => if task_freq then multi_loop task_freq fuel' termination else lift Panic
      end
  end.

(** [exec_sched_multi]: what the thread returns, and the state it leaves. *)
Definition exec_sched_multi (executable_vec : list T) (task_freq : bool) (termination : option (list BusEvent))
    (fuel : nat) (w : W) : res E (option OpResult) * W :=
  let '(r, s) := multi_loop task_freq fuel termination
                   (mkMulti executable_vec (replicate (length executable_vec) 0)
                      (replicate (length executable_vec) false) w) in
  (r, shared s).

End Exec.
End Exec.

(** ** Specification

    No task is ever removed: in round [r] every task that has not yet had all its
    cycles works, in order. *)

(** Tasks that neither fail nor change their execution type. *)
Class SteadyTasks {T W E : Type} `{Executable T W E} (op_code : Z) (step : T * W -> T * W) : Prop := {
  step_ok t w : exists r, periodic_op op_code (t, w) = (Ok r, step (t, w));
  step_type t w : exec_type (step (t, w)).1 = exec_type t;
}.

Section Spec.
Context {T W E : Type} `{Executable T W E} (step : T * W -> T * W).

(** Whether a task works in round [r]. *)
Definition active (r : Z) (t : T) : bool :=
  match exec_type t with
  | Infinite => true
  | Cycles n => r <? n
  | OneShot => r <? 1
  end.

Fixpoint spec_round (r : Z) (ts : list T) (w : W) : list T * W :=
  match ts with
  | [] => ([], w)
  | t :: ts' =>
      let '(t1, w1) := if active r t then step (t, w) else (t, w) in
      let '(ts2, w2) := spec_round r ts' w1 in
      (t1 :: ts2, w2)
  end.

(** [n] rounds, the first of which is round [r]. *)
Fixpoint spec_run (n : nat) (r : Z) (ts : list T) (w : W) : list T * W :=
  match n with
  | O => (ts, w)
  | S n' => let '(ts', w') := spec_round r ts w in spec_run n' (r + 1) ts' w'
  end.

(** [Cycles] of at least one cycle. *)
Definition countable (t : T) : Prop := match exec_type t with Cycles n => 1 <= n < 2 ^ 32 | _ => True end.

(** How many rounds a task works; [None] for ever. *)
Definition total_rounds (t : T) : option nat :=
  match exec_type t with
  | Infinite => None
  | Cycles n => Some (Z.to_nat n)
  | OneShot => Some 1%nat
  end.

End Spec.

(** Whether the reader stops the thread in round [r]. *)
Definition stops (termination : option (list BusEvent)) (r : nat) : bool :=
  match termination with
  | Some l => match l !! r with Some BusMessage | Some BusDisconnected => true | _ => false end
  | None => false
  end.

(** Whether the thread of several tasks goes on after round [r + k]. *)
Definition goes_on {T W E : Type} `{Executable T W E} (termination : option (list BusEvent)) (ts : list T)
    (r : Z) (k : nat) : bool :=
  negb (stops termination k) && existsb (active (r + Z.of_nat k + 1)) ts.

Definition after_poll (termination : option (list BusEvent)) : option (list BusEvent) :=
  (poll_termination termination).2.

Lemma poll_stops termination : poll_termination termination = (stops termination 0, after_poll termination).
Proof. unfold after_poll. by destruct termination as [[|[] l]|]. Qed.

Lemma stops_after_poll termination r : stops (after_poll termination) r = stops termination (S r).
Proof. by destruct termination as [[|[] l]|]. Qed.

(** ** One round *)
Section Round.
Context {T W E : Type} `{!Executable T W E} (op_code : Z) (step : T * W -> T * W) `{!SteadyTasks op_code step}.
Implicit Types (l ts : list T) (w : W).

(** All tasks of a list work. *)
Fixpoint step_all l w : list T * W :=
  match l with
  | [] => ([], w)
  | t :: l' => let '(t1, w1) := step (t, w) in let '(l2, w2) := step_all l' w1 in (t1 :: l2, w2)
  end.

(** The cycle count of a task after [r] rounds. *)
Definition count_after (r : Z) (t : T) : Z := match exec_type t with Cycles _ => r | _ => 0 end.

(** Whether round [r] is the last one of a task. *)
Definition ends_in (r : Z) (t : T) : bool :=
  match exec_type t with Infinite => false | Cycles n => r + 1 =? n | OneShot => true end.

Lemma for_each_run (r : Z) (b : bool) l : forall done dc df w,
  0 <= r -> Forall (fun t => active r t = true) l -> Forall countable l ->
  len dc = len done -> len df = len done ->
  Exec.for_each_task op_code (len done) l
      (Exec.mkMulti (done ++ l) (dc ++ (count_after r <$> l)) (df ++ ((fun _ => b) <$> l)) w) =
    (Ok tt, Exec.mkMulti (done ++ (step_all l w).1) (dc ++ (count_after (r + 1) <$> l))
              (df ++ ((fun t => b || ends_in r t) <$> l)) (step_all l w).2).
Proof using SteadyTasks0.
  induction l as [|t l IH]; intros done dc df w Hr Ha Hc Hdc Hdf; [cbn; by rewrite ?app_nil_r|].
  inversion_clear Ha as [|? ? Hat Hal]. inversion_clear Hc as [|? ? Hct Hcl].
  cbn [Exec.for_each_task fmap list_fmap step_all].
  destruct (step_ok t w) as [x Hx]. destruct (step (t, w)) as [t1 w1] eqn:Hs.
  assert (Hrun : forall c f, Exec.run_task op_code (len done) t (Exec.mkMulti (done ++ t :: l) c f w) =
    (Ok x, Exec.mkMulti (done ++ t1 :: l) c f w1)).
  { intros c f. unfold Exec.run_task. cbn [Exec.shared Exec.executable_vec Exec.cycle_counts Exec.removal_flags].
    rewrite Hx. by rewrite insert_middle. }
  assert (Hflag : forall c fl, Exec.set_removal_flag (len done)
    (Exec.mkMulti (done ++ t1 :: l) c (df ++ b :: fl) w1) =
    (@Ok E _ tt, Exec.mkMulti (done ++ t1 :: l) c (df ++ true :: fl) w1)).
  { intros c fl. unfold Exec.set_removal_flag, st_bind, asks, modify_state. cbn [Exec.removal_flags].
    rewrite <- Hdf, set_index_app. done. }
  assert (Hcount : forall c cl f, 0 <= c -> c + 1 < 2 ^ 32 -> Exec.count_cycle (len done)
    (Exec.mkMulti (done ++ t1 :: l) (dc ++ c :: cl) f w1) =
    (@Ok E _ (c + 1), Exec.mkMulti (done ++ t1 :: l) (dc ++ (c + 1) :: cl) f w1)).
  { intros c cl f ? ?. unfold Exec.count_cycle, st_bind, asks, modify_state, lift. cbn [Exec.cycle_counts].
    rewrite <- Hdc, index_app. unfold checked_add. rewrite (proj2 (Z.ltb_lt _ _)) by done. rewrite set_index_app. done. }
  specialize (IH (done ++ [t1]) (dc ++ [count_after (r + 1) t]) (df ++ [b || ends_in r t]) w1 Hr Hal Hcl
    ltac:(rewrite !len_app, Hdc; reflexivity) ltac:(rewrite !len_app, Hdf; reflexivity)).
  rewrite len_app, <- !app_assoc in IH. cbn [app] in IH. change (len [t1]) with 1 in IH.
  destruct (step_all l w1) as [l2 w2] eqn:Hall. cbn [fst snd] in *.
  unfold st_bind at 1. unfold count_after, ends_in, active, countable in *.
  destruct (exec_type t) as [|n|]; unfold st_bind.
  - rewrite Hrun. cbn [ret]. rewrite orb_false_r in IH |- *. exact IH.
  - apply Z.ltb_lt in Hat. rewrite Hrun, Hcount by lia. destruct (r + 1 =? n).
    + rewrite Hflag. rewrite orb_true_r in IH |- *. exact IH.
    + rewrite orb_false_r in IH |- *. exact IH.
  - rewrite Hrun, Hflag. rewrite orb_true_r in IH |- *. exact IH.
Qed.

(** *** The tasks that are left *)
Definition same_types : list T -> list T -> Prop := Forall2 (fun t t' => exec_type t = exec_type t').

Lemma map_same_types {A} (f : T -> A) l1 l2 :
  (forall t t', exec_type t = exec_type t' -> f t = f t') -> same_types l1 l2 -> f <$> l1 = f <$> l2.
Proof. intros Hf Hl. induction Hl as [|t t' l1 l2 Ht Hl IH]; [done|]. by rewrite !fmap_cons, (Hf _ _ Ht), IH. Qed.

Lemma step_all_types l : forall w, same_types (step_all l w).1 l.
Proof using SteadyTasks0.
  induction l as [|t l IH]; intros w; [constructor|]. cbn [step_all].
  pose proof (step_type t w) as Ht. destruct (step (t, w)) as [t1 w1]. specialize (IH w1).
  destruct (step_all l w1) as [l2 w2]. by constructor.
Qed.

Lemma spec_round_types r ts : forall w, same_types (spec_round step r ts w).1 ts.
Proof using SteadyTasks0.
  induction ts as [|t ts IH]; intros w; [constructor|]. cbn [spec_round].
  pose proof (step_type t w) as Ht. destruct (step (t, w)) as [t1 w1].
  destruct (active r t); [specialize (IH w1)|specialize (IH w)].
  - destruct (spec_round step r ts w1). by constructor.
  - destruct (spec_round step r ts w). by constructor.
Qed.

Lemma active_types r t t' : exec_type t = exec_type t' -> active r t = active r t'.
Proof. unfold active. by intros ->. Qed.

Lemma retain_filter {A F} (f : T -> bool) (g : T -> A) l :
  Exec.retain_by (F:=F) (f <$> l) (g <$> l) = Ok (g <$> filter (fun t => f t = false) l).
Proof.
  induction l as [|t l IH]; [done|]. rewrite !fmap_cons. cbn [Exec.retain_by]. rewrite IH. cbn [res_bind].
  rewrite filter_cons. by destruct (f t) eqn:Hf; [rewrite decide_False by congruence|rewrite decide_True by congruence].
Qed.

Lemma flags_left (f : T -> bool) l :
  filter (fun i => i = false) (f <$> l) = (fun _ => false) <$> filter (fun t => f t = false) l.
Proof.
  induction l as [|t l IH]; [done|]. rewrite fmap_cons, !filter_cons, IH. by destruct (f t) eqn:Hf.
Qed.

Abbreviation live r ts := (filter (fun t => active r t = true) ts).

(** The thread's tasks do in a round what the tasks of the specification do. *)
Lemma spec_round_live r ts : forall w,
  step_all (live r ts) w = (live r (spec_round step r ts w).1, (spec_round step r ts w).2).
Proof using SteadyTasks0.
  induction ts as [|t ts IH]; intros w; [done|]. cbn [spec_round]. rewrite filter_cons.
  destruct (active r t) eqn:Ha.
  - rewrite decide_True by done. cbn [step_all]. pose proof (step_type t w) as Ht.
    destruct (step (t, w)) as [t1 w1]. rewrite IH. destruct (spec_round step r ts w1) as [ts2 w2]. cbn [fst snd] in *.
    rewrite filter_cons, decide_True; [done|]. by rewrite (active_types _ _ _ Ht).
  - rewrite decide_False by done. rewrite IH. destruct (spec_round step r ts w) as [ts2 w2]. cbn [fst snd].
    rewrite filter_cons, decide_False; [done|]. by rewrite Ha.
Qed.

Lemma active_next r t : 0 <= r -> active r t = true -> (ends_in r t = false <-> active (r + 1) t = true).
Proof.
  unfold active, ends_in. destruct (exec_type t); [done| |intros; split; [done|]]; rewrite ?Z.ltb_lt, ?Z.eqb_neq; lia.
Qed.

Lemma active_before r t : active (r + 1) t = true -> active r t = true.
Proof. unfold active. destruct (exec_type t); rewrite ?Z.ltb_lt; lia. Qed.

Lemma live_next r ts : 0 <= r -> filter (fun t => ends_in r t = false) (live r ts) = live (r + 1) ts.
Proof.
  intros Hr. rewrite (list.list_filter_filter (fun t => ends_in r t = false) (fun t => active r t = true) ts). apply list_filter_iff. intros t. split.
  - intros [He Ha]. by apply active_next.
  - intros Ha. pose proof (active_before _ _ Ha). split; [by apply active_next|done].
Qed.

Lemma existsb_live r ts : existsb (active r) ts = match live r ts with [] => false | _ => true end.
Proof. induction ts as [|t ts IH]; [done|]. cbn [existsb]. rewrite filter_cons, IH. by destruct (active r t). Qed.

Lemma existsb_types r ts ts' : same_types ts' ts -> existsb (active r) ts = existsb (active r) ts'.
Proof. induction 1 as [|t t' l1 l2 Ht Hl IH]; [done|]. cbn [existsb]. by rewrite IH, (active_types _ _ _ Ht). Qed.

Lemma filter_none l : filter (fun _ => true = false) l = [].
Proof. by induction l. Qed.

(** The thread before round [r]. *)
Definition thread r ts w : Exec.Multi :=
  Exec.mkMulti (live r ts) (count_after r <$> live r ts) ((fun _ => false) <$> live r ts) w.

Lemma remove_finished_spec (f : T -> bool) r l l' w :
  (forall t t', exec_type t = exec_type t' -> f t = f t') -> same_types l' l ->
  Exec.remove_finished (Exec.mkMulti l' (count_after r <$> l) (f <$> l) w) =
    (@Ok E _ tt, Exec.mkMulti (filter (fun t => f t = false) l') (count_after r <$> filter (fun t => f t = false) l')
      ((fun _ => false) <$> filter (fun t => f t = false) l') w).
Proof.
  intros Hf Hl. rewrite <- (map_same_types f _ _ Hf Hl).
  rewrite <- (map_same_types (count_after r) l' l); [|unfold count_after; by intros t t' ->|done].
  unfold Exec.remove_finished, st_bind, asks, modify_state.
  cbn [Exec.shared Exec.executable_vec Exec.cycle_counts Exec.removal_flags].
  pose proof (retain_filter (F:=E) f (fun t => t) l') as Hid. rewrite !list_fmap_id in Hid. rewrite Hid.
  rewrite retain_filter, flags_left. done.
Qed.

Lemma multi_round task_freq fuel termination r ts w :
  0 <= r -> Forall countable ts ->
  Exec.multi_loop op_code task_freq (S fuel) termination (thread r ts w) =
    let '(ts', w') := spec_round step r ts w in
    if goes_on termination ts r 0 then
      if task_freq then Exec.multi_loop op_code task_freq fuel (after_poll termination) (thread (r + 1) ts' w')
      else (Panic, thread (r + 1) ts' w')
    else (Ok (Some OpOk), Exec.mkMulti [] [] [] w').
Proof using SteadyTasks0.
  intros Hr Hc. cbn [Exec.multi_loop]. rewrite poll_stops. set (b := stops termination 0).
  unfold thread at 1. unfold st_bind at 1, modify_state.
  cbn [Exec.shared Exec.executable_vec Exec.cycle_counts Exec.removal_flags].
  replace (if b then (fun _ => true) <$> ((fun _ => false) <$> live r ts) else (fun _ => false) <$> live r ts)
    with ((fun _ => b) <$> live r ts) by (destruct b; [by rewrite <- list_fmap_compose|done]).
  unfold st_bind at 1, gets. cbn [Exec.executable_vec]. unfold st_bind at 1.
  pose proof (for_each_run r b (live r ts) [] [] [] w Hr) as Hrun. cbn [app] in Hrun.
  change (len (@nil T)) with 0 in Hrun. rewrite Hrun; [|apply Forall_forall; intros t Ht; by apply list_elem_of_filter in Ht as []| |done|done].
  2:{ apply Forall_forall. intros t Ht. apply list_elem_of_filter in Ht as [_ Ht]. by rewrite Forall_forall in Hc; apply Hc. }
  pose proof (step_all_types (live r ts) w) as Hty. pose proof (spec_round_types r ts w) as Hty'.
  rewrite spec_round_live in Hty |- *.
  destruct (spec_round step r ts w) as [ts' w']. cbn [fst snd] in *.
  unfold st_bind at 1. rewrite remove_finished_spec; [|unfold ends_in; by intros t t' ->|done].
  unfold st_bind at 1. cbn [Exec.executable_vec].
  unfold goes_on. replace (r + Z.of_nat 0 + 1) with (r + 1) by lia. fold b.
  destruct b; cbn [negb andb orb].
  - by rewrite filter_none.
  - rewrite live_next by done.
    rewrite (existsb_types (r + 1) ts ts'), existsb_live by done. unfold thread.
    destruct (live (r + 1) ts') eqn:Hl; [done|]. by destruct task_freq.
Qed.

Lemma goes_on_next termination r ts ts' k :
  same_types ts' ts -> goes_on (after_poll termination) ts' (r + 1) k = goes_on termination ts r (S k).
Proof.
  intros Hty. unfold goes_on. rewrite stops_after_poll, <- (existsb_types _ _ _ Hty).
  by replace (r + 1 + Z.of_nat k + 1) with (r + Z.of_nat (S k) + 1) by lia.
Qed.

Lemma countable_types ts ts' : same_types ts' ts -> Forall countable ts -> Forall countable ts'.
Proof.
  induction 1 as [|t t' l1 l2 Ht Hl IH]; [done|]. inversion_clear 1. constructor; [|auto].
  unfold countable in *. by rewrite Ht.
Qed.

Lemma multi_loop_run k : forall r ts w fuel termination,
  0 <= r -> Forall countable ts -> (k < fuel)%nat ->
  (forall i, (i < k)%nat -> goes_on termination ts r i = true) -> goes_on termination ts r k = false ->
  Exec.multi_loop op_code true fuel termination (thread r ts w) =
    (Ok (Some OpOk), Exec.mkMulti [] [] [] (spec_run step (S k) r ts w).2).
Proof using SteadyTasks0.
  induction k as [|k IH]; intros r ts w fuel termination Hr Hc Hf Hon Hoff;
    (destruct fuel as [|fuel]; [lia|]); rewrite multi_round by done;
    pose proof (spec_round_types r ts w) as Hty.
  - cbn [spec_run]. rewrite Hoff. by destruct (spec_round step r ts w).
  - rewrite (Hon O) by lia. cbn [spec_run]. destruct (spec_round step r ts w) as [ts' w']. cbn [fst] in Hty.
    rewrite IH; [done|lia|by eapply countable_types|lia| |by rewrite (goes_on_next _ _ _ _ _ Hty)].
    intros i Hi. rewrite (goes_on_next _ _ _ _ _ Hty). apply Hon. lia.
Qed.

(** After the rounds of the longest task nobody goes on. *)
Lemma finite_tasks_end termination ts :
  Forall (fun t => exec_type t <> Infinite) ts -> exists k, goes_on termination ts 0 k = false.
Proof.
  intros Hall. enough (exists k, forall r, Z.of_nat k <= r -> existsb (active r) ts = false) as [k Hk].
  { exists k. unfold goes_on. rewrite Hk by lia. apply andb_false_r. }
  induction Hall as [|t ts Ht Hall [k IH]]; [by exists O|].
  exists (k + Z.to_nat (match exec_type t with Cycles n => n | _ => 1 end))%nat. intros r Hr.
  cbn [existsb]. rewrite IH by lia. rewrite orb_false_r. unfold active.
  destruct (exec_type t); [done|..]; apply Z.ltb_ge; lia.
Qed.

(** The least round at which a decidable condition holds. *)
Lemma first_false (f : nat -> bool) k :
  f k = false -> exists j, (j <= k)%nat /\ f j = false /\ forall i, (i < j)%nat -> f i = true.
Proof.
  revert f. induction k as [|k IH]; intros f Hk; [exists O; repeat split; auto; lia|].
  destruct (f O) eqn:H0; [|exists O; repeat split; auto; lia].
  destruct (IH (fun i => f (S i)) Hk) as (j & Hj & Hfj & Hi). exists (S j). repeat split; [lia|done|].
  intros [|i] Hlt; [done|apply Hi; lia].
Qed.

Lemma active_first t : countable t -> active 0 t = true.
Proof. unfold countable, active. destruct (exec_type t); [done|rewrite Z.ltb_lt; lia|done]. Qed.

Lemma thread_first ts w :
  Forall countable ts -> thread 0 ts w = Exec.mkMulti ts (replicate (length ts) 0) (replicate (length ts) false) w.
Proof.
  intros Hc. unfold thread.
  assert (live 0 ts = ts) as ->.
  { induction Hc as [|t ts Ht Hc IH]; [done|].
    rewrite filter_cons, decide_True, IH; [done|by apply active_first]. }
  clear Hc. f_equal; induction ts as [|t ts IH]; try done; rewrite fmap_cons; cbn [length replicate]; f_equal; auto.
  unfold count_after. by destruct (exec_type t).
Qed.

(** ** The thread of several tasks *)

(** The thread works on exactly the rounds of the specification: it ends with the
    first round after which it was told to stop or no task has work left. *)
Theorem exec_sched_multi_rounds ts w termination fuel k :
  Forall countable ts -> (k < fuel)%nat ->
  (forall i, (i < k)%nat -> goes_on termination ts 0 i = true) -> goes_on termination ts 0 k = false ->
  Exec.exec_sched_multi op_code ts true termination fuel w = (Ok (Some OpOk), (spec_run step (S k) 0 ts w).2).
Proof using SteadyTasks0.
  intros Hc Hf Hon Hoff. unfold Exec.exec_sched_multi.
  by rewrite <- thread_first, (multi_loop_run k) by (done || lia).
Qed.

(** It ends when no task is infinite, and when it is told to stop. *)
Theorem exec_sched_multi_ends ts w termination :
  Forall countable ts ->
  Forall (fun t => exec_type t <> Infinite) ts \/ (exists i, stops termination i = true) ->
  exists k, forall fuel, (k < fuel)%nat ->
    Exec.exec_sched_multi op_code ts true termination fuel w = (Ok (Some OpOk), (spec_run step (S k) 0 ts w).2).
Proof using SteadyTasks0.
  intros Hc Hend.
  assert (exists k, goes_on termination ts 0 k = false) as [k0 Hk0].
  { destruct Hend as [Hfin|[i Hi]]; [by apply finite_tasks_end|]. exists i. unfold goes_on. by rewrite Hi. }
  destruct (first_false _ _ Hk0) as (k & _ & Hoff & Hon). exists k. intros fuel Hf.
  by apply exec_sched_multi_rounds.
Qed.

(** Without a frequency it panics as soon as a second round is due. *)
Theorem no_frequency_panics ts w termination fuel :
  Forall countable ts ->
  Exec.exec_sched_multi op_code ts false termination (S fuel) w =
    (if goes_on termination ts 0 0 then Panic else Ok (Some OpOk), (spec_round step 0 ts w).2).
Proof using SteadyTasks0.
  intros Hc. unfold Exec.exec_sched_multi. rewrite <- thread_first, multi_round by (done || lia).
  destruct (spec_round step 0 ts w) as [ts' w']. by destruct (goes_on termination ts 0 0).
Qed.

(** ** The thread of one task *)

(** One operation of the task. *)
Lemma single_step {A} t w (k : OpResult -> st (T * W) E A) :
  exists x, st_bind (periodic_op op_code) k (t, w) = k x (step (t, w)).
Proof using SteadyTasks0. destruct (step_ok t w) as [x Hx]. exists x. unfold st_bind. by rewrite Hx. Qed.

Lemma single_loop_run k : forall r t w fuel termination,
  0 <= r -> countable t -> (k < fuel)%nat ->
  (forall i, (i < k)%nat -> stops termination i = false /\ active (r + Z.of_nat i) t = true) ->
  stops termination k = true \/ (active (r + Z.of_nat k) t = false /\ (0 < k)%nat) ->
  Exec.exec_sched_single op_code fuel termination (count_after r t) (t, w) =
    (Ok (Some OpOk), Nat.iter k step (t, w)).
Proof using SteadyTasks0.
  induction k as [|k IH]; intros r t w fuel termination Hr Hc Hf Hon Hoff; (destruct fuel as [|fuel]; [lia|]);
    cbn [Exec.exec_sched_single]; rewrite poll_stops.
  - destruct Hoff as [->|[_ Hk]]; [done|lia].
  - destruct (Hon O) as [-> Ha]; [lia|]. rewrite Z.add_0_r in Ha.
    pose proof (step_type t w) as Ht. rewrite Nat.iter_succ_r.
    assert (Hnext : active (r + 1) t = true ->
      Exec.exec_sched_single op_code fuel (after_poll termination) (count_after (r + 1) t) (step (t, w)) =
        (Ok (Some OpOk), Nat.iter k step (step (t, w)))).
    { intros Ha'. destruct (step (t, w)) as [t1 w1]. cbn [fst] in Ht.
      replace (count_after (r + 1) t) with (count_after (r + 1) t1) by (unfold count_after; by rewrite Ht).
      apply IH; [lia|unfold countable; by rewrite Ht|lia|..]; rewrite ?stops_after_poll, ?(active_types _ _ _ Ht).
      - intros i Hi. rewrite stops_after_poll, (active_types _ _ _ Ht).
        replace (r + 1 + Z.of_nat i) with (r + Z.of_nat (S i)) by lia. apply Hon. lia.
      - replace (r + 1 + Z.of_nat k) with (r + Z.of_nat (S k)) by lia. destruct Hoff as [?|[Hna _]]; [by left|].
        right. split; [done|]. destruct k; [|lia]. change (r + Z.of_nat 1) with (r + 1) in Hna. congruence. }
    assert (Hlast : active (r + 1) t = false -> k = O).
    { intros Hna. destruct k; [done|]. destruct (Hon 1%nat) as [_ Ha']; [lia|].
      change (r + Z.of_nat 1) with (r + 1) in Ha'. congruence. }
    unfold st_bind at 1, gets. cbn [fst]. unfold count_after, active, countable in *.
    destruct (exec_type t) as [|n|];
      match goal with |- st_bind _ ?f _ = _ => destruct (single_step t w f) as [x ->] end.
    + by apply Hnext.
    + apply Z.ltb_lt in Ha. unfold st_bind, lift, checked_add. rewrite (proj2 (Z.ltb_lt (r + 1) _)) by lia.
      destruct (r + 1 =? n) eqn:Hn; [rewrite Hlast by bool_lia; done|]. apply Hnext. bool_lia.
    + rewrite Hlast by (apply Z.ltb_lt in Ha; bool_lia). done.
Qed.

(** The thread does as many operations as there are rounds before it is told to
    stop, and as the task has cycles at most. *)
Theorem exec_sched_single_rounds t w termination fuel k :
  countable t -> (k < fuel)%nat ->
  (forall i, (i < k)%nat -> stops termination i = false /\ active (Z.of_nat i) t = true) ->
  stops termination k = true \/ (active (Z.of_nat k) t = false) ->
  Exec.exec_sched_single op_code fuel termination 0 (t, w) = (Ok (Some OpOk), Nat.iter k step (t, w)).
Proof using SteadyTasks0.
  intros Hc Hf Hon Hoff. rewrite <- (single_loop_run k 0 t w fuel termination); [|done..|].
  - f_equal. unfold count_after. by destruct (exec_type t).
  - destruct Hoff as [?|Hna]; [by left|]. right. split; [done|]. destruct k; [|lia].
    rewrite active_first in Hna; done.
Qed.

(** ** One task on either thread *)
Lemma spec_run_one n : forall r t w,
  (forall i, (i < n)%nat -> active (r + Z.of_nat i) t = true) ->
  spec_run step n r [t] w = ([(Nat.iter n step (t, w)).1], (Nat.iter n step (t, w)).2).
Proof using SteadyTasks0.
  induction n as [|n IH]; intros r t w Ha; [done|]. rewrite Nat.iter_succ_r. cbn [spec_run spec_round].
  pose proof (Ha O) as H0. rewrite Z.add_0_r in H0. rewrite H0 by lia. pose proof (step_type t w) as Ht.
  destruct (step (t, w)) as [t1 w1]. cbn [fst] in Ht. apply IH. intros i Hi. rewrite (active_types _ _ _ Ht).
  replace (r + 1 + Z.of_nat i) with (r + Z.of_nat (S i)) by lia. apply Ha. lia.
Qed.

Lemma active_total t n i : total_rounds t = Some n -> active (Z.of_nat i) t = true <-> (i < n)%nat.
Proof.
  unfold total_rounds, active. destruct (exec_type t); [done|..]; intros [= <-]; rewrite Z.ltb_lt; lia.
Qed.

(** A finite task that nobody stops does its cycles on either thread. *)
Theorem single_multi_agree t w n fuel :
  countable t -> total_rounds t = Some n -> (n < fuel)%nat ->
  Exec.exec_sched_single op_code fuel None 0 (t, w) = (Ok (Some OpOk), Nat.iter n step (t, w)) /\
  Exec.exec_sched_multi op_code [t] true None fuel w = (Ok (Some OpOk), (Nat.iter n step (t, w)).2).
Proof using SteadyTasks0.
  intros Hc Hn Hf. pose proof (fun i => active_total t n i Hn) as Ha. split.
  - apply exec_sched_single_rounds; [done..| |].
    + intros i Hi. split; [done|]. by apply Ha.
    + right. apply not_true_is_false. rewrite Ha. lia.
  - destruct n as [|n]; [specialize (Ha O); rewrite active_first in Ha by done; exfalso; apply Nat.nlt_0_r with O, Ha; done|].
    rewrite (exec_sched_multi_rounds _ _ _ _ n); [|by constructor|lia| |].
    + rewrite spec_run_one; [done|]. intros i Hi. by apply Ha.
    + intros i Hi. unfold goes_on. cbn [existsb stops negb andb]. rewrite orb_false_r.
      replace (0 + Z.of_nat i + 1) with (Z.of_nat (S i)) by lia. apply Ha. lia.
    + unfold goes_on. cbn [existsb stops negb andb]. rewrite orb_false_r.
      replace (0 + Z.of_nat n + 1) with (Z.of_nat (S n)) by lia. apply not_true_is_false. rewrite Ha. lia.
Qed.

(** When it is told to stop, the thread of one task stops at once; the thread of
    several tasks lets its tasks work once more. *)
Theorem stopped_works_once_more t w termination fuel k :
  countable t -> (k < fuel)%nat -> active (Z.of_nat k) t = true ->
  stops termination k = true -> (forall i, (i < k)%nat -> stops termination i = false) ->
  Exec.exec_sched_single op_code fuel termination 0 (t, w) = (Ok (Some OpOk), Nat.iter k step (t, w)) /\
  Exec.exec_sched_multi op_code [t] true termination fuel w = (Ok (Some OpOk), (Nat.iter (S k) step (t, w)).2).
Proof using SteadyTasks0.
  intros Hc Hf Ha Hs Hns.
  assert (Hall : forall i, (i <= k)%nat -> active (Z.of_nat i) t = true).
  { intros i Hi. unfold active in *. destruct (exec_type t); [done|..]; rewrite Z.ltb_lt in *; lia. }
  split.
  - apply exec_sched_single_rounds; [done..| |by left]. intros i Hi. split; [by apply Hns|]. apply Hall. lia.
  - rewrite (exec_sched_multi_rounds _ _ _ _ k); [|by constructor|done| |unfold goes_on; by rewrite Hs].
    + rewrite spec_run_one; [done|]. intros i Hi. apply Hall. lia.
    + intros i Hi. unfold goes_on. rewrite Hns by done. cbn [existsb negb andb]. rewrite orb_false_r.
      replace (0 + Z.of_nat i + 1) with (Z.of_nat (S i)) by lia. apply Hall. lia.
Qed.

(** A task of no cycles is not skipped: it works until its count overflows. *)
Theorem zero_cycles_panics fuel : forall r t w,
  exec_type t = Cycles 0 -> 0 <= r -> r < 2 ^ 32 -> 2 ^ 32 - r <= Z.of_nat fuel ->
  (Exec.exec_sched_single op_code fuel None r (t, w)).1 = Panic.
Proof using SteadyTasks0.
  induction fuel as [|fuel IH]; intros r t w Ht Hr Hr' Hf; [lia|].
  cbn [Exec.exec_sched_single poll_termination]. unfold st_bind at 1, gets. cbn [fst]. rewrite Ht.
  match goal with |- (st_bind _ ?f _).1 = _ => destruct (single_step t w f) as [x ->] end.
  unfold st_bind, lift, checked_add. destruct (r + 1 <? 2 ^ 32) eqn:Ho; [|done].
  replace (r + 1 =? 0) with false by bool_lia. pose proof (step_type t w) as Hty. rewrite Ht in Hty.
  destruct (step (t, w)) as [t1 w1]. apply IH; [done|lia|bool_lia|lia].
Qed.

End Round.

(** ** Sample tasks

    Tasks that count their operations and log their number. *)
Record Logger : Type := mkLogger { number : Z; kind : ExecutionType; done_ops : Z }.

Definition log_step (x : Logger * list Z) : Logger * list Z :=
  (mkLogger (number x.1) (kind x.1) (done_ops x.1 + 1), x.2 ++ [number x.1]).

#[local] Instance logger_task : Executable Logger (list Z) unit := {
  exec_type := kind;
  periodic_op _ := fun x => (Ok OpOk, log_step x);
}.

#[local] Instance logger_steady op_code : SteadyTasks op_code log_step.
Proof. split; [intros t w; by exists OpOk|done]. Qed.

Definition samples : list Logger := [mkLogger 1 (Cycles 2) 0; mkLogger 2 OneShot 0; mkLogger 3 (Cycles 3) 0].

Lemma exec_sched_multi_witness :
  Exec.exec_sched_multi 0 samples true (Some [BusEmpty]) 4 [] = (Ok (Some OpOk), [1; 2; 3; 1; 3; 3]).
Proof.
  rewrite (exec_sched_multi_rounds 0 log_step samples [] _ 4 2); [reflexivity| |lia| |reflexivity].
  - repeat constructor; cbn; lia.
  - intros i Hi. destruct i as [|[|i]]; [reflexivity..|lia].
Defined.

Lemma stopped_witness :
  Exec.exec_sched_multi 0 [mkLogger 1 Infinite 0] true (Some [BusEmpty; BusDisconnected]) 4 [] = (Ok (Some OpOk), [1; 1]) /\
  Exec.exec_sched_single 0 4 (Some [BusEmpty; BusDisconnected]) 0 (mkLogger 1 Infinite 0, []) =
    (Ok (Some OpOk), (mkLogger 1 Infinite 1, [1])).
Proof.
  destruct (stopped_works_once_more 0 log_step (mkLogger 1 Infinite 0) [] (Some [BusEmpty; BusDisconnected]) 4 1)
    as [H1 H2]; [done|lia|done|done|intros i Hi; by replace i with O by lia|]. split; [apply H2|apply H1].
Defined.
