(* ===== verification/SimLink.v ===== *)
(** * The link to the simulator

    The UDP client of the example ([satrs-example/src/interface/sim_client_udp.rs])
    and the UDP server of the simulator ([satrs-minisim/src/udp.rs]), on the socket
    of [UdpServer] and the messages of [Eps]. *)

From Stdlib Require Import ZArith Lia Bool.
From stdpp Require Import base list gmap.
From S2P Require Import Prelude Spacepackets Tmtc Services Requests Eps Pcdu TcpServer UdpServer.

Local Open Scope Z_scope.

#[export] Program Instance SimComponent_countable : Countable SimComponent :=
  inj_countable' Codec.comp_code Codec.comp_of _.
Next Obligation. by intros []. Qed.

(** A loop, and then what depends on its result; [None] when it does not end. *)
Definition and_then_some {S E A B : Type} (m : st S E (option A)) (k : A -> st S E (option B)) : st S E (option B) :=
  let* r := m in match r with Some a => k a | None => ret None end.

(** ** Control messages ([satrs-minisim/src/lib.rs]) *)
Inductive SimCtrlRequest : Type := Ping.

(** The text of the JSON error is left out. *)
Inductive SimRequestError : Type :=
| SerdeJson
| TargetRequestMissmatch (request : SimRequest).

Inductive SimCtrlReply : Type :=
| Pong
| InvalidRequest (e : SimRequestError).

Definition component (r : SimReply) : SimComponent := target (reply_inner r).

#[global] Instance ctrl_request_payload `{Json SimCtrlRequest} : SimPayload SimCtrlRequest := SimCtrl.
#[global] Instance ctrl_reply_payload `{Json SimCtrlReply} : SimPayload SimCtrlReply := SimCtrl.

(** ** The client *)
Inductive SimClientCreationError : Type :=
| CreationIo (e : ErrorKind)
| CreationTimeout
| InvalidReplyJsonError
| ReplyIsNotPong (r : SimReply).

Record SimClientUdp : Type := mkClient {
  udp_client : UdpSocket;
  simulator_addr : Z;
  sim_request_rx : channel SimRequest;
  reply_map : gmap SimComponent (channel SimReply);
  reply_buf : list Z;
}.

Module Client.
Section Client.
Context `{Json SimRequest} `{Json SimReply} `{Json SimCtrlRequest} `{Json SimCtrlReply}.

(** On the socket and the buffer of the replies. *)
Definition attempt_connection (simulator_addr : Z) : st (UdpSocket * list Z) SimClientCreationError unit :=
  let sim_req := Sim.new_request (T:=SimCtrlRequest) Ping in
  let* _ := st_map_err CreationIo (on_fst (Socket.send_to (to_json sim_req) simulator_addr)) in
  let* r := attempt (fun x =>
    match Socket.recv_from x.2 x.1 with
    | (Ok (reply_len, _, buf), sock) => (Ok reply_len, (sock, buf))
    | (Err e, sock) => (Err e, (sock, x.2))
    | (Panic, sock) => (Panic, (sock, x.2))
    end) in
  match r with
  | Ok reply_len =>
      let* data := asks (fun x => slice x.2 0 reply_len) in
      let* sim_reply := lift (ok_or (from_json (A:=SimReply) data) InvalidReplyJsonError) in
      if negb (bool_decide (component sim_reply = SimCtrl)) then throw (ReplyIsNotPong sim_reply) else
      let* sim_ctrl_reply := lift (expect (Sim.from_sim_message (T:=SimCtrlReply) (reply_inner sim_reply))) in
      match sim_ctrl_reply with
      | InvalidRequest _ => lift Panic
      | Pong => ret tt
      end
  | Err WouldBlock | Err TimedOut => throw CreationTimeout
  | Err e => throw (CreationIo e)
  | Panic => lift Panic
  end.

(** The socket is bound by the caller. *)
Definition new (socket : UdpSocket) (simulator_addr : Z) (sim_request_rx : channel SimRequest)
    : res SimClientCreationError SimClientUdp :=
  let '(r, (sock, buf)) := attempt_connection simulator_addr (socket, replicate 4096 0) in
  let? _ := r in
  Ok (mkClient sock simulator_addr sim_request_rx ∅ buf).

Definition next_request : st SimClientUdp TryRecvError SimRequest :=
  on_field sim_request_rx (fun rx c => mkClient (udp_client c) (simulator_addr c) rx (reply_map c) (reply_buf c))
    Channel.try_recv.

Definition send_request (request : SimRequest) : st SimClientUdp ErrorKind unit :=
  fun c => on_field udp_client (fun s c => mkClient s (simulator_addr c) (sim_request_rx c) (reply_map c) (reply_buf c))
    (Socket.send_to (to_json request) (simulator_addr c)) c.

(** The first loop of [operation]: whether a request was sent. *)
Fixpoint forward_requests (fuel : nat) (handled : bool) : st SimClientUdp Empty_set (option bool) :=
  match fuel with
  | O => ret None
  | S fuel' =>
      let* r := attempt next_request in
      match r with
      | Ok request =>
          let* s := attempt (send_request request) in
          match s with
          | Ok _ => forward_requests fuel' true
          | _ => ret (Some handled)
          end
      | _ => ret (Some handled)
      end
  end.

Definition receive_reply : st SimClientUdp ErrorKind (list Z) :=
  let* recvd_bytes := (fun c =>
    match Socket.recv_from (reply_buf c) (udp_client c) with
    | (Ok (n, _, buf), sock) => (Ok n, mkClient sock (simulator_addr c) (sim_request_rx c) (reply_map c) buf)
    | (Err e, sock) => (Err e, mkClient sock (simulator_addr c) (sim_request_rx c) (reply_map c) (reply_buf c))
    | (Panic, sock) => (Panic, mkClient sock (simulator_addr c) (sim_request_rx c) (reply_map c) (reply_buf c))
    end) in
  asks (fun c => slice (reply_buf c) 0 recvd_bytes).

(** A reply goes to the recipient of its component; without one it is dropped. *)
Definition pass_reply (sim_reply : SimReply) : st SimClientUdp Empty_set unit :=
  let* recipients := gets reply_map in
  match recipients !! component sim_reply with
  | Some sender =>
      let '(r, sender) := Channel.send sim_reply sender in
      let* _ := modify_state (fun c =>
        mkClient (udp_client c) (simulator_addr c) (sim_request_rx c)
          (<[component sim_reply := sender]> (reply_map c)) (reply_buf c)) in
      lift (expect r)
  | None => ret tt
  end.

(** The second loop of [operation]: whether data was received. *)
Fixpoint receive_replies (fuel : nat) (received : bool) : st SimClientUdp Empty_set (option bool) :=
  match fuel with
  | O => ret None
  | S fuel' =>
      let* r := attempt receive_reply in
      match r with
      | Ok data =>
          let* _ := match from_json (A:=SimReply) data with
                    | Some sim_reply => pass_reply sim_reply
                    | None => ret tt
                    end in
          receive_replies fuel' true
      | _ => ret (Some received)
      end
  end.

Definition operation (fuel reply_fuel : nat) : st SimClientUdp Empty_set (option HandlingStatus) :=
  and_then_some (forward_requests fuel false) (fun handled =>
  and_then_some (receive_replies reply_fuel false) (fun received =>
  ret (Some (if negb handled && negb received then HandlingEmpty else HandledOne)))).

Definition add_reply_recipient (comp : SimComponent) (reply_sender : channel SimReply) (c : SimClientUdp) : SimClientUdp :=
  mkClient (udp_client c) (simulator_addr c) (sim_request_rx c) (<[comp := reply_sender]> (reply_map c)) (reply_buf c).

End Client.
End Client.

(** ** The server *)
Record SimUdpServer : Type := mkSimServer {
  server_socket : UdpSocket;
  request_sender : channel SimRequest;
  reply_receiver : channel SimReply;
  reply_queue : list SimReply;
  max_num_replies : Z;
  stop_signal : bool;
  req_buf : list Z;
  client_addr : option Z;
}.

Module Server.
Section Server.
Context `{Json SimRequest} `{Json SimReply}.

(** [stop_signal] says whether there is one. *)
Definition new (socket : UdpSocket) (request_sender : channel SimRequest) (reply_receiver : channel SimReply)
    (max_num_replies : Z) (stop_signal : bool) : SimUdpServer :=
  mkSimServer socket request_sender reply_receiver [] max_num_replies stop_signal (replicate 4096 0) None.

(** One datagram; it makes its sender the client. *)
Definition receive : st SimUdpServer ErrorKind (list Z) :=
  let* bytes_read := (fun s =>
    match Socket.recv_from (req_buf s) (server_socket s) with
    | (Ok (n, src, buf), sock) =>
        (Ok n, mkSimServer sock (request_sender s) (reply_receiver s) (reply_queue s) (max_num_replies s)
                 (stop_signal s) buf (Some src))
    | (Err e, sock) =>
        (Err e, mkSimServer sock (request_sender s) (reply_receiver s) (reply_queue s) (max_num_replies s)
                  (stop_signal s) (req_buf s) (client_addr s))
    | (Panic, sock) => (Panic, s)
    end) in
  asks (fun s => slice (req_buf s) 0 bytes_read).

Definition send_request (r : SimRequest) : st SimUdpServer unit unit :=
  on_field request_sender (fun c s =>
    mkSimServer (server_socket s) c (reply_receiver s) (reply_queue s) (max_num_replies s) (stop_signal s)
      (req_buf s) (client_addr s)) (Channel.send r).

Fixpoint process_requests (fuel : nat) (processed_requests : bool) : st SimUdpServer Empty_set (option bool) :=
  match fuel with
  | O => ret None
  | S fuel' =>
      let* r := attempt receive in
      match r with
      | Ok data =>
          match from_json (A:=SimRequest) data with
          | None => ret (Some processed_requests)
          | Some sim_req =>
              let* s := attempt (send_request sim_req) in
              let* _ := lift (expect s) in
              process_requests fuel' true
          end
      | _ => ret (Some processed_requests)
      end
  end.

(** A full queue loses its oldest reply. *)
Definition store_reply (reply : SimReply) (s : SimUdpServer) : SimUdpServer :=
  let q := if max_num_replies s <=? len (reply_queue s) then tail (reply_queue s) else reply_queue s in
  mkSimServer (server_socket s) (request_sender s) (reply_receiver s) (q ++ [reply]) (max_num_replies s)
    (stop_signal s) (req_buf s) (client_addr s).

Definition next_reply : st SimUdpServer TryRecvError SimReply :=
  on_field reply_receiver (fun c s =>
    mkSimServer (server_socket s) (request_sender s) c (reply_queue s) (max_num_replies s) (stop_signal s)
      (req_buf s) (client_addr s)) Channel.try_recv.

(** A disconnected receiver is logged and polled again. *)
Fixpoint process_replies (fuel : nat) (processed_replies : bool) : st SimUdpServer Empty_set (option bool) :=
  match fuel with
  | O => ret None
  | S fuel' =>
      let* r := attempt next_reply in
      match r with
      | Ok reply =>
          let* _ := modify_state (store_reply reply) in
          process_replies fuel' true
      | Err TryRecvEmpty => ret (Some processed_replies)
      | Err TryRecvDisconnected => process_replies fuel' processed_replies
      | Panic => lift Panic
      end
  end.

(** The replies of the queue, one after the other. *)
Fixpoint send_loop (addr : Z) (q : list SimReply) (sent_replies : bool) : st SimUdpServer Empty_set bool :=
  match q with
  | [] => ret sent_replies
  | reply :: q' =>
      let* _ := modify_state (fun s =>
        mkSimServer (server_socket s) (request_sender s) (reply_receiver s) q' (max_num_replies s) (stop_signal s)
          (req_buf s) (client_addr s)) in
      let* r := attempt (on_field server_socket (fun c s =>
        mkSimServer c (request_sender s) (reply_receiver s) (reply_queue s) (max_num_replies s) (stop_signal s)
          (req_buf s) (client_addr s)) (Socket.send_to (to_json reply) addr)) in
      let* _ := lift (expect r) in
      send_loop addr q' true
  end.

Definition send_replies : st SimUdpServer Empty_set bool :=
  let* addr := gets client_addr in
  match addr with
  | None => ret false
  | Some addr => let* q := gets reply_queue in send_loop addr q false
  end.

(** A turn of [run]: whether there was something to do. *)
Definition turn (fuel reply_fuel : nat) : st SimUdpServer Empty_set (option bool) :=
  and_then_some (process_requests fuel false) (fun processed_requests =>
  and_then_some (process_replies reply_fuel false) (fun processed_replies =>
  let* sent_replies := send_replies in
  ret (Some (processed_requests || processed_replies || sent_replies)))).

(** [run] over the values of the stop signal that are seen; [true] when it has ended. *)
Fixpoint run (fuel reply_fuel : nat) (signals : list bool) : st SimUdpServer Empty_set (option bool) :=
  match signals with
  | [] => ret (Some false)
  | signal :: signals' =>
      let* stop := gets stop_signal in
      if stop && signal then ret (Some true)
      else and_then_some (turn fuel reply_fuel) (fun _ => run fuel reply_fuel signals')
  end.

End Server.
End Server.

(** * Lemmas *)
Section Link.
Context `{Json SimRequest} `{Json SimReply}.

(** *** The client *)

Lemma forward_run fuel : forall h sock addr rx m buf,
  (length (queue rx) < fuel)%nat -> refuses sock addr = false ->
  Client.forward_requests fuel h (mkClient sock addr rx m buf) =
    (Ok (Some (h || negb (bool_decide (queue rx = [])))),
     mkClient (mail sock addr (to_json <$> queue rx)) addr (Channel.set_queue [] rx) m buf).
Proof.
  induction fuel as [|fuel IH]; intros h sock addr rx m buf Hf Hr; [lia|]. cbn [Client.forward_requests].
  unfold st_bind at 1, attempt at 1, Client.next_request, on_field, Channel.try_recv. cbn [sim_request_rx].
  destruct (queue rx) as [|r q] eqn:Hq.
  - rewrite orb_false_r, mail_nil, set_queue_nil by done. by destruct (tx_alive rx).
  - unfold st_bind, attempt at 1, Client.send_request, on_field, Socket.send_to.
    cbn [simulator_addr udp_client sim_request_rx reply_map reply_buf]. rewrite Hr.
    rewrite IH by (cbn in *; (lia || done)). cbn [Channel.set_queue queue].
    rewrite orb_true_r. f_equal. f_equal. unfold mail. cbn [refuses inbox outbox]. rewrite Hr.
    by rewrite <- app_assoc.
Qed.

(** What one side makes of the datagrams that arrive. *)
Definition decoded {A : Type} `{Json A} (n : nat) (ds : list (list Z * Z)) : list A :=
  omap (fun d => from_json (take n d.1)) ds.

(** The recipients after a reply. *)
Definition route (m : gmap SimComponent (channel SimReply)) (r : SimReply) : gmap SimComponent (channel SimReply) :=
  alter (fun ch => Channel.set_queue (queue ch ++ [r]) ch) (component r) m.

Definition recipients_alive (m : gmap SimComponent (channel SimReply)) : Prop :=
  map_Forall (fun _ ch => rx_alive ch = true) m.

Lemma route_alive m r : recipients_alive m -> recipients_alive (route m r).
Proof.
  intros Hm c ch. unfold route. rewrite lookup_alter. case_decide; [|apply Hm].
  rewrite fmap_Some. intros (ch0 & Hch & ->). by apply (Hm _ _ Hch).
Qed.

Lemma pass_run r sock addr rx m buf :
  recipients_alive m ->
  Client.pass_reply r (mkClient sock addr rx m buf) = (Ok tt, mkClient sock addr rx (route m r) buf).
Proof.
  intros Hm. unfold Client.pass_reply, st_bind, gets, route. cbn [reply_map].
  destruct (m !! component r) as [ch|] eqn:Hc.
  - unfold Channel.send. rewrite (Hm _ _ Hc). unfold modify_state, lift. cbn [expect udp_client simulator_addr sim_request_rx reply_map reply_buf].
    do 2 f_equal. apply map_eq. intros c. rewrite lookup_alter, lookup_insert. case_decide; [|done].
    subst. by rewrite Hc.
  - unfold ret. do 2 f_equal. apply map_eq. intros c. rewrite lookup_alter. case_decide; [|done]. subst. by rewrite Hc.
Qed.

Lemma receive_run fuel ds : forall g sock addr rx m buf,
  (length ds < fuel)%nat -> inbox sock = (fun d => Datagram d.1 d.2) <$> ds -> recipients_alive m ->
  exists buf', length buf' = length buf /\
    Client.receive_replies fuel g (mkClient sock addr rx m buf) =
      (Ok (Some (g || negb (bool_decide (ds = [])))),
       mkClient (Socket.set_inbox [] sock) addr rx (foldl route m (decoded (length buf) ds)) buf').
Proof.
  induction fuel as [|fuel IH] in ds |- *; intros g sock addr rx m buf Hf Hin Hm; [lia|]. destruct ds as [|[d from] ds].
  - exists buf. split; [done|]. cbn [Client.receive_replies]. unfold st_bind, attempt, Client.receive_reply, st_bind, Socket.recv_from.
    cbn [reply_buf udp_client]. rewrite Hin. cbn. rewrite orb_false_r. by destruct sock; cbn in *; subst.
  - rewrite fmap_cons in Hin. cbn [fst snd] in Hin. set (data := take (length buf) d).
    set (sock1 := Socket.set_inbox ((fun d => Datagram d.1 d.2) <$> ds) sock).
    assert (Hlb : length (splice buf 0 data) = length buf).
    { apply length_splice; [lia|]. unfold data, len. rewrite length_take. lia. }
    cbn [Client.receive_replies]. unfold st_bind at 1, attempt, Client.receive_reply, st_bind at 1, Socket.recv_from.
    cbn [reply_buf udp_client simulator_addr sim_request_rx reply_map]. rewrite Hin. fold data sock1. unfold asks. cbn [reply_buf].
    rewrite slice_splice. cbn [decoded omap list_omap fst]. fold data.
    destruct (from_json data) as [r|].
    + unfold st_bind. rewrite pass_run by done.
      destruct (IH ds true sock1 addr rx (route m r) (splice buf 0 data)) as (buf' & Hlen & Hrun);
        [cbn in *; lia|done|by apply route_alive|].
      exists buf'. split; [lia|]. rewrite Hrun, Hlb. cbn. by rewrite orb_true_r.
    + destruct (IH ds true sock1 addr rx m (splice buf 0 data)) as (buf' & Hlen & Hrun); [cbn in *; lia|done|done|].
      exists buf'. split; [lia|]. cbn [st_bind ret]. rewrite Hrun, Hlb. cbn. by rewrite orb_true_r.
Qed.

(** An operation of the client sends the requests that wait and passes on the
    replies that have arrived, both in order. *)
Theorem client_operation_correct fuel reply_fuel sock addr rx m buf ds :
  (length (queue rx) < fuel)%nat -> (length ds < reply_fuel)%nat ->
  inbox sock = (fun d => Datagram d.1 d.2) <$> ds -> refuses sock addr = false -> recipients_alive m ->
  exists buf', length buf' = length buf /\
    Client.operation fuel reply_fuel (mkClient sock addr rx m buf) =
      (Ok (Some (if bool_decide (queue rx = [] /\ ds = []) then HandlingEmpty else HandledOne)),
       mkClient (Socket.set_inbox [] (mail sock addr (to_json <$> queue rx))) addr (Channel.set_queue [] rx)
         (foldl route m (decoded (length buf) ds)) buf').
Proof.
  intros Hf Hrf Hin Href Hm.
  destruct (receive_run reply_fuel ds false (mail sock addr (to_json <$> queue rx)) addr (Channel.set_queue [] rx) m buf)
    as (buf' & Hlen & Hrun); [done|done|done|].
  exists buf'. split; [done|]. unfold Client.operation, and_then_some, st_bind.
  rewrite forward_run by done. rewrite Hrun. unfold ret. do 3 f_equal. cbn [orb].
  rewrite !negb_involutive, <- bool_decide_and. done.
Qed.

(** *** The server *)

(** A queue of at most [max] replies that loses the oldest ones. *)
Definition push (max : Z) (q : list SimReply) (r : SimReply) : list SimReply :=
  (if max <=? len q then tail q else q) ++ [r].

Lemma push_all max rs : forall q, 0 < max -> len q <= max ->
  foldl (push max) q rs = drop (length q + length rs - Z.to_nat max) (q ++ rs).
Proof.
  induction rs as [|r rs IH]; intros q Hmax Hq; cbn [foldl].
  - rewrite app_nil_r. by replace (length q + length [] - Z.to_nat max)%nat with O by (cbn; unfold len in *; lia).
  - rewrite IH; [|done|unfold push; destruct (Z.leb_spec max (len q)); destruct q; cbn in *; len_lia].
    unfold push. destruct (Z.leb_spec max (len q)) as [Hfull|Hroom].
    + destruct q as [|x q]; [cbn in *; len_lia|]. cbn [tail app length]. rewrite length_app. cbn [length].
      replace (S (length q) + S (length rs) - Z.to_nat max)%nat with (S (length q + 1 + length rs - Z.to_nat max))
        by (unfold len in *; cbn [length] in *; lia).
      cbn [drop]. by rewrite <- app_assoc.
    + rewrite length_app. cbn [length].
      replace (length q + 1 + length rs)%nat with (length q + S (length rs))%nat by lia. by rewrite <- app_assoc.
Qed.

Definition last_from (ds : list (list Z * Z)) (addr : option Z) : option Z :=
  match last ds with Some d => Some d.2 | None => addr end.

Lemma last_from_cons d ds addr : last_from (d :: ds) addr = last_from ds (Some d.2).
Proof.
  unfold last_from. destruct ds as [|x ds]; [done|]. rewrite last_cons_cons.
  destruct (last (x :: ds)) eqn:Hl; [done|]. by apply last_None in Hl.
Qed.

Definition appended {A : Type} (l : list A) (c : channel A) : channel A := Channel.set_queue (queue c ++ l) c.

Lemma appended_cons {A} (x : A) l c : appended l (appended [x] c) = appended (x :: l) c.
Proof. unfold appended. destruct c. cbn. by rewrite <- app_assoc. Qed.

Lemma process_requests_run fuel ds : forall p sock tx rr q max stop buf addr,
  (length ds < fuel)%nat -> inbox sock = (fun d => Datagram d.1 d.2) <$> ds -> rx_alive tx = true ->
  Forall (fun d => is_Some (from_json (A:=SimRequest) (take (length buf) d.1))) ds ->
  exists buf', length buf' = length buf /\
    Server.process_requests fuel p (mkSimServer sock tx rr q max stop buf addr) =
      (Ok (Some (p || negb (bool_decide (ds = [])))),
       mkSimServer (Socket.set_inbox [] sock) (appended (decoded (length buf) ds) tx) rr q max stop buf' (last_from ds addr)).
Proof.
  induction fuel as [|fuel IH] in ds |- *; intros p sock tx rr q max stop buf addr Hf Hin Htx Hall; [lia|].
  destruct ds as [|[d from] ds].
  - exists buf. split; [done|]. cbn [Server.process_requests]. unfold st_bind, attempt, Server.receive, st_bind, Socket.recv_from.
    cbn [req_buf server_socket]. rewrite Hin. cbn. rewrite orb_false_r. unfold appended.
    rewrite app_nil_r. by destruct sock, tx; cbn in *; subst.
  - inversion_clear Hall as [|? ? [r Hr] Hall']. cbn [fst] in Hr.
    rewrite fmap_cons in Hin. cbn [fst snd] in Hin. set (data := take (length buf) d) in *.
    set (sock1 := Socket.set_inbox ((fun d => Datagram d.1 d.2) <$> ds) sock).
    assert (Hlb : length (splice buf 0 data) = length buf).
    { apply length_splice; [lia|]. unfold data, len. rewrite length_take. lia. }
    destruct (IH ds true sock1 (appended [r] tx) rr q max stop (splice buf 0 data) (Some from)) as (buf' & Hlen & Hrun);
      [cbn in *; lia|done|done|by rewrite Hlb|].
    exists buf'. split; [lia|].
    cbn [Server.process_requests]. unfold st_bind at 1, attempt at 1, Server.receive, st_bind at 1, Socket.recv_from.
    cbn [req_buf server_socket request_sender reply_receiver reply_queue max_num_replies stop_signal client_addr].
    rewrite Hin. fold data sock1. unfold asks. cbn [req_buf]. rewrite slice_splice. cbn iota beta. rewrite Hr.
    unfold st_bind, attempt, Server.send_request, on_field, Channel.send.
    cbn [req_buf server_socket request_sender reply_receiver reply_queue max_num_replies stop_signal client_addr].
    rewrite Htx. cbn [expect lift]. unfold lift. fold (appended [r] tx). rewrite Hrun, Hlb, appended_cons.
    rewrite last_from_cons. cbn [decoded omap list_omap fst]. fold data. rewrite Hr. cbn. by rewrite orb_true_r.
Qed.

Lemma process_replies_run fuel : forall p sock tx rr q max stop buf addr,
  (length (queue rr) < fuel)%nat -> tx_alive rr = true ->
  Server.process_replies fuel p (mkSimServer sock tx rr q max stop buf addr) =
    (Ok (Some (p || negb (bool_decide (queue rr = [])))),
     mkSimServer sock tx (Channel.set_queue [] rr) (foldl (push max) q (queue rr)) max stop buf addr).
Proof.
  induction fuel as [|fuel IH]; intros p sock tx rr q max stop buf addr Hf Htx; [lia|].
  cbn [Server.process_replies]. unfold st_bind, attempt, Server.next_reply, on_field, Channel.try_recv.
  cbn [reply_receiver]. destruct (queue rr) as [|r l] eqn:Hq.
  - rewrite Htx. rewrite orb_false_r, set_queue_nil by done. done.
  - unfold modify_state, Server.store_reply.
    cbn [req_buf server_socket request_sender reply_receiver reply_queue max_num_replies stop_signal client_addr].
    rewrite IH by (cbn in *; (lia || done)). cbn [Channel.set_queue queue foldl]. rewrite orb_true_r. done.
Qed.

Lemma send_loop_run addr q : forall b sock tx rr q0 max stop buf ca,
  refuses sock addr = false -> q = q0 ->
  Server.send_loop addr q b (mkSimServer sock tx rr q0 max stop buf ca) =
    (Ok (b || negb (bool_decide (q = []))), mkSimServer (mail sock addr (to_json <$> q)) tx rr [] max stop buf ca).
Proof.
  induction q as [|r q IH]; intros b sock tx rr q0 max stop buf ca Hr <-; cbn [Server.send_loop].
  - unfold ret. cbn. by rewrite orb_false_r, mail_nil.
  - unfold st_bind, modify_state, attempt, on_field, Socket.send_to.
    cbn [req_buf server_socket request_sender reply_receiver reply_queue max_num_replies stop_signal client_addr].
    rewrite Hr. unfold lift. cbn [expect]. rewrite IH by done. rewrite orb_true_r. cbn [orb]. f_equal. f_equal.
    unfold mail. cbn [refuses inbox outbox]. rewrite Hr. by rewrite <- app_assoc.
Qed.

(** A turn of the server passes on the requests that have arrived and sends the
    latest replies to the client it heard from last. *)
Theorem server_turn_correct fuel reply_fuel sock tx rr q max stop buf addr ds :
  (length ds < fuel)%nat -> (length (queue rr) < reply_fuel)%nat ->
  inbox sock = (fun d => Datagram d.1 d.2) <$> ds -> rx_alive tx = true -> tx_alive rr = true ->
  Forall (fun d => is_Some (from_json (A:=SimRequest) (take (length buf) d.1))) ds ->
  (forall a, last_from ds addr = Some a -> refuses sock a = false) ->
  0 < max -> len q <= max ->
  let replies := drop (length q + length (queue rr) - Z.to_nat max) (q ++ queue rr) in
  exists buf' b, length buf' = length buf /\
    Server.turn fuel reply_fuel (mkSimServer sock tx rr q max stop buf addr) =
      (Ok (Some b),
       match last_from ds addr with
       | Some a => mkSimServer (mail (Socket.set_inbox [] sock) a (to_json <$> replies)) (appended (decoded (length buf) ds) tx)
                     (Channel.set_queue [] rr) [] max stop buf' (Some a)
       | None => mkSimServer (Socket.set_inbox [] sock) (appended (decoded (length buf) ds) tx)
                   (Channel.set_queue [] rr) replies max stop buf' None
       end) /\
    (b = false <-> ds = [] /\ queue rr = [] /\ (replies = [] \/ addr = None)).
Proof.
  intros Hf Hrf Hin Htx Hrr Hall Href Hmax Hq replies.
  destruct (process_requests_run fuel ds false sock tx rr q max stop buf addr Hf Hin Htx Hall) as (buf' & Hlen & Hrun).
  unfold Server.turn, and_then_some, st_bind. rewrite Hrun.
  rewrite process_replies_run by done. rewrite push_all by done. fold replies.
  unfold Server.send_replies, st_bind, gets. cbn [client_addr reply_queue orb].
  destruct (last_from ds addr) as [a|] eqn:Ha; eexists buf', _; (split; [done|]).
  - rewrite send_loop_run by (by try apply Href). split; [reflexivity|].
    rewrite !orb_false_iff, !negb_false_iff, !bool_decide_eq_true. cbn [reply_queue].
    split; [intros ([Hds Hqr] & _ & Hre); split_and!; [done|done|by left]|].
    intros (Hds & Hqr & [Hre|Hno]); [done|]. subst ds addr. discriminate Ha.
  - split; [reflexivity|]. rewrite !orb_false_iff, !negb_false_iff, !bool_decide_eq_true. split; [|intros (Hds & Hqr & _); done].
    intros [[Hds Hqr] _]. subst ds. split_and!; [done|done|by right].
Qed.

(** ** Both together *)

(** What the network does with datagrams. *)
Definition deliver (from : Z) (ds : list (list Z)) (sock : UdpSocket) : UdpSocket :=
  Socket.set_inbox ((fun d => Datagram d from) <$> ds) sock.

Lemma decoded_json {A} `{Json A} `{!JsonLaws A} n from (l : list A) :
  Forall (fun a => (length (to_json a) <= n)%nat) l ->
  decoded n ((fun d => (d, from)) <$> (to_json <$> l)) = l.
Proof.
  induction 1 as [|a l Ha Hl IH]; [done|]. rewrite !fmap_cons. cbn [decoded omap list_omap fst].
  rewrite take_ge by done. rewrite json_roundtrip. f_equal. exact IH.
Qed.

(** Every recipient gets the replies of its component, in order. *)
Lemma routed_lookup rs c : forall m,
  foldl route m rs !! c = appended (filter (fun r => component r = c) rs) <$> m !! c.
Proof.
  induction rs as [|r rs IH]; intros m; cbn [foldl].
  - destruct (m !! c) as [ch|]; [|done]. cbn. unfold appended. rewrite app_nil_r. by destruct ch.
  - rewrite IH. unfold route. rewrite lookup_alter, filter_cons. destruct (decide (component r = c)) as [->|Hne].
    + destruct (m !! c) as [ch|]; [|done]. cbn. f_equal.
      change (Channel.set_queue (queue ch ++ [r]) ch) with (appended [r] ch). apply appended_cons.
    + done.
Qed.

Lemma set_inbox_deliver from ds sock : inbox sock = [] -> Socket.set_inbox [] (deliver from ds sock) = sock.
Proof. destruct sock. cbn. by intros ->. Qed.

Lemma inbox_deliver from ds sock :
  inbox (deliver from ds sock) = (fun d => Datagram d.1 d.2) <$> ((fun d => (d, from)) <$> ds).
Proof. unfold deliver. cbn. by rewrite <- list_fmap_compose. Qed.

Lemma last_pairs (from : Z) (ds : list (list Z)) addr :
  ds <> [] -> last_from ((fun d => (d, from)) <$> ds) addr = Some from.
Proof.
  intros Hd. unfold last_from. rewrite fmap_last. destruct (last ds) eqn:Hl; [done|]. by apply last_None in Hl.
Qed.

Context `{!JsonLaws SimRequest} `{!JsonLaws SimReply}.

(** The requests of the example reach the simulator, and the replies of the
    simulator reach the recipients of their components, each in order. *)
Theorem link_correct csock addr rx m buf ssock tx rr max stop sbuf sa ca fuel :
  (length (queue rx) < fuel)%nat -> (length (queue rr) < fuel)%nat ->
  queue rx <> [] -> inbox csock = [] -> inbox ssock = [] ->
  refuses csock addr = false -> refuses ssock ca = false ->
  recipients_alive m -> rx_alive tx = true -> tx_alive rr = true ->
  Forall (fun r => (length (to_json r) <= length sbuf)%nat) (queue rx) ->
  Forall (fun r => (length (to_json r) <= length buf)%nat) (queue rr) ->
  0 < max -> len (queue rr) <= max ->
  let requests := to_json <$> queue rx in
  let replies := to_json <$> queue rr in
  exists c1 s1 c2 buf1,
    Client.operation fuel fuel (mkClient csock addr rx m buf) = (Ok (Some HandledOne), c1) /\
    c1 = mkClient (mail csock addr requests) addr (Channel.set_queue [] rx) m buf1 /\
    Server.turn fuel fuel (mkSimServer (deliver ca requests ssock) tx rr [] max stop sbuf sa) = (Ok (Some true), s1) /\
    request_sender s1 = appended (queue rx) tx /\ server_socket s1 = mail ssock ca replies /\
    (exists status, Client.operation fuel fuel
       (mkClient (deliver addr replies (udp_client c1)) addr (sim_request_rx c1) (reply_map c1) (reply_buf c1)) =
         (Ok (Some status), c2)) /\
    (forall c, reply_map c2 !! c = appended (filter (fun r => component r = c) (queue rr)) <$> m !! c).
Proof using All.
  intros Hf Hrf Hne Hci Hsi Hcr Hsr Hm Htx Hrr Hq Hr Hmax Hlr requests replies.
  destruct (client_operation_correct fuel fuel csock addr rx m buf []) as (buf1 & Hlen1 & Hop1); [done|cbn; lia|done..|].
  rewrite bool_decide_eq_false_2 in Hop1 by tauto. fold requests in Hop1. cbn [decoded omap list_omap foldl] in Hop1.
  assert (Hin : Socket.set_inbox [] (mail csock addr requests) = mail csock addr requests).
  { unfold mail, Socket.set_inbox. cbn. by rewrite Hci. }
  rewrite Hin in Hop1.
  destruct (server_turn_correct fuel fuel (deliver ca requests ssock) tx rr [] max stop sbuf sa
    ((fun d => (d, ca)) <$> requests)) as (buf2 & b & _ & Hturn & Hb);
    [unfold requests; by rewrite !length_fmap|done|apply inbox_deliver|done|done| | |done|unfold len; cbn; lia|].
  { unfold requests. rewrite !Forall_fmap. apply (Forall_impl _ _ _ Hq). intros r Hl. cbn. rewrite take_ge by done.
    rewrite json_roundtrip. by eexists. }
  { intros a. rewrite last_pairs; [by intros [= <-]|]. by intros ?%fmap_nil_inv. }
  rewrite last_pairs in Hturn by (by intros ?%fmap_nil_inv).
  assert (Hdec : decoded (length sbuf) ((fun d => (d, ca)) <$> requests) = queue rx) by (by apply decoded_json).
  rewrite Hdec in Hturn. cbn [length app] in Hturn.
  replace (0 + length (queue rr) - Z.to_nat max)%nat with O in Hturn by (unfold len in Hlr; lia).
  rewrite set_inbox_deliver in Hturn by done. cbn [drop] in Hturn.
  assert (b = true) as ->.
  { destruct b; [done|]. destruct (proj1 Hb eq_refl) as [Hnil _]. by apply fmap_nil_inv, fmap_nil_inv in Hnil. }
  destruct (client_operation_correct fuel fuel (deliver addr replies (mail csock addr requests)) addr
    (Channel.set_queue [] rx) m buf1 ((fun d => (d, addr)) <$> replies)) as (buf3 & _ & Hop2);
    [cbn; lia|unfold replies; by rewrite !length_fmap|apply inbox_deliver|done|done|].
  assert (Hdec' : decoded (length buf) ((fun d => (d, addr)) <$> replies) = queue rr) by (by apply decoded_json).
  rewrite Hlen1, Hdec' in Hop2.
  eexists _, _, _, buf1. split_and!; [exact Hop1|done|exact Hturn|done|done|eexists; exact Hop2|].
  intros c. apply routed_lookup.
Qed.

End Link.

(** ** Errors *)
Section Errors.
Context `{Json SimRequest} `{Json SimReply} `{Json SimCtrlRequest} `{Json SimCtrlReply}.

(** What a connection attempt makes of the first reply. *)
Definition reply_verdict (r : option SimReply) : res SimClientCreationError unit :=
  match r with
  | None => Err InvalidReplyJsonError
  | Some reply =>
      if negb (bool_decide (component reply = SimCtrl)) then Err (ReplyIsNotPong reply)
      else match from_json (A:=SimCtrlReply) (payload (reply_inner reply)) with Some Pong => Ok tt | _ => Panic end
  end.

(** The ping is sent, and the connection stands exactly when a pong comes back in time. *)
Theorem attempt_connection_correct sock addr buf :
  (Client.attempt_connection addr (sock, buf)).1 =
    (if refuses sock addr then Err (CreationIo OtherKind) else
    match inbox sock with
    | [] | RecvFails WouldBlock :: _ | RecvFails TimedOut :: _ => Err CreationTimeout
    | RecvFails e :: _ => Err (CreationIo e)
    | Datagram d _ :: _ => reply_verdict (from_json (take (length buf) d))
    end) /\
  outbox (Client.attempt_connection addr (sock, buf)).2.1 =
    outbox sock ++ (if refuses sock addr then [] else [(to_json (Sim.new_request Ping), addr)]).
Proof.
  unfold Client.attempt_connection, st_bind, st_map_err, on_fst, Socket.send_to, attempt, Socket.recv_from.
  cbn [fst snd]. destruct (refuses sock addr); [cbn; by rewrite app_nil_r|].
  cbn [inbox map_err fst snd]. destruct (inbox sock) as [|[d from|kind] rest]; [done| |by destruct kind].
  cbn [fst snd]. unfold asks. cbn [fst snd]. rewrite slice_splice. unfold lift, reply_verdict.
  destruct (from_json (take (length buf) d)) as [reply|]; [|done]. cbn [ok_or].
  destruct (negb (bool_decide (component reply = SimCtrl))) eqn:Hc; [done|].
  apply negb_false_iff, bool_decide_eq_true in Hc. unfold Sim.from_sim_message, component in *.
  rewrite Hc, bool_decide_eq_true_2 by done.
  by destruct (from_json (payload (reply_inner reply))) as [[]|].
Qed.

(** A server whose reply senders are gone polls them for ever. *)
Theorem disconnected_replies_hang fuel p s :
  queue (reply_receiver s) = [] -> tx_alive (reply_receiver s) = false ->
  Server.process_replies fuel p s = (Ok None, s).
Proof.
  intros Hq Ht. induction fuel as [|fuel IH]; [done|]. cbn [Server.process_replies].
  unfold st_bind, attempt, Server.next_reply, on_field, Channel.try_recv. rewrite Hq, Ht. by destruct s.
Qed.

(** A datagram that is no request ends the turn's requests; the rest waits. *)
Theorem invalid_request_ends fuel p s d from rest :
  inbox (server_socket s) = Datagram d from :: rest ->
  from_json (A:=SimRequest) (take (length (req_buf s)) d) = None ->
  exists s', Server.process_requests (S fuel) p s = (Ok (Some p), s') /\
    inbox (server_socket s') = rest /\ request_sender s' = request_sender s /\ client_addr s' = Some from.
Proof.
  intros Hin Hd. cbn [Server.process_requests].
  unfold st_bind at 1, attempt, Server.receive, st_bind, Socket.recv_from, asks. rewrite Hin. cbn [req_buf].
  rewrite slice_splice. cbn iota beta. rewrite Hd. by eexists.
Qed.

End Errors.

(** ** Witness *)
Module LinkCodec.

Definition sim_request_json : Json SimRequest := {|
  to_json r := Codec.comp_code (target (request_inner r)) :: payload (request_inner r);
  from_json l := match l with c :: p => Some (mkSimRequest (mkSimMessage (Codec.comp_of c) p)) | [] => None end;
|}.

Lemma sim_request_laws : @JsonLaws SimRequest sim_request_json.
Proof. by intros [[[] p]]. Qed.

End LinkCodec.

Definition sample_request (c : SimComponent) (p : list Z) : SimRequest := mkSimRequest (mkSimMessage c p).
Definition sample_reply (c : SimComponent) (p : list Z) : SimReply := mkSimReply (mkSimMessage c p).

Lemma link_correct_witness :
  let sock := mkSocket [] [] (fun _ => false) in
  exists s1, @Server.turn LinkCodec.sim_request_json Codec.sim_reply_json 3 3
      (mkSimServer (deliver 7 [[3; 1]; [1]] sock) (mkChannel [] None true true)
         (mkChannel [sample_reply CompPcdu [2]] None true true) [] 200 false (replicate 9 0) None) = (Ok (Some true), s1) /\
    queue (request_sender s1) = [sample_request CompPcdu [1]; sample_request CompMgmLis3Mdl []] /\
    outbox (server_socket s1) = [([3; 2], 7)].
Proof.
  destruct (@link_correct LinkCodec.sim_request_json Codec.sim_reply_json LinkCodec.sim_request_laws Codec.sim_reply_laws
    (mkSocket [] [] (fun _ => false)) 5
    (mkChannel [sample_request CompPcdu [1]; sample_request CompMgmLis3Mdl []] None true true) ∅ (replicate 9 0)
    (mkSocket [] [] (fun _ => false)) (mkChannel [] None true true)
    (mkChannel [sample_reply CompPcdu [2]] None true true) 200 false (replicate 9 0) None 7 3)
    as (c1 & s1 & c2 & b1 & _ & _ & Hturn & Hreq & Hsock & _);
    [cbn; lia|cbn; lia|done|done|done|done|done|apply map_Forall_empty|done|done
    |repeat constructor; cbn; lia|repeat constructor; cbn; lia|lia|unfold len; cbn; lia|].
  exists s1. split; [exact Hturn|]. split; [by rewrite Hreq|by rewrite Hsock].
Defined.
