(* ===== verification/Simulator.v ===== *)
(** * The simulator

    [satrs-minisim]: the models of the power unit ([eps.rs]), of the magnetometer
    and of the magnetorquer ([acs.rs]), the controller that turns requests into
    events for them ([controller.rs]) and their connections ([main.rs]).  The
    discrete-event library and the sine are parameters. *)

From Stdlib Require Import ZArith Lia Bool Floats.SpecFloat.
From stdpp Require Import base list gmap.
From S2P Require Import Prelude Spacepackets Tmtc Requests Eps Pcdu Mgm SimLink.

Local Open Scope Z_scope.

(** ** Messages ([satrs-minisim/src/lib.rs]) *)
Record MgtDipole : Type := mkDipole { dipole_x : Z; dipole_y : Z; dipole_z : Z }.

Definition dipole_default : MgtDipole := mkDipole 0 0 0.

Inductive MgtRequestType : Type := TypeApplyTorque.

(** A duration is a number of nanoseconds. *)
Inductive MgtRequest : Type :=
| ApplyTorque (duration : Z) (dipole : MgtDipole)
| RequestHk.

Record MgtHkSet : Type := mkMgtHk { hk_dipole : MgtDipole; hk_torquing : bool }.

Inductive MgtReply : Type :=
| MgtAck (t : MgtRequestType)
| MgtNak (t : MgtRequestType)
| MgtHk (set : MgtHkSet).

#[global] Instance mgt_request_payload `{Json MgtRequest} : SimPayload MgtRequest := CompMgt.

(** The target of the replies is the magnetometer. *)
#[global] Instance mgt_reply_payload `{Json MgtReply} : SimPayload MgtReply := CompMgmLis3Mdl.

Definition MGT_GEN_MAGNETIC_FIELD : MgmSensorValuesMicroTesla :=
  mkMicroTesla (F32.of_int 30) (F32.of_int (-30)) (F32.of_int 30).

(** [0xffff_u16 as i16] *)
Definition ALL_ONES_SENSOR_VAL : Z := -1.

Definition saturate_i16 (v : Z) : Z := Z.max (- 2 ^ 15) (Z.min (2 ^ 15 - 1) v).

(** [v.round() as i16]: half away from zero, saturating, zero for a NaN. *)
Definition round_as_i16 (v : f32) : Z :=
  match v with
  | S754_zero _ | S754_nan => 0
  | S754_infinity s => if s then - 2 ^ 15 else 2 ^ 15 - 1
  | S754_finite s m e =>
      let magnitude :=
        if 0 <=? e then Z.pos m * 2 ^ e else (2 * Z.pos m + 2 ^ (- e)) / (2 * 2 ^ (- e)) in
      saturate_i16 (if s then - magnitude else magnitude)
  end.

(** The raw value of a field strength. *)
Definition to_raw (v : f32) : Z :=
  round_as_i16 (F32.div v (F32.mul (F32.of_int GAUSS_TO_MICROTESLA_FACTOR) FIELD_LSB_PER_GAUSS_4_SENS)).

(** [MgmLis3MdlReply::new] *)
Definition lis3_reply_new (common : MgmReplyCommon) : MgmLis3MdlReply :=
  match reply_switch_state common with
  | BinOff => mkLis3Reply common (mkRaw ALL_ONES_SENSOR_VAL ALL_ONES_SENSOR_VAL ALL_ONES_SENSOR_VAL)
  | BinOn =>
      let v := sensor_values common in
      mkLis3Reply common (mkRaw (to_raw (ut_x v)) (to_raw (ut_y v)) (to_raw (ut_z v)))
  end.

(** ** Events of the models *)
Inductive Event : Type :=
| MgmSwitch (s : SwitchStateBinary)
| MgmSendValues
| MgmField (f : MgmSensorValuesMicroTesla)
| PcduRequestInfo
| PcduSendInfo
| PcduSwitchDevice (switch : PcduSwitch) (s : SwitchStateBinary)
| MgtTorque (duration : Z) (dipole : MgtDipole)
| MgtClear
| MgtSwitch (s : SwitchStateBinary)
| MgtRequestInfo
| MgtSendHk.

(** What a model uses of the library: the time in seconds and nanoseconds, events
    for itself after a duration, and its outputs. *)
Class SimLib (X : Type) : Type := {
  sim_time : X -> Z * Z;
  schedule_event : Z -> Event -> st X unit unit;
  output : Event -> st X Empty_set unit;
}.

(** What the library documents: an event must lie in the future. *)
Inductive Action : Type := Scheduled (delay : Z) (e : Event) | Sent (e : Event).

Class SimLibLaws (X : Type) `{SimLib X} (record : X -> list Action -> X) : Prop := {
  record_nil x : record x [] = x;
  record_app x a b : record (record x a) b = record x (a ++ b);
  record_time x a : sim_time (record x a) = sim_time x;
  schedule_future x d e : 0 < d -> schedule_event d e x = (Ok tt, record x [Scheduled d e]);
  schedule_past x d e : d <= 0 -> schedule_event d e x = (Err tt, x);
  output_sent x e : output e x = (Ok tt, record x [Sent e]);
}.

Record PcduModel : Type := mkPcduModel { switcher_map : SwitchMapBinary }.

Record MagnetometerModel : Type := mkMgmModel {
  mgm_switch_state : SwitchStateBinary;
  periodicity : Z;
  external_mag_field : option MgmSensorValuesMicroTesla;
}.

Record MagnetorquerModel : Type := mkMgtModel {
  mgt_switch_state : SwitchStateBinary;
  torquing : bool;
  torque_dipole : MgtDipole;
}.

(** [s == SwitchStateBinary::On] *)
Definition is_on (s : SwitchStateBinary) : bool := match s with BinOn => true | BinOff => false end.

Definition millis (n : Z) : Z := n * 1000000.

Definition SWITCH_INFO_DELAY_MS : Z := 10.

(** [current_millis] *)
Definition current_millis {E : Type} (time : Z * Z) : res E Z :=
  let? s := checked_mul 64 (as_u 64 time.1) 1000 in
  checked_add 64 s (time.2 / 1000000).

(** A float literal, rounded to nearest. *)
Definition literal (n d : Z) : f32 := F32.div (F32.of_int n) (F32.of_int d).

Definition PI : f32 := S754_finite false 13176795 (-22).
Definition AMPLITUDE_MGM_UT : f32 := F32.of_int 30.
Definition FREQUENCY_MGM : f32 := F32.of_int 1.
Definition PHASE_X : f32 := F32.of_int 0.
Definition PHASE_Y : f32 := literal 1 10.
Definition PHASE_Z : f32 := literal 2 10.

Definition f32_add (a b : f32) : f32 := SFadd 24 128 a b.

Section Models.
Context {X : Type} `{SimLib X} (sin : f32 -> f32).
Context `{Json PcduReply} `{Json MgmLis3MdlReply} `{Json MgtReply}.

(** The senders of replies are clones of one. *)
Abbreviation M T := (st (T * (channel SimReply * X)) Empty_set).

Definition send_reply {T : Type} (reply : SimReply) : M T unit :=
  let* r := attempt (on_snd (on_fst (Channel.send reply))) in
  lift (expect r).

Definition schedule {T : Type} (d : Z) (e : Event) : M T (res unit unit) := attempt (on_snd (on_snd (schedule_event d e))).

Definition send_output {T : Type} (e : Event) : M T unit := on_snd (on_snd (output e)).

(** *** [PcduModel] *)
Definition pcdu_new : PcduModel := mkPcduModel Switches.default_binary.

Definition pcdu_request_switch_info : M PcduModel unit :=
  let* r := schedule (millis SWITCH_INFO_DELAY_MS) PcduSendInfo in
  lift (expect r).

Definition pcdu_send_switch_info : M PcduModel unit :=
  let* m := gets (fun x => switcher_map x.1) in
  send_reply (Sim.new_reply (SwitchInfo m)).

(** The outputs are connected to the models of the devices. *)
Definition pcdu_switch_device (switch : PcduSwitch) (state : SwitchStateBinary) : M PcduModel unit :=
  let* m := gets (fun x => switcher_map x.1) in
  match m !! switch with
  | None => lift Panic
  | Some _ =>
      let* _ := on_fst (modify_state (fun _ => mkPcduModel (<[switch := state]> m))) in
      send_output (match switch with SwMgm => MgmSwitch state | SwMgt => MgtSwitch state end)
  end.

(** *** [MagnetometerModel] *)
Definition mgm_new_for_lis3mdl (periodicity : Z) : MagnetometerModel := mkMgmModel BinOff periodicity None.

Definition mgm_switch_device (switch_state : SwitchStateBinary) : M MagnetometerModel unit :=
  on_fst (modify_state (fun m => mkMgmModel switch_state (periodicity m) (external_mag_field m))).

Definition mgm_apply_external_magnetic_field (field : MgmSensorValuesMicroTesla) : M MagnetometerModel unit :=
  on_fst (modify_state (fun m => mkMgmModel (mgm_switch_state m) (periodicity m) (Some field))).

Definition calculate_current_mgm_tuple (m : MagnetometerModel) (time_ms : Z) : MgmSensorValuesMicroTesla :=
  if is_on (mgm_switch_state m) then
    match external_mag_field m with
    | Some ext_field => ext_field
    | None =>
        let base_sin_val :=
          F32.mul (F32.mul (F32.mul (F32.of_int 2) PI) FREQUENCY_MGM) (F32.div (F32.of_int time_ms) (F32.of_int 1000)) in
        let axis phase := F32.mul AMPLITUDE_MGM_UT (sin (f32_add base_sin_val phase)) in
        mkMicroTesla (axis PHASE_X) (axis PHASE_Y) (axis PHASE_Z)
    end
  else mkMicroTesla (F32.of_int 0) (F32.of_int 0) (F32.of_int 0).

Definition mgm_send_sensor_values : M MagnetometerModel unit :=
  let* time_ms := asks (fun x => current_millis (sim_time x.2.2)) in
  let* m := gets fst in
  send_reply (Sim.new_reply (lis3_reply_new
    (mkReplyCommon (mgm_switch_state m) (calculate_current_mgm_tuple m time_ms)))).

(** *** [MagnetorquerModel] *)
Definition mgt_new : MagnetorquerModel := mkMgtModel BinOff false dipole_default.

Definition calc_magnetic_field (_ : MgtDipole) : MgmSensorValuesMicroTesla := MGT_GEN_MAGNETIC_FIELD.

Definition generate_magnetic_field : M MagnetorquerModel unit :=
  let* m := gets fst in
  if negb (is_on (mgt_switch_state m)) || negb (torquing m) then ret tt
  else send_output (MgmField (calc_magnetic_field (torque_dipole m))).

(** A duration of zero is logged, and the torque stays. *)
Definition mgt_apply_torque (duration : Z) (dipole : MgtDipole) : M MagnetorquerModel unit :=
  let* _ := on_fst (modify_state (fun m => mkMgtModel (mgt_switch_state m) true dipole)) in
  let* _ := schedule duration MgtClear in
  generate_magnetic_field.

Definition mgt_clear_torque : M MagnetorquerModel unit :=
  let* _ := on_fst (modify_state (fun m => mkMgtModel (mgt_switch_state m) false dipole_default)) in
  generate_magnetic_field.

Definition mgt_switch_device (switch_state : SwitchStateBinary) : M MagnetorquerModel unit :=
  let* _ := on_fst (modify_state (fun m => mkMgtModel switch_state (torquing m) (torque_dipole m))) in
  generate_magnetic_field.

Definition mgt_request_housekeeping_data : M MagnetorquerModel unit :=
  let* m := gets fst in
  if negb (is_on (mgt_switch_state m)) then ret tt else
  let* r := schedule (millis 15) MgtSendHk in
  lift (expect r).

Definition mgt_send_housekeeping_data : M MagnetorquerModel unit :=
  let* m := gets fst in
  send_reply (Sim.new_reply (MgtHk (mkMgtHk (torque_dipole m) (torquing m)))).

(** *** The models together *)
Record Models : Type := mkModels { mgm : MagnetometerModel; pcdu : PcduModel; mgt : MagnetorquerModel }.

(** The models of [create_sim_controller]. *)
Definition models_new : Models := mkModels (mgm_new_for_lis3mdl (millis 50)) pcdu_new mgt_new.

Definition on_model {T A : Type} (get : Models -> T) (set : T -> Models -> Models) (m : M T A) : M Models A :=
  fun x => let '(r, (t, e)) := m (get x.1, x.2) in (r, (set t x.1, e)).

Definition on_mgm {A : Type} : M MagnetometerModel A -> M Models A :=
  on_model mgm (fun t m => mkModels t (pcdu m) (mgt m)).
Definition on_pcdu {A : Type} : M PcduModel A -> M Models A :=
  on_model pcdu (fun t m => mkModels (mgm m) t (mgt m)).
Definition on_mgt {A : Type} : M MagnetorquerModel A -> M Models A :=
  on_model mgt (fun t m => mkModels (mgm m) (pcdu m) t).

(** The input of its model that an event stands for. *)
Definition handle (e : Event) : M Models unit :=
  match e with
  | MgmSwitch s => on_mgm (mgm_switch_device s)
  | MgmSendValues => on_mgm mgm_send_sensor_values
  | MgmField f => on_mgm (mgm_apply_external_magnetic_field f)
  | PcduRequestInfo => on_pcdu pcdu_request_switch_info
  | PcduSendInfo => on_pcdu pcdu_send_switch_info
  | PcduSwitchDevice switch s => on_pcdu (pcdu_switch_device switch s)
  | MgtTorque duration dipole => on_mgt (mgt_apply_torque duration dipole)
  | MgtClear => on_mgt mgt_clear_torque
  | MgtSwitch s => on_mgt (mgt_switch_device s)
  | MgtRequestInfo => on_mgt mgt_request_housekeeping_data
  | MgtSendHk => on_mgt mgt_send_housekeeping_data
  end.

End Models.

(** ** The controller *)

(** [Simulation]: an event is processed before the call returns. *)
Class Simulation (S : Type) : Type := {
  send_event : Event -> st (S * channel SimReply) Empty_set unit;
  step_until : Z -> st (S * channel SimReply) unit unit;
}.

Record SimController (S : Type) : Type := mkController {
  request_receiver : channel SimRequest;
  simulation : S;
  reply_sender : channel SimReply;
}.

Arguments mkController {S} _ _ _.
Arguments request_receiver {S} _.
Arguments simulation {S} _.
Arguments reply_sender {S} _.

Section Controller.
Context {S : Type} `{Simulation S}.
Context `{Json SimCtrlRequest} `{Json SimCtrlReply} `{Json MgmRequestLis3Mdl} `{Json PcduRequest} `{Json MgtRequest}.

Definition on_simulation {E A : Type} (m : st (S * channel SimReply) E A) : st (SimController S) E A :=
  fun c => let '(r, (s, tx)) := m (simulation c, reply_sender c) in (r, mkController (request_receiver c) s tx).

(** An error of a call that has none. *)
Definition no_error {S' E A : Type} (m : st S' Empty_set A) : st S' E A := st_map_err (fun e : Empty_set => match e with end) m.

(** [T::from_sim_message(request)?] *)
Definition parse_request (T : Type) `{SimPayload T} (request : SimRequest) : res SimRequestError T :=
  map_err (fun e => match e with None => SerdeJson | Some _ => TargetRequestMissmatch request end)
    (Sim.from_sim_message (request_inner request)).

Definition send_ctrl_reply {E : Type} (reply : SimCtrlReply) : st (SimController S) E unit :=
  let* r := attempt (on_simulation (on_snd (Channel.send (Sim.new_reply reply)))) in
  lift (expect r).

Definition handle_ctrl_request (request : SimRequest) : st (SimController S) SimRequestError unit :=
  let* sim_ctrl_request := lift (parse_request SimCtrlRequest request) in
  match sim_ctrl_request with Ping => send_ctrl_reply Pong end.

Definition handle_mgm_request (request : SimRequest) : st (SimController S) SimRequestError unit :=
  let* mgm_request := lift (parse_request MgmRequestLis3Mdl request) in
  match mgm_request with RequestSensorData => on_simulation (no_error (send_event MgmSendValues)) end.

Definition handle_pcdu_request (request : SimRequest) : st (SimController S) SimRequestError unit :=
  let* pcdu_request := lift (parse_request PcduRequest request) in
  match pcdu_request with
  | RequestSwitchInfo => on_simulation (no_error (send_event PcduRequestInfo))
  | SwitchDevice switch state => on_simulation (no_error (send_event (PcduSwitchDevice switch state)))
  end.

Definition handle_mgt_request (request : SimRequest) : st (SimController S) SimRequestError unit :=
  let* mgt_request := lift (parse_request MgtRequest request) in
  match mgt_request with
  | ApplyTorque duration dipole => on_simulation (no_error (send_event (MgtTorque duration dipole)))
  | RequestHk => on_simulation (no_error (send_event MgtRequestInfo))
  end.

Definition handle_invalid_request_with_valid_target (error : SimRequestError) : st (SimController S) Empty_set unit :=
  send_ctrl_reply (InvalidRequest error).

Definition handle_request (request : SimRequest) : st (SimController S) Empty_set unit :=
  let* r := attempt
    (match target (request_inner request) with
     | SimCtrl => handle_ctrl_request request
     | CompMgmLis3Mdl => handle_mgm_request request
     | CompMgt => handle_mgt_request request
     | CompPcdu => handle_pcdu_request request
     end) in
  match r with
  | Err e => handle_invalid_request_with_valid_target e
  | _ => ret tt
  end.

Fixpoint handle_sim_requests (fuel : nat) : st (SimController S) Empty_set (option unit) :=
  match fuel with
  | O => ret None
  | Datatypes.S fuel' =>
      let* r := attempt (on_field request_receiver (fun rx c => mkController rx (simulation c) (reply_sender c)) Channel.try_recv) in
      match r with
      | Ok request => let* _ := handle_request request in handle_sim_requests fuel'
      | Err TryRecvEmpty => ret (Some tt)
      | _ => lift Panic
      end
  end.

(** A turn of the loop of [run], up to the time [t]. *)
Definition run_turn (fuel : nat) (t : Z) : st (SimController S) Empty_set (option unit) :=
  and_then (handle_sim_requests fuel)
    (let* r := attempt (on_simulation (step_until t)) in
     let* _ := lift (expect r) in
     ret (Some tt)).

End Controller.

(** * Lemmas *)

(** ** Raw values *)
Lemma saturate_range v : in_i16 (saturate_i16 v).
Proof. unfold in_i16, saturate_i16. change (2 ^ 15) with 32768. lia. Qed.

Lemma round_range v : in_i16 (round_as_i16 v).
Proof. destruct v as [s|[]| |s m e]; try done. apply saturate_range. Qed.

Lemma reply_raw_range common :
  let r := raw (lis3_reply_new common) in in_i16 (raw_x r) /\ in_i16 (raw_y r) /\ in_i16 (raw_z r).
Proof.
  unfold lis3_reply_new. destruct (reply_switch_state common); cbn [raw raw_x raw_y raw_z]; split_and!; (apply round_range || done).
Qed.

(** What the handler of the magnetometer reads is what the simulated sensor measured. *)
Theorem simulated_sensor_read `{Json MgmRequestLis3Mdl} `{Json MgmLis3MdlReply} `{!JsonLaws MgmLis3MdlReply}
    tx c rx common q :
  queue (spi_reply_rx c) = Sim.new_reply (lis3_reply_new common) :: q -> length rx = 15%nat ->
  let r := raw (lis3_reply_new common) in
  exists c' rx', transfer tx (c, rx) = (Ok tt, (c', rx')) /\ queue (spi_reply_rx c') = q /\
    MgmSpec.word rx' 9 = raw_x r /\ MgmSpec.word rx' 11 = raw_y r /\ MgmSpec.word rx' 13 = raw_z r.
Proof.
  intros Hq Hl r. destruct (reply_raw_range common) as (Hx & Hy & Hz).
  destruct (sim_transfer_reads tx c rx (lis3_reply_new common) q Hq Hl Hx Hy Hz) as (c' & rx' & Ht & _ & Hq' & Hw).
  exists c', rx'. by split_and!; try apply Hw.
Qed.

(** The replies of the magnetorquer are addressed to the magnetometer, whose
    handler stops when it gets one. *)
Theorem mgt_reply_breaks_mgm `{Json MgmRequestLis3Mdl} `{Json MgmLis3MdlReply} `{Json MgtReply} tx c rx hk q :
  queue (spi_reply_rx c) = Sim.new_reply (MgtHk hk) :: q ->
  from_json (A:=MgmLis3MdlReply) (to_json (MgtHk hk)) = None ->
  component (Sim.new_reply (MgtHk hk)) = CompMgmLis3Mdl /\ (transfer tx (c, rx)).1 = Panic.
Proof.
  intros Hq Hj. split; [done|].
  unfold transfer, Spi.SpiSim_spi, Spi.sim_transfer, st_bind, attempt, on_fst, on_field.
  destruct c as [tx0 rx0]. cbn [spi_reply_rx spi_request_tx fst snd] in *.
  assert (Hr : Channel.try_recv rx0 = (Ok (Sim.new_reply (MgtHk hk)), Channel.set_queue q rx0)) by by apply try_recv_live.
  assert (Hp : Sim.from_sim_message (T:=MgmLis3MdlReply) (reply_inner (Sim.new_reply (MgtHk hk))) = Err None).
  { unfold Sim.from_sim_message, Sim.new_reply, reply_inner, target, payload. rewrite bool_decide_true by done. by rewrite Hj. }
  unfold Channel.send. by destruct (rx_alive tx0); cbn [fst snd spi_reply_rx spi_request_tx]; rewrite Hr; unfold lift; rewrite Hp.
Qed.

(** ** The models *)

(** What an event does to the models: what they become, do and reply. *)
Section React.
Context (sin : f32 -> f32) `{Json PcduReply} `{Json MgmLis3MdlReply} `{Json MgtReply}.

Definition field_of (m : MagnetorquerModel) : list Action :=
  if is_on (mgt_switch_state m) && torquing m then [Sent (MgmField MGT_GEN_MAGNETIC_FIELD)] else [].

Definition react (time_ms : Z) (m : Models) (e : Event) : Models * list Action * list SimReply :=
  let '(mkModels g p t) := m in
  let with_mgt t := (mkModels g p t) in
  match e with
  | MgmSwitch s => (mkModels (mkMgmModel s (periodicity g) (external_mag_field g)) p t, [], [])
  | MgmSendValues =>
      (m, [], [Sim.new_reply (lis3_reply_new
                 (mkReplyCommon (mgm_switch_state g) (calculate_current_mgm_tuple sin g time_ms)))])
  | MgmField f => (mkModels (mkMgmModel (mgm_switch_state g) (periodicity g) (Some f)) p t, [], [])
  | PcduRequestInfo => (m, [Scheduled (millis SWITCH_INFO_DELAY_MS) PcduSendInfo], [])
  | PcduSendInfo => (m, [], [Sim.new_reply (SwitchInfo (switcher_map p))])
  | PcduSwitchDevice switch s =>
      (mkModels g (mkPcduModel (<[switch := s]> (switcher_map p))) t,
       [Sent (match switch with SwMgm => MgmSwitch s | SwMgt => MgtSwitch s end)], [])
  | MgtTorque d dipole =>
      let t' := mkMgtModel (mgt_switch_state t) true dipole in
      (with_mgt t', (if 0 <? d then [Scheduled d MgtClear] else []) ++ field_of t', [])
  | MgtClear => (with_mgt (mkMgtModel (mgt_switch_state t) false dipole_default), [], [])
  | MgtSwitch s =>
      let t' := mkMgtModel s (torquing t) (torque_dipole t) in (with_mgt t', field_of t', [])
  | MgtRequestInfo => (m, if is_on (mgt_switch_state t) then [Scheduled (millis 15) MgtSendHk] else [], [])
  | MgtSendHk => (m, [], [Sim.new_reply (MgtHk (mkMgtHk (torque_dipole t) (torquing t)))])
  end.

Section Run.
Context {X : Type} `{SimLib X} {record : X -> list Action -> X} `{!SimLibLaws X record}.
Implicit Types (c : channel SimReply) (x : X).

Lemma send_reply_run {T} (t : T) r c x :
  rx_alive c = true -> send_reply r (t, (c, x)) = (Ok tt, (t, (appended [r] c, x))).
Proof. intros Hc. unfold send_reply, st_bind, attempt, on_snd, on_fst, Channel.send. cbn [fst snd]. by rewrite Hc. Qed.

Lemma schedule_run {T} (t : T) d e c x :
  exists r, schedule d e (t, (c, x)) = (Ok r, (t, (c, record x (if 0 <? d then [Scheduled d e] else [])))) /\
    (0 < d -> r = Ok tt).
Proof using SimLibLaws0.
  unfold schedule, attempt, on_snd. cbn [fst snd]. destruct (Z.ltb_spec 0 d) as [Hd|Hd].
  - rewrite schedule_future by done. by eexists.
  - rewrite schedule_past by done. eexists. split; [by rewrite record_nil|lia].
Qed.

Lemma send_output_run {T} (t : T) e c x : send_output e (t, (c, x)) = (Ok tt, (t, (c, record x [Sent e]))).
Proof using SimLibLaws0. unfold send_output, on_snd. cbn [fst snd]. by rewrite output_sent. Qed.

Lemma generate_run t c x :
  generate_magnetic_field (t, (c, x)) = (Ok tt, (t, (c, record x (field_of t)))).
Proof using SimLibLaws0.
  unfold generate_magnetic_field, st_bind, gets, field_of, calc_magnetic_field. cbn [fst].
  destruct (is_on (mgt_switch_state t)), (torquing t); cbn [negb orb andb]; unfold ret; by rewrite ?record_nil, ?send_output_run.
Qed.

(** The switch an event is about is one the unit has, and the clock fits. *)
Definition event_fits (m : Models) (time : Z * Z) (e : Event) : Prop :=
  match e with
  | PcduSwitchDevice switch _ => is_Some (switcher_map (pcdu m) !! switch)
  | MgmSendValues => 0 <= time.1 /\ time.1 * 1000 + 1000 < 2 ^ 64 /\ 0 <= time.2 < 10 ^ 9
  | _ => True
  end.

Definition time_millis (time : Z * Z) : Z := time.1 * 1000 + time.2 / 1000000.

Lemma current_millis_ok {E} (time : Z * Z) :
  0 <= time.1 -> time.1 * 1000 + 1000 < 2 ^ 64 -> 0 <= time.2 < 10 ^ 9 ->
  current_millis (E:=E) time = Ok (time_millis time).
Proof.
  intros Hs Hmax Hns. unfold current_millis, checked_mul, checked_add, as_u, time_millis.
  rewrite Z.mod_small by lia. rewrite (proj2 (Z.ltb_lt _ _)) by lia. cbn [res_bind].
  rewrite (proj2 (Z.ltb_lt _ _)); [done|]. change (10 ^ 9) with 1000000000 in Hns. Z.div_mod_to_equations. lia.
Qed.

(** The handlers do what [react] says. *)
Theorem handle_reacts e m c x :
  rx_alive c = true -> event_fits m (sim_time x) e ->
  let '(m', actions, replies) := react (time_millis (sim_time x)) m e in
  handle sin e (m, (c, x)) = (Ok tt, (m', (appended replies c, record x actions))).
Proof using SimLibLaws0.
  intros Hc Hfit. destruct m as [g p t].
  assert (Hnil : appended [] c = c) by (unfold appended; destruct c; cbn; by rewrite app_nil_r).
  destruct e as [s| |f| | |sw s|d dip| |s| |]; cbn [react handle]; rewrite ?Hnil;
    unfold on_mgm, on_pcdu, on_mgt, on_model; cbn [fst snd mgm pcdu mgt] in *.
  - by rewrite record_nil.
  - unfold mgm_send_sensor_values, st_bind, asks, gets. cbn [fst snd]. destruct Hfit as (Hs & Hmax & Hns).
    rewrite current_millis_ok by done. rewrite send_reply_run by done. by rewrite record_nil.
  - by rewrite record_nil.
  - unfold pcdu_request_switch_info, st_bind.
    destruct (schedule_run p (millis SWITCH_INFO_DELAY_MS) PcduSendInfo c x) as (r & -> & Hr).
    rewrite Hr by done. done.
  - unfold pcdu_send_switch_info, st_bind, gets. cbn [fst]. rewrite send_reply_run by done. by rewrite record_nil.
  - cbn [event_fits pcdu] in Hfit. destruct Hfit as [s0 Hs0]. unfold pcdu_switch_device, st_bind, gets. cbn [fst]. rewrite Hs0.
    unfold on_fst, modify_state. cbn [fst snd]. rewrite send_output_run. done.
  - unfold mgt_apply_torque, st_bind, on_fst, modify_state. cbn [fst snd].
    match goal with |- context [schedule d MgtClear (?y, _)] => destruct (schedule_run y d MgtClear c x) as (r & -> & _) end.
    rewrite generate_run, record_app. done.
  - unfold mgt_clear_torque, st_bind, on_fst, modify_state. cbn [fst snd]. rewrite generate_run.
    unfold field_of. cbn [torquing]. by rewrite andb_false_r.
  - unfold mgt_switch_device, st_bind, on_fst, modify_state. cbn [fst snd]. by rewrite generate_run.
  - unfold mgt_request_housekeeping_data, st_bind, gets. cbn [fst].
    destruct (is_on (mgt_switch_state t)); cbn [negb]; [|unfold ret; by rewrite record_nil].
    destruct (schedule_run t (millis 15) MgtSendHk c x) as (r & -> & Hr). rewrite Hr by done. done.
  - unfold mgt_send_housekeeping_data, st_bind, gets. cbn [fst]. rewrite send_reply_run by done. by rewrite record_nil.
Qed.

End Run.
End React.

(** ** Runs of the simulation *)

(** The actions of a handler, and when it runs. *)
Record Recorder : Type := mkRecorder { rec_time : Z * Z; rec_actions : list Action }.

Definition record_actions (x : Recorder) (l : list Action) : Recorder := mkRecorder (rec_time x) (rec_actions x ++ l).

#[global] Instance recorder_lib : SimLib Recorder := {
  sim_time := rec_time;
  schedule_event d e x := if 0 <? d then (Ok tt, record_actions x [Scheduled d e]) else (Err tt, x);
  output e x := (Ok tt, record_actions x [Sent e]);
}.

#[global] Instance recorder_laws : SimLibLaws Recorder record_actions.
Proof.
  split; try done.
  - intros [t l]. unfold record_actions. cbn. by rewrite app_nil_r.
  - intros [t l] a b. unfold record_actions. cbn. by rewrite app_assoc.
  - intros x d e Hd. cbn. by rewrite (proj2 (Z.ltb_lt _ _)).
  - intros x d e Hd. cbn. by rewrite (proj2 (Z.ltb_ge _ _)).
Qed.

Definition sent_events (l : list Action) : list Event := omap (fun a => match a with Sent e => Some e | _ => None end) l.

Definition scheduled_events (now : Z) (l : list Action) : list (Z * Event) :=
  omap (fun a => match a with Scheduled d e => Some (now + d, e) | _ => None end) l.

Definition recipient (e : Event) : SimComponent :=
  match e with
  | MgmSwitch _ | MgmSendValues | MgmField _ => CompMgmLis3Mdl
  | PcduRequestInfo | PcduSendInfo | PcduSwitchDevice _ _ => CompPcdu
  | _ => CompMgt
  end.

(** The models, the events on their way to them, the events they have scheduled,
    the time in nanoseconds and the replies. *)
Record World : Type := mkWorld {
  models : Models;
  flight : list Event;
  timers : list (Z * Event);
  clock : Z;
  world_replies : channel SimReply;
}.

Definition time_of (clock : Z) : Z * Z := (clock / 10 ^ 9, clock mod 10 ^ 9).

Section Steps.
Context (sin : f32 -> f32) `{Json PcduReply} `{Json MgmLis3MdlReply} `{Json MgtReply}.
Context (allowed : Event -> Prop).

(** Events for different models may overtake each other; those for one model may
    not.  Time does not pass a scheduled event. *)
Inductive sim_step (w : World) : World -> Prop :=
| step_request e :
    allowed e ->
    sim_step w (mkWorld (models w) (flight w ++ [e]) (timers w) (clock w) (world_replies w))
| step_deliver pre e post m' c' x' :
    flight w = pre ++ e :: post -> Forall (fun e' => recipient e' <> recipient e) pre ->
    handle sin e (models w, (world_replies w, mkRecorder (time_of (clock w)) [])) = (Ok tt, (m', (c', x'))) ->
    sim_step w (mkWorld m' (pre ++ post ++ sent_events (rec_actions x'))
                  (timers w ++ scheduled_events (clock w) (rec_actions x')) (clock w) c')
| step_fire pre t e post :
    timers w = pre ++ (t, e) :: post -> t <= clock w ->
    sim_step w (mkWorld (models w) (flight w ++ [e]) (pre ++ post) (clock w) (world_replies w))
| step_tick t :
    clock w <= t < 2 ^ 63 -> Forall (fun x => t <= x.1) (timers w) ->
    sim_step w (mkWorld (models w) (flight w) (timers w) t (world_replies w)).

Definition world_new (c : channel SimReply) : World := mkWorld models_new [] [] 0 c.

(** The switch commands on the way to a device. *)
Definition mgm_command (e : Event) : option SwitchStateBinary := match e with MgmSwitch s => Some s | _ => None end.
Definition mgt_command (e : Event) : option SwitchStateBinary := match e with MgtSwitch s => Some s | _ => None end.

Definition upcoming (state : SwitchStateBinary) (commands : list SwitchStateBinary) : SwitchStateBinary :=
  default state (last commands).

Lemma upcoming_cons state s l : upcoming state (s :: l) = upcoming s l.
Proof.
  unfold upcoming. destruct l as [|x l]; [done|]. rewrite last_cons_cons.
  by destruct (last (x :: l)) eqn:Hl; [|apply last_None in Hl].
Qed.

Lemma upcoming_snoc state l s : upcoming state (l ++ [s]) = s.
Proof. unfold upcoming. by rewrite last_snoc. Qed.

(** A device is, or is about to be, in the state its switch has. *)
Record power_consistent (w : World) : Prop := {
  power_mgm : switcher_map (pcdu (models w)) !! SwMgm =
    Some (upcoming (mgm_switch_state (mgm (models w))) (omap mgm_command (flight w)));
  power_mgt : switcher_map (pcdu (models w)) !! SwMgt =
    Some (upcoming (mgt_switch_state (mgt (models w))) (omap mgt_command (flight w)));
}.

(** Events that models schedule for themselves. *)
Definition own_event (e : Event) : bool := match e with PcduSendInfo | MgtClear | MgtSendHk => true | _ => false end.

(** Requests of the controller. *)
Definition request_event (e : Event) : bool :=
  match e with MgmSendValues | PcduRequestInfo | PcduSwitchDevice _ _ | MgtTorque _ _ | MgtRequestInfo => true | _ => false end.

Record world_inv (w : World) : Prop := {
  inv_replies : rx_alive (world_replies w) = true;
  inv_clock : 0 <= clock w < 2 ^ 63;
  inv_power : power_consistent w;
  inv_timers : Forall (fun x => clock w <= x.1 /\ own_event x.2 = true) (timers w);
  inv_field : external_mag_field (mgm (models w)) <> None ->
    external_mag_field (mgm (models w)) = Some MGT_GEN_MAGNETIC_FIELD;
  inv_fields : Forall (fun e => match e with MgmField f => f = MGT_GEN_MAGNETIC_FIELD | _ => True end) (flight w);
}.

Lemma inv_fits w e : world_inv w -> event_fits (models w) (time_of (clock w)) e.
Proof.
  intros Hw. destruct e as [| | | | |sw s| | | | |]; try done; cbn.
  - pose proof (inv_clock _ Hw). change (10 ^ 9) with 1000000000. change (2 ^ 64) with 18446744073709551616.
    change (2 ^ 63) with 9223372036854775808 in *. Z.div_mod_to_equations. lia.
  - pose proof (inv_power _ Hw) as [Hm Ht]. destruct sw; eexists; eassumption.
Qed.

(** No event makes a model panic. *)
Lemma inv_handles w e : world_inv w ->
  exists m' c' x', handle sin e (models w, (world_replies w, mkRecorder (time_of (clock w)) [])) = (Ok tt, (m', (c', x'))) /\
    (m', rec_actions x') = (react sin (time_millis (time_of (clock w))) (models w) e).1 /\ rx_alive c' = true.
Proof.
  intros Hw. pose proof (handle_reacts sin e (models w) (world_replies w) (mkRecorder (time_of (clock w)) [])
    (inv_replies _ Hw) (inv_fits _ e Hw)) as Hr. cbn [sim_time recorder_lib rec_time] in Hr.
  destruct (react sin _ (models w) e) as [[m' acts] rs]. eexists _, _, _. split; [exact Hr|]. split; [done|].
  apply (inv_replies _ Hw).
Qed.

Lemma no_commands (f : Event -> option SwitchStateBinary) c pre :
  (forall e, recipient e <> c -> f e = None) -> Forall (fun e => recipient e <> c) pre -> omap f pre = [].
Proof. intros Hf. induction 1 as [|e pre He _ IH]; [done|]. cbn. by rewrite (Hf _ He). Qed.

Lemma no_mgm_commands pre : Forall (fun e => recipient e <> CompMgmLis3Mdl) pre -> omap mgm_command pre = [].
Proof. apply no_commands. by intros []. Qed.

Lemma no_mgt_commands pre : Forall (fun e => recipient e <> CompMgt) pre -> omap mgt_command pre = [].
Proof. apply no_commands. by intros []. Qed.

Lemma field_events t : sent_events (field_of t) = if is_on (mgt_switch_state t) && torquing t then [MgmField MGT_GEN_MAGNETIC_FIELD] else [].
Proof. unfold field_of. by destruct (_ && _). Qed.

Lemma field_commands t :
  omap mgm_command (sent_events (field_of t)) = [] /\ omap mgt_command (sent_events (field_of t)) = [].
Proof. rewrite field_events. by destruct (_ && _). Qed.

Lemma sent_app a b : sent_events (a ++ b) = sent_events a ++ sent_events b.
Proof. unfold sent_events. by rewrite omap_app. Qed.

Lemma timer_sent d : sent_events (if 0 <? d then [Scheduled d MgtClear] else []) = [].
Proof. by destruct (0 <? d). Qed.

Lemma deliver_power ms m m' acts pre e post tm tm' cl c c' :
  Forall (fun e' => recipient e' <> recipient e) pre ->
  (m', acts) = (react sin ms m e).1 ->
  power_consistent (mkWorld m (pre ++ e :: post) tm cl c) ->
  power_consistent (mkWorld m' (pre ++ post ++ sent_events acts) tm' cl c').
Proof.
  intros Hpre Hr [Hm Ht]. destruct m as [g p t]. cbn [models flight pcdu mgm mgt] in *.
  rewrite !omap_app in Hm, Ht.
  destruct e as [s| |f| | |sw s|d dip| |s| |]; cbn [react fst recipient] in *; inversion Hr; subst; clear Hr;
    (split; cbn [models flight pcdu mgm mgt mgm_switch_state mgt_switch_state switcher_map];
     rewrite !omap_app; cbn [sent_events omap list_omap mgm_command mgt_command] in *;
     rewrite ?app_nil_r); try done;
    rewrite ?(proj1 (field_commands _)), ?(proj2 (field_commands _)), ?app_nil_r; try done.
  - rewrite Hm. rewrite no_mgm_commands by done. cbn [app]. by rewrite upcoming_cons.
  - destruct sw; cbn [mgm_command].
    + by rewrite lookup_insert_eq, app_assoc, upcoming_snoc.
    + by rewrite lookup_insert_ne, app_nil_r.
  - destruct sw; cbn [mgt_command].
    + by rewrite lookup_insert_ne, app_nil_r.
    + by rewrite lookup_insert_eq, app_assoc, upcoming_snoc.
  - rewrite sent_app, timer_sent. cbn [app]. by rewrite (proj1 (field_commands _)), app_nil_r.
  - rewrite sent_app, timer_sent. cbn [app]. by rewrite (proj2 (field_commands _)), app_nil_r.
  - rewrite Ht. rewrite no_mgt_commands by done. cbn [app]. by rewrite upcoming_cons.
  - destruct (is_on _); cbn; by rewrite app_nil_r.
  - destruct (is_on _); cbn; by rewrite app_nil_r.
Qed.

(** What the models send and schedule is of the right kind. *)
Lemma react_kinds ms m m' acts e cl :
  (m', acts) = (react sin ms m e).1 ->
  Forall (fun e => match e with MgmField f => f = MGT_GEN_MAGNETIC_FIELD | _ => True end) (sent_events acts) /\
  Forall (fun x => cl <= x.1 /\ own_event x.2 = true) (scheduled_events cl acts) /\
  (external_mag_field (mgm m') = external_mag_field (mgm m) \/
   exists f, e = MgmField f /\ external_mag_field (mgm m') = Some f).
Proof.
  intros Hr. destruct m as [g p t].
  assert (Hf : forall t, Forall (fun e => match e with MgmField f => f = MGT_GEN_MAGNETIC_FIELD | _ => True end)
    (sent_events (field_of t)) /\ scheduled_events cl (field_of t) = []).
  { intros t0. unfold field_of. destruct (_ && _); cbn; auto. }
  destruct e as [s| |f| | |sw s|d dip| |s| |]; cbn [react fst] in Hr; inversion Hr; subst; clear Hr;
    cbn [mgm external_mag_field]; try (split_and!; [by repeat constructor|by repeat constructor|by left]).
  - split_and!; [constructor|constructor|]. right. by eexists.
  - split_and!; [constructor|repeat constructor; cbn; unfold millis, SWITCH_INFO_DELAY_MS; lia|by left].
  - split_and!; [by destruct sw; repeat constructor|constructor|by left].
  - rewrite sent_app, timer_sent. unfold scheduled_events in *. rewrite omap_app.
    rewrite (proj2 (Hf _)), app_nil_r. split_and!; [apply Hf| |by left].
    destruct (Z.ltb_spec 0 d); repeat constructor. cbn. lia.
  - rewrite (proj2 (Hf _)). split_and!; [apply Hf|constructor|by left].
  - destruct (is_on _); (split_and!; [by repeat constructor| |by left]); repeat constructor; cbn; unfold millis; lia.
Qed.

Hypothesis allowed_requests : forall e, allowed e -> request_event e = true.

(** Adding an event that is no command. *)
Lemma power_add m fl tm cl c e tm' cl' :
  mgm_command e = None -> mgt_command e = None ->
  power_consistent (mkWorld m fl tm cl c) -> power_consistent (mkWorld m (fl ++ [e]) tm' cl' c).
Proof.
  intros Hg Ht [Hm Hk]. split; cbn [models flight] in *; rewrite omap_app; cbn [omap list_omap]; rewrite ?Hg, ?Ht;
    by rewrite app_nil_r.
Qed.

Lemma step_inv w w' : world_inv w -> sim_step w w' -> world_inv w'.
Proof using allowed_requests.
  intros Hw Hs. pose proof Hw as [Hc Hcl Hp Htm Hf Hfs]. destruct w as [m fl tm cl c]. cbn [models flight timers clock world_replies] in *.
  inversion Hs as [e He|pre e post m' c' x' Hfl Hpre Hh|pre t e post Ht Hle|t Hle Hall]; subst;
    cbn [models flight timers clock world_replies] in *.
  - apply allowed_requests in He. split; cbn [models flight timers clock world_replies]; try done.
    + eapply power_add; [by destruct e|by destruct e|exact Hp].
    + apply Forall_app_2; [done|]. repeat constructor. by destruct e.
  - destruct (inv_handles _ e Hw) as (m1 & c1 & x1 & Hh1 & Hr & Hc1). cbn [models clock world_replies] in *.
    rewrite Hh in Hh1. inversion Hh1; subst.
    destruct (react_kinds _ _ _ _ _ cl Hr) as (Hk1 & Hk2 & Hk3). apply Forall_app in Hfs as [Hfs1 Hfs2].
    inversion_clear Hfs2 as [|? ? Hfe Hfs3]. split; cbn [models flight timers clock world_replies]; try done.
    + by eapply deliver_power.
    + by apply Forall_app_2.
    + destruct Hk3 as [->|(f & -> & ->)]; [done|]. by rewrite Hfe.
    + by repeat apply Forall_app_2.
  - rewrite Ht in Htm. apply Forall_app in Htm as [Htm1 Htm2]. inversion_clear Htm2 as [|? ? [_ He] Htm3].
    split; cbn [models flight timers clock world_replies]; try done.
    + eapply power_add; [by destruct e|by destruct e|exact Hp].
    + by apply Forall_app_2.
    + apply Forall_app_2; [done|]. repeat constructor. by destruct e.
  - split; cbn [models flight timers clock world_replies]; try done; [lia|by destruct Hp; split|].
    apply Forall_and. split; [done|]. by apply (Forall_impl _ _ _ Htm); intros ? [].
Qed.

Lemma world_new_inv c : rx_alive c = true -> world_inv (world_new c).
Proof. intros Hc. by split; try done; split. Qed.

Lemma reachable_world_inv c w : rx_alive c = true -> rtc sim_step (world_new c) w -> world_inv w.
Proof using allowed_requests.
  intros Hc. intros Hr. pose proof (world_new_inv c Hc) as Hi. revert Hi.
  induction Hr as [|x y z Hs _ IH]; intros Hi; [done|]. apply IH. by eapply step_inv.
Qed.

(** In every run of the simulation no model panics, scheduled events are not
    missed, and a device that no command is on the way to is in the state of its switch. *)
Theorem simulator_consistent c w :
  rx_alive c = true -> rtc sim_step (world_new c) w ->
  (forall e, exists m' c' x',
     handle sin e (models w, (world_replies w, mkRecorder (time_of (clock w)) [])) = (Ok tt, (m', (c', x')))) /\
  Forall (fun x => clock w <= x.1) (timers w) /\
  (Forall (fun e => mgm_command e = None) (flight w) ->
     switcher_map (pcdu (models w)) !! SwMgm = Some (mgm_switch_state (mgm (models w)))) /\
  (Forall (fun e => mgt_command e = None) (flight w) ->
     switcher_map (pcdu (models w)) !! SwMgt = Some (mgt_switch_state (mgt (models w)))).
Proof using allowed_requests.
  intros Hc Hr. pose proof (reachable_world_inv c w Hc Hr) as Hw.
  assert (Hnone : forall f : Event -> option SwitchStateBinary, Forall (fun e => f e = None) (flight w) -> omap f (flight w) = []).
  { intros f. induction 1 as [|e l He _ IH]; [done|]. cbn. by rewrite He. }
  pose proof (inv_power _ Hw) as [Hm Ht]. split_and!.
  - intros e. destruct (inv_handles _ e Hw) as (m' & c' & x' & Hh & _). by eexists _, _, _.
  - apply (Forall_impl _ _ _ (inv_timers _ Hw)). by intros x [].
  - intros Hn. rewrite Hm, Hnone by done. done.
  - intros Hn. rewrite Ht, Hnone by done. done.
Qed.

(** A field, once it was generated, is measured for ever: nothing takes it back. *)
Theorem field_never_cleared c w w' :
  rx_alive c = true -> rtc sim_step (world_new c) w -> rtc sim_step w w' ->
  external_mag_field (mgm (models w)) <> None ->
  external_mag_field (mgm (models w')) = Some MGT_GEN_MAGNETIC_FIELD.
Proof using allowed_requests.
  intros Hc Hr Hr' He. pose proof (reachable_world_inv c w Hc Hr) as Hw. apply (inv_field _ Hw) in He.
  clear Hr. revert Hw He. induction Hr' as [|x y z Hs _ IH]; intros Hw He; [done|].
  apply IH; [by eapply step_inv|]. apply (inv_field y); [by eapply step_inv|].
  inversion Hs as [e Ha|pre e post m' c' x' Hfl Hpre Hh|pre t e post Ht Hle|t Hle Hall]; subst; cbn [models]; try (by rewrite He).
  destruct (inv_handles _ e Hw) as (m1 & c1 & x1 & Hh1 & Hk & _). rewrite Hh in Hh1. inversion Hh1; subst.
  destruct (react_kinds _ _ _ _ _ 0 Hk) as (_ & _ & [->|(f & _ & ->)]); [by rewrite He|done].
Qed.

(** A torque ends: while there is one, the event that clears it is on its way or
    scheduled, if all torques are requested for some time. *)
Definition pending (e : Event) (w : World) : Prop := e ∈ flight w \/ e ∈ (timers w).*2.

Definition timed (e : Event) : Prop := match e with MgtTorque d _ => 0 < d | _ => True end.

Lemma react_torque ms m m' acts e :
  (m', acts) = (react sin ms m e).1 -> timed e ->
  Forall timed (sent_events acts) /\
  (torquing (mgt m') = true -> (torquing (mgt m) = true /\ e <> MgtClear) \/ (forall cl, MgtClear ∈ (scheduled_events cl acts).*2)).
Proof.
  intros Hr Ht. destruct m as [g p t].
  assert (Hf : forall t, Forall timed (sent_events (field_of t))).
  { intros t0. rewrite field_events. destruct (_ && _); repeat constructor. }
  destruct e as [s| |f| | |sw s|d dip| |s| |]; cbn [react fst] in Hr; inversion Hr; subst; clear Hr; cbn [mgt torquing];
    try (split; [by repeat constructor|by left]).
  - split; [by destruct sw; repeat constructor|by left].
  - rewrite sent_app, timer_sent. split; [apply Hf|]. intros _. right. intros cl. cbn in Ht.
    rewrite (proj2 (Z.ltb_lt _ _)) by done. unfold scheduled_events. rewrite omap_app, fmap_app. by left.
  - split; [|by left]. destruct (is_on _); repeat constructor.
Qed.

Lemma step_torque w w' :
  (forall e, allowed e -> timed e) -> world_inv w ->
  Forall timed (flight w) /\ (torquing (mgt (models w)) = true -> pending MgtClear w) -> sim_step w w' ->
  Forall timed (flight w') /\ (torquing (mgt (models w')) = true -> pending MgtClear w').
Proof.
  intros Hal Hw [Hti Hto] Hs. unfold pending in *.
  inversion Hs as [e He|pre e post m' c' x' Hfl Hpre Hh|pre t e post Ht Hle|t Hle Hall]; subst; cbn [models flight timers].
  - split; [by apply Forall_app_2; [|repeat constructor; apply Hal]|]. intros Hq. destruct (Hto Hq); [left|by right].
    apply elem_of_app. by left.
  - rewrite Hfl in Hti, Hto. apply Forall_app in Hti as [Hti1 Hti2]. inversion_clear Hti2 as [|? ? Hte Hti3].
    destruct (inv_handles _ e Hw) as (m1 & c1 & x1 & Hh1 & Hk & _). rewrite Hh in Hh1. inversion Hh1; subst.
    destruct (react_torque _ _ _ _ _ Hk Hte) as [Hs1 Hs2]. split; [by repeat apply Forall_app_2|].
    intros Hq. destruct (Hs2 Hq) as [[Hold Hne]|Hnew].
    + destruct (Hto Hold) as [Hin|Hin].
      * left. apply elem_of_app in Hin as [Hin|Hin]; [apply elem_of_app; by left|].
        apply elem_of_cons in Hin as [Heq|Hin]; [by rewrite Heq in Hne|]. rewrite app_assoc. apply elem_of_app. left.
        apply elem_of_app. by right.
      * right. rewrite fmap_app. apply elem_of_app. by left.
    + right. rewrite fmap_app. apply elem_of_app. by right.
  - rewrite Ht in Hto. pose proof (inv_timers _ Hw) as Htm. rewrite Ht in Htm. apply Forall_app in Htm as [_ Htm].
    inversion_clear Htm as [|? ? [_ Ho] _]. split; [apply Forall_app_2; [done|]; repeat constructor; by destruct e|].
    intros Hq. destruct (Hto Hq) as [Hin|Hin]; [left; apply elem_of_app; by left|].
    rewrite fmap_app in Hin |- *. apply elem_of_app in Hin as [Hin|Hin]; [right; apply elem_of_app; by left|].
    apply elem_of_cons in Hin as [Heq|Hin]; [left; apply elem_of_app; right; apply list_elem_of_singleton; done|].
    right. apply elem_of_app. by right.
  - done.
Qed.

Theorem torque_ends c w :
  (forall e, allowed e -> timed e) -> rx_alive c = true -> rtc sim_step (world_new c) w ->
  torquing (mgt (models w)) = true -> pending MgtClear w.
Proof using allowed_requests.
  intros Hal Hc Hr. cut (Forall timed (flight w) /\ (torquing (mgt (models w)) = true -> pending MgtClear w)); [by intros []|].
  pose proof (world_new_inv c Hc) as Hi.
  assert (Ht0 : Forall timed (flight (world_new c)) /\ (torquing (mgt (models (world_new c))) = true -> pending MgtClear (world_new c)))
    by (split; [constructor|done]).
  revert Hi Ht0. induction Hr as [|x y z Hs _ IH]; intros Hi Ht0; [done|].
  apply IH; [by eapply step_inv|]. by eapply step_torque.
Qed.

End Steps.

(** Evaluates the world a run has reached. *)
Ltac compute_world :=
  match goal with |- rtc _ ?w _ => let w' := eval vm_compute in w in change w with w' end.

(** A second torque is cut short by the end of the first. *)
Example second_torque_cut_short sin `{Json PcduReply} `{Json MgmLis3MdlReply} `{Json MgtReply} :
  exists w, rtc (sim_step sin (fun e => request_event e = true)) (world_new (mkChannel [] None true true)) w /\
    clock w = 10 /\ torquing (mgt (models w)) = false /\ (100, MgtClear) ∈ timers w.
Proof.
  eexists. split.
  - eapply rtc_l; [apply (step_request _ _ _ (MgtTorque 10 dipole_default)); done|]. compute_world.
    eapply rtc_l; [apply (step_request _ _ _ (MgtTorque 100 dipole_default)); done|]. compute_world.
    eapply rtc_l; [apply (step_deliver _ _ _ [] (MgtTorque 10 dipole_default) [MgtTorque 100 dipole_default]); [done|constructor|reflexivity]|].
    compute_world.
    eapply rtc_l; [apply (step_deliver _ _ _ [] (MgtTorque 100 dipole_default) []); [done|constructor|reflexivity]|]. compute_world.
    eapply rtc_l; [apply (step_tick _ _ _ 10); [cbn [clock]; lia|repeat constructor; cbn; lia]|]. compute_world.
    eapply rtc_l; [apply (step_fire _ _ _ [] 10 MgtClear [(100, MgtClear)]); [done|cbn [clock]; lia]|]. compute_world.
    eapply rtc_l; [apply (step_deliver _ _ _ [] MgtClear []); [done|constructor|reflexivity]|]. compute_world.
    apply rtc_refl.
  - split_and!; [done|done|]. by left.
Qed.

(** ** The controller *)

(** What the controller makes of a request. *)
Section ControllerSpec.
Context `{Json SimCtrlRequest} `{Json SimCtrlReply} `{Json MgmRequestLis3Mdl} `{Json PcduRequest} `{Json MgtRequest}.

Definition request_outcome (r : SimRequest) : Event + SimCtrlReply :=
  let p := payload (request_inner r) in
  let invalid := inr (InvalidRequest SerdeJson) in
  match target (request_inner r) with
  | SimCtrl => match from_json (A:=SimCtrlRequest) p with Some Ping => inr Pong | None => invalid end
  | CompMgmLis3Mdl => match from_json (A:=MgmRequestLis3Mdl) p with Some RequestSensorData => inl MgmSendValues | None => invalid end
  | CompMgt =>
      match from_json (A:=MgtRequest) p with
      | Some (ApplyTorque d dipole) => inl (MgtTorque d dipole)
      | Some RequestHk => inl MgtRequestInfo
      | None => invalid
      end
  | CompPcdu =>
      match from_json (A:=PcduRequest) p with
      | Some (SwitchDevice sw s) => inl (PcduSwitchDevice sw s)
      | Some RequestSwitchInfo => inl PcduRequestInfo
      | None => invalid
      end
  end.

Context {S : Type} `{Simulation S} (process : Event -> S * channel SimReply -> S * channel SimReply).
Hypothesis process_event : forall e x, rx_alive x.2 = true ->
  send_event e x = (Ok tt, process e x) /\ rx_alive (process e x).2 = true.

Definition apply_outcome (x : S * channel SimReply) (r : SimRequest) : S * channel SimReply :=
  match request_outcome r with
  | inl e => process e x
  | inr reply => (x.1, appended [Sim.new_reply reply] x.2)
  end.

Lemma outcome_alive x r : rx_alive x.2 = true -> rx_alive (apply_outcome x r).2 = true.
Proof using process_event. unfold apply_outcome. intros Hx. destruct (request_outcome r); [by apply process_event|done]. Qed.

Lemma handle_request_run r rx s tx :
  rx_alive tx = true ->
  handle_request r (mkController rx s tx) =
    (Ok tt, mkController rx (apply_outcome (s, tx) r).1 (apply_outcome (s, tx) r).2).
Proof using process_event.
  intros Htx.
  assert (Hev : forall E e, on_simulation (no_error (E:=E) (send_event e)) (mkController rx s tx) =
    (Ok tt, mkController rx (process e (s, tx)).1 (process e (s, tx)).2)).
  { intros E e. unfold on_simulation, no_error, st_map_err. cbn [simulation reply_sender request_receiver].
    destruct (process_event e (s, tx) Htx) as [-> _]. by destruct (process e (s, tx)). }
  assert (Hre : forall E reply, send_ctrl_reply (E:=E) reply (mkController rx s tx) =
    (Ok tt, mkController rx s (appended [Sim.new_reply reply] tx))).
  { intros E reply. unfold send_ctrl_reply, st_bind, attempt, on_simulation, on_snd, Channel.send.
    cbn [simulation reply_sender request_receiver fst snd]. by rewrite Htx. }
  unfold handle_request, handle_invalid_request_with_valid_target, apply_outcome, request_outcome, st_bind, attempt,
    handle_ctrl_request, handle_mgm_request, handle_mgt_request, handle_pcdu_request, parse_request, Sim.from_sim_message.
  destruct (target (request_inner r)) eqn:Ht; rewrite bool_decide_eq_true_2 by done; unfold st_bind, lift;
    match goal with |- context [from_json ?p] => destruct (from_json p) as [[]|] end; cbn [ok_or map_err];
    by rewrite ?Hev, ?Hre.
Qed.

(** Every request is answered or turned into its event, in order. *)
Theorem controller_correct fuel : forall rx s tx,
  (length (queue rx) < fuel)%nat -> tx_alive rx = true -> rx_alive tx = true ->
  handle_sim_requests fuel (mkController rx s tx) =
    let x := foldl apply_outcome (s, tx) (queue rx) in
    (Ok (Some tt), mkController (Channel.set_queue [] rx) x.1 x.2).
Proof using process_event.
  induction fuel as [|fuel IH]; intros rx s tx Hf Hrx Htx; [lia|]. cbn [handle_sim_requests].
  unfold st_bind, attempt, on_field, Channel.try_recv. cbn [request_receiver].
  destruct (queue rx) as [|r q] eqn:Hq.
  - rewrite Hrx. cbn. destruct rx; cbn in *; by subst.
  - cbn [simulation reply_sender]. rewrite handle_request_run by done.
    pose proof (outcome_alive (s, tx) r Htx) as Ha. destruct (apply_outcome (s, tx) r) as [s1 tx1] eqn:Ho.
    rewrite IH by (cbn in *; (lia || done)). cbn [Channel.set_queue queue foldl]. by rewrite Ho.
Qed.

End ControllerSpec.

(** ** Witnesses *)
Module SimCodec.

Definition unreadable (A : Type) : Json A := {| to_json _ := []; from_json _ := None |}.

Definition ping_json : Json SimCtrlRequest := {|
  to_json _ := [1];
  from_json l := match l with [1] => Some Ping | _ => None end;
|}.

(** A simulation that only logs its events. *)
Definition logging : Simulation (list Event) := {|
  send_event e x := (Ok tt, (x.1 ++ [e], x.2));
  step_until _ x := (Ok tt, x);
|}.

End SimCodec.

Lemma simulator_consistent_witness :
  exists w, switcher_map (pcdu (models w)) !! SwMgm = Some BinOn /\ mgm_switch_state (mgm (models w)) = BinOn.
Proof.
  pose (Hj := SimCodec.unreadable MgmLis3MdlReply). pose (Ht := SimCodec.unreadable MgtReply).
  pose (allowed := fun e => request_event e = true).
  assert (exists w, rtc (@sim_step (fun v => v) Codec.reply_json Hj Ht allowed) (world_new (mkChannel [] None true true)) w /\
    flight w = [] /\ mgm_switch_state (mgm (models w)) = BinOn) as (w & Hr & Hf & Hs).
  { eexists. split.
    - eapply rtc_l; [apply (step_request _ _ _ (PcduSwitchDevice SwMgm BinOn)); done|]. compute_world.
      eapply rtc_l; [apply (step_deliver _ _ _ [] (PcduSwitchDevice SwMgm BinOn) []); [done|constructor|reflexivity]|]. compute_world.
      eapply rtc_l; [apply (step_deliver _ _ _ [] (MgmSwitch BinOn) []); [done|constructor|reflexivity]|]. compute_world.
      apply rtc_refl.
    - done. }
  exists w. split; [|done].
  destruct (@simulator_consistent (fun v => v) Codec.reply_json Hj Ht allowed (fun e He => He) (mkChannel [] None true true) w eq_refl Hr) as (_ & _ & Hm & _).
  rewrite Hm by (rewrite Hf; constructor). by rewrite Hs.
Defined.

Lemma controller_correct_witness :
  exists c, @handle_sim_requests _ SimCodec.logging SimCodec.ping_json (SimCodec.unreadable SimCtrlReply)
      (SimCodec.unreadable MgmRequestLis3Mdl) Codec.request_json (SimCodec.unreadable MgtRequest) 4
      (mkController (mkChannel [mkSimRequest (mkSimMessage SimCtrl [1]); mkSimRequest (mkSimMessage CompPcdu []);
                                mkSimRequest (mkSimMessage CompMgt [7])] None true true) [] (mkChannel [] None true true)) =
      (Ok (Some tt), c) /\
    simulation c = [PcduRequestInfo] /\ length (queue (reply_sender c)) = 2%nat.
Proof.
  eexists. split.
  - apply (@controller_correct SimCodec.ping_json (SimCodec.unreadable SimCtrlReply)
      (SimCodec.unreadable MgmRequestLis3Mdl) Codec.request_json (SimCodec.unreadable MgtRequest) _ SimCodec.logging
      (fun e x => (x.1 ++ [e], x.2))); [by intros e [s tx]|cbn; lia|done|done].
  - vm_compute. done.
Defined.

(** The field of the magnetorquer as the sensor sends it. *)
Example generated_field_raw :
  raw (lis3_reply_new (mkReplyCommon BinOn MGT_GEN_MAGNETIC_FIELD)) = mkRaw 2053 (-2053) 2053.
Proof. vm_compute. reflexivity. Qed.
