(* ===== verification/Stm32f3.v ===== *)
(** * The STM32F3 firmware

    [embedded-examples/stm32f3-disco-rtic/src/main.rs]: telecommands arrive as COBS
    frames on a serial line, are verified and executed, and telemetry leaves the
    same way by DMA.  Tasks and interrupts share the resources of [Fw]; a critical
    section is one step.  The DMA and the serial peripheral are inputs of the
    interrupts and a log of transfers. *)

From Stdlib Require Import ZArith Lia Bool.
From stdpp Require Import base list gmap.
From S2P Require Import Prelude Spacepackets Verification Services Encoding.

Local Open Scope Z_scope.

(** ** Constants *)
Definition DEFAULT_BLINK_FREQ_MS : Z := 1000.
Definition TX_HANDLER_FREQ_MS : Z := 20.
Definition MIN_DELAY_BETWEEN_TX_PACKETS_MS : Z := 5.
Definition MAX_TC_LEN : Z := 128.
Definition MAX_TM_LEN : Z := 128.
Definition PUS_APID : Z := 2.
Definition COBS_TC_OVERHEAD : Z := (MAX_TC_LEN + 254 - 1) / 254.
Definition COBS_TM_OVERHEAD : Z := (MAX_TM_LEN + 254 - 1) / 254.
Definition TC_BUF_LEN : Z := MAX_TC_LEN + COBS_TC_OVERHEAD.
Definition TM_BUF_LEN : Z := MAX_TC_LEN + COBS_TM_OVERHEAD.

(** [Q8] holds eight packets. *)
Definition TM_REQUESTS_DEPTH : nat := 8.

(** ** Data *)
Inductive TmSendError : Type := TmByteConversion (e : ByteConversionError) | TmQueue.

Inductive Request : Type := Ping | ChangeBlinkFrequency (ms : Z).

Record RequestWithToken : Type := mkRequest { token : VerificationToken TcStateAccepted; request : Request }.

Inductive RequestError : Type := InvalidApid | InvalidService | InvalidSubservice | NotEnoughAppData.

(** The peripheral that is idle, and the bytes of a transfer, both behind an
    [Option] they are taken from. *)
Inductive UartTxState : Type :=
| Idle (tx : option unit)
| Transmitting (transfer : option (list Z)).

Record UartTxShared : Type := mkTxShared { last_completed : option Z; state : UartTxState }.

(** Where the transmit task continues after a delay. *)
Inductive TxPc : Type := TxLoop | TxReady.

(** The statics, shared and local resources.  [rx_spawned] is the packet of a
    receive task that has not run yet; [uart_out] are the transfers started. *)
Record Fw : Type := mkFw {
  tm_requests : list (list Z);
  seq_count : Z;
  blink_freq : Z;
  verif_reporter : VerificationReportCreator;
  decode_buf : list Z;
  src_data_buf : list Z;
  timestamp : list Z;
  dma_tx_buf : list Z;
  tx_shared : UartTxShared;
  tx_pc : TxPc;
  tx_wake : Z;
  rx_transfer : option (list Z);
  rx_spawned : option (list Z);
  uart_out : list (list Z);
}.

Definition set_tm_requests (v : list (list Z)) (f : Fw) : Fw :=
  mkFw v (seq_count f) (blink_freq f) (verif_reporter f) (decode_buf f) (src_data_buf f) (timestamp f) (dma_tx_buf f)
    (tx_shared f) (tx_pc f) (tx_wake f) (rx_transfer f) (rx_spawned f) (uart_out f).
Definition set_seq_count (v : Z) (f : Fw) : Fw :=
  mkFw (tm_requests f) v (blink_freq f) (verif_reporter f) (decode_buf f) (src_data_buf f) (timestamp f) (dma_tx_buf f)
    (tx_shared f) (tx_pc f) (tx_wake f) (rx_transfer f) (rx_spawned f) (uart_out f).
Definition set_blink_freq (v : Z) (f : Fw) : Fw :=
  mkFw (tm_requests f) (seq_count f) v (verif_reporter f) (decode_buf f) (src_data_buf f) (timestamp f) (dma_tx_buf f)
    (tx_shared f) (tx_pc f) (tx_wake f) (rx_transfer f) (rx_spawned f) (uart_out f).
Definition set_decode_buf (v : list Z) (f : Fw) : Fw :=
  mkFw (tm_requests f) (seq_count f) (blink_freq f) (verif_reporter f) v (src_data_buf f) (timestamp f) (dma_tx_buf f)
    (tx_shared f) (tx_pc f) (tx_wake f) (rx_transfer f) (rx_spawned f) (uart_out f).
Definition set_src_data_buf (v : list Z) (f : Fw) : Fw :=
  mkFw (tm_requests f) (seq_count f) (blink_freq f) (verif_reporter f) (decode_buf f) v (timestamp f) (dma_tx_buf f)
    (tx_shared f) (tx_pc f) (tx_wake f) (rx_transfer f) (rx_spawned f) (uart_out f).
Definition set_timestamp (v : list Z) (f : Fw) : Fw :=
  mkFw (tm_requests f) (seq_count f) (blink_freq f) (verif_reporter f) (decode_buf f) (src_data_buf f) v (dma_tx_buf f)
    (tx_shared f) (tx_pc f) (tx_wake f) (rx_transfer f) (rx_spawned f) (uart_out f).
Definition set_dma_tx_buf (v : list Z) (f : Fw) : Fw :=
  mkFw (tm_requests f) (seq_count f) (blink_freq f) (verif_reporter f) (decode_buf f) (src_data_buf f) (timestamp f) v
    (tx_shared f) (tx_pc f) (tx_wake f) (rx_transfer f) (rx_spawned f) (uart_out f).
Definition set_tx_shared (v : UartTxShared) (f : Fw) : Fw :=
  mkFw (tm_requests f) (seq_count f) (blink_freq f) (verif_reporter f) (decode_buf f) (src_data_buf f) (timestamp f)
    (dma_tx_buf f) v (tx_pc f) (tx_wake f) (rx_transfer f) (rx_spawned f) (uart_out f).
Definition set_tx_pc (pc : TxPc) (wake : Z) (f : Fw) : Fw :=
  mkFw (tm_requests f) (seq_count f) (blink_freq f) (verif_reporter f) (decode_buf f) (src_data_buf f) (timestamp f)
    (dma_tx_buf f) (tx_shared f) pc wake (rx_transfer f) (rx_spawned f) (uart_out f).
Definition set_rx_transfer (v : option (list Z)) (f : Fw) : Fw :=
  mkFw (tm_requests f) (seq_count f) (blink_freq f) (verif_reporter f) (decode_buf f) (src_data_buf f) (timestamp f)
    (dma_tx_buf f) (tx_shared f) (tx_pc f) (tx_wake f) v (rx_spawned f) (uart_out f).
Definition set_rx_spawned (v : option (list Z)) (f : Fw) : Fw :=
  mkFw (tm_requests f) (seq_count f) (blink_freq f) (verif_reporter f) (decode_buf f) (src_data_buf f) (timestamp f)
    (dma_tx_buf f) (tx_shared f) (tx_pc f) (tx_wake f) (rx_transfer f) v (uart_out f).
Definition set_uart_out (v : list (list Z)) (f : Fw) : Fw :=
  mkFw (tm_requests f) (seq_count f) (blink_freq f) (verif_reporter f) (decode_buf f) (src_data_buf f) (timestamp f)
    (dma_tx_buf f) (tx_shared f) (tx_pc f) (tx_wake f) (rx_transfer f) (rx_spawned f) v.

(** [SeqCountProviderAtomicRef]: [fetch_add] wraps around. *)
Definition seq_get : st Fw Empty_set Z := gets seq_count.

Definition seq_get_and_increment : st Fw Empty_set Z :=
  let* n := gets seq_count in
  let* _ := modify_state (set_seq_count ((n + 1) mod 2 ^ 16)) in
  ret n.

(** [TM_REQUESTS.enqueue(packet)] and [dequeue()]. *)
Definition enqueue (packet : list Z) : st Fw unit unit :=
  let* q := gets tm_requests in
  if (length q <? TM_REQUESTS_DEPTH)%nat then modify_state (set_tm_requests (q ++ [packet])) else throw tt.

Definition dequeue : st Fw Empty_set (option (list Z)) :=
  let* q := gets tm_requests in
  match q with
  | [] => ret None
  | packet :: q' => let* _ := modify_state (set_tm_requests q') in ret (Some packet)
  end.

(** [vec.resize(n, 0).expect(..)] on a vector of at most [max] bytes. *)
Definition resized {E : Type} (max n : Z) : res E (list Z) :=
  if max <? n then Panic else Ok (replicate (Z.to_nat n) 0).

Section Firmware.
(** [PusTmCreator] with a telemetry header and with a telecommand header. *)
Context (tm_writer tc_header_writer : PusTm -> Writer ByteConversionError).
(** [PusTcReader::new]. *)
Context {PE : Type} (pus_tc_reader_new : list Z -> res PE PusTc).
(** [cobs::decode] from a source to a destination: the length, if there is one,
    and the destination; [cobs::encode] and [P_FIELD_BASE]. *)
Context (cobs_decode : list Z -> list Z -> option Z * list Z) (cobs_encode : list Z -> list Z) (P_FIELD_BASE : Z).

(** *** Telemetry *)

Definition send_tm (tm : PusTm) : st Fw TmSendError unit :=
  let w := tm_writer tm in
  if MAX_TM_LEN <? len_written w then throw (TmByteConversion (ToSliceTooSmall MAX_TM_LEN (len_written w))) else
  let* tm_vec := lift (resized MAX_TM_LEN (len_written w)) in
  let* r := lift (map_err TmByteConversion (write_to_bytes w tm_vec)) in
  st_map_err (fun _ => TmQueue) (enqueue r.2).

(** [if let Err(e) = send_tm(tm) { handle_tm_send_error(e) }] *)
Definition try_send_tm {E : Type} (tm : PusTm) : st Fw E unit :=
  let* _ := attempt (send_tm tm) in ret tt.

(** A report that is made in [src_data_buf] and unwrapped. *)
Definition create {E A : Type} (m : st (list Z) ByteConversionError A) : st Fw E A :=
  Service.expect_st (on_field src_data_buf set_src_data_buf m).

(** *** Telecommands *)
Definition no_error {E A : Type} (m : st Fw Empty_set A) : st Fw E A :=
  st_map_err (fun e : Empty_set => match e with end) m.

(** The request of an accepted telecommand. *)
Definition request_of (tc : PusTc) : res RequestError Request :=
  if (tc_service tc =? 17) && (tc_subservice tc =? 1) then
    if tc_subservice tc =? 1 then Ok Ping else Err InvalidSubservice
  else if tc_service tc =? 8 then
    if tc_subservice tc =? 1 then
      if len (tc_user_data tc) <? 4 then Err NotEnoughAppData else
      let? d := slice (tc_user_data tc) 0 4 in
      Ok (ChangeBlinkFrequency (from_be_bytes d))
    else Err InvalidSubservice
  else Err InvalidService.

Definition convert_pus_tc_to_request (tc : PusTc) (stamp : list Z) : st Fw RequestError RequestWithToken :=
  let* c := gets verif_reporter in
  let token := ReportCreator.add_tc tc in
  if negb (tc_apid tc =? PUS_APID) then
    let* n := no_error seq_get_and_increment in
    let* tm := create (ReportCreator.acceptance_failure c token n 0 (mkFailParams stamp (ecss_enum 2 0) [])) in
    let* _ := try_send_tm tm in
    throw InvalidApid
  else
    let* n := no_error seq_get_and_increment in
    let* r := create (ReportCreator.acceptance_success c token n 0 stamp) in
    let* _ := try_send_tm r.1 in
    let* request := lift (request_of tc) in
    ret (mkRequest r.2 request).

(** The header of the reply is one of a telecommand. *)
Definition handle_ping_request (stamp : list Z) : st Fw Empty_set unit :=
  let* n := seq_get_and_increment in
  let w := tc_header_writer (mkPusTm PUS_APID n 17 2 0 0 stamp []) in
  let* tm_packet := lift (resized MAX_TM_LEN (len_written w)) in
  let* r := lift (expect (write_to_bytes w tm_packet)) in
  let* _ := attempt (enqueue r.2) in
  ret tt.

(** The count is read, not incremented. *)
Definition handle_start_verification (accepted_token : VerificationToken TcStateAccepted) (stamp : list Z)
    : st Fw Empty_set (VerificationToken TcStateStarted) :=
  let* c := gets verif_reporter in
  let* n := seq_get in
  let* r := create (ReportCreator.start_success c accepted_token n 0 stamp) in
  let* _ := try_send_tm r.1 in
  ret r.2.

Definition handle_completion_verification (started_token : VerificationToken TcStateStarted) (stamp : list Z)
    : st Fw Empty_set unit :=
  let* c := gets verif_reporter in
  let* n := seq_get in
  let* tm := create (ReportCreator.completion_success c started_token n 0 stamp) in
  try_send_tm tm.

Definition handle_request (r : RequestWithToken) (stamp : list Z) : st Fw Empty_set unit :=
  let* started_token := handle_start_verification (token r) stamp in
  let* _ := match request r with
            | Ping => handle_ping_request stamp
            | ChangeBlinkFrequency new_freq_ms => modify_state (set_blink_freq new_freq_ms)
            end in
  handle_completion_verification started_token stamp.

(** The first byte that is not zero. *)
Fixpoint find_start (idx : Z) (packet : list Z) : option Z :=
  match packet with
  | [] => None
  | byte :: rest => if byte =? 0 then find_start (idx + 1) rest else Some idx
  end.

Definition serial_rx_handler (received_packet : list Z) : st Fw Empty_set unit :=
  let* stamp := asks (fun f => set_index (timestamp f) 0 P_FIELD_BASE) in
  let* _ := modify_state (set_timestamp stamp) in
  match find_start 0 received_packet with
  | None => ret tt
  | Some start_idx =>
      let* src := lift (slice received_packet start_idx (len received_packet)) in
      let* buf := gets decode_buf in
      let '(r, buf) := cobs_decode src buf in
      let* _ := modify_state (set_decode_buf buf) in
      match r with
      | None => ret tt
      | Some _ =>
          match pus_tc_reader_new buf with
          | Ok tc =>
              let* r := attempt (convert_pus_tc_to_request tc stamp) in
              match r with
              | Ok request_with_token => handle_request request_with_token stamp
              | _ => ret tt
              end
          | Err _ => ret tt
          | Panic => lift Panic
          end
      end
  end.

(** *** Transmission *)

(** The frame of a packet in the DMA buffer, between two markers. *)
Definition fill_dma_buf {E : Type} (enc buf : list Z) : res E (list Z) :=
  let? buf := set_index buf 0 0 in
  let? buf := copy_into buf 1 (1 + len enc) enc in
  set_index buf (len enc + 1) 0.

(** The part of [serial_tx_handler] that takes a packet and starts its transfer:
    the delay that follows, in milliseconds. *)
Definition tx_send : st Fw Empty_set Z :=
  let* next := dequeue in
  match next with
  | None => ret TX_HANDLER_FREQ_MS
  | Some vec =>
      let* shared := gets tx_shared in
      match state shared with
      | Idle tx =>
          let* buf := gets dma_tx_buf in
          let enc := cobs_encode vec in
          let* buf := lift (fill_dma_buf enc buf) in
          let* _ := modify_state (set_dma_tx_buf buf) in
          let* _ := lift (unwrap tx) in
          let* data := asks (fun f => slice (dma_tx_buf f) 0 (len enc + 2)) in
          let* out := gets uart_out in
          let* _ := modify_state (set_uart_out (out ++ [data])) in
          let* _ := modify_state (set_tx_shared (mkTxShared (last_completed shared) (Transmitting (Some data)))) in
          ret 1
      | Transmitting _ => ret 1
      end
  end.

Definition sleep (pc : TxPc) (now delay : Z) : st Fw Empty_set unit := modify_state (set_tx_pc pc (now + delay)).

(** [serial_tx_handler] from the point it continues at to its next delay. *)
Definition serial_tx_handler (now : Z) : st Fw Empty_set unit :=
  let send := (let* delay := tx_send in sleep TxLoop now delay) in
  let* pc := gets tx_pc in
  match pc with
  | TxReady => send
  | TxLoop =>
      let* shared := gets tx_shared in
      match state shared with
      | Transmitting _ => sleep TxLoop now 1
      | Idle _ =>
          match last_completed shared with
          | None => send
          | Some last_completed =>
              let elapsed_ms := now - last_completed in
              if elapsed_ms <? MIN_DELAY_BETWEEN_TX_PACKETS_MS
              then sleep TxReady now (MIN_DELAY_BETWEEN_TX_PACKETS_MS - elapsed_ms)
              else send
          end
      end
  end.

(** *** Interrupts *)

(** [serial_rx_handler::spawn(packet).expect(..)]: a task that was spawned and has
    not run cannot be spawned again. *)
Definition spawn_rx (packet : list Z) : st Fw Empty_set unit :=
  let* p := gets rx_spawned in
  match p with
  | Some _ => lift Panic
  | None => modify_state (set_rx_spawned (Some packet))
  end.

(** [received] is what the line delivered, when the transfer is complete. *)
Definition rx_dma_isr (received : option (list Z)) : st Fw Empty_set unit :=
  let* rx := gets rx_transfer in
  let* buf := lift (unwrap rx) in
  match received with
  | None => ret tt
  | Some data =>
      let buf := splice buf 0 data in
      let* tc_packet := lift (resized MAX_TC_LEN (len buf)) in
      let* tc_packet := lift (copy_into tc_packet 0 (len tc_packet) buf) in
      let* _ := modify_state (set_rx_transfer (Some buf)) in
      spawn_rx tc_packet
  end.

(** [tx_complete] says whether a transfer is complete, [received] what arrived
    before the line became idle. *)
Definition serial_isr (now : Z) (tx_complete : bool) (received : option (list Z)) : st Fw Empty_set unit :=
  let* shared := gets tx_shared in
  let* _ :=
    match state shared with
    | Idle _ => ret tt
    | Transmitting transfer =>
        let* _ := lift (unwrap transfer) in
        if tx_complete then modify_state (set_tx_shared (mkTxShared (Some now) (Idle (Some tt)))) else ret tt
    end in
  let* rx := gets rx_transfer in
  let* buf := lift (unwrap rx) in
  match received with
  | None => ret tt
  | Some data =>
      let buf := splice buf 0 data in
      let rx_len := len data in
      let* tc_packet := lift (resized MAX_TC_LEN rx_len) in
      let* data := lift (slice buf 0 rx_len) in
      let* tc_packet := lift (copy_into tc_packet 0 rx_len data) in
      let* _ := spawn_rx tc_packet in
      modify_state (set_rx_transfer (Some buf))
  end.

(** The spawned task runs. *)
Definition run_rx_task : st Fw Empty_set unit :=
  let* p := gets rx_spawned in
  match p with
  | None => ret tt
  | Some packet =>
      let* _ := modify_state (set_rx_spawned None) in
      serial_rx_handler packet
  end.

(** [init]; the reporter is unwrapped. *)
Definition init {E : Type} : res E Fw :=
  let? c := unwrap (ReportCreator.new PUS_APID) in
  Ok (mkFw [] 0 DEFAULT_BLINK_FREQ_MS c (replicate (Z.to_nat MAX_TC_LEN) 0) (replicate (Z.to_nat MAX_TM_LEN) 0)
        (replicate 7 0) (replicate (Z.to_nat TM_BUF_LEN) 0) (mkTxShared None (Idle (Some tt))) TxLoop 0
        (Some (replicate (Z.to_nat TC_BUF_LEN) 0)) None []).

(** *** Steps *)
Inductive Act : Type :=
| ActTx (now : Z)
| ActSerial (now : Z) (tx_complete : bool) (received : option (list Z))
| ActRxDma (received : option (list Z))
| ActRx.

Definition act (a : Act) : st Fw Empty_set unit :=
  match a with
  | ActTx now => serial_tx_handler now
  | ActSerial now tx_complete received => serial_isr now tx_complete received
  | ActRxDma received => rx_dma_isr received
  | ActRx => run_rx_task
  end.

Fixpoint acts (l : list Act) : st Fw Empty_set unit :=
  match l with
  | [] => ret tt
  | a :: l' => let* _ := act a in acts l'
  end.

End Firmware.

(** ** The lights *)

(** [leds], with the directions that are lit, and the iterator of the rest of a
    turn; [dirs] is [Direction::iter()]. *)
Record Blinky : Type := mkBlinky { lit : gset Z; last_dir : Z; curr_dir : list Z }.

Definition toggle_leds (dir : Z) (b : Blinky) : Blinky :=
  mkBlinky ((lit b ∖ {[last_dir b]}) ∪ {[dir]}) dir (curr_dir b).

(** A turn of [blink] up to its delay. *)
Definition blink_turn (dirs : list Z) : st Blinky Empty_set unit :=
  let* d := gets curr_dir in
  match d with
  | dir :: rest => modify_state (fun b => toggle_leds dir (mkBlinky (lit b) (last_dir b) rest))
  | [] =>
      match dirs with
      | [] => lift Panic
      | dir :: rest => modify_state (fun b => toggle_leds dir (mkBlinky (lit b) (last_dir b) rest))
      end
  end.

(** * Receiving *)

(** The resources the receive task changes. *)
Definition received f (q : list (list Z)) (n freq : Z) (stamp dec src : list Z) : Fw :=
  mkFw q n freq (verif_reporter f) dec src stamp (dma_tx_buf f) (tx_shared f) (tx_pc f) (tx_wake f) (rx_transfer f)
    (rx_spawned f) (uart_out f).

(** Packets that find no room are dropped. *)
Definition enqueued (q l : list (list Z)) : list (list Z) := take TM_REQUESTS_DEPTH (q ++ l).

Lemma enqueued_length q l : (length (enqueued q l) <= TM_REQUESTS_DEPTH)%nat.
Proof. unfold enqueued. rewrite length_take. lia. Qed.

Lemma enqueued_app q a b : enqueued (enqueued q a) b = enqueued q (a ++ b).
Proof.
  unfold enqueued. rewrite app_assoc. set (l := q ++ a). destruct (decide (length l <= TM_REQUESTS_DEPTH)%nat) as [Hl|Hl].
  - by rewrite (take_ge l) by done.
  - rewrite take_app_le by (rewrite length_take; lia). rewrite take_take, Nat.min_id. by rewrite take_app_le by lia.
Qed.

Lemma enqueue_run {E} f p :
  (length (tm_requests f) <= TM_REQUESTS_DEPTH)%nat ->
  exists r, attempt (F:=E) (enqueue p) f = (Ok r, set_tm_requests (enqueued (tm_requests f) [p]) f).
Proof.
  intros Hl. unfold attempt, enqueue, st_bind, gets, enqueued. destruct (Nat.ltb_spec (length (tm_requests f)) TM_REQUESTS_DEPTH) as [Hr|Hr].
  - eexists. rewrite take_ge by (rewrite length_app; cbn; lia). done.
  - eexists. rewrite take_app_le by lia. rewrite take_ge by lia. by destruct f.
Qed.

Section Rx.
Context (tm_writer tc_header_writer : PusTm -> Writer ByteConversionError).
Context (tm_bytes tc_bytes : PusTm -> list Z).
Hypothesis tm_written : forall tm, writes (tm_writer tm) (tm_bytes tm).
Hypothesis tc_written : forall tm, writes (tc_header_writer tm) (tc_bytes tm).
(** A packet has 22 bytes besides its data: two headers, the time stamp and a checksum. *)
Hypothesis tm_length : forall tm, len (tm_time_stamp tm) = 7 -> len (tm_bytes tm) = 22 + len (tm_source_data tm).
Hypothesis tc_length : forall tm, len (tm_time_stamp tm) = 7 -> len (tc_bytes tm) = 22 + len (tm_source_data tm).

(** What a telecommand leads to: the packets that are sent, the next sequence
    count and the blink frequency. *)
Definition tc_outcome (c : VerificationReportCreator) (n freq : Z) (stamp : list Z) (tc : PusTc)
    : list (list Z) * Z * Z :=
  let r := RequestId.new tc in
  let n1 := (n + 1) mod 2 ^ 16 in
  let n2 := (n1 + 1) mod 2 ^ 16 in
  let rep ss k := tm_bytes (report_tm c ss k 0 stamp (success_data r None)) in
  if decide (tc_apid tc <> PUS_APID) then
    ([tm_bytes (report_tm c TmAcceptanceFailure n 0 stamp
                  (to_be_bytes 4 (RequestId.raw r) ++ [0; 0]))], n1, freq)
  else if decide (tc_service tc = 17 /\ tc_subservice tc = 1) then
    ([rep TmAcceptanceSuccess n; rep TmStartSuccess n1; tc_bytes (mkPusTm PUS_APID n1 17 2 0 0 stamp []);
      rep TmCompletionSuccess n2], n2, freq)
  else if decide (tc_service tc = 8 /\ tc_subservice tc = 1 /\ 4 <= len (tc_user_data tc)) then
    ([rep TmAcceptanceSuccess n; rep TmStartSuccess n1; rep TmCompletionSuccess n1], n1,
     from_be_bytes (take 4 (tc_user_data tc)))
  else ([rep TmAcceptanceSuccess n], n1, freq).

Record rx_ok f : Prop := {
  rx_queue : (length (tm_requests f) <= TM_REQUESTS_DEPTH)%nat;
  rx_src : len (src_data_buf f) = MAX_TM_LEN;
}.

Lemma tm_sent_run {E} f tm :
  (length (tm_requests f) <= TM_REQUESTS_DEPTH)%nat -> len (tm_bytes tm) <= MAX_TM_LEN ->
  try_send_tm tm_writer (E:=E) tm f = (Ok tt, set_tm_requests (enqueued (tm_requests f) [tm_bytes tm]) f).
Proof using tm_written.
  intros Hq Hl. destruct (tm_written tm) as (Hlen & _ & Hw).
  destruct (enqueue_run (E:=Empty_set) f (tm_bytes tm) Hq) as [r Hr].
  unfold try_send_tm, st_bind, attempt, send_tm, resized, lift. rewrite Hlen.
  destruct (Z.ltb_spec MAX_TM_LEN (len (tm_bytes tm))); [lia|]. unfold st_bind, lift.
  rewrite Hw by (rewrite len_replicate; pose proof (len_nonneg (tm_bytes tm)); lia). cbn [map_err snd].
  unfold st_map_err. unfold attempt in Hr. destruct (enqueue (tm_bytes tm) f) as [[[]| |] f']; by inversion Hr.
Qed.

Lemma create_success_run {E} f c ss n r stamp :
  len (src_data_buf f) = MAX_TM_LEN ->
  exists src, len src = MAX_TM_LEN /\
    create (E:=E) (ReportCreator.create_pus_verif_success_tm c ss n 0 r stamp None) f =
      (Ok (report_tm c ss n 0 stamp (success_data r None)), set_src_data_buf src f).
Proof.
  intros Hl. unfold create, Service.expect_st, on_field. rewrite create_success_spec by done. cbv zeta.
  destruct (Z.ltb_spec (len (src_data_buf f)) (len (success_data r None))) as [Hs|Hs].
  { rewrite Hl in Hs. done. }
  eexists. split; [|done]. rewrite len_app. unfold len in *. rewrite length_drop. cbn in *. unfold MAX_TM_LEN in *. lia.
Qed.

(** A success report whose result is kept, and is sent. *)
Lemma report_run {E A B} f q n freq stamp dec src c ss k r (g : PusTm -> A) (h : A -> PusTm) (K : A -> st Fw E B) :
  (length q <= TM_REQUESTS_DEPTH)%nat -> len src = MAX_TM_LEN -> len stamp = 7 ->
  let tm := report_tm c ss k 0 stamp (success_data r None) in
  h (g tm) = tm ->
  exists src', len src' = MAX_TM_LEN /\
    (let* a := create (let* tm := ReportCreator.create_pus_verif_success_tm c ss k 0 r stamp None in ret (g tm)) in
     let* _ := try_send_tm tm_writer (h a) in K a) (received f q n freq stamp dec src) =
    K (g tm) (received f (enqueued q [tm_bytes tm]) n freq stamp dec src').
Proof using tm_written tm_length.
  intros Hq Hs Ht tm Hh.
  destruct (create_success_run (E:=E) (received f q n freq stamp dec src) c ss k r stamp Hs) as (src' & Hs' & Hc).
  exists src'. split; [done|]. unfold create, Service.expect_st, on_field, st_bind in *.
  destruct (ReportCreator.create_pus_verif_success_tm _ _ _ _ _ _ _ _) as [[tm'| |] b]; try discriminate Hc.
  cbn [expect ret] in *. injection Hc as -> Hb. fold tm.
  rewrite Hh, Hb, tm_sent_run; [done|done|]. rewrite tm_length by done. cbn. done.
Qed.

Lemma ping_run f q n freq stamp dec src :
  (length q <= TM_REQUESTS_DEPTH)%nat -> len stamp = 7 ->
  handle_ping_request tc_header_writer stamp (received f q n freq stamp dec src) =
    (Ok tt, received f (enqueued q [tc_bytes (mkPusTm PUS_APID n 17 2 0 0 stamp [])]) ((n + 1) mod 2 ^ 16) freq stamp dec src).
Proof using tc_written tc_length.
  intros Hq Ht. set (tm := mkPusTm PUS_APID n 17 2 0 0 stamp []).
  destruct (tc_written tm) as (Hlen & _ & Hw). assert (Hl : len (tc_bytes tm) = 22) by (by rewrite tc_length).
  unfold handle_ping_request, seq_get_and_increment, st_bind, gets, modify_state, ret, lift. cbn [received seq_count].
  fold tm. unfold resized. rewrite Hlen, Hl. cbn [Z.ltb MAX_TM_LEN Z.compare Pos.compare Pos.compare_cont].
  rewrite Hw by (rewrite Hl; done). cbn [expect snd].
  destruct (enqueue_run (E:=Empty_set) (received f q ((n + 1) mod 2 ^ 16) freq stamp dec src) (tc_bytes tm) Hq) as [r Hr].
  unfold received in *. unfold set_seq_count. cbn in *. by rewrite Hr.
Qed.

Lemma request_of_cases tc :
  request_of tc =
    if decide (tc_service tc = 17 /\ tc_subservice tc = 1) then Ok Ping
    else if decide (tc_service tc = 8 /\ tc_subservice tc = 1 /\ 4 <= len (tc_user_data tc))
    then Ok (ChangeBlinkFrequency (from_be_bytes (take 4 (tc_user_data tc))))
    else request_of tc.
Proof.
  case_decide as Hp; [|case_decide as Hc; [|done]]; unfold request_of.
  - destruct Hp as [-> ->]. done.
  - destruct Hc as (-> & -> & Hl). cbn [Z.eqb Pos.eqb andb]. destruct (Z.ltb_spec (len (tc_user_data tc)) 4); [lia|].
    rewrite slice_ok by lia. done.
Qed.

(** Every other telecommand is refused. *)
Lemma request_of_refused tc :
  ~ (tc_service tc = 17 /\ tc_subservice tc = 1) ->
  ~ (tc_service tc = 8 /\ tc_subservice tc = 1 /\ 4 <= len (tc_user_data tc)) ->
  exists e, request_of tc = Err e.
Proof.
  intros Hp Hc. unfold request_of.
  destruct (Z.eqb_spec (tc_service tc) 17), (Z.eqb_spec (tc_subservice tc) 1); cbn [andb]; try tauto;
    destruct (Z.eqb_spec (tc_service tc) 8); try by eexists.
  destruct (Z.ltb_spec (len (tc_user_data tc)) 4); [by eexists|lia].
Qed.

(** The three reports of a request. *)
Lemma start_run f q n freq stamp dec src t :
  (length q <= TM_REQUESTS_DEPTH)%nat -> len src = MAX_TM_LEN -> len stamp = 7 ->
  exists src', len src' = MAX_TM_LEN /\
    handle_start_verification tm_writer t stamp (received f q n freq stamp dec src) =
      (Ok (mkToken (request_id t)),
       received f (enqueued q [tm_bytes (report_tm (verif_reporter f) TmStartSuccess n 0 stamp (success_data (request_id t) None))])
         n freq stamp dec src').
Proof using tm_written tm_length.
  intros Hq Hs Ht.
  destruct (report_run (E:=Empty_set) f q n freq stamp dec src (verif_reporter f) TmStartSuccess n (request_id t)
              (fun tm => (tm, mkToken (request_id t) : VerificationToken TcStateStarted)) fst (fun a => ret a.2) Hq Hs Ht eq_refl)
    as (src' & Hs' & Hr). exists src'. split; [done|]. exact Hr.
Qed.

Lemma completion_run f q n freq stamp dec src (t : VerificationToken TcStateStarted) :
  (length q <= TM_REQUESTS_DEPTH)%nat -> len src = MAX_TM_LEN -> len stamp = 7 ->
  exists src', len src' = MAX_TM_LEN /\
    handle_completion_verification tm_writer t stamp (received f q n freq stamp dec src) =
      (Ok tt,
       received f (enqueued q [tm_bytes (report_tm (verif_reporter f) TmCompletionSuccess n 0 stamp (success_data (request_id t) None))])
         n freq stamp dec src').
Proof using tm_written tm_length.
  intros Hq Hs Ht.
  destruct (create_success_run (E:=Empty_set) (received f q n freq stamp dec src) (verif_reporter f) TmCompletionSuccess n
              (request_id t) stamp Hs) as (src' & Hs' & Hc).
  exists src'. split; [done|]. unfold handle_completion_verification, seq_get, st_bind, gets.
  unfold ReportCreator.completion_success, ReportCreator.success_verification_no_step. cbn [verif_reporter received seq_count].
  rewrite Hc. rewrite tm_sent_run; [done|done|]. rewrite tm_length by done. done.
Qed.

Lemma apid_failure_run {E} f q n freq stamp dec src t :
  (length q <= TM_REQUESTS_DEPTH)%nat -> len src = MAX_TM_LEN -> len stamp = 7 ->
  let tm := report_tm (verif_reporter f) TmAcceptanceFailure n 0 stamp (to_be_bytes 4 (RequestId.raw (request_id t)) ++ [0; 0]) in
  exists src', len src' = MAX_TM_LEN /\
    (let* tm := create (E:=E) (ReportCreator.acceptance_failure (verif_reporter f) t n 0 (mkFailParams stamp (ecss_enum 2 0) [])) in
     try_send_tm tm_writer tm) (received f q ((n + 1) mod 2 ^ 16) freq stamp dec src) =
    (Ok tt, received f (enqueued q [tm_bytes tm]) ((n + 1) mod 2 ^ 16) freq stamp dec src').
Proof using tm_written tm_length.
  intros Hq Hs Ht tm. unfold st_bind, create, Service.expect_st, on_field, ReportCreator.acceptance_failure,
    ReportCreator.failure_verification_no_step.
  rewrite create_fail_spec by (done || by apply ecss_enum_ok). cbv zeta. cbn [src_data_buf received].
  change (fail_data_of (request_id t) None (mkFailParams stamp (ecss_enum 2 0) []))
    with (to_be_bytes 4 (RequestId.raw (request_id t)) ++ [0; 0]).
  set (d := to_be_bytes 4 (RequestId.raw (request_id t)) ++ [0; 0]) in *.
  assert (Hd : len d = 6) by done. destruct (Z.ltb_spec (len src) (len d)) as [Hl|Hl]; [rewrite Hs, Hd in Hl; done|].
  exists (d ++ drop (length d) src). split.
  { rewrite len_app. unfold len in *. rewrite length_drop. unfold MAX_TM_LEN in *. lia. }
  cbn [expect time_stamp]. fold tm. rewrite tm_sent_run; [done|done|]. rewrite tm_length by done. subst tm.
  cbn [tm_source_data report_tm]. by rewrite Hd.
Qed.

Definition outcome_state f q stamp dec src (o : list (list Z) * Z * Z) : Fw :=
  received f (enqueued q o.1.1) o.1.2 o.2 stamp dec src.

Lemma rx_request_run f q n freq stamp dec src tc (t : VerificationToken TcStateAccepted) rq :
  request_id t = RequestId.new tc -> request_of tc = Ok rq -> tc_apid tc = PUS_APID ->
  (length q <= TM_REQUESTS_DEPTH)%nat -> len src = MAX_TM_LEN -> len stamp = 7 ->
  let acc := tm_bytes (report_tm (verif_reporter f) TmAcceptanceSuccess n 0 stamp (success_data (RequestId.new tc) None)) in
  exists src', len src' = MAX_TM_LEN /\
    handle_request tm_writer tc_header_writer (mkRequest t rq) stamp
      (received f (enqueued q [acc]) ((n + 1) mod 2 ^ 16) freq stamp dec src) =
    (Ok tt, outcome_state f q stamp dec src' (tc_outcome (verif_reporter f) n freq stamp tc)).
Proof using tm_written tc_written tm_length tc_length.
  intros Hid Hrq Ha Hq Hs Ht acc. unfold handle_request. cbn [token request].
  destruct (start_run f (enqueued q [acc]) ((n + 1) mod 2 ^ 16) freq stamp dec src t) as (s1 & Hs1 & Hr1);
    [apply enqueued_length|done|done|].
  unfold st_bind at 1. rewrite Hr1, enqueued_app, Hid. unfold outcome_state, tc_outcome. rewrite Ha.
  rewrite request_of_cases in Hrq. rewrite decide_False by tauto. case_decide as Hp; [|case_decide as Hc].
  - injection Hrq as <-. unfold st_bind at 1. rewrite ping_run by (apply enqueued_length || done). rewrite enqueued_app.
    edestruct (completion_run f) as (s2 & Hs2 & Hr2); [apply enqueued_length|exact Hs1|exact Ht|].
    exists s2. split; [done|]. rewrite Hr2, enqueued_app. done.
  - injection Hrq as <-. unfold st_bind at 1, modify_state.
    edestruct (completion_run f) as (s2 & Hs2 & Hr2); [apply enqueued_length|exact Hs1|exact Ht|].
    exists s2. split; [done|].
    change (set_blink_freq ?v (received f ?q ?n _ ?a ?b ?c)) with (received f q n v a b c).
    rewrite Hr2, enqueued_app. done.
  - destruct (request_of_refused tc Hp Hc) as [e He]. congruence.
Qed.

(** A telecommand of this APID is accepted. *)
Lemma convert_accepted f q n freq stamp dec src tc :
  (length q <= TM_REQUESTS_DEPTH)%nat -> len src = MAX_TM_LEN -> len stamp = 7 -> tc_apid tc = PUS_APID ->
  let acc := tm_bytes (report_tm (verif_reporter f) TmAcceptanceSuccess n 0 stamp (success_data (RequestId.new tc) None)) in
  exists src', len src' = MAX_TM_LEN /\
    convert_pus_tc_to_request tm_writer tc stamp (received f q n freq stamp dec src) =
      (let? request := request_of tc in Ok (mkRequest (mkToken (RequestId.new tc)) request),
       received f (enqueued q [acc]) ((n + 1) mod 2 ^ 16) freq stamp dec src').
Proof using tm_written tm_length.
  intros Hq Hs Ht Ha acc.
  destruct (report_run (E:=RequestError) f q ((n + 1) mod 2 ^ 16) freq stamp dec src (verif_reporter f)
              TmAcceptanceSuccess n (RequestId.new tc)
              (fun tm => (tm, mkToken (RequestId.new tc) : VerificationToken TcStateAccepted)) fst
              (fun r => let* request := lift (request_of tc) in ret (mkRequest r.2 request)) Hq Hs Ht eq_refl)
    as (s1 & Hs1 & Hr1).
  exists s1. split; [done|]. unfold convert_pus_tc_to_request. rewrite Ha. etransitivity; [exact Hr1|].
  unfold st_bind, lift, ret. by destruct (request_of tc).
Qed.

(** A telecommand of another APID is refused. *)
Lemma convert_refused f q n freq stamp dec src tc :
  (length q <= TM_REQUESTS_DEPTH)%nat -> len src = MAX_TM_LEN -> len stamp = 7 -> tc_apid tc <> PUS_APID ->
  let tm := report_tm (verif_reporter f) TmAcceptanceFailure n 0 stamp (to_be_bytes 4 (RequestId.raw (RequestId.new tc)) ++ [0; 0]) in
  exists src', len src' = MAX_TM_LEN /\
    convert_pus_tc_to_request tm_writer tc stamp (received f q n freq stamp dec src) =
      (Err InvalidApid, received f (enqueued q [tm_bytes tm]) ((n + 1) mod 2 ^ 16) freq stamp dec src').
Proof using tm_written tm_length.
  intros Hq Hs Ht Ha tm.
  destruct (apid_failure_run (E:=RequestError) f q n freq stamp dec src (ReportCreator.add_tc tc) Hq Hs Ht) as (s1 & Hs1 & Hr1).
  exists s1. split; [done|]. unfold convert_pus_tc_to_request. apply Z.eqb_neq in Ha. rewrite Ha. cbn [negb].
  unfold st_bind in *. unfold no_error, st_map_err, seq_get_and_increment, st_bind, gets, modify_state, ret. cbn [map_err].
  cbn [seq_count received verif_reporter].
  change (set_seq_count ?v (received f q n freq stamp dec src)) with (received f q v freq stamp dec src).
  destruct (create _ _) as [[tm'| |] f']; try discriminate Hr1.
  rewrite Hr1. done.
Qed.

(** A telecommand that was decoded. *)
Lemma tc_run f q n freq stamp dec src tc :
  (length q <= TM_REQUESTS_DEPTH)%nat -> len src = MAX_TM_LEN -> len stamp = 7 ->
  exists src', len src' = MAX_TM_LEN /\
    (let* r := attempt (convert_pus_tc_to_request tm_writer tc stamp) in
     match r with
     | Ok request_with_token => handle_request tm_writer tc_header_writer request_with_token stamp
     | _ => ret tt
     end) (received f q n freq stamp dec src) =
    (Ok tt, outcome_state f q stamp dec src' (tc_outcome (verif_reporter f) n freq stamp tc)).
Proof using tm_written tc_written tm_length tc_length.
  intros Hq Hs Ht. unfold st_bind, attempt. destruct (decide (tc_apid tc = PUS_APID)) as [Ha|Ha].
  - destruct (convert_accepted f q n freq stamp dec src tc Hq Hs Ht Ha) as (s1 & Hs1 & ->).
    destruct (request_of tc) as [rq|e|] eqn:Hrq; cbn [res_bind].
    + apply (rx_request_run f q n freq stamp dec s1 tc (mkToken (RequestId.new tc)) rq); done.
    + exists s1. split; [done|]. unfold outcome_state, tc_outcome. rewrite Ha, decide_False by tauto.
      rewrite request_of_cases in Hrq. case_decide; [done|]. case_decide; [done|]. done.
    + rewrite request_of_cases in Hrq. case_decide as Hp; [done|]. case_decide as Hc; [done|].
      destruct (request_of_refused tc Hp Hc) as [e He]. congruence.
  - destruct (convert_refused f q n freq stamp dec src tc Hq Hs Ht Ha) as (s1 & Hs1 & ->).
    exists s1. split; [done|]. unfold outcome_state, tc_outcome. by rewrite decide_True by done.
Qed.

(** ** The receive task *)
Context {PE : Type} (parse : list Z -> res PE PusTc).
Context (cobs_decode : list Z -> list Z -> option Z * list Z) (P_FIELD_BASE : Z).

Lemma find_start_range i l s : find_start i l = Some s -> i <= s < i + len l.
Proof.
  revert i. induction l as [|b l IH]; intros i; cbn [find_start]; [done|]. rewrite len_cons. pose proof (len_nonneg l).
  destruct (b =? 0); [|intros [= ->]; lia]. intros Hs%IH. lia.
Qed.

Lemma find_start_spec i l :
  match find_start i l with
  | None => Forall (fun b => b = 0) l
  | Some s => exists b r, l = replicate (Z.to_nat (s - i)) 0 ++ b :: r /\ b <> 0
  end.
Proof.
  revert i. induction l as [|b l IH]; intros i; cbn [find_start]; [done|]. destruct (Z.eqb_spec b 0) as [->|Hb].
  - specialize (IH (i + 1)). destruct (find_start (i + 1) l) as [s|] eqn:Hs; [|by constructor].
    destruct IH as (b & r & -> & Hb). exists b, r. split; [|done]. apply find_start_range in Hs.
    by replace (Z.to_nat (s - i)) with (S (Z.to_nat (s - (i + 1)))) by lia.
  - exists b, l. by rewrite Z.sub_diag.
Qed.

(** The telecommand a frame on the line carries: what precedes the first byte that
    is not zero is skipped, the rest is decoded over the buffer. *)
Definition frame_start (packet : list Z) : list Z :=
  match find_start 0 packet with Some s => drop (Z.to_nat s) packet | None => [] end.

Definition decoded (f : Fw) (packet : list Z) : option (res PE PusTc) * list Z :=
  match frame_start packet with
  | [] => (None, decode_buf f)
  | src => let '(r, buf) := cobs_decode src (decode_buf f) in (match r with Some _ => Some (parse buf) | None => None end, buf)
  end.

Definition rx_stamp (f : Fw) : list Z := <[0%nat := P_FIELD_BASE]> (timestamp f).

Lemma frame_start_nil packet : frame_start packet = [] <-> find_start 0 packet = None.
Proof.
  unfold frame_start. pose proof (find_start_spec 0 packet) as Hs. destruct (find_start 0 packet) as [s|]; [|done].
  destruct Hs as (b & r & -> & _). split; [|done]. rewrite Z.sub_0_r, drop_app_length'; [done|]. by rewrite length_replicate.
Qed.

(** The receive task: a packet of zeros, one that is no COBS frame and one that
    holds no telecommand leave everything but the time stamp and the decode buffer;
    a telecommand leads to its reports, in order as far as the queue has room, and
    to the new sequence count and blink frequency. *)
Lemma rx_handler_run f packet :
  (length (tm_requests f) <= TM_REQUESTS_DEPTH)%nat -> len (src_data_buf f) = MAX_TM_LEN -> len (timestamp f) = 7 ->
  let stamp := rx_stamp f in
  let run := serial_rx_handler tm_writer tc_header_writer parse cobs_decode P_FIELD_BASE packet f in
  match decoded f packet with
  | (Some (Ok tc), buf) =>
      exists src', len src' = MAX_TM_LEN /\
        run = (Ok tt, outcome_state f (tm_requests f) stamp buf src'
                        (tc_outcome (verif_reporter f) (seq_count f) (blink_freq f) stamp tc))
  | (Some Panic, _) => run.1 = Panic
  | (_, buf) => run = (Ok tt, set_decode_buf buf (set_timestamp stamp f))
  end.
Proof using tm_written tc_written tm_length tc_length.
  intros Hq Hs Ht stamp run.
  assert (Hset : set_index (E:=Empty_set) (timestamp f) 0 P_FIELD_BASE = Ok stamp).
  { unfold set_index. rewrite Ht. done. }
  assert (Hst : len stamp = 7) by (unfold stamp, rx_stamp, len in *; by rewrite length_insert).
  unfold decoded, frame_start, run, serial_rx_handler. clearbody stamp. clear run. destruct (find_start 0 packet) as [s|] eqn:Hf.
  2: { unfold st_bind, asks, modify_state. rewrite Hset. done. }
  pose proof (find_start_range _ _ _ Hf) as Hr. rewrite Z.add_0_l in Hr.
  destruct (drop (Z.to_nat s) packet) as [|x l] eqn:Hd.
  { apply (f_equal length) in Hd. rewrite length_drop in Hd. cbn in Hd. unfold len in *. lia. }
  assert (Hslice : slice (E:=Empty_set) packet s (len packet) = Ok (x :: l)).
  { rewrite slice_ok by lia. rewrite Hd, take_ge; [done|]. rewrite <- Hd, length_drop. unfold len. lia. }
  destruct (cobs_decode (x :: l) (decode_buf f)) as [r buf] eqn:Hc.
  unfold st_bind, asks, modify_state, lift, gets. rewrite Hset, Hslice. cbn [decode_buf set_timestamp]. rewrite Hc.
  destruct r as [n|]; [|done]. destruct (parse buf) as [tc|e|]; [|done|done].
  destruct (tc_run f (tm_requests f) (seq_count f) (blink_freq f) stamp buf (src_data_buf f) tc Hq Hs Hst)
    as (s' & Hs' & Hrun).
  exists s'. split; [done|]. exact Hrun.
Qed.

(** C37: The receive task: a packet of zeros, one that is no COBS frame and one that
    holds no telecommand leave everything but the time stamp and the decode buffer;
    a telecommand leads to its reports, in order as far as the queue has room, and
    to the new sequence count and blink frequency. *)
Theorem rx_handler_correct f packet :
  (length (tm_requests f) <= TM_REQUESTS_DEPTH)%nat -> len (src_data_buf f) = MAX_TM_LEN -> len (timestamp f) = 7 ->
  let stamp := rx_stamp f in
  let run := serial_rx_handler tm_writer tc_header_writer parse cobs_decode P_FIELD_BASE packet f in
  match decoded f packet with
  | (Some (Ok tc), buf) =>
      exists src', len src' = MAX_TM_LEN /\
        run = (Ok tt, outcome_state f (tm_requests f) stamp buf src'
                        (tc_outcome (verif_reporter f) (seq_count f) (blink_freq f) stamp tc))
  | (Some Panic, _) => run.1 = Panic
  | (_, buf) => run = (Ok tt, set_decode_buf buf (set_timestamp stamp f))
  end.
Proof using tm_written tc_written tm_length tc_length. apply rx_handler_run. Qed.
End Rx.

(** * Transmitting *)
Lemma fill_dma_buf_spec {E} enc buf :
  fill_dma_buf (E:=E) enc buf =
    if decide (len enc + 2 <= len buf) then Ok ((0 :: enc ++ [0]) ++ drop (length enc + 2) buf) else Panic.
Proof.
  pose proof (len_nonneg enc). unfold fill_dma_buf. destruct buf as [|b buf]; [by rewrite decide_False by (change (len (@nil Z)) with 0; lia)|].
  change (set_index (b :: buf) 0 0) with (set_index (E:=E) ([] ++ b :: buf) (len (@nil Z)) 0). rewrite set_index_app.
  cbn [app res_bind]. rewrite len_cons. case_decide as Hl.
  - change (0 :: buf) with ([0] ++ drop (length [0]) (b :: buf)). rewrite (copy_into_prefix (b :: buf) [0] enc); [|done|done|rewrite len_cons; lia]. cbn [res_bind].
    change ([0] ++ enc) with (0 :: enc). replace (len enc + 1) with (len (0 :: enc)) by (rewrite len_cons; lia).
    cbn [length drop]. replace (length enc + 2)%nat with (S (S (length enc))) by lia. cbn [drop].
    destruct (drop (length enc) buf) as [|y rest] eqn:Hd.
    { apply (f_equal length) in Hd. rewrite length_drop in Hd. unfold len in *. cbn in Hd. lia. }
    rewrite set_index_app. replace (S (length enc)) with (length enc + 1)%nat by lia.
    rewrite <- drop_drop, Hd. cbn [drop]. by rewrite <- app_assoc.
  - unfold copy_into, slice. rewrite len_cons. destruct (Z.leb_spec (1 + len enc) (1 + len buf)) as [Hc|Hc].
    2: { by rewrite andb_false_r. }
    replace ((0 <=? 1) && (1 <=? 1 + len enc) && true) with true by bool_lia. cbn [res_bind].
    rewrite decide_True by (rewrite length_take, length_drop; cbn; unfold len in *; lia). cbn [res_bind].
    unfold set_index. replace (len enc + 1 <? len (splice (0 :: buf) 1 enc)) with false; [by rewrite andb_false_r|].
    symmetry. apply Z.ltb_ge. unfold len. rewrite length_splice by (rewrite ?len_cons; lia). cbn. unfold len in *. lia.
Qed.

Section System.
Context (tm_writer tc_header_writer : PusTm -> Writer ByteConversionError).
Context (tm_bytes tc_bytes : PusTm -> list Z).
Hypothesis tm_written : forall tm, writes (tm_writer tm) (tm_bytes tm).
Hypothesis tc_written : forall tm, writes (tc_header_writer tm) (tc_bytes tm).
Hypothesis tm_length : forall tm, len (tm_time_stamp tm) = 7 -> len (tm_bytes tm) = 22 + len (tm_source_data tm).
Hypothesis tc_length : forall tm, len (tm_time_stamp tm) = 7 -> len (tc_bytes tm) = 22 + len (tm_source_data tm).
Context {PE : Type} (parse : list Z -> res PE PusTc).
(** The reader returns a result. *)
Hypothesis parse_returns : forall buf, parse buf <> Panic.
Context (cobs_decode : list Z -> list Z -> option Z * list Z) (cobs_encode : list Z -> list Z) (P_FIELD_BASE : Z).
(** COBS adds one byte to a short packet. *)
Hypothesis encode_length : forall p, len p <= MAX_TM_LEN -> len (cobs_encode p) = len p + 1.

Local Abbreviation step := (act tm_writer tc_header_writer parse cobs_decode cobs_encode P_FIELD_BASE).
Local Abbreviation on_wire := (frame cobs_encode).

(** The longest packet whose frame fits into the DMA buffer. *)
Definition MAX_FRAMED : Z := TM_BUF_LEN - 3.

(** What holds between any two steps. *)
Record fw_inv (f : Fw) : Prop := {
  inv_queue : (length (tm_requests f) <= TM_REQUESTS_DEPTH)%nat;
  inv_packets : Forall (fun p => len p <= MAX_FRAMED) (tm_requests f);
  inv_src : len (src_data_buf f) = MAX_TM_LEN;
  inv_stamp : len (timestamp f) = 7;
  inv_dma : len (dma_tx_buf f) = TM_BUF_LEN;
  inv_state : match state (tx_shared f) with Idle tx => tx = Some tt | Transmitting d => is_Some d end;
  inv_rx : exists buf, rx_transfer f = Some buf /\ len buf = TC_BUF_LEN;
  inv_ready : tx_pc f = TxReady ->
    state (tx_shared f) = Idle (Some tt) /\
    forall t, last_completed (tx_shared f) = Some t -> t + MIN_DELAY_BETWEEN_TX_PACKETS_MS <= tx_wake f;
}.

(** The steps that do not panic: the task is continued after its delay, and a packet
    of at most [MAX_TC_LEN] bytes arrives after the previous one was handled. *)
Definition allowed (f : Fw) (a : Act) : Prop :=
  match a with
  | ActTx now => tx_wake f <= now
  | ActSerial _ _ received => match received with Some d => len d <= MAX_TC_LEN /\ rx_spawned f = None | None => True end
  | ActRxDma received => received = None
  | ActRx => True
  end.

(** The packets a step adds to the queue. *)
Definition produced (a : Act) (f f' : Fw) : list (list Z) :=
  match a with ActRx => drop (length (tm_requests f)) (tm_requests f') | _ => [] end.

(** The outcome of a step: the packets it takes from the front of the queue are
    transmitted, those it produces are appended; only the transmit task sends. *)
Definition moves (a : Act) (f f' : Fw) : Prop :=
  exists sent,
    sent ++ tm_requests f' = tm_requests f ++ produced a f f' /\
    uart_out f' = uart_out f ++ (on_wire <$> sent) /\
    match a with ActTx _ => True | _ => sent = [] end.

Lemma moves_nothing a f f' :
  tm_requests f' = tm_requests f -> uart_out f' = uart_out f -> moves a f f'.
Proof.
  intros Hq Ho. exists []. rewrite Hq, Ho, app_nil_r. cbn [app]. destruct a; cbn [produced]; try by rewrite app_nil_r.
  rewrite Hq, drop_all. by rewrite app_nil_r.
Qed.

Lemma outcome_short c n freq stamp tc :
  len stamp = 7 -> Forall (fun p => len p <= MAX_FRAMED) (tc_outcome tm_bytes tc_bytes c n freq stamp tc).1.1.
Proof using tm_length tc_length.
  intros Ht. unfold tc_outcome. repeat case_decide; cbn [fst];
    repeat constructor; rewrite ?tm_length, ?tc_length by done; cbn; done.
Qed.

Lemma enqueued_prefix q l : (length q <= TM_REQUESTS_DEPTH)%nat -> q ++ drop (length q) (enqueued q l) = enqueued q l.
Proof.
  intros Hq. unfold enqueued. rewrite <- (take_drop (length q) (take TM_REQUESTS_DEPTH (q ++ l))) at 2.
  rewrite take_take, Nat.min_l by done. by rewrite take_app_length.
Qed.

Lemma enqueued_short P (q l : list (list Z)) : Forall P q -> Forall P l -> Forall P (enqueued q l).
Proof. intros Hq Hl. apply Forall_take, Forall_app. done. Qed.

(** The receive task. *)
Lemma rx_step f :
  fw_inv f -> exists f', step ActRx f = (Ok tt, f') /\ fw_inv f' /\ moves ActRx f f'.
Proof using tm_written tc_written tm_length tc_length parse_returns.
  intros Hi. cbn [act]. unfold run_rx_task. unfold st_bind at 1, gets. destruct (rx_spawned f) as [packet|].
  2: { exists f. split; [done|]. split; [done|]. by apply moves_nothing. }
  unfold st_bind at 1, modify_state. set (g := set_rx_spawned None f).
  pose proof (rx_handler_run tm_writer tc_header_writer tm_bytes tc_bytes tm_written tc_written tm_length tc_length
                parse cobs_decode P_FIELD_BASE g packet (inv_queue f Hi) (inv_src f Hi) (inv_stamp f Hi)) as Hr.
  assert (Hst : len (rx_stamp P_FIELD_BASE g) = 7).
  { unfold rx_stamp, len. rewrite length_insert. apply (inv_stamp f Hi). }
  cbv zeta in Hr. destruct (decoded parse cobs_decode g packet) as [[r|] buf] eqn:Hd.
  - destruct r as [tc|e|].
    + destruct Hr as (src' & Hs' & ->). eexists. split; [done|]. split.
      * destruct Hi. constructor; try done; [apply enqueued_length|].
        apply enqueued_short; [done|]. by apply outcome_short.
      * exists []. split; [|split; [by rewrite app_nil_r|done]]. cbn [app produced tm_requests outcome_state received].
        by rewrite enqueued_prefix by apply Hi.
    + rewrite Hr. eexists. split; [done|]. split; [by destruct Hi|]. by apply moves_nothing.
    + unfold decoded in Hd. destruct (frame_start packet); [done|]. destruct (cobs_decode _ _) as [[n|] b]; [|done].
      injection Hd as Hp _. by apply parse_returns in Hp.
  - rewrite Hr. eexists. split; [done|]. split; [by destruct Hi|]. by apply moves_nothing.
Qed.

(** The interrupts. *)
Lemma dma_step f : fw_inv f -> exists f', step (ActRxDma None) f = (Ok tt, f') /\ fw_inv f' /\ moves (ActRxDma None) f f'.
Proof.
  intros Hi. exists f. split; [|split; [done|by apply moves_nothing]].
  cbn [act]. unfold rx_dma_isr, st_bind, gets, lift. destruct (inv_rx f Hi) as (buf & -> & _). done.
Qed.

Lemma spawn_data buf d :
  len buf = TC_BUF_LEN -> len d <= MAX_TC_LEN ->
  resized (E:=Empty_set) MAX_TC_LEN (len d) = Ok (replicate (Z.to_nat (len d)) 0) /\
  slice (E:=Empty_set) (splice buf 0 d) 0 (len d) = Ok d /\
  copy_into (E:=Empty_set) (replicate (Z.to_nat (len d)) 0) 0 (len d) d = Ok d /\
  len (splice buf 0 d) = TC_BUF_LEN.
Proof.
  intros Hb Hd. pose proof (len_nonneg d). unfold resized.
  assert (Hs : length (splice buf 0 d) = length buf) by (apply length_splice; change TC_BUF_LEN with 129 in *; change MAX_TC_LEN with 128 in *; lia).
  destruct (Z.ltb_spec MAX_TC_LEN (len d)); [lia|]. split; [done|]. split; [|split].
  - rewrite slice_ok by (unfold len in *; rewrite ?Hs; change TC_BUF_LEN with 129 in *; change MAX_TC_LEN with 128 in *; lia).
    rewrite Z.sub_0_r. change (splice buf 0 d) with (d ++ drop (length d) buf). unfold len. rewrite Nat2Z.id.
    change (drop (Z.to_nat 0) ?x) with x. by rewrite take_app_length.
  - rewrite copy_into_ok by (rewrite ?len_replicate; lia). rewrite splice_full; [done|]. rewrite length_replicate. unfold len. lia.
  - unfold len in *. by rewrite Hs.
Qed.

Lemma serial_step now c received f :
  fw_inv f -> allowed f (ActSerial now c received) ->
  exists f', step (ActSerial now c received) f = (Ok tt, f') /\ fw_inv f' /\ moves (ActSerial now c received) f f'.
Proof.
  intros Hi Ha. cbn [act]. unfold serial_isr. unfold st_bind at 1, gets. pose proof (inv_state f Hi) as Hst.
  set (m := match state (tx_shared f) with Idle _ => _ | Transmitting _ => _ end).
  assert (exists s, m f = (Ok tt, set_tx_shared s f) /\
            match state s with Idle tx => tx = Some tt | Transmitting d => is_Some d end /\
            (state (tx_shared f) = Idle (Some tt) -> s = tx_shared f)) as (s & Hm & Hs & Hsame).
  { unfold m. destruct (state (tx_shared f)) as [tx|d] eqn:Hsf.
    - exists (tx_shared f). rewrite Hsf. split; [by destruct f|done].
    - destruct Hst as [x ->]. unfold st_bind, lift. cbn [unwrap]. destruct c.
      + by eexists.
      + exists (tx_shared f). rewrite Hsf. split; [by destruct f|done]. }
  unfold st_bind at 1. rewrite Hm. destruct (inv_rx f Hi) as (buf & Hb & Hl).
  assert (Hi' : fw_inv (set_tx_shared s f)).
  { destruct Hi. constructor; try done. cbn [tx_pc set_tx_shared tx_shared]. intros Hpc. destruct (inv_ready0 Hpc) as [Hidle Ht].
    by rewrite Hsame. }
  unfold st_bind at 1. cbn [rx_transfer set_tx_shared]. rewrite Hb. unfold st_bind at 1, lift. cbn [unwrap].
  destruct received as [d|]; [|eexists; split; [done|split; [done|by apply moves_nothing]]].
  destruct Ha as [Hd Hp]. destruct (spawn_data buf d Hl Hd) as (Hr & Hsl & Hc & Hlen).
  unfold st_bind at 1. rewrite Hr. unfold st_bind at 1. rewrite Hsl. unfold st_bind at 1. rewrite Hc.
  unfold st_bind at 1, spawn_rx. unfold st_bind at 1, gets. cbn [rx_spawned set_tx_shared]. rewrite Hp. unfold modify_state.
  eexists. split; [done|]. split; [|by apply moves_nothing]. destruct Hi'. constructor; try done. by eexists.
Qed.

(** The transmit task. *)
Lemma tx_send_empty f : tm_requests f = [] -> tx_send cobs_encode f = (Ok TX_HANDLER_FREQ_MS, f).
Proof. intros Hq. unfold tx_send, dequeue, st_bind, gets. rewrite Hq. done. Qed.

(** A transfer that was started. *)
Definition transmitting (f : Fw) (p : list Z) (q : list (list Z)) : Fw :=
  set_tx_shared (mkTxShared (last_completed (tx_shared f)) (Transmitting (Some (on_wire p))))
    (set_uart_out (uart_out f ++ [on_wire p])
      (set_dma_tx_buf (on_wire p ++ drop (length (on_wire p)) (dma_tx_buf f)) (set_tm_requests q f))).

Lemma tx_send_first f p q :
  tm_requests f = p :: q -> len p <= MAX_FRAMED -> state (tx_shared f) = Idle (Some tt) -> len (dma_tx_buf f) = TM_BUF_LEN ->
  tx_send cobs_encode f = (Ok 1, transmitting f p q).
Proof using encode_length.
  intros Hq Hp Hs Hb. assert (He : len (cobs_encode p) = len p + 1).
  { apply encode_length. change MAX_FRAMED with 126 in *. change MAX_TM_LEN with 128. lia. }
  unfold tx_send, dequeue, st_bind, gets, modify_state, ret. rewrite Hq. cbn [tx_shared set_tm_requests]. rewrite Hs.
  unfold lift. cbn [dma_tx_buf set_tm_requests]. rewrite fill_dma_buf_spec. rewrite decide_True by (rewrite He, Hb; unfold MAX_FRAMED in *; lia).
  cbn [unwrap]. unfold asks. cbn [dma_tx_buf set_dma_tx_buf].
  assert (Hw : 0 :: cobs_encode p ++ [0] = on_wire p) by done. rewrite Hw.
  assert (Hlw : length (on_wire p) = (length (cobs_encode p) + 2)%nat) by (rewrite <- Hw; cbn; rewrite length_app; cbn; lia).
  rewrite <- Hlw. rewrite slice_ok.
  2: { pose proof (len_nonneg (cobs_encode p)). lia. }
  2: { rewrite len_app. unfold len. rewrite length_drop. lia. }
  replace (Z.to_nat (len (cobs_encode p) + 2 - 0)) with (length (on_wire p)) by (unfold len; lia).
  change (drop (Z.to_nat 0) ?x) with x. rewrite take_app_length. done.
Qed.

Lemma send_step now f :
  fw_inv f -> state (tx_shared f) = Idle (Some tt) ->
  exists f', (let* delay := tx_send cobs_encode in sleep TxLoop now delay) f = (Ok tt, f') /\
    fw_inv f' /\ moves (ActTx now) f f'.
Proof using encode_length.
  intros Hi Hs. unfold st_bind. destruct (tm_requests f) as [|p q] eqn:Hq.
  - rewrite tx_send_empty by done. eexists. split; [done|]. split; [|by apply moves_nothing]. by destruct Hi.
  - pose proof (inv_packets f Hi) as Hp. rewrite Hq in Hp. apply Forall_cons in Hp as [Hp Hps].
    rewrite (tx_send_first f p q) by (done || apply Hi). eexists. split; [done|]. split.
    + destruct Hi. constructor; try done.
      * cbn. rewrite Hq in inv_queue0. cbn in inv_queue0. lia.
      * cbn [dma_tx_buf sleep transmitting set_tx_pc set_tx_shared set_uart_out set_dma_tx_buf modify_state].
        unfold len in *. rewrite length_app, length_drop. pose proof (encode_length p) as He.
        assert (length (on_wire p) <= length (dma_tx_buf f))%nat; [|lia].
        unfold frame. cbn. rewrite length_app. cbn. unfold len in *. change MAX_FRAMED with 126 in *.
        change MAX_TM_LEN with 128 in *. change TM_BUF_LEN with 129 in *. lia.
      * cbn. by eexists.
    + exists [p]. rewrite Hq. cbn. by rewrite app_nil_r.
Qed.

(** A transfer starts only when the line is idle, and the minimum delay after the
    previous one. *)
Definition spaced (f : Fw) (now : Z) : Prop :=
  state (tx_shared f) = Idle (Some tt) /\
  forall t, last_completed (tx_shared f) = Some t -> t + MIN_DELAY_BETWEEN_TX_PACKETS_MS <= now.

Lemma tx_step now f :
  fw_inv f -> tx_wake f <= now ->
  exists f', step (ActTx now) f = (Ok tt, f') /\ fw_inv f' /\ moves (ActTx now) f f' /\
    (uart_out f' <> uart_out f -> spaced f now).
Proof using encode_length.
  intros Hi Hw. cbn [act]. unfold serial_tx_handler. unfold st_bind at 1, gets. destruct (tx_pc f) eqn:Hpc.
  2: { destruct (inv_ready f Hi Hpc) as [Hs Ht]. destruct (send_step now f Hi Hs) as (f' & Hf & Hi' & Hm).
       exists f'. split; [done|]. split; [done|]. split; [done|]. intros _. split; [done|]. intros t Hl. specialize (Ht t Hl). lia. }
  unfold st_bind at 1. pose proof (inv_state f Hi) as Hst. destruct (state (tx_shared f)) as [tx|d] eqn:Hs.
  2: { eexists. split; [done|]. split; [by destruct Hi|]. split; [by apply moves_nothing|done]. }
  subst tx. destruct (send_step now f Hi Hs) as (f' & Hf & Hi' & Hm).
  destruct (last_completed (tx_shared f)) as [t|] eqn:Hl.
  2: { exists f'. split; [done|]. split; [done|]. split; [done|]. intros _. split; [done|]. intros t. by rewrite Hl. }
  destruct (Z.ltb_spec (now - t) MIN_DELAY_BETWEEN_TX_PACKETS_MS) as [He|He].
  - eexists. split; [done|]. split; [|split; [by apply moves_nothing|done]]. destruct Hi. constructor; try done.
    cbn. intros _. split; [done|]. rewrite Hl. intros t' [= <-]. lia.
  - exists f'. split; [done|]. split; [done|]. split; [done|]. intros _. split; [done|]. rewrite Hl. intros t' [= <-]. lia.
Qed.

Lemma fw_step a f :
  fw_inv f -> allowed f a ->
  exists f', step a f = (Ok tt, f') /\ fw_inv f' /\ moves a f f' /\
    (uart_out f' <> uart_out f -> exists now, a = ActTx now /\ spaced f now).
Proof using tm_written tc_written tm_length tc_length parse_returns encode_length.
  intros Hi Ha. assert (exists f', step a f = (Ok tt, f') /\ fw_inv f' /\ moves a f f' /\
    (forall now, a = ActTx now -> uart_out f' <> uart_out f -> spaced f now)) as (f' & Hf & Hi' & Hm & Hs).
  { destruct a as [now|now c r|r|].
    - destruct (tx_step now f Hi Ha) as (f' & Hf & Hi' & Hm & Hs). exists f'. repeat (split; [done|]). by intros ? [= <-].
    - destruct (serial_step now c r f Hi Ha) as (f' & Hf & Hi' & Hm). exists f'. done.
    - cbn in Ha. subst r. destruct (dma_step f Hi) as (f' & Hf & Hi' & Hm). exists f'. done.
    - destruct (rx_step f Hi) as (f' & Hf & Hi' & Hm). exists f'. done. }
  exists f'. repeat (split; [done|]). intros Ho. destruct Hm as (sent & _ & Hu & Ht).
  destruct a as [now| | |]; [by eauto|..]; subst sent; by rewrite Hu, app_nil_r in Ho.
Qed.

(** The states that are reached by steps that do not panic, with the packets that
    were queued so far. *)
Inductive reached : Fw -> list (list Z) -> Prop :=
| reached_init f : init (E:=Empty_set) = Ok f -> reached f []
| reached_step f h a f' :
    reached f h -> allowed f a -> step a f = (Ok tt, f') -> reached f' (h ++ produced a f f').

Lemma init_inv f : init (E:=Empty_set) = Ok f -> fw_inv f /\ uart_out f = [] /\ tm_requests f = [].
Proof.
  unfold init. destruct (ReportCreator.new PUS_APID) as [c|]; [|done]. cbn [unwrap res_bind]. intros [= <-]. split; [|done].
  constructor; try done; [cbn; lia|by eexists].
Qed.

Lemma reached_inv f h : reached f h -> fw_inv f /\ uart_out f ++ (on_wire <$> tm_requests f) = on_wire <$> h.
Proof using tm_written tc_written tm_length tc_length parse_returns encode_length.
  induction 1 as [f Hf|f h a f' _ [Hi Hh] Ha Hs].
  - destruct (init_inv f Hf) as (Hi & -> & ->). done.
  - destruct (fw_step a f Hi Ha) as (f1 & Hs1 & Hi1 & (sent & Hq & Ho & _) & _). rewrite Hs in Hs1. injection Hs1 as <-.
    split; [done|]. rewrite Ho, <- app_assoc, <- fmap_app, Hq, fmap_app, app_assoc, Hh, fmap_app. done.
Qed.

(** C36: From the start, as long as packets are at most 128 bytes and the previous one
    was handled, no task and no interrupt panics; the frames on the line and those of
    the queued packets are the frames of all packets that were ever queued, so each
    is transmitted once and in order; and a transfer starts only on an idle line, at
    least 5 milliseconds after the previous transfer completed. *)
Theorem telemetry_transmitted f h :
  reached f h ->
  uart_out f ++ (on_wire <$> tm_requests f) = on_wire <$> h /\
  forall a, allowed f a ->
    exists f', step a f = (Ok tt, f') /\ reached f' (h ++ produced a f f') /\
      (uart_out f' <> uart_out f -> exists now, a = ActTx now /\ spaced f now).
Proof using tm_written tc_written tm_length tc_length parse_returns encode_length.
  intros Hr. destruct (reached_inv f h Hr) as [Hi Hh]. split; [done|]. intros a Ha.
  destruct (fw_step a f Hi Ha) as (f' & Hs & _ & _ & Ho). exists f'. split; [done|]. split; [|done].
  by eapply reached_step.
Qed.

(** ** The queue is emptied *)

(** A round of [serial_tx_handler] for one packet: the transfer takes [d]
    milliseconds and its completion interrupts. *)
Definition cycle (t d : Z) : list Act := [ActTx t; ActTx (t + 5); ActSerial (t + 5 + d) true None].

Fixpoint drain (n : nat) (t d : Z) : list Act :=
  match n with O => [] | S n' => cycle t d ++ drain n' (t + 6 + d) d end.

(** The task waits, and nothing is transmitted. *)
Record ready (f : Fw) (t : Z) : Prop := {
  ready_inv : fw_inv f;
  ready_pc : tx_pc f = TxLoop;
  ready_idle : state (tx_shared f) = Idle (Some tt);
  ready_wake : tx_wake f <= t;
  ready_completed : forall t0, last_completed (tx_shared f) = Some t0 -> t0 <= t;
}.

Local Abbreviation steps := (acts tm_writer tc_header_writer parse cobs_decode cobs_encode P_FIELD_BASE).

Lemma acts_app l l' f f' : steps l f = (Ok tt, f') -> steps (l ++ l') f = steps l' f'.
Proof.
  revert f. induction l as [|a l IH]; intros f; cbn [acts app]; [by intros [= <-]|].
  unfold st_bind. destruct (step a f) as [[[]| |] g]; [apply IH|done|done].
Qed.

Lemma send_first now f p q :
  fw_inv f -> state (tx_shared f) = Idle (Some tt) -> tm_requests f = p :: q ->
  (let* delay := tx_send cobs_encode in sleep TxLoop now delay) f = (Ok tt, set_tx_pc TxLoop (now + 1) (transmitting f p q)).
Proof using encode_length.
  intros Hi Hs Hq. unfold st_bind. rewrite (tx_send_first f p q); [done|done| |done|apply Hi].
  pose proof (inv_packets f Hi) as Hp. rewrite Hq in Hp. by inversion Hp.
Qed.

(** At the second step of a round the transfer runs. *)
Lemma cycle_started f t p q :
  ready f t -> tm_requests f = p :: q ->
  exists f1 f2, step (ActTx t) f = (Ok tt, f1) /\ step (ActTx (t + 5)) f1 = (Ok tt, f2) /\
    allowed f1 (ActTx (t + 5)) /\
    f2 = set_tx_pc TxLoop (t + 6) (transmitting f p q).
Proof using encode_length.
  intros [Hi Hpc Hs Hw Hc] Hq. cbn [act].
  pose proof (send_first t f p q Hi Hs Hq) as Hnow.
  assert (Hlate : forall f1, f1 = set_tx_pc TxLoop (t + 1) (transmitting f p q) ->
    serial_tx_handler cobs_encode (t + 5) f1 = (Ok tt, set_tx_pc TxLoop (t + 6) (transmitting f p q))).
  { intros f1 ->. unfold serial_tx_handler, sleep, st_bind, gets, modify_state. cbn.
    by replace (t + 5 + 1) with (t + 6) by lia. }
  unfold serial_tx_handler at 1. unfold st_bind at 1, gets at 1. rewrite Hpc. unfold st_bind at 1, gets at 1. rewrite Hs.
  destruct (last_completed (tx_shared f)) as [t0|] eqn:Hl.
  2: { do 2 eexists. split; [exact Hnow|]. split; [by apply Hlate|]. split; [cbn; lia|done]. }
  specialize (Hc t0 eq_refl). destruct (Z.ltb_spec (t - t0) MIN_DELAY_BETWEEN_TX_PACKETS_MS) as [He|He].
  2: { do 2 eexists. split; [exact Hnow|]. split; [by apply Hlate|]. split; [cbn; lia|done]. }
  do 2 eexists. split; [done|]. unfold serial_tx_handler. unfold st_bind at 1, gets at 1. cbn [tx_pc sleep modify_state set_tx_pc].
  split; [|split; [unfold MIN_DELAY_BETWEEN_TX_PACKETS_MS in *; cbn; lia|reflexivity]].
  rewrite (send_first (t + 5) _ p q); [by replace (t + 5 + 1) with (t + 6) by lia| |done|done].
  destruct Hi. constructor; try done. cbn. intros _. split; [done|]. rewrite Hl. intros t' [= <-].
  unfold MIN_DELAY_BETWEEN_TX_PACKETS_MS in *. lia.
Qed.

Lemma cycle_run f t d p q :
  ready f t -> 0 <= d -> tm_requests f = p :: q ->
  exists f', steps (cycle t d) f = (Ok tt, f') /\ ready f' (t + 6 + d) /\ tm_requests f' = q /\
    uart_out f' = uart_out f ++ [on_wire p].
Proof using tm_written tc_written tm_length tc_length parse_returns encode_length.
  intros Hr Hd Hq. destruct (cycle_started f t p q Hr Hq) as (f1 & f2 & Hs1 & Hs2 & Ha2 & Hf2).
  destruct (fw_step (ActTx t) f (ready_inv f t Hr) (ready_wake f t Hr)) as (g1 & Hg1 & Hi1 & _).
  rewrite Hs1 in Hg1. injection Hg1 as <-. destruct (fw_step (ActTx (t + 5)) f1 Hi1 Ha2) as (g2 & Hg2 & Hi2 & _).
  rewrite Hs2 in Hg2. injection Hg2 as <-.
  destruct (fw_step (ActSerial (t + 5 + d) true None) f2 Hi2 I) as (f3 & Hs3 & Hi3 & _).
  exists f3. unfold cycle. cbn [acts]. unfold st_bind. rewrite Hs1, Hs2, Hs3. split; [done|].
  assert (Hf3 : f3 = set_tx_shared (mkTxShared (Some (t + 5 + d)) (Idle (Some tt))) f2).
  { cbn [act] in Hs3. unfold serial_isr, st_bind, gets, lift, modify_state in Hs3. rewrite Hf2 in Hs3 |- *.
    destruct (inv_rx f (ready_inv f t Hr)) as (buf & Hb & _). cbn in Hs3. rewrite Hb in Hs3. cbn in Hs3. by injection Hs3 as <-. }
  rewrite Hf3, Hf2 in *. split; [|done]. constructor; try done; cbn; [lia|]. intros t0 [= <-]. lia.
Qed.

(** When packets wait and the line is free, the transmit task sends them all: every
    round of at most six milliseconds and the duration of the transfer takes the
    first packet, so that the queue is empty after as many rounds as it had packets. *)
Theorem queue_drained f t d :
  ready f t -> 0 <= d ->
  exists f', steps (drain (length (tm_requests f)) t d) f = (Ok tt, f') /\
    tm_requests f' = [] /\ uart_out f' = uart_out f ++ (on_wire <$> tm_requests f) /\
    ready f' (t + Z.of_nat (length (tm_requests f)) * (6 + d)).
Proof using tm_written tc_written tm_length tc_length parse_returns encode_length.
  intros Hr Hd. remember (tm_requests f) as q eqn:Hq. symmetry in Hq. revert f t Hr Hq.
  induction q as [|p q IH]; intros f t Hr Hq.
  - exists f. rewrite Hq, app_nil_r, Z.add_0_r. done.
  - destruct (cycle_run f t d p q Hr Hd Hq) as (f1 & Hs & Hr1 & Hq1 & Ho).
    destruct (IH f1 (t + 6 + d) Hr1 Hq1) as (f' & Hs' & Hq' & Ho' & Hr'). exists f'. cbn [length drain].
    rewrite (acts_app _ _ _ f1 Hs). split; [done|]. split; [done|]. split.
    + rewrite Ho', Ho, <- app_assoc. done.
    + by replace (t + Z.of_nat (S (length q)) * (6 + d)) with (t + 6 + d + Z.of_nat (length q) * (6 + d)) by lia.
Qed.

(** ** What the buffers have no room for *)

(** A reception that fills the DMA buffer is one byte longer than the packet that is
    spawned: the interrupt panics. *)
Lemma full_reception_panics f buf d :
  rx_transfer f = Some buf -> len buf = TC_BUF_LEN -> len d = TC_BUF_LEN -> (rx_dma_isr (Some d) f).1 = Panic.
Proof.
  intros Hb Hl Hd. unfold rx_dma_isr, st_bind, gets, lift. rewrite Hb. cbn [unwrap].
  rewrite splice_full by (unfold len in *; lia). unfold resized. by rewrite Hd.
Qed.

(** A packet that arrives before the previous one was handled panics. *)
Lemma early_packet_panics f now c p d :
  fw_inv f -> len d <= MAX_TC_LEN -> rx_spawned f = Some p -> (serial_isr now c (Some d) f).1 = Panic.
Proof.
  intros Hi Hd Hp. destruct (inv_rx f Hi) as (buf & Hb & Hl). destruct (spawn_data buf d Hl Hd) as (Hr & Hsl & Hc & _).
  pose proof (inv_state f Hi) as Hs.
  unfold serial_isr, spawn_rx, st_bind, gets, lift, modify_state, ret. destruct (state (tx_shared f)) as [tx|x].
  - rewrite Hb. cbn [unwrap]. by rewrite Hr, Hsl, Hc, Hp.
  - destruct Hs as [y ->]. cbn [unwrap]. destruct c; cbn [rx_transfer set_tx_shared]; rewrite Hb; cbn [unwrap];
      rewrite Hr, Hsl, Hc; cbn [rx_spawned set_tx_shared]; by rewrite Hp.
Qed.

(** Telemetry of 127 or 128 bytes is queued, and panics when it is sent: the frame has
    an overhead byte and two markers. *)
Lemma long_telemetry_panics f tm :
  fw_inv f -> tm_requests f = [] -> state (tx_shared f) = Idle (Some tt) ->
  MAX_FRAMED < len (tm_bytes tm) <= MAX_TM_LEN ->
  exists f', send_tm tm_writer tm f = (Ok tt, f') /\ (tx_send cobs_encode f').1 = Panic.
Proof using tm_written encode_length.
  intros Hi Hq Hs Hl. destruct (tm_written tm) as (Hlen & _ & Hw). exists (set_tm_requests [tm_bytes tm] f). split.
  - unfold send_tm, resized, st_bind, lift, st_map_err. rewrite Hlen. destruct (Z.ltb_spec MAX_TM_LEN (len (tm_bytes tm))); [lia|].
    rewrite Hw by (rewrite len_replicate; pose proof (len_nonneg (tm_bytes tm)); lia). cbn [map_err snd].
    unfold enqueue, st_bind, gets. rewrite Hq. done.
  - unfold tx_send, dequeue, st_bind, gets, modify_state, ret, lift. cbn [tm_requests set_tm_requests tx_shared]. rewrite Hs.
    cbn [dma_tx_buf set_tm_requests]. rewrite fill_dma_buf_spec, decide_False; [done|].
    rewrite encode_length by lia. rewrite (inv_dma f Hi). unfold MAX_FRAMED in *. lia.
Qed.
End System.

(** * Blinking *)
Section Blink.
Context (dirs : list Z).

Fixpoint turns (n : nat) : st Blinky Empty_set unit :=
  match n with O => ret tt | S n' => let* _ := turns n' in blink_turn dirs end.

Lemma turns_lit n last :
  dirs <> [] ->
  exists d, dirs !! (n mod length dirs)%nat = Some d /\
    turns (S n) (mkBlinky ∅ last dirs) = (Ok tt, mkBlinky {[d]} d (drop (S (n mod length dirs)) dirs)).
Proof.
  intros Hd. assert (Hl : length dirs <> 0%nat) by (by destruct dirs). induction n as [|n IH].
  - rewrite Nat.Div0.mod_0_l. destruct dirs as [|d ds] eqn:He; [done|]. exists d. split; [done|].
    unfold turns, blink_turn, st_bind, gets, ret, modify_state. cbn [curr_dir]. unfold toggle_leds. cbn [lit last_dir curr_dir drop].
    repeat f_equal. set_solver.
  - destruct IH as (d & _ & IH). change (turns (S (S n))) with (let* _ := turns (S n) in blink_turn dirs).
    unfold st_bind. rewrite IH. pose proof (Nat.mod_upper_bound n (length dirs) Hl) as Hb.
    assert (Hone : forall e : Z, ({[d]} ∖ {[d]} ∪ {[e]} : gset Z) = {[e]}) by (intros e; set_solver).
    destruct (decide (S (n mod length dirs) < length dirs)%nat) as [Hk|Hk].
    + assert (Hm : (S n mod length dirs = S (n mod length dirs))%nat).
      { rewrite <- Nat.add_1_l, <- Nat.Div0.add_mod_idemp_r. by rewrite Nat.mod_small by lia. }
      rewrite Hm. destruct (lookup_lt_is_Some_2 dirs _ Hk) as [e He]. exists e. split; [done|].
      unfold blink_turn, st_bind, gets, modify_state. cbn [curr_dir]. rewrite (drop_S dirs e _ He). unfold toggle_leds.
      cbn [lit last_dir curr_dir]. by rewrite Hone.
    + assert (Hm : (S n mod length dirs = 0)%nat).
      { rewrite <- Nat.add_1_l, <- Nat.Div0.add_mod_idemp_r.
        replace (1 + n mod length dirs)%nat with (length dirs) by lia. apply Nat.Div0.mod_same. }
      rewrite Hm. rewrite (drop_ge dirs) by lia. destruct dirs as [|e ds]; [done|]. exists e. split; [done|].
      unfold blink_turn, st_bind, gets, modify_state. cbn [curr_dir]. unfold toggle_leds. cbn [lit last_dir curr_dir drop].
      by rewrite Hone.
Qed.
End Blink.

(** * Witnesses *)
Module Demo.
Definition bytes (kind : Z) (tm : PusTm) : list Z :=
  [kind; tm_apid tm; 192; tm_seq_count tm; 0; 0; 32; tm_service tm; tm_subservice tm; 0; 0; 0; 0] ++
  tm_time_stamp tm ++ tm_source_data tm ++ [0; 0].

Definition writer (kind : Z) (tm : PusTm) : Writer ByteConversionError := bytes_writer (bytes kind tm).

Lemma writer_writes kind tm : writes (writer kind tm) (bytes kind tm).
Proof. apply bytes_writer_writes. Qed.

Lemma bytes_length kind tm : len (tm_time_stamp tm) = 7 -> len (bytes kind tm) = 22 + len (tm_source_data tm).
Proof. intros Ht. unfold bytes. rewrite !len_app, Ht. cbn. unfold len. cbn. lia. Qed.

(** A frame holds a count and the service, the subservice and the data. *)
Definition encode (p : list Z) : list Z := len p + 1 :: p.

Lemma encode_longer p : len p <= MAX_TM_LEN -> len (encode p) = len p + 1.
Proof. intros _. unfold encode. rewrite len_cons. lia. Qed.

Definition decode (src dst : list Z) : option Z * list Z :=
  match src with [] => (None, dst) | n :: rest => (Some (len rest), splice dst 0 rest) end.

Definition parse (buf : list Z) : res unit PusTc :=
  match buf with
  | service :: subservice :: data => Ok (mkPusTc 0 6146 49152 2 0 service subservice 0 data)
  | _ => Err tt
  end.

Lemma parse_result buf : parse buf <> Panic.
Proof. destruct buf as [|? [|? ?]]; done. Qed.

Definition start : Fw :=
  mkFw [] 0 DEFAULT_BLINK_FREQ_MS (mkCreator 0 2) (replicate 128 0) (replicate 128 0) (replicate 7 0) (replicate 129 0)
    (mkTxShared None (Idle (Some tt))) TxLoop 0 (Some (replicate 129 0)) None [].

Lemma start_init : init (E:=Empty_set) = Ok start.
Proof. reflexivity. Qed.
End Demo.

(** A request for another frequency. *)
Lemma rx_handler_correct_witness :
  exists f, serial_rx_handler (Demo.writer 8) (Demo.writer 24) Demo.parse Demo.decode 64 [0; 7; 8; 1; 0; 0; 1; 244] Demo.start = (Ok tt, f) /\
    blink_freq f = 500 /\ length (tm_requests f) = 3%nat /\ seq_count f = 1.
Proof.
  pose proof (rx_handler_correct (Demo.writer 8) (Demo.writer 24) (Demo.bytes 8) (Demo.bytes 24) (Demo.writer_writes 8)
    (Demo.writer_writes 24) (Demo.bytes_length 8) (Demo.bytes_length 24) Demo.parse Demo.decode 64 Demo.start
    [0; 7; 8; 1; 0; 0; 1; 244]) as H.
  destruct H as (src & _ & H); [cbn; lia|reflexivity|reflexivity|]. eexists. split; [exact H|]. repeat split.
Defined.

(** The acceptance report of a telecommand is on its way. *)
Lemma telemetry_transmitted_witness :
  exists f h, reached (Demo.writer 8) (Demo.writer 24) Demo.parse Demo.decode Demo.encode 64 f h /\
    uart_out f ++ (frame Demo.encode <$> tm_requests f) = frame Demo.encode <$> h /\ length h = 1%nat /\ length (uart_out f) = 1%nat.
Proof.
  set (run := acts (Demo.writer 8) (Demo.writer 24) Demo.parse Demo.decode Demo.encode 64).
  set (st := act (Demo.writer 8) (Demo.writer 24) Demo.parse Demo.decode Demo.encode 64).
  set (f1 := (st (ActSerial 3 false (Some [4; 5; 1; 7])) Demo.start).2).
  set (f2 := (st ActRx f1).2). set (f3 := (st (ActTx 10) f2).2).
  assert (Hr : reached (Demo.writer 8) (Demo.writer 24) Demo.parse Demo.decode Demo.encode 64 f3
                 ((([] ++ produced (ActSerial 3 false (Some [4; 5; 1; 7])) Demo.start f1) ++ produced ActRx f1 f2) ++
                  produced (ActTx 10) f2 f3)).
  { eapply reached_step; [eapply reached_step; [eapply reached_step; [apply reached_init, Demo.start_init|..]|..]|..];
      try (vm_compute; reflexivity); vm_compute; try split; try discriminate; reflexivity. }
  exists f3. eexists. split; [exact Hr|].
  destruct (telemetry_transmitted (Demo.writer 8) (Demo.writer 24) (Demo.bytes 8) (Demo.bytes 24) (Demo.writer_writes 8)
    (Demo.writer_writes 24) (Demo.bytes_length 8) (Demo.bytes_length 24) Demo.parse Demo.parse_result Demo.decode Demo.encode 64
    Demo.encode_longer f3 _ Hr) as [H _].
  split; [exact H|]. split; vm_compute; reflexivity.
Defined.

Lemma queue_drained_witness :
  let f := set_tm_requests [[1; 2]; [3]] Demo.start in
  exists f', acts (Demo.writer 8) (Demo.writer 24) Demo.parse Demo.decode Demo.encode 64 (drain 2 100 3) f = (Ok tt, f') /\
    uart_out f' = [[0; 3; 1; 2; 0]; [0; 2; 3; 0]].
Proof.
  intros f. assert (Hr : ready f 100).
  { constructor; try done. constructor; try done; [unfold f, TM_REQUESTS_DEPTH; cbn; lia| |by eexists]. repeat constructor; done. }
  destruct (queue_drained (Demo.writer 8) (Demo.writer 24) (Demo.bytes 8) (Demo.bytes 24) (Demo.writer_writes 8)
    (Demo.writer_writes 24) (Demo.bytes_length 8) (Demo.bytes_length 24) Demo.parse Demo.parse_result Demo.decode Demo.encode 64
    Demo.encode_longer f 100 3 Hr) as (f' & Hs & _ & Ho & _); [lia|].
  exists f'. split; [exact Hs|exact Ho].
Defined.
