(* ===== verification/Stm32h7.v ===== *)
(** * The STM32H7 firmware

    [embedded-examples/stm32h7-nucleo-rtic/src/main.rs]: datagrams are stored in a
    heapless memory pool, their addresses go through a channel to the task that
    reads, checks and deletes the telecommands.  The network stack is what its
    sockets deliver; a critical section is one step. *)

From Stdlib Require Import ZArith Lia Bool Sorting.
From stdpp Require Import base list gmap sorting.
From S2P Require Import Prelude Spacepackets Pool Verification Services.

Local Open Scope Z_scope.

Definition TC_SOURCE_CHANNEL_DEPTH : nat := 16.
Definition SUBPOOL_SMALL_NUM_BLOCKS : Z := 32.
Definition SUBPOOL_SMALL_BLOCK_SIZE : Z := 32.
Definition SUBPOOL_MEDIUM_NUM_BLOCKS : Z := 16.
Definition SUBPOOL_MEDIUM_BLOCK_SIZE : Z := 128.
Definition SUBPOOL_LARGE_NUM_BLOCKS : Z := 8.
Definition SUBPOOL_LARGE_BLOCK_SIZE : Z := 2048.

(** [StaticHeaplessMemoryPool<3>] *)
Definition MAX_NUM_SUBPOOLS : nat := 3.

(** The length of the [read_buf] of the telecommand task. *)
Definition READ_BUF_LEN : Z := 1024.

(** ** The pool that [init] makes *)
Definition static_subpool (n size : Z) : list Z * list Z :=
  (replicate (Z.to_nat (n * size)) 0, replicate (Z.to_nat n) STORE_FREE).

Definition grow_subpool (n size : Z) : st StaticHeaplessMemoryPool PoolIsFull unit :=
  let '(memory, sizes) := static_subpool n size in
  HeaplessPool.grow MAX_NUM_SUBPOOLS memory sizes n true.

Definition init_pool : res PoolIsFull StaticHeaplessMemoryPool :=
  let r := (let* _ := Service.expect_st (grow_subpool SUBPOOL_SMALL_NUM_BLOCKS SUBPOOL_SMALL_BLOCK_SIZE) in
            let* _ := Service.expect_st (grow_subpool SUBPOOL_MEDIUM_NUM_BLOCKS SUBPOOL_MEDIUM_BLOCK_SIZE) in
            Service.expect_st (E:=PoolIsFull) (grow_subpool SUBPOOL_LARGE_NUM_BLOCKS SUBPOOL_LARGE_BLOCK_SIZE))
             (HeaplessPool.new true) in
  res_map (fun _ => r.2) r.1.

(** ** The network interface *)
Inductive DhcpEvent (A R : Type) : Type :=
| Deconfigured
| Configured (address : A) (router : option R).
Arguments Deconfigured {A R}. Arguments Configured {A R} address router.

Record Net (A T : Type) : Type := mkNet { ip_addrs : list A; routes : T }.
Arguments mkNet {A T} _ _. Arguments ip_addrs {A T} _. Arguments routes {A T} _.

(** What the firmware uses of [smoltcp]: the capacity of an interface for addresses [A]
    and the default route in a table [T] of routes over gateways [R]; the table can be full. *)
Class IpStack (A R T : Type) : Type := {
  iface_max_addr_count : nat;
  add_default_ipv4_route : R -> T -> option T;
  remove_default_ipv4_route : T -> T;
}.

Module NetIf.
Section NetIf.
Context {A R T : Type} `{IpStack A R T}.

(** The result of the first push is not looked at. *)
Definition new (addr : A) (routes : T) : Net A T :=
  mkNet (if (0 <? iface_max_addr_count)%nat then [addr] else []) routes.

Definition set_ip_addrs (l : list A) (n : Net A T) : Net A T := mkNet l (routes n).
Definition set_routes (t : T) (n : Net A T) : Net A T := mkNet (ip_addrs n) t.

Definition poll_dhcp (event : option (DhcpEvent A R)) : st (Net A T) Empty_set unit :=
  match event with
  | None => ret tt
  | Some Deconfigured =>
      let* _ := modify_state (set_ip_addrs []) in
      modify_state (fun n => set_routes (remove_default_ipv4_route (routes n)) n)
  | Some (Configured address router) =>
      let* _ := modify_state (set_ip_addrs []) in
      let* _ := (if (iface_max_addr_count <=? 0)%nat then lift Panic else modify_state (set_ip_addrs [address])) in
      match router with
      | Some r =>
          let* t := asks (fun n => unwrap (add_default_ipv4_route r (routes n))) in
          modify_state (set_routes t)
      | None => modify_state (fun n => set_routes (remove_default_ipv4_route (routes n)) n)
      end
  end.
End NetIf.
End NetIf.

(** ** Telecommands *)

(** What [recv] finds in the socket, where it does not find it exhausted. *)
Inductive Received (C : Type) : Type := Datagram (data : list Z) (client : C) | Truncated.
Arguments Datagram {C} data client. Arguments Truncated {C}.

(** What the telecommand task logs. *)
Inductive TcLog (PE : Type) : Type :=
| Waiting
| ReceivedPus (tc : PusTc)
| NotPus (e : PE)
| ReadFailed (e : PoolError).
Arguments Waiting {PE}. Arguments ReceivedPus {PE} tc. Arguments NotPus {PE} e. Arguments ReadFailed {PE} e.

(** The pool and the sockets are shared; the channel connects the two tasks. *)
Record Fw (P C : Type) : Type := mkFw {
  shared_pool : P;
  is_open : bool;
  rx_queue : list (Received C);
  last_client : option C;
  tc_source : list Z;
  read_buf : list Z;
}.
Arguments mkFw {P C} _ _ _ _ _ _. Arguments shared_pool {P C} _. Arguments is_open {P C} _. Arguments rx_queue {P C} _.
Arguments last_client {P C} _. Arguments tc_source {P C} _. Arguments read_buf {P C} _.

Section Telecommands.
Context {P C : Type} `{PoolProvider P}.
Context {PE : Type} (pus_tc_reader_new : list Z -> res PE PusTc).

Definition set_shared_pool (v : P) (s : Fw P C) : Fw P C :=
  mkFw v (is_open s) (rx_queue s) (last_client s) (tc_source s) (read_buf s).
Definition set_is_open (v : bool) (s : Fw P C) : Fw P C :=
  mkFw (shared_pool s) v (rx_queue s) (last_client s) (tc_source s) (read_buf s).
Definition set_rx_queue (v : list (Received C)) (s : Fw P C) : Fw P C :=
  mkFw (shared_pool s) (is_open s) v (last_client s) (tc_source s) (read_buf s).
Definition set_last_client (v : option C) (s : Fw P C) : Fw P C :=
  mkFw (shared_pool s) (is_open s) (rx_queue s) v (tc_source s) (read_buf s).
Definition set_tc_source (v : list Z) (s : Fw P C) : Fw P C :=
  mkFw (shared_pool s) (is_open s) (rx_queue s) (last_client s) v (read_buf s).
Definition set_read_buf (v : list Z) (s : Fw P C) : Fw P C :=
  mkFw (shared_pool s) (is_open s) (rx_queue s) (last_client s) (tc_source s) v.

(** [UdpNet::new], with the resources of the tasks. *)
Definition new (pool : P) : Fw P C := mkFw pool false [] None [] (replicate (Z.to_nat READ_BUF_LEN) 0).

Definition on_pool {E A : Type} (m : st P E A) : st (Fw P C) E A := on_field shared_pool set_shared_pool m.

(** [tc_source_tx.try_send(store_addr)] *)
Definition try_send (addr : Z) : st (Fw P C) unit unit :=
  let* q := gets tc_source in
  if (length q <? TC_SOURCE_CHANNEL_DEPTH)%nat then modify_state (set_tc_source (q ++ [addr])) else throw tt.

(** A datagram of [UdpNet::poll]. *)
Definition handle_datagram (data : list Z) (client : C) : st (Fw P C) Empty_set unit :=
  let* r := attempt (on_pool (pool_add data)) in
  let* _ := match r with
            | Ok store_addr => let* _ := attempt (try_send store_addr) in ret tt
            | _ => ret tt
            end in
  modify_state (set_last_client (Some client)).

Fixpoint recv_loop (queue : list (Received C)) : st (Fw P C) Empty_set unit :=
  match queue with
  | [] => ret tt
  | e :: rest =>
      let* _ := modify_state (set_rx_queue rest) in
      let* _ := match e with Datagram data client => handle_datagram data client | Truncated => ret tt end in
      recv_loop rest
  end.

(** [bind_ok] says whether the socket can be bound. *)
Definition poll (bind_ok : bool) : st (Fw P C) Empty_set unit :=
  let* o := gets is_open in
  let* _ := (if negb o && bind_ok then modify_state (set_is_open true) else ret tt) in
  let* q := gets rx_queue in
  recv_loop q.

(** A turn of [tc_source_task]; it waits while the channel is empty. *)
Definition tc_source_turn : st (Fw P C) Empty_set (TcLog PE) :=
  let* q := gets tc_source in
  match q with
  | [] => ret Waiting
  | pool_addr :: q' =>
      let* _ := modify_state (set_tc_source q') in
      let* r := attempt (asks (fun s => pool_read (shared_pool s) pool_addr (read_buf s))) in
      match r with
      | Ok (packet_len, buf) =>
          let* _ := modify_state (set_read_buf buf) in
          let* packet := lift (slice buf 0 packet_len) in
          let* log := match pus_tc_reader_new packet with
                      | Ok tc => ret (ReceivedPus tc)
                      | Err e => ret (NotPus e)
                      | Panic => lift Panic
                      end in
          let* _ := attempt (on_pool (pool_delete pool_addr)) in
          ret log
      | Err e => ret (ReadFailed e)
      | Panic => lift Panic
      end
  end.

Context {A R T : Type} `{IpStack A R T}.

(** The interrupt, in which frames arrive and the DHCP socket may have an event, and
    the turns of the two tasks. *)
Inductive Step : Type :=
| EthIsr (frames : list (Received C)) (event : option (DhcpEvent A R))
| UdpTask (bind_ok : bool)
| TcSourceTask.

Definition step (a : Step) : st (Fw P C * Net A T) Empty_set (list (TcLog PE)) :=
  match a with
  | EthIsr frames event =>
      let* _ := on_fst (modify_state (fun s => set_rx_queue (rx_queue s ++ frames) s)) in
      let* _ := on_snd (NetIf.poll_dhcp event) in
      ret []
  | UdpTask bind_ok => let* _ := on_fst (poll bind_ok) in ret []
  | TcSourceTask => let* l := on_fst tc_source_turn in ret [l]
  end.

Fixpoint run (l : list Step) : st (Fw P C * Net A T) Empty_set (list (TcLog PE)) :=
  match l with
  | [] => ret []
  | a :: l' => let* x := step a in let* y := run l' in ret (x ++ y)
  end.
End Telecommands.

(** ** The link and the lights *)
Record Link : Type := mkLink { eth_link_up : bool; link_led : bool }.

(** A turn of [eth_link_check]; [up] is the answer of [phy.poll_link()]. *)
Definition eth_link_turn (up : bool) (l : Link) : Link :=
  let link_was_up := eth_link_up l in
  if up then if negb link_was_up then mkLink true true else l
  else if link_was_up then mkLink false false else l.

Record BlinkyLeds : Type := mkLeds { led1 : bool; led2 : bool }.

Definition init_leds : BlinkyLeds := mkLeds true false.

Definition blinky_turn (l : BlinkyLeds) : BlinkyLeds := mkLeds (negb (led1 l)) (negb (led2 l)).

(** * The network interface and its laws

    What the documentation of [smoltcp] says of the table: adding a default route replaces the
    one there is, and fails only when the other routes fill the table. *)
Class IpStackLaws (A R T : Type) `{IpStack A R T} : Type := {
  default_route : T -> option R;
  other_routes : T -> nat;
  max_routes : nat;
  addr_room : (0 < iface_max_addr_count)%nat;
  route_room : (0 < max_routes)%nat;
  add_default_law : forall r t, (other_routes t < max_routes)%nat ->
    exists t', add_default_ipv4_route r t = Some t' /\ default_route t' = Some r /\ other_routes t' = other_routes t;
  remove_default_law : forall t,
    default_route (remove_default_ipv4_route t) = None /\ other_routes (remove_default_ipv4_route t) = other_routes t;
}.

(** What a DHCP event leaves: the addresses and the default route. *)
Definition configured {A R : Type} (x : list A * option R) (event : option (DhcpEvent A R)) : list A * option R :=
  match event with
  | None => x
  | Some Deconfigured => ([], None)
  | Some (Configured address router) => ([address], router)
  end.

(** An interface with these addresses and this default route, and no other. *)
Definition net_rep {A R T} `{IpStackLaws A R T} (n : Net A T) (x : list A * option R) : Prop :=
  ip_addrs n = x.1 /\ default_route (routes n) = x.2 /\ other_routes (routes n) = 0%nat.

Lemma poll_dhcp_run {A R T} `{IpStackLaws A R T} event (n : Net A T) x :
  net_rep n x -> exists n', NetIf.poll_dhcp event n = (Ok tt, n') /\ net_rep n' (configured x event).
Proof.
  intros (Ha & Hd & Ho). pose proof addr_room. pose proof route_room.
  destruct (remove_default_law (routes n)) as [Hr1 Hr2]. rewrite Ho in Hr2.
  destruct event as [[|address router]|]; [by eexists| |by exists n].
  unfold NetIf.poll_dhcp, st_bind, modify_state. destruct (Nat.leb_spec iface_max_addr_count 0); [lia|].
  destruct router as [r|]; [|by eexists].
  destruct (add_default_law r (routes n)) as (t & Ht & Hdt & Hot); [lia|].
  unfold asks. cbn [routes NetIf.set_ip_addrs]. rewrite Ht. eexists. split; [reflexivity|].
  split; [done|]. split; [done|]. exact (eq_trans Hot Ho).
Qed.

(** * The path of the telecommands *)
Section Path.
Context {P C : Type} `{PP : PoolProvider P} `{PS : !PoolSpec P}.
Context {PE : Type} (parse : list Z -> res PE PusTc).
(** The reader returns a result. *)
Hypothesis parse_returns : forall d, parse d <> Panic.
Context {A R T : Type} `{IpStackLaws A R T}.
Abbreviation Step := (Step (C:=C) (A:=A) (R:=R)).
Implicit Types (s : Fw P C) (w k : list (list Z)).

(** The packets that wait in the channel, and those that stay in the pool though no
    address of theirs is left. *)
Record path_rep s w k : Prop := {
  rep_buf : len (read_buf s) = READ_BUF_LEN;
  rep_depth : (length w <= TC_SOURCE_CHANNEL_DEPTH)%nat;
  rep_pool : exists m lost,
    pool_rep (shared_pool s) m /\ NoDup (tc_source s ++ lost) /\
    (forall a, is_Some (m !! a) <-> a ∈ tc_source s ++ lost) /\
    Forall2 (fun a d => m !! a = Some d) (tc_source s) w /\
    Forall2 (fun a d => m !! a = Some d) lost k;
}.

(** What the datagrams of a poll lead to: what the pool refuses is dropped, the others
    wait in the channel, or are lost when it is full. *)
Inductive stored : P -> list (list Z) -> list (list Z) -> list (list Z) -> P -> list (list Z) -> list (list Z) -> Prop :=
| stored_nil p w k : stored p w k [] p w k
| stored_refused p w k d ds e p' w' k' :
    pool_add d p = (Err e, p) -> stored p w k ds p' w' k' -> stored p w k (d :: ds) p' w' k'
| stored_waits p w k d ds a p1 p' w' k' :
    pool_add d p = (Ok a, p1) -> (length w < TC_SOURCE_CHANNEL_DEPTH)%nat ->
    stored p1 (w ++ [d]) k ds p' w' k' -> stored p w k (d :: ds) p' w' k'
| stored_lost p w k d ds a p1 p' w' k' :
    pool_add d p = (Ok a, p1) -> length w = TC_SOURCE_CHANNEL_DEPTH ->
    stored p1 w (k ++ [d]) ds p' w' k' -> stored p w k (d :: ds) p' w' k'.

Definition payload (e : Received C) : list (list Z) := match e with Datagram d _ => [d] | Truncated => [] end.
Definition payloads (q : list (Received C)) : list (list Z) := mjoin (payload <$> q).

Fixpoint last_sender (q : list (Received C)) (c : option C) : option C :=
  match q with
  | [] => c
  | Datagram _ c' :: q' => last_sender q' (Some c')
  | Truncated :: q' => last_sender q' c
  end.

(** What the telecommand task makes of a packet. *)
Definition tc_log (d : list Z) : TcLog PE :=
  match parse d with Ok tc => ReceivedPus tc | Err e => NotPus e | Panic => Waiting end.

Lemma path_frame s s' w k :
  shared_pool s' = shared_pool s -> tc_source s' = tc_source s -> read_buf s' = read_buf s ->
  path_rep s w k -> path_rep s' w k.
Proof. intros Hp Hc Hb [Hl Hd Hr]. constructor; [by rewrite Hb|done|]. by rewrite Hp, Hc. Qed.

(** A packet that the pool accepts is new, and waits or is lost. *)
Lemma path_store s w k d a p1 :
  path_rep s w k -> pool_add d (shared_pool s) = (Ok a, p1) ->
  ((length w < TC_SOURCE_CHANNEL_DEPTH)%nat -> path_rep (set_tc_source (tc_source s ++ [a]) (set_shared_pool p1 s)) (w ++ [d]) k) /\
  path_rep (set_shared_pool p1 s) w (k ++ [d]).
Proof.
  intros [Hl Hd (m & lost & Hm & Hn & Hdom & Hw & Hk)] Ha. pose proof (pool_add_spec _ m d Hm) as Hs. rewrite Ha in Hs.
  destruct Hs as (Hfree & _ & Hm1).
  assert (Hna : a ∉ tc_source s ++ lost) by (intros Hin; apply Hdom in Hin; destruct Hin; congruence).
  assert (Hkeep : forall l ds, (forall x, x ∈ l -> x ∈ tc_source s ++ lost) ->
            Forall2 (fun a d => m !! a = Some d) l ds -> Forall2 (fun a' d' => <[a := d]> m !! a' = Some d') l ds).
  { intros l ds Hsub Hf. apply Forall2_same_length_lookup_2; [by eapply Forall2_length|]. intros i x y Hx Hy.
    assert (x <> a). { intros ->. apply Hna, Hsub. by eapply list_elem_of_lookup_2. }
    rewrite lookup_insert_ne by done. exact (Forall2_lookup_lr _ _ _ _ _ _ Hf Hx Hy). }
  assert (Hdom' : forall x, is_Some (<[a := d]> m !! x) <-> x = a \/ x ∈ tc_source s ++ lost).
  { intros x. destruct (decide (x = a)) as [->|Hx]; [rewrite lookup_insert_eq; naive_solver|].
    rewrite lookup_insert_ne by done. rewrite Hdom. naive_solver. }
  split.
  - intros Hroom. constructor; [done|rewrite length_app; cbn; lia|]. exists (<[a := d]> m), lost.
    cbn [shared_pool set_tc_source set_shared_pool tc_source]. split; [done|]. split; [|split; [|split]].
    + rewrite <- app_assoc. apply NoDup_app. apply NoDup_app in Hn as (Hn1 & Hn2 & Hn3).
      rewrite not_elem_of_app in Hna. split; [done|]. split.
      * intros x Hx. rewrite elem_of_app, list_elem_of_singleton. intros [->|Hi]; [tauto|by apply (Hn2 x)].
      * apply NoDup_cons. split; [tauto|done].
    + intros x. rewrite Hdom'. rewrite !elem_of_app, list_elem_of_singleton. tauto.
    + apply Forall2_app; [|constructor; [by rewrite lookup_insert_eq|constructor]].
      apply Hkeep; [|done]. intros x Hx. apply elem_of_app. by left.
    + apply Hkeep; [|done]. intros x Hx. apply elem_of_app. by right.
  - constructor; [done|done|]. exists (<[a := d]> m), (lost ++ [a]).
    cbn [shared_pool set_shared_pool tc_source]. split; [done|]. split; [|split; [|split]].
    + rewrite app_assoc. apply NoDup_app. split; [done|]. split; [|apply NoDup_singleton].
      intros x Hx. rewrite list_elem_of_singleton. by intros ->.
    + intros x. rewrite Hdom'. rewrite !elem_of_app, list_elem_of_singleton. tauto.
    + apply Hkeep; [|done]. intros x Hx. apply elem_of_app. by left.
    + apply Forall2_app; [|constructor; [by rewrite lookup_insert_eq|constructor]].
      apply Hkeep; [|done]. intros x Hx. apply elem_of_app. by right.
Qed.

Lemma on_pool_run {E B} s (m : st P E B) r p' :
  m (shared_pool s) = (r, p') -> on_pool m s = (r, set_shared_pool p' s).
Proof. intros Hm. unfold on_pool, on_field. by rewrite Hm. Qed.

Lemma channel_send_run s a :
  exists r, attempt (F:=Empty_set) (try_send a) s =
    (Ok r, if (length (tc_source s) <? TC_SOURCE_CHANNEL_DEPTH)%nat then set_tc_source (tc_source s ++ [a]) s else s).
Proof.
  unfold attempt, try_send, st_bind, gets. destruct (length (tc_source s) <? TC_SOURCE_CHANNEL_DEPTH)%nat; by eexists.
Qed.

(** One datagram. *)
Lemma datagram_run s w k d c :
  path_rep s w k ->
  exists s' w' k', handle_datagram d c s = (Ok tt, s') /\ path_rep s' w' k' /\
    stored (shared_pool s) w k [d] (shared_pool s') w' k' /\
    rx_queue s' = rx_queue s /\ is_open s' = is_open s /\ last_client s' = Some c.
Proof using PS.
  intros Hr. destruct (rep_pool s w k Hr) as (m & lost & Hm & _ & _ & Hw & _).
  assert (Hlen : length (tc_source s) = length w) by (by eapply Forall2_length).
  pose proof (pool_add_spec _ m d Hm) as Ha. unfold handle_datagram. unfold st_bind at 1, attempt at 1.
  destruct (pool_add d (shared_pool s)) as [[a|e|] p1] eqn:Hadd; [| |done].
  - rewrite (on_pool_run s _ _ _ Hadd). destruct (path_store s w k d a p1 Hr Hadd) as [Hwait Hlost].
    unfold st_bind at 1. unfold st_bind at 1. destruct (channel_send_run (set_shared_pool p1 s) a) as [r ->].
    cbn [tc_source set_shared_pool]. unfold modify_state, ret. destruct (Nat.ltb_spec (length (tc_source s)) TC_SOURCE_CHANNEL_DEPTH).
    + exists (set_last_client (Some c) (set_tc_source (tc_source s ++ [a]) (set_shared_pool p1 s))), (w ++ [d]), k.
      split; [done|]. split; [apply (path_frame (set_tc_source (tc_source s ++ [a]) (set_shared_pool p1 s))); try done; apply Hwait; lia|].
      split; [|done]. eapply stored_waits; [done|lia|constructor].
    + exists (set_last_client (Some c) (set_shared_pool p1 s)), w, (k ++ [d]).
      split; [done|]. split; [by apply (path_frame (set_shared_pool p1 s))|]. split; [|done].
      eapply stored_lost; [done| |constructor]. pose proof (rep_depth s w k Hr). lia.
  - subst p1. rewrite (on_pool_run s _ _ _ Hadd). exists (set_last_client (Some c) (set_shared_pool (shared_pool s) s)), w, k.
    split; [done|]. split; [by apply (path_frame s)|]. split; [|done]. eapply stored_refused; [done|constructor].
Qed.

Lemma stored_trans p w k ds ds' p1 w1 k1 p' w' k' :
  stored p w k ds p1 w1 k1 -> stored p1 w1 k1 ds' p' w' k' -> stored p w k (ds ++ ds') p' w' k'.
Proof.
  induction 1 as [|? ? ? ? ? ? ? ? ? Ha _ IH|? ? ? ? ? ? ? ? ? ? Ha Hl _ IH|? ? ? ? ? ? ? ? ? ? Ha Hl _ IH];
    intros H2; cbn [app]; [done| | |].
  - by eapply stored_refused; [|apply IH].
  - by eapply stored_waits; [| |apply IH].
  - by eapply stored_lost; [| |apply IH].
Qed.

(** All that the socket holds. *)
Lemma recv_loop_run q s w k :
  path_rep s w k -> rx_queue s = q ->
  exists s' w' k', recv_loop q s = (Ok tt, s') /\ path_rep s' w' k' /\
    stored (shared_pool s) w k (payloads q) (shared_pool s') w' k' /\
    rx_queue s' = [] /\ is_open s' = is_open s /\ last_client s' = last_sender q (last_client s).
Proof using PS.
  revert s w k. induction q as [|e q IH]; intros s w k Hr Hq.
  - exists s, w, k. split; [done|]. split; [done|]. split; [constructor|done].
  - cbn [recv_loop]. unfold st_bind at 1, modify_state. set (s0 := set_rx_queue q s).
    assert (Hr0 : path_rep s0 w k) by (by apply (path_frame s)). destruct e as [d c|].
    + destruct (datagram_run s0 w k d c Hr0) as (s1 & w1 & k1 & Hrun & Hr1 & Hst & Hq1 & Ho1 & Hc1).
      destruct (IH s1 w1 k1 Hr1 Hq1) as (s' & w' & k' & Hrun' & Hr' & Hst' & Hq' & Ho' & Hc').
      exists s', w', k'. unfold st_bind. rewrite Hrun, Hrun'. split; [done|]. split; [done|]. split.
      * change (payloads (Datagram d c :: q)) with ([d] ++ payloads q). by eapply stored_trans.
      * rewrite Ho', Ho1, Hc', Hc1. done.
    + destruct (IH s0 w k Hr0 eq_refl) as (s' & w' & k' & Hrun' & Hr' & Hst' & Hq' & Ho' & Hc').
      exists s', w', k'. unfold st_bind, ret. rewrite Hrun'. done.
Qed.

Lemma udp_poll_run b s w k :
  path_rep s w k ->
  exists s' w' k', poll b s = (Ok tt, s') /\ path_rep s' w' k' /\
    stored (shared_pool s) w k (payloads (rx_queue s)) (shared_pool s') w' k' /\
    rx_queue s' = [] /\ is_open s' = is_open s || b /\ last_client s' = last_sender (rx_queue s) (last_client s).
Proof using PS.
  intros Hr. unfold poll. unfold st_bind at 1, gets. unfold st_bind at 1.
  set (s0 := if negb (is_open s) && b then set_is_open true s else s).
  assert (Hm : (if negb (is_open s) && b then modify_state (set_is_open true) else ret tt) s = (Ok (E:=Empty_set) tt, s0)).
  { unfold s0. by destruct (negb (is_open s) && b). }
  assert (Hs0 : path_rep s0 w k /\ shared_pool s0 = shared_pool s /\ rx_queue s0 = rx_queue s /\
                last_client s0 = last_client s /\ is_open s0 = is_open s || b).
  { unfold s0. destruct (is_open s) eqn:Ho, b; cbn [negb andb orb]; try done. split; [by apply (path_frame s)|done]. }
  destruct Hs0 as (Hr0 & Hp0 & Hq0 & Hc0 & Ho0). rewrite Hm. unfold st_bind. rewrite Hq0.
  destruct (recv_loop_run (rx_queue s) s0 w k Hr0 Hq0) as (s' & w' & k' & Hrun & Hr' & Hst & Hq' & Ho' & Hc').
  exists s', w', k'. rewrite Hp0 in Hst. rewrite Ho', Ho0, Hc', Hc0. done.
Qed.

(** The telecommand task. *)
Lemma turn_waits s k : path_rep s [] k -> tc_source_turn parse s = (Ok Waiting, s).
Proof.
  intros [_ _ (m & lost & _ & _ & _ & Hw & _)]. apply Forall2_nil_inv_r in Hw. unfold tc_source_turn, st_bind, gets. by rewrite Hw.
Qed.

Lemma turn_run s d w k :
  path_rep s (d :: w) k ->
  exists s', rx_queue s' = rx_queue s /\ is_open s' = is_open s /\ last_client s' = last_client s /\
    if len d <=? READ_BUF_LEN
    then tc_source_turn parse s = (Ok (tc_log d), s') /\ path_rep s' w k
    else (exists e, tc_source_turn parse s = (Ok (ReadFailed e), s')) /\ shared_pool s' = shared_pool s /\ path_rep s' w (k ++ [d]).
Proof using PS parse_returns.
  intros [Hb Hdep (m & lost & Hm & Hn & Hdom & Hw & Hk)]. apply Forall2_cons_inv_r in Hw as (a & q & Ha & Hw & Hq).
  rewrite Hq in Hn, Hdom. cbn [app] in Hn. apply NoDup_cons in Hn as [Hna Hn].
  pose proof (pool_read_some _ m a d (read_buf s) Hm Ha) as Hread. rewrite Hb in Hread.
  rewrite Z.leb_antisym. destruct (Z.ltb_spec READ_BUF_LEN (len d)) as [Hl|Hl]; cbn [negb].
  - exists (set_tc_source q s). repeat (split; [done|]). split.
    { eexists. unfold tc_source_turn, st_bind, gets, modify_state, attempt, asks. rewrite Hq.
      cbn [shared_pool read_buf set_tc_source]. by rewrite Hread. }
    split; [done|]. constructor; [done|cbn in Hdep; lia|]. exists m, (lost ++ [a]). cbn [shared_pool set_tc_source tc_source]. split; [done|].
    split; [|split; [|split; [done|apply Forall2_app; [done|by repeat constructor]]]].
    + rewrite app_assoc. apply NoDup_app. split; [done|]. split; [|apply NoDup_singleton].
      intros x Hx. rewrite list_elem_of_singleton. by intros ->.
    + intros x. rewrite Hdom. cbn. rewrite elem_of_cons, !elem_of_app, list_elem_of_singleton. tauto.
  - set (buf := d ++ drop (length d) (read_buf s)). 
    assert (Hbuf : len buf = READ_BUF_LEN).
    { unfold buf. rewrite len_app. unfold len in *. rewrite length_drop. lia. }
    assert (Hslice : slice (E:=Empty_set) buf 0 (len d) = Ok d).
    { pose proof (len_nonneg d). rewrite slice_ok by lia. rewrite Z.sub_0_r. change (drop (Z.to_nat 0) buf) with buf.
      unfold len. rewrite Nat2Z.id. unfold buf. by rewrite take_app_length. }
    set (s0 := set_read_buf buf (set_tc_source q s)).
    destruct (pool_delete_some _ m a d Hm Ha) as (p' & Hdel & Hm').
    exists (set_shared_pool p' s0). repeat (split; [done|]). split.
    + unfold tc_source_turn, st_bind, gets, modify_state, asks, lift, ret, attempt. rewrite Hq.
      cbn [shared_pool read_buf set_tc_source]. rewrite Hread. fold buf. rewrite Hslice.
      change (set_read_buf buf (set_tc_source q s)) with s0.
      unfold tc_log. pose proof (parse_returns d). destruct (parse d) as [tc|e|]; [| |done]; by rewrite (on_pool_run s0 _ _ _ Hdel).
    + constructor; [done|cbn in Hdep; lia|]. exists (base.delete a m), lost.
      cbn [shared_pool set_shared_pool tc_source set_read_buf set_tc_source s0].
      assert (Hkeep : forall l ds, (forall x, x ∈ l -> x ∈ q ++ lost) ->
        Forall2 (fun a d => m !! a = Some d) l ds -> Forall2 (fun a' d' => base.delete a m !! a' = Some d') l ds).
      { intros l ds Hsub Hf. apply Forall2_same_length_lookup_2; [by eapply Forall2_length|]. intros i x y Hx Hy.
        assert (x <> a). { intros ->. apply Hna, Hsub. by eapply list_elem_of_lookup_2. }
        rewrite lookup_delete_ne by done. exact (Forall2_lookup_lr _ _ _ _ _ _ Hf Hx Hy). }
      split; [done|]. split; [done|]. split; [|split].
      * intros x. destruct (decide (x = a)) as [->|Hx].
        -- rewrite lookup_delete_eq. split; [by intros []|]. intros Hi. by destruct (Hna Hi).
        -- rewrite lookup_delete_ne by done. rewrite Hdom. cbn. rewrite elem_of_cons. tauto.
      * apply Hkeep; [|done]. intros x Hx. apply elem_of_app. by left.
      * apply Hkeep; [|done]. intros x Hx. apply elem_of_app. by right.
Qed.

(** ** The specification of the path *)

(** The datagrams in the socket, the packets that wait, the packets that are lost and
    the client that was heard last. *)
Record Path : Type := mkPath { p_socket : list (Received C); p_waiting : list (list Z); p_lost : list (list Z); p_client : option C }.

Inductive path_step (p p' : P) : Step -> Path -> list (TcLog PE) -> Path -> Prop :=
| step_isr frames event q w k c :
    p' = p -> path_step p p' (EthIsr frames event) (mkPath q w k c) [] (mkPath (q ++ frames) w k c)
| step_udp b q w k c w' k' :
    stored p w k (payloads q) p' w' k' ->
    path_step p p' (UdpTask b) (mkPath q w k c) [] (mkPath [] w' k' (last_sender q c))
| step_wait q k c : p' = p -> path_step p p' TcSourceTask (mkPath q [] k c) [Waiting] (mkPath q [] k c)
| step_tc q d w k c :
    len d <= READ_BUF_LEN -> path_step p p' TcSourceTask (mkPath q (d :: w) k c) [tc_log d] (mkPath q w k c)
| step_long q d w k c e :
    READ_BUF_LEN < len d -> p' = p ->
    path_step p p' TcSourceTask (mkPath q (d :: w) k c) [ReadFailed e] (mkPath q w (k ++ [d]) c).

Inductive path_run : P -> Path -> list Step -> list (TcLog PE) -> P -> Path -> Prop :=
| run_nil p x : path_run p x [] [] p x
| run_cons p x a l logs p1 x1 logs' p' x' :
    path_step p p1 a x logs x1 -> path_run p1 x1 l logs' p' x' -> path_run p x (a :: l) (logs ++ logs') p' x'.

(** The DHCP events of a step. *)
Definition dhcp_step (x : list A * option R) (a : Step) : list A * option R :=
  match a with EthIsr _ event => configured x event | _ => x end.

Record refines s (x : Path) : Prop := {
  ref_rep : path_rep s (p_waiting x) (p_lost x);
  ref_socket : rx_queue s = p_socket x;
  ref_client : last_client s = p_client x;
}.

Lemma step_refines a s n x y :
  refines s x -> net_rep n y ->
  exists s' n' logs x', step parse a (s, n) = (Ok logs, (s', n')) /\
    path_step (shared_pool s) (shared_pool s') a x logs x' /\ refines s' x' /\ net_rep n' (dhcp_step y a).
Proof using PS parse_returns.
  destruct x as [q w k c]. intros [Hr Hq Hc] Hn. cbn in *. destruct a as [frames event|b|]; cbn [step dhcp_step].
  - destruct (poll_dhcp_run event n y Hn) as (n' & Hdhcp & Hn').
    exists (set_rx_queue (rx_queue s ++ frames) s), n', [], (mkPath (q ++ frames) w k c).
    unfold st_bind, on_fst, on_snd, modify_state. cbn [fst snd]. rewrite Hdhcp. split; [done|]. split; [by constructor|].
    split; [|done]. constructor; [by apply (path_frame s)|cbn; by rewrite Hq|done].
  - destruct (udp_poll_run b s w k Hr) as (s' & w' & k' & Hrun & Hr' & Hst & Hq' & _ & Hc').
    exists s', n, [], (mkPath [] w' k' (last_sender q c)). unfold st_bind, on_fst. cbn [fst snd]. rewrite Hrun. split; [done|].
    rewrite Hq, Hc in *. split; [by constructor|done].
  - unfold st_bind, on_fst. cbn [fst snd]. destruct w as [|d w].
    + rewrite (turn_waits s k Hr). exists s, n, [Waiting], (mkPath q [] k c). split; [done|]. split; [by constructor|done].
    + destruct (turn_run s d w k Hr) as (s' & Hq' & _ & Hc' & Hcase). rewrite Hq in Hq'. rewrite Hc in Hc'.
      destruct (Z.leb_spec (len d) READ_BUF_LEN) as [Hl|Hl].
      * destruct Hcase as [-> Hr']. exists s', n, [tc_log d], (mkPath q w k c). split; [done|]. split; [by constructor|done].
      * destruct Hcase as ([e ->] & Hp & Hr'). exists s', n, [ReadFailed e], (mkPath q w (k ++ [d]) c).
        split; [done|]. split; [by constructor|done].
Qed.

Lemma run_refines l s n x y :
  refines s x -> net_rep n y ->
  exists s' n' logs x', run parse l (s, n) = (Ok logs, (s', n')) /\
    path_run (shared_pool s) x l logs (shared_pool s') x' /\ refines s' x' /\ net_rep n' (foldl dhcp_step y l).
Proof using PS parse_returns.
  revert s n x y. induction l as [|a l IH]; intros s n x y Hr Hn.
  - exists s, n, [], x. split; [done|]. split; [constructor|done].
  - destruct (step_refines a s n x y Hr Hn) as (s1 & n1 & logs & x1 & Hs & Hp & Hr1 & Hn1).
    destruct (IH s1 n1 x1 _ Hr1 Hn1) as (s' & n' & logs' & x' & Hrun & Hps & Hr' & Hn'). exists s', n', (logs ++ logs'), x'.
    cbn [run foldl]. unfold st_bind. rewrite Hs, Hrun. split; [done|]. split; [by econstructor|done].
Qed.

Definition path_new : Path := mkPath [] [] [] None.

Lemma new_refines p : pool_rep p ∅ -> refines (new p) path_new.
Proof.
  intros Hp. constructor; [|done|done]. constructor; [done|cbn; lia|]. exists ∅, []. split; [done|]. split; [constructor|].
  split; [|by split; constructor]. intros a. rewrite lookup_empty. split; [by intros []|]. intros Ha. by apply not_elem_of_nil in Ha.
Qed.

Lemma run_step (a : Step) l (x : Fw P C * Net A T) :
  run parse (a :: l) x = (let* x := step parse a in let* y := run parse l in ret (x ++ y)) x.
Proof. done. Qed.

(** When no packet is lost, the telecommand task gets the packets that wait, in
    order and as they were received, and leaves an empty pool. *)
Theorem tc_source_drained s n w :
  path_rep s w [] -> Forall (fun d => len d <= READ_BUF_LEN) w ->
  exists s', run (A:=A) (R:=R) (T:=T) parse (replicate (length w) TcSourceTask) (s, n) = (Ok (tc_log <$> w), (s', n)) /\
    tc_source s' = [] /\ pool_rep (shared_pool s') ∅.
Proof using PS parse_returns.
  intros Hr Hw. revert s Hr. induction Hw as [|d w Hd Hw IH]; intros s Hr.
  - exists s. split; [done|]. destruct Hr as [_ _ (m & lost & Hm & _ & Hdom & Hq & Hk)].
    apply Forall2_nil_inv_r in Hq. apply Forall2_nil_inv_r in Hk. subst lost. rewrite Hq in *. split; [done|].
    assert (m = ∅) as ->; [|done]. apply map_empty. intros a. destruct (m !! a) eqn:Ha; [|done].
    exfalso. assert (Hs : is_Some (m !! a)) by (by eexists). apply Hdom in Hs. by apply not_elem_of_nil in Hs.
  - destruct (turn_run s d w [] Hr) as (s1 & _ & _ & _ & Hcase). destruct (Z.leb_spec (len d) READ_BUF_LEN); [|lia].
    destruct Hcase as [Hs Hr1]. destruct (IH s1 Hr1) as (s' & Hrun & Hrest). exists s'. split; [|done].
    change (replicate (length (d :: w)) (TcSourceTask (C:=C) (A:=A) (R:=R))) with
      (TcSourceTask (C:=C) (A:=A) (R:=R) :: replicate (length w) TcSourceTask).
    rewrite run_step. unfold step, st_bind, on_fst. cbn [fst snd]. rewrite Hs. cbn [ret]. rewrite Hrun. done.
Qed.
End Path.

(** * The firmware *)
Lemma grow_run n size h :
  0 < n -> 0 <= size -> (length (h_pool h) < MAX_NUM_SUBPOOLS)%nat -> length (h_sizes_lists h) = length (h_pool h) ->
  let c := mkSubpoolConfig n size in
  Service.expect_st (F:=PoolIsFull) (grow_subpool n size) h =
    (Ok tt, mkHeapless (h_pool h ++ [(c, fresh_memory c)]) (h_sizes_lists h ++ [fresh_sizes c]) (h_spill_to_higher_subpools h)).
Proof.
  intros Hn Hs Hl Hz c. unfold Service.expect_st, grow_subpool, static_subpool, HeaplessPool.grow. rewrite !len_replicate.
  rewrite !Z2Nat.id by nia. rewrite (Z.mul_comm n size), Z_mod_mult, Z_div_mult by lia.
  replace ((n =? 0) || negb (0 =? 0)) with false by bool_lia. rewrite Z.eqb_refl. cbn [negb].
  destruct (Nat.leb_spec MAX_NUM_SUBPOOLS (length (h_pool h))); [lia|]. cbn [h_sizes_lists h_pool h_spill_to_higher_subpools].
  destruct (Nat.leb_spec MAX_NUM_SUBPOOLS (length (h_sizes_lists h))); [lia|].
  unfold fresh_memory, fresh_sizes. cbn [num_blocks block_size expect]. rewrite length_replicate, Z.mul_comm. done.
Qed.

Definition fresh_subpool (n size : Z) : SubpoolConfig * list Z :=
  (mkSubpoolConfig n size, fresh_memory (mkSubpoolConfig n size)).

Lemma init_pool_run :
  let l := [fresh_subpool SUBPOOL_SMALL_NUM_BLOCKS SUBPOOL_SMALL_BLOCK_SIZE;
            fresh_subpool SUBPOOL_MEDIUM_NUM_BLOCKS SUBPOOL_MEDIUM_BLOCK_SIZE;
            fresh_subpool SUBPOOL_LARGE_NUM_BLOCKS SUBPOOL_LARGE_BLOCK_SIZE] in
  init_pool = Ok (mkHeapless l (fresh_sizes <$> (fst <$> l)) true).
Proof.
  intros l. unfold init_pool, st_bind. do 3 (rewrite grow_run; [|done|done|cbn; unfold MAX_NUM_SUBPOOLS; lia|done]). done.
Qed.

(** The pool of the firmware meets the contract of a pool, and is empty. *)
Lemma init_pool_empty : exists p, init_pool = Ok p /\ heapless_rep p ∅.
Proof.
  eexists. split; [apply init_pool_run|]. apply grown_rep; [done|cbn; lia| | |done].
  - unfold fresh_subpool. cbn [h_pool fmap list_fmap fst]. repeat constructor; unfold StaticPoolConfig.size_le; done.
  - repeat (constructor; [cbn [fst snd fresh_subpool num_blocks block_size];
      unfold MAX_BLOCK_SIZE, STORE_FREE, usize_max; split; [done|]; split; [done|reflexivity]|]). constructor.
Qed.

(** C38: Whatever datagrams and DHCP events arrive and however the interrupt and the tasks take turns,
    nothing panics from the start of the firmware, and the path of the telecommands
    follows its specification: packets go to the telecommand task in order and as
    they were received and leave the pool, but for those that find the channel full
    or are longer than the buffer of the task, which stay in the pool for ever.  The addresses
    and the default route of the interface are those of the last DHCP event.  It is assumed that
    the reader of telecommands returns, that the interface of [smoltcp] has room for an address and its table for a route,
    and that the table fails to take a default route only when other routes fill it. *)
Theorem tc_path_correct {C PE A R T : Type} `{IpStackLaws A R T} (parse : list Z -> res PE PusTc)
    (addr : A) (table : T) (l : list (Step (C:=C) (A:=A) (R:=R))) :
  (forall d, parse d <> Panic) -> default_route table = None -> other_routes table = 0%nat ->
  exists p s' n' logs x', init_pool = Ok p /\
    run parse l (new p, NetIf.new addr table) = (Ok logs, (s', n')) /\
    path_run parse p path_new l logs (shared_pool s') x' /\ refines s' x' /\
    (ip_addrs n', default_route (routes n')) = foldl dhcp_step ([addr], None) l.
Proof.
  intros Hparse Hdef Hoth. destruct init_pool_empty as (p & Hp & Hrep).
  assert (Hnet : net_rep (NetIf.new addr table) ([addr], None)).
  { split; [|done]. unfold NetIf.new. pose proof addr_room. by destruct (Nat.ltb_spec 0 iface_max_addr_count); [|lia]. }
  destruct (run_refines parse Hparse l (new p) _ path_new _ (new_refines (PS:=HeaplessPool_spec) p Hrep) Hnet)
    as (s' & n' & logs & x' & Hrun & Hps & Hr' & Ha & Hd & _).
  exists p, s', n', logs, x'. rewrite Ha, Hd, <- surjective_pairing. exact (conj Hp (conj Hrun (conj Hps (conj Hr' eq_refl)))).
Qed.

Module Demo.
Definition parse (d : list Z) : res unit PusTc :=
  match d with service :: subservice :: data => Ok (mkPusTc 0 6146 49152 2 0 service subservice 0 data) | _ => Err tt end.

Lemma reader_returns d : parse d <> Panic.
Proof. destruct d as [|? [|? ?]]; done. Qed.

(** Two addresses, and a table of two routes: the default route and the number of the others. *)
#[global] Instance stack : IpStack Z Z (option Z * nat) := {|
  iface_max_addr_count := 2;
  add_default_ipv4_route r '(d, n) :=
    match d with
    | Some _ => Some (Some r, n)
    | None => if (n <? 2)%nat then Some (Some r, n) else None
    end;
  remove_default_ipv4_route '(_, n) := (None, n);
|}.

#[global] Instance stack_laws : IpStackLaws Z Z (option Z * nat).
Proof.
  refine {| default_route := fun t : option Z * nat => t.1; other_routes := fun t => t.2; max_routes := 2 |};
    [cbn; lia|lia| |by intros []].
  intros r [[d|] n] Hn; cbn in *; [by eexists|]. destruct n as [|[|n]]; [by eexists..|lia].
Defined.

Definition net : Net Z (option Z * nat) := NetIf.new 99 (None, 0%nat).

(** Two datagrams, and an address by DHCP. *)
Definition steps : list (Step (C:=Z) (A:=Z) (R:=Z)) :=
  [EthIsr [Datagram [17; 1] 7; Datagram [1] 8] (Some (Configured 5 (Some 1))); UdpTask true; TcSourceTask; TcSourceTask].
End Demo.

Lemma tc_path_correct_witness :
  exists p s' n' logs x', init_pool = Ok p /\
    run Demo.parse Demo.steps (new p, Demo.net) = (Ok logs, (s', n')) /\
    path_run Demo.parse p path_new Demo.steps logs (shared_pool s') x' /\ refines s' x' /\
    (ip_addrs n', (routes n').1) = ([5], Some 1).
Proof. exact (tc_path_correct Demo.parse 99 (None, 0%nat) Demo.steps Demo.reader_returns eq_refl eq_refl). Defined.

Example two_datagrams :
  res_map (fun p => (run Demo.parse Demo.steps (new p, Demo.net)).1) init_pool =
    Ok (Ok [ReceivedPus (mkPusTc 0 6146 49152 2 0 17 1 0 []); NotPus tt]).
Proof. vm_compute. reflexivity. Qed.

(** With two other routes in the table the first configuration with a router panics. *)
Example full_table_panics :
  res_map (fun p => (run Demo.parse Demo.steps (new p, NetIf.new 99 (None, 2%nat))).1) init_pool = Ok Panic.
Proof. vm_compute. reflexivity. Qed.

Lemma first_address p : init_pool = Ok p -> (pool_add [17; 1] p).1 = Ok 0.
Proof.
  intros Hp. assert (Ha : res_map (fun p => (pool_add [17; 1] p).1) init_pool = Ok (Ok 0)) by (vm_compute; reflexivity).
  rewrite Hp in Ha. unfold res_map in Ha. injection Ha as Ha. exact Ha.
Qed.

(** A packet in the pool and its address in the channel. *)
Lemma tc_source_drained_witness :
  exists (s s' : Fw StaticHeaplessMemoryPool Z), tc_source s = [0] /\
    run Demo.parse [TcSourceTask] (s, Demo.net) = (Ok [ReceivedPus (mkPusTc 0 6146 49152 2 0 17 1 0 [])], (s', Demo.net)) /\
    tc_source s' = [] /\ pool_rep (shared_pool s') ∅.
Proof.
  destruct init_pool_empty as (p & Hp & Hrep). pose proof (ref_rep _ _ (new_refines (PS:=HeaplessPool_spec) (C:=Z) p Hrep)) as Hr.
  pose proof (first_address p Hp) as Ha. destruct (pool_add [17; 1] p) as [r p1] eqn:Hadd. cbn [fst] in Ha. subst r.
  destruct (path_store _ _ _ [17; 1] 0 p1 Hr Hadd) as [Hw _].
  destruct (tc_source_drained Demo.parse Demo.reader_returns _ Demo.net [[17; 1]] (Hw ltac:(cbn; unfold TC_SOURCE_CHANNEL_DEPTH; lia)))
    as (s' & H1 & H2 & H3); [constructor; [vm_compute; discriminate|constructor]|].
  exists (set_tc_source [0] (set_shared_pool p1 (new p))), s'. exact (conj eq_refl (conj H1 (conj H2 H3))).
Defined.

(** A datagram that is longer than the buffer of the task stays in the pool: after
    eight of them no other is accepted. *)
Example long_datagrams_fill_pool :
  let long := replicate 1025 7 in
  let steps := mjoin (replicate 8 [EthIsr [Datagram long 1] None; UdpTask true; TcSourceTask]) in
  res_map (fun p => let s := (run Demo.parse steps (new p, Demo.net)).2.1 in
    (tc_source s, (pool_add long (shared_pool s)).1)) init_pool = Ok ([], Err (StoreFull 2)).
Proof. vm_compute. reflexivity. Qed.

(** So does one that finds the channel full. *)
Example full_channel_loses_block :
  let burst := replicate 17 (Datagram [1; 2] 1) in
  res_map (fun p =>
      let s := (run Demo.parse ([EthIsr burst None; UdpTask true] ++ replicate 17 TcSourceTask) (new p, Demo.net)).2.1 in
      (tc_source s, pool_has_element_at (shared_pool s) 16)) init_pool = Ok ([], Ok true).
Proof. vm_compute. reflexivity. Qed.

(** * The link and the lights *)

(** The lamp shows the state of the link. *)
Lemma link_led_follows ups l :
  eth_link_up l = link_led l ->
  let l' := foldl (fun l up => eth_link_turn up l) l ups in
  eth_link_up l' = link_led l' /\ eth_link_up l' = default (eth_link_up l) (last ups).
Proof.
  revert l. induction ups as [|up ups IH]; intros l Hl; [done|]. cbn [foldl].
  assert (Ht : eth_link_up (eth_link_turn up l) = up /\ link_led (eth_link_turn up l) = up).
  { destruct l as [a b]. cbn in Hl. subst b. by destruct up, a. }
  destruct Ht as [Hu Hd]. destruct (IH (eth_link_turn up l)) as [H1 H2]; [congruence|]. split; [done|].
  rewrite H2, Hu. rewrite last_cons. by destruct (last ups).
Qed.

(** The two lights are never on together, nor off together. *)
Lemma blinky_alternates n : led1 (Nat.iter n blinky_turn init_leds) = negb (led2 (Nat.iter n blinky_turn init_leds)).
Proof. induction n as [|n IH]; [done|]. rewrite Nat.iter_succ. cbn. by rewrite IH. Qed.
