(* ===== verification/PingFlow.v ===== *)
(** * A ping from end to end

    The threads of [dyn_tmtc_pool_main] in [satrs-example/src/main.rs] a telecommand
    of the test service passes: the UDP server with the source of telecommands and its
    distributor, the test service, and the telemetry sink.  The components are those
    of the other files; here they share the four channels [main] makes, and a schedule
    says which thread takes its next step. *)

From Stdlib Require Import ZArith Lia Bool.
From stdpp Require Import base list gmap.
From S2P Require Import Prelude Spacepackets Params Tmtc Verification SeqCount Events EventMan Services Encoding Requests TargetedService TargetedMode PusStack TcpServer UdpServer TmSink.

Local Open Scope Z_scope.

Abbreviation VecTestService := (TestWrapper.t (Q:=channel PacketAsVec) (V:=VerificationReporter) (C:=EcssTcInVecConverter)).

(** [mpsc::channel()] *)
Definition mpsc_channel {A : Type} : channel A := mkChannel [] None true true.

(** The channels, and the components that hold their ends. *)
Record Dyn : Type := mkDyn {
  tc_source : channel PacketAsVec;
  pus_test : channel EcssTcAndToken;
  tm_sink : channel PacketAsVec;
  tm_server : channel PacketAsVec;
  udp : UdpTcServer (channel PacketAsVec);
  pus_distributor : PusTcDistributor (channel PacketAsVec);
  test_srv : VecTestService;
  tm_funnel : TmFunnelCommon;
}.

Section Threads.
Context {PE : Type} `{PusErrorOps PE}.
Context (tm_writer : PusTm -> Writer ByteConversionError).
Context (pus_tc_reader_new : list Z -> res PE PusTc) (pus_service_id_try_from : Z -> option PusServiceId).
Context (zc : ZeroCopyWriter).

#[local] Instance vec_sender : EcssTmSender PE (channel PacketAsVec) := MpscSender.send_tm_vec tm_writer.

(** The channel end of a component. *)
Definition udp_with (c : channel PacketAsVec) (u : UdpTcServer (channel PacketAsVec)) : UdpTcServer (channel PacketAsVec) :=
  mkUdpServer (udp_id u) (udp_socket u) (recv_buf u) (sender_addr u) c.

Definition dist_with (tm : channel PacketAsVec) (test : channel EcssTcAndToken) (d : PusTcDistributor (channel PacketAsVec))
    : PusTcDistributor (channel PacketAsVec) :=
  mkDistributor (dist_id d) tm (dist_verif_reporter d) (Distributor.set_test test (pus_router d)) (TargetedService.stamp d).

Definition test_with (rx : channel EcssTcAndToken) (tm : channel PacketAsVec) (t : VecTestService) : VecTestService :=
  let h := t.1.1 in
  (mkHelper (helper_id h) rx tm (verif_reporter h) (tc_in_mem_converter h), t.1.2, t.2).

(** [udp_tmtc_server.periodic_operation()] *)
Definition udp_period (fuel tm_fuel : nat) : st Dyn Empty_set (option unit) :=
  fun s =>
    let '(r, u) := UdpTmtc.periodic_operation fuel tm_fuel (mkTmtcServer (udp_with (tc_source s) (udp s)) (tm_server s)) in
    (r, mkDyn (udp_tc_sender (udp_tc_server u)) (pus_test s) (tm_sink s) (udp_tm_handler u) (udp_tc_server u)
          (pus_distributor s) (test_srv s) (tm_funnel s)).

(** [tmtc_task.periodic_operation()] *)
Definition tc_period (now : list Z) : st Dyn Empty_set HandlingStatus :=
  fun s =>
    let '(r, (rx, d)) := Distributor.poll_tc_dynamic pus_tc_reader_new pus_service_id_try_from now
                           (tc_source s, dist_with (tm_sink s) (pus_test s) (pus_distributor s)) in
    (r, mkDyn rx (test_tc_sender (pus_router d)) (dist_tm_sender d) (tm_server s) (udp s) d (test_srv s) (tm_funnel s)).

(** A turn of the thread for telecommands and telemetry. *)
Definition tmtc_thread (fuel tm_fuel : nat) (now : list Z) : st Dyn Empty_set (option unit) :=
  let* r := udp_period fuel tm_fuel in
  match r with
  | None => ret None
  | Some _ => let* _ := tc_period now in ret (Some tt)
  end.

(** The test service in a turn of the PUS thread. *)
Definition test_thread (now : list Z) : st Dyn Empty_set HandlingStatus :=
  fun s =>
    let '(r, t) := TestWrapper.poll_and_handle_next_tc pus_tc_reader_new now
                     (test_with (pus_test s) (tm_sink s) (test_srv s)) in
    (r, mkDyn (tc_source s) (tc_receiver t.1.1) (tm_sender t.1.1) (tm_server s) (udp s) (pus_distributor s) t (tm_funnel s)).

(** A turn of the thread of the telemetry sink; it waits while the channel is empty. *)
Definition sink_thread : st Dyn unit unit :=
  fun s =>
    let '(r, k) := SinkDynamic.operation zc (mkSinkDynamic (tm_funnel s) (tm_sink s) (tm_server s)) in
    (r, mkDyn (tc_source s) (pus_test s) (sd_tm_funnel_rx k) (sd_tm_server_tx k) (udp s) (pus_distributor s) (test_srv s)
          (sd_common k)).

(** What [dyn_tmtc_pool_main] makes; the channels of the other services are given. *)
Definition dyn_new {E : Type} (socket : UdpSocket) (router : PusTcMpscRouter)
    (events : channel (EventMessage (Event Events.U32) Params)) (udp_server_id : Z) : res E Dyn :=
  let tc_source := mpsc_channel in
  let pus_test := mpsc_channel in
  let tm_sink := mpsc_channel in
  let tm_server := mpsc_channel in
  let? test := create_test_service_dynamic tm_sink events pus_test in
  let? dist := Distributor.new tm_sink (Distributor.set_test pus_test router) in
  Ok (mkDyn tc_source pus_test tm_sink tm_server (UdpTc.new udp_server_id socket 2048 tc_source) dist test
        (Funnel.new (TmSource.new 200))).

(** ** The threads in small steps

    What the threads do between two of their operations on a shared channel.  The
    distributor reports the acceptance and then sends the telecommand to its service;
    the test service reports the start, sends the reply and reports the completion. *)

(** A telecommand that is accepted and not yet passed on. *)
Record Accepted : Type := mkAccepted {
  acc_service : Z;
  acc_memory : TcInMemory;
  acc_token : VerificationToken TcStateAccepted;
  acc_stamp : list Z;
}.

(** [poll_tc] up to the report of the acceptance. *)
Definition accept_turn (now_stamp : list Z)
    : st (channel PacketAsVec * PusTcDistributor (channel PacketAsVec)) Empty_set (option Accepted) :=
  let* r := on_fst (attempt Channel.try_recv) in
  match r with
  | Ok p =>
      on_snd
        match pus_tc_reader_new (packet p) with
        | Err _ => ret None
        | Panic => lift Panic
        | Ok pus_tc =>
            let* init_token := Distributor.on_reporter (fun x =>
              let '(token, v) := vr_add_tc (PE:=PE) (Q:=channel PacketAsVec) pus_tc x.1 in (Ok token, (v, x.2))) in
            let* _ := Distributor.update_from_now now_stamp in
            let* time_stamp := gets TargetedService.stamp in
            let* accepted_token := Distributor.on_reporter (Service.expect_st
                                     (vr_acceptance_success (PE:=PE) init_token time_stamp)) in
            ret (Some (mkAccepted (tc_service pus_tc) (InVec (mkPacketAsVec (pav_sender_id p) (packet p)))
                         accepted_token time_stamp))
        end
  | _ => ret None
  end.

Definition tc_accept (now : list Z) : st Dyn Empty_set (option Accepted) :=
  fun s =>
    let '(r, (rx, d)) := accept_turn now (tc_source s, dist_with (tm_sink s) (pus_test s) (pus_distributor s)) in
    (r, mkDyn rx (test_tc_sender (pus_router d)) (dist_tm_sender d) (tm_server s) (udp s) d (test_srv s) (tm_funnel s)).

(** The rest of it. *)
Definition tc_dispatch (a : Accepted) : st Dyn Empty_set unit :=
  fun s =>
    let '(r, d) := attempt (Distributor.dispatch (PE:=PE) pus_service_id_try_from (acc_service a) (acc_memory a)
                              (acc_token a) (acc_stamp a))
                     (dist_with (tm_sink s) (pus_test s) (pus_distributor s)) in
    (res_map (fun _ => tt) r,
     mkDyn (tc_source s) (test_tc_sender (pus_router d)) (dist_tm_sender d) (tm_server s) (udp s) d (test_srv s) (tm_funnel s)).

(** Where the thread for telecommands and telemetry is; the turn of the UDP server is one
    step, it alone reads the socket and the telemetry. *)
Inductive TmtcPc : Type := AtUdp | AtTc | AtDispatch (a : Accepted).

Definition tmtc_step (now : list Z) (pc : TmtcPc) : st Dyn Empty_set TmtcPc :=
  match pc with
  | AtUdp => fun s =>
      match udp_period (S (length (inbox (udp_socket (udp s))))) (S (length (queue (tm_server s)))) s with
      | (Ok (Some _), s') => (Ok AtTc, s')
      | (_, s') => (Panic, s')
      end
  | AtTc =>
      let* a := tc_accept now in
      ret match a with Some acc => AtDispatch acc | None => AtUdp end
  | AtDispatch acc => let* _ := tc_dispatch acc in ret AtUdp
  end.

(** The parts of a turn of the test service: a ping is received and its start
    reported, the reply is sent, and the completion reported. *)
Definition test_start (time_stamp : list Z)
    : st VecTestService (PusPacketHandlingError PE) (option (option (VerificationToken TcStateStarted))) :=
  let* p := Service.on_helper (Helper.next_tc pus_tc_reader_new) in
  match p with
  | Some (token, tc) =>
      if negb (tc_service tc =? 17) then ret None
      else if tc_subservice tc =? 1 then
        let* o := Service.try_start (TE:=unit) log_error token time_stamp in ret (Some o)
      else ret None
  | None => ret None
  end.

Definition test_reply (time_stamp : list Z) : st VecTestService (PusPacketHandlingError PE) unit :=
  let* apid := gets (fun x : VecTestService => vr_apid (verif_reporter x.1.1)) in
  let* id := gets (fun x : VecTestService => helper_id x.1.1) in
  let* r := Service.on_helper (attempt (Helper.on_sender (send_tm id (Direct (Service.ping_reply apid time_stamp))))) in
  match r with
  | Err e => Service.callback (TE:=unit) log_error (PartTmSend e)
  | _ => ret tt
  end.

Definition test_complete (o : option (VerificationToken TcStateStarted)) (time_stamp : list Z)
    : st VecTestService (PusPacketHandlingError PE) unit :=
  match o with
  | Some token => Service.try_complete (TE:=unit) log_error token time_stamp
  | None => ret tt
  end.

Inductive PusPc : Type :=
| TestIdle
| TestStarted (token : option (VerificationToken TcStateStarted)) (time_stamp : list Z)
| TestReplied (token : option (VerificationToken TcStateStarted)) (time_stamp : list Z).

(** The test service with the state of its channels, and back. *)
Definition test_of (s : Dyn) : VecTestService := test_with (pus_test s) (tm_sink s) (test_srv s).

Definition with_test (s : Dyn) (t : VecTestService) : Dyn :=
  mkDyn (tc_source s) (tc_receiver t.1.1) (tm_sender t.1.1) (tm_server s) (udp s) (pus_distributor s) t (tm_funnel s).

(** A telecommand that is not a ping is handled in one step. *)
Definition pus_step (now : list Z) (pc : PusPc) : st Dyn Empty_set PusPc :=
  fun s =>
    match pc with
    | TestIdle =>
        match test_start now (test_of s) with
        | (Ok (Some o), t) => (Ok (TestStarted o now), with_test s t)
        | _ => let '(r, s') := test_thread now s in (res_map (fun _ => TestIdle) r, s')
        end
    | TestStarted o stamp =>
        let '(r, t) := attempt (test_reply stamp) (test_of s) in
        (res_map (fun _ => TestReplied o stamp) r, with_test s t)
    | TestReplied o stamp =>
        let '(r, t) := attempt (test_complete o stamp) (test_of s) in
        (res_map (fun _ => TestIdle) r, with_test s t)
    end.

(** The steps of a whole turn. *)
Definition tmtc_turn (now : list Z) : st Dyn Empty_set unit :=
  let* _ := tmtc_step now AtUdp in
  let* pc := tmtc_step now AtTc in
  match pc with AtDispatch _ => let* _ := tmtc_step now pc in ret tt | _ => ret tt end.

Definition pus_turn (now : list Z) : st Dyn Empty_set unit :=
  let* pc := pus_step now TestIdle in
  match pc with
  | TestIdle => ret tt
  | _ =>
      let* pc := pus_step now pc in
      let* _ := pus_step now pc in
      ret tt
  end.

(** ** The threads together

    The state of the channels and components, and where the two threads with several
    steps are.  A schedule says which thread takes its next step, at which time, and when
    a datagram arrives. *)
Record Sys : Type := mkSys { sys : Dyn; tmtc_at : TmtcPc; pus_at : PusPc }.

Inductive Sched : Type :=
| Arrives (data : list Z) (client : Z)
| Tmtc (now : list Z)
| Pus (now : list Z)
| Sink.

Definition arrive (data : list Z) (client : Z) (s : Dyn) : Dyn :=
  let u := udp s in
  mkDyn (tc_source s) (pus_test s) (tm_sink s) (tm_server s)
    (mkUdpServer (udp_id u) (Socket.set_inbox (inbox (udp_socket u) ++ [Datagram data client]) (udp_socket u)) (recv_buf u)
       (sender_addr u) (udp_tc_sender u)) (pus_distributor s) (test_srv s) (tm_funnel s).

Definition sys_step (a : Sched) : st Sys unit unit :=
  fun x =>
    match a with
    | Arrives data client => (Ok tt, mkSys (arrive data client (sys x)) (tmtc_at x) (pus_at x))
    | Tmtc now =>
        match tmtc_step now (tmtc_at x) (sys x) with
        | (Ok pc, s) => (Ok tt, mkSys s pc (pus_at x))
        | (_, s) => (Panic, mkSys s (tmtc_at x) (pus_at x))
        end
    | Pus now =>
        match pus_step now (pus_at x) (sys x) with
        | (Ok pc, s) => (Ok tt, mkSys s (tmtc_at x) pc)
        | (_, s) => (Panic, mkSys s (tmtc_at x) (pus_at x))
        end
    | Sink => let '(r, s) := sink_thread (sys x) in (r, mkSys s (tmtc_at x) (pus_at x))
    end.

Fixpoint sys_run (l : list Sched) : st Sys unit unit :=
  match l with
  | [] => ret tt
  | a :: l' => let* _ := sys_step a in sys_run l'
  end.

(** The datagrams that arrive. *)
Definition arrivals (l : list Sched) : list (list Z * Z) :=
  omap (fun a => match a with Arrives d c => Some (d, c) | _ => None end) l.

Definition tmtc_count (l : list Sched) : nat := length (omap (fun a => match a with Tmtc now => Some now | _ => None end) l).

(** A part of a schedule without arrivals in which every thread gets on, in any order. *)
Definition is_lap (l : list Sched) : Prop :=
  arrivals l = [] /\ (2 <= tmtc_count l)%nat /\ (exists now, Pus now ∈ l) /\ Sink ∈ l.
End Threads.

(** * The run of a ping *)

(** A packet that was put into a channel. *)
Definition put {A : Type} (x : A) (c : channel A) : channel A := Channel.set_queue (queue c ++ [x]) c.

Section Run.
Context {PE : Type} `{PusErrorOps PE}.
Context (tm_writer : PusTm -> Writer ByteConversionError) (tm_bytes : PusTm -> list Z).
Hypothesis tm_written : forall tm, writes (tm_writer tm) (tm_bytes tm).
Context (parse : list Z -> res PE PusTc) (std : Z -> option PusServiceId).
Hypothesis std_test : std 17 = Some StdTest.
Context (zc : ZeroCopyWriter).

#[local] Existing Instance vec_sender.
Local Abbreviation chan := (channel PacketAsVec).
Local Abbreviation sender := (vec_sender (PE:=PE) tm_writer).

(** The report of a success, as the reporter sends it. *)
Definition report_packet (v : VerificationReporter) (ss : Z) (stamp : list Z) (r : RequestId) : PacketAsVec :=
  mkPacketAsVec (owner_id v) (tm_bytes (tm_hook v (report_tm (reporter_creator v) ss 0 0 stamp (success_data r None)))).

Lemma report_packet_same v v' ss stamp r : same_reporter v v' -> report_packet v' ss stamp r = report_packet v ss stamp r.
Proof. intros (Ho & Hc & Hh & _). unfold report_packet. by rewrite Ho, Hc, Hh. Qed.

Lemma send_vec id tm (q : chan) :
  rx_alive q = true -> send_tm (EcssTmSender:=sender) id (Direct tm) q = (Ok tt, put (mkPacketAsVec id (tm_bytes tm)) q).
Proof using tm_written.
  intros Hq. destruct (tm_written tm) as (_ & Hv & _). unfold send_tm, vec_sender, MpscSender.send_tm_vec, st_bind, lift.
  rewrite Hv. cbn [map_err]. unfold st_map_err, Channel.send. by rewrite Hq.
Qed.

Lemma report_vec {A} (a : A) create v (q : chan) r ss stamp :
  4 <= len (source_data_buf v) -> rx_alive q = true ->
  (forall c buf, create c buf =
     match ReportCreator.create_pus_verif_success_tm c ss 0 0 r stamp None buf with
     | (Ok tm, buf') => (Ok (tm, a), buf')
     | (Err e, buf') => (Err e, buf')
     | (Panic, buf') => (Panic, buf')
     end) ->
  exists v', Reporter.report (PE:=PE) (H0:=sender) create (v, q) = (Ok a, (v', put (report_packet v ss stamp r) q)) /\
    same_reporter v v'.
Proof using tm_written.
  intros Hl Hq Hc. unfold Reporter.report. rewrite Hc, create_success_spec by done. cbv zeta.
  assert (Hd : len (success_data r None) = 4) by done.
  destruct (Z.ltb_spec (len (source_data_buf v)) (len (success_data r None))); [lia|].
  rewrite send_vec by done. eexists. split; [reflexivity|]. repeat split; try done.
  cbn [source_data_buf Reporter.set_buf]. rewrite len_app. unfold len in *. rewrite length_drop. lia.
Qed.

Lemma accepted_vec v (q : chan) t stamp :
  4 <= len (source_data_buf v) -> rx_alive q = true ->
  exists v', vr_acceptance_success (H:=sender) (PE:=PE) t stamp (v, q) =
    (Ok (mkToken (request_id t)), (v', put (report_packet v TmAcceptanceSuccess stamp (request_id t)) q)) /\ same_reporter v v'.
Proof using tm_written. intros Hl Hq. by apply (report_vec (mkToken (s:=TcStateAccepted) (request_id t))). Qed.

Lemma started_vec v (q : chan) t stamp :
  4 <= len (source_data_buf v) -> rx_alive q = true ->
  exists v', vr_start_success (H:=sender) (PE:=PE) t stamp (v, q) =
    (Ok (mkToken (request_id t)), (v', put (report_packet v TmStartSuccess stamp (request_id t)) q)) /\ same_reporter v v'.
Proof using tm_written. intros Hl Hq. by apply (report_vec (mkToken (s:=TcStateStarted) (request_id t))). Qed.

Lemma completed_vec v (q : chan) (t : VerificationToken TcStateStarted) stamp :
  4 <= len (source_data_buf v) -> rx_alive q = true ->
  exists v', vr_completion_success (H:=sender) (PE:=PE) TcStateStarted started_accepted t stamp (v, q) =
    (Ok tt, (v', put (report_packet v TmCompletionSuccess stamp (request_id t)) q)) /\ same_reporter v v'.
Proof using tm_written. intros Hl Hq. by apply (report_vec tt). Qed.

(** ** The threads *)

(** The UDP server forwards what arrived and sends what waits. *)
Lemma udp_period_run s ds fuel tm_fuel :
  (length ds < fuel)%nat -> (length (queue (tm_server s)) < tm_fuel)%nat ->
  inbox (udp_socket (udp s)) = (fun d => Datagram d.1 d.2) <$> ds -> rx_alive (tc_source s) = true ->
  exists buf, length buf = length (recv_buf (udp s)) /\
    let u := after_datagrams ds buf (udp_with (tc_source s) (udp s)) in
    udp_period fuel tm_fuel s =
      match sender_addr u with
      | Some addr =>
          (Ok (Some tt), mkDyn (udp_tc_sender u) (pus_test s) (tm_sink s) (Channel.set_queue [] (tm_server s))
             (mkUdpServer (udp_id u) (mail (udp_socket u) addr (packet <$> queue (tm_server s))) (recv_buf u) (sender_addr u)
                (udp_tc_sender u)) (pus_distributor s) (test_srv s) (tm_funnel s))
      | None => (Ok (Some tt), mkDyn (udp_tc_sender u) (pus_test s) (tm_sink s) (tm_server s) u (pus_distributor s) (test_srv s)
                                 (tm_funnel s))
      end.
Proof.
  intros Hf Htf Hin Hrx. destruct (poll_run fuel (tm_server s) ds (udp_with (tc_source s) (udp s)) Hf Hin Hrx) as (buf & Hl & Hrun).
  exists buf. split; [done|]. cbv zeta. unfold udp_period, UdpTmtc.periodic_operation, st_bind. rewrite Hrun.
  unfold gets, UdpTc.last_sender. cbn [udp_tc_server].
  set (u := after_datagrams ds buf (udp_with (tc_source s) (udp s))).
  destruct (sender_addr u) as [addr|] eqn:Ha; [|done].
  unfold UdpTmtc.send_tm, send_tm_to_udp_client, DynamicTm_handler. cbn [udp_tc_server udp_tm_handler].
  rewrite dynamic_sends by done. cbn [udp_tc_server udp_tm_handler udp_tc_sender]. by rewrite Ha.
Qed.

(** ** Small steps *)

Lemma dist_with_self (d : PusTcDistributor chan) : dist_with (dist_tm_sender d) (test_tc_sender (pus_router d)) d = d.
Proof. by destruct d as [i tm v [] st]. Qed.

Lemma tc_steps now s :
  (let* a := tc_accept (PE:=PE) tm_writer parse now in
   match a with Some acc => tc_dispatch (PE:=PE) tm_writer std acc | None => ret tt end) s =
  (res_map (fun _ => tt) (tc_period (PE:=PE) tm_writer parse std now s).1,
   (tc_period (PE:=PE) tm_writer parse std now s).2).
Proof.
  unfold tc_period, tc_accept, Distributor.poll_tc_dynamic, accept_turn.
  set (d0 := dist_with (tm_sink s) (pus_test s) (pus_distributor s)).
  unfold st_bind, on_fst, on_snd, attempt. cbn [fst snd].
  destruct (Channel.try_recv (tc_source s)) as [[pk|e|] rx]; cbn [fst snd]; [|done|done].
  unfold Distributor.handle_tc_packet_vec, Distributor.handle_tc_generic.
  destruct (parse (packet pk)) as [tc|e|]; cbn [fst snd]; [|done|done].
  unfold st_bind, Distributor.on_reporter, Distributor.update_from_now, modify_state, gets, Service.expect_st. cbn [fst snd].
  destruct (vr_add_tc tc _) as [tok v0]. cbn [fst snd dist_id dist_tm_sender dist_verif_reporter pus_router TargetedService.stamp].
  destruct (vr_acceptance_success tok now _) as [[acc|e|] [v1 q1]]; cbn [expect fst snd ret]; [|done|done].
  unfold tc_dispatch. cbn [tm_sink pus_test pus_distributor tc_source tm_server udp test_srv tm_funnel].
  rewrite dist_with_self. cbn [acc_service acc_memory acc_token acc_stamp]. unfold attempt.
  by destruct (Distributor.dispatch _ _ _ _ _ _) as [[[]|e|] d3].
Qed.

(** The turns of the thread for telecommands and telemetry are their small steps. *)
Lemma tmtc_steps now s :
  tmtc_turn (PE:=PE) tm_writer parse std now s =
    match tmtc_thread (PE:=PE) tm_writer parse std (S (length (inbox (udp_socket (udp s))))) (S (length (queue (tm_server s)))) now s with
    | (Ok (Some _), s') => (Ok tt, s')
    | (_, s') => (Panic, s')
    end.
Proof.
  unfold tmtc_turn, tmtc_thread, tmtc_step, st_bind.
  destruct (udp_period _ _ s) as [[[[]|]|[]|] s1]; [|done|done].
  pose proof (tc_steps now s1) as Hs. unfold st_bind in Hs.
  destruct (tc_period _ _ _ now s1) as [[r|[]|] s2]; cbn [fst snd res_map] in Hs;
    destruct (tc_accept tm_writer parse now s1) as [[[acc|]|[]|] s3]; try done; unfold ret; cbn [fst snd];
    try (by rewrite Hs); by injection Hs as <-.
Qed.

(** The parts of the test service do not fail; they panic or succeed. *)
Lemma test_reply_no_err now t e : (test_reply (PE:=PE) tm_writer now t).1 <> Err e.
Proof.
  unfold test_reply, st_bind, gets, Service.on_helper, on_fst, attempt. cbn [fst snd].
  by destruct (Helper.on_sender _ _) as [[]].
Qed.

Lemma test_complete_no_err o now t e : (test_complete (PE:=PE) tm_writer o now t).1 <> Err e.
Proof.
  destruct o as [tok|]; [|done]. unfold test_complete, Service.try_complete, st_bind, Service.on_helper, on_fst, attempt.
  cbn [fst snd]. by destruct (Helper.on_reporter _ _) as [[]].
Qed.

Lemma ping_parts now t o t1 :
  test_start (PE:=PE) tm_writer parse now t = (Ok (Some o), t1) ->
  Service.test_poll_and_handle_next_tc (H0:=sender) (TE:=unit) log_error parse now t =
    (let* _ := test_reply (PE:=PE) tm_writer now in
     let* _ := test_complete (PE:=PE) tm_writer o now in ret (DirectHandled HandledOne)) t1.
Proof.
  intros Hst. unfold test_start in Hst. unfold Service.test_poll_and_handle_next_tc. unfold st_bind at 1 in Hst. unfold st_bind at 1.
  destruct (Service.on_helper (Helper.next_tc parse) t) as [[[[token tc]|]|e|] t0]; try done.
  destruct (negb (tc_service tc =? 17)); [done|]. destruct (tc_subservice tc =? 1); [|done].
  unfold st_bind at 1 in Hst. unfold st_bind at 1.
  destruct (Service.try_start log_error token now t0) as [[o'|e|] t1']; try done. injection Hst as -> ->.
  unfold test_reply, st_bind, gets. destruct (Service.on_helper _ t1) as [[r|e|] t2]; [|done|done].
  by destruct (_ t2) as [[[]|e|] t3].
Qed.

(** So are those of the test service. *)
Lemma pus_steps now s :
  pus_turn (PE:=PE) tm_writer parse now s =
    (res_map (fun _ => tt) (test_thread (PE:=PE) tm_writer parse now s).1, (test_thread (PE:=PE) tm_writer parse now s).2).
Proof.
  unfold pus_turn, st_bind at 1, pus_step at 1.
  destruct (test_start tm_writer parse now (test_of s)) as [[[o|]|e|] t1] eqn:Hst;
    try (by destruct (test_thread _ _ now s) as [[]]).
  assert (Hpoll : TestWrapper.poll_and_handle_next_tc (H:=sender) parse now (test_of s) =
    match test_reply (PE:=PE) tm_writer now t1 with
    | (Ok _, t2) =>
        let '(r, t3) := test_complete (PE:=PE) tm_writer o now t2 in
        (match r with Panic => Panic | _ => Ok HandledOne end, t3)
    | (_, t2) => (Panic, t2)
    end).
  { unfold TestWrapper.poll_and_handle_next_tc. unfold st_bind at 1, attempt at 1. rewrite (ping_parts now _ o t1 Hst).
    unfold st_bind. pose proof (test_reply_no_err now t1) as He.
    destruct (test_reply tm_writer now t1) as [[[]|e|] t2]; [|by destruct (He e)|done].
    pose proof (test_complete_no_err o now t2) as He2.
    destruct (test_complete tm_writer o now t2) as [[[]|e|] t3]; [done|by destruct (He2 e)|done]. }
  unfold test_thread. change (test_with (pus_test s) (tm_sink s) (test_srv s)) with (test_of s). rewrite Hpoll.
  assert (Hof : forall s t, test_of (with_test s t) = t) by (intros ? [[[] ?] ?]; done).
  pose proof (test_reply_no_err now t1) as He. unfold st_bind, pus_step, attempt. rewrite Hof.
  destruct (test_reply tm_writer now t1) as [[[]|e|] t2]; [|by destruct (He e)|reflexivity].
  cbv beta iota delta [res_map res_bind fst snd]. rewrite Hof. pose proof (test_complete_no_err o now t2) as He2.
  destruct (test_complete tm_writer o now t2) as [[[]|e|] t3]; [reflexivity|by destruct (He2 e)|reflexivity].
Qed.

(** A channel that holds these messages, with both ends alive. *)
Definition holding {A : Type} (q : list A) : channel A := mkChannel q None true true.

(** The distributor takes a telecommand and reports its acceptance. *)
Lemma accept_step s now id raw tc rest :
  tc_source s = holding (mkPacketAsVec id raw :: rest) -> rx_alive (tm_sink s) = true -> parse raw = Ok tc ->
  let v := dist_verif_reporter (pus_distributor s) in
  4 <= len (source_data_buf v) ->
  let r := RequestId.new tc in
  exists d', same_reporter v (dist_verif_reporter d') /\
    tc_accept (PE:=PE) tm_writer parse now s =
      (Ok (Some (mkAccepted (tc_service tc) (InVec (mkPacketAsVec id raw)) (mkToken r) now)),
       mkDyn (holding rest) (pus_test s) (put (report_packet v TmAcceptanceSuccess now r) (tm_sink s)) (tm_server s)
         (udp s) d' (test_srv s) (tm_funnel s)).
Proof using tm_written.
  intros Hsrc Hsink Hp v Hl r. destruct (accepted_vec v (tm_sink s) (mkToken r) now Hl Hsink) as (v' & Hr & Hv).
  eexists. split; [|unfold tc_accept, accept_turn, st_bind, on_fst, on_snd, attempt; cbn [fst snd]; rewrite Hsrc;
    unfold Channel.try_recv; cbn [queue holding fst snd packet pav_sender_id]; rewrite Hp;
    unfold Distributor.on_reporter, Distributor.update_from_now, modify_state, gets, Service.expect_st, vr_add_tc;
    cbn [fst snd vr_add_tc_with_req_id Reporter_provider dist_with dist_verif_reporter dist_tm_sender dist_id pus_router
      TargetedService.stamp];
    change (ReportCreator.add_tc_with_req_id (RequestId.new tc)) with (mkToken (s:=TcStateNone) r);
    fold v; rewrite Hr; reflexivity]. exact Hv.
Qed.

(** It finds none. *)
Lemma accept_none s now :
  tc_source s = holding [] ->
  exists d', dist_verif_reporter d' = dist_verif_reporter (pus_distributor s) /\
    tc_accept (PE:=PE) tm_writer parse now s =
      (Ok None, mkDyn (holding []) (pus_test s) (tm_sink s) (tm_server s) (udp s) d' (test_srv s) (tm_funnel s)).
Proof.
  intros Hsrc. exists (dist_with (tm_sink s) (pus_test s) (pus_distributor s)). split; [done|].
  unfold tc_accept, accept_turn, st_bind, on_fst, attempt. cbn [fst snd]. by rewrite Hsrc.
Qed.

(** It passes an accepted telecommand on. *)
Lemma dispatch_step s mem token stamp :
  rx_alive (pus_test s) = true ->
  exists d', dist_verif_reporter d' = dist_verif_reporter (pus_distributor s) /\
    tc_dispatch (PE:=PE) tm_writer std (mkAccepted 17 mem token stamp) s =
      (Ok tt, mkDyn (tc_source s) (put (mkEcssTcAndToken mem (Some (TokAccepted token))) (pus_test s)) (tm_sink s)
         (tm_server s) (udp s) d' (test_srv s) (tm_funnel s)).
Proof using std_test.
  intros Ht. eexists. split; [|unfold tc_dispatch, attempt, Distributor.dispatch; cbn [acc_service acc_memory acc_token acc_stamp];
    rewrite std_test; unfold Distributor.send_via, Distributor.on_router, st_map_err, Channel.send;
    cbn [dist_with pus_router dist_tm_sender dist_id Distributor.set_test test_tc_sender]; rewrite Ht; reflexivity]. done.
Qed.

(** The parts of the test service on a ping. *)
Lemma start_step s now id raw tc r rest :
  pus_test s = holding (mkEcssTcAndToken (InVec (mkPacketAsVec id raw)) (Some (TokAccepted (mkToken r))) :: rest) ->
  parse raw = Ok tc -> tc_service tc = 17 -> tc_subservice tc = 1 ->
  let v := verif_reporter (test_srv s).1.1 in
  4 <= len (source_data_buf v) -> rx_alive (tm_sink s) = true ->
  exists t', same_reporter v (verif_reporter t'.1.1) /\ helper_id t'.1.1 = helper_id (test_srv s).1.1 /\
    pus_step (PE:=PE) tm_writer parse now TestIdle s =
      (Ok (TestStarted (Some (mkToken r)) now),
       mkDyn (tc_source s) (holding rest) (put (report_packet v TmStartSuccess now r) (tm_sink s)) (tm_server s) (udp s)
         (pus_distributor s) t' (tm_funnel s)).
Proof using tm_written.
  intros Hq Hp Hs Hss v Hl Hrx. destruct (started_vec v (tm_sink s) (mkToken r) now Hl Hrx) as (v1 & Hr1 & Hv1).
  unfold pus_step, test_start. unfold st_bind at 1, Service.on_helper, on_fst at 1 2. unfold test_of, test_with. cbn [fst snd].
  rewrite (next_tc_queued parse _ _ rest) by (cbn [tc_receiver]; by rewrite Hq).
  cbn [tc_token tc_in_memory conv_cache VecConverter_converter]. unfold VecConverter.cache, st_bind at 1, modify_state.
  cbn [conv_tc_slice_raw VecConverter_converter VecConverter.tc_slice_raw pus_tc_raw packet pav_sender_id].
  rewrite Hp, Hs, Hss. cbn [Z.eqb Pos.eqb negb]. unfold received.
  unfold Service.try_start, st_bind, Service.on_helper, on_fst, attempt, Helper.on_reporter.
  cbn [fst snd verif_reporter tm_sender helper_id tc_receiver tc_in_mem_converter]. fold v. rewrite Hr1.
  eexists. split; [|split; [|cbn [fst snd ret request_id]; unfold with_test; rewrite Hq; reflexivity]]; done.
Qed.

Lemma idle_step s now :
  pus_test s = holding [] ->
  exists t', verif_reporter t'.1.1 = verif_reporter (test_srv s).1.1 /\ helper_id t'.1.1 = helper_id (test_srv s).1.1 /\
    pus_step (PE:=PE) tm_writer parse now TestIdle s =
      (Ok TestIdle, mkDyn (tc_source s) (holding []) (tm_sink s) (tm_server s) (udp s) (pus_distributor s) t' (tm_funnel s)).
Proof.
  intros Hq. assert (Hn : Helper.next_tc parse (test_of s).1.1 = (Ok None, (test_of s).1.1)).
  { rewrite next_tc_nothing by (unfold test_of, test_with; cbn; by rewrite Hq). unfold test_of, test_with. cbn. by rewrite Hq. }
  exists (test_of s). split; [done|]. split; [done|].
  unfold pus_step, test_start, test_thread, TestWrapper.poll_and_handle_next_tc, Service.test_poll_and_handle_next_tc.
  change (test_with (pus_test s) (tm_sink s) (test_srv s)) with (test_of s).
  unfold st_bind, attempt, Service.on_helper, on_fst. cbn [fst snd]. rewrite Hn. cbn [fst snd ret res_map res_bind].
  unfold test_of, test_with. cbn [fst snd tc_receiver tm_sender]. by rewrite Hq.
Qed.

Lemma reply_step s now o stamp :
  rx_alive (tm_sink s) = true ->
  let v := verif_reporter (test_srv s).1.1 in
  exists t', verif_reporter t'.1.1 = v /\ helper_id t'.1.1 = helper_id (test_srv s).1.1 /\
    pus_step (PE:=PE) tm_writer parse now (TestStarted o stamp) s =
      (Ok (TestReplied o stamp),
       mkDyn (tc_source s) (pus_test s)
         (put (mkPacketAsVec (helper_id (test_srv s).1.1)
                 (tm_bytes (Service.ping_reply (creator_apid (reporter_creator v)) stamp))) (tm_sink s))
         (tm_server s) (udp s) (pus_distributor s) t' (tm_funnel s)).
Proof using tm_written.
  intros Hrx v. unfold pus_step, attempt, test_reply, st_bind, gets, Service.on_helper, on_fst, attempt, Helper.on_sender, test_of, test_with.
  cbn [fst snd verif_reporter tm_sender helper_id tc_receiver tc_in_mem_converter vr_apid Reporter_provider].
  unfold Helper.on_reporter, on_snd. cbn [fst snd verif_reporter tm_sender]. rewrite send_vec by done. eexists. split; [|split; [|cbn [fst snd ret res_map res_bind]; unfold with_test; reflexivity]]; done.
Qed.

Lemma complete_step s now r stamp :
  let v := verif_reporter (test_srv s).1.1 in
  4 <= len (source_data_buf v) -> rx_alive (tm_sink s) = true ->
  exists t', same_reporter v (verif_reporter t'.1.1) /\ helper_id t'.1.1 = helper_id (test_srv s).1.1 /\
    pus_step (PE:=PE) tm_writer parse now (TestReplied (Some (mkToken r)) stamp) s =
      (Ok TestIdle,
       mkDyn (tc_source s) (pus_test s) (put (report_packet v TmCompletionSuccess stamp r) (tm_sink s)) (tm_server s) (udp s)
         (pus_distributor s) t' (tm_funnel s)).
Proof using tm_written.
  intros v Hl Hrx. destruct (completed_vec v (tm_sink s) (mkToken r) stamp Hl Hrx) as (v1 & Hr1 & Hv1).
  unfold pus_step, attempt, test_complete, Service.try_complete, st_bind, Service.on_helper, on_fst, attempt, Helper.on_reporter,
    test_of, test_with.
  cbn [fst snd verif_reporter tm_sender helper_id tc_receiver tc_in_mem_converter]. fold v. rewrite Hr1.
  eexists. split; [|split; [|cbn [fst snd ret res_map res_bind]; unfold with_test; reflexivity]]; done.
Qed.

(** ** Pings on their way *)

(** A datagram with the telecommand it holds. *)
Record Ping : Type := mkPing { p_data : list Z; p_client : Z; p_tc : PusTc }.

(** A packet on its way: the number of its ping, the telecommand, which of the four
    packets it is, and the time of the step that made it. *)
Record Entry : Type := mkEntry { e_ping : nat; e_tc : PusTc; e_stage : nat; e_now : list Z }.

(** The packets of a ping among others, in order. *)
Definition stages (k : nat) (log : list Entry) : list nat := e_stage <$> filter (fun e => e_ping e = k) log.

Definition seg {A : Type} (i j : nat) (l : list A) : list A := take (j - i) (drop i l).

Lemma seg_nil {A} i (l : list A) : seg i i l = [].
Proof. unfold seg. by rewrite Nat.sub_diag. Qed.

Lemma seg_cons {A} i j (l : list A) x : (i < j)%nat -> l !! i = Some x -> seg i j l = x :: seg (S i) j l.
Proof.
  intros Hij Hx. unfold seg. rewrite (drop_S l x i Hx). by replace (j - i)%nat with (S (j - S i)) by lia.
Qed.

Lemma seg_snoc {A} i j (l : list A) x : (i <= j)%nat -> l !! j = Some x -> seg i (S j) l = seg i j l ++ [x].
Proof.
  intros Hij Hx. unfold seg. replace (S j - i)%nat with (S (j - i)) by lia.
  apply take_S_r. rewrite lookup_drop. by replace (i + (j - i))%nat with j by lia.
Qed.

Lemma seg_app {A} i j (l l' : list A) : (j <= length l)%nat -> seg i j (l ++ l') = seg i j l.
Proof.
  intros Hj. unfold seg. destruct (decide (i <= length l)%nat) as [Hi|Hi].
  - rewrite drop_app_le by done. rewrite take_app_le by (rewrite length_drop; lia). done.
  - by replace (j - i)%nat with 0%nat by lia.
Qed.

Lemma seg_join {A} i j (l : list A) : (i <= j)%nat -> seg i j l ++ drop j l = drop i l.
Proof.
  intros Hij. unfold seg. rewrite <- (take_drop (j - i) (drop i l)) at 2. f_equal. rewrite drop_drop.
  f_equal. lia.
Qed.

Lemma seg_full {A} i (l : list A) : seg i (length l) l = drop i l.
Proof. unfold seg. apply take_ge. by rewrite length_drop. Qed.

Lemma stages_snoc k log e : stages k (log ++ [e]) = stages k log ++ (if decide (e_ping e = k) then [e_stage e] else []).
Proof.
  unfold stages. rewrite filter_app, fmap_app. f_equal. unfold filter. cbn. by destruct (decide (e_ping e = k)).
Qed.

(** A packet that is the next one of its ping. *)
Lemma stages_next log cnt cnt' e :
  (forall k, stages k log = seq 0 (cnt k)) -> e_stage e = cnt (e_ping e) -> cnt' (e_ping e) = S (cnt (e_ping e)) ->
  (forall k, k <> e_ping e -> cnt' k = cnt k) -> forall k, stages k (log ++ [e]) = seq 0 (cnt' k).
Proof.
  intros Hlog He Hn Ho k. rewrite stages_snoc, Hlog. destruct (decide (e_ping e = k)) as [<-|Hk].
  - rewrite Hn, seq_S, He. done.
  - rewrite app_nil_r, Ho by done. done.
Qed.

Section Interleavings.
Hypothesis service_kept : forall seq tm, zc_service zc (zc_set_seq_count zc seq tm) = zc_service zc tm.
Hypothesis zc_accepts : forall tm, zc_new zc (tm_bytes tm) = true.
(** The reporters of the distributor and of the test service, and the socket of the start. *)
Context (vd vt : VerificationReporter) (test_id : Z) (socket : UdpSocket).
Hypothesis vd_buf : 4 <= len (source_data_buf vd).
Hypothesis vt_buf : 4 <= len (source_data_buf vt).

Definition packet_of (e : Entry) : PacketAsVec :=
  let r := RequestId.new (e_tc e) in
  match e_stage e with
  | 0%nat => report_packet vd TmAcceptanceSuccess (e_now e) r
  | 1%nat => report_packet vt TmStartSuccess (e_now e) r
  | 2%nat => mkPacketAsVec test_id (tm_bytes (Service.ping_reply (creator_apid (reporter_creator vt)) (e_now e)))
  | _ => report_packet vt TmCompletionSuccess (e_now e) r
  end.

(** A ping the satellite can answer. *)
Definition ping_ok (p : Ping) : Prop :=
  parse (p_data p) = Ok (p_tc p) /\ tc_service (p_tc p) = 17 /\ tc_subservice (p_tc p) = 1 /\
  (length (p_data p) <= 2048)%nat /\ refuses socket (p_client p) = false.

(** How far the pings are: how many are read, accepted, passed on, started and
    finished, what the one at the test service still has to come, and the packets
    that are numbered, wait for that, and wait to be sent. *)
Record Flow : Type := mkFlow {
  f_pings : list Ping;
  f_read : nat; f_acc : nat; f_dis : nat; f_exe : nat; f_fin : nat;
  f_stage : nat;
  f_done : list Entry; f_wait : list Entry; f_tms : list PacketAsVec;
}.

(** The number of packets of ping [k]. *)
Definition made (f : Flow) (k : nat) : nat :=
  (if decide (k < f_acc f)%nat then 1 else 0) +
  (if decide (k < f_fin f)%nat then 3 else if decide (k < f_exe f)%nat then f_stage f else 0).

(** The steps that are still to take. *)
Definition work (f : Flow) : nat :=
  14 * (length (f_pings f) - f_read f) + 13 * (f_read f - f_acc f) + 10 * (f_acc f - f_dis f) + 9 * (f_dis f - f_exe f) +
  (f_exe f - f_fin f) * (9 - 3 * f_stage f) + 2 * length (f_wait f) + length (f_tms f).

Definition tc_packet (id : Z) (p : Ping) : PacketAsVec := mkPacketAsVec id (p_data p).

Definition tc_message (id : Z) (p : Ping) : EcssTcAndToken :=
  mkEcssTcAndToken (InVec (tc_packet id p)) (Some (TokAccepted (mkToken (RequestId.new (p_tc p))))).

Definition tmtc_rep (id : Z) (f : Flow) (pc : TmtcPc) : Prop :=
  match pc with
  | AtDispatch a => f_acc f = S (f_dis f) /\ exists p stamp, f_pings f !! f_dis f = Some p /\
      a = mkAccepted 17 (InVec (tc_packet id p)) (mkToken (RequestId.new (p_tc p))) stamp
  | _ => f_acc f = f_dis f
  end.

Definition pus_rep (f : Flow) (pc : PusPc) : Prop :=
  match pc with
  | TestIdle => f_exe f = f_fin f /\ f_stage f = 0%nat
  | TestStarted o _ => f_exe f = S (f_fin f) /\ f_stage f = 1%nat /\
      exists p, f_pings f !! f_fin f = Some p /\ o = Some (mkToken (RequestId.new (p_tc p)))
  | TestReplied o _ => f_exe f = S (f_fin f) /\ f_stage f = 2%nat /\
      exists p, f_pings f !! f_fin f = Some p /\ o = Some (mkToken (RequestId.new (p_tc p)))
  end.

Record flow_ok (f : Flow) : Prop := {
  ok_pings : Forall ping_ok (f_pings f);
  ok_order : (f_fin f <= f_exe f <= f_dis f)%nat /\ (f_dis f <= f_acc f <= f_read f)%nat /\
             (f_read f <= length (f_pings f))%nat;
  ok_entries : Forall (fun e => exists p, f_pings f !! e_ping e = Some p /\ e_tc e = p_tc p) (f_done f ++ f_wait f);
  ok_stages : forall k, stages k (f_done f ++ f_wait f) = seq 0 (made f k);
}.

(** The packets that were sent, and those that will be. *)
Definition sent_rep (f : Flow) (sock : UdpSocket) : Prop :=
  refuses sock = refuses socket /\
  exists new, outbox sock = outbox socket ++ new /\
    new.*1 ++ (packet <$> f_tms f) = stamped zc [] (packet <$> (packet_of <$> f_done f)) /\
    Forall (fun d => d.2 ∈ p_client <$> f_pings f) new.

Record flow_rep (f : Flow) (x : Sys) : Prop := {
  rep_flow : flow_ok f;
  rep_tmtc : tmtc_rep (udp_id (udp (sys x))) f (tmtc_at x);
  rep_pus : pus_rep f (pus_at x);
  rep_inbox : inbox (udp_socket (udp (sys x))) = (fun p => Datagram (p_data p) (p_client p)) <$> drop (f_read f) (f_pings f);
  rep_source : tc_source (sys x) = holding (tc_packet (udp_id (udp (sys x))) <$> seg (f_acc f) (f_read f) (f_pings f));
  rep_test : pus_test (sys x) = holding (tc_message (udp_id (udp (sys x))) <$> seg (f_exe f) (f_dis f) (f_pings f));
  rep_sink : tm_sink (sys x) = holding (packet_of <$> f_wait f);
  rep_server : tm_server (sys x) = holding (f_tms f);
  rep_sent : sent_rep f (udp_socket (udp (sys x)));
  rep_client : match sender_addr (udp (sys x)) with
               | Some c => c ∈ p_client <$> f_pings f
               | None => f_read f = 0%nat
               end;
  rep_recv : length (recv_buf (udp (sys x))) = 2048%nat;
  rep_dist : same_reporter vd (dist_verif_reporter (pus_distributor (sys x)));
  rep_reporter : same_reporter vt (verif_reporter (test_srv (sys x)).1.1);
  rep_id : helper_id (test_srv (sys x)).1.1 = test_id;
  rep_counters : counters zc (packet <$> (packet_of <$> f_done f)) (tm_funnel (sys x));
}.

(** The threads have nothing to do. *)
Definition rests (f : Flow) (x : Sys) (a : Sched) : Prop :=
  match a with
  | Arrives _ _ => False
  | Tmtc _ =>
      match tmtc_at x with
      | AtUdp => f_read f = length (f_pings f) /\ f_tms f = []
      | AtTc => f_acc f = f_read f
      | AtDispatch _ => False
      end
  | Pus _ => f_exe f = f_dis f /\ f_stage f = 0%nat
  | Sink => f_wait f = []
  end.

Definition next_pc (x : Sys) (a : Sched) (pc : TmtcPc) : Prop :=
  match a, tmtc_at x with
  | Tmtc _, AtUdp => pc = AtTc
  | Tmtc _, AtTc => pc = AtUdp
  | _, pc' => pc = pc'
  end.

(** A step does some of the work, or the thread rests. *)
Definition advances (a : Sched) (f : Flow) (x : Sys) : Prop :=
  exists f' x', sys_step (PE:=PE) tm_writer parse std zc a x = (Ok tt, x') /\ flow_rep f' x' /\ f_pings f' = f_pings f /\
    ((work f' < work f)%nat \/ f' = f /\ rests f x a /\ next_pc x a (tmtc_at x')).

Lemma packet_of_accepted e : zc_new zc (packet (packet_of e)) = true.
Proof using zc_accepts. unfold packet_of. destruct (e_stage e) as [|[|[|]]]; apply zc_accepts. Qed.

Lemma stamped_split prev a b : stamped zc prev (a ++ b) = stamped zc prev a ++ stamped zc (prev ++ a) b.
Proof using.
  revert prev. induction a as [|x a IH]; intros prev; cbn [app stamped]; [by rewrite app_nil_r|].
  by rewrite IH, <- app_assoc.
Qed.

(** The sink numbers the next packet. *)
Lemma sink_advances f x : flow_rep f x -> advances Sink f x.
Proof using service_kept zc_accepts.
  intros Hrep. pose proof Hrep as [Hok Ht Hp Hin Hsrc Htest Hsink Hserver Hsent Hc Hrecv Hd Hr Hid Hcnt].
  destruct x as [s tpc ppc]. cbn [sys tmtc_at pus_at] in *. unfold advances, sys_step, sink_thread. cbn [sys tmtc_at pus_at].
  unfold SinkDynamic.operation. cbn [sd_tm_funnel_rx sd_common sd_tm_server_tx]. rewrite Hsink. cbn [holding queue].
  destruct (f_wait f) as [|e wait] eqn:Hw.
  - eexists f, _. cbn [fmap list_fmap]. split; [reflexivity|]. split; [|split; [done|right; done]].
    by constructor; cbn [sys tmtc_at pus_at tc_source pus_test tm_sink tm_server udp pus_distributor test_srv tm_funnel sd_common]; rewrite ?Hw.
  - cbn [fmap list_fmap]. destruct (process_run zc service_kept _ _ (packet (packet_of e)) Hcnt (packet_of_accepted e)) as (c' & Hpr & Hc' & _).
    rewrite Hpr. rewrite Hserver. unfold Channel.send. cbn [holding rx_alive queue].
    set (pk := mkPacketAsVec (pav_sender_id (packet_of e)) _).
    exists (mkFlow (f_pings f) (f_read f) (f_acc f) (f_dis f) (f_exe f) (f_fin f) (f_stage f) (f_done f ++ [e]) wait (f_tms f ++ [pk])).
    eexists. split; [reflexivity|]. split; [|split; [done|]].
    + destruct Hok as [O1 O2 O3 O4]. rewrite Hw in O3, O4.
      constructor; cbn [sys tmtc_at pus_at tc_source pus_test tm_sink tm_server udp pus_distributor test_srv tm_funnel sd_common
        f_pings f_read f_acc f_dis f_exe f_fin f_stage f_done f_wait f_tms expect Channel.set_queue sd_tm_funnel_rx sd_tm_server_tx]; try done.
      * constructor; cbn [f_pings f_read f_acc f_dis f_exe f_fin f_stage f_done f_wait f_tms]; rewrite <- ?app_assoc; try done.
      * destruct Hsent as (Hrf & new & Hout & Hnew & Hcl). split; [done|]. exists new. split; [done|]. split; [|done].
        cbn [f_tms f_done]. rewrite !fmap_app, app_assoc, Hnew, stamped_split. done.
      * rewrite !fmap_app. exact Hc'.
    + left. unfold work. cbn [f_pings f_read f_acc f_dis f_exe f_fin f_stage f_done f_wait f_tms]. rewrite Hw, length_app. cbn. lia.
Qed.

(** One more packet of a ping waits for the sink. *)
Lemma flow_ok_log f f' e p :
  flow_ok f -> f_pings f' = f_pings f -> f_done f' = f_done f -> f_wait f' = f_wait f ++ [e] ->
  (f_fin f' <= f_exe f' <= f_dis f')%nat /\ (f_dis f' <= f_acc f' <= f_read f')%nat /\ (f_read f' <= length (f_pings f'))%nat ->
  f_pings f !! e_ping e = Some p -> e_tc e = p_tc p ->
  e_stage e = made f (e_ping e) -> made f' (e_ping e) = S (made f (e_ping e)) ->
  (forall k, k <> e_ping e -> made f' k = made f k) -> flow_ok f'.
Proof using.
  intros [O1 O2 O3 O4] Hp Hd Hw Ho He Htc Hs Hm Hk. constructor; [by rewrite Hp|done| |].
  - rewrite Hp, Hd, Hw, app_assoc. apply Forall_app. split; [done|]. constructor; [by exists p|done].
  - intros k. rewrite Hd, Hw, app_assoc. by apply (stages_next _ (made f)).
Qed.

Ltac made_lia := unfold made; cbn [f_acc f_fin f_exe f_stage e_ping e_stage]; repeat case_decide; lia.

Ltac flow_cbn := cbn [sys tmtc_at pus_at tc_source pus_test tm_sink tm_server udp pus_distributor test_srv tm_funnel
  f_pings f_read f_acc f_dis f_exe f_fin f_stage f_done f_wait f_tms].

(** A step of the test service. *)
Lemma pus_advances now f x : flow_rep f x -> advances (Pus now) f x.
Proof using tm_written vt_buf.
  intros Hrep. pose proof Hrep as [Hok Ht Hp Hin Hsrc Htest Hsink Hserver Hsent Hc Hrecv Hd Hr Hid Hcnt].
  pose proof Hok as [O1 O2 O3 O4].
  assert (Hbuf : 4 <= len (source_data_buf (verif_reporter (test_srv (sys x)).1.1)))
    by (destruct Hr as (_ & _ & _ & Hb); unfold len in *; by rewrite Hb).
  assert (Hrx : rx_alive (tm_sink (sys x)) = true) by (by rewrite Hsink).
  destruct x as [s tpc ppc]. unfold advances, sys_step. cbn [sys tmtc_at pus_at] in *.
  set (uid := udp_id (udp s)) in *. destruct f as [ps rd ac di ex fi stg dn wt tms]. revert Hp Htest Hsink O2 Hrep. flow_cbn.
  intros Hp Htest Hsink O2 Hrep. destruct ppc as [|o stamp|o stamp]; cbn in Hp.
  - destruct Hp as [-> ->]. destruct (decide (fi < di)%nat) as [Hlt|Hge].
    + destruct (lookup_lt_is_Some_2 ps fi) as [p Hpi]; [lia|]. rewrite (seg_cons _ _ _ _ Hlt Hpi) in Htest.
      destruct (proj1 (Forall_lookup _ _) O1 _ _ Hpi) as (Hparse & Hs17 & Hs1 & _).
      destruct (start_step s now uid (p_data p) (p_tc p) (RequestId.new (p_tc p)) _ Htest Hparse Hs17 Hs1 Hbuf Hrx) as (t' & Hv & Hi & ->).
      exists (mkFlow ps rd ac di (S fi) fi 1 dn (wt ++ [mkEntry fi (p_tc p) 1 now]) tms). eexists. split; [reflexivity|].
      split; [|split; [done|left; unfold work; flow_cbn; rewrite length_app; cbn; lia]].
      constructor; flow_cbn; try done.
      * eapply (flow_ok_log _ _ (mkEntry fi (p_tc p) 1 now) p Hok); try done; [flow_cbn; lia|made_lia|made_lia|].
        cbn [e_ping]. intros k Hk. made_lia.
      * split_and!; [done|done|by exists p].
      * rewrite Hsink, fmap_app. cbn [fmap list_fmap packet_of e_stage e_tc e_now]. by rewrite (report_packet_same vt).
      * by eapply same_reporter_trans.
      * by rewrite Hi.
    + assert (fi = di) as <- by lia. rewrite seg_nil in Htest.
      destruct (idle_step s now Htest) as (t' & Hv & Hi & ->).
      exists (mkFlow ps rd ac fi fi fi 0 dn wt tms). eexists. split; [reflexivity|]. split; [|split; [done|right; done]].
      by constructor; flow_cbn; rewrite ?Hv, ?Hi, ?seg_nil.
  - destruct Hp as (-> & -> & p & Hpi & ->). destruct (reply_step s now (Some (mkToken (RequestId.new (p_tc p)))) stamp Hrx) as (t' & Hv & Hi & ->).
    exists (mkFlow ps rd ac di (S fi) fi 2 dn (wt ++ [mkEntry fi (p_tc p) 2 stamp]) tms). eexists. split; [reflexivity|].
    split; [|split; [done|left; unfold work; flow_cbn; rewrite length_app; cbn; lia]].
    constructor; flow_cbn; try done.
    + eapply (flow_ok_log _ _ (mkEntry fi (p_tc p) 2 stamp) p Hok); try done; [made_lia|made_lia|].
      cbn [e_ping]. intros k Hk. made_lia.
    + split_and!; [done|done|by exists p].
    + rewrite Hsink, fmap_app, Hid. cbn [fmap list_fmap packet_of e_stage e_tc e_now]. destruct Hr as (_ & -> & _). done.
    + by rewrite Hv.
    + by rewrite Hi.
  - destruct Hp as (-> & -> & p & Hpi & ->).
    destruct (complete_step s now (RequestId.new (p_tc p)) stamp Hbuf Hrx) as (t' & Hv & Hi & ->).
    exists (mkFlow ps rd ac di (S fi) (S fi) 0 dn (wt ++ [mkEntry fi (p_tc p) 3 stamp]) tms). eexists. split; [reflexivity|].
    split; [|split; [done|left; unfold work; flow_cbn; rewrite length_app; cbn [length]; lia]].
    constructor; flow_cbn; try done.
    + eapply (flow_ok_log _ _ (mkEntry fi (p_tc p) 3 stamp) p Hok); try done; [flow_cbn; lia|made_lia|made_lia|].
      cbn [e_ping]. intros k Hk. made_lia.
    + rewrite Hsink, fmap_app. cbn [fmap list_fmap packet_of e_stage e_tc e_now]. by rewrite (report_packet_same vt).
    + by eapply same_reporter_trans.
    + by rewrite Hi.
Qed.

(** The clients take what they are sent. *)
Lemma client_accepts f c : flow_ok f -> c ∈ p_client <$> f_pings f -> refuses socket c = false.
Proof using.
  intros [O1 _ _ _] (p & -> & Hp)%list_elem_of_fmap. rewrite Forall_forall in O1. by destruct (O1 p Hp) as (_ & _ & _ & _ & ?).
Qed.

(** No telemetry without a ping. *)
Lemma no_pings f sock : flow_ok f -> f_pings f = [] -> sent_rep f sock -> f_tms f = [].
Proof using.
  intros [_ _ O3 _] Hp (_ & new & _ & Hn & _). destruct (f_done f) as [|e done].
  - cbn in Hn. apply app_eq_nil in Hn as [_ Hn]. by apply fmap_nil_inv in Hn.
  - rewrite Hp in O3. cbn in O3. apply Forall_cons in O3 as [(p & Hl & _) _]. by rewrite lookup_nil in Hl.
Qed.

(** The server forwards everything that arrived. *)
Lemma read_all f (u : UdpTcServer chan) buf :
  flow_ok f -> length (recv_buf u) = 2048%nat ->
  udp_tc_sender u = holding (tc_packet (udp_id u) <$> seg (f_acc f) (f_read f) (f_pings f)) ->
  udp_tc_sender (after_datagrams ((fun p => (p_data p, p_client p)) <$> drop (f_read f) (f_pings f)) buf u) =
    holding (tc_packet (udp_id u) <$> seg (f_acc f) (length (f_pings f)) (f_pings f)).
Proof using.
  intros [O1 O2 _ _] Hl Hq. cbn [after_datagrams udp_tc_sender]. unfold forwarded. rewrite Hq, Hl. cbn [holding queue Channel.set_queue].
  unfold holding, Channel.set_queue. cbn. f_equal.
  rewrite seg_full, <- (seg_join (f_acc f) (f_read f)), fmap_app by lia. f_equal. rewrite <- !list_fmap_compose.
  apply list_fmap_ext. intros i p Hp. cbn. unfold tc_packet. f_equal. apply take_ge.
  rewrite lookup_drop in Hp. by destruct (proj1 (Forall_lookup _ _) O1 _ _ Hp) as (_ & _ & _ & Hle & _).
Qed.

(** Whom the server sends to after it read everything. *)
Lemma read_client f (u : UdpTcServer chan) buf :
  match sender_addr u with Some c => c ∈ p_client <$> f_pings f | None => f_read f = 0%nat end ->
  match sender_addr (after_datagrams ((fun p => (p_data p, p_client p)) <$> drop (f_read f) (f_pings f)) buf u) with
  | Some c => c ∈ p_client <$> f_pings f
  | None => f_pings f = []
  end.
Proof using.
  intros Hc. cbn [after_datagrams sender_addr]. rewrite fmap_last. destruct (last (drop (f_read f) (f_pings f))) as [p|] eqn:Hl.
  - cbn. apply last_Some in Hl as [l Hl]. apply list_elem_of_fmap. exists p. split; [done|].
    rewrite <- (take_drop (f_read f) (f_pings f)), Hl. apply elem_of_app. right. apply elem_of_app. right. by apply list_elem_of_singleton.
  - cbn. apply last_None in Hl. destruct (sender_addr u); [done|]. by rewrite Hc in Hl.
Qed.

(** The turn of the UDP server: all datagrams are read and all telemetry is sent. *)
Lemma udp_advances now f x : flow_rep f x -> tmtc_at x = AtUdp -> advances (Tmtc now) f x.
Proof using.
  intros Hrep Hpc. pose proof Hrep as [Hok Ht Hp Hin Hsrc Htest Hsink Hserver Hsent Hc Hrecv Hd Hr Hid Hcnt].
  pose proof Hok as [O1 O2 O3 O4]. destruct x as [s tpc ppc]. unfold advances, sys_step, rests, next_pc.
  cbn [sys tmtc_at pus_at] in *. subst tpc. unfold tmtc_step.
  set (ds := (fun p => (p_data p, p_client p)) <$> drop (f_read f) (f_pings f)).
  assert (Hds : inbox (udp_socket (udp s)) = (fun d => Datagram d.1 d.2) <$> ds)
    by (rewrite Hin; unfold ds; by rewrite <- list_fmap_compose).
  destruct (udp_period_run s ds (S (length (inbox (udp_socket (udp s))))) (S (length (queue (tm_server s))))) as (buf & Hbuf & Hrun);
    [rewrite Hds, length_fmap; lia|lia|done|by rewrite Hsrc|].
  cbv zeta in Hrun. set (u := after_datagrams ds buf (udp_with (tc_source s) (udp s))) in Hrun.
  pose proof (read_all f (udp_with (tc_source s) (udp s)) buf Hok Hrecv Hsrc) as Hfwd. fold ds u in Hfwd.
  pose proof (read_client f (udp_with (tc_source s) (udp s)) buf Hc) as Hcl. fold ds u in Hcl.
  set (f' := mkFlow (f_pings f) (length (f_pings f)) (f_acc f) (f_dis f) (f_exe f) (f_fin f) (f_stage f) (f_done f) (f_wait f) []).
  assert (Hok' : flow_ok f') by (constructor; try done; cbn; lia).
  assert (Hwork : (work f' < work f)%nat \/ f' = f /\ (f_read f = length (f_pings f) /\ f_tms f = []) /\ AtTc = AtTc).
  { destruct (decide (f_read f = length (f_pings f) /\ f_tms f = [])) as [[Hrd Htms]|Hne].
    - right. split; [|done]. unfold f'. rewrite <- Hrd, <- Htms. by destruct f.
    - left. unfold work, f'. flow_cbn. destruct (f_tms f); [|cbn; lia]. destruct (decide (f_read f = length (f_pings f))); [tauto|].
      cbn. lia. }
  assert (Hrep' : forall sock, inbox sock = [] -> sent_rep f' sock ->
    flow_rep f' (mkSys (mkDyn (udp_tc_sender u) (pus_test s) (tm_sink s) (holding [])
      (mkUdpServer (udp_id u) sock (recv_buf u) (sender_addr u) (udp_tc_sender u)) (pus_distributor s) (test_srv s) (tm_funnel s))
      AtTc ppc)).
  { intros sock Hib Hsr. constructor; flow_cbn; try done.
    - unfold f'. flow_cbn. cbn [udp_socket]. rewrite Hib, drop_all. done.
    - cbn [sender_addr]. destruct (sender_addr u); [done|]. unfold f'; flow_cbn. by rewrite Hcl.
    - cbn [recv_buf u after_datagrams]. rewrite Hbuf. done. }
  rewrite Hrun. destruct (sender_addr u) as [addr|] eqn:Ha.
  - eexists f', _. split; [reflexivity|]. split; [|split; [done|exact Hwork]]. rewrite Hserver. apply Hrep'; [done|].
    destruct Hsent as (Hrf & new & Hout & Hn & Hcls). split; [done|].
    exists (new ++ ((fun d => (d, addr)) <$> (packet <$> f_tms f))). split; [|split].
    + cbn [mail outbox u after_datagrams udp_socket udp_with Socket.set_inbox holding queue refuses].
      rewrite Hrf, (client_accepts f addr Hok Hcl), Hout, <- app_assoc. done.
    + unfold f'. flow_cbn. rewrite fmap_app, <- Hn, <- list_fmap_compose. cbn [fmap list_fmap]. rewrite app_nil_r. f_equal.
      by apply list_fmap_id.
    + apply Forall_app. split; [done|]. by apply Forall_fmap, Forall_true.
  - eexists f', _. split; [reflexivity|]. split; [|split; [done|exact Hwork]].
    pose proof (no_pings f _ Hok Hcl Hsent) as Htms. rewrite Hserver, Htms.
    replace u with (mkUdpServer (udp_id u) (udp_socket u) (recv_buf u) (sender_addr u) (udp_tc_sender u)) by (by destruct u).
    rewrite Ha. apply Hrep'; [done|]. destruct Hsent as (Hrf & new & Hout & Hn & Hcls). split; [done|]. exists new.
    split; [done|]. split; [|done]. unfold f'. flow_cbn. by rewrite <- Hn, Htms.
Qed.

(** The distributor accepts the next telecommand. *)
Lemma tc_advances now f x : flow_rep f x -> tmtc_at x = AtTc -> advances (Tmtc now) f x.
Proof using tm_written vd_buf.
  intros Hrep Hpc. pose proof Hrep as [Hok Ht Hp Hin Hsrc Htest Hsink Hserver Hsent Hc Hrecv Hd Hr Hid Hcnt].
  pose proof Hok as [O1 O2 O3 O4].
  assert (Hbuf : 4 <= len (source_data_buf (dist_verif_reporter (pus_distributor (sys x)))))
    by (destruct Hd as (_ & _ & _ & Hb); unfold len in *; by rewrite Hb).
  assert (Hrx : rx_alive (tm_sink (sys x)) = true) by (by rewrite Hsink).
  destruct x as [s tpc ppc]. unfold advances, sys_step, rests, next_pc. cbn [sys tmtc_at pus_at] in *. subst tpc.
  set (uid := udp_id (udp s)) in *. destruct f as [ps rd ac di ex fi stg dn wt tms]. revert Ht Hsrc Hsink O2 Hrep. flow_cbn.
  intros Ht Hsrc Hsink O2 Hrep. cbn in Ht. subst di. unfold tmtc_step, st_bind. destruct (decide (ac < rd)%nat) as [Hlt|Hge].
  - destruct (lookup_lt_is_Some_2 ps ac) as [p Hpi]; [lia|]. rewrite (seg_cons _ _ _ _ Hlt Hpi) in Hsrc.
    destruct (proj1 (Forall_lookup _ _) O1 _ _ Hpi) as (Hparse & Hs17 & Hs1 & _).
    destruct (accept_step s now uid (p_data p) (p_tc p) _ Hsrc Hrx Hparse Hbuf) as (d' & Hd' & ->). rewrite Hs17. cbn [ret].
    exists (mkFlow ps rd (S ac) ac ex fi stg dn (wt ++ [mkEntry ac (p_tc p) 0 now]) tms). eexists. split; [reflexivity|].
    split; [|split; [done|left; unfold work; flow_cbn; rewrite length_app; cbn [length]; lia]].
    constructor; flow_cbn; try done.
    + eapply (flow_ok_log _ _ (mkEntry ac (p_tc p) 0 now) p Hok); try done; [flow_cbn; lia|made_lia|made_lia|].
      cbn [e_ping]. intros k Hk. made_lia.
    + split; [done|]. by exists p, now.
    + rewrite Hsink, fmap_app. cbn [fmap list_fmap packet_of e_stage e_tc e_now]. by rewrite (report_packet_same vd).
    + by eapply same_reporter_trans.
  - assert (ac = rd) as <- by lia. rewrite seg_nil in Hsrc. destruct (accept_none s now Hsrc) as (d' & Hd' & ->). cbn [ret].
    exists (mkFlow ps ac ac ac ex fi stg dn wt tms). eexists. split; [reflexivity|]. split; [|split; [done|right; done]].
    by constructor; flow_cbn; rewrite ?Hd', ?seg_nil.
Qed.

(** It passes the accepted telecommand on. *)
Lemma dispatch_advances now f x a : flow_rep f x -> tmtc_at x = AtDispatch a -> advances (Tmtc now) f x.
Proof using std_test.
  intros Hrep Hpc. pose proof Hrep as [Hok Ht Hp Hin Hsrc Htest Hsink Hserver Hsent Hc Hrecv Hd Hr Hid Hcnt].
  pose proof Hok as [O1 O2 O3 O4]. assert (Hrx : rx_alive (pus_test (sys x)) = true) by (by rewrite Htest).
  destruct x as [s tpc ppc]. unfold advances, sys_step, rests, next_pc. cbn [sys tmtc_at pus_at] in *. subst tpc.
  destruct f as [ps rd ac di ex fi stg dn wt tms]. revert Ht Htest O2 O4 Hrep. flow_cbn. intros Ht Htest O2 O4 Hrep. cbn in Ht.
  destruct Ht as (-> & p & stamp & Hpi & ->). unfold tmtc_step, st_bind.
  destruct (dispatch_step s (InVec (tc_packet (udp_id (udp s)) p)) (mkToken (RequestId.new (p_tc p))) stamp Hrx) as (d' & Hd' & ->).
  cbn [ret]. exists (mkFlow ps rd (S di) (S di) ex fi stg dn wt tms). eexists. split; [reflexivity|].
  split; [|split; [done|left; unfold work; flow_cbn; lia]].
  constructor; flow_cbn; try done.
  - constructor; flow_cbn; try done. lia.
  - rewrite Htest, (seg_snoc _ _ _ p), fmap_app by (done || lia). done.
  - by rewrite Hd'.
Qed.

Lemma tmtc_advances now f x : flow_rep f x -> advances (Tmtc now) f x.
Proof using tm_written std_test vd_buf.
  intros Hrep. destruct (tmtc_at x) as [| |a] eqn:Hpc; [by apply udp_advances|by apply tc_advances|by apply dispatch_advances with a].
Qed.

(** A ping arrives. *)
Lemma ping_arrives f x p :
  flow_rep f x -> ping_ok p ->
  exists f' x', sys_step (PE:=PE) tm_writer parse std zc (Arrives (p_data p) (p_client p)) x = (Ok tt, x') /\
    flow_rep f' x' /\ f_pings f' = f_pings f ++ [p] /\ (work f' <= work f + 14)%nat /\ tmtc_at x' = tmtc_at x.
Proof using.
  intros Hrep Hok'. pose proof Hrep as [Hok Ht Hp Hin Hsrc Htest Hsink Hserver Hsent Hc Hrecv Hd Hr Hid Hcnt].
  pose proof Hok as [O1 O2 O3 O4]. destruct x as [s tpc ppc]. unfold sys_step. cbn [sys tmtc_at pus_at] in *.
  destruct f as [ps rd ac di ex fi stg dn wt tms]. revert Ht Hp Hin Hsrc Htest Hc O1 O2 O3. flow_cbn.
  intros Ht Hp Hin Hsrc Htest Hc O1 O2 O3.
  exists (mkFlow (ps ++ [p]) rd ac di ex fi stg dn wt tms). eexists. split; [reflexivity|].
  split; [|split; [done|split; [unfold work; flow_cbn; rewrite length_app; cbn [length]; lia|done]]].
  assert (Hlk : forall i q, ps !! i = Some q -> (ps ++ [p]) !! i = Some q) by (intros; by apply lookup_app_l_Some).
  unfold arrive. constructor; flow_cbn; cbn [udp_socket sender_addr recv_buf udp_id]; try done.
  - constructor; flow_cbn; [by apply Forall_app; split; [|constructor]|rewrite length_app; cbn; lia| |done].
    eapply Forall_impl; [exact O3|]. intros e (q & Hq & He). by exists q; split; [apply Hlk|].
  - destruct tpc as [| |a]; try done. destruct Ht as (Ha & q & stamp & Hq & He). split; [done|]. exists q, stamp. by split; [apply Hlk|].
  - destruct ppc as [|o stamp|o stamp]; [done| |]; destruct Hp as (Ha & Hb & q & Hq & He); split_and!; try done;
      exists q; by split; [apply Hlk|].
  - cbn [Socket.set_inbox inbox]. rewrite Hin, drop_app_le, fmap_app by lia. done.
  - rewrite seg_app by lia. done.
  - rewrite seg_app by lia. done.
  - destruct Hsent as (Hrf & new & Hout & Hn & Hcls). split; [done|]. exists new. split; [done|]. split; [done|].
    eapply Forall_impl; [exact Hcls|]. intros d Hdd. flow_cbn. rewrite fmap_app. apply elem_of_app. by left.
  - destruct (sender_addr (udp s)); [|done]. rewrite fmap_app. apply elem_of_app. by left.
Qed.

(** A step without an arrival. *)
Lemma step_advances a f x : flow_rep f x -> arrivals [a] = [] -> advances a f x.
Proof using tm_written std_test service_kept zc_accepts vd_buf vt_buf.
  intros Hrep Ha. destruct a; [done|by apply tmtc_advances|by apply pus_advances|by apply sink_advances].
Qed.

(** What is known when the thread for telecommands and telemetry did nothing. *)
Definition tmtc_rests (f : Flow) (pc : TmtcPc) : Prop :=
  match pc with
  | AtUdp => f_read f = length (f_pings f) /\ f_tms f = []
  | AtTc => f_acc f = f_read f
  | AtDispatch _ => False
  end.

Definition idle (f : Flow) (pc : TmtcPc) (l : list Sched) : Prop :=
  ((1 <= tmtc_count l)%nat -> tmtc_rests f pc) /\
  ((2 <= tmtc_count l)%nat -> tmtc_rests f AtUdp /\ tmtc_rests f AtTc) /\
  (forall now, Pus now ∈ l -> f_exe f = f_dis f /\ f_stage f = 0%nat) /\
  (Sink ∈ l -> f_wait f = []).

Lemma idle_cons f x a l pc' :
  rests f x a -> next_pc x a pc' -> idle f pc' l -> idle f (tmtc_at x) (a :: l).
Proof using.
  intros Hr Hn (H1 & H2 & H3 & H4). destruct a as [d c|now|now|]; [done| | |]; unfold idle, tmtc_count in *;
    cbn [rests next_pc] in Hr, Hn; (split_and!; [| |intros t Ht; apply elem_of_cons in Ht as [Ht|Ht]; [by simplify_eq|by apply (H3 t)]
    |intros Ht; apply elem_of_cons in Ht as [Ht|Ht]; [by simplify_eq|by apply H4]]); try done.
  - intros Hc. cbn in Hc. assert (Hpc' : tmtc_rests f pc') by (apply H1; lia).
    destruct (tmtc_at x); subst pc'; [done|done|by destruct Hr].
  - by rewrite <- Hn.
  - by rewrite <- Hn.
Qed.

Local Abbreviation run := (sys_run (PE:=PE) tm_writer parse std zc).

Lemma sys_run_app l1 l2 x x1 : run l1 x = (Ok tt, x1) -> run (l1 ++ l2) x = run l2 x1.
Proof using.
  revert x. induction l1 as [|a l1 IH]; intros x Hr.
  - cbn in Hr. by injection Hr as ->.
  - cbn [app sys_run] in *. unfold st_bind in *.
    destruct (sys_step tm_writer parse std zc a x) as [[[]|e|] x']; [|done|done]. by apply IH.
Qed.

(** Steps without arrivals: the work gets less, or every thread that ran had nothing to do. *)
Lemma steps_run l f x :
  flow_rep f x -> arrivals l = [] ->
  exists f' x', run l x = (Ok tt, x') /\ flow_rep f' x' /\ f_pings f' = f_pings f /\
    ((work f' < work f)%nat \/ f' = f /\ idle f (tmtc_at x) l).
Proof using tm_written std_test service_kept zc_accepts vd_buf vt_buf.
  revert f x. induction l as [|a l IH]; intros f x Hrep Ha.
  { exists f, x. split; [done|]. split; [done|]. split; [done|]. right. split; [done|].
    unfold idle, tmtc_count. cbn. split_and!; [lia|lia| |]; intros; set_solver. }
  assert (Ha1 : arrivals [a] = [] /\ arrivals l = []) by (by destruct a).
  destruct (step_advances a f x Hrep (proj1 Ha1)) as (f1 & x1 & Hs & Hrep1 & Hp1 & Hw).
  destruct (IH f1 x1 Hrep1 (proj2 Ha1)) as (f2 & x2 & Hrun & Hrep2 & Hp2 & Hw2).
  exists f2, x2. split; [cbn [sys_run]; unfold st_bind; by rewrite Hs|]. split; [done|]. split; [by rewrite Hp2|].
  destruct Hw as [Hw|(-> & Hr & Hn)]; destruct Hw2 as [Hw2|(-> & Hi)]; [left; lia|by left|by left|right].
  split; [done|]. by apply (idle_cons f x a l (tmtc_at x1)).
Qed.

(** A lap does some of the work. *)
Lemma lap_run l f x :
  flow_rep f x -> is_lap l ->
  exists f' x', run l x = (Ok tt, x') /\ flow_rep f' x' /\ f_pings f' = f_pings f /\ (work f' <= work f - 1)%nat.
Proof using tm_written std_test service_kept zc_accepts vd_buf vt_buf.
  intros Hrep (Ha & Hn & (now & Hpus) & Hsink).
  destruct (steps_run l f x Hrep Ha) as (f' & x' & Hrun & Hrep' & Hp & Hw). exists f', x'. split_and!; [done|done|done|].
  destruct Hw as [Hw|(-> & H1 & H2 & H3 & H4)]; [lia|].
  destruct (H2 Hn) as [[Hu Htms] Ht]. destruct (H3 _ Hpus) as [He Hst]. specialize (H4 Hsink). specialize (H1 ltac:(lia)).
  destruct Hrep as [_ Hrt Hrp _ _ _ _ _ _ _ _ _ _ _ _]. cbn [tmtc_rests] in Ht.
  assert (Hdis : f_acc f = f_dis f) by (by destruct (tmtc_at x)).
  assert (Hfin : f_exe f = f_fin f) by (destruct (pus_at x); destruct Hrp as (Hx & Hy); [done| |]; destruct Hy as (Hy & _); lia).
  unfold work. rewrite Htms, H4. cbn [length]. replace (f_exe f - f_fin f)%nat with 0%nat by lia. lia.
Qed.

Lemma laps_run ls f x :
  flow_rep f x -> Forall is_lap ls ->
  exists f' x', run (concat ls) x = (Ok tt, x') /\ flow_rep f' x' /\ f_pings f' = f_pings f /\ (work f' <= work f - length ls)%nat.
Proof using tm_written std_test service_kept zc_accepts vd_buf vt_buf.
  revert f x. induction ls as [|l ls IH]; intros f x Hrep Hl.
  { exists f, x. split_and!; try done. cbn. lia. }
  apply Forall_cons in Hl as [Hl Hls]. destruct (lap_run l f x Hrep Hl) as (f1 & x1 & Hr1 & Hrep1 & Hp1 & Hw1).
  destruct (IH f1 x1 Hrep1 Hls) as (f2 & x2 & Hr2 & Hrep2 & Hp2 & Hw2). exists f2, x2. cbn [concat length].
  split_and!; [by rewrite (sys_run_app _ _ _ x1)|done|by rewrite Hp2|lia].
Qed.

(** Any schedule in which only pings arrive. *)
Lemma sched_run sched ps f x :
  flow_rep f x -> arrivals sched = (fun p => (p_data p, p_client p)) <$> ps -> Forall ping_ok ps ->
  exists f' x', run sched x = (Ok tt, x') /\ flow_rep f' x' /\ f_pings f' = f_pings f ++ ps /\
    (work f' <= work f + 14 * length ps)%nat.
Proof using tm_written std_test service_kept zc_accepts vd_buf vt_buf.
  revert ps f x. induction sched as [|a sched IH]; intros ps f x Hrep Ha Hps.
  { destruct ps; [|done]. exists f, x. rewrite app_nil_r. split_and!; try done. cbn. lia. }
  destruct (decide (arrivals [a] = [])) as [Hn|Hn].
  - destruct (step_advances a f x Hrep Hn) as (f1 & x1 & Hs & Hrep1 & Hp1 & Hw).
    destruct (IH ps f1 x1 Hrep1) as (f2 & x2 & Hr2 & Hrep2 & Hp2 & Hw2); [by destruct a|done|].
    exists f2, x2. split; [cbn [sys_run]; unfold st_bind; by rewrite Hs|]. split_and!; [done|by rewrite Hp2, Hp1|].
    destruct Hw as [Hw|(-> & _)]; lia.
  - destruct a as [d c|now|now|]; try done. destruct ps as [|p ps]; [done|]. cbn in Ha. injection Ha as -> -> Ha.
    apply Forall_cons in Hps as [Hp Hps]. destruct (ping_arrives f x p Hrep Hp) as (f1 & x1 & Hs & Hrep1 & Hp1 & Hw1 & _).
    destruct (IH ps f1 x1 Hrep1 Ha Hps) as (f2 & x2 & Hr2 & Hrep2 & Hp2 & Hw2). exists f2, x2.
    split; [cbn [sys_run]; unfold st_bind; by rewrite Hs|]. split_and!; [done|by rewrite Hp2, Hp1, <- app_assoc|].
    cbn [length]. lia.
Qed.

(** Nothing is left to do. *)
Lemma all_done f x :
  flow_rep f x -> work f = 0%nat ->
  f_wait f = [] /\ f_tms f = [] /\ f_read f = length (f_pings f) /\ f_acc f = length (f_pings f) /\
  f_dis f = length (f_pings f) /\ f_exe f = length (f_pings f) /\ f_fin f = length (f_pings f).
Proof using.
  intros [[_ Ho _ _] _ Hp _ _ _ _ _ _ _ _ _ _ _ _] Hw. unfold work in Hw.
  assert (Hst : (f_stage f <= 2)%nat) by (destruct (pus_at x); destruct Hp as (_ & Hx); [lia| |]; destruct Hx; lia).
  assert (Hf : (f_exe f - f_fin f = 0)%nat) by (clear -Hw Hst; nia). destruct (f_wait f); [|cbn in Hw; lia]. destruct (f_tms f); [|cbn in Hw; lia].
  split_and!; try done; lia.
Qed.

(** ** From the start

    The packets the pings lead to: those that are numbered, with what was sent of them
    and what waits for the client, and those that wait for the sink. *)
Record answered (ps : list Ping) (numbered wait : list Entry) (sent : list (list Z * Z)) (s : Dyn) : Prop := {
  ans_pings : Forall (fun e => exists p, ps !! e_ping e = Some p /\ e_tc e = p_tc p) (numbered ++ wait);
  ans_order : forall k, exists m, (m <= 4)%nat /\ stages k (numbered ++ wait) = seq 0 m;
  ans_outbox : outbox (udp_socket (udp s)) = outbox socket ++ sent;
  ans_sent : sent.*1 ++ (packet <$> queue (tm_server s)) = stamped zc [] (packet <$> (packet_of <$> numbered));
  ans_clients : Forall (fun d => d.2 ∈ p_client <$> ps) sent;
  ans_wait : queue (tm_sink s) = packet_of <$> wait;
}.

(** All packets of all pings are sent. *)
Definition finished (ps : list Ping) (numbered wait : list Entry) (s : Dyn) : Prop :=
  wait = [] /\ (forall k, (k < length ps)%nat -> stages k numbered = [0; 1; 2; 3]%nat) /\
  inbox (udp_socket (udp s)) = [] /\ tc_source s = mpsc_channel /\ pus_test s = mpsc_channel /\ tm_sink s = mpsc_channel /\
  tm_server s = mpsc_channel.

Lemma flow_answered f x :
  flow_rep f x -> exists new, answered (f_pings f) (f_done f) (f_wait f) new (sys x).
Proof using.
  intros [[_ Ho O3 O4] Ht Hp _ _ _ Hsink Hserver (_ & new & Hout & Hn & Hcl) _ _ _ _ _ _]. exists new. constructor; try done.
  - intros k. exists (made f k). split; [|done].
    assert (Hst : (f_stage f <= 2)%nat) by (destruct (pus_at x); destruct Hp as (_ & Hx); [lia| |]; destruct Hx; lia).
    unfold made. repeat case_decide; lia.
  - by rewrite Hserver.
  - by rewrite Hsink.
Qed.

Lemma flow_finished f x : flow_rep f x -> work f = 0%nat -> finished (f_pings f) (f_done f) (f_wait f) (sys x).
Proof using.
  intros Hrep Hw. destruct (all_done f x Hrep Hw) as (Hwait & Htms & Hrd & Hac & Hdi & Hex & Hfi).
  destruct Hrep as [[_ _ _ O4] _ _ Hin Hsrc Htest Hsink Hserver _ _ _ _ _ _ _]. unfold finished. split_and!; [done| | | | | |].
  - intros k Hk. rewrite <- (app_nil_r (f_done f)), <- Hwait, O4. unfold made. rewrite Hac, Hfi. by rewrite !decide_True by lia.
  - by rewrite Hin, Hrd, drop_all.
  - by rewrite Hsrc, Hac, Hrd, seg_nil.
  - by rewrite Htest, Hex, Hdi, seg_nil.
  - by rewrite Hsink, Hwait.
  - by rewrite Hserver, Htms.
Qed.
End Interleavings.

(** The reporter of a component, as [create_verification_reporter] makes it. *)
Definition created (id : UniqueApidTargetId) : VerificationReporter :=
  mkReporter (TargetId.id id) (replicate 15 0) (mkCreator 0 (apid id)) (fun tm => tm).

Lemma dyn_new_rep {E} socket router events id :
  inbox socket = [] ->
  exists s, dyn_new (E:=E) socket router events id = Ok s /\
    flow_rep (created PUS_ROUTING_SERVICE) (created PUS_TEST_SERVICE) (TargetId.id PUS_TEST_SERVICE) socket
      (mkFlow [] 0 0 0 0 0 0 [] [] []) (mkSys s AtUdp TestIdle).
Proof.
  intros Hin. eexists. split; [reflexivity|]. constructor; try done.
  split; [done|]. exists []. by rewrite app_nil_r.
Qed.
End Run.

(** * Properties *)

(** C40: The threads of a satellite that was just started, in any interleaving of the
    steps between their channel operations, of which the turns of the code are made: the
    distributor's acceptance and dispatch, the test service's start, reply and
    completion, the sink and the UDP server, whose turn is one step.  While only pings
    arrive that parse, fit the buffer of 2048 bytes and come from clients that take their
    answers, nothing panics and no loop runs out of fuel; at any time the packets made
    for a ping are the first of its four, acceptance, start, reply and completion, in
    this order; they are numbered in the order they reach the sink, and what was sent
    and what waits to be sent is exactly what was numbered, to clients that sent pings.
    Once every thread ran often enough (14 laps per ping), all four packets of every
    ping are sent and nothing is left in the socket or a channel. *)
Theorem pings_answered {PE E} `{PusErrorOps PE} tm_writer tm_bytes parse std zc socket router events id
    (ps : list Ping) (sched : list Sched) (laps : list (list Sched)) :
  (forall tm, writes (tm_writer tm) (tm_bytes tm)) -> std 17 = Some StdTest ->
  (forall seq tm, zc_service zc (zc_set_seq_count zc seq tm) = zc_service zc tm) ->
  (forall tm, zc_new zc (tm_bytes tm) = true) -> inbox socket = [] ->
  Forall (ping_ok parse socket) ps -> arrivals sched = (fun p => (p_data p, p_client p)) <$> ps -> Forall is_lap laps ->
  (forall now s, tmtc_turn (PE:=PE) tm_writer parse std now s =
     match tmtc_thread (PE:=PE) tm_writer parse std (S (length (inbox (udp_socket (udp s))))) (S (length (queue (tm_server s)))) now s with
     | (Ok (Some _), s') => (Ok tt, s')
     | (_, s') => (Panic, s')
     end) /\
  (forall now s, pus_turn (PE:=PE) tm_writer parse now s =
     (res_map (fun _ => tt) (test_thread (PE:=PE) tm_writer parse now s).1, (test_thread (PE:=PE) tm_writer parse now s).2)) /\
  exists s x numbered wait sent, dyn_new (E:=E) socket router events id = Ok s /\
    sys_run (PE:=PE) tm_writer parse std zc (sched ++ concat laps) (mkSys s AtUdp TestIdle) = (Ok tt, x) /\
    answered tm_bytes zc (created PUS_ROUTING_SERVICE) (created PUS_TEST_SERVICE) (TargetId.id PUS_TEST_SERVICE) socket
      ps numbered wait sent (sys x) /\
    ((14 * length ps <= length laps)%nat -> finished ps numbered wait (sys x)).
Proof.
  intros Hw Hstd Hserv Hzc Hin Hps Hsched Hlaps. split; [intros; apply tmtc_steps|]. split; [intros; apply pus_steps|].
  destruct (dyn_new_rep (E:=E) tm_bytes parse zc socket router events id Hin) as (s & Hnew & Hrep).
  destruct (sched_run tm_writer tm_bytes Hw parse std Hstd zc Hserv Hzc
    (created PUS_ROUTING_SERVICE) (created PUS_TEST_SERVICE) (TargetId.id PUS_TEST_SERVICE) socket ltac:(done) ltac:(done) sched ps _ _ Hrep Hsched Hps)
    as (f1 & x1 & Hr1 & Hrep1 & Hp1 & Hw1).
  destruct (laps_run tm_writer tm_bytes Hw parse std Hstd zc Hserv Hzc
    (created PUS_ROUTING_SERVICE) (created PUS_TEST_SERVICE) (TargetId.id PUS_TEST_SERVICE) socket ltac:(done) ltac:(done) laps _ _ Hrep1 Hlaps)
    as (f2 & x2 & Hr2 & Hrep2 & Hp2 & Hw2).
  change (work f1 <= 0 + 14 * length ps)%nat in Hw1. cbn in Hp1. rewrite Hp1 in Hp2. destruct (flow_answered (PE:=PE) tm_bytes parse zc _ _ _ _ _ _ Hrep2) as (sent & Hans). rewrite Hp2 in Hans.
  exists s, x2, (f_done f2), (f_wait f2), sent. split_and!; [done|by rewrite (sys_run_app _ _ _ _ _ _ _ x1)|done|].
  intros Hn. rewrite <- Hp2. eapply flow_finished; [exact Hrep2|]. lia.
Qed.

(** The bytes of a packet in the example: an APID, a service, the two numbers, a
    checksum and the message subtype. *)
Definition ping_bytes (tm : PusTm) : list Z := [tm_apid tm; tm_service tm; 0; 0; 0; tm_subservice tm].

Definition ping_zc : ZeroCopyWriter := mkWriter (fun tm => length tm =? 6)%nat (zc_apid ex_zc) (zc_service ex_zc)
  (zc_set_seq_count ex_zc) (zc_set_msg_count ex_zc) (zc_finish ex_zc).

Definition ping_tc (seq : Z) : PusTc := mkPusTc 0 0 seq 2 seq 17 1 0 [].

#[local] Instance ping_error : PusErrorOps unit := fun _ => tt.

Definition ping_parse (raw : list Z) : res unit PusTc := Ok (ping_tc (nth 0 raw 0)).
Definition ping_std (srv : Z) : option PusServiceId := if srv =? 17 then Some StdTest else None.
Definition ping_socket : UdpSocket := mkSocket [] [] (fun _ => false).
Definition ping_router : PusTcMpscRouter :=
  mkTcRouter mpsc_channel mpsc_channel mpsc_channel mpsc_channel mpsc_channel mpsc_channel.

(** Two clients ping; the second ping arrives and is accepted while the test service
    answers the first. *)
Definition interleaved : list Sched :=
  [Arrives [1] 5; Tmtc [0]; Tmtc [0]; Tmtc [0]; Pus [1]; Arrives [2] 6; Tmtc [2]; Tmtc [2]; Sink; Pus [3]; Sink; Tmtc [4]; Sink].

Definition ping_lap : list Sched := [Pus [5]; Sink; Tmtc [6]; Pus [7]; Sink; Tmtc [8]; Sink].

(** What the clients get after the schedule and [n] laps. *)
Definition ping_outbox (n : nat) : option (list (list Z * Z)) :=
  match dyn_new (E:=unit) ping_socket ping_router mpsc_channel 9 with
  | Ok s =>
      match sys_run (PE:=unit) (fun tm => bytes_writer (ping_bytes tm)) ping_parse ping_std ping_zc
              (interleaved ++ concat (replicate n ping_lap)) (mkSys s AtUdp TestIdle) with
      | (Ok _, x) => Some (outbox (udp_socket (udp (sys x))))
      | _ => None
      end
  | _ => None
  end.

(** The packets of the two pings are numbered in the order they reach the sink; they
    all go to the client that was heard last. *)
Example pings_interleaved :
  ping_outbox 5 =
    Some [([2; 1; 0; 0; 3; 1], 6); ([2; 1; 1; 1; 5; 3], 6); ([2; 1; 2; 2; 7; 1], 6); ([2; 17; 3; 0; 22; 2], 6);
          ([2; 1; 4; 3; 10; 7], 6); ([2; 1; 5; 4; 12; 3], 6); ([2; 17; 6; 1; 26; 2], 6); ([2; 1; 7; 5; 15; 7], 6)].
Proof. vm_compute. reflexivity. Qed.

Lemma ping_lap_is_lap : is_lap ping_lap.
Proof.
  split; [done|]. split; [cbn; lia|]. split; [exists [5]|]; apply list_elem_of_In; cbn; tauto.
Qed.

(** That schedule, and laps enough for both pings. *)
Lemma pings_answered_witness :
  exists s x numbered wait sent, dyn_new (E:=unit) ping_socket ping_router mpsc_channel 9 = Ok s /\
    sys_run (PE:=unit) (fun tm => bytes_writer (ping_bytes tm)) ping_parse ping_std ping_zc
      (interleaved ++ concat (replicate 28 ping_lap)) (mkSys s AtUdp TestIdle) = (Ok tt, x) /\
    answered ping_bytes ping_zc (created PUS_ROUTING_SERVICE) (created PUS_TEST_SERVICE) (TargetId.id PUS_TEST_SERVICE)
      ping_socket [mkPing [1] 5 (ping_tc 1); mkPing [2] 6 (ping_tc 2)] numbered wait sent (sys x) /\
    finished [mkPing [1] 5 (ping_tc 1); mkPing [2] 6 (ping_tc 2)] numbered wait (sys x).
Proof.
  destruct (pings_answered (PE:=unit) (E:=unit) (fun tm => bytes_writer (ping_bytes tm)) ping_bytes ping_parse ping_std ping_zc
    ping_socket ping_router mpsc_channel 9 [mkPing [1] 5 (ping_tc 1); mkPing [2] 6 (ping_tc 2)] interleaved (replicate 28 ping_lap)
    (fun tm => bytes_writer_writes _) eq_refl ex_zc_service (fun tm => eq_refl) eq_refl) as (_ & _ & s & x & nd & wt & st & Hn & Hr & Ha & Hf).
  - repeat constructor.
  - reflexivity.
  - apply Forall_replicate, ping_lap_is_lap.
  - exists s, x, nd, wt, st. split; [exact Hn|]. split; [exact Hr|]. split; [exact Ha|]. apply Hf. cbn. lia.
Defined.
